(* ===== verification/_CoqProject ===== *)
-Q . S2P
Prelude.v
Frames.v
Numeric.v
Schema.v
Ledger.v
LedgerProps.v
Float64.v
StockRequests.v
StockRequestsProps.v
Receiving.v
ReceivingProps.v
Transfers.v
Policy.v
Operations.v
OperationsProps.v
Workforce.v
WorkforceHandlers.v
WorkforceProps.v
RosterProps.v
ShiftHandlers.v
ShiftHandlersProps.v
Readings.v
Calibration.v
ShiftClose.v
Reconcile.v
ReconcileProps.v
StockSystem.v
Calendar.v
Recurrence.v
RecurrenceProps.v
Accounting.v
AccountingProps.v
AccountingReports.v
Revenue.v
ReadingHandlers.v
CloseHandlers.v
CloseProps.v
FreezeProps.v
VerdictProps.v
RevenueProps.v
RevenueJournal.v
Finance.v
Payables.v
FinanceHandlers.v
SettleProps.v
SettleRuns.v
CreditProps.v
KeyedLedger.v
Treasury.v
Expenses.v
Banking.v
ExpenseHandlers.v
BankHandlers.v
TreasuryProps.v
TreasuryRuns.v
TreasuryDocs.v
TreasurySamples.v
Procurement.v
SupplierInvoices.v
ProcurementHandlers.v
ProcurementProps.v
ProcurementRuns.v
ProcurementSamples.v
Secrets.v
Sessions.v
SessionStore.v
Identity.v
IdentityProps.v
IdentityRuns.v
IdentityLogin.v
Events.v
EventsProps.v
Notifications.v
FeedProps.v
FeedRuns.v
Pricing.v
Takings.v
TakingsProps.v
Fleet.v
FleetProps.v
