(* ===== verification/Prelude.v ===== *)
(** * FuelGrid OS: a verification development

    FuelGrid OS is the back end of a chain of fuel stations: a Go service over
    PostgreSQL.  This library models the parts that carry its rules - stock,
    money, authority, time and people - and proves what they promise.

    ** The program and the model

    A handler of the API (services/api/internal/server) authenticates the
    actor, asks the policy whether they may act at a station, and calls a
    repository (internal/...) whose methods are SQL statements, mostly inside
    one transaction that also writes an audit row.  Accordingly:

    - the state of a component is a [Record] of its tables, a table the list
      of its rows, a statement a function of this library ([select],
      [update_where], [join], [order_by], ...); the constraints of the
      migrations (unique indexes, foreign keys, checks, numeric widths) are
      guards of the statements that can violate them;
    - a method that runs in a transaction is a [Tx]: a function of the state
      that returns a result and the next state or an error, the state of a
      failed run being discarded ([run_tx]);
    - reads that a handler makes on the connection pool before its
      transaction are made on a separate argument [pool] wherever the
      difference matters;
    - an id is a number drawn from a supply in the state, [0] the nil id; a
      date is the number of its day; a decimal is an integer with its scale
      ([Numeric]), with the rounding and the overflow of [numeric(p, s)]; a
      binary float is the nearest double of its value where the code uses one.

    ** Files

    - [Prelude]: results, transactions, tables, the tactics [tx_steps] and
      [bool_solve], the hint databases [fuelgrid] and [fuelgrid_sum].
    - [Frames]: transactions that leave a part of the state alone, move it along
      a preorder, or cannot fail with an error; [Svc]: code that runs several
      transactions and commands of other stores in turn; tables with unique ids
      below the supply.
    - [Numeric]: PostgreSQL decimals and their text, Go's float formatting.
    - [Schema]: rows, constraints and errors of the stock tables.
    - [Ledger], [LedgerProps]: internal/inventory (repo, sales, costing,
      periods): openings, movements, reversals, shift draw-downs, weighted
      average cost.
    - [StockRequests], [StockRequestsProps]: inventory adjustments and
      opening-stock requests.
    - [Receiving], [ReceivingProps]: inventory deliveries and receipts against
      purchase orders.
    - [Transfers]: stock transfers of internal/enterprise.
    - [Policy]: internal/identity (actor, policy, one-time-code guard, rate
      limiter) and the request guards of policy_middleware.go.  The class
      [Loader] with its law [LoaderSpec] is what the guards ask of the
      permission store; the database loader is its instance.
    - [Operations], [OperationsProps]: internal/operations days, shifts,
      attendants and nozzle assignments, operating_days_handlers.go.
    - [Workforce], [WorkforceHandlers], [WorkforceProps], [RosterProps]:
      internal/workforce, workforce_handlers.go, pagination.go.
    - [ShiftHandlers], [ShiftHandlersProps]: shifts_handlers.go.
    - [Float64]: the doubles the readings and the draw-down pass through,
      internal/readings meter.go.
    - [Readings], [Calibration], [ReadingHandlers], [VerdictProps]:
      internal/readings, internal/calibration (interpolate, repo),
      meter_readings_handlers.go, dip_readings_handlers.go,
      reading_verification_handlers.go.  [Readings] declares [Site], the
      tables of a station's shift next to those of [Operations] and [Ledger].
    - [ShiftClose], [CloseHandlers], [CloseProps], [FreezeProps]:
      internal/operations close, close_recompute, receipts, exceptions and
      handover, shift_close_handlers.go, collection_receipts_handlers.go,
      shift_exceptions_handlers.go; [CloseProps] ends with a sample shift served
      from its first reading to its approval.
    - [Revenue], [RevenueProps], [RevenueJournal]: internal/revenue (repo,
      voids) and recognizeShiftRevenue of revenue_handlers.go.
    - [Pricing]: internal/pricing and pricing_handlers.go, over the price table
      recognition reads.
    - [Takings], [TakingsProps]: internal/revenue days.go,
      revenue_close_handlers.go and the job revenueComputeJob of
      internal/scheduler; internal/payments mpesa_repo.go and mpesa/,
      server_routes_payments.go.
    - [Reconcile], [ReconcileProps]: internal/reconciliation and
      reconciliation_handlers.go.
    - [StockSystem]: the stock components as one transition system.
    - [Calendar], [Recurrence], [RecurrenceProps]: internal/scheduledreports
      recurrence.go over a proleptic Gregorian calendar.
    - [Accounting], [AccountingProps], [AccountingReports]:
      internal/accounting.
    - [Finance], [Payables], [FinanceHandlers]: internal/receivables,
      internal/payables, customers_handlers.go, customer_invoices_handlers.go,
      payables_handlers.go, over the books of [Accounting]; [SettleProps] carries
      the invariant of invoices, payments and allocations through every request,
      [SettleRuns] and [CreditProps] the theorems and sample runs.
    - [Treasury], [Expenses], [Banking], [ExpenseHandlers], [BankHandlers]:
      internal/payments repo.go, internal/expenses, internal/banking,
      expenses_handlers.go, banking_handlers.go, payments_handlers.go.  The state
      [Till] adds their tables to those of [Readings] and [Finance].
      [KeyedLedger] is the balance of a system account; [TreasuryProps] declares
      the requests and the well-formedness of the tables, [TreasuryRuns] ties
      floats and deposits to their accounts, [TreasuryDocs] has the theorems on
      single documents, [TreasurySamples] the sample runs.

    - [Procurement], [SupplierInvoices], [ProcurementHandlers]:
      internal/procurement (suppliers, purchase orders, invoices) and
      procurement_handlers.go.  The state [Proc] adds their tables to those of the
      stock, where orders and deliveries are; the decimal the driver sends for a
      double is a parameter.  [ProcurementProps] declares the requests and the
      invariant, [ProcurementRuns] has the theorems, [ProcurementSamples] the
      sample runs.

    - [Secrets]: internal/identity/password and secretcrypto, with the base64 and
      the scanning they use; the classes [PasswordHasher] and [SecretBox] are what
      the service asks of them.  [Sessions], [SessionStore]:
      internal/identity/repo and session, the store of live sessions in Redis.
      [Identity]: service.go and auth_handlers.go,
      auth_middleware.go, me_handlers.go, server_routes_mfa.go, users_handlers.go,
      admin_handlers.go.  [IdentityProps] declares the requests and what each may
      change, [IdentityRuns] and [IdentityLogin] have the theorems and the
      sample runs.

    - [Events], [EventsProps]: internal/events and the sweep of
      scheduler/jobs_system.go; the publishers as a transition system.
      [Notifications]: internal/notifications,
      notifications_subscriber.go and the bus of main.go,
      server_routes_notifications.go, notification_preferences_handlers.go.
      [FeedProps], [FeedRuns] have the theorems and the sample runs.

    - [Fleet]: internal/fleet and the fleet_*_handlers.go files.  The state [Flt]
      adds their tables to those of [Finance], whose charge reads the holds through
      [fin_view].  [FleetProps] declares the requests and what each may change, and
      has the theorems and the sample runs.

    ** What the theorems show

    - Stock: a posting moves the book by its litres and stores the running
      balance; a reversal nets its original to zero; over every sequence of
      committed requests whose openings have at most three decimals the ledger
      is append-only, its snapshots are the running sums, adjustments keep the
      separation of duties and receipts the ordered quantities; no request
      touches another tenant's rows; sealing a
      reconciliation leaves the book at the closing dip, and a sealed one is
      frozen; transfers conserve litres; the float step of the draw-down is
      exact over the column's range.
    - The shift: a reading is checked against its meter's precision exactly
      over a stated range; a verdict on a closing is final and not the
      recorder's own; a close freezes one line per nozzle, litres and value
      exact; an approval is granted only on a settled shift, draws every tank
      down by what its nozzles sold and recognises each sale once, split into
      net and tax; the day summary nets the approved voids; the shift's
      journal entry balances and is posted once, whatever is posted or reversed
      in between.
    - Money: in every reachable state of the books the balance sheet balances;
      posting and reversing have exactly their stated effect and are refused
      where they must be; the figures of a range of locked periods never change
      (the names of its accounts may).
    - Customers and suppliers: over every sequence of requests an invoice is the
      sum of its lines and its balance that amount less the payments that stand;
      reversing a payment restores the invoices row for row (both for amounts in
      cents); a charge passes the
      limit only when overridden and a hold never; the ledger stores running
      balances; the aged view adds up to its summary; supplier invoices are
      imported once.
    - Credit and fleet: over every sequence of requests a credit line within its
      limit is not oversold by charges and fuel holds together unless overridden; an
      authorization was granted on every rule and limit that applies; an
      authorization and the sale it consumes belong to each other alone; a customer
      has one agreed price in force; a statement adds up and opens where the last one
      closed; a second scan for alerts finds nothing new.
    - Treasury: over every sequence of requests the tables are well-formed, the
      petty-cash floats and the deposits in transit differ from their accounts by
      exactly what requests outside the treasury posted there, an expense has one journal entry exactly when it is posted; a count
      of cash posts what was counted, expected and short, and always balances; a
      tender repeated with its key changes nothing.
    - Prices: an accepted price changes the price in force exactly from its time
      on and where no later entry stands; below the landed cost only when overridden.
    - Takings: a revenue day is the roll-up of its sales, net of voids, and its
      tenders; over every sequence of requests and callbacks, in any order and
      number, a locked day and a settled collection are final, and a matched
      collection is paid and of the day's station; the amount pushed is the recorded
      one rounded down, the phone its one normal form.
    - Procurement: over every sequence of requests an order that has left the
      draft keeps its terms, orders carry the stamps of their steps and what was
      received is the sum of the deliveries; an invoice matches exactly when every
      line is within tolerance; an approved one was approved by someone else, with
      every difference resolved, and is what the payables import.
    - Authority: a guarded route runs its handler exactly for the actors the
      role tables grant; a list filter never widens a view.
    - Accounts: after a password change or reset no session that existed is ever
      accepted again, whatever Redis lost and whatever was under way; a login is
      granted only with its factors, each spent by it; an account at the threshold
      of failures is locked; the store of sessions is a map from tokens; a hash
      verifies its own password.
    - Events: over every interleaving of publishers and crashes an event is marked
      published only after its handlers accepted it, parked only after its last
      attempt, and never lost; a publisher empties the outbox; the notifications of
      a published event are in the feed, each once.
    - Time: a schedule's next run is the first one after the instant asked,
      and distinct runs have distinct keys.
    - People and days: the day and shift discipline, the fairness of the
      rotation, the agreement of its readings, the rostered opening of a
      shift.
    - Where the code does not do what its comments say, a theorem states what
      it does: locking a day can race a reopening; reconciliation leaves out
      transfers; the trial balance ignores its date; a draw-down is not
      backfilled; a shift can close with negative litres; a closing corrected
      after the cash was paid in leaves the expected cash behind; a valid large
      reading is refused; a cron walk can miss 29 February; ensuring teams renames
      them; a lent employee's duty and schedule differ; half a
      cent can be paid without reducing the balance; overlapping charges can pass
      the credit limit; a supplier's payment can settle another's payable; a bank
      fee can be posted twice; a spend finer than a cent, or an expense paid from
      petty cash, parts the floats from their account; a supplier with open orders
      is deactivated by an update; an invoice matches whatever its amount, and one
      delivery matches two invoices; a suspended user's sessions stay valid; a
      rehash can restore an old password, a refresh a session that was ended; a
      deleted customer and another customer's card are granted fuel, an expired hold
      is fulfilled and still blocks charges; a push collects whole shillings and
      records the fraction too, and a callback that comes first is lost; the
      operating day of one station makes a revenue day of another.

    ** Bounds

    The weekly and monthly searches of a next run have fuel 8 and 14, the
    number of days and months the code tries; the cron walk has as fuel the
    minutes to its limit, a year and a day away; both are shown to be enough.
    The text of a decimal is parsed with fuel its length.  The rotation is
    stated for dates within 292 years of the anchor, what a 64-bit duration
    holds.

    ** Not modelled

    The rest of internal/ (incidents, risk, setup, enterprise, the catalogue);
    read-only listings and report aggregates; the cryptographic primitives, which are
    parameters; mail, files and metrics; the web front end.  Isolation between concurrent transactions is
    modelled only as far as the [pool] argument goes: a transaction itself
    runs on one state; the publishers of the outbox are the exception, with a step
    for each of their statements. *)

From stdpp Require Import base list strings gmap.
From Stdlib Require Import ZArith Lia.

Global Open Scope Z_scope.

(** ** Identifiers *)

(** A [uuid.UUID]; [0] is [uuid.Nil].  [gen_random_uuid()] draws from a
    supply kept in the database state, so a drawn id is new. *)
Abbreviation uuid := N.
Definition uuid_nil : uuid := 0%N.

(** ** Results and transactions *)

(** A Go call that returns [(value, error)]. *)
Inductive result (E A : Type) : Type :=
| Ok (a : A)
| Err (e : E).
Arguments Ok {E A} a.
Arguments Err {E A} e.

Definition rbind {E A B} (r : result E A) (k : A -> result E B) : result E B :=
  match r with
  | Ok a => k a
  | Err e => Err e
  end.

(** Code that runs inside a database transaction: it reads and writes the
    state [S] and may fail.  The state of a failed run is not kept, which
    is the rollback every caller performs on error. *)
Definition Tx (S E A : Type) : Type := S -> result E (A * S).

Definition tret {S E A} (a : A) : Tx S E A := fun s => Ok (a, s).
Definition tfail {S E A} (e : E) : Tx S E A := fun _ => Err e.
Definition tbind {S E A B} (c : Tx S E A) (k : A -> Tx S E B) : Tx S E B :=
  fun s => match c s with
           | Ok (a, s') => k a s'
           | Err e => Err e
           end.
Definition tget {S E} : Tx S E S := fun s => Ok (s, s).
Definition tput {S E} (s : S) : Tx S E unit := fun _ => Ok (tt, s).
Definition tguard {S E} (b : bool) (e : E) : Tx S E unit :=
  fun s => if b then Ok (tt, s) else Err e.
Definition tlift {S E A} (r : result E A) : Tx S E A :=
  fun s => match r with Ok a => Ok (a, s) | Err e => Err e end.
(** Go's [if errors.Is(err, ...) { return ..., err' }]. *)
Definition tmaperr {S E A} (f : E -> E) (c : Tx S E A) : Tx S E A :=
  fun s => match c s with Ok r => Ok r | Err e => Err (f e) end.

(** A call whose error the caller turns into its own. *)
Definition tconv {S E F A} (f : E -> F) (c : Tx S E A) : Tx S F A :=
  fun s => match c s with Ok r => Ok r | Err e => Err (f e) end.

Definition of_option {E A} (e : E) (o : option A) : result E A :=
  match o with Some a => Ok a | None => Err e end.

(** Commit on success, roll back on error. *)
Definition run_tx {S E A} (c : Tx S E A) (s : S) : result E A * S :=
  match c s with
  | Ok (a, s') => (Ok a, s')
  | Err e => (Err e, s)
  end.

Declare Scope tx_scope.
Delimit Scope tx_scope with tx.
Notation "'let!' x ':=' c 'in' k" := (tbind c (fun x => k))
  (at level 10, x pattern, c at level 100, k at level 200) : tx_scope.
Notation "c ';;!' k" := (tbind c (fun _ => k))
  (at level 100, k at level 200, right associativity) : tx_scope.

Declare Scope res_scope.
Delimit Scope res_scope with res.
Notation "'let?' x ':=' c 'in' k" := (rbind c (fun x => k))
  (at level 10, x pattern, c at level 100, k at level 200) : res_scope.

(** ** Tables *)

(** A table is the list of its rows in insertion order; a predicate is the
    [WHERE] clause. *)
Definition select {R} (p : R -> bool) (t : list R) : list R := List.filter p t.
Definition update_where {R} (p : R -> bool) (f : R -> R) (t : list R) : list R :=
  List.map (fun r => if p r then f r else r) t.
Definition exists_where {R} (p : R -> bool) (t : list R) : bool := List.existsb p t.
Definition first_where {R} (p : R -> bool) (t : list R) : option R := List.find p t.
Definition sum_by {R} (f : R -> Z) (t : list R) : Z :=
  List.fold_right (fun r acc => f r + acc) 0 t.
Definition max_by {R} (f : R -> Z) (d : Z) (t : list R) : Z :=
  match t with
  | [] => d
  | r :: t' => List.fold_left (fun acc x => Z.max acc (f x)) t' (f r)
  end.
(** [ORDER BY key] (stable), [LIMIT l OFFSET o]. *)
Fixpoint insert_by {R} (le : R -> R -> bool) (x : R) (t : list R) : list R :=
  match t with
  | [] => [x]
  | y :: t' => if le x y then x :: y :: t' else y :: insert_by le x t'
  end.
Definition order_by {R} (le : R -> R -> bool) (t : list R) : list R :=
  List.fold_right (insert_by le) [] t.
Definition limit_offset {R} (l o : nat) (t : list R) : list R := take l (drop o t).

(** [ORDER BY created_at DESC], [ORDER BY name] under a collation, and each with the
    id as a tiebreaker. *)
Definition newest {R} (created : R -> Z) (a b : R) : bool := (created b <=? created a)%Z.
Definition newest_id {R} (created : R -> Z) (id : R -> uuid) (a b : R) : bool :=
  (created b <? created a)%Z || ((created b =? created a)%Z && (id a <=? id b)%N).
Definition named_le {R} (collate : string -> string -> bool) (name : R -> string) (a b : R) : bool :=
  collate (name a) (name b).
Definition named_id_le {R} (collate : string -> string -> bool) (name : R -> string) (id : R -> uuid) (a b : R) : bool :=
  if bool_decide (name a = name b) then (id a <=? id b)%N else collate (name a) (name b).

(** [COALESCE(x, y)] of nullable columns. *)
Definition opt_or {A} (x y : option A) : option A := match x with Some _ => x | None => y end.

(** A composite foreign key onto the [(tenant_id, id)] pairs of a table, and
    the check of a nullable one. *)
Definition fk_pair (l : list (uuid * uuid)) (tenant id : uuid) : bool :=
  exists_where (fun p => bool_decide (p = (tenant, id))) l.
Definition fk_opt (f : uuid -> bool) (o : option uuid) : bool :=
  match o with Some i => f i | None => true end.

(** [JOIN] and [LEFT JOIN ... ON p]. *)
Definition join {A B} (p : A -> B -> bool) (xs : list A) (ys : list B) : list (A * B) :=
  flat_map (fun x => (fun y => (x, y)) <$> select (p x) ys) xs.
Definition left_join {A B} (p : A -> B -> bool) (xs : list A) (ys : list B)
  : list (A * option B) :=
  flat_map (fun x => match select (p x) ys with
                     | [] => [(x, None)]
                     | l => (fun y => (x, Some y)) <$> l
                     end) xs.

(** ** Automation *)

Create HintDb fuelgrid.
Create Rewrite HintDb fuelgrid_sum.

Ltac tx_unfold :=
  unfold tbind, tret, tfail, tget, tput, tguard, tlift, tmaperr, tconv, of_option, rbind in *;
  cbn beta iota zeta in *.

(** Splits a hypothesis about a run of a transaction into its successful
    steps. *)
Ltac tx_inv H :=
  repeat first
    [ progress simplify_eq/=
    | match type of H with
      | context [match ?x with _ => _ end] =>
          lazymatch x with
          | context [match _ with _ => _ end] => fail
          | _ => let E := fresh "E" in destruct x eqn:E; cbn in H; try discriminate H
          end
      end ].

(** Inversion of one step of a successful run. *)
Section steps.
Context {S E A B : Type}.
Implicit Types (s : S) (b : B).

Lemma tbind_ok (c : Tx S E A) (k : A -> Tx S E B) s b s' :
  tbind c k s = Ok (b, s') -> exists a s1, c s = Ok (a, s1) /\ k a s1 = Ok (b, s').
Proof. unfold tbind. destruct (c s) as [[a s1]|]; [eauto|done]. Qed.

Lemma tbind_get_ok (k : S -> Tx S E B) s b s' :
  tbind tget k s = Ok (b, s') -> k s s = Ok (b, s').
Proof. done. Qed.

Lemma tbind_lift_ok (r : result E A) (k : A -> Tx S E B) s b s' :
  tbind (tlift r) k s = Ok (b, s') -> exists a, r = Ok a /\ k a s = Ok (b, s').
Proof. unfold tbind, tlift. destruct r; [eauto|done]. Qed.

Lemma tbind_guard_ok c e (k : unit -> Tx S E B) s b s' :
  tbind (tguard c e) k s = Ok (b, s') -> c = true /\ k tt s = Ok (b, s').
Proof. unfold tbind, tguard. by destruct c. Qed.

Lemma tbind_put_ok s0 (k : unit -> Tx S E B) s b s' :
  tbind (tput s0) k s = Ok (b, s') -> k tt s0 = Ok (b, s').
Proof. done. Qed.

Lemma tret_ok (a : A) s a' s' : @tret S E A a s = Ok (a', s') -> a' = a /\ s' = s.
Proof. by intros [= <- <-]. Qed.

Lemma tbind_conv_ok {F} (f : F -> E) (c : Tx S F A) (k : A -> Tx S E B) s b s' :
  tbind (tconv f c) k s = Ok (b, s') -> exists a s1, c s = Ok (a, s1) /\ k a s1 = Ok (b, s').
Proof. unfold tbind, tconv. destruct (c s) as [[a s1]|]; [eauto|done]. Qed.

Lemma of_option_ok (e : E) (o : option A) a : of_option e o = Ok a -> o = Some a.
Proof. unfold of_option. destruct o; [by intros [= ->]|done]. Qed.
End steps.

Ltac tx_step H :=
  let E := fresh "E" in
  lazymatch type of H with
  | tbind tget _ _ = _ => apply tbind_get_ok in H
  | tbind (tlift (of_option _ _)) _ _ = _ =>
      apply tbind_lift_ok in H as (? & E%of_option_ok & H)
  | tbind (tlift _) _ _ = _ => apply tbind_lift_ok in H as (? & E & H)
  | tbind (tguard _ _) _ _ = _ => apply tbind_guard_ok in H as (E & H)
  | tbind (tput _) _ _ = _ => apply tbind_put_ok in H
  | tbind (tconv _ _) _ _ = _ => apply tbind_conv_ok in H as (? & ? & E & H)
  | tbind _ _ _ = _ => apply tbind_ok in H as (? & ? & E & H)
  | tret _ _ = _ => apply tret_ok in H as (? & ?)
  | tfail _ _ = _ => discriminate H
  | (match ?x with _ => _ end) _ = _ => destruct x eqn:E
  end; cbn beta iota zeta in *.
Ltac tx_steps H := repeat tx_step H.

Ltac bool_solve :=
  repeat match goal with
  | H : _ && _ = true |- _ => apply andb_true_iff in H; destruct H
  | H : negb _ = true |- _ => apply negb_true_iff in H
  | H : negb _ = false |- _ => apply negb_false_iff in H
  | H : bool_decide _ = true |- _ => apply bool_decide_eq_true in H
  | H : bool_decide _ = false |- _ => apply bool_decide_eq_false in H
  end.

(** ** Lemmas on tables *)

Section tables.
Context {R : Type}.
Implicit Types (t : list R) (p q : R -> bool) (f : R -> Z) (g : R -> R).

Lemma sum_by_nil f : sum_by f [] = 0.
Proof. reflexivity. Qed.

Lemma sum_by_cons f r t : sum_by f (r :: t) = f r + sum_by f t.
Proof. reflexivity. Qed.

Lemma sum_by_app f t1 t2 : sum_by f (t1 ++ t2) = sum_by f t1 + sum_by f t2.
Proof. induction t1 as [|r t1 IH]; simpl; lia. Qed.

Lemma sum_by_ext f f' t :
  (forall r, In r t -> f r = f' r) -> sum_by f t = sum_by f' t.
Proof.
  induction t as [|r t IH]; simpl; intros H; [done|].
  rewrite (H r (or_introl eq_refl)), IH; [done|]. intros; apply H; auto.
Qed.

Lemma sum_by_add f f' t : sum_by (fun r => f r + f' r) t = sum_by f t + sum_by f' t.
Proof. induction t; simpl; lia. Qed.

Lemma sum_by_opp f t : sum_by (fun r => - f r) t = - sum_by f t.
Proof. induction t; simpl; lia. Qed.

Lemma sum_by_sub f f' t : sum_by (fun r => f r - f' r) t = sum_by f t - sum_by f' t.
Proof. induction t; simpl; lia. Qed.

Lemma sum_by_zero f t : (forall r, In r t -> f r = 0) -> sum_by f t = 0.
Proof.
  induction t as [|r t IH]; simpl; intros H; [done|].
  rewrite (H r (or_introl eq_refl)), IH; [done|]. intros; apply H; auto.
Qed.

Lemma sum_by_nonneg f t : (forall r, In r t -> 0 <= f r) -> 0 <= sum_by f t.
Proof.
  induction t as [|r t IH]; simpl; intros H; [lia|].
  pose proof (H r (or_introl eq_refl)).
  pose proof (IH (fun r' Hr => H r' (or_intror Hr))). lia.
Qed.

(** A filtered sum is the sum of the filtered column. *)
Lemma sum_by_select f p t :
  sum_by f (select p t) = sum_by (fun r => if p r then f r else 0) t.
Proof. induction t as [|r t IH]; simpl; [done|]. destruct (p r); simpl; lia. Qed.

Lemma select_app p t1 t2 : select p (t1 ++ t2) = select p t1 ++ select p t2.
Proof. apply List.filter_app. Qed.

Lemma select_ext p q t : (forall r, In r t -> p r = q r) -> select p t = select q t.
Proof. apply List.filter_ext_in. Qed.

Lemma select_none p t : (forall r, In r t -> p r = false) -> select p t = [].
Proof.
  induction t as [|r t IH]; simpl; intros H; [done|].
  rewrite (H r (or_introl eq_refl)). apply IH; auto.
Qed.

Lemma select_all p t : (forall r, In r t -> p r = true) -> select p t = t.
Proof.
  induction t as [|r t IH]; simpl; intros H; [done|].
  rewrite (H r (or_introl eq_refl)). f_equal. apply IH; auto.
Qed.

Lemma in_select p t r : In r (select p t) <-> In r t /\ p r = true.
Proof. apply List.filter_In. Qed.

Lemma select_select p q t : select p (select q t) = select (fun r => q r && p r) t.
Proof.
  induction t as [|r t IH]; simpl; [done|].
  destruct (q r); simpl; [destruct (p r); simpl; congruence | done].
Qed.

(** An update that keeps a column and a predicate keeps the filtered sum. *)
Lemma sum_by_update f p g t :
  (forall r, p r = true -> f (g r) = f r) ->
  sum_by f (update_where p g t) = sum_by f t.
Proof.
  intros H. induction t as [|r t IH]; simpl; [done|].
  destruct (p r) eqn:Hp; [rewrite (H r Hp)|]; lia.
Qed.

Lemma select_update q p g t :
  (forall r, p r = true -> q (g r) = q r) ->
  select q (update_where p g t) = update_where p g (select q t).
Proof.
  intros H. induction t as [|r t IH]; simpl; [done|].
  destruct (p r) eqn:Hp; simpl.
  - rewrite (H r Hp). destruct (q r); simpl; [rewrite Hp|]; congruence.
  - destruct (q r); simpl; [rewrite Hp|]; congruence.
Qed.

Lemma update_where_none p g t :
  (forall r, In r t -> p r = false) -> update_where p g t = t.
Proof.
  induction t as [|r t IH]; simpl; intros H; [done|].
  rewrite (H r (or_introl eq_refl)), IH; auto.
Qed.

Lemma length_update_where p g t : length (update_where p g t) = length t.
Proof. apply List.length_map. Qed.

Lemma in_update_where p g t r :
  In r (update_where p g t) <->
  exists r0, In r0 t /\ r = (if p r0 then g r0 else r0).
Proof.
  unfold update_where. rewrite List.in_map_iff.
  split; intros (x & H1 & H2); exists x; auto.
Qed.

Lemma map_update_where {B} (h : R -> B) p g t :
  (forall r, p r = true -> h (g r) = h r) ->
  List.map h (update_where p g t) = List.map h t.
Proof.
  intros H. induction t as [|r t IH]; simpl; [done|].
  rewrite IH. destruct (p r) eqn:Hp; [rewrite H|]; auto.
Qed.

Lemma first_where_some p t r :
  first_where p t = Some r -> In r t /\ p r = true.
Proof. apply List.find_some. Qed.

Lemma first_where_none p t r :
  first_where p t = None -> In r t -> p r = false.
Proof. intros H Hr. exact (List.find_none _ _ H _ Hr). Qed.

(** A narrower guard that the first row passes finds the same row. *)
Lemma first_where_refine p q t r :
  first_where p t = Some r -> q r = true -> (forall x, q x = true -> p x = true) ->
  first_where q t = Some r.
Proof.
  intros E Hq Himp. revert E. induction t as [|x t IH]; simpl; [done|].
  destruct (p x) eqn:Ex.
  - intros [= ->]. by rewrite Hq.
  - intros E. destruct (q x) eqn:Eq; [by rewrite (Himp x Eq) in Ex|auto].
Qed.

(** Reading back the row that a guarded update changed. *)
Lemma first_where_last q l x :
  (forall y, In y l -> q y = false) -> q x = true -> first_where q (l ++ [x]) = Some x.
Proof.
  intros Hl Hx. induction l as [|y l IH]; simpl; [by rewrite Hx|]. rewrite (Hl y) by (by left).
  apply IH. intros z Hz. apply Hl. by right.
Qed.

Lemma first_where_update p q g t r :
  first_where p t = Some r -> q r = true -> (forall x, q x = true -> p x = true) ->
  p (g r) = true -> first_where p (update_where q g t) = Some (g r).
Proof.
  intros E Hq Himp Hp. revert E. induction t as [|x t IH]; simpl; [done|].
  destruct (p x) eqn:Ex.
  - intros [= ->]. by rewrite Hq, Hp.
  - intros E. destruct (q x) eqn:Eq; [by rewrite (Himp x Eq) in Ex|]. rewrite Ex. auto.
Qed.

Lemma exists_where_true p t :
  exists_where p t = true <-> exists r, In r t /\ p r = true.
Proof. apply List.existsb_exists. Qed.

Lemma exists_where_false p t :
  exists_where p t = false <-> forall r, In r t -> p r = false.
Proof.
  unfold exists_where. induction t as [|r t IH]; simpl; [tauto|].
  rewrite orb_false_iff, IH. split; [intros [H1 H2] x [->|Hx]; auto | auto].
Qed.

Lemma insert_by_perm le x t : insert_by le x t ≡ₚ x :: t.
Proof.
  induction t as [|y t IH]; simpl; [done|].
  destruct (le x y); [done|]. rewrite IH. apply Permutation_swap.
Qed.

Lemma order_by_perm le t : order_by le t ≡ₚ t.
Proof. induction t as [|x t IH]; simpl; [done|]. by rewrite insert_by_perm, IH. Qed.

(** The first row of an ordered listing, and how one more row changes it. *)
Lemma head_insert_by le x t :
  head (insert_by le x t) = Some (match head t with Some y => if le x y then x else y | None => x end).
Proof. destruct t as [|y t]; simpl; [done|]. by destruct (le x y). Qed.
Lemma head_order_snoc le t x :
  (forall a b, le a b = false -> le b a = true) -> (forall a b c, le a b = true -> le b c = true -> le a c = true) ->
  head (order_by le (t ++ [x])) =
  Some (match head (order_by le t) with Some y => if le y x then y else x | None => x end).
Proof.
  intros Htot Htr. induction t as [|y t IH]; simpl; [done|].
  rewrite !head_insert_by, IH. f_equal. destruct (head (order_by le t)) as [z|]; [|done].
  destruct (le z x) eqn:Ezx, (le y z) eqn:Eyz; rewrite ?Ezx, ?Eyz; try done.
  - by rewrite (Htr _ _ _ Eyz Ezx).
  - destruct (le y x) eqn:Eyx; [|done]. by rewrite (Htr _ _ _ Eyx (Htot _ _ Ezx)) in Eyz.
Qed.
Lemma head_order_least le t x :
  (forall a b, le a b = false -> le b a = true) -> (forall a b c, le a b = true -> le b c = true -> le a c = true) ->
  head (order_by le t) = Some x -> In x t /\ forall y, In y t -> le x y = true.
Proof.
  intros Htot Htr. assert (Hrefl : forall a, le a a = true).
  { intros a. destruct (le a a) eqn:E; [done|]. by rewrite (Htot _ _ E) in E. }
  revert x. induction t as [|y t IH]; intros x; simpl; [done|].
  rewrite head_insert_by. intros [= <-]. destruct (head (order_by le t)) as [z|] eqn:Ez.
  - destruct (IH z eq_refl) as [Hz Hl]. destruct (le y z) eqn:Eyz.
    + split; [by left|]. intros w [<-|Hw]; [done|]. by apply (Htr _ z), Hl.
    + split; [by right|]. intros w [<-|Hw]; [by apply Htot|by apply Hl].
  - split; [by left|]. intros w [<-|Hw]; [done|].
    destruct (order_by le t) eqn:Eo; [|done]. pose proof (order_by_perm le t) as Hp. rewrite Eo in Hp.
    apply Permutation_nil in Hp. by rewrite Hp in Hw.
Qed.

(** A sum and a filter do not look at the order of the rows. *)
#[export] Instance sum_by_proper f : Proper ((≡ₚ) ==> eq) (sum_by f).
Proof. intros l l'. induction 1; simpl; lia. Qed.
#[export] Instance select_proper p : Proper ((≡ₚ) ==> (≡ₚ)) (select p).
Proof.
  intros l l'. induction 1 as [|x l l' _ IH|x y l|l1 l2 l3 _ IH1 _ IH2]; simpl; [done| | |by etrans].
  - by destruct (p x); rewrite IH.
  - destruct (p x), (p y); try done. apply Permutation_swap.
Qed.

Lemma sum_by_pos f t : t <> [] -> (forall r, In r t -> 0 < f r) -> 0 < sum_by f t.
Proof.
  destruct t as [|x t]; [done|]. intros _ H. rewrite sum_by_cons.
  pose proof (sum_by_nonneg f t ltac:(intros y Hy; specialize (H y (or_intror Hy)); lia)).
  specialize (H x (or_introl eq_refl)). lia.
Qed.
Lemma select_cons p r t : select p (r :: t) = if p r then r :: select p t else select p t.
Proof. done. Qed.

(** Consecutive pages of one size tile the listing. *)
Lemma limit_offset_app l o t :
  limit_offset l o t ++ drop (o + l) t = drop o t.
Proof. unfold limit_offset. rewrite <- drop_drop. apply take_drop. Qed.

Lemma max_by_ge f d t r : In r t -> f r <= max_by f d t.
Proof.
  assert (Hmono : forall (l : list R) a, a <= List.fold_left (fun acc x => Z.max acc (f x)) l a).
  { induction l as [|y l IH]; simpl; intros a; [lia|]. specialize (IH (Z.max a (f y))). lia. }
  assert (Hin : forall (l : list R) a x, In x l ->
    f x <= List.fold_left (fun acc x => Z.max acc (f x)) l a).
  { induction l as [|y l IH]; simpl; intros a x; [done|].
    intros [->|Hx]; [specialize (Hmono l (Z.max a (f x))); lia | by apply IH]. }
  destruct t as [|x t]; simpl; [done|].
  intros [->|Hr]; [apply Hmono | by apply Hin].
Qed.

Lemma max_by_in f d t : t <> [] -> exists r, In r t /\ max_by f d t = f r.
Proof.
  assert (H : forall (l : list R) a, List.fold_left (fun acc x => Z.max acc (f x)) l a = a
    \/ exists x, In x l /\ List.fold_left (fun acc x => Z.max acc (f x)) l a = f x).
  { induction l as [|y l IH]; simpl; intros a; [auto|].
    destruct (IH (Z.max a (f y))) as [->|(x & Hx & ->)]; [|eauto].
    destruct (Z.max_spec a (f y)) as [[_ ->]|[_ ->]]; eauto. }
  destruct t as [|x t]; simpl; [done|]. intros _.
  destruct (H t (f x)) as [->|(y & Hy & ->)]; eauto.
Qed.
End tables.

Lemma sum_by_fmap {R Q} (f : Q -> Z) (g : R -> Q) (l : list R) : sum_by f (g <$> l) = sum_by (fun x => f (g x)) l.
Proof. induction l as [|x l IH]; [done|]. rewrite fmap_cons. simpl. by rewrite IH. Qed.

(** ** Tables with a key *)

Lemma NoDup_snoc_fresh {A} (key : A -> uuid) (l : list A) (x : A) (n : uuid) :
  NoDup (key <$> l) -> (forall y, In y l -> (key y < n)%N) -> key x = n -> NoDup (key <$> (l ++ [x])).
Proof.
  intros Hl Hlt Hx. rewrite fmap_app. apply NoDup_app. split; [done|]. split.
  - intros k (y & -> & Hy%list_elem_of_In)%list_elem_of_fmap Hin. apply list_elem_of_singleton in Hin.
    specialize (Hlt y Hy). lia.
  - apply NoDup_singleton.
Qed.

Lemma NoDup_select {A K} (key : A -> K) p l : NoDup (key <$> l) -> NoDup (key <$> select p l).
Proof.
  induction l as [|c l IH]; intros H; [done|]. apply NoDup_cons in H as [Hc Hl]. rewrite select_cons. destruct (p c); [|auto].
  apply NoDup_cons. split; [|auto]. intros (x & Ex & Hx)%list_elem_of_fmap. apply Hc.
  apply list_elem_of_In, in_select in Hx as [Hx _]. rewrite Ex. by apply list_elem_of_fmap_2, list_elem_of_In.
Qed.

Lemma select_unique {R} (key : R -> uuid) (p : R -> bool) k (t : list R) :
  NoDup (key <$> t) -> (forall x, p x = true -> key x = k) ->
  select p t = match first_where p t with Some x => [x] | None => [] end.
Proof.
  intros Hn Hk. induction t as [|x t IH]; [done|].
  apply NoDup_cons in Hn as [Hx Hn]. simpl. destruct (p x) eqn:E; [|by apply IH].
  f_equal. apply select_none. intros y Hy. destruct (p y) eqn:Ey; [|done].
  destruct Hx. rewrite (Hk x E), <- (Hk y Ey). by apply list_elem_of_fmap_2, list_elem_of_In.
Qed.

Lemma first_unique {R} (key : R -> uuid) (p : R -> bool) k (t : list R) x :
  NoDup (key <$> t) -> (forall y, p y = true -> key y = k) -> In x t -> p x = true ->
  first_where p t = Some x.
Proof.
  intros Hn Hk Hx Hp. assert (Hin : In x (select p t)) by by apply in_select.
  rewrite (select_unique key p k t Hn Hk) in Hin.
  destruct (first_where p t); [by destruct Hin as [->|[]]|done].
Qed.

(** The only row a filter keeps is the first one it finds. *)
Lemma first_only {R} (p : R -> bool) (t : list R) x :
  In x t -> p x = true -> (forall y, In y t -> p y = true -> y = x) -> first_where p t = Some x.
Proof.
  intros Hx Hp Hu. destruct (first_where p t) as [y|] eqn:E.
  - apply first_where_some in E as [Hy Hpy]. by rewrite (Hu y Hy Hpy).
  - by rewrite (first_where_none _ _ _ E Hx) in Hp.
Qed.

Lemma in_join {A B} (p : A -> B -> bool) (xs : list A) (ys : list B) x y :
  In (x, y) (join p xs ys) <-> In x xs /\ In y ys /\ p x y = true.
Proof.
  unfold join. rewrite in_flat_map. split.
  - intros (z & Hz & Hin%list_elem_of_In). apply list_elem_of_fmap in Hin as (w & [= -> ->] & Hw%list_elem_of_In).
    by apply in_select in Hw as [? ?].
  - intros (Hx & Hy & Hp). exists x. split; [done|]. apply list_elem_of_In, list_elem_of_fmap_2, list_elem_of_In.
    by apply in_select.
Qed.

#[export] Hint Rewrite @sum_by_nil @sum_by_cons @sum_by_app @select_app : fuelgrid_sum.

(** A run that fails leaves the state as it was. *)
Lemma run_tx_rollback {S E A} (c : Tx S E A) (s : S) (e : E) :
  (run_tx c s).1 = Err e -> (run_tx c s).2 = s.
Proof. unfold run_tx. destruct (c s) as [[a s']|e']; simpl; [discriminate|done]. Qed.

(** [UPDATE ... WHERE p SET f RETURNING row]: the row returned and the new
    table. *)
Definition update_returning {R} (p : R -> bool) (f : R -> R) (t : list R) : option R * list R :=
  (f <$> first_where p t, update_where p f t).
