(* ===== verification/Frames.v ===== *)
(** * Frames: what a transaction leaves alone

    [obeys R c]: every successful run of [c] moves the state along the preorder
    [R]; [keeps f c]: every successful run of [c] leaves the part [f] of the state as
    it was; and [never e c]: no run of [c] fails with [e]. *)

From stdpp Require Import base list.
From S2P Require Import Prelude.
From Stdlib Require Import ZArith Lia.

Local Open Scope tx_scope.

Definition keeps {S E A B} (f : S -> B) (c : Tx S E A) : Prop :=
  forall s x s', c s = Ok (x, s') -> f s' = f s.

Section keeps.
Context {S B : Type} (f : S -> B).

Lemma keeps_bind {E A C} (c : Tx S E A) (k : A -> Tx S E C) :
  keeps f c -> (forall a, keeps f (k a)) -> keeps f (tbind c k).
Proof.
  intros Hc Hk s x s' H. apply tbind_ok in H as (a & s1 & H1 & H2).
  by rewrite (Hk a _ _ _ H2), (Hc _ _ _ H1).
Qed.
Lemma keeps_ret {E A} (a : A) : keeps (E := E) f (tret a).
Proof. by intros s x s' [= _ <-]. Qed.
Lemma keeps_lift {E A} (r : result E A) : keeps f (tlift r).
Proof. intros s x s' H. unfold tlift in H. by destruct r; simplify_eq. Qed.
Lemma keeps_guard {E} c (e : E) : keeps f (tguard c e).
Proof. intros s x s' H. unfold tguard in H. by destruct c; simplify_eq. Qed.
Lemma keeps_get {E} : keeps (E := E) f tget.
Proof. by intros s x s' [= _ <-]. Qed.
Lemma keeps_conv {E F A} (g : E -> F) (c : Tx S E A) : keeps f c -> keeps f (tconv g c).
Proof. intros Hc s x s' H. unfold tconv in H. destruct (c s) as [[]|] eqn:Ec; simplify_eq. by eapply Hc. Qed.
Lemma keeps_fail {E A} (e : E) : keeps (A := A) f (tfail e).
Proof. by intros s x s'. Qed.
(** A write computed from the state just read. *)
Lemma keeps_update {E} (g : S -> S) : (forall s, f (g s) = f s) -> keeps (E := E) f (let! s := tget in tput (g s)).
Proof. intros Hg s x s' [= _ <-]. apply Hg. Qed.
End keeps.

(** ** Moves along a preorder *)

Definition obeys {S E A} (R : S -> S -> Prop) (c : Tx S E A) : Prop :=
  forall s x s', c s = Ok (x, s') -> R s s'.

Section obeys.
Context {S : Type} (R : S -> S -> Prop) `{!PreOrder R}.

Lemma obeys_bind {E A C} (c : Tx S E A) (k : A -> Tx S E C) :
  obeys R c -> (forall a, obeys R (k a)) -> obeys R (tbind c k).
Proof.
  intros Hc Hk s x s' H. apply tbind_ok in H as (a & s1 & H1 & H2).
  etrans; [by eapply Hc|by eapply Hk].
Qed.
Lemma obeys_ret {E A} (a : A) : obeys (E := E) R (tret a).
Proof. by intros s x s' [= _ <-]. Qed.
Lemma obeys_lift {E A} (r : result E A) : obeys R (tlift r).
Proof. intros s x s' H. unfold tlift in H. by destruct r; simplify_eq. Qed.
Lemma obeys_guard {E} c (e : E) : obeys R (tguard c e).
Proof. intros s x s' H. unfold tguard in H. by destruct c; simplify_eq. Qed.
Lemma obeys_fail {E A} (e : E) : obeys (A := A) R (tfail e).
Proof. by intros s x s'. Qed.
Lemma obeys_conv {E F A} (g : E -> F) (c : Tx S E A) : obeys R c -> obeys R (tconv g c).
Proof. intros Hc s x s' H. unfold tconv in H. destruct (c s) as [[]|] eqn:Ec; simplify_eq. by eapply Hc. Qed.
(** A computation that begins by reading the state. *)
Lemma obeys_read {E A} (k : S -> Tx S E A) :
  (forall s x s', k s s = Ok (x, s') -> R s s') -> obeys R (tbind tget k).
Proof. intros Hk s x s' H. by apply (Hk s x). Qed.
End obeys.

(** ** Errors a computation cannot raise *)

Definition never {S E A} (e : E) (c : Tx S E A) : Prop := forall s, c s <> Err e.

Section never.
Context {S E : Type} (e : E).

Lemma tbind_err {A B} (c : Tx S E A) (k : A -> Tx S E B) s :
  tbind c k s = Err e -> c s = Err e \/ exists a s', c s = Ok (a, s') /\ k a s' = Err e.
Proof. unfold tbind. destruct (c s) as [[a s']|x]; [eauto|]. intros [= <-]. auto. Qed.
Lemma never_bind {A B} (c : Tx S E A) (k : A -> Tx S E B) :
  never e c -> (forall s a s', c s = Ok (a, s') -> k a s' <> Err e) -> never e (tbind c k).
Proof. intros Hc Hk s. unfold tbind. specialize (Hc s). destruct (c s) as [[a s']|x] eqn:Ec; [eauto|]. congruence. Qed.
Lemma never_lift {A} (r : result E A) : r <> Err e -> never (S := S) e (tlift r).
Proof. intros Hr s. unfold tlift. destruct r; congruence. Qed.
Lemma never_guard c x : x <> e -> never (S := S) e (tguard c x).
Proof. intros Hx s. unfold tguard. destruct c; congruence. Qed.
Lemma never_get : never (S := S) e tget.
Proof. by intros s. Qed.
Lemma never_put s0 : never e (tput (S := S) s0).
Proof. by intros s. Qed.
Lemma never_ret {A} (a : A) : never (S := S) e (tret a).
Proof. by intros s. Qed.
End never.

Ltac never_steps :=
  repeat first
    [ apply never_get | apply never_put | apply never_ret
    | apply never_guard; discriminate
    | apply never_lift
    | apply never_bind; [|intros ???; intros _; match goal with |- ?k ?s <> Err ?e => revert s; change (never e k) end] ].

(** ** Services: code between transactions

    A service method runs several transactions and commands of other stores in a
    row: what was done before an error stays.  [inTx] runs one transaction, which is
    rolled back on error. *)

Definition Svc (S E A : Type) : Type := S -> result E A * S.

Definition sret {S E A} (a : A) : Svc S E A := fun s => (Ok a, s).
Definition sfail {S E A} (e : E) : Svc S E A := fun s => (Err e, s).
Definition sbind {S E A B} (c : Svc S E A) (k : A -> Svc S E B) : Svc S E B :=
  fun s => match c s with
           | (Ok a, s') => k a s'
           | (Err e, s') => (Err e, s')
           end.
Definition sget {S E} : Svc S E S := fun s => (Ok s, s).
Definition smod {S E} (f : S -> S) : Svc S E unit := fun s => (Ok tt, f s).
Definition slift {S E A} (r : result E A) : Svc S E A := fun s => (r, s).
Definition sguard {S E} (b : bool) (e : E) : Svc S E unit := fun s => (if b then Ok tt else Err e, s).
(** A call whose error the caller turns into its own, or only logs. *)
Definition sconv {S E F A} (f : E -> F) (c : Svc S E A) : Svc S F A :=
  fun s => match c s with (Ok a, s') => (Ok a, s') | (Err e, s') => (Err (f e), s') end.
Definition attempt {S E F A} (c : Svc S E A) : Svc S F unit := fun s => (Ok tt, (c s).2).
Definition inTx {S E A} (c : Tx S E A) : Svc S E A := run_tx c.

Declare Scope svc_scope.
Delimit Scope svc_scope with svc.
Notation "'let~' x ':=' c 'in' k" := (sbind c (fun x => k))
  (at level 10, x pattern, c at level 100, k at level 200) : svc_scope.
Notation "c ';;~' k" := (sbind c (fun _ => k))
  (at level 100, k at level 200, right associativity) : svc_scope.

(** ** Relations every run of a service follows, whatever its outcome *)

Definition follows {S E A} (R : S -> S -> Prop) (c : Svc S E A) : Prop := forall s r s', c s = (r, s') -> R s s'.

Section follows.
Context {S : Type} (R : S -> S -> Prop) `{!PreOrder R}.

Lemma follows_ret {E A} (a : A) : follows (E := E) R (sret a).
Proof. intros s r s' [= _ <-]. reflexivity. Qed.
Lemma follows_fail {E A} (e : E) : follows (A := A) R (sfail e).
Proof. intros s r s' [= _ <-]. reflexivity. Qed.
Lemma follows_get {E} : follows (E := E) R sget.
Proof. intros s r s' [= _ <-]. reflexivity. Qed.
Lemma follows_lift {E A} (x : result E A) : follows R (slift x).
Proof. intros s r s' [= _ <-]. reflexivity. Qed.
Lemma follows_guard {E} b (e : E) : follows R (sguard b e).
Proof. intros s r s' [= _ <-]. reflexivity. Qed.
Lemma follows_mod {E} f : (forall s, R s (f s)) -> follows (E := E) R (smod f).
Proof. intros H s r s' [= _ <-]. apply H. Qed.
Lemma follows_bind {E A B} (c : Svc S E A) (k : A -> Svc S E B) : follows R c -> (forall a, follows R (k a)) -> follows R (sbind c k).
Proof.
  intros Hc Hk s r s' H. unfold sbind in H. destruct (c s) as [[a|e] s1] eqn:E1.
  - etrans; [by eapply Hc|by eapply Hk].
  - injection H as _ <-. by eapply Hc.
Qed.
Lemma follows_conv {E F A} (f : E -> F) (c : Svc S E A) : follows R c -> follows R (sconv f c).
Proof. intros Hc s r s' H. unfold sconv in H. destruct (c s) as [[a|e] s1] eqn:E1; injection H as _ <-; by eapply Hc. Qed.
Lemma follows_attempt {E F A} (c : Svc S E A) : follows R c -> follows (E := F) R (attempt c).
Proof. intros Hc s r s' [= _ <-]. destruct (c s) as [x s1] eqn:E1. by eapply Hc. Qed.
Lemma follows_tx {E A} (c : Tx S E A) : obeys R c -> follows R (inTx c).
Proof.
  intros Hc s r s' H. unfold inTx, run_tx in H. destruct (c s) as [[a s1]|e] eqn:E1; injection H as _ <-; [by eapply Hc|reflexivity].
Qed.
End follows.

Create HintDb svc.
#[export] Hint Resolve follows_ret follows_fail follows_get follows_lift follows_guard : svc.

(** Splits a service into its calls. *)
Ltac svc_steps :=
  repeat first
    [ progress cbn beta iota zeta
    | apply follows_ret; apply _ | apply follows_fail; apply _ | apply follows_get; apply _ | apply follows_lift; apply _
    | apply follows_guard; apply _
    | solve [eauto with svc]
    | apply follows_bind; [apply _| |intros ?]
    | apply follows_conv
    | apply follows_attempt
    | lazymatch goal with
      | |- follows _ (match ?x with _ => _ end) => destruct x
      end ].

(** ** Runs that end well *)

Lemma sbind_ok {S E A B} (c : Svc S E A) (k : A -> Svc S E B) s b s' :
  sbind c k s = (Ok b, s') -> exists a s1, c s = (Ok a, s1) /\ k a s1 = (Ok b, s').
Proof. unfold sbind. destruct (c s) as [[a|e] s1]; [eauto|done]. Qed.
Lemma sret_ok {S E A} (a : A) (s : S) a' s' : sret (E := E) a s = (Ok a', s') -> a' = a /\ s' = s.
Proof. by intros [= <- <-]. Qed.
Lemma sbind_mod_ok {S E B} f (k : unit -> Svc S E B) s b s' : sbind (smod f) k s = (Ok b, s') -> k tt (f s) = (Ok b, s').
Proof. done. Qed.
Lemma sbind_get_ok {S E B} (k : S -> Svc S E B) s b s' : sbind sget k s = (Ok b, s') -> k s s = (Ok b, s').
Proof. done. Qed.
Lemma sbind_guard_ok {S E B} c (e : E) (k : unit -> Svc S E B) s b s' :
  sbind (sguard c e) k s = (Ok b, s') -> c = true /\ k tt s = (Ok b, s').
Proof. unfold sbind, sguard. by destruct c. Qed.
Lemma sbind_lift_ok {S E A B} (r : result E A) (k : A -> Svc S E B) s b s' :
  sbind (slift r) k s = (Ok b, s') -> exists a, r = Ok a /\ k a s = (Ok b, s').
Proof. unfold sbind, slift. destruct r; [eauto|done]. Qed.
Lemma inTx_ok {S E A} (c : Tx S E A) s a s' : inTx c s = (Ok a, s') -> c s = Ok (a, s').
Proof. unfold inTx, run_tx. destruct (c s) as [[x s1]|e]; [by intros [= <- <-]|done]. Qed.
Lemma sconv_ok {S E F A} (f : E -> F) (c : Svc S E A) s a s' : sconv f c s = (Ok a, s') -> c s = (Ok a, s').
Proof. unfold sconv. destruct (c s) as [[x|e] s1]; [by intros [= -> ->]|done]. Qed.

Ltac svc_step H :=
  let E := fresh "E" in
  lazymatch type of H with
  | sbind sget _ _ = _ => apply sbind_get_ok in H
  | sbind (smod _) _ _ = _ => apply sbind_mod_ok in H
  | sbind (sguard _ _) _ _ = _ => apply sbind_guard_ok in H as (E & H)
  | sbind (slift _) _ _ = _ => apply sbind_lift_ok in H as (? & E & H)
  | sbind _ _ _ = _ => apply sbind_ok in H as (? & ? & E & H)
  | sret _ _ = _ => apply sret_ok in H as (? & ?)
  | sconv _ _ _ = _ => apply sconv_ok in H
  | sfail _ _ = _ => discriminate H
  | (match ?x with _ => _ end) _ = _ => destruct x eqn:E
  end; cbn beta iota zeta in *.
Ltac svc_inv H := repeat svc_step H.

(** ** Tables whose rows have ids

    Ids are drawn from a supply, so a table's are unique and below the next one;
    unique indexes beside them. *)

Definition table {R} (id : R -> uuid) (ok : R -> Prop) (n : uuid) (l : list R) : Prop :=
  NoDup (id <$> l) /\ forall x, In x l -> (id x < n)%N /\ ok x.

Section Table.
Context {R : Type} (id : R -> uuid) (ok : R -> Prop).

Lemma table_nil n : table id ok n [].
Proof. split; [apply NoDup_nil_2|done]. Qed.
Lemma table_mono n n' l : (n <= n')%N -> table id ok n l -> table id ok n' l.
Proof. intros Hn [Hd Hl]. split; [done|]. intros x Hx. destruct (Hl x Hx). split; [lia|done]. Qed.
Lemma table_snoc n n' l x : id x = n -> ok x -> (n < n')%N -> table id ok n l -> table id ok n' (l ++ [x]).
Proof.
  intros Hx Hok Hn [Hd Hl]. split; [eapply NoDup_snoc_fresh; [done| |exact Hx]; intros y Hy; by apply Hl|].
  intros y [Hy|[->|[]]]%in_app_or; [destruct (Hl y Hy); split; [lia|done]|split; [lia|done]].
Qed.
Lemma table_update n l q g :
  (forall x, q x = true -> In x l -> id (g x) = id x /\ (ok x -> ok (g x))) -> table id ok n l ->
  table id ok n (update_where q g l).
Proof.
  intros Hg [Hd Hl]. split.
  - assert (E : id <$> update_where q g l = id <$> l); [|by rewrite E].
    clear Hd Hl. induction l as [|x l IH]; [done|]. simpl. f_equal.
    + destruct (q x) eqn:E; [by apply Hg; [|left]|done].
    + apply IH. intros; apply Hg; [done|by right].
  - intros x (y & Hy & ->)%in_update_where. destruct (q y) eqn:E; [|by apply Hl].
    destruct (Hg y E Hy) as [-> Hok]. destruct (Hl y Hy). auto.
Qed.
Lemma table_row n l q x : table id ok n l -> first_where q l = Some x -> ok x.
Proof. intros [_ Hl] [Hx _]%first_where_some. by apply Hl. Qed.
End Table.

(** A unique index. *)
Lemma NoDup_snoc_new {R K} (f : R -> K) (l : list R) x :
  NoDup (f <$> l) -> (forall y, In y l -> f y <> f x) -> NoDup (f <$> (l ++ [x])).
Proof.
  intros Hl Hx. rewrite fmap_app. apply NoDup_app. split; [done|]. split; [|apply NoDup_singleton].
  intros k (y & -> & Hy%list_elem_of_In)%list_elem_of_fmap Hin%list_elem_of_singleton. by apply (Hx y Hy).
Qed.
Lemma fmap_update_where {R K} (f : R -> K) q g (l : list R) :
  (forall x, q x = true -> f (g x) = f x) -> f <$> update_where q g l = f <$> l.
Proof. intros H. apply map_update_where. exact H. Qed.

(** The row the guard of a unique index let through. *)
Lemma NoDup_snoc_guard {R K} (f : R -> K) (p : R -> bool) (l : list R) x :
  NoDup (f <$> l) -> exists_where p l = false -> (forall y, f y = f x -> p y = true) -> NoDup (f <$> (l ++ [x])).
Proof.
  intros Hl Hf Hp. apply NoDup_snoc_new; [done|]. intros y Hy E. rewrite exists_where_false in Hf.
  specialize (Hf y Hy). by rewrite (Hp y E) in Hf.
Qed.

(** Several rows at once: their ids are new and distinct. *)
Definition fresh_rows {R} (id : R -> uuid) (n n' : uuid) (l : list R) : Prop :=
  NoDup (id <$> l) /\ (n <= n')%N /\ forall x, In x l -> (n <= id x < n')%N.

Section Fresh.
Context {R : Type} (id : R -> uuid).

Lemma fresh_nil n : fresh_rows id n n [].
Proof. split; [apply NoDup_nil_2|]. split; [lia|done]. Qed.
Lemma fresh_cons n n' x l : id x = n -> fresh_rows id (n + 1) n' l -> fresh_rows id n n' (x :: l).
Proof.
  intros Hx (Hd & Hn & Hl). split; [|split; [lia|]].
  - rewrite fmap_cons. apply NoDup_cons. split; [|done]. intros (y & E & Hy%list_elem_of_In)%list_elem_of_fmap.
    specialize (Hl y Hy). lia.
  - intros y [<-|Hy]; [lia|]. specialize (Hl y Hy). lia.
Qed.
Lemma fresh_app n m k l l' : fresh_rows id n m l -> fresh_rows id m k l' -> fresh_rows id n k (l ++ l').
Proof.
  intros (Hd & Hn & Hl) (Hd' & Hn' & Hl'). split; [|split; [lia|]].
  - rewrite fmap_app. apply NoDup_app. split; [done|]. split; [|done].
    intros i (x & -> & Hx%list_elem_of_In)%list_elem_of_fmap (y & E & Hy%list_elem_of_In)%list_elem_of_fmap.
    specialize (Hl x Hx). specialize (Hl' y Hy). lia.
  - intros x [Hx|Hx]%in_app_or; [specialize (Hl x Hx); lia|specialize (Hl' x Hx); lia].
Qed.
Lemma table_app ok n n' l l' :
  table id ok n l -> fresh_rows id n n' l' -> (forall x, In x l' -> ok x) -> table id ok n' (l ++ l').
Proof.
  intros [Hd Hl] (Hd' & Hn & Hl') Hok. split.
  - rewrite fmap_app. apply NoDup_app. split; [done|]. split; [|done].
    intros k (x & -> & Hx%list_elem_of_In)%list_elem_of_fmap (y & E & Hy%list_elem_of_In)%list_elem_of_fmap.
    destruct (Hl x Hx). specialize (Hl' y Hy). lia.
  - intros x [Hx|Hx]%in_app_or; [destruct (Hl x Hx); split; [lia|done]|]. specialize (Hl' x Hx). split; [lia|auto].
Qed.
Lemma table_weaken (ok ok' : R -> Prop) n l :
  (forall x, In x l -> ok x -> ok' x) -> table id ok n l -> table id ok' n l.
Proof. intros H [Hd Hl]. split; [done|]. intros x Hx. destruct (Hl x Hx). auto. Qed.
Lemma table_select ok n l p : table id ok n l -> table id ok n (select p l).
Proof.
  intros [Hd Hl]. split; [by apply NoDup_select|]. intros x [Hx _]%in_select. auto.
Qed.
Lemma table_same ok n l x y : table id ok n l -> In x l -> In y l -> id x = id y -> x = y.
Proof.
  intros [Hd _] Hx Hy E. apply list_elem_of_In, list_elem_of_lookup in Hx as [i Hi].
  apply list_elem_of_In, list_elem_of_lookup in Hy as [j Hj].
  assert (i = j) as ->; [|congruence].
  eapply NoDup_lookup; [exact Hd| |]; rewrite list_lookup_fmap; [by rewrite Hi|by rewrite Hj; simpl; rewrite E].
Qed.
End Fresh.
