(* ===== verification/Numeric.v ===== *)
(** * Decimals, [numeric(p,s)] columns and decimal text

    Money and litre figures travel through the Go code as decimal strings
    and live in Postgres [numeric(p,s)] columns.  This file models

    - [dec]: the exact decimal a [numeric] expression denotes, with exact
      addition, subtraction and multiplication;
    - [numeric_col p s]: the value stored by an assignment to a
      [numeric(p,s)] column, in units of [10^-s] (rounded half away from
      zero, "numeric field overflow" past [p] digits);
    - [numeric_text s]: the [::text] form of a column, and [parse_numeric],
      the [::numeric] cast of a plain decimal literal;
    - the string helpers of the source: [negateDecimal],
      [validSignedDelta], [defaultDecimal], [money0]. *)

From stdpp Require Import base list strings.
From Stdlib Require Import ZArith Lia Ascii String.
From S2P Require Import Prelude.

Local Open Scope Z_scope.
#[local] Arguments String.append !_ _ : simpl nomatch.

(** ** Exact decimals *)

(** [mant * 10^-scale]. *)
Record dec := Dec { mant : Z; scale : nat }.

Definition pow10 (n : nat) : Z := 10 ^ Z.of_nat n.

(** The mantissa of [d] written at a scale [s >= scale d]. *)
Definition at_scale (s : nat) (d : dec) : Z := mant d * pow10 (s - scale d).

Definition dec_of (s : nat) (z : Z) : dec := Dec z s.
Definition dec_add (a b : dec) : dec :=
  let s := Nat.max (scale a) (scale b) in Dec (at_scale s a + at_scale s b) s.
Definition dec_opp (a : dec) : dec := Dec (- mant a) (scale a).
Definition dec_sub (a b : dec) : dec := dec_add a (dec_opp b).
Definition dec_mul (a b : dec) : dec := Dec (mant a * mant b) (scale a + scale b).
Definition dec_abs (a : dec) : dec := Dec (Z.abs (mant a)) (scale a).
Definition dec_leb (a b : dec) : bool :=
  let s := Nat.max (scale a) (scale b) in at_scale s a <=? at_scale s b.
Definition dec_ltb (a b : dec) : bool := negb (dec_leb b a).
Definition dec_eqb (a b : dec) : bool := dec_leb a b && dec_leb b a.

(** Integer division rounding halves away from zero, the rounding Postgres
    applies when a [numeric] is given a smaller scale. *)
Definition round_div (n d : Z) : Z :=
  Z.sgn n * ((2 * Z.abs n + d) / (2 * d)).

Definition round_to (s : nat) (d : dec) : Z :=
  if (scale d <=? s)%nat then at_scale s d
  else round_div (mant d) (pow10 (scale d - s)).

(** Assignment to a [numeric(p,s)] column; [None] is SQLSTATE 22003. *)
Definition numeric_col (p s : nat) (d : dec) : option Z :=
  let z := round_to s d in
  if Z.abs z <? pow10 p then Some z else None.

(** ** Decimal text *)

Definition digit (z : Z) : ascii := ascii_of_N (Z.to_N (z + 48)).
Definition digit_val (c : ascii) : option Z :=
  let n := Z.of_N (N_of_ascii c) in
  if (48 <=? n) && (n <=? 57) then Some (n - 48) else None.

(** Exactly [k] digits. *)
Fixpoint digits_n (k : nat) (z : Z) : string :=
  match k with
  | O => ""
  | S k' => (digits_n k' (z / 10) ++ String (digit (z mod 10)) "")%string
  end.

(** The number of decimal digits of [z >= 0] (one for zero). *)
Fixpoint ndigits_fuel (f : nat) (z : Z) : nat :=
  match f with
  | O => 1
  | S f' => if z <? 10 then 1 else S (ndigits_fuel f' (z / 10))
  end.
Definition ndigits (z : Z) : nat := ndigits_fuel (Z.to_nat (Z.log2 z)) z.
Definition uint_text (z : Z) : string := digits_n (ndigits z) z.

(** At least [w] digits ([%0wd]). *)
Definition pad (w : nat) (z : Z) : string := digits_n (Nat.max w (ndigits z)) z.

(** [col::text] for a column of scale [s] holding [z]. *)
Definition unsigned_text (s : nat) (z : Z) : string :=
  match s with
  | O => uint_text z
  | S _ => (uint_text (z / pow10 s) ++ "." ++ digits_n s (z mod pow10 s))%string
  end.
Definition numeric_text (s : nat) (z : Z) : string :=
  if z <? 0 then ("-" ++ unsigned_text s (- z))%string else unsigned_text s z.

Definition is_space (c : ascii) : bool :=
  let n := N_of_ascii c in ((9 <=? n) && (n <=? 13) || (n =? 32))%N.

Fixpoint trim_left (p : ascii -> bool) (s : string) : string :=
  match s with
  | EmptyString => EmptyString
  | String c s' => if p c then trim_left p s' else s
  end.
Fixpoint trim_right (p : ascii -> bool) (s : string) : string :=
  match s with
  | EmptyString => EmptyString
  | String c s' =>
      match trim_right p s' with
      | EmptyString => if p c then EmptyString else String c EmptyString
      | r => String c r
      end
  end.
(** [strings.TrimSpace] on ASCII text. *)
Definition trim_space (s : string) : string := trim_right is_space (trim_left is_space s).
(** [strings.Split(s, sep)] for a one-byte separator. *)
Fixpoint split_on (sep : ascii) (s : string) : string * list string :=
  match s with
  | EmptyString => (""%string, [])
  | String c s' =>
      let '(hd, tl) := split_on sep s' in
      if bool_decide (c = sep) then (""%string, hd :: tl) else (String c hd, tl)
  end.
Definition Split (sep : ascii) (s : string) : list string :=
  let '(hd, tl) := split_on sep s in hd :: tl.
(** SQL's [lower] and [strings.ToLower] on ASCII text, and [strings.ToUpper]. *)
Definition lower_char (c : ascii) : ascii :=
  let n := N_of_ascii c in if ((65 <=? n) && (n <=? 90))%N then ascii_of_N (n + 32) else c.
Fixpoint lower (s : string) : string :=
  match s with
  | EmptyString => EmptyString
  | String c s' => String (lower_char c) (lower s')
  end.
Definition upper_char (c : ascii) : ascii :=
  let n := N_of_ascii c in if ((97 <=? n) && (n <=? 122))%N then ascii_of_N (n - 32) else c.
Fixpoint upper (s : string) : string :=
  match s with
  | EmptyString => EmptyString
  | String c s' => String (upper_char c) (upper s')
  end.
(** [strings.TrimPrefix(s, "-")]. *)
Definition trim_minus (s : string) : string :=
  match s with
  | String "-" s' => s'
  | _ => s
  end.
Definition has_minus (s : string) : bool :=
  match s with String "-" _ => true | _ => false end.
Definition is_zero_dot (c : ascii) : bool := bool_decide (c = "0"%char \/ c = "."%char).

(** Consumes a run of digits, most significant first. *)
Fixpoint take_digits (s : string) (acc : Z) (n : nat) : Z * nat * string :=
  match s with
  | EmptyString => (acc, n, s)
  | String c s' =>
      match digit_val c with
      | Some v => take_digits s' (acc * 10 + v) (S n)
      | None => (acc, n, s)
      end
  end.

Definition parse_unsigned (s : string) : option dec :=
  let '(i, n, rest) := take_digits s 0 0 in
  match rest with
  | EmptyString => if (0 <? n)%nat then Some (Dec i 0) else None
  | String "." rest' =>
      let '(m, k, rest'') := take_digits rest' i 0 in
      match rest'' with
      | EmptyString => if (0 <? n + k)%nat then Some (Dec m k) else None
      | _ => None
      end
  | _ => None
  end.

(** The [::numeric] cast of a plain decimal literal: an optional sign,
    digits, an optional fraction, surrounding blanks.  (Postgres also reads
    exponents, [NaN] and the infinities; the callers' patterns exclude
    them, and here they are refused.) *)
Definition parse_numeric (s : string) : option dec :=
  match trim_space s with
  | String "-" s' => dec_opp <$> parse_unsigned s'
  | String "+" s' => parse_unsigned s'
  | s' => parse_unsigned s'
  end.

(** [d::text], and [COALESCE(SUM(col), 0)] over a column of scale [s]: with
    no row to sum it is the integer zero. *)
Definition dec_text (d : dec) : string := numeric_text (scale d) (mant d).
Definition coalesce_sum {R} (s : nat) (f : R -> Z) (rows : list R) : dec :=
  match rows with [] => Dec 0 0 | _ => Dec (sum_by f rows) s end.

(** ** Postgres division of numerics *)

(** The weight, base 10000, and the value of the first digit of a nonzero
    numeric. *)
Definition base_weight (d : dec) : Z :=
  if mant d =? 0 then 0
  else (Z.of_nat (ndigits (Z.abs (mant d))) - 1 - Z.of_nat (scale d)) / 4.
Definition first_digit (d : dec) : Z :=
  let k := 4 * base_weight d + Z.of_nat (scale d) in
  if 0 <=? k then Z.abs (mant d) / 10 ^ k else Z.abs (mant d) * 10 ^ (- k).

(** [select_div_scale]: at least sixteen significant digits and no fewer
    decimals than either operand. *)
Definition div_scale (a b : dec) : nat :=
  let q := base_weight a - base_weight b - (if first_digit a <=? first_digit b then 1 else 0) in
  let s := Z.max (Z.max (16 - 4 * q) (Z.of_nat (scale a))) (Z.max (Z.of_nat (scale b)) 0) in
  Z.to_nat (Z.min s 1000).

(** [a / b], rounded at that scale; [b] is not zero. *)
Definition numeric_div (a b : dec) : dec :=
  let r := div_scale a b in
  let n := mant a * pow10 (scale b + r) in
  let m := mant b * pow10 (scale a) in
  Dec (round_div (n * Z.sgn m) (Z.abs m)) r.

(** [ROUND(x, 2)] *)
Definition round2 (d : dec) : dec := Dec (round_to 2 d) 2.

(** ** Helpers of the source *)

(** [inventory.negateDecimal] *)
Definition negateDecimal (s0 : string) : string :=
  let s := trim_space s0 in
  if bool_decide (s = "")%string then s
  else if bool_decide (trim_left is_zero_dot (trim_minus s) = "")%string then trim_minus s
  else if has_minus s then trim_minus s
  else ("-" ++ s)%string.

(** [inventory.defaultDecimal] *)
Definition defaultDecimal (v : string) : string :=
  if bool_decide (v = "")%string then "0"%string else v.

(** [accounting.money0] *)
Definition money0 (s : string) : string :=
  if bool_decide (s = "")%string then "0"%string else s.

(** The pattern [^-?\d+(\.\d{1,3})?$]. *)
Definition signedDecimalPattern (s : string) : bool :=
  let '(_, n, rest) := take_digits (trim_minus s) 0 0 in
  (0 <? n)%nat &&
  match rest with
  | EmptyString => true
  | String "." rest' =>
      let '(_, k, rest'') := take_digits rest' 0 0 in
      bool_decide (rest'' = "")%string && (1 <=? k)%nat && (k <=? 3)%nat
  | _ => false
  end.

(** [server.validSignedDelta] *)
Definition validSignedDelta (s0 : string) : bool :=
  let s := trim_space s0 in
  signedDecimalPattern s &&
  negb (bool_decide (trim_right is_zero_dot (trim_left is_zero_dot (trim_minus s)) = "")%string).

(** The pattern [^\d+(\.\d{1,4})?$]. *)
Definition decimalPattern (s : string) : bool :=
  let '(_, n, rest) := take_digits s 0 0 in
  (0 <? n)%nat &&
  match rest with
  | EmptyString => true
  | String "." rest' =>
      let '(_, k, rest'') := take_digits rest' 0 0 in
      bool_decide (rest'' = "")%string && (1 <=? k)%nat && (k <=? 4)%nat
  | _ => false
  end.

(** [server.validDecimal] *)
Definition validDecimal (v : string) : bool :=
  let s := trim_space v in negb (bool_decide (s = "")%string) && decimalPattern s.

Example numeric_text_ex : numeric_text 3 (-1205) = "-1.205"%string.
Proof. reflexivity. Qed.
Example parse_numeric_ex : parse_numeric " -1.205 " = Some (Dec (-1205) 3).
Proof. reflexivity. Qed.

(** ** Rounding *)

Lemma pow10_pos n : 0 < pow10 n.
Proof. unfold pow10. apply Z.pow_pos_nonneg; lia. Qed.

Lemma pow10_0 : pow10 0 = 1.
Proof. reflexivity. Qed.

Lemma pow10_S n : pow10 (S n) = 10 * pow10 n.
Proof. unfold pow10. rewrite Nat2Z.inj_succ, Z.pow_succ_r by lia. lia. Qed.

Lemma pow10_add a b : pow10 (a + b) = pow10 a * pow10 b.
Proof. unfold pow10. rewrite Nat2Z.inj_add, Z.pow_add_r by lia. lia. Qed.

Lemma at_scale_same s z : at_scale s (Dec z s) = z.
Proof. unfold at_scale; simpl. rewrite Nat.sub_diag, pow10_0. lia. Qed.

(** A value that already has at most [s] decimals is stored exactly. *)
Lemma round_to_exact s d : (scale d <= s)%nat -> round_to s d = at_scale s d.
Proof. intros H. unfold round_to. by rewrite (proj2 (Nat.leb_le _ _) H). Qed.

Lemma round_to_same s z : round_to s (Dec z s) = z.
Proof. rewrite round_to_exact by (simpl; lia). apply at_scale_same. Qed.

Lemma round_to_add s z d :
  (scale d <= s)%nat -> round_to s (dec_add (dec_of s z) d) = z + round_to s d.
Proof.
  intros H. unfold dec_add, dec_of; simpl. rewrite Nat.max_l by done.
  rewrite round_to_same, at_scale_same, round_to_exact by done. done.
Qed.

Lemma numeric_col_same p s z :
  Z.abs z < pow10 p -> numeric_col p s (Dec z s) = Some z.
Proof. intros H. unfold numeric_col. rewrite round_to_same. by rewrite (proj2 (Z.ltb_lt _ _) H). Qed.

Lemma numeric_col_some p s d z :
  numeric_col p s d = Some z -> z = round_to s d /\ Z.abs z < pow10 p.
Proof.
  unfold numeric_col. destruct (Z.ltb_spec (Z.abs (round_to s d)) (pow10 p)); [|done].
  intros [= <-]. done.
Qed.

(** Rounding moves a value by at most half a unit of the last place. *)
Lemma round_div_half n d : 0 < d -> 2 * Z.abs (d * round_div n d - n) <= d.
Proof.
  intros Hd. unfold round_div.
  pose proof (Z.div_mod (2 * Z.abs n + d) (2 * d) ltac:(lia)) as Hdm.
  pose proof (Z.mod_pos_bound (2 * Z.abs n + d) (2 * d) ltac:(lia)) as Hb.
  set (q := (2 * Z.abs n + d) / (2 * d)) in *.
  destruct (Z.sgn_spec n) as [[Hn ->]|[[Hn ->]|[Hn ->]]]; nia.
Qed.

(** Adding a stored nonnegative value commutes with rounding. *)
Lemma round_div_add a n d : 0 < d -> 0 <= a -> 0 <= n -> round_div (a * d + n) d = a + round_div n d.
Proof.
  intros Hd Ha Hn.
  assert (Hpos : forall x, 0 <= x -> round_div x d = (2 * x + d) / (2 * d)).
  { intros x Hx. unfold round_div. destruct (Z.eq_dec x 0) as [->|Hne].
    - simpl. symmetry. apply Z.div_small. lia.
    - rewrite Z.sgn_pos, Z.abs_eq by lia. lia. }
  rewrite !Hpos by nia. replace (2 * (a * d + n) + d) with (a * (2 * d) + (2 * n + d)) by lia.
  rewrite Z.div_add_l by lia. done.
Qed.

Lemma round_to_add_nonneg s z d :
  0 <= z -> 0 <= mant d -> round_to s (dec_add (dec_of s z) d) = z + round_to s d.
Proof.
  intros Hz Hd. destruct (Nat.leb_spec (scale d) s) as [H|H]; [by apply round_to_add|].
  unfold dec_add, dec_of; simpl. rewrite Nat.max_r by lia.
  unfold round_to. simpl. rewrite (proj2 (Nat.leb_gt _ _) H).
  unfold at_scale; simpl. rewrite Nat.sub_diag, pow10_0, Z.mul_1_r.
  apply round_div_add; [apply pow10_pos|done..].
Qed.

(** A bound at a finer scale survives rounding up to half a unit. *)
Lemma dec_leb_round s k b d :
  dec_leb d (Dec b (s + k)) = true -> 2 * pow10 k * round_to s d <= 2 * b + pow10 k.
Proof.
  unfold dec_leb. simpl. rewrite Z.leb_le. unfold at_scale; simpl.
  pose proof (pow10_pos k) as Hk.
  unfold round_to. destruct (Nat.leb_spec (scale d) s) as [H|H].
  - rewrite Nat.max_r, Nat.sub_diag, pow10_0 by lia. unfold at_scale.
    replace (s + k - scale d)%nat with (s - scale d + k)%nat by lia. rewrite pow10_add. nia.
  - set (j := (scale d - s)%nat). pose proof (round_div_half (mant d) (pow10 j) (pow10_pos j)) as Hr.
    set (r := round_div (mant d) (pow10 j)) in *.
    destruct (Nat.le_gt_cases j k) as [Hjk|Hjk].
    + rewrite Nat.max_r, Nat.sub_diag, pow10_0 by lia.
      replace (s + k - scale d)%nat with (k - j)%nat by lia.
      assert (E : pow10 k = pow10 j * pow10 (k - j)) by (rewrite <- pow10_add; f_equal; lia).
      pose proof (pow10_pos (k - j)). rewrite E. nia.
    + rewrite Nat.max_l, Nat.sub_diag, pow10_0 by lia.
      replace (scale d - (s + k))%nat with (j - k)%nat by lia.
      assert (E : pow10 j = pow10 k * pow10 (j - k)) by (rewrite <- pow10_add; f_equal; lia).
      pose proof (pow10_pos (j - k)). rewrite E in Hr. intros Hb. nia.
Qed.

(** ** Text round trips *)

Lemma string_app_nil_r (s : string) : (s ++ "")%string = s.
Proof. induction s; simpl; congruence. Qed.

Lemma string_app_assoc (a b c : string) : ((a ++ b) ++ c)%string = (a ++ (b ++ c))%string.
Proof. induction a; simpl; congruence. Qed.

Lemma digit_cases (P : Z -> Prop) :
  P 0 -> P 1 -> P 2 -> P 3 -> P 4 -> P 5 -> P 6 -> P 7 -> P 8 -> P 9 ->
  forall z, 0 <= z < 10 -> P z.
Proof.
  intros. assert (z = 0 \/ z = 1 \/ z = 2 \/ z = 3 \/ z = 4 \/ z = 5 \/ z = 6 \/ z = 7
    \/ z = 8 \/ z = 9) as Hz by lia.
  repeat destruct Hz as [->|Hz]; try done. by subst.
Qed.

Lemma digit_val_digit z : 0 <= z < 10 -> digit_val (digit z) = Some z.
Proof. revert z. apply digit_cases; reflexivity. Qed.

Lemma take_digits_digits_n k : forall z rest acc n,
  0 <= z < pow10 k ->
  take_digits (digits_n k z ++ rest) acc n = take_digits rest (acc * pow10 k + z) (n + k).
Proof.
  induction k as [|k IH]; intros z rest acc n Hz; simpl.
  - rewrite pow10_0 in *. f_equal; lia.
  - rewrite pow10_S in Hz. rewrite string_app_assoc, IH; simpl.
    + rewrite digit_val_digit by (apply Z.mod_pos_bound; lia).
      f_equal; [|lia]. rewrite pow10_S.
      pose proof (Z.div_mod z 10 ltac:(lia)). nia.
    + split; [apply Z.div_pos; lia | apply Z.div_lt_upper_bound; lia].
Qed.

Lemma ndigits_fuel_bound f z :
  0 <= z < 2 ^ (Z.of_nat f + 1) -> z < pow10 (ndigits_fuel f z).
Proof.
  revert z. induction f as [|f IH]; intros z Hz; simpl.
  - change (2 ^ (Z.of_nat 0 + 1)) with 2 in Hz. change (pow10 1) with 10. lia.
  - destruct (Z.ltb_spec z 10) as [Hs|Hs]; [change (pow10 1) with 10; lia|].
    rewrite pow10_S.
    assert (z / 10 < pow10 (ndigits_fuel f (z / 10))) as Hd.
    { apply IH. split; [apply Z.div_pos; lia|].
      apply Z.div_lt_upper_bound; [lia|].
      rewrite Nat2Z.inj_succ, Z.add_succ_l, Z.pow_succ_r in Hz by lia. lia. }
    pose proof (Z.div_mod z 10 ltac:(lia)).
    pose proof (Z.mod_pos_bound z 10 ltac:(lia)). lia.
Qed.

Lemma ndigits_bound z : 0 <= z -> z < pow10 (ndigits z).
Proof.
  intros Hz. apply ndigits_fuel_bound. split; [done|].
  destruct (Z.eq_dec z 0) as [->|Hne]; [done|].
  pose proof (Z.log2_nonneg z). rewrite Z2Nat.id by done.
  apply Z.log2_spec. lia.
Qed.

Lemma ndigits_pos z : (0 < ndigits z)%nat.
Proof. unfold ndigits. destruct (Z.to_nat (Z.log2 z)); simpl; [lia|]. destruct (z <? 10); lia. Qed.

Lemma take_digits_uint z rest acc n :
  0 <= z ->
  take_digits (uint_text z ++ rest) acc n =
  take_digits rest (acc * pow10 (ndigits z) + z) (n + ndigits z).
Proof. intros Hz. apply take_digits_digits_n. split; [done|]. by apply ndigits_bound. Qed.

Lemma take_digits_dot r acc n :
  take_digits ("." ++ r) acc n = (acc, n, String "." r).
Proof. reflexivity. Qed.

Lemma take_digits_digits_n_end k z acc n :
  0 <= z < pow10 k -> take_digits (digits_n k z) acc n = (acc * pow10 k + z, (n + k)%nat, ""%string).
Proof. intros Hz. rewrite <- (string_app_nil_r (digits_n k z)). by rewrite take_digits_digits_n. Qed.

Lemma parse_unsigned_text s z : 0 <= z -> parse_unsigned (unsigned_text s z) = Some (Dec z s).
Proof.
  intros Hz. unfold parse_unsigned, unsigned_text. destruct s as [|s].
  - unfold uint_text. rewrite take_digits_digits_n_end by auto using ndigits_bound.
    pose proof (ndigits_pos z). destruct (ndigits z); [lia|done].
  - pose proof (pow10_pos (S s)) as Hp.
    rewrite take_digits_uint, take_digits_dot by (apply Z.div_pos; lia).
    rewrite take_digits_digits_n_end by (by apply Z.mod_pos_bound).
    pose proof (ndigits_pos (z / pow10 (S s))).
    rewrite (proj2 (Nat.ltb_lt _ _)) by lia.
    pose proof (Z.div_mod z (pow10 (S s)) ltac:(lia)). do 2 f_equal; lia.
Qed.

(** All characters of a string satisfy [p]. *)
Fixpoint all_chars (p : ascii -> bool) (s : string) : bool :=
  match s with
  | EmptyString => true
  | String c s' => p c && all_chars p s'
  end.

Lemma all_chars_app p a b : all_chars p (a ++ b) = all_chars p a && all_chars p b.
Proof. induction a as [|c a IH]; simpl; [done|]. by rewrite IH, andb_assoc. Qed.

Lemma trim_left_nil p s : trim_left p s = ""%string -> all_chars p s = true.
Proof. induction s as [|c s IH]; simpl; [done|]. destruct (p c); [auto|done]. Qed.

Lemma all_chars_trim_left p s : all_chars p s = true -> trim_left p s = ""%string.
Proof. induction s as [|c s IH]; simpl; [done|]. destruct (p c); simpl; [auto|done]. Qed.

Lemma trim_none p s :
  all_chars (fun c => negb (p c)) s = true -> trim_right p (trim_left p s) = s.
Proof.
  assert (Hr : forall t, all_chars (fun c => negb (p c)) t = true -> trim_right p t = t).
  { induction t as [|c t IH]; simpl; [done|]. intros [Hc Ht]%andb_true_iff.
    rewrite (IH Ht). apply negb_true_iff in Hc. destruct t; [by rewrite Hc|done]. }
  intros Hs. rewrite <- (Hr s Hs) at 2. f_equal. destruct s as [|c s]; simpl in *; [done|].
  apply andb_true_iff in Hs as [Hc _]. apply negb_true_iff in Hc. by rewrite Hc.
Qed.

Definition is_num_char (c : ascii) : bool :=
  match digit_val c with Some _ => true | None => bool_decide (c = "."%char) end.

Lemma digits_n_chars k z : all_chars is_num_char (digits_n k z) = true.
Proof.
  revert z. induction k as [|k IH]; intros z; simpl; [done|].
  rewrite all_chars_app, IH; simpl. rewrite andb_true_r. unfold is_num_char.
  by rewrite digit_val_digit by (apply Z.mod_pos_bound; lia).
Qed.

Lemma unsigned_text_chars s z : all_chars is_num_char (unsigned_text s z) = true.
Proof.
  unfold unsigned_text, uint_text. destruct s; [apply digits_n_chars|].
  rewrite !all_chars_app, !digits_n_chars. done.
Qed.

Lemma num_char_not_space c : is_num_char c = true -> negb (is_space c) = true.
Proof.
  unfold is_num_char, digit_val, is_space.
  destruct (_ && _) eqn:E.
  - intros _. apply andb_true_iff in E as [E1 E2]. apply Z.leb_le in E1, E2.
    apply negb_true_iff. apply orb_false_iff.
    split; [apply andb_false_iff; right; apply N.leb_gt | apply N.eqb_neq]; lia.
  - intros H%bool_decide_eq_true. by subst.
Qed.

Lemma all_chars_impl (p q : ascii -> bool) s :
  (forall c, p c = true -> q c = true) -> all_chars p s = true -> all_chars q s = true.
Proof.
  intros H. induction s as [|c s IH]; simpl; [done|].
  intros [Hc Hs]%andb_true_iff. by rewrite (H c Hc), (IH Hs).
Qed.

Lemma trim_space_num s : all_chars is_num_char s = true -> trim_space s = s.
Proof. intros H. apply trim_none. eapply all_chars_impl; [|exact H]. apply num_char_not_space. Qed.

Lemma trim_space_minus_num s :
  all_chars is_num_char s = true -> trim_space ("-" ++ s) = ("-" ++ s)%string.
Proof.
  intros H. apply trim_none. simpl. eapply all_chars_impl; [|exact H]. apply num_char_not_space.
Qed.

(** The first character of a column's text is a digit. *)
Lemma unsigned_text_head s z : exists c r, unsigned_text s z = String c r /\ is_Some (digit_val c).
Proof.
  assert (Hd : forall k x, (0 < k)%nat -> exists c r, digits_n k x = String c r /\ is_Some (digit_val c)).
  { induction k as [|k IH]; intros x Hk; [lia|]. simpl.
    destruct k as [|k].
    - simpl. eexists _, _. split; [done|].
      rewrite digit_val_digit by (apply Z.mod_pos_bound; lia). eauto.
    - destruct (IH (x / 10) ltac:(lia)) as (c & r & -> & Hc). eexists _, _. by split. }
  unfold unsigned_text, uint_text. destruct s as [|s]; [apply Hd, ndigits_pos|].
  destruct (Hd _ (z / pow10 (S s)) (ndigits_pos (z / pow10 (S s)))) as (c & r & -> & Hc).
  eexists _, _. by split.
Qed.

Lemma parse_numeric_unsigned s z : 0 <= z -> parse_numeric (unsigned_text s z) = Some (Dec z s).
Proof.
  intros Hz. unfold parse_numeric. rewrite trim_space_num by apply unsigned_text_chars.
  rewrite <- (parse_unsigned_text s z Hz).
  destruct (unsigned_text_head s z) as (c & r & -> & v & Hv).
  destruct c as [[] [] [] [] [] [] [] []]; try done; cbn in Hv; discriminate Hv.
Qed.

Lemma parse_numeric_minus s z :
  0 <= z -> parse_numeric ("-" ++ unsigned_text s z) = Some (Dec (- z) s).
Proof.
  intros Hz. unfold parse_numeric. rewrite trim_space_minus_num by apply unsigned_text_chars.
  simpl. by rewrite parse_unsigned_text.
Qed.

(** Reading a column back from its text gives the column. *)
Lemma parse_numeric_text s z : parse_numeric (numeric_text s z) = Some (Dec z s).
Proof.
  unfold numeric_text. destruct (Z.ltb_spec z 0).
  - rewrite parse_numeric_minus by lia. by rewrite Z.opp_involutive.
  - by apply parse_numeric_unsigned.
Qed.

(** Text made of zeros and dots denotes zero. *)
Lemma take_digits_zero s n :
  all_chars is_zero_dot s = true ->
  exists n' r, take_digits s 0 n = (0, n', r) /\ all_chars is_zero_dot r = true.
Proof.
  revert n. induction s as [|c s IH]; simpl; intros n; [eauto|].
  intros [Hc Hs]%andb_true_iff. apply bool_decide_eq_true in Hc as [->| ->]; simpl.
  - by apply IH.
  - eexists _, _. split; [done|]. simpl. done.
Qed.

Lemma parse_unsigned_zero s d :
  all_chars is_zero_dot s = true -> parse_unsigned s = Some d -> mant d = 0.
Proof.
  intros H. unfold parse_unsigned.
  destruct (take_digits_zero s 0 H) as (n & r & -> & Hr).
  destruct r as [|c r]; [by destruct (_ <? _)%nat; intros [= <-]|].
  simpl in Hr. apply andb_true_iff in Hr as [Hc Hr].
  apply bool_decide_eq_true in Hc as [->| ->]; [done|].
  destruct (take_digits_zero r 0 Hr) as (k & r' & -> & _).
  destruct r'; [by destruct (_ <? _)%nat; intros [= <-]|done].
Qed.

Lemma trim_zero_dot_text s z :
  0 < z -> trim_left is_zero_dot (unsigned_text s z) <> ""%string.
Proof.
  intros Hz H%trim_left_nil.
  pose proof (parse_unsigned_zero _ _ H (parse_unsigned_text s z ltac:(lia))). simpl in *. lia.
Qed.

Lemma has_minus_unsigned s z : has_minus (unsigned_text s z) = false.
Proof.
  destruct (unsigned_text_head s z) as (c & r & -> & v & Hv).
  destruct c as [[] [] [] [] [] [] [] []]; try done; cbn in Hv; discriminate Hv.
Qed.

Lemma trim_minus_unsigned s z : trim_minus (unsigned_text s z) = unsigned_text s z.
Proof.
  pose proof (has_minus_unsigned s z) as H. destruct (unsigned_text s z) as [|c r]; [done|].
  destruct c as [[] [] [] [] [] [] [] []]; done.
Qed.

Lemma unsigned_text_nonempty s z : unsigned_text s z <> ""%string.
Proof. destruct (unsigned_text_head s z) as (c & r & -> & _). done. Qed.

(** The negated text of a column denotes the negated value, in every
    spelling of zero too: the contra a reversal posts is exact. *)
Lemma parse_negateDecimal s z :
  parse_numeric (negateDecimal (numeric_text s z)) = Some (Dec (- z) s).
Proof.
  unfold negateDecimal, numeric_text. destruct (Z.ltb_spec z 0) as [Hn|Hn].
  - rewrite trim_space_minus_num by apply unsigned_text_chars.
    rewrite bool_decide_eq_false_2 by done. simpl trim_minus. simpl has_minus.
    rewrite bool_decide_eq_false_2 by (apply trim_zero_dot_text; lia).
    rewrite parse_numeric_unsigned by lia. done.
  - rewrite trim_space_num by apply unsigned_text_chars.
    rewrite bool_decide_eq_false_2 by apply unsigned_text_nonempty.
    rewrite trim_minus_unsigned, has_minus_unsigned.
    case_bool_decide as Hz.
    + apply trim_left_nil in Hz.
      pose proof (parse_unsigned_zero _ _ Hz (parse_unsigned_text s z ltac:(lia))).
      simpl in *. subst. by rewrite parse_numeric_unsigned.
    + by apply parse_numeric_minus.
Qed.

(** ** Accepted decimals *)

(** The digits read and the rest do not depend on the accumulator. *)
Lemma take_digits_acc s : forall acc n,
  exists v, 0 <= v /\ take_digits s acc n =
    (acc * pow10 ((take_digits s 0 0).1.2) + v, (n + (take_digits s 0 0).1.2)%nat, (take_digits s 0 0).2).
Proof.
  induction s as [|c s IH]; intros acc n; cbn [take_digits].
  - exists 0. cbn. rewrite pow10_0. split; [lia|]. f_equal. f_equal; lia.
  - unfold digit_val. destruct (_ && _) eqn:E; cbn iota.
    + apply andb_true_iff in E as [E1 E2]. apply Z.leb_le in E1, E2.
      set (w := Z.of_N (N_of_ascii c) - 48) in *.
      destruct (IH (acc * 10 + w) (S n)) as (v & Hv & Ev).
      destruct (IH (0 * 10 + w) 1%nat) as (v' & Hv' & Ev'). rewrite Ev, Ev'. cbn [fst snd].
      exists (w * pow10 (take_digits s 0 0).1.2 + v). pose proof (pow10_pos (take_digits s 0 0).1.2).
      split; [unfold w; nia|]. replace (1 + (take_digits s 0 0).1.2)%nat with (S (take_digits s 0 0).1.2) by lia. rewrite pow10_S. f_equal. f_equal; [ring|lia].
    + exists 0. cbn. rewrite pow10_0. split; [lia|]. f_equal. f_equal; lia.
Qed.

(** A decimal the request check accepts parses to a nonnegative one with at
    most four decimals. *)
Lemma validDecimal_parse v :
  validDecimal v = true -> exists d, parse_numeric v = Some d /\ 0 <= mant d /\ (scale d <= 4)%nat.
Proof.
  unfold validDecimal, parse_numeric. set (s := trim_space v). intros [_ H]%andb_true_iff.
  unfold decimalPattern in H.
  destruct (take_digits_acc s 0 0) as (v0 & Hv0 & E0).
  destruct (take_digits s 0 0) as [[i n] rest] eqn:Es. simpl in E0.
  apply andb_true_iff in H as [Hn H]. apply Nat.ltb_lt in Hn.
  assert (Hp : exists d, parse_unsigned s = Some d /\ 0 <= mant d /\ (scale d <= 4)%nat).
  { unfold parse_unsigned. rewrite Es. assert (Hi : i = v0) by (injection E0; lia).
    destruct rest as [|c rest].
    - rewrite (proj2 (Nat.ltb_lt _ _) Hn). exists (Dec i 0). simpl. split; [done|]. split; lia.
    - destruct c as [[] [] [] [] [] [] [] []]; try discriminate H.
      destruct (take_digits_acc rest i 0) as (v1 & Hv1 & E1). rewrite E1.
      destruct (take_digits rest 0 0) as [[j k] rest'']. simpl in *.
      apply andb_true_iff in H as [[Hr Hk1]%andb_true_iff Hk4]. apply bool_decide_eq_true in Hr as ->.
      apply Nat.leb_le in Hk4. rewrite (proj2 (Nat.ltb_lt 0 (n + k)) ltac:(lia)).
      eexists. split; [done|]. simpl. pose proof (pow10_pos k). split; [nia|lia]. }
  destruct s as [|c s']; [simpl in Es; injection Es; lia|].
  destruct c as [[] [] [] [] [] [] [] []]; try exact Hp; simpl in Es; injection Es; lia.
Qed.
