(* ===== verification/Schema.v ===== *)
(** * The stock tables

    Rows of the Postgres tables the stock domain reads and writes, and the
    database state as one record.  A row type carries the columns the Go
    struct of the same name scans; [created_at]/[updated_at] are kept by
    triggers and not modelled.  A [numeric(14,3)] column is an integer
    number of millilitres ([Z], units of [10^-3]), [numeric(14,2)] a number
    of cents, [numeric(14,4)] units of [10^-4].  A text column restricted by a
    [CHECK ... IN (...)] constraint is an inductive type with one
    constructor per admitted value. *)

From stdpp Require Import base list strings.
From Stdlib Require Import ZArith.
From S2P Require Import Prelude.

(** ** stock_movements *)

Inductive movement_type :=
| TypeOpening | TypeDelivery | TypeSales | TypeAdjustment | TypeTransfer.

Inductive movement_status := StatusPosted | StatusReversed.

(** [chk_stock_mvt_source_ref_type] *)
Inductive source_ref :=
| SrcOpening | SrcDelivery | SrcShift | SrcAdjustment | SrcReconciliation
| SrcTransfer | SrcCorrection.

#[export] Instance movement_type_eq : EqDecision movement_type.
Proof. solve_decision. Defined.
#[export] Instance movement_status_eq : EqDecision movement_status.
Proof. solve_decision. Defined.
#[export] Instance source_ref_eq : EqDecision source_ref.
Proof. solve_decision. Defined.

Record Movement := mkMovement {
  mv_id : uuid;
  mv_seq : Z;
  mv_tenant : uuid;
  mv_tank : uuid;
  mv_type : movement_type;
  mv_src_type : option source_ref;
  mv_src_id : option uuid;
  mv_litres : Z;
  mv_balance_after : Z;
  mv_supplier : option uuid;
  mv_po : option uuid;
  mv_cost_total : option Z;
  mv_cost_per_litre : option Z;
  mv_recorded_by : uuid;
  mv_recorded_at : Z;
  mv_supersedes : option uuid;
  mv_status : movement_status;
  mv_notes : option string;
}.

(** The only change a posted movement admits. *)
Definition mark_reversed (m : Movement) : Movement :=
  mkMovement (mv_id m) (mv_seq m) (mv_tenant m) (mv_tank m) (mv_type m) (mv_src_type m)
    (mv_src_id m) (mv_litres m) (mv_balance_after m) (mv_supplier m) (mv_po m)
    (mv_cost_total m) (mv_cost_per_litre m) (mv_recorded_by m) (mv_recorded_at m)
    (mv_supersedes m) StatusReversed (mv_notes m).

(** ** stock_adjustments *)

Inductive adjustment_status := AdjRequested | AdjApproved | AdjPosted | AdjRejected.
#[export] Instance adjustment_status_eq : EqDecision adjustment_status.
Proof. solve_decision. Defined.

Record Adjustment := mkAdjustment {
  ad_id : uuid;
  ad_tenant : uuid;
  ad_tank : uuid;
  ad_delta : Z;
  ad_reason : string;
  ad_classification : string;
  ad_status : adjustment_status;
  ad_balance_before : option Z;
  ad_balance_after : option Z;
  ad_movement : option uuid;
  ad_requested_by : uuid;
  ad_approved_by : option uuid;
  ad_posted_by : option uuid;
  ad_rejected_by : option uuid;
  ad_note : option string;
  ad_requested_at : Z;
  ad_decided_at : option Z;
  ad_posted_at : option Z;
}.

(** ** opening_stock_requests *)

Inductive opening_status := OpDraft | OpApproved | OpRejected.
#[export] Instance opening_status_eq : EqDecision opening_status.
Proof. solve_decision. Defined.

Record OpeningRequest := mkOpeningRequest {
  or_id : uuid;
  or_tenant : uuid;
  or_tank : uuid;
  or_litres : Z;
  or_notes : option string;
  or_status : opening_status;
  or_movement : option uuid;
  or_balance_after : option Z;
  or_requested_by : uuid;
  or_approved_by : option uuid;
  or_rejected_by : option uuid;
  or_note : option string;
  or_requested_at : Z;
  or_decided_at : option Z;
}.

(** ** purchase orders and deliveries *)

Inductive po_status :=
| PODraft | POSubmitted | POConfirmed | POPartiallyReceived | POReceived | POClosed | POCancelled.
Inductive match_status := MatchLegacy | MatchMatched | MatchShort | MatchOver | MatchUnmatched.
#[export] Instance po_status_eq : EqDecision po_status.
Proof. solve_decision. Defined.
#[export] Instance match_status_eq : EqDecision match_status.
Proof. solve_decision. Defined.

(** The columns of an order that receiving does not read; a pair is the actor and the
    time of a step. *)
Record POHead := mkPOHead {
  ph_expected : option Z; ph_raised_by : uuid; ph_submitted : option (uuid * Z); ph_confirmed : option (uuid * Z);
  ph_cancelled : option (uuid * Z); ph_closed : option (uuid * Z); ph_notes : option string; ph_created : Z }.
Record PurchaseOrder := mkPO {
  po_id : uuid; po_tenant : uuid; po_station : uuid; po_supplier : uuid; po_st : po_status; po_head : POHead }.

Record POLine := mkPOLine {
  pl_id : uuid; pl_tenant : uuid; pl_po : uuid; pl_product : uuid;
  pl_ordered : Z; pl_unit_price : Z; pl_received : Z }.

(** The dip readings of a delivery are advisory and carried opaquely (the
    code only stores them). *)
Record Delivery := mkDelivery {
  dl_id : uuid;
  dl_tenant : uuid;
  dl_tank : uuid;
  dl_supplier_ref : option string;
  dl_supplier : option uuid;
  dl_po : option uuid;
  dl_po_line : option uuid;
  dl_volume : Z;
  dl_line_unit_price : option Z;
  dl_freight : Z;
  dl_duty : Z;
  dl_levies : Z;
  dl_cost_total : option Z;
  dl_cost_per_litre : option Z;
  dl_match : match_status;
  dl_quantity_variance : option Z;
  dl_received_by : uuid;
  dl_received_at : Z;
  dl_notes : option string;
}.

(** ** tank_reconciliations *)

Inductive recon_status := StatusDraft | StatusException | StatusSealed.
#[export] Instance recon_status_eq : EqDecision recon_status.
Proof. solve_decision. Defined.

Record Reconciliation := mkRecon {
  rc_id : uuid;
  rc_tenant : uuid;
  rc_tank : uuid;
  rc_day : uuid;
  rc_opening_book : Z;
  rc_deliveries : Z;
  rc_sales : Z;
  rc_adjustments : Z;
  rc_closing_book : Z;
  rc_closing_physical : Z;
  rc_variance : Z;
  rc_variance_percent : Z;
  rc_tolerance_percent : Z;
  rc_through_seq : Z;
  rc_status : recon_status;
  rc_sealed_by : option uuid;
  rc_sealed_at : option Z;
}.

(** ** stock_transfer_orders *)

Inductive transfer_status := TrDraft | TrApproved | TrDispatched | TrReceived | TrCancelled.
#[export] Instance transfer_status_eq : EqDecision transfer_status.
Proof. solve_decision. Defined.

Record Transfer := mkTransfer {
  tr_id : uuid;
  tr_tenant : uuid;
  tr_from : uuid;
  tr_to : uuid;
  tr_product : uuid;
  tr_litres : Z;
  tr_status : transfer_status;
  tr_out : option uuid;
  tr_in : option uuid;
  tr_created_by : uuid;
}.

(** ** Reference tables *)

(** [tk_deleted] is [status = 'deleted']. *)
Record Tank := mkTank {
  tk_tenant : uuid; tk_id : uuid; tk_station : uuid; tk_product : uuid; tk_deleted : bool }.

(** An [audit_logs] row and the [outbox_events] row written with it. *)
Record AuditRow := mkAudit { au_tenant : uuid; au_actor : uuid; au_action : string; au_entity : uuid }.

(** ** The database *)

Record DB := mkDB {
  db_movements : list Movement;
  db_next_seq : Z;
  db_adjustments : list Adjustment;
  db_openings : list OpeningRequest;
  db_deliveries : list Delivery;
  db_pos : list PurchaseOrder;
  db_po_lines : list POLine;
  db_recons : list Reconciliation;
  db_transfers : list Transfer;
  db_tanks : list Tank;
  db_products : list (uuid * uuid);
  db_users : list (uuid * uuid);
  db_suppliers : list (uuid * uuid);
  db_days : list (uuid * uuid);
  db_audit : list AuditRow;
  db_next_id : uuid;
  db_now : Z;
}.

(** One setter per column the code writes. *)
Definition set_movements (v : list Movement) (d : DB) : DB :=
  mkDB v (db_next_seq d) (db_adjustments d) (db_openings d) (db_deliveries d) (db_pos d)
    (db_po_lines d) (db_recons d) (db_transfers d) (db_tanks d) (db_products d) (db_users d)
    (db_suppliers d) (db_days d) (db_audit d) (db_next_id d) (db_now d).
Definition set_next_seq (v : Z) (d : DB) : DB :=
  mkDB (db_movements d) v (db_adjustments d) (db_openings d) (db_deliveries d) (db_pos d)
    (db_po_lines d) (db_recons d) (db_transfers d) (db_tanks d) (db_products d) (db_users d)
    (db_suppliers d) (db_days d) (db_audit d) (db_next_id d) (db_now d).
Definition set_adjustments (v : list Adjustment) (d : DB) : DB :=
  mkDB (db_movements d) (db_next_seq d) v (db_openings d) (db_deliveries d) (db_pos d)
    (db_po_lines d) (db_recons d) (db_transfers d) (db_tanks d) (db_products d) (db_users d)
    (db_suppliers d) (db_days d) (db_audit d) (db_next_id d) (db_now d).
Definition set_openings (v : list OpeningRequest) (d : DB) : DB :=
  mkDB (db_movements d) (db_next_seq d) (db_adjustments d) v (db_deliveries d) (db_pos d)
    (db_po_lines d) (db_recons d) (db_transfers d) (db_tanks d) (db_products d) (db_users d)
    (db_suppliers d) (db_days d) (db_audit d) (db_next_id d) (db_now d).
Definition set_deliveries (v : list Delivery) (d : DB) : DB :=
  mkDB (db_movements d) (db_next_seq d) (db_adjustments d) (db_openings d) v (db_pos d)
    (db_po_lines d) (db_recons d) (db_transfers d) (db_tanks d) (db_products d) (db_users d)
    (db_suppliers d) (db_days d) (db_audit d) (db_next_id d) (db_now d).
Definition set_pos (v : list PurchaseOrder) (d : DB) : DB :=
  mkDB (db_movements d) (db_next_seq d) (db_adjustments d) (db_openings d) (db_deliveries d) v
    (db_po_lines d) (db_recons d) (db_transfers d) (db_tanks d) (db_products d) (db_users d)
    (db_suppliers d) (db_days d) (db_audit d) (db_next_id d) (db_now d).
Definition set_po_lines (v : list POLine) (d : DB) : DB :=
  mkDB (db_movements d) (db_next_seq d) (db_adjustments d) (db_openings d) (db_deliveries d)
    (db_pos d) v (db_recons d) (db_transfers d) (db_tanks d) (db_products d) (db_users d)
    (db_suppliers d) (db_days d) (db_audit d) (db_next_id d) (db_now d).
Definition set_recons (v : list Reconciliation) (d : DB) : DB :=
  mkDB (db_movements d) (db_next_seq d) (db_adjustments d) (db_openings d) (db_deliveries d)
    (db_pos d) (db_po_lines d) v (db_transfers d) (db_tanks d) (db_products d) (db_users d)
    (db_suppliers d) (db_days d) (db_audit d) (db_next_id d) (db_now d).
Definition set_transfers (v : list Transfer) (d : DB) : DB :=
  mkDB (db_movements d) (db_next_seq d) (db_adjustments d) (db_openings d) (db_deliveries d)
    (db_pos d) (db_po_lines d) (db_recons d) v (db_tanks d) (db_products d) (db_users d)
    (db_suppliers d) (db_days d) (db_audit d) (db_next_id d) (db_now d).
Definition set_audit (v : list AuditRow) (d : DB) : DB :=
  mkDB (db_movements d) (db_next_seq d) (db_adjustments d) (db_openings d) (db_deliveries d)
    (db_pos d) (db_po_lines d) (db_recons d) (db_transfers d) (db_tanks d) (db_products d)
    (db_users d) (db_suppliers d) (db_days d) v (db_next_id d) (db_now d).
Definition set_next_id (v : uuid) (d : DB) : DB :=
  mkDB (db_movements d) (db_next_seq d) (db_adjustments d) (db_openings d) (db_deliveries d)
    (db_pos d) (db_po_lines d) (db_recons d) (db_transfers d) (db_tanks d) (db_products d)
    (db_users d) (db_suppliers d) (db_days d) (db_audit d) v (db_now d).

(** ** Errors *)

(** The error values of package [inventory], of the transfers of package
    [enterprise], and the SQL errors a statement can raise. *)
Inductive inv_error :=
| ErrMovementNotFound | ErrAlreadyReversed | ErrNoOpeningBalance | ErrOpeningExists
| ErrAdjustmentNotFound | ErrAdjustmentBadState | ErrAdjustmentSelfApprove
| ErrOpeningRequestNotFound | ErrOpeningRequestBadState | ErrOpeningRequestSelfApprove
| ErrOpeningRequestExists
| ErrBadState | ErrTransferNotFound | ErrProductMismatch | ErrInsufficientStock
| ErrPurchaseOrderNotReceivable | ErrPOLineNotFound | ErrReceiptTankMismatch | ErrOverReceipt
| ErrNoRows
| SqlUniqueViolation | SqlCheckViolation | SqlForeignKeyViolation | SqlNumericError.
#[export] Instance inv_error_eq : EqDecision inv_error.
Proof. solve_decision. Defined.

(** [isUniqueViolation] *)
Definition isUniqueViolation (e : inv_error) : bool := bool_decide (e = SqlUniqueViolation).

(** [audit.WriteWithOutbox]: one [audit_logs] row and its outbox event. *)
Definition WriteWithOutbox {E} (tenant actor : uuid) (action : string) (entity : uuid)
  : Tx DB E unit :=
  fun d => Ok (tt, set_audit (db_audit d ++ [mkAudit tenant actor action entity]) d).

Lemma WriteWithOutbox_ok {E} t u a i d x d' :
  WriteWithOutbox (E := E) t u a i d = Ok (x, d') ->
  d' = set_audit (db_audit d ++ [mkAudit t u a i]) d.
Proof. by intros [= _ <-]. Qed.

(** [gen_random_uuid()] *)
Definition fresh_uuid : Tx DB inv_error uuid :=
  fun d => Ok (db_next_id d, set_next_id (db_next_id d + 1)%N d).

Definition fk_tank (d : DB) (tenant tank : uuid) : bool :=
  exists_where (fun t => bool_decide (tk_tenant t = tenant /\ tk_id t = tank)) (db_tanks d).
Definition fk_po (d : DB) (tenant id : uuid) : bool :=
  exists_where (fun p => bool_decide (po_tenant p = tenant /\ po_id p = id)) (db_pos d).
