(* ===== verification/Ledger.v ===== *)
(** * The per-tank stock ledger (package [inventory]: repo.go, sales.go,
      costing.go, periods.go)

    Every litre moved in or out of a tank is one row of [stock_movements].
    Book stock is the sum of the rows; [balance_after] is a snapshot taken
    when the row is posted.  The operations below are the repository's,
    each a transaction on [DB].  [pg_advisory_xact_lock] serialises the
    posts to one tank, so a history of the ledger is a sequence of these
    transactions and they are modelled one at a time. *)

From stdpp Require Import base list strings.
From Stdlib Require Import ZArith Lia Sorted.
From S2P Require Import Prelude Numeric Schema.

Local Open Scope Z_scope.
Local Open Scope tx_scope.

Definition requiresOpening (movementType : movement_type) : bool :=
  match movementType with
  | TypeDelivery | TypeSales | TypeTransfer => true
  | TypeOpening | TypeAdjustment => false
  end.

Record PostInput := mkPostInput {
  pi_tank : uuid;
  pi_type : movement_type;
  pi_src_type : option source_ref;
  pi_src_id : option uuid;
  pi_litres : string;
  pi_supplier : option uuid;
  pi_po : option uuid;
  pi_cost_total : option string;
  pi_cost_per_litre : option string;
  pi_supersedes : option uuid;
  pi_recorded_by : uuid;
  pi_notes : option string;
}.

(** ** Reading the ledger *)

Definition on_tank (tenant tank : uuid) (m : Movement) : bool :=
  bool_decide (mv_tenant m = tenant /\ mv_tank m = tank).

Definition tank_rows (d : DB) (tenant tank : uuid) : list Movement :=
  select (on_tank tenant tank) (db_movements d).

(** [COALESCE(SUM(litres), 0)]: the tank's book stock. *)
Definition ledger_sum (d : DB) (tenant tank : uuid) : Z :=
  sum_by mv_litres (tank_rows d tenant tank).

Definition CurrentBalance (d : DB) (tenant tank : uuid) : string :=
  dec_text (coalesce_sum 3 mv_litres (tank_rows d tenant tank)).

Definition seq_le (a b : Movement) : bool := mv_seq a <=? mv_seq b.

Definition ListMovements (d : DB) (tenant tank : uuid) : list Movement :=
  order_by seq_le (tank_rows d tenant tank).

Definition ListMovementsPage (d : DB) (tenant tank : uuid) (limit offset : nat) : list Movement :=
  limit_offset limit offset (order_by seq_le (tank_rows d tenant tank)).

Definition by_id (tenant id : uuid) (m : Movement) : bool :=
  bool_decide (mv_id m = id /\ mv_tenant m = tenant).

Definition GetMovement (d : DB) (tenant id : uuid) : result inv_error Movement :=
  of_option ErrMovementNotFound (first_where (by_id tenant id) (db_movements d)).

Definition MaxSeqForTank (d : DB) (tenant tank : uuid) : Z :=
  max_by mv_seq 0 (tank_rows d tenant tank).

(** A posted ['opening'] that is not a reversal contra. *)
Definition hasOpeningPredicate (tenant tank : uuid) (m : Movement) : bool :=
  on_tank tenant tank m && bool_decide (mv_type m = TypeOpening)
  && bool_decide (mv_status m = StatusPosted)
  && negb (bool_decide (mv_src_type m = Some SrcCorrection)).

Definition HasOpeningBalance (d : DB) (tenant tank : uuid) : bool :=
  exists_where (hasOpeningPredicate tenant tank) (db_movements d).

Definition hasOpeningTx (tenant tank : uuid) : Tx DB inv_error bool :=
  fun d => Ok (HasOpeningBalance d tenant tank, d).

(** [ORDER BY seq DESC LIMIT 1] *)
Definition OpeningBalance (d : DB) (tenant tank : uuid) : result inv_error Movement :=
  of_option ErrNoOpeningBalance
    (head (order_by (fun a b => mv_seq b <=? mv_seq a)
       (select (hasOpeningPredicate tenant tank) (db_movements d)))).

(** ** The constraints of [stock_movements] *)

Definition costs_nonnegative (m : Movement) : bool :=
  match mv_cost_total m with Some c => 0 <=? c | None => true end &&
  match mv_cost_per_litre m with Some c => 0 <=? c | None => true end.

(** [uq_stock_mvt_sales_per_shift_tank] *)
Definition in_sales_index (m : Movement) : bool :=
  bool_decide (mv_type m = TypeSales /\ mv_src_type m = Some SrcShift).
Definition sales_conflict (x m : Movement) : bool :=
  in_sales_index x && in_sales_index m && bool_decide (mv_tank x = mv_tank m)
  && bool_decide (mv_src_id x = mv_src_id m) && bool_decide (is_Some (mv_src_id m)).

(** [uq_stock_mvt_one_opening] *)
Definition opening_conflict (x m : Movement) : bool :=
  hasOpeningPredicate (mv_tenant m) (mv_tank m) x
  && hasOpeningPredicate (mv_tenant m) (mv_tank m) m.

(** [idx_stock_mvt_delivery_source_once] *)
Definition in_delivery_index (m : Movement) : bool :=
  bool_decide (mv_type m = TypeDelivery /\ mv_src_type m = Some SrcDelivery
               /\ is_Some (mv_src_id m) /\ mv_supersedes m = None).
Definition delivery_conflict (x m : Movement) : bool :=
  in_delivery_index x && in_delivery_index m
  && bool_decide (mv_tenant x = mv_tenant m) && bool_decide (mv_src_id x = mv_src_id m).

Definition unique_conflict (d : DB) (m : Movement) : bool :=
  exists_where (fun x => sales_conflict x m || opening_conflict x m || delivery_conflict x m)
    (db_movements d).

Definition movement_fks (d : DB) (m : Movement) : bool :=
  fk_tank d (mv_tenant m) (mv_tank m)
  && fk_pair (db_users d) (mv_tenant m) (mv_recorded_by m)
  && fk_opt (fk_pair (db_suppliers d) (mv_tenant m)) (mv_supplier m)
  && fk_opt (fk_po d (mv_tenant m)) (mv_po m).

Definition append_movement (m : Movement) (d : DB) : DB :=
  set_next_id (db_next_id d + 1)%N
    (set_next_seq (db_next_seq d + 1) (set_movements (db_movements d ++ [m]) d)).

(** [INSERT INTO stock_movements ... RETURNING]: checks, then the unique
    indexes, then the foreign keys. *)
Definition insert_movement (m : Movement) : Tx DB inv_error Movement := fun d =>
  if negb (costs_nonnegative m) then Err SqlCheckViolation
  else if unique_conflict d m then Err SqlUniqueViolation
  else if negb (movement_fks d m) then Err SqlForeignKeyViolation
  else Ok (m, append_movement m d).

(** [$n::numeric] assigned to a [numeric(p,s)] column. *)
Definition col_in (p s : nat) (v : string) : result inv_error Z :=
  of_option SqlNumericError (parse_numeric v ≫= numeric_col p s).

Definition col_in_opt (p s : nat) (v : option string) : result inv_error (option Z) :=
  match v with
  | None => Ok None
  | Some x => rbind (col_in p s x) (fun z => Ok (Some z))
  end.

(** ** Posting and reversing *)

Definition PostMovement (tenant : uuid) (inp : PostInput) : Tx DB inv_error Movement :=
  (if requiresOpening (pi_type inp) then
     let! has := hasOpeningTx tenant (pi_tank inp) in
     tguard has ErrNoOpeningBalance
   else tret tt) ;;!
  let! d := tget in
  let! amount := tlift (of_option SqlNumericError (parse_numeric (pi_litres inp))) in
  let! litres := tlift (of_option SqlNumericError (numeric_col 14 3 amount)) in
  let! balance := tlift (of_option SqlNumericError
    (numeric_col 14 3 (dec_add (dec_of 3 (ledger_sum d tenant (pi_tank inp))) amount))) in
  let! cost_total := tlift (col_in_opt 14 2 (pi_cost_total inp)) in
  let! cost_per_litre := tlift (col_in_opt 14 4 (pi_cost_per_litre inp)) in
  insert_movement
    (mkMovement (db_next_id d) (db_next_seq d) tenant (pi_tank inp) (pi_type inp)
       (pi_src_type inp) (pi_src_id inp) litres balance (pi_supplier inp) (pi_po inp)
       cost_total cost_per_litre (pi_recorded_by inp) (db_now d) (pi_supersedes inp)
       StatusPosted (pi_notes inp)).

(** [UPDATE stock_movements SET status = 'reversed' WHERE ... AND status =
    'posted' RETURNING] *)
Definition reversible (tenant id : uuid) (m : Movement) : bool :=
  by_id tenant id m && bool_decide (mv_status m = StatusPosted).

Definition contra_input (orig : Movement) (recordedBy : uuid) (notes : option string) : PostInput :=
  mkPostInput (mv_tank orig) (mv_type orig) (Some SrcCorrection) (Some (mv_id orig))
    (negateDecimal (numeric_text 3 (mv_litres orig))) None None None None
    (Some (mv_id orig)) recordedBy notes.

Definition ReverseMovement (tenant id recordedBy : uuid) (notes : option string)
  : Tx DB inv_error Movement :=
  let! d := tget in
  match first_where (reversible tenant id) (db_movements d) with
  | None =>
      match GetMovement d tenant id with
      | Err e => tfail e
      | Ok _ => tfail ErrAlreadyReversed
      end
  | Some orig =>
      tput (set_movements (update_where (reversible tenant id) mark_reversed (db_movements d)) d) ;;!
      PostMovement tenant (contra_input orig recordedBy notes)
  end.

Record OpeningInput := mkOpeningInput {
  oi_tank : uuid;
  oi_litres : string;
  oi_src_type : option source_ref;
  oi_recorded_by : uuid;
  oi_notes : option string;
}.

Definition SetOpeningBalance (tenant : uuid) (inp : OpeningInput) : Tx DB inv_error Movement :=
  let! has := hasOpeningTx tenant (oi_tank inp) in
  tguard (negb has) ErrOpeningExists ;;!
  tmaperr (fun e => if isUniqueViolation e then ErrOpeningExists else e)
    (PostMovement tenant
       (mkPostInput (oi_tank inp) TypeOpening
          (match oi_src_type inp with Some s => Some s | None => Some SrcOpening end) None
          (oi_litres inp) None None None None None (oi_recorded_by inp) (oi_notes inp))).

(** ** Costing *)

Definition costed_delivery (m : Movement) : bool :=
  bool_decide (mv_type m = TypeDelivery) && bool_decide (is_Some (mv_cost_per_litre m))
  && (0 <? mv_litres m) && bool_decide (mv_status m = StatusPosted)
  && bool_decide (mv_supersedes m = None).

Definition row_cost (m : Movement) : Z := mv_litres m * default 0 (mv_cost_per_litre m).

(** [SUM(litres * cost) / NULLIF(SUM(litres), 0)], kept as its numerator
    and denominator. *)
Definition weighted_average (rows : list Movement) : option (Z * Z) :=
  let den := sum_by mv_litres rows in
  if bool_decide (rows = []) || (den =? 0) then None else Some (sum_by row_cost rows, den).

Definition WeightedAverageCost (d : DB) (tenant tank : uuid) : option (Z * Z) :=
  weighted_average (select costed_delivery (tank_rows d tenant tank)).

Definition AverageLandedCostForStationProduct (d : DB) (tenant station product : uuid)
  : option (Z * Z) :=
  weighted_average
    (select (fun m => costed_delivery m && bool_decide (mv_tenant m = tenant) &&
       exists_where (fun t => bool_decide (tk_id t = mv_tank m /\ tk_tenant t = mv_tenant m
                       /\ tk_station t = station /\ tk_product t = product)) (db_tanks d))
       (db_movements d)).

(** ** Sales draw-down (sales.go) *)

(** A finite [float64]: [f_m * 2^f_e]. *)
Record float64 := F64 { f_m : Z; f_e : Z }.

Definition f_neg (x : float64) : float64 := F64 (- f_m x) (f_e x).

(** [n / d] rounded to the nearest integer, ties to even. *)
Definition round_half_even (n d : Z) : Z :=
  let q := n / d in
  let r := n mod d in
  if (d <? 2 * r) || ((2 * r =? d) && Z.odd q) then q + 1 else q.

(** The magnitude of [x] in thousandths, correctly rounded. *)
Definition f_milli (x : float64) : Z :=
  if 0 <=? f_e x then Z.abs (f_m x) * 1000 * 2 ^ f_e x
  else round_half_even (Z.abs (f_m x) * 1000) (2 ^ (- f_e x)).

(** [strconv.FormatFloat(x, 'f', 3, 64)] *)
Definition FormatFloat3 (x : float64) : string :=
  if f_m x <? 0 then ("-" ++ unsigned_text 3 (f_milli x))%string
  else unsigned_text 3 (f_milli x).

Record SaleLine := mkSaleLine { sl_tank : uuid; sl_litres : float64 }.

Definition shift_sale (tenant shift : uuid) (m : Movement) : bool :=
  bool_decide (mv_tenant m = tenant /\ mv_src_type m = Some SrcShift /\ mv_src_id m = Some shift
               /\ mv_type m = TypeSales /\ mv_status m = StatusPosted).

Definition SalesPostedForShift (d : DB) (tenant shift : uuid) : bool :=
  exists_where (shift_sale tenant shift) (db_movements d).

Definition sale_input (shift recordedBy : uuid) (ln : SaleLine) : PostInput :=
  mkPostInput (sl_tank ln) TypeSales (Some SrcShift) (Some shift)
    (FormatFloat3 (f_neg (sl_litres ln))) None None None None None recordedBy None.

(** The loop over the tanks of a shift. *)
Fixpoint post_sale_lines (tenant shift recordedBy : uuid) (lines : list SaleLine)
  (posted : list Movement) (skipped : list uuid) : Tx DB inv_error (list Movement * list uuid) :=
  match lines with
  | [] => tret (posted, skipped)
  | ln :: rest =>
      if f_m (sl_litres ln) =? 0 then post_sale_lines tenant shift recordedBy rest posted skipped
      else
        let! has := hasOpeningTx tenant (sl_tank ln) in
        if negb has then
          post_sale_lines tenant shift recordedBy rest posted (skipped ++ [sl_tank ln])
        else
          let! m := PostMovement tenant (sale_input shift recordedBy ln) in
          post_sale_lines tenant shift recordedBy rest (posted ++ [m]) skipped
  end.

Definition PostSalesForShift (tenant shift recordedBy : uuid) (lines : list SaleLine)
  : Tx DB inv_error (list Movement * list uuid) :=
  let! d := tget in
  if SalesPostedForShift d tenant shift then tret ([], [])
  else post_sale_lines tenant shift recordedBy lines [] [].

(** ** What posting does *)

(** The row [PostMovement] appends. *)
Record posted_row (tenant : uuid) (inp : PostInput) (d : DB) (m : Movement) : Prop := {
  pr_id : mv_id m = db_next_id d;
  pr_seq : mv_seq m = db_next_seq d;
  pr_tenant : mv_tenant m = tenant;
  pr_tank : mv_tank m = pi_tank inp;
  pr_type : mv_type m = pi_type inp;
  pr_src_type : mv_src_type m = pi_src_type inp;
  pr_src_id : mv_src_id m = pi_src_id inp;
  pr_supersedes : mv_supersedes m = pi_supersedes inp;
  pr_recorded_by : mv_recorded_by m = pi_recorded_by inp;
  pr_status : mv_status m = StatusPosted;
  pr_amount : exists a, parse_numeric (pi_litres inp) = Some a
    /\ mv_litres m = round_to 3 a
    /\ mv_balance_after m =
         round_to 3 (dec_add (dec_of 3 (ledger_sum d tenant (pi_tank inp))) a);
  pr_unique : unique_conflict d m = false;
  pr_fks : movement_fks d m = true;
  pr_costs : costs_nonnegative m = true;
}.

Lemma insert_movement_inv m d m' d' :
  insert_movement m d = Ok (m', d') ->
  m' = m /\ d' = append_movement m d /\ costs_nonnegative m = true
  /\ unique_conflict d m = false /\ movement_fks d m = true.
Proof.
  unfold insert_movement. intros H.
  destruct (costs_nonnegative m); simpl in H; [|done].
  destruct (unique_conflict d m); [done|].
  destruct (movement_fks d m); simpl in H; [|done]. by simplify_eq.
Qed.

Lemma PostMovement_inv tenant inp d m d' :
  PostMovement tenant inp d = Ok (m, d') ->
  posted_row tenant inp d m /\ d' = append_movement m d.
Proof.
  unfold PostMovement. intros H.
  assert (Ho : requiresOpening (pi_type inp) = true ->
    HasOpeningBalance d tenant (pi_tank inp) = true).
  { intros E. rewrite E in H. tx_unfold. unfold hasOpeningTx in H.
    by destruct (HasOpeningBalance d tenant (pi_tank inp)). }
  assert (Hb : (if requiresOpening (pi_type inp) then
     let! has := hasOpeningTx tenant (pi_tank inp) in tguard has ErrNoOpeningBalance
     else tret tt) d = Ok (tt, d)).
  { destruct (requiresOpening (pi_type inp)) eqn:E; [|done].
    tx_unfold. unfold hasOpeningTx. by rewrite Ho. }
  unfold tbind in H at 1. rewrite Hb in H. clear Hb.
  tx_unfold.
  destruct (parse_numeric (pi_litres inp)) as [a|] eqn:Ea; [|done].
  destruct (numeric_col 14 3 a) as [l|] eqn:El; [|done].
  destruct (numeric_col 14 3 (dec_add _ a)) as [b|] eqn:Eb; [|done].
  destruct (col_in_opt 14 2 _) as [ct|]; [|done].
  destruct (col_in_opt 14 4 _) as [cl|]; [|done].
  apply insert_movement_inv in H as (-> & -> & Hc & Hu & Hf).
  apply numeric_col_some in El as [-> _]. apply numeric_col_some in Eb as [-> _].
  split; [|done]. constructor; eauto.
Qed.

(** A column value printed and read back is unchanged. *)
Lemma col_in_text p s z b : col_in p s (numeric_text s z) = Ok b -> b = z.
Proof.
  unfold col_in, of_option. rewrite parse_numeric_text. simpl.
  destruct (numeric_col p s (Dec z s)) eqn:E; [|done]. intros [= <-].
  apply numeric_col_some in E as [-> _]. apply round_to_same.
Qed.

Lemma append_movement_rows m d tenant tank :
  tank_rows (append_movement m d) tenant tank =
  tank_rows d tenant tank ++ (if on_tank tenant tank m then [m] else []).
Proof. unfold tank_rows; simpl. rewrite select_app. simpl. done. Qed.

(** The text of a tank's balance once it has a row. *)
Lemma CurrentBalance_rows d tenant tank :
  tank_rows d tenant tank <> [] ->
  CurrentBalance d tenant tank = numeric_text 3 (ledger_sum d tenant tank).
Proof.
  unfold CurrentBalance, ledger_sum, coalesce_sum, dec_text.
  destruct (tank_rows d tenant tank) eqn:E; [done|reflexivity].
Qed.

Lemma append_movement_sum m d tenant tank :
  ledger_sum (append_movement m d) tenant tank =
  ledger_sum d tenant tank + (if on_tank tenant tank m then mv_litres m else 0).
Proof.
  unfold ledger_sum. rewrite append_movement_rows, sum_by_app.
  destruct (on_tank tenant tank m); simpl; lia.
Qed.

Lemma on_tank_true tenant tank m :
  on_tank tenant tank m = true <-> mv_tenant m = tenant /\ mv_tank m = tank.
Proof. apply bool_decide_eq_true. Qed.

Lemma on_tank_false tenant tank m :
  on_tank tenant tank m = false <-> ~ (mv_tenant m = tenant /\ mv_tank m = tank).
Proof. apply bool_decide_eq_false. Qed.

(** Marking rows reversed leaves every tank's book stock as it is. *)
Lemma mark_reversed_sum p d tenant tank :
  ledger_sum (set_movements (update_where p mark_reversed (db_movements d)) d) tenant tank
  = ledger_sum d tenant tank.
Proof.
  unfold ledger_sum, tank_rows; simpl.
  rewrite select_update by done. by apply sum_by_update.
Qed.

Lemma ReverseMovement_inv tenant id by_ notes d m d' :
  ReverseMovement tenant id by_ notes d = Ok (m, d') ->
  exists orig d1,
    In orig (db_movements d) /\ mv_id orig = id /\ mv_tenant orig = tenant
    /\ mv_status orig = StatusPosted
    /\ d1 = set_movements (update_where (reversible tenant id) mark_reversed (db_movements d)) d
    /\ posted_row tenant (contra_input orig by_ notes) d1 m
    /\ d' = append_movement m d1 /\ mv_litres m = - mv_litres orig.
Proof.
  unfold ReverseMovement, tbind, tget. intros H.
  destruct (first_where (reversible tenant id) (db_movements d)) as [orig|] eqn:Ef.
  - unfold tput in H. apply PostMovement_inv in H as [Hp ->].
    apply first_where_some in Ef as [Hin Hr]. unfold reversible, by_id in Hr.
    bool_solve. destruct_and!. exists orig. eexists. do 7 (split; [done|]).
    destruct (pr_amount _ _ _ _ Hp) as (a & Ha & Hl & _).
    simpl in Ha. rewrite parse_negateDecimal in Ha. simplify_eq.
    rewrite Hl. apply round_to_same.
  - destruct (GetMovement d tenant id); discriminate H.
Qed.

Lemma SetOpeningBalance_inv tenant inp d m d' :
  SetOpeningBalance tenant inp d = Ok (m, d') ->
  HasOpeningBalance d tenant (oi_tank inp) = false
  /\ d' = append_movement m d
  /\ posted_row tenant
       (mkPostInput (oi_tank inp) TypeOpening
          (match oi_src_type inp with Some s => Some s | None => Some SrcOpening end) None
          (oi_litres inp) None None None None None (oi_recorded_by inp) (oi_notes inp)) d m.
Proof.
  unfold SetOpeningBalance, tbind, hasOpeningTx, tguard, tmaperr. intros H.
  destruct (HasOpeningBalance d tenant (oi_tank inp)); simpl in H; [done|].
  destruct (PostMovement _ _ d) as [[m1 d1]|] eqn:E; [|done].
  apply PostMovement_inv in E as [Hp ->]. by simplify_eq.
Qed.

(** ** The ledger invariant *)

(** Every [balance_after] is the tank's running sum at its row. *)
Inductive snapshots : list Movement -> Prop :=
| snap_nil : snapshots []
| snap_snoc l m :
    snapshots l ->
    mv_balance_after m
      = sum_by mv_litres (select (on_tank (mv_tenant m) (mv_tank m)) l) + mv_litres m ->
    snapshots (l ++ [m]).

Definition supersedes_row (o c : Movement) : bool :=
  bool_decide (mv_supersedes c = Some (mv_id o)).

(** A contra refers to an earlier, reversed row of the same tank whose
    litres it negates. *)
Definition contra_of (l : list Movement) (c : Movement) : Prop :=
  forall o, mv_supersedes c = Some o ->
  exists m, In m l /\ mv_id m = o /\ mv_status m = StatusReversed
    /\ mv_tenant m = mv_tenant c /\ mv_tank m = mv_tank c
    /\ mv_litres c = - mv_litres m.

(** A row has one contra when it is reversed and none when it is posted. *)
Definition contra_count (l : list Movement) (m : Movement) : Prop :=
  length (select (supersedes_row m) l)
  = match mv_status m with StatusReversed => 1%nat | StatusPosted => 0%nat end.

Record ledger_base (l : list Movement) (next_seq : Z) (next_id : uuid) : Prop := {
  wf_seq : StronglySorted Z.lt (map mv_seq l);
  wf_seq_bound : forall m, In m l -> 0 < mv_seq m < next_seq;
  wf_next_seq : 0 < next_seq;
  wf_ids : List.NoDup (map mv_id l);
  wf_id_bound : forall m, In m l -> (mv_id m < next_id)%N;
  wf_sup_bound : forall m o, In m l -> mv_supersedes m = Some o -> (o < next_id)%N;
  wf_opening : forall tenant tank,
    (length (select (hasOpeningPredicate tenant tank) l) <= 1)%nat;
  wf_snapshots : snapshots l;
}.

Record ledger_wf (l : list Movement) (next_seq : Z) (next_id : uuid) : Prop := {
  wf_base : ledger_base l next_seq next_id;
  wf_contra : forall c, In c l -> contra_of l c;
  wf_contra_count : forall m, In m l -> contra_count l m;
}.

Definition Ledger_wf (d : DB) : Prop :=
  ledger_wf (db_movements d) (db_next_seq d) (db_next_id d).

(** The litre text has at most three decimals, the ledger's precision. *)
Definition milli_text (v : string) : Prop :=
  exists a, parse_numeric v = Some a /\ (scale a <= 3)%nat.

Lemma milli_text_col z : milli_text (numeric_text 3 z).
Proof. exists (Dec z 3). rewrite parse_numeric_text. simpl. auto. Qed.

Lemma milli_text_neg z : milli_text (negateDecimal (numeric_text 3 z)).
Proof. exists (Dec (- z) 3). rewrite parse_negateDecimal. simpl. auto. Qed.

#[export] Hint Resolve milli_text_col milli_text_neg : fuelgrid.

Lemma posted_balance tenant inp d m :
  posted_row tenant inp d m -> milli_text (pi_litres inp) ->
  mv_balance_after m = ledger_sum d tenant (pi_tank inp) + mv_litres m.
Proof.
  intros Hp (a & Ha & Hs). destruct (pr_amount _ _ _ _ Hp) as (a' & Ha' & -> & ->).
  rewrite Ha in Ha'. simplify_eq. by apply round_to_add.
Qed.

Lemma update_where_snoc {R} p (g : R -> R) l x :
  update_where p g (l ++ [x]) = update_where p g l ++ [if p x then g x else x].
Proof. unfold update_where. by rewrite List.map_app. Qed.

Lemma snapshots_reversed p l : snapshots l -> snapshots (update_where p mark_reversed l).
Proof.
  induction 1 as [|l m Hl IH Hm]; [constructor|].
  rewrite update_where_snoc. constructor; [done|].
  rewrite select_update by done. rewrite sum_by_update by done.
  by destruct (p m).
Qed.

(** In a well-formed ledger the snapshot of any row is the sum of the rows
    up to it. *)
Lemma snapshots_split l : snapshots l ->
  forall l1 m l2, l = l1 ++ m :: l2 ->
  mv_balance_after m
    = sum_by mv_litres (select (on_tank (mv_tenant m) (mv_tank m)) (l1 ++ [m])).
Proof.
  induction 1 as [|l x Hl IH Hx]; intros l1 m l2 E.
  - by destruct l1.
  - destruct (exists_last (l := m :: l2)) as (l3 & y & Hy); [done|].
    rewrite Hy, app_assoc in E. apply app_inj_tail in E as [-> ->].
    destruct l3 as [|z l3]; simpl in Hy; simplify_eq.
    + rewrite app_nil_r in Hx. rewrite select_app, sum_by_app, Hx. simpl.
      rewrite (proj2 (on_tank_true _ _ _)) by done. simpl. lia.
    + eapply IH. done.
Qed.

Lemma StronglySorted_snoc (l : list Z) x :
  StronglySorted Z.lt l -> (forall y, In y l -> y < x) -> StronglySorted Z.lt (l ++ [x]).
Proof.
  induction 1 as [|y l Hs IH Hf]; simpl; intros Hx; [repeat constructor|].
  constructor; [apply IH; auto|].
  apply List.Forall_forall. intros z [Hz|[<-|[]]]%in_app_or; [|auto].
  rewrite List.Forall_forall in Hf. auto.
Qed.

Lemma NoDup_snoc {A} (l : list A) x :
  List.NoDup l -> ~ In x l -> List.NoDup (l ++ [x]).
Proof.
  induction 1 as [|y l Hy Hl IH]; simpl; intros Hx; [repeat constructor; auto|].
  constructor; [|apply IH; auto].
  intros [H|[<-|[]]]%in_app_or; auto.
Qed.

Lemma NoDup_map_eq {A B} (f : A -> B) (l : list A) a b :
  List.NoDup (map f l) -> In a l -> In b l -> f a = f b -> a = b.
Proof.
  induction l as [|x l IH]; simpl; [done|]. intros Hnd Ha Hb Hf.
  apply List.NoDup_cons_iff in Hnd as [Hx Hnd].
  destruct Ha as [->|Ha], Hb as [->|Hb]; [done| | |auto].
  - destruct Hx. rewrite Hf. by apply List.in_map.
  - destruct Hx. rewrite <- Hf. by apply List.in_map.
Qed.

Lemma in_snoc {A} (x y : A) l : In x (l ++ [y]) <-> In x l \/ x = y.
Proof. rewrite in_app_iff. simpl. intuition congruence. Qed.

(** Preservation of the base invariant by the two primitive changes. *)

Lemma base_append tenant inp d m :
  ledger_base (db_movements d) (db_next_seq d) (db_next_id d) ->
  posted_row tenant inp d m -> milli_text (pi_litres inp) ->
  (forall o, pi_supersedes inp = Some o -> (o < db_next_id d)%N) ->
  ledger_base (db_movements d ++ [m]) (db_next_seq d + 1) (db_next_id d + 1)%N.
Proof.
  intros [Hs Hsb Hns Hid Hib Hsup Hop Hsn] Hp Ht Ho. constructor.
  - rewrite map_app. apply StronglySorted_snoc; [done|].
    intros y (x & <- & Hx)%List.in_map_iff. rewrite (pr_seq _ _ _ _ Hp).
    by apply Hsb.
  - intros x [Hx| ->]%in_snoc; [apply Hsb in Hx; lia|]. rewrite (pr_seq _ _ _ _ Hp). lia.
  - lia.
  - rewrite map_app. apply NoDup_snoc; [done|].
    intros (x & Hx & Hin)%List.in_map_iff. rewrite (pr_id _ _ _ _ Hp) in Hx.
    apply Hib in Hin. lia.
  - intros x [Hx| ->]%in_snoc; [apply Hib in Hx; lia|]. rewrite (pr_id _ _ _ _ Hp). lia.
  - intros x o [Hx| ->]%in_snoc Hxo; [specialize (Hsup x o Hx Hxo); lia|].
    rewrite (pr_supersedes _ _ _ _ Hp) in Hxo. specialize (Ho o Hxo). lia.
  - intros t k. rewrite select_app, length_app. simpl.
    destruct (hasOpeningPredicate t k m) eqn:E; [|rewrite Nat.add_0_r; apply Hop].
    rewrite select_none; [simpl; lia|]. intros x Hx.
    destruct (hasOpeningPredicate t k x) eqn:Ex; [|done].
    pose proof (pr_unique _ _ _ _ Hp) as Hu. unfold unique_conflict in Hu.
    rewrite exists_where_false in Hu. specialize (Hu x Hx).
    apply orb_false_iff in Hu as [Hu _]. apply orb_false_iff in Hu as [_ Hu].
    assert (mv_tenant m = t /\ mv_tank m = k) as [<- <-].
    { apply on_tank_true. unfold hasOpeningPredicate in E. by bool_solve. }
    unfold opening_conflict in Hu. by rewrite E, Ex in Hu.
  - constructor; [done|]. rewrite (posted_balance _ _ _ _ Hp Ht).
    unfold ledger_sum, tank_rows. by rewrite (pr_tenant _ _ _ _ Hp), (pr_tank _ _ _ _ Hp).
Qed.

Lemma length_select_reversed q p l :
  (forall m, q (mark_reversed m) = false) ->
  (length (select q (update_where p mark_reversed l)) <= length (select q l))%nat.
Proof.
  intros Hq. induction l as [|m l IH]; simpl; [lia|].
  destruct (p m); [rewrite Hq; destruct (q m); simpl; lia|].
  destruct (q m); simpl; lia.
Qed.

Lemma base_reversed p l ns ni :
  ledger_base l ns ni -> ledger_base (update_where p mark_reversed l) ns ni.
Proof.
  intros [Hs Hsb Hns Hid Hib Hsup Hop Hsn]. constructor; [..|by apply snapshots_reversed].
  - by rewrite map_update_where.
  - intros m (r & Hr & ->)%in_update_where. destruct (p r); by apply Hsb in Hr.
  - done.
  - by rewrite map_update_where.
  - intros m (r & Hr & ->)%in_update_where. destruct (p r); by apply Hib in Hr.
  - intros m o (r & Hr & ->)%in_update_where Ho. apply (Hsup r o Hr).
    by destruct (p r).
  - intros t k. etransitivity; [apply length_select_reversed|apply Hop].
    intros m. unfold hasOpeningPredicate. simpl.
    by rewrite andb_false_r.
Qed.

Lemma base_mono l ns ni ni' :
  (ni <= ni')%N -> ledger_base l ns ni -> ledger_base l ns ni'.
Proof.
  intros Hle [Hs Hsb Hns Hid Hib Hsup Hop Hsn]. constructor; try done.
  - intros m Hm. apply Hib in Hm. lia.
  - intros m o Hm Ho. specialize (Hsup m o Hm Ho). lia.
Qed.

Lemma ledger_wf_mono l ns ni ni' : (ni <= ni')%N -> ledger_wf l ns ni -> ledger_wf l ns ni'.
Proof. intros H [Hb H1 H2]. constructor; eauto using base_mono. Qed.

(** Appending a row that is not a contra. *)
Lemma Ledger_wf_post tenant inp d m :
  Ledger_wf d -> posted_row tenant inp d m -> milli_text (pi_litres inp) ->
  pi_supersedes inp = None -> Ledger_wf (append_movement m d).
Proof.
  intros [Hb Hc Hcc] Hp Ht Hn.
  pose proof (pr_supersedes _ _ _ _ Hp) as Hs. rewrite Hn in Hs.
  unfold Ledger_wf; simpl. constructor.
  - eapply base_append; eauto. rewrite Hn. done.
  - intros c [Hin| ->]%in_snoc o Ho; [|congruence].
    destruct (Hc c Hin o Ho) as (x & Hx & ?). exists x. split; [apply in_snoc; auto|done].
  - assert (Hm : forall x, select (supersedes_row x) [m] = []).
    { intros x. simpl. unfold supersedes_row. rewrite Hs. by rewrite bool_decide_eq_false_2. }
    intros x [Hin| ->]%in_snoc; unfold contra_count; rewrite select_app, Hm, app_nil_r.
    + by apply Hcc.
    + rewrite (pr_status _ _ _ _ Hp), select_none; [done|].
      intros y Hy. apply bool_decide_eq_false. intros Ho.
      pose proof (wf_sup_bound _ _ _ Hb y _ Hy Ho). rewrite (pr_id _ _ _ _ Hp) in *. lia.
Qed.

Lemma reversible_id l ns ni tenant id orig r :
  ledger_base l ns ni -> In orig l -> mv_id orig = id -> In r l ->
  reversible tenant id r = true -> r = orig.
Proof.
  intros Hb Ho Hid Hr Hrev. unfold reversible, by_id in Hrev. bool_solve. destruct_and!.
  eapply (NoDup_map_eq mv_id); [apply (wf_ids _ _ _ Hb)|done..|congruence].
Qed.

Lemma Ledger_wf_reverse tenant id by_ notes d m d' :
  Ledger_wf d -> ReverseMovement tenant id by_ notes d = Ok (m, d') -> Ledger_wf d'.
Proof.
  intros [Hb Hc Hcc] H.
  apply ReverseMovement_inv in H as (orig & d1 & Hin & Hid & Hten & Hst & -> & Hp & -> & Hlit).
  set (p := reversible tenant id) in *.
  assert (Hrev : p orig = true).
  { unfold p, reversible, by_id. by rewrite !bool_decide_eq_true_2. }
  assert (Hsup : mv_supersedes m = Some (mv_id orig)) by apply (pr_supersedes _ _ _ _ Hp).
  unfold Ledger_wf; simpl. constructor.
  - eapply (base_append _ _ (set_movements _ d)); [by apply base_reversed|exact Hp| |].
    + simpl. auto with fuelgrid.
    + simpl. intros o [= <-]. by apply (wf_id_bound _ _ _ Hb).
  - assert (Hlift : forall c, contra_of (db_movements d) c -> contra_of
      (update_where p mark_reversed (db_movements d) ++ [m]) c).
    { intros c Hcc' o Ho. destruct (Hcc' o Ho) as (x & Hx & ? & ? & ?).
      exists (if p x then mark_reversed x else x). split.
      - apply in_snoc. left. apply in_update_where. eauto.
      - by destruct (p x). }
    intros c [(r & Hr & ->)%in_update_where| ->]%in_snoc.
    + destruct (p r); apply (Hlift _ (Hc r Hr)).
    + intros o Ho. rewrite Hsup in Ho. simplify_eq. exists (mark_reversed orig). split.
      * apply in_snoc. left. apply in_update_where. exists orig. by rewrite Hrev.
      * rewrite (pr_tenant _ _ _ _ Hp), (pr_tank _ _ _ _ Hp). simpl. rewrite Hlit. auto.
  - intros x Hx. unfold contra_count. rewrite select_app, length_app. simpl.
    rewrite select_update, length_update_where by done.
    unfold supersedes_row at 2. rewrite Hsup.
    apply in_snoc in Hx as [(r & Hr & ->)%in_update_where| ->].
    + pose proof (Hcc r Hr) as Hcr. unfold contra_count in Hcr.
      destruct (p r) eqn:Hpr.
      * assert (r = orig) as -> by (eapply reversible_id; eauto).
        rewrite bool_decide_eq_true_2 by done. simpl. rewrite Hst in Hcr. unfold supersedes_row in *.
        simpl. rewrite Hcr. done.
      * rewrite bool_decide_eq_false_2; [simpl; lia|]. intros [= Heq].
        assert (orig = r) as <- by (eapply (NoDup_map_eq mv_id); [apply (wf_ids _ _ _ Hb)|done..]).
        congruence.
    + rewrite (pr_status _ _ _ _ Hp), select_none.
      * rewrite bool_decide_eq_false_2; [done|]. intros [= Heq].
        pose proof (wf_id_bound _ _ _ Hb orig Hin). rewrite (pr_id _ _ _ _ Hp) in Heq. simpl in Heq. lia.
      * intros y Hy. apply bool_decide_eq_false. intros Ho.
        pose proof (wf_sup_bound _ _ _ Hb y _ Hy Ho). rewrite (pr_id _ _ _ _ Hp) in *. simpl in *. lia.
Qed.

(** ** Ledger extensions

    [ledger_ext d d'] says that [d'] comes from [d] by posting rows (three
    decimals, no contra) and by writes to other tables: what every operation
    but a reversal does to the ledger.  [step_at] states such a relation of a
    transaction; its rules follow the code, and [step_solve] applies them. *)

Definition ledger_same (d d' : DB) : Prop :=
  db_movements d' = db_movements d /\ db_next_seq d' = db_next_seq d
  /\ (db_next_id d <= db_next_id d')%N.

Inductive ledger_ext (d : DB) : DB -> Prop :=
| ext_refl : ledger_ext d d
| ext_other d1 d2 : ledger_ext d d1 -> ledger_same d1 d2 -> ledger_ext d d2
| ext_post d1 tenant inp m :
    ledger_ext d d1 -> posted_row tenant inp d1 m -> milli_text (pi_litres inp) ->
    pi_supersedes inp = None -> ledger_ext d (append_movement m d1).

Lemma ledger_ext_trans d1 d2 d3 : ledger_ext d1 d2 -> ledger_ext d2 d3 -> ledger_ext d1 d3.
Proof. intros H12 H23. induction H23; eauto using ledger_ext. Qed.

Lemma ledger_ext_same d d' : ledger_same d d' -> ledger_ext d d'.
Proof. intros H. eauto using ledger_ext. Qed.

Lemma Ledger_wf_ext d d' : Ledger_wf d -> ledger_ext d d' -> Ledger_wf d'.
Proof.
  intros Hwf. induction 1 as [|d1 d2 _ IH (E1 & E2 & E3)|]; [done| |eauto using Ledger_wf_post].
  unfold Ledger_wf in *. rewrite E1, E2. eauto using ledger_wf_mono.
Qed.

(** Rows are only ever appended. *)
Lemma ledger_ext_app d d' :
  ledger_ext d d' -> exists rows, db_movements d' = db_movements d ++ rows.
Proof.
  induction 1 as [|d1 d2 _ [rows IH] (E & _)|d1 t inp m _ [rows IH] _ _ _].
  - exists []. by rewrite app_nil_r.
  - exists rows. congruence.
  - exists (rows ++ [m]). simpl. by rewrite IH, app_assoc.
Qed.

(** [step_at R d c]: a successful run of [c] from [d] ends in a state related
    to [d] by [R].  The rules follow the code for any preorder [R]. *)
Definition step_at {E A} (R : DB -> DB -> Prop) (d : DB) (c : Tx DB E A) : Prop :=
  forall a d', c d = Ok (a, d') -> R d d'.

Abbreviation ext_at := (step_at ledger_ext).

(** The column of the state [f] is left as it is. *)
Definition same_column {B} (f : DB -> B) (d d' : DB) : Prop := f d' = f d.

#[export] Instance ledger_ext_pre : PreOrder ledger_ext.
Proof. split; [intros d; constructor|intros ???; apply ledger_ext_trans]. Qed.

#[export] Instance same_column_pre {B} (f : DB -> B) : PreOrder (same_column f).
Proof. split; unfold same_column; [done|intros ???; congruence]. Qed.

Section step_rules.
Context {E A B : Type} (R : DB -> DB -> Prop) `{!PreOrder R}.
Implicit Types (d s : DB) (e : E).

Lemma step_ret d (a : A) : step_at R d (tret (E := E) a).
Proof. by intros x d' [= _ <-]. Qed.

Lemma step_fail d e : step_at R d (tfail (A := A) e).
Proof. by intros x d' H. Qed.

Lemma step_lift d (r : result E A) : step_at R d (tlift r).
Proof. destruct r; intros x d' H; [by injection H as _ <-|done]. Qed.

Lemma step_put d s : R d s -> step_at R d (tput (E := E) s).
Proof. by intros H x d' [= _ <-]. Qed.

Lemma step_map_err d f (c : Tx DB E A) : step_at R d c -> step_at R d (tmaperr f c).
Proof.
  unfold step_at, tmaperr. intros H a d' Eq. destruct (c d) as [[x y]|]; [|done].
  apply (H a). by simplify_eq.
Qed.

Lemma step_conv {F} d (f : F -> E) (c : Tx DB F A) : step_at R d c -> step_at R d (tconv f c).
Proof.
  unfold step_at, tconv. intros H a d' Eq. destruct (c d) as [[x y]|]; [|done].
  apply (H a). by simplify_eq.
Qed.

Lemma step_audit d t u a i :
  R d (set_audit (db_audit d ++ [mkAudit t u a i]) d) ->
  step_at R d (WriteWithOutbox (E := E) t u a i).
Proof. by intros H x d' [= _ <-]. Qed.

Lemma step_bind d (c : Tx DB E A) (k : A -> Tx DB E B) :
  step_at R d c -> (forall a d', c d = Ok (a, d') -> step_at R d' (k a)) ->
  step_at R d (tbind c k).
Proof.
  intros Hc Hk b d' H. unfold tbind in H. destruct (c d) as [[a d1]|] eqn:Eq; [|done].
  etransitivity; [by eapply Hc|]. by eapply Hk.
Qed.

Lemma step_bind_get d (k : DB -> Tx DB E B) : step_at R d (k d) -> step_at R d (tbind tget k).
Proof. intros H b d' Eq. by apply (H b). Qed.

Lemma step_bind_guard d b e (k : unit -> Tx DB E B) :
  (b = true -> step_at R d (k tt)) -> step_at R d (tbind (tguard b e) k).
Proof.
  intros H x d' Eq. unfold tbind, tguard in Eq. destruct b; [|done]. by apply (H eq_refl x).
Qed.

Lemma step_bind_lift d (r : result E A) (k : A -> Tx DB E B) :
  (forall a, r = Ok a -> step_at R d (k a)) -> step_at R d (tbind (tlift r) k).
Proof.
  intros H x d' Eq. unfold tbind, tlift in Eq. destruct r as [a|]; [|done].
  by apply (H a eq_refl x).
Qed.

Lemma step_bind_put d s (k : unit -> Tx DB E B) :
  R d s -> step_at R s (k tt) -> step_at R d (tbind (tput s) k).
Proof. intros Hs Hk x d' Eq. etransitivity; [exact Hs|]. by apply (Hk x). Qed.
End step_rules.

Section step_inventory.
Context {B : Type} (R : DB -> DB -> Prop) `{!PreOrder R}.

Lemma step_bind_has d tenant tank (k : bool -> Tx DB inv_error B) :
  step_at R d (k (HasOpeningBalance d tenant tank)) ->
  step_at R d (tbind (hasOpeningTx tenant tank) k).
Proof. intros H x d' Eq. by apply (H x). Qed.

Lemma step_fresh d : R d (set_next_id (db_next_id d + 1)%N d) -> step_at R d fresh_uuid.
Proof. by intros H x d' [= _ <-]. Qed.

Lemma step_post d tenant inp :
  (forall m, posted_row tenant inp d m -> R d (append_movement m d)) ->
  step_at R d (PostMovement tenant inp).
Proof. intros H m d' [Hp ->]%PostMovement_inv. auto. Qed.
End step_inventory.

Lemma ledger_ext_post d tenant inp m :
  posted_row tenant inp d m -> milli_text (pi_litres inp) -> pi_supersedes inp = None ->
  ledger_ext d (append_movement m d).
Proof. intros. eapply ext_post; eauto using ext_refl. Qed.

(** Closes the leaves of [step_at]: a write, a drawn id, a post. *)
Ltac step_leaf :=
  lazymatch goal with
  | |- same_column _ _ _ => reflexivity
  | |- ledger_ext _ (append_movement _ _) =>
      eapply ledger_ext_post; [eassumption|simpl; by eauto with fuelgrid|done]
  | |- ledger_ext _ _ => apply ledger_ext_same; repeat split; simpl; (done || lia)
  | |- _ => solve [eauto with fuelgrid]
  end.
Ltac step_step :=
  lazymatch goal with
  | |- step_at _ _ (match ?x with _ => _ end) => let E := fresh "E" in destruct x eqn:E
  | |- step_at _ _ (tbind tget _) => apply step_bind_get
  | |- step_at _ _ (tbind (tguard _ _) _) => apply step_bind_guard; intros ?
  | |- step_at _ _ (tbind (tlift _) _) => apply step_bind_lift; intros ? ?
  | |- step_at _ _ (tbind (tput _) _) => apply step_bind_put; [apply _|step_leaf|]
  | |- step_at _ _ (tbind (hasOpeningTx _ _) _) => apply step_bind_has
  | |- step_at _ _ (tbind _ _) => apply step_bind; [apply _| |intros ? ? ?]
  | |- step_at _ _ (tret _) => apply step_ret; apply _
  | |- step_at _ _ (tfail _) => apply step_fail
  | |- step_at _ _ (tlift _) => apply step_lift; apply _
  | |- step_at _ _ (tput _) => apply step_put; step_leaf
  | |- step_at _ _ (tmaperr _ _) => apply step_map_err
  | |- step_at _ _ (tconv _ _) => apply step_conv
  | |- step_at _ _ (WriteWithOutbox _ _ _ _) => apply step_audit; step_leaf
  | |- step_at _ _ fresh_uuid => apply step_fresh; step_leaf
  | |- step_at _ _ (PostMovement _ _) => apply step_post; intros ? ?; step_leaf
  | |- step_at _ _ _ => solve [eauto with fuelgrid]
  end.
Ltac step_solve := repeat (cbn beta iota zeta; step_step).

Lemma ext_set_opening d tenant inp :
  milli_text (oi_litres inp) -> ext_at d (SetOpeningBalance tenant inp).
Proof. intros H. unfold SetOpeningBalance. step_solve. Qed.

(** *** Formatting a float litre figure *)

Lemma round_half_even_nonneg n d : 0 <= n -> 0 < d -> 0 <= round_half_even n d.
Proof.
  intros Hn Hd. unfold round_half_even.
  pose proof (Z.div_pos n d Hn Hd). destruct (_ || _); lia.
Qed.

Lemma f_milli_nonneg x : 0 <= f_milli x.
Proof.
  unfold f_milli. destruct (Z.leb_spec 0 (f_e x)).
  - pose proof (Z.pow_nonneg 2 (f_e x) ltac:(lia)). nia.
  - apply round_half_even_nonneg; [lia|]. apply Z.pow_pos_nonneg; lia.
Qed.

Lemma parse_FormatFloat3 x :
  parse_numeric (FormatFloat3 x) = Some (Dec (if f_m x <? 0 then - f_milli x else f_milli x) 3).
Proof.
  unfold FormatFloat3. pose proof (f_milli_nonneg x).
  destruct (f_m x <? 0); [by apply parse_numeric_minus|by apply parse_numeric_unsigned].
Qed.

Lemma milli_text_float x : milli_text (FormatFloat3 x).
Proof. eexists. rewrite parse_FormatFloat3. simpl. auto. Qed.

#[export] Hint Resolve milli_text_float ext_set_opening : fuelgrid.

Lemma ext_sale_lines tenant shift by_ lines : forall posted skipped d,
  ext_at d (post_sale_lines tenant shift by_ lines posted skipped).
Proof.
  induction lines as [|ln rest IH]; intros posted skipped d; simpl; step_solve; apply IH.
Qed.

#[export] Hint Resolve ext_sale_lines : fuelgrid.

Lemma ext_post_sales d tenant shift by_ lines :
  ext_at d (PostSalesForShift tenant shift by_ lines).
Proof. unfold PostSalesForShift. step_solve. Qed.
