(* ===== verification/LedgerProps.v ===== *)
(** * Properties of the stock ledger

    What the operations of [Ledger] guarantee: how a post moves book stock,
    that a reversal cancels exactly once, what a shift's sales draw-down
    does to every tank, the float boundary of that draw-down and the bounds
    of the weighted-average cost. *)

From stdpp Require Import base list strings.
From Stdlib Require Import ZArith Lia Sorted.
From S2P Require Import Prelude Numeric Schema Ledger.

Local Open Scope Z_scope.
Local Open Scope tx_scope.

(** ** A small database for examples *)

(** Tenant 1, user 2, tanks 10 and 11 of product 30 at station 20. *)
Definition demo_db : DB :=
  mkDB [] 1 [] [] [] [] [] [] [] [mkTank 1 10 20 30 false; mkTank 1 11 20 30 false] [(1, 30)]%N
    [(1, 2); (1, 3)]%N [(1, 4)]%N [(1, 40)]%N [] 100%N 0.

Definition demo_open (litres : string) (d : DB) : DB :=
  (run_tx (SetOpeningBalance 1 (mkOpeningInput 10 litres None 2 None)) d).2.

Definition demo_adjust (litres : string) : PostInput :=
  mkPostInput 10 TypeAdjustment (Some SrcAdjustment) (Some 77%N) litres None None None None None 2%N None.

(** ** Posting *)

(** C2. Posting a movement of at most three decimals moves the tank's book
    stock by exactly the posted amount, the row's [balance_after] is the new
    book stock, and no other tank's book stock changes. *)
Theorem PostMovement_balance tenant inp d m d' a :
  parse_numeric (pi_litres inp) = Some a -> (scale a <= 3)%nat ->
  PostMovement tenant inp d = Ok (m, d') ->
  ledger_sum d' tenant (pi_tank inp) = ledger_sum d tenant (pi_tank inp) + at_scale 3 a
  /\ CurrentBalance d' tenant (pi_tank inp) = numeric_text 3 (mv_balance_after m)
  /\ (forall t k, (t, k) <> (tenant, pi_tank inp) -> CurrentBalance d' t k = CurrentBalance d t k).
Proof.
  intros Ha Hs [Hp ->]%PostMovement_inv.
  assert (Hb := posted_balance _ _ _ _ Hp (ex_intro _ a (conj Ha Hs))).
  destruct (pr_amount _ _ _ _ Hp) as (a' & Ha' & Hl & _). simplify_eq.
  rewrite round_to_exact in Hl by done.
  pose proof (pr_tenant _ _ _ _ Hp). pose proof (pr_tank _ _ _ _ Hp).
  assert (Hon : on_tank tenant (pi_tank inp) m = true) by by apply on_tank_true.
  split; [|split].
  - rewrite append_movement_sum, Hon. lia.
  - rewrite CurrentBalance_rows, append_movement_sum, Hon, Hb; [done|].
    unfold tank_rows. simpl. rewrite select_app. simpl. rewrite Hon. by destruct (select _ _).
  - intros t k Hne. unfold CurrentBalance, tank_rows. simpl. rewrite select_app. simpl.
    rewrite (proj2 (on_tank_false t k m)); [by rewrite app_nil_r|]. intros [? ?]. congruence.
Qed.

Lemma PostMovement_balance_witness :
  exists m d', PostMovement 1 (demo_adjust "-12.5") (demo_open "100" demo_db) = Ok (m, d')
    /\ ledger_sum d' 1 10 = ledger_sum (demo_open "100" demo_db) 1 10 + -12500.
Proof.
  destruct (PostMovement 1 (demo_adjust "-12.5") (demo_open "100" demo_db)) as [[m d']|e] eqn:E;
    [|vm_compute in E; discriminate E].
  exists m, d'. split; [reflexivity|].
  apply (PostMovement_balance 1 (demo_adjust "-12.5") _ m d' (Dec (-125) 1)); [reflexivity|simpl; lia|exact E].
Defined.

(** The guard: stock moves only on an opened tank, corrections apart. *)
Lemma PostMovement_opening tenant inp d m d' :
  PostMovement tenant inp d = Ok (m, d') -> requiresOpening (pi_type inp) = true ->
  HasOpeningBalance d tenant (pi_tank inp) = true.
Proof.
  unfold PostMovement. intros H E. rewrite E in H. tx_step H. unfold tbind, hasOpeningTx, tguard in E0.
  by destruct (HasOpeningBalance d tenant (pi_tank inp)).
Qed.

(** With a fourth decimal the snapshot and the sum part ways: on a tank that
    holds an adjustment of -1 l, an opening of 0.0005 l is stored as 0.001 l
    while [balance_after] rounds the unrounded sum to -1.000 l; the tank's
    book stock is -0.999 l. *)
Theorem opening_fourth_decimal_drift :
  exists a d1 m d2, PostMovement 1 (demo_adjust "-1") demo_db = Ok (a, d1)
    /\ SetOpeningBalance 1 (mkOpeningInput 10 "0.0005" None 2 None) d1 = Ok (m, d2)
    /\ mv_balance_after m = -1000 /\ ledger_sum d2 1 10 = -999.
Proof.
  do 4 eexists. split; [vm_compute; reflexivity|]. split; [vm_compute; reflexivity|].
  split; vm_compute; reflexivity.
Qed.

(** ** Reversal *)

(** A reversal of an unknown movement fails as such, of a reversed one as
    already reversed. *)
Lemma ReverseMovement_reversed tenant id by_ notes d :
  (forall r, In r (db_movements d) -> reversible tenant id r = false) ->
  exists_where (by_id tenant id) (db_movements d) = true ->
  ReverseMovement tenant id by_ notes d = Err ErrAlreadyReversed.
Proof.
  intros Hn (r & Hr & Hid)%exists_where_true. unfold ReverseMovement, tbind, tget.
  destruct (first_where (reversible tenant id) (db_movements d)) as [x|] eqn:E.
  - apply first_where_some in E as [Hx E]. rewrite Hn in E; done.
  - unfold GetMovement, of_option. destruct (first_where (by_id tenant id) _) eqn:E2; [done|].
    eapply first_where_none in E2; [|exact Hr]. congruence.
Qed.

(** After a reversal no row with the id is reversible again. *)
Lemma reversed_not_reversible tenant id d m :
  Ledger_wf d -> mv_id m = db_next_id d -> (id < db_next_id d)%N ->
  forall r, In r (update_where (reversible tenant id) mark_reversed (db_movements d) ++ [m]) ->
  reversible tenant id r = false.
Proof.
  intros Hwf Hm Hlt r [(x & Hx & ->)%in_update_where| ->]%in_snoc.
  - destruct (reversible tenant id x) eqn:E; [|done].
    unfold reversible. simpl. by rewrite andb_false_r.
  - unfold reversible, by_id. rewrite bool_decide_eq_false_2; [done|]. intros [? _]. lia.
Qed.

(** Reversing a movement restores the tank's book stock to what it would
    be without it, changes no other tank, leaves every row but the
    original (now marked reversed) as it was and appends one contra that
    supersedes it; a second reversal of the same movement is refused. *)
Theorem ReverseMovement_nets tenant id by_ notes d m d' :
  Ledger_wf d -> ReverseMovement tenant id by_ notes d = Ok (m, d') ->
  exists orig, In orig (db_movements d) /\ mv_id orig = id /\ mv_tenant orig = tenant
    /\ mv_status orig = StatusPosted
    /\ mv_supersedes m = Some id /\ mv_litres m + mv_litres orig = 0
    /\ (forall t k, ledger_sum d' t k = ledger_sum d t k
          - (if bool_decide (t = tenant /\ k = mv_tank orig) then mv_litres orig else 0))
    /\ (forall r, In r (db_movements d) -> r <> orig -> In r (db_movements d'))
    /\ length (db_movements d') = S (length (db_movements d))
    /\ forall u n, ReverseMovement tenant id u n d' = Err ErrAlreadyReversed.
Proof.
  intros Hwf H.
  apply ReverseMovement_inv in H as (orig & d1 & Hin & Hid & Hten & Hst & -> & Hp & -> & Hlit).
  exists orig. do 4 (split; [done|]).
  split; [by rewrite (pr_supersedes _ _ _ _ Hp), <- Hid|]. split; [lia|].
  pose proof (pr_tenant _ _ _ _ Hp) as Ht. pose proof (pr_tank _ _ _ _ Hp) as Hk. simpl in Hk.
  split.
  { intros t k. rewrite append_movement_sum, mark_reversed_sum.
    unfold on_tank. rewrite Ht, Hk, Hlit.
    destruct (decide (t = tenant /\ k = mv_tank orig)) as [[-> ->]|Hne];
      [rewrite !bool_decide_eq_true_2 by done | rewrite !bool_decide_eq_false_2 by (intros [? ?]; apply Hne; auto)];
      lia. }
  split; [|split].
  - intros r Hr Hne. simpl. apply in_snoc. left. apply in_update_where. exists r. split; [done|].
    destruct (reversible tenant id r) eqn:E; [|done]. destruct Hne.
    eapply reversible_id; [apply Hwf|exact Hin|done|done|exact E].
  - simpl. rewrite length_app, length_update_where. simpl. lia.
  - intros u n. apply ReverseMovement_reversed; simpl.
    + eapply reversed_not_reversible; [done| |].
      * apply (pr_id _ _ _ _ Hp).
      * rewrite <- Hid. by apply (wf_id_bound _ _ _ (wf_base _ _ _ Hwf)).
    + apply exists_where_true. exists (mark_reversed orig). split.
      * apply in_snoc. left. apply in_update_where. exists orig.
        unfold reversible, by_id. by rewrite !bool_decide_eq_true_2.
      * unfold by_id. simpl. by rewrite bool_decide_eq_true_2.
Qed.

Lemma Ledger_wf_demo : Ledger_wf demo_db.
Proof. repeat constructor; simpl; (lia || done). Qed.

Lemma demo_open_wf v : milli_text v -> Ledger_wf (demo_open v demo_db).
Proof.
  intros Hv. unfold demo_open, run_tx.
  destruct (SetOpeningBalance 1 (mkOpeningInput 10 v None 2 None) demo_db) as [[m d']|e] eqn:E;
    simpl; [|apply Ledger_wf_demo].
  apply (Ledger_wf_ext demo_db); [apply Ledger_wf_demo|].
  by apply (ext_set_opening demo_db 1 (mkOpeningInput 10 v None 2 None)) in E.
Qed.

Lemma Ledger_wf_demo_open : Ledger_wf (demo_open "100" demo_db).
Proof. apply demo_open_wf. exists (Dec 100 0). split; [vm_compute; reflexivity|simpl; lia]. Qed.

Lemma ReverseMovement_nets_witness :
  exists m d', ReverseMovement 1 100 2 None (demo_open "100" demo_db) = Ok (m, d')
    /\ ReverseMovement 1 100 3 None d' = Err ErrAlreadyReversed.
Proof.
  destruct (ReverseMovement 1 100 2 None (demo_open "100" demo_db)) as [[m d']|e] eqn:E;
    [|vm_compute in E; discriminate E].
  exists m, d'. split; [reflexivity|].
  destruct (ReverseMovement_nets 1 100 2 None _ m d' Ledger_wf_demo_open E)
    as (o & _ & _ & _ & _ & _ & _ & _ & _ & _ & H).
  exact (H 3%N None).
Defined.

(** ** Sales draw-down *)

(** The litres in thousandths that [FormatFloat(_, 'f', 3, 64)] keeps. *)
Definition f_round3 (x : float64) : Z := if f_m x <? 0 then - f_milli x else f_milli x.

Lemma f_milli_neg x : f_milli (f_neg x) = f_milli x.
Proof. unfold f_milli, f_neg; simpl. by rewrite Z.abs_opp. Qed.

Lemma f_milli_zero x : f_m x = 0 -> f_milli x = 0.
Proof.
  intros H. unfold f_milli. rewrite H. destruct (Z.leb_spec 0 (f_e x)); [done|].
  unfold round_half_even. simpl. rewrite Z.mod_0_l, Z.div_0_l by (apply Z.pow_nonzero; lia).
  assert (0 < 2 ^ (- f_e x)) by (apply Z.pow_pos_nonneg; lia).
  destruct (2 ^ (- f_e x)); done.
Qed.

Lemma parse_sale shift by_ ln :
  parse_numeric (pi_litres (sale_input shift by_ ln)) = Some (Dec (- f_round3 (sl_litres ln)) 3).
Proof.
  simpl. rewrite parse_FormatFloat3, f_milli_neg. unfold f_round3. simpl.
  destruct (Z.ltb_spec (- f_m (sl_litres ln)) 0), (Z.ltb_spec (f_m (sl_litres ln)) 0); try lia;
    do 2 f_equal; [lia|].
  rewrite f_milli_zero by lia. done.
Qed.

(** The lines of one tank that are posted or skipped. *)
Definition line_on (k : uuid) (ln : SaleLine) : Z :=
  if bool_decide (sl_tank ln = k) then f_round3 (sl_litres ln) else 0.
Definition sale_out (d : DB) (tenant t k : uuid) (lines : list SaleLine) : Z :=
  if bool_decide (t = tenant) && HasOpeningBalance d tenant k then sum_by (line_on k) lines else 0.
Definition no_opening (d : DB) (tenant : uuid) (ln : SaleLine) : bool :=
  negb (f_m (sl_litres ln) =? 0) && negb (HasOpeningBalance d tenant (sl_tank ln)).

Lemma has_opening_sale m d tenant k :
  mv_type m = TypeSales ->
  HasOpeningBalance (append_movement m d) tenant k = HasOpeningBalance d tenant k.
Proof.
  intros Hm. unfold HasOpeningBalance, exists_where. simpl. rewrite List.existsb_app. simpl.
  unfold hasOpeningPredicate at 2. rewrite Hm.
  rewrite (bool_decide_eq_false_2 (TypeSales = TypeOpening)) by done.
  by rewrite andb_false_r, !orb_false_r.
Qed.

Record sales_posted (tenant shift : uuid) (lines : list SaleLine) (d : DB)
  (posted : list Movement) (skipped : list uuid) (d' : DB) : Prop := {
  sp_sum : forall t k, ledger_sum d' t k = ledger_sum d t k - sale_out d tenant t k lines;
  sp_skipped : skipped = map sl_tank (select (no_opening d tenant) lines);
  sp_posted : length posted
    = length (select (fun ln => negb (f_m (sl_litres ln) =? 0)
                                && HasOpeningBalance d tenant (sl_tank ln)) lines);
  sp_rows : db_movements d' = db_movements d ++ posted;
  sp_sale : forall m, In m posted -> shift_sale tenant shift m = true;
}.

Section sale_steps.
Context (tenant shift by_ : uuid) (ln : SaleLine) (rest : list SaleLine) (d d' : DB)
  (p : list Movement) (s : list uuid).

Lemma sales_posted_zero :
  f_m (sl_litres ln) = 0 -> sales_posted tenant shift rest d p s d' ->
  sales_posted tenant shift (ln :: rest) d p s d'.
Proof.
  intros Hz [H1 H2 H3 H4 H5]. constructor; [|simpl; unfold no_opening at 1|simpl|..];
    rewrite ?Hz; try done.
  intros t k. rewrite H1. unfold sale_out. simpl. unfold line_on at 2.
  unfold f_round3. rewrite Hz, f_milli_zero by done. simpl.
  destruct (_ && _); [|done]. case_bool_decide; lia.
Qed.

Lemma sales_posted_skip :
  f_m (sl_litres ln) <> 0 -> HasOpeningBalance d tenant (sl_tank ln) = false ->
  sales_posted tenant shift rest d p s d' ->
  sales_posted tenant shift (ln :: rest) d p (sl_tank ln :: s) d'.
Proof.
  intros Hz%Z.eqb_neq Eh [H1 H2 H3 H4 H5]. constructor; try done.
  - intros t k. rewrite H1. unfold sale_out. simpl. unfold line_on at 2.
    destruct (decide (sl_tank ln = k)) as [<-|Hk]; [by rewrite Eh, andb_false_r|].
    rewrite (bool_decide_eq_false_2 (sl_tank ln = k)) by done. by rewrite Z.add_0_l.
  - simpl. unfold no_opening at 1. rewrite Hz, Eh. simpl. by rewrite H2.
  - simpl. by rewrite Hz, Eh.
Qed.

Lemma sales_posted_post m :
  f_m (sl_litres ln) <> 0 -> HasOpeningBalance d tenant (sl_tank ln) = true ->
  posted_row tenant (sale_input shift by_ ln) d m ->
  sales_posted tenant shift rest (append_movement m d) p s d' ->
  sales_posted tenant shift (ln :: rest) d (m :: p) s d'.
Proof.
  intros Hz%Z.eqb_neq Eh Hp [H1 H2 H3 H4 H5].
  destruct (pr_amount _ _ _ _ Hp) as (a & Ha & Hl & _).
  rewrite parse_sale in Ha. injection Ha as <-. rewrite round_to_same in Hl.
  pose proof (pr_tenant _ _ _ _ Hp) as Ht. pose proof (pr_tank _ _ _ _ Hp) as Hk.
  pose proof (fun k => has_opening_sale m d tenant k (pr_type _ _ _ _ Hp)) as Ho. constructor.
  - intros t k. rewrite H1, append_movement_sum. unfold sale_out, on_tank.
    rewrite Ho, Ht, Hk, Hl. simpl. unfold line_on at 2.
    destruct (decide (t = tenant)) as [->|Hne].
    + rewrite (bool_decide_eq_true_2 (tenant = tenant)) by done. simpl.
      destruct (decide (sl_tank ln = k)) as [<-|Hnk].
      * rewrite Eh, !bool_decide_eq_true_2 by done. lia.
      * rewrite !bool_decide_eq_false_2 by tauto. by rewrite Z.add_0_r, Z.add_0_l.
    + rewrite !bool_decide_eq_false_2 by (try intros [? ?]; congruence). simpl. lia.
  - rewrite H2. simpl. unfold no_opening at 2. rewrite Eh, andb_false_r.
    f_equal. apply select_ext. intros x _. unfold no_opening. by rewrite Ho.
  - simpl. rewrite Hz, Eh. simpl. f_equal. rewrite H3. f_equal. apply select_ext.
    intros x _. by rewrite Ho.
  - rewrite H4. simpl. by rewrite <- app_assoc.
  - intros x [<-|Hx]; [|auto]. unfold shift_sale.
    rewrite Ht, (pr_src_type _ _ _ _ Hp), (pr_src_id _ _ _ _ Hp), (pr_type _ _ _ _ Hp),
      (pr_status _ _ _ _ Hp). by apply bool_decide_eq_true_2.
Qed.
End sale_steps.

Lemma post_sale_lines_posted tenant shift by_ lines : forall posted skipped d r d',
  post_sale_lines tenant shift by_ lines posted skipped d = Ok (r, d') ->
  exists p s, r = (posted ++ p, skipped ++ s) /\ sales_posted tenant shift lines d p s d'.
Proof.
  induction lines as [|ln rest IH]; intros posted skipped d r d' H; simpl in H.
  - injection H as <- <-. exists [], []. rewrite !app_nil_r. split; [done|].
    constructor; rewrite ?app_nil_r; try done.
    intros t k. unfold sale_out. destruct (_ && _); simpl; lia.
  - destruct (Z.eqb_spec (f_m (sl_litres ln)) 0) as [Hz|Hz].
    + apply IH in H as (p & s & -> & H). eauto using sales_posted_zero.
    + unfold tbind, hasOpeningTx in H.
      destruct (HasOpeningBalance d tenant (sl_tank ln)) eqn:Eh; simpl in H.
      * destruct (PostMovement _ _ d) as [[m d1]|] eqn:Ep; [|done].
        apply IH in H as (p & s & -> & H). apply PostMovement_inv in Ep as [Hp ->].
        exists (m :: p), s. rewrite <- app_assoc. eauto using sales_posted_post.
      * apply IH in H as (p & s & -> & H). exists p, (sl_tank ln :: s).
        rewrite <- app_assoc. eauto using sales_posted_skip.
Qed.

(** A shift's sales draw every opened tank down by the sum of its lines,
    each rounded to a thousandth of a litre, and no other tank; the tanks
    without an opening balance are exactly the ones reported as skipped;
    and running it again once anything was posted changes nothing. *)
Theorem PostSalesForShift_drawdown tenant shift by_ lines d posted skipped d' :
  SalesPostedForShift d tenant shift = false ->
  PostSalesForShift tenant shift by_ lines d = Ok ((posted, skipped), d') ->
  (forall t k, ledger_sum d' t k = ledger_sum d t k - sale_out d tenant t k lines)
  /\ db_movements d' = db_movements d ++ posted
  /\ skipped = map sl_tank (select (no_opening d tenant) lines)
  /\ (length posted + length skipped)%nat
      = length (select (fun ln => negb (f_m (sl_litres ln) =? 0)) lines)
  /\ (posted <> [] -> forall u lines',
        PostSalesForShift tenant shift u lines' d' = Ok (([], []), d')).
Proof.
  intros Hn H. unfold PostSalesForShift, tbind, tget in H. rewrite Hn in H.
  apply post_sale_lines_posted in H as (p & s & [= -> ->] & [H1 H2 H3 H4 H5]). simpl in *.
  repeat (split; [done|]). split.
  - rewrite H2, H3, List.length_map. clear. unfold no_opening.
    induction lines as [|ln rest IH]; simpl; [done|].
    destruct (f_m (sl_litres ln) =? 0); simpl; [done|].
    destruct (HasOpeningBalance d tenant (sl_tank ln)); simpl; lia.
  - intros Hne u lines'. unfold PostSalesForShift, tbind, tget.
    destruct p as [|m p]; [done|].
    replace (SalesPostedForShift d' tenant shift) with true; [done|]. symmetry.
    apply exists_where_true. exists m. split; [|apply H5; simpl; auto].
    rewrite H4. apply in_app_iff. simpl. auto.
Qed.

(** 12.345 l as the nearest [float64]. *)
Definition f12_345 : float64 := F64 6949617174986097 (-49).

Definition demo_lines : list SaleLine := [mkSaleLine 10 f12_345; mkSaleLine 11 f12_345].

Lemma PostSalesForShift_drawdown_witness :
  exists posted d', PostSalesForShift 1 50 2 demo_lines (demo_open "100" demo_db) = Ok ((posted, [11%N]), d')
    /\ ledger_sum d' 1 10 = 100000 - 12345
    /\ PostSalesForShift 1 50 2 demo_lines d' = Ok (([], []), d').
Proof.
  destruct (PostSalesForShift 1 50 2 demo_lines (demo_open "100" demo_db)) as [[[p s] d']|e] eqn:E;
    [|vm_compute in E; discriminate E].
  destruct (PostSalesForShift_drawdown 1 50 2 demo_lines (demo_open "100" demo_db) p s d')
    as (H1 & H2 & H3 & H4 & H5); [vm_compute; reflexivity|exact E|].
  exists p, d'. replace s with [11%N] by (rewrite H3; vm_compute; reflexivity).
  split; [reflexivity|]. split; [rewrite H1; vm_compute; reflexivity|].
  apply H5. intros ->. rewrite H3 in H4. vm_compute in H4. discriminate H4.
Defined.

(** The draw-down has no backfill: a shift whose first tank was posted and
    whose second was skipped for want of an opening balance posts nothing
    when it is run again after the second tank is opened, so those litres
    never leave the second tank's book stock. *)
Theorem PostSalesForShift_no_backfill :
  let d0 := demo_open "100" demo_db in
  exists m d1, PostSalesForShift 1 50 2 demo_lines d0 = Ok (([m], [11%N]), d1) /\
  exists o d2, SetOpeningBalance 1 (mkOpeningInput 11 "500" None 2 None) d1 = Ok (o, d2) /\
  PostSalesForShift 1 50 2 demo_lines d2 = Ok (([], []), d2) /\
  ledger_sum d2 1 11 = 500000.
Proof.
  do 2 eexists. split; [vm_compute; reflexivity|].
  do 2 eexists. split; [vm_compute; reflexivity|].
  split; vm_compute; reflexivity.
Qed.

(** ** The float boundary *)

Lemma round_half_even_near n d q : 2 * Z.abs (n - q * d) < d -> round_half_even n d = q.
Proof.
  intros H. unfold round_half_even.
  destruct (Z.le_gt_cases 0 (n - q * d)).
  - assert (n / d = q /\ n mod d = n - q * d) as [-> ->].
    { split; [symmetry; apply Z.div_unique with (n - q * d)
             |symmetry; apply Z.mod_unique with q]; lia. }
    destruct (Z.ltb_spec d (2 * (n - q * d))); [lia|].
    destruct (Z.eqb_spec (2 * (n - q * d)) d); [lia|done].
  - assert (n / d = q - 1 /\ n mod d = n - (q - 1) * d) as [-> ->].
    { split; [symmetry; apply Z.div_unique with (n - (q - 1) * d)
             |symmetry; apply Z.mod_unique with (q - 1)]; lia. }
    destruct (Z.ltb_spec d (2 * (n - (q - 1) * d))); simpl; lia.
Qed.

(** [x] is the [float64] nearest to [k] thousandths: a 53-bit mantissa, and
    within half a unit in the last place. *)
Definition nearest_double (k : Z) (x : float64) : Prop :=
  2 ^ 52 <= Z.abs (f_m x) < 2 ^ 53 /\ f_e x < 0
  /\ 2 * Z.abs (1000 * f_m x - k * 2 ^ (- f_e x)) <= 1000.

Lemma nearest_double_scale k x :
  Z.abs k < 10 ^ 14 -> nearest_double k x -> 1000 < 2 ^ (- f_e x) /\ Z.sgn k = Z.sgn (f_m x).
Proof.
  intros Hk (Hm & He & Hn). set (E := 2 ^ (- f_e x)) in *.
  assert (0 < E) by (apply Z.pow_pos_nonneg; lia).
  assert (Hbig : 1000 * 2 ^ 52 - 500 <= Z.abs k * E) by (destruct (Z.abs_spec k); nia).
  assert (1000 < E) by nia. split; [done|].
  destruct (Z.lt_trichotomy (f_m x) 0) as [?|[?|?]]; [|lia|].
  - rewrite !Z.sgn_neg; [done|lia|]. nia.
  - rewrite !Z.sgn_pos; [done|lia|]. nia.
Qed.

(** Formatting the nearest double of a litre figure that fits the column gives
    the figure back. *)
Lemma FormatFloat3_nearest k x :
  Z.abs k < 10 ^ 14 -> nearest_double k x ->
  parse_numeric (FormatFloat3 x) = Some (Dec k 3).
Proof.
  intros Hk Hx. destruct (nearest_double_scale k x Hk Hx) as [HE Hs].
  destruct Hx as (Hm & He & Hn). rewrite parse_FormatFloat3. do 2 f_equal.
  assert (Hr : f_milli x = Z.abs k).
  { unfold f_milli. destruct (Z.leb_spec 0 (f_e x)); [lia|].
    apply round_half_even_near.
    destruct (Z.abs_spec k) as [[? ->]|[? ->]], (Z.abs_spec (f_m x)) as [[? ->]|[? ->]]; lia. }
  rewrite Hr. destruct (Z.ltb_spec (f_m x) 0); lia.
Qed.

(** ** Weighted-average cost *)

Lemma costed_delivery_inv m :
  costed_delivery m = true -> 0 < mv_litres m /\ exists c, mv_cost_per_litre m = Some c.
Proof.
  unfold costed_delivery. rewrite !andb_true_iff, !bool_decide_eq_true, Z.ltb_lt.
  intros [[[[_ [c Hc]] Hl] _] _]. eauto.
Qed.

Lemma weighted_average_bounds lo hi rows :
  (forall m, In m rows -> 0 < mv_litres m /\ exists c, mv_cost_per_litre m = Some c /\ lo <= c <= hi) ->
  0 <= sum_by mv_litres rows
  /\ lo * sum_by mv_litres rows <= sum_by row_cost rows <= hi * sum_by mv_litres rows
  /\ (rows <> [] -> 0 < sum_by mv_litres rows).
Proof.
  induction rows as [|m rows IH]; intros H; [simpl; split; [lia|split; [lia|done]]|].
  destruct (H m (or_introl eq_refl)) as (Hl & c & Hc & Hb).
  destruct IH as (IH1 & IH2 & _); [intros; apply H; simpl; auto|].
  simpl. unfold row_cost at 1 3. rewrite Hc. simpl. split; [lia|]. split; [nia|lia].
Qed.

(** A tank's weighted-average cost exists exactly when it has a live costed
    delivery, and then lies between any bounds on the costs of those
    deliveries (the quotient is kept as numerator over denominator). *)
Theorem WeightedAverageCost_bounds d tenant tank lo hi :
  (forall m c, In m (tank_rows d tenant tank) -> costed_delivery m = true ->
     mv_cost_per_litre m = Some c -> lo <= c <= hi) ->
  (WeightedAverageCost d tenant tank = None <->
     forall m, In m (tank_rows d tenant tank) -> costed_delivery m = false)
  /\ forall num den, WeightedAverageCost d tenant tank = Some (num, den) ->
     0 < den /\ lo * den <= num <= hi * den.
Proof.
  intros H. unfold WeightedAverageCost, weighted_average.
  set (rows := select costed_delivery _).
  destruct (weighted_average_bounds lo hi rows) as (H1 & H2 & H3).
  { intros m [Hm Hc]%in_select. destruct (costed_delivery_inv m Hc) as (Hl & c & Ec).
    split; [done|]. exists c. split; [done|]. by eapply H. }
  split.
  - split.
    + intros E m Hm. destruct (costed_delivery m) eqn:Ec; [|done].
      assert (Hin : In m rows) by (by apply in_select).
      assert (Hne : rows <> []) by (by destruct rows). specialize (H3 Hne).
      rewrite (bool_decide_eq_false_2 _ Hne) in E. simpl in E.
      destruct (Z.eqb_spec (sum_by mv_litres rows) 0); [lia|done].
    + intros Hn. unfold rows. rewrite select_none by done. done.
  - intros num den E. case_bool_decide as Hr; [done|]. simpl in E. specialize (H3 Hr).
    destruct (_ =? 0); [done|]. injection E as <- <-. lia.
Qed.

Definition demo_delivery (litres cost : string) : PostInput :=
  mkPostInput 10 TypeDelivery (Some SrcDelivery) None litres None None None (Some cost) None 2%N None.

Definition demo_costed : DB :=
  (run_tx (PostMovement 1 (demo_delivery "100" "2.5") ;;! PostMovement 1 (demo_delivery "300" "2.9"))
     (demo_open "100" demo_db)).2.

Lemma demo_costed_bounds m c :
  In m (tank_rows demo_costed 1 10) -> costed_delivery m = true -> mv_cost_per_litre m = Some c ->
  25000 <= c <= 29000.
Proof.
  assert (H : forallb (fun m => match mv_cost_per_litre m with
                                | Some c => (25000 <=? c) && (c <=? 29000) | None => true end)
                (tank_rows demo_costed 1 10) = true) by (vm_compute; reflexivity).
  intros Hm _ Hp. apply (proj1 (List.forallb_forall _ _) H) in Hm. rewrite Hp in Hm. lia.
Qed.

Lemma WeightedAverageCost_bounds_witness :
  WeightedAverageCost demo_costed 1 10 = Some (11200000000, 400000)
  /\ 25000 * 400000 <= 11200000000 <= 29000 * 400000.
Proof.
  assert (E : WeightedAverageCost demo_costed 1 10 = Some (11200000000, 400000))
    by (vm_compute; reflexivity).
  split; [exact E|].
  apply (proj2 (WeightedAverageCost_bounds demo_costed 1 10 25000 29000 demo_costed_bounds) _ _ E).
Defined.
