(* ===== verification/Float64.v ===== *)
(** * Binary doubles at the edges of the decimal code (Go's [float64]; package
      [readings]: meter.go)

    [f_near n d] is the double nearest to [n / d], ties to even: what
    [strconv.ParseFloat] and the driver's scan of a [numeric] into a [float64]
    return inside the normal range.  The largest figure the columns hold is far
    below the overflow bound, which [dispDecimal] tests; the smallest positive
    one, [0.0001], far above the subnormals. *)

From stdpp Require Import base list strings.
From Stdlib Require Import ZArith Lia.
From S2P Require Import Prelude Numeric Schema Ledger LedgerProps.

Local Open Scope Z_scope.

(** ** Rounding to 53 bits *)

(** [2^e] for the positive part of [e]. *)
Definition pw (e : Z) : Z := 2 ^ Z.max 0 e.

Definition f_near_pos (n d : Z) : float64 :=
  let e0 := Z.log2 n - Z.log2 d in
  let e := if d * pw e0 <=? n * pw (- e0) then e0 - 52 else e0 - 53 in
  let m := round_half_even (n * pw (- e)) (d * pw e) in
  if m =? 2 ^ 53 then F64 (2 ^ 52) (e + 1) else F64 m e.

Definition f_near (n d : Z) : float64 :=
  if n =? 0 then F64 0 0
  else if n <? 0 then f_neg (f_near_pos (- n) d) else f_near_pos n d.

(** The product of two doubles, rounded. *)
Definition f_mul (x y : float64) : float64 :=
  let e := f_e x + f_e y in f_near (f_m x * f_m y * pw e) (pw (- e)).

(** The exact value of a double is [f_num / f_den]. *)
Definition f_num (x : float64) : Z := f_m x * pw (f_e x).
Definition f_den (x : float64) : Z := pw (- f_e x).
Definition f_add (x y : float64) : float64 :=
  f_near (f_num x * f_den y + f_num y * f_den x) (f_den x * f_den y).
Definition f_sub (x y : float64) : float64 := f_add x (f_neg y).
(** The divisor is not zero. *)
Definition f_div (x y : float64) : float64 :=
  f_near (f_num x * f_den y * Z.sgn (f_num y)) (f_den x * Z.abs (f_num y)).
Definition f_le (x y : float64) : bool := f_num x * f_den y <=? f_num y * f_den x.
Definition f_lt (x y : float64) : bool := negb (f_le y x).
Definition f_eq (x y : float64) : bool := f_le x y && f_le y x.

(** A [numeric(14,3)] scanned into a [float64]. *)
Definition float_of_milli (k : Z) : float64 := f_near k 1000.

(** ** [readings.ValidateScale] *)

(** [parseDecimal] fails on empty text and past the largest double: the
    caller then goes on with zero. *)
Definition f_overflows (x : float64) : bool := pw 1024 * pw (- f_e x) <=? Z.abs (f_m x) * pw (f_e x).
Definition dispDecimal (v : string) : float64 :=
  match parse_numeric v with
  | None => F64 0 0
  | Some d => let x := f_near (mant d) (pow10 (scale d)) in
              if f_overflows x then F64 0 0 else x
  end.

(** The constant [1e-6]. *)
Definition epsilon : float64 := f_near 1 (10 ^ 6).

(** [|x - math.Round(x)| > 1e-6]: the difference of a double and its nearest
    integer is exact. *)
Definition off_integer (x : float64) : bool :=
  let a := pw (- f_e x) in
  let n := f_m x * pw (f_e x) in
  f_m epsilon * a <? Z.abs (n - round_div n a * a) * pw (- f_e epsilon).

(** [math.Pow10] is exact up to [10^22]. *)
Definition ValidateScale (reading : float64) (decimalPlaces : Z) : bool :=
  let dp := if decimalPlaces <? 0 then 0 else decimalPlaces in
  negb (off_integer (f_mul reading (F64 (10 ^ dp) 0))).

(** ** The rounding error *)

Lemma pw_pos e : 0 < pw e.
Proof. unfold pw. apply Z.pow_pos_nonneg; lia. Qed.


Lemma round_half_even_err n d : 0 < d -> 2 * Z.abs (n - round_half_even n d * d) <= d.
Proof.
  intros Hd. unfold round_half_even.
  pose proof (Z.div_mod n d ltac:(lia)). pose proof (Z.mod_pos_bound n d Hd).
  destruct (Z.ltb_spec d (2 * (n mod d))) as [?|?]; simpl; [nia|].
  destruct (Z.eqb_spec (2 * (n mod d)) d) as [?|?]; simpl; [|nia].
  destruct (Z.odd (n / d)); nia.
Qed.

Lemma pw_split a b : 0 <= b -> pw (a + b) * pw (- a) = 2 ^ b * pw a * pw (- (a + b)).
Proof.
  intros Hb. unfold pw.
  rewrite <- !Z.pow_add_r by lia. f_equal. lia.
Qed.

(** [2^e <= n / d] and the same bound written at the exponent [e - b]. *)
Lemma ratio_shift n d e b :
  0 <= b -> (d * pw (e + b) <= n * pw (- (e + b)) <-> 2 ^ b * (d * pw e) <= n * pw (- e)).
Proof.
  intros Hb. pose proof (pw_split e b Hb) as E.
  pose proof (pw_pos (- (e + b))) as H1. pose proof (pw_pos (- e)) as H2.
  set (A := pw (e + b)) in *. set (B := pw (- (e + b))) in *. set (C := pw e) in *.
  set (D := pw (- e)) in *. set (Q := 2 ^ b) in *.
  assert (E' : d * A * D = Q * (d * C) * B) by (rewrite <- Z.mul_assoc, E; ring).
  split; intros Hle.
  - apply (Z.mul_le_mono_pos_r _ _ B); [done|]. rewrite <- E'. nia.
  - apply (Z.mul_le_mono_pos_r _ _ D); [done|]. rewrite E'. nia.
Qed.

Lemma ratio_exponent n d : 0 < n -> 0 < d ->
  let e0 := Z.log2 n - Z.log2 d in
  d * pw (e0 - 1) <= n * pw (- (e0 - 1)) /\ n * pw (- (e0 + 1)) < d * pw (e0 + 1).
Proof.
  intros Hn Hd e0.
  destruct (Z.log2_spec n Hn) as [Ln Un], (Z.log2_spec d Hd) as [Ld Ud].
  pose proof (Z.log2_nonneg n) as Ha. pose proof (Z.log2_nonneg d) as Hb.
  set (a := Z.log2 n) in *. set (b := Z.log2 d) in *.
  pose proof (pw_pos (e0 - 1)). pose proof (pw_pos (- (e0 - 1))).
  pose proof (pw_pos (e0 + 1)). pose proof (pw_pos (- (e0 + 1))).
  rewrite <- Z.add_1_r in Un, Ud. split.
  - assert (E : 2 ^ (b + 1) * pw (e0 - 1) = 2 ^ a * pw (- (e0 - 1))).
    { unfold pw. rewrite <- !Z.pow_add_r by lia. f_equal. lia. }
    nia.
  - assert (E : 2 ^ (a + 1) * pw (- (e0 + 1)) = 2 ^ b * pw (e0 + 1)).
    { unfold pw. rewrite <- !Z.pow_add_r by lia. f_equal. lia. }
    nia.
Qed.

(** The exponent [f_near_pos] chooses gives the quotient 53 bits. *)
Lemma exponent_choice n d : 0 < n -> 0 < d ->
  let e0 := Z.log2 n - Z.log2 d in
  let e := if d * pw e0 <=? n * pw (- e0) then e0 - 52 else e0 - 53 in
  2 ^ 52 * (d * pw e) <= n * pw (- e) < 2 ^ 53 * (d * pw e).
Proof.
  intros Hn Hd e0. destruct (ratio_exponent n d Hn Hd) as [Hlo Hhi]. fold e0 in Hlo, Hhi.
  destruct (Z.leb_spec (d * pw e0) (n * pw (- e0))) as [H|H]; simpl; split.
  - apply (ratio_shift n d (e0 - 52) 52); [lia|]. by replace (e0 - 52 + 52) with e0 by lia.
  - apply Z.nle_gt. intros C. apply (ratio_shift n d (e0 - 52) 53) in C; [|lia].
    replace (e0 - 52 + 53) with (e0 + 1) in C by lia. lia.
  - apply (ratio_shift n d (e0 - 53) 52); [lia|]. by replace (e0 - 53 + 52) with (e0 - 1) by lia.
  - apply Z.nle_gt. intros C. apply (ratio_shift n d (e0 - 53) 53) in C; [|lia].
    replace (e0 - 53 + 53) with e0 in C by lia. lia.
Qed.

Lemma f_near_pos_spec n d : 0 < n -> 0 < d ->
  let x := f_near_pos n d in
  2 ^ 52 <= f_m x < 2 ^ 53
  /\ 2 * Z.abs (n * pw (- f_e x) - f_m x * (d * pw (f_e x))) <= d * pw (f_e x).
Proof.
  intros Hn Hd. pose proof (exponent_choice n d Hn Hd) as He. unfold f_near_pos. cbv zeta in *.
  set (e := if _ : bool then _ else _) in *.
  pose proof (pw_pos e) as Hp. set (D := d * pw e) in *. assert (HD : 0 < D) by (unfold D; nia).
  pose proof (round_half_even_err (n * pw (- e)) D HD) as Hr.
  set (m := round_half_even _ _) in *.
  assert (Hm : 2 ^ 52 <= m <= 2 ^ 53).
  { change (2 ^ 53) with 9007199254740992 in *. change (2 ^ 52) with 4503599627370496 in *. nia. }
  destruct (Z.eqb_spec m (2 ^ 53)) as [Em|Em]; simpl; [|lia].
  split; [lia|]. destruct (Z.le_gt_cases 0 e) as [H0|H0].
  - replace (pw (e + 1)) with (2 * pw e)
      by (unfold pw; rewrite !Z.max_r, Z.pow_add_r by lia; lia).
    replace (pw (- (e + 1))) with (pw (- e)) by (unfold pw; f_equal; lia). unfold D in *. nia.
  - assert (E2 : pw (- e) = 2 * pw (- (e + 1))).
    { unfold pw. rewrite !Z.max_r by lia.
      replace (- e) with (- (e + 1) + 1) by lia. rewrite Z.pow_add_r by lia. lia. }
    assert (E3 : pw (e + 1) = pw e) by (unfold pw; f_equal; lia). rewrite E3.
    rewrite E2 in Hr. unfold D in *. lia.
Qed.

(** ** Litres through a double *)

Lemma near_exponent n d : 0 < n -> 0 < d -> n < 2 ^ 51 * d -> f_e (f_near_pos n d) < 0.
Proof.
  intros Hn Hd Hlt. destruct (f_near_pos_spec n d Hn Hd) as [Hm He].
  set (x := f_near_pos n d) in *. apply Z.nle_gt. intros H0.
  replace (pw (- f_e x)) with 1 in He by (unfold pw; by rewrite Z.max_l by lia).
  pose proof (pw_pos (f_e x)). set (D := d * pw (f_e x)) in *.
  assert (d <= D) by (unfold D; nia).
  change (2 ^ 52) with 4503599627370496 in *. change (2 ^ 51) with 2251799813685248 in *. nia.
Qed.

Lemma float_of_milli_near k : k <> 0 -> Z.abs k < 10 ^ 14 -> nearest_double k (float_of_milli k).
Proof.
  intros Hk Hb. unfold float_of_milli, f_near, nearest_double.
  destruct (Z.eqb_spec k 0) as [?|_]; [done|].
  assert (Hn : 0 < Z.abs k) by lia. assert (Hlt : Z.abs k < 2 ^ 51 * 1000) by (change (10 ^ 14) with 100000000000000 in Hb; change (2 ^ 51) with 2251799813685248; lia).
  set (n := Z.abs k) in *.
  pose proof (near_exponent n 1000 Hn ltac:(lia) Hlt) as He.
  destruct (f_near_pos_spec n 1000 Hn ltac:(lia)) as [Hm Hr].
  assert (Hx : (if k <? 0 then f_neg (f_near_pos (- k) 1000) else f_near_pos k 1000)
    = F64 (Z.sgn k * f_m (f_near_pos n 1000)) (f_e (f_near_pos n 1000))).
  { destruct (Z.ltb_spec k 0).
    - rewrite Z.sgn_neg by lia. unfold n. rewrite Z.abs_neq by lia. unfold f_neg. f_equal.
    - rewrite Z.sgn_pos by lia. unfold n. rewrite Z.abs_eq by lia.
      destruct (f_near_pos k 1000) as [m e]. cbn [f_m f_e]. f_equal. lia. }
  rewrite Hx. clear Hx. set (x := f_near_pos n 1000) in *. simpl.
  replace (pw (f_e x)) with 1 in Hr by (unfold pw; by rewrite Z.max_l by lia).
  replace (pw (- f_e x)) with (2 ^ (- f_e x)) in Hr by (unfold pw; by rewrite Z.max_r by lia).
  set (P := 2 ^ (- f_e x)) in *. unfold n in *. split; [|split; [lia|]].
  - destruct (Z.sgn_spec k) as [[? ->]|[[? ->]|[? ->]]]; lia.
  - destruct (Z.sgn_spec k) as [[? ->]|[[? ->]|[? ->]]]; lia.
Qed.

(** The float step of the stock draw-down loses nothing: every litre figure
    that fits the [numeric(14,3)] column, scanned into the nearest [float64] and
    formatted again with three decimals, is exactly the figure that was read. *)
Theorem float_of_milli_exact k :
  Z.abs k < 10 ^ 14 -> parse_numeric (FormatFloat3 (float_of_milli k)) = Some (Dec k 3).
Proof.
  intros Hk. destruct (Z.eq_dec k 0) as [->|Hne]; [reflexivity|].
  apply FormatFloat3_nearest; [done|]. by apply float_of_milli_near.
Qed.

Lemma float_of_milli_exact_witness :
  Z.abs (-12345) < 10 ^ 14 /\ parse_numeric (FormatFloat3 (float_of_milli (-12345))) = Some (Dec (-12345) 3).
Proof. split; [reflexivity|]. apply (float_of_milli_exact (-12345)). reflexivity. Defined.

(** ** The precision check *)

(** Two roundings in a row move a value by less than [33/32] units of
    [2^-52]. *)
Lemma two_roundings X Y W :
  0 <= X -> 2 ^ 53 * Z.abs (X - Y) <= Y -> 2 ^ 53 * Z.abs (Y - W) <= W ->
  16 * (2 ^ 53 * Z.abs (X - W)) <= 33 * X.
Proof. change (2 ^ 53) with 9007199254740992. lia. Qed.

(** Half a unit in the last place, relative to a 53-bit mantissa. *)
Lemma half_ulp_relative d K m :
  0 <= K -> 2 * d <= K -> 2 ^ 52 <= m -> 2 ^ 53 * d <= m * K.
Proof.
  intros HK Hd Hm. transitivity (2 ^ 52 * K).
  - change (2 ^ 53) with 9007199254740992. change (2 ^ 52) with 4503599627370496. lia.
  - by apply Z.mul_le_mono_nonneg_r.
Qed.

(** The double computed for [z / K * P] below [2^32], by its mantissa and
    denominator. *)
Lemma scaled_double z K P :
  0 < z -> 0 < K -> 0 < P <= 10 ^ 4 -> z * P < 2 ^ 32 * K ->
  exists m a, 0 < a /\ f_mul (f_near_pos z K) (F64 P 0) = F64 m (- a)
    /\ 2 ^ 25 * Z.abs (z * P * 2 ^ a - m * K) < 33 * (K * 2 ^ a).
Proof.
  intros Hz HK HP Ht.
  assert (Hz51 : z < 2 ^ 51 * K) by (change (2 ^ 51) with 2251799813685248; nia).
  pose proof (near_exponent z K Hz HK Hz51) as He1.
  destruct (f_near_pos_spec z K Hz HK) as [Hm1 Hr1].
  set (x := f_near_pos z K) in *. unfold f_mul. cbn [f_m f_e]. rewrite Z.add_0_r.
  replace (pw (f_e x)) with 1 in * by (unfold pw; by rewrite Z.max_l by lia).
  pose proof (pw_pos (- f_e x)) as HA1. set (A1 := pw (- f_e x)) in *. rewrite !Z.mul_1_r in *.
  assert (Hn : 0 < f_m x * P) by nia.
  assert (Hlt : f_m x * P < 2 ^ 51 * A1).
  { assert (2 * (f_m x * P * K) <= 2 * (z * P * A1) + K * P) by nia.
    assert (K * P <= K * (f_m x * P)) by nia.
    change (2 ^ 51) with 2251799813685248. change (2 ^ 32) with 4294967296 in *. nia. }
  pose proof (near_exponent _ _ Hn HA1 Hlt) as He2.
  destruct (f_near_pos_spec _ _ Hn HA1) as [Hm2 Hr2].
  unfold f_near. destruct (Z.eqb_spec (f_m x * P) 0) as [?|_]; [lia|].
  destruct (Z.ltb_spec (f_m x * P) 0) as [?|_]; [lia|].
  set (y := f_near_pos (f_m x * P) A1) in *.
  replace (pw (f_e y)) with 1 in Hr2 by (unfold pw; by rewrite Z.max_l by lia).
  exists (f_m y), (- f_e y). split; [lia|]. split; [rewrite Z.opp_involutive; by destruct y|].
  replace (pw (- f_e y)) with (2 ^ (- f_e y)) in Hr2 by (unfold pw; by rewrite Z.max_r by lia).
  assert (HA2 : 0 < 2 ^ (- f_e y)) by (apply Z.pow_pos_nonneg; lia). set (A2 := 2 ^ (- f_e y)) in *.
  rewrite !Z.mul_1_r in *.
  set (m1 := f_m x) in *. set (m2 := f_m y) in *.
  assert (E1 : 2 ^ 53 * Z.abs (z * P * A1 * A2 - m1 * P * K * A2) <= m1 * P * K * A2).
  { replace (z * P * A1 * A2 - m1 * P * K * A2) with ((z * A1 - m1 * K) * (P * A2)) by ring.
    rewrite Z.abs_mul, (Z.abs_eq (P * A2)) by nia.
    replace (m1 * P * K * A2) with (m1 * K * (P * A2)) by ring.
    rewrite Z.mul_assoc. apply Z.mul_le_mono_nonneg_r; [nia|].
    apply half_ulp_relative; [lia|exact Hr1|apply Hm1]. }
  assert (E2 : 2 ^ 53 * Z.abs (m1 * P * K * A2 - m2 * A1 * K) <= m2 * A1 * K).
  { replace (m1 * P * K * A2 - m2 * A1 * K) with ((m1 * P * A2 - m2 * A1) * K) by ring.
    rewrite Z.abs_mul, (Z.abs_eq K) by lia.
    rewrite Z.mul_assoc. apply Z.mul_le_mono_nonneg_r; [nia|].
    apply half_ulp_relative; [lia|exact Hr2|apply Hm2]. }
  assert (H0 : 0 <= z * P * A1 * A2) by (repeat apply Z.mul_nonneg_nonneg; lia).
  pose proof (two_roundings _ _ _ H0 E1 E2) as E3.
  replace (z * P * A1 * A2 - m2 * A1 * K) with ((z * P * A2 - m2 * K) * A1) in E3 by ring.
  rewrite Z.abs_mul, (Z.abs_eq A1) in E3 by lia.
  set (d := Z.abs (z * P * A2 - m2 * K)) in *.
  assert (E4 : 16 * (2 ^ 53 * d) <= 33 * (z * P * A2)).
  { apply (Z.mul_le_mono_pos_r _ _ A1); [done|].
    replace (16 * (2 ^ 53 * d) * A1) with (16 * (2 ^ 53 * (d * A1))) by ring.
    replace (33 * (z * P * A2) * A1) with (33 * (z * P * A1 * A2)) by ring. done. }
  assert (E5 : z * P * A2 < 2 ^ 32 * (K * A2))
    by (rewrite Z.mul_assoc; by apply Z.mul_lt_mono_pos_r).
  set (KA := K * A2) in *. set (T := z * P * A2) in *.
  clearbody d KA T. clear - E4 E5.
  change (2 ^ 53) with (2 ^ 25 * 268435456) in *. change (2 ^ 32) with (16 * 268435456) in *.
  change (2 ^ 25) with 33554432 in *. lia.
Qed.

Lemma off_integer_neg m a : 0 < a ->
  off_integer (F64 m (- a)) = (4722366482869645 * 2 ^ a <? Z.abs (m - round_div m (2 ^ a) * 2 ^ a) * 2 ^ 72).
Proof.
  intros Ha. unfold off_integer. cbn [f_m f_e]. rewrite Z.opp_involutive.
  replace (pw (- a)) with 1 by (unfold pw; by rewrite Z.max_l by lia).
  replace (pw a) with (2 ^ a) by (unfold pw; by rewrite Z.max_r by lia).
  rewrite Z.mul_1_r. by replace (f_m epsilon) with 4722366482869645 by (vm_compute; reflexivity).
Qed.

(** A value within [33/2^25] of a fraction with at most four decimals is near an
    integer exactly when the fraction is one. *)
Lemma off_integer_spec T K m a :
  0 < a -> 0 < K <= 10 ^ 4 -> 2 ^ 25 * Z.abs (T * 2 ^ a - m * K) < 33 * (K * 2 ^ a) ->
  off_integer (F64 m (- a)) = false <-> (K | T).
Proof.
  intros Ha HK Hc. rewrite off_integer_neg, Z.ltb_ge by done.
  assert (HA : 0 < 2 ^ a) by (apply Z.pow_pos_nonneg; lia). set (A := 2 ^ a) in *.
  pose proof (round_div_half m A HA) as Hr. set (r := round_div m A) in *.
  change (2 ^ 25) with 33554432 in Hc. change (2 ^ 72) with 4722366482869645213696.
  split.
  - intros Hoff. exists r. set (D := T - r * K). destruct (Z.eq_dec D 0) as [?|HD]; [lia|exfalso].
    assert (HA1 : A <= Z.abs (D * A)) by (rewrite Z.abs_mul, (Z.abs_eq A); nia).
    assert (HX : D * A = (T * A - m * K) + (m - r * A) * K) by (unfold D; ring).
    assert (HY : Z.abs ((m - r * A) * K) = Z.abs (m - r * A) * K) by (rewrite Z.abs_mul, (Z.abs_eq K); lia).
    set (u := Z.abs (m - r * A)) in *. set (c := Z.abs (T * A - m * K)) in *.
    assert (A <= c + u * K) by lia.
    assert (4722366482869645213696 * (u * K) <= 4722366482869645 * (A * 10 ^ 4)) by nia.
    assert (33554432 * c <= 33 * (A * 10 ^ 4)) by nia. lia.
  - intros [q ->].
    assert (Hq : 33554432 * Z.abs (q * A - m) < 33 * A).
    { replace (q * K * A - m * K) with ((q * A - m) * K) in Hc by ring.
      rewrite Z.abs_mul, (Z.abs_eq K) in Hc by lia. nia. }
    assert (r = q) as -> by nia. lia.
Qed.

Lemma near_no_overflow n d : 0 < n -> 0 < d -> n < 2 ^ 51 * d -> f_overflows (f_near_pos n d) = false.
Proof.
  intros Hn Hd Hlt. pose proof (near_exponent n d Hn Hd Hlt) as He.
  destruct (f_near_pos_spec n d Hn Hd) as [Hm _]. unfold f_overflows. apply Z.leb_gt.
  replace (pw (f_e (f_near_pos n d))) with 1 by (unfold pw; by rewrite Z.max_l by lia).
  pose proof (pw_pos (- f_e (f_near_pos n d))).
  assert (2 ^ 53 <= pw 1024) by (vm_compute; discriminate). nia.
Qed.

(** C37. The precision check on a meter reading works on binary doubles with an
    absolute tolerance, and is exact as far as it is used on small totals: for a
    reading the request check accepts and a meter of at most four decimals, as
    long as the reading has less than [2^32] units of the last place of the meter
    (42.9 million litres at the default two decimals), the check passes exactly
    when the reading has no more decimals than the meter. *)
Theorem ValidateScale_exact v d dp :
  validDecimal v = true -> parse_numeric v = Some d -> 0 <= dp <= 4 ->
  mant d * 10 ^ dp < 2 ^ 32 * pow10 (scale d) ->
  ValidateScale (dispDecimal v) dp = true <-> (pow10 (scale d) | mant d * 10 ^ dp).
Proof.
  intros Hv Hd Hdp Ht. destruct (validDecimal_parse v Hv) as (d' & Hd' & Hm & Hs).
  rewrite Hd in Hd'. injection Hd' as <-.
  unfold ValidateScale, dispDecimal. rewrite Hd, negb_true_iff.
  destruct (Z.ltb_spec dp 0) as [?|_]; [lia|].
  assert (HP : 0 < 10 ^ dp <= 10 ^ 4) by (split; [apply Z.pow_pos_nonneg|apply Z.pow_le_mono_r]; lia).
  pose proof (pow10_pos (scale d)) as HK.
  assert (HK4 : pow10 (scale d) <= 10 ^ 4) by (unfold pow10; apply Z.pow_le_mono_r; lia).
  destruct (Z.eq_dec (mant d) 0) as [E|E].
  - rewrite E. split; [intros _; apply Z.divide_0_r|]. done.
  - assert (Hlt : mant d < 2 ^ 51 * pow10 (scale d))
      by (change (2 ^ 51) with 2251799813685248; change (2 ^ 32) with 4294967296 in Ht; nia).
    unfold f_near at 1 2. destruct (Z.eqb_spec (mant d) 0) as [?|_]; [done|].
    destruct (Z.ltb_spec (mant d) 0) as [?|_]; [lia|].
    rewrite near_no_overflow by lia.
    destruct (scaled_double (mant d) (pow10 (scale d)) (10 ^ dp)) as (m & a & Ha & -> & Hc); [lia..|].
    by apply off_integer_spec.
Qed.

Lemma ValidateScale_exact_witness :
  (ValidateScale (dispDecimal "20145.37") 2 = true <-> (100 | 2014537 * 10 ^ 2))
  /\ (ValidateScale (dispDecimal "20145.375") 2 = true <-> (1000 | 20145375 * 10 ^ 2)).
Proof.
  split.
  - apply (ValidateScale_exact "20145.37" (Dec 2014537 2) 2); [vm_compute; reflexivity|vm_compute; reflexivity|lia|vm_compute; reflexivity].
  - apply (ValidateScale_exact "20145.375" (Dec 20145375 3) 2); [vm_compute; reflexivity|vm_compute; reflexivity|lia|vm_compute; reflexivity].
Defined.

(** Past that bound the tolerance is smaller than the error of the product: a
    reading with the meter's own decimals is refused. *)
Example ValidateScale_refuses : ValidateScale (dispDecimal "17114428.859") 3 = false.
Proof. vm_compute. reflexivity. Qed.
