(* ===== verification/StockRequests.v ===== *)
(** * Stock adjustments and opening-stock requests (package [inventory]:
      adjustments.go, opening_requests.go)

    Two request/decide lifecycles in front of the ledger.  Both lock the
    request row, check its status and the separation of duties, and write
    the ledger and the request in one transaction. *)

From stdpp Require Import base list strings.
From Stdlib Require Import ZArith Lia Ascii.
From S2P Require Import Prelude Numeric Schema Ledger.

Local Open Scope Z_scope.
Local Open Scope tx_scope.

(** ** Stock adjustments *)
Module Adjustments.

Definition adjustmentClassifications : list string :=
  ["evaporation"; "measurement_error"; "theft"; "spillage"; "temperature"; "data_entry"; "other"].

Definition ValidClassification (c : string) : bool :=
  bool_decide (c ∈ adjustmentClassifications).

Record AdjustmentInput := mkAdjustmentInput {
  ai_tank : uuid;
  ai_delta : string;
  ai_reason : string;
  ai_classification : string;
  ai_requested_by : uuid;
}.

Definition RequestAdjustment (tenant : uuid) (inp : AdjustmentInput) : Tx DB inv_error Adjustment :=
  let! delta := tlift (col_in 14 3 (ai_delta inp)) in
  tguard (negb (delta =? 0)) SqlCheckViolation ;;!
  tguard (ValidClassification (ai_classification inp)) SqlCheckViolation ;;!
  let! d := tget in
  tguard (fk_tank d tenant (ai_tank inp)) SqlForeignKeyViolation ;;!
  tguard (fk_pair (db_users d) tenant (ai_requested_by inp)) SqlForeignKeyViolation ;;!
  let! id := fresh_uuid in
  let! d := tget in
  let a := mkAdjustment id tenant (ai_tank inp) delta (ai_reason inp) (ai_classification inp)
             AdjRequested None None None (ai_requested_by inp) None None None None
             (db_now d) None None in
  tput (set_adjustments (db_adjustments d ++ [a]) d) ;;! tret a.

Definition adj_by (tenant id : uuid) (a : Adjustment) : bool :=
  bool_decide (ad_tenant a = tenant /\ ad_id a = id).

Definition GetAdjustment (d : DB) (tenant id : uuid) : result inv_error Adjustment :=
  of_option ErrAdjustmentNotFound (first_where (adj_by tenant id) (db_adjustments d)).

Definition requested_desc (a b : Adjustment) : bool :=
  (ad_requested_at b <? ad_requested_at a)
  || ((ad_requested_at a =? ad_requested_at b) && (ad_id a <=? ad_id b)%N).

Definition ListAdjustmentsPage (d : DB) (tenant : uuid) (status : option adjustment_status)
  (tank : option uuid) (limit offset : nat) : list Adjustment :=
  limit_offset limit offset (order_by requested_desc (select (fun a =>
    bool_decide (ad_tenant a = tenant)
    && match status with None => true | Some s => bool_decide (ad_status a = s) end
    && match tank with None => true | Some t => bool_decide (ad_tank a = t) end)
    (db_adjustments d))).

(** Column updates of the lifecycle. *)
Definition adj_approve (approver : uuid) (note : option string) (now : Z) (a : Adjustment) :=
  mkAdjustment (ad_id a) (ad_tenant a) (ad_tank a) (ad_delta a) (ad_reason a) (ad_classification a)
    AdjApproved (ad_balance_before a) (ad_balance_after a) (ad_movement a) (ad_requested_by a)
    (Some approver) (ad_posted_by a) (ad_rejected_by a) note (ad_requested_at a) (Some now)
    (ad_posted_at a).
Definition adj_reject (decider : uuid) (note : option string) (now : Z) (a : Adjustment) :=
  mkAdjustment (ad_id a) (ad_tenant a) (ad_tank a) (ad_delta a) (ad_reason a) (ad_classification a)
    AdjRejected (ad_balance_before a) (ad_balance_after a) (ad_movement a) (ad_requested_by a)
    (ad_approved_by a) (ad_posted_by a) (Some decider) note (ad_requested_at a) (Some now)
    (ad_posted_at a).
Definition adj_post (poster mv : uuid) (before after now : Z) (a : Adjustment) :=
  mkAdjustment (ad_id a) (ad_tenant a) (ad_tank a) (ad_delta a) (ad_reason a) (ad_classification a)
    AdjPosted (Some before) (Some after) (Some mv) (ad_requested_by a)
    (ad_approved_by a) (Some poster) (ad_rejected_by a) (ad_note a) (ad_requested_at a)
    (ad_decided_at a) (Some now).

Definition with_status (tenant id : uuid) (ok : adjustment_status -> bool) (a : Adjustment) : bool :=
  adj_by tenant id a && ok (ad_status a).
Definition is_requested (s : adjustment_status) : bool := bool_decide (s = AdjRequested).
Definition is_open (s : adjustment_status) : bool :=
  bool_decide (s = AdjRequested) || bool_decide (s = AdjApproved).
Definition is_approved (s : adjustment_status) : bool := bool_decide (s = AdjApproved).

(** [UPDATE stock_adjustments ... WHERE tenant, id, status RETURNING] *)
Definition update_adjustment (p : Adjustment -> bool) (f : Adjustment -> Adjustment)
  : Tx DB inv_error Adjustment :=
  let! d := tget in
  let '(row, t) := update_returning p f (db_adjustments d) in
  match row with
  | None => tfail ErrAdjustmentBadState
  | Some a => tput (set_adjustments t d) ;;! tret a
  end.

Definition ApproveAdjustment (tenant id approver : uuid) (note : option string)
  : Tx DB inv_error Adjustment :=
  let! d := tget in
  let! a := tlift (GetAdjustment d tenant id) in
  tguard (is_requested (ad_status a)) ErrAdjustmentBadState ;;!
  tguard (negb (bool_decide (ad_requested_by a = approver))) ErrAdjustmentSelfApprove ;;!
  update_adjustment (with_status tenant id is_requested) (adj_approve approver note (db_now d)).

Definition RejectAdjustment (tenant id decider : uuid) (note : option string)
  : Tx DB inv_error Adjustment :=
  let! d := tget in
  let! a := tlift (GetAdjustment d tenant id) in
  tguard (is_open (ad_status a)) ErrAdjustmentBadState ;;!
  tguard (negb (bool_decide (ad_requested_by a = decider))) ErrAdjustmentSelfApprove ;;!
  update_adjustment (with_status tenant id is_open) (adj_reject decider note (db_now d)).

Definition adjustment_input (a : Adjustment) (poster : uuid) : PostInput :=
  mkPostInput (ad_tank a) TypeAdjustment (Some SrcAdjustment) (Some (ad_id a))
    (numeric_text 3 (ad_delta a)) None None None None None poster None.

(** [uq_stock_adj_movement] *)
Definition movement_linked (d : DB) (tenant mv : uuid) : bool :=
  exists_where (fun a => bool_decide (ad_tenant a = tenant /\ ad_movement a = Some mv))
    (db_adjustments d).

Definition PostAdjustment (tenant id poster : uuid) : Tx DB inv_error (Adjustment * Movement) :=
  let! d := tget in
  let! a := tlift (GetAdjustment d tenant id) in
  tguard (is_approved (ad_status a)) ErrAdjustmentBadState ;;!
  let! m := PostMovement tenant (adjustment_input a poster) in
  let! after := tlift (col_in 14 3 (numeric_text 3 (mv_balance_after m))) in
  let! before := tlift (of_option SqlNumericError
    (numeric_col 14 3 (dec_sub (dec_of 3 after) (dec_of 3 (ad_delta a))))) in
  let! d := tget in
  tguard (negb (movement_linked d tenant (mv_id m))) SqlUniqueViolation ;;!
  let! a' := update_adjustment (with_status tenant id is_approved)
    (adj_post poster (mv_id m) before after (db_now d)) in
  tret (a', m).

End Adjustments.

(** ** Opening-stock requests *)
Module Openings.

Record OpeningRequestInput := mkOpeningRequestInput {
  ri_tank : uuid;
  ri_litres : string;
  ri_notes : option string;
  ri_requested_by : uuid;
}.

(** [uq_osr_one_live_per_tank] *)
Definition live_request (tenant tank : uuid) (o : OpeningRequest) : bool :=
  bool_decide (or_tenant o = tenant /\ or_tank o = tank)
  && (bool_decide (or_status o = OpDraft) || bool_decide (or_status o = OpApproved)).

Definition RequestOpeningStock (tenant : uuid) (inp : OpeningRequestInput)
  : Tx DB inv_error OpeningRequest :=
  let! opened := hasOpeningTx tenant (ri_tank inp) in
  tguard (negb opened) ErrOpeningRequestExists ;;!
  tmaperr (fun e => if isUniqueViolation e then ErrOpeningRequestExists else e)
    (let! litres := tlift (col_in 14 3 (ri_litres inp)) in
     tguard (0 <=? litres) SqlCheckViolation ;;!
     let! d := tget in
     tguard (negb (exists_where (live_request tenant (ri_tank inp)) (db_openings d)))
       SqlUniqueViolation ;;!
     tguard (fk_tank d tenant (ri_tank inp)) SqlForeignKeyViolation ;;!
     tguard (fk_pair (db_users d) tenant (ri_requested_by inp)) SqlForeignKeyViolation ;;!
     let! id := fresh_uuid in
     let! d := tget in
     let o := mkOpeningRequest id tenant (ri_tank inp) litres (ri_notes inp) OpDraft None None
                (ri_requested_by inp) None None None (db_now d) None in
     tput (set_openings (db_openings d ++ [o]) d) ;;! tret o).

Definition or_by (tenant id : uuid) (o : OpeningRequest) : bool :=
  bool_decide (or_tenant o = tenant /\ or_id o = id).

Definition GetOpeningRequest (d : DB) (tenant id : uuid) : result inv_error OpeningRequest :=
  of_option ErrOpeningRequestNotFound (first_where (or_by tenant id) (db_openings d)).

Definition or_requested_desc (a b : OpeningRequest) : bool :=
  (or_requested_at b <? or_requested_at a)
  || ((or_requested_at a =? or_requested_at b) && (or_id a <=? or_id b)%N).

Definition ListOpeningRequestsPage (d : DB) (tenant : uuid) (status : option opening_status)
  (tank : option uuid) (limit offset : nat) : list OpeningRequest :=
  limit_offset limit offset (order_by or_requested_desc (select (fun o =>
    bool_decide (or_tenant o = tenant)
    && match status with None => true | Some s => bool_decide (or_status o = s) end
    && match tank with None => true | Some t => bool_decide (or_tank o = t) end)
    (db_openings d))).

Definition or_approve (approver mv : uuid) (note : option string) (balance now : Z)
  (o : OpeningRequest) :=
  mkOpeningRequest (or_id o) (or_tenant o) (or_tank o) (or_litres o) (or_notes o) OpApproved
    (Some mv) (Some balance) (or_requested_by o) (Some approver) (or_rejected_by o) note
    (or_requested_at o) (Some now).
Definition or_reject (decider : uuid) (note : option string) (now : Z) (o : OpeningRequest) :=
  mkOpeningRequest (or_id o) (or_tenant o) (or_tank o) (or_litres o) (or_notes o) OpRejected
    (or_movement o) (or_balance_after o) (or_requested_by o) (or_approved_by o) (Some decider)
    note (or_requested_at o) (Some now).

Definition draft_row (tenant id : uuid) (o : OpeningRequest) : bool :=
  or_by tenant id o && bool_decide (or_status o = OpDraft).

Definition update_opening (p : OpeningRequest -> bool) (f : OpeningRequest -> OpeningRequest)
  : Tx DB inv_error OpeningRequest :=
  let! d := tget in
  let '(row, t) := update_returning p f (db_openings d) in
  match row with
  | None => tfail ErrOpeningRequestBadState
  | Some o => tput (set_openings t d) ;;! tret o
  end.

(** [uq_osr_movement] *)
Definition opening_linked (d : DB) (tenant mv : uuid) : bool :=
  exists_where (fun o => bool_decide (or_tenant o = tenant /\ or_movement o = Some mv))
    (db_openings d).

Definition opening_input (o : OpeningRequest) (approver : uuid) (note : option string) :=
  mkOpeningInput (or_tank o) (numeric_text 3 (or_litres o)) (Some SrcOpening) approver note.

Definition ApproveOpeningStock (tenant id approver : uuid) (note : option string)
  (allowSelfApprove : bool) : Tx DB inv_error (OpeningRequest * Movement) :=
  let! d := tget in
  let! o := tlift (GetOpeningRequest d tenant id) in
  tguard (bool_decide (or_status o = OpDraft)) ErrOpeningRequestBadState ;;!
  tguard (negb (bool_decide (or_requested_by o = approver) && negb allowSelfApprove))
    ErrOpeningRequestSelfApprove ;;!
  let! m := tmaperr (fun e => if bool_decide (e = ErrOpeningExists)
                              then ErrOpeningRequestExists else e)
    (SetOpeningBalance tenant (opening_input o approver note)) in
  let! balance := tlift (col_in 14 3 (numeric_text 3 (mv_balance_after m))) in
  let! d := tget in
  tguard (negb (opening_linked d tenant (mv_id m))) SqlUniqueViolation ;;!
  let! o' := update_opening (draft_row tenant id)
    (or_approve approver (mv_id m) note balance (db_now d)) in
  tret (o', m).

Definition RejectOpeningStock (tenant id decider : uuid) (note : option string)
  (allowSelfDecide : bool) : Tx DB inv_error OpeningRequest :=
  let! d := tget in
  let! o := tlift (GetOpeningRequest d tenant id) in
  tguard (bool_decide (or_status o = OpDraft)) ErrOpeningRequestBadState ;;!
  tguard (negb (bool_decide (or_requested_by o = decider) && negb allowSelfDecide))
    ErrOpeningRequestSelfApprove ;;!
  update_opening (draft_row tenant id) (or_reject decider note (db_now d)).

End Openings.
