(* ===== verification/StockRequestsProps.v ===== *)
(** * Properties of the stock request lifecycles

    The adjustment table keeps separation of duties and its link to the
    ledger through every operation; a request is applied to the ledger once,
    with the balances it reports. *)

From stdpp Require Import base list strings.
From Stdlib Require Import ZArith Lia.
From S2P Require Import Prelude Numeric Schema Ledger LedgerProps StockRequests.
Import Adjustments Openings.

Local Open Scope Z_scope.
Local Open Scope tx_scope.

(** ** Movements survive *)

(** Every row of [l] is still in [l'], at most marked reversed. *)
Definition rows_kept (l l' : list Movement) : Prop :=
  forall m, In m l -> In m l' \/ In (mark_reversed m) l'.

#[export] Instance rows_kept_pre : PreOrder rows_kept.
Proof.
  split; [by intros l m; left|]. intros l1 l2 l3 H1 H2 m Hm.
  destruct (H1 m Hm) as [H|H]; apply H2 in H; tauto.
Qed.

Lemma rows_kept_ext d d' : ledger_ext d d' -> rows_kept (db_movements d) (db_movements d').
Proof.
  intros [rows ->]%ledger_ext_app m Hm. left. apply in_app_iff. auto.
Qed.

Lemma rows_kept_reverse tenant id by_ notes d m d' :
  ReverseMovement tenant id by_ notes d = Ok (m, d') ->
  rows_kept (db_movements d) (db_movements d').
Proof.
  intros (orig & d1 & _ & _ & _ & _ & -> & _ & -> & _)%ReverseMovement_inv x Hx. simpl.
  rewrite !in_snoc, !in_update_where. destruct (reversible tenant id x) eqn:E.
  - right. left. exists x. by rewrite E.
  - left. left. exists x. by rewrite E.
Qed.

(** ** The adjustment table *)

Definition decided_by_other (who : option uuid) (requester : uuid) : Prop :=
  exists u, who = Some u /\ u <> requester.

(** The ledger row a posted adjustment refers to. *)
Record adj_link (a : Adjustment) (m : Movement) : Prop := {
  al_id : ad_movement a = Some (mv_id m);
  al_tenant : mv_tenant m = ad_tenant a;
  al_tank : mv_tank m = ad_tank a;
  al_type : mv_type m = TypeAdjustment;
  al_src : mv_src_type m = Some SrcAdjustment /\ mv_src_id m = Some (ad_id a);
  al_litres : mv_litres m = ad_delta a;
  al_after : ad_balance_after a = Some (mv_balance_after m);
  al_before : ad_balance_before a = Some (mv_balance_after m - ad_delta a);
}.

Definition adjustment_ok (l : list Movement) (a : Adjustment) : Prop :=
  match ad_status a with
  | AdjRequested => ad_approved_by a = None /\ ad_rejected_by a = None
      /\ ad_posted_by a = None /\ ad_movement a = None
  | AdjApproved => decided_by_other (ad_approved_by a) (ad_requested_by a)
      /\ ad_posted_by a = None /\ ad_movement a = None
  | AdjRejected => decided_by_other (ad_rejected_by a) (ad_requested_by a)
      /\ ad_posted_by a = None /\ ad_movement a = None
  | AdjPosted => decided_by_other (ad_approved_by a) (ad_requested_by a)
      /\ is_Some (ad_posted_by a) /\ exists m, In m l /\ adj_link a m
  end.

Record Adjustments_wf (d : DB) : Prop := {
  aw_ids : List.NoDup (map ad_id (db_adjustments d));
  aw_bound : forall a, In a (db_adjustments d) -> (ad_id a < db_next_id d)%N;
  aw_ok : forall a, In a (db_adjustments d) -> adjustment_ok (db_movements d) a;
}.

Lemma adjustment_ok_kept l l' a : rows_kept l l' -> adjustment_ok l a -> adjustment_ok l' a.
Proof.
  intros Hk. unfold adjustment_ok. destruct (ad_status a); try done.
  intros (H1 & H2 & m & Hm & Hl). split; [done|]. split; [done|].
  destruct (Hk m Hm); eexists; (split; [eassumption|done || (destruct Hl; constructor; done)]).
Qed.

(** Operations on other tables keep the table. *)
Lemma Adjustments_wf_frame d d' :
  Adjustments_wf d -> db_adjustments d' = db_adjustments d ->
  rows_kept (db_movements d) (db_movements d') -> (db_next_id d <= db_next_id d')%N ->
  Adjustments_wf d'.
Proof.
  intros [H1 H2 H3] E Hk Hn. constructor; rewrite E; [done| |].
  - intros a Ha. specialize (H2 a Ha). lia.
  - eauto using adjustment_ok_kept.
Qed.

Lemma update_adjustment_inv p f d a' d' :
  update_adjustment p f d = Ok (a', d') ->
  exists a, In a (db_adjustments d) /\ p a = true /\ a' = f a
    /\ d' = set_adjustments (update_where p f (db_adjustments d)) d.
Proof.
  unfold update_adjustment, update_returning, tbind, tget, tput, tret. cbn.
  destruct (first_where p (db_adjustments d)) as [a|] eqn:E; simpl; [|done].
  intros [= <- <-]. apply first_where_some in E as [H1 H2]. eauto.
Qed.

Lemma GetAdjustment_inv d tenant id a :
  GetAdjustment d tenant id = Ok a ->
  In a (db_adjustments d) /\ ad_tenant a = tenant /\ ad_id a = id.
Proof.
  unfold GetAdjustment, of_option. destruct (first_where _ _) as [x|] eqn:E; [|done].
  intros [= ->]. apply first_where_some in E as [H1 H2]. unfold adj_by in H2. bool_solve. tauto.
Qed.

(** The row a status-guarded update hits is the row that was read. *)
Lemma with_status_row d tenant id ok a r :
  Adjustments_wf d -> GetAdjustment d tenant id = Ok a ->
  In r (db_adjustments d) -> with_status tenant id ok r = true -> r = a.
Proof.
  intros Hw (Ha & _ & Hid)%GetAdjustment_inv Hr Hs. unfold with_status, adj_by in Hs.
  bool_solve. destruct_and!.
  eapply (NoDup_map_eq ad_id); [apply (aw_ids _ Hw)|done..|congruence].
Qed.

(** A guarded update of the row read by [GetAdjustment]. *)
Lemma Adjustments_wf_update d tenant id ok f a l' :
  Adjustments_wf d -> GetAdjustment d tenant id = Ok a ->
  (forall x, ad_id (f x) = ad_id x) ->
  rows_kept (db_movements d) l' -> adjustment_ok l' (f a) ->
  forall d', db_movements d' = l' -> (db_next_id d <= db_next_id d')%N ->
  db_adjustments d' = update_where (with_status tenant id ok) f (db_adjustments d) ->
  Adjustments_wf d'.
Proof.
  intros Hw Hg Hf Hk Hok d' El Hn Ed. constructor; rewrite Ed.
  - rewrite map_update_where by auto. apply Hw.
  - intros x (r & Hr & ->)%in_update_where. pose proof (aw_bound _ Hw r Hr).
    destruct (with_status _ _ _ r); rewrite ?Hf; lia.
  - intros x (r & Hr & ->)%in_update_where. rewrite El.
    destruct (with_status tenant id ok r) eqn:E.
    + by rewrite (with_status_row d tenant id ok a r).
    + apply (adjustment_ok_kept (db_movements d)); [done|]. by apply (aw_ok _ Hw).
Qed.

Lemma Adjustments_wf_request tenant inp d a d' :
  Adjustments_wf d -> RequestAdjustment tenant inp d = Ok (a, d') -> Adjustments_wf d'.
Proof.
  intros [H1 H2 H3] H. unfold RequestAdjustment in H. tx_unfold. unfold fresh_uuid in H.
  tx_inv H. constructor; simpl.
  - rewrite map_app. apply NoDup_snoc; [done|]. simpl.
    intros (x & Hx & Hin)%List.in_map_iff. apply H2 in Hin. lia.
  - intros x [Hx| ->]%in_snoc; [apply H2 in Hx; lia|simpl; lia].
  - intros x [Hx| ->]%in_snoc; [auto|]. done.
Qed.

Lemma ApproveAdjustment_inv tenant id who note d a' d' :
  ApproveAdjustment tenant id who note d = Ok (a', d') ->
  exists a, GetAdjustment d tenant id = Ok a /\ ad_status a = AdjRequested
    /\ ad_requested_by a <> who
    /\ d' = set_adjustments (update_where (with_status tenant id is_requested)
              (adj_approve who note (db_now d)) (db_adjustments d)) d.
Proof.
  unfold ApproveAdjustment, tbind at 1 2 3 4, tget, tlift, tguard. intros H.
  destruct (GetAdjustment d tenant id) as [a|] eqn:Eg; [|done]. exists a.
  destruct (is_requested (ad_status a)) eqn:E1; [|done].
  destruct (negb _) eqn:E2; [|done].
  apply update_adjustment_inv in H as (x & _ & _ & _ & ->).
  unfold is_requested in E1. by bool_solve.
Qed.

Lemma RejectAdjustment_inv tenant id who note d a' d' :
  RejectAdjustment tenant id who note d = Ok (a', d') ->
  exists a, GetAdjustment d tenant id = Ok a
    /\ (ad_status a = AdjRequested \/ ad_status a = AdjApproved)
    /\ ad_requested_by a <> who
    /\ d' = set_adjustments (update_where (with_status tenant id is_open)
              (adj_reject who note (db_now d)) (db_adjustments d)) d.
Proof.
  unfold RejectAdjustment, tbind at 1 2 3 4, tget, tlift, tguard. intros H.
  destruct (GetAdjustment d tenant id) as [a|] eqn:Eg; [|done]. exists a.
  destruct (is_open (ad_status a)) eqn:E1; [|done].
  destruct (negb _) eqn:E2; [|done].
  apply update_adjustment_inv in H as (x & _ & _ & _ & ->).
  unfold is_open in E1. apply orb_true_iff in E1. rewrite !bool_decide_eq_true in E1.
  by bool_solve.
Qed.

Lemma PostAdjustment_inv tenant id who d a' m d' :
  PostAdjustment tenant id who d = Ok ((a', m), d') ->
  exists a d1, GetAdjustment d tenant id = Ok a /\ ad_status a = AdjApproved
    /\ posted_row tenant (adjustment_input a who) d m /\ d1 = append_movement m d
    /\ let f := adj_post who (mv_id m) (mv_balance_after m - ad_delta a) (mv_balance_after m)
                  (db_now d) in
       d' = set_adjustments (update_where (with_status tenant id is_approved) f
              (db_adjustments d)) d1
    /\ exists x, In x (db_adjustments d) /\ with_status tenant id is_approved x = true /\ a' = f x.
Proof.
  unfold PostAdjustment. unfold tbind at 1 2 3 4, tget at 1, tlift at 1, tguard at 1. intros H.
  destruct (GetAdjustment d tenant id) as [a|] eqn:Eg; [|done].
  destruct (is_approved (ad_status a)) eqn:E1; [|done].
  destruct (PostMovement _ _ d) as [[m1 d1]|] eqn:Ep; [|done].
  apply PostMovement_inv in Ep as [Hp ->]. tx_unfold.
  destruct (col_in 14 3 _) as [after|] eqn:Ea; [|done].
  apply col_in_text in Ea as ->.
  destruct (numeric_col 14 3 _) as [before|] eqn:Eb; [|done].
  apply numeric_col_some in Eb as [-> _].
  destruct (negb _); [|done].
  destruct (update_adjustment _ _ _) as [[x d2]|] eqn:Eu; [|done]. injection H as <- -> <-.
  apply update_adjustment_inv in Eu as (r & Hr & Hs & -> & ->).
  exists a. eexists. split; [done|]. split; [unfold is_approved in E1; by bool_solve|].
  split; [done|]. split; [done|]. simpl.
  replace (round_to 3 (dec_sub (dec_of 3 (mv_balance_after m)) (dec_of 3 (ad_delta a))))
    with (mv_balance_after m - ad_delta a); [eauto|].
  unfold dec_sub, dec_opp. rewrite round_to_add by (simpl; lia).
  rewrite round_to_same. simpl. lia.
Qed.

Lemma Adjustments_wf_approve tenant id who note d a d' :
  Adjustments_wf d -> ApproveAdjustment tenant id who note d = Ok (a, d') -> Adjustments_wf d'.
Proof.
  intros Hw (x & Hg & Hs & Hne & ->)%ApproveAdjustment_inv.
  eapply (Adjustments_wf_update d tenant id is_requested (adj_approve who note (db_now d)) x (db_movements d) Hw Hg);
    [done|reflexivity| |done|simpl; lia|reflexivity].
  destruct (GetAdjustment_inv _ _ _ _ Hg) as (Hin & _). pose proof (aw_ok _ Hw x Hin) as Hok.
  unfold adjustment_ok in *. rewrite Hs in Hok. simpl. destruct_and!.
  split; [|done]. exists who. auto.
Qed.

Lemma Adjustments_wf_reject tenant id who note d a d' :
  Adjustments_wf d -> RejectAdjustment tenant id who note d = Ok (a, d') -> Adjustments_wf d'.
Proof.
  intros Hw (x & Hg & Hs & Hne & ->)%RejectAdjustment_inv.
  eapply (Adjustments_wf_update d tenant id is_open (adj_reject who note (db_now d)) x (db_movements d) Hw Hg);
    [done|reflexivity| |done|simpl; lia|reflexivity].
  destruct (GetAdjustment_inv _ _ _ _ Hg) as (Hin & _). pose proof (aw_ok _ Hw x Hin) as Hok.
  unfold adjustment_ok in *. simpl.
  destruct Hs as [Hs|Hs]; rewrite Hs in Hok; destruct_and!; (split; [|done]); exists who; auto.
Qed.

Lemma adj_post_link tenant who d a m :
  ad_tenant a = tenant -> posted_row tenant (adjustment_input a who) d m ->
  adj_link (adj_post who (mv_id m) (mv_balance_after m - ad_delta a) (mv_balance_after m)
              (db_now d) a) m.
Proof.
  intros Ht Hp. destruct (pr_amount _ _ _ _ Hp) as (v & Hv & Hl & _). simpl in Hv.
  rewrite parse_numeric_text in Hv. injection Hv as <-. rewrite round_to_same in Hl.
  constructor; simpl; try done.
  - rewrite Ht. apply (pr_tenant _ _ _ _ Hp).
  - apply (pr_tank _ _ _ _ Hp).
  - apply (pr_type _ _ _ _ Hp).
  - split; [apply (pr_src_type _ _ _ _ Hp)|apply (pr_src_id _ _ _ _ Hp)].
Qed.

Lemma Adjustments_wf_post tenant id who d r d' :
  Adjustments_wf d -> PostAdjustment tenant id who d = Ok (r, d') -> Adjustments_wf d'.
Proof.
  intros Hw H. destruct r as [a' m].
  apply PostAdjustment_inv in H as (a & d1 & Hg & Hs & Hp & -> & -> & _).
  destruct (GetAdjustment_inv _ _ _ _ Hg) as (Hin & Ht & _).
  eapply (Adjustments_wf_update d tenant id is_approved (adj_post who (mv_id m)
    (mv_balance_after m - ad_delta a) (mv_balance_after m) (db_now d)) a (db_movements d ++ [m]) Hw Hg);
    [done| | |done|simpl; lia|reflexivity].
  - intros x Hx. left. apply in_snoc. auto.
  - pose proof (aw_ok _ Hw a Hin) as Hok. unfold adjustment_ok in *. rewrite Hs in Hok.
    simpl. destruct_and!. split; [done|]. split; [eauto|]. exists m.
    split; [apply in_snoc; auto|]. by eapply adj_post_link.
Qed.

(** After a status-guarded update the row read back is the updated one. *)
Lemma GetAdjustment_updated d d' tenant id ok f a :
  Adjustments_wf d -> GetAdjustment d tenant id = Ok a -> ok (ad_status a) = true ->
  (forall x, ad_id (f x) = ad_id x) -> (forall x, ad_tenant (f x) = ad_tenant x) ->
  db_adjustments d' = update_where (with_status tenant id ok) f (db_adjustments d) ->
  GetAdjustment d' tenant id = Ok (f a).
Proof.
  intros Hw Hg Hok Hf Hft Ed. unfold GetAdjustment, of_option in *. rewrite Ed.
  destruct (first_where (adj_by tenant id) (db_adjustments d)) as [x|] eqn:E; [|done].
  injection Hg as ->.
  erewrite first_where_update; [done|exact E|..].
  - unfold with_status. apply first_where_some in E as [_ ->]. done.
  - intros x Hx. unfold with_status in Hx. by bool_solve.
  - apply first_where_some in E as [_ E]. unfold adj_by in *.
    rewrite bool_decide_eq_true in *. by rewrite Hf, Hft.
Qed.

Lemma is_approved_true a : ad_status a = AdjApproved -> is_approved (ad_status a) = true.
Proof. intros ->. reflexivity. Qed.

(** ** Properties of adjustments *)

(** Posting an approved adjustment writes one ledger row of exactly the
    requested delta, moves the tank's book stock by it, records the book
    stock before and after, and marks the request posted, after which it
    can be neither posted, approved nor rejected again. *)
Theorem PostAdjustment_effect tenant id who d a' m d' :
  Adjustments_wf d -> PostAdjustment tenant id who d = Ok ((a', m), d') ->
  ad_status a' = AdjPosted /\ adj_link a' m
  /\ db_movements d' = db_movements d ++ [m]
  /\ ad_balance_before a' = Some (ledger_sum d tenant (ad_tank a'))
  /\ ad_balance_after a' = Some (ledger_sum d' tenant (ad_tank a'))
  /\ ledger_sum d' tenant (ad_tank a') = ledger_sum d tenant (ad_tank a') + ad_delta a'
  /\ forall u n, PostAdjustment tenant id u d' = Err ErrAdjustmentBadState
       /\ ApproveAdjustment tenant id u n d' = Err ErrAdjustmentBadState
       /\ RejectAdjustment tenant id u n d' = Err ErrAdjustmentBadState.
Proof.
  intros Hw H.
  apply PostAdjustment_inv in H as (a & d1 & Hg & Hs & Hp & -> & -> & x & Hx & Hxs & ->).
  rewrite (with_status_row d tenant id is_approved a x Hw Hg Hx Hxs).
  destruct (GetAdjustment_inv _ _ _ _ Hg) as (Hin & Ht & _).
  pose proof (adj_post_link _ _ _ _ _ Ht Hp) as Hl.
  pose proof (posted_balance _ _ _ _ Hp (milli_text_col _)) as Hb. simpl in Hb.
  assert (Hsum : forall f, ledger_sum (set_adjustments f (append_movement m d)) tenant (ad_tank a)
    = ledger_sum d tenant (ad_tank a) + mv_litres m).
  { intros f. pose proof (append_movement_sum m d tenant (ad_tank a)) as E.
    rewrite (proj2 (on_tank_true _ _ _)) in E; [exact E|].
    split; [apply (pr_tenant _ _ _ _ Hp)|apply (pr_tank _ _ _ _ Hp)]. }
  pose proof (al_litres _ _ Hl) as Hll. simpl in Hll.
  split; [done|]. split; [done|]. split; [done|]. simpl. rewrite !Hsum.
  split; [f_equal; lia|]. split; [f_equal; lia|]. split; [lia|]. intros u n.
  set (f := adj_post _ _ _ _ _). set (d' := set_adjustments _ _).
  assert (Hg' : GetAdjustment d' tenant id = Ok (f a)).
  { apply (GetAdjustment_updated d d' tenant id is_approved f a Hw Hg); try done.
    by apply is_approved_true. }
  unfold PostAdjustment, ApproveAdjustment, RejectAdjustment, tbind, tget, tlift.
  by rewrite Hg'.
Qed.

(** The state after a request and its approval. *)
Definition demo_approved : DB :=
  (run_tx (let! a := RequestAdjustment 1 (mkAdjustmentInput 10 "-0.750" "spill" "spillage" 2) in
           ApproveAdjustment 1 (ad_id a) 3 None) (demo_open "100" demo_db)).2.

Lemma Adjustments_wf_demo : Adjustments_wf demo_approved.
Proof.
  assert (H0 : Adjustments_wf (demo_open "100" demo_db)).
  { constructor; vm_compute; [constructor|tauto..]. }
  destruct (RequestAdjustment 1 (mkAdjustmentInput 10 "-0.750" "spill" "spillage" 2)
    (demo_open "100" demo_db)) as [[a d1]|] eqn:E1; [|vm_compute in E1; discriminate E1].
  destruct (ApproveAdjustment 1 (ad_id a) 3 None d1) as [[b d2]|] eqn:E2.
  - unfold demo_approved, run_tx, tbind. rewrite E1, E2. simpl.
    eapply Adjustments_wf_approve, E2. eapply Adjustments_wf_request, E1. exact H0.
  - vm_compute in E1. injection E1 as <- <-. vm_compute in E2. discriminate E2.
Qed.

Lemma PostAdjustment_effect_witness :
  exists a m d', PostAdjustment 1 101 3 demo_approved = Ok ((a, m), d')
    /\ ledger_sum d' 1 10 = 99250
    /\ PostAdjustment 1 101 3 d' = Err ErrAdjustmentBadState.
Proof.
  destruct (PostAdjustment 1 101 3 demo_approved) as [[[a m] d']|e] eqn:E;
    [|vm_compute in E; discriminate E].
  destruct (PostAdjustment_effect 1 101 3 demo_approved a m d' Adjustments_wf_demo E)
    as (_ & _ & _ & _ & _ & H & Hr).
  exists a, m, d'. split; [reflexivity|]. split; [|apply (Hr 3%N None)].
  assert (Ea : ad_tank a = 10%N /\ ad_delta a = -750)
    by (vm_compute in E; injection E as <- _ _; split; reflexivity).
  destruct Ea as [E1 E2]. rewrite E1, E2 in H. rewrite H. vm_compute. reflexivity.
Defined.

(** ** Opening-stock requests *)

Lemma GetOpeningRequest_inv d tenant id o :
  GetOpeningRequest d tenant id = Ok o ->
  first_where (or_by tenant id) (db_openings d) = Some o
  /\ In o (db_openings d) /\ or_tenant o = tenant /\ or_id o = id.
Proof.
  unfold GetOpeningRequest, of_option. destruct (first_where _ _) as [x|] eqn:E; [|done].
  intros [= ->]. split; [done|]. apply first_where_some in E as [H1 H2].
  unfold or_by in H2. bool_solve. tauto.
Qed.

Lemma update_opening_inv p f d o' d' :
  update_opening p f d = Ok (o', d') ->
  exists o, first_where p (db_openings d) = Some o /\ o' = f o
    /\ d' = set_openings (update_where p f (db_openings d)) d.
Proof.
  unfold update_opening, update_returning, tbind, tget, tput, tret. cbn.
  destruct (first_where p (db_openings d)) as [a|] eqn:E; simpl; [|done].
  intros [= <- <-]. eauto.
Qed.

Lemma ApproveOpeningStock_inv tenant id who note self d o' m d' :
  ApproveOpeningStock tenant id who note self d = Ok ((o', m), d') ->
  exists o r, GetOpeningRequest d tenant id = Ok o /\ or_status o = OpDraft
    /\ (or_requested_by o <> who \/ self = true)
    /\ SetOpeningBalance tenant (opening_input o who note) d = Ok (m, append_movement m d)
    /\ first_where (draft_row tenant id) (db_openings d) = Some r
    /\ let f := or_approve who (mv_id m) note (mv_balance_after m) (db_now d) in
       o' = f r /\ d' = set_openings (update_where (draft_row tenant id) f (db_openings d))
                        (append_movement m d).
Proof.
  unfold ApproveOpeningStock.
  unfold tbind at 1 2 3 4 5, tget at 1, tlift at 1, tguard at 1 2, tmaperr. intros H.
  destruct (GetOpeningRequest d tenant id) as [o|] eqn:Eg; [|done].
  case_bool_decide as E1; [|done].
  destruct (negb (bool_decide (or_requested_by o = who) && negb self)) eqn:E2; [|done].
  destruct (SetOpeningBalance _ _ d) as [[m1 d1]|] eqn:Es; [|done].
  pose proof Es as (_ & -> & _)%SetOpeningBalance_inv. tx_unfold.
  destruct (col_in 14 3 _) as [b|] eqn:Eb; [|done].
  apply col_in_text in Eb as ->.
  destruct (negb (opening_linked _ _ _)); [|done].
  destruct (update_opening _ _ _) as [[x d2]|] eqn:Eu; [|done]. injection H as <- -> <-.
  apply update_opening_inv in Eu as (r & Hr & -> & ->).
  exists o, r. split; [done|]. split; [done|]. split; [|done].
  apply negb_true_iff, andb_false_iff in E2 as [E2|E2]; bool_solve; auto.
Qed.

(** The draft a guarded update hits is the request that was read. *)
Lemma draft_row_first tenant id l o r :
  first_where (or_by tenant id) l = Some o -> or_status o = OpDraft ->
  first_where (draft_row tenant id) l = Some r -> r = o.
Proof.
  intros Hf Hst Hr. induction l as [|x l IH]; simpl in *; [done|].
  unfold draft_row at 1 in Hr. destruct (or_by tenant id x); simpl in *; [|auto].
  injection Hf as ->. rewrite (bool_decide_eq_true_2 _ Hst) in Hr. congruence.
Qed.

Lemma draft_row_updated tenant id l o f :
  first_where (or_by tenant id) l = Some o -> or_status o = OpDraft ->
  (forall x, or_id (f x) = or_id x /\ or_tenant (f x) = or_tenant x) ->
  first_where (or_by tenant id) (update_where (draft_row tenant id) f l) = Some (f o).
Proof.
  intros Hf Hst Hid. pose proof (first_where_some _ _ _ Hf) as [_ Ho].
  apply first_where_update; [done|..].
  - unfold draft_row. by rewrite Ho, bool_decide_eq_true_2.
  - intros x Hx. unfold draft_row in Hx. by bool_solve.
  - unfold or_by in *. rewrite bool_decide_eq_true in *. by rewrite !(proj1 (Hid _)), (proj2 (Hid _)).
Qed.

(** A posted opening opens its tank. *)
Lemma opening_opens tenant tank m d :
  mv_tenant m = tenant -> mv_tank m = tank -> mv_type m = TypeOpening ->
  mv_status m = StatusPosted -> mv_src_type m <> Some SrcCorrection ->
  HasOpeningBalance (append_movement m d) tenant tank = true.
Proof.
  intros H1 H2 H3 H4 H5. apply exists_where_true. exists m. split; [apply in_snoc; auto|].
  unfold hasOpeningPredicate, on_tank. rewrite !bool_decide_eq_true_2 by auto.
  by rewrite bool_decide_eq_false_2.
Qed.

(** Approving an opening-stock request is the first opening of its tank:
    it needs a draft and, unless self-approval is allowed, a second person;
    it posts the requested litres as the tank's opening and links the row;
    afterwards the request cannot be approved or rejected again, and the
    tank takes neither another request nor another opening. *)
Theorem ApproveOpeningStock_effect tenant id who note self d o' m d' :
  ApproveOpeningStock tenant id who note self d = Ok ((o', m), d') ->
  (or_requested_by o' <> who \/ self = true)
  /\ or_status o' = OpApproved /\ or_movement o' = Some (mv_id m)
  /\ HasOpeningBalance d tenant (or_tank o') = false
  /\ db_movements d' = db_movements d ++ [m] /\ mv_litres m = or_litres o'
  /\ or_balance_after o' = Some (ledger_sum d' tenant (or_tank o'))
  /\ ledger_sum d' tenant (or_tank o') = ledger_sum d tenant (or_tank o') + or_litres o'
  /\ (forall u n s, ApproveOpeningStock tenant id u n s d' = Err ErrOpeningRequestBadState
        /\ RejectOpeningStock tenant id u n s d' = Err ErrOpeningRequestBadState)
  /\ (forall i, ri_tank i = or_tank o' ->
        RequestOpeningStock tenant i d' = Err ErrOpeningRequestExists)
  /\ (forall i, oi_tank i = or_tank o' -> SetOpeningBalance tenant i d' = Err ErrOpeningExists).
Proof.
  intros (o & r & Hg & Hst & Hself & Hset & Hr & -> & ->)%ApproveOpeningStock_inv.
  apply GetOpeningRequest_inv in Hg as (Hf & _ & Hten & Hid).
  assert (r = o) as ->.
  { eapply draft_row_first; eauto. }
  apply SetOpeningBalance_inv in Hset as (Hno & _ & Hp). simpl in *.
  pose proof (posted_balance _ _ _ _ Hp (milli_text_col _)) as Hb. simpl in Hb.
  destruct (pr_amount _ _ _ _ Hp) as (v & Hv & Hl & _). simpl in Hv.
  rewrite parse_numeric_text in Hv. injection Hv as <-. rewrite round_to_same in Hl.
  pose proof (pr_tenant _ _ _ _ Hp) as Ht. pose proof (pr_tank _ _ _ _ Hp) as Hk. simpl in Hk.
  set (d' := set_openings _ _).
  assert (Hs : ledger_sum d' tenant (or_tank o) = ledger_sum d tenant (or_tank o) + mv_litres m).
  { pose proof (append_movement_sum m d tenant (or_tank o)) as E.
    by rewrite (proj2 (on_tank_true _ _ _)) in E. }
  assert (Hopen : HasOpeningBalance d' tenant (or_tank o) = true).
  { apply (opening_opens tenant (or_tank o) m d); try done.
    - apply (pr_type _ _ _ _ Hp).
    - apply (pr_status _ _ _ _ Hp).
    - by rewrite (pr_src_type _ _ _ _ Hp). }
  repeat (split; [done || congruence || (f_equal; lia) || lia|]). split; [|split].
  - intros u n s. set (f := or_approve _ _ _ _ _) in d'.
    assert (Hg : GetOpeningRequest d' tenant id = Ok (f o)).
    { unfold GetOpeningRequest. simpl. by rewrite (draft_row_updated _ _ _ _ f Hf Hst). }
    unfold ApproveOpeningStock, RejectOpeningStock, tbind, tget, tlift. by rewrite Hg.
  - intros i Hi. unfold RequestOpeningStock, tbind, hasOpeningTx, tguard.
    by rewrite Hi, Hopen.
  - intros i Hi. unfold SetOpeningBalance, tbind, hasOpeningTx, tguard. by rewrite Hi, Hopen.
Qed.

Definition demo_requested : DB :=
  (run_tx (RequestOpeningStock 1 (mkOpeningRequestInput 10 "250.5" None 2)) demo_db).2.

Lemma ApproveOpeningStock_effect_witness :
  exists o m d', ApproveOpeningStock 1 100 3 None false demo_requested = Ok ((o, m), d')
    /\ ledger_sum d' 1 10 = 250500
    /\ RejectOpeningStock 1 100 3 None false d' = Err ErrOpeningRequestBadState.
Proof.
  destruct (ApproveOpeningStock 1 100 3 None false demo_requested) as [[[o m] d']|e] eqn:E;
    [|vm_compute in E; discriminate E].
  destruct (ApproveOpeningStock_effect 1 100 3 None false demo_requested o m d' E)
    as (_ & _ & _ & _ & _ & _ & _ & H & Hr & _).
  exists o, m, d'. split; [reflexivity|]. split; [|apply (Hr 3%N None false)].
  assert (Ea : or_tank o = 10%N /\ or_litres o = 250500)
    by (vm_compute in E; injection E as <- _ _; split; reflexivity).
  destruct Ea as [E1 E2]. rewrite E1, E2 in H. rewrite H. vm_compute. reflexivity.
Defined.
