(* ===== verification/Receiving.v ===== *)
(** * Receiving deliveries (package [inventory]: deliveries.go)

    A delivery is recorded and its litres are posted to the tank's ledger in
    one transaction.  A PO-backed receipt also advances the order: it is
    refused past the ordered quantity plus the receiving tolerance of 0.5%,
    adds to the line's received litres and moves the order's status.

    The tolerance band [ordered * 0.5 / 100] is an exact decimal (the
    quotient of a 15-digit numeric by 100 keeps all its digits), written
    here as [ordered * 0.005].  The quotient of the landed cost per litre
    is not exact: Postgres chooses its scale, so division is the parameter
    [numeric_div].  The dip readings of a delivery are stored and not
    used, and are left out. *)

From stdpp Require Import base list strings.
From Stdlib Require Import ZArith Lia.
From S2P Require Import Prelude Numeric Schema Ledger.

Local Open Scope Z_scope.
Local Open Scope tx_scope.

(** Half a percent as a decimal fraction. *)
Definition receivingTolerancePct : dec := Dec 5 3.

Record ReceiveInput := mkReceiveInput {
  rv_tank : uuid;
  rv_supplier_ref : option string;
  rv_volume : string;
  rv_received_by : uuid;
  rv_notes : option string;
}.

Record GoodsReceiptInput := mkGoodsReceiptInput {
  gr_tank : uuid;
  gr_po : uuid;
  gr_po_line : uuid;
  gr_volume : string;
  gr_line_unit_price : option string;
  gr_freight : string;
  gr_duty : string;
  gr_levies : string;
  gr_received_by : uuid;
  gr_notes : option string;
}.

Record GoodsReceiptResult := mkGoodsReceiptResult {
  res_delivery : Delivery;
  res_movement : Movement;
  res_po_status : po_status;
  res_discrepancy : bool;
  res_variance : dec;
}.

(** [INSERT INTO deliveries] *)
Definition delivery_checks (x : Delivery) : bool :=
  (0 <? dl_volume x)
  && match dl_line_unit_price x with Some p => 0 <=? p | None => true end
  && (0 <=? dl_freight x) && (0 <=? dl_duty x) && (0 <=? dl_levies x)
  && match dl_cost_total x with Some c => 0 <=? c | None => true end
  && match dl_cost_per_litre x with Some c => 0 <=? c | None => true end.

Definition po_line_by (tenant po line : uuid) (l : POLine) : bool :=
  bool_decide (pl_tenant l = tenant /\ pl_po l = po /\ pl_id l = line).

Definition delivery_fks (d : DB) (x : Delivery) : bool :=
  fk_tank d (dl_tenant x) (dl_tank x)
  && fk_pair (db_users d) (dl_tenant x) (dl_received_by x)
  && fk_opt (fk_pair (db_suppliers d) (dl_tenant x)) (dl_supplier x)
  && fk_opt (fk_po d (dl_tenant x)) (dl_po x)
  && match dl_po x, dl_po_line x with
     | Some p, Some l => exists_where (po_line_by (dl_tenant x) p l) (db_po_lines d)
     | _, _ => true
     end.

Definition insert_delivery (mk : uuid -> Z -> Delivery) : Tx DB inv_error Delivery :=
  let! id := fresh_uuid in
  let! d := tget in
  let x := mk id (db_now d) in
  tguard (delivery_checks x) SqlCheckViolation ;;!
  tguard (delivery_fks d x) SqlForeignKeyViolation ;;!
  tput (set_deliveries (db_deliveries d ++ [x]) d) ;;! tret x.

(** The movement a recorded delivery posts. *)
Definition delivery_movement (x : Delivery) (supplier po : option uuid)
  (cost_total cost_per_litre : option Z) : PostInput :=
  mkPostInput (dl_tank x) TypeDelivery (Some SrcDelivery) (Some (dl_id x))
    (numeric_text 3 (dl_volume x)) supplier po
    (numeric_text 2 <$> cost_total) (numeric_text 4 <$> cost_per_litre) None
    (dl_received_by x) (dl_notes x).

Definition ReceiveDelivery (tenant : uuid) (inp : ReceiveInput)
  : Tx DB inv_error (Delivery * Movement) :=
  let! volume := tlift (col_in 14 3 (rv_volume inp)) in
  let! x := insert_delivery (fun id now =>
    mkDelivery id tenant (rv_tank inp) (rv_supplier_ref inp) None None None volume None 0 0 0
      None None MatchLegacy None (rv_received_by inp) now (rv_notes inp)) in
  let! m := PostMovement tenant (delivery_movement x None None None None) in
  tret (x, m).

Definition po_by (tenant id : uuid) (p : PurchaseOrder) : bool :=
  bool_decide (po_tenant p = tenant /\ po_id p = id).
Definition tank_by (tenant id : uuid) (t : Tank) : bool :=
  bool_decide (tk_tenant t = tenant /\ tk_id t = id).

(** The line and its order, joined. *)
Definition find_po_line (d : DB) (tenant po line : uuid) : option (PurchaseOrder * POLine) :=
  match first_where (po_line_by tenant po line) (db_po_lines d),
        first_where (po_by tenant po) (db_pos d) with
  | Some l, Some p => Some (p, l)
  | _, _ => None
  end.

Definition tolerance_of (ordered : Z) : dec := dec_mul (dec_of 3 ordered) receivingTolerancePct.

Definition new_received (l : POLine) (v : dec) : dec := dec_add (dec_of 3 (pl_received l)) v.
Definition receipt_variance (l : POLine) (v : dec) : dec :=
  dec_sub (new_received l v) (dec_of 3 (pl_ordered l)).
Definition over_receipt (l : POLine) (v : dec) : bool :=
  dec_ltb (dec_add (dec_of 3 (pl_ordered l)) (tolerance_of (pl_ordered l))) (new_received l v).
Definition receipt_match (l : POLine) (v : dec) : match_status :=
  if dec_ltb (receipt_variance l v) (dec_opp (tolerance_of (pl_ordered l))) then MatchShort
  else if dec_ltb (tolerance_of (pl_ordered l)) (receipt_variance l v) then MatchOver
  else MatchMatched.

Definition receivable (s : po_status) : bool :=
  match s with POConfirmed | POPartiallyReceived => true | _ => false end.

Definition set_received (z : Z) (l : POLine) : POLine :=
  mkPOLine (pl_id l) (pl_tenant l) (pl_po l) (pl_product l) (pl_ordered l) (pl_unit_price l) z.
Definition set_po_status (s : po_status) (p : PurchaseOrder) : PurchaseOrder :=
  mkPO (po_id p) (po_tenant p) (po_station p) (po_supplier p) s (po_head p).

Definition fully_received (l : POLine) : bool :=
  dec_leb (dec_sub (dec_of 3 (pl_ordered l)) (tolerance_of (pl_ordered l)))
    (dec_of 3 (pl_received l)).

Definition order_lines (d : DB) (tenant po : uuid) : list POLine :=
  select (fun l => bool_decide (pl_tenant l = tenant /\ pl_po l = po)) (db_po_lines d).

Definition advanced_status (lines : list POLine) : po_status :=
  if negb (bool_decide (lines = [])) && forallb fully_received lines then POReceived
  else if existsb (fun l => 0 <? pl_received l) lines then POPartiallyReceived
  else POConfirmed.

Definition advancePurchaseOrderStatus (tenant po : uuid) : Tx DB inv_error po_status :=
  let! d := tget in
  let status := advanced_status (order_lines d tenant po) in
  let '(row, t) := update_returning (po_by tenant po) (set_po_status status) (db_pos d) in
  match row with
  | None => tfail ErrNoRows
  | Some p => tput (set_pos t d) ;;! tret (po_st p)
  end.

(** [UPDATE purchase_order_lines SET received_litres = received_litres + $4]; the row
    is the one locked by the caller. *)
Definition add_received (tenant po line : uuid) (l : POLine) (v : dec) : Tx DB inv_error unit :=
  let! z := tlift (of_option SqlNumericError (numeric_col 14 3 (new_received l v))) in
  tguard (0 <=? z) SqlCheckViolation ;;!
  let! d := tget in
  tput (set_po_lines (update_where (po_line_by tenant po line) (set_received z) (db_po_lines d)) d).

Section GoodsReceipt.
(** Postgres [numeric / numeric]. *)
Context (numeric_div : dec -> dec -> dec).

Definition landed_cost (price volume freight duty levies : dec) : dec :=
  dec_add (dec_add (dec_add (dec_mul price volume) freight) duty) levies.

(** [ROUND(cost, 2)] and [ROUND(cost / NULLIF(volume, 0), 4)], each
    assigned to its column. *)
Definition cost_columns (price volume freight duty levies : dec)
  : result inv_error (option Z * option Z) :=
  let c := landed_cost price volume freight duty levies in
  rbind (of_option SqlNumericError (numeric_col 14 2 c)) (fun total =>
  if mant volume =? 0 then Ok (Some total, None) else
  rbind (of_option SqlNumericError (numeric_col 14 4 (numeric_div c volume))) (fun per =>
  Ok (Some total, Some per))).

Definition num_in (v : string) : result inv_error dec :=
  of_option SqlNumericError (parse_numeric v).

Definition ReceiveGoodsReceipt (tenant : uuid) (inp : GoodsReceiptInput)
  : Tx DB inv_error GoodsReceiptResult :=
  let! v := tlift (num_in (gr_volume inp)) in
  let! d := tget in
  match find_po_line d tenant (gr_po inp) (gr_po_line inp) with
  | None => tfail ErrPOLineNotFound
  | Some (po, line) =>
    tguard (receivable (po_st po)) ErrPurchaseOrderNotReceivable ;;!
    match first_where (tank_by tenant (gr_tank inp)) (db_tanks d) with
    | None => tfail ErrReceiptTankMismatch
    | Some tank =>
      tguard (bool_decide (tk_station tank = po_station po)
              && bool_decide (tk_product tank = pl_product line)) ErrReceiptTankMismatch ;;!
      let price_text :=
        match gr_line_unit_price inp with
        | Some p => if bool_decide (p = "")%string then numeric_text 2 (pl_unit_price line) else p
        | None => numeric_text 2 (pl_unit_price line)
        end in
      tguard (negb (over_receipt line v)) ErrOverReceipt ;;!
      let mstatus := receipt_match line v in
      let variance := receipt_variance line v in
      let! price := tlift (num_in price_text) in
      let! freight := tlift (num_in (defaultDecimal (gr_freight inp))) in
      let! duty := tlift (num_in (defaultDecimal (gr_duty inp))) in
      let! levies := tlift (num_in (defaultDecimal (gr_levies inp))) in
      let! volume := tlift (of_option SqlNumericError (numeric_col 14 3 v)) in
      let! pcol := tlift (of_option SqlNumericError (numeric_col 14 2 price)) in
      let! fcol := tlift (of_option SqlNumericError (numeric_col 14 2 freight)) in
      let! dcol := tlift (of_option SqlNumericError (numeric_col 14 2 duty)) in
      let! lcol := tlift (of_option SqlNumericError (numeric_col 14 2 levies)) in
      let! costs := tlift (cost_columns price v freight duty levies) in
      let '(total, per) := costs in
      let! vcol := tlift (of_option SqlNumericError (numeric_col 14 3 variance)) in
      let! x := insert_delivery (fun id now =>
        mkDelivery id tenant (gr_tank inp) None (Some (po_supplier po)) (Some (gr_po inp))
          (Some (gr_po_line inp)) volume (Some pcol) fcol dcol lcol total per mstatus
          (Some vcol) (gr_received_by inp) now (gr_notes inp)) in
      add_received tenant (gr_po inp) (gr_po_line inp) line v ;;!
      let! status := advancePurchaseOrderStatus tenant (gr_po inp) in
      let! m := PostMovement tenant
        (delivery_movement x (Some (po_supplier po)) (Some (gr_po inp)) total per) in
      tret (mkGoodsReceiptResult x m status
              (negb (bool_decide (mstatus = MatchMatched))) variance)
    end
  end.
End GoodsReceipt.
