(* ===== verification/ReceivingProps.v ===== *)
(** * Properties of receiving

    A receipt is refused past the ordered quantity and its tolerance; an
    accepted one is recorded once as a delivery, once on the ledger and once
    on the order line, all for the same litres. *)

From stdpp Require Import base list strings.
From Stdlib Require Import ZArith Lia.
From S2P Require Import Prelude Numeric Schema Ledger LedgerProps StockRequestsProps Receiving.

Local Open Scope Z_scope.
Local Open Scope tx_scope.

(** ** What a receipt does *)

Lemma insert_delivery_inv mk d x d' :
  insert_delivery mk d = Ok (x, d') ->
  x = mk (db_next_id d) (db_now d) /\ delivery_checks x = true
  /\ d' = set_deliveries (db_deliveries d ++ [x]) (set_next_id (db_next_id d + 1)%N d).
Proof.
  unfold insert_delivery, fresh_uuid. intros H. tx_unfold. simpl in H.
  destruct (delivery_checks _) eqn:E; [|done]. destruct (delivery_fks _ _); [|done].
  by simplify_eq.
Qed.

Lemma ReceiveDelivery_inv tenant inp d x m d' :
  ReceiveDelivery tenant inp d = Ok ((x, m), d') ->
  exists v d1, insert_delivery (fun id now =>
      mkDelivery id tenant (rv_tank inp) (rv_supplier_ref inp) None None None v None 0 0 0
        None None MatchLegacy None (rv_received_by inp) now (rv_notes inp)) d = Ok (x, d1)
  /\ posted_row tenant (delivery_movement x None None None None) d1 m
  /\ d' = append_movement m d1.
Proof.
  unfold ReceiveDelivery. intros H. tx_steps H. simplify_eq.
  match goal with Hp : PostMovement _ _ _ = _ |- _ => apply PostMovement_inv in Hp as [Hp ->] end.
  eauto.
Qed.

(** The parts of a successful goods receipt. *)
Record receipt (tenant : uuid) (inp : GoodsReceiptInput) (d : DB) (res : GoodsReceiptResult)
  (d' : DB) (rcp_v : dec) (rcp_po : PurchaseOrder) (rcp_line : POLine) (rcp_tank : Tank)
  (rcp_d1 : DB) : Prop := {
  rcp_parse : parse_numeric (gr_volume inp) = Some rcp_v;
  rcp_find : find_po_line d tenant (gr_po inp) (gr_po_line inp) = Some (rcp_po, rcp_line);
  rcp_receivable : receivable (po_st rcp_po) = true;
  rcp_in_tank : In rcp_tank (db_tanks d) /\ tk_tenant rcp_tank = tenant /\ tk_id rcp_tank = gr_tank inp
    /\ tk_station rcp_tank = po_station rcp_po /\ tk_product rcp_tank = pl_product rcp_line;
  rcp_not_over : over_receipt rcp_line rcp_v = false;
  rcp_delivery : let x := res_delivery res in
    dl_id x = db_next_id d /\ dl_tenant x = tenant /\ dl_tank x = gr_tank inp
    /\ dl_po x = Some (gr_po inp) /\ dl_po_line x = Some (gr_po_line inp)
    /\ dl_volume x = round_to 3 rcp_v /\ delivery_checks x = true
    /\ dl_match x = receipt_match rcp_line rcp_v;
  rcp_state : rcp_d1 = set_pos (update_where (po_by tenant (gr_po inp))
      (set_po_status (res_po_status res)) (db_pos d))
    (set_po_lines (update_where (po_line_by tenant (gr_po inp) (gr_po_line inp))
      (set_received (round_to 3 (new_received rcp_line rcp_v))) (db_po_lines d))
    (set_deliveries (db_deliveries d ++ [res_delivery res])
      (set_next_id (db_next_id d + 1)%N d)));
  rcp_status : res_po_status res = advanced_status (order_lines rcp_d1 tenant (gr_po inp));
  rcp_received : 0 <= round_to 3 (new_received rcp_line rcp_v);
  rcp_movement : exists s p t c, posted_row tenant (delivery_movement (res_delivery res) s p t c)
    rcp_d1 (res_movement res);
  rcp_final : d' = append_movement (res_movement res) rcp_d1;
}.

Lemma advancePurchaseOrderStatus_inv tenant po d s d' :
  advancePurchaseOrderStatus tenant po d = Ok (s, d') ->
  s = advanced_status (order_lines d tenant po)
  /\ d' = set_pos (update_where (po_by tenant po) (set_po_status s) (db_pos d)) d.
Proof.
  unfold advancePurchaseOrderStatus, update_returning, tbind, tget, tput, tret. cbn.
  destruct (first_where (po_by tenant po) (db_pos d)) as [p|]; simpl; [|done]. by intros [= <- <-].
Qed.

Lemma add_received_inv tenant po line l v d u d' :
  add_received tenant po line l v d = Ok (u, d') ->
  0 <= round_to 3 (new_received l v)
  /\ d' = set_po_lines (update_where (po_line_by tenant po line)
            (set_received (round_to 3 (new_received l v))) (db_po_lines d)) d.
Proof.
  unfold add_received. intros H. tx_unfold.
  destruct (numeric_col 14 3 _) as [z|] eqn:E; [|done]. apply numeric_col_some in E as [-> _].
  destruct (Z.leb_spec 0 (round_to 3 (new_received l v))); [|done]. by injection H as _ <-.
Qed.

Lemma ReceiveGoodsReceipt_inv numeric_div tenant inp d res d' :
  ReceiveGoodsReceipt numeric_div tenant inp d = Ok (res, d') ->
  exists v po line tank d1, receipt tenant inp d res d' v po line tank d1.
Proof.
  unfold ReceiveGoodsReceipt, num_in. intros H. tx_steps H. subst.
  match goal with Hp : PostMovement _ _ _ = _ |- _ => apply PostMovement_inv in Hp as [Hp ->] end.
  match goal with Hp : advancePurchaseOrderStatus _ _ _ = _ |- _ =>
    apply advancePurchaseOrderStatus_inv in Hp as [-> ->] end.
  match goal with Hp : add_received _ _ _ _ _ _ = _ |- _ => apply add_received_inv in Hp as [Hrec ->] end.
  match goal with Hp : insert_delivery _ _ = _ |- _ => apply insert_delivery_inv in Hp as (-> & Hchk & ->) end.
  match goal with Hp : numeric_col 14 3 _ = Some ?z |- context [mkDelivery _ _ _ _ _ _ _ ?z] =>
    apply numeric_col_some in Hp as [-> _] end.
  match goal with Hp : first_where _ (db_tanks d) = Some _ |- _ =>
    apply first_where_some in Hp as [Htin Htk] end.
  unfold tank_by in Htk. bool_solve. destruct_and!.
  do 5 eexists. constructor; simpl; eauto 10.
Qed.

(** ** The receiving invariant *)

(** The ledger row of a recorded delivery. *)
Definition delivery_row (x : Delivery) (m : Movement) : Prop :=
  mv_tenant m = dl_tenant x /\ mv_tank m = dl_tank x /\ mv_type m = TypeDelivery
  /\ mv_src_type m = Some SrcDelivery /\ mv_src_id m = Some (dl_id x)
  /\ mv_litres m = dl_volume x.

Definition on_line (l : POLine) (x : Delivery) : bool :=
  bool_decide (dl_tenant x = pl_tenant l /\ dl_po x = Some (pl_po l) /\ dl_po_line x = Some (pl_id l)).

(** The litres delivered against an order line. *)
Definition delivered (d : DB) (l : POLine) : Z := sum_by dl_volume (select (on_line l) (db_deliveries d)).

Record Receiving_wf (d : DB) : Prop := {
  rw_posted : forall x, In x (db_deliveries d) ->
    0 < dl_volume x /\ exists m, In m (db_movements d) /\ delivery_row x m;
  rw_ids : forall x, In x (db_deliveries d) -> (dl_id x < db_next_id d)%N;
  rw_lines : List.NoDup (map pl_id (db_po_lines d));
  rw_received : forall l, In l (db_po_lines d) -> pl_received l = delivered d l;
  rw_cap : forall l, In l (db_po_lines d) -> 1000 * pl_received l <= 1005 * pl_ordered l + 500
             \/ pl_received l = 0;
}.

Lemma Receiving_wf_frame d d' :
  Receiving_wf d -> db_deliveries d' = db_deliveries d -> db_po_lines d' = db_po_lines d ->
  rows_kept (db_movements d) (db_movements d') -> (db_next_id d <= db_next_id d')%N ->
  Receiving_wf d'.
Proof.
  intros [H1 H2 H3 H4 H5] E1 E2 Hk Hn. constructor; unfold delivered; rewrite ?E1, ?E2; try done.
  - intros x Hx. destruct (H1 x Hx) as (Hv & m & Hm & Hd). split; [done|].
    destruct (Hk m Hm); [exists m|exists (mark_reversed m)]; done.
  - intros x Hx. specialize (H2 x Hx). lia.
Qed.

Lemma delivery_movement_row tenant x s p t c d m :
  dl_tenant x = tenant -> posted_row tenant (delivery_movement x s p t c) d m -> delivery_row x m.
Proof.
  intros Ht Hp. destruct (pr_amount _ _ _ _ Hp) as (v & Hv & Hl & _). simpl in Hv.
  rewrite parse_numeric_text in Hv. injection Hv as <-. rewrite round_to_same in Hl.
  repeat split; [rewrite Ht; apply (pr_tenant _ _ _ _ Hp)|apply (pr_tank _ _ _ _ Hp)
    |apply (pr_type _ _ _ _ Hp)|apply (pr_src_type _ _ _ _ Hp)|apply (pr_src_id _ _ _ _ Hp)|done].
Qed.

Lemma delivery_checks_volume x : delivery_checks x = true -> 0 < dl_volume x.
Proof. unfold delivery_checks. rewrite !andb_true_iff, Z.ltb_lt. tauto. Qed.

Lemma Receiving_wf_delivery tenant inp d r d' :
  Receiving_wf d -> ReceiveDelivery tenant inp d = Ok (r, d') -> Receiving_wf d'.
Proof.
  intros [H1 H2 H3 H4 H5] H. destruct r as [x m].
  apply ReceiveDelivery_inv in H as (v & d1 & (Hx & Hc & ->)%insert_delivery_inv & Hp & ->).
  constructor; simpl; try done.
  - intros y [Hy| ->]%in_snoc.
    + destruct (H1 y Hy) as (Hv & k & Hk & Hd). split; [done|]. exists k. rewrite in_snoc. auto.
    + split; [by apply delivery_checks_volume|]. exists m. split; [apply in_snoc; auto|].
      eapply delivery_movement_row; [|exact Hp]. by rewrite Hx.
  - intros y [Hy| ->]%in_snoc; [specialize (H2 y Hy); lia|]. rewrite Hx. simpl. lia.
  - intros l Hl. unfold delivered. simpl. rewrite select_app, sum_by_app. simpl.
    replace (on_line l x) with false by (rewrite Hx; unfold on_line; simpl;
      symmetry; apply bool_decide_eq_false_2; intros (_ & ? & _); done).
    simpl. rewrite Z.add_0_r. by apply H4.
Qed.

Lemma find_po_line_inv d tenant po line p l :
  find_po_line d tenant po line = Some (p, l) ->
  In l (db_po_lines d) /\ pl_tenant l = tenant /\ pl_po l = po /\ pl_id l = line
  /\ In p (db_pos d) /\ po_tenant p = tenant /\ po_id p = po.
Proof.
  unfold find_po_line.
  destruct (first_where _ (db_po_lines d)) as [l'|] eqn:E1; [|done].
  destruct (first_where _ (db_pos d)) as [p'|] eqn:E2; [|done]. intros [= -> ->].
  apply first_where_some in E1 as [? E1]. apply first_where_some in E2 as [? E2].
  unfold po_line_by in E1. unfold po_by in E2. bool_solve. tauto.
Qed.

(** An admitted quantity keeps the line within its tolerance. *)
Lemma not_over_receipt l v :
  over_receipt l v = false -> 1000 * round_to 3 (new_received l v) <= 1005 * pl_ordered l + 500.
Proof.
  unfold over_receipt, dec_ltb. rewrite negb_false_iff. intros H.
  assert (E : dec_add (dec_of 3 (pl_ordered l)) (tolerance_of (pl_ordered l))
    = Dec (1005 * pl_ordered l) (3 + 3)).
  { unfold tolerance_of, dec_add, dec_mul, dec_of, receivingTolerancePct, at_scale. simpl.
    f_equal. change (pow10 3) with 1000. change (pow10 0) with 1. lia. }
  rewrite E in H. apply dec_leb_round in H. change (pow10 3) with 1000 in H. lia.
Qed.

Lemma round_to_pos_mant s v : 0 < round_to s v -> 0 <= mant v.
Proof.
  unfold round_to. destruct (scale v <=? s)%nat.
  - unfold at_scale. pose proof (pow10_pos (s - scale v)). nia.
  - pose proof (pow10_pos (scale v - s)). unfold round_div. intros H1.
    destruct (Z.sgn_spec (mant v)) as [[? _]|[[? _]|[? E]]]; [lia..|].
    rewrite E in H1. pose proof (Z.div_pos (2 * Z.abs (mant v) + pow10 (scale v - s))
      (2 * pow10 (scale v - s)) ltac:(lia) ltac:(lia)). lia.
Qed.

Lemma delivered_nonneg d l : Receiving_wf d -> 0 <= delivered d l.
Proof.
  intros Hw. apply sum_by_nonneg. intros x [Hx _]%in_select.
  destruct (rw_posted _ Hw x Hx) as [? _]. lia.
Qed.

(** The received litres of the line grow by the delivered litres. *)
Lemma receipt_received tenant inp d res d' v po line tank d1 :
  Receiving_wf d -> receipt tenant inp d res d' v po line tank d1 ->
  round_to 3 (new_received line v) = pl_received line + dl_volume (res_delivery res).
Proof.
  intros Hw Hr. destruct (rcp_delivery _ _ _ _ _ _ _ _ _ _ Hr) as (_ & _ & _ & _ & _ & Hv & Hc & _).
  apply delivery_checks_volume in Hc. rewrite Hv in *. unfold new_received.
  apply round_to_add_nonneg; [|by eapply round_to_pos_mant].
  destruct (find_po_line_inv _ _ _ _ _ _ (rcp_find _ _ _ _ _ _ _ _ _ _ Hr)) as (Hl & _).
  rewrite (rw_received _ Hw line Hl). by apply delivered_nonneg.
Qed.

Lemma po_line_by_row d tenant po line l r :
  Receiving_wf d -> In l (db_po_lines d) -> pl_id l = line -> In r (db_po_lines d) ->
  po_line_by tenant po line r = true -> r = l.
Proof.
  intros Hw Hl Hid Hr Hb. unfold po_line_by in Hb. bool_solve. destruct_and!.
  eapply (NoDup_map_eq pl_id); [apply (rw_lines _ Hw)|done..|congruence].
Qed.

Lemma Receiving_wf_receipt numeric_div tenant inp d res d' :
  Receiving_wf d -> ReceiveGoodsReceipt numeric_div tenant inp d = Ok (res, d') -> Receiving_wf d'.
Proof.
  intros Hw (v & po & line & tank & d1 & Hr)%ReceiveGoodsReceipt_inv.
  pose proof (receipt_received _ _ _ _ _ _ _ _ _ _ Hw Hr) as Hz.
  pose proof (not_over_receipt _ _ (rcp_not_over _ _ _ _ _ _ _ _ _ _ Hr)) as Hcap.
  destruct (rcp_movement _ _ _ _ _ _ _ _ _ _ Hr) as (s & p & t & c & Hp).
  destruct (find_po_line_inv _ _ _ _ _ _ (rcp_find _ _ _ _ _ _ _ _ _ _ Hr))
    as (Hl & Hlt & Hlp & Hli & _).
  destruct Hr as [_ _ _ _ _ (Di & Dt & Dk & Dp & Dl & Dv & Dc & _) -> _ _ _ ->].
  set (x := res_delivery res) in *. set (m := res_movement res) in *.
  pose proof Hw as [H1 H2 H3 H4 H5]. constructor; simpl.
  - intros y [Hy| ->]%in_snoc.
    + destruct (H1 y Hy) as (Hv & k & Hk & Hd). split; [done|]. exists k. rewrite in_snoc. auto.
    + split; [by apply delivery_checks_volume|]. exists m. split; [apply in_snoc; auto|].
      by eapply delivery_movement_row.
  - intros y [Hy| ->]%in_snoc; [specialize (H2 y Hy); lia|]. lia.
  - by rewrite map_update_where.
  - intros l' (r & Hin & ->)%in_update_where. unfold delivered. simpl.
    rewrite select_app, sum_by_app. fold (delivered d r). simpl.
    destruct (po_line_by tenant (gr_po inp) (gr_po_line inp) r) eqn:E.
    + rewrite (po_line_by_row d _ _ _ line r Hw Hl Hli Hin E). simpl.
      unfold on_line. simpl. rewrite (bool_decide_eq_true_2 (_ /\ _)) by (repeat split; congruence).
      simpl. change (select _ (db_deliveries d)) with (select (on_line line) (db_deliveries d)).
      fold (delivered d line). rewrite <- (H4 line Hl). lia.
    + fold (delivered d r). rewrite (H4 r Hin).
      replace (on_line r x) with false; [simpl; unfold delivered; lia|]. symmetry.
      apply bool_decide_eq_false_2. intros (G1 & G2 & G3). rewrite Dp in G2. rewrite Dl in G3.
      unfold po_line_by in E. apply bool_decide_eq_false in E. apply E.
      repeat split; congruence.
  - intros l' (r & Hin & ->)%in_update_where.
    destruct (po_line_by tenant (gr_po inp) (gr_po_line inp) r) eqn:E; [|auto].
    rewrite (po_line_by_row d _ _ _ line r Hw Hl Hli Hin E). simpl. auto.
Qed.

(** ** Properties *)

(** An accepted goods receipt is against a receivable order and a tank of the
    order's station and the line's product, stays within the ordered quantity
    plus half a percent (and the rounding of one reading), and moves the
    delivery table, the order line and the tank's book stock by the same
    litres; the order's status is recomputed from its lines. *)
Theorem ReceiveGoodsReceipt_effect numeric_div tenant inp d res d' :
  Receiving_wf d -> ReceiveGoodsReceipt numeric_div tenant inp d = Ok (res, d') ->
  exists po line tank,
    find_po_line d tenant (gr_po inp) (gr_po_line inp) = Some (po, line)
    /\ receivable (po_st po) = true
    /\ In tank (db_tanks d) /\ tk_id tank = gr_tank inp
    /\ tk_station tank = po_station po /\ tk_product tank = pl_product line
    /\ 0 < dl_volume (res_delivery res)
    /\ 1000 * (pl_received line + dl_volume (res_delivery res)) <= 1005 * pl_ordered line + 500
    /\ db_deliveries d' = db_deliveries d ++ [res_delivery res]
    /\ (forall l, In l (db_po_lines d') -> po_line_by tenant (gr_po inp) (gr_po_line inp) l = true ->
          pl_received l = pl_received line + dl_volume (res_delivery res))
    /\ (forall t k, ledger_sum d' t k = ledger_sum d t k +
          (if bool_decide (t = tenant /\ k = gr_tank inp) then dl_volume (res_delivery res) else 0))
    /\ (forall p, In p (db_pos d') -> po_by tenant (gr_po inp) p = true ->
          po_st p = advanced_status (order_lines d' tenant (gr_po inp))).
Proof.
  intros Hw (v & po & line & tank & d1 & Hr)%ReceiveGoodsReceipt_inv.
  pose proof (receipt_received _ _ _ _ _ _ _ _ _ _ Hw Hr) as Hz.
  pose proof (not_over_receipt _ _ (rcp_not_over _ _ _ _ _ _ _ _ _ _ Hr)) as Hcap.
  destruct (rcp_movement _ _ _ _ _ _ _ _ _ _ Hr) as (s & p & t & c & Hp).
  exists po, line, tank.
  destruct Hr as [_ Hf Hrc (T1 & T2 & T3 & T4 & T5) _ (Di & Dt & Dk & Dp & Dl & Dv & Dc & _) E1 Es _ _ ->].
  rewrite Hz in Hcap. do 6 (split; [done|]). split; [by apply delivery_checks_volume|].
  split; [done|]. split; [by rewrite E1|]. split; [|split].
  - intros l Hin Hb. rewrite E1 in Hin. apply in_update_where in Hin as (r & Hr & ->).
    destruct (po_line_by tenant (gr_po inp) (gr_po_line inp) r) eqn:E; [simpl; lia|congruence].
  - intros t' k. rewrite append_movement_sum. unfold on_tank.
    destruct (delivery_movement_row _ _ _ _ _ _ _ _ Dt Hp) as (M1 & M2 & _ & _ & _ & M6).
    rewrite M1, M2, M6, Dt, Dk, E1. f_equal.
    destruct (decide (t' = tenant /\ k = gr_tank inp)) as [[-> ->]|Hne];
      [by rewrite !bool_decide_eq_true_2|].
    rewrite !bool_decide_eq_false_2 by (intros [? ?]; apply Hne; auto). done.
  - intros q Hq Hb. simpl in Hq. rewrite E1 in Hq. simpl in Hq.
    apply in_update_where in Hq as (r & Hr & ->).
    destruct (po_by tenant (gr_po inp) r) eqn:E; [exact Es|congruence].
Qed.

Definition demo_head : POHead := mkPOHead None 2 (Some (2%N, 0)) (Some (2%N, 0)) None None None 0.
Definition demo_po : DB :=
  set_pos [mkPO 60 1 20 4 POConfirmed demo_head]
    (set_po_lines [mkPOLine 61 1 60 30 1000000 250 0] (demo_open "100" demo_db)).

Definition demo_receipt (volume : string) : GoodsReceiptInput :=
  mkGoodsReceiptInput 10 60 61 volume None "" "" "" 2 None.

Lemma ReceiveGoodsReceipt_effect_witness :
  exists res d', ReceiveGoodsReceipt (fun a b => a) 1 (demo_receipt "1004.5") demo_po = Ok (res, d')
    /\ ledger_sum d' 1 10 = 1104500.
Proof.
  destruct (ReceiveGoodsReceipt (fun a b => a) 1 (demo_receipt "1004.5") demo_po) as [[res d']|e] eqn:E;
    [|vm_compute in E; discriminate E].
  exists res, d'. split; [reflexivity|].
  destruct (ReceiveGoodsReceipt_effect (fun a b => a) 1 (demo_receipt "1004.5") demo_po res d')
    as (po & line & tank & _ & _ & _ & _ & _ & _ & _ & _ & _ & _ & H & _); [|exact E|].
  - constructor; vm_compute; try tauto; [repeat constructor; tauto|..];
      intros l [<-|[]]; vm_compute; auto.
  - rewrite (H 1%N 10%N).
    assert (Ev : dl_volume (res_delivery res) = 1004500)
      by (vm_compute in E; injection E as <- _; reflexivity).
    rewrite Ev. vm_compute. reflexivity.
Defined.

(** A receipt that would take the line past the ordered quantity plus
    half a percent is refused, and nothing is recorded. *)
Theorem ReceiveGoodsReceipt_over numeric_div tenant inp d po line tank v :
  parse_numeric (gr_volume inp) = Some v ->
  find_po_line d tenant (gr_po inp) (gr_po_line inp) = Some (po, line) ->
  receivable (po_st po) = true ->
  first_where (tank_by tenant (gr_tank inp)) (db_tanks d) = Some tank ->
  tk_station tank = po_station po -> tk_product tank = pl_product line ->
  1005 * pl_ordered line + 500 < 1000 * round_to 3 (new_received line v) ->
  run_tx (ReceiveGoodsReceipt numeric_div tenant inp) d = (Err ErrOverReceipt, d).
Proof.
  intros Hv Hf Hr Ht Hs Hp Hov. unfold run_tx, ReceiveGoodsReceipt, num_in.
  assert (over_receipt line v = true) as Ho.
  { destruct (over_receipt line v) eqn:E; [done|]. apply not_over_receipt in E. lia. }
  tx_unfold. rewrite Hv, Hf, Hr, Ht, !bool_decide_eq_true_2 by done. simpl. by rewrite Ho.
Qed.

Lemma ReceiveGoodsReceipt_over_witness :
  run_tx (ReceiveGoodsReceipt (fun a b => a) 1 (demo_receipt "1005.001")) demo_po
  = (Err ErrOverReceipt, demo_po).
Proof.
  eapply (ReceiveGoodsReceipt_over (fun a b => a) 1 (demo_receipt "1005.001") demo_po
    (mkPO 60 1 20 4 POConfirmed demo_head) (mkPOLine 61 1 60 30 1000000 250 0) (mkTank 1 10 20 30 false)
    (Dec 1005001 3)); vm_compute; reflexivity.
Defined.
