(* ===== verification/Transfers.v ===== *)
(** * Stock transfers between tanks (package [enterprise]:
      central_commercial.go, Stage 9)

    A transfer order is drafted, approved and received.  Receiving it posts
    the paired ['transfer'] movements, out of the source tank and into the
    destination, and is refused when the source would be overdrawn. *)

From stdpp Require Import base list strings.
From Stdlib Require Import ZArith Lia.
From S2P Require Import Prelude Numeric Schema Ledger LedgerProps.

Local Open Scope Z_scope.
Local Open Scope tx_scope.

(** ** Operations *)

Definition CreateTransfer (tenant from_ to_ product : uuid) (litres : string) (createdBy : uuid)
  : Tx DB inv_error Transfer :=
  let! z := tlift (col_in 14 3 litres) in
  tguard (0 <? z) SqlCheckViolation ;;!
  tguard (negb (bool_decide (from_ = to_))) SqlCheckViolation ;;!
  let! d := tget in
  tguard (fk_tank d tenant from_ && fk_tank d tenant to_ && fk_pair (db_products d) tenant product
          && fk_pair (db_users d) tenant createdBy) SqlForeignKeyViolation ;;!
  let t := mkTransfer (db_next_id d) tenant from_ to_ product z TrDraft None None createdBy in
  tput (set_next_id (db_next_id d + 1)%N (set_transfers (db_transfers d ++ [t]) d)) ;;! tret t.

Definition tr_by (tenant id : uuid) (t : Transfer) : bool :=
  bool_decide (tr_tenant t = tenant /\ tr_id t = id).

Definition set_tr (s : transfer_status) (o i : option uuid) (t : Transfer) : Transfer :=
  mkTransfer (tr_id t) (tr_tenant t) (tr_from t) (tr_to t) (tr_product t) (tr_litres t) s o i
    (tr_created_by t).

Definition draft_transfer (tenant id : uuid) (t : Transfer) : bool :=
  tr_by tenant id t && bool_decide (tr_status t = TrDraft).

Definition ApproveTransfer (tenant id : uuid) : Tx DB inv_error Transfer :=
  let! d := tget in
  let '(row, l) := update_returning (draft_transfer tenant id)
    (fun t => set_tr TrApproved (tr_out t) (tr_in t) t) (db_transfers d) in
  match row with
  | None => tfail ErrBadState
  | Some t => tput (set_transfers l d) ;;! tret t
  end.

Definition lockedTransfer (d : DB) (tenant id : uuid) : result inv_error Transfer :=
  of_option ErrTransferNotFound (first_where (tr_by tenant id) (db_transfers d)).

(** The product of a tank; no row is the driver's [ErrNoRows]. *)
Definition tank_product (d : DB) (tenant tank : uuid) : result inv_error uuid :=
  of_option ErrNoRows (tk_product <$>
    first_where (fun t => bool_decide (tk_tenant t = tenant /\ tk_id t = tank)) (db_tanks d)).

(** One leg: the insert with [balance_after] from the live sum. *)
Definition transfer_leg (tenant tank order by_ : uuid) (litres : Z) : Tx DB inv_error Movement :=
  let! d := tget in
  let! l := tlift (of_option SqlNumericError (numeric_col 14 3 (dec_of 3 litres))) in
  let! balance := tlift (of_option SqlNumericError
    (numeric_col 14 3 (dec_add (dec_of 3 (ledger_sum d tenant tank)) (dec_of 3 litres)))) in
  insert_movement
    (mkMovement (db_next_id d) (db_next_seq d) tenant tank TypeTransfer (Some SrcTransfer)
       (Some order) l balance None None None None by_ (db_now d) None StatusPosted None).

Definition receivable_transfer (s : transfer_status) : bool :=
  bool_decide (s = TrApproved) || bool_decide (s = TrDispatched).

Definition ReceiveTransfer (tenant id by_ : uuid) : Tx DB inv_error Transfer :=
  let! d := tget in
  let! t := tlift (lockedTransfer d tenant id) in
  tguard (receivable_transfer (tr_status t)) ErrBadState ;;!
  let! pf := tlift (tank_product d tenant (tr_from t)) in
  let! pt := tlift (tank_product d tenant (tr_to t)) in
  tguard (bool_decide (pf = tr_product t) && bool_decide (pt = tr_product t)) ErrProductMismatch ;;!
  tguard (tr_litres t <=? ledger_sum d tenant (tr_from t)) ErrInsufficientStock ;;!
  let! out := transfer_leg tenant (tr_from t) id by_ (- tr_litres t) in
  let! inm := transfer_leg tenant (tr_to t) id by_ (tr_litres t) in
  let! d := tget in
  let '(row, l) := update_returning (tr_by tenant id)
    (set_tr TrReceived (Some (mv_id out)) (Some (mv_id inm))) (db_transfers d) in
  match row with
  | None => tfail ErrNoRows
  | Some t' => tput (set_transfers l d) ;;! tret t'
  end.

(** ** What a leg does *)

Definition leg_input (tank order by_ : uuid) (z : Z) : PostInput :=
  mkPostInput tank TypeTransfer (Some SrcTransfer) (Some order) (numeric_text 3 z)
    None None None None None by_ None.

Lemma transfer_leg_row tenant tank order by_ z d m d' :
  transfer_leg tenant tank order by_ z d = Ok (m, d') ->
  posted_row tenant (leg_input tank order by_ z) d m /\ d' = append_movement m d /\ mv_litres m = z.
Proof.
  intros H. unfold transfer_leg in H. tx_steps H.
  apply insert_movement_inv in H as (-> & -> & Hc & Hu & Hf).
  apply numeric_col_some in E as [-> _]. apply numeric_col_some in E0 as [-> _].
  split; [|split; [done|apply round_to_same]]. constructor; try done.
  exists (dec_of 3 z). simpl. by rewrite parse_numeric_text.
Qed.

Lemma ReceiveTransfer_inv tenant id by_ d t' d' :
  ReceiveTransfer tenant id by_ d = Ok (t', d') ->
  exists t o i d1 d2,
    first_where (tr_by tenant id) (db_transfers d) = Some t
    /\ receivable_transfer (tr_status t) = true
    /\ tank_product d tenant (tr_from t) = Ok (tr_product t)
    /\ tank_product d tenant (tr_to t) = Ok (tr_product t)
    /\ tr_litres t <= ledger_sum d tenant (tr_from t)
    /\ posted_row tenant (leg_input (tr_from t) id by_ (- tr_litres t)) d o
    /\ mv_litres o = - tr_litres t /\ d1 = append_movement o d
    /\ posted_row tenant (leg_input (tr_to t) id by_ (tr_litres t)) d1 i
    /\ mv_litres i = tr_litres t /\ d2 = append_movement i d1
    /\ let f := set_tr TrReceived (Some (mv_id o)) (Some (mv_id i)) in
       t' = f t /\ d' = set_transfers (update_where (tr_by tenant id) f (db_transfers d)) d2.
Proof.
  intros H. unfold ReceiveTransfer, lockedTransfer in H. tx_steps H.
  unfold update_returning in *. simplify_eq. bool_solve. subst.
  match goal with E : transfer_leg _ _ _ _ (- _) _ = _ |- _ =>
    apply transfer_leg_row in E as (Ho & -> & Hlo) end.
  match goal with E : transfer_leg _ _ _ _ _ _ = _ |- _ =>
    apply transfer_leg_row in E as (Hi & -> & Hli) end.
  match goal with E : (_ <=? _) = true |- _ => apply Z.leb_le in E end.
  match goal with E : _ <$> first_where _ (db_transfers (append_movement _ _)) = Some _ |- _ =>
    simpl in E; match goal with E' : first_where _ _ = Some _ |- _ => rewrite E' in E end end.
  simplify_eq/=. do 5 eexists. repeat (split; [eassumption || reflexivity|]). done.
Qed.

(** ** Properties *)

(** Receiving a transfer moves exactly the ordered litres from the source
    tank to the destination and touches no other tank; the source is not
    overdrawn, both tanks hold the order's product, and the order is closed:
    a second receipt is refused. *)
Theorem ReceiveTransfer_conserves tenant id by_ d t' d' :
  (forall t, In t (db_transfers d) -> tr_from t <> tr_to t) ->
  ReceiveTransfer tenant id by_ d = Ok (t', d') ->
  ledger_sum d' tenant (tr_from t') = ledger_sum d tenant (tr_from t') - tr_litres t'
  /\ 0 <= ledger_sum d' tenant (tr_from t')
  /\ ledger_sum d' tenant (tr_to t') = ledger_sum d tenant (tr_to t') + tr_litres t'
  /\ (forall t k, (t, k) <> (tenant, tr_from t') -> (t, k) <> (tenant, tr_to t') ->
        ledger_sum d' t k = ledger_sum d t k)
  /\ tank_product d tenant (tr_from t') = tank_product d tenant (tr_to t')
  /\ tr_status t' = TrReceived
  /\ forall u, ReceiveTransfer tenant id u d' = Err ErrBadState.
Proof.
  intros Hd (t & o & i & d1 & d2 & Hf & _ & P1 & P2 & Hs & Ho & Hlo & -> & Hi & Hli & -> & -> & ->)%ReceiveTransfer_inv.
  pose proof (first_where_some _ _ _ Hf) as [Hin Hby]. specialize (Hd t Hin). simpl.
  pose proof (pr_tenant _ _ _ _ Ho) as To. pose proof (pr_tank _ _ _ _ Ho) as Ko. simpl in Ko.
  pose proof (pr_tenant _ _ _ _ Hi) as Ti. pose proof (pr_tank _ _ _ _ Hi) as Ki. simpl in Ki.
  set (f := set_tr TrReceived (Some (mv_id o)) (Some (mv_id i))).
  assert (Hsum : forall x k,
    ledger_sum (set_transfers (update_where (tr_by tenant id) f (db_transfers d))
      (append_movement i (append_movement o d))) x k
    = ledger_sum d x k + (if bool_decide (tenant = x /\ tr_from t = k) then - tr_litres t else 0)
      + (if bool_decide (tenant = x /\ tr_to t = k) then tr_litres t else 0)).
  { intros x k. pose proof (append_movement_sum i (append_movement o d) x k) as E.
    rewrite (append_movement_sum o) in E. unfold on_tank in E.
    rewrite To, Ko, Ti, Ki, Hlo, Hli in E. exact E. }
  rewrite !Hsum, (bool_decide_eq_true_2 (tenant = tenant /\ tr_from t = tr_from t)),
    (bool_decide_eq_true_2 (tenant = tenant /\ tr_to t = tr_to t)),
    (bool_decide_eq_false_2 (tenant = tenant /\ tr_to t = tr_from t)),
    (bool_decide_eq_false_2 (tenant = tenant /\ tr_from t = tr_to t)) by (done || intros [_ ?]; congruence).
  split; [lia|]. split; [lia|]. split; [lia|]. split.
  { intros x k N1 N2. rewrite Hsum, !bool_decide_eq_false_2 by (intros [? ?]; congruence). lia. }
  split; [congruence|]. split; [done|]. intros u.
  unfold ReceiveTransfer, lockedTransfer, tbind, tget, tlift. simpl.
  rewrite (first_where_update _ _ f _ _ Hf); done.
Qed.

(** The opened source tank 10 and an approved transfer of 40 l to tank 11. *)
Definition demo_transfer : DB :=
  (run_tx (let! t := CreateTransfer 1 10 11 30 "40" 2 in ApproveTransfer 1 (tr_id t))
     (demo_open "100" demo_db)).2.

Lemma demo_transfer_distinct t : In t (db_transfers demo_transfer) -> tr_from t <> tr_to t.
Proof.
  assert (H : forallb (fun t => negb (bool_decide (tr_from t = tr_to t))) (db_transfers demo_transfer)
    = true) by (vm_compute; reflexivity).
  intros Hin. apply (proj1 (List.forallb_forall _ _) H) in Hin. by bool_solve.
Qed.

Lemma ReceiveTransfer_conserves_witness :
  exists t d', ReceiveTransfer 1 101 2 demo_transfer = Ok (t, d')
    /\ 0 <= ledger_sum d' 1 (tr_from t) /\ ReceiveTransfer 1 101 3 d' = Err ErrBadState.
Proof.
  destruct (ReceiveTransfer 1 101 2 demo_transfer) as [[t d']|e] eqn:E;
    [|vm_compute in E; discriminate E].
  destruct (ReceiveTransfer_conserves 1 101 2 demo_transfer t d' demo_transfer_distinct E)
    as (_ & H & _ & _ & _ & _ & Hr).
  exists t, d'. split; [reflexivity|]. split; [exact H|apply Hr].
Defined.
