(* ===== verification/Policy.v ===== *)
(** * Authorization (packages [identity], [identity/policy],
      [identity/totp], [identity/ratelimit] and the policy middleware)

    [PermissionSet.Can] is the pure decision; a [Loader] builds the set from
    the role tables; the middleware turns the answer into an HTTP outcome.
    The Go interface [Loader] is a class, its contract [LoaderSpec] states
    the decision in terms of the tables, and the database loader implements
    it.  The replay guard and the rate limiter run against a key-value store
    with expiry, also a class. *)

From stdpp Require Import base list strings gmap.
From Stdlib Require Import ZArith Lia.
From S2P Require Import Prelude.

Local Open Scope Z_scope.

(** ** Actors *)

Record Actor := mkActor {
  ac_user : uuid;
  ac_tenant : uuid;
  ac_session : uuid;
  ac_mfa : bool;
}.

Definition anonymous : Actor := mkActor uuid_nil uuid_nil uuid_nil false.

Definition IsAuthenticated (a : Actor) : bool := negb (bool_decide (ac_user a = uuid_nil)).

Inductive policy_error := ErrForbidden | ErrUnauthenticated | ErrLoad.
#[export] Instance policy_error_eq : EqDecision policy_error.
Proof. solve_decision. Defined.

(** The actor on the request context; an absent one is the zero actor. *)
Definition ActorFrom (ctx : option Actor) : Actor := default anonymous ctx.

Definition identity_Require (ctx : option Actor) : result policy_error Actor :=
  if IsAuthenticated (ActorFrom ctx) then Ok (ActorFrom ctx) else Err ErrUnauthenticated.

(** ** The permission set *)

(** A Go [map[K]bool]: a missing key reads [false]. *)
Definition mget {K} `{Countable K} (m : gmap K bool) (k : K) : bool := default false (m !! k).

Record PermissionSet := mkPermissionSet {
  ps_user : uuid;
  ps_tenant : uuid;
  ps_permissions : gmap string bool;
  ps_stations : gmap uuid bool;
  ps_tenant_wide : bool;
  ps_system_admin : bool;
  ps_station_scoped : gmap string bool;
}.

Definition HasPermission (ps : PermissionSet) (code : string) : bool :=
  mget (ps_permissions ps) code.

(** [Resource{StationID}] is the optional station. *)
Definition Can (ps : PermissionSet) (permission : string) (station : option uuid)
  : result policy_error unit :=
  if negb (mget (ps_permissions ps) permission) then Err ErrForbidden
  else if negb (mget (ps_station_scoped ps) permission) then Ok tt
  else match station with
       | None => Err ErrForbidden
       | Some s =>
           if ps_tenant_wide ps then Ok tt
           else if mget (ps_stations ps) s then Ok tt
           else Err ErrForbidden
       end.

(** ** Loaders *)

Class Loader (L : Type) := Load : L -> Actor -> result policy_error PermissionSet.

(** What a loader promises its clients: the set it returns decides every
    request the way [grants] does. *)
Class LoaderSpec (L : Type) `{Loader L} := {
  loader_ok : L -> Prop;
  grants : L -> Actor -> string -> option uuid -> bool;
  load_total : forall l a, exists ps, Load l a = Ok ps;
  load_grants : forall l a ps perm st, loader_ok l -> Load l a = Ok ps ->
    Can ps perm st = if grants l a perm st then Ok tt else Err ErrForbidden;
}.

Section Service.
Context {L : Type} `{Loader L}.

Definition service_Can (l : L) (a : Actor) (perm : string) (st : option uuid)
  : result policy_error unit :=
  if negb (IsAuthenticated a) then Err ErrUnauthenticated
  else rbind (Load l a) (fun ps => Can ps perm st).

Definition LoadFor (l : L) (a : Actor) : result policy_error PermissionSet :=
  if negb (IsAuthenticated a) then Err ErrUnauthenticated else Load l a.
End Service.

(** ** HTTP outcomes *)

Record http_error := HttpError { http_code : Z; http_msg : string }.

Definition policy_http (e : policy_error) : http_error :=
  match e with
  | ErrForbidden => HttpError 403 "forbidden"
  | ErrUnauthenticated => HttpError 401 "authentication required"
  | ErrLoad => HttpError 500 "authorization error"
  end.

Section Middleware.
Context {L : Type} `{Loader L}.

Definition authorizeStation (l : L) (a : Actor) (perm : string) (station : uuid)
  : result http_error unit :=
  match service_Can l a perm (Some station) with
  | Ok u => Ok u
  | Err e => Err (policy_http e)
  end.

Definition actorIsSystemAdmin (l : L) (a : Actor) : result http_error bool :=
  match LoadFor l a with
  | Ok ps => Ok (ps_system_admin ps)
  | Err ErrUnauthenticated => Err (HttpError 401 "authentication required")
  | Err _ => Err (HttpError 500 "authorization error")
  end.

(** [requirePermission]: the wrapped handler is [next]; [extract] is the
    station extractor, [None] when the route has none. *)
Definition requirePermission {A} (l : L) (ctx : option Actor) (perm : string)
  (extract : option (result unit (option uuid))) (next : Actor -> A) : result http_error A :=
  match identity_Require ctx with
  | Err _ => Err (HttpError 401 "authentication required")
  | Ok actor =>
      match extract with
      | Some (Err _) => Err (HttpError 400 "invalid station id")
      | Some (Ok sid) =>
          match service_Can l actor perm sid with
          | Ok _ => Ok (next actor)
          | Err e => Err (policy_http e)
          end
      | None =>
          match service_Can l actor perm None with
          | Ok _ => Ok (next actor)
          | Err e => Err (policy_http e)
          end
      end
  end.

Definition requirePermissionHeld {A} (l : L) (ctx : option Actor) (perm : string)
  (next : Actor -> A) : result http_error A :=
  match identity_Require ctx with
  | Err _ => Err (HttpError 401 "authentication required")
  | Ok actor =>
      match LoadFor l actor with
      | Err ErrUnauthenticated => Err (HttpError 401 "authentication required")
      | Err _ => Err (HttpError 500 "authorization error")
      | Ok ps => if negb (HasPermission ps perm) then Err (HttpError 403 "forbidden")
                 else Ok (next actor)
      end
  end.

(** [requireMFASatisfied]: [required] is the [RequiredByRole] flag of the
    actor's MFA state, an error when it cannot be read. *)
Definition requireMFASatisfied {A} (enforce : bool) (ctx : option Actor)
  (required : Actor -> result policy_error bool) (next : A) : result http_error A :=
  if negb enforce then Ok next
  else match identity_Require ctx with
  | Err _ => Err (HttpError 401 "authentication required")
  | Ok actor =>
      if ac_mfa actor then Ok next
      else match required actor with
      | Err ErrUnauthenticated => Err (HttpError 401 "authentication required")
      | Err _ => Err (HttpError 500 "authorization error")
      | Ok true => Err (HttpError 403 "multi-factor authentication is required for this role")
      | Ok false => Ok next
      end
  end.

Definition stationScope (l : L) (a : Actor) : result http_error (bool * list uuid) :=
  match LoadFor l a with
  | Err ErrUnauthenticated => Err (HttpError 401 "authentication required")
  | Err _ => Err (HttpError 500 "authorization error")
  | Ok ps => if ps_tenant_wide ps then Ok (true, [])
             else Ok (false, (map_to_list (ps_stations ps)).*1)
  end.

Definition containsUUID (ids : list uuid) (id : uuid) : bool :=
  existsb (fun x => bool_decide (x = id)) ids.

(** [None] is the nil filter: no restriction.  [query] is the parsed
    [?station_id], absent, malformed or an id. *)
Definition stationReadFilter (l : L) (a : Actor) (query : option (result unit uuid))
  : result http_error (option (list uuid)) :=
  match stationScope l a with
  | Err e => Err e
  | Ok (tenantWide, scope) =>
      match query with
      | Some (Err _) => Err (HttpError 400 "invalid station_id")
      | Some (Ok id) =>
          if negb tenantWide && negb (containsUUID scope id) then Err (HttpError 403 "forbidden")
          else Ok (Some [id])
      | None =>
          if tenantWide then Ok None
          else if bool_decide (scope = []) then Err (HttpError 403 "no station access")
          else Ok (Some scope)
      end
  end.
End Middleware.

(** ** The database loader *)

Record Role := mkRole { ro_id : uuid; ro_code : string; ro_system : bool; ro_tenant_wide : bool }.
Record Permission := mkPermission { pe_id : uuid; pe_code : string; pe_scoped : bool }.

Record PolicyDb := mkPolicyDb {
  pd_roles : list Role;
  pd_permissions : list Permission;
  pd_user_roles : list (uuid * uuid * uuid);          (* user, tenant, role *)
  pd_role_permissions : list (uuid * uuid);           (* role, permission *)
  pd_station_access : list (uuid * uuid * uuid);      (* user, tenant, station *)
}.

(** [user_roles JOIN roles] restricted to the actor and a role predicate. *)
Definition has_role (db : PolicyDb) (a : Actor) (p : Role -> bool) : bool :=
  existsb (fun '(u, t, r) =>
    bool_decide (u = ac_user a) && bool_decide (t = ac_tenant a)
    && existsb (fun ro => bool_decide (ro_id ro = r) && p ro) (pd_roles db))
    (pd_user_roles db).

Definition is_system_admin (db : PolicyDb) (a : Actor) : bool :=
  has_role db a (fun ro => ro_system ro && bool_decide (ro_code ro = "system_admin"%string)).

(** A permission row reached through one of the actor's roles. *)
Definition granted_by_role (db : PolicyDb) (a : Actor) (p : Permission) : bool :=
  existsb (fun '(u, t, r) =>
    bool_decide (u = ac_user a) && bool_decide (t = ac_tenant a)
    && existsb (fun '(r', q) => bool_decide (r' = r) && bool_decide (q = pe_id p))
         (pd_role_permissions db)) (pd_user_roles db).

Definition granted_rows (db : PolicyDb) (a : Actor) : list Permission :=
  if is_system_admin db a then pd_permissions db
  else select (granted_by_role db a) (pd_permissions db).

Definition station_rows (db : PolicyDb) (a : Actor) : list uuid :=
  (select (fun '(u, t, _) => bool_decide (u = ac_user a) && bool_decide (t = ac_tenant a))
     (pd_station_access db)).*2.

(** The scan loops: later rows overwrite earlier ones. *)
Definition scan_permissions (rows : list Permission) : gmap string bool * gmap string bool :=
  List.fold_left (fun '(perms, scoped) p =>
    (<[pe_code p := true]> perms, <[pe_code p := pe_scoped p]> scoped)) rows (∅, ∅).
Definition scan_stations (rows : list uuid) : gmap uuid bool :=
  List.fold_left (fun m s => <[s := true]> m) rows ∅.

Definition DBLoader_Load (db : PolicyDb) (a : Actor) : result policy_error PermissionSet :=
  let admin := is_system_admin db a in
  let '(perms, scoped) := scan_permissions (granted_rows db a) in
  let stations := scan_stations (station_rows db a) in
  let wide := has_role db a ro_tenant_wide in
  Ok (mkPermissionSet (ac_user a) (ac_tenant a) perms stations (wide || admin) admin scoped).

#[export] Instance DBLoader : Loader PolicyDb := DBLoader_Load.

(** ** One-time codes and rate limits *)

(** A key-value store with expiry, the part of Redis the guards use.  [now]
    is the store's clock, in nanoseconds. *)
Class KVStore (S : Type) := {
  (** [SET key value NX PX ttl]: true when the key was absent. *)
  SetNX : S -> Z -> string -> Z -> bool * S;
  (** [INCR key; EXPIRE key window] in one MULTI/EXEC. *)
  IncrExpire : S -> Z -> string -> Z -> Z * S;
  Del : S -> string -> S;
}.

(** Entries: the counter value and the instant they expire. *)
Abbreviation redis := (gmap string (Z * Z)).

Definition live (st : redis) (now : Z) (k : string) : option (Z * Z) :=
  match st !! k with
  | Some (v, e) => if now <? e then Some (v, e) else None
  | None => None
  end.

Definition redis_setnx (st : redis) (now : Z) (k : string) (ttl : Z) : bool * redis :=
  match live st now k with
  | Some _ => (false, st)
  | None => (true, <[k := (1, now + ttl)]> st)
  end.
Definition redis_incr (st : redis) (now : Z) (k : string) (window : Z) : Z * redis :=
  let v := match live st now k with Some (v, _) => v + 1 | None => 1 end in
  (v, <[k := (v, now + window)]> st).

(** The documented behaviour of the commands, on a view of the store as a
    map of entries. *)
Class KVStoreSpec (S : Type) `{KVStore S} := {
  kv_view : S -> redis;
  setnx_spec : forall st now k ttl,
    let r := SetNX st now k ttl in (r.1, kv_view r.2) = redis_setnx (kv_view st) now k ttl;
  incr_spec : forall st now k w,
    let r := IncrExpire st now k w in (r.1, kv_view r.2) = redis_incr (kv_view st) now k w;
  del_spec : forall st k, kv_view (Del st k) = delete k (kv_view st);
}.

#[export] Instance redis_store : KVStore redis := {
  SetNX := redis_setnx;
  IncrExpire := redis_incr;
  Del := fun st k => delete k st;
}.
#[export] Instance redis_store_spec : KVStoreSpec redis := {
  kv_view := fun st => st;
  setnx_spec := fun st now k ttl => eq_sym (surjective_pairing (redis_setnx st now k ttl));
  incr_spec := fun st now k w => eq_sym (surjective_pairing (redis_incr st now k w));
  del_spec := fun st k => eq_refl;
}.

Definition second : Z := 1000000000.
Definition AcceptanceWindow : Z := 90 * second.

Inductive guard_error := ErrReplay | ErrLimited.

Section Guards.
Context {S : Type} `{KVStore S}.
(** The digest of a code (truncated sha256, base64), and the text of a
    user id. *)
Context (digest : string -> string) (uuid_string : uuid -> string).

Definition guard_prefix (keyPrefix : string) : string :=
  if bool_decide (keyPrefix = "")%string then "totp_used:" else keyPrefix.

Definition guard_key (prefix : string) (user : uuid) (code : string) : string :=
  (prefix ++ uuid_string user ++ ":" ++ digest code)%string.

Definition Consume (prefix : string) (user : uuid) (code : string) (now : Z) (st : S)
  : result guard_error unit * S :=
  let '(ok, st') := SetNX st now (guard_key prefix user code) AcceptanceWindow in
  ((if ok then Ok tt else Err ErrReplay), st').

Definition limiter_prefix (keyPrefix : string) : string :=
  if bool_decide (keyPrefix = "")%string then "ratelimit:" else keyPrefix.

Definition Allow (prefix bucket : string) (limit window now : Z) (st : S)
  : result guard_error unit * S :=
  let '(n, st') := IncrExpire st now (prefix ++ bucket)%string window in
  ((if limit <? n then Err ErrLimited else Ok tt), st').

Definition limiter_Reset (prefix bucket : string) (st : S) : S := Del st (prefix ++ bucket)%string.
End Guards.

(** ** The loader implements its contract *)

(** The declarative reading of the role tables. *)
Definition station_reach (db : PolicyDb) (a : Actor) (s : uuid) : bool :=
  has_role db a ro_tenant_wide || is_system_admin db a || containsUUID (station_rows db a) s.

Definition db_grants (db : PolicyDb) (a : Actor) (perm : string) (st : option uuid) : bool :=
  existsb (fun p => bool_decide (pe_code p = perm) &&
    (negb (pe_scoped p) || match st with Some s => station_reach db a s | None => false end))
    (granted_rows db a).

(** [permissions.code] is unique. *)
Definition codes_unique (db : PolicyDb) : Prop := List.NoDup (map pe_code (pd_permissions db)).

Lemma NoDup_map_select {A B} (f : A -> B) p (l : list A) :
  List.NoDup (map f l) -> List.NoDup (map f (select p l)).
Proof.
  induction l as [|x l IH]; simpl; [done|].
  intros [Hx Hl]%List.NoDup_cons_iff. destruct (p x); simpl; [|auto].
  constructor; [|auto]. intros (y & Hy & Hin)%List.in_map_iff. apply Hx.
  rewrite <- Hy. apply List.in_map. by apply in_select in Hin as [Hin _].
Qed.

Lemma granted_rows_unique db a : codes_unique db -> List.NoDup (map pe_code (granted_rows db a)).
Proof.
  unfold granted_rows. destruct (is_system_admin db a); [done|]. apply NoDup_map_select.
Qed.

Lemma scan_permissions_snoc rows p :
  scan_permissions (rows ++ [p]) =
  let '(perms, scoped) := scan_permissions rows in
  (<[pe_code p := true]> perms, <[pe_code p := pe_scoped p]> scoped).
Proof. unfold scan_permissions. rewrite List.fold_left_app. simpl. by destruct (List.fold_left _ _ _). Qed.

Lemma scan_permissions_none rows c :
  ~ In c (map pe_code rows) ->
  (scan_permissions rows).1 !! c = None /\ (scan_permissions rows).2 !! c = None.
Proof.
  induction rows as [|p rows IH] using List.rev_ind; intros Hc; [done|].
  rewrite map_app, in_app_iff in Hc. simpl in Hc. rewrite scan_permissions_snoc.
  destruct (scan_permissions rows) as [ps sc]; simpl in *.
  rewrite !lookup_insert_ne by (intros E; apply Hc; auto). apply IH. tauto.
Qed.

Lemma scan_permissions_some rows p :
  List.NoDup (map pe_code rows) -> In p rows ->
  (scan_permissions rows).1 !! pe_code p = Some true
  /\ (scan_permissions rows).2 !! pe_code p = Some (pe_scoped p).
Proof.
  induction rows as [|q rows IH] using List.rev_ind; intros Hnd Hin; [done|].
  rewrite map_app in Hnd. simpl in Hnd.
  pose proof (List.NoDup_remove_2 _ _ _ Hnd) as Hq. rewrite app_nil_r in Hq.
  pose proof (List.NoDup_remove_1 _ _ _ Hnd) as Hnd'. rewrite app_nil_r in Hnd'.
  rewrite scan_permissions_snoc. destruct (scan_permissions rows) as [ps sc] eqn:E; simpl.
  apply in_app_iff in Hin as [Hin|[->|[]]]; simpl.
  - assert (pe_code q <> pe_code p) by (intros Heq; apply Hq; rewrite Heq; by apply List.in_map).
    rewrite !lookup_insert_ne by done. by apply IH.
  - by rewrite !lookup_insert_eq.
Qed.

Lemma scan_stations_get rows s : mget (scan_stations rows) s = containsUUID rows s.
Proof.
  unfold mget, scan_stations, containsUUID.
  induction rows as [|x rows IH] using List.rev_ind; [done|].
  rewrite List.fold_left_app, List.existsb_app. simpl. rewrite orb_false_r.
  destruct (decide (x = s)) as [->|Hne].
  - rewrite lookup_insert_eq, (bool_decide_eq_true_2 (s = s)) by done. by rewrite orb_true_r.
  - rewrite lookup_insert_ne, IH by done. rewrite (bool_decide_eq_false_2 (x = s)) by done.
    by rewrite orb_false_r.
Qed.

Lemma scan_stations_true rows s b : scan_stations rows !! s = Some b -> b = true.
Proof.
  unfold scan_stations. induction rows as [|x rows IH] using List.rev_ind; [done|].
  rewrite List.fold_left_app. simpl. destruct (decide (x = s)) as [->|Hne].
  - rewrite lookup_insert_eq. by intros [= <-].
  - by rewrite lookup_insert_ne.
Qed.

Lemma existsb_code rows p (f : Permission -> bool) :
  List.NoDup (map pe_code rows) -> In p rows ->
  existsb (fun q => bool_decide (pe_code q = pe_code p) && f q) rows = f p.
Proof.
  induction rows as [|x rows IH]; simpl; [done|].
  intros [Hx Hnd]%List.NoDup_cons_iff [->|Hin].
  - rewrite bool_decide_eq_true_2 by done. simpl.
    assert (existsb (fun q => bool_decide (pe_code q = pe_code p) && f q) rows = false) as ->;
      [|apply orb_false_r].
    apply exists_where_false. intros r Hr.
    rewrite bool_decide_eq_false_2; [done|]. intros E. apply Hx. rewrite <- E. by apply List.in_map.
  - rewrite bool_decide_eq_false_2; [by apply IH|].
    intros E. apply Hx. rewrite E. by apply List.in_map.
Qed.

Lemma existsb_code_none rows c (f : Permission -> bool) :
  ~ In c (map pe_code rows) -> existsb (fun q => bool_decide (pe_code q = c) && f q) rows = false.
Proof.
  intros Hc. apply exists_where_false. intros r Hr.
  rewrite bool_decide_eq_false_2; [done|]. intros <-. apply Hc. by apply List.in_map.
Qed.

Lemma DBLoader_grants db a ps perm st :
  codes_unique db -> DBLoader_Load db a = Ok ps ->
  Can ps perm st = if db_grants db a perm st then Ok tt else Err ErrForbidden.
Proof.
  intros Hu. apply granted_rows_unique with (a := a) in Hu. unfold DBLoader_Load, db_grants.
  destruct (scan_permissions (granted_rows db a)) as [perms scoped] eqn:E.
  intros [= <-]. unfold Can; simpl.
  destruct (in_dec (fun a b : string => decide (a = b)) perm (map pe_code (granted_rows db a))) as [Hin|Hout].
  - apply List.in_map_iff in Hin as (p & <- & Hp).
    destruct (scan_permissions_some _ p Hu Hp) as [E1 E2]. rewrite E in E1, E2; simpl in *.
    rewrite (existsb_code _ p) by done. unfold mget at 1 2. rewrite E1, E2; simpl.
    destruct (pe_scoped p); simpl; [|done]. destruct st as [s|]; [|done].
    rewrite scan_stations_get. unfold station_reach.
    by destruct (has_role db a ro_tenant_wide), (is_system_admin db a), (containsUUID _ s).
  - destruct (scan_permissions_none _ perm Hout) as [E1 _]. rewrite E in E1; simpl in *.
    rewrite existsb_code_none by done. unfold mget. by rewrite E1.
Qed.

#[export] Instance DBLoader_spec : LoaderSpec PolicyDb := {
  loader_ok := codes_unique;
  grants := db_grants;
  load_total := fun db a => ltac:(unfold Load, DBLoader, DBLoader_Load;
    destruct (scan_permissions _); eauto);
  load_grants := DBLoader_grants;
}.

Section AgainstContract.
Context {L : Type} `{LoaderSpec L}.

Lemma service_Can_grants l a perm st :
  loader_ok l -> IsAuthenticated a = true ->
  service_Can l a perm st = if grants l a perm st then Ok tt else Err ErrForbidden.
Proof.
  intros Hl Ha. unfold service_Can. rewrite Ha; simpl.
  destruct (load_total l a) as [ps E]. rewrite E. simpl. by apply load_grants.
Qed.

Lemma requirePermission_grants {A} l ctx perm extract (next : Actor -> A) :
  loader_ok l ->
  requirePermission l ctx perm extract next =
  match identity_Require ctx, extract with
  | Err _, _ => Err (HttpError 401 "authentication required")
  | Ok _, Some (Err _) => Err (HttpError 400 "invalid station id")
  | Ok a, Some (Ok sid) =>
      if grants l a perm sid then Ok (next a) else Err (HttpError 403 "forbidden")
  | Ok a, None =>
      if grants l a perm None then Ok (next a) else Err (HttpError 403 "forbidden")
  end.
Proof.
  intros Hl. unfold requirePermission, identity_Require.
  destruct (IsAuthenticated (ActorFrom ctx)) eqn:Ha; [|done].
  destruct extract as [[sid|]|]; [|done|]; rewrite service_Can_grants by done;
    by destruct (grants _ _ _ _).
Qed.
End AgainstContract.

(** *** The tables, read as relations *)

Definition holds_role (db : PolicyDb) (a : Actor) (r : uuid) : Prop :=
  In (ac_user a, ac_tenant a, r) (pd_user_roles db).
Definition admin_of (db : PolicyDb) (a : Actor) : Prop :=
  exists ro, In ro (pd_roles db) /\ holds_role db a (ro_id ro)
    /\ ro_system ro = true /\ ro_code ro = "system_admin"%string.
Definition wide_of (db : PolicyDb) (a : Actor) : Prop :=
  exists ro, In ro (pd_roles db) /\ holds_role db a (ro_id ro) /\ ro_tenant_wide ro = true.
Definition reaches (db : PolicyDb) (a : Actor) (s : uuid) : Prop :=
  wide_of db a \/ admin_of db a \/ In (ac_user a, ac_tenant a, s) (pd_station_access db).

(** The permission exists and the actor is an administrator or has it from a
    role; a station-scoped permission also needs a station in reach. *)
Definition authorized (db : PolicyDb) (a : Actor) (perm : string) (st : option uuid) : Prop :=
  exists p, In p (pd_permissions db) /\ pe_code p = perm
    /\ (admin_of db a
        \/ exists r, holds_role db a r /\ In (r, pe_id p) (pd_role_permissions db))
    /\ (pe_scoped p = true -> exists s, st = Some s /\ reaches db a s).

Lemma has_role_spec db a (f : Role -> bool) :
  has_role db a f = true <->
  exists ro, In ro (pd_roles db) /\ holds_role db a (ro_id ro) /\ f ro = true.
Proof.
  unfold has_role, holds_role. rewrite List.existsb_exists. split.
  - intros ([[u t] r] & Hin & H). bool_solve. subst.
    apply List.existsb_exists in H0 as (ro & Hro & H0). bool_solve. subst. eauto.
  - intros (ro & Hro & Hh & Hf). eexists; split; [exact Hh|].
    cbn beta iota. rewrite !bool_decide_eq_true_2 by done. simpl. apply List.existsb_exists.
    exists ro. by rewrite bool_decide_eq_true_2.
Qed.

Lemma is_system_admin_spec db a : is_system_admin db a = true <-> admin_of db a.
Proof.
  unfold is_system_admin, admin_of. rewrite has_role_spec.
  split; intros (ro & H1 & H2 & H3); exists ro.
  - bool_solve. auto.
  - destruct H3 as [-> ->]. by rewrite bool_decide_eq_true_2.
Qed.

Lemma granted_by_role_spec db a p :
  granted_by_role db a p = true <->
  exists r, holds_role db a r /\ In (r, pe_id p) (pd_role_permissions db).
Proof.
  unfold granted_by_role, holds_role. rewrite List.existsb_exists. split.
  - intros ([[u t] r] & Hin & H). bool_solve. subst.
    apply List.existsb_exists in H0 as ([r' q] & Hro & H0). bool_solve. subst. eauto.
  - intros (r & Hh & Hp). eexists; split; [exact Hh|].
    cbn beta iota. rewrite !bool_decide_eq_true_2 by done. simpl. apply List.existsb_exists.
    exists (r, pe_id p). by rewrite !bool_decide_eq_true_2.
Qed.

Lemma in_station_rows db a s :
  In s (station_rows db a) <-> In (ac_user a, ac_tenant a, s) (pd_station_access db).
Proof.
  unfold station_rows. rewrite List.in_map_iff. split.
  - intros ([[u t] s'] & <- & [Hin H]%in_select). bool_solve. by subst.
  - intros H. eexists; split; [|apply in_select; split; [exact H|]]; [done|].
    cbn beta iota. by rewrite !bool_decide_eq_true_2.
Qed.

Lemma containsUUID_spec ids s : containsUUID ids s = true <-> In s ids.
Proof.
  unfold containsUUID. rewrite List.existsb_exists. split.
  - intros (x & Hx & H). bool_solve. by subst.
  - intros H. exists s. by rewrite bool_decide_eq_true_2.
Qed.

Lemma station_reach_spec db a s : station_reach db a s = true <-> reaches db a s.
Proof.
  unfold station_reach, reaches. rewrite !orb_true_iff, is_system_admin_spec, containsUUID_spec.
  rewrite in_station_rows, has_role_spec. unfold wide_of. tauto.
Qed.

Lemma in_granted_rows db a p :
  In p (granted_rows db a) <-> In p (pd_permissions db) /\
    (admin_of db a \/ exists r, holds_role db a r /\ In (r, pe_id p) (pd_role_permissions db)).
Proof.
  unfold granted_rows. rewrite <- granted_by_role_spec, <- is_system_admin_spec.
  destruct (is_system_admin db a); [intuition|]. rewrite in_select. intuition congruence.
Qed.

Lemma db_grants_spec db a perm st : db_grants db a perm st = true <-> authorized db a perm st.
Proof.
  unfold db_grants, authorized. rewrite List.existsb_exists. split.
  - intros (p & Hp & H). apply in_granted_rows in Hp as [Hp Hr]. bool_solve.
    exists p. do 3 (split; [done|]). intros Hs. rewrite Hs in *. simpl in *.
    destruct st as [s|]; [|done]. exists s. by rewrite <- station_reach_spec.
  - intros (p & Hp & Hc & Hr & Hs). exists p. rewrite in_granted_rows. split; [done|].
    rewrite bool_decide_eq_true_2 by done. destruct (pe_scoped p); [|done].
    destruct (Hs eq_refl) as (s & -> & H). by rewrite (proj2 (station_reach_spec _ _ _) H).
Qed.


(** ** Properties *)

(** C6. A route guarded by [requirePermission] runs its handler exactly when
    the request carries an authenticated actor, the station parameter (if
    the route has one) parses, and the role tables authorise the actor for
    the permission at that station. *)
Theorem requirePermission_iff {A} (db : PolicyDb) ctx perm extract (next : Actor -> A) (r : A) :
  codes_unique db ->
  requirePermission db ctx perm extract next = Ok r <->
  exists a st, ctx = Some a /\ ac_user a <> uuid_nil
    /\ (extract = None /\ st = None \/ extract = Some (Ok st))
    /\ authorized db a perm st /\ r = next a.
Proof.
  intros Hu. rewrite requirePermission_grants by exact Hu.
  unfold identity_Require. split.
  - destruct (IsAuthenticated (ActorFrom ctx)) eqn:Ha; [|done]. intros H.
    destruct ctx as [a|]; simpl in *; [|done].
    unfold IsAuthenticated in Ha. bool_solve.
    destruct extract as [[sid|]|]; [|done|]; destruct (db_grants db a perm _) eqn:E;
      simplify_eq; apply db_grants_spec in E; do 2 eexists; repeat (split; eauto).
  - intros (a & st & -> & Hn & He & Hauth & ->). simpl.
    unfold IsAuthenticated. rewrite bool_decide_eq_false_2 by done. simpl.
    apply db_grants_spec in Hauth.
    destruct He as [[-> ->] | ->]; by rewrite Hauth.
Qed.

Definition demo_policy : PolicyDb :=
  mkPolicyDb [mkRole 1 "manager" true false] [mkPermission 7 "inventory.read" true]
    [(5, 9, 1)]%N [(1, 7)]%N [(5, 9, 3)]%N.
Definition demo_actor : Actor := mkActor 5 9 1 false.

Lemma requirePermission_iff_witness :
  requirePermission demo_policy (Some demo_actor) "inventory.read"
    (Some (Ok (Some 3%N))) ac_user = Ok 5%N.
Proof.
  apply (requirePermission_iff demo_policy).
  - repeat constructor; simpl; tauto.
  - exists demo_actor, (Some 3%N). repeat split; [done|by right|].
    apply db_grants_spec. vm_compute. reflexivity.
Defined.

(** The read filter of a list endpoint never widens an actor's view: it
    is unrestricted only for a tenant-wide role or an administrator, and
    otherwise it is a non-empty list of stations the actor reaches. *)
Theorem stationReadFilter_closed (db : PolicyDb) a query f :
  stationReadFilter db a query = Ok f ->
  match f with
  | None => wide_of db a \/ admin_of db a
  | Some ids => ids <> [] /\ forall s, In s ids -> reaches db a s
  end.
Proof.
  unfold stationReadFilter, stationScope, LoadFor. destruct (IsAuthenticated a); [|done]. simpl.
  unfold Load, DBLoader, DBLoader_Load.
  destruct (scan_permissions (granted_rows db a)) as [perms scoped]; simpl.
  assert (Hk : forall s, In s (map_to_list (scan_stations (station_rows db a))).*1 -> reaches db a s).
  { intros s. rewrite <- list_elem_of_In. intros ([s' b] & -> & Hin)%list_elem_of_fmap.
    apply elem_of_map_to_list in Hin. simpl. apply station_reach_spec.
    unfold station_reach. rewrite <- scan_stations_get. unfold mget. rewrite Hin. simpl.
    rewrite (scan_stations_true _ _ _ Hin). by rewrite orb_true_r. }
  assert (Hw : has_role db a ro_tenant_wide || is_system_admin db a = true ->
    wide_of db a \/ admin_of db a).
  { by rewrite orb_true_iff, is_system_admin_spec, has_role_spec. }
  destruct (has_role db a ro_tenant_wide || is_system_admin db a) eqn:Ew; simpl.
  - destruct query as [[id|]|]; intros [= <-]; [|by apply Hw].
    split; [done|]. intros s _. destruct (Hw eq_refl); unfold reaches; auto.
  - destruct query as [[id|]|]; [|done|].
    + destruct (containsUUID _ id) eqn:Ec; intros [= <-]. split; [done|].
      intros s [<-|[]]. apply containsUUID_spec in Ec. auto.
    + case_bool_decide; intros [= <-]. auto.
Qed.

Lemma stationReadFilter_closed_witness :
  stationReadFilter demo_policy demo_actor None = Ok (Some [3%N])
  /\ reaches demo_policy demo_actor 3%N.
Proof.
  assert (H : stationReadFilter demo_policy demo_actor None = Ok (Some [3%N]))
    by (vm_compute; reflexivity).
  split; [exact H|].
  apply (proj2 (stationReadFilter_closed demo_policy demo_actor None _ H)). simpl. auto.
Defined.

(** ** Guards under interleaved traffic *)

Inductive guard_call :=
| CallConsume (user : uuid) (code : string) (now : Z)
| CallAllow (bucket : string) (limit window now : Z)
| CallReset (bucket : string).

Definition call_before (e : Z) (c : guard_call) : Prop :=
  match c with
  | CallConsume _ _ now | CallAllow _ _ _ now => now < e
  | CallReset _ => True
  end.

Section Traffic.
Context {S : Type} `{KVStoreSpec S}.
Context (digest : string -> string) (uuid_string : uuid -> string).

(** The two guards share one store, under their default prefixes. *)
Definition run_call (st : S) (c : guard_call) : S :=
  match c with
  | CallConsume u code now => (Consume digest uuid_string (guard_prefix "") u code now st).2
  | CallAllow b limit w now => (Allow (limiter_prefix "") b limit w now st).2
  | CallReset b => limiter_Reset (limiter_prefix "") b st
  end.

Lemma Consume_view prefix u code now st :
  let r := Consume digest uuid_string prefix u code now st in
  let k := guard_key digest uuid_string prefix u code in
  match live (kv_view st) now k with
  | Some _ => r.1 = Err ErrReplay /\ kv_view r.2 = kv_view st
  | None => r.1 = Ok tt /\ kv_view r.2 = <[k := (1, now + AcceptanceWindow)]> (kv_view st)
  end.
Proof.
  simpl. unfold Consume. set (k := guard_key _ _ _ _ _).
  pose proof (setnx_spec st now k AcceptanceWindow) as Hs. unfold redis_setnx in Hs.
  destruct (SetNX st now k AcceptanceWindow) as [ok st']. simpl in *.
  destruct (live (kv_view st) now k); by simplify_eq.
Qed.

Lemma Allow_view prefix b limit w now st :
  let r := Allow prefix b limit w now st in
  let k := (prefix ++ b)%string in
  let n := match live (kv_view st) now k with Some (v, _) => v + 1 | None => 1 end in
  r.1 = (if limit <? n then Err ErrLimited else Ok tt)
  /\ kv_view r.2 = <[k := (n, now + w)]> (kv_view st).
Proof.
  simpl. unfold Allow. pose proof (incr_spec st now (prefix ++ b)%string w) as Hs.
  unfold redis_incr in Hs. destruct (IncrExpire st now _ w) as [n st']. simpl in *.
  by simplify_eq.
Qed.

Lemma live_entry (m : redis) now k v e : m !! k = Some (v, e) -> now < e -> live m now k = Some (v, e).
Proof. unfold live. intros -> Hlt. by rewrite (proj2 (Z.ltb_lt _ _) Hlt). Qed.

Lemma run_call_keeps st c u code v e :
  let k := guard_key digest uuid_string (guard_prefix "") u code in
  kv_view st !! k = Some (v, e) -> call_before e c -> kv_view (run_call st c) !! k = Some (v, e).
Proof.
  simpl. set (k := guard_key _ _ _ _ _). intros Hk Hc. destruct c as [u' c' now|b limit w now|b].
  - simpl. pose proof (Consume_view (guard_prefix "") u' c' now st) as Hv. simpl in Hv.
    destruct (decide (guard_key digest uuid_string (guard_prefix "") u' c' = k)) as [E|E].
    + rewrite E, (live_entry _ now k v e Hk Hc) in Hv. by destruct Hv as [_ ->].
    + destruct (live _ now _) eqn:EE; destruct Hv as [_ ->]; [done|].
      by rewrite lookup_insert_ne.
  - simpl. destruct (Allow_view (limiter_prefix "") b limit w now st) as [_ ->].
    by rewrite lookup_insert_ne.
  - simpl. unfold limiter_Reset. by rewrite del_spec, lookup_delete_ne.
Qed.

Lemma run_calls_keep calls : forall st u code v e,
  let k := guard_key digest uuid_string (guard_prefix "") u code in
  kv_view st !! k = Some (v, e) -> Forall (call_before e) calls ->
  kv_view (List.fold_left run_call calls st) !! k = Some (v, e).
Proof.
  induction calls as [|c calls IH]; intros st u code v e k Hk Hc; simpl; [done|].
  inversion Hc; subst. apply IH; [|done]. by apply run_call_keeps.
Qed.

(** A one-time code is accepted at most once: after [Consume] accepts it,
    every presentation of the same code by the same user within the
    acceptance window is refused, whatever other guard traffic (other
    codes, rate-limit increments and resets) the store serves meanwhile. *)
Theorem Consume_single_use st st1 user code t0 t calls :
  Consume digest uuid_string (guard_prefix "") user code t0 st = (Ok tt, st1) ->
  Forall (call_before (t0 + AcceptanceWindow)) calls ->
  t < t0 + AcceptanceWindow ->
  (Consume digest uuid_string (guard_prefix "") user code t
     (List.fold_left run_call calls st1)).1 = Err ErrReplay.
Proof.
  intros E Hc Ht. pose proof (Consume_view (guard_prefix "") user code t0 st) as Hv.
  rewrite E in Hv. simpl in Hv. set (k := guard_key _ _ _ _ _) in *.
  destruct (live (kv_view st) t0 k); destruct Hv as [Hr Hv]; [done|].
  pose proof (run_calls_keep calls st1 user code 1 (t0 + AcceptanceWindow)) as Hk.
  cbv zeta in Hk. fold k in Hk. rewrite Hv, lookup_insert_eq in Hk. specialize (Hk eq_refl Hc).
  pose proof (Consume_view (guard_prefix "") user code t (List.fold_left run_call calls st1)) as H2.
  fold k in H2. simpl in H2. rewrite (live_entry _ t k _ _ Hk Ht) in H2. apply H2.
Qed.

(** Calls on one bucket at the given instants. *)
Fixpoint allow_run (bucket : string) (limit window : Z) (times : list Z) (st : S)
  : list (result guard_error unit) :=
  match times with
  | [] => []
  | t :: rest =>
      let r := Allow (limiter_prefix "") bucket limit window t st in
      r.1 :: allow_run bucket limit window rest r.2
  end.

Fixpoint gaps_below (window last : Z) (times : list Z) : Prop :=
  match times with
  | [] => True
  | t :: rest => t < last + window /\ gaps_below window t rest
  end.

Lemma allow_run_live bucket limit window times : forall last n st,
  kv_view st !! (limiter_prefix "" ++ bucket)%string = Some (n, last + window) ->
  gaps_below window last times ->
  allow_run bucket limit window times st
  = List.map (fun i => if limit <? n + 1 + Z.of_nat i then Err ErrLimited else Ok tt)
      (List.seq 0 (length times)).
Proof.
  induction times as [|t rest IH]; intros last n st Hk Hg; simpl; [done|].
  destruct Hg as [Hg1 Hg]. cbn [allow_run].
  destruct (Allow_view (limiter_prefix "") bucket limit window t st) as [-> Hv].
  rewrite (live_entry _ t _ _ _ Hk Hg1) in *. rewrite Z.add_0_r. f_equal.
  rewrite (IH t (n + 1)); [|by rewrite Hv, lookup_insert_eq|done].
  rewrite <- List.seq_shift, List.map_map. apply List.map_ext. intros i.
  by replace (n + 1 + 1 + Z.of_nat i) with (n + 1 + Z.of_nat (Datatypes.S i)) by lia.
Qed.

(** The limiter admits the first [limit] calls of a run and refuses the
    rest.  The run ends only when [window] passes with no call at all:
    every call, refused ones included, renews the expiry, so calls spaced
    closer than the window stay refused however long they go on. *)
Theorem Allow_sliding_window bucket limit window t0 times (st : S) :
  live (kv_view st) t0 (limiter_prefix "" ++ bucket)%string = None ->
  gaps_below window t0 times ->
  allow_run bucket limit window (t0 :: times) st
  = List.map (fun i => if limit <? Z.of_nat i + 1 then Err ErrLimited else Ok tt)
      (List.seq 0 (Datatypes.S (length times))).
Proof.
  intros Hl Hg. cbn [allow_run List.seq List.map].
  destruct (Allow_view (limiter_prefix "") bucket limit window t0 st) as [-> Hv].
  rewrite Hl in *. f_equal.
  rewrite (allow_run_live _ _ _ _ t0 1); [|by rewrite Hv, lookup_insert_eq|done].
  rewrite <- List.seq_shift, List.map_map. apply List.map_ext. intros i.
  by replace (1 + 1 + Z.of_nat i) with (Z.of_nat (Datatypes.S i) + 1) by lia.
Qed.
End Traffic.

Definition demo_uuid_string (u : uuid) : string := if bool_decide (u = 5%N) then "5" else "0".

Lemma Consume_single_use_witness :
  (Consume (fun c => c) demo_uuid_string (guard_prefix "") 5%N "123456" (30 * second)
     (List.fold_left (run_call (fun c => c) demo_uuid_string)
        [CallAllow "ip" 3 second (2 * second); CallReset "ip"]
        (Consume (fun c => c) demo_uuid_string (guard_prefix "") 5%N "123456" 0 (∅ : redis)).2)).1
  = Err ErrReplay.
Proof.
  apply (Consume_single_use (S := redis) (fun c => c) demo_uuid_string ∅ _ 5%N "123456" 0).
  - vm_compute. reflexivity.
  - repeat constructor.
  - reflexivity.
Defined.

(** Three calls a minute with a one-minute window and a limit of two: the
    call at 75 s, beyond the first window, is still refused. *)
Lemma Allow_sliding_window_witness :
  allow_run "ip" 2 (60 * second) [0; 25 * second; 50 * second; 75 * second] (∅ : redis)
  = [Ok tt; Ok tt; Err ErrLimited; Err ErrLimited].
Proof.
  rewrite (Allow_sliding_window (S := redis)); [vm_compute; reflexivity|vm_compute; reflexivity|].
  simpl. unfold second. lia.
Defined.
