(* ===== verification/Operations.v ===== *)
(** * The operating cadence of a station (package [operations]: repo.go,
      shifts.go, handover.go; services/api/internal/server/
      operating_days_handlers.go and the shift handlers' transactions)

    Operating days go open, closed, locked; shifts run inside a day and go
    open, closed, approved; attendants and nozzles are assigned to a shift.
    The tables carry the constraints of migrations 0014, 0015, 0022, 0023
    and 0077.  A handler reads on the pool before it begins its transaction: the
    state the pool showed is the argument [pool], which concurrent requests
    may have left behind when the transaction runs. *)

From stdpp Require Import base list strings.
From Stdlib Require Import ZArith Lia.
From S2P Require Import Prelude Numeric Schema Policy.

Local Open Scope Z_scope.
Local Open Scope tx_scope.

(** ** Tables *)

Inductive day_status := DayOpen | DayClosed | DayLocked.
#[export] Instance day_status_eq : EqDecision day_status.
Proof. solve_decision. Defined.

Inductive shift_status := ShiftOpen | ShiftClosed | ShiftApproved.
#[export] Instance shift_status_eq : EqDecision shift_status.
Proof. solve_decision. Defined.

Record OperatingDay := mkDay {
  dy_id : uuid;
  dy_tenant : uuid;
  dy_station : uuid;
  dy_date : Z;
  dy_status : day_status;
  dy_opened_by : uuid;
  dy_opened_at : Z;
  dy_closed_by : option uuid;
  dy_closed_at : option Z;
  dy_locked_by : option uuid;
  dy_locked_at : option Z;
  dy_notes : option string;
}.

Record Shift := mkShift {
  sh_id : uuid;
  sh_tenant : uuid;
  sh_station : uuid;
  sh_day : uuid;
  sh_name : string;
  sh_status : shift_status;
  sh_opened_by : uuid;
  sh_opened_at : Z;
  sh_closed_by : option uuid;
  sh_closed_at : option Z;
  sh_approved_by : option uuid;
  sh_approved_at : option Z;
  sh_notes : option string;
  sh_slot : option string;
  sh_team : option uuid;
}.

Record Attendant := mkAttendant {
  at_shift : uuid; at_user : uuid; at_tenant : uuid; at_assigned_by : uuid; at_assigned_at : Z }.

Record NozzleAssignment := mkAssignment {
  na_id : uuid; na_tenant : uuid; na_station : uuid; na_shift : uuid; na_nozzle : uuid;
  na_attendant : uuid; na_assigned_by : uuid; na_assigned_at : Z }.

(** [st_deleted] is [status = 'deleted']. *)
Record StationRow := mkStation { st_tenant : uuid; st_id : uuid; st_deleted : bool }.
(** [nz_deleted] is [status = 'deleted']; [nz_price] is [default_price] in cents,
    [nz_places] is [meter_decimal_places]. *)
Record NozzleRow := mkNozzle {
  nz_tenant : uuid; nz_id : uuid; nz_station : uuid; nz_tank : uuid; nz_product : uuid;
  nz_price : Z; nz_places : Z; nz_deleted : bool }.

Record Ops := mkOpsState {
  op_days : list OperatingDay;
  op_shifts : list Shift;
  op_attendants : list Attendant;
  op_assignments : list NozzleAssignment;
  op_stations : list StationRow;
  op_users : list (uuid * uuid);
  op_teams : list (uuid * uuid);
  op_nozzles : list NozzleRow;
  op_audit : list AuditRow;
  op_next_id : uuid;
  op_now : Z;
}.

Definition set_days (v : list OperatingDay) (o : Ops) : Ops :=
  mkOpsState v (op_shifts o) (op_attendants o) (op_assignments o) (op_stations o) (op_users o)
    (op_teams o) (op_nozzles o) (op_audit o) (op_next_id o) (op_now o).
Definition set_shifts (v : list Shift) (o : Ops) : Ops :=
  mkOpsState (op_days o) v (op_attendants o) (op_assignments o) (op_stations o) (op_users o)
    (op_teams o) (op_nozzles o) (op_audit o) (op_next_id o) (op_now o).
Definition set_attendants (v : list Attendant) (o : Ops) : Ops :=
  mkOpsState (op_days o) (op_shifts o) v (op_assignments o) (op_stations o) (op_users o)
    (op_teams o) (op_nozzles o) (op_audit o) (op_next_id o) (op_now o).
Definition set_assignments (v : list NozzleAssignment) (o : Ops) : Ops :=
  mkOpsState (op_days o) (op_shifts o) (op_attendants o) v (op_stations o) (op_users o)
    (op_teams o) (op_nozzles o) (op_audit o) (op_next_id o) (op_now o).
Definition set_op_audit (v : list AuditRow) (o : Ops) : Ops :=
  mkOpsState (op_days o) (op_shifts o) (op_attendants o) (op_assignments o) (op_stations o)
    (op_users o) (op_teams o) (op_nozzles o) v (op_next_id o) (op_now o).
Definition bump_op_id (o : Ops) : Ops :=
  mkOpsState (op_days o) (op_shifts o) (op_attendants o) (op_assignments o) (op_stations o)
    (op_users o) (op_teams o) (op_nozzles o) (op_audit o) (op_next_id o + 1)%N (op_now o).

Inductive ops_error :=
| ErrDayNotFound | ErrShiftNotFound | ErrAssignmentNotFound
| OpsUnique | OpsCheck | OpsForeignKey.
#[export] Instance ops_error_eq : EqDecision ops_error.
Proof. solve_decision. Defined.

(** [audit.WriteWithOutbox] on these tables. *)
Definition ops_audit {E} (tenant actor : uuid) (action : string) (entity : uuid) : Tx Ops E unit :=
  fun o => Ok (tt, set_op_audit (op_audit o ++ [mkAudit tenant actor action entity]) o).

Definition fk_station (o : Ops) (tenant id : uuid) : bool :=
  exists_where (fun s => bool_decide (st_tenant s = tenant /\ st_id s = id)) (op_stations o).
(** Whether [stations.Get] finds a row. *)
Definition stations_Get (o : Ops) (tenant id : uuid) : bool :=
  exists_where (fun s => bool_decide (st_id s = id /\ st_tenant s = tenant) && negb (st_deleted s))
    (op_stations o).

(** ** Operating days *)

Definition dy_by (tenant id : uuid) (y : OperatingDay) : bool :=
  bool_decide (dy_id y = id /\ dy_tenant y = tenant).
Definition at_station (tenant station : uuid) (y : OperatingDay) : bool :=
  bool_decide (dy_tenant y = tenant /\ dy_station y = station).

Definition date_desc (x y : OperatingDay) : bool := dy_date y <=? dy_date x.
Definition ListDays (o : Ops) (tenant station : uuid) : list OperatingDay :=
  order_by date_desc (select (at_station tenant station) (op_days o)).

Definition date_id_desc (x y : OperatingDay) : bool :=
  (dy_date y <? dy_date x) || ((dy_date y =? dy_date x) && (dy_id y <=? dy_id x)%N).
Definition ListDaysPage (o : Ops) (tenant station : uuid) (limit offset : nat) : list OperatingDay :=
  limit_offset limit offset (order_by date_id_desc (select (at_station tenant station) (op_days o))).

(** [None] is the driver's [ErrNoRows]. *)
Definition LatestActiveDayForStation (o : Ops) (tenant station : uuid) : option OperatingDay :=
  head (order_by date_desc (select (fun y => at_station tenant station y
    && (bool_decide (dy_status y = DayOpen) || bool_decide (dy_status y = DayClosed))) (op_days o))).

Definition GetDay (days : list OperatingDay) (tenant id : uuid) : option OperatingDay :=
  first_where (dy_by tenant id) days.

Definition GetDayForUpdate (o : Ops) (tenant id : uuid) : result ops_error OperatingDay :=
  of_option ErrDayNotFound (first_where (dy_by tenant id) (op_days o)).

Definition LockDayStatusForShare (o : Ops) (tenant id : uuid) : result ops_error day_status :=
  of_option ErrDayNotFound (dy_status <$> first_where (dy_by tenant id) (op_days o)).

(** [idx_operating_days_active]: one non-locked day per station and date. *)
Definition active_clash (x y : OperatingDay) : bool :=
  negb (bool_decide (dy_status x = DayLocked)) && negb (bool_decide (dy_status y = DayLocked))
  && bool_decide (dy_station x = dy_station y) && bool_decide (dy_date x = dy_date y).

Definition OpenDay (tenant station openedBy : uuid) (date : Z) (notes : option string)
  : Tx Ops ops_error OperatingDay :=
  let! o := tget in
  let y := mkDay (op_next_id o) tenant station date DayOpen openedBy (op_now o) None None None None
    notes in
  tguard (negb (exists_where (active_clash y) (op_days o))) OpsUnique ;;!
  tguard (fk_station o tenant station && fk_pair (op_users o) tenant openedBy)
    OpsForeignKey ;;!
  tput (bump_op_id (set_days (op_days o ++ [y]) o)) ;;! tret y.

Definition with_day_status (status : day_status) (actor : uuid) (now : Z) (y : OperatingDay)
  : OperatingDay :=
  let closing := bool_decide (status = DayClosed) in
  mkDay (dy_id y) (dy_tenant y) (dy_station y) (dy_date y) status (dy_opened_by y) (dy_opened_at y)
    (if closing then Some actor else None) (if closing then Some now else None)
    (dy_locked_by y) (dy_locked_at y) (dy_notes y).

(** The checks an update of one day makes: the unique index against the
    other rows, the foreign key of the user it stamps, if any. *)
Definition update_day (tenant id : uuid) (stamp : option uuid) (f : OperatingDay -> OperatingDay)
  : Tx Ops ops_error OperatingDay :=
  let! o := tget in
  match first_where (dy_by tenant id) (op_days o) with
  | None => tfail ErrDayNotFound
  | Some y =>
      tguard (negb (exists_where (fun x => negb (dy_by tenant id x) && active_clash (f y) x)
                      (op_days o))) OpsUnique ;;!
      tguard (fk_opt (fk_pair (op_users o) tenant) stamp) OpsForeignKey ;;!
      tput (set_days (update_where (dy_by tenant id) f (op_days o)) o) ;;! tret (f y)
  end.

Definition SetStatus (tenant id : uuid) (status : day_status) (actor : uuid)
  : Tx Ops ops_error OperatingDay :=
  let! o := tget in
  update_day tenant id (if bool_decide (status = DayClosed) then Some actor else None)
    (with_day_status status actor (op_now o)).

Definition locked_day (actor : uuid) (now : Z) (y : OperatingDay) : OperatingDay :=
  mkDay (dy_id y) (dy_tenant y) (dy_station y) (dy_date y) DayLocked (dy_opened_by y)
    (dy_opened_at y) (dy_closed_by y) (dy_closed_at y) (Some actor) (Some now) (dy_notes y).

Definition Lock (tenant id actor : uuid) : Tx Ops ops_error OperatingDay :=
  let! o := tget in update_day tenant id (Some actor) (locked_day actor (op_now o)).

(** ** Shifts *)

Definition sh_by (tenant id : uuid) (s : Shift) : bool :=
  bool_decide (sh_id s = id /\ sh_tenant s = tenant).

Definition station_shifts (o : Ops) (tenant station : uuid) (day : option uuid) : list Shift :=
  select (fun s => bool_decide (sh_tenant s = tenant /\ sh_station s = station)
                   && match day with Some y => bool_decide (sh_day s = y) | None => true end)
    (op_shifts o).
Definition opened_desc (s t : Shift) : bool := sh_opened_at t <=? sh_opened_at s.
Definition ListShifts (o : Ops) (tenant station : uuid) (day : option uuid) : list Shift :=
  order_by opened_desc (station_shifts o tenant station day).

Definition opened_id_desc (s t : Shift) : bool :=
  (sh_opened_at t <? sh_opened_at s)
  || ((sh_opened_at t =? sh_opened_at s) && (sh_id t <=? sh_id s)%N).
Definition ListShiftsPage (o : Ops) (tenant station : uuid) (day : option uuid) (limit offset : nat)
  : list Shift :=
  limit_offset limit offset (order_by opened_id_desc (station_shifts o tenant station day)).

Definition ListOpenShiftsForStation (o : Ops) (tenant station : uuid) : list Shift :=
  order_by opened_desc
    (select (fun s => bool_decide (sh_status s = ShiftOpen)) (station_shifts o tenant station None)).

Definition GetShift (o : Ops) (tenant id : uuid) : option Shift :=
  first_where (sh_by tenant id) (op_shifts o).

Definition GetShiftForUpdate (o : Ops) (tenant id : uuid) : result ops_error Shift :=
  of_option ErrShiftNotFound (first_where (sh_by tenant id) (op_shifts o)).

Definition LockShiftStatusForShare (o : Ops) (tenant id : uuid) : result ops_error shift_status :=
  of_option ErrShiftNotFound (sh_status <$> first_where (sh_by tenant id) (op_shifts o)).

Record OpenShiftInput := mkOpenShift {
  os_station : uuid; os_day : uuid; os_opened_by : uuid; os_name : string;
  os_notes : option string; os_slot : option string; os_team : option uuid }.

(** [shifts_day_fk] and [shifts_day_station_fk] *)
Definition fk_day (o : Ops) (tenant station day : uuid) : bool :=
  exists_where (fun y => bool_decide (dy_tenant y = tenant /\ dy_station y = station /\ dy_id y = day))
    (op_days o).

Definition OpenShift (tenant : uuid) (i : OpenShiftInput) : Tx Ops ops_error Shift :=
  let! o := tget in
  let s := mkShift (op_next_id o) tenant (os_station i) (os_day i) (os_name i) ShiftOpen
    (os_opened_by i) (op_now o) None None None None (os_notes i) (os_slot i) (os_team i) in
  tguard (match os_slot i with
          | None => true
          | Some v => bool_decide (v ∈ ["morning"; "evening"]%string)
          end) OpsCheck ;;!
  tguard (fk_station o tenant (os_station i) && fk_day o tenant (os_station i) (os_day i)
          && fk_pair (op_users o) tenant (os_opened_by i)
          && fk_opt (fk_pair (op_teams o) tenant) (os_team i)) OpsForeignKey ;;!
  tput (bump_op_id (set_shifts (op_shifts o ++ [s]) o)) ;;! tret s.

Definition closed_shift (actor : uuid) (now : Z) (s : Shift) : Shift :=
  mkShift (sh_id s) (sh_tenant s) (sh_station s) (sh_day s) (sh_name s) ShiftClosed (sh_opened_by s)
    (sh_opened_at s) (Some actor) (Some now) (sh_approved_by s) (sh_approved_at s) (sh_notes s)
    (sh_slot s) (sh_team s).
Definition approved_shift (actor : uuid) (now : Z) (s : Shift) : Shift :=
  mkShift (sh_id s) (sh_tenant s) (sh_station s) (sh_day s) (sh_name s) ShiftApproved (sh_opened_by s)
    (sh_opened_at s) (sh_closed_by s) (sh_closed_at s) (Some actor) (Some now) (sh_notes s)
    (sh_slot s) (sh_team s).

Definition update_shift (tenant id actor : uuid) (f : Shift -> Shift) : Tx Ops ops_error Shift :=
  let! o := tget in
  let '(row, l) := update_returning (sh_by tenant id) f (op_shifts o) in
  match row with
  | None => tfail ErrShiftNotFound
  | Some s => tguard (fk_pair (op_users o) tenant actor) OpsForeignKey ;;!
              tput (set_shifts l o) ;;! tret s
  end.

(** The statements do not look at the status: their callers do, under the
    row lock. *)
Definition CloseShift (tenant id actor : uuid) : Tx Ops ops_error Shift :=
  let! o := tget in update_shift tenant id actor (closed_shift actor (op_now o)).
Definition ApproveShift (tenant id actor : uuid) : Tx Ops ops_error Shift :=
  let! o := tget in update_shift tenant id actor (approved_shift actor (op_now o)).

Definition in_day (tenant day : uuid) (s : Shift) : bool :=
  bool_decide (sh_tenant s = tenant /\ sh_day s = day).

Definition OpenShiftCountForDay (shifts : list Shift) (tenant day : uuid) : nat :=
  length (select (fun s => in_day tenant day s && bool_decide (sh_status s = ShiftOpen)) shifts).

Definition UnapprovedShiftCountForDay (shifts : list Shift) (tenant day : uuid) : nat :=
  length (select (fun s => in_day tenant day s && negb (bool_decide (sh_status s = ShiftApproved)))
    shifts).

Definition opened_id_asc (s t : Shift) : bool :=
  (sh_opened_at s <? sh_opened_at t)
  || ((sh_opened_at s =? sh_opened_at t) && (sh_id s <=? sh_id t)%N).
Definition ClosedUnapprovedShiftIDsForStation (o : Ops) (tenant station : uuid) : list uuid :=
  sh_id <$> order_by opened_id_asc (select (fun s => bool_decide (sh_status s = ShiftClosed))
    (station_shifts o tenant station None)).

(** *** Attendants and nozzles *)

Definition on_shift (tenant shift : uuid) (a : Attendant) : bool :=
  bool_decide (at_tenant a = tenant /\ at_shift a = shift).

Definition ListAttendants (o : Ops) (tenant shift : uuid) : list Attendant :=
  order_by (fun a b => at_assigned_at a <=? at_assigned_at b)
    (select (on_shift tenant shift) (op_attendants o)).

Definition fk_shift (o : Ops) (tenant shift : uuid) : bool :=
  exists_where (sh_by tenant shift) (op_shifts o).

Definition AssignAttendant (tenant shift user by_ : uuid) : Tx Ops ops_error unit :=
  let! o := tget in
  tguard (negb (exists_where (fun a => bool_decide (at_shift a = shift /\ at_user a = user))
                  (op_attendants o))) OpsUnique ;;!
  tguard (fk_shift o tenant shift && fk_pair (op_users o) tenant user
          && fk_pair (op_users o) tenant by_) OpsForeignKey ;;!
  tput (set_attendants (op_attendants o ++ [mkAttendant shift user tenant by_ (op_now o)]) o).

Definition assigned_on (tenant shift : uuid) (n : NozzleAssignment) : bool :=
  bool_decide (na_tenant n = tenant /\ na_shift n = shift).

(** Deleting the row deletes the attendant's nozzle assignments with it
    ([sna_attendant_on_shift_fk], [ON DELETE CASCADE]). *)
Definition UnassignAttendant (tenant shift user : uuid) : Tx Ops ops_error unit :=
  let! o := tget in
  let p a := on_shift tenant shift a && bool_decide (at_user a = user) in
  tguard (exists_where p (op_attendants o)) ErrAssignmentNotFound ;;!
  tput (set_assignments
    (select (fun n => negb (assigned_on tenant shift n && bool_decide (na_attendant n = user)))
       (op_assignments o))
    (set_attendants (select (fun a => negb (p a)) (op_attendants o)) o)).

Definition IsAttendantOnShift (o : Ops) (tenant shift user : uuid) : bool :=
  exists_where (fun a => on_shift tenant shift a && bool_decide (at_user a = user)) (op_attendants o).

Definition assigned_to (attendant : option uuid) (n : NozzleAssignment) : bool :=
  match attendant with Some u => bool_decide (na_attendant n = u) | None => true end.

Definition NozzleAssignedOnShift (o : Ops) (tenant shift nozzle : uuid) (attendant : option uuid)
  : bool :=
  exists_where (fun n => assigned_on tenant shift n && bool_decide (na_nozzle n = nozzle)
                         && assigned_to attendant n) (op_assignments o).

Definition TankAssignedOnShift (o : Ops) (tenant shift tank : uuid) (attendant : option uuid) : bool :=
  exists_where (fun nz => assigned_on tenant shift nz.1 && bool_decide (nz_tank nz.2 = tank)
                          && assigned_to attendant nz.1)
    (join (fun n z => bool_decide (nz_id z = na_nozzle n)) (op_assignments o) (op_nozzles o)).

Definition ListNozzleAssignments (o : Ops) (tenant shift : uuid) : list NozzleAssignment :=
  order_by (fun a b => na_assigned_at a <=? na_assigned_at b)
    (select (assigned_on tenant shift) (op_assignments o)).

(** [uq_sna_shift_nozzle] and the station-pinned foreign keys. *)
Definition AssignNozzle (tenant station shift nozzle attendant by_ : uuid)
  : Tx Ops ops_error NozzleAssignment :=
  let! o := tget in
  let n := mkAssignment (op_next_id o) tenant station shift nozzle attendant by_ (op_now o) in
  tguard (negb (exists_where (fun m => bool_decide (na_shift m = shift /\ na_nozzle m = nozzle))
                  (op_assignments o))) OpsUnique ;;!
  tguard (exists_where (fun s => sh_by tenant shift s && bool_decide (sh_station s = station)) (op_shifts o)
          && exists_where (fun z => bool_decide (nz_tenant z = tenant /\ nz_id z = nozzle
                                                 /\ nz_station z = station)) (op_nozzles o)
          && IsAttendantOnShift o tenant shift attendant
          && fk_pair (op_users o) tenant attendant && fk_pair (op_users o) tenant by_)
    OpsForeignKey ;;!
  tput (bump_op_id (set_assignments (op_assignments o ++ [n]) o)) ;;! tret n.

Definition UnassignNozzle (tenant shift id : uuid) : Tx Ops ops_error unit :=
  let! o := tget in
  let p n := assigned_on tenant shift n && bool_decide (na_id n = id) in
  tguard (exists_where p (op_assignments o)) ErrAssignmentNotFound ;;!
  tput (set_assignments (select (fun n => negb (p n)) (op_assignments o)) o).

(** ** Handlers *)

Definition ops_internal : http_error := HttpError 500 "internal error".

Section DayHandlers.
Context {L : Type} `{Loader L}.
Context (policy : L).

Definition ops_actor (ctx : option Actor) : result http_error Actor :=
  match identity_Require ctx with
  | Ok a => Ok a
  | Err _ => Err (HttpError 401 "authentication required")
  end.

(** [station] is the parsed URL parameter; [date] the parsed optional
    [business_date], an error when it does not parse; [today] the clock's
    date.  [stations.Get] finds the station on the pool. *)
Definition handleOpenOperatingDay (pool : Ops) (ctx : option Actor) (station : result unit uuid)
    (date : option (result unit Z)) (today : Z) (notes : option string)
  : Tx Ops http_error OperatingDay :=
  let! a := tlift (ops_actor ctx) in
  match station with
  | Err _ => tfail (HttpError 400 "invalid station id")
  | Ok sid =>
      match date with
      | Some (Err _) => tfail (HttpError 400 "invalid business_date (want YYYY-MM-DD)")
      | _ =>
          let day := match date with Some (Ok v) => v | _ => today end in
          tguard (stations_Get pool (ac_tenant a) sid) (HttpError 404 "station not found") ;;!
          let! y := tconv (fun e => if bool_decide (e = OpsUnique)
                                    then HttpError 409 "an operating day is already open for that date"
                                    else ops_internal)
            (OpenDay (ac_tenant a) sid (ac_user a) day notes) in
          ops_audit (ac_tenant a) (ac_user a) "operating_day.opened" (dy_id y) ;;!
          tret y
      end
  end.

Definition handleGetOperatingDay (pool : Ops) (ctx : option Actor) (id : result unit uuid)
  : result http_error OperatingDay :=
  (let? a := ops_actor ctx in
   match id with
   | Err _ => Err (HttpError 400 "invalid id")
   | Ok id =>
       match GetDay (op_days pool) (ac_tenant a) id with
       | None => Err (HttpError 404 "operating day not found")
       | Some y => let? _ := authorizeStation policy a "station.read" (dy_station y) in Ok y
       end
   end)%res.

Definition status_name (s : day_status) : string :=
  match s with DayOpen => "open" | DayClosed => "closed" | DayLocked => "locked" end.

Definition day_not_found (e : ops_error) : http_error :=
  if bool_decide (e = ErrDayNotFound) then HttpError 404 "not found" else ops_internal.

(** The requested status, parsed: [None] for any other word. *)
Definition requested_status (s : string) : option day_status :=
  if bool_decide (s = "open")%string then Some DayOpen
  else if bool_decide (s = "closed")%string then Some DayClosed else None.

(** [body] is the decoded request, an error when it is not JSON. *)
Definition handleUpdateOperatingDayStatus (pool : Ops) (ctx : option Actor) (id : result unit uuid)
    (body : result unit string) : Tx Ops http_error OperatingDay :=
  let! a := tlift (ops_actor ctx) in
  match id, body with
  | Err _, _ => tfail (HttpError 400 "invalid id")
  | Ok _, Err _ => tfail (HttpError 400 "invalid JSON body")
  | Ok id, Ok word =>
      match requested_status word with
      | None => tfail (HttpError 400 "status must be open or closed (use /lock to lock)")
      | Some status =>
          let! before := tlift (of_option (HttpError 404 "not found")
            (GetDay (op_days pool) (ac_tenant a) id)) in
          tlift (authorizeStation policy a "operations.manage_day" (dy_station before)) ;;!
          let action := if bool_decide (status = DayClosed) then "operating_day.closed"%string
                        else "operating_day.reopened"%string in
          let! o := tget in
          let! locked := tconv day_not_found (tlift (GetDayForUpdate o (ac_tenant a) id)) in
          tguard (negb (bool_decide (dy_status locked = DayLocked)))
            (HttpError 409 "a locked day cannot change status") ;;!
          tguard (negb (bool_decide (dy_status locked = status)))
            (HttpError 409 ("already " ++ status_name status)) ;;!
          tguard (negb (bool_decide (status = DayClosed)
                        && (0 <? OpenShiftCountForDay (op_shifts o) (ac_tenant a) (dy_id locked))%nat))
            (HttpError 409 "close the day's open shifts first") ;;!
          let! after := tconv day_not_found (SetStatus (ac_tenant a) id status (ac_user a)) in
          ops_audit (ac_tenant a) (ac_user a) action (dy_id after) ;;!
          tret after
      end
  end.

(** Both guards read the pool; the transaction only writes. *)
Definition handleLockOperatingDay (pool : Ops) (ctx : option Actor) (id : result unit uuid)
  : Tx Ops http_error OperatingDay :=
  let! a := tlift (ops_actor ctx) in
  match id with
  | Err _ => tfail (HttpError 400 "invalid id")
  | Ok id =>
      let! before := tlift (of_option (HttpError 404 "not found")
        (GetDay (op_days pool) (ac_tenant a) id)) in
      tlift (authorizeStation policy a "operations.manage_day" (dy_station before)) ;;!
      tguard (bool_decide (dy_status before = DayClosed))
        (HttpError 409 "only a closed day can be locked") ;;!
      tguard (negb (0 <? UnapprovedShiftCountForDay (op_shifts pool) (ac_tenant a) (dy_id before))%nat)
        (HttpError 409 "all shifts must be approved before locking the day") ;;!
      let! after := tconv day_not_found (Lock (ac_tenant a) id (ac_user a)) in
      ops_audit (ac_tenant a) (ac_user a) "operating_day.locked" (dy_id after) ;;!
      tret after
  end.

(** The loop of [handleOpenShift] over the team's logins. *)
Fixpoint assign_attendants (tenant shift by_ : uuid) (users : list uuid) : Tx Ops http_error unit :=
  match users with
  | [] => tret tt
  | u :: rest =>
      tconv (fun _ => ops_internal) (AssignAttendant tenant shift u by_) ;;!
      assign_attendants tenant shift by_ rest
  end.

(** The transaction of [handleOpenShift], after its checks of the request,
    the station's setup and the roster: [users] are the scheduled team's
    logins, [has_reason] says whether the trimmed override reason is not
    empty. *)
Definition open_shift_tx (a : Actor) (i : OpenShiftInput) (has_reason : bool) (users : list uuid)
  : Tx Ops http_error Shift :=
  let! o := tget in
  let! status := tconv (fun _ => HttpError 404 "operating day not found")
    (tlift (LockDayStatusForShare o (ac_tenant a) (os_day i))) in
  tguard (bool_decide (status = DayOpen)) (HttpError 409 "operating day is not open") ;;!
  let overridden := negb (bool_decide
    (ClosedUnapprovedShiftIDsForStation o (ac_tenant a) (os_station i) = [])) in
  tguard (negb (overridden && negb has_reason))
    (HttpError 409 "approve the station's closed shifts before opening a new one (or override with a reason)") ;;!
  (if overridden then tlift (authorizeStation policy a "shift.approve" (os_station i)) else tret tt) ;;!
  let! s := tconv (fun _ => ops_internal) (OpenShift (ac_tenant a) i) in
  assign_attendants (ac_tenant a) (sh_id s) (ac_user a) users ;;!
  ops_audit (ac_tenant a) (ac_user a) "shift.opened" (sh_id s) ;;!
  (if overridden then ops_audit (ac_tenant a) (ac_user a) "shift.handover_overridden" (sh_id s)
   else tret tt) ;;!
  tret s.
End DayHandlers.
