(* ===== verification/OperationsProps.v ===== *)
(** * Properties of the operating cadence

    The discipline of days and shifts over every sequence of requests - a
    closed day has no open shift, a locked day only approved ones, one
    active day per station and date - and the interleaving in which locking
    a day breaks it. *)

From stdpp Require Import base list strings.
From Stdlib Require Import ZArith Lia.
From S2P Require Import Prelude Numeric Schema Policy Operations.

Local Open Scope Z_scope.
Local Open Scope tx_scope.

(** ** Effects *)

Lemma dy_by_true t i y : dy_by t i y = true <-> dy_id y = i /\ dy_tenant y = t.
Proof. apply bool_decide_eq_true. Qed.
Lemma sh_by_true t i s : sh_by t i s = true <-> sh_id s = i /\ sh_tenant s = t.
Proof. apply bool_decide_eq_true. Qed.
Lemma in_day_true t i s : in_day t i s = true <-> sh_tenant s = t /\ sh_day s = i.
Proof. apply bool_decide_eq_true. Qed.

(** The rows the discipline is about. *)
Definition same_rows (o o' : Ops) : Prop :=
  op_days o' = op_days o /\ op_shifts o' = op_shifts o /\ (op_next_id o <= op_next_id o')%N.

Lemma same_rows_trans o1 o2 o3 : same_rows o1 o2 -> same_rows o2 o3 -> same_rows o1 o3.
Proof. intros (E1 & E2 & H1) (E3 & E4 & H2). split; [congruence|]. split; [congruence|lia]. Qed.

Lemma ops_audit_same {E} t a x e o u o' : ops_audit (E := E) t a x e o = Ok (u, o') -> same_rows o o'.
Proof. intros [= _ <-]. split; [done|]. split; [done|]. simpl. lia. Qed.

Lemma AssignAttendant_same t s u b o x o' : AssignAttendant t s u b o = Ok (x, o') -> same_rows o o'.
Proof.
  intros H. unfold AssignAttendant in H. tx_steps H. injection H as _ <-. split; [done|]. split; [done|]. simpl. lia.
Qed.

Lemma assign_attendants_same t s b us : forall o x o',
  assign_attendants t s b us o = Ok (x, o') -> same_rows o o'.
Proof.
  induction us as [|u us IH]; intros o x o' H; simpl in H; tx_steps H; subst.
  - split; [done|]. split; [done|]. lia.
  - eapply same_rows_trans; [by eapply AssignAttendant_same|by eapply IH].
Qed.

(** A read that may be skipped, and an audit row that may be. *)
Lemma guarded_read {S E} (b : bool) (r : result E unit) (s : S) x s' :
  (if b then tlift r else tret tt) s = Ok (x, s') -> s' = s.
Proof. destruct b; [destruct r|]; intros [=]; done. Qed.

Lemma guarded_audit {E} (b : bool) t a x e o u o' :
  (if b then ops_audit (E := E) t a x e else tret tt) o = Ok (u, o') -> same_rows o o'.
Proof. destruct b; [apply ops_audit_same|]. intros [= _ <-]. by split. Qed.

Definition add_day (y : OperatingDay) (o : Ops) : Ops := bump_op_id (set_days (op_days o ++ [y]) o).
Definition add_shift (s : Shift) (o : Ops) : Ops := bump_op_id (set_shifts (op_shifts o ++ [s]) o).

Section Effects.
Context {L : Type} `{Loader L}.
Context (policy : L).

Lemma open_day_effect pool ctx st date today notes o y o' :
  handleOpenOperatingDay pool ctx st date today notes o = Ok (y, o') ->
  dy_id y = op_next_id o /\ dy_status y = DayOpen
  /\ exists_where (active_clash y) (op_days o) = false /\ same_rows (add_day y o) o'.
Proof.
  intros Hrun. unfold handleOpenOperatingDay in Hrun. tx_steps Hrun; try discriminate Hrun; subst.
  all: match goal with Hx : OpenDay _ _ _ _ _ _ = _ |- _ => unfold OpenDay in Hx; tx_steps Hx end.
  all: bool_solve; subst; split; [done|]; split; [done|]; split; [done|]; by eapply ops_audit_same.
Qed.

Lemma update_day_effect t id stamp f o y o' :
  update_day t id stamp f o = Ok (y, o') ->
  exists y0, first_where (dy_by t id) (op_days o) = Some y0 /\ y = f y0
    /\ exists_where (fun x => negb (dy_by t id x) && active_clash (f y0) x) (op_days o) = false
    /\ o' = set_days (update_where (dy_by t id) f (op_days o)) o.
Proof. intros Hrun. unfold update_day in Hrun. tx_steps Hrun. bool_solve. subst. eauto 10. Qed.

Lemma status_effect pool ctx id body o y o' :
  handleUpdateOperatingDayStatus policy pool ctx id body o = Ok (y, o') ->
  exists t i u st y0, first_where (dy_by t i) (op_days o) = Some y0
    /\ dy_status y0 <> DayLocked /\ st <> DayLocked
    /\ (st = DayClosed -> OpenShiftCountForDay (op_shifts o) t i = 0%nat)
    /\ exists_where (fun x => negb (dy_by t i x) && active_clash (with_day_status st u (op_now o) y0) x)
         (op_days o) = false
    /\ same_rows (set_days (update_where (dy_by t i) (with_day_status st u (op_now o)) (op_days o)) o) o'.
Proof.
  intros Hrun. unfold handleUpdateOperatingDayStatus in Hrun. tx_steps Hrun; try discriminate Hrun.
  match goal with Hx : tlift (GetDayForUpdate _ _ _) _ = _ |- _ =>
    unfold GetDayForUpdate, tlift in Hx; destruct (first_where _ (op_days _)) eqn:Ef; simplify_eq/= end.
  match goal with Hx : SetStatus _ _ _ _ _ = _ |- _ => unfold SetStatus in Hx; tx_steps Hx;
    apply update_day_effect in Hx as (y1 & Ey & -> & Hc & ->) end.
  bool_solve. exists (ac_tenant x), a, (ac_user x), d, y1. simplify_eq.
  split; [done|]. split; [done|]. split.
  { match goal with Hx : requested_status _ = Some d |- _ => unfold requested_status in Hx end.
    repeat case_bool_decide; simplify_eq; done. }
  split; [|split; [done|by eapply ops_audit_same]].
  intros ->. destruct (first_where_some _ _ _ Ef) as [_ [<- _]%dy_by_true].
  match goal with Hx : bool_decide _ && _ = false |- _ =>
    rewrite bool_decide_eq_true_2 in Hx by done; simpl in Hx; apply Nat.ltb_ge in Hx; lia end.
Qed.

Lemma lock_effect pool ctx id o y o' :
  handleLockOperatingDay policy pool ctx id o = Ok (y, o') ->
  exists t i u p0 y0, first_where (dy_by t i) (op_days pool) = Some p0 /\ dy_status p0 = DayClosed
    /\ UnapprovedShiftCountForDay (op_shifts pool) t i = 0%nat
    /\ first_where (dy_by t i) (op_days o) = Some y0
    /\ same_rows (set_days (update_where (dy_by t i) (locked_day u (op_now o)) (op_days o)) o) o'.
Proof.
  intros Hrun. unfold handleLockOperatingDay in Hrun. tx_steps Hrun; try discriminate Hrun.
  match goal with Hx : Lock _ _ _ _ = _ |- _ => unfold Lock in Hx; tx_steps Hx;
    apply update_day_effect in Hx as (y1 & Ey & -> & Hc & ->) end.
  bool_solve. subst. unfold GetDay in *.
  match goal with Hx : first_where _ (op_days pool) = Some ?p0 |- _ =>
    exists (ac_tenant x), a, (ac_user x), p0, y1; destruct (first_where_some _ _ _ Hx) as [_ [Ei _]%dy_by_true] end.
  split; [done|]. split; [done|]. split; [|split; [done|by eapply ops_audit_same]].
  match goal with Hx : (0 <? _)%nat = false |- _ => apply Nat.ltb_ge in Hx; rewrite Ei in Hx; lia end.
Qed.

Lemma open_shift_effect a i reason users o s o' :
  open_shift_tx policy a i reason users o = Ok (s, o') ->
  exists y, first_where (dy_by (ac_tenant a) (os_day i)) (op_days o) = Some y /\ dy_status y = DayOpen
    /\ sh_id s = op_next_id o /\ sh_tenant s = ac_tenant a /\ sh_day s = os_day i
    /\ sh_status s = ShiftOpen /\ same_rows (add_shift s o) o'.
Proof.
  intros Hrun. unfold open_shift_tx in Hrun. tx_steps Hrun.
  match goal with Hx : tlift (LockDayStatusForShare _ _ _) _ = _ |- _ =>
    unfold LockDayStatusForShare, tlift in Hx;
    destruct (first_where _ (op_days _)) as [y|] eqn:Ef; simplify_eq/= end.
  bool_solve. exists y. split; [done|]. split; [done|].
  match goal with Hx : (if _ then tlift _ else tret tt) _ = _ |- _ => apply guarded_read in Hx; subst end.
  match goal with Hx : OpenShift _ _ _ = _ |- _ => unfold OpenShift in Hx; tx_steps Hx end. subst.
  do 4 (split; [done|]). eapply same_rows_trans; [by eapply assign_attendants_same|].
  eapply same_rows_trans; [by eapply ops_audit_same|]. by eapply guarded_audit.
Qed.
End Effects.

(** ** The cadence as a transition system *)

Section Cadence.
Context {L : Type} `{Loader L}.
Context (policy : L).

(** Committed requests.  The pool of a status change or of an opening is
    any earlier state; locking is taken with the pool showing the state the
    transaction starts from.  Closing and approving a shift are the moves
    their handlers make under the shift's row lock. *)
Inductive ops_step (o : Ops) : Ops -> Prop :=
| os_open_day pool ctx st date today notes y o' :
    handleOpenOperatingDay pool ctx st date today notes o = Ok (y, o') -> ops_step o o'
| os_status pool ctx id body y o' :
    handleUpdateOperatingDayStatus policy pool ctx id body o = Ok (y, o') -> ops_step o o'
| os_lock ctx id y o' :
    handleLockOperatingDay policy o ctx id o = Ok (y, o') -> ops_step o o'
| os_open_shift a i reason users s o' :
    open_shift_tx policy a i reason users o = Ok (s, o') -> ops_step o o'
| os_close_shift tenant id actor s s' o' :
    GetShiftForUpdate o tenant id = Ok s -> sh_status s = ShiftOpen ->
    CloseShift tenant id actor o = Ok (s', o') -> ops_step o o'
| os_approve_shift tenant id actor s s' o' :
    GetShiftForUpdate o tenant id = Ok s -> sh_status s = ShiftClosed ->
    ApproveShift tenant id actor o = Ok (s', o') -> ops_step o o'
| os_assign tenant shift user by_ x o' :
    AssignAttendant tenant shift user by_ o = Ok (x, o') -> ops_step o o'
| os_unassign tenant shift user x o' :
    UnassignAttendant tenant shift user o = Ok (x, o') -> ops_step o o'
| os_nozzle tenant station shift nozzle user by_ n o' :
    AssignNozzle tenant station shift nozzle user by_ o = Ok (n, o') -> ops_step o o'
| os_unnozzle tenant shift id x o' :
    UnassignNozzle tenant shift id o = Ok (x, o') -> ops_step o o'
| os_env stations users teams nozzles now : ops_step o
    (mkOpsState (op_days o) (op_shifts o) (op_attendants o) (op_assignments o) stations users teams
       nozzles (op_audit o) (op_next_id o) now).

Inductive ops_reachable : Ops -> Prop :=
| ops_start o : op_days o = [] -> op_shifts o = [] -> ops_reachable o
| ops_more o o' : ops_reachable o -> ops_step o o' -> ops_reachable o'.

Record Ops_inv (o : Ops) : Prop := {
  oi_day_ids : NoDup (dy_id <$> op_days o);
  oi_day_fresh : forall y, In y (op_days o) -> (dy_id y < op_next_id o)%N;
  oi_shift_ids : NoDup (sh_id <$> op_shifts o);
  oi_shift_fresh : forall s, In s (op_shifts o) -> (sh_id s < op_next_id o)%N;
  oi_shift_day : forall s, In s (op_shifts o) ->
    exists y, In y (op_days o) /\ dy_id y = sh_day s /\ dy_tenant y = sh_tenant s;
  oi_closed : forall y s, In y (op_days o) -> In s (op_shifts o) ->
    in_day (dy_tenant y) (dy_id y) s = true -> dy_status y = DayClosed -> sh_status s <> ShiftOpen;
  oi_locked : forall y s, In y (op_days o) -> In s (op_shifts o) ->
    in_day (dy_tenant y) (dy_id y) s = true -> dy_status y = DayLocked -> sh_status s = ShiftApproved;
  oi_active : forall x y, In x (op_days o) -> In y (op_days o) -> active_clash x y = true -> x = y;
}.

Lemma Ops_inv_same o o' : same_rows o o' -> Ops_inv o -> Ops_inv o'.
Proof.
  intros (Ed & Es & Hn) []. constructor; rewrite ?Ed, ?Es; try done.
  - intros y Hy. specialize (oi_day_fresh0 y Hy). lia.
  - intros s Hs. specialize (oi_shift_fresh0 s Hs). lia.
Qed.

Lemma active_clash_true x y : active_clash x y = true <->
  dy_status x <> DayLocked /\ dy_status y <> DayLocked /\ dy_station x = dy_station y /\ dy_date x = dy_date y.
Proof.
  unfold active_clash. rewrite !andb_true_iff, !negb_true_iff, !bool_decide_eq_false, !bool_decide_eq_true. tauto.
Qed.

(** Rows with one id are one row. *)
Lemma day_unique o t i y z :
  Ops_inv o -> first_where (dy_by t i) (op_days o) = Some y -> In z (op_days o) -> dy_id z = i -> z = y.
Proof.
  intros Ho Hf Hz Hi. destruct (first_where_some _ _ _ Hf) as [Hy [Hyi _]%dy_by_true].
  pose proof (first_unique dy_id (fun x => bool_decide (dy_id x = i)) i (op_days o)) as Hu.
  assert (Hk : forall x, bool_decide (dy_id x = i) = true -> dy_id x = i) by (intros; by bool_solve).
  rewrite (Hu z (oi_day_ids o Ho) Hk Hz ltac:(by apply bool_decide_eq_true_2)) in Hu.
  specialize (Hu y (oi_day_ids o Ho) Hk Hy ltac:(by apply bool_decide_eq_true_2)). congruence.
Qed.

Lemma inv_add_day o y :
  Ops_inv o -> dy_id y = op_next_id o -> dy_status y = DayOpen ->
  exists_where (active_clash y) (op_days o) = false -> Ops_inv (add_day y o).
Proof.
  intros [] Hid Hst Hno. pose proof (proj1 (exists_where_false _ _) Hno) as Hno'.
  constructor; simpl; try done.
  - by eapply NoDup_snoc_fresh.
  - intros x [Hx|[<-|[]]]%in_app_or; [specialize (oi_day_fresh0 x Hx)|]; lia.
  - intros s Hs. specialize (oi_shift_fresh0 s Hs). lia.
  - intros s Hs. destruct (oi_shift_day0 s Hs) as (x & ? & ?). exists x. split; [apply in_or_app; auto|done].
  - intros x s [Hx|[<-|[]]]%in_app_or Hs Hd Hc; [by eapply oi_closed0|congruence].
  - intros x s [Hx|[<-|[]]]%in_app_or Hs Hd Hc; [by eapply oi_locked0|congruence].
  - intros x z [Hx|[<-|[]]]%in_app_or [Hz|[<-|[]]]%in_app_or Hc; auto.
    + specialize (Hno' x Hx). rewrite (proj2 (active_clash_true y x)) in Hno'; [done|].
      apply active_clash_true in Hc as (? & ? & ? & ?). auto.
    + by rewrite (Hno' z Hz) in Hc.
Qed.

Lemma inv_update_day o t i f y0 :
  Ops_inv o -> first_where (dy_by t i) (op_days o) = Some y0 ->
  (forall y, dy_id (f y) = dy_id y /\ dy_tenant (f y) = dy_tenant y) ->
  (dy_status (f y0) = DayLocked \/
   exists_where (fun x => negb (dy_by t i x) && active_clash (f y0) x) (op_days o) = false) ->
  (dy_status (f y0) = DayClosed -> OpenShiftCountForDay (op_shifts o) t i = 0%nat) ->
  (dy_status (f y0) = DayLocked -> UnapprovedShiftCountForDay (op_shifts o) t i = 0%nat) ->
  Ops_inv (set_days (update_where (dy_by t i) f (op_days o)) o).
Proof.
  intros Ho Hf Hkey Hcl Hclosed Hlocked.
  destruct (first_where_some _ _ _ Hf) as [Hy0 [Hi Ht]%dy_by_true].
  assert (Hrow : forall x, In x (op_days o) -> dy_by t i x = true -> x = y0).
  { intros x Hx [Hxi _]%dy_by_true. by eapply day_unique. }
  assert (Hnone : forall p, length (select p (op_shifts o)) = 0%nat ->
    forall s, In s (op_shifts o) -> p s = false).
  { intros p Hl s Hs. destruct (p s) eqn:E; [|done].
    assert (In s (select p (op_shifts o))) by by apply in_select. destruct (select p (op_shifts o)); done. }
  pose proof Ho as [].
  constructor; simpl; try done.
  - change (NoDup (List.map dy_id (update_where (dy_by t i) f (op_days o)))).
    rewrite map_update_where; [done|]. intros r _. apply Hkey.
  - intros x (y & Hy & ->)%in_update_where. specialize (oi_day_fresh0 y Hy).
    destruct (dy_by t i y); [by rewrite (proj1 (Hkey y))|done].
  - intros s Hs. destruct (oi_shift_day0 s Hs) as (y & Hy & ? & ?).
    exists (if dy_by t i y then f y else y). split; [apply in_update_where; eauto|].
    destruct (dy_by t i y); [|done]. by rewrite (proj1 (Hkey y)), (proj2 (Hkey y)).
  - intros x s (y & Hy & ->)%in_update_where Hs Hd Hst. destruct (dy_by t i y) eqn:Eb; [|by eapply oi_closed0].
    pose proof (Hrow y Hy Eb) as ->. rewrite (proj1 (Hkey y0)), (proj2 (Hkey y0)), Hi, Ht in Hd.
    pose proof (Hnone _ (Hclosed Hst) s Hs) as Hn. cbv beta in Hn. rewrite Hd in Hn. simpl in Hn. by bool_solve.
  - intros x s (y & Hy & ->)%in_update_where Hs Hd Hst. destruct (dy_by t i y) eqn:Eb; [|by eapply oi_locked0].
    pose proof (Hrow y Hy Eb) as ->. rewrite (proj1 (Hkey y0)), (proj2 (Hkey y0)), Hi, Ht in Hd.
    pose proof (Hnone _ (Hlocked Hst) s Hs) as Hn. cbv beta in Hn. rewrite Hd in Hn. simpl in Hn. by bool_solve.
  - assert (Hother : forall z, In z (op_days o) -> dy_by t i z = false -> active_clash (f y0) z = false).
    { intros z Hz Ez. destruct Hcl as [Hcl|Hcl].
      - unfold active_clash. by rewrite (bool_decide_eq_true_2 _ Hcl).
      - pose proof (proj1 (exists_where_false _ _) Hcl z Hz) as Hn. cbv beta in Hn. by rewrite Ez in Hn. }
    intros x x' (y & Hy & ->)%in_update_where (z & Hz & ->)%in_update_where Hc.
    destruct (dy_by t i y) eqn:Ey, (dy_by t i z) eqn:Ez.
    + by rewrite (Hrow y Hy Ey), (Hrow z Hz Ez).
    + rewrite (Hrow y Hy Ey), (Hother z Hz Ez) in Hc. done.
    + rewrite (Hrow z Hz Ez) in Hc. apply active_clash_true in Hc as (? & ? & ? & ?).
      pose proof (Hother y Hy Ey) as Hn. rewrite (proj2 (active_clash_true (f y0) y)) in Hn by auto. done.
    + auto.
Qed.

Lemma inv_add_shift o s y :
  Ops_inv o -> sh_id s = op_next_id o ->
  first_where (dy_by (sh_tenant s) (sh_day s)) (op_days o) = Some y -> dy_status y = DayOpen ->
  Ops_inv (add_shift s o).
Proof.
  intros Ho Hid Hf Hst. destruct (first_where_some _ _ _ Hf) as [Hy [Hi Ht]%dy_by_true]. pose proof Ho as [].
  assert (Hday : forall x, In x (op_days o) -> in_day (dy_tenant x) (dy_id x) s = true -> dy_status x = DayOpen).
  { intros x Hx [_ Hd]%in_day_true. by rewrite (day_unique o _ _ y x Ho Hf Hx). }
  constructor; simpl; try done.
  - intros x Hx. specialize (oi_day_fresh0 x Hx). lia.
  - by eapply NoDup_snoc_fresh.
  - intros x [Hx|[<-|[]]]%in_app_or; [specialize (oi_shift_fresh0 x Hx)|]; lia.
  - intros x [Hx|[<-|[]]]%in_app_or; eauto.
  - intros x s' Hx [Hs|[<-|[]]]%in_app_or Hd Hc; [by eapply oi_closed0|]. rewrite (Hday x Hx Hd) in Hc. done.
  - intros x s' Hx [Hs|[<-|[]]]%in_app_or Hd Hc; [by eapply oi_locked0|]. rewrite (Hday x Hx Hd) in Hc. done.
Qed.

(** A shift's move: never back to open, and to anything but approved only
    from a shift that is not. *)
Lemma inv_update_shift o t i f s :
  Ops_inv o -> first_where (sh_by t i) (op_shifts o) = Some s ->
  (forall x, sh_id (f x) = sh_id x /\ sh_tenant (f x) = sh_tenant x /\ sh_day (f x) = sh_day x) ->
  (forall x, sh_status (f x) <> ShiftOpen) ->
  (sh_status s = ShiftOpen \/ forall x, sh_status (f x) = ShiftApproved) ->
  Ops_inv (set_shifts (update_where (sh_by t i) f (op_shifts o)) o).
Proof.
  intros Ho Hf Hkey Hopen Happ. destruct (first_where_some _ _ _ Hf) as [Hs Hsb].
  assert (Hrow : forall x, In x (op_shifts o) -> sh_by t i x = true -> x = s).
  { intros x Hx Hb. pose proof (first_unique sh_id (sh_by t i) i (op_shifts o) x (oi_shift_ids o Ho)
      ltac:(by intros z [? _]%sh_by_true) Hx Hb). congruence. }
  assert (Hin : forall y x, in_day (dy_tenant y) (dy_id y) (f x) = in_day (dy_tenant y) (dy_id y) x).
  { intros y x. unfold in_day. destruct (Hkey x) as (_ & -> & ->). done. }
  pose proof Ho as []. constructor; simpl; try done.
  - change (NoDup (List.map sh_id (update_where (sh_by t i) f (op_shifts o)))).
    rewrite map_update_where; [done|]. intros r _. apply Hkey.
  - intros x (y & Hy & ->)%in_update_where. specialize (oi_shift_fresh0 y Hy).
    destruct (sh_by t i y); [by rewrite (proj1 (Hkey y))|done].
  - intros x (y & Hy & ->)%in_update_where. destruct (oi_shift_day0 y Hy) as (z & ? & ? & ?).
    exists z. destruct (sh_by t i y); [|done]. destruct (Hkey y) as (_ & -> & ->). done.
  - intros y x Hy (z & Hz & ->)%in_update_where Hd Hst. destruct (sh_by t i z); [done|by eapply oi_closed0].
  - intros y x Hy (z & Hz & ->)%in_update_where Hd Hst. destruct (sh_by t i z) eqn:Eb; [|by eapply oi_locked0].
    destruct Happ as [Ha|Ha]; [exfalso|done]. rewrite Hin in Hd. pose proof (oi_locked0 y z Hy Hz Hd Hst) as E.
    rewrite (Hrow z Hz Eb) in E. congruence.
Qed.

Lemma update_shift_effect t i u f o s o' :
  update_shift t i u f o = Ok (s, o') ->
  exists s0, first_where (sh_by t i) (op_shifts o) = Some s0
    /\ o' = set_shifts (update_where (sh_by t i) f (op_shifts o)) o.
Proof.
  intros Hrun. unfold update_shift, update_returning in Hrun. tx_steps Hrun. simplify_eq.
  destruct (first_where _ _); simplify_eq/=. eauto.
Qed.

Lemma inv_ops_step o o' : Ops_inv o -> ops_step o o' -> Ops_inv o'.
Proof.
  intros Ho Hs. destruct Hs as
    [pool ctx st date today notes y o' Hx|pool ctx id body y o' Hx|ctx id y o' Hx|a i reason users s o' Hx
    |t i u s s' o' Hg Hst Hx|t i u s s' o' Hg Hst Hx|t s u b x o' Hx|t s u x o' Hx|t st s n u b m o' Hx
    |t s i x o' Hx|].
  - apply open_day_effect in Hx as (? & ? & ? & Hx). eapply Ops_inv_same; [exact Hx|by apply inv_add_day].
  - apply status_effect in Hx as (t & i & u & st & y0 & Hf & Hnl & Hst & Hcl & Hc & Hx).
    eapply Ops_inv_same; [exact Hx|]. eapply inv_update_day; [done|exact Hf|done|by right|done|done].
  - apply lock_effect in Hx as (t & i & u & p0 & y0 & _ & _ & Hun & Hf & Hx).
    eapply Ops_inv_same; [exact Hx|]. eapply inv_update_day; [done|exact Hf|done|by left|done|done].
  - apply open_shift_effect in Hx as (y & Hf & Hst & Hid & Ht & Hd & _ & Hx).
    eapply Ops_inv_same; [exact Hx|]. apply (inv_add_shift o s y); [done..|by rewrite Ht, Hd|done].
  - unfold CloseShift in Hx. tx_steps Hx. apply update_shift_effect in Hx as (s0 & Hf & ->).
    unfold GetShiftForUpdate in Hg. rewrite Hf in Hg. injection Hg as ->.
    eapply inv_update_shift; [done|exact Hf|done|done|by left].
  - unfold ApproveShift in Hx. tx_steps Hx. apply update_shift_effect in Hx as (s0 & Hf & ->).
    eapply inv_update_shift; [done|exact Hf|done|done|by right].
  - eapply Ops_inv_same; [by eapply AssignAttendant_same|done].
  - unfold UnassignAttendant in Hx. tx_steps Hx. injection Hx as _ <-.
    eapply Ops_inv_same; [|exact Ho]. split; [done|]. split; [done|]. simpl. lia.
  - unfold AssignNozzle in Hx. tx_steps Hx. subst.
    eapply Ops_inv_same; [|exact Ho]. split; [done|]. split; [done|]. simpl. lia.
  - unfold UnassignNozzle in Hx. tx_steps Hx. injection Hx as _ <-.
    eapply Ops_inv_same; [|exact Ho]. split; [done|]. split; [done|]. simpl. lia.
  - eapply Ops_inv_same; [|exact Ho]. split; [done|]. split; [done|]. simpl. lia.
Qed.

Lemma ops_reachable_inv o : ops_reachable o -> Ops_inv o.
Proof.
  induction 1 as [o Ed Es|]; [|by eapply inv_ops_step].
  constructor; rewrite ?Ed, ?Es; try (intros; done); constructor.
Qed.

(** C39. The cadence holds over every sequence of committed requests: a closed
    day has no open shift, a locked day only approved ones, and a station
    has at most one day per date that is not locked - the status change
    being safe whatever its reads on the pool showed, and locking when they
    showed the state it commits on. *)
Theorem day_discipline o y s :
  ops_reachable o -> In y (op_days o) ->
  (In s (op_shifts o) -> in_day (dy_tenant y) (dy_id y) s = true ->
     (dy_status y = DayClosed -> sh_status s <> ShiftOpen)
     /\ (dy_status y = DayLocked -> sh_status s = ShiftApproved))
  /\ (forall z, In z (op_days o) -> dy_status y <> DayLocked -> dy_status z <> DayLocked ->
       dy_station z = dy_station y -> dy_date z = dy_date y -> z = y).
Proof.
  intros Ho%ops_reachable_inv Hy. split.
  - intros Hs Hd. split; intros Hst; [by eapply oi_closed|by eapply oi_locked].
  - intros z Hz H1 H2 Es Ed. apply (oi_active o Ho); [done..|]. by apply active_clash_true.
Qed.
End Cadence.

(** ** Sample runs *)

(** A supervisor of station 20. *)
Definition ops_policy : PolicyDb :=
  mkPolicyDb [mkRole 1 "supervisor" true false] [mkPermission 7 "operations.manage_day" true]
    [(2, 1, 1)]%N [(1, 7)]%N [(2, 1, 20)]%N.
Definition supervisor : Actor := mkActor 2 1 9 false.

Definition ops_empty : Ops :=
  mkOpsState [] [] [] [] [mkStation 1 20 false] [(1, 2); (1, 3)]%N [] [] [] 100 0.

Definition morning : OpenShiftInput := mkOpenShift 20 100 2 "A" None (Some "morning"%string) None.

(** Day 100 opened, and closed. *)
Definition day_opened : Ops :=
  (run_tx (handleOpenOperatingDay ops_empty (Some supervisor) (Ok 20%N) None 7 None) ops_empty).2.
Definition set_day (word : string) (o : Ops) : Ops :=
  (run_tx (handleUpdateOperatingDayStatus ops_policy o (Some supervisor) (Ok 100%N) (Ok word)) o).2.
Definition shift_opened (o : Ops) : Ops :=
  (run_tx (open_shift_tx ops_policy supervisor morning false [3%N]) o).2.

Abbreviation sample_reachable := (ops_reachable ops_policy).

Lemma day_opened_reachable : sample_reachable day_opened.
Proof.
  unfold day_opened, run_tx. destruct (handleOpenOperatingDay _ _ _ _ _ _ _) as [[y o']|e] eqn:E.
  - eapply (ops_more ops_policy ops_empty); [apply ops_start; reflexivity|eapply os_open_day; exact E].
  - apply ops_start; reflexivity.
Qed.

Lemma set_day_reachable word o : sample_reachable o -> sample_reachable (set_day word o).
Proof.
  intros Ho. unfold set_day, run_tx. destruct (handleUpdateOperatingDayStatus _ _ _ _ _ _) as [[y o']|e] eqn:E; [|done].
  eapply ops_more; [exact Ho|eapply os_status; exact E].
Qed.

Lemma shift_opened_reachable o : sample_reachable o -> sample_reachable (shift_opened o).
Proof.
  intros Ho. unfold shift_opened, run_tx. destruct (open_shift_tx _ _ _ _ _ _) as [[y o']|e] eqn:E; [|done].
  eapply ops_more; [exact Ho|eapply os_open_shift; exact E].
Qed.

(** A shift on the open day keeps it from closing. *)
Lemma day_discipline_witness :
  let o := set_day "closed" (shift_opened day_opened) in
  (forall y s, In y (op_days o) -> In s (op_shifts o) -> in_day (dy_tenant y) (dy_id y) s = true ->
     dy_status y = DayClosed -> sh_status s <> ShiftOpen)
  /\ dy_status <$> op_days o = [DayOpen] /\ sh_status <$> op_shifts o = [ShiftOpen].
Proof.
  split; [|split; vm_compute; reflexivity].
  intros y s Hy Hs Hd. eapply (day_discipline ops_policy); [|exact Hy|exact Hs|exact Hd].
  apply set_day_reachable, shift_opened_reachable, day_opened_reachable.
Defined.

(** The state a lock request reads: the day closed, with no shift. *)
Definition lock_reads : Ops := set_day "closed" day_opened.
(** Before its transaction runs, the day is reopened and a shift opened. *)
Definition lock_writes : Ops := shift_opened (set_day "open" lock_reads).

(** Locking a day is not safe against concurrent requests: its guards read
    the pool and its transaction checks nothing, so a lock request that saw
    the day closed commits after the day was reopened and a shift opened on
    it, and the locked day has an open shift. *)
Theorem lock_race :
  sample_reachable lock_reads /\ sample_reachable lock_writes
  /\ exists y o', handleLockOperatingDay ops_policy lock_reads (Some supervisor) (Ok 100%N) lock_writes
                  = Ok (y, o')
     /\ In y (op_days o') /\ dy_status y = DayLocked
     /\ exists s, In s (op_shifts o') /\ in_day (dy_tenant y) (dy_id y) s = true /\ sh_status s = ShiftOpen.
Proof.
  split; [apply set_day_reachable, day_opened_reachable|].
  split; [do 2 first [apply shift_opened_reachable | apply set_day_reachable];
          apply set_day_reachable, day_opened_reachable|].
  eexists _, _. split; [vm_compute; reflexivity|]. split; [vm_compute; auto|].
  split; [reflexivity|]. eexists. split; [left; reflexivity|]. split; reflexivity.
Qed.
