(* ===== verification/Workforce.v ===== *)
(** * Employees, teams and the rotation (package [workforce]: rotation.go,
      duty.go, repo.go; services/api/internal/server/workforce_handlers.go,
      pagination.go)

    Three teams of a station share two daily slots on a three-day cycle that
    is computed from the station's anchor date and never stored.  The tables
    carry the constraints of migrations 0077 and 0098.  Every repository call
    commits by itself; the audit row of a handler is written in a transaction of
    its own afterwards, whose failure is only logged. *)

From stdpp Require Import base list strings gmap.
From Stdlib Require Import ZArith Lia Ascii.
From S2P Require Import Prelude Numeric Schema Policy.

Local Open Scope Z_scope.
Local Open Scope tx_scope.

(** ** The rotation (rotation.go) *)

(** A [Slot] is a string of which two values are recognised. *)
Abbreviation Slot := string.
Definition SlotMorning : Slot := "morning".
Definition SlotEvening : Slot := "evening".
Definition Valid (s : Slot) : bool := bool_decide (s = SlotMorning) || bool_decide (s = SlotEvening).

Record RotationDay := mkRotation {
  CycleDay : Z; MorningOrder : Z; EveningOrder : Z; RestOrder : Z }.

Definition OrderForSlot (d : RotationDay) (s : Slot) : Z :=
  if bool_decide (s = SlotEvening) then EveningOrder d else MorningOrder d.

Definition mod3 (a : Z) : Z := Z.rem (Z.rem a 3 + 3) 3.

(** [time.Time.Sub] saturates a [Duration], nanoseconds in 64 bits; a date is
    the number of its day. *)
Definition day_ns : Z := 86400 * 10 ^ 9.
Definition Sub (b a : Z) : Z := Z.max (- 2 ^ 63) (Z.min (2 ^ 63 - 1) ((b - a) * day_ns)).
Definition daysBetween (a b : Z) : Z := Z.quot (Z.quot (Sub b a) (3600 * 10 ^ 9)) 24.

Definition Rotation (anchor date : Z) : RotationDay :=
  let cycle := mod3 (daysBetween anchor date) in
  let morning := mod3 (3 - cycle) in
  let evening := mod3 (morning + 1) in
  let rest := mod3 (morning + 2) in
  mkRotation cycle morning evening rest.

(** ** Tables *)

(** The text of role codes and names, as Unicode code points. *)
Abbreviation rune := N.
Abbreviation text := (list rune).
Definition runes (s : string) : text := N_of_ascii <$> String.list_ascii_of_string s.

Record EmployeeRole := mkEmployeeRole {
  er_id : uuid; er_tenant : uuid; er_code : text; er_name : text; er_default : bool;
  er_status : string; er_sort : Z; er_created : Z; er_updated : Z }.

(** A row of [employees]; the model's [Employee] has the team as well. *)
Record EmployeeRow := mkEmployeeRow {
  em_id : uuid; em_tenant : uuid; em_station : uuid; em_user : option uuid; em_name : string;
  em_role : text; em_code : option string; em_phone : option string; em_email : option string;
  em_status : string; em_created : Z; em_updated : Z }.
Record Employee := mkEmployee { ep_row : EmployeeRow; ep_team : option uuid }.

Record TeamRow := mkTeamRow {
  tm_id : uuid; tm_tenant : uuid; tm_station : uuid; tm_name : string; tm_order : Z }.
Record Team := mkTeam { te_row : TeamRow; te_members : Z }.

Record Member := mkMember { mb_tenant : uuid; mb_team : uuid; mb_employee : uuid }.

(** The columns of [stations] the package uses. *)
Record StationAnchor := mkStationAnchor {
  sa_tenant : uuid; sa_id : uuid; sa_deleted : bool; sa_anchor : option Z }.

Record Staff := mkStaff {
  wf_roles : list EmployeeRole;
  wf_employees : list EmployeeRow;
  wf_teams : list TeamRow;
  wf_members : list Member;
  wf_stations : list StationAnchor;
  wf_users : list (uuid * uuid);
  wf_audit : list AuditRow;
  wf_next_id : uuid;
  wf_now : Z;
}.

Definition set_roles v w := mkStaff v (wf_employees w) (wf_teams w) (wf_members w) (wf_stations w)
  (wf_users w) (wf_audit w) (wf_next_id w) (wf_now w).
Definition set_employees v w := mkStaff (wf_roles w) v (wf_teams w) (wf_members w) (wf_stations w)
  (wf_users w) (wf_audit w) (wf_next_id w) (wf_now w).
Definition set_teams v w := mkStaff (wf_roles w) (wf_employees w) v (wf_members w) (wf_stations w)
  (wf_users w) (wf_audit w) (wf_next_id w) (wf_now w).
Definition set_members v w := mkStaff (wf_roles w) (wf_employees w) (wf_teams w) v (wf_stations w)
  (wf_users w) (wf_audit w) (wf_next_id w) (wf_now w).
Definition set_wf_stations v w := mkStaff (wf_roles w) (wf_employees w) (wf_teams w) (wf_members w) v
  (wf_users w) (wf_audit w) (wf_next_id w) (wf_now w).
Definition set_wf_audit v w := mkStaff (wf_roles w) (wf_employees w) (wf_teams w) (wf_members w)
  (wf_stations w) (wf_users w) v (wf_next_id w) (wf_now w).
Definition bump_wf_id w := mkStaff (wf_roles w) (wf_employees w) (wf_teams w) (wf_members w)
  (wf_stations w) (wf_users w) (wf_audit w) (wf_next_id w + 1)%N (wf_now w).

(** [workforce.ErrNotFound] and the violations the driver reports. *)
Inductive wf_error := WfNotFound | WfUnique | WfForeignKey | WfCheck.
#[export] Instance wf_error_eq : EqDecision wf_error.
Proof. solve_decision. Defined.

Definition er_by (tenant : uuid) (code : text) (r : EmployeeRole) : bool :=
  bool_decide (er_tenant r = tenant /\ er_code r = code).
Definition em_by (tenant id : uuid) (e : EmployeeRow) : bool :=
  bool_decide (em_tenant e = tenant /\ em_id e = id).
Definition tm_by (tenant id : uuid) (t : TeamRow) : bool :=
  bool_decide (tm_tenant t = tenant /\ tm_id t = id).
Definition sa_by (tenant id : uuid) (s : StationAnchor) : bool :=
  bool_decide (sa_tenant s = tenant /\ sa_id s = id).
Definition active_role (tenant : uuid) (code : text) (r : EmployeeRole) : bool :=
  er_by tenant code r && bool_decide (er_status r = "active"%string).

(** ** Employee roles *)

Section Collation.
(** The collations behind [ORDER BY] on text. *)
Context (collate : string -> string -> bool) (collate_text : text -> text -> bool).

Definition role_le (r q : EmployeeRole) : bool :=
  (er_sort r <? er_sort q)
  || ((er_sort r =? er_sort q)
      && (if bool_decide (er_name r = er_name q) then collate_text (er_code r) (er_code q)
          else collate_text (er_name r) (er_name q))).
Definition ListEmployeeRoles (w : Staff) (tenant : uuid) : list EmployeeRole :=
  order_by role_le (select (fun r => bool_decide (er_tenant r = tenant)
                                     && bool_decide (er_status r = "active"%string)) (wf_roles w)).

(** [chk_employee_roles_code]: [^[a-z0-9][a-z0-9_]{0,63}$]; [btrim] of the
    name strips blanks. *)
Definition alnum (c : rune) : bool := ((97 <=? c) && (c <=? 122) || (48 <=? c) && (c <=? 57))%N.
Definition underscore : rune := 95%N.
Definition code_char (c : rune) : bool := alnum c || (c =? underscore)%N.
Definition employeeRoleCodePattern (code : text) : bool :=
  match code with
  | [] => false
  | c :: rest => alnum c && forallb code_char rest && (length rest <=? 63)%nat
  end.
Definition blank_name (name : text) : bool := forallb (fun c => (c =? 32)%N) name.

Definition GetEmployeeRole (w : Staff) (tenant : uuid) (code : text) : result wf_error EmployeeRole :=
  of_option WfNotFound (first_where (active_role tenant code) (wf_roles w)).

Definition CreateEmployeeRole (tenant : uuid) (code name : text) : Tx Staff wf_error EmployeeRole :=
  let! w := tget in
  let r := mkEmployeeRole (wf_next_id w) tenant code name false "active" 1000 (wf_now w) (wf_now w) in
  tguard (employeeRoleCodePattern code && negb (blank_name name)) WfCheck ;;!
  tguard (negb (exists_where (er_by tenant code) (wf_roles w))) WfUnique ;;!
  tput (bump_wf_id (set_roles (wf_roles w ++ [r]) w)) ;;!
  let! w := tget in
  tlift (GetEmployeeRole w tenant code).

Definition EmployeeRoleExists (w : Staff) (tenant : uuid) (code : text) : bool :=
  exists_where (active_role tenant code) (wf_roles w).

(** ** Employees *)

(** [employeeColumns]: the row and the team of its membership. *)
Definition member_of (e : EmployeeRow) (m : Member) : bool :=
  bool_decide (mb_tenant m = em_tenant e /\ mb_employee m = em_id e).
Definition employeeColumns (w : Staff) (e : EmployeeRow) : Employee :=
  mkEmployee e (mb_team <$> first_where (member_of e) (wf_members w)).

Definition at_wf_station (tenant station : uuid) (e : EmployeeRow) : bool :=
  bool_decide (em_tenant e = tenant /\ em_station e = station).
Definition ListEmployees (w : Staff) (tenant station : uuid) : list Employee :=
  employeeColumns w <$> order_by (fun e f => collate (em_name e) (em_name f))
    (select (at_wf_station tenant station) (wf_employees w)).

Definition name_id_le (e f : EmployeeRow) : bool :=
  if bool_decide (em_name e = em_name f) then (em_id e <=? em_id f)%N
  else collate (em_name e) (em_name f).
Definition ListEmployeesPage (w : Staff) (tenant station : uuid) (limit offset : nat) : list Employee :=
  employeeColumns w <$> limit_offset limit offset
    (order_by name_id_le (select (at_wf_station tenant station) (wf_employees w))).

Definition GetEmployee (w : Staff) (tenant id : uuid) : result wf_error Employee :=
  of_option WfNotFound (employeeColumns w <$> first_where (em_by tenant id) (wf_employees w)).

Record CreateEmployeeInput := mkCreateEmployee {
  ce_station : uuid; ce_user : option uuid; ce_name : string; ce_role : text;
  ce_code : option string; ce_phone : option string; ce_email : option string }.

(** The constraints of [employees] on a row, [others] being the other rows:
    status, [uq_employees_user], and the foreign keys. *)
Definition employee_ok (w : Staff) (others : list EmployeeRow) (e : EmployeeRow) : Tx Staff wf_error unit :=
  tguard (bool_decide (em_status e ∈ ["active"; "inactive"]%string)) WfCheck ;;!
  tguard (negb (match em_user e with
                | None => false
                | Some u => exists_where
                    (fun f => bool_decide (em_tenant f = em_tenant e /\ em_user f = Some u)) others
                end)) WfUnique ;;!
  tguard (exists_where (sa_by (em_tenant e) (em_station e)) (wf_stations w)
          && fk_opt (fk_pair (wf_users w) (em_tenant e)) (em_user e)
          && exists_where (er_by (em_tenant e) (em_role e)) (wf_roles w)) WfForeignKey.

Definition default_role : text := runes "pump_attendant".

Definition CreateEmployee (tenant : uuid) (i : CreateEmployeeInput) : Tx Staff wf_error Employee :=
  let role := if bool_decide (ce_role i = []) then default_role else ce_role i in
  let! w := tget in
  let e := mkEmployeeRow (wf_next_id w) tenant (ce_station i) (ce_user i) (ce_name i) role (ce_code i)
    (ce_phone i) (ce_email i) "active" (wf_now w) (wf_now w) in
  employee_ok w (wf_employees w) e ;;!
  tput (bump_wf_id (set_employees (wf_employees w ++ [e]) w)) ;;!
  let! w := tget in
  tlift (GetEmployee w tenant (em_id e)).

Record UpdateEmployeeInput := mkUpdateEmployee {
  ue_name : option string; ue_role : option text; ue_code : option string; ue_phone : option string;
  ue_email : option string; ue_status : option string; ue_user : option uuid }.

(** [COALESCE($n, column)] *)
Definition coalesce {A} (v : option A) (old : A) : A := match v with Some x => x | None => old end.
Definition coalesce_opt {A} (v old : option A) : option A := match v with Some x => Some x | None => old end.

Definition updated_employee (now : Z) (i : UpdateEmployeeInput) (e : EmployeeRow) : EmployeeRow :=
  mkEmployeeRow (em_id e) (em_tenant e) (em_station e) (coalesce_opt (ue_user i) (em_user e))
    (coalesce (ue_name i) (em_name e)) (coalesce (ue_role i) (em_role e))
    (coalesce_opt (ue_code i) (em_code e)) (coalesce_opt (ue_phone i) (em_phone e))
    (coalesce_opt (ue_email i) (em_email e)) (coalesce (ue_status i) (em_status e)) (em_created e) now.

Definition UpdateEmployee (tenant id : uuid) (i : UpdateEmployeeInput) : Tx Staff wf_error Employee :=
  let! w := tget in
  match first_where (em_by tenant id) (wf_employees w) with
  | None => tfail WfNotFound
  | Some e =>
      employee_ok w (select (fun f => negb (em_by tenant id f)) (wf_employees w))
        (updated_employee (wf_now w) i e) ;;!
      tput (set_employees (update_where (em_by tenant id) (updated_employee (wf_now w) i)
              (wf_employees w)) w) ;;!
      let! w := tget in
      tlift (GetEmployee w tenant id)
  end.

(** ** Teams *)

Definition in_team (tenant team : uuid) (m : Member) : bool :=
  bool_decide (mb_tenant m = tenant /\ mb_team m = team).
Definition with_count (w : Staff) (t : TeamRow) : Team :=
  mkTeam t (Z.of_nat (length (select (in_team (tm_tenant t) (tm_id t)) (wf_members w)))).

Definition of_wf_station (tenant station : uuid) (t : TeamRow) : bool :=
  bool_decide (tm_tenant t = tenant /\ tm_station t = station).
Definition order_le (t u : TeamRow) : bool := tm_order t <=? tm_order u.
Definition ListTeams (w : Staff) (tenant station : uuid) : list Team :=
  with_count w <$> order_by order_le (select (of_wf_station tenant station) (wf_teams w)).

Definition GetTeam (w : Staff) (tenant id : uuid) : result wf_error Team :=
  of_option WfNotFound (with_count w <$> first_where (tm_by tenant id) (wf_teams w)).

(** [INSERT INTO shift_teams ... ON CONFLICT (tenant_id, station_id,
    rotation_order) DO UPDATE SET name = EXCLUDED.name] *)
Definition team_slot (tenant station : uuid) (order : Z) (t : TeamRow) : bool :=
  bool_decide (tm_tenant t = tenant /\ tm_station t = station /\ tm_order t = order).
Definition renamed (name : string) (t : TeamRow) : TeamRow :=
  mkTeamRow (tm_id t) (tm_tenant t) (tm_station t) name (tm_order t).
Definition upsert_team (tenant station : uuid) (name : string) (order : Z) : Tx Staff wf_error unit :=
  let! w := tget in
  tguard ((0 <=? order) && (order <=? 2)) WfCheck ;;!
  if exists_where (team_slot tenant station order) (wf_teams w) then
    tput (set_teams (update_where (team_slot tenant station order) (renamed name) (wf_teams w)) w)
  else
    tguard (exists_where (sa_by tenant station) (wf_stations w)) WfForeignKey ;;!
    tput (bump_wf_id (set_teams
      (wf_teams w ++ [mkTeamRow (wf_next_id w) tenant station name order]) w)).

Definition team_defaults : list string := ["Team A"; "Team B"; "Team C"]%string.
(** The name the loop picks for an order. *)
Definition team_name (names : list string) (order : nat) : string :=
  match names !! order with
  | Some n => if bool_decide (n = ""%string) then nth order team_defaults "" else n
  | None => nth order team_defaults ""
  end.

Definition EnsureTeams (tenant station : uuid) (names : list string) : Tx Staff wf_error (list Team) :=
  upsert_team tenant station (team_name names 0) 0 ;;!
  upsert_team tenant station (team_name names 1) 1 ;;!
  upsert_team tenant station (team_name names 2) 2 ;;!
  let! w := tget in
  tret (ListTeams w tenant station).

Definition is_member (tenant employee : uuid) (m : Member) : bool :=
  bool_decide (mb_tenant m = tenant /\ mb_employee m = employee).

(** [INSERT INTO shift_team_members] with its primary key, its unique index
    and its foreign keys. *)
Definition insert_member (m : Member) : Tx Staff wf_error unit :=
  let! w := tget in
  tguard (negb (exists_where (fun n => bool_decide (mb_team n = mb_team m /\ mb_employee n = mb_employee m)
                                       || is_member (mb_tenant m) (mb_employee m) n) (wf_members w)))
    WfUnique ;;!
  tguard (exists_where (tm_by (mb_tenant m) (mb_team m)) (wf_teams w)
          && exists_where (em_by (mb_tenant m) (mb_employee m)) (wf_employees w)) WfForeignKey ;;!
  tput (set_members (wf_members w ++ [m]) w).

Definition delete_members (p : Member -> bool) : Tx Staff wf_error unit :=
  let! w := tget in tput (set_members (select (fun m => negb (p m)) (wf_members w)) w).

Fixpoint move_members (tenant team : uuid) (employees : list uuid) : Tx Staff wf_error unit :=
  match employees with
  | [] => tret tt
  | e :: rest =>
      delete_members (is_member tenant e) ;;!
      insert_member (mkMember tenant team e) ;;!
      move_members tenant team rest
  end.

Definition SetTeamMembers (tenant team : uuid) (employees : list uuid) : Tx Staff wf_error unit :=
  delete_members (in_team tenant team) ;;!
  move_members tenant team employees.

Definition member_row (m : Member) (e : EmployeeRow) : bool :=
  bool_decide (em_tenant e = mb_tenant m /\ em_id e = mb_employee m).
Definition TeamMembers (w : Staff) (tenant team : uuid) : list Employee :=
  employeeColumns w <$> order_by (fun e f => collate (em_name e) (em_name f))
    (snd <$> join member_row (select (in_team tenant team) (wf_members w)) (wf_employees w)).

(** ** The rotation of a station *)

Definition RotationAnchor (w : Staff) (tenant station : uuid) : result wf_error (option Z) :=
  of_option WfNotFound (sa_anchor <$> first_where (sa_by tenant station) (wf_stations w)).

Definition with_anchor (a : option Z) (s : StationAnchor) : StationAnchor :=
  mkStationAnchor (sa_tenant s) (sa_id s) (sa_deleted s) a.
Definition SetRotationAnchor (tenant station : uuid) (anchor : option Z) : Tx Staff wf_error unit :=
  let! w := tget in
  tguard (exists_where (sa_by tenant station) (wf_stations w)) WfNotFound ;;!
  tput (set_wf_stations (update_where (sa_by tenant station) (with_anchor anchor) (wf_stations w)) w).

Record ScheduledTeam := mkScheduled {
  sc_date : Z; sc_slot : Slot; sc_team : option Team; sc_members : list Employee }.

Definition ScheduledTeamFor (w : Staff) (tenant station : uuid) (day : Z) (slot : Slot)
  : result wf_error ScheduledTeam :=
  (let? anchor := RotationAnchor w tenant station in
   match anchor with
   | None => Ok (mkScheduled day slot None [])
   | Some a =>
       match first_where (team_slot tenant station (OrderForSlot (Rotation a day) slot)) (wf_teams w) with
       | None => Ok (mkScheduled day slot None [])
       | Some t =>
           let members := TeamMembers w tenant (tm_id t) in
           Ok (mkScheduled day slot (Some (mkTeam t (Z.of_nat (length members)))) members)
       end
   end)%res.

Record DayRoster := mkDayRoster {
  dr_date : Z; dr_morning : option Team; dr_evening : option Team; dr_resting : option Team }.

(** [byOrder[t.RotationOrder] = &t], over the teams in turn. *)
Definition byOrder (teams : list Team) : gmap Z Team :=
  foldl (fun m t => <[tm_order (te_row t) := t]> m) ∅ teams.

Definition roster_day (anchor : option Z) (teams : gmap Z Team) (d : Z) : DayRoster :=
  match anchor with
  | Some a =>
      if (size teams =? 3)%nat then
        let rot := Rotation a d in
        mkDayRoster d (teams !! MorningOrder rot) (teams !! EveningOrder rot) (teams !! RestOrder rot)
      else mkDayRoster d None None None
  | None => mkDayRoster d None None None
  end.

Definition RosterPreview (w : Staff) (tenant station : uuid) (from : Z) (days : nat)
  : result wf_error (list DayRoster) :=
  (let teams := byOrder (ListTeams w tenant station) in
   let? anchor := RotationAnchor w tenant station in
   Ok ((fun i => roster_day anchor teams (from + Z.of_nat i)) <$> seq 0 days))%res.

(** ** Duty of one user (duty.go) *)

Record UserDuty := mkDuty {
  du_station : uuid; du_team : uuid; du_name : string; du_on : bool; du_slot : Slot }.

Definition duty_rows (w : Staff) (tenant user : uuid) : list (EmployeeRow * Member * TeamRow * StationAnchor) :=
  select (fun '(e, _, _, _) => bool_decide (em_tenant e = tenant) && bool_decide (em_user e = Some user)
                               && bool_decide (em_status e = "active"%string))
    (join (fun '(e, _, _) s => sa_by (em_tenant e) (em_station e) s)
       (join (fun '(_, m) t => tm_by (mb_tenant m) (mb_team m) t)
          (join member_of (wf_employees w) (wf_members w)) (wf_teams w)) (wf_stations w)).

Definition DutyForUser (w : Staff) (tenant user : uuid) (date : Z) : option UserDuty :=
  match duty_rows w tenant user with
  | (e, _, t, s) :: _ =>
      match sa_anchor s with
      | None => None
      | Some a =>
          let rot := Rotation a date in
          Some (if bool_decide (tm_order t = MorningOrder rot)
                then mkDuty (em_station e) (tm_id t) (tm_name t) true SlotMorning
                else if bool_decide (tm_order t = EveningOrder rot)
                then mkDuty (em_station e) (tm_id t) (tm_name t) true SlotEvening
                else mkDuty (em_station e) (tm_id t) (tm_name t) false "")
      end
  | [] => None
  end.
End Collation.
