(* ===== verification/WorkforceHandlers.v ===== *)
(** * The workforce requests (services/api/internal/server/
      workforce_handlers.go, pagination.go)

    Role codes are derived from free text; the handlers check the request and
    call the repository of [Workforce].  A parsed part of a request is a
    [result] whose error is the parse failure. *)

From stdpp Require Import base list strings gmap.
From Stdlib Require Import ZArith Lia.
From S2P Require Import Prelude Numeric Schema Policy Workforce.

Local Open Scope Z_scope.
Local Open Scope tx_scope.

(** ** Pages (pagination.go) *)

Definition fallbackDefaultPageSize : Z := 50.
Definition fallbackMaxPageSize : Z := 200.

(** The configured sizes; non-positive ones fall back. *)
Definition pageSizes (cfgDefault cfgMax : Z) : Z * Z :=
  let defSize := if cfgDefault <=? 0 then fallbackDefaultPageSize else cfgDefault in
  let maxSize := if cfgMax <=? 0 then fallbackMaxPageSize else cfgMax in
  (if maxSize <? defSize then maxSize else defSize, maxSize).

Definition clampPageSize (requested defSize maxSize : Z) : Z :=
  if requested <=? 0 then defSize
  else if maxSize <? requested then maxSize
  else requested.

(** [limit] and [offset] are the query parameters through [strconv.Atoi],
    [None] when absent or empty. *)
Definition parsePage (cfgDefault cfgMax : Z) (limit offset : option (result unit Z))
  : result http_error (Z * Z) :=
  let '(defSize, maxSize) := pageSizes cfgDefault cfgMax in
  match limit with
  | Some (Err _) => Err (HttpError 400 "invalid limit: must be an integer")
  | _ =>
      let l := match limit with Some (Ok v) => clampPageSize v defSize maxSize | _ => defSize end in
      match offset with
      | Some (Err _) => Err (HttpError 400 "invalid offset: must be an integer")
      | Some (Ok v) => Ok (l, if 0 <? v then v else 0)
      | None => Ok (l, 0)
      end
  end.

(** The rows of a page and whether more follow: the handlers read one row past
    the limit. *)
Definition page_of {A} (limit : Z) (rows : list A) : list A * bool :=
  let hasMore := limit <? Z.of_nat (length rows) in
  (if hasMore then take (Z.to_nat limit) rows else rows, hasMore).

(** ** Role codes and names *)

(** [unicode.IsSpace] *)
Definition IsSpace (c : rune) : bool :=
  ((9 <=? c) && (c <=? 13) || (c =? 32) || (c =? 133) || (c =? 160) || (c =? 5760)
   || (8192 <=? c) && (c <=? 8202) || (c =? 8232) || (c =? 8233) || (c =? 8239) || (c =? 8287)
   || (c =? 12288))%N.

(** [strings.Fields]: [cur] is the field being read, reversed. *)
Fixpoint fields_from (cur : text) (l : text) : list text :=
  match l with
  | [] => match cur with [] => [] | _ => [rev cur] end
  | c :: rest =>
      if IsSpace c then match cur with [] => fields_from [] rest
                        | _ => rev cur :: fields_from [] rest end
      else fields_from (c :: cur) rest
  end.
Definition Fields (l : text) : list text := fields_from [] l.

(** [strings.Join] with a blank. *)
Fixpoint join_blank (fs : list text) : text :=
  match fs with
  | [] => []
  | [f] => f
  | f :: rest => f ++ 32%N :: join_blank rest
  end.

Definition normalizeEmployeeRoleName (name : text) : text := join_blank (Fields name).

Fixpoint trim_left (p : rune -> bool) (l : text) : text :=
  match l with
  | [] => []
  | c :: rest => if p c then trim_left p rest else l
  end.
Definition trim_right (p : rune -> bool) (l : text) : text := rev (trim_left p (rev l)).

(** [employeeRoleCodeSeparators.ReplaceAllString(code, "_")]: each maximal run
    of other characters becomes one underscore. *)
Fixpoint squeeze (in_run : bool) (l : text) : text :=
  match l with
  | [] => []
  | c :: rest =>
      if alnum c then c :: squeeze false rest
      else if in_run then squeeze true rest else underscore :: squeeze true rest
  end.

Section Lower.
(** [unicode.ToLower] beyond ASCII. *)
Context (lower_rest : rune -> rune).

Definition ToLower (c : rune) : rune :=
  (if (65 <=? c) && (c <=? 90) then c + 32 else if c <? 128 then c else lower_rest c)%N.

Definition is_underscore (c : rune) : bool := (c =? underscore)%N.

Definition normalizeEmployeeRoleCode (code : text) : text :=
  let code := ToLower <$> trim_right IsSpace (trim_left IsSpace code) in
  let code := squeeze false code in
  let code := trim_right is_underscore (trim_left is_underscore code) in
  if (64 <? length code)%nat then trim_right is_underscore (take 64 code) else code.

(** ** Handlers *)

Definition wf_internal : http_error := HttpError 500 "internal error".
Definition bad_request (m : string) : http_error := HttpError 400 m.

Definition wf_actor (ctx : option Actor) : result http_error Actor :=
  match identity_Require ctx with
  | Ok a => Ok a
  | Err _ => Err (HttpError 401 "authentication required")
  end.

(** A URL parameter through [uuid.Parse]. *)
Definition url_id (m : string) (id : result unit uuid) : result http_error uuid :=
  match id with Ok i => Ok i | Err _ => Err (bad_request m) end.
Definition json_body {A} (b : result unit A) : result http_error A :=
  match b with Ok v => Ok v | Err _ => Err (bad_request "invalid JSON body") end.

(** [audited] says whether the transaction of the audit row commits. *)
Definition auditWorkforce (audited : bool) (a : Actor) (action : string) (entity : uuid)
  : Tx Staff http_error unit :=
  let! w := tget in
  if audited then tput (set_wf_audit (wf_audit w ++ [mkAudit (ac_tenant a) (ac_user a) action entity]) w)
  else tret tt.

Section Handlers.
Context {L : Type} `{Loader L}.
Context (policy : L) (collate : string -> string -> bool) (collate_text : text -> text -> bool).
Context (cfgDefault cfgMax : Z) (audited : bool).

Definition handleListEmployeeRoles (w : Staff) (ctx : option Actor) : result http_error (list EmployeeRole) :=
  (let? a := wf_actor ctx in Ok (ListEmployeeRoles collate_text w (ac_tenant a)))%res.

(** The body is the name and the optional code, [[]] when absent. *)
Definition handleCreateEmployeeRole (ctx : option Actor) (body : result unit (text * text))
  : Tx Staff http_error EmployeeRole :=
  let! a := tlift (wf_actor ctx) in
  let! (req_name, req_code) := tlift (json_body body) in
  let name := normalizeEmployeeRoleName req_name in
  tguard (negb (bool_decide (name = []))) (bad_request "name is required") ;;!
  let codeSource := if bool_decide (req_code = []) then name else req_code in
  let code := normalizeEmployeeRoleCode codeSource in
  tguard (employeeRoleCodePattern code) (bad_request "role code must start with a letter or number") ;;!
  let! role := tconv (fun e => if bool_decide (e = WfUnique) then HttpError 409 "employee role already exists"
                               else wf_internal) (CreateEmployeeRole (ac_tenant a) code name) in
  auditWorkforce audited a "employee_role.created" (er_id role) ;;!
  tret role.

Definition handleListEmployees (w : Staff) (ctx : option Actor) (station : result unit uuid)
    (limit offset : option (result unit Z)) : result http_error (list Employee * bool) :=
  (let? a := wf_actor ctx in
   let? sid := url_id "invalid station id" station in
   let? _ := authorizeStation policy a "station.read" sid in
   let? (l, o) := parsePage cfgDefault cfgMax limit offset in
   Ok (page_of l (ListEmployeesPage collate w (ac_tenant a) sid (Z.to_nat (l + 1)) (Z.to_nat o))))%res.

(** [s.stations.Get]: an undeleted station. *)
Definition wf_station_found (w : Staff) (tenant id : uuid) : bool :=
  exists_where (fun s => sa_by tenant id s && negb (sa_deleted s)) (wf_stations w).

Definition linked_user_error (e : wf_error) : http_error :=
  match e with
  | WfUnique => HttpError 409 "an employee is already linked to that user"
  | WfForeignKey => HttpError 400 "linked user not found in this tenant"
  | _ => wf_internal
  end.

(** The body is the input without its station. *)
Definition handleCreateEmployee (ctx : option Actor) (station : result unit uuid)
    (body : result unit (uuid -> CreateEmployeeInput)) : Tx Staff http_error Employee :=
  let! a := tlift (wf_actor ctx) in
  let! sid := tlift (url_id "invalid station id" station) in
  let! req := tlift (json_body body) in
  let i := req sid in
  tguard (negb (bool_decide (ce_name i = ""%string))) (bad_request "full_name is required") ;;!
  let role := if bool_decide (ce_role i = []) then default_role else ce_role i in
  let! w := tget in
  tguard (EmployeeRoleExists w (ac_tenant a) role) (bad_request "employee role does not exist") ;;!
  tguard (wf_station_found w (ac_tenant a) sid) (HttpError 404 "station not found") ;;!
  let! emp := tconv linked_user_error (CreateEmployee (ac_tenant a)
    (mkCreateEmployee sid (ce_user i) (ce_name i) role (ce_code i) (ce_phone i) (ce_email i))) in
  auditWorkforce audited a "employee.created" (em_id (ep_row emp)) ;;!
  tret emp.

Definition employee_not_found (e : wf_error) : http_error :=
  if bool_decide (e = WfNotFound) then HttpError 404 "employee not found" else linked_user_error e.

Definition handleUpdateEmployee (ctx : option Actor) (id : result unit uuid)
    (body : result unit UpdateEmployeeInput) : Tx Staff http_error Employee :=
  let! a := tlift (wf_actor ctx) in
  let! id := tlift (url_id "invalid employee id" id) in
  let! i := tlift (json_body body) in
  tguard (match ue_status i with
          | None => true
          | Some s => bool_decide (s = "active"%string) || bool_decide (s = "inactive"%string)
          end) (bad_request "status must be active or inactive") ;;!
  let! w := tget in
  tguard (match ue_role i with None => true | Some r => EmployeeRoleExists w (ac_tenant a) r end)
    (bad_request "employee role does not exist") ;;!
  let! _ := tconv employee_not_found (tlift (GetEmployee w (ac_tenant a) id)) in
  let! after := tconv employee_not_found (UpdateEmployee (ac_tenant a) id i) in
  auditWorkforce audited a "employee.updated" (em_id (ep_row after)) ;;!
  tret after.

Definition handleListTeams (w : Staff) (ctx : option Actor) (station : result unit uuid)
  : result http_error (list Team) :=
  (let? a := wf_actor ctx in
   let? sid := url_id "invalid station id" station in
   let? _ := authorizeStation policy a "station.read" sid in
   Ok (ListTeams w (ac_tenant a) sid))%res.

(** A body that does not decode counts as no names. *)
Definition handleEnsureTeams (ctx : option Actor) (station : result unit uuid) (names : list string)
  : Tx Staff http_error (list Team) :=
  let! a := tlift (wf_actor ctx) in
  let! sid := tlift (url_id "invalid station id" station) in
  let! w := tget in
  tguard (wf_station_found w (ac_tenant a) sid) (HttpError 404 "station not found") ;;!
  let! teams := tconv (fun _ => wf_internal) (EnsureTeams (ac_tenant a) sid names) in
  auditWorkforce audited a "shift_teams.ensured" sid ;;!
  tret teams.

Definition handleSetTeamMembers (ctx : option Actor) (team : result unit uuid)
    (body : result unit (list uuid)) : Tx Staff http_error (list Employee) :=
  let! a := tlift (wf_actor ctx) in
  let! tid := tlift (url_id "invalid team id" team) in
  let! ids := tlift (json_body body) in
  let! w := tget in
  let! _ := tconv (fun _ => HttpError 404 "team not found") (tlift (GetTeam w (ac_tenant a) tid)) in
  tconv (fun e => if bool_decide (e = WfForeignKey)
                  then bad_request "one or more employees not found in this tenant" else wf_internal)
    (SetTeamMembers (ac_tenant a) tid ids) ;;!
  let! w := tget in
  auditWorkforce audited a "shift_team.members_set" tid ;;!
  tret (TeamMembers collate w (ac_tenant a) tid).

Definition station_missing (e : wf_error) : http_error :=
  if bool_decide (e = WfNotFound) then HttpError 404 "station not found" else wf_internal.
Definition res_conv {A} (r : result wf_error A) : result http_error A :=
  match r with Ok v => Ok v | Err e => Err (station_missing e) end.

Definition handleGetRotationAnchor (w : Staff) (ctx : option Actor) (station : result unit uuid)
  : result http_error (option Z) :=
  (let? a := wf_actor ctx in
   let? sid := url_id "invalid station id" station in
   let? _ := authorizeStation policy a "station.read" sid in
   res_conv (RotationAnchor w (ac_tenant a) sid))%res.

(** The body is the date, [None] to clear it, through [parseDate]. *)
Definition handleSetRotationAnchor (ctx : option Actor) (station : result unit uuid)
    (body : result unit (result unit (option Z))) : Tx Staff http_error (option Z) :=
  let! a := tlift (wf_actor ctx) in
  let! sid := tlift (url_id "invalid station id" station) in
  let! parsed := tlift (json_body body) in
  match parsed with
  | Err _ => tfail (bad_request "invalid rotation_anchor_date (want YYYY-MM-DD)")
  | Ok anchor =>
      tconv station_missing (SetRotationAnchor (ac_tenant a) sid anchor) ;;!
      auditWorkforce audited a "station.rotation_anchor_set" sid ;;!
      tret anchor
  end.

(** [from] is the date parameter or today; [days] the parameter through
    [strconv.Atoi]. *)
Definition handleRoster (w : Staff) (ctx : option Actor) (station : result unit uuid) (from : Z)
    (days : option (result unit Z)) : result http_error (list DayRoster) :=
  (let? a := wf_actor ctx in
   let? sid := url_id "invalid station id" station in
   let? _ := authorizeStation policy a "station.read" sid in
   let? n := match days with
             | None => Ok 7
             | Some (Ok v) => if (v <? 1) || (60 <? v)
                              then Err (bad_request "days must be an integer between 1 and 60") else Ok v
             | Some (Err _) => Err (bad_request "days must be an integer between 1 and 60")
             end in
   res_conv (RosterPreview w (ac_tenant a) sid from (Z.to_nat n)))%res.

Definition handleScheduledTeam (w : Staff) (ctx : option Actor) (station : result unit uuid) (slot : Slot)
    (day : Z) : result http_error ScheduledTeam :=
  (let? a := wf_actor ctx in
   let? sid := url_id "invalid station id" station in
   let? _ := authorizeStation policy a "station.read" sid in
   if negb (Valid slot) then Err (bad_request "slot must be morning or evening")
   else res_conv (ScheduledTeamFor collate w (ac_tenant a) sid day slot))%res.
End Handlers.
End Lower.
