(* ===== verification/WorkforceProps.v ===== *)
(** * Properties of the workforce

    The rotation is fair and its three readings (the roster, the scheduled
    team, a user's own duty) agree; an employee is on one team; a role code
    made from free text is always well formed. *)

From stdpp Require Import base list strings gmap.
From Stdlib Require Import ZArith Lia.
From S2P Require Import Prelude Numeric Schema Policy Workforce WorkforceHandlers.

Local Open Scope Z_scope.
Local Open Scope tx_scope.

(** ** The rotation *)

(** The distances, in days, a [Duration] holds: about 292 years. *)
Definition max_days : Z := 106751.

Lemma daysBetween_exact a b : - max_days <= b - a <= max_days -> daysBetween a b = b - a.
Proof.
  intros H. unfold daysBetween, Sub, day_ns, max_days in *.
  rewrite Z.min_r, Z.max_r by lia.
  replace ((b - a) * (86400 * 10 ^ 9)) with ((b - a) * 24 * (3600 * 10 ^ 9)) by lia.
  rewrite !Z.quot_mul by lia. done.
Qed.

Lemma mod3_mod a : mod3 a = a mod 3.
Proof. unfold mod3. Z.to_euclidean_division_equations. lia. Qed.

Lemma Rotation_mod a d : - max_days <= d - a <= max_days ->
  Rotation a d = mkRotation ((d - a) mod 3) ((a - d) mod 3) ((a - d + 1) mod 3) ((a - d + 2) mod 3).
Proof.
  intros H. unfold Rotation. rewrite daysBetween_exact, !mod3_mod by done.
  f_equal; Z.to_euclidean_division_equations; lia.
Qed.

(** The rotation is fair, before the anchor as after it: on every day the
    three teams hold the three roles, the team that works the morning works
    the evening the next day and rests the day after, and the cycle day
    advances by one, starting from zero on the anchor date.  (Dates within
    292 years of the anchor: beyond, the difference of two instants
    saturates.) *)
Theorem Rotation_fair a d :
  - max_days <= d - a < max_days ->
  let today := Rotation a d in
  let tomorrow := Rotation a (d + 1) in
  [MorningOrder today; EveningOrder today; RestOrder today] ≡ₚ [0; 1; 2]
  /\ EveningOrder tomorrow = MorningOrder today
  /\ RestOrder tomorrow = EveningOrder today
  /\ MorningOrder tomorrow = RestOrder today
  /\ CycleDay tomorrow = (CycleDay today + 1) mod 3
  /\ Rotation a a = mkRotation 0 0 1 2.
Proof.
  intros H. cbv zeta. rewrite (Rotation_mod a d), (Rotation_mod a (d + 1)), (Rotation_mod a a) by (unfold max_days in *; lia).
  simpl. split.
  - pose proof (Z.mod_pos_bound (a - d) 3 ltac:(lia)) as Hb.
    rewrite (Z.add_mod (a - d) 1), (Z.add_mod (a - d) 2) by lia.
    assert (Hc : (a - d) mod 3 = 0 \/ (a - d) mod 3 = 1 \/ (a - d) mod 3 = 2) by lia.
    destruct Hc as [-> | [-> | ->]]; simpl; [done | |].
    + change (1 mod 3) with 1. simpl. 
      transitivity [1; 0; 2]; [apply perm_skip, perm_swap|apply perm_swap].
    + transitivity [0; 2; 1]; [apply perm_swap|apply perm_skip, perm_swap].
  - repeat split; try (rewrite Z.sub_diag; reflexivity); Z.to_euclidean_division_equations; lia.
Qed.

(** A week around the anchor. *)
Lemma Rotation_fair_witness :
  let today := Rotation 20000 19993 in
  [MorningOrder today; EveningOrder today; RestOrder today] ≡ₚ [0; 1; 2]
  /\ today = mkRotation 2 1 2 0.
Proof.
  split; [|vm_compute; reflexivity].
  apply (Rotation_fair 20000 19993). unfold max_days. lia.
Defined.

(** ** Role codes *)

Lemma in_trim_left p c l : In c (trim_left p l) -> In c l.
Proof. induction l as [|x l IH]; simpl; [done|]. destruct (p x); [auto|done]. Qed.

Lemma trim_left_head p l : match trim_left p l with [] => True | c :: _ => p c = false end.
Proof. induction l as [|x l IH]; simpl; [done|]. by destruct (p x) eqn:E. Qed.

Lemma trim_left_id p l : match l with [] => True | c :: _ => p c = false end -> trim_left p l = l.
Proof. destruct l as [|c l]; [done|]. simpl. by intros ->. Qed.

(** Trimming on the right keeps a prefix. *)
Lemma trim_right_prefix p l : exists k, l = trim_right p l ++ k.
Proof.
  unfold trim_right. assert (H : forall m, exists k, m = k ++ trim_left p m).
  { induction m as [|x m [k IH]]; simpl; [by exists []|].
    destruct (p x); [exists (x :: k); simpl; congruence|by exists []]. }
  destruct (H (rev l)) as [k Hk]. exists (rev k). rewrite <- rev_app_distr, <- Hk. by rewrite rev_involutive.
Qed.

Lemma length_trim_right p l : (length (trim_right p l) <= length l)%nat.
Proof. destruct (trim_right_prefix p l) as [k E]. rewrite E at 2. rewrite length_app. lia. Qed.

Lemma squeeze_chars b l : forallb code_char (squeeze b l) = true.
Proof.
  revert b. induction l as [|c l IH]; intros b; simpl; [done|].
  destruct (alnum c) eqn:E; simpl.
  - unfold code_char at 1. by rewrite E, IH.
  - destruct b; simpl; [apply IH|]. apply IH.
Qed.

Lemma forallb_sub {A} (p : A -> bool) l k :
  (forall x, In x k -> In x l) -> forallb p l = true -> forallb p k = true.
Proof. rewrite !forallb_forall. auto. Qed.

Lemma in_trim_right p c l : In c (trim_right p l) -> In c l.
Proof. unfold trim_right. rewrite <- in_rev. intros H%in_trim_left. by apply in_rev. Qed.

(** A nonempty prefix starts as the whole does. *)
Lemma trim_right_head p c l :
  head (trim_right p l) = Some c -> head l = Some c.
Proof.
  destruct (trim_right_prefix p l) as [k E]. rewrite E at 2.
  by destruct (trim_right p l).
Qed.

Lemma in_take_in {A} n (x : A) l : In x (take n l) -> In x l.
Proof. rewrite <- (take_drop n l) at 2. rewrite in_app_iff. by left. Qed.

(** What the pattern asks of a text that starts with an alphanumeric. *)
Lemma pattern_of c l :
  head l = Some c -> alnum c = true -> forallb code_char l = true -> (length l <= 64)%nat ->
  employeeRoleCodePattern l = true.
Proof.
  destruct l as [|x l]; [done|]. intros [= ->] Ha Hl Hn. simpl in *. apply andb_true_iff in Hl as [_ Hl].
  rewrite Ha, Hl. simpl. apply Nat.leb_le. lia.
Qed.

Lemma in_trim_left_keep p c l : In c l -> p c = false -> In c (trim_left p l).
Proof.
  intros Hin Hc. induction l as [|x l IH]; [done|]. simpl. destruct (p x) eqn:E; [|done].
  destruct Hin as [->|Hin]; [congruence|auto].
Qed.

Lemma in_trim_right_keep p c l : In c l -> p c = false -> In c (trim_right p l).
Proof. intros Hin Hc. unfold trim_right. apply -> in_rev. apply in_trim_left_keep; [by apply -> in_rev|done]. Qed.

Lemma trim_right_last p l c : last (trim_right p l) = Some c -> p c = false.
Proof.
  unfold trim_right. pose proof (trim_left_head p (rev l)) as Hh. destruct (trim_left p (rev l)) as [|x k]; [done|].
  simpl. rewrite last_snoc. by intros [= ->].
Qed.

Lemma trim_right_id p l : (forall c, last l = Some c -> p c = false) -> trim_right p l = l.
Proof.
  intros H. unfold trim_right. rewrite trim_left_id; [apply rev_involutive|].
  destruct l as [|c l _] using rev_ind; [done|]. rewrite rev_app_distr. simpl. apply H. apply last_snoc.
Qed.

(** No two underscores in a row. *)
Definition no_double (l : text) : Prop := forall k m, l <> k ++ underscore :: underscore :: m.

Lemma no_double_cons c l :
  no_double l -> (c <> underscore \/ head l <> Some underscore) -> no_double (c :: l).
Proof. intros Hl Hc [|x k] m [= -> E]; [subst l; by destruct Hc|by apply (Hl k m)]. Qed.

Lemma no_double_app_l k m : no_double (k ++ m) -> no_double k.
Proof. intros H a b ->. apply (H a (b ++ m)). by rewrite <- app_assoc. Qed.
Lemma no_double_app_r k m : no_double (k ++ m) -> no_double m.
Proof. intros H a b ->. apply (H (k ++ a) b). by rewrite <- app_assoc. Qed.

Lemma alnum_underscore c : alnum c = true -> c <> underscore.
Proof. by intros H ->. Qed.

Lemma squeeze_no_double l b :
  no_double (squeeze b l) /\ (b = true -> head (squeeze b l) <> Some underscore).
Proof.
  revert b. induction l as [|c l IH]; intros b; simpl; [by split; [intros [] ?|]|].
  destruct (alnum c) eqn:E.
  - split; [|intros _ [= ->]; done]. apply no_double_cons; [apply IH|]. left. by apply alnum_underscore.
  - destruct b; [split; apply IH; done|]. split; [|done]. apply no_double_cons; [apply IH|]. right. by apply IH.
Qed.

Lemma squeeze_id l b :
  forallb code_char l = true -> no_double l -> (b = true -> head l <> Some underscore) -> squeeze b l = l.
Proof.
  revert b. induction l as [|c l IH]; intros b Hl Hd Hb; simpl in *; [done|]. apply andb_true_iff in Hl as [Hc Hl].
  assert (Hd' : no_double l) by apply (no_double_app_r [c] l Hd).
  unfold code_char in Hc. destruct (alnum c) eqn:E; [by rewrite IH|].
  simpl in Hc. apply N.eqb_eq in Hc as ->. destruct b; [by destruct (Hb eq_refl)|].
  f_equal. apply IH; [done..|]. intros _ H. destruct l as [|x l]; [done|]. injection H as ->. by apply (Hd [] l).
Qed.

Lemma in_squeeze c l b : In c l -> alnum c = true -> In c (squeeze b l).
Proof.
  revert b. induction l as [|x l IH]; intros b; simpl; [done|]. intros [->|Hin] Ha.
  - rewrite Ha. by left.
  - destruct (alnum x); [right; by apply IH|]. destruct b; [by apply IH|right; by apply IH].
Qed.

Lemma squeeze_in c l b : In c (squeeze b l) -> alnum c = true -> In c l.
Proof.
  revert b. induction l as [|x l IH]; intros b; simpl; [done|]. destruct (alnum x) eqn:E.
  - intros [->|Hin] Ha; [by left|right; eauto].
  - destruct b; [intros; right; eauto|]. intros [<-|Hin] Ha; [done|right; eauto].
Qed.

Lemma alnum_ascii c : alnum c = true -> IsSpace c = false /\ forall f, ToLower f c = c.
Proof.
  unfold alnum, IsSpace, ToLower. intros H.
  assert (Hc : (97 <= c <= 122 \/ 48 <= c <= 57)%N).
  { apply orb_true_iff in H as [H|H]; apply andb_true_iff in H as [?%N.leb_le ?%N.leb_le]; lia. }
  split; [|intros f].
  - apply not_true_is_false. intros Hs. rewrite !orb_true_iff, !andb_true_iff, !N.leb_le, !N.eqb_eq in Hs. lia.
  - replace ((65 <=? c) && (c <=? 90))%N with false; [by replace (c <? 128)%N with true by (symmetry; apply N.ltb_lt; lia)|].
    symmetry. apply andb_false_iff. rewrite !N.leb_gt. lia.
Qed.

Lemma underscore_lower f : ToLower f underscore = underscore.
Proof. reflexivity. Qed.

Section Lower.
Context (lower_rest : rune -> rune).
Abbreviation normalize := (normalizeEmployeeRoleCode lower_rest).

(** The code before it is cut to length. *)
Definition trimmed_code (code : text) : text :=
  trim_right is_underscore (trim_left is_underscore (squeeze false
    (ToLower lower_rest <$> trim_right IsSpace (trim_left IsSpace code)))).

Lemma normalize_cut code :
  normalize code = (if (64 <? length (trimmed_code code))%nat
                    then trim_right is_underscore (take 64 (trimmed_code code)) else trimmed_code code).
Proof. reflexivity. Qed.

Lemma trimmed_chars code : forallb code_char (trimmed_code code) = true.
Proof.
  unfold trimmed_code. eapply forallb_sub; [|apply (squeeze_chars false)].
  intros x Hx. apply in_trim_right in Hx. by apply in_trim_left in Hx.
Qed.

Lemma trimmed_head code c : head (trimmed_code code) = Some c -> alnum c = true.
Proof.
  intros Hc. pose proof (trimmed_chars code) as Hall. rewrite forallb_forall in Hall.
  assert (Hin : In c (trimmed_code code)) by (destruct (trimmed_code code); [done|]; injection Hc as ->; by left).
  specialize (Hall c Hin). unfold code_char in Hall. apply orb_true_iff in Hall as [Ha|Hu]; [done|].
  unfold trimmed_code in Hc. apply trim_right_head in Hc.
  match type of Hc with head (trim_left ?p ?l) = _ => pose proof (trim_left_head p l) as Hh; destruct (trim_left p l) end; [done|].
  injection Hc as ->. unfold is_underscore in Hh. congruence.
Qed.

Lemma trimmed_no_double code : no_double (trimmed_code code).
Proof.
  unfold trimmed_code. destruct (trim_right_prefix is_underscore (trim_left is_underscore (squeeze false
    (ToLower lower_rest <$> trim_right IsSpace (trim_left IsSpace code))))) as [k E].
  eapply no_double_app_l. rewrite <- E. generalize (proj1 (squeeze_no_double (ToLower lower_rest <$> trim_right IsSpace (trim_left IsSpace code)) false)).
  generalize (squeeze false (ToLower lower_rest <$> trim_right IsSpace (trim_left IsSpace code))).
  clear. intros l. induction l as [|c l IH]; [done|]. simpl. intros H. destruct (is_underscore c); [|done].
  apply IH, (no_double_app_r [c] l H).
Qed.

(** A text the normalisation leaves alone. *)
Lemma normalize_id l :
  forallb code_char l = true -> no_double l -> (length l <= 64)%nat ->
  (forall c, head l = Some c -> alnum c = true) -> (forall c, last l = Some c -> alnum c = true) ->
  normalize l = l.
Proof.
  intros Hl Hd Hn Hh Hlast.
  assert (Hund : forall c, alnum c = true -> is_underscore c = false).
  { intros c Hc. apply N.eqb_neq. by apply alnum_underscore. }
  assert (Ht : trimmed_code l = l).
  { unfold trimmed_code. rewrite (trim_left_id IsSpace l), (trim_right_id IsSpace l).
    - replace (ToLower lower_rest <$> l) with l.
      + rewrite (squeeze_id l false); [|done..]. rewrite trim_left_id, trim_right_id; [done| |].
        * intros c Hc. by apply Hund, Hlast.
        * destruct l as [|c l]; [done|]. by apply Hund, Hh.
      + clear -Hl. induction l as [|c l IH]; [done|]. simpl in Hl. apply andb_true_iff in Hl as [Hc Hl].
        rewrite fmap_cons, <- IH by done. f_equal. unfold code_char in Hc. apply orb_true_iff in Hc as [Hc|Hc].
        * by rewrite (proj2 (alnum_ascii c Hc)).
        * apply N.eqb_eq in Hc as ->. done.
    - intros c Hc. by apply alnum_ascii, Hlast.
    - destruct l as [|c l]; [done|]. by apply alnum_ascii, Hh. }
  rewrite normalize_cut, Ht. destruct (64 <? length l)%nat eqn:E; [|done]. apply Nat.ltb_lt in E. lia.
Qed.

(** The normalised code starts and ends with an alphanumeric. *)
Lemma normalize_shape code :
  forallb code_char (normalize code) = true /\ no_double (normalize code) /\ (length (normalize code) <= 64)%nat
  /\ (forall c, head (normalize code) = Some c -> alnum c = true)
  /\ (forall c, last (normalize code) = Some c -> alnum c = true).
Proof.
  assert (Hp : exists k, trimmed_code code = normalize code ++ k).
  { rewrite normalize_cut. destruct (64 <? _)%nat; [|exists []; by rewrite app_nil_r].
    destruct (trim_right_prefix is_underscore (take 64 (trimmed_code code))) as [k E].
    exists (k ++ drop 64 (trimmed_code code)). rewrite app_assoc, <- E. by rewrite take_drop. }
  destruct Hp as [k E].
  assert (Hc : forallb code_char (normalize code) = true).
  { eapply forallb_sub; [|apply trimmed_chars]. intros x Hx. rewrite E. apply in_app_iff. by left. }
  split; [done|]. split; [eapply no_double_app_l; rewrite <- E; apply trimmed_no_double|]. split; [|split].
  - rewrite normalize_cut. destruct (64 <? length (trimmed_code code))%nat eqn:El.
    + etransitivity; [apply length_trim_right|]. rewrite length_take. lia.
    + by apply Nat.ltb_ge in El.
  - intros c Hh. apply (trimmed_head code). rewrite E. by destruct (normalize code).
  - intros c Hl. rewrite forallb_forall in Hc. assert (Hin : In c (normalize code)).
    { destruct (normalize code) as [|x l _] using rev_ind; [done|]. rewrite last_snoc in Hl. injection Hl as ->.
      apply in_app_iff. right. by left. }
    specialize (Hc c Hin). unfold code_char in Hc. apply orb_true_iff in Hc as [Hc|Hc]; [done|].
    rewrite normalize_cut in Hl. destruct (64 <? length (trimmed_code code))%nat;
      apply trim_right_last in Hl; unfold is_underscore in Hl; congruence.
Qed.

Lemma normalize_some code :
  normalize code <> [] <->
  exists c, In c (trim_right IsSpace (trim_left IsSpace code)) /\ alnum (ToLower lower_rest c) = true.
Proof.
  set (l := trim_right IsSpace (trim_left IsSpace code)). split.
  - intros Hn. destruct (normalize code) as [|c k] eqn:E; [done|].
    destruct (normalize_shape code) as (_ & _ & _ & Hh & _).
    assert (Ha : alnum c = true) by (apply Hh; by rewrite E).
    assert (Hin : In c (trimmed_code code)).
    { rewrite normalize_cut in E. destruct (64 <? _)%nat; [|rewrite E; by left].
      apply (in_take_in 64), (in_trim_right is_underscore). rewrite E. by left. }
    apply in_trim_right, in_trim_left, squeeze_in in Hin; [|done].
    apply list_elem_of_In, list_elem_of_fmap in Hin as (x & -> & Hx%list_elem_of_In). by exists x.
  - intros (c & Hin & Ha). assert (Hu : is_underscore (ToLower lower_rest c) = false).
    { apply N.eqb_neq. by apply alnum_underscore. }
    assert (Ht : In (ToLower lower_rest c) (trimmed_code code)).
    { apply in_trim_right_keep, Hu. apply in_trim_left_keep; [|done]. apply in_squeeze; [|done].
      by apply list_elem_of_In, list_elem_of_fmap_2, list_elem_of_In. }
    rewrite normalize_cut. destruct (trimmed_code code) as [|x k] eqn:E; [done|].
    destruct (64 <? _)%nat; [|done]. assert (Hx : alnum x = true) by (apply (trimmed_head code); by rewrite E).
    intros Hnil. assert (Hh : In x (trim_right is_underscore (take 64 (x :: k)))).
    { apply in_trim_right_keep; [by left|]. apply N.eqb_neq. by apply alnum_underscore. }
    by rewrite Hnil in Hh.
Qed.

(** The code a role gets from free text is well formed whatever the text
    and however letters beyond ASCII are lowered: it satisfies the pattern the
    table enforces unless it is empty, it is empty exactly when the text has
    no letter or digit, and normalising it again changes nothing.  So the
    refusal of [handleCreateEmployeeRole] on the code happens exactly for
    texts without a letter or digit. *)
Theorem normalizeEmployeeRoleCode_wf code :
  employeeRoleCodePattern (normalize code) = negb (bool_decide (normalize code = []))
  /\ (employeeRoleCodePattern (normalize code) = true <->
      exists c, In c (trim_right IsSpace (trim_left IsSpace code)) /\ alnum (ToLower lower_rest c) = true)
  /\ normalize (normalize code) = normalize code.
Proof.
  destruct (normalize_shape code) as (Hc & Hd & Hn & Hh & Hl).
  assert (Hp : employeeRoleCodePattern (normalize code) = negb (bool_decide (normalize code = []))).
  { destruct (normalize code) as [|c k] eqn:E; [done|]. rewrite bool_decide_false by done.
    apply (pattern_of c); [done|by apply Hh|done|done]. }
  split; [done|]. split; [|by apply normalize_id].
  rewrite Hp, negb_true_iff, bool_decide_eq_false. apply normalize_some.
Qed.
End Lower.
