(* ===== verification/RosterProps.v ===== *)
(** * Teams, membership and duty

    Over every sequence of workforce requests an employee is on one team, a
    station has one team per order, and a user's own duty agrees with the
    station's scheduled team. *)

From stdpp Require Import base list strings gmap sorting.
From Stdlib Require Import ZArith Lia.
From S2P Require Import Prelude Numeric Schema Policy Workforce WorkforceHandlers.

Local Open Scope Z_scope.
Local Open Scope tx_scope.

(** ** Columns that are unique in a table *)

Definition unique_by {A K} (key : A -> K) (l : list A) : Prop :=
  forall x y, In x l -> In y l -> key x = key y -> x = y.

Lemma unique_snoc {A K} (key : A -> K) l x :
  unique_by key l -> (forall y, In y l -> key y <> key x) -> unique_by key (l ++ [x]).
Proof.
  intros Hl Hx y z Hy Hz E. apply in_app_iff in Hy, Hz.
  destruct Hy as [Hy|[<-|[]]], Hz as [Hz|[<-|[]]]; [by apply Hl| | |done].
  - by destruct (Hx y Hy).
  - by destruct (Hx z Hz).
Qed.

Lemma unique_update {A K} (key : A -> K) (p : A -> bool) f l :
  (forall x, key (f x) = key x) -> unique_by key l -> unique_by key (update_where p f l).
Proof.
  intros Hf Hl y z (y0 & Hy & ->)%in_update_where (z0 & Hz & ->)%in_update_where E.
  assert (y0 = z0) as ->; [|done]. apply Hl; [done..|]. destruct (p y0), (p z0); rewrite ?Hf in E; done.
Qed.

Lemma unique_select {A K} (key : A -> K) (p : A -> bool) l : unique_by key l -> unique_by key (select p l).
Proof. intros Hl y z [Hy _]%in_select [Hz _]%in_select. by apply Hl. Qed.

Lemma NoDup_unique {A K} (key : A -> K) l : NoDup (key <$> l) -> unique_by key l.
Proof.
  induction l as [|a l IH]; [by intros _ ? ? []|]. intros [Ha Hl]%NoDup_cons x y Hx Hy E.
  assert (Hin : forall z, In z l -> key z = key a -> False).
  { intros z Hz Ez. apply Ha. rewrite <- Ez. by apply list_elem_of_fmap_2, list_elem_of_In. }
  destruct Hx as [<-|Hx], Hy as [<-|Hy]; [done| | |by apply IH].
  - by destruct (Hin y Hy).
  - by destruct (Hin x Hx).
Qed.

Lemma NoDup_update {A K} (key : A -> K) (p : A -> bool) f l :
  (forall x, key (f x) = key x) -> NoDup (key <$> l) -> NoDup (key <$> update_where p f l).
Proof.
  intros Hf Hl. assert (E : key <$> update_where p f l = key <$> l); [|by rewrite E].
  apply (map_update_where key p f l). auto.
Qed.

Lemma head_all_equal {A} (x : A) l : In x l -> (forall y, In y l -> y = x) -> exists l', l = x :: l'.
Proof. destruct l as [|y l]; [done|]. intros _ H. exists l. f_equal. apply H. by left. Qed.

(** ** The invariant *)

Definition member_key (m : Member) : uuid * uuid := (mb_tenant m, mb_employee m).
Definition slot_key (t : TeamRow) : uuid * uuid * Z := (tm_tenant t, tm_station t, tm_order t).
Definition station_key (s : StationAnchor) : uuid * uuid := (sa_tenant s, sa_id s).

Record Staff_inv (w : Staff) : Prop := {
  si_team_ids : NoDup (tm_id <$> wf_teams w);
  si_team_fresh : forall t, In t (wf_teams w) -> (tm_id t < wf_next_id w)%N;
  si_team_slot : unique_by slot_key (wf_teams w);
  si_team_order : forall t, In t (wf_teams w) -> 0 <= tm_order t <= 2;
  si_emp_ids : NoDup (em_id <$> wf_employees w);
  si_emp_fresh : forall e, In e (wf_employees w) -> (em_id e < wf_next_id w)%N;
  si_emp_user : forall e f u, In e (wf_employees w) -> In f (wf_employees w) ->
    em_tenant e = em_tenant f -> em_user e = Some u -> em_user f = Some u -> e = f;
  si_member : unique_by member_key (wf_members w);
  si_member_team : forall m, In m (wf_members w) ->
    exists t, In t (wf_teams w) /\ tm_by (mb_tenant m) (mb_team m) t = true;
  si_member_emp : forall m, In m (wf_members w) ->
    exists e, In e (wf_employees w) /\ em_by (mb_tenant m) (mb_employee m) e = true;
  si_stations : unique_by station_key (wf_stations w);
}.

Lemma tm_by_true t i x : tm_by t i x = true <-> tm_tenant x = t /\ tm_id x = i.
Proof. apply bool_decide_eq_true. Qed.
Lemma em_by_true t i e : em_by t i e = true <-> em_tenant e = t /\ em_id e = i.
Proof. apply bool_decide_eq_true. Qed.
Lemma sa_by_true t i s : sa_by t i s = true <-> sa_tenant s = t /\ sa_id s = i.
Proof. apply bool_decide_eq_true. Qed.
Lemma is_member_true t i m : is_member t i m = true <-> mb_tenant m = t /\ mb_employee m = i.
Proof. apply bool_decide_eq_true. Qed.
Lemma in_team_true t i m : in_team t i m = true <-> mb_tenant m = t /\ mb_team m = i.
Proof. apply bool_decide_eq_true. Qed.
Lemma team_slot_true t s o x :
  team_slot t s o x = true <-> tm_tenant x = t /\ tm_station x = s /\ tm_order x = o.
Proof. apply bool_decide_eq_true. Qed.

Lemma staff_empty_inv users stations now :
  unique_by station_key stations -> Staff_inv (mkStaff [] [] [] [] stations users [] 1 now).
Proof. intros H. constructor; try done; try constructor; intros ? ? []. Qed.

(** *** The operations preserve it *)

(** A state whose teams, employees, members and stations are the same. *)
Definition same_staff (w w' : Staff) : Prop :=
  wf_teams w' = wf_teams w /\ wf_employees w' = wf_employees w /\ wf_members w' = wf_members w
  /\ wf_stations w' = wf_stations w /\ (wf_next_id w <= wf_next_id w')%N.

Lemma Staff_inv_same w w' : same_staff w w' -> Staff_inv w -> Staff_inv w'.
Proof.
  intros (Et & Ee & Em & Es & Hn) []. constructor; rewrite ?Et, ?Ee, ?Em, ?Es; try done.
  - intros t Ht. specialize (si_team_fresh0 t Ht). lia.
  - intros e He. specialize (si_emp_fresh0 e He). lia.
Qed.

Lemma tlift_ok {S E A} (r : result E A) (s : S) a s' : tlift r s = Ok (a, s') -> r = Ok a /\ s' = s.
Proof. unfold tlift. destruct r; [by intros [= -> ->]|done]. Qed.

Ltac lift_steps :=
  repeat match goal with H : tlift _ _ = Ok _ |- _ => apply tlift_ok in H as [? ->] end.

Lemma tguard_ok {S E} b (e : E) (s : S) u s' : tguard b e s = Ok (u, s') -> b = true /\ s' = s.
Proof. unfold tguard. destruct b; [by intros [= _ ->]|done]. Qed.

Lemma inv_CreateEmployeeRole t c n w r w' :
  CreateEmployeeRole t c n w = Ok (r, w') -> Staff_inv w -> Staff_inv w'.
Proof.
  intros H. unfold CreateEmployeeRole in H. tx_steps H. apply tlift_ok in H as [_ ->].
  apply Staff_inv_same. unfold same_staff; simpl. repeat split. lia.
Qed.

Lemma employee_ok_inv w others e w1 u w2 :
  employee_ok w others e w1 = Ok (u, w2) ->
  w2 = w1 /\ forall f v, In f others -> em_tenant f = em_tenant e -> em_user e = Some v -> em_user f <> Some v.
Proof.
  intros H. unfold employee_ok in H. tx_steps H.
  apply tguard_ok in H as [_ ->]. split; [done|].
  intros f v Hf Et Ev Efv. rewrite Ev in E0. apply negb_true_iff in E0.
  rewrite exists_where_false in E0. specialize (E0 f Hf). apply bool_decide_eq_false in E0. by destruct E0.
Qed.

(** Membership only reads the keys of the employees. *)
Lemma member_emp_update w p f m :
  (forall e, em_id (f e) = em_id e /\ em_tenant (f e) = em_tenant e) ->
  (exists e, In e (wf_employees w) /\ em_by (mb_tenant m) (mb_employee m) e = true) ->
  exists e, In e (update_where p f (wf_employees w)) /\ em_by (mb_tenant m) (mb_employee m) e = true.
Proof.
  intros Hf (e & He & Hb). exists (if p e then f e else e). split; [apply in_update_where; eauto|].
  rewrite em_by_true in *. destruct (p e); [|done]. by destruct (Hf e) as [-> ->].
Qed.

Lemma inv_CreateEmployee t i w r w' :
  CreateEmployee t i w = Ok (r, w') -> Staff_inv w -> Staff_inv w'.
Proof.
  intros H Hw. unfold CreateEmployee in H. tx_steps H. apply tlift_ok in H as [_ ->].
  apply employee_ok_inv in E as [-> Hu]. destruct Hw. constructor; simpl in *; try done.
  - intros y Hy. specialize (si_team_fresh0 y Hy). lia.
  - eapply NoDup_snoc_fresh; [done|exact si_emp_fresh0|done].
  - intros e [He|[<-|[]]]%in_app_iff; [|simpl; lia]. specialize (si_emp_fresh0 e He). lia.
  - intros e f u He Hf Et Eu Ef. apply in_app_iff in He, Hf. destruct He as [He|[<-|[]]], Hf as [Hf|[<-|[]]].
    + by eapply si_emp_user0.
    + by destruct (Hu e u He Et Ef).
    + by destruct (Hu f u Hf (eq_sym Et) Eu).
    + done.
  - intros m Hm. destruct (si_member_emp0 m Hm) as (e & He & Hb). exists e. split; [|done]. apply in_app_iff. by left.
Qed.

Lemma inv_UpdateEmployee t id i w r w' :
  UpdateEmployee t id i w = Ok (r, w') -> Staff_inv w -> Staff_inv w'.
Proof.
  intros H Hw. unfold UpdateEmployee in H. tx_step H.
  destruct (first_where (em_by t id) (wf_employees w)) as [e0|] eqn:Ef; [|done].
  tx_steps H. apply tlift_ok in H as [_ ->]. apply employee_ok_inv in E as [-> Hu].
  apply first_where_some in Ef as [He0 [Ht0 Hi0]%em_by_true].
  pose proof (NoDup_unique _ _ (si_emp_ids w Hw)) as Hids. destruct Hw.
  assert (Hthe : forall e, In e (wf_employees w) -> em_by t id e = true -> e = e0).
  { intros e He [_ Hi]%em_by_true. apply Hids; [done..|congruence]. }
  constructor; simpl; try done.
  - by apply NoDup_update.
  - intros e (p & Hp & ->)%in_update_where. specialize (si_emp_fresh0 p Hp). by destruct (em_by t id p).
  - intros e f u (p & Hp & ->)%in_update_where (y & Hy & ->)%in_update_where Et Eu Efu.
    assert (Hother : forall z, In z (wf_employees w) -> em_by t id z = false ->
      em_tenant z = t -> em_user (updated_employee (wf_now w) i e0) = Some u -> em_user z <> Some u).
    { intros z Hz Hbz Etz Eus. apply (Hu z u); [|simpl; congruence|done]. apply in_select. by rewrite Hbz. }
    destruct (em_by t id p) eqn:Ep, (em_by t id y) eqn:Ey.
    + by rewrite (Hthe p Hp Ep), (Hthe y Hy Ey).
    + rewrite (Hthe p Hp Ep) in *. destruct (Hother y Hy Ey); [simpl in Et; congruence|done|done].
    + rewrite (Hthe y Hy Ey) in *. destruct (Hother p Hp Ep); [simpl in Et; congruence|done|done].
    + assert (p = y) as ->; [|done]. by eapply si_emp_user0.
  - intros m Hm. by apply member_emp_update, si_member_emp0.
Qed.

Lemma inv_upsert_team t s n o w u w' :
  upsert_team t s n o w = Ok (u, w') -> Staff_inv w -> Staff_inv w'.
Proof.
  intros H Hw. unfold upsert_team in H. tx_step H. tx_step H. destruct (exists_where _ _) eqn:Ex.
  - injection H as _ <-. destruct Hw. constructor; simpl; try done.
    + by apply NoDup_update.
    + intros x (y & Hy & ->)%in_update_where. specialize (si_team_fresh0 y Hy). by destruct (team_slot t s o y).
    + by apply unique_update.
    + intros x (y & Hy & ->)%in_update_where. specialize (si_team_order0 y Hy). by destruct (team_slot t s o y).
    + intros m Hm. destruct (si_member_team0 m Hm) as (y & Hy & Hb).
      exists (if team_slot t s o y then renamed n y else y). split; [apply in_update_where; eauto|].
      by destruct (team_slot t s o y).
  - tx_step H. injection H as _ <-. rewrite exists_where_false in Ex. destruct Hw. constructor; simpl; try done.
    + eapply NoDup_snoc_fresh; [done|exact si_team_fresh0|done].
    + intros x [Hx|[<-|[]]]%in_app_iff; [|simpl; lia]. specialize (si_team_fresh0 x Hx). lia.
    + apply unique_snoc; [done|]. intros y Hy [= E1 E2 E3]. specialize (Ex y Hy).
      assert (Ht : team_slot t s o y = true) by (by apply team_slot_true). congruence.
    + intros x [Hx|[<-|[]]]%in_app_iff; [by apply si_team_order0|]. simpl.
      apply andb_true_iff in E as [?%Z.leb_le ?%Z.leb_le]. lia.
    + intros x Hx. specialize (si_emp_fresh0 x Hx). lia.
    + intros m Hm. destruct (si_member_team0 m Hm) as (y & Hy & Hb). exists y. split; [|done].
      apply in_app_iff. by left.
Qed.

Lemma inv_EnsureTeams t s names w r w' :
  EnsureTeams t s names w = Ok (r, w') -> Staff_inv w -> Staff_inv w'.
Proof.
  intros H Hw. unfold EnsureTeams in H. tx_steps H. subst.
  eapply inv_upsert_team; [done|]. eapply inv_upsert_team; [done|]. by eapply inv_upsert_team.
Qed.

Lemma inv_delete_members p w u w' : delete_members p w = Ok (u, w') -> Staff_inv w -> Staff_inv w'.
Proof.
  intros [= _ <-] []. constructor; simpl; try done.
  - by apply unique_select.
  - intros m [Hm _]%in_select. by apply si_member_team0.
  - intros m [Hm _]%in_select. by apply si_member_emp0.
Qed.

Lemma inv_insert_member m w u w' : insert_member m w = Ok (u, w') -> Staff_inv w -> Staff_inv w'.
Proof.
  intros H Hw. unfold insert_member in H. tx_steps H. injection H as _ <-.
  apply negb_true_iff in E. rewrite exists_where_false in E.
  apply andb_true_iff in E0 as [Et%exists_where_true Ee%exists_where_true].
  destruct Hw. constructor; simpl; try done.
  - apply unique_snoc; [done|]. intros y Hy [= E1 E2]. specialize (E y Hy). apply orb_false_iff in E as [_ E].
    assert (Ht : is_member (mb_tenant m) (mb_employee m) y = true) by (by apply is_member_true). congruence.
  - intros x [Hx|[<-|[]]]%in_app_iff; [by apply si_member_team0|done].
  - intros x [Hx|[<-|[]]]%in_app_iff; [by apply si_member_emp0|done].
Qed.

Lemma inv_move_members t team es : forall w u w',
  move_members t team es w = Ok (u, w') -> Staff_inv w -> Staff_inv w'.
Proof.
  induction es as [|e es IH]; intros w u w' H Hw; cbn [move_members] in H; tx_steps H; [by subst|].
  eapply IH; [done|]. eapply inv_insert_member; [done|]. by eapply inv_delete_members.
Qed.

Lemma inv_SetTeamMembers t team es w u w' :
  SetTeamMembers t team es w = Ok (u, w') -> Staff_inv w -> Staff_inv w'.
Proof.
  intros H Hw. unfold SetTeamMembers in H. tx_steps H.
  eapply inv_move_members; [done|]. by eapply inv_delete_members.
Qed.

Lemma inv_SetRotationAnchor t s a w u w' :
  SetRotationAnchor t s a w = Ok (u, w') -> Staff_inv w -> Staff_inv w'.
Proof.
  intros H Hw. unfold SetRotationAnchor in H. tx_steps H. injection H as _ <-.
  destruct Hw. constructor; simpl; try done. by apply unique_update.
Qed.

#[export] Hint Resolve inv_CreateEmployeeRole inv_CreateEmployee inv_UpdateEmployee inv_EnsureTeams
  inv_SetTeamMembers inv_SetRotationAnchor : fuelgrid.

(** ** Requests *)

Section Requests.
Context (lower_rest : rune -> rune) (collate : string -> string -> bool).

(** A committed request, or a change of the surroundings: new users and
    stations, the clock. *)
Inductive staff_step (w : Staff) : Staff -> Prop :=
| ss_role audited ctx body r w' :
    handleCreateEmployeeRole lower_rest audited ctx body w = Ok (r, w') -> staff_step w w'
| ss_create audited ctx st body r w' :
    handleCreateEmployee audited ctx st body w = Ok (r, w') -> staff_step w w'
| ss_update audited ctx id body r w' :
    handleUpdateEmployee audited ctx id body w = Ok (r, w') -> staff_step w w'
| ss_teams audited ctx st names r w' :
    handleEnsureTeams audited ctx st names w = Ok (r, w') -> staff_step w w'
| ss_members audited ctx team body r w' :
    handleSetTeamMembers collate audited ctx team body w = Ok (r, w') -> staff_step w w'
| ss_anchor audited ctx st body r w' :
    handleSetRotationAnchor audited ctx st body w = Ok (r, w') -> staff_step w w'
| ss_env roles stations users now :
    unique_by station_key stations ->
    staff_step w (mkStaff roles (wf_employees w) (wf_teams w) (wf_members w) stations users
                    (wf_audit w) (wf_next_id w) now).

Inductive staff_reachable : Staff -> Prop :=
| staff_start roles users stations now :
    unique_by station_key stations -> staff_reachable (mkStaff roles [] [] [] stations users [] 1 now)
| staff_more w w' : staff_reachable w -> staff_step w w' -> staff_reachable w'.

Lemma auditWorkforce_inv audited a act e w u w' :
  auditWorkforce audited a act e w = Ok (u, w') -> Staff_inv w -> Staff_inv w'.
Proof.
  intros H. unfold auditWorkforce in H. tx_step H. apply Staff_inv_same.
  destruct audited; injection H as _ <-; unfold same_staff; simpl; repeat split; lia.
Qed.

Lemma inv_staff_step w w' : staff_step w w' -> Staff_inv w -> Staff_inv w'.
Proof.
  intros Hs Hw. destruct Hs as [? ? ? ? ? H|? ? ? ? ? ? H|? ? ? ? ? ? H|? ? ? ? ? ? H|? ? ? ? ? ? H|? ? ? ? ? ? H|].
  - unfold handleCreateEmployeeRole in H. tx_steps H; subst. eapply auditWorkforce_inv; eauto with fuelgrid.
  - unfold handleCreateEmployee in H. tx_steps H; subst. eapply auditWorkforce_inv; eauto with fuelgrid.
  - unfold handleUpdateEmployee in H. tx_steps H; subst.
    lift_steps. eapply auditWorkforce_inv; eauto with fuelgrid.
  - unfold handleEnsureTeams in H. tx_steps H; subst. eapply auditWorkforce_inv; eauto with fuelgrid.
  - unfold handleSetTeamMembers in H. tx_steps H; subst.
    lift_steps. eapply auditWorkforce_inv; eauto with fuelgrid.
  - unfold handleSetRotationAnchor in H. tx_steps H; subst; eapply auditWorkforce_inv; eauto with fuelgrid.
  - destruct Hw. by constructor.
Qed.

Lemma staff_reachable_inv w : staff_reachable w -> Staff_inv w.
Proof.
  induction 1 as [roles users stations now H|]; [|by eapply inv_staff_step].
  constructor; try done; try constructor; intros ? ? [].
Qed.
End Requests.

(** ** Membership *)

Definition employs (w : Staff) (t e : uuid) : Prop := exists_where (em_by t e) (wf_employees w) = true.
Definition has_team (w : Staff) (t i : uuid) : Prop := exists_where (tm_by t i) (wf_teams w) = true.

(** Members after [es] were moved onto the team. *)
Definition moved (t team : uuid) (es : list uuid) (ms : list Member) (m : Member) : Prop :=
  (mb_tenant m = t /\ mb_team m = team /\ In (mb_employee m) es)
  \/ (In m ms /\ ~ (mb_tenant m = t /\ In (mb_employee m) es)).

Lemma insert_member_tables m w u w' :
  insert_member m w = Ok (u, w') ->
  w' = set_members (wf_members w ++ [m]) w /\ employs w (mb_tenant m) (mb_employee m).
Proof.
  intros H. unfold insert_member in H. tx_steps H. injection H as _ <-. by apply andb_true_iff in E0 as [_ ?].
Qed.

Lemma move_one t team e w :
  Staff_inv w -> has_team w t team -> employs w t e ->
  let w1 := set_members (select (fun m => negb (is_member t e m)) (wf_members w)) w in
  insert_member (mkMember t team e) w1 = Ok (tt, set_members (wf_members w1 ++ [mkMember t team e]) w1).
Proof.
  intros Hw Ht He. cbv zeta. unfold insert_member. simpl. unfold tbind, tget, tguard, tput; simpl.
  rewrite (proj2 (exists_where_false _ _)).
  - simpl. unfold has_team, employs in *. by rewrite Ht, He.
  - intros n [Hn Hm]%in_select. apply negb_true_iff in Hm. rewrite Hm, orb_false_r.
    apply bool_decide_eq_false. intros [En1 En2]. apply not_true_iff_false in Hm. apply Hm, is_member_true.
    split; [|done]. destruct (si_member_team w Hw n Hn) as (x & Hx & [Hx1 Hx2]%tm_by_true).
    apply exists_where_true in Ht as (y & Hy & [Hy1 Hy2]%tm_by_true).
    rewrite <- Hx1, <- Hy1. f_equal. apply (NoDup_unique _ _ (si_team_ids w Hw)); [done..|congruence].
Qed.

Lemma move_members_ok t team es : forall w,
  Staff_inv w -> has_team w t team -> (forall e, In e es -> employs w t e) ->
  exists ms, move_members t team es w = Ok (tt, set_members ms w)
    /\ forall m, In m ms <-> moved t team es (wf_members w) m.
Proof.
  induction es as [|e es IH]; intros w Hw Ht He; cbn [move_members].
  - exists (wf_members w). split; [by destruct w|]. intros m. unfold moved. simpl. tauto.
  - pose proof (move_one t team e w Hw Ht (He e (or_introl eq_refl))) as Hmove. cbv zeta in Hmove.
    set (w1 := set_members (select (fun m => negb (is_member t e m)) (wf_members w)) w) in *.
    set (w2 := set_members (wf_members w1 ++ [mkMember t team e]) w1) in *.
    assert (H1 : delete_members (is_member t e) w = Ok (tt, w1)) by done.
    assert (Hw2 : Staff_inv w2).
    { eapply inv_insert_member; [exact Hmove|]. by eapply inv_delete_members. }
    destruct (IH w2 Hw2 Ht (fun x Hx => He x (or_intror Hx))) as (ms & Hms & Hspec).
    exists ms. split; [unfold tbind; rewrite H1, Hmove, Hms; done|].
    intros m. rewrite Hspec. unfold moved, w2, w1. simpl. rewrite in_app_iff, in_select, negb_true_iff. simpl.
    assert (Hb : is_member t e m = false <-> ~ (mb_tenant m = t /\ mb_employee m = e)).
    { rewrite <- not_true_iff_false, is_member_true. done. }
    rewrite Hb. destruct m as [a b c]; simpl. split.
    + intros [?|[[[? ?]|[[= -> -> ->]|[]]] ?]]; [tauto| |tauto]. right. split; [done|]. intros [? [->|?]]; tauto.
    + intros [(-> & -> & [->|?])|[? ?]].
      * destruct (in_dec N.eq_dec c es); [tauto|]. right. split; [tauto|]. tauto.
      * tauto.
      * right. split; [left; split; [done|]|]; intros [? ?]; subst; tauto.
Qed.

Lemma move_members_employs t team es : forall w u w',
  move_members t team es w = Ok (u, w') -> forall e, In e es -> employs w t e.
Proof.
  induction es as [|x es IH]; intros w u w' H e; [done|]. cbn [move_members] in H. tx_steps H.
  apply insert_member_tables in E0 as [-> Hx]. injection E as _ <-. simpl in *.
  intros [<-|Hin]; [done|]. by apply (IH _ _ _ H).
Qed.

Section Membership.
Context (lower_rest : rune -> rune) (collate : string -> string -> bool).

(** Setting a team's members moves people: it succeeds exactly when every
    employee named exists in the tenant, and then the team has exactly the
    employees named, none of them is left on another team, every other
    membership is as it was, and every employee is on at most one team. *)
Theorem SetTeamMembers_moves w t team es :
  staff_reachable lower_rest collate w -> has_team w t team ->
  ((exists w', SetTeamMembers t team es w = Ok (tt, w')) <-> forall e, In e es -> employs w t e)
  /\ forall u w', SetTeamMembers t team es w = Ok (u, w') ->
     unique_by member_key (wf_members w')
     /\ wf_teams w' = wf_teams w /\ wf_employees w' = wf_employees w
     /\ forall m, In m (wf_members w') <->
          (mb_tenant m = t /\ mb_team m = team /\ In (mb_employee m) es)
          \/ (In m (wf_members w)
              /\ ~ (mb_tenant m = t /\ (mb_team m = team \/ In (mb_employee m) es))).
Proof.
  intros Hr%staff_reachable_inv Ht.
  set (w1 := set_members (select (fun m => negb (in_team t team m)) (wf_members w)) w).
  assert (H1 : delete_members (in_team t team) w = Ok (tt, w1)) by done.
  assert (Hw1 : Staff_inv w1) by by eapply inv_delete_members.
  assert (Eq : SetTeamMembers t team es w = move_members t team es w1) by (unfold SetTeamMembers, tbind; by rewrite H1).
  split.
  - rewrite Eq. split; [intros [w' H']; by apply (move_members_employs t team es w1 _ _ H')|].
    intros He. destruct (move_members_ok t team es w1 Hw1 Ht He) as (ms & Hms & _). eauto.
  - intros u w' H. split; [by eapply si_member, inv_SetTeamMembers|]. rewrite Eq in H.
    destruct (move_members_ok t team es w1 Hw1 Ht (move_members_employs t team es w1 _ _ H)) as (ms & Hms & Hspec).
    rewrite H in Hms. injection Hms as _ ->. split; [done|]. split; [done|]. intros m. simpl.
    rewrite Hspec. unfold moved, w1. simpl. rewrite in_select, negb_true_iff, <- not_true_iff_false, in_team_true.
    tauto.
Qed.
End Membership.

(** ** Teams *)

Section Sorted.
Context {A : Type} (key : A -> Z).
Abbreviation key_le := (fun x y => key x <=? key y).

Lemma insert_key_sorted x l :
  StronglySorted Z.le (key <$> l) -> StronglySorted Z.le (key <$> insert_by key_le x l).
Proof.
  induction l as [|y l IH]; intros Hs; [by repeat constructor|]. cbn [insert_by].
  apply StronglySorted_inv in Hs as [Hs Hy]. destruct (key x <=? key y) eqn:E; rewrite ?fmap_cons.
  - apply Z.leb_le in E. constructor; [by constructor|]. constructor; [done|].
    eapply List.Forall_impl; [|exact Hy]. simpl. lia.
  - apply Z.leb_gt in E. constructor; [by apply IH|].
    apply List.Forall_forall. intros z Hz%list_elem_of_In. rewrite insert_by_perm, fmap_cons in Hz.
    apply elem_of_cons in Hz as [->|Hz]; [lia|]. rewrite List.Forall_forall in Hy. by apply Hy, list_elem_of_In.
Qed.

Lemma order_by_sorted l : StronglySorted Z.le (key <$> order_by key_le l).
Proof. induction l as [|x l IH]; [constructor|]. simpl. by apply insert_key_sorted. Qed.
End Sorted.

Lemma upsert_team_ok t s n o w :
  0 <= o <= 2 -> exists_where (sa_by t s) (wf_stations w) = true ->
  exists w', upsert_team t s n o w = Ok (tt, w') /\ wf_stations w' = wf_stations w
    /\ wf_members w' = wf_members w
    /\ (exists x, In x (wf_teams w') /\ team_slot t s o x = true /\ tm_name x = n)
    /\ (forall x, In x (wf_teams w) -> team_slot t s o x = false -> In x (wf_teams w'))
    /\ (forall x, In x (wf_teams w) ->
          exists y, In y (wf_teams w') /\ tm_id y = tm_id x /\ slot_key y = slot_key x).
Proof.
  intros Ho Hs. unfold upsert_team, tbind, tget, tguard.
  replace ((0 <=? o) && (o <=? 2)) with true by (symmetry; apply andb_true_iff; rewrite !Z.leb_le; lia).
  destruct (exists_where (team_slot t s o) (wf_teams w)) eqn:Ex; [|rewrite Hs].
  - eexists. split; [reflexivity|]. simpl. split; [done|]. split; [done|]. split; [|split].
    + apply exists_where_true in Ex as (x & Hx & Hp). exists (renamed n x). split; [|by split].
      apply in_update_where. exists x. by rewrite Hp.
    + intros x Hx Hp. apply in_update_where. exists x. by rewrite Hp.
    + intros x Hx. exists (if team_slot t s o x then renamed n x else x). split; [apply in_update_where; eauto|].
      by destruct (team_slot t s o x).
  - eexists. split; [reflexivity|]. simpl. split; [done|]. split; [done|]. split; [|split].
    + eexists. split; [apply in_app_iff; right; by left|]. split; [by apply team_slot_true|done].
    + intros x Hx _. apply in_app_iff. by left.
    + intros x Hx. exists x. split; [apply in_app_iff; by left|done].
Qed.

(** A station's listing, once its three teams are known. *)
Lemma station_teams_listed w t s x0 x1 x2 :
  Staff_inv w -> In x0 (wf_teams w) -> In x1 (wf_teams w) -> In x2 (wf_teams w) ->
  team_slot t s 0 x0 = true -> team_slot t s 1 x1 = true -> team_slot t s 2 x2 = true ->
  te_row <$> ListTeams w t s = [x0; x1; x2].
Proof.
  intros Hw H0 H1 H2 [T0 [S0 O0]]%team_slot_true [T1 [S1 O1]]%team_slot_true [T2 [S2 O2]]%team_slot_true.
  set (l := order_by order_le (select (of_wf_station t s) (wf_teams w))).
  assert (El : te_row <$> ListTeams w t s = l).
  { unfold ListTeams. fold l. rewrite <- list_fmap_compose. apply list_fmap_id. }
  rewrite El. clear El.
  assert (Hperm : l ≡ₚ select (of_wf_station t s) (wf_teams w)) by apply order_by_perm.
  assert (Hin : forall x, In x l <-> x = x0 \/ x = x1 \/ x = x2).
  { intros x. rewrite <- list_elem_of_In, Hperm, list_elem_of_In, in_select. unfold of_wf_station.
    rewrite bool_decide_eq_true. split; [|intros [->|[->| ->]]; done]. intros (Hx & Et & Es).
    pose proof (si_team_order w Hw x Hx) as Ho.
    assert (Hu : forall y, In y (wf_teams w) -> tm_tenant y = t -> tm_station y = s -> tm_order x = tm_order y -> x = y).
    { intros y Hy Ty Sy Oy. apply (si_team_slot w Hw); [done..|]. unfold slot_key. congruence. }
    assert (Hc : tm_order x = 0 \/ tm_order x = 1 \/ tm_order x = 2) by lia.
    destruct Hc as [E|[E|E]]; [left|right; left|right; right]; apply Hu; congruence. }
  assert (Hnd : NoDup l).
  { rewrite Hperm. apply NoDup_ListNoDup, List.NoDup_filter, NoDup_ListNoDup. by apply (NoDup_fmap_1 tm_id), si_team_ids. }
  assert (Hd : NoDup [x0; x1; x2]).
  { repeat (apply NoDup_cons; split); rewrite ?not_elem_of_cons; repeat split; try (intros ->; lia);
      try apply not_elem_of_nil. constructor. }
  assert (Hp3 : l ≡ₚ [x0; x1; x2]).
  { apply NoDup_Permutation; [done..|]. intros x. rewrite list_elem_of_In, Hin. rewrite !elem_of_cons, elem_of_nil. tauto. }
  assert (Ho : tm_order <$> l = [0; 1; 2]).
  { apply (StronglySorted_unique Z.le).
    - apply (order_by_sorted tm_order).
    - repeat constructor; lia.
    - rewrite Hp3. simpl. by rewrite O0, O1, O2. }
  destruct l as [|a [|b [|c [|]]]]; try discriminate. injection Ho as Ea Eb Ec.
  assert (Ha : a = x0) by (destruct (proj1 (Hin a)) as [->|[->| ->]]; [by left|done|lia|lia]).
  assert (Hb : b = x1) by (destruct (proj1 (Hin b)) as [->|[->| ->]]; [right; by left|lia|done|lia]).
  assert (Hc : c = x2) by (destruct (proj1 (Hin c)) as [->|[->| ->]]; [right; right; by left|lia|lia|done]).
  by subst.
Qed.

Lemma slot_other t s o o' x : team_slot t s o x = true -> o <> o' -> team_slot t s o' x = false.
Proof.
  intros [? [? Ho]]%team_slot_true Hne. apply not_true_iff_false. rewrite team_slot_true. intros (_ & _ & E). congruence.
Qed.

Lemma EnsureTeams_effect w t s names :
  Staff_inv w -> exists_where (sa_by t s) (wf_stations w) = true ->
  exists teams w' x0 x1 x2, EnsureTeams t s names w = Ok (teams, w') /\ te_row <$> teams = [x0; x1; x2]
    /\ tm_order <$> [x0; x1; x2] = [0; 1; 2] /\ tm_name <$> [x0; x1; x2] = team_name names <$> [0; 1; 2]%nat
    /\ wf_members w' = wf_members w
    /\ (forall x, In x (wf_teams w) -> of_wf_station t s x = true -> tm_id x ∈ tm_id <$> [x0; x1; x2]).
Proof.
  intros Hw Hs.
  destruct (upsert_team_ok t s (team_name names 0) 0 w ltac:(lia) Hs) as (w1 & E1 & Es1 & Em1 & (y0 & H0 & P0 & N0) & _ & Hid1).
  assert (Hw1 : Staff_inv w1) by by eapply inv_upsert_team. rewrite <- Es1 in Hs.
  destruct (upsert_team_ok t s (team_name names 1) 1 w1 ltac:(lia) Hs) as (w2 & E2 & Es2 & Em2 & (y1 & H1 & P1 & N1) & Hk2 & Hid2).
  assert (Hw2 : Staff_inv w2) by by eapply inv_upsert_team. rewrite <- Es2 in Hs.
  destruct (upsert_team_ok t s (team_name names 2) 2 w2 ltac:(lia) Hs) as (w3 & E3 & Es3 & Em3 & (y2 & H2 & P2 & N2) & Hk3 & Hid3).
  assert (Hw3 : Staff_inv w3) by by eapply inv_upsert_team.
  apply Hk2 in H0; [|eapply slot_other; [exact P0|lia]]. apply Hk3 in H0; [|eapply slot_other; [exact P0|lia]].
  apply Hk3 in H1; [|eapply slot_other; [exact P1|lia]].
  pose proof (station_teams_listed w3 t s y0 y1 y2 Hw3 H0 H1 H2 P0 P1 P2) as Hl.
  exists (ListTeams w3 t s), w3, y0, y1, y2. split; [unfold EnsureTeams, tbind; by rewrite E1, E2, E3|].
  split; [done|]. apply team_slot_true in P0 as (? & ? & ?), P1 as (? & ? & ?), P2 as (? & ? & ?).
  split; [simpl; congruence|]. split; [simpl; congruence|]. split; [congruence|].
  intros x Hx Hb. destruct (Hid1 x Hx) as (z1 & Hz1 & I1 & K1). destruct (Hid2 z1 Hz1) as (z2 & Hz2 & I2 & K2).
  destruct (Hid3 z2 Hz2) as (z3 & Hz3 & I3 & K3). rewrite <- I1, <- I2, <- I3, <- Hl. apply list_elem_of_fmap_2.
  unfold ListTeams. rewrite <- list_fmap_compose, list_fmap_id. apply bool_decide_eq_true in Hb as [Hb1 Hb2].
  rewrite order_by_perm, list_elem_of_In. apply in_select. split; [done|]. apply bool_decide_eq_true.
  unfold slot_key in *. split; congruence.
Qed.

Section Teams.
Context (lower_rest : rune -> rune) (collate : string -> string -> bool).

(** Ensuring the teams of a station always succeeds and leaves it with three
    teams, of orders 0, 1 and 2; the teams that existed keep their ids and
    their members.  They do not keep their names: every team is named from
    the request, or "Team A", "Team B", "Team C" where the request names none,
    although the comment says existing teams are left as they are. *)
Theorem EnsureTeams_ready w t s names :
  staff_reachable lower_rest collate w -> exists_where (sa_by t s) (wf_stations w) = true ->
  exists teams w', EnsureTeams t s names w = Ok (teams, w')
    /\ (tm_order ∘ te_row <$> teams) = [0; 1; 2]
    /\ (tm_name ∘ te_row <$> teams) = team_name names <$> [0; 1; 2]%nat
    /\ (forall x, In x (wf_teams w) -> of_wf_station t s x = true -> tm_id x ∈ (tm_id ∘ te_row <$> teams))
    /\ wf_members w' = wf_members w.
Proof.
  intros Hr%staff_reachable_inv Hs.
  destruct (EnsureTeams_effect w t s names Hr Hs) as (teams & w' & x0 & x1 & x2 & E & Er & Eo & En & Em & Hid).
  exists teams, w'. rewrite !list_fmap_compose, Er. done.
Qed.
End Teams.

(** ** Duty *)

(** The scheduled team is the team of the slot's order, with its members. *)
Lemma in_TeamMembers collate w t team e :
  e ∈ (ep_row <$> TeamMembers collate w t team) <->
  In e (wf_employees w) /\ exists m, In m (wf_members w) /\ in_team t team m = true /\ member_row m e = true.
Proof.
  unfold TeamMembers. rewrite <- list_fmap_compose.
  rewrite (list_fmap_id), order_by_perm, list_elem_of_fmap. split.
  - intros ([m x] & -> & H%list_elem_of_In). apply in_join in H as ([Hm Ht]%in_select & Hx & Hp). simpl. eauto.
  - intros (He & m & Hm & Ht & Hp). exists (m, e). split; [done|]. apply list_elem_of_In, in_join.
    rewrite in_select. done.
Qed.

Lemma first_slot w t s o x :
  Staff_inv w -> In x (wf_teams w) -> team_slot t s o x = true -> first_where (team_slot t s o) (wf_teams w) = Some x.
Proof.
  intros Hw Hx Hp. apply first_only; [done..|]. intros y Hy Hpy. apply team_slot_true in Hp as (? & ? & ?), Hpy as (? & ? & ?).
  apply (si_team_slot w Hw); [done..|]. unfold slot_key. congruence.
Qed.

(** The rows behind a user's duty. *)
Lemma duty_rows_the w tenant user e m x s :
  Staff_inv w -> In e (wf_employees w) -> em_tenant e = tenant -> em_user e = Some user ->
  em_status e = "active"%string -> In m (wf_members w) -> member_of e m = true ->
  In x (wf_teams w) -> tm_by (mb_tenant m) (mb_team m) x = true ->
  In s (wf_stations w) -> sa_by (em_tenant e) (em_station e) s = true ->
  exists l, duty_rows w tenant user = (e, m, x, s) :: l.
Proof.
  intros Hw He Et Eu Ea Hm Hme Hx Hmx Hs Hes. apply head_all_equal; unfold duty_rows.
  - apply in_select. split; [|by rewrite !bool_decide_true].
    apply in_join. split; [|done]. apply in_join. split; [|done]. by apply in_join.
  - intros [[[e' m'] x'] s'] [Hin Hp]%in_select. bool_solve.
    apply in_join in Hin as (Hin & Hs' & Hes'). apply in_join in Hin as (Hin & Hx' & Hmx').
    apply in_join in Hin as (He' & Hm' & Hme').
    assert (e' = e) as -> by (eapply (si_emp_user w Hw); [done|done|congruence|done|done]).
    unfold member_of in *. bool_solve.
    assert (m' = m) as -> by (apply (si_member w Hw); [done..|]; unfold member_key; destruct Hme, Hme'; congruence).
    apply tm_by_true in Hmx as [? ?], Hmx' as [? ?]. apply sa_by_true in Hes as [? ?], Hes' as [? ?].
    assert (x' = x) as -> by (apply (NoDup_unique _ _ (si_team_ids w Hw)); [done..|congruence]).
    assert (s' = s) as -> by (apply (si_stations w Hw); [done..|]; unfold station_key; congruence). done.
Qed.

(** A login [user] of the tenant is an active employee [e], on team [x], of a
    station anchored at day [a]. *)
Definition rostered (w : Staff) (tenant user : uuid) (e : EmployeeRow) (x : TeamRow) (a : Z) : Prop :=
  exists m s, In e (wf_employees w) /\ em_tenant e = tenant /\ em_user e = Some user
    /\ em_status e = "active"%string /\ In m (wf_members w) /\ member_of e m = true
    /\ In x (wf_teams w) /\ tm_by (mb_tenant m) (mb_team m) x = true
    /\ In s (wf_stations w) /\ sa_by (em_tenant e) (em_station e) s = true /\ sa_anchor s = Some a.

Lemma duty_slot w tenant user e x a day slot :
  Staff_inv w -> rostered w tenant user e x a -> Valid slot = true ->
  (exists d, DutyForUser w tenant user day = Some d /\ du_on d = true /\ du_slot d = slot) <->
  tm_order x = OrderForSlot (Rotation a day) slot.
Proof.
  intros Hw (m & s & He & Et & Eu & Ea & Hm & Hme & Hx & Hmx & Hs & Hes & Eanc) Hv.
  destruct (duty_rows_the w tenant user e m x s Hw He Et Eu Ea Hm Hme Hx Hmx Hs Hes) as [l El].
  unfold DutyForUser. rewrite El, Eanc.
  assert (Hne : MorningOrder (Rotation a day) <> EveningOrder (Rotation a day)).
  { unfold Rotation, mod3. simpl. Z.to_euclidean_division_equations. lia. }
  assert (Hs2 : slot = SlotMorning \/ slot = SlotEvening).
  { unfold Valid in Hv. apply orb_true_iff in Hv as [Hv%bool_decide_eq_true|Hv%bool_decide_eq_true]; auto. }
  assert (Hsl : SlotEvening <> SlotMorning) by done.
  assert (Hd : forall (d0 : UserDuty) (b : bool) (sl : Slot), du_on d0 = b -> du_slot d0 = sl ->
    (exists d, Some d0 = Some d /\ du_on d = true /\ du_slot d = slot) <-> b = true /\ sl = slot).
  { intros d0 b sl <- <-. split; [by intros (d & [= <-] & ? & ?)|eauto]. }
  destruct (decide (tm_order x = MorningOrder (Rotation a day))) as [Eo|Eo];
    [rewrite bool_decide_true by done; rewrite (Hd _ true SlotMorning) by done
    |rewrite bool_decide_false by done;
     destruct (decide (tm_order x = EveningOrder (Rotation a day))) as [Eo2|Eo2];
       [rewrite (bool_decide_true (tm_order x = _)) by done; rewrite (Hd _ true SlotEvening) by done
       |rewrite (bool_decide_false (tm_order x = _)) by done; rewrite (Hd _ false ""%string) by done]];
    destruct Hs2 as [-> | ->]; unfold OrderForSlot;
    rewrite ?(bool_decide_false (SlotMorning = SlotEvening)), ?(bool_decide_true (SlotEvening = SlotEvening)) by done;
    split; (intros [? ?] || intros ?); first [done | congruence | split; congruence].
Qed.

Lemma schedule_slot collate w tenant user e x a day slot :
  Staff_inv w -> rostered w tenant user e x a -> tm_station x = em_station e ->
  (exists sc, ScheduledTeamFor collate w tenant (em_station e) day slot = Ok sc /\ e ∈ (ep_row <$> sc_members sc)) <->
  tm_order x = OrderForSlot (Rotation a day) slot.
Proof.
  intros Hw (m & s & He & Et & Eu & Ea & Hm & Hme & Hx & Hmx & Hs & Hes & Eanc) Ext.
  assert (Hanc : RotationAnchor w tenant (em_station e) = Ok (Some a)).
  { unfold RotationAnchor. rewrite (first_only _ _ s), <- Eanc; [done|done|by rewrite <- Et|].
    intros y Hy Hp. apply (si_stations w Hw); [done..|]. apply sa_by_true in Hp as [? ?], Hes as [? ?].
    unfold station_key. congruence. }
  unfold member_of in Hme. bool_solve. destruct Hme as [Hm1 Hm2]. apply tm_by_true in Hmx as [Hx1 Hx2].
  unfold ScheduledTeamFor. rewrite Hanc. simpl. set (o := OrderForSlot (Rotation a day) slot). split.
  - intros (sc & Esc & Hin). destruct (first_where (team_slot tenant (em_station e) o) (wf_teams w)) as [y|] eqn:Ef;
      injection Esc as <-; simpl in Hin; [|by apply elem_of_nil in Hin].
    apply first_where_some in Ef as [Hy [Hy1 [Hy2 Hy3]]%team_slot_true].
    apply in_TeamMembers in Hin as (_ & m' & Hm' & [Ht1 Ht2]%in_team_true & [Hr1 Hr2]%bool_decide_eq_true).
    assert (m' = m) as -> by (apply (si_member w Hw); [done..|]; unfold member_key; congruence).
    assert (x = y) as -> by (apply (NoDup_unique _ _ (si_team_ids w Hw)); [done..|congruence]). done.
  - intros Eo. assert (Hp : team_slot tenant (em_station e) o x = true).
    { apply team_slot_true. split; [congruence|]. by split. }
    rewrite (first_slot w _ _ _ x Hw Hx Hp). eexists. split; [reflexivity|]. simpl. apply in_TeamMembers.
    split; [done|]. exists m. split; [done|]. split; [apply in_team_true; split; congruence|].
    apply bool_decide_eq_true. done.
Qed.

Section Duty.
Context (lower_rest : rune -> rune) (collate : string -> string -> bool).

(** The mobile app and the back office agree: for a login whose team is of
    their own station, [DutyForUser] reports the slot exactly when
    [ScheduledTeamFor] lists their employee record among the members on that
    slot. *)
Theorem duty_matches_schedule w tenant user e x a day slot :
  staff_reachable lower_rest collate w -> rostered w tenant user e x a -> tm_station x = em_station e ->
  Valid slot = true ->
  (exists d, DutyForUser w tenant user day = Some d /\ du_on d = true /\ du_slot d = slot) <->
  (exists sc, ScheduledTeamFor collate w tenant (em_station e) day slot = Ok sc
     /\ e ∈ (ep_row <$> sc_members sc)).
Proof.
  intros Hr%staff_reachable_inv Hro Ext Hv.
  rewrite (duty_slot w tenant user e x a day slot), (schedule_slot collate w tenant user e x a day slot); done.
Qed.
End Duty.

(** ** Sample runs *)

Definition byte_collate (a b : string) : bool := String.leb a b.
Definition no_lower (c : rune) : rune := c.
Abbreviation sample_staff := (staff_reachable no_lower byte_collate).

Definition after {E A} (c : Tx Staff E A) (w : Staff) : Staff := (run_tx c w).2.

Lemma after_reachable {E A} (c : Tx Staff E A) w :
  (forall r w', c w = Ok (r, w') -> staff_step no_lower byte_collate w w') -> sample_staff w -> sample_staff (after c w).
Proof.
  intros Hc Hw. unfold after, run_tx. destruct (c w) as [[r w']|e] eqn:Ec; [|done].
  eapply staff_more; [exact Hw|by apply (Hc r)].
Qed.

Definition planner : Actor := mkActor 2 1 9 false.
Definition attendant_role : EmployeeRole :=
  mkEmployeeRole 90 1 default_role (runes "Pump attendant") true "active" 10 0 0.
(** Two stations, 20 and 21, without a rotation. *)
Definition staff_zero : Staff :=
  mkStaff [attendant_role] [] [] [] [mkStationAnchor 1 20 false None; mkStationAnchor 1 21 false None]
    [(1, 2); (1, 3)]%N [] 1 0.

Definition hire (station : uuid) : Tx Staff http_error Employee :=
  handleCreateEmployee true (Some planner) (Ok station)
    (Ok (fun st => mkCreateEmployee st (Some 3%N) "Asha" [] None None None)).
Definition form_teams (station : uuid) (names : list string) : Tx Staff http_error (list Team) :=
  handleEnsureTeams true (Some planner) (Ok station) names.
Definition anchor_on (station : uuid) (day : Z) : Tx Staff http_error (option Z) :=
  handleSetRotationAnchor true (Some planner) (Ok station) (Ok (Ok (Some day))).
Definition put_on (team employee : uuid) : Tx Staff http_error (list Employee) :=
  handleSetTeamMembers byte_collate true (Some planner) (Ok team) (Ok [employee]).

(** Asha is employee 1 of station 20; the teams of 20 are 2, 3, 4, those of 21
    are 5, 6, 7. *)
Definition staff_teams : Staff :=
  after (form_teams 21 []) (after (form_teams 20 ["Red"; "Blue"; "Green"]%string) (after (hire 20) staff_zero)).
Definition staff_anchored : Staff := after (anchor_on 21 1) (after (anchor_on 20 0) staff_teams).
(** On the first team of her own station, and on that of the other one. *)
Definition staff_home : Staff := after (put_on 2 1) staff_anchored.
Definition staff_lent : Staff := after (put_on 5 1) staff_anchored.

Lemma staff_zero_reachable : sample_staff staff_zero.
Proof. apply staff_start. intros x y [<-|[<-|[]]] [<-|[<-|[]]]; done. Qed.

Lemma hire_reachable st w : sample_staff w -> sample_staff (after (hire st) w).
Proof. apply after_reachable. unfold hire. intros r w' Hc. eapply ss_create. exact Hc. Qed.
Lemma form_teams_reachable st names w : sample_staff w -> sample_staff (after (form_teams st names) w).
Proof. apply after_reachable. unfold form_teams. intros r w' Hc. eapply ss_teams. exact Hc. Qed.
Lemma anchor_on_reachable st day w : sample_staff w -> sample_staff (after (anchor_on st day) w).
Proof. apply after_reachable. unfold anchor_on. intros r w' Hc. eapply ss_anchor. exact Hc. Qed.
Lemma put_on_reachable team employee w : sample_staff w -> sample_staff (after (put_on team employee) w).
Proof. apply after_reachable. unfold put_on. intros r w' Hc. eapply ss_members. exact Hc. Qed.

Lemma staff_teams_reachable : sample_staff staff_teams.
Proof. apply form_teams_reachable, form_teams_reachable, hire_reachable, staff_zero_reachable. Qed.

Lemma staff_anchored_reachable : sample_staff staff_anchored.
Proof. apply anchor_on_reachable, anchor_on_reachable, staff_teams_reachable. Qed.

(** Asha moves from the first team of station 20 to its second. *)
Lemma SetTeamMembers_moves_witness :
  let w' := after (SetTeamMembers 1 3 [1%N]) staff_home in
  unique_by member_key (wf_members w') /\ wf_members staff_home = [mkMember 1 2 1] /\ wf_members w' = [mkMember 1 3 1].
Proof.
  split; [|split; vm_compute; reflexivity].
  assert (Hc : SetTeamMembers 1 3 [1%N] staff_home = Ok (tt, after (SetTeamMembers 1 3 [1%N]) staff_home))
    by (vm_compute; reflexivity).
  eapply (SetTeamMembers_moves no_lower byte_collate staff_home 1 3 [1%N]); [|vm_compute; reflexivity|exact Hc].
  apply put_on_reachable, staff_anchored_reachable.
Defined.

(** A second request without names renames the teams of station 20. *)
Lemma EnsureTeams_ready_witness :
  (exists teams w', EnsureTeams 1 20 [] staff_teams = Ok (teams, w')
     /\ (tm_name ∘ te_row <$> teams) = ["Team A"; "Team B"; "Team C"]%string)
  /\ (tm_name ∘ te_row <$> ListTeams staff_teams 1 20) = ["Red"; "Blue"; "Green"]%string.
Proof.
  split; [|vm_compute; reflexivity].
  destruct (EnsureTeams_ready no_lower byte_collate staff_teams 1 20 []) as (teams & w' & E & _ & En & _);
    [apply staff_teams_reachable|vm_compute; reflexivity|].
  exists teams, w'. split; [exact E|exact En].
Defined.

Definition asha : EmployeeRow := mkEmployeeRow 1 1 20 (Some 3%N) "Asha" default_role None None None "active" 0 0.

(** On day 4 she has the evening: both say so. *)
Lemma duty_matches_schedule_witness :
  (exists d, DutyForUser staff_home 1 3 4 = Some d /\ du_on d = true /\ du_slot d = SlotEvening)
  /\ exists sc, ScheduledTeamFor byte_collate staff_home 1 20 4 SlotEvening = Ok sc /\ asha ∈ (ep_row <$> sc_members sc).
Proof.
  assert (Hd : exists d, DutyForUser staff_home 1 3 4 = Some d /\ du_on d = true /\ du_slot d = SlotEvening).
  { eexists. split; [vm_compute; reflexivity|]. split; reflexivity. }
  split; [exact Hd|].
  apply (duty_matches_schedule no_lower byte_collate staff_home 1 3 asha (mkTeamRow 2 1 20 "Red" 0) 0 4 SlotEvening);
    [apply put_on_reachable, staff_anchored_reachable| |reflexivity|reflexivity|exact Hd].
  exists (mkMember 1 2 1), (mkStationAnchor 1 20 false (Some 0)). vm_compute. repeat split; auto 10.
Defined.

(** A team accepts an employee of another station, and then the two readings
    differ: the other station's morning schedule lists the employee, whose own
    duty, computed from the anchor of the employee's station, says evening. *)
Theorem duty_cross_station :
  sample_staff staff_lent
  /\ (exists sc, ScheduledTeamFor byte_collate staff_lent 1 21 1 SlotMorning = Ok sc /\ asha ∈ (ep_row <$> sc_members sc))
  /\ exists d, DutyForUser staff_lent 1 3 1 = Some d /\ du_on d = true /\ du_slot d = SlotEvening.
Proof.
  split; [apply put_on_reachable, staff_anchored_reachable|]. split.
  - eexists. split; [vm_compute; reflexivity|]. apply list_elem_of_In. by left.
  - eexists. split; [vm_compute; reflexivity|]. split; reflexivity.
Qed.
