(* ===== verification/ShiftHandlers.v ===== *)
(** * The shift requests (services/api/internal/server/shifts_handlers.go)

    A handler checks the request and the pool, then runs one transaction on the
    tables of [Operations]; opening a shift reads the roster of [Workforce].
    [pool] is the state the reads before the transaction showed. *)

From stdpp Require Import base list strings gmap.
From Stdlib Require Import ZArith Lia.
From S2P Require Import Prelude Numeric Schema Policy Operations Workforce WorkforceHandlers.

Local Open Scope Z_scope.
Local Open Scope tx_scope.

(** ** Reads of the package [operations] on the workforce *)

Definition employee_login (user : uuid) (e : EmployeeRow) : bool :=
  bool_decide (em_user e = Some user) && bool_decide (em_status e = "active"%string).

(** An active employee of the shift's station, or of its team. *)
Definition IsStationMemberForShift (o : Ops) (staff : Staff) (tenant shift user : uuid) : bool :=
  exists_where (fun '(s, e) => sh_by tenant shift s)
    (join (fun s e => bool_decide (em_tenant e = sh_tenant s /\ em_station e = sh_station s)
                      && employee_login user e) (op_shifts o) (wf_employees staff))
  || exists_where (fun '(s, m, e) => sh_by tenant shift s)
       (join (fun '(s, m) e => member_row m e && employee_login user e)
          (join (fun s m => bool_decide (mb_tenant m = sh_tenant s /\ sh_team s = Some (mb_team m)))
             (op_shifts o) (wf_members staff)) (wf_employees staff)).

Definition GetNozzleAssignment (o : Ops) (tenant shift id : uuid) : result ops_error NozzleAssignment :=
  of_option ErrAssignmentNotFound
    (first_where (fun n => assigned_on tenant shift n && bool_decide (na_id n = id)) (op_assignments o)).

(** [nozzles.Get] *)
Definition nozzles_Get (o : Ops) (tenant id : uuid) : option NozzleRow :=
  first_where (fun z => bool_decide (nz_id z = id /\ nz_tenant z = tenant) && negb (nz_deleted z))
    (op_nozzles o).

Section Handlers.
Context {L : Type} `{Loader L}.
Context (policy : L) (collate : string -> string -> bool) (cfgDefault cfgMax : Z).

(** ** Listing and reading *)

Definition handleListShifts (pool : Ops) (ctx : option Actor) (station : result unit uuid)
    (day : option (result unit uuid)) (limit offset : option (result unit Z))
  : result http_error (list Shift * bool) :=
  (let? a := ops_actor ctx in
   let? sid := url_id "invalid station id" station in
   let? dayID := match day with
                 | None => Ok None
                 | Some (Ok d) => Ok (Some d)
                 | Some (Err _) => Err (bad_request "invalid operating_day_id")
                 end in
   let? (l, o) := parsePage cfgDefault cfgMax limit offset in
   Ok (page_of l (ListShiftsPage pool (ac_tenant a) sid dayID (Z.to_nat (l + 1)) (Z.to_nat o))))%res.

Definition handleGetShift (pool : Ops) (ctx : option Actor) (id : result unit uuid)
  : result http_error (Shift * list Attendant * list NozzleAssignment) :=
  (let? a := ops_actor ctx in
   let? id := url_id "invalid shift id" id in
   let? shift := of_option (HttpError 404 "shift not found") (GetShift pool (ac_tenant a) id) in
   let? _ := authorizeStation policy a "station.read" (sh_station shift) in
   Ok (shift, ListAttendants pool (ac_tenant a) id, ListNozzleAssignments pool (ac_tenant a) id))%res.

(** ** Opening *)

Record openShiftRequest := mkOpenRequest {
  rq_day : uuid; rq_name : string; rq_slot : Slot; rq_notes : option string; rq_reason : text }.

(** The team members with a login. *)
Definition logins (members : list Employee) : list uuid := omap (fun e => em_user (ep_row e)) members.

(** [blockers] are those of [setup.OpenShiftBlockers] for the station. *)
Definition handleOpenShift (pool : Ops) (staff : Staff) (blockers : list string) (ctx : option Actor)
    (station : result unit uuid) (body : result unit openShiftRequest) : Tx Ops http_error Shift :=
  let! a := tlift (ops_actor ctx) in
  let! sid := tlift (url_id "invalid station id" station) in
  let! req := tlift (json_body body) in
  tguard (negb (bool_decide (rq_day req = uuid_nil) || bool_decide (rq_name req = ""%string)))
    (bad_request "operating_day_id and name are required") ;;!
  tguard (Valid (rq_slot req)) (bad_request "slot is required and must be morning or evening") ;;!
  let! day := tlift (of_option (HttpError 404 "operating day not found")
    (GetDay (op_days pool) (ac_tenant a) (rq_day req))) in
  tguard (bool_decide (dy_station day = sid)) (bad_request "operating day belongs to a different station") ;;!
  tguard (bool_decide (dy_status day = DayOpen)) (HttpError 409 "operating day is not open") ;;!
  tguard (bool_decide (blockers = [])) (HttpError 409 "station setup is incomplete") ;;!
  let! sched := tlift (res_conv (ScheduledTeamFor collate staff (ac_tenant a) sid (dy_date day) (rq_slot req))) in
  match sc_team sched with
  | None => tfail (bad_request
      "station has no rotation configured (set the rotation anchor and the three teams first)")
  | Some team =>
      let users := logins (sc_members sched) in
      tguard (negb (bool_decide (users = []))) (bad_request
        "the scheduled team has no members with a login account — no shift without its expected employees") ;;!
      open_shift_tx policy a
        (mkOpenShift sid (rq_day req) (ac_user a) (rq_name req) (rq_notes req) (Some (rq_slot req))
           (Some (tm_id (te_row team))))
        (negb (bool_decide (trim_right IsSpace (trim_left IsSpace (rq_reason req)) = []))) users
  end.

(** ** Guards shared by the writes on a shift *)

Definition shiftForWrite (pool : Ops) (a : Actor) (id : result unit uuid) (perm : string)
    (requireOpen : bool) : result http_error Shift :=
  (let? id := url_id "invalid shift id" id in
   let? shift := of_option (HttpError 404 "shift not found") (GetShift pool (ac_tenant a) id) in
   let? _ := authorizeStation policy a perm (sh_station shift) in
   if requireOpen && negb (bool_decide (sh_status shift = ShiftOpen))
   then Err (HttpError 409 "shift is not open") else Ok shift)%res.

(** The shift, and whether the actor acts by the overriding permission. *)
Definition shiftForScopedWrite (pool : Ops) (a : Actor) (id : result unit uuid)
    (basePerm overridePerm : string) (requireOpen : bool) : result http_error (Shift * bool) :=
  (let? id := url_id "invalid shift id" id in
   let? shift := of_option (HttpError 404 "shift not found") (GetShift pool (ac_tenant a) id) in
   let override := match service_Can policy a overridePerm (Some (sh_station shift)) with
                   | Ok _ => true | Err _ => false end in
   let? _ := if override then Ok tt
             else let? _ := authorizeStation policy a basePerm (sh_station shift) in
                  if IsAttendantOnShift pool (ac_tenant a) (sh_id shift) (ac_user a) then Ok tt
                  else Err (HttpError 403 "you are not assigned to this shift") in
   if requireOpen && negb (bool_decide (sh_status shift = ShiftOpen))
   then Err (HttpError 409 "shift is not open") else Ok (shift, override))%res.

Definition attendantFilter (a : Actor) (override : bool) : option uuid :=
  if override then None else Some (ac_user a).

Definition requireNozzleAssigned (pool : Ops) (a : Actor) (shift nozzle : uuid) (override : bool)
  : result http_error unit :=
  if NozzleAssignedOnShift pool (ac_tenant a) shift nozzle (attendantFilter a override) then Ok tt
  else if override then Err (HttpError 422 "nozzle is not assigned on this shift")
  else Err (HttpError 403 "nozzle is not assigned to you on this shift").

Definition requireTankAssigned (pool : Ops) (a : Actor) (shift tank : uuid) (override : bool)
  : result http_error unit :=
  if TankAssignedOnShift pool (ac_tenant a) shift tank (attendantFilter a override) then Ok tt
  else if override then Err (HttpError 422 "no nozzle drawing from this tank is assigned on this shift")
  else Err (HttpError 403 "no nozzle drawing from this tank is assigned to you on this shift").

(** ** Attendants and nozzles *)

Definition assign_error (e : ops_error) : http_error :=
  match e with
  | OpsUnique => HttpError 409 "user is already on this shift"
  | OpsForeignKey => HttpError 404 "user not found"
  | _ => ops_internal
  end.

Definition handleAssignAttendant (pool : Ops) (staff : Staff) (ctx : option Actor) (id : result unit uuid)
    (body : result unit uuid) : Tx Ops http_error unit :=
  let! a := tlift (ops_actor ctx) in
  let! user := tlift (json_body body) in
  tguard (negb (bool_decide (user = uuid_nil))) (bad_request "user_id is required") ;;!
  let! shift := tlift (shiftForWrite pool a id "shift.assign" true) in
  tguard (IsStationMemberForShift pool staff (ac_tenant a) (sh_id shift) user)
    (HttpError 422 "user is not an employee of this shift's station") ;;!
  tconv assign_error (AssignAttendant (ac_tenant a) (sh_id shift) user (ac_user a)) ;;!
  ops_audit (ac_tenant a) (ac_user a) "shift.attendant_assigned" (sh_id shift).

Definition assignment_missing (e : ops_error) : http_error :=
  if bool_decide (e = ErrAssignmentNotFound) then HttpError 404 "not found" else ops_internal.

Definition handleUnassignAttendant (pool : Ops) (ctx : option Actor) (id user : result unit uuid)
  : Tx Ops http_error unit :=
  let! a := tlift (ops_actor ctx) in
  let! user := tlift (url_id "invalid user id" user) in
  let! shift := tlift (shiftForWrite pool a id "shift.assign" true) in
  tconv assignment_missing (UnassignAttendant (ac_tenant a) (sh_id shift) user) ;;!
  ops_audit (ac_tenant a) (ac_user a) "shift.attendant_unassigned" (sh_id shift).

(** The body is the nozzle and the attendant. *)
Definition handleAssignNozzle (pool : Ops) (ctx : option Actor) (id : result unit uuid)
    (body : result unit (uuid * uuid)) : Tx Ops http_error NozzleAssignment :=
  let! a := tlift (ops_actor ctx) in
  let! (nozzle, attendant) := tlift (json_body body) in
  tguard (negb (bool_decide (nozzle = uuid_nil) || bool_decide (attendant = uuid_nil)))
    (bad_request "nozzle_id and attendant_id are required") ;;!
  let! shift := tlift (shiftForWrite pool a id "shift.assign" true) in
  let! z := tlift (of_option (HttpError 404 "nozzle not found") (nozzles_Get pool (ac_tenant a) nozzle)) in
  tguard (bool_decide (nz_station z = sh_station shift))
    (bad_request "nozzle is at a different station than the shift") ;;!
  tguard (IsAttendantOnShift pool (ac_tenant a) (sh_id shift) attendant)
    (bad_request "attendant is not assigned to this shift") ;;!
  let! n := tconv (fun e => if bool_decide (e = OpsUnique)
                            then HttpError 409 "nozzle is already assigned on this shift" else ops_internal)
    (AssignNozzle (ac_tenant a) (sh_station shift) (sh_id shift) nozzle attendant (ac_user a)) in
  ops_audit (ac_tenant a) (ac_user a) "shift.nozzle_assigned" (sh_id shift) ;;!
  tret n.

Definition handleUnassignNozzle (pool : Ops) (ctx : option Actor) (id assignment : result unit uuid)
  : Tx Ops http_error unit :=
  let! a := tlift (ops_actor ctx) in
  let! asg := tlift (url_id "invalid assignment id" assignment) in
  let! shift := tlift (shiftForWrite pool a id "shift.assign" true) in
  let! _ := tconv assignment_missing (tlift (GetNozzleAssignment pool (ac_tenant a) (sh_id shift) asg)) in
  tconv assignment_missing (UnassignNozzle (ac_tenant a) (sh_id shift) asg) ;;!
  ops_audit (ac_tenant a) (ac_user a) "shift.nozzle_unassigned" (sh_id shift).
End Handlers.
