(* ===== verification/ShiftHandlersProps.v ===== *)
(** * Properties of the shift requests

    A shift opens with its rostered team and past the handover gate; an
    attendant reaches only the shifts and nozzles assigned to them. *)

From stdpp Require Import base list strings gmap.
From Stdlib Require Import ZArith Lia.
From S2P Require Import Prelude Numeric Schema Policy Operations OperationsProps Workforce WorkforceHandlers.
From S2P Require Import RosterProps ShiftHandlers.

Local Open Scope Z_scope.
Local Open Scope tx_scope.

(** ** Opening a shift *)

(** The attendant rows the loop writes. *)
Definition attendant_rows (tenant shift by_ : uuid) (now : Z) (users : list uuid) : list Attendant :=
  (fun u => mkAttendant shift u tenant by_ now) <$> users.

Lemma assign_attendants_rows t s b us : forall o x o',
  assign_attendants t s b us o = Ok (x, o') ->
  op_attendants o' = op_attendants o ++ attendant_rows t s b (op_now o) us /\ op_shifts o' = op_shifts o.
Proof.
  induction us as [|u us IH]; intros o x o' H; simpl in H; tx_steps H; subst.
  - by rewrite app_nil_r.
  - unfold AssignAttendant in E. tx_steps E. injection E as _ <-. apply IH in H as [-> ->]. simpl.
    by rewrite <- app_assoc.
Qed.

Lemma ops_audit_rows {E} t a x e o u o' :
  ops_audit (E := E) t a x e o = Ok (u, o') -> op_attendants o' = op_attendants o /\ op_shifts o' = op_shifts o.
Proof. by intros [= _ <-]. Qed.

Lemma guarded_audit_rows {E} (b : bool) t a x e o u o' :
  (if b then ops_audit (E := E) t a x e else tret tt) o = Ok (u, o') ->
  op_attendants o' = op_attendants o /\ op_shifts o' = op_shifts o.
Proof. destruct b; [apply ops_audit_rows|]. by intros [= _ <-]. Qed.

Section Opening.
Context {L : Type} `{Loader L}.
Context (policy : L) (collate : string -> string -> bool).

(** The gate: no closed shift of the station awaits approval, or the actor
    may approve there and gave a reason. *)
Definition handover_passed (o : Ops) (a : Actor) (station : uuid) (has_reason : bool) : Prop :=
  ClosedUnapprovedShiftIDsForStation o (ac_tenant a) station = []
  \/ (has_reason = true /\ authorizeStation policy a "shift.approve" station = Ok tt).

Lemma open_shift_tx_rows a i has_reason users o s o' :
  open_shift_tx policy a i has_reason users o = Ok (s, o') ->
  LockDayStatusForShare o (ac_tenant a) (os_day i) = Ok DayOpen
  /\ handover_passed o a (os_station i) has_reason
  /\ sh_status s = ShiftOpen /\ sh_station s = os_station i /\ sh_day s = os_day i
  /\ sh_slot s = os_slot i /\ sh_team s = os_team i
  /\ op_shifts o' = op_shifts o ++ [s]
  /\ op_attendants o' = op_attendants o ++ attendant_rows (ac_tenant a) (sh_id s) (ac_user a) (op_now o) users.
Proof.
  intros Hrun. unfold open_shift_tx in Hrun. tx_steps Hrun. subst.
  match goal with Hx : tlift (LockDayStatusForShare _ _ _) _ = _ |- _ => apply tlift_ok in Hx as [Hl ->] end.
  bool_solve. subst. split; [done|].
  match goal with Hx : (if _ then tlift (authorizeStation _ _ _ _) else tret tt) _ = _ |- _ =>
    assert (Hg : handover_passed o a (os_station i) has_reason);
      [|apply guarded_read in Hx; subst] end.
  { unfold handover_passed. destruct (bool_decide (ClosedUnapprovedShiftIDsForStation _ _ _ = [])) eqn:Eb.
    - apply bool_decide_eq_true in Eb. by left.
    - right. simpl in *. destruct has_reason; [|discriminate]. split; [done|].
      match goal with Hx : tlift (authorizeStation _ _ _ _) _ = Ok (?y, _) |- _ =>
        apply tlift_ok in Hx as [Hx _]; by destruct y end. }
  split; [exact Hg|].
  match goal with Hx : OpenShift _ _ _ = _ |- _ => unfold OpenShift in Hx; tx_steps Hx end. subst.
  match goal with Hx : assign_attendants _ _ _ _ _ = _ |- _ => apply assign_attendants_rows in Hx as [Ha Hs] end.
  match goal with Hx : ops_audit _ _ "shift.opened" _ _ = _ |- _ => apply ops_audit_rows in Hx as [Ha2 Hs2] end.
  match goal with Hx : (if _ then _ else tret tt) _ = Ok _ |- _ => apply guarded_audit_rows in Hx as [Ha3 Hs3] end.
  rewrite Ha3, Ha2, Ha, Hs3, Hs2, Hs. done.
Qed.

(** A shift never opens without its expected employees: when the request
    succeeds, the day is open and of the station, the handover gate was
    passed, the new shift carries the requested slot and the team scheduled
    for it, and its attendants are exactly the team's members with a login,
    of whom there is at least one. *)
Theorem handleOpenShift_rosters pool staff blockers ctx station body o s o' :
  handleOpenShift policy collate pool staff blockers ctx station body o = Ok (s, o') ->
  exists a sid req day sched team,
    ops_actor ctx = Ok a /\ station = Ok sid /\ body = Ok req /\ blockers = []
    /\ GetDay (op_days pool) (ac_tenant a) (rq_day req) = Some day /\ dy_station day = sid
    /\ LockDayStatusForShare o (ac_tenant a) (rq_day req) = Ok DayOpen
    /\ (ClosedUnapprovedShiftIDsForStation o (ac_tenant a) sid = []
        \/ authorizeStation policy a "shift.approve" sid = Ok tt)
    /\ ScheduledTeamFor collate staff (ac_tenant a) sid (dy_date day) (rq_slot req) = Ok sched
    /\ sc_team sched = Some team
    /\ sh_status s = ShiftOpen /\ sh_slot s = Some (rq_slot req) /\ sh_team s = Some (tm_id (te_row team))
    /\ op_shifts o' = op_shifts o ++ [s] /\ logins (sc_members sched) <> []
    /\ op_attendants o' = op_attendants o
         ++ attendant_rows (ac_tenant a) (sh_id s) (ac_user a) (op_now o) (logins (sc_members sched)).
Proof.
  intros Hrun. unfold handleOpenShift in Hrun. tx_steps Hrun.
  apply open_shift_tx_rows in Hrun as (Hl & Hg & Hst & _ & _ & Hsl & Htm & Hs & Ha). bool_solve.
  match goal with Hx : url_id _ _ = Ok _ |- _ => unfold url_id in Hx; destruct station; [injection Hx as ->|discriminate] end.
  match goal with Hx : json_body _ = Ok _ |- _ => unfold json_body in Hx; destruct body; [injection Hx as ->|discriminate] end.
  match goal with Hx : res_conv ?r = Ok _ |- _ => unfold res_conv in Hx; destruct r as [sched|] eqn:Er; [injection Hx as ->|discriminate] end.
  do 6 eexists. do 4 (split; [done|]). split; [done|]. split; [done|]. split; [exact Hl|].
  split; [destruct Hg as [Hg|[_ Hg]]; auto|]. split; [exact Er|]. split; [done|]. split; [done|]. split; [exact Hsl|].
  split; [exact Htm|]. split; [exact Hs|]. split; [done|exact Ha].
Qed.
End Opening.

(** Day 7 at station 20: Asha's team, team 2, has the evening. *)
Definition ops_staffed : Ops :=
  mkOpsState [mkDay 100 1 20 7 DayOpen 2 0 None None None None None] [] [] [] [mkStation 1 20 false]
    [(1, 2); (1, 3)]%N [(1, 2); (1, 3); (1, 4)]%N [] [] 101 0.
Definition evening_request : openShiftRequest := mkOpenRequest 100 "Evening" SlotEvening None [].

Lemma handleOpenShift_rosters_witness :
  exists s o', handleOpenShift ops_policy byte_collate ops_staffed staff_home [] (Some supervisor) (Ok 20%N)
                 (Ok evening_request) ops_staffed = Ok (s, o')
    /\ op_shifts o' = op_shifts ops_staffed ++ [s]
    /\ op_attendants o' = [mkAttendant 101 3 1 2 0] /\ sh_team s = Some 2%N.
Proof.
  eexists _, _. split; [vm_compute; reflexivity|]. split; [|split; reflexivity].
  edestruct (handleOpenShift_rosters ops_policy byte_collate ops_staffed staff_home [] (Some supervisor) (Ok 20%N)
    (Ok evening_request) ops_staffed) as (a & sid & req & day & sched & team & Hx); [vm_compute; reflexivity|].
  apply Hx.
Defined.

(** ** The scope of an attendant *)

Section Scope.
Context {L : Type} `{Loader L}.
Context (policy : L).

(** An attendant-class write on a nozzle is by someone who holds the
    overriding permission at the shift's station, or by an attendant of the
    shift who holds the base permission and to whom the nozzle is assigned. *)
Theorem scoped_write_allowed pool a id basePerm overridePerm requireOpen shift override nozzle :
  shiftForScopedWrite policy pool a id basePerm overridePerm requireOpen = Ok (shift, override) ->
  requireNozzleAssigned pool a (sh_id shift) nozzle override = Ok tt ->
  (requireOpen = true -> sh_status shift = ShiftOpen)
  /\ (service_Can policy a overridePerm (Some (sh_station shift)) = Ok tt
      \/ (authorizeStation policy a basePerm (sh_station shift) = Ok tt
          /\ IsAttendantOnShift pool (ac_tenant a) (sh_id shift) (ac_user a) = true
          /\ NozzleAssignedOnShift pool (ac_tenant a) (sh_id shift) nozzle (Some (ac_user a)) = true)).
Proof.
  unfold shiftForScopedWrite, rbind. destruct (url_id _ id) as [i|]; [|done].
  destruct (of_option _ _) as [sh|]; [|done]. intros Hs Hn.
  destruct (service_Can policy a overridePerm (Some (sh_station sh))) as [[]|] eqn:Ec.
  - destruct (requireOpen && negb _) eqn:Er; [done|]. injection Hs as <- <-. split; [|by left].
    intros ->. simpl in Er. bool_solve. done.
  - destruct (authorizeStation policy a basePerm (sh_station sh)) as [[]|] eqn:Ea; [|done].
    destruct (IsAttendantOnShift _ _ _ _) eqn:Eo; [|done].
    destruct (requireOpen && negb _) eqn:Er; [done|]. injection Hs as <- <-.
    split; [intros ->; simpl in Er; by bool_solve|]. right. split; [done|]. split; [done|].
    unfold requireNozzleAssigned, attendantFilter in Hn. by destruct (NozzleAssignedOnShift _ _ _ _ _).
Qed.
End Scope.
