(* ===== verification/Readings.v ===== *)
(** * Meter and dip readings of a shift and their verification (package
      [readings]: repo.go, dips.go, verification.go)

    The tables a shift fills before it is approved, as one record [Site] around
    the tables of [Operations] and [Schema]; the rows carry the constraints of
    migrations 0012, 0016, 0017, 0018, 0019, 0033, 0088, 0101, 0102 and 0104.  A
    [numeric(14,3)] column is a number of thousandths, a [numeric(14,2)] column a
    number of hundredths; the code passes decimal strings in and reads
    [::text] back. *)

From stdpp Require Import base list strings.
From Stdlib Require Import ZArith Lia.
From S2P Require Import Prelude Numeric Schema Ledger Policy Operations Workforce.

Local Open Scope Z_scope.
Local Open Scope tx_scope.

(** ** Tables *)

(** [chk_meter_readings_type] and [chk_meter_readings_status] *)
Inductive reading_type := Opening | Closing.
#[export] Instance reading_type_eq : EqDecision reading_type.
Proof. solve_decision. Defined.
Inductive reading_status := ReadingActive | ReadingSuperseded.
#[export] Instance reading_status_eq : EqDecision reading_status.
Proof. solve_decision. Defined.

Record MeterReading := mkMeter {
  mr_id : uuid; mr_tenant : uuid; mr_shift : uuid; mr_nozzle : uuid; mr_type : reading_type;
  mr_reading : Z; mr_by : uuid; mr_at : Z; mr_supersedes : option uuid; mr_status : reading_status }.

Record DipReading := mkDipReading {
  dr_id : uuid; dr_tenant : uuid; dr_shift : uuid; dr_tank : uuid; dr_type : reading_type;
  dr_mm : Z; dr_volume : Z; dr_water : option Z; dr_temperature : option Z; dr_chart : uuid;
  dr_by : uuid; dr_at : Z; dr_supersedes : option uuid; dr_status : reading_status }.

Inductive verification_status := VerApproved | VerCorrected | VerRejected | VerFlagged.
#[export] Instance verification_status_eq : EqDecision verification_status.
Proof. solve_decision. Defined.

Record Verification := mkVerification {
  vf_id : uuid; vf_tenant : uuid; vf_station : uuid; vf_shift : uuid; vf_nozzle : uuid;
  vf_reading : uuid; vf_submitted : Z; vf_supervisor : option Z; vf_final : Z;
  vf_status : verification_status; vf_reason : option text; vf_by : uuid; vf_at : Z }.

Record CloseLine := mkCloseLine {
  cl_id : uuid; cl_tenant : uuid; cl_shift : uuid; cl_nozzle : uuid;
  cl_opening : Z; cl_closing : Z; cl_litres : Z; cl_price : Z; cl_value : Z }.

Record CashSubmission := mkCash {
  cs_id : uuid; cs_tenant : uuid; cs_shift : uuid; cs_expected : Z; cs_cash : Z; cs_mobile : Z;
  cs_card : Z; cs_credit : Z; cs_total : Z; cs_variance : Z; cs_by : uuid; cs_at : Z;
  cs_notes : option text }.

Inductive receipt_status :=
| RcReceived | RcApprovedWithDifference | RcRejected | RcFlagged.
#[export] Instance receipt_status_eq : EqDecision receipt_status.
Proof. solve_decision. Defined.

Record CollectionReceipt := mkReceipt {
  cr_id : uuid; cr_tenant : uuid; cr_station : uuid; cr_shift : uuid; cr_submission : uuid;
  cr_expected : Z; cr_submitted : Z; cr_received : Z; cr_difference : Z; cr_status : receipt_status;
  cr_reason : option text; cr_comment : option text; cr_by : uuid; cr_at : Z }.

(** [chk_shift_exc_type]; the code raises [cash_variance] only. *)
Inductive exception_type := MissingReading | CashVariance | MeterRollback | LateClose | OtherException.
Inductive exception_severity := SevLow | SevMedium | SevHigh | SevCritical.
Inductive exception_status := ExcOpen | ExcResolved.
#[export] Instance exception_status_eq : EqDecision exception_status.
Proof. solve_decision. Defined.

Record ShiftException := mkException {
  se_id : uuid; se_tenant : uuid; se_shift : uuid; se_type : exception_type;
  se_severity : exception_severity; se_detail : option string; se_status : exception_status;
  se_raised_at : Z; se_resolved_by : option uuid; se_resolved_at : option Z }.

(** One [sales] row; prices and costs in units of [10^-4], the tax rate in
    hundredths of a percent. *)
Record Sale := mkSale {
  sale_id : uuid; sale_tenant : uuid; sale_shift : uuid; sale_station : uuid; sale_day : uuid;
  sale_nozzle : uuid; sale_product : uuid; sale_tank : uuid; sale_litres : Z; sale_price : Z; sale_gross : Z;
  sale_tax_rate : Z; sale_tax : Z; sale_net : Z; sale_cost : option Z; sale_cogs : option Z;
  sale_margin : option Z; sale_by : uuid; sale_at : Z }.

Inductive void_status := VoidRequested | VoidApproved | VoidRejected.
#[export] Instance void_status_eq : EqDecision void_status.
Proof. solve_decision. Defined.

(** The reversal amounts are null until the void is approved; the cost and the
    margin mirror the sale's. *)
Record SaleVoid := mkVoid {
  vd_id : uuid; vd_tenant : uuid; vd_sale : uuid; vd_status : void_status; vd_reason : text;
  vd_litres : option Z; vd_gross : option Z; vd_tax : option Z; vd_net : option Z;
  vd_cogs : option Z; vd_margin : option Z; vd_requested_by : uuid; vd_decided_by : option uuid;
  vd_note : option text; vd_requested_at : Z; vd_decided_at : option Z }.

(** Prices are numeric(14,4), in ten-thousandths. *)
Record PriceChange := mkPrice {
  pc_id : uuid; pc_tenant : uuid; pc_station : uuid; pc_product : uuid; pc_price : Z; pc_from : Z;
  pc_previous : option Z; pc_reason : option string; pc_by : uuid; pc_created : Z }.

(** [tp_deleted] is [status = 'deleted']. *)
Record TaxedProduct := mkTaxed {
  tp_tenant : uuid; tp_id : uuid; tp_rate : Z; tp_code : string; tp_name : string; tp_color : string;
  tp_deleted : bool }.

(** [ch_active] is [status = 'active']; the entries of a chart hold a depth in
    millimetres and a volume in thousandths of a litre. *)
Record ChartRow := mkChart {
  ch_id : uuid; ch_tenant : uuid; ch_tank : uuid; ch_name : string; ch_from : Z; ch_until : option Z;
  ch_active : bool; ch_source : string }.
Record ChartEntry := mkChartEntry { ce_chart : uuid; ce_dip : Z; ce_volume : Z }.

Record Site := mkSite {
  s_ops : Ops;
  s_inv : DB;
  s_meters : list MeterReading;
  s_dips : list DipReading;
  s_verifications : list Verification;
  s_lines : list CloseLine;
  s_cash : list CashSubmission;
  s_receipts : list CollectionReceipt;
  s_exceptions : list ShiftException;
  s_sales : list Sale;
  s_voids : list SaleVoid;
  s_prices : list PriceChange;
  s_products : list TaxedProduct;
  s_charts : list ChartRow;
  s_entries : list ChartEntry;
}.

Definition set_ops v s := mkSite v (s_inv s) (s_meters s) (s_dips s) (s_verifications s) (s_lines s)
  (s_cash s) (s_receipts s) (s_exceptions s) (s_sales s) (s_voids s) (s_prices s) (s_products s) (s_charts s) (s_entries s).
Definition set_inv v s := mkSite (s_ops s) v (s_meters s) (s_dips s) (s_verifications s) (s_lines s)
  (s_cash s) (s_receipts s) (s_exceptions s) (s_sales s) (s_voids s) (s_prices s) (s_products s) (s_charts s) (s_entries s).
Definition set_meters v s := mkSite (s_ops s) (s_inv s) v (s_dips s) (s_verifications s) (s_lines s)
  (s_cash s) (s_receipts s) (s_exceptions s) (s_sales s) (s_voids s) (s_prices s) (s_products s) (s_charts s) (s_entries s).
Definition set_dips v s := mkSite (s_ops s) (s_inv s) (s_meters s) v (s_verifications s) (s_lines s)
  (s_cash s) (s_receipts s) (s_exceptions s) (s_sales s) (s_voids s) (s_prices s) (s_products s) (s_charts s) (s_entries s).
Definition set_verifications v s := mkSite (s_ops s) (s_inv s) (s_meters s) (s_dips s) v (s_lines s)
  (s_cash s) (s_receipts s) (s_exceptions s) (s_sales s) (s_voids s) (s_prices s) (s_products s) (s_charts s) (s_entries s).
Definition set_lines v s := mkSite (s_ops s) (s_inv s) (s_meters s) (s_dips s) (s_verifications s) v
  (s_cash s) (s_receipts s) (s_exceptions s) (s_sales s) (s_voids s) (s_prices s) (s_products s) (s_charts s) (s_entries s).
Definition set_cash v s := mkSite (s_ops s) (s_inv s) (s_meters s) (s_dips s) (s_verifications s)
  (s_lines s) v (s_receipts s) (s_exceptions s) (s_sales s) (s_voids s) (s_prices s) (s_products s) (s_charts s) (s_entries s).
Definition set_receipts v s := mkSite (s_ops s) (s_inv s) (s_meters s) (s_dips s) (s_verifications s)
  (s_lines s) (s_cash s) v (s_exceptions s) (s_sales s) (s_voids s) (s_prices s) (s_products s) (s_charts s) (s_entries s).
Definition set_exceptions v s := mkSite (s_ops s) (s_inv s) (s_meters s) (s_dips s) (s_verifications s)
  (s_lines s) (s_cash s) (s_receipts s) v (s_sales s) (s_voids s) (s_prices s) (s_products s) (s_charts s) (s_entries s).
Definition set_sales v s := mkSite (s_ops s) (s_inv s) (s_meters s) (s_dips s) (s_verifications s)
  (s_lines s) (s_cash s) (s_receipts s) (s_exceptions s) v (s_voids s) (s_prices s) (s_products s) (s_charts s) (s_entries s).
Definition set_voids v s := mkSite (s_ops s) (s_inv s) (s_meters s) (s_dips s) (s_verifications s)
  (s_lines s) (s_cash s) (s_receipts s) (s_exceptions s) (s_sales s) v (s_prices s) (s_products s) (s_charts s) (s_entries s).

Definition set_charts v e s := mkSite (s_ops s) (s_inv s) (s_meters s) (s_dips s) (s_verifications s)
  (s_lines s) (s_cash s) (s_receipts s) (s_exceptions s) (s_sales s) (s_voids s) (s_prices s)
  (s_products s) v e.

Definition set_prices v s := mkSite (s_ops s) (s_inv s) (s_meters s) (s_dips s) (s_verifications s)
  (s_lines s) (s_cash s) (s_receipts s) (s_exceptions s) (s_sales s) (s_voids s) v (s_products s) (s_charts s) (s_entries s).

(** The errors of the packages and the violations the driver reports. *)
Inductive site_error :=
| ErrReadingNotFound | ErrDipNotFound | ErrTerminalVerification | ErrCloseLineNotFound
| ErrExceptionNotFound | ErrTerminalReceipt
| SiteUnique | SiteCheck | SiteForeignKey | SiteNumeric.
#[export] Instance site_error_eq : EqDecision site_error.
Proof. solve_decision. Defined.

(** A statement on the tables of [Operations] or on the stock tables, inside a
    transaction on the site; [gen_random_uuid()] draws from the supply of
    [Operations]. *)
Definition on_ops {E A} (c : Tx Ops E A) : Tx Site E A :=
  fun s => match c (s_ops s) with
           | Ok (a, o) => Ok (a, set_ops o s)
           | Err e => Err e
           end.
Definition on_inv {E A} (c : Tx DB E A) : Tx Site E A :=
  fun s => match c (s_inv s) with
           | Ok (a, d) => Ok (a, set_inv d s)
           | Err e => Err e
           end.
Definition fresh_id {E} : Tx Site E uuid :=
  on_ops (fun o => Ok (op_next_id o, bump_op_id o)).
Definition site_now (s : Site) : Z := op_now (s_ops s).

(** [$N::numeric] assigned to a [numeric(p,s)] column. *)
Definition num {E} (e : E) (p s : nat) (v : string) : Tx Site E Z :=
  tlift (of_option e (parse_numeric v ≫= numeric_col p s)).

Definition fk_nozzle (o : Ops) (tenant nozzle : uuid) : bool :=
  exists_where (fun z => bool_decide (nz_tenant z = tenant /\ nz_id z = nozzle)) (op_nozzles o).
Definition fk_shift_at (o : Ops) (tenant station shift : uuid) : bool :=
  exists_where (fun s => sh_by tenant shift s && bool_decide (sh_station s = station)) (op_shifts o).

(** ** Meter readings (repo.go) *)

Definition mr_active (tenant shift : uuid) (m : MeterReading) : bool :=
  bool_decide (mr_tenant m = tenant /\ mr_shift m = shift /\ mr_status m = ReadingActive).
Definition mr_of (t : reading_type) (m : MeterReading) : bool := bool_decide (mr_type m = t).

(** The order of the words in the text column: ['closing' < 'opening']. *)
Definition type_le (a b : reading_type) : bool :=
  match a, b with Opening, Closing => false | _, _ => true end.
Definition nozzle_type_le (a b : MeterReading) : bool :=
  (mr_nozzle a <? mr_nozzle b)%N
  || ((mr_nozzle a =? mr_nozzle b)%N && type_le (mr_type a) (mr_type b)).
Definition ListActiveForShift (s : Site) (tenant shift : uuid) : list MeterReading :=
  order_by nozzle_type_le (select (mr_active tenant shift) (s_meters s)).

Definition nozzle_type_id_le (a b : MeterReading) : bool :=
  (mr_nozzle a <? mr_nozzle b)%N
  || ((mr_nozzle a =? mr_nozzle b)%N
      && (if bool_decide (mr_type a = mr_type b) then (mr_id a <=? mr_id b)%N
          else type_le (mr_type a) (mr_type b))).
Definition ListActiveForShiftPage (s : Site) (tenant shift : uuid) (limit offset : nat)
  : list MeterReading :=
  limit_offset limit offset
    (order_by nozzle_type_id_le (select (mr_active tenant shift) (s_meters s))).

(** The active opening and closing of one nozzle on the shift. *)
Definition reading_pairs (s : Site) (tenant shift : uuid) : list (MeterReading * MeterReading) :=
  select (fun '(o, c) => mr_active tenant shift o && mr_of Opening o)
    (join (fun o c => bool_decide (mr_tenant c = mr_tenant o /\ mr_shift c = mr_shift o
                                   /\ mr_nozzle c = mr_nozzle o /\ mr_type c = Closing
                                   /\ mr_status c = ReadingActive)) (s_meters s) (s_meters s)).
Definition opening_nozzle_le (a b : MeterReading * MeterReading) : bool :=
  (mr_nozzle a.1 <=? mr_nozzle b.1)%N.

(** The nozzle, its two readings and the litres between them. *)
Definition DispensedForShift (s : Site) (tenant shift : uuid) : list (uuid * Z * Z * Z) :=
  (fun '(o, c) => (mr_nozzle o, mr_reading o, mr_reading c, mr_reading c - mr_reading o)) <$>
    order_by opening_nozzle_le
      (select (fun '(o, c) => mr_reading o <=? mr_reading c) (reading_pairs s tenant shift)).

Definition RollbackNozzlesForShift (s : Site) (tenant shift : uuid) : list uuid :=
  (fun '(o, c) => mr_nozzle o) <$>
    order_by opening_nozzle_le
      (select (fun '(o, c) => mr_reading c <? mr_reading o) (reading_pairs s tenant shift)).

Definition mr_by_id (tenant id : uuid) (m : MeterReading) : bool :=
  bool_decide (mr_id m = id /\ mr_tenant m = tenant).
Definition readings_Get (s : Site) (tenant id : uuid) : option MeterReading :=
  first_where (mr_by_id tenant id) (s_meters s).

Definition ActiveForShiftNozzle (s : Site) (tenant shift nozzle : uuid) (t : reading_type)
  : option MeterReading :=
  first_where (fun m => mr_active tenant shift m && bool_decide (mr_nozzle m = nozzle) && mr_of t m)
    (s_meters s).

Record CaptureInput := mkCapture {
  ci_shift : uuid; ci_nozzle : uuid; ci_type : reading_type; ci_reading : string; ci_by : uuid;
  ci_supersedes : option uuid }.

(** [idx_meter_readings_active] *)
Definition same_slot (a b : MeterReading) : bool :=
  bool_decide (mr_shift a = mr_shift b /\ mr_nozzle a = mr_nozzle b /\ mr_type a = mr_type b
               /\ mr_status a = ReadingActive /\ mr_status b = ReadingActive).

Definition Capture (tenant : uuid) (i : CaptureInput) : Tx Site site_error MeterReading :=
  let! reading := num SiteNumeric 14 3 (ci_reading i) in
  tguard (0 <=? reading) SiteCheck ;;!
  let! id := fresh_id in
  let! s := tget in
  let m := mkMeter id tenant (ci_shift i) (ci_nozzle i) (ci_type i) reading (ci_by i) (site_now s)
    (ci_supersedes i) ReadingActive in
  tguard (negb (exists_where (same_slot m) (s_meters s))) SiteUnique ;;!
  tguard (fk_shift (s_ops s) tenant (ci_shift i) && fk_nozzle (s_ops s) tenant (ci_nozzle i)
          && fk_pair (op_users (s_ops s)) tenant (ci_by i)
          && fk_opt (fun x => exists_where (fun r => bool_decide (mr_id r = x)) (s_meters s))
               (ci_supersedes i)) SiteForeignKey ;;!
  tput (set_meters (s_meters s ++ [m]) s) ;;! tret m.

Definition superseded (m : MeterReading) : MeterReading :=
  mkMeter (mr_id m) (mr_tenant m) (mr_shift m) (mr_nozzle m) (mr_type m) (mr_reading m) (mr_by m)
    (mr_at m) (mr_supersedes m) ReadingSuperseded.

Definition Supersede (tenant id : uuid) : Tx Site site_error unit :=
  let! s := tget in
  let p m := mr_by_id tenant id m && bool_decide (mr_status m = ReadingActive) in
  tguard (exists_where p (s_meters s)) ErrReadingNotFound ;;!
  tput (set_meters (update_where p superseded (s_meters s)) s).

(** ** Verifications (verification.go) *)

Record VerificationInput := mkVerInput {
  vi_station : uuid; vi_shift : uuid; vi_nozzle : uuid; vi_reading : uuid; vi_submitted : string;
  vi_supervisor : option string; vi_final : string; vi_status : verification_status;
  vi_reason : option text; vi_by : uuid }.

(** The row a statement would write, and the checks of the table. *)
Definition verification_row (tenant id : uuid) (i : VerificationInput) : Tx Site site_error Verification :=
  let! submitted := num SiteNumeric 14 3 (vi_submitted i) in
  let! supervisor := match vi_supervisor i with
                     | None => tret None
                     | Some v => let! z := num SiteNumeric 14 3 v in tret (Some z)
                     end in
  let! final := num SiteNumeric 14 3 (vi_final i) in
  let! s := tget in
  tguard ((bool_decide (vi_status i = VerApproved) || bool_decide (vi_reason i <> None))
          && (negb (bool_decide (vi_status i = VerCorrected)) || bool_decide (supervisor <> None))
          && (0 <=? submitted) && (0 <=? final)) SiteCheck ;;!
  tret (mkVerification id tenant (vi_station i) (vi_shift i) (vi_nozzle i) (vi_reading i) submitted
          supervisor final (vi_status i) (vi_reason i) (vi_by i) (site_now s)).

Definition verification_fks (s : Site) (v : Verification) : bool :=
  fk_shift_at (s_ops s) (vf_tenant v) (vf_station v) (vf_shift v)
  && fk_nozzle (s_ops s) (vf_tenant v) (vf_nozzle v)
  && exists_where (mr_by_id (vf_tenant v) (vf_reading v)) (s_meters s)
  && fk_pair (op_users (s_ops s)) (vf_tenant v) (vf_by v).

Definition vf_on (tenant reading : uuid) (v : Verification) : bool :=
  bool_decide (vf_tenant v = tenant /\ vf_reading v = reading).

(** [uq_reading_verifications_reading] *)
Definition InsertVerification (tenant : uuid) (i : VerificationInput) : Tx Site site_error Verification :=
  let! id := fresh_id in
  let! v := verification_row tenant id i in
  let! s := tget in
  tguard (negb (exists_where (vf_on tenant (vi_reading i)) (s_verifications s))) SiteUnique ;;!
  tguard (verification_fks s v) SiteForeignKey ;;!
  tput (set_verifications (s_verifications s ++ [v]) s) ;;! tret v.

Definition on_hold (v : Verification) : bool :=
  bool_decide (vf_status v = VerRejected) || bool_decide (vf_status v = VerFlagged).

(** The update keeps the row's id. *)
Definition ReplaceHoldVerification (tenant : uuid) (i : VerificationInput)
  : Tx Site site_error Verification :=
  let! s := tget in
  let p v := vf_on tenant (vi_reading i) v && on_hold v in
  match first_where p (s_verifications s) with
  | None => tfail ErrTerminalVerification
  | Some old =>
      let! v := verification_row tenant (vf_id old) i in
      tguard (verification_fks s v) SiteForeignKey ;;!
      tput (set_verifications (update_where p (fun _ => v) (s_verifications s)) s) ;;! tret v
  end.

Definition nozzle_time_id_le (a b : Verification) : bool :=
  (vf_nozzle a <? vf_nozzle b)%N
  || ((vf_nozzle a =? vf_nozzle b)%N
      && ((vf_at a <? vf_at b) || ((vf_at a =? vf_at b) && (vf_id a <=? vf_id b)%N))).
Definition ListVerificationsForShift (s : Site) (tenant shift : uuid) : list Verification :=
  order_by nozzle_time_id_le
    (select (fun v => bool_decide (vf_tenant v = tenant /\ vf_shift v = shift)) (s_verifications s)).

Definition GetVerificationForReading (s : Site) (tenant reading : uuid) : option Verification :=
  first_where (vf_on tenant reading) (s_verifications s).

Definition active_closing (tenant shift : uuid) (m : MeterReading) : bool :=
  mr_active tenant shift m && mr_of Closing m.
(** The join of a reading and its verification. *)
Definition verifies (m : MeterReading) (v : Verification) : bool :=
  bool_decide (vf_tenant v = mr_tenant m /\ vf_reading v = mr_id m).

Definition nozzle_id_le (a b : MeterReading) : bool :=
  (mr_nozzle a <? mr_nozzle b)%N || ((mr_nozzle a =? mr_nozzle b)%N && (mr_id a <=? mr_id b)%N).
Definition UnverifiedClosingForShift (s : Site) (tenant shift : uuid) : list MeterReading :=
  order_by nozzle_id_le
    (select (fun m => active_closing tenant shift m
                      && negb (exists_where (verifies m) (s_verifications s))) (s_meters s)).

(** The map the caller fills row by row: the last row of a reading wins. *)
Definition FinalClosingOverridesForShift (s : Site) (tenant shift : uuid) : list (uuid * Z) :=
  (fun '(v, m) => (vf_reading v, vf_final v)) <$>
    select (fun '(v, m) => bool_decide (vf_tenant v = tenant /\ vf_shift v = shift)
                           && mr_of Closing m && bool_decide (mr_status m = ReadingActive))
      (join (fun v m => verifies m v) (s_verifications s) (s_meters s)).

(** The counts of unverified, rejected and flagged active closings, over the
    left join. *)
Definition gate_rows (s : Site) (tenant shift : uuid) : list (MeterReading * option Verification) :=
  left_join verifies (select (active_closing tenant shift) (s_meters s)) (s_verifications s).
Definition gate_count (p : option verification_status -> bool) (l : list (MeterReading * option Verification))
  : nat := length (select (fun r => p (vf_status <$> r.2)) l).
Definition ClosingVerificationGateCounts (s : Site) (tenant shift : uuid) : nat * nat * nat :=
  let rows := gate_rows s tenant shift in
  (gate_count (fun st => bool_decide (st = None)) rows,
   gate_count (fun st => bool_decide (st = Some VerRejected)) rows,
   gate_count (fun st => bool_decide (st = Some VerFlagged)) rows).

Definition ActiveClosingRejected (s : Site) (tenant shift nozzle : uuid) : bool :=
  exists_where (fun '(m, v) => active_closing tenant shift m && bool_decide (mr_nozzle m = nozzle)
                               && bool_decide (vf_status v = VerRejected))
    (join verifies (s_meters s) (s_verifications s)).

(** ** Tank dips (dips.go) *)

Definition dr_active (tenant shift : uuid) (d : DipReading) : bool :=
  bool_decide (dr_tenant d = tenant /\ dr_shift d = shift /\ dr_status d = ReadingActive).
Definition tank_type_le (a b : DipReading) : bool :=
  (dr_tank a <? dr_tank b)%N || ((dr_tank a =? dr_tank b)%N && type_le (dr_type a) (dr_type b)).
Definition ListDipsForShift (s : Site) (tenant shift : uuid) : list DipReading :=
  order_by tank_type_le (select (dr_active tenant shift) (s_dips s)).

Definition tank_type_id_le (a b : DipReading) : bool :=
  (dr_tank a <? dr_tank b)%N
  || ((dr_tank a =? dr_tank b)%N
      && (if bool_decide (dr_type a = dr_type b) then (dr_id a <=? dr_id b)%N
          else type_le (dr_type a) (dr_type b))).
Definition ListDipsForShiftPage (s : Site) (tenant shift : uuid) (limit offset : nat)
  : list DipReading :=
  limit_offset limit offset (order_by tank_type_id_le (select (dr_active tenant shift) (s_dips s))).

Definition dr_by_id (tenant id : uuid) (d : DipReading) : bool :=
  bool_decide (dr_id d = id /\ dr_tenant d = tenant).
Definition GetDip (s : Site) (tenant id : uuid) : option DipReading :=
  first_where (dr_by_id tenant id) (s_dips s).

(** [created_at] equals [recorded_at]: both default to the transaction's
    clock. *)
Definition recorded_le (a b : DipReading) : bool := dr_at a <=? dr_at b.
Definition recorded_ge (a b : DipReading) : bool := dr_at b <=? dr_at a.
Definition FirstDipForTank (s : Site) (tenant tank : uuid) : option DipReading :=
  head (order_by recorded_le
    (select (fun d => bool_decide (dr_tenant d = tenant /\ dr_tank d = tank
                                   /\ dr_status d = ReadingActive)) (s_dips s))).

Record CaptureDipInput := mkCaptureDip {
  di_shift : uuid; di_tank : uuid; di_type : reading_type; di_mm : string; di_volume : string;
  di_water : option dec; di_temperature : option dec; di_chart : uuid; di_by : uuid;
  di_supersedes : option uuid }.

Definition opt_col (p s : nat) (v : option dec) : result site_error (option Z) :=
  match v with
  | None => Ok None
  | Some d => match numeric_col p s d with Some z => Ok (Some z) | None => Err SiteNumeric end
  end.

(** [idx_tank_dip_active] *)
Definition same_dip_slot (a b : DipReading) : bool :=
  bool_decide (dr_shift a = dr_shift b /\ dr_tank a = dr_tank b /\ dr_type a = dr_type b
               /\ dr_status a = ReadingActive /\ dr_status b = ReadingActive).

Definition CaptureDip (tenant : uuid) (i : CaptureDipInput) : Tx Site site_error DipReading :=
  let! mm := num SiteNumeric 14 3 (di_mm i) in
  let! volume := num SiteNumeric 14 3 (di_volume i) in
  let! water := tlift (opt_col 14 3 (di_water i)) in
  let! temperature := tlift (opt_col 6 2 (di_temperature i)) in
  tguard ((0 <=? mm) && (0 <=? volume) && match water with Some w => 0 <=? w | None => true end)
    SiteCheck ;;!
  let! id := fresh_id in
  let! s := tget in
  let d := mkDipReading id tenant (di_shift i) (di_tank i) (di_type i) mm volume water temperature
    (di_chart i) (di_by i) (site_now s) (di_supersedes i) ReadingActive in
  tguard (negb (exists_where (same_dip_slot d) (s_dips s))) SiteUnique ;;!
  tguard (fk_shift (s_ops s) tenant (di_shift i) && fk_tank (s_inv s) tenant (di_tank i)
          && fk_pair (op_users (s_ops s)) tenant (di_by i)
          && exists_where (fun c => bool_decide (ch_id c = di_chart i)) (s_charts s)
          && fk_opt (fun x => exists_where (fun r => bool_decide (dr_id r = x)) (s_dips s))
               (di_supersedes i)) SiteForeignKey ;;!
  tput (set_dips (s_dips s ++ [d]) s) ;;! tret d.

Definition superseded_dip (d : DipReading) : DipReading :=
  mkDipReading (dr_id d) (dr_tenant d) (dr_shift d) (dr_tank d) (dr_type d) (dr_mm d) (dr_volume d)
    (dr_water d) (dr_temperature d) (dr_chart d) (dr_by d) (dr_at d) (dr_supersedes d)
    ReadingSuperseded.

Definition SupersedeDip (tenant id : uuid) : Tx Site site_error unit :=
  let! s := tget in
  let p d := dr_by_id tenant id d && bool_decide (dr_status d = ReadingActive) in
  tguard (exists_where p (s_dips s)) ErrDipNotFound ;;!
  tput (set_dips (update_where p superseded_dip (s_dips s)) s).

Definition ClosingDipForTankDay (s : Site) (tenant tank day : uuid) : option DipReading :=
  fst <$> head (order_by (fun a b => recorded_ge a.1 b.1)
    (select (fun '(d, sh) => bool_decide (dr_tenant d = tenant /\ dr_tank d = tank
                               /\ dr_type d = Closing /\ dr_status d = ReadingActive
                               /\ sh_day sh = day))
       (join (fun d sh => bool_decide (sh_id sh = dr_shift d /\ sh_tenant sh = dr_tenant d))
          (s_dips s) (op_shifts (s_ops s))))).
