(* ===== verification/Calibration.v ===== *)
(** * Strapping charts (package [calibration]: interpolate.go, repo.go)

    A tank's chart maps dip depths to volumes; a lookup interpolates between
    two neighbouring points in binary floating point and never extrapolates.
    [sort.Search] is the bisection of Go's library; a chart's depths are distinct
    ([uq_tce_chart_dip]), so any sort orders them alike. *)

From stdpp Require Import base list strings.
From Stdlib Require Import ZArith Lia.
From S2P Require Import Prelude Numeric Schema Ledger Float64 Policy Operations Workforce Readings.

Local Open Scope Z_scope.
Local Open Scope tx_scope.

Record Entry := mkEntry { en_dip : float64; en_volume : float64 }.

Inductive cal_error := ErrEmptyChart | ErrOutOfRange | ErrNoActiveChart | CalUnique | CalCheck | CalForeignKey | CalNumeric.
#[export] Instance cal_error_eq : EqDecision cal_error.
Proof. solve_decision. Defined.

(** [sort.Search(n, f)]: [for i < j], with [h] the middle; [fuel] bounds the
    halvings, and [n] of them are enough. *)
Fixpoint search (fuel : nat) (f : nat -> bool) (i j : nat) : nat :=
  match fuel with
  | O => i
  | S fuel =>
      if (i <? j)%nat then
        let h := ((i + j) / 2)%nat in
        if f h then search fuel f i h else search fuel f (S h) j
      else i
  end.
Definition Search (n : nat) (f : nat -> bool) : nat := search n f 0 n.

Definition dip_le (a b : Entry) : bool := f_le (en_dip a) (en_dip b).

Definition Interpolate (entries : list Entry) (dip : float64) : result cal_error float64 :=
  match order_by dip_le entries with
  | [] => Err ErrEmptyChart
  | first :: rest =>
      let sorted := first :: rest in
      let top := List.last sorted first in
      if f_lt dip (en_dip first) || f_lt (en_dip top) dip then Err ErrOutOfRange
      else
        let i := Search (length sorted) (fun k => f_le dip (en_dip (nth k sorted first))) in
        let hi := nth i sorted first in
        if f_eq (en_dip hi) dip then Ok (en_volume hi)
        else
          let lo := nth (i - 1) sorted first in
          let span := f_sub (en_dip hi) (en_dip lo) in
          if f_num span =? 0 then Ok (en_volume lo)
          else
            let ratio := f_div (f_sub dip (en_dip lo)) span in
            Ok (f_add (en_volume lo) (f_mul ratio (f_sub (en_volume hi) (en_volume lo))))
  end.

(** ** Charts (repo.go) *)

Definition ch_of (tenant tank : uuid) (c : ChartRow) : bool :=
  bool_decide (ch_tenant c = tenant /\ ch_tank c = tank).
(** The number of points is read with the chart. *)
Definition entry_count (s : Site) (c : ChartRow) : nat :=
  length (select (fun e => bool_decide (ce_chart e = ch_id c)) (s_entries s)).
Definition effective_desc (a b : ChartRow) : bool := ch_from b <=? ch_from a.
Definition ListCharts (s : Site) (tenant tank : uuid) : list (ChartRow * nat) :=
  (fun c => (c, entry_count s c)) <$> order_by effective_desc (select (ch_of tenant tank) (s_charts s)).
Definition effective_desc_id (a b : ChartRow) : bool :=
  (ch_from b <? ch_from a) || ((ch_from b =? ch_from a) && (ch_id a <=? ch_id b)%N).
Definition ListChartsPage (s : Site) (tenant tank : uuid) (limit offset : nat) : list (ChartRow * nat) :=
  (fun c => (c, entry_count s c)) <$>
    limit_offset limit offset (order_by effective_desc_id (select (ch_of tenant tank) (s_charts s))).

Definition active_chart (tenant tank : uuid) (c : ChartRow) : bool := ch_of tenant tank c && ch_active c.
Definition ActiveChart (s : Site) (tenant tank : uuid) : option (ChartRow * nat) :=
  (fun c => (c, entry_count s c)) <$> first_where (active_chart tenant tank) (s_charts s).

Definition supersede_chart (now : Z) (c : ChartRow) : ChartRow :=
  mkChart (ch_id c) (ch_tenant c) (ch_tank c) (ch_name c) (ch_from c) (Some now) false (ch_source c).

Definition SupersedeActive (tenant tank : uuid) : Tx Site cal_error (option uuid) :=
  let! s := tget in
  match first_where (active_chart tenant tank) (s_charts s) with
  | None => tret None
  | Some c =>
      tput (set_charts (update_where (active_chart tenant tank) (supersede_chart (site_now s)) (s_charts s))
              (s_entries s) s) ;;!
      tret (Some (ch_id c))
  end.

(** [int64(e.DipMM)] of a whole number, and the volume stored in a
    [numeric(14,3)]: the driver sends the double's shortest decimal, which
    [volume_text] stands for. *)
Definition whole (x : float64) : Z := f_num x / f_den x.

Definition chart_entries (volume_text : float64 -> string) (chart : uuid) (entries : list Entry)
  : result cal_error (list ChartEntry) :=
  fold_right (fun e r =>
    (let? rest := r in
     let? v := of_option CalNumeric (parse_numeric (volume_text (en_volume e)) ≫= numeric_col 14 3) in
     Ok (mkChartEntry chart (whole (en_dip e)) v :: rest))%res) (Ok []) entries.

Fixpoint distinct_dips (l : list ChartEntry) : bool :=
  match l with
  | [] => true
  | e :: rest => negb (existsb (fun x => ce_dip x =? ce_dip e) rest) && distinct_dips rest
  end.

(** [idx_tcc_one_active], then the entries' checks and [uq_tce_chart_dip]. *)
Definition CreateChart (volume_text : float64 -> string) (tenant tank : uuid) (name source : string)
    (effectiveFrom : Z) (entries : list Entry) : Tx Site cal_error (ChartRow * nat) :=
  let! id := fresh_id in
  let! s := tget in
  let c := mkChart id tenant tank name effectiveFrom None true source in
  tguard (negb (exists_where (fun x => bool_decide (ch_tank x = tank) && ch_active x) (s_charts s)))
    CalUnique ;;!
  tguard (fk_tank (s_inv s) tenant tank) CalForeignKey ;;!
  let! rows := tlift (chart_entries volume_text id entries) in
  tguard (forallb (fun e => (0 <=? ce_dip e) && (0 <=? ce_volume e)) rows) CalCheck ;;!
  tguard (distinct_dips rows) CalUnique ;;!
  tput (set_charts (s_charts s ++ [c]) (s_entries s ++ rows) s) ;;!
  tret (c, length entries).

(** The points of a chart by depth, scanned into doubles. *)
Definition entriesFor (s : Site) (chart : uuid) : list Entry :=
  (fun e => mkEntry (f_near (ce_dip e) 1) (float_of_milli (ce_volume e))) <$>
    order_by (fun a b => ce_dip a <=? ce_dip b)
      (select (fun e => bool_decide (ce_chart e = chart)) (s_entries s)).

Definition Lookup (s : Site) (tenant tank : uuid) (dip : float64) : result cal_error (float64 * uuid) :=
  match ActiveChart s tenant tank with
  | None => Err ErrNoActiveChart
  | Some (c, _) => (let? v := Interpolate (entriesFor s (ch_id c)) dip in Ok (v, ch_id c))%res
  end.

(** ** What a lookup returns *)

Section search.
Context (f : nat -> bool) (n : nat).
Hypothesis mono : forall i j, (i <= j < n)%nat -> f i = true -> f j = true.

Lemma search_spec fuel : forall i j,
  (j - i <= fuel)%nat -> (i <= j <= n)%nat ->
  (forall k, (k < i)%nat -> f k = false) -> ((j < n)%nat -> f j = true) ->
  (i <= search fuel f i j <= j)%nat /\ (forall k, (k < search fuel f i j)%nat -> f k = false)
  /\ ((search fuel f i j < n)%nat -> f (search fuel f i j) = true).
Proof using mono.
  induction fuel as [|fuel IH]; intros i j Hf Hij Hlo Hhi; cbn [search].
  - assert (i = j) as -> by lia. split; [lia|]. auto.
  - destruct (Nat.ltb_spec i j) as [Hlt|Hge].
    + cbv zeta. set (h := ((i + j) / 2)%nat).
      assert (Hh : (i <= h < j)%nat).
      { unfold h. split; [apply Nat.div_le_lower_bound; lia|apply Nat.Div0.div_lt_upper_bound; lia]. }
      destruct (f h) eqn:E.
      * destruct (IH i h ltac:(lia) ltac:(lia) Hlo (fun _ => E)) as (? & ? & ?). split; [lia|]. auto.
      * assert (Hlo' : forall k, (k < S h)%nat -> f k = false).
        { intros k Hk. destruct (f k) eqn:Ek; [|done].
          rewrite (mono k h) in E; [done|lia|done]. }
        destruct (IH (S h) j ltac:(lia) ltac:(lia) Hlo' Hhi) as (? & ? & ?). split; [lia|]. auto.
    + assert (i = j) as -> by lia. split; [lia|]. auto.
Qed.

(** The bisection finds the first index that passes. *)
Lemma Search_first :
  (Search n f <= n)%nat /\ (forall k, (k < Search n f)%nat -> f k = false)
  /\ ((Search n f < n)%nat -> f (Search n f) = true).
Proof using mono.
  destruct (search_spec n 0 n ltac:(lia) ltac:(lia) ltac:(lia) ltac:(lia)) as (? & ? & ?).
  unfold Search. split; [lia|]. auto.
Qed.
End search.
