(* ===== verification/ShiftClose.v ===== *)
(** * Closing a shift: close lines, cash, receipts and exceptions (package
      [operations]: close.go, close_recompute.go, receipts.go, exceptions.go and
      the expected openings of handover.go; package [revenue]: the recognition
      of sales in repo.go)

    The statements that freeze a shift's sales and settle its cash, on the
    tables of [Readings]. *)

From stdpp Require Import base list strings.
From Stdlib Require Import ZArith Lia.
From S2P Require Import Prelude Numeric Schema Ledger Policy Operations Workforce Readings.

Local Open Scope Z_scope.
Local Open Scope tx_scope.

(** [$N::numeric] inside an expression: no column bounds it. *)
Definition raw_num (v : string) : Tx Site site_error dec :=
  tlift (of_option SiteNumeric (parse_numeric v)).
Definition col (p s : nat) (d : dec) : Tx Site site_error Z :=
  tlift (of_option SiteNumeric (numeric_col p s d)).

(** ** Close lines (close.go, close_recompute.go) *)

Record CloseLineInput := mkLineInput {
  li_shift : uuid; li_nozzle : uuid; li_opening : string; li_closing : string; li_price : string }.

Definition InsertCloseLine (tenant : uuid) (i : CloseLineInput) : Tx Site site_error CloseLine :=
  let! opening := raw_num (li_opening i) in
  let! closing := raw_num (li_closing i) in
  let! price := raw_num (li_price i) in
  let! o := col 14 3 opening in
  let! c := col 14 3 closing in
  let! litres := col 14 3 (dec_sub closing opening) in
  let! p := col 14 2 price in
  let! value := col 14 2 (dec_mul (dec_sub closing opening) price) in
  let! id := fresh_id in
  let! s := tget in
  let l := mkCloseLine id tenant (li_shift i) (li_nozzle i) o c litres p value in
  tguard (negb (exists_where (fun x => bool_decide (cl_shift x = li_shift i /\ cl_nozzle x = li_nozzle i))
                  (s_lines s))) SiteUnique ;;!
  tguard (fk_shift (s_ops s) tenant (li_shift i) && fk_nozzle (s_ops s) tenant (li_nozzle i))
    SiteForeignKey ;;!
  tput (set_lines (s_lines s ++ [l]) s) ;;! tret l.

Definition line_of (tenant shift : uuid) (l : CloseLine) : bool :=
  bool_decide (cl_tenant l = tenant /\ cl_shift l = shift).
Definition ListCloseLines (s : Site) (tenant shift : uuid) : list CloseLine :=
  order_by (fun a b => (cl_nozzle a <=? cl_nozzle b)%N) (select (line_of tenant shift) (s_lines s)).

(** [SUM(...)::numeric(14,2)] of the stored figures: an error past fourteen
    digits. *)
Definition SumExpectedForShift (s : Site) (tenant shift : uuid) : result site_error Z :=
  of_option SiteNumeric
    (numeric_col 14 2 (coalesce_sum 2 cl_value (select (line_of tenant shift) (s_lines s)))).

(** The expected cash and the litres of the shift. *)
Definition CloseTotalsForShift (s : Site) (tenant shift : uuid) : result site_error (Z * Z) :=
  (let rows := select (line_of tenant shift) (s_lines s) in
   let? expected := of_option SiteNumeric (numeric_col 14 2 (coalesce_sum 2 cl_value rows)) in
   let? litres := of_option SiteNumeric (numeric_col 14 3 (coalesce_sum 3 cl_litres rows)) in
   Ok (expected, litres))%res.

Definition line_at (tenant shift nozzle : uuid) (l : CloseLine) : bool :=
  line_of tenant shift l && bool_decide (cl_nozzle l = nozzle).

(** The opening and the price of the line stay. *)
Definition RecomputeCloseLineClosing (tenant shift nozzle : uuid) (newClosing : string)
  : Tx Site site_error CloseLine :=
  let! s := tget in
  match first_where (line_at tenant shift nozzle) (s_lines s) with
  | None => tfail ErrCloseLineNotFound
  | Some l =>
      let! closing := raw_num newClosing in
      let! c := col 14 3 closing in
      let litres := dec_sub closing (dec_of 3 (cl_opening l)) in
      let! lt := col 14 3 litres in
      let! value := col 14 2 (dec_mul litres (dec_of 2 (cl_price l))) in
      let l' := mkCloseLine (cl_id l) (cl_tenant l) (cl_shift l) (cl_nozzle l) (cl_opening l) c lt
        (cl_price l) value in
      tput (set_lines (update_where (line_at tenant shift nozzle) (fun _ => l') (s_lines s)) s) ;;!
      tret l'
  end.

(** *** Litres per tank *)

Definition line_nozzles (s : Site) (tenant shift : uuid) : list (CloseLine * NozzleRow) :=
  select (fun '(l, z) => line_of tenant shift l)
    (join (fun l z => bool_decide (nz_id z = cl_nozzle l /\ nz_tenant z = cl_tenant l)) (s_lines s)
       (op_nozzles (s_ops s))).

(** Keeps the first of the rows with one key. *)
Fixpoint group_keys (l : list uuid) : list uuid :=
  match l with
  | [] => []
  | x :: rest => x :: List.filter (fun y => negb (y =? x)%N) (group_keys rest)
  end.

(** The litres are summed in SQL and scanned into a [float64]; [to_float] is
    that conversion, which rounds to the nearest double. *)
Definition LitresSoldPerTankForShift (s : Site) (tenant shift : uuid) : list (uuid * Z) :=
  let rows := line_nozzles s tenant shift in
  (fun tank => (tank, sum_by (fun r => cl_litres r.1) (select (fun r => bool_decide (nz_tank r.2 = tank)) rows)))
    <$> order_by N.leb (group_keys ((fun r => nz_tank r.2) <$> rows)).

(** ** Cash submissions (close.go) *)

Record CashSubmissionInput := mkCashInput {
  hi_shift : uuid; hi_expected : string; hi_cash : string; hi_mobile : string; hi_card : string;
  hi_credit : string; hi_by : uuid; hi_notes : option text }.

Definition InsertCashSubmission (tenant : uuid) (i : CashSubmissionInput)
  : Tx Site site_error CashSubmission :=
  let! expected := raw_num (hi_expected i) in
  let! cash := raw_num (hi_cash i) in
  let! mobile := raw_num (hi_mobile i) in
  let! card := raw_num (hi_card i) in
  let! credit := raw_num (hi_credit i) in
  let total := dec_add (dec_add (dec_add cash mobile) card) credit in
  let! e := col 14 2 expected in
  let! a := col 14 2 cash in
  let! b := col 14 2 mobile in
  let! c := col 14 2 card in
  let! d := col 14 2 credit in
  let! t := col 14 2 total in
  let! v := col 14 2 (dec_sub total expected) in
  let! id := fresh_id in
  let! s := tget in
  let r := mkCash id tenant (hi_shift i) e a b c d t v (hi_by i) (site_now s) (hi_notes i) in
  tguard (negb (exists_where (fun x => bool_decide (cs_shift x = hi_shift i)) (s_cash s))) SiteUnique ;;!
  tguard (fk_shift (s_ops s) tenant (hi_shift i) && fk_pair (op_users (s_ops s)) tenant (hi_by i))
    SiteForeignKey ;;!
  tput (set_cash (s_cash s ++ [r]) s) ;;! tret r.

Definition GetCashSubmission (s : Site) (tenant shift : uuid) : option CashSubmission :=
  first_where (fun c => bool_decide (cs_tenant c = tenant /\ cs_shift c = shift)) (s_cash s).

(** [abs($1::numeric) > $2::numeric] *)
Definition VarianceExceeds (variance threshold : string) : result site_error bool :=
  (let? v := of_option SiteNumeric (parse_numeric variance) in
   let? t := of_option SiteNumeric (parse_numeric threshold) in
   Ok (dec_ltb t (dec_abs v)))%res.

(** ** Collection receipts (receipts.go) *)

Record CollectionReceiptInput := mkReceiptInput {
  ri_station : uuid; ri_shift : uuid; ri_submission : uuid; ri_expected : string;
  ri_submitted : string; ri_received : string; ri_status : receipt_status; ri_reason : option text;
  ri_comment : option text; ri_by : uuid }.

(** [chk_collection_receipts_difference], [..._reason] and
    [..._difference_math] *)
Definition receipt_checks (r : CollectionReceipt) : bool :=
  match cr_status r with
  | RcRejected | RcFlagged => true
  | RcReceived => cr_difference r =? 0
  | RcApprovedWithDifference => negb (cr_difference r =? 0)
  end
  && (((cr_difference r =? 0) && bool_decide (cr_status r = RcReceived))
      || bool_decide (cr_reason r <> None))
  && (cr_difference r =? cr_received r - cr_expected r).

Definition receipt_row (tenant id : uuid) (i : CollectionReceiptInput)
  : Tx Site site_error CollectionReceipt :=
  let! expected := raw_num (ri_expected i) in
  let! submitted := raw_num (ri_submitted i) in
  let! received := raw_num (ri_received i) in
  let! e := col 14 2 expected in
  let! b := col 14 2 submitted in
  let! v := col 14 2 received in
  let! d := col 14 2 (dec_sub received expected) in
  let! s := tget in
  let r := mkReceipt id tenant (ri_station i) (ri_shift i) (ri_submission i) e b v d (ri_status i)
    (ri_reason i) (ri_comment i) (ri_by i) (site_now s) in
  tguard (receipt_checks r) SiteCheck ;;! tret r.

Definition receipt_fks (s : Site) (r : CollectionReceipt) : bool :=
  fk_shift_at (s_ops s) (cr_tenant r) (cr_station r) (cr_shift r)
  && exists_where (fun c => bool_decide (cs_tenant c = cr_tenant r /\ cs_id c = cr_submission r))
       (s_cash s)
  && fk_pair (op_users (s_ops s)) (cr_tenant r) (cr_by r).

(** [uq_collection_receipts_submission] *)
Definition InsertCollectionReceipt (tenant : uuid) (i : CollectionReceiptInput)
  : Tx Site site_error CollectionReceipt :=
  let! id := fresh_id in
  let! r := receipt_row tenant id i in
  let! s := tget in
  tguard (negb (exists_where (fun x => bool_decide (cr_submission x = ri_submission i)) (s_receipts s)))
    SiteUnique ;;!
  tguard (receipt_fks s r) SiteForeignKey ;;!
  tput (set_receipts (s_receipts s ++ [r]) s) ;;! tret r.

Definition held (r : CollectionReceipt) : bool :=
  bool_decide (cr_status r = RcRejected) || bool_decide (cr_status r = RcFlagged).

Definition ReplaceHeldCollectionReceipt (tenant : uuid) (i : CollectionReceiptInput)
  : Tx Site site_error CollectionReceipt :=
  let! s := tget in
  let p r := bool_decide (cr_tenant r = tenant /\ cr_submission r = ri_submission i) && held r in
  match first_where p (s_receipts s) with
  | None => tfail ErrTerminalReceipt
  | Some old =>
      let! r := receipt_row tenant (cr_id old) i in
      tguard (receipt_fks s r) SiteForeignKey ;;!
      tput (set_receipts (update_where p (fun _ => r) (s_receipts s)) s) ;;! tret r
  end.

Definition GetCollectionReceiptForShift (s : Site) (tenant shift : uuid) : option CollectionReceipt :=
  first_where (fun r => bool_decide (cr_tenant r = tenant /\ cr_shift r = shift)) (s_receipts s).

Definition terminal_good (r : CollectionReceipt) : bool :=
  bool_decide (cr_status r = RcReceived) || bool_decide (cr_status r = RcApprovedWithDifference).

Definition CashSubmissionAwaitingReceipt (s : Site) (tenant shift : uuid) : bool :=
  exists_where (fun c => bool_decide (cs_tenant c = tenant /\ cs_shift c = shift)
    && negb (exists_where (fun r => bool_decide (cr_tenant r = cs_tenant c /\ cr_submission r = cs_id c)
                                    && terminal_good r) (s_receipts s))) (s_cash s).

(** The difference as a [numeric(14,2)], and whether the exact one is zero. *)
Definition DecimalDifference (a b : string) : result site_error (Z * bool) :=
  (let? x := of_option SiteNumeric (parse_numeric a) in
   let? y := of_option SiteNumeric (parse_numeric b) in
   let? d := of_option SiteNumeric (numeric_col 14 2 (dec_sub x y)) in
   Ok (d, mant (dec_sub x y) =? 0))%res.

(** ** Exceptions (exceptions.go) *)

Definition RaiseException (tenant shift : uuid) (typ : exception_type) (severity : exception_severity)
    (detail : string) : Tx Site site_error ShiftException :=
  let! id := fresh_id in
  let! s := tget in
  let e := mkException id tenant shift typ severity (Some detail) ExcOpen (site_now s) None None in
  tguard (fk_shift (s_ops s) tenant shift) SiteForeignKey ;;!
  tput (set_exceptions (s_exceptions s ++ [e]) s) ;;! tret e.

Definition se_of (tenant shift : uuid) (e : ShiftException) : bool :=
  bool_decide (se_tenant e = tenant /\ se_shift e = shift).
Definition ListExceptionsForShift (s : Site) (tenant shift : uuid) : list ShiftException :=
  order_by (fun a b => se_raised_at b <=? se_raised_at a) (select (se_of tenant shift) (s_exceptions s)).

Definition raised_id_desc (a b : ShiftException) : bool :=
  (se_raised_at b <? se_raised_at a)
  || ((se_raised_at b =? se_raised_at a) && (se_id b <=? se_id a)%N).
Definition ListExceptionsForShiftPage (s : Site) (tenant shift : uuid) (limit offset : nat)
  : list ShiftException :=
  limit_offset limit offset (order_by raised_id_desc (select (se_of tenant shift) (s_exceptions s))).

Definition se_by (tenant id : uuid) (e : ShiftException) : bool :=
  bool_decide (se_id e = id /\ se_tenant e = tenant).
Definition GetException (s : Site) (tenant id : uuid) : option ShiftException :=
  first_where (se_by tenant id) (s_exceptions s).

Definition resolved (actor : uuid) (now : Z) (e : ShiftException) : ShiftException :=
  mkException (se_id e) (se_tenant e) (se_shift e) (se_type e) (se_severity e) (se_detail e)
    ExcResolved (se_raised_at e) (Some actor) (Some now).

Definition ResolveException (tenant id actor : uuid) : Tx Site site_error ShiftException :=
  let! s := tget in
  let p e := se_by tenant id e && bool_decide (se_status e = ExcOpen) in
  match first_where p (s_exceptions s) with
  | None => tfail ErrExceptionNotFound
  | Some e =>
      tguard (fk_pair (op_users (s_ops s)) tenant actor) SiteForeignKey ;;!
      tput (set_exceptions (update_where p (resolved actor (site_now s)) (s_exceptions s)) s) ;;!
      tret (resolved actor (site_now s) e)
  end.

Definition OpenExceptionCountForShift (s : Site) (tenant shift : uuid) : nat :=
  length (select (fun e => se_of tenant shift e && bool_decide (se_status e = ExcOpen)) (s_exceptions s)).

(** ** Expected openings (handover.go) *)

Inductive opening_source := FromVerified | FromRaw.
Record previousClosing := mkPrevious {
  pv_reading : uuid; pv_shift : uuid; pv_value : Z; pv_source : opening_source }.

Definition shift_before (a b : Shift) : bool :=
  (sh_opened_at a <? sh_opened_at b)
  || ((sh_opened_at a =? sh_opened_at b) && (sh_id a <? sh_id b)%N).

(** The latest active closing of the nozzle on an earlier shift of the
    station, with its verification, if any. *)
Definition closing_rows (s : Site) (tenant : uuid) (shift : Shift) (nozzle : uuid)
  : list (MeterReading * Shift * option Verification) :=
  left_join (fun r v => verifies r.1 v)
    (select (fun '(m, prev) => bool_decide (mr_tenant m = tenant /\ mr_nozzle m = nozzle
                                 /\ mr_type m = Closing /\ mr_status m = ReadingActive)
                               && bool_decide (sh_station prev = sh_station shift)
                               && shift_before prev shift)
       (join (fun m prev => bool_decide (sh_tenant prev = mr_tenant m /\ sh_id prev = mr_shift m))
          (s_meters s) (op_shifts (s_ops s)))) (s_verifications s).

Definition latest_first (a b : MeterReading * Shift * option Verification) : bool :=
  let '(m1, p1, _) := a in
  let '(m2, p2, _) := b in
  shift_before p2 p1
  || (negb (shift_before p1 p2)
      && ((mr_at m2 <? mr_at m1) || ((mr_at m2 =? mr_at m1) && (mr_id m2 <=? mr_id m1)%N))).

Definition expectedOpeningForNozzle (s : Site) (tenant : uuid) (shift : Shift) (nozzle : uuid)
  : option previousClosing :=
  (fun '(m, prev, v) =>
     match v with
     | Some w => mkPrevious (mr_id m) (mr_shift m) (vf_final w) FromVerified
     | None => mkPrevious (mr_id m) (mr_shift m) (mr_reading m) FromRaw
     end) <$> head (order_by latest_first (closing_rows s tenant shift nozzle)).

Definition ExpectedOpeningForNozzle (s : Site) (tenant : uuid) (shift : Shift) (nozzle : uuid)
  : option string :=
  (fun p => numeric_text 3 (pv_value p)) <$> expectedOpeningForNozzle s tenant shift nozzle.

(** Each assignment of the shift, with the closing its nozzle should open
    from. *)
Definition ExpectedOpeningsForShift (s : Site) (tenant : uuid) (shift : Shift)
  : list (NozzleAssignment * option previousClosing) :=
  (fun n => (n, expectedOpeningForNozzle s tenant shift (na_nozzle n)))
    <$> ListNozzleAssignments (s_ops s) tenant (sh_id shift).

(** [$1::numeric < $2::numeric] *)
Definition DecimalLess (a b : string) : result site_error bool :=
  (let? x := of_option SiteNumeric (parse_numeric a) in
   let? y := of_option SiteNumeric (parse_numeric b) in
   Ok (dec_ltb x y))%res.
