(* ===== verification/Reconcile.v ===== *)
(** * Tank reconciliation (package [reconciliation], and
      services/api/internal/server/reconciliation_handlers.go)

    The book-vs-physical sign-off of a tank and an operating day.  Book
    stock is summed forward from the last sealed reconciliation (or the
    genesis opening); sealing writes the residual off so that the ledger
    lands on the closing dip, which opens the next period.

    A figure the code carries as decimal text between SQL statements is a
    [dec] here (printing a column and reading it back is the identity, see
    [parse_numeric_text]).  The tolerance band [abs(book) * tolerance / 100]
    is exact at the columns' widths and written as a product with [0.01];
    the quotient of the variance percent is not, so division is the
    parameter [numeric_div].  The code reads the anchor on the pool, outside
    the transaction, and the ledger inside it: the two states are the
    arguments [pool] and [inv]. *)

From stdpp Require Import base list strings.
From Stdlib Require Import ZArith Lia.
From S2P Require Import Prelude Numeric Schema Ledger Policy Operations.

Local Open Scope Z_scope.
Local Open Scope tx_scope.

(** ** Tables only read here *)

Record DipRow := mkDip {
  dp_tenant : uuid; dp_tank : uuid; dp_shift : uuid; dp_closing : bool; dp_active : bool;
  dp_volume : Z; dp_recorded_at : Z; dp_created_at : Z }.
Record ProductRow := mkProduct { pd_tenant : uuid; pd_id : uuid; pd_tolerance : Z; pd_deleted : bool }.

Record OpsTables := mkOps {
  ops_shifts : list Shift;
  ops_dips : list DipRow;
  ops_days : list OperatingDay;
  ops_products : list ProductRow;
}.

Definition dip_newer (a b : DipRow) : bool :=
  (dp_recorded_at b <? dp_recorded_at a)
  || ((dp_recorded_at a =? dp_recorded_at b) && (dp_created_at b <=? dp_created_at a)).

Definition ClosingDipVolumeText (o : OpsTables) (tenant tank day : uuid) : option Z :=
  dp_volume <$> head (order_by dip_newer (select (fun x =>
    bool_decide (dp_tenant x = tenant /\ dp_tank x = tank) && dp_closing x && dp_active x
    && exists_where (fun s => bool_decide (sh_id s = dp_shift x /\ sh_tenant s = dp_tenant x
                                           /\ sh_day s = day)) (ops_shifts o))
    (ops_dips o))).

Definition ProductTolerancePercentText (o : OpsTables) (tenant product : uuid) : option Z :=
  pd_tolerance <$> first_where (fun p =>
    bool_decide (pd_id p = product /\ pd_tenant p = tenant) && negb (pd_deleted p)) (ops_products o).

Definition tanks_Get (d : DB) (tenant id : uuid) : option Tank :=
  first_where (fun t => bool_decide (tk_id t = id /\ tk_tenant t = tenant) && negb (tk_deleted t))
    (db_tanks d).

(** ** Computing the figures *)

Record Computed := mkComputed {
  co_opening : dec;
  co_deliveries : Z;
  co_sales : Z;
  co_adjustments : Z;
  co_closing_book : dec;
  co_closing_physical : dec;
  co_variance : dec;
  co_variance_percent : dec;
  co_tolerance_percent : dec;
  co_tolerance_litres : dec;
  co_within : bool;
  co_write_off : dec;
  co_write_off_nonzero : bool;
  co_through_seq : Z;
}.

Inductive recon_error := ErrNotFound | ErrSealed | ReconSql (e : inv_error).

Definition of_type (ty : movement_type) (m : Movement) : bool := bool_decide (mv_type m = ty).

(** The movements of the period: [seq > fromSeq]. *)
Definition period_rows (d : DB) (tenant tank : uuid) (fromSeq : Z) : list Movement :=
  select (fun m => fromSeq <? mv_seq m) (tank_rows d tenant tank).

Definition type_total (ty : movement_type) (rows : list Movement) : Z :=
  sum_by mv_litres (select (of_type ty) rows).

Definition genesis (d : DB) (tenant tank : uuid) : option Movement :=
  head (order_by (fun a b => mv_seq b <=? mv_seq a)
    (select (hasOpeningPredicate tenant tank) (db_movements d))).

(** The litres and seq of the genesis opening; [(0, 0)] when there is none. *)
Definition GenesisOpeningLitres (d : DB) (tenant tank : uuid) : Z * Z * bool :=
  match genesis d tenant tank with
  | Some m => (mv_litres m, mv_seq m, true)
  | None => (0, 0, false)
  end.

Definition recon_by (tenant id : uuid) (r : Reconciliation) : bool :=
  bool_decide (rc_id r = id /\ rc_tenant r = tenant).

Definition recon_Get (d : DB) (tenant id : uuid) : result recon_error Reconciliation :=
  of_option ErrNotFound (first_where (recon_by tenant id) (db_recons d)).

Definition GetForTankDay (d : DB) (tenant tank day : uuid) : result recon_error Reconciliation :=
  of_option ErrNotFound (first_where (fun r =>
    bool_decide (rc_tenant r = tenant /\ rc_tank r = tank /\ rc_day r = day)) (db_recons d)).

Definition sealed_rows (d : DB) (tenant tank : uuid) : list Reconciliation :=
  select (fun r => bool_decide (rc_tenant r = tenant /\ rc_tank r = tank /\ rc_status r = StatusSealed))
    (db_recons d).

(** [ORDER BY through_seq DESC LIMIT 1] *)
Definition LastSealedForTank (d : DB) (tenant tank : uuid) : result recon_error Reconciliation :=
  of_option ErrNotFound
    (head (order_by (fun a b => rc_through_seq b <=? rc_through_seq a) (sealed_rows d tenant tank))).

(** ** Persisting *)

Record DraftInput := mkDraftInput {
  di_tank : uuid;
  di_day : uuid;
  di_opening : dec;
  di_deliveries : dec;
  di_sales : dec;
  di_adjustments : dec;
  di_closing_book : dec;
  di_closing_physical : dec;
  di_variance : dec;
  di_variance_percent : dec;
  di_tolerance_percent : dec;
  di_through_seq : Z;
  di_status : recon_status;
}.

Definition num_col (p s : nat) (v : dec) : result recon_error Z :=
  of_option (ReconSql SqlNumericError) (numeric_col p s v).

(** The figures of a row, assigned to their columns. *)
Definition with_figures (in_ : DraftInput) (r : Reconciliation) : result recon_error Reconciliation :=
  (let? ob := num_col 14 3 (di_opening in_) in
   let? dt := num_col 14 3 (di_deliveries in_) in
   let? st := num_col 14 3 (di_sales in_) in
   let? at_ := num_col 14 3 (di_adjustments in_) in
   let? cb := num_col 14 3 (di_closing_book in_) in
   let? cp := num_col 14 3 (di_closing_physical in_) in
   let? vl := num_col 14 3 (di_variance in_) in
   let? vp := num_col 10 4 (di_variance_percent in_) in
   let? tp := num_col 5 2 (di_tolerance_percent in_) in
   Ok (mkRecon (rc_id r) (rc_tenant r) (rc_tank r) (rc_day r) ob dt st at_ cb cp vl vp tp
         (di_through_seq in_) (di_status in_) (rc_sealed_by r) (rc_sealed_at r)))%res.

Definition on_tank_day (tank day : uuid) (r : Reconciliation) : bool :=
  bool_decide (rc_tank r = tank /\ rc_day r = day).

(** [INSERT ... ON CONFLICT (tank_id, operating_day_id) DO UPDATE ... WHERE
    status <> 'sealed' RETURNING] *)
Definition UpsertDraft (tenant : uuid) (in_ : DraftInput) : Tx DB recon_error Reconciliation :=
  let! d := tget in
  let blank := mkRecon (db_next_id d) tenant (di_tank in_) (di_day in_) 0 0 0 0 0 0 0 0 0 0
                 StatusDraft None None in
  let! row := tlift (with_figures in_ blank) in
  match first_where (on_tank_day (di_tank in_) (di_day in_)) (db_recons d) with
  | Some old =>
      tguard (negb (bool_decide (rc_status old = StatusSealed))) ErrSealed ;;!
      let! new := tlift (with_figures in_ old) in
      tput (set_recons (update_where (on_tank_day (di_tank in_) (di_day in_)) (fun _ => new)
              (db_recons d)) d) ;;! tret new
  | None =>
      tguard (fk_tank d tenant (di_tank in_) && fk_pair (db_days d) tenant (di_day in_))
        (ReconSql SqlForeignKeyViolation) ;;!
      tput (set_next_id (db_next_id d + 1)%N (set_recons (db_recons d ++ [row]) d)) ;;! tret row
  end.

Definition seal_stamp (by_ : uuid) (now : Z) (r : Reconciliation) : Reconciliation :=
  mkRecon (rc_id r) (rc_tenant r) (rc_tank r) (rc_day r) (rc_opening_book r) (rc_deliveries r)
    (rc_sales r) (rc_adjustments r) (rc_closing_book r) (rc_closing_physical r) (rc_variance r)
    (rc_variance_percent r) (rc_tolerance_percent r) (rc_through_seq r) StatusSealed (Some by_)
    (Some now).

Definition sealable (tenant id : uuid) (r : Reconciliation) : bool :=
  recon_by tenant id r && negb (bool_decide (rc_status r = StatusSealed)).

(** [UPDATE ... SET status = 'sealed' ... WHERE id, tenant, status <> 'sealed'] *)
Definition Seal (tenant id by_ : uuid) (in_ : DraftInput) : Tx DB recon_error Reconciliation :=
  let! d := tget in
  match first_where (sealable tenant id) (db_recons d) with
  | None => tfail ErrSealed
  | Some old =>
      let! new := tlift (with_figures in_ old) in
      tguard (fk_pair (db_users d) tenant by_) (ReconSql SqlForeignKeyViolation) ;;!
      let sealed := seal_stamp by_ (db_now d) new in
      tput (set_recons (update_where (sealable tenant id) (fun _ => sealed) (db_recons d)) d) ;;!
      tret sealed
  end.

(** The write-off row; like [PostMovement], without its opening guard. *)
Definition PostWriteOff (tenant tank recon by_ : uuid) (litres : dec) (notes : string)
  : Tx DB inv_error Movement :=
  let! d := tget in
  let! l := tlift (of_option SqlNumericError (numeric_col 14 3 litres)) in
  let! balance := tlift (of_option SqlNumericError
    (numeric_col 14 3 (dec_add (dec_of 3 (ledger_sum d tenant tank)) litres))) in
  insert_movement
    (mkMovement (db_next_id d) (db_next_seq d) tenant tank TypeAdjustment (Some SrcReconciliation)
       (Some recon) l balance None None None None by_ (db_now d) None StatusPosted (Some notes)).

Definition internal_error : http_error := HttpError 500 "internal error".
Definition sealed_conflict : http_error := HttpError 409 "reconciliation already sealed".

Definition recon_http (e : recon_error) : http_error :=
  match e with
  | ErrSealed => sealed_conflict
  | _ => internal_error
  end.

Section Handlers.
Context {L : Type} `{Loader L}.
(** Postgres [numeric / numeric]. *)
Context (numeric_div : dec -> dec -> dec).
Context (policy : L) (ops : OpsTables).

Definition Compute (inv : DB) (tenant tank : uuid) (opening physical tolerance : dec) (fromSeq : Z)
  : Computed :=
  let rows := period_rows inv tenant tank fromSeq in
  let deliveries := type_total TypeDelivery rows in
  let sales := - type_total TypeSales rows in
  let adjustments := type_total TypeAdjustment rows in
  let closing_book := dec_add opening
    (dec_of 3 (type_total TypeOpening rows + deliveries - sales + adjustments)) in
  let variance := dec_sub closing_book physical in
  let percent := if mant closing_book =? 0 then Dec 0 0
                 else dec_mul (numeric_div variance closing_book) (Dec 100 0) in
  let band := dec_mul (dec_mul (dec_abs closing_book) tolerance) (Dec 1 2) in
  let write_off := dec_sub physical closing_book in
  mkComputed opening deliveries sales adjustments closing_book physical variance percent tolerance
    band (dec_leb (dec_abs variance) band) write_off (negb (mant write_off =? 0))
    (max_by mv_seq fromSeq rows).

Definition draftInput (c : Computed) (tank day : uuid) (status : recon_status) : DraftInput :=
  mkDraftInput tank day (co_opening c) (dec_of 3 (co_deliveries c)) (dec_of 3 (co_sales c))
    (dec_of 3 (co_adjustments c)) (co_closing_book c) (co_closing_physical c) (co_variance c)
    (co_variance_percent c) (co_tolerance_percent c) (co_through_seq c) status.

Definition computed_status (c : Computed) : recon_status :=
  if negb (co_within c) then StatusException else StatusDraft.

(** The anchor: opening book and watermark. *)
Definition anchor (pool : DB) (tenant tank : uuid) : dec * Z :=
  match LastSealedForTank pool tenant tank with
  | Ok prior => (dec_of 3 (rc_closing_physical prior), rc_through_seq prior)
  | Err _ =>
      let '(litres, seq, ok) := GenesisOpeningLitres pool tenant tank in
      if ok : bool then (dec_of 3 litres, seq) else (Dec 0 0, 0)
  end.

Definition computeReconciliation (pool inv : DB) (tenant : uuid) (tank : Tank) (day : uuid)
  : result http_error Computed :=
  if (0 <? UnapprovedShiftCountForDay (ops_shifts ops) tenant day)%nat then
    Err (HttpError 409 "approve all the day's shifts before reconciling")
  else
    let '(openingBook, fromSeq) := anchor pool tenant (tk_id tank) in
    match ClosingDipVolumeText ops tenant (tk_id tank) day with
    | None => Err (HttpError 422 "tank has no closing dip for this operating day")
    | Some physical =>
        match ProductTolerancePercentText ops tenant (tk_product tank) with
        | None => Err internal_error
        | Some tolerance =>
            Ok (Compute inv tenant (tk_id tank) openingBook (dec_of 3 physical)
                  (dec_of 2 tolerance) fromSeq)
        end
    end.

(** [id] and [day] are the parsed URL parameters. *)
Definition tankAndDayForReconcile (d : DB) (a : Actor) (perm : string)
  (id day : result unit uuid) : result http_error (Tank * OperatingDay) :=
  match id, day with
  | Err _, _ => Err (HttpError 400 "invalid tank id")
  | Ok _, Err _ => Err (HttpError 400 "operating_day_id query param is required")
  | Ok id, Ok dayID =>
      match tanks_Get d (ac_tenant a) id with
      | None => Err (HttpError 404 "tank not found")
      | Some tank =>
          (let? _ := authorizeStation policy a perm (tk_station tank) in
           match GetDay (ops_days ops) (ac_tenant a) dayID with
           | None => Err (HttpError 404 "operating day not found")
           | Some y =>
               if bool_decide (dy_station y = tk_station tank) then Ok (tank, y)
               else Err (HttpError 400 "operating day is at a different station than the tank")
           end)%res
      end
  end.

Definition require_actor (ctx : option Actor) : result http_error Actor :=
  match identity_Require ctx with
  | Ok a => Ok a
  | Err _ => Err (HttpError 401 "authentication required")
  end.

Definition handleReconciliationPreview (ctx : option Actor) (id day : result unit uuid)
  : Tx DB http_error Computed :=
  let! a := tlift (require_actor ctx) in
  let! d := tget in
  let! td := tlift (tankAndDayForReconcile d a "reconciliation.read" id day) in
  tlift (computeReconciliation d d (ac_tenant a) td.1 (dy_id td.2)).

(** The day of a persist request: the query parameter, or a non-nil body
    field when the query has none. *)
Definition persist_day (query : option (result unit uuid)) (body : result unit uuid)
  : result unit uuid :=
  match query with
  | Some q => q
  | None => match body with
            | Ok u => if bool_decide (u = uuid_nil) then Err tt else Ok u
            | Err _ => Err tt
            end
  end.

Definition handlePersistReconciliation (ctx : option Actor) (id : result unit uuid)
  (query : option (result unit uuid)) (body : result unit uuid)
  : Tx DB http_error (Z * Reconciliation) :=
  let! a := tlift (require_actor ctx) in
  let! d := tget in
  let! td := tlift (tankAndDayForReconcile d a "reconciliation.manage" id (persist_day query body)) in
  let tank := td.1 in
  let day := dy_id td.2 in
  let existing := GetForTankDay d (ac_tenant a) (tk_id tank) day in
  tguard (match existing with Ok e => negb (bool_decide (rc_status e = StatusSealed)) | Err _ => true end)
    sealed_conflict ;;!
  let! c := tlift (computeReconciliation d d (ac_tenant a) tank day) in
  let! rec := tconv recon_http
    (UpsertDraft (ac_tenant a) (draftInput c (tk_id tank) day (computed_status c))) in
  WriteWithOutbox (ac_tenant a) (ac_user a) "reconciliation.computed" (rc_id rec) ;;!
  (if bool_decide (rc_status rec = StatusException)
      && match existing with
         | Ok e => negb (bool_decide (rc_status e = StatusException))
         | Err _ => true
         end
   then WriteWithOutbox (ac_tenant a) (ac_user a) "stock_variance.raised" (rc_id rec)
   else tret tt) ;;!
  tret (match existing with Ok _ => 200 | Err _ => 201 end, rec).

Definition reconciliationForManage (d : DB) (a : Actor) (id : result unit uuid)
  : result http_error (Reconciliation * Tank) :=
  match id with
  | Err _ => Err (HttpError 400 "invalid reconciliation id")
  | Ok id =>
      match recon_Get d (ac_tenant a) id with
      | Err _ => Err (HttpError 404 "reconciliation not found")
      | Ok rec =>
          match tanks_Get d (ac_tenant a) (rc_tank rec) with
          | None => Err internal_error
          | Some tank =>
              (let? _ := authorizeStation policy a "reconciliation.manage" (tk_station tank) in
               Ok (rec, tank))%res
          end
      end
  end.

Definition adjust_input (rec : Reconciliation) (litres : float64) (reason : string) (by_ : uuid)
  : PostInput :=
  mkPostInput (rc_tank rec) TypeAdjustment (Some SrcReconciliation) (Some (rc_id rec))
    (FormatFloat3 litres) None None None None None by_ (Some reason).

(** [body] is the decoded request, an error when it is not JSON. *)
Definition handleAdjustReconciliation (ctx : option Actor) (id : result unit uuid)
  (body : result unit (float64 * string)) : Tx DB http_error Reconciliation :=
  let! a := tlift (require_actor ctx) in
  match body with
  | Err _ => tfail (HttpError 400 "invalid JSON body")
  | Ok (litres, reason) =>
      tguard (negb (f_m litres =? 0))
        (HttpError 400 "litres must be non-zero (sign indicates gain/loss)") ;;!
      tguard (negb (bool_decide (reason = "")))
        (HttpError 400 "reason is required for a stock adjustment") ;;!
      let! pool := tget in
      let! rt := tlift (reconciliationForManage pool a id) in
      let rec := rt.1 in
      let tank := rt.2 in
      tguard (negb (bool_decide (rc_status rec = StatusSealed))) sealed_conflict ;;!
      let! mv := tconv (fun _ => internal_error)
        (PostMovement (ac_tenant a) (adjust_input rec litres reason (ac_user a))) in
      WriteWithOutbox (ac_tenant a) (ac_user a) "stock_movement.posted" (mv_id mv) ;;!
      let! inv := tget in
      let! c := tlift (computeReconciliation pool inv (ac_tenant a) tank (rc_day rec)) in
      let! updated := tconv recon_http
        (UpsertDraft (ac_tenant a) (draftInput c (tk_id tank) (rc_day rec) (computed_status c))) in
      WriteWithOutbox (ac_tenant a) (ac_user a) "reconciliation.adjusted" (rc_id updated) ;;!
      tret updated
  end.

Definition seal_reason : string := "reconciliation seal: variance write-off".

Definition with_through (seq : Z) (i : DraftInput) : DraftInput :=
  mkDraftInput (di_tank i) (di_day i) (di_opening i) (di_deliveries i) (di_sales i)
    (di_adjustments i) (di_closing_book i) (di_closing_physical i) (di_variance i)
    (di_variance_percent i) (di_tolerance_percent i) seq (di_status i).

Definition handleSealReconciliation (ctx : option Actor) (id : result unit uuid)
  : Tx DB http_error Reconciliation :=
  let! a := tlift (require_actor ctx) in
  let! pool := tget in
  let! rt := tlift (reconciliationForManage pool a id) in
  let rec := rt.1 in
  let tank := rt.2 in
  tguard (negb (bool_decide (rc_status rec = StatusSealed))) sealed_conflict ;;!
  let! c := tlift (computeReconciliation pool pool (ac_tenant a) tank (rc_day rec)) in
  tguard (co_within c)
    (HttpError 409 "variance is over tolerance; record adjustments before sealing") ;;!
  (if co_write_off_nonzero c then
     let! wm := tconv (fun _ => internal_error)
       (PostWriteOff (ac_tenant a) (rc_tank rec) (rc_id rec) (ac_user a) (co_write_off c) seal_reason) in
     WriteWithOutbox (ac_tenant a) (ac_user a) "stock_movement.posted" (mv_id wm)
   else tret tt) ;;!
  let! inv := tget in
  let throughSeq := MaxSeqForTank inv (ac_tenant a) (rc_tank rec) in
  let! sealed := tconv recon_http
    (Seal (ac_tenant a) (rc_id rec) (ac_user a)
       (with_through throughSeq (draftInput c (tk_id tank) (rc_day rec) StatusSealed))) in
  WriteWithOutbox (ac_tenant a) (ac_user a) "reconciliation.sealed" (rc_id sealed) ;;!
  tret sealed.
End Handlers.
