(* ===== verification/ReconcileProps.v ===== *)
(** * Properties of tank reconciliation

    The exact effect of a seal on the ledger, the conditions under which it
    lands on the closing dip, how a draft is classified, and that a sealed
    row is frozen. *)

From stdpp Require Import base list strings.
From Stdlib Require Import ZArith Lia Sorted.
From S2P Require Import Prelude Numeric Schema Ledger LedgerProps StockRequests Policy Operations Reconcile.

Local Open Scope Z_scope.
Local Open Scope tx_scope.

(** ** Sums up to a watermark *)

Definition sum_through (d : DB) (tenant tank : uuid) (s : Z) : Z :=
  sum_by mv_litres (select (fun m => mv_seq m <=? s) (tank_rows d tenant tank)).

Definition period_total (d : DB) (tenant tank : uuid) (s : Z) : Z :=
  sum_by mv_litres (period_rows d tenant tank s).

Lemma ledger_sum_split d tenant tank s :
  ledger_sum d tenant tank = sum_through d tenant tank s + period_total d tenant tank s.
Proof.
  unfold ledger_sum, sum_through, period_total, period_rows. rewrite !sum_by_select.
  rewrite <- sum_by_add. apply sum_by_ext. intros m _.
  destruct (Z.leb_spec (mv_seq m) s), (Z.ltb_spec s (mv_seq m)); lia.
Qed.

(** The five movement types partition a set of rows. *)
Lemma type_totals rows :
  sum_by mv_litres rows =
  type_total TypeOpening rows + type_total TypeDelivery rows + type_total TypeSales rows
  + type_total TypeAdjustment rows + type_total TypeTransfer rows.
Proof.
  unfold type_total. induction rows as [|m rows IH]; simpl; [done|].
  unfold of_type. destruct (mv_type m); simpl; unfold of_type in IH; lia.
Qed.

Lemma sum_through_all d tenant tank s :
  (forall m, In m (tank_rows d tenant tank) -> mv_seq m <= s) ->
  sum_through d tenant tank s = ledger_sum d tenant tank.
Proof.
  intros H. unfold sum_through. rewrite select_all; [done|].
  intros m Hm. apply Z.leb_le. by apply H.
Qed.

(** Rows appended past the watermark do not count. *)
Lemma sum_through_snoc m d d' tenant tank s :
  db_movements d' = db_movements d ++ [m] -> s < mv_seq m ->
  sum_through d' tenant tank s = sum_through d tenant tank s.
Proof.
  intros E Hs. unfold sum_through, tank_rows. rewrite E, !select_app, sum_by_app. simpl.
  destruct (on_tank tenant tank m); simpl; [|lia].
  destruct (Z.leb_spec (mv_seq m) s); simpl; lia.
Qed.

Lemma ledger_sum_snoc m d d' tenant tank :
  db_movements d' = db_movements d ++ [m] ->
  ledger_sum d' tenant tank
  = ledger_sum d tenant tank + (if on_tank tenant tank m then mv_litres m else 0).
Proof.
  intros E. rewrite <- append_movement_sum. unfold ledger_sum, tank_rows. by rewrite E.
Qed.

Lemma ledger_sum_same d d' tenant tank :
  db_movements d' = db_movements d -> ledger_sum d' tenant tank = ledger_sum d tenant tank.
Proof. intros E. unfold ledger_sum, tank_rows. by rewrite E. Qed.

(** ** The computed figures *)

(** A figure of three decimals. *)
Definition milli (v : dec) : Prop := scale v = 3%nat \/ mant v = 0 /\ (scale v <= 3)%nat.
Definition milli_val (v : dec) : Z := at_scale 3 v.

Lemma milli_of z : milli (dec_of 3 z).
Proof. by left. Qed.

Lemma milli_val_of z : milli_val (dec_of 3 z) = z.
Proof. apply at_scale_same. Qed.

Lemma milli_add_of v z : milli v -> dec_add v (dec_of 3 z) = dec_of 3 (milli_val v + z).
Proof.
  unfold milli, dec_add, milli_val, dec_of, at_scale. destruct v as [m s]; simpl. intros H.
  replace (s `max` 3)%nat with 3%nat by lia. f_equal. rewrite Nat.sub_diag, pow10_0. lia.
Qed.

Lemma round_to_of z : round_to 3 (dec_of 3 z) = z.
Proof. apply round_to_same. Qed.

Lemma dec_sub_of a b : dec_sub (dec_of 3 a) (dec_of 3 b) = dec_of 3 (a - b).
Proof.
  unfold dec_sub, dec_opp, dec_add, dec_of, at_scale. simpl. f_equal. change (pow10 0) with 1. lia.
Qed.

Lemma anchor_milli d tenant tank : milli (anchor d tenant tank).1.
Proof.
  unfold anchor, GenesisOpeningLitres. destruct (LastSealedForTank d tenant tank); [by left|].
  destruct (genesis d tenant tank); [by left|]. right. simpl. lia.
Qed.

Section Figures.
Context (numeric_div : dec -> dec -> dec) (inv : DB) (tenant tank : uuid) (fromSeq physical z : Z)
  (opening : dec) (Hm : milli opening).

Let c := Compute numeric_div inv tenant tank opening (dec_of 3 physical) (dec_of 2 z) fromSeq.
Let book := milli_val opening + period_total inv tenant tank fromSeq
            - type_total TypeTransfer (period_rows inv tenant tank fromSeq).

(** Book stock at close is the opening plus the period's movements, transfers
    apart. *)
Lemma Compute_book : co_closing_book c = dec_of 3 book.
Proof.
  unfold c, book, Compute; simpl. rewrite milli_add_of by done. f_equal.
  unfold period_total. rewrite type_totals. lia.
Qed.

Lemma Compute_variance : co_variance c = dec_of 3 (book - physical).
Proof. rewrite <- dec_sub_of, <- Compute_book. done. Qed.

Lemma Compute_write_off :
  co_write_off c = dec_of 3 (physical - book)
  /\ co_write_off_nonzero c = negb (physical - book =? 0).
Proof.
  assert (co_write_off c = dec_of 3 (physical - book)) as E
    by (rewrite <- dec_sub_of, <- Compute_book; done).
  split; [done|]. change (co_write_off_nonzero c) with (negb (mant (co_write_off c) =? 0)).
  by rewrite E.
Qed.

(** Within tolerance, in integers: the variance in thousandths of a litre,
    the tolerance in hundredths of a percent. *)
Lemma Compute_within :
  co_within c = (10000 * Z.abs (book - physical) <=? Z.abs book * z).
Proof.
  assert (E1 := Compute_variance). assert (E2 := Compute_book).
  change (co_within c) with (dec_leb (dec_abs (co_variance c))
    (dec_mul (dec_mul (dec_abs (co_closing_book c)) (dec_of 2 z)) (Dec 1 2))).
  rewrite E1, E2.
  unfold dec_leb, dec_abs, dec_mul, dec_of, at_scale. simpl.
  change (pow10 4) with 10000. change (pow10 0) with 1. rewrite !Z.mul_1_r.
  apply Bool.eq_true_iff_eq. rewrite !Z.leb_le. lia.
Qed.
End Figures.

Lemma Compute_totals numeric_div inv tenant tank o p t s :
  let c := Compute numeric_div inv tenant tank o p t s in
  let rows := period_rows inv tenant tank s in
  co_deliveries c = type_total TypeDelivery rows /\ co_sales c = - type_total TypeSales rows
  /\ co_adjustments c = type_total TypeAdjustment rows.
Proof. done. Qed.

(** ** The write-off is a ledger post *)

Definition write_off_input (tank recon by_ : uuid) (z : Z) (notes : string) : PostInput :=
  mkPostInput tank TypeAdjustment (Some SrcReconciliation) (Some recon) (numeric_text 3 z)
    None None None None None by_ (Some notes).

(** [PostWriteOff] repeats [PostMovement]'s insert; on a figure of three
    decimals the two are the same transaction. *)
Lemma PostWriteOff_is_post tenant tank recon by_ z notes d :
  PostWriteOff tenant tank recon by_ (dec_of 3 z) notes d
  = PostMovement tenant (write_off_input tank recon by_ z notes) d.
Proof.
  unfold PostWriteOff, PostMovement. simpl. unfold tbind at 4. simpl.
  unfold tbind, tlift, tget, tret. rewrite parse_numeric_text. simpl.
  destruct (numeric_col 14 3 (dec_of 3 z)) eqn:E1; simpl; unfold dec_of in E1; rewrite E1; simpl; [|done].
  done.
Qed.

Lemma write_off_row tenant tank recon by_ z notes d m d' :
  PostWriteOff tenant tank recon by_ (dec_of 3 z) notes d = Ok (m, d') ->
  posted_row tenant (write_off_input tank recon by_ z notes) d m
  /\ d' = append_movement m d /\ mv_litres m = z.
Proof.
  rewrite PostWriteOff_is_post. intros [Hp ->]%PostMovement_inv. split; [done|]. split; [done|].
  destruct (pr_amount _ _ _ _ Hp) as (a & Ha & Hl & _). simpl in Ha.
  rewrite parse_numeric_text in Ha. injection Ha as <-. by rewrite round_to_same in Hl.
Qed.

(** ** Inversion of the handlers *)

Lemma with_figures_inv i r r' :
  with_figures i r = Ok r' ->
  rc_id r' = rc_id r /\ rc_tenant r' = rc_tenant r /\ rc_tank r' = rc_tank r /\ rc_day r' = rc_day r
  /\ rc_opening_book r' = round_to 3 (di_opening i)
  /\ rc_deliveries r' = round_to 3 (di_deliveries i) /\ rc_sales r' = round_to 3 (di_sales i)
  /\ rc_adjustments r' = round_to 3 (di_adjustments i)
  /\ rc_closing_book r' = round_to 3 (di_closing_book i)
  /\ rc_closing_physical r' = round_to 3 (di_closing_physical i)
  /\ rc_variance r' = round_to 3 (di_variance i)
  /\ rc_tolerance_percent r' = round_to 2 (di_tolerance_percent i)
  /\ rc_through_seq r' = di_through_seq i /\ rc_status r' = di_status i.
Proof.
  unfold with_figures, num_col, of_option, numeric_col, rbind. intros H.
  repeat match type of H with
  | context [if ?b then _ else _] => destruct b; [|discriminate H]
  end. injection H as <-. simpl. tauto.
Qed.

Lemma Seal_inv tenant id by_ i d r d' :
  Seal tenant id by_ i d = Ok (r, d') ->
  exists old new, first_where (sealable tenant id) (db_recons d) = Some old
    /\ with_figures i old = Ok new /\ r = seal_stamp by_ (db_now d) new
    /\ d' = set_recons (update_where (sealable tenant id) (fun _ => r) (db_recons d)) d.
Proof.
  unfold Seal. intros H. tx_steps H. subst. eauto 10.
Qed.

Lemma recon_Get_inv d tenant id r :
  recon_Get d tenant id = Ok r -> first_where (recon_by tenant id) (db_recons d) = Some r
  /\ In r (db_recons d) /\ rc_id r = id /\ rc_tenant r = tenant.
Proof.
  unfold recon_Get. intros E%of_option_ok. split; [done|].
  apply first_where_some in E as [H1 H2]. unfold recon_by in H2. bool_solve. tauto.
Qed.

Lemma tanks_Get_inv d tenant id t :
  tanks_Get d tenant id = Some t -> In t (db_tanks d) /\ tk_id t = id /\ tk_tenant t = tenant.
Proof. intros [H1 H2]%first_where_some. bool_solve. tauto. Qed.

Section HandlerInversion.
Context {L : Type} `{Loader L} (numeric_div : dec -> dec -> dec) (policy : L) (ops : OpsTables).

Lemma reconciliationForManage_inv d a id r t :
  reconciliationForManage policy d a id = Ok (r, t) ->
  In r (db_recons d) /\ id = Ok (rc_id r) /\ rc_tenant r = ac_tenant a
  /\ recon_Get d (ac_tenant a) (rc_id r) = Ok r
  /\ tk_id t = rc_tank r /\ service_Can policy a "reconciliation.manage" (Some (tk_station t)) = Ok tt.
Proof.
  unfold reconciliationForManage, authorizeStation. destruct id as [id|]; [|done].
  destruct (recon_Get d (ac_tenant a) id) as [x|] eqn:E1; [|done].
  destruct (tanks_Get d (ac_tenant a) (rc_tank x)) as [y|] eqn:E2; [|done].
  destruct (service_Can policy a _ _) as [[]|] eqn:E3; [|done]. intros [= -> ->].
  pose proof (recon_Get_inv _ _ _ _ E1) as (_ & ? & ? & ?). subst id.
  apply tanks_Get_inv in E2 as (_ & ? & _). auto 10.
Qed.

Lemma computeReconciliation_inv pool inv tenant t day c :
  computeReconciliation numeric_div ops pool inv tenant t day = Ok c ->
  exists physical z, ClosingDipVolumeText ops tenant (tk_id t) day = Some physical
    /\ UnapprovedShiftCountForDay (ops_shifts ops) tenant day = 0%nat
    /\ c = Compute numeric_div inv tenant (tk_id t) (anchor pool tenant (tk_id t)).1
             (dec_of 3 physical) (dec_of 2 z) (anchor pool tenant (tk_id t)).2.
Proof.
  unfold computeReconciliation.
  destruct (Nat.ltb_spec 0 (UnapprovedShiftCountForDay (ops_shifts ops) tenant day)); [done|].
  destruct (anchor pool tenant (tk_id t)) as [o s]. simpl.
  destruct (ClosingDipVolumeText _ _ _ _) as [p|]; [|done].
  destruct (ProductTolerancePercentText _ _ _) as [z|]; [|done].
  intros [= <-]. exists p, z. split; [done|]. split; [lia|done].
Qed.

(** What sealing writes: the write-off (if any), then the sealed row. *)
Lemma handleSeal_inv ctx id d r d' :
  handleSealReconciliation numeric_div policy ops ctx id d = Ok (r, d') ->
  exists a rec t c d1 old new,
    reconciliationForManage policy d a id = Ok (rec, t) /\ rc_status rec <> StatusSealed
    /\ computeReconciliation numeric_div ops d d (ac_tenant a) t (rc_day rec) = Ok c
    /\ co_within c = true
    /\ (co_write_off_nonzero c = false /\ d1 = d
        \/ co_write_off_nonzero c = true /\ exists m d2 au,
           PostWriteOff (ac_tenant a) (rc_tank rec) (rc_id rec) (ac_user a) (co_write_off c)
             seal_reason d = Ok (m, d2) /\ d1 = set_audit au d2)
    /\ first_where (sealable (ac_tenant a) (rc_id rec)) (db_recons d1) = Some old
    /\ with_figures (with_through (MaxSeqForTank d1 (ac_tenant a) (rc_tank rec))
         (draftInput c (tk_id t) (rc_day rec) StatusSealed)) old = Ok new
    /\ r = seal_stamp (ac_user a) (db_now d1) new
    /\ exists au, d' = set_audit au (set_recons (update_where (sealable (ac_tenant a) (rc_id rec))
         (fun _ => r) (db_recons d1)) d1).
Proof.
  unfold handleSealReconciliation. intros Hrun. tx_steps Hrun. subst.
  rename x into a. destruct x0 as [rec t]. simpl in *.
  apply WriteWithOutbox_ok in E6 as ->. apply Seal_inv in E5 as (old & new & ? & ? & -> & ->).
  bool_solve. exists a, rec, t, x1, x3, old, new. do 4 (split; [done|]). split; [|eauto 10].
  destruct (co_write_off_nonzero x1).
  - right. split; [done|]. tx_step E4. apply WriteWithOutbox_ok in E4 as ->. eauto 10.
  - left. by injection E4 as _ <-.
Qed.
End HandlerInversion.

(** ** What a seal does to the ledger *)

Section SealEffect.
Context {L : Type} `{Loader L} (numeric_div : dec -> dec -> dec) (policy : L) (ops : OpsTables).

(** The facts of a successful seal the properties below share. *)
Record seal_effect (d : DB) (r : Reconciliation) (d' : DB) : Prop := {
  se_row : exists rec, In rec (db_recons d) /\ rc_status rec <> StatusSealed
    /\ rc_id r = rc_id rec /\ rc_tenant r = rc_tenant rec /\ rc_tank r = rc_tank rec
    /\ rc_day r = rc_day rec
    /\ db_recons d' = update_where (sealable (rc_tenant r) (rc_id r)) (fun _ => r) (db_recons d);
  se_status : rc_status r = StatusSealed;
  se_dip : ClosingDipVolumeText ops (rc_tenant r) (rc_tank r) (rc_day r)
           = Some (rc_closing_physical r);
  se_through : rc_through_seq r = MaxSeqForTank d' (rc_tenant r) (rc_tank r);
  se_book : rc_closing_book r = milli_val (anchor d (rc_tenant r) (rc_tank r)).1
    + period_total d (rc_tenant r) (rc_tank r) (anchor d (rc_tenant r) (rc_tank r)).2
    - type_total TypeTransfer
        (period_rows d (rc_tenant r) (rc_tank r) (anchor d (rc_tenant r) (rc_tank r)).2);
  se_ledger :
    let w := rc_closing_physical r - rc_closing_book r in
    w = 0 /\ db_movements d' = db_movements d
      /\ db_next_seq d' = db_next_seq d /\ (db_next_id d <= db_next_id d')%N
    \/ w <> 0 /\ exists inp m, posted_row (rc_tenant r) inp d m /\ pi_tank inp = rc_tank r
         /\ milli_text (pi_litres inp) /\ pi_supersedes inp = None /\ mv_litres m = w
         /\ pi_type inp = TypeAdjustment
         /\ db_movements d' = db_movements d ++ [m] /\ db_next_seq d' = db_next_seq d + 1
         /\ db_next_id d' = (db_next_id d + 1)%N;
}.

Lemma handleSeal_effect ctx id d r d' :
  handleSealReconciliation numeric_div policy ops ctx id d = Ok (r, d') -> seal_effect d r d'.
Proof.
  intros (a & rec & t & c & d1 & old & new & Hm & Hns & Hc & _ & Hw & Hold & Hfig & -> & au & ->)%handleSeal_inv.
  apply reconciliationForManage_inv in Hm as (Hin & _ & Hten & Hget & Htk & _).
  apply recon_Get_inv in Hget as (Hfirst & _).
  destruct (computeReconciliation_inv _ _ _ _ _ _ _ _ Hc) as (physical & z & Hdip & _ & ->).
  clear Hc. rewrite Htk in *. set (k := rc_tank rec) in *. set (ten := ac_tenant a) in *.
  pose proof (anchor_milli d ten k) as HA.
  pose proof (Compute_book numeric_div d ten k (anchor d ten k).2 physical z _ HA) as Hbook.
  destruct (Compute_write_off numeric_div d ten k (anchor d ten k).2 physical z _ HA) as [Hwo Hnz].
  set (c := Compute _ _ _ _ _ _ _ _) in *.
  set (book := milli_val _ + _ - _) in *. rewrite Hwo, Hnz in Hw.
  assert (Hold' : old = rec).
  { assert (db_recons d1 = db_recons d) as Hr1.
    { destruct Hw as [[_ ->]|(_ & m & d2 & au' & Hp & ->)]; [done|].
      by apply write_off_row in Hp as (_ & -> & _). }
    rewrite Hr1 in Hold. erewrite (first_where_refine _ _ _ _ Hfirst) in Hold; [congruence|..].
    - unfold sealable. apply first_where_some in Hfirst as [_ ->].
      by rewrite bool_decide_eq_false_2.
    - intros x Hx. unfold sealable in Hx. by bool_solve. }
  subst old.
  apply with_figures_inv in Hfig as (F1 & F2 & F3 & F4 & _ & _ & _ & _ & F5 & F6 & _ & _ & F7 & _).
  change (di_closing_book _) with (co_closing_book c) in F5.
  change (di_closing_physical _) with (dec_of 3 physical) in F6.
  change (di_through_seq _) with (MaxSeqForTank d1 ten k) in F7.
  rewrite Hbook, round_to_of in F5. rewrite round_to_of in F6.
  constructor; simpl; rewrite ?F1, ?F2, ?F3, ?F4, ?F5, ?F6, ?F7, ?Hten; fold k ten.
  - exists rec. destruct Hw as [[_ ->]|(_ & m & d2 & au' & (_ & -> & _)%write_off_row & ->)];
      rewrite ?Hten; auto 10.
  - done.
  - done.
  - done.
  - done.
  - destruct Hw as [[Hz ->]|(Hz & m & d2 & au' & (Hp & -> & Hl)%write_off_row & ->)]; bool_solve.
    + left. apply Z.eqb_eq in Hz. simpl. repeat split; (lia || done).
    + right. apply Z.eqb_neq in Hz. split; [done|]. eexists _, m. split; [exact Hp|].
      simpl. repeat split; auto with fuelgrid.
Qed.
End SealEffect.

(** Each sealed row's physical figure is the ledger's sum at its watermark. *)
Definition sealed_anchored (d : DB) : Prop :=
  forall r, In r (db_recons d) -> rc_status r = StatusSealed ->
  rc_through_seq r < db_next_seq d
  /\ sum_through d (rc_tenant r) (rc_tank r) (rc_through_seq r) = rc_closing_physical r.

(** The anchor opens the period with the ledger's sum at its watermark. *)
Definition anchored (d : DB) (tenant tank : uuid) : Prop :=
  sum_through d tenant tank (anchor d tenant tank).2 = milli_val (anchor d tenant tank).1.

Lemma head_order_by {R} (le : R -> R -> bool) l x : head (order_by le l) = Some x -> In x l.
Proof.
  intros H. apply (Permutation_in _ (order_by_perm le l)).
  destruct (order_by le l); simpl in *; [done|]. injection H as <-. auto.
Qed.

Lemma sealed_anchor_holds d tenant tank :
  sealed_anchored d -> (sealed_rows d tenant tank = [] -> anchored d tenant tank) ->
  anchored d tenant tank.
Proof.
  intros Hs Hg. destruct (sealed_rows d tenant tank) as [|x l] eqn:E; [auto|]. clear Hg.
  unfold anchored, anchor, LastSealedForTank. rewrite E.
  destruct (head (order_by _ (x :: l))) as [r|] eqn:Eh; simpl.
  - apply head_order_by in Eh. rewrite <- E in Eh. apply in_select in Eh as [Hin Hr].
    apply bool_decide_eq_true in Hr as (<- & <- & Hst). rewrite milli_val_of.
    by apply Hs.
  - exfalso. pose proof (order_by_perm (fun a b => rc_through_seq b <=? rc_through_seq a) (x :: l)) as Hp.
    destruct (order_by _ (x :: l)); [|done]. by apply Permutation_nil_l in Hp.
Qed.

Lemma MaxSeq_bound d tenant tank :
  Ledger_wf d -> MaxSeqForTank d tenant tank < db_next_seq d.
Proof.
  intros Hwf. unfold MaxSeqForTank. pose proof (wf_next_seq _ _ _ (wf_base _ _ _ Hwf)).
  destruct (tank_rows d tenant tank) as [|m l] eqn:E; [done|].
  destruct (max_by_in mv_seq 0 (m :: l)) as (x & Hx & ->); [done|]. rewrite <- E in Hx.
  apply in_select in Hx as [Hx _]. by apply (wf_seq_bound _ _ _ (wf_base _ _ _ Hwf)).
Qed.

Section SealProperties.
Context {L : Type} `{Loader L} (numeric_div : dec -> dec -> dec) (policy : L) (ops : OpsTables).

Lemma seal_Ledger_wf d r d' : Ledger_wf d -> seal_effect ops d r d' -> Ledger_wf d'.
Proof.
  intros Hwf [_ _ _ _ _ [(_ & E1 & E2 & E3)|(_ & inp & m & Hp & _ & Ht & Hn & _ & _ & E1 & E2 & E3)]].
  - apply (Ledger_wf_ext d); [done|]. by apply ledger_ext_same.
  - pose proof (Ledger_wf_post _ _ _ _ Hwf Hp Ht Hn) as Hw. unfold Ledger_wf in *.
    by rewrite E1, E2, E3.
Qed.

(** The ledger after a seal, exactly. *)
Lemma seal_ledger d r d' :
  seal_effect ops d r d' ->
  ledger_sum d' (rc_tenant r) (rc_tank r)
  = ledger_sum d (rc_tenant r) (rc_tank r) + (rc_closing_physical r - rc_closing_book r).
Proof.
  intros [_ _ _ _ _ [(Hz & E & _)|(_ & inp & m & Hp & Hk & _ & _ & Hl & _ & E & _)]].
  - rewrite (ledger_sum_same d d') by done. lia.
  - rewrite (ledger_sum_snoc m d d') by done. rewrite (proj2 (on_tank_true _ _ _)); [lia|].
    split; [apply (pr_tenant _ _ _ _ Hp)|]. rewrite (pr_tank _ _ _ _ Hp). done.
Qed.

(** Sealing leaves the tank's book stock at the closing dip plus exactly
    two errors: the transfers posted since the anchor, which the computed
    book leaves out, and the gap between the anchor's opening figure and
    the ledger at its watermark. *)
Theorem handleSeal_drift ctx id d r d' :
  handleSealReconciliation numeric_div policy ops ctx id d = Ok (r, d') ->
  let t := rc_tenant r in
  let k := rc_tank r in
  let a := anchor d t k in
  ClosingDipVolumeText ops t k (rc_day r) = Some (rc_closing_physical r)
  /\ ledger_sum d' t k = rc_closing_physical r
      + type_total TypeTransfer (period_rows d t k a.2)
      + (sum_through d t k a.2 - milli_val a.1).
Proof.
  intros He%handleSeal_effect. cbv zeta. split; [apply (se_dip _ _ _ _ He)|].
  rewrite (seal_ledger d r d' He), (se_book _ _ _ _ He).
  rewrite (ledger_sum_split d _ _ (anchor d (rc_tenant r) (rc_tank r)).2). lia.
Qed.

(** C3. When the earlier seals and the genesis opening agree with the ledger
    and no transfer was posted since the anchor, sealing lands the ledger
    exactly on the closing dip, and the new row again agrees with the
    ledger: the next period opens from it without drift. *)
Theorem handleSeal_lands ctx id d r d' :
  Ledger_wf d -> sealed_anchored d ->
  handleSealReconciliation numeric_div policy ops ctx id d = Ok (r, d') ->
  (sealed_rows d (rc_tenant r) (rc_tank r) = [] -> anchored d (rc_tenant r) (rc_tank r)) ->
  type_total TypeTransfer
    (period_rows d (rc_tenant r) (rc_tank r) (anchor d (rc_tenant r) (rc_tank r)).2) = 0 ->
  ledger_sum d' (rc_tenant r) (rc_tank r) = rc_closing_physical r
  /\ Ledger_wf d' /\ sealed_anchored d' /\ anchored d' (rc_tenant r) (rc_tank r).
Proof.
  intros Hwf Hs He%handleSeal_effect Hg Ht.
  pose proof (sealed_anchor_holds d _ _ Hs Hg) as Ha.
  assert (Hl : ledger_sum d' (rc_tenant r) (rc_tank r) = rc_closing_physical r).
  { rewrite (seal_ledger d r d' He), (se_book _ _ _ _ He), Ht.
    rewrite (ledger_sum_split d _ _ (anchor d (rc_tenant r) (rc_tank r)).2).
    unfold anchored in Ha. lia. }
  pose proof (seal_Ledger_wf _ _ _ Hwf He) as Hwf'.
  assert (Hs' : sealed_anchored d').
  { destruct (se_row _ _ _ _ He) as (rec & Hin & Hns & Hid & Hten & Htk & _ & Er).
    intros x Hx Hst. rewrite Er in Hx. apply in_update_where in Hx as (y & Hy & ->).
    destruct (sealable (rc_tenant r) (rc_id r) y) eqn:Ey.
    - rewrite (se_through _ _ _ _ He). split; [by apply MaxSeq_bound|].
      rewrite sum_through_all; [done|]. intros m Hm. by apply max_by_ge.
    - destruct (Hs y Hy Hst) as [Hb Hsum].
      destruct (se_ledger _ _ _ _ He)
        as [(_ & E1 & E2 & _)|(_ & inp & m & Hp & _ & _ & _ & _ & _ & E1 & E2 & _)].
      + rewrite E2. split; [done|]. rewrite <- Hsum. unfold sum_through, tank_rows. by rewrite E1.
      + rewrite E2. split; [lia|]. rewrite <- Hsum. apply (sum_through_snoc m); [done|].
        by rewrite (pr_seq _ _ _ _ Hp). }
  do 3 (split; [done|]). apply sealed_anchor_holds; [done|]. intros Hnil. exfalso.
  destruct (se_row _ _ _ _ He) as (rec & Hin & Hns & Hid & Hten & Htk & _ & Er).
  assert (Hr : In r (sealed_rows d' (rc_tenant r) (rc_tank r))); [|by rewrite Hnil in Hr].
  apply in_select. split; [|by rewrite bool_decide_eq_true_2 by (rewrite (se_status _ _ _ _ He); auto)].
  rewrite Er. apply in_update_where. exists rec. split; [done|].
  unfold sealable, recon_by. rewrite bool_decide_eq_true_2 by (split; congruence).
  by rewrite bool_decide_eq_false_2.
Qed.
End SealProperties.

(** ** An example period *)

(** Truncated division, an instance of [numeric_div]. *)
Definition dec_quot (a b : dec) : dec :=
  Dec (Z.quot (mant a * pow10 (16 + scale b)) (mant b)) (scale a + 16).

Definition recon_policy : PolicyDb :=
  mkPolicyDb [mkRole 1 "manager" true false] [mkPermission 7 "reconciliation.manage" true]
    [(2, 1, 1)]%N [(1, 7)]%N [(2, 1, 20)]%N.
Definition recon_actor : option Actor := Some (mkActor 2 1 9 false).

(** Day 40: one approved shift with a closing dip of 995 l in tank 10. *)
Definition recon_ops : OpsTables :=
  mkOps [mkShift 50 1 20 40 "" ShiftApproved 2 0 None None None None None None None] [mkDip 1 10 50 true true 995000 5 5] [mkDay 40 1 20 0 DayClosed 2 0 None None None None None]
    [mkProduct 1 30 100 false].

Definition persisted (d : DB) : DB :=
  (run_tx (handlePersistReconciliation dec_quot recon_policy recon_ops recon_actor (Ok 10%N)
     (Some (Ok 40%N)) (Err tt)) d).2.

Definition recon_start : DB := persisted (demo_open "1000" demo_db).

Lemma Ledger_wf_movements d d' :
  Ledger_wf d -> db_movements d' = db_movements d -> db_next_seq d' = db_next_seq d ->
  (db_next_id d <= db_next_id d')%N -> Ledger_wf d'.
Proof. intros Hwf E1 E2 E3. apply (Ledger_wf_ext d); [done|]. by apply ledger_ext_same. Qed.

Lemma recon_start_wf : Ledger_wf recon_start.
Proof.
  apply (Ledger_wf_movements (demo_open "1000" demo_db)).
  - apply demo_open_wf. exists (Dec 1000 0). split; [vm_compute; reflexivity|simpl; lia].
  - vm_compute. reflexivity.
  - vm_compute. reflexivity.
  - vm_compute. discriminate.
Qed.

Lemma recon_start_anchored : sealed_anchored recon_start.
Proof. intros r Hr Hs. vm_compute in Hr. destruct Hr as [<-|[]]. discriminate Hs. Qed.

Lemma handleSeal_drift_witness :
  exists r d', handleSealReconciliation dec_quot recon_policy recon_ops recon_actor (Ok 101%N) recon_start
               = Ok (r, d') /\ ledger_sum d' (rc_tenant r) (rc_tank r) = 995000.
Proof.
  destruct (handleSealReconciliation dec_quot recon_policy recon_ops recon_actor (Ok 101%N) recon_start)
    as [[r d']|e] eqn:E; [|vm_compute in E; discriminate E].
  exists r, d'. split; [reflexivity|].
  rewrite (proj2 (handleSeal_drift dec_quot recon_policy recon_ops recon_actor (Ok 101%N) recon_start r d' E)).
  assert (Er : rc_tenant r = 1%N /\ rc_tank r = 10%N /\ rc_closing_physical r = 995000)
    by (vm_compute in E; injection E as <- _; repeat split; reflexivity).
  destruct Er as (E1 & E2 & E3). rewrite E1, E2, E3. vm_compute. reflexivity.
Defined.

Lemma handleSeal_lands_witness :
  exists r d', handleSealReconciliation dec_quot recon_policy recon_ops recon_actor (Ok 101%N) recon_start
               = Ok (r, d') /\ ledger_sum d' (rc_tenant r) (rc_tank r) = rc_closing_physical r
               /\ sealed_anchored d'.
Proof.
  destruct (handleSealReconciliation dec_quot recon_policy recon_ops recon_actor (Ok 101%N) recon_start)
    as [[r d']|e] eqn:E; [|vm_compute in E; discriminate E].
  exists r, d'. split; [reflexivity|].
  assert (Er : rc_tenant r = 1%N /\ rc_tank r = 10%N)
    by (vm_compute in E; injection E as <- _; split; reflexivity).
  destruct (handleSeal_lands dec_quot recon_policy recon_ops recon_actor (Ok 101%N) recon_start r d'
    recon_start_wf recon_start_anchored E) as (H1 & _ & H3 & _).
  - destruct Er as [-> ->]. intros _. vm_compute. reflexivity.
  - destruct Er as [-> ->]. vm_compute. reflexivity.
  - split; [exact H1|exact H3].
Defined.

(** ** Where the ledger does drift *)

Definition transfer_in : PostInput :=
  mkPostInput 10 TypeTransfer (Some SrcTransfer) (Some 90%N) "200" None None None None None 2%N None.

Definition seal_demo (d : DB) : result http_error (Reconciliation * DB) :=
  handleSealReconciliation dec_quot recon_policy recon_ops recon_actor (Ok 101%N) d.

(** A transfer received after the anchor is not part of the computed book,
    so the seal writes off the wrong amount: a tank opened with 1000 l that
    then received a transfer of 200 l and is sealed against a dip of 995 l
    keeps a book stock of 1195 l.  The next period then starts from 995 l
    while the ledger holds 1195 l. *)
Theorem seal_misses_transfer :
  exists m d1 r d2,
    PostMovement 1 transfer_in recon_start = Ok (m, d1)
    /\ seal_demo d1 = Ok (r, d2)
    /\ rc_closing_physical r = 995000 /\ ledger_sum d2 1 10 = 1195000
    /\ anchor d2 1 10 = (Dec 995000 3, rc_through_seq r)
    /\ sum_through d2 1 10 (rc_through_seq r) = 1195000.
Proof.
  do 4 eexists. split; [vm_compute; reflexivity|]. split; [vm_compute; reflexivity|].
  repeat split; vm_compute; reflexivity.
Qed.

(** An adjustment posted before the tank's opening (posting one needs no
    opening) lies before the genesis watermark and is left out as well: the
    sealed ledger is off by that adjustment. *)
Theorem seal_misses_early_adjustment :
  exists m d1 o d2 r d3,
    PostMovement 1 (demo_adjust "30") demo_db = Ok (m, d1)
    /\ SetOpeningBalance 1 (mkOpeningInput 10 "1000" None 2 None) d1 = Ok (o, d2)
    /\ handleSealReconciliation dec_quot recon_policy recon_ops recon_actor (Ok 102%N) (persisted d2)
       = Ok (r, d3)
    /\ rc_closing_physical r = 995000 /\ ledger_sum d3 1 10 = 1025000.
Proof.
  do 6 eexists. split; [vm_compute; reflexivity|]. split; [vm_compute; reflexivity|].
  split; [vm_compute; reflexivity|]. split; vm_compute; reflexivity.
Qed.

(** ** Drafts and frozen rows *)

Definition tank_day (r : Reconciliation) : uuid * uuid := (rc_tank r, rc_day r).

(** Primary key and [uq_tank_recon_tank_day]. *)
Record Recons_wf (d : DB) : Prop := {
  cw_ids : List.NoDup (map rc_id (db_recons d));
  cw_bound : forall r, In r (db_recons d) -> (rc_id r < db_next_id d)%N;
  cw_tank_day : List.NoDup (map tank_day (db_recons d));
}.

(** The table keeps its keys and its sealed rows. *)
Definition recons_step (d d' : DB) : Prop :=
  Recons_wf d -> Recons_wf d' /\ forall r, In r (db_recons d) -> rc_status r = StatusSealed ->
    In r (db_recons d').

#[export] Instance recons_step_pre : PreOrder recons_step.
Proof.
  split; [by intros d Hw|]. intros d1 d2 d3 H12 H23 Hw.
  destruct (H12 Hw) as [Hw2 Hk2]. destruct (H23 Hw2) as [Hw3 Hk3]. split; [done|]. auto.
Qed.

Lemma recons_step_same d d' :
  db_recons d' = db_recons d -> (db_next_id d <= db_next_id d')%N -> recons_step d d'.
Proof.
  intros E Hn [H1 H2 H3]. split; [|by rewrite E]. constructor; rewrite E; try done.
  intros r Hr. specialize (H2 r Hr). lia.
Qed.

(** Replacing the rows a guard selects by one row with their keys. *)
Lemma recons_step_replace d d' p new :
  db_recons d' = update_where p (fun _ => new) (db_recons d) ->
  (db_next_id d <= db_next_id d')%N ->
  (Recons_wf d -> forall r, In r (db_recons d) -> p r = true ->
     rc_id new = rc_id r /\ tank_day new = tank_day r /\ rc_status r <> StatusSealed) ->
  recons_step d d'.
Proof.
  intros E Hn Hp Hw. specialize (Hp Hw). pose proof Hw as [H1 H2 H3].
  assert (Hmap : forall {B} (h : Reconciliation -> B), (forall r, In r (db_recons d) -> p r = true ->
    h new = h r) -> map h (db_recons d') = map h (db_recons d)).
  { intros B h Hh. rewrite E. unfold update_where. rewrite List.map_map. apply List.map_ext_in.
    intros r Hr. destruct (p r) eqn:Ep; auto. }
  split; [constructor|].
  - rewrite Hmap; [done|]. intros r Hr Hpr. by apply Hp.
  - intros x Hx. rewrite E in Hx. apply in_update_where in Hx as (r & Hr & ->).
    specialize (H2 r Hr). destruct (p r) eqn:Ep; [|lia]. destruct (Hp r Hr Ep) as [-> _]. lia.
  - rewrite Hmap; [done|]. intros r Hr Hpr. by apply Hp.
  - intros r Hr Hst. rewrite E. apply in_update_where. exists r. split; [done|].
    destruct (p r) eqn:Ep; [|done]. destruct (Hp r Hr Ep) as (_ & _ & ?). done.
Qed.

Lemma step_UpsertDraft tenant i d : step_at recons_step d (UpsertDraft tenant i).
Proof.
  intros r d' Hrun. unfold UpsertDraft in Hrun. tx_steps Hrun; subst.
  - match goal with E : first_where _ _ = Some ?o |- _ =>
      apply first_where_some in E as [Hin Hb]; rename o into old end.
    match goal with E : with_figures i old = Ok _ |- _ => apply with_figures_inv in E end.
    destruct_and!. apply (recons_step_replace d _ (on_tank_day (di_tank i) (di_day i)) x0);
      [done|simpl; lia|].
    intros Hw q Hq Hpq. unfold on_tank_day in *. bool_solve. destruct_and!.
    assert (q = old) as ->; [|unfold tank_day; repeat split; congruence].
    eapply (NoDup_map_eq tank_day); [apply (cw_tank_day _ Hw)|done..|]. unfold tank_day. congruence.
  - match goal with E : first_where _ _ = None |- _ => rename E into Hnone end.
    match goal with E : with_figures i _ = Ok _ |- _ => apply with_figures_inv in E end.
    destruct_and!. simpl in *. intros [G1 G2 G3]. simpl. split; [constructor; simpl|].
    + rewrite map_app. apply NoDup_snoc; [done|].
      intros (q & Hq & Hin)%List.in_map_iff. apply G2 in Hin. lia.
    + intros q [Hq| ->]%in_snoc; [apply G2 in Hq; lia|lia].
    + rewrite map_app. apply NoDup_snoc; [done|].
      intros (q & Hq & Hin)%List.in_map_iff.
      apply (first_where_none _ _ _ Hnone) in Hin. unfold on_tank_day in Hin.
      apply bool_decide_eq_false in Hin. apply Hin. unfold tank_day in Hq. split; congruence.
    + intros q Hq _. apply in_snoc. auto.
Qed.

Lemma step_Seal tenant id by_ i d : step_at recons_step d (Seal tenant id by_ i).
Proof.
  intros r d' (old & new & Hf & Hfig%with_figures_inv & -> & ->)%Seal_inv. destruct_and!.
  apply first_where_some in Hf as [Hin Hs].
  apply (recons_step_replace d _ (sealable tenant id) (seal_stamp by_ (db_now d) new));
    [done|simpl; lia|].
  intros Hw q Hq Hpq. unfold sealable, recon_by in *. bool_solve. destruct_and!.
  assert (q = old) as ->; [|unfold tank_day; simpl; repeat split; congruence].
  eapply (NoDup_map_eq rc_id); [apply (cw_ids _ Hw)|done..|congruence].
Qed.

#[export] Hint Extern 1 (recons_step _ _) => apply recons_step_same; simpl; [done|lia] : fuelgrid.

Lemma step_recons_write_off tenant tank recon by_ l notes d :
  step_at recons_step d (PostWriteOff tenant tank recon by_ l notes).
Proof.
  intros m d' Hrun. unfold PostWriteOff in Hrun. tx_steps Hrun.
  apply insert_movement_inv in Hrun as (-> & -> & _). auto with fuelgrid.
Qed.

#[export] Hint Resolve step_UpsertDraft step_Seal step_recons_write_off : fuelgrid.

(** The requests that change reconciliations. *)
Inductive recon_call :=
| CallPersist (ctx : option Actor) (id : result unit uuid) (query : option (result unit uuid))
    (body : result unit uuid)
| CallAdjust (ctx : option Actor) (id : result unit uuid) (body : result unit (float64 * string))
| CallSeal (ctx : option Actor) (id : result unit uuid).

Section Calls.
Context {L : Type} `{Loader L} (numeric_div : dec -> dec -> dec) (policy : L) (ops : OpsTables).

Definition run_recon (c : recon_call) : Tx DB http_error Reconciliation :=
  match c with
  | CallPersist ctx id q b =>
      let! r := handlePersistReconciliation numeric_div policy ops ctx id q b in tret r.2
  | CallAdjust ctx id b => handleAdjustReconciliation numeric_div policy ops ctx id b
  | CallSeal ctx id => handleSealReconciliation numeric_div policy ops ctx id
  end.

Lemma step_run_recon c d : step_at recons_step d (run_recon c).
Proof.
  destruct c; simpl; unfold handlePersistReconciliation, handleAdjustReconciliation,
    handleSealReconciliation; step_solve.
Qed.

(** A sealed reconciliation is frozen: no persist, adjust or seal request
    that succeeds changes or removes it, and the table keeps one row per
    tank and operating day. *)
Theorem sealed_frozen c d r d' :
  Recons_wf d -> run_recon c d = Ok (r, d') ->
  Recons_wf d' /\ forall x, In x (db_recons d) -> rc_status x = StatusSealed -> In x (db_recons d').
Proof. intros Hw Hrun. by apply (step_run_recon c d r d' Hrun). Qed.
End Calls.

Lemma Recons_wf_start : Recons_wf recon_start.
Proof.
  constructor; [vm_compute; repeat constructor; simpl; tauto| |vm_compute; repeat constructor; simpl; tauto].
  intros r Hr. vm_compute in Hr. destruct Hr as [<-|[]]. vm_compute. reflexivity.
Qed.

Lemma sealed_frozen_witness :
  exists r d', run_recon dec_quot recon_policy recon_ops (CallSeal recon_actor (Ok 101%N)) recon_start
               = Ok (r, d') /\ Recons_wf d'.
Proof.
  destruct (run_recon dec_quot recon_policy recon_ops (CallSeal recon_actor (Ok 101%N)) recon_start)
    as [[r d']|e] eqn:E; [|vm_compute in E; discriminate E].
  exists r, d'. split; [reflexivity|].
  exact (proj1 (sealed_frozen dec_quot recon_policy recon_ops _ recon_start r d' Recons_wf_start E)).
Defined.

(** ** Classification *)

Lemma UpsertDraft_row tenant i d r d' :
  UpsertDraft tenant i d = Ok (r, d') ->
  (exists old, with_figures i old = Ok r) /\ In r (db_recons d')
  /\ db_movements d' = db_movements d.
Proof.
  intros Hrun. unfold UpsertDraft in Hrun. tx_steps Hrun; subst; split; eauto; simpl; split; try done.
  - match goal with E : first_where _ _ = Some ?o |- _ => apply first_where_some in E as [Hin Hb];
      apply in_update_where; exists o end. by rewrite Hb.
  - apply in_snoc. auto.
Qed.

Section Classify.
Context {L : Type} `{Loader L} (numeric_div : dec -> dec -> dec) (policy : L) (ops : OpsTables).

Lemma tankAndDay_inv d a perm id day z y :
  tankAndDayForReconcile policy ops d a perm id day = Ok (z, y) ->
  In z (db_tanks d) /\ tk_tenant z = ac_tenant a /\ id = Ok (tk_id z)
  /\ service_Can policy a perm (Some (tk_station z)) = Ok tt.
Proof.
  unfold tankAndDayForReconcile, authorizeStation.
  destruct id as [tank|]; [|done]. destruct day as [dayID|]; [|done].
  destruct (tanks_Get d (ac_tenant a) tank) as [z'|] eqn:Etk; [|done].
  destruct (service_Can _ _ _ _) as [[]|] eqn:Ecan; [|done]. simpl.
  destruct (GetDay _ _ _) as [y'|]; [|done]. case_bool_decide; [|done]. intros [= -> ->].
  apply tanks_Get_inv in Etk as (? & -> & ?). auto.
Qed.

Lemma handlePersist_inv ctx id q b d code r d' :
  handlePersistReconciliation numeric_div policy ops ctx id q b d = Ok ((code, r), d') ->
  exists a z y c old,
    require_actor ctx = Ok a
    /\ tankAndDayForReconcile policy ops d a "reconciliation.manage" id (persist_day q b) = Ok (z, y)
    /\ computeReconciliation numeric_div ops d d (ac_tenant a) z (dy_id y) = Ok c
    /\ with_figures (draftInput c (tk_id z) (dy_id y) (computed_status c)) old = Ok r
    /\ db_movements d' = db_movements d.
Proof.
  unfold handlePersistReconciliation. intros Hrun. tx_steps Hrun. simplify_eq.
  destruct x0 as [z y]. simpl in *.
  match goal with E : UpsertDraft _ _ _ = _ |- _ =>
    apply UpsertDraft_row in E as ((old & Hf) & _ & Hmv) end.
  exists x, z, y, x1, old. do 4 (split; [done|]). rewrite <- Hmv.
  match goal with E : WriteWithOutbox _ _ _ _ _ = _ |- _ => apply WriteWithOutbox_ok in E as -> end.
  match goal with E : (if _ then _ else _) _ = Ok _ |- _ => destruct (_ && _) in E;
    [apply WriteWithOutbox_ok in E as -> | injection E as _ <-] end; done.
Qed.

(** A persisted draft is consistent: its closing book is the anchor plus
    the period's openings, deliveries, sales and adjustments, its variance is
    book minus the closing dip, and it is an exception exactly when the
    variance exceeds the product's tolerance share of the book, compared in
    exact integers; the ledger is not touched. *)
Theorem handlePersist_classifies ctx id q b d code r d' :
  handlePersistReconciliation numeric_div policy ops ctx id q b d = Ok ((code, r), d') ->
  exists a z day,
    require_actor ctx = Ok a /\ id = Ok (tk_id z) /\ tk_tenant z = ac_tenant a
    /\ service_Can policy a "reconciliation.manage" (Some (tk_station z)) = Ok tt
    /\ UnapprovedShiftCountForDay (ops_shifts ops) (ac_tenant a) day = 0%nat
    /\ ClosingDipVolumeText ops (ac_tenant a) (tk_id z) day = Some (rc_closing_physical r)
    /\ let anc := anchor d (ac_tenant a) (tk_id z) in
       let rows := period_rows d (ac_tenant a) (tk_id z) anc.2 in
       rc_closing_book r = milli_val anc.1 + type_total TypeOpening rows + rc_deliveries r
         - rc_sales r + rc_adjustments r
       /\ rc_variance r = rc_closing_book r - rc_closing_physical r
       /\ rc_status r = (if Z.abs (rc_closing_book r) * rc_tolerance_percent r
                            <? 10000 * Z.abs (rc_variance r)
                         then StatusException else StatusDraft)
       /\ db_movements d' = db_movements d.
Proof.
  intros (a & z & y & c & old & Ha & Hz & Hc & Hf & Hmv)%handlePersist_inv.
  apply tankAndDay_inv in Hz as (_ & Hten & Hid & Hcan).
  apply computeReconciliation_inv in Hc as (p & tol & Hdip & Hun & ->).
  exists a, z, (dy_id y). do 5 (split; [done|]).
  set (k := tk_id z) in *. set (ten := ac_tenant a) in *.
  pose proof (anchor_milli d ten k) as HA.
  pose proof (Compute_book numeric_div d ten k (anchor d ten k).2 p tol _ HA) as Hbook.
  pose proof (Compute_variance numeric_div d ten k (anchor d ten k).2 p tol _ HA) as Hvar.
  pose proof (Compute_within numeric_div d ten k (anchor d ten k).2 p tol _ HA) as Hin.
  pose proof (Compute_totals numeric_div d ten k (anchor d ten k).1 (dec_of 3 p) (dec_of 2 tol)
    (anchor d ten k).2) as (T1 & T2 & T3).
  set (c := Compute _ _ _ _ _ _ _ _) in *.
  apply with_figures_inv in Hf
    as (_ & _ & _ & _ & _ & F1 & F2 & F3 & F4 & F5 & F6 & F7 & _ & F8).
  change (di_deliveries _) with (dec_of 3 (co_deliveries c)) in F1.
  change (di_sales _) with (dec_of 3 (co_sales c)) in F2.
  change (di_adjustments _) with (dec_of 3 (co_adjustments c)) in F3.
  change (di_closing_book _) with (co_closing_book c) in F4.
  change (di_closing_physical _) with (dec_of 3 p) in F5.
  change (di_variance _) with (co_variance c) in F6.
  change (di_tolerance_percent _) with (dec_of 2 tol) in F7.
  change (di_status _) with (computed_status c) in F8.
  rewrite Hbook in F4. rewrite Hvar in F6. rewrite round_to_of in *. unfold dec_of in F7. rewrite round_to_same in F7.
  unfold computed_status in F8. rewrite Hin in F8.
  split; [by rewrite F5|]. cbv zeta. rewrite F1, F2, F3, F4, F5, F6, F7, F8, T1, T2, T3.
  split; [unfold period_total; rewrite type_totals; lia|]. split; [done|]. split; [|done].
  by rewrite Z.ltb_antisym.
Qed.
End Classify.

Lemma handlePersist_classifies_witness :
  exists code r d', handlePersistReconciliation dec_quot recon_policy recon_ops recon_actor (Ok 10%N)
      (Some (Ok 40%N)) (Err tt) (demo_open "1000" demo_db) = Ok ((code, r), d')
    /\ rc_closing_book r = 1000000 /\ rc_status r = StatusDraft.
Proof.
  destruct (handlePersistReconciliation dec_quot recon_policy recon_ops recon_actor (Ok 10%N)
    (Some (Ok 40%N)) (Err tt) (demo_open "1000" demo_db)) as [[[code r] d']|e] eqn:E;
    [|vm_compute in E; discriminate E].
  exists code, r, d'. split; [reflexivity|].
  destruct (handlePersist_classifies dec_quot recon_policy recon_ops recon_actor (Ok 10%N)
    (Some (Ok 40%N)) (Err tt) (demo_open "1000" demo_db) code r d' E)
    as (a & z & day & Ha & Hid & _ & _ & _ & _ & Hb & _ & Hs & _).
  vm_compute in Ha. injection Ha as <-. injection Hid as Hid. rewrite <- Hid in Hb.
  assert (Ev : rc_deliveries r = 0 /\ rc_sales r = 0 /\ rc_adjustments r = 0
    /\ rc_variance r = 5000 /\ rc_tolerance_percent r = 100)
    by (vm_compute in E; injection E as _ <- _; repeat split; reflexivity).
  destruct Ev as (E1 & E2 & E3 & E4 & E5). rewrite E1, E2, E3 in Hb.
  assert (Hb' : rc_closing_book r = 1000000) by (rewrite Hb; vm_compute; reflexivity).
  split; [exact Hb'|]. rewrite Hs, Hb', E4, E5. vm_compute. reflexivity.
Defined.
