(* ===== verification/StockSystem.v ===== *)
(** * The stock domain as one state machine

    Every operation that writes the stock tables, as one step of a
    transition system on [DB].  A request either commits its transaction or
    leaves the state as it was; [reachable] closes an initial state under
    committed steps whose openings are typed with at most three decimals
    ([milli_openings]).  The component invariants hold in every state reached
    that way. *)

From stdpp Require Import base list strings.
From Stdlib Require Import ZArith Lia Sorted.
From S2P Require Import Prelude Numeric Schema Ledger LedgerProps StockRequests StockRequestsProps.
From S2P Require Import Receiving ReceivingProps Transfers Policy Reconcile ReconcileProps.
Import Adjustments Openings.

Local Open Scope Z_scope.
Local Open Scope tx_scope.

Inductive stock_error := EInv (e : inv_error) | EHttp (e : http_error).

Inductive stock_op :=
| OpSetOpening (tenant : uuid) (inp : OpeningInput)
| OpReverse (tenant id by_ : uuid) (notes : option string)
| OpSales (tenant shift by_ : uuid) (lines : list SaleLine)
| OpRequestAdjustment (tenant : uuid) (inp : AdjustmentInput)
| OpApproveAdjustment (tenant id who : uuid) (note : option string)
| OpRejectAdjustment (tenant id who : uuid) (note : option string)
| OpPostAdjustment (tenant id who : uuid)
| OpRequestOpening (tenant : uuid) (inp : OpeningRequestInput)
| OpApproveOpening (tenant id who : uuid) (note : option string) (self : bool)
| OpRejectOpening (tenant id who : uuid) (note : option string) (self : bool)
| OpReceiveDelivery (tenant : uuid) (inp : ReceiveInput)
| OpGoodsReceipt (tenant : uuid) (inp : GoodsReceiptInput)
| OpCreateTransfer (tenant from_ to_ product : uuid) (litres : string) (by_ : uuid)
| OpApproveTransfer (tenant id : uuid)
| OpReceiveTransfer (tenant id by_ : uuid)
| OpRecon (c : recon_call).

Definition forget {E A} (f : E -> stock_error) (c : Tx DB E A) : Tx DB stock_error unit :=
  let! _ := tconv f c in tret tt.

(** ** More rules for [step_at] *)

Section more_rules.
Context (R : DB -> DB -> Prop) `{!PreOrder R}.

Lemma step_insert m d : R d (append_movement m d) -> step_at R d (insert_movement m).
Proof. intros Hr x d' (-> & -> & _)%insert_movement_inv. done. Qed.

Lemma step_sale_lines tenant shift by_ lines :
  (forall d inp m, posted_row tenant inp d m -> R d (append_movement m d)) ->
  forall posted skipped d, step_at R d (post_sale_lines tenant shift by_ lines posted skipped).
Proof.
  intros Hp. induction lines as [|ln rest IH]; intros posted skipped d; simpl; [by apply step_ret|].
  destruct (_ =? _); [apply IH|]. apply step_bind_has. destruct (negb _); [apply IH|].
  apply step_bind; [apply _| |intros; apply IH]. apply step_post. eauto.
Qed.
End more_rules.

Ltac sys_step :=
  lazymatch goal with
  | |- step_at _ _ (match update_returning _ _ _ with _ => _ end) => unfold update_returning
  | |- step_at _ _ (insert_movement _) => apply step_insert; step_leaf
  | |- step_at _ _ (post_sale_lines _ _ _ _ _ _) => apply step_sale_lines; [apply _|intros; step_leaf]
  | |- step_at _ _ (insert_delivery _) => unfold insert_delivery
  | |- step_at _ _ (add_received _ _ _ _ _) => unfold add_received
  | |- step_at _ _ (advancePurchaseOrderStatus _ _) => unfold advancePurchaseOrderStatus
  | |- step_at _ _ (update_adjustment _ _) => unfold update_adjustment
  | |- step_at _ _ (update_opening _ _) => unfold update_opening
  | |- step_at _ _ (SetOpeningBalance _ _) => unfold SetOpeningBalance
  | |- step_at _ _ (UpsertDraft _ _) => unfold UpsertDraft
  | |- step_at _ _ (Seal _ _ _ _) => unfold Seal
  | |- step_at _ _ (PostWriteOff _ _ _ _ _ _) => unfold PostWriteOff
  | |- step_at _ _ (transfer_leg _ _ _ _ _) => unfold transfer_leg
  | |- step_at _ _ (handlePersistReconciliation _ _ _ _ _ _ _) => unfold handlePersistReconciliation
  | |- _ => step_step
  end.
Ltac sys_solve := repeat (cbn beta iota zeta; sys_step).

Ltac open_op :=
  unfold forget, SetOpeningBalance, PostSalesForShift, RequestAdjustment, ApproveAdjustment,
    RejectAdjustment, PostAdjustment, RequestOpeningStock, ApproveOpeningStock, RejectOpeningStock,
    ReceiveDelivery, ReceiveGoodsReceipt, CreateTransfer, ApproveTransfer, ReceiveTransfer,
    ReverseMovement, run_recon, handleAdjustReconciliation, handleSealReconciliation.

Section System.
Context {L : Type} `{Loader L} (numeric_div : dec -> dec -> dec) (policy : L) (ops : OpsTables).

Definition run_op (o : stock_op) : Tx DB stock_error unit :=
  match o with
  | OpSetOpening t i => forget EInv (SetOpeningBalance t i)
  | OpReverse t id b n => forget EInv (ReverseMovement t id b n)
  | OpSales t s b ls => forget EInv (PostSalesForShift t s b ls)
  | OpRequestAdjustment t i => forget EInv (RequestAdjustment t i)
  | OpApproveAdjustment t id w n => forget EInv (ApproveAdjustment t id w n)
  | OpRejectAdjustment t id w n => forget EInv (RejectAdjustment t id w n)
  | OpPostAdjustment t id w => forget EInv (PostAdjustment t id w)
  | OpRequestOpening t i => forget EInv (RequestOpeningStock t i)
  | OpApproveOpening t id w n s => forget EInv (ApproveOpeningStock t id w n s)
  | OpRejectOpening t id w n s => forget EInv (RejectOpeningStock t id w n s)
  | OpReceiveDelivery t i => forget EInv (ReceiveDelivery t i)
  | OpGoodsReceipt t i => forget EInv (ReceiveGoodsReceipt numeric_div t i)
  | OpCreateTransfer t f t' p l b => forget EInv (CreateTransfer t f t' p l b)
  | OpApproveTransfer t id => forget EInv (ApproveTransfer t id)
  | OpReceiveTransfer t id b => forget EInv (ReceiveTransfer t id b)
  | OpRecon c => forget EHttp (run_recon numeric_div policy ops c)
  end.

(** The one input the code does not bound to the ledger's precision is an
    opening's litres: [handleSetOpeningBalance] accepts a fourth decimal, and
    with one the snapshot and the sum part ways
    ([opening_fourth_decimal_drift]).  The requests of a [stock_step] type
    their openings with at most three decimals; nothing else is restricted. *)
Definition milli_openings (o : stock_op) : Prop :=
  match o with
  | OpSetOpening _ i => milli_text (oi_litres i)
  | _ => True
  end.

Inductive stock_step (d : DB) : DB -> Prop :=
| step_commit o d' : milli_openings o -> run_op o d = Ok (tt, d') -> stock_step d d'
| step_tick t : stock_step d (mkDB (db_movements d) (db_next_seq d) (db_adjustments d)
    (db_openings d) (db_deliveries d) (db_pos d) (db_po_lines d) (db_recons d) (db_transfers d)
    (db_tanks d) (db_products d) (db_users d) (db_suppliers d) (db_days d) (db_audit d)
    (db_next_id d) t).

(** Master data and open orders, no stock yet. *)
Record initial (d : DB) : Prop := {
  in_movements : db_movements d = [];
  in_seq : 0 < db_next_seq d;
  in_adjustments : db_adjustments d = [];
  in_deliveries : db_deliveries d = [];
  in_recons : db_recons d = [];
  in_transfers : db_transfers d = [];
  in_lines : List.NoDup (map pl_id (db_po_lines d));
  in_received : forall l, In l (db_po_lines d) -> pl_received l = 0;
}.

Inductive reachable : DB -> Prop :=
| reach_init d : initial d -> reachable d
| reach_step d d' : reachable d -> stock_step d d' -> reachable d'.

Lemma forget_ok {E A} (f : E -> stock_error) (c : Tx DB E A) d u d' :
  forget f c d = Ok (u, d') -> exists a, c d = Ok (a, d').
Proof.
  unfold forget, tbind, tconv, tret. destruct (c d) as [[a d1]|] eqn:Ec; [|done].
  intros [= _ <-]. eauto.
Qed.

(** ** Frames: which operations leave which tables alone *)

Definition touches_adjustments (o : stock_op) : bool :=
  match o with
  | OpRequestAdjustment _ _ | OpApproveAdjustment _ _ _ _ | OpRejectAdjustment _ _ _ _
  | OpPostAdjustment _ _ _ => true
  | _ => false
  end.
Definition touches_deliveries (o : stock_op) : bool :=
  match o with OpReceiveDelivery _ _ | OpGoodsReceipt _ _ => true | _ => false end.
Definition touches_recons (o : stock_op) : bool :=
  match o with OpRecon _ => true | _ => false end.
Definition touches_transfers (o : stock_op) : bool :=
  match o with
  | OpCreateTransfer _ _ _ _ _ _ | OpApproveTransfer _ _ | OpReceiveTransfer _ _ _ => true
  | _ => false
  end.

Lemma frame_adjustments o d : touches_adjustments o = false ->
  step_at (same_column db_adjustments) d (run_op o).
Proof. destruct o as [| | | | | | | | | | | | | | |[]]; try discriminate; intros _; simpl; open_op; sys_solve. Qed.

Lemma frame_deliveries o d : touches_deliveries o = false ->
  step_at (same_column (fun d => (db_deliveries d, db_po_lines d))) d (run_op o).
Proof. destruct o as [| | | | | | | | | | | | | | |[]]; try discriminate; intros _; simpl; open_op; sys_solve. Qed.

Lemma frame_recons o d : touches_recons o = false -> step_at (same_column db_recons) d (run_op o).
Proof. destruct o; try discriminate; intros _; simpl; open_op; sys_solve. Qed.

Lemma frame_transfers o d : touches_transfers o = false -> step_at (same_column db_transfers) d (run_op o).
Proof. destruct o as [| | | | | | | | | | | | | | |[]]; try discriminate; intros _; simpl; open_op; sys_solve. Qed.

(** ** The ledger *)

Lemma ext_receive_transfer tenant id by_ d : ext_at d (ReceiveTransfer tenant id by_).
Proof.
  intros t' d' (t & o & i & d1 & d2 & _ & _ & _ & _ & _ & Ho & _ & -> & Hi & _ & -> & _ & ->)%ReceiveTransfer_inv.
  eapply (ext_other d (append_movement i (append_movement o d))); [|by repeat split].
  eapply ext_post; [eapply ext_post; [apply ext_refl|exact Ho|simpl; auto with fuelgrid|done]
    |exact Hi|simpl; auto with fuelgrid|done].
Qed.

Lemma ext_seal ctx id d : ext_at d (handleSealReconciliation numeric_div policy ops ctx id).
Proof.
  intros r d' [_ _ _ _ _ [(_ & E1 & E2 & E3)|(_ & inp & m & Hp & _ & Ht & Hn & _ & _ & E1 & E2 & E3)]]%handleSeal_effect.
  - by apply ledger_ext_same.
  - apply (ext_other d (append_movement m d)); [eapply ext_post; [apply ext_refl|exact Hp|done|done]|].
    repeat split; simpl; [done|done|]. rewrite E3. lia.
Qed.

Lemma step_forget {E A} (R : DB -> DB -> Prop) `{!PreOrder R} (f : E -> stock_error)
  (c : Tx DB E A) d : step_at R d c -> step_at R d (forget f c).
Proof. intros Hc u d' (a & Ha)%forget_ok. by eapply Hc. Qed.

Definition is_reversal (o : stock_op) : bool := match o with OpReverse _ _ _ _ => true | _ => false end.

Lemma ext_op o d : milli_openings o -> is_reversal o = false -> ext_at d (run_op o).
Proof.
  destruct o as [| | | | | | | | | | | | | | |[| |]]; simpl; intros Hok Hr; try discriminate Hr;
    apply step_forget; try apply _; try apply ext_receive_transfer; try apply ext_seal;
    try apply ext_post_sales;
    open_op; sys_solve.
Qed.

Lemma op_rows_kept o d d' :
  milli_openings o -> run_op o d = Ok (tt, d') -> rows_kept (db_movements d) (db_movements d').
Proof.
  intros Hok Hrun. destruct (is_reversal o) eqn:E.
  - destruct o; try discriminate E. apply forget_ok in Hrun as (m & Hm).
    by eapply rows_kept_reverse.
  - apply rows_kept_ext. by eapply ext_op.
Qed.

Lemma ledger_ext_next_id d d' : ledger_ext d d' -> (db_next_id d <= db_next_id d')%N.
Proof. induction 1 as [|d1 d2 _ IH (_ & _ & E)|]; simpl; lia. Qed.

Lemma op_next_id o d d' :
  milli_openings o -> run_op o d = Ok (tt, d') -> (db_next_id d <= db_next_id d')%N.
Proof.
  intros Hok Hrun. destruct (is_reversal o) eqn:E.
  - destruct o; try discriminate E.
    apply forget_ok in Hrun as (m & (orig & d1 & _ & _ & _ & _ & -> & _ & -> & _)%ReverseMovement_inv).
    simpl. lia.
  - eapply ledger_ext_next_id. by eapply ext_op.
Qed.

(** ** The invariant *)

Record Stock_inv (d : DB) : Prop := {
  si_ledger : Ledger_wf d;
  si_adjustments : Adjustments_wf d;
  si_receiving : Receiving_wf d;
  si_recons : Recons_wf d;
  si_transfers : forall t, In t (db_transfers d) -> tr_from t <> tr_to t /\ 0 < tr_litres t;
}.

Lemma inv_ledger o d d' : milli_openings o -> run_op o d = Ok (tt, d') -> Ledger_wf d -> Ledger_wf d'.
Proof.
  intros Hok Hrun Hw. destruct (is_reversal o) eqn:E.
  - destruct o; try discriminate E. apply forget_ok in Hrun as (m & Hm).
    by eapply Ledger_wf_reverse.
  - eapply Ledger_wf_ext; [done|]. by eapply ext_op.
Qed.

Lemma inv_adjustments o d d' :
  milli_openings o -> run_op o d = Ok (tt, d') -> Adjustments_wf d -> Adjustments_wf d'.
Proof.
  intros Hok Hrun Hw. destruct (touches_adjustments o) eqn:E.
  - destruct o; try discriminate E; apply forget_ok in Hrun as (a & Ha);
      eauto using Adjustments_wf_request, Adjustments_wf_approve, Adjustments_wf_reject,
        Adjustments_wf_post.
  - eapply Adjustments_wf_frame; eauto using op_rows_kept, op_next_id.
    by apply (frame_adjustments o d E tt d' Hrun).
Qed.

Lemma inv_receiving o d d' :
  milli_openings o -> run_op o d = Ok (tt, d') -> Receiving_wf d -> Receiving_wf d'.
Proof.
  intros Hok Hrun Hw. destruct (touches_deliveries o) eqn:E.
  - destruct o; try discriminate E; apply forget_ok in Hrun as (a & Ha);
      eauto using Receiving_wf_delivery, Receiving_wf_receipt.
  - pose proof (frame_deliveries o d E tt d' Hrun) as Hk. unfold same_column in Hk. injection Hk as K1 K2.
    eapply Receiving_wf_frame; eauto using op_rows_kept, op_next_id.
Qed.

Lemma inv_recons o d d' : milli_openings o -> run_op o d = Ok (tt, d') -> Recons_wf d -> Recons_wf d'.
Proof.
  intros Hok Hrun Hw. destruct (touches_recons o) eqn:E.
  - destruct o; try discriminate E. apply forget_ok in Hrun as (a & Ha).
    by apply (step_run_recon numeric_div policy ops c d a d' Ha).
  - apply (recons_step_same d d'); [|by eapply op_next_id|done].
    by apply (frame_recons o d E tt d' Hrun).
Qed.

Lemma inv_transfers o d d' :
  run_op o d = Ok (tt, d') ->
  (forall t, In t (db_transfers d) -> tr_from t <> tr_to t /\ 0 < tr_litres t) ->
  forall t, In t (db_transfers d') -> tr_from t <> tr_to t /\ 0 < tr_litres t.
Proof.
  intros Hrun Hw. destruct (touches_transfers o) eqn:E.
  - destruct o; try discriminate E; apply forget_ok in Hrun as (a & Ha).
    + unfold CreateTransfer in Ha. tx_steps Ha. subst. simpl. bool_solve.
      intros t [Ht| ->]%in_snoc; [auto|]. simpl. split; [done|]. by apply Z.ltb_lt.
    + unfold ApproveTransfer in Ha. tx_steps Ha; subst; try done. unfold update_returning in *.
      simplify_eq. simpl. intros q (r & Hr & ->)%in_update_where.
      destruct (draft_transfer _ _ r); exact (Hw r Hr).
    + apply ReceiveTransfer_inv in Ha as (tr & i & j & d1 & d2 & _ & _ & _ & _ & _ & _ & _ & -> & _ & _ & -> & _ & ->).
      simpl. intros x (r & Hr & ->)%in_update_where. destruct (tr_by _ _ r); exact (Hw r Hr).
  - pose proof (frame_transfers o d E tt d' Hrun) as Hk. unfold same_column in Hk. by rewrite Hk.
Qed.

Lemma Stock_inv_step d d' : stock_step d d' -> Stock_inv d -> Stock_inv d'.
Proof.
  intros [o d1 Hok Hrun|t] [H1 H2 H3 H4 H5];
    [|constructor; [exact H1|by destruct H2|by destruct H3|by destruct H4|exact H5]].
  constructor; eauto using inv_ledger, inv_adjustments, inv_receiving, inv_recons, inv_transfers.
Qed.

Lemma Stock_inv_init d : initial d -> Stock_inv d.
Proof.
  intros [E1 Hs E2 E3 E4 E5 Hl Hr]. constructor.
  - unfold Ledger_wf. rewrite E1. repeat constructor; simpl; (lia || done).
  - constructor; rewrite ?E2; simpl; [constructor|done..].
  - constructor; rewrite ?E3; simpl; try done; [|by auto].
    intros l Hin. unfold delivered. rewrite E3. simpl. by apply Hr.
  - constructor; rewrite ?E4; simpl; [constructor|done|constructor].
  - by rewrite E5.
Qed.

Lemma reachable_inv d : reachable d -> Stock_inv d.
Proof. induction 1; eauto using Stock_inv_init, Stock_inv_step. Qed.

(** ** Properties of every state reached with openings of three decimals *)

(** C1. In every state reached from an empty ledger by stock requests whose
    opening balances are typed with at most three decimals (the ledger's own
    precision; every other input is unrestricted) the ledger is sound: rows
    are in posting order, each [balance_after] is the tank's running sum, a
    tank has at most one live opening, and a row is marked reversed exactly
    when one contra of the same tank cancels it.  The condition is needed:
    the opening endpoint lets a fourth decimal through, after which the
    stored snapshot differs from the sum ([opening_fourth_decimal_drift]). *)
Theorem reachable_ledger d :
  reachable d ->
  StronglySorted Z.lt (map mv_seq (db_movements d))
  /\ (forall l1 m l2, db_movements d = l1 ++ m :: l2 ->
        mv_balance_after m
        = sum_by mv_litres (select (on_tank (mv_tenant m) (mv_tank m)) (l1 ++ [m])))
  /\ (forall t k, (length (select (hasOpeningPredicate t k) (db_movements d)) <= 1)%nat)
  /\ (forall m, In m (db_movements d) ->
        length (select (supersedes_row m) (db_movements d))
        = match mv_status m with StatusReversed => 1%nat | StatusPosted => 0%nat end)
  /\ (forall c o, In c (db_movements d) -> mv_supersedes c = Some o ->
        exists m, In m (db_movements d) /\ mv_id m = o /\ mv_status m = StatusReversed
          /\ mv_tank m = mv_tank c /\ mv_litres c = - mv_litres m).
Proof.
  intros Hr%reachable_inv. destruct (si_ledger _ Hr) as [Hb Hc Hn].
  split; [apply Hb|]. split; [apply snapshots_split, Hb|]. split; [apply Hb|].
  split; [exact Hn|]. intros c o Hin Ho.
  destruct (Hc c Hin o Ho) as (m & ? & ? & ? & _ & ? & ?). eauto 10.
Qed.

(** The balance a tank shows is the snapshot of its last row: in every
    state so reached [CurrentBalance] is the [balance_after] of the tank's
    latest movement. *)
Theorem reachable_last_balance d t k l m :
  reachable d -> tank_rows d t k = l ++ [m] ->
  CurrentBalance d t k = numeric_text 3 (mv_balance_after m).
Proof.
  intros Hr%reachable_inv Hl. rewrite CurrentBalance_rows by (rewrite Hl; by destruct l).
  unfold ledger_sum. rewrite Hl. f_equal.
  destruct (si_ledger _ Hr) as [Hb _ _].
  assert (Hin : In m (tank_rows d t k)) by (rewrite Hl; apply in_snoc; auto).
  apply in_select in Hin as [Hin [<- <-]%on_tank_true].
  apply in_split in Hin as (l1 & l2 & E).
  rewrite (snapshots_split _ (wf_snapshots _ _ _ Hb) l1 m l2 E).
  unfold tank_rows in Hl. rewrite E, select_app in Hl. rewrite select_app. simpl in *.
  rewrite (proj2 (on_tank_true _ _ m)) in * by done.
  assert (Hno : select (on_tank (mv_tenant m) (mv_tank m)) l2 = []); [|rewrite Hno in Hl; by rewrite Hl].
  destruct (select (on_tank (mv_tenant m) (mv_tank m)) l2) as [|x r] eqn:Ex; [done|exfalso].
  destruct (exists_last (l := x :: r)) as (r' & y & Ey); [done|]. rewrite Ey in Hl.
  rewrite app_comm_cons, app_assoc in Hl. apply app_inj_tail in Hl as [_ ->].
  assert (Hy : In m l2) by (apply (proj1 (in_select (on_tank (mv_tenant m) (mv_tank m)) l2 m));
    rewrite Ex, Ey; apply in_snoc; auto).
  pose proof (wf_ids _ _ _ Hb) as Hnd. rewrite E, map_app in Hnd. simpl in Hnd.
  apply List.NoDup_remove_2 in Hnd. apply Hnd, in_app_iff. right. by apply List.in_map.
Qed.

(** Separation of duties and traceability: in every state so reached an
    adjustment on the ledger was approved by someone other than its
    requester and points to a movement of exactly its delta, recorded with
    the book stock before and after it. *)
Theorem reachable_adjustments d a :
  reachable d -> In a (db_adjustments d) -> ad_status a = AdjPosted ->
  (exists u, ad_approved_by a = Some u /\ u <> ad_requested_by a)
  /\ exists m, In m (db_movements d) /\ adj_link a m.
Proof.
  intros Hr%reachable_inv Hin Hst. pose proof (aw_ok _ (si_adjustments _ Hr) a Hin) as Hok.
  unfold adjustment_ok in Hok. rewrite Hst in Hok. destruct Hok as (H1 & _ & H3). auto.
Qed.

(** Goods in equals goods ordered and booked: in every state so reached an
    order line's received litres are the sum of its deliveries, within the
    ordered quantity plus half a percent (and the rounding of one
    reading), and every delivery is on its tank's ledger for its litres. *)
Theorem reachable_receiving d :
  reachable d ->
  (forall l, In l (db_po_lines d) -> pl_received l = delivered d l
     /\ (pl_received l = 0 \/ 1000 * pl_received l <= 1005 * pl_ordered l + 500))
  /\ forall x, In x (db_deliveries d) -> exists m, In m (db_movements d) /\ delivery_row x m.
Proof.
  intros Hr%reachable_inv. destruct (si_receiving _ Hr) as [H1 _ _ H4 H5]. split.
  - intros l Hl. split; [auto|]. destruct (H5 l Hl); auto.
  - intros x Hx. destruct (H1 x Hx) as (_ & m & Hm). eauto.
Qed.

(** The ledger is append-only: a step changes nothing in the rows already
    posted except that a reversal flips the status of its target, and adds
    its own rows after them. *)
Theorem ledger_append_only d d' :
  stock_step d d' ->
  exists p rows, db_movements d' = update_where p mark_reversed (db_movements d) ++ rows.
Proof.
  intros [o d1 Hok Hrun|t].
  - destruct (is_reversal o) eqn:E.
    + destruct o; try discriminate E. apply forget_ok in Hrun as (m & Hm).
      apply ReverseMovement_inv in Hm as (orig & d2 & _ & _ & _ & _ & -> & _ & -> & _).
      exists (reversible tenant id), [m]. done.
    + pose proof (ext_op o d Hok E tt d1 Hrun) as [rows ->]%ledger_ext_app.
      exists (fun _ => false), rows. by rewrite update_where_none.
  - exists (fun _ => false), []. rewrite update_where_none by done. by rewrite app_nil_r.
Qed.
End System.

(** ** Tenant isolation *)

(** The rows of tenants other than [t]. *)
Definition others {R} (ten : R -> uuid) (t : uuid) (l : list R) : list R :=
  select (fun r => negb (bool_decide (ten r = t))) l.

Record isolates (t : uuid) (d d' : DB) : Prop := {
  iso_movements : others mv_tenant t (db_movements d') = others mv_tenant t (db_movements d);
  iso_adjustments : others ad_tenant t (db_adjustments d') = others ad_tenant t (db_adjustments d);
  iso_openings : others or_tenant t (db_openings d') = others or_tenant t (db_openings d);
  iso_deliveries : others dl_tenant t (db_deliveries d') = others dl_tenant t (db_deliveries d);
  iso_pos : others po_tenant t (db_pos d') = others po_tenant t (db_pos d);
  iso_lines : others pl_tenant t (db_po_lines d') = others pl_tenant t (db_po_lines d);
  iso_transfers : others tr_tenant t (db_transfers d') = others tr_tenant t (db_transfers d);
}.

#[export] Instance isolates_pre t : PreOrder (isolates t).
Proof.
  split; [by intros d|]. intros d1 d2 d3 [] []. constructor; etransitivity; eassumption.
Qed.

Lemma others_snoc {R} (ten : R -> uuid) t l x : ten x = t -> others ten t (l ++ [x]) = others ten t l.
Proof.
  intros Hx. unfold others. rewrite select_app. simpl. rewrite bool_decide_eq_true_2 by done.
  apply app_nil_r.
Qed.

Lemma others_update {R} (ten : R -> uuid) t p f (l : list R) :
  (forall r, p r = true -> ten r = t) -> (forall r, p r = true -> ten (f r) = ten r) ->
  others ten t (update_where p f l) = others ten t l.
Proof.
  intros Hp Hf. unfold others. rewrite select_update.
  - apply update_where_none. intros r [_ Hr]%in_select. destruct (p r) eqn:E; [|done].
    rewrite bool_decide_eq_true_2 in Hr by auto. done.
  - intros r Hr. by rewrite Hf.
Qed.

Ltac pred_tenant :=
  intros ? ?; unfold reversible, by_id, with_status, adj_by, draft_row, or_by, po_by, po_line_by,
    draft_transfer, tr_by in *; bool_solve; tauto.

#[export] Hint Extern 1 (isolates _ _ _) =>
  constructor; simpl; first
    [ reflexivity
    | apply others_snoc; simpl; first [reflexivity | eapply pr_tenant; eassumption]
    | apply others_update; [pred_tenant|done] ] : fuelgrid.

Section Isolation.
Context {L : Type} `{Loader L} (numeric_div : dec -> dec -> dec) (policy : L) (ops : OpsTables).

(** The tenant a request acts for. *)
Definition op_tenant (o : stock_op) : uuid :=
  match o with
  | OpSetOpening t _ | OpReverse t _ _ _ | OpSales t _ _ _ | OpRequestAdjustment t _
  | OpApproveAdjustment t _ _ _ | OpRejectAdjustment t _ _ _ | OpPostAdjustment t _ _
  | OpRequestOpening t _ | OpApproveOpening t _ _ _ _ | OpRejectOpening t _ _ _ _
  | OpReceiveDelivery t _ | OpGoodsReceipt t _ | OpCreateTransfer t _ _ _ _ _
  | OpApproveTransfer t _ | OpReceiveTransfer t _ _ => t
  | OpRecon (CallPersist ctx _ _ _) | OpRecon (CallAdjust ctx _ _) | OpRecon (CallSeal ctx _) =>
      ac_tenant (ActorFrom ctx)
  end.

Lemma require_actor_inv ctx a : require_actor ctx = Ok a -> a = ActorFrom ctx.
Proof.
  unfold require_actor, identity_Require. destruct (IsAuthenticated _); [|done]. by intros [= <-].
Qed.

Lemma iso_op o d : step_at (isolates (op_tenant o)) d (run_op numeric_div policy ops o).
Proof.
  destruct o as [| | | | | | | | | | | | | | |[]]; simpl; open_op; sys_solve.
  all: match goal with Ha : require_actor _ = Ok _ |- _ => apply require_actor_inv in Ha as -> end.
  all: sys_solve.
Qed.

(** C5. Tenants are isolated: a committed request changes no movement,
    adjustment, opening request, delivery, order, order line or transfer
    of any tenant but its own, and no other tenant's book stock. *)
Theorem tenant_isolation o d d' :
  run_op numeric_div policy ops o d = Ok (tt, d') ->
  isolates (op_tenant o) d d'
  /\ forall t k, t <> op_tenant o -> CurrentBalance d' t k = CurrentBalance d t k.
Proof.
  intros Hrun. pose proof (iso_op o d tt d' Hrun) as Hi. split; [done|]. intros t k Hne.
  assert (Hr : forall x, tank_rows x t k
    = select (on_tank t k) (others mv_tenant (op_tenant o) (db_movements x))).
  { intros x. unfold tank_rows, others. rewrite select_select. apply select_ext. intros m _.
    destruct (on_tank t k m) eqn:Em; [|by rewrite andb_false_r].
    apply on_tank_true in Em as [-> _]. by rewrite bool_decide_eq_false_2. }
  unfold CurrentBalance. by rewrite !Hr, (iso_movements _ _ _ Hi).
Qed.
End Isolation.

(** ** An example history *)

Definition sys_op : stock_op -> Tx DB stock_error unit := run_op dec_quot recon_policy recon_ops.

Definition history : list stock_op :=
  [ OpSetOpening 1 (mkOpeningInput 10 "1000" None 2 None);
    OpRequestAdjustment 1 (mkAdjustmentInput 10 "-0.750" "spill" "spillage" 2);
    OpApproveAdjustment 1 101 3 None;
    OpPostAdjustment 1 101 3;
    OpSales 1 50 2 [mkSaleLine 10 f12_345];
    OpReverse 1 102 3 None;
    OpReceiveDelivery 1 (mkReceiveInput 10 None "500" 2 None) ].

Definition run_history (l : list stock_op) (d : DB) : option DB :=
  List.fold_left (fun s o => match s with
    | Some d => match sys_op o d with Ok (_, d') => Some d' | Err _ => None end
    | None => None end) l (Some d).

Lemma run_history_none l : List.fold_left (fun s o => match s with
    | Some d => match sys_op o d with Ok (_, d') => Some d' | Err _ => None end
    | None => None end) l None = None.
Proof. induction l; simpl; auto. Qed.

Lemma run_history_reachable l : forall d d',
  reachable dec_quot recon_policy recon_ops d -> Forall milli_openings l -> run_history l d = Some d' ->
  reachable dec_quot recon_policy recon_ops d'.
Proof.
  induction l as [|o l IH]; intros d d' Hr Hok Hrun; unfold run_history in Hrun; simpl in Hrun.
  - congruence.
  - inversion Hok; subst. destruct (sys_op o d) as [[[] d1]|] eqn:E.
    + apply (IH d1); [|done|exact Hrun]. eapply reach_step; [exact Hr|]. by eapply step_commit.
    + by rewrite run_history_none in Hrun.
Qed.

Lemma history_ok : Forall milli_openings history.
Proof.
  unfold history. repeat constructor. exists (Dec 1000 0). split; [vm_compute; reflexivity|simpl; lia].
Qed.

Lemma demo_initial : initial demo_db.
Proof. constructor; simpl; (done || lia || constructor). Qed.

Definition history_end : DB := default demo_db (run_history history demo_db).

Lemma history_reachable : reachable dec_quot recon_policy recon_ops history_end.
Proof.
  apply (run_history_reachable history demo_db); [by apply reach_init, demo_initial|apply history_ok|].
  vm_compute. reflexivity.
Qed.


Lemma reachable_ledger_witness :
  StronglySorted Z.lt (map mv_seq (db_movements history_end))
  /\ length (db_movements history_end) = 5%nat.
Proof.
  split; [|vm_compute; reflexivity].
  apply (reachable_ledger dec_quot recon_policy recon_ops history_end history_reachable).
Defined.

Lemma reachable_last_balance_witness :
  exists l m, tank_rows history_end 1 10 = l ++ [m]
    /\ CurrentBalance history_end 1 10 = numeric_text 3 (mv_balance_after m).
Proof.
  destruct (exists_last (l := tank_rows history_end 1 10)) as (l & m & E);
    [vm_compute; discriminate|].
  exists l, m. split; [exact E|].
  exact (reachable_last_balance dec_quot recon_policy recon_ops history_end 1 10 l m history_reachable E).
Defined.

Lemma reachable_adjustments_witness :
  exists a, In a (db_adjustments history_end) /\ ad_status a = AdjPosted
    /\ exists u, ad_approved_by a = Some u /\ u <> ad_requested_by a.
Proof.
  destruct (db_adjustments history_end) as [|a l] eqn:E; [vm_compute in E; discriminate E|].
  assert (Hs : option_map ad_status (head (db_adjustments history_end)) = Some AdjPosted)
    by (vm_compute; reflexivity).
  rewrite E in Hs. injection Hs as Hs.
  exists a. split; [simpl; auto|]. split; [exact Hs|].
  apply (reachable_adjustments dec_quot recon_policy recon_ops history_end a history_reachable);
    [rewrite E; simpl; auto|exact Hs].
Defined.

Lemma history_delivery : exists x, In x (db_deliveries history_end).
Proof.
  assert (H : length (db_deliveries history_end) = 1%nat) by (vm_compute; reflexivity).
  destruct (db_deliveries history_end) as [|x l]; [discriminate H|]. exists x. simpl. auto.
Qed.

Lemma reachable_receiving_witness :
  exists x m, In x (db_deliveries history_end) /\ In m (db_movements history_end) /\ delivery_row x m.
Proof.
  destruct history_delivery as [x Hx].
  destruct (proj2 (reachable_receiving dec_quot recon_policy recon_ops history_end history_reachable) x Hx)
    as (m & H1 & H2).
  exists x, m. exact (conj Hx (conj H1 H2)).
Defined.

Lemma ledger_append_only_witness :
  exists p rows, db_movements (demo_open "1000" demo_db)
    = update_where p mark_reversed (db_movements demo_db) ++ rows.
Proof.
  apply (ledger_append_only dec_quot recon_policy recon_ops demo_db).
  apply (step_commit _ _ _ demo_db (OpSetOpening 1 (mkOpeningInput 10 "1000" None 2 None))).
  - exists (Dec 1000 0). split; [vm_compute; reflexivity|simpl; lia].
  - vm_compute. reflexivity.
Defined.

Lemma tenant_isolation_witness :
  CurrentBalance (demo_open "1000" demo_db) 7 10 = CurrentBalance demo_db 7 10.
Proof.
  apply (tenant_isolation dec_quot recon_policy recon_ops
    (OpSetOpening 1 (mkOpeningInput 10 "1000" None 2 None)) demo_db); [vm_compute; reflexivity|].
  vm_compute. discriminate.
Defined.
