(* ===== verification/Calendar.v ===== *)
(** * The civil calendar (Go's package [time], as the schedulers use it)

    Days are numbered from 0001-01-01 (day 0, a Monday), the zero of Go's
    [time.Time]; instants are nanoseconds on the wall clock of a location
    whose offset from UTC is constant and a whole number of minutes.  The
    conversion between day numbers and dates is the proleptic Gregorian
    calendar, in both directions, with the proofs that they are inverse. *)

From stdpp Require Import base list.
From Stdlib Require Import ZArith Lia.
From S2P Require Import Prelude.

Local Open Scope Z_scope.

(** ** Years and months *)

Definition leap (y : Z) : bool :=
  (y mod 4 =? 0) && (negb (y mod 100 =? 0) || (y mod 400 =? 0)).

Definition year_len (y : Z) : Z := if leap y then 366 else 365.

(** Days from 0001-01-01 to the first of January of [y]. *)
Definition year_start (y : Z) : Z :=
  365 * (y - 1) + (y - 1) / 4 - (y - 1) / 100 + (y - 1) / 400.

Definition month_len (y m : Z) : Z :=
  if m =? 2 then (if leap y then 29 else 28)
  else if (m =? 4) || (m =? 6) || (m =? 9) || (m =? 11) then 30 else 31.

(** Days from the first of January to the first of month [m] (the table
    [daysBefore]). *)
Definition month_start (y m : Z) : Z :=
  let b := if leap y then 1 else 0 in
  match m with
  | 1 => 0 | 2 => 31 | 3 => 59 + b | 4 => 90 + b | 5 => 120 + b | 6 => 151 + b | 7 => 181 + b
  | 8 => 212 + b | 9 => 243 + b | 10 => 273 + b | 11 => 304 + b | 12 => 334 + b | _ => 365 + b
  end.

Definition day_number (y m d : Z) : Z := year_start y + month_start y m + (d - 1).

(** ** From a day number to a date *)

(** The year: an estimate from the mean year length, corrected by one. *)
Definition year_of (n : Z) : Z :=
  let e := n * 400 / 146097 + 1 in
  if n <? year_start e then e - 1 else if year_start (e + 1) <=? n then e + 1 else e.

Definition yday (n : Z) : Z := n - year_start (year_of n).

(** The month of a day of the year. *)
Definition month_of_yday (y k : Z) : Z :=
  if k <? month_start y 2 then 1 else if k <? month_start y 3 then 2
  else if k <? month_start y 4 then 3 else if k <? month_start y 5 then 4
  else if k <? month_start y 6 then 5 else if k <? month_start y 7 then 6
  else if k <? month_start y 8 then 7 else if k <? month_start y 9 then 8
  else if k <? month_start y 10 then 9 else if k <? month_start y 11 then 10
  else if k <? month_start y 12 then 11 else 12.

Definition month_of (n : Z) : Z := month_of_yday (year_of n) (yday n).

Definition day_of (n : Z) : Z := yday n - month_start (year_of n) (month_of n) + 1.

(** [time.Weekday]: 0 is Sunday. *)
Definition weekday (n : Z) : Z := (n + 1) mod 7.

Definition valid_date (y m d : Z) : Prop := 1 <= m <= 12 /\ 1 <= d <= month_len y m.

(** ** Proofs *)

Lemma div_step a k : 0 < k -> (a + 1) / k = a / k + (if (a + 1) mod k =? 0 then 1 else 0).
Proof.
  intros Hk. pose proof (Z.div_mod a k ltac:(lia)). pose proof (Z.mod_pos_bound a k Hk).
  pose proof (Z.div_mod (a + 1) k ltac:(lia)). pose proof (Z.mod_pos_bound (a + 1) k Hk).
  destruct (Z.eqb_spec ((a + 1) mod k) 0); nia.
Qed.

Lemma year_start_step y : year_start (y + 1) = year_start y + year_len y.
Proof.
  unfold year_start, year_len, leap. replace (y + 1 - 1) with (y - 1 + 1) by lia.
  rewrite !div_step by lia. replace (y - 1 + 1) with y by lia.
  destruct (Z.eqb_spec (y mod 4) 0), (Z.eqb_spec (y mod 100) 0), (Z.eqb_spec (y mod 400) 0); simpl; try lia;
    exfalso.
  all: pose proof (Z.div_mod y 4 ltac:(lia)); pose proof (Z.mod_pos_bound y 4 ltac:(lia)).
  all: pose proof (Z.div_mod y 100 ltac:(lia)); pose proof (Z.mod_pos_bound y 100 ltac:(lia)).
  all: pose proof (Z.div_mod y 400 ltac:(lia)); pose proof (Z.mod_pos_bound y 400 ltac:(lia)); lia.
Qed.

Lemma year_len_bounds y : 365 <= year_len y <= 366.
Proof. unfold year_len. destruct (leap y); lia. Qed.

Lemma year_start_mono y k : 0 <= k -> year_start y + 365 * k <= year_start (y + k).
Proof.
  intros Hk. pattern k. apply natlike_ind; [|clear k Hk; intros k Hk IH|done].
  - replace (y + 0) with y by lia. lia.
  - rewrite <- Z.add_1_r, Z.add_assoc, year_start_step.
    pose proof (year_len_bounds (y + k)). lia.
Qed.

(** The year of a day is unique. *)
Lemma year_unique n y y' :
  year_start y <= n < year_start (y + 1) -> year_start y' <= n < year_start (y' + 1) -> y = y'.
Proof.
  intros H H'. destruct (Z.lt_trichotomy y y') as [Hlt|[->|Hlt]]; [exfalso|done|exfalso].
  - pose proof (year_start_mono (y + 1) (y' - (y + 1)) ltac:(lia)).
    replace (y + 1 + (y' - (y + 1))) with y' in * by lia. lia.
  - pose proof (year_start_mono (y' + 1) (y - (y' + 1)) ltac:(lia)).
    replace (y' + 1 + (y - (y' + 1))) with y in * by lia. lia.
Qed.

(** The start of a year is within two days of its mean position. *)
Lemma year_start_near y :
  146097 * (y - 1) - 400 * 2 <= 400 * year_start y <= 146097 * (y - 1) + 400 * 2.
Proof.
  unfold year_start. set (a := y - 1).
  pose proof (Z.div_mod a 4 ltac:(lia)). pose proof (Z.mod_pos_bound a 4 ltac:(lia)).
  pose proof (Z.div_mod a 100 ltac:(lia)). pose proof (Z.mod_pos_bound a 100 ltac:(lia)).
  pose proof (Z.div_mod a 400 ltac:(lia)). pose proof (Z.mod_pos_bound a 400 ltac:(lia)). lia.
Qed.

Lemma year_of_spec n : year_start (year_of n) <= n < year_start (year_of n + 1).
Proof.
  unfold year_of. set (e := n * 400 / 146097 + 1).
  pose proof (Z.div_mod (n * 400) 146097 ltac:(lia)).
  pose proof (Z.mod_pos_bound (n * 400) 146097 ltac:(lia)).
  pose proof (year_start_near (e - 1)). pose proof (year_start_near (e + 2)).
  destruct (Z.ltb_spec n (year_start e)).
  - replace (e - 1 + 1) with e by lia. lia.
  - destruct (Z.leb_spec (year_start (e + 1)) n); [|lia].
    replace (e + 1 + 1) with (e + 2) by lia. lia.
Qed.

Lemma year_of_eq n y : year_start y <= n < year_start (y + 1) -> year_of n = y.
Proof. intros H. eapply year_unique; [apply year_of_spec|done]. Qed.

(** Case analysis on a month. *)
Ltac month_cases m H :=
  let Hm := fresh in
  assert (m = 1 \/ m = 2 \/ m = 3 \/ m = 4 \/ m = 5 \/ m = 6 \/ m = 7 \/ m = 8 \/ m = 9
    \/ m = 10 \/ m = 11 \/ m = 12) as Hm by lia; clear H;
  destruct Hm as [->|[->|[->|[->|[->|[->|[->|[->|[->|[->|[->| ->]]]]]]]]]]].

Lemma month_start_next y m :
  1 <= m <= 12 -> month_start y m + month_len y m
  = if m =? 12 then year_len y else month_start y (m + 1).
Proof.
  intros H. unfold month_start, month_len, year_len. month_cases m H; destruct (leap y); reflexivity.
Qed.

Lemma month_len_pos y m : 28 <= month_len y m <= 31.
Proof. unfold month_len. repeat case_match; lia. Qed.

Lemma month_start_bounds y m d :
  valid_date y m d -> 0 <= month_start y m + (d - 1) < year_len y.
Proof.
  intros [Hm Hd]. unfold month_start, month_len, year_len in *.
  month_cases m Hm; destruct (leap y); cbn in *; lia.
Qed.

(** Splits the comparisons of [month_of_yday]. *)
Ltac split_months :=
  repeat match goal with |- context [?a <? ?b] => destruct (Z.ltb_spec a b); try lia end.

Lemma month_of_yday_start y m d :
  valid_date y m d -> month_of_yday y (month_start y m + (d - 1)) = m.
Proof.
  intros [Hm Hd]. unfold month_of_yday, month_start, month_len in *.
  month_cases m Hm; destruct (leap y); cbn in *; split_months.
Qed.

Lemma month_of_yday_spec y k :
  0 <= k < year_len y ->
  1 <= month_of_yday y k <= 12
  /\ month_start y (month_of_yday y k) <= k
     < month_start y (month_of_yday y k) + month_len y (month_of_yday y k).
Proof.
  intros Hk. unfold month_of_yday, year_len, month_start, month_len in *.
  destruct (leap y); cbn; split_months; cbn; lia.
Qed.

Lemma yday_bounds n : 0 <= yday n < year_len (year_of n).
Proof. pose proof (year_of_spec n) as H. rewrite year_start_step in H. unfold yday. lia. Qed.

(** A day number is the number of its own date. *)
Lemma civil_valid n : valid_date (year_of n) (month_of n) (day_of n).
Proof.
  destruct (month_of_yday_spec _ _ (yday_bounds n)) as [H1 H2]. unfold valid_date, day_of, month_of.
  split; [done|]. lia.
Qed.

Lemma day_number_civil n : day_number (year_of n) (month_of n) (day_of n) = n.
Proof. unfold day_number, day_of, yday. lia. Qed.

(** And a date is the date of its day number. *)
Lemma day_number_year y m d : valid_date y m d -> year_of (day_number y m d) = y.
Proof.
  intros H. apply year_of_eq. rewrite year_start_step. unfold day_number.
  pose proof (month_start_bounds y m d H). lia.
Qed.

Lemma day_number_month y m d : valid_date y m d -> month_of (day_number y m d) = m.
Proof.
  intros H. unfold month_of, yday. rewrite (day_number_year y m d H). unfold day_number.
  replace (year_start y + month_start y m + (d - 1) - year_start y)
    with (month_start y m + (d - 1)) by lia. by apply month_of_yday_start.
Qed.

Lemma day_number_day y m d : valid_date y m d -> day_of (day_number y m d) = d.
Proof.
  intros H. unfold day_of, yday. rewrite (day_number_year y m d H), (day_number_month y m d H).
  unfold day_number. lia.
Qed.

Lemma weekday_range n : 0 <= weekday n <= 6.
Proof. unfold weekday. pose proof (Z.mod_pos_bound (n + 1) 7 ltac:(lia)). lia. Qed.

(** ** Instants *)

Definition minute : Z := 60 * 1000000000.
Definition hour : Z := 60 * minute.
Definition day : Z := 24 * hour.

Definition t_day (t : Z) : Z := t / day.
Definition t_hour (t : Z) : Z := (t mod day) / hour.
Definition t_minute (t : Z) : Z := (t mod hour) / minute.
Definition Year (t : Z) : Z := year_of (t_day t).
Definition Month (t : Z) : Z := month_of (t_day t).
Definition Day (t : Z) : Z := day_of (t_day t).
Definition Weekday (t : Z) : Z := weekday (t_day t).

(** [time.Date] with its normalisation of months and days outside their
    range. *)
Definition Date (y m d h mi : Z) : Z :=
  let y' := y + (m - 1) / 12 in
  let m' := (m - 1) mod 12 + 1 in
  day_number y' m' d * day + h * hour + mi * minute.

(** [t.AddDate(years, 0, days)], which keeps the time of day. *)
Definition AddDate (t years days : Z) : Z :=
  Date (Year t + years) (Month t) (Day t + days) 0 0 + t mod day.

(** [t.Truncate(time.Minute)] *)
Definition TruncateMinute (t : Z) : Z := t - t mod minute.

Lemma Date_valid y m d h mi : 1 <= m <= 12 -> Date y m d h mi = day_number y m d * day + h * hour + mi * minute.
Proof.
  intros Hm. unfold Date. rewrite Z.div_small, Z.mod_small by lia.
  by replace (m - 1 + 1) with m by lia; rewrite Z.add_0_r.
Qed.

Lemma day_number_add y m d k : day_number y m (d + k) = day_number y m d + k.
Proof. unfold day_number. lia. Qed.

(** Adding a day moves the instant by one day. *)
Lemma AddDate_day t : AddDate t 0 1 = t + day.
Proof.
  unfold AddDate, Year, Month, Day. rewrite Z.add_0_r.
  rewrite Date_valid by apply civil_valid. rewrite day_number_add, day_number_civil.
  unfold t_day. pose proof (Z.div_mod t day ltac:(done)). lia.
Qed.
