(* ===== verification/Recurrence.v ===== *)
(** * Report schedules (package [scheduledreports]: recurrence.go)

    The recurrence shapes, their validation, the next run after an instant,
    the period key that makes a delivery idempotent, and the five-field
    cron.  Instants are those of [Calendar]: the wall clock of a location
    with a constant offset (the code runs in the server's location).  A Go
    [map[int]bool] all of whose values are true is a finite set. *)

From stdpp Require Import base list strings gmap numbers.
From Stdlib Require Import ZArith Lia Ascii.
From S2P Require Import Prelude Numeric Calendar.

Local Open Scope Z_scope.
#[local] Arguments String.append !_ _ : simpl nomatch.

(** ** The schedule *)

Definition FrequencyDaily : string := "daily".
Definition FrequencyWeekly : string := "weekly".
Definition FrequencyMonthly : string := "monthly".
Definition FrequencyCron : string := "cron".

Record Schedule := mkSchedule {
  sc_frequency : string;
  sc_hour : Z;
  sc_minute : Z;
  sc_day_of_week : option Z;
  sc_day_of_month : option Z;
  sc_cron : string;
}.

(** An error is its message. *)
Abbreviation res := (result string).

Definition validHourMinute (h m : Z) : res unit :=
  if (h <? 0) || (23 <? h) then Err "hour must be 0..23"
  else if (m <? 0) || (59 <? m) then Err "minute must be 0..59"
  else Ok tt.

(** ** Cron *)

(** [strings.SplitN(s, sep, 2)]: the parts around the first separator. *)
Fixpoint split_first (sep : ascii) (s : string) : option (string * string) :=
  match s with
  | EmptyString => None
  | String c s' =>
      if bool_decide (c = sep) then Some (""%string, s')
      else match split_first sep s' with
           | Some (a, b) => Some (String c a, b)
           | None => None
           end
  end.

(** [strings.Fields] *)
Fixpoint fields_acc (cur : string) (s : string) : list string :=
  let flush := if bool_decide (cur = "")%string then [] else [cur] in
  match s with
  | EmptyString => flush
  | String c s' =>
      if is_space c then flush ++ fields_acc "" s' else fields_acc (cur ++ String c "") s'
  end.
Definition Fields (s : string) : list string := fields_acc "" s.

(** [strconv.Atoi]; a value that overflows [int] is an error there and out
    of every field's range here. *)
Definition Atoi (s : string) : option Z :=
  let '(sign, digits) := match s with
    | String "-" r => (-1, r)
    | String "+" r => (1, r)
    | _ => (1, s)
    end in
  match take_digits digits 0 0 with
  | (z, S _, EmptyString) => Some (sign * z)
  | _ => None
  end.

Definition range (a b : Z) : gset Z := list_to_set (seqZ a (b - a + 1)).

(** One part of a comma list: a value or a range. *)
Definition cronPart (part : string) (lo hi : Z) : res (gset Z) :=
  match split_first "-" part with
  | Some (x, y) =>
      match Atoi x, Atoi y with
      | Some a, Some b =>
          if (b <? a) || (a <? lo) || (hi <? b) then Err "invalid range" else Ok (range a b)
      | _, _ => Err "invalid range"
      end
  | None =>
      match Atoi part with
      | Some v => if (v <? lo) || (hi <? v) then Err "invalid value" else Ok {[v]}
      | None => Err "invalid value"
      end
  end.

Fixpoint cronParts (parts : list string) (lo hi : Z) (out : gset Z) : res (gset Z) :=
  match parts with
  | [] => Ok out
  | p :: rest => rbind (cronPart p lo hi) (fun s => cronParts rest lo hi (out ∪ s))
  end.

Definition cronField (field : string) (lo hi : Z) : res (gset Z) :=
  if bool_decide (field = "*")%string then Ok (range lo hi)
  else rbind (cronParts (Split "," field) lo hi ∅) (fun out =>
    if bool_decide (size out = 0%nat) then Err "empty field" else Ok out).

Record cronSpec := mkCron {
  cr_min : gset Z; cr_hour : gset Z; cr_dom : gset Z; cr_mon : gset Z; cr_dow : gset Z }.

Definition parseCron (expr : string) : res cronSpec :=
  match Fields (trim_space expr) with
  | [f0; f1; f2; f3; f4] =>
      (let? mi := cronField f0 0 59 in
       let? h := cronField f1 0 23 in
       let? dom := cronField f2 1 31 in
       let? mon := cronField f3 1 12 in
       let? dow := cronField f4 0 7 in
       let dow' := if bool_decide (7 ∈ dow) then ({[0]} ∪ dow) ∖ {[7]} else dow in
       Ok (mkCron mi h dom mon dow'))%res
  | _ => Err "cron must have 5 fields: min hour dom mon dow"
  end.

(** The minute-by-minute test of [next]. *)
Definition cron_matches (c : cronSpec) (t : Z) : bool :=
  let domRestricted := negb (bool_decide (size (cr_dom c) = 31%nat)) in
  let dowRestricted := negb (bool_decide (size (cr_dow c) = 7%nat)) in
  bool_decide (Month t ∈ cr_mon c) && bool_decide (t_hour t ∈ cr_hour c)
  && bool_decide (t_minute t ∈ cr_min c)
  && let domOK := bool_decide (Day t ∈ cr_dom c) in
     let dowOK := bool_decide (Weekday t ∈ cr_dow c) in
     if domRestricted && dowRestricted then domOK || dowOK
     else if domRestricted then domOK
     else if dowRestricted then dowOK
     else true.

(** The walk; [fuel] counts the minutes left to the limit. *)
Fixpoint cron_walk (c : cronSpec) (limit : Z) (fuel : nat) (t : Z) : Z :=
  match fuel with
  | O => t
  | S f => if t <? limit then
             if cron_matches c t then t else cron_walk c limit f (t + minute)
           else t
  end.

Definition next (c : cronSpec) (after : Z) : Z :=
  let t := TruncateMinute after + minute in
  let limit := AddDate after 1 1 in
  cron_walk c limit (Z.to_nat ((limit - t) / minute + 1)) t.

(** ** Validation and the next run *)

Definition Validate (s : Schedule) : res unit :=
  if bool_decide (sc_frequency s = FrequencyDaily) then
    validHourMinute (sc_hour s) (sc_minute s)
  else if bool_decide (sc_frequency s = FrequencyWeekly) then
    rbind (validHourMinute (sc_hour s) (sc_minute s)) (fun _ =>
    match sc_day_of_week s with
    | None => Err "weekly schedule requires day_of_week (0=Sun..6=Sat)"%string
    | Some w => if (w <? 0) || (6 <? w) then Err "day_of_week must be 0..6"%string else Ok tt
    end)
  else if bool_decide (sc_frequency s = FrequencyMonthly) then
    rbind (validHourMinute (sc_hour s) (sc_minute s)) (fun _ =>
    match sc_day_of_month s with
    | None => Err "monthly schedule requires day_of_month (1..31)"%string
    | Some d => if (d <? 1) || (31 <? d) then Err "day_of_month must be 1..31"%string else Ok tt
    end)
  else if bool_decide (sc_frequency s = FrequencyCron) then
    rbind (parseCron (sc_cron s)) (fun _ => Ok tt)
  else Err "frequency must be daily|weekly|monthly|cron"%string.

Definition clampDay (year month d : Z) : Z :=
  let last := Day (Date year (month + 1) 0 0 0) in
  if last <? d then last else if d <? 1 then 1 else d.

(** The weekly loop: eight candidates, a day apart. *)
Fixpoint weekly_loop (n : nat) (dow after cand : Z) : Z :=
  match n with
  | O => cand
  | S n' => if (Weekday cand =? dow) && (after <? cand) then cand
            else weekly_loop n' dow after (AddDate cand 0 1)
  end.

(** The monthly loop: fourteen candidates, a month apart. *)
Fixpoint monthly_loop (n : nat) (s : Schedule) (dom after year month : Z) : res Z :=
  match n with
  | O => Err "monthly: could not resolve next run"
  | S n' =>
      let cand := Date year month (clampDay year month dom) (sc_hour s) (sc_minute s) in
      if after <? cand then Ok cand
      else let m := month + 1 in
           if 12 <? m then monthly_loop n' s dom after (year + 1) 1
           else monthly_loop n' s dom after year m
  end.

Definition today_at (s : Schedule) (after : Z) : Z :=
  Date (Year after) (Month after) (Day after) (sc_hour s) (sc_minute s).

Definition NextRunAfter (s : Schedule) (after : Z) : res Z :=
  rbind (Validate s) (fun _ =>
  if bool_decide (sc_frequency s = FrequencyDaily) then
    let cand := today_at s after in
    Ok (if after <? cand then cand else AddDate cand 0 1)
  else if bool_decide (sc_frequency s = FrequencyWeekly) then
    Ok (weekly_loop 8 (default 0 (sc_day_of_week s)) after (today_at s after))
  else if bool_decide (sc_frequency s = FrequencyMonthly) then
    monthly_loop 14 s (default 1 (sc_day_of_month s)) after (Year after) (Month after)
  else if bool_decide (sc_frequency s = FrequencyCron) then
    rbind (parseCron (sc_cron s)) (fun spec => Ok (next spec after))
  else Err "unsupported frequency"%string).

(** ** Period keys *)

(** [t.ISOWeek()]: the year and week of the Thursday of [t]'s week. *)
Definition ISOWeek (t : Z) : Z * Z :=
  let n := t_day t in
  let d := 4 - weekday n in
  let thursday := n + (if d =? 4 then -3 else d) in
  (year_of thursday, yday thursday / 7 + 1).

Definition date_text (t : Z) : string :=
  (pad 4 (Year t) ++ "-" ++ pad 2 (Month t) ++ "-" ++ pad 2 (Day t))%string.

Definition clock_text (t : Z) : string :=
  ("T" ++ pad 2 (t_hour t) ++ ":" ++ pad 2 (t_minute t))%string.

(** The zone of [time.RFC3339]; [offset] is in minutes east of UTC. *)
Definition zone_text (offset : Z) : string :=
  let h := pad 2 (Z.abs offset / 60) in
  let m := pad 2 (Z.abs offset mod 60) in
  if Z.eqb offset 0 then "Z"%string
  else if Z.ltb offset 0 then ("-" ++ h ++ ":" ++ m)%string
  else ("+" ++ h ++ ":" ++ m)%string.

Definition seconds_text (t : Z) : string := pad 2 (t mod minute / 1000000000).

Definition PeriodKey (offset : Z) (s : Schedule) (t : Z) : string :=
  if bool_decide (sc_frequency s = FrequencyDaily) then date_text t
  else if bool_decide (sc_frequency s = FrequencyWeekly) then
    let '(y, w) := ISOWeek t in (pad 4 y ++ "-W" ++ pad 2 w)%string
  else if bool_decide (sc_frequency s = FrequencyMonthly) then
    (pad 4 (Year t) ++ "-" ++ pad 2 (Month t))%string
  else if bool_decide (sc_frequency s = FrequencyCron) then (date_text t ++ clock_text t)%string
  else (date_text t ++ clock_text t ++ ":" ++ seconds_text t ++ zone_text offset)%string.
