(* ===== verification/RecurrenceProps.v ===== *)
(** * Properties of report schedules

    The next run is the first occurrence strictly after the given instant;
    the daily, weekly and monthly loops always resolve; distinct
    occurrences have distinct period keys; what the cron walk returns, with
    and without a match inside its window. *)

From stdpp Require Import base list strings gmap numbers.
From Stdlib Require Import ZArith Lia Ascii.
From S2P Require Import Prelude Numeric Calendar Recurrence.

Local Open Scope Z_scope.

(** ** Occurrences *)

(** The instants a schedule names. *)
Definition at_clock (s : Schedule) (t : Z) : Prop :=
  t mod minute = 0 /\ t_hour t = sc_hour s /\ t_minute t = sc_minute s.

Definition occurs (s : Schedule) (t : Z) : Prop :=
  if bool_decide (sc_frequency s = FrequencyDaily) then at_clock s t
  else if bool_decide (sc_frequency s = FrequencyWeekly) then
    at_clock s t /\ sc_day_of_week s = Some (Weekday t)
  else if bool_decide (sc_frequency s = FrequencyMonthly) then
    at_clock s t /\ exists d, sc_day_of_month s = Some d /\ Day t = Z.min d (month_len (Year t) (Month t))
  else if bool_decide (sc_frequency s = FrequencyCron) then
    t mod minute = 0 /\ exists c, parseCron (sc_cron s) = Ok c /\ cron_matches c t = true
  else False.

(** ** The clock *)

Definition valid_clock (h m : Z) : Prop := 0 <= h <= 23 /\ 0 <= m <= 59.

Lemma validHourMinute_ok h m u : validHourMinute h m = Ok u -> valid_clock h m.
Proof.
  unfold validHourMinute, valid_clock.
  destruct (Z.ltb_spec h 0), (Z.ltb_spec 23 h); simpl; try done.
  destruct (Z.ltb_spec m 0), (Z.ltb_spec 59 m); simpl; done.
Qed.

Lemma clock_parts n h m :
  valid_clock h m ->
  let t := n * day + h * hour + m * minute in
  t_day t = n /\ t_hour t = h /\ t_minute t = m /\ t mod minute = 0 /\ t mod day = h * hour + m * minute.
Proof.
  intros [Hh Hm] t. unfold t_day, t_hour, t_minute.
  assert (Ed : t mod day = h * hour + m * minute).
  { symmetry. apply Z.mod_unique with n; unfold t, day, hour, minute in *; lia. }
  assert (t / day = n) as ->.
  { symmetry. apply Z.div_unique with (h * hour + m * minute); unfold t, day, hour, minute in *; lia. }
  rewrite Ed. split; [done|].
  split; [symmetry; apply Z.div_unique with (m * minute); unfold hour, minute in *; lia|].
  assert (t mod hour = m * minute) as ->.
  { symmetry. apply Z.mod_unique with (n * 24 + h); unfold t, day, hour, minute in *; lia. }
  split; [apply Z.div_mul; done|]. split; [|done].
  symmetry. apply Z.mod_unique with (n * 1440 + h * 60 + m); unfold t, day, hour, minute in *; lia.
Qed.

(** An instant on the minute grid is its day plus its clock. *)
Lemma grid_decompose t : t mod minute = 0 -> t = t_day t * day + t_hour t * hour + t_minute t * minute.
Proof.
  intros Hz. unfold t_day, t_hour, t_minute.
  pose proof (Z.div_mod t day ltac:(done)).
  pose proof (Z.div_mod (t mod day) hour ltac:(done)).
  assert (E1 : (t mod day) mod hour = t mod hour).
  { change day with (hour * 24). rewrite Z.rem_mul_r by done.
    rewrite Z.mul_comm, Z.mod_add by done. apply Z.mod_mod. done. }
  assert (E2 : (t mod hour) mod minute = t mod minute).
  { change hour with (minute * 60). rewrite Z.rem_mul_r by done.
    rewrite Z.mul_comm, Z.mod_add by done. apply Z.mod_mod. done. }
  pose proof (Z.div_mod (t mod hour) minute ltac:(done)). lia.
Qed.

Lemma clock_range t : 0 <= t_hour t <= 23 /\ 0 <= t_minute t <= 59.
Proof.
  unfold t_hour, t_minute.
  pose proof (Z.mod_pos_bound t day ltac:(done)). pose proof (Z.mod_pos_bound t hour ltac:(done)).
  split; (split; [apply Z.div_pos; [lia|done]|]).
  - enough (t mod day / hour < 24) by lia. apply Z.div_lt_upper_bound; [done|]. unfold day in *. lia.
  - enough (t mod hour / minute < 60) by lia. apply Z.div_lt_upper_bound; [done|]. unfold hour in *. lia.
Qed.

Lemma at_clock_day s t : at_clock s t -> t = t_day t * day + sc_hour s * hour + sc_minute s * minute.
Proof. intros (Hz & <- & <-). by apply grid_decompose. Qed.

(** The schedule's time of day within a day. *)
Definition clock (s : Schedule) : Z := sc_hour s * hour + sc_minute s * minute.
Definition at_day (s : Schedule) (n : Z) : Z := n * day + sc_hour s * hour + sc_minute s * minute.

Lemma at_day_clock s n :
  valid_clock (sc_hour s) (sc_minute s) -> at_clock s (at_day s n) /\ t_day (at_day s n) = n.
Proof.
  intros Hv. destruct (clock_parts n _ _ Hv) as (H1 & H2 & H3 & H4 & _).
  unfold at_clock, at_day. auto.
Qed.

Lemma at_day_lt s n m : n < m -> at_day s n + day <= at_day s m.
Proof. unfold at_day, day, hour, minute. lia. Qed.

Lemma at_clock_at_day s t : at_clock s t -> t = at_day s (t_day t).
Proof. apply at_clock_day. Qed.

Lemma today_at_day s after : today_at s after = at_day s (t_day after).
Proof.
  unfold today_at, Year, Month, Day, at_day.
  rewrite Date_valid by apply civil_valid. by rewrite day_number_civil.
Qed.

Lemma t_day_mono a b : a <= b -> t_day a <= t_day b.
Proof. intros H. unfold t_day. by apply Z.div_le_mono. Qed.

Lemma t_day_bounds t : t_day t * day <= t < t_day t * day + day.
Proof.
  unfold t_day. pose proof (Z.div_mod t day ltac:(done)).
  pose proof (Z.mod_pos_bound t day ltac:(done)). lia.
Qed.

Lemma AddDate_at_day s n : AddDate (at_day s n) 0 1 = at_day s (n + 1).
Proof. rewrite AddDate_day. unfold at_day. lia. Qed.

(** First occurrence strictly after an instant. *)
Definition first_after (P : Z -> Prop) (after t : Z) : Prop :=
  after < t /\ P t /\ forall t', after < t' < t -> ~ P t'.

Lemma daily_first s after :
  valid_clock (sc_hour s) (sc_minute s) ->
  let cand := today_at s after in
  first_after (at_clock s) after (if after <? cand then cand else AddDate cand 0 1).
Proof.
  intros Hv. simpl. rewrite today_at_day. set (n := t_day after).
  pose proof (t_day_bounds after) as Hb. fold n in Hb.
  destruct (Z.ltb_spec after (at_day s n)) as [Hlt|Hge].
  - split; [done|]. split; [by apply at_day_clock|]. intros t' Ht' Hc.
    pose proof (at_clock_at_day s t' Hc). pose proof (t_day_mono after t' ltac:(lia)). fold n in H0.
    destruct (Z.eq_dec (t_day t') n) as [E|E]; [rewrite E in *; lia|].
    pose proof (at_day_lt s n (t_day t') ltac:(lia)). unfold day, hour, minute in *. lia.
  - rewrite AddDate_at_day. split; [|split; [by apply at_day_clock|]].
    + unfold at_day. unfold valid_clock, day, hour, minute in *. lia.
    + intros t' Ht' Hc. pose proof (at_clock_at_day s t' Hc).
      pose proof (t_day_mono after t' ltac:(lia)). fold n in H0.
      destruct (Z.eq_dec (t_day t') n) as [E|E]; [rewrite E in *; lia|].
      destruct (Z.eq_dec (t_day t') (n + 1)) as [E'|E']; [rewrite E' in *; lia|].
      pose proof (at_day_lt s (n + 1) (t_day t') ltac:(lia)). unfold day, hour, minute in *. lia.
Qed.

(** ** Weekly *)

Lemma at_day_after s n after :
  valid_clock (sc_hour s) (sc_minute s) -> t_day after < n -> after < at_day s n.
Proof.
  intros Hv Hn. pose proof (t_day_bounds after). unfold at_day, valid_clock, day, hour, minute in *. nia.
Qed.

Lemma Weekday_at_day s n :
  valid_clock (sc_hour s) (sc_minute s) -> Weekday (at_day s n) = weekday n.
Proof. intros Hv. unfold Weekday. by rewrite (proj2 (at_day_clock s n Hv)). Qed.

Definition week_hit (s : Schedule) (dow after n : Z) : Prop := weekday n = dow /\ after < at_day s n.

Lemma weekly_loop_first s dow after : valid_clock (sc_hour s) (sc_minute s) ->
  forall k m j, (j < k)%nat -> week_hit s dow after (m + Z.of_nat j) ->
  exists i, 0 <= i /\ weekly_loop k dow after (at_day s m) = at_day s (m + i)
    /\ week_hit s dow after (m + i) /\ forall i', 0 <= i' < i -> ~ week_hit s dow after (m + i').
Proof.
  intros Hv. induction k as [|k IH]; intros m j Hj Hh; [lia|]. simpl.
  rewrite Weekday_at_day by done. unfold week_hit in *.
  destruct (Z.eqb_spec (weekday m) dow), (Z.ltb_spec after (at_day s m)); simpl.
  1: { exists 0. rewrite Z.add_0_r. split; [lia|]. split; [done|]. split; [done|]. lia. }
  all: rewrite AddDate_at_day; destruct j as [|j]; [rewrite Z.add_0_r in Hh; lia|].
  all: destruct (IH (m + 1) j ltac:(lia)) as (i & Hi & -> & Hc & Hmin);
    [by replace (m + 1 + Z.of_nat j) with (m + Z.of_nat (S j)) by lia|].
  all: exists (i + 1); replace (m + (i + 1)) with (m + 1 + i) by lia; split; [lia|]; split; [done|];
    split; [done|]; intros i' Hi'; destruct (Z.eq_dec i' 0) as [->|Hne]; [rewrite Z.add_0_r; lia|];
    replace (m + i') with (m + 1 + (i' - 1)) by lia; apply Hmin; lia.
Qed.

Lemma weekday_add n j : weekday (n + j) = (weekday n + j) mod 7.
Proof. unfold weekday. rewrite Z.add_mod_idemp_l by done. f_equal. lia. Qed.

Lemma week_hit_exists s dow after :
  valid_clock (sc_hour s) (sc_minute s) -> 0 <= dow <= 6 ->
  exists j, (j < 8)%nat /\ week_hit s dow after (t_day after + Z.of_nat j).
Proof.
  intros Hv Hd. set (n := t_day after). set (j := (dow - weekday n) mod 7).
  pose proof (Z.mod_pos_bound (dow - weekday n) 7 ltac:(done)) as Hj. fold j in Hj.
  assert (Hw : weekday (n + j) = dow).
  { rewrite weekday_add. unfold j. rewrite Z.add_mod_idemp_r by done.
    replace (weekday n + (dow - weekday n)) with dow by lia. apply Z.mod_small. lia. }
  destruct (Z.eq_dec j 0) as [E|E].
  - exists 7%nat. split; [lia|]. split; [|apply at_day_after; [done|unfold n; lia]].
    rewrite weekday_add. rewrite weekday_add, E, Z.add_0_r in Hw. rewrite <- Hw.
    replace (weekday n + Z.of_nat 7) with (weekday n + 1 * 7) by lia. apply Z.mod_add. done.
  - exists (Z.to_nat j). split; [lia|]. rewrite Z2Nat.id by lia. split; [done|].
    apply at_day_after; [done|unfold n; lia].
Qed.

Lemma weekly_first s dow after :
  valid_clock (sc_hour s) (sc_minute s) -> 0 <= dow <= 6 ->
  first_after (fun t => at_clock s t /\ Weekday t = dow) after
    (weekly_loop 8 dow after (today_at s after)).
Proof.
  intros Hv Hd. rewrite today_at_day. set (n := t_day after).
  destruct (week_hit_exists s dow after Hv Hd) as (j & Hj & Hh).
  destruct (weekly_loop_first s dow after Hv 8 n j Hj Hh) as (i & Hi & -> & [Hw Hlt] & Hmin).
  split; [done|]. split; [split; [by apply at_day_clock|by rewrite Weekday_at_day]|].
  intros t' Ht' [Hc Hw']. pose proof (at_clock_at_day s t' Hc) as Et.
  pose proof (t_day_mono after t' ltac:(lia)) as Hge. fold n in Hge.
  assert (t_day t' < n + i).
  { destruct (Z.lt_ge_cases (t_day t') (n + i)) as [|Hg]; [done|exfalso].
    destruct (Z.eq_dec (t_day t') (n + i)) as [E|E]; [rewrite E in Et; lia|].
    pose proof (at_day_lt s (n + i) (t_day t') ltac:(lia)). unfold day, hour, minute in *. lia. }
  apply (Hmin (t_day t' - n) ltac:(lia)).
  replace (n + (t_day t' - n)) with (t_day t') by lia. split; [exact Hw'|]. rewrite <- Et. lia.
Qed.

(** ** Monthly *)

(** Months numbered consecutively. *)
Definition month_index (n : Z) : Z := year_of n * 12 + month_of n.

Lemma year_of_mono a b : a <= b -> year_of a <= year_of b.
Proof.
  intros H. pose proof (year_of_spec a). pose proof (year_of_spec b).
  destruct (Z.le_gt_cases (year_of a) (year_of b)) as [|Hgt]; [done|exfalso].
  pose proof (year_start_mono (year_of b + 1) (year_of a - (year_of b + 1)) ltac:(lia)).
  replace (year_of b + 1 + (year_of a - (year_of b + 1))) with (year_of a) in * by lia. lia.
Qed.

Lemma month_of_yday_mono y j k : j <= k -> month_of_yday y j <= month_of_yday y k.
Proof.
  intros H. unfold month_of_yday, month_start. destruct (leap y); cbn; split_months.
Qed.

Lemma month_index_mono a b : a <= b -> month_index a <= month_index b.
Proof.
  intros H. unfold month_index, month_of. pose proof (year_of_mono a b H) as Hy.
  destruct (month_of_yday_spec _ _ (yday_bounds a)) as [Ha _].
  destruct (month_of_yday_spec _ _ (yday_bounds b)) as [Hb _].
  destruct (Z.eq_dec (year_of a) (year_of b)) as [E|E]; [|lia].
  unfold yday in *. rewrite E in *.
  pose proof (month_of_yday_mono (year_of b) (a - year_start (year_of b)) (b - year_start (year_of b)) ltac:(lia)).
  lia.
Qed.

Lemma month_index_date y m d : valid_date y m d -> month_index (day_number y m d) = y * 12 + m.
Proof. intros H. unfold month_index. by rewrite day_number_year, day_number_month. Qed.

Lemma clampDay_min y m d : 1 <= m <= 12 -> 1 <= d -> clampDay y m d = Z.min d (month_len y m).
Proof.
  intros Hm Hd. unfold clampDay.
  assert (E : Day (Date y (m + 1) 0 0 0) = month_len y m).
  { unfold Day. assert (Et : t_day (Date y (m + 1) 0 0 0) = day_number y m (month_len y m)).
    { unfold Date, t_day. rewrite Z.mul_0_l, !Z.add_0_r, Z.div_mul by done.
      replace (m + 1 - 1) with m by lia. unfold day_number.
      pose proof (month_start_next y m Hm) as Hn. destruct (Z.eqb_spec m 12) as [->|Hne].
      - change (12 / 12) with 1. change (12 mod 12 + 1) with 1. rewrite year_start_step.
        change (month_start (y + 1) 1) with 0. lia.
      - rewrite Z.div_small, Z.mod_small by lia. rewrite Z.add_0_r. lia. }
    rewrite Et. apply day_number_day. split; [done|]. pose proof (month_len_pos y m). lia. }
  rewrite E. pose proof (month_len_pos y m).
  destruct (Z.ltb_spec (month_len y m) d), (Z.ltb_spec d 1); lia.
Qed.

(** The candidate of a month. *)
Definition month_cand (s : Schedule) (dom y m : Z) : Z :=
  at_day s (day_number y m (Z.min dom (month_len y m))).

Lemma cand_valid y m dom : 1 <= m <= 12 -> 1 <= dom -> valid_date y m (Z.min dom (month_len y m)).
Proof. intros Hm Hd. split; [done|]. pose proof (month_len_pos y m). lia. Qed.

Lemma monthly_step n s dom after y m :
  1 <= m <= 12 -> 1 <= dom ->
  monthly_loop (S n) s dom after y m
  = if after <? month_cand s dom y m then Ok (month_cand s dom y m)
    else if m =? 12 then monthly_loop n s dom after (y + 1) 1
    else monthly_loop n s dom after y (m + 1).
Proof.
  intros Hm Hd. cbn [monthly_loop]. rewrite clampDay_min, Date_valid by done.
  fold (at_day s (day_number y m (Z.min dom (month_len y m)))). fold (month_cand s dom y m).
  destruct (_ <? _); [done|]. destruct (Z.ltb_spec 12 (m + 1)), (Z.eqb_spec m 12); (done || lia).
Qed.

(** A monthly occurrence is the candidate of its month. *)
Definition month_hit (s : Schedule) (dom t : Z) : Prop :=
  at_clock s t /\ Day t = Z.min dom (month_len (Year t) (Month t)).

Lemma month_hit_cand s dom t :
  month_hit s dom t -> t = month_cand s dom (Year t) (Month t).
Proof.
  intros [Hc Hd]. unfold month_cand. rewrite <- Hd. unfold Year, Month, Day.
  rewrite day_number_civil. by apply at_clock_at_day.
Qed.

Lemma month_cand_hit s dom y m :
  valid_clock (sc_hour s) (sc_minute s) -> 1 <= m <= 12 -> 1 <= dom ->
  let t := month_cand s dom y m in
  month_hit s dom t /\ Year t = y /\ Month t = m.
Proof.
  intros Hv Hm Hd t. pose proof (cand_valid y m dom Hm Hd) as Hdate. unfold month_hit, t, month_cand.
  destruct (at_day_clock s (day_number y m (Z.min dom (month_len y m))) Hv) as [Hc Ht].
  unfold Year, Month, Day. rewrite Ht, day_number_year, day_number_month, day_number_day by done.
  auto.
Qed.

Lemma month_range n : 1 <= month_of n <= 12.
Proof. apply civil_valid. Qed.

Lemma hit_same_month s dom t y m :
  month_hit s dom t -> 1 <= m <= 12 -> month_index (t_day t) = y * 12 + m ->
  t = month_cand s dom y m.
Proof.
  intros Hh Hm Hi. pose proof (month_hit_cand s dom t Hh) as E.
  pose proof (month_range (t_day t)). unfold month_index, Year, Month in *.
  assert (year_of (t_day t) = y /\ month_of (t_day t) = m) as [Ey Em] by lia.
  by rewrite Ey, Em in E.
Qed.

Lemma month_cand_index s dom y m :
  valid_clock (sc_hour s) (sc_minute s) -> 1 <= m <= 12 -> 1 <= dom ->
  month_index (t_day (month_cand s dom y m)) = y * 12 + m.
Proof.
  intros Hv Hm Hd. unfold month_cand. rewrite (proj2 (at_day_clock s _ Hv)).
  apply month_index_date. by apply cand_valid.
Qed.

Lemma monthly_first s dom after :
  valid_clock (sc_hour s) (sc_minute s) -> 1 <= dom ->
  exists t, monthly_loop 14 s dom after (Year after) (Month after) = Ok t
    /\ first_after (month_hit s dom) after t.
Proof.
  intros Hv Hd. set (y := Year after). set (m := Month after).
  assert (Hm : 1 <= m <= 12) by apply month_range.
  assert (Hidx : month_index (t_day after) = y * 12 + m) by done.
  rewrite monthly_step by done.
  destruct (Z.ltb_spec after (month_cand s dom y m)) as [Hlt|Hge].
  - exists (month_cand s dom y m). split; [done|]. split; [done|].
    split; [by apply month_cand_hit|]. intros t' Ht' Hh.
    pose proof (month_index_mono _ _ (t_day_mono after t' ltac:(lia))).
    pose proof (month_index_mono _ _ (t_day_mono t' (month_cand s dom y m) ltac:(lia))) as H2.
    rewrite month_cand_index in H2 by done.
    pose proof (hit_same_month s dom t' y m Hh Hm ltac:(lia)). lia.
  - set (y1 := if m =? 12 then y + 1 else y). set (m1 := if m =? 12 then 1 else m + 1).
    assert (Hm1 : 1 <= m1 <= 12) by (unfold m1; destruct (Z.eqb_spec m 12); lia).
    assert (Hi1 : y1 * 12 + m1 = y * 12 + m + 1) by (unfold y1, m1; destruct (Z.eqb_spec m 12); lia).
    assert (Hc1 : after < month_cand s dom y1 m1).
    { unfold month_cand. apply at_day_after; [done|].
      pose proof (month_index_date y1 m1 _ (cand_valid y1 m1 dom Hm1 Hd)) as Hx.
      destruct (Z.lt_ge_cases (t_day after) (day_number y1 m1 (Z.min dom (month_len y1 m1)))); [done|].
      pose proof (month_index_mono _ _ H). lia. }
    assert (El : (if m =? 12 then monthly_loop 13 s dom after (y + 1) 1
      else monthly_loop 13 s dom after y (m + 1)) = monthly_loop 13 s dom after y1 m1)
      by (unfold y1, m1; by destruct (m =? 12)).
    rewrite El, monthly_step by done. rewrite (proj2 (Z.ltb_lt _ _) Hc1).
    exists (month_cand s dom y1 m1). split; [done|]. split; [done|].
    split; [by apply month_cand_hit|]. intros t' Ht' Hh.
    pose proof (month_index_mono _ _ (t_day_mono after t' ltac:(lia))).
    pose proof (month_index_mono _ _ (t_day_mono t' (month_cand s dom y1 m1) ltac:(lia))) as H2.
    rewrite month_cand_index in H2 by done.
    destruct (Z.eq_dec (month_index (t_day t')) (y * 12 + m)) as [E|E].
    + pose proof (hit_same_month s dom t' y m Hh Hm E). lia.
    + pose proof (hit_same_month s dom t' y1 m1 Hh Hm1 ltac:(lia)). lia.
Qed.

(** ** Cron *)

Lemma cron_walk_spec c limit fuel : forall t,
  limit <= t + Z.of_nat fuel * minute ->
  let r := cron_walk c limit fuel t in
  exists k, 0 <= k /\ r = t + k * minute
    /\ (forall i, 0 <= i < k -> t + i * minute < limit /\ cron_matches c (t + i * minute) = false)
    /\ (limit <= r \/ cron_matches c r = true).
Proof.
  induction fuel as [|f IH]; intros t Hf; cbn [cron_walk].
  - exists 0. rewrite Z.mul_0_l, Z.add_0_r. split; [lia|]. split; [done|]. split; [lia|]. left. lia.
  - destruct (Z.ltb_spec t limit) as [Hlt|Hge].
    + destruct (cron_matches c t) eqn:E.
      * exists 0. rewrite Z.mul_0_l, Z.add_0_r. split; [lia|]. split; [done|]. split; [lia|auto].
      * destruct (IH (t + minute)) as (k & Hk & Hr & Hn & He); [lia|].
        exists (k + 1). split; [lia|]. split; [lia|]. split; [|done].
        intros i Hi. destruct (Z.eq_dec i 0) as [->|Hne].
        -- rewrite Z.mul_0_l, Z.add_0_r. done.
        -- replace (t + i * minute) with (t + minute + (i - 1) * minute) by lia. apply Hn. lia.
    + exists 0. rewrite Z.mul_0_l, Z.add_0_r. split; [lia|]. split; [done|]. split; [lia|auto].
Qed.

(** Two leap years are never adjacent. *)
Lemma leap_pair y : leap y && leap (y + 1) = false.
Proof.
  unfold leap. destruct (Z.eqb_spec (y mod 4) 0); [|done].
  destruct (Z.eqb_spec ((y + 1) mod 4) 0); [|by rewrite andb_false_r].
  pose proof (Z.div_mod y 4 ltac:(done)). pose proof (Z.div_mod (y + 1) 4 ltac:(done)). lia.
Qed.

(** The window of a year and a day. *)
Lemma limit_bounds after : after + 366 * day <= AddDate after 1 1 <= after + 367 * day.
Proof.
  unfold AddDate. set (n := t_day after). unfold Year, Month, Day. fold n.
  pose proof (month_range n) as Hm. rewrite Date_valid by done.
  rewrite day_number_add. unfold day_number. rewrite year_start_step.
  pose proof (day_number_civil n) as E. unfold day_number in E.
  assert (Hs : 365 <= year_len (year_of n) + month_start (year_of n + 1) (month_of n)
    - month_start (year_of n) (month_of n) <= 366).
  { set (mm := month_of n) in *. unfold year_len, month_start. clearbody mm.
    pose proof (leap_pair (year_of n)). month_cases mm Hm; destruct (leap (year_of n)), (leap (year_of n + 1)); cbn; (lia || done). }
  pose proof (Z.div_mod after day ltac:(done)) as Hd. fold (t_day after) in Hd. fold n in Hd.
  set (q := after mod day) in *. clearbody q n. unfold day, hour, minute in *. lia.
Qed.

(** The minutes of the walk: every minute after [after], in order. *)
Lemma truncate_next after :
  let t := TruncateMinute after + minute in
  after < t <= after + minute /\ t mod minute = 0.
Proof.
  unfold TruncateMinute. pose proof (Z.mod_pos_bound after minute ltac:(done)).
  pose proof (Z.div_mod after minute ltac:(done)). simpl. split; [lia|].
  replace (after - after mod minute + minute) with ((after / minute + 1) * minute) by lia.
  by apply Z.mod_mul.
Qed.

Lemma grid_index t0 t : t0 mod minute = 0 -> t mod minute = 0 -> t0 <= t ->
  exists i, 0 <= i /\ t = t0 + i * minute.
Proof.
  intros H0 H Hle. exists (t / minute - t0 / minute).
  pose proof (Z.div_mod t minute ltac:(done)). pose proof (Z.div_mod t0 minute ltac:(done)).
  split; [|lia]. pose proof (Z.div_le_mono t0 t minute ltac:(done) Hle). lia.
Qed.

Lemma next_spec c after :
  let r := next c after in
  let limit := AddDate after 1 1 in
  after < r /\ r mod minute = 0
  /\ (forall t', after < t' < r -> t' mod minute = 0 -> cron_matches c t' = false)
  /\ (r < limit + minute) /\ (limit <= r \/ cron_matches c r = true).
Proof.
  unfold next. cbv zeta. pose proof (truncate_next after) as [Ht Hg]. pose proof (limit_bounds after) as Hl.
  set (t := TruncateMinute after + minute) in *. set (limit := AddDate after 1 1) in *.
  set (fuel := Z.to_nat ((limit - t) / minute + 1)).
  assert (Hq : 0 <= (limit - t) / minute) by (apply Z.div_pos; [unfold day, hour, minute in *; lia|done]).
  pose proof (Z.div_mod (limit - t) minute ltac:(done)).
  pose proof (Z.mod_pos_bound (limit - t) minute ltac:(done)).
  destruct (cron_walk_spec c limit fuel t) as (k & Hk & Hr & Hn & He); [unfold fuel; lia|].
  set (r := cron_walk c limit fuel t) in *. clearbody r.
  split; [unfold minute in *; lia|].
  split; [rewrite Hr, Z.mod_add by done; done|]. split; [|split; [|done]].
  - intros t' Ht' Hg'. destruct (Z.lt_ge_cases t' t) as [Hlt|Hge].
    + exfalso. destruct (grid_index t' t Hg' Hg ltac:(lia)) as (i & Hi & Ei). unfold minute in *. lia.
    + destruct (grid_index t t' Hg Hg' Hge) as (i & Hi & ->). apply Hn. unfold minute in *. lia.
  - destruct (Z.eq_dec k 0) as [->|Hne]; [unfold day, hour, minute in *; lia|].
    destruct (Hn (k - 1) ltac:(lia)) as [Hb _]. lia.
Qed.

(** ** The next run *)

Lemma Validate_daily s u :
  Validate s = Ok u -> sc_frequency s = FrequencyDaily -> valid_clock (sc_hour s) (sc_minute s).
Proof. unfold Validate. intros H E. rewrite bool_decide_eq_true_2 in H by done. by eapply validHourMinute_ok. Qed.

Lemma Validate_weekly s u :
  Validate s = Ok u -> sc_frequency s = FrequencyWeekly ->
  valid_clock (sc_hour s) (sc_minute s) /\ exists w, sc_day_of_week s = Some w /\ 0 <= w <= 6.
Proof.
  unfold Validate, rbind. intros H E. rewrite E in H. simpl in H.
  destruct (validHourMinute _ _) eqn:Ev; [|done]. split; [by eapply validHourMinute_ok|].
  destruct (sc_day_of_week s) as [w|]; [|done]. exists w. split; [done|].
  destruct (Z.ltb_spec w 0), (Z.ltb_spec 6 w); simpl in H; (done || lia).
Qed.

Lemma Validate_monthly s u :
  Validate s = Ok u -> sc_frequency s = FrequencyMonthly ->
  valid_clock (sc_hour s) (sc_minute s) /\ exists d, sc_day_of_month s = Some d /\ 1 <= d <= 31.
Proof.
  unfold Validate, rbind. intros H E. rewrite E in H. simpl in H.
  destruct (validHourMinute _ _) eqn:Ev; [|done]. split; [by eapply validHourMinute_ok|].
  destruct (sc_day_of_month s) as [w|]; [|done]. exists w. split; [done|].
  destruct (Z.ltb_spec w 1), (Z.ltb_spec 31 w); simpl in H; (done || lia).
Qed.

Lemma first_after_iff (P Q : Z -> Prop) after t :
  (forall x, P x <-> Q x) -> first_after P after t -> first_after Q after t.
Proof.
  intros H (H1 & H2 & H3). split; [done|]. split; [by apply H|].
  intros t' Ht' Hq. by apply (H3 t' Ht'), H.
Qed.

(** C40. A valid daily, weekly or monthly schedule always has a next run, and it
    is the first of the instants the schedule names strictly after the given
    one: none is skipped, none is repeated, and a day-of-month past the
    month's end runs on its last day. *)
Theorem NextRunAfter_first s after :
  Validate s = Ok tt -> sc_frequency s <> FrequencyCron ->
  exists t, NextRunAfter s after = Ok t /\ first_after (occurs s) after t.
Proof.
  intros Hv Hc. unfold NextRunAfter, occurs. rewrite Hv. cbn [rbind].
  case_bool_decide as E1.
  { eexists. split; [reflexivity|]. apply daily_first. by eapply Validate_daily. }
  case_bool_decide as E2.
  { destruct (Validate_weekly s tt Hv E2) as (Hcl & w & Ew & Hw). rewrite Ew. change (default 0 (Some w)) with w.
    eexists. split; [reflexivity|]. eapply first_after_iff; [|by apply weekly_first].
    intros x. simpl. split; intros [? ?]; (split; [done|congruence]). }
  case_bool_decide as E3.
  { destruct (Validate_monthly s tt Hv E3) as (Hcl & d & Ed & Hd). rewrite Ed. change (default 1 (Some d)) with d.
    destruct (monthly_first s d after Hcl ltac:(lia)) as (t & -> & Ht). exists t. split; [reflexivity|].
    eapply first_after_iff; [|exact Ht]. intros x. unfold month_hit. split.
    - intros [? ?]. eauto.
    - intros (? & d' & [= <-] & ?). auto. }
  exfalso. unfold Validate in Hv.
  rewrite !bool_decide_eq_false_2 in Hv by done. done.
Qed.

Definition demo_monthly : Schedule := mkSchedule "monthly" 6 30 None (Some 31) "".

(** 2024-02-10 00:00 is day 738925. *)
Lemma NextRunAfter_first_witness :
  exists t, NextRunAfter demo_monthly (738925 * day) = Ok t
    /\ first_after (occurs demo_monthly) (738925 * day) t.
Proof. apply NextRunAfter_first; [reflexivity|discriminate]. Defined.

(** A cron schedule that parses always gets a next run strictly later; if
    some minute of the coming year matches, it is the first such minute, and
    otherwise the walk stops at the end of its window, at a minute that does
    not match. *)
Theorem NextRunAfter_cron s c after :
  sc_frequency s = FrequencyCron -> parseCron (sc_cron s) = Ok c ->
  exists t, NextRunAfter s after = Ok t /\ after < t <= after + 368 * day
    /\ ((exists t', after < t' < AddDate after 1 1 /\ occurs s t') -> first_after (occurs s) after t)
    /\ ((forall t', after < t' < AddDate after 1 1 -> ~ occurs s t') ->
          AddDate after 1 1 <= t < AddDate after 1 1 + minute).
Proof.
  intros Ef Ec. unfold NextRunAfter, Validate, occurs. rewrite !Ef. change (bool_decide (FrequencyCron = FrequencyDaily)) with false.
  change (bool_decide (FrequencyCron = FrequencyWeekly)) with false.
  change (bool_decide (FrequencyCron = FrequencyMonthly)) with false.
  change (bool_decide (FrequencyCron = FrequencyCron)) with true. cbv iota. rewrite Ec. cbn [rbind].
  exists (next c after). split; [reflexivity|].
  destruct (next_spec c after) as (H1 & H2 & H3 & H4 & H5). pose proof (limit_bounds after).
  split; [unfold day, hour, minute in *; lia|]. split.
  - intros (t' & Ht' & Hg & c' & [= <-] & Hm). destruct H5 as [H5|H5].
    + rewrite H3 in Hm; [done|lia|done].
    + split; [done|]. split; [eauto|]. intros t'' Ht'' (Hg' & c' & [= <-] & Hm').
      rewrite H3 in Hm'; done.
  - intros Hno. destruct H5 as [H5|H5]; [lia|]. split; [|lia].
    destruct (Z.le_gt_cases (AddDate after 1 1) (next c after)) as [|Hlt]; [done|].
    destruct (Hno (next c after)); [lia|eauto].
Qed.

Definition demo_cron : Schedule := mkSchedule "cron" 0 0 None None "30 22 * * 1-5".

Lemma NextRunAfter_cron_witness :
  exists t, NextRunAfter demo_cron (738925 * day) = Ok t /\ 738925 * day < t.
Proof.
  destruct (parseCron (sc_cron demo_cron)) as [c|e] eqn:E; [|vm_compute in E; discriminate E].
  destruct (NextRunAfter_cron demo_cron c (738925 * day) eq_refl E) as (t & H1 & H2 & _).
  exists t. split; [exact H1|apply H2].
Defined.

(** ** Cron expressions with no match in the window *)

Lemma next_no_match c after :
  (forall t', after < t' < AddDate after 1 1 + minute -> cron_matches c t' = false) ->
  AddDate after 1 1 <= next c after < AddDate after 1 1 + minute
  /\ cron_matches c (next c after) = false.
Proof.
  intros Hno. destruct (next_spec c after) as (H1 & _ & _ & H4 & H5).
  rewrite (Hno (next c after)) in * by lia. destruct H5; [lia|done].
Qed.

(** Midnight on the 29th of February. *)
Definition leap_day : Schedule := mkSchedule "cron" 0 0 None None "0 0 29 2 *".
Definition leap_day_spec : cronSpec :=
  mkCron {[0]} {[0]} {[29]} {[2]} (({[0]} ∪ range 0 7) ∖ {[7]}).

Lemma leap_day_parses : parseCron (sc_cron leap_day) = Ok leap_day_spec.
Proof. vm_compute. reflexivity. Qed.

Lemma leap_day_matches t :
  cron_matches leap_day_spec t = true -> leap (Year t) = true.
Proof.
  unfold cron_matches.
  replace (size (cr_dom leap_day_spec)) with 1%nat by (vm_compute; reflexivity).
  replace (size (cr_dow leap_day_spec)) with 7%nat by (vm_compute; reflexivity). simpl.
  intros H. bool_solve. apply elem_of_singleton in H, H0, H1, H2.
  unfold Year, Month, Day in *. destruct (civil_valid (t_day t)) as [_ Hd].
  rewrite H, H0 in Hd. unfold month_len in Hd. simpl in Hd. destruct (leap _); [done|lia].
Qed.

Lemma Year_between a b t : a <= t <= b -> Year a <= Year t <= Year b.
Proof. intros H. unfold Year. split; apply year_of_mono, t_day_mono; lia. Qed.

(** 2025-03-01 00:00, and the next 29th of February. *)
Definition march_2025 : Z := Date 2025 3 1 0 0.
Definition feb_29_2028 : Z := Date 2028 2 29 0 0.

(** The walk of a year and a day is too short for a schedule on the 29th of
    February: asked on 2025-03-01 it returns 2026-03-02, an instant the
    expression does not match, although 2028-02-29 does. *)
Theorem cron_leap_day_missed :
  NextRunAfter leap_day march_2025 = Ok (Date 2026 3 2 0 0)
  /\ ~ occurs leap_day (Date 2026 3 2 0 0) /\ occurs leap_day feb_29_2028.
Proof.
  assert (Hno : forall t', march_2025 < t' < AddDate march_2025 1 1 + minute ->
    cron_matches leap_day_spec t' = false).
  { intros t' Ht'. destruct (cron_matches leap_day_spec t') eqn:E; [|done].
    apply leap_day_matches in E.
    pose proof (Year_between march_2025 (AddDate march_2025 1 1 + minute) t' ltac:(lia)) as Hy.
    change (Year march_2025) with 2025 in Hy.
    replace (Year (AddDate march_2025 1 1 + minute)) with 2026 in Hy by (vm_compute; reflexivity).
    assert (Year t' = 2025 \/ Year t' = 2026) as [Ey|Ey] by lia; rewrite Ey in E; discriminate E. }
  destruct (next_no_match _ _ Hno) as [Hr Hm]. destruct (next_spec leap_day_spec march_2025) as (_ & Hg & _).
  assert (En : next leap_day_spec march_2025 = Date 2026 3 2 0 0).
  { set (r := next leap_day_spec march_2025) in *. clearbody r.
    replace (AddDate march_2025 1 1) with (Date 2026 3 2 0 0) in Hr by (vm_compute; reflexivity).
    assert (Hd : Date 2026 3 2 0 0 mod minute = 0) by (vm_compute; reflexivity).
    destruct (grid_index (Date 2026 3 2 0 0) r Hd Hg ltac:(lia)) as (i & Hi & ->).
    unfold minute in *. lia. }
  split; [|split].
  - unfold NextRunAfter, Validate.
    change (sc_frequency leap_day) with FrequencyCron.
    change (bool_decide (FrequencyCron = FrequencyDaily)) with false.
    change (bool_decide (FrequencyCron = FrequencyWeekly)) with false.
    change (bool_decide (FrequencyCron = FrequencyMonthly)) with false.
    change (bool_decide (FrequencyCron = FrequencyCron)) with true. cbv iota.
    rewrite leap_day_parses. cbn [rbind]. by rewrite En.
  - intros (_ & c & Hc & Hmc). rewrite leap_day_parses in Hc. injection Hc as <-.
    rewrite En in Hm. congruence.
  - split; [vm_compute; reflexivity|]. exists leap_day_spec.
    split; [apply leap_day_parses|vm_compute; reflexivity].
Qed.

(** ** Period keys *)

#[local] Arguments String.append !_ _ : simpl nomatch.

Lemma digit_inj a b : 0 <= a < 10 -> 0 <= b < 10 -> digit a = digit b -> a = b.
Proof.
  intros Ha Hb H. apply (f_equal digit_val) in H. rewrite !digit_val_digit in H by done. congruence.
Qed.

Lemma digits_n_inj k : forall a b x y,
  0 <= a < pow10 k -> 0 <= b < pow10 k ->
  (digits_n k a ++ x)%string = (digits_n k b ++ y)%string -> a = b /\ x = y.
Proof.
  induction k as [|k IH]; intros a b x y Ha Hb H; simpl in H.
  - rewrite pow10_0 in *. split; [lia|done].
  - rewrite pow10_S in *. rewrite !string_app_assoc in H. simpl in H.
    assert (forall z, 0 <= z < 10 * pow10 k -> 0 <= z / 10 < pow10 k) as Hdiv.
    { intros z Hz. split; [apply Z.div_pos; lia|apply Z.div_lt_upper_bound; lia]. }
    apply IH in H as [Hq Hs]; [|auto..]. injection Hs as Hd Hx.
    apply digit_inj in Hd; [|apply Z.mod_pos_bound; lia..].
    pose proof (Z.div_mod a 10 ltac:(lia)). pose proof (Z.div_mod b 10 ltac:(lia)). split; [lia|done].
Qed.

Lemma ndigits_fuel_le f : forall z k, (1 <= k)%nat -> 0 <= z < pow10 k -> (ndigits_fuel f z <= k)%nat.
Proof.
  induction f as [|f IH]; intros z k Hk Hz; simpl; [lia|].
  destruct (Z.ltb_spec z 10); [lia|]. destruct k as [|[|k]]; [lia|rewrite pow10_S, pow10_0 in Hz; lia|].
  apply le_n_S, IH; [lia|]. rewrite pow10_S in Hz.
  split; [apply Z.div_pos; lia|apply Z.div_lt_upper_bound; lia].
Qed.

Lemma pad_fixed k z : (1 <= k)%nat -> 0 <= z < pow10 k -> pad k z = digits_n k z.
Proof. intros Hk Hz. unfold pad, ndigits. pose proof (ndigits_fuel_le (Z.to_nat (Z.log2 z)) z k Hk Hz). by rewrite Nat.max_l. Qed.

Lemma pad_inj k a b x y :
  (1 <= k)%nat -> 0 <= a < pow10 k -> 0 <= b < pow10 k ->
  (pad k a ++ x)%string = (pad k b ++ y)%string -> a = b /\ x = y.
Proof. intros Hk Ha Hb. rewrite !pad_fixed by done. by apply digits_n_inj. Qed.

Lemma date_text_inj t1 t2 x y :
  0 <= Year t1 <= 9999 -> 0 <= Year t2 <= 9999 ->
  (date_text t1 ++ x)%string = (date_text t2 ++ y)%string -> t_day t1 = t_day t2 /\ x = y.
Proof.
  intros H1 H2 H. unfold date_text in H. rewrite !string_app_assoc in H. cbn [String.append] in H.
  destruct (civil_valid (t_day t1)) as [Hm1 Hd1]. destruct (civil_valid (t_day t2)) as [Hm2 Hd2].
  pose proof (month_len_pos (Year t1) (Month t1)). pose proof (month_len_pos (Year t2) (Month t2)).
  unfold Year, Month, Day in *.
  apply pad_inj in H as [Ey H]; [|lia|change (pow10 4) with 10000; lia..]. injection H as H.
  apply pad_inj in H as [Em H]; [|lia|change (pow10 2) with 100; lia..]. injection H as H.
  apply pad_inj in H as [Ed H]; [|lia|change (pow10 2) with 100; lia..].
  split; [|done]. rewrite <- (day_number_civil (t_day t1)), <- (day_number_civil (t_day t2)). congruence.
Qed.

Lemma clock_text_inj t1 t2 :
  clock_text t1 = clock_text t2 -> t_hour t1 = t_hour t2 /\ t_minute t1 = t_minute t2.
Proof.
  intros H. unfold clock_text in H. injection H as H. rewrite <- (string_app_nil_r (pad 2 (t_minute t1))) in H.
  rewrite <- (string_app_nil_r (pad 2 (t_minute t2))) in H.
  pose proof (clock_range t1). pose proof (clock_range t2).
  apply pad_inj in H as [Eh H]; [|lia|change (pow10 2) with 100; lia..]. injection H as H.
  apply pad_inj in H as [Em _]; [|lia|change (pow10 2) with 100; lia..]. done.
Qed.

(** The Thursday of a day's ISO week. *)
Definition thursday (n : Z) : Z := n + (if 4 - weekday n =? 4 then -3 else 4 - weekday n).

Lemma thursday_near n : n - 3 <= thursday n <= n + 3.
Proof. unfold thursday. pose proof (weekday_range n). destruct (Z.eqb_spec (4 - weekday n) 4); lia. Qed.

Lemma thursday_mod n : (thursday n + 1) mod 7 = 4.
Proof.
  unfold thursday. pose proof (Z.div_mod (n + 1) 7 ltac:(done)) as H.
  fold (weekday n) in H. pose proof (weekday_range n). symmetry.
  destruct (Z.eqb_spec (4 - weekday n) 4).
  - apply Z.mod_unique with ((n + 1) / 7 - 1); lia.
  - apply Z.mod_unique with ((n + 1) / 7); lia.
Qed.

(** Days of one ISO week and one weekday are one day. *)
Lemma ISOWeek_inj t1 t2 :
  ISOWeek t1 = ISOWeek t2 -> Weekday t1 = Weekday t2 -> t_day t1 = t_day t2.
Proof.
  unfold ISOWeek, Weekday. cbv zeta. set (a := t_day t1). set (b := t_day t2).
  fold (thursday a) (thursday b). intros [= Ey Ew] Ed.
  unfold yday in Ew. rewrite Ey in Ew. set (y := year_start (year_of (thursday b))) in *.
  pose proof (Z.div_mod (thursday a - y) 7 ltac:(done)). pose proof (Z.mod_pos_bound (thursday a - y) 7 ltac:(done)).
  pose proof (Z.div_mod (thursday b - y) 7 ltac:(done)). pose proof (Z.mod_pos_bound (thursday b - y) 7 ltac:(done)).
  pose proof (thursday_mod a) as Ha. pose proof (thursday_mod b) as Hb.
  pose proof (Z.div_mod (thursday a + 1) 7 ltac:(done)). pose proof (Z.div_mod (thursday b + 1) 7 ltac:(done)).
  assert (thursday a = thursday b) as E by lia. clear - E Ed. unfold thursday in E. rewrite Ed in E. lia.
Qed.

Lemma ISOWeek_range t : 1 <= Year t <= 9998 -> 0 <= fst (ISOWeek t) < 10000 /\ 0 <= snd (ISOWeek t) < 100.
Proof.
  unfold ISOWeek, Year. cbv zeta. set (n := t_day t). fold (thursday n). cbn [fst snd]. intros Hy.
  pose proof (thursday_near n). pose proof (year_of_spec n) as Hs.
  pose proof (year_start_step (year_of n - 1)) as Ha. pose proof (year_len_bounds (year_of n - 1)).
  pose proof (year_start_step (year_of n + 1)) as Hb. pose proof (year_len_bounds (year_of n + 1)).
  replace (year_of n - 1 + 1) with (year_of n) in Ha by lia.
  pose proof (year_of_mono (year_start (year_of n - 1)) (thursday n) ltac:(lia)) as Lo.
  pose proof (year_of_mono (thursday n) (year_start (year_of n + 1) + 5) ltac:(lia)) as Hi.
  rewrite (year_of_eq (year_start (year_of n - 1)) (year_of n - 1)) in Lo
    by (replace (year_of n - 1 + 1) with (year_of n) by lia; lia).
  rewrite (year_of_eq (year_start (year_of n + 1) + 5) (year_of n + 1)) in Hi by lia.
  split; [lia|]. pose proof (yday_bounds (thursday n)). pose proof (year_len_bounds (year_of (thursday n))).
  pose proof (Z.div_mod (yday (thursday n)) 7 ltac:(done)).
  pose proof (Z.mod_pos_bound (yday (thursday n)) 7 ltac:(done)). lia.
Qed.

Lemma week_key_inj t1 t2 :
  1 <= Year t1 <= 9998 -> 1 <= Year t2 <= 9998 ->
  (let '(y, w) := ISOWeek t1 in (pad 4 y ++ "-W" ++ pad 2 w)%string)
  = (let '(y, w) := ISOWeek t2 in (pad 4 y ++ "-W" ++ pad 2 w)%string) -> ISOWeek t1 = ISOWeek t2.
Proof.
  intros H1 H2. pose proof (ISOWeek_range t1 H1). pose proof (ISOWeek_range t2 H2).
  destruct (ISOWeek t1) as [y1 w1], (ISOWeek t2) as [y2 w2]. cbn [fst snd] in *. intros E.
  apply pad_inj in E as [-> E]; [|lia|change (pow10 4) with 10000; lia..]. injection E as E.
  rewrite <- (string_app_nil_r (pad 2 w1)), <- (string_app_nil_r (pad 2 w2)) in E.
  apply pad_inj in E as [-> _]; [done|lia|change (pow10 2) with 100; lia..].
Qed.

Lemma month_key_inj t1 t2 :
  1 <= Year t1 <= 9998 -> 1 <= Year t2 <= 9998 ->
  (pad 4 (Year t1) ++ "-" ++ pad 2 (Month t1))%string = (pad 4 (Year t2) ++ "-" ++ pad 2 (Month t2))%string ->
  Year t1 = Year t2 /\ Month t1 = Month t2.
Proof.
  intros H1 H2 E. pose proof (month_range (t_day t1)). pose proof (month_range (t_day t2)).
  unfold Month in *.
  apply pad_inj in E as [-> E]; [|lia|change (pow10 4) with 10000; lia..]. injection E as E.
  rewrite <- (string_app_nil_r (pad 2 (month_of (t_day t1)))), <- (string_app_nil_r (pad 2 (month_of (t_day t2)))) in E.
  apply pad_inj in E as [-> _]; [done|lia|change (pow10 2) with 100; lia..].
Qed.

(** Distinct runs of a schedule never share a period key, so the unique
    index on (schedule, period key) suppresses repeated ticks and nothing
    else: two occurrences in the years 1 to 9998 with the same key are the
    same instant. *)
Theorem PeriodKey_inj offset s t1 t2 :
  occurs s t1 -> occurs s t2 -> 1 <= Year t1 <= 9998 -> 1 <= Year t2 <= 9998 ->
  PeriodKey offset s t1 = PeriodKey offset s t2 -> t1 = t2.
Proof.
  intros H1 H2 Hy1 Hy2. unfold PeriodKey, occurs in *.
  case_bool_decide as E1; [|case_bool_decide as E2; [|case_bool_decide as E3; [|case_bool_decide as E4; [|done]]]].
  - rewrite <- (string_app_nil_r (date_text t1)), <- (string_app_nil_r (date_text t2)).
    intros E. apply date_text_inj in E as [E _]; [|lia..].
    rewrite (at_clock_day s t1 H1), (at_clock_day s t2 H2). by rewrite E.
  - destruct H1 as [H1 W1], H2 as [H2 W2]. intros E%week_key_inj; [|done..].
    rewrite (at_clock_day s t1 H1), (at_clock_day s t2 H2).
    rewrite (ISOWeek_inj t1 t2 E) by congruence. reflexivity.
  - destruct H1 as (H1 & d1 & D1 & E1'), H2 as (H2 & d2 & D2 & E2').
    assert (d1 = d2) as -> by congruence. intros [Ey Em]%month_key_inj; [|done..].
    rewrite (month_hit_cand s d2 t1 (conj H1 E1')), (month_hit_cand s d2 t2 (conj H2 E2')). by rewrite Ey, Em.
  - destruct H1 as [H1 _], H2 as [H2 _]. intros E.
    apply date_text_inj in E as [E C]; [|lia..]. apply clock_text_inj in C as [Eh Em].
    rewrite (grid_decompose t1 H1), (grid_decompose t2 H2). by rewrite E, Eh, Em.
Qed.

(** The last days of January and February 2024 for a schedule on the 31st. *)
Lemma PeriodKey_inj_witness :
  PeriodKey 180 demo_monthly (Date 2024 1 31 6 30) <> PeriodKey 180 demo_monthly (Date 2024 2 29 6 30).
Proof.
  intros E. assert (Date 2024 1 31 6 30 = Date 2024 2 29 6 30) as X; [|discriminate X].
  apply (PeriodKey_inj 180 demo_monthly); [| |vm_compute; split; discriminate|vm_compute; split; discriminate|exact E];
    (split; [vm_compute; auto|exists 31; vm_compute; auto]).
Defined.
