(* ===== verification/Accounting.v ===== *)
(** * The double-entry finance core (package [accounting]: accounts.go,
      periods.go, journal.go, reports.go, exports.go)

    The chart of accounts, the accounting periods with their status
    machine, the journal every finance document posts through, and the
    reports that read it.  The tables carry the constraints of migrations
    0037 to 0039, 0065 and 0068.  Dates are day numbers; money columns are
    [numeric(14,2)], held in cents.  The collation behind [ORDER BY code]
    is a setting of the database and a parameter here. *)

From stdpp Require Import base list strings.
From Stdlib Require Import ZArith Lia Ascii.
From S2P Require Import Prelude Numeric.

Local Open Scope Z_scope.
Local Open Scope tx_scope.

(** ** Tables *)

Record Account := mkAccount {
  ac_id : uuid;
  ac_tenant : uuid;
  ac_code : string;
  ac_name : string;
  ac_type : string;
  ac_normal_balance : string;
  ac_parent : option uuid;
  ac_system_key : option string;
  ac_status : string;
}.

Record AccountInput := mkAccountInput {
  ai_code : string;
  ai_name : string;
  ai_type : string;
  ai_normal_balance : string;
  ai_parent : option uuid;
  ai_system_key : option string;
}.

Inductive period_status := PeriodOpen | PeriodClosing | PeriodClosed | PeriodLocked.
#[export] Instance period_status_eq : EqDecision period_status.
Proof. solve_decision. Defined.

Record Period := mkPeriod {
  pe_id : uuid;
  pe_tenant : uuid;
  pe_start : Z;
  pe_end : Z;
  pe_status : period_status;
  pe_closed_by : option uuid;
  pe_closed_at : option Z;
  pe_locked_by : option uuid;
  pe_locked_at : option Z;
}.

Inductive entry_status := EntryDraft | EntryPosted | EntryReversed.
#[export] Instance entry_status_eq : EqDecision entry_status.
Proof. solve_decision. Defined.

Record JournalEntry := mkEntry {
  je_id : uuid;
  je_number : Z;
  je_tenant : uuid;
  je_period : uuid;
  je_date : Z;
  je_source_type : string;
  je_source : option uuid;
  je_station : option uuid;
  je_status : entry_status;
  je_memo : option string;
  je_reverses : option uuid;
  je_reversed_by : option uuid;
  je_posted_by : uuid;
  je_posted_at : Z;
}.

Record JournalLine := mkLine {
  jl_id : uuid;
  jl_tenant : uuid;
  jl_entry : uuid;
  jl_account : uuid;
  jl_debit : Z;
  jl_credit : Z;
  jl_station : option uuid;
  jl_memo : option string;
}.

(** An entry with the figures the reads attach to it. *)
Record EntryView := mkView {
  ev_entry : JournalEntry;
  ev_total : string;
  ev_lines : list JournalLine;
}.

Record PostLine := mkPostLine {
  pl_account : uuid;
  pl_system_key : string;
  pl_debit : string;
  pl_credit : string;
  pl_station : option uuid;
  pl_memo : option string;
}.

Record PostEntryInput := mkPostEntry {
  pi_date : Z;
  pi_source_type : string;
  pi_source : option uuid;
  pi_station : option uuid;
  pi_memo : option string;
  pi_posted_by : uuid;
  pi_allow_closed : bool;
  pi_lines : list PostLine;
}.

Record Books := mkBooks {
  bk_accounts : list Account;
  bk_periods : list Period;
  bk_entries : list JournalEntry;
  bk_lines : list JournalLine;
  bk_users : list (uuid * uuid);
  bk_stations : list (uuid * uuid);
  bk_next_id : uuid;
  bk_next_number : Z;
  bk_now : Z;
}.

Definition set_accounts (v : list Account) (b : Books) : Books :=
  mkBooks v (bk_periods b) (bk_entries b) (bk_lines b) (bk_users b) (bk_stations b)
    (bk_next_id b) (bk_next_number b) (bk_now b).
Definition set_periods (v : list Period) (b : Books) : Books :=
  mkBooks (bk_accounts b) v (bk_entries b) (bk_lines b) (bk_users b) (bk_stations b)
    (bk_next_id b) (bk_next_number b) (bk_now b).
Definition set_entries (v : list JournalEntry) (b : Books) : Books :=
  mkBooks (bk_accounts b) (bk_periods b) v (bk_lines b) (bk_users b) (bk_stations b)
    (bk_next_id b) (bk_next_number b) (bk_now b).
Definition set_lines (v : list JournalLine) (b : Books) : Books :=
  mkBooks (bk_accounts b) (bk_periods b) (bk_entries b) v (bk_users b) (bk_stations b)
    (bk_next_id b) (bk_next_number b) (bk_now b).
Definition bump_id (b : Books) : Books :=
  mkBooks (bk_accounts b) (bk_periods b) (bk_entries b) (bk_lines b) (bk_users b) (bk_stations b)
    (bk_next_id b + 1)%N (bk_next_number b) (bk_now b).
Definition bump_number (b : Books) : Books :=
  mkBooks (bk_accounts b) (bk_periods b) (bk_entries b) (bk_lines b) (bk_users b) (bk_stations b)
    (bk_next_id b) (bk_next_number b + 1) (bk_now b).

(** The error values of the package and the SQL errors a statement raises. *)
Inductive acc_error :=
| ErrAccountNotFound | ErrSystemAccount
| ErrPeriodNotFound | ErrPeriodOverlap | ErrPeriodTransition | ErrNoPeriod | ErrPeriodClosed
| ErrPeriodLocked
| ErrUnbalanced | ErrEntryNotFound | ErrAlreadyReversed | ErrNoLines
| SqlUnique | SqlCheck | SqlForeignKey | SqlNumeric | SqlRestrict.
#[export] Instance acc_error_eq : EqDecision acc_error.
Proof. solve_decision. Defined.

(** ** The chart of accounts *)

(** [chk_accounts_type], [chk_accounts_normal], [chk_accounts_status] *)
Definition account_types : list string :=
  ["asset"; "liability"; "equity"; "income"; "expense"; "contra_asset"; "contra_income"]%string.
Definition account_checks (a : Account) : bool :=
  bool_decide (ac_type a ∈ account_types)
  && bool_decide (ac_normal_balance a ∈ ["debit"; "credit"]%string)
  && bool_decide (ac_status a ∈ ["active"; "inactive"]%string).

Definition ac_by (tenant id : uuid) (a : Account) : bool :=
  bool_decide (ac_tenant a = tenant /\ ac_id a = id).

(** [idx_accounts_tenant_code] and [idx_accounts_system_key] *)
Definition same_code (tenant : uuid) (code : string) (a : Account) : bool :=
  bool_decide (ac_tenant a = tenant) && bool_decide (lower (ac_code a) = lower code).
Definition same_key (tenant : uuid) (key : option string) (a : Account) : bool :=
  bool_decide (ac_tenant a = tenant) && bool_decide (is_Some key)
  && bool_decide (ac_system_key a = key).

Definition fk_account (b : Books) (tenant id : uuid) : bool :=
  exists_where (ac_by tenant id) (bk_accounts b).

Definition insert_account (a : Account) : Tx Books acc_error Account :=
  let! b := tget in
  tguard (account_checks a) SqlCheck ;;!
  tguard (negb (exists_where (same_code (ac_tenant a) (ac_code a)) (bk_accounts b))
          && negb (exists_where (same_key (ac_tenant a) (ac_system_key a)) (bk_accounts b)))
    SqlUnique ;;!
  tguard (fk_opt (fk_account b (ac_tenant a)) (ac_parent a)) SqlForeignKey ;;!
  tput (bump_id (set_accounts (bk_accounts b ++ [a]) b)) ;;! tret a.

Definition new_account (tenant id : uuid) (i : AccountInput) : Account :=
  mkAccount id tenant (ai_code i) (ai_name i) (ai_type i) (ai_normal_balance i) (ai_parent i)
    (ai_system_key i) "active".

Definition CreateAccount (tenant : uuid) (i : AccountInput) : Tx Books acc_error Account :=
  let! b := tget in insert_account (new_account tenant (bk_next_id b) i).

Definition chart_row (code name type normal key : string) : AccountInput :=
  mkAccountInput code name type normal None (Some key).

Definition defaultChart : list AccountInput := [
  chart_row "1000" "Cash on Hand" "asset" "debit" "cash_on_hand";
  chart_row "1005" "Petty Cash" "asset" "debit" "petty_cash";
  chart_row "1010" "Bank Clearing" "asset" "debit" "bank_clearing";
  chart_row "1020" "Bank" "asset" "debit" "bank";
  chart_row "1100" "Accounts Receivable" "asset" "debit" "accounts_receivable";
  chart_row "1200" "Inventory" "asset" "debit" "inventory";
  chart_row "2000" "Accounts Payable" "liability" "credit" "accounts_payable";
  chart_row "2100" "Sales Clearing" "liability" "credit" "sales_clearing";
  chart_row "2200" "Customer Credits" "liability" "credit" "customer_credits";
  chart_row "2300" "Output VAT Payable" "liability" "credit" "output_vat";
  chart_row "3000" "Retained Earnings" "equity" "credit" "retained_earnings";
  chart_row "4000" "Sales Revenue" "income" "credit" "sales_revenue";
  chart_row "4100" "Discounts" "contra_income" "debit" "discounts";
  chart_row "5000" "Cost of Goods Sold" "expense" "debit" "cogs";
  chart_row "5100" "Fuel Purchases" "expense" "debit" "fuel_purchases";
  chart_row "5200" "Freight, Duty & Levies" "expense" "debit" "freight_duty_levies";
  chart_row "5300" "Operating Expenses" "expense" "debit" "operating_expense";
  chart_row "5400" "Cash Over/Short" "expense" "debit" "cash_over_short"
]%string.

(** The loop of [SeedDefaultChart] over the rest of the chart; a row whose
    code exists is skipped ([ON CONFLICT ... DO NOTHING]). *)
Fixpoint seed_rows (tenant : uuid) (chart : list AccountInput) (n : Z) : Tx Books acc_error Z :=
  match chart with
  | [] => tret n
  | i :: rest =>
      let! b := tget in
      if exists_where (same_code tenant (ai_code i)) (bk_accounts b) then seed_rows tenant rest n
      else insert_account (new_account tenant (bk_next_id b) i) ;;! seed_rows tenant rest (n + 1)
  end.

Definition SeedDefaultChart (tenant : uuid) : Tx Books acc_error Z :=
  seed_rows tenant defaultChart 0.

Definition GetAccount (b : Books) (tenant id : uuid) : result acc_error Account :=
  of_option ErrAccountNotFound (first_where (ac_by tenant id) (bk_accounts b)).

(** [COALESCE(NULLIF(v, ''), old)] *)
Definition keep_if_empty (v old : string) : string := if bool_decide (v = "")%string then old else v.

Definition rename_account (name status : string) (a : Account) : Account :=
  mkAccount (ac_id a) (ac_tenant a) (ac_code a) (keep_if_empty name (ac_name a)) (ac_type a)
    (ac_normal_balance a) (ac_parent a) (ac_system_key a) (keep_if_empty status (ac_status a)).

Definition UpdateAccount (tenant id : uuid) (name status : string) : Tx Books acc_error Account :=
  let! b := tget in
  let '(row, l) := update_returning (ac_by tenant id) (rename_account name status) (bk_accounts b) in
  match row with
  | None => tfail ErrAccountNotFound
  | Some a => tguard (account_checks a) SqlCheck ;;! tput (set_accounts l b) ;;! tret a
  end.

Definition AccountHasPostings (b : Books) (tenant id : uuid) : bool :=
  exists_where (fun l => bool_decide (jl_tenant l = tenant) && bool_decide (jl_account l = id))
    (bk_lines b).

Definition resolveSystemAccount (b : Books) (tenant : uuid) (key : string) : result acc_error uuid :=
  of_option ErrSystemAccount (ac_id <$> first_where
    (fun a => bool_decide (ac_tenant a = tenant) && bool_decide (ac_system_key a = Some key)
              && bool_decide (ac_status a = "active")%string) (bk_accounts b)).

(** ** Accounting periods *)

(** [daterange(start, end, '[]') && ...] within one tenant. *)
Definition overlaps (p q : Period) : bool :=
  bool_decide (pe_tenant p = pe_tenant q) && (pe_start p <=? pe_end q) && (pe_start q <=? pe_end p).

Definition CreatePeriod (tenant : uuid) (start end_ : Z) : Tx Books acc_error Period :=
  let! b := tget in
  let p := mkPeriod (bk_next_id b) tenant start end_ PeriodOpen None None None None in
  tguard (start <=? end_) SqlCheck ;;!
  tguard (negb (exists_where (overlaps p) (bk_periods b))) ErrPeriodOverlap ;;!
  tput (bump_id (set_periods (bk_periods b ++ [p]) b)) ;;! tret p.

Definition pe_by (tenant id : uuid) (p : Period) : bool :=
  bool_decide (pe_tenant p = tenant /\ pe_id p = id).

Definition GetPeriod (b : Books) (tenant id : uuid) : result acc_error Period :=
  of_option ErrPeriodNotFound (first_where (pe_by tenant id) (bk_periods b)).

Definition start_desc (p q : Period) : bool := pe_start q <=? pe_start p.
Definition ListPeriods (b : Books) (tenant : uuid) : list Period :=
  order_by start_desc (select (fun p => bool_decide (pe_tenant p = tenant)) (bk_periods b)).

Definition start_desc_id (p q : Period) : bool :=
  (pe_start q <? pe_start p) || ((pe_start q =? pe_start p) && (pe_id p <=? pe_id q)%N).
Definition ListPeriodsPage (b : Books) (tenant : uuid) (limit offset : nat) : list Period :=
  limit_offset limit offset
    (order_by start_desc_id (select (fun p => bool_decide (pe_tenant p = tenant)) (bk_periods b))).

Definition move_period (to : period_status) (actor : uuid) (now : Z) (p : Period) : Period :=
  let closing := bool_decide (to = PeriodClosed) in
  let locking := bool_decide (to = PeriodLocked) in
  mkPeriod (pe_id p) (pe_tenant p) (pe_start p) (pe_end p) to
    (if closing then Some actor else pe_closed_by p)
    (if closing then Some now else pe_closed_at p)
    (if locking then Some actor else pe_locked_by p)
    (if locking then Some now else pe_locked_at p).

(** [pool] is what the pool's connection reads when no row matched. *)
Definition transition (pool : Books) (tenant id : uuid) (from to : period_status) (actor : uuid)
  : Tx Books acc_error Period :=
  let! b := tget in
  let '(row, l) := update_returning (fun p => pe_by tenant id p && bool_decide (pe_status p = from))
    (move_period to actor (bk_now b)) (bk_periods b) in
  match row with
  | None => match GetPeriod pool tenant id with
            | Err ErrPeriodNotFound => tfail ErrPeriodNotFound
            | _ => tfail ErrPeriodTransition
            end
  | Some p => tput (set_periods l b) ;;! tret p
  end.

Definition StartClose (pool : Books) (tenant id actor : uuid) : Tx Books acc_error Period :=
  transition pool tenant id PeriodOpen PeriodClosing actor.
Definition ClosePeriod (pool : Books) (tenant id actor : uuid) : Tx Books acc_error Period :=
  transition pool tenant id PeriodClosing PeriodClosed actor.
Definition ReopenPeriod (pool : Books) (tenant id actor : uuid) : Tx Books acc_error Period :=
  transition pool tenant id PeriodClosed PeriodOpen actor.
Definition LockPeriod (pool : Books) (tenant id actor : uuid) : Tx Books acc_error Period :=
  transition pool tenant id PeriodClosed PeriodLocked actor.

Definition covers (tenant : uuid) (date : Z) (p : Period) : bool :=
  bool_decide (pe_tenant p = tenant) && (pe_start p <=? date) && (date <=? pe_end p).

Definition resolvePostingPeriod (b : Books) (tenant : uuid) (date : Z) (allowClosed : bool)
  : result acc_error uuid :=
  match first_where (covers tenant date) (bk_periods b) with
  | None => Err ErrNoPeriod
  | Some p =>
      match pe_status p with
      | PeriodLocked => Err ErrPeriodLocked
      | PeriodClosed => if allowClosed then Ok (pe_id p) else Err ErrPeriodClosed
      | _ => Ok (pe_id p)
      end
  end.

(** ** The journal *)

Definition je_by (tenant id : uuid) (e : JournalEntry) : bool :=
  bool_decide (je_tenant e = tenant /\ je_id e = id).
Definition fk_period (b : Books) (tenant id : uuid) : bool :=
  exists_where (pe_by tenant id) (bk_periods b).
Definition fk_entry (b : Books) (tenant id : uuid) : bool :=
  exists_where (je_by tenant id) (bk_entries b).

Definition entry_fks (b : Books) (e : JournalEntry) : bool :=
  fk_period b (je_tenant e) (je_period e)
  && fk_pair (bk_users b) (je_tenant e) (je_posted_by e)
  && fk_opt (fk_pair (bk_stations b) (je_tenant e)) (je_station e)
  && fk_opt (fk_entry b (je_tenant e)) (je_reverses e)
  && fk_opt (fk_entry b (je_tenant e)) (je_reversed_by e).

Definition insert_entry (e : JournalEntry) : Tx Books acc_error JournalEntry :=
  let! b := tget in
  tguard (entry_fks b e) SqlForeignKey ;;!
  tput (bump_id (bump_number (set_entries (bk_entries b ++ [e]) b))) ;;! tret e.

Definition new_entry (b : Books) (tenant period : uuid) (date : Z) (source : string)
    (sourceID station : option uuid) (memo : option string) (by_ : uuid) (reverses : option uuid)
  : JournalEntry :=
  mkEntry (bk_next_id b) (bk_next_number b) tenant period date source sourceID station EntryPosted
    memo reverses None by_ (bk_now b).

(** [chk_journal_line_amounts] *)
Definition line_check (l : JournalLine) : bool :=
  (0 <=? jl_debit l) && (0 <=? jl_credit l) && negb ((0 <? jl_debit l) && (0 <? jl_credit l)).
Definition line_fks (b : Books) (l : JournalLine) : bool :=
  fk_entry b (jl_tenant l) (jl_entry l) && fk_account b (jl_tenant l) (jl_account l)
  && fk_opt (fk_pair (bk_stations b) (jl_tenant l)) (jl_station l).

Definition insert_line (l : JournalLine) : Tx Books acc_error JournalLine :=
  let! b := tget in
  tguard (line_check l) SqlCheck ;;!
  tguard (line_fks b l) SqlForeignKey ;;!
  tput (bump_id (set_lines (bk_lines b ++ [l]) b)) ;;! tret l.

(** A money parameter cast to [numeric] and stored in a [numeric(14,2)]. *)
Definition money_in (s : string) : result acc_error Z :=
  match parse_numeric s with
  | Some d => of_option SqlNumeric (numeric_col 14 2 d)
  | None => Err SqlNumeric
  end.

Definition line_account (b : Books) (tenant : uuid) (ln : PostLine) : result acc_error uuid :=
  if bool_decide (pl_account ln = uuid_nil) then resolveSystemAccount b tenant (pl_system_key ln)
  else Ok (pl_account ln).

Definition post_line (tenant entry : uuid) (ln : PostLine) : Tx Books acc_error JournalLine :=
  let! b := tget in
  let! acc := tlift (line_account b tenant ln) in
  let! debit := tlift (money_in (money0 (pl_debit ln))) in
  let! credit := tlift (money_in (money0 (pl_credit ln))) in
  insert_line (mkLine (bk_next_id b) tenant entry acc debit credit (pl_station ln) (pl_memo ln)).

(** The loop of [PostEntry] over its lines. *)
Fixpoint post_lines (tenant entry : uuid) (lines : list PostLine)
  : Tx Books acc_error (list JournalLine) :=
  match lines with
  | [] => tret []
  | ln :: rest =>
      let! l := post_line tenant entry ln in
      let! ls := post_lines tenant entry rest in
      tret (l :: ls)
  end.

Definition of_entry (tenant entry : uuid) (l : JournalLine) : bool :=
  bool_decide (jl_tenant l = tenant) && bool_decide (jl_entry l = entry).
Definition entry_lines (b : Books) (tenant entry : uuid) : list JournalLine :=
  select (of_entry tenant entry) (bk_lines b).
Definition total_debit (b : Books) (tenant entry : uuid) : Z :=
  sum_by jl_debit (entry_lines b tenant entry).
Definition total_credit (b : Books) (tenant entry : uuid) : Z :=
  sum_by jl_credit (entry_lines b tenant entry).

Definition PostEntry (tenant : uuid) (i : PostEntryInput) : Tx Books acc_error EntryView :=
  tguard (negb (bool_decide (length (pi_lines i) = 0%nat))) ErrNoLines ;;!
  let! b := tget in
  let! period := tlift (resolvePostingPeriod b tenant (pi_date i) (pi_allow_closed i)) in
  let! e := insert_entry (new_entry b tenant period (pi_date i) (pi_source_type i) (pi_source i)
    (pi_station i) (pi_memo i) (pi_posted_by i) None) in
  let! ls := post_lines tenant (je_id e) (pi_lines i) in
  let! b := tget in
  let debit := total_debit b tenant (je_id e) in
  tguard ((debit =? total_credit b tenant (je_id e)) && (0 <? debit)) ErrUnbalanced ;;!
  tret (mkView e (numeric_text 2 debit) ls).

Definition EntryExistsForSource (b : Books) (tenant : uuid) (source : string) (id : uuid) : bool :=
  exists_where (fun e => bool_decide (je_tenant e = tenant) && bool_decide (je_source_type e = source)
                         && bool_decide (je_source e = Some id)) (bk_entries b).

Definition line_id_le (l k : JournalLine) : bool := (jl_id l <=? jl_id k)%N.

Definition getEntry (b : Books) (tenant id : uuid) : result acc_error EntryView :=
  rbind (of_option ErrEntryNotFound (first_where (je_by tenant id) (bk_entries b))) (fun e =>
  Ok (mkView e (dec_text (coalesce_sum 2 jl_debit (entry_lines b tenant id)))
        (order_by line_id_le (entry_lines b tenant id)))).

Definition GetEntry (b : Books) (tenant id : uuid) : result acc_error EntryView :=
  getEntry b tenant id.

Definition number_desc (e f : JournalEntry) : bool := je_number f <=? je_number e.

(** Headers with their total; the subquery joins on the entry id alone. *)
Definition entry_header (b : Books) (e : JournalEntry) : EntryView :=
  mkView e (dec_text (coalesce_sum 2 jl_debit
    (select (fun l => bool_decide (jl_entry l = je_id e)) (bk_lines b)))) [].

Definition ListEntriesPage (b : Books) (tenant : uuid) (limit offset : nat) : list EntryView :=
  entry_header b <$> limit_offset limit offset
    (order_by number_desc (select (fun e => bool_decide (je_tenant e = tenant)) (bk_entries b))).

Definition ListEntries (b : Books) (tenant : uuid) (limit : nat) : list EntryView :=
  entry_header b <$> take limit
    (order_by number_desc (select (fun e => bool_decide (je_tenant e = tenant)) (bk_entries b))).

(** The trigger [journal_entries_immutable] (migration 0065) on an update. *)
Definition journal_entry_immutable (old new : JournalEntry) : bool :=
  bool_decide (je_status old = EntryDraft)
  || (bool_decide (je_status old = EntryPosted) && bool_decide (je_status new = EntryReversed)
      && bool_decide (je_reversed_by old = None) && bool_decide (is_Some (je_reversed_by new))
      && bool_decide (je_id new = je_id old) && bool_decide (je_number new = je_number old)
      && bool_decide (je_tenant new = je_tenant old) && bool_decide (je_period new = je_period old)
      && bool_decide (je_date new = je_date old)
      && bool_decide (je_source_type new = je_source_type old)
      && bool_decide (je_source new = je_source old) && bool_decide (je_station new = je_station old)
      && bool_decide (je_memo new = je_memo old) && bool_decide (je_reverses new = je_reverses old)
      && bool_decide (je_posted_by new = je_posted_by old)
      && bool_decide (je_posted_at new = je_posted_at old)).

Definition mark_entry_reversed (rev : uuid) (e : JournalEntry) : JournalEntry :=
  mkEntry (je_id e) (je_number e) (je_tenant e) (je_period e) (je_date e) (je_source_type e)
    (je_source e) (je_station e) EntryReversed (je_memo e) (je_reverses e) (Some rev)
    (je_posted_by e) (je_posted_at e).

(** [INSERT INTO journal_lines ... SELECT ... credit, debit ...]: one swapped
    copy per line of the original. *)
Definition swapped (id rev : uuid) (l : JournalLine) : JournalLine :=
  mkLine id (jl_tenant l) rev (jl_account l) (jl_credit l) (jl_debit l) (jl_station l) (jl_memo l).
Fixpoint insert_swapped (rev : uuid) (lines : list JournalLine) : Tx Books acc_error unit :=
  match lines with
  | [] => tret tt
  | l :: rest =>
      let! b := tget in
      insert_line (swapped (bk_next_id b) rev l) ;;! insert_swapped rev rest
  end.

Definition update_entry_reversed (tenant id rev : uuid) : Tx Books acc_error unit :=
  let! b := tget in
  let f := mark_entry_reversed rev in
  tguard (forallb (fun e => journal_entry_immutable e (f e))
            (select (je_by tenant id) (bk_entries b))) SqlRestrict ;;!
  tguard (fk_entry b tenant rev) SqlForeignKey ;;!
  tput (set_entries (update_where (je_by tenant id) f (bk_entries b)) b).

Definition ReverseEntry (tenant id by_ : uuid) (memo : option string)
  : Tx Books acc_error EntryView :=
  let! b := tget in
  let! orig := tlift (getEntry b tenant id) in
  let o := ev_entry orig in
  tguard (bool_decide (je_status o = EntryPosted)) ErrAlreadyReversed ;;!
  let! period := tlift (resolvePostingPeriod b tenant (je_date o) true) in
  let! rev := insert_entry (new_entry b tenant period (je_date o) "reversal" (Some (je_id o))
    (je_station o) memo by_ (Some (je_id o))) in
  let! b := tget in
  insert_swapped (je_id rev) (entry_lines b tenant (je_id o)) ;;!
  update_entry_reversed tenant (je_id o) (je_id rev) ;;!
  let! b := tget in
  tlift (getEntry b tenant (je_id rev)).

(** ** Reports *)

(** A journal line with its entry, and with its account. *)
Definition line_entry (l : JournalLine) (e : JournalEntry) : bool :=
  bool_decide (je_id e = jl_entry l) && bool_decide (je_tenant e = jl_tenant l).
Definition line_acct (le : JournalLine * JournalEntry) (a : Account) : bool :=
  bool_decide (ac_id a = jl_account le.1) && bool_decide (ac_tenant a = jl_tenant le.1).

Definition on_books (e : JournalEntry) : bool :=
  bool_decide (je_status e = EntryPosted) || bool_decide (je_status e = EntryReversed).

Abbreviation posting := (JournalLine * JournalEntry * Account)%type.
Definition p_line (p : posting) : JournalLine := p.1.1.
Definition p_entry (p : posting) : JournalEntry := p.1.2.
Definition p_account (p : posting) : Account := p.2.

(** [FROM journal_lines l JOIN journal_entries e ... JOIN accounts a ...
    WHERE l.tenant_id = $1 AND e.status IN ('posted', 'reversed') AND ...] *)
Definition postings (b : Books) (tenant : uuid) (q : JournalEntry -> bool) : list posting :=
  select (fun p => bool_decide (jl_tenant (p_line p) = tenant) && on_books (p_entry p)
                   && q (p_entry p))
    (join line_acct (join line_entry (bk_lines b) (bk_entries b)) (bk_accounts b)).

(** [COALESCE(SUM(CASE ... END), 0)]: a [CASE] with no branch for the row is
    null, and the sum skips it. *)
Definition sum_case (f : posting -> option Z) (ps : list posting) : dec :=
  coalesce_sum 2 (fun z => z) (omap f ps).

Definition credit_less_debit (p : posting) : Z := jl_credit (p_line p) - jl_debit (p_line p).
Definition debit_less_credit (p : posting) : Z := jl_debit (p_line p) - jl_credit (p_line p).
Definition has_type (types : list string) (p : posting) : bool :=
  bool_decide (ac_type (p_account p) ∈ types).

Record IncomeStatementR := mkIncome {
  is_revenue : string; is_expenses : string; is_net_profit : string }.

Definition revenue_case (p : posting) : option Z :=
  if has_type ["income"%string] p then Some (credit_less_debit p)
  else if has_type ["contra_income"%string] p then Some (- debit_less_credit p) else None.
Definition expense_case (p : posting) : option Z :=
  if has_type ["expense"%string] p then Some (debit_less_credit p) else None.

Definition IncomeStatement (b : Books) (tenant : uuid) (from to : Z) : IncomeStatementR :=
  let ps := postings b tenant (fun e => (from <=? je_date e) && (je_date e <=? to)) in
  let revenue := sum_case revenue_case ps in
  let expenses := sum_case expense_case ps in
  mkIncome (dec_text revenue) (dec_text expenses) (dec_text (dec_sub revenue expenses)).

Record BalanceSheetR := mkSheet {
  bs_assets : string; bs_liabilities : string; bs_equity : string; bs_retained : string;
  bs_net_income : string; bs_balanced : bool }.

Definition asset_case (p : posting) : option Z :=
  if has_type ["asset"; "contra_asset"]%string p then Some (debit_less_credit p) else None.
Definition liability_case (p : posting) : option Z :=
  if has_type ["liability"%string] p then Some (credit_less_debit p) else None.
Definition equity_case (p : posting) : option Z :=
  if has_type ["equity"%string] p then Some (credit_less_debit p) else None.
Definition net_income_case (p : posting) : option Z :=
  if has_type ["income"%string] p then Some (credit_less_debit p)
  else if has_type ["contra_income"%string] p then Some (- debit_less_credit p)
  else if has_type ["expense"%string] p then Some (- debit_less_credit p) else None.

(** [x::numeric(14,2)::text] *)
Definition money_cast (d : dec) : result acc_error string :=
  rbind (of_option SqlNumeric (numeric_col 14 2 d)) (fun v => Ok (numeric_text 2 v)).

Definition BalanceSheet (b : Books) (tenant : uuid) (asOf : Z) : result acc_error BalanceSheetR :=
  (let ps := postings b tenant (fun e => je_date e <=? asOf) in
   let assets := sum_case asset_case ps in
   let liabilities := sum_case liability_case ps in
   let retained := sum_case equity_case ps in
   let net_income := sum_case net_income_case ps in
   let? a := money_cast assets in
   let? l := money_cast liabilities in
   let? q := money_cast (dec_add retained net_income) in
   let? r := money_cast retained in
   let? n := money_cast net_income in
   Ok (mkSheet a l q r n
         (dec_eqb assets (dec_add (dec_add liabilities retained) net_income))))%res.

Record GeneralLedgerRow := mkGL {
  gl_entry : uuid; gl_number : Z; gl_date : Z; gl_source : string; gl_memo : option string;
  gl_debit : string; gl_credit : string }.

Definition date_number_le (x y : JournalLine * JournalEntry) : bool :=
  (je_date x.2 <? je_date y.2) || ((je_date x.2 =? je_date y.2) && (je_number x.2 <=? je_number y.2)).

Definition GeneralLedger (b : Books) (tenant account : uuid) : list GeneralLedgerRow :=
  (fun '(l, e) => mkGL (je_id e) (je_number e) (je_date e) (je_source_type e) (je_memo e)
     (numeric_text 2 (jl_debit l)) (numeric_text 2 (jl_credit l))) <$>
  order_by date_number_le
    (select (fun p => bool_decide (jl_tenant p.1 = tenant) && bool_decide (jl_account p.1 = account)
                      && on_books p.2)
       (join line_entry (bk_lines b) (bk_entries b))).

(** Whether an export over the dates may still change. *)
Definition RangeProvisional (b : Books) (tenant : uuid) (from to : Z) : bool :=
  exists_where (fun p => bool_decide (pe_tenant p = tenant)
      && negb (bool_decide (pe_status p = PeriodLocked)) && (pe_start p <=? to) && (from <=? pe_end p))
    (bk_periods b).

Record TrialBalanceRow := mkTrial {
  tb_account : uuid; tb_code : string; tb_name : string; tb_type : string; tb_normal : string;
  tb_debit : string; tb_credit : string; tb_balance : string }.

Record JournalExportRow := mkExport {
  xr_number : Z; xr_date : Z; xr_code : string; xr_name : string; xr_debit : string;
  xr_credit : string; xr_source : string; xr_status : entry_status; xr_memo : option string }.

Section Collation.
Context (collate : string -> string -> bool).

Definition code_le (a c : Account) : bool := collate (ac_code a) (ac_code c).

Definition ListAccounts (b : Books) (tenant : uuid) : list Account :=
  order_by code_le (select (fun a => bool_decide (ac_tenant a = tenant)) (bk_accounts b)).

Definition ListAccountsPage (b : Books) (tenant : uuid) (limit offset : nat) : list Account :=
  limit_offset limit offset (ListAccounts b tenant).

(** The rows of one account: its lines, each with the entry the outer join
    finds, or a null line. *)
Definition acct_line (a : Account) (l : JournalLine) : bool :=
  bool_decide (jl_account l = ac_id a) && bool_decide (jl_tenant l = ac_tenant a).
Definition dated_entry (asOf : Z) (al : Account * option JournalLine) (e : JournalEntry) : bool :=
  match al.2 with
  | Some l => line_entry l e && on_books e && (je_date e <=? asOf)
  | None => false
  end.
Definition trial_rows (b : Books) (asOf : Z) (a : Account)
  : list (Account * option JournalLine * option JournalEntry) :=
  left_join (dated_entry asOf) (left_join acct_line [a] (bk_lines b)) (bk_entries b).

Definition null_sum (f : JournalLine -> Z)
    (rows : list (Account * option JournalLine * option JournalEntry)) : Z :=
  sum_by (fun r => match r.1.2 with Some l => f l | None => 0 end) rows.

Definition trial_row (b : Books) (asOf : Z) (a : Account) : option TrialBalanceRow :=
  let rows := trial_rows b asOf a in
  let debit := null_sum jl_debit rows in
  let credit := null_sum jl_credit rows in
  if negb (debit =? 0) || negb (credit =? 0) then
    Some (mkTrial (ac_id a) (ac_code a) (ac_name a) (ac_type a) (ac_normal_balance a)
            (numeric_text 2 debit) (numeric_text 2 credit) (numeric_text 2 (debit - credit)))
  else None.

(** Grouped by account: the account's id is in the key. *)
Definition TrialBalance (b : Books) (tenant : uuid) (asOf : Z) : list TrialBalanceRow :=
  omap (trial_row b asOf) (ListAccounts b tenant).

Definition number_code_le (p q : posting) : bool :=
  (je_number (p_entry p) <? je_number (p_entry q))
  || ((je_number (p_entry p) =? je_number (p_entry q)) && code_le (p_account p) (p_account q)).

Definition ExportJournalLines (b : Books) (tenant : uuid) (from to : Z) : list JournalExportRow :=
  (fun p => mkExport (je_number (p_entry p)) (je_date (p_entry p)) (ac_code (p_account p))
     (ac_name (p_account p)) (numeric_text 2 (jl_debit (p_line p))) (numeric_text 2 (jl_credit (p_line p)))
     (je_source_type (p_entry p)) (je_status (p_entry p)) (je_memo (p_entry p))) <$>
  order_by number_code_le
    (postings b tenant (fun e => (from <=? je_date e) && (je_date e <=? to))).
End Collation.
