(* ===== verification/AccountingProps.v ===== *)
(** * Properties of the finance core

    What the postings do to the tables; the invariant of every reachable
    state of the books (unique ids, valid accounts, disjoint periods, every
    entry balanced and inside its period); that the balance sheet
    balances; reversals; what a locked period protects; the chart. *)

From stdpp Require Import base list strings.
From Stdlib Require Import ZArith Lia Ascii.
From S2P Require Import Prelude Numeric Accounting.

Local Open Scope Z_scope.
Local Open Scope tx_scope.

(** ** Effects on the tables *)

Definition add_entry (e : JournalEntry) (b : Books) : Books :=
  bump_id (bump_number (set_entries (bk_entries b ++ [e]) b)).
Definition add_line (l : JournalLine) (b : Books) : Books :=
  bump_id (set_lines (bk_lines b ++ [l]) b).
Definition add_account (a : Account) (b : Books) : Books :=
  bump_id (set_accounts (bk_accounts b ++ [a]) b).

Lemma insert_entry_inv e b x b' :
  insert_entry e b = Ok (x, b') -> x = e /\ entry_fks b e = true /\ b' = add_entry e b.
Proof. intros H. unfold insert_entry in H. tx_steps H. subst. auto. Qed.

Lemma insert_line_inv l b x b' :
  insert_line l b = Ok (x, b') ->
  x = l /\ line_check l = true /\ line_fks b l = true /\ b' = add_line l b.
Proof. intros H. unfold insert_line in H. tx_steps H. subst. auto. Qed.

Lemma insert_account_inv a b x b' :
  insert_account a b = Ok (x, b') ->
  x = a /\ b' = add_account a b /\ account_checks a = true
  /\ exists_where (same_code (ac_tenant a) (ac_code a)) (bk_accounts b) = false
  /\ exists_where (same_key (ac_tenant a) (ac_system_key a)) (bk_accounts b) = false.
Proof. intros H. unfold insert_account in H. tx_steps H. bool_solve. subst. auto. Qed.

(** A run of inserted lines: each is checked against tables the run does
    not change. *)
Inductive inserts (good : JournalLine -> Prop) : Books -> list JournalLine -> Books -> Prop :=
| ins_nil b : inserts good b [] b
| ins_cons b l ls b' :
    jl_id l = bk_next_id b -> line_check l = true -> line_fks b l = true -> good l ->
    inserts good (add_line l b) ls b' -> inserts good b (l :: ls) b'.

Lemma post_line_inv tenant entry ln b l b' :
  post_line tenant entry ln b = Ok (l, b') ->
  jl_id l = bk_next_id b /\ line_check l = true /\ line_fks b l = true
  /\ of_entry tenant entry l = true /\ b' = add_line l b
  /\ money_in (money0 (pl_debit ln)) = Ok (jl_debit l)
  /\ money_in (money0 (pl_credit ln)) = Ok (jl_credit l)
  /\ line_account b tenant ln = Ok (jl_account l).
Proof.
  intros H. unfold post_line in H. tx_steps H.
  apply insert_line_inv in H as (-> & Hc & Hf & ->). simpl. repeat (split; [done|]).
  split; [|auto]. unfold of_entry. simpl. by rewrite !bool_decide_eq_true_2.
Qed.

Lemma post_lines_inserts tenant entry lns : forall b ls b',
  post_lines tenant entry lns b = Ok (ls, b') ->
  inserts (fun l => of_entry tenant entry l = true) b ls b'.
Proof.
  induction lns as [|ln lns IH]; intros b ls b' H; simpl in H; tx_steps H; subst.
  - constructor.
  - apply post_line_inv in E as (? & ? & ? & ? & -> & _). constructor; eauto.
Qed.

Lemma insert_swapped_inserts rev lines : forall b x b',
  insert_swapped rev lines b = Ok (x, b') ->
  exists ls, inserts (fun l => jl_entry l = rev) b ls b'
    /\ Forall2 (fun l l' => l' = swapped (jl_id l') rev l) lines ls.
Proof.
  induction lines as [|l lines IH]; intros b x b' H; simpl in H; tx_steps H; subst.
  - exists []. split; constructor.
  - apply insert_line_inv in E as (-> & ? & ? & ->). apply IH in H as (ls & Hi & Hs).
    exists (swapped (bk_next_id b) rev l :: ls). split; constructor; auto.
Qed.

Lemma inserts_effect good b ls b' :
  inserts good b ls b' ->
  bk_accounts b' = bk_accounts b /\ bk_periods b' = bk_periods b /\ bk_entries b' = bk_entries b
  /\ bk_lines b' = bk_lines b ++ ls /\ bk_next_number b' = bk_next_number b
  /\ bk_now b' = bk_now b /\ bk_users b' = bk_users b /\ bk_stations b' = bk_stations b
  /\ (bk_next_id b <= bk_next_id b')%N
  /\ Forall (fun l => line_check l = true /\ line_fks b l = true /\ good l) ls.
Proof.
  induction 1 as [b|b l ls b' Hid Hc Hf Hg Hi IH].
  - rewrite app_nil_r. repeat (split; [done|]). constructor.
  - destruct IH as (-> & -> & -> & -> & -> & -> & -> & -> & Hn & Hall). simpl in *.
    rewrite <- app_assoc. repeat (split; [done|]). split; [lia|].
    constructor; [done|]. eapply Forall_impl; [exact Hall|]. done.
Qed.

(** ** The tables of a posting *)

Record posted_entry (tenant : uuid) (i : PostEntryInput) (b : Books) (v : EntryView) (b' : Books) := {
  pe_period_ok : resolvePostingPeriod b tenant (pi_date i) (pi_allow_closed i)
                 = Ok (je_period (ev_entry v));
  pe_entry_row : ev_entry v = new_entry b tenant (je_period (ev_entry v)) (pi_date i) (pi_source_type i)
                   (pi_source i) (pi_station i) (pi_memo i) (pi_posted_by i) None;
  pe_fks : entry_fks b (ev_entry v) = true;
  pe_lines_in : inserts (fun l => of_entry tenant (je_id (ev_entry v)) l = true)
                  (add_entry (ev_entry v) b) (ev_lines v) b';
  pe_balanced : total_debit b' tenant (je_id (ev_entry v)) = total_credit b' tenant (je_id (ev_entry v));
  pe_positive : 0 < total_debit b' tenant (je_id (ev_entry v));
}.

Lemma PostEntry_inv tenant i b v b' :
  PostEntry tenant i b = Ok (v, b') ->
  posted_entry tenant i b v b'
  /\ post_lines tenant (je_id (ev_entry v)) (pi_lines i) (add_entry (ev_entry v) b) = Ok (ev_lines v, b')
  /\ ev_total v = numeric_text 2 (total_debit b' tenant (je_id (ev_entry v))).
Proof.
  intros H. unfold PostEntry in H. tx_steps H. subst.
  apply insert_entry_inv in E1 as (-> & Hfk & ->). bool_solve.
  split; [|split; [exact E2|done]].
  constructor; simpl; [done|done|done|by eapply post_lines_inserts|by apply Z.eqb_eq|by apply Z.ltb_lt].
Qed.

Record reversed_entry (tenant id by_ : uuid) (memo : option string) (b : Books) (o : JournalEntry)
    (rev : JournalEntry) (ls : list JournalLine) (b' : Books) := {
  re_orig : first_where (je_by tenant id) (bk_entries b) = Some o;
  re_status : je_status o = EntryPosted;
  re_period_ok : resolvePostingPeriod b tenant (je_date o) true = Ok (je_period rev);
  re_row : rev = new_entry b tenant (je_period rev) (je_date o) "reversal" (Some id) (je_station o)
             memo by_ (Some id);
  re_fks : entry_fks b rev = true;
  re_swapped : Forall2 (fun l l' => l' = swapped (jl_id l') (je_id rev) l)
                 (entry_lines b tenant id) ls;
  re_tables : exists b2, inserts (fun l => jl_entry l = je_id rev) (add_entry rev b) ls b2
    /\ b' = set_entries (update_where (je_by tenant id) (mark_entry_reversed (je_id rev))
              (bk_entries b ++ [rev])) b2;
}.

Lemma je_by_true tenant id e : je_by tenant id e = true <-> je_tenant e = tenant /\ je_id e = id.
Proof. apply bool_decide_eq_true. Qed.

Lemma ReverseEntry_inv tenant id by_ memo b v b' :
  ReverseEntry tenant id by_ memo b = Ok (v, b') ->
  exists o rev ls, reversed_entry tenant id by_ memo b o rev ls b'
    /\ getEntry b' tenant (je_id rev) = Ok v.
Proof.
  intros H. unfold ReverseEntry in H. tx_steps H. unfold getEntry, rbind in E. cbv beta in E.
  destruct (first_where (je_by tenant id) (bk_entries b)) as [o|] eqn:Eo; [|done].
  simpl in E. injection E as <-. simpl in *. bool_solve.
  apply first_where_some in Eo as Hin. destruct Hin as [_ [<- <-]%je_by_true].
  apply insert_entry_inv in E2 as (-> & Hfk & ->). simpl in *.
  apply insert_swapped_inserts in E3 as (ls & Hins & Hsw).
  unfold update_entry_reversed in E4. tx_steps E4. injection E4 as _ <-.
  exists o, (new_entry b (je_tenant o) x0 (je_date o) "reversal" (Some (je_id o)) (je_station o)
    memo by_ (Some (je_id o))), ls.
  unfold tlift in H. destruct (getEntry _ _ _) eqn:Eg; [|done]. injection H as -> <-.
  split; [|exact Eg]. constructor; simpl; try done.
  eexists. split; [exact Hins|].
  destruct (inserts_effect _ _ _ _ Hins) as (_ & _ & -> & _). reflexivity.
Qed.

(** ** The books as a transition system *)

Inductive books_op :=
| BCreateAccount (tenant : uuid) (i : AccountInput)
| BUpdateAccount (tenant id : uuid) (name status : string)
| BSeed (tenant : uuid)
| BCreatePeriod (tenant : uuid) (start end_ : Z)
| BStartClose (tenant id actor : uuid)
| BClose (tenant id actor : uuid)
| BReopen (tenant id actor : uuid)
| BLock (tenant id actor : uuid)
| BPost (tenant : uuid) (i : PostEntryInput)
| BReverse (tenant id by_ : uuid) (memo : option string).

Definition done_ {A} (c : Tx Books acc_error A) : Tx Books acc_error unit := c ;;! tret tt.

(** The pool reads the committed state, which the transaction starts from. *)
Definition run_books (o : books_op) : Tx Books acc_error unit := fun b =>
  match o with
  | BCreateAccount t i => done_ (CreateAccount t i) b
  | BUpdateAccount t id n s => done_ (UpdateAccount t id n s) b
  | BSeed t => done_ (SeedDefaultChart t) b
  | BCreatePeriod t s e => done_ (CreatePeriod t s e) b
  | BStartClose t id a => done_ (StartClose b t id a) b
  | BClose t id a => done_ (ClosePeriod b t id a) b
  | BReopen t id a => done_ (ReopenPeriod b t id a) b
  | BLock t id a => done_ (LockPeriod b t id a) b
  | BPost t i => done_ (PostEntry t i) b
  | BReverse t id u m => done_ (ReverseEntry t id u m) b
  end.

(** A committed request, or time passing and the users and stations
    changing. *)
Inductive books_step (b : Books) : Books -> Prop :=
| books_commit o b' : run_books o b = Ok (tt, b') -> books_step b b'
| books_env users stations now : books_step b
    (mkBooks (bk_accounts b) (bk_periods b) (bk_entries b) (bk_lines b) users stations
       (bk_next_id b) (bk_next_number b) now).

Record books_empty (b : Books) : Prop := {
  be_accounts : bk_accounts b = [];
  be_periods : bk_periods b = [];
  be_entries : bk_entries b = [];
  be_lines : bk_lines b = [];
}.

Inductive books_steps : Books -> Books -> Prop :=
| books_refl b : books_steps b b
| books_next b b' b'' : books_step b b' -> books_steps b' b'' -> books_steps b b''.

Definition books_reachable (b : Books) : Prop := exists b0, books_empty b0 /\ books_steps b0 b.

(** ** The invariant *)

Record Books_inv (b : Books) : Prop := {
  bi_account_ids : NoDup (ac_id <$> bk_accounts b);
  bi_account_fresh : forall a, In a (bk_accounts b) -> (ac_id a < bk_next_id b)%N;
  bi_account_type : forall a, In a (bk_accounts b) -> ac_type a ∈ account_types;
  bi_period_fresh : forall p, In p (bk_periods b) -> (pe_id p < bk_next_id b)%N;
  bi_period_ids : NoDup (pe_id <$> bk_periods b);
  bi_period_dates : forall p, In p (bk_periods b) -> pe_start p <= pe_end p;
  bi_periods_disjoint : forall p q, In p (bk_periods b) -> In q (bk_periods b) ->
    overlaps p q = true -> p = q;
  bi_entry_ids : NoDup (je_id <$> bk_entries b);
  bi_entry_fresh : forall e, In e (bk_entries b) -> (je_id e < bk_next_id b)%N;
  bi_entry_on_books : forall e, In e (bk_entries b) -> on_books e = true;
  bi_entry_balanced : forall e, In e (bk_entries b) ->
    total_debit b (je_tenant e) (je_id e) = total_credit b (je_tenant e) (je_id e)
    /\ 0 < total_debit b (je_tenant e) (je_id e);
  bi_entry_period : forall e, In e (bk_entries b) ->
    exists p, In p (bk_periods b) /\ pe_id p = je_period e /\ covers (je_tenant e) (je_date e) p = true;
  bi_line_entry : forall l, In l (bk_lines b) -> exists e, In e (bk_entries b) /\ line_entry l e = true;
  bi_line_account : forall l, In l (bk_lines b) ->
    exists a, In a (bk_accounts b) /\ ac_by (jl_tenant l) (jl_account l) a = true;
}.

Lemma books_empty_inv b : books_empty b -> Books_inv b.
Proof.
  intros [E1 E2 E3 E4]. constructor; rewrite ?E1, ?E2, ?E3, ?E4; try (intros; done); constructor.
Qed.

Lemma covers_true t d p :
  covers t d p = true <-> pe_tenant p = t /\ pe_start p <= d <= pe_end p.
Proof. unfold covers. rewrite !andb_true_iff, bool_decide_eq_true, !Z.leb_le. tauto. Qed.

Lemma overlaps_true p q :
  overlaps p q = true <-> pe_tenant p = pe_tenant q /\ pe_start p <= pe_end q /\ pe_start q <= pe_end p.
Proof. unfold overlaps. rewrite !andb_true_iff, bool_decide_eq_true, !Z.leb_le. tauto. Qed.

Lemma line_entry_true l e : line_entry l e = true <-> je_id e = jl_entry l /\ je_tenant e = jl_tenant l.
Proof. unfold line_entry. by rewrite andb_true_iff, !bool_decide_eq_true. Qed.

Lemma of_entry_true t i l : of_entry t i l = true <-> jl_tenant l = t /\ jl_entry l = i.
Proof. unfold of_entry. by rewrite andb_true_iff, !bool_decide_eq_true. Qed.

Lemma ac_by_true t i a : ac_by t i a = true <-> ac_tenant a = t /\ ac_id a = i.
Proof. apply bool_decide_eq_true. Qed.

(** *** Accounts *)

Lemma inv_add_account a b :
  Books_inv b -> account_checks a = true -> ac_id a = bk_next_id b -> Books_inv (add_account a b).
Proof.
  intros [] Hc Hid. unfold account_checks in Hc. bool_solve. constructor; simpl; try done.
  - by eapply NoDup_snoc_fresh.
  - intros x [Hx|[<-|[]]]%in_app_or; [specialize (bi_account_fresh0 x Hx)|]; lia.
  - intros x [Hx|[<-|[]]]%in_app_or; auto.
  - intros p Hp. specialize (bi_period_fresh0 p Hp). lia.
  - intros e He. specialize (bi_entry_fresh0 e He). lia.
  - intros l Hl. destruct (bi_line_account0 l Hl) as (x & Hx & ?). exists x. split; [|done].
    apply in_or_app. auto.
Qed.

Lemma inv_update_account p name status b :
  Books_inv b -> Books_inv (set_accounts (update_where p (rename_account name status) (bk_accounts b)) b).
Proof.
  intros []. constructor; simpl; try done.
  - change (NoDup (List.map ac_id (update_where p (rename_account name status) (bk_accounts b)))).
    rewrite map_update_where; done.
  - intros x (y & Hy & ->)%in_update_where. destruct (p y); by apply (bi_account_fresh0 y).
  - intros x (y & Hy & ->)%in_update_where. destruct (p y); by apply (bi_account_type0 y).
  - intros l Hl. destruct (bi_line_account0 l Hl) as (x & Hx & Ha).
    exists (if p x then rename_account name status x else x). split; [apply in_update_where; eauto|].
    by destruct (p x).
Qed.

Lemma seed_rows_keeps (P : Books -> Prop) tenant chart :
  (forall a b, P b -> account_checks a = true -> ac_id a = bk_next_id b -> P (add_account a b)) ->
  forall n b m b', P b -> seed_rows tenant chart n b = Ok (m, b') -> P b'.
Proof.
  intros Hstep. induction chart as [|i chart IH]; intros n b m b' Hp H; simpl in H; tx_steps H.
  - by subst.
  - eauto.
  - apply insert_account_inv in E0 as (-> & -> & Hc & _). eapply IH; [|exact H]. by apply Hstep.
Qed.

Lemma inv_seed tenant b n b' : Books_inv b -> SeedDefaultChart tenant b = Ok (n, b') -> Books_inv b'.
Proof.
  unfold SeedDefaultChart. generalize defaultChart. intros chart Hb H.
  eapply (seed_rows_keeps Books_inv); [|exact Hb|exact H]. intros. by apply inv_add_account.
Qed.

(** *** Periods *)

Lemma inv_add_period p b :
  Books_inv b -> pe_id p = bk_next_id b -> pe_start p <= pe_end p ->
  exists_where (overlaps p) (bk_periods b) = false ->
  Books_inv (bump_id (set_periods (bk_periods b ++ [p]) b)).
Proof.
  intros [] Hid Hd Hno. pose proof (proj1 (exists_where_false _ _) Hno) as Hno'.
  constructor; simpl; try done.
  - intros x Hx. specialize (bi_account_fresh0 x Hx). lia.
  - intros x [Hx|[<-|[]]]%in_app_or; [specialize (bi_period_fresh0 x Hx)|]; lia.
  - by eapply NoDup_snoc_fresh.
  - intros x [Hx|[<-|[]]]%in_app_or; auto.
  - intros x y [Hx|[<-|[]]]%in_app_or [Hy|[<-|[]]]%in_app_or Ho; auto.
    + apply overlaps_true in Ho as (? & ? & ?). specialize (Hno' x Hx).
      rewrite (proj2 (overlaps_true p x)) in Hno' by auto. done.
    + rewrite (Hno' y Hy) in Ho. done.
  - intros e He. specialize (bi_entry_fresh0 e He). lia.
  - intros e He. destruct (bi_entry_period0 e He) as (x & Hx & ?). exists x.
    split; [apply in_or_app; auto|done].
Qed.

Lemma inv_move_period q to actor now b :
  Books_inv b -> Books_inv (set_periods (update_where q (move_period to actor now) (bk_periods b)) b).
Proof.
  intros []. set (f := move_period to actor now). constructor; simpl; try done.
  - intros x (y & Hy & ->)%in_update_where. destruct (q y); by apply (bi_period_fresh0 y).
  - change (NoDup (List.map pe_id (update_where q f (bk_periods b)))). rewrite map_update_where; done.
  - intros x (y & Hy & ->)%in_update_where. destruct (q y); by apply (bi_period_dates0 y).
  - intros x x' (y & Hy & ->)%in_update_where (y' & Hy' & ->)%in_update_where Ho.
    assert (y = y') as ->; [|done]. apply bi_periods_disjoint0; [done..|].
    apply overlaps_true in Ho. apply overlaps_true. destruct (q y), (q y'); exact Ho.
  - intros e He. destruct (bi_entry_period0 e He) as (x & Hx & Hid & Hc).
    exists (if q x then f x else x). split; [apply in_update_where; eauto|].
    destruct (q x); [|done]. split; [done|]. apply covers_true in Hc. by apply covers_true.
Qed.

(** *** The journal *)

(** A new entry with its lines; [q] marks the entries that become reversed. *)
Record journal_step (b : Books) (e : JournalEntry) (ls : list JournalLine)
    (q : JournalEntry -> bool) (b' : Books) : Prop := {
  js_accounts : bk_accounts b' = bk_accounts b;
  js_periods : bk_periods b' = bk_periods b;
  js_entries : bk_entries b' = update_where q (mark_entry_reversed (je_id e)) (bk_entries b ++ [e]);
  js_lines : bk_lines b' = bk_lines b ++ ls;
  js_next : (bk_next_id b < bk_next_id b')%N;
  js_id : je_id e = bk_next_id b;
  js_new : on_books e = true;
  js_period : exists p, In p (bk_periods b) /\ pe_id p = je_period e
    /\ covers (je_tenant e) (je_date e) p = true
    /\ pe_status p <> PeriodLocked;
  js_of : forall l, In l ls -> of_entry (je_tenant e) (je_id e) l = true
    /\ fk_account b (jl_tenant l) (jl_account l) = true;
}.

Lemma js_old_lines b e ls q b' t i :
  journal_step b e ls q b' -> i <> je_id e -> entry_lines b' t i = entry_lines b t i.
Proof.
  intros Hj Hi. unfold entry_lines. rewrite (js_lines _ _ _ _ _ Hj), select_app.
  rewrite (select_none _ ls); [by rewrite app_nil_r|]. intros l Hl.
  destruct (js_of _ _ _ _ _ Hj l Hl) as [[_ He]%of_entry_true _].
  destruct (of_entry t i l) eqn:E; [|done]. apply of_entry_true in E as [_ E]. congruence.
Qed.

Lemma js_new_lines b e ls q b' :
  Books_inv b -> journal_step b e ls q b' -> entry_lines b' (je_tenant e) (je_id e) = ls.
Proof.
  intros Hb Hj. unfold entry_lines. rewrite (js_lines _ _ _ _ _ Hj), select_app.
  rewrite (select_all _ ls) by (intros l Hl; by apply (js_of _ _ _ _ _ Hj)).
  rewrite select_none; [done|]. intros l Hl.
  destruct (of_entry (je_tenant e) (je_id e) l) eqn:E; [|done].
  apply of_entry_true in E as [_ E]. destruct (bi_line_entry b Hb l Hl) as (x & Hx & [Ex _]%line_entry_true).
  pose proof (bi_entry_fresh b Hb x Hx). rewrite (js_id _ _ _ _ _ Hj) in E. exfalso. lia.
Qed.

(** An entry of the new table is the new one or an old one, perhaps marked. *)
Lemma js_entry_cases b e ls q b' x :
  journal_step b e ls q b' -> In x (bk_entries b') ->
  exists y, (In y (bk_entries b) \/ y = e)
    /\ je_id x = je_id y /\ je_tenant x = je_tenant y /\ je_date x = je_date y
    /\ je_period x = je_period y /\ (on_books y = true -> on_books x = true).
Proof.
  intros Hj Hx. rewrite (js_entries _ _ _ _ _ Hj) in Hx. apply in_update_where in Hx as (y & Hy & ->).
  exists y. split; [apply in_app_or in Hy as [?|[->|[]]]; auto|]. destruct (q y); auto.
Qed.

Lemma inv_journal b e ls q b' :
  Books_inv b -> journal_step b e ls q b' ->
  total_debit b' (je_tenant e) (je_id e) = total_credit b' (je_tenant e) (je_id e) ->
  0 < total_debit b' (je_tenant e) (je_id e) -> Books_inv b'.
Proof.
  intros Hb Hj Hbal Hpos. pose proof (js_next _ _ _ _ _ Hj) as Hn. pose proof (js_id _ _ _ _ _ Hj) as Hid.
  assert (Hold : forall x, In x (bk_entries b) -> je_id x <> je_id e).
  { intros x Hx. pose proof (bi_entry_fresh b Hb x Hx). lia. }
  constructor; rewrite ?(js_accounts _ _ _ _ _ Hj), ?(js_periods _ _ _ _ _ Hj); try apply Hb.
  - intros a Ha. pose proof (bi_account_fresh b Hb a Ha). lia.
  - intros p Hp. pose proof (bi_period_fresh b Hb p Hp). lia.
  - rewrite (js_entries _ _ _ _ _ Hj).
    change (NoDup (List.map je_id (update_where q (mark_entry_reversed (je_id e)) (bk_entries b ++ [e])))).
    rewrite map_update_where by done. eapply (NoDup_snoc_fresh je_id); [apply Hb|apply (bi_entry_fresh b Hb)|done].
  - intros x Hx. destruct (js_entry_cases _ _ _ _ _ _ Hj Hx) as (y & [Hy| ->] & -> & _); [|lia].
    pose proof (bi_entry_fresh b Hb y Hy). lia.
  - intros x Hx. destruct (js_entry_cases _ _ _ _ _ _ Hj Hx) as (y & Hy & _ & _ & _ & _ & Ho).
    apply Ho. destruct Hy as [Hy| ->]; [by apply (bi_entry_on_books b Hb)|apply Hj].
  - intros x Hx. destruct (js_entry_cases _ _ _ _ _ _ Hj Hx) as (y & [Hy| ->] & -> & -> & _); [|done].
    unfold total_debit, total_credit. rewrite (js_old_lines _ _ _ _ _ _ _ Hj) by auto.
    by apply (bi_entry_balanced b Hb).
  - intros x Hx. destruct (js_entry_cases _ _ _ _ _ _ Hj Hx) as (y & [Hy| ->] & _ & -> & -> & -> & _).
    + by apply (bi_entry_period b Hb).
    + destruct (js_period _ _ _ _ _ Hj) as (p & ? & ? & ? & _). eauto.
  - intros l Hl. rewrite (js_lines _ _ _ _ _ Hj) in Hl.
    assert (exists y, In y (bk_entries b ++ [e]) /\ line_entry l y = true) as (y & Hy & Hle).
    { apply in_app_or in Hl as [Hl|Hl].
      - destruct (bi_line_entry b Hb l Hl) as (y & ? & ?). exists y. split; [apply in_or_app; auto|done].
      - destruct (js_of _ _ _ _ _ Hj l Hl) as [[? ?]%of_entry_true _]. exists e.
        split; [apply in_or_app; simpl; auto|]. by apply line_entry_true. }
    exists (if q y then mark_entry_reversed (je_id e) y else y).
    rewrite (js_entries _ _ _ _ _ Hj). split; [apply in_update_where; eauto|]. by destruct (q y).
  - intros l Hl. rewrite (js_lines _ _ _ _ _ Hj) in Hl. apply in_app_or in Hl as [Hl|Hl].
    + by apply (bi_line_account b Hb).
    + destruct (js_of _ _ _ _ _ Hj l Hl) as [_ Ha]. by apply exists_where_true in Ha.
Qed.

Lemma resolvePostingPeriod_ok b tenant date allow id :
  resolvePostingPeriod b tenant date allow = Ok id ->
  exists p, first_where (covers tenant date) (bk_periods b) = Some p /\ pe_id p = id
    /\ pe_status p <> PeriodLocked /\ (pe_status p = PeriodClosed -> allow = true).
Proof.
  unfold resolvePostingPeriod. destruct (first_where _ _) as [p|]; [|done]. intros H.
  exists p. split; [done|]. destruct (pe_status p), allow; simplify_eq; (split; [done|]; split; done).
Qed.

Lemma post_journal_step tenant i b v b' :
  posted_entry tenant i b v b' ->
  journal_step b (ev_entry v) (ev_lines v) (fun _ => false) b' /\ je_tenant (ev_entry v) = tenant.
Proof.
  intros [Hp Hrow Hfk Hins Hbal Hpos].
  destruct (inserts_effect _ _ _ _ Hins) as (Ea & Ep & Ee & El & _ & _ & _ & _ & Hn & Hall).
  assert (Et : je_tenant (ev_entry v) = tenant) by by rewrite Hrow.
  split; [|done]. constructor; try done.
  - rewrite Ee. symmetry. by apply update_where_none.
  - simpl in Hn. lia.
  - by rewrite Hrow.
  - by rewrite Hrow.
  - apply resolvePostingPeriod_ok in Hp as (p & Hf & Hid & Hl & _).
    apply first_where_some in Hf as [Hin Hc]. exists p. rewrite Et.
    replace (je_date (ev_entry v)) with (pi_date i) by by rewrite Hrow. auto.
  - intros l Hl. rewrite Et. rewrite Forall_forall in Hall.
    destruct (Hall l (proj2 (list_elem_of_In _ _) Hl)) as (_ & Hf & Ho). split; [done|].
    unfold line_fks in Hf. bool_solve. done.
Qed.

Lemma swapped_in ls ls' rev l' :
  Forall2 (fun l l' => l' = swapped (jl_id l') rev l) ls ls' -> In l' ls' ->
  exists l, In l ls /\ l' = swapped (jl_id l') rev l.
Proof.
  induction 1 as [|x y ls ls' E HF IH]; simpl; [done|]. intros [->|Hin]; [eauto|].
  destruct (IH Hin) as (l & ? & ?). eauto.
Qed.

Lemma reverse_journal_step tenant id by_ memo b o rev ls b' :
  reversed_entry tenant id by_ memo b o rev ls b' ->
  journal_step b rev ls (je_by tenant id) b' /\ je_tenant rev = tenant.
Proof.
  intros [Ho Hst Hp Hrow Hfk Hsw (b2 & Hins & ->)].
  destruct (inserts_effect _ _ _ _ Hins) as (Ea & Ep & Ee & El & _ & _ & _ & _ & Hn & Hall).
  assert (Et : je_tenant rev = tenant) by by rewrite Hrow.
  split; [|done]. constructor; simpl; try done.
  - simpl in Hn. lia.
  - by rewrite Hrow.
  - by rewrite Hrow.
  - apply resolvePostingPeriod_ok in Hp as (p & Hf & Hid & Hl & _).
    apply first_where_some in Hf as [Hin Hc]. exists p. rewrite Et.
    replace (je_date rev) with (je_date o) by by rewrite Hrow. auto.
  - intros l Hl. rewrite Et. rewrite Forall_forall in Hall.
    destruct (Hall l (proj2 (list_elem_of_In _ _) Hl)) as (_ & Hf & Hr).
    destruct (swapped_in _ _ _ _ Hsw Hl) as (l0 & Hl0 & El0).
    apply in_select in Hl0 as [_ [? ?]%of_entry_true].
    split; [apply of_entry_true; split; [by rewrite El0|done]|]. unfold line_fks in Hf. bool_solve. done.
Qed.

(** The swapped copies have the original's totals, exchanged. *)
Lemma swapped_sums (p : uuid -> bool) rev ls ls' :
  Forall2 (fun l l' => l' = swapped (jl_id l') rev l) ls ls' ->
  sum_by jl_debit (select (fun l => p (jl_account l)) ls')
    = sum_by jl_credit (select (fun l => p (jl_account l)) ls)
  /\ sum_by jl_credit (select (fun l => p (jl_account l)) ls')
    = sum_by jl_debit (select (fun l => p (jl_account l)) ls).
Proof.
  induction 1 as [|x y ls ls' E HF IH]; [done|]. simpl. rewrite E. simpl.
  destruct (p (jl_account x)); simpl; lia.
Qed.

Lemma reverse_totals tenant id by_ memo b o rev ls b' :
  Books_inv b -> reversed_entry tenant id by_ memo b o rev ls b' ->
  total_debit b' tenant (je_id rev) = total_credit b tenant id
  /\ total_credit b' tenant (je_id rev) = total_debit b tenant id.
Proof.
  intros Hb Hr. destruct (reverse_journal_step _ _ _ _ _ _ _ _ _ Hr) as [Hj Et].
  unfold total_debit, total_credit. rewrite <- Et at 1 3. rewrite (js_new_lines _ _ _ _ _ Hb Hj).
  pose proof (swapped_sums (fun _ => true) _ _ _ (re_swapped _ _ _ _ _ _ _ _ _ Hr)) as H.
  rewrite !(select_all (fun l => true)) in H by done. exact H.
Qed.

Lemma done_ok {A} (c : Tx Books acc_error A) b x b' :
  done_ c b = Ok (x, b') -> exists a, c b = Ok (a, b').
Proof. intros H. unfold done_ in H. tx_steps H. subst. eauto. Qed.

Lemma transition_inv pool tenant id from to actor b p b' :
  transition pool tenant id from to actor b = Ok (p, b') ->
  exists p0, first_where (fun p => pe_by tenant id p && bool_decide (pe_status p = from)) (bk_periods b) = Some p0
    /\ p = move_period to actor (bk_now b) p0
    /\ b' = set_periods (update_where (fun p => pe_by tenant id p && bool_decide (pe_status p = from))
              (move_period to actor (bk_now b)) (bk_periods b)) b.
Proof.
  intros H. unfold transition in H. tx_steps H; unfold update_returning in *; simplify_eq.
  destruct (first_where _ _) as [x|] eqn:Ef; simplify_eq/=. exists x. auto.
Qed.

#[local] Opaque SeedDefaultChart.

Lemma inv_books_op o b x b' : Books_inv b -> run_books o b = Ok (x, b') -> Books_inv b'.
Proof.
  intros Hb H. destruct o; cbn [run_books] in H; apply done_ok in H as (a & H).
  - unfold CreateAccount in H. tx_steps H. apply insert_account_inv in H as (-> & -> & Hc & _).
    by apply inv_add_account.
  - unfold UpdateAccount, update_returning in H. tx_steps H; simplify_eq. by apply inv_update_account.
  - by eapply inv_seed.
  - unfold CreatePeriod in H. tx_steps H. bool_solve. subst.
    apply Z.leb_le in E. by apply inv_add_period.
  - apply transition_inv in H as (? & _ & _ & ->). by apply inv_move_period.
  - apply transition_inv in H as (? & _ & _ & ->). by apply inv_move_period.
  - apply transition_inv in H as (? & _ & _ & ->). by apply inv_move_period.
  - apply transition_inv in H as (? & _ & _ & ->). by apply inv_move_period.
  - apply PostEntry_inv in H as [Hp _]. destruct (post_journal_step _ _ _ _ _ Hp) as [Hj Et].
    eapply inv_journal; [done|exact Hj|rewrite Et; apply Hp..].
  - apply ReverseEntry_inv in H as (o & rev & ls & Hr & _).
    destruct (reverse_journal_step _ _ _ _ _ _ _ _ _ Hr) as [Hj Et].
    destruct (reverse_totals _ _ _ _ _ _ _ _ _ Hb Hr) as [H1 H2].
    destruct (first_where_some _ _ _ (re_orig _ _ _ _ _ _ _ _ _ Hr)) as [Ho [<- <-]%je_by_true].
    destruct (bi_entry_balanced b Hb o Ho) as [Hbal Hpos].
    eapply inv_journal; [done|exact Hj|rewrite Et; lia..].
Qed.

#[local] Transparent SeedDefaultChart.

Lemma inv_books_step b b' : Books_inv b -> books_step b b' -> Books_inv b'.
Proof.
  intros Hb [o b'' H|]; [by eapply inv_books_op|]. destruct Hb. by constructor.
Qed.

Lemma inv_books_steps b b' : Books_inv b -> books_steps b b' -> Books_inv b'.
Proof. intros Hb H. induction H; [done|]. eauto using inv_books_step. Qed.

Lemma books_reachable_inv b : books_reachable b -> Books_inv b.
Proof. intros (b0 & H0 & Hs). by eapply inv_books_steps; [apply books_empty_inv|]. Qed.

(** ** Postings *)

(** The posting of a line, looked up by its two foreign keys. *)
Definition posting_of (b : Books) (tenant : uuid) (q : JournalEntry -> bool) (l : JournalLine)
  : option posting :=
  match first_where (line_entry l) (bk_entries b) with
  | None => None
  | Some e =>
      match first_where (line_acct (l, e)) (bk_accounts b) with
      | None => None
      | Some a => if bool_decide (jl_tenant l = tenant) && on_books e && q e then Some (l, e, a) else None
      end
  end.

Lemma postings_omap b tenant q :
  Books_inv b -> postings b tenant q = omap (posting_of b tenant q) (bk_lines b).
Proof.
  intros Hb. unfold postings, join. induction (bk_lines b) as [|l ls IH]; [done|]. simpl.
  rewrite (select_unique je_id (line_entry l) (jl_entry l)); [|apply Hb|by intros x [? _]%line_entry_true].
  rewrite flat_map_app, select_app, IH. unfold posting_of at 2.
  destruct (first_where (line_entry l) (bk_entries b)) as [e|]; [|done]. simpl. rewrite app_nil_r.
  rewrite (select_unique ac_id (line_acct (l, e)) (jl_account l)); [|apply Hb|].
  - destruct (first_where (line_acct (l, e)) (bk_accounts b)) as [a|]; [|done]. simpl.
    unfold p_line, p_entry. simpl. by destruct (_ && _ && _).
  - intros x Hx. unfold line_acct in Hx. bool_solve. done.
Qed.

Lemma sum_by_omap {A B} (g : A -> option B) (f : B -> Z) (l : list A) :
  sum_by f (omap g l) = sum_by (fun x => match g x with Some y => f y | None => 0 end) l.
Proof. induction l as [|x l IH]; [done|]. csimpl. destruct (g x); csimpl; lia. Qed.

Lemma sum_by_swap {A B} (f : A -> B -> Z) (l : list A) (k : list B) :
  sum_by (fun x => sum_by (fun y => f x y) k) l = sum_by (fun y => sum_by (fun x => f x y) l) k.
Proof.
  induction l as [|x l IH]; simpl.
  - symmetry. by apply sum_by_zero.
  - rewrite IH. rewrite <- sum_by_add. by apply sum_by_ext.
Qed.

(** Summing lines is summing entries: every line belongs to one entry. *)
Lemma sum_by_entries b (g : JournalLine -> Z) :
  Books_inv b ->
  sum_by g (bk_lines b)
  = sum_by (fun e => sum_by g (entry_lines b (je_tenant e) (je_id e))) (bk_entries b).
Proof.
  intros Hb. transitivity (sum_by (fun l => sum_by (fun e => if line_entry l e then g l else 0) (bk_entries b))
    (bk_lines b)).
  - apply sum_by_ext. intros l Hl. rewrite <- (sum_by_select (fun _ => g l)).
    rewrite (select_unique je_id _ (jl_entry l)); [|apply Hb|by intros x [? _]%line_entry_true].
    destruct (bi_line_entry b Hb l Hl) as (e & He & Hle).
    destruct (first_where (line_entry l) (bk_entries b)) eqn:E; [simpl; lia|].
    by rewrite (first_where_none _ _ _ E He) in Hle.
  - rewrite sum_by_swap. apply sum_by_ext. intros e He. unfold entry_lines. rewrite sum_by_select.
    apply sum_by_ext. intros l _. unfold line_entry, of_entry.
    rewrite (bool_decide_ext (je_id e = jl_entry l) (jl_entry l = je_id e)) by done.
    rewrite (bool_decide_ext (je_tenant e = jl_tenant l) (jl_tenant l = je_tenant e)) by done.
    by rewrite andb_comm.
Qed.

Definition line_net (l : JournalLine) : Z := jl_debit l - jl_credit l.

Lemma entry_net b e : Books_inv b -> In e (bk_entries b) ->
  sum_by line_net (entry_lines b (je_tenant e) (je_id e)) = 0.
Proof.
  intros Hb He. unfold line_net. rewrite sum_by_sub.
  destruct (bi_entry_balanced b Hb e He) as [E _]. unfold total_debit, total_credit in E. lia.
Qed.

(** The entry of a line. *)
Lemma line_entry_first b l e : Books_inv b -> In e (bk_entries b) -> line_entry l e = true ->
  first_where (line_entry l) (bk_entries b) = Some e.
Proof.
  intros Hb He Hle. apply (first_unique je_id _ (jl_entry l)); [apply Hb| |done..].
  by intros x [? _]%line_entry_true.
Qed.

Lemma line_acct_first b l e : Books_inv b -> In l (bk_lines b) ->
  exists a, first_where (line_acct (l, e)) (bk_accounts b) = Some a /\ In a (bk_accounts b).
Proof.
  intros Hb Hl. destruct (bi_line_account b Hb l Hl) as (a & Ha & [H1 H2]%ac_by_true).
  destruct (first_where (line_acct (l, e)) (bk_accounts b)) as [x|] eqn:E.
  - exists x. split; [done|]. apply (proj1 (first_where_some _ _ _ E)).
  - pose proof (first_where_none _ _ _ E Ha) as Hn. unfold line_acct in Hn. simpl in Hn.
    by rewrite !bool_decide_eq_true_2 in Hn.
Qed.

(** All the postings of the books net to zero. *)
Lemma postings_net b tenant q : Books_inv b ->
  sum_by (fun p => line_net (p_line p)) (postings b tenant q) = 0.
Proof.
  intros Hb. rewrite (postings_omap b tenant q Hb), sum_by_omap, (sum_by_entries b _ Hb).
  apply sum_by_zero. intros e He.
  transitivity (if bool_decide (je_tenant e = tenant) && on_books e && q e
    then sum_by line_net (entry_lines b (je_tenant e) (je_id e)) else 0);
    [|destruct (_ && _); [by apply entry_net|done]].
  transitivity (sum_by (fun l => if bool_decide (je_tenant e = tenant) && on_books e && q e then line_net l else 0)
    (entry_lines b (je_tenant e) (je_id e)));
    [|destruct (_ && _); [done|by apply sum_by_zero]].
  apply sum_by_ext. intros l [Hl [Ht Hi]%of_entry_true]%in_select. unfold posting_of.
  rewrite (line_entry_first b l e Hb He) by (apply line_entry_true; auto).
  destruct (line_acct_first b l e Hb Hl) as (a & -> & _). rewrite Ht. by destruct (_ && _).
Qed.

(** ** The balance sheet *)

Lemma sum_case_val f ps : round_to 2 (sum_case f ps) = sum_by (fun p => default 0 (f p)) ps.
Proof.
  unfold sum_case, coalesce_sum. transitivity (sum_by (fun z => z) (omap f ps)).
  - destruct (omap f ps); [done|apply round_to_same].
  - rewrite sum_by_omap. done.
Qed.

Lemma sum_case_scale f ps : (scale (sum_case f ps) <= 2)%nat.
Proof. unfold sum_case, coalesce_sum. destruct (omap f ps); simpl; lia. Qed.

Lemma at_scale_widen k s d : (scale d <= s)%nat -> (s <= k)%nat -> at_scale k d = at_scale s d * pow10 (k - s).
Proof.
  intros H1 H2. unfold at_scale. rewrite <- Z.mul_assoc, <- pow10_add. do 2 f_equal. lia.
Qed.

Lemma at_scale_add k a c : (scale a <= k)%nat -> (scale c <= k)%nat ->
  at_scale k (dec_add a c) = at_scale k a + at_scale k c.
Proof.
  intros Ha Hc. set (s := Nat.max (scale a) (scale c)).
  rewrite (at_scale_widen k s a), (at_scale_widen k s c) by lia.
  unfold dec_add, at_scale. simpl. fold s. lia.
Qed.

Lemma dec_eqb_at_scale k a c : (scale a <= k)%nat -> (scale c <= k)%nat ->
  at_scale k a = at_scale k c -> dec_eqb a c = true.
Proof.
  intros Ha Hc. set (s := Nat.max (scale a) (scale c)).
  rewrite (at_scale_widen k s a), (at_scale_widen k s c) by lia. intros E.
  pose proof (pow10_pos (k - s)). unfold dec_eqb, dec_leb.
  rewrite (Nat.max_comm (scale c) (scale a)). fold s.
  apply andb_true_iff. rewrite !Z.leb_le. nia.
Qed.

Lemma money_cast_fits d :
  Z.abs (round_to 2 d) < pow10 14 -> money_cast d = Ok (numeric_text 2 (round_to 2 d)).
Proof. intros H. unfold money_cast, numeric_col. by rewrite (proj2 (Z.ltb_lt _ _) H). Qed.

(** The four figures of a balance sheet, in cents. *)
Definition figure (f : posting -> option Z) (b : Books) (tenant : uuid) (asOf : Z) : Z :=
  sum_by (fun p => default 0 (f p)) (postings b tenant (fun e => je_date e <=? asOf)).

(** The accounting equation: the classes of accounts split the zero net of
    the postings. *)
Lemma accounting_equation b tenant asOf : Books_inv b ->
  figure asset_case b tenant asOf
  = figure liability_case b tenant asOf + figure equity_case b tenant asOf
    + figure net_income_case b tenant asOf.
Proof.
  intros Hb. pose proof (postings_net b tenant (fun e => je_date e <=? asOf) Hb) as Hn.
  unfold figure. set (ps := postings _ _ _) in *.
  assert (Ht : forall p, In p ps -> ac_type (p_account p) ∈ account_types).
  { unfold ps. intros p. rewrite (postings_omap _ _ _ Hb).
    intros (l & Hl & Hp)%list_elem_of_In%list_elem_of_omap. unfold posting_of in Hp.
    destruct (first_where (line_entry l) _) as [e|]; [|done].
    destruct (first_where (line_acct (l, e)) _) as [a|] eqn:Ea; [|done].
    destruct (_ && _); simplify_eq. apply (bi_account_type b Hb), (first_where_some _ _ _ Ea). }
  enough (sum_by (fun p => default 0 (asset_case p)) ps - sum_by (fun p => default 0 (liability_case p)) ps
    - sum_by (fun p => default 0 (equity_case p)) ps - sum_by (fun p => default 0 (net_income_case p)) ps = 0) by lia.
  etransitivity; [|exact Hn]. rewrite <- !sum_by_sub. apply sum_by_ext. intros p Hp. specialize (Ht p Hp).
  unfold asset_case, liability_case, equity_case, net_income_case, has_type, credit_less_debit,
    debit_less_credit, line_net.
  apply list_elem_of_In in Ht. simpl in Ht.
  destruct Ht as [E|[E|[E|[E|[E|[E|[E|[]]]]]]]]; rewrite <- E;
    generalize (jl_debit (p_line p)) (jl_credit (p_line p)); intros x y;
    cbv -[Z.sub Z.opp]; lia.
Qed.

Definition fits (z : Z) : Prop := Z.abs z < pow10 14.

(** C4. The balance sheet balances: in every reachable state of the books, for
    every tenant and date, as long as the figures fit their numeric(14,2)
    columns, the report is produced, its flag is true, and the equity it
    shows is exactly the assets less the liabilities. *)
Theorem BalanceSheet_balanced b tenant asOf :
  books_reachable b ->
  fits (figure asset_case b tenant asOf) -> fits (figure liability_case b tenant asOf) ->
  fits (figure equity_case b tenant asOf) -> fits (figure net_income_case b tenant asOf) ->
  fits (figure equity_case b tenant asOf + figure net_income_case b tenant asOf) ->
  exists s, BalanceSheet b tenant asOf = Ok s /\ bs_balanced s = true
    /\ bs_assets s = numeric_text 2 (figure asset_case b tenant asOf)
    /\ bs_liabilities s = numeric_text 2 (figure liability_case b tenant asOf)
    /\ bs_equity s = numeric_text 2 (figure asset_case b tenant asOf - figure liability_case b tenant asOf).
Proof.
  intros Hb%books_reachable_inv HA HL HR HN HQ. pose proof (accounting_equation b tenant asOf Hb) as Heq.
  unfold figure in *. unfold BalanceSheet. cbv zeta.
  set (ps := postings b tenant _) in *.
  pose proof (sum_case_scale asset_case ps). pose proof (sum_case_scale liability_case ps).
  pose proof (sum_case_scale equity_case ps). pose proof (sum_case_scale net_income_case ps).
  assert (forall a c, (scale a <= 2)%nat -> (scale c <= 2)%nat -> (scale (dec_add a c) <= 2)%nat) as Hadd
    by (intros a c; unfold dec_add; simpl; lia).
  assert (EQ : round_to 2 (dec_add (sum_case equity_case ps) (sum_case net_income_case ps))
    = sum_by (fun p => default 0 (equity_case p)) ps + sum_by (fun p => default 0 (net_income_case p)) ps).
  { rewrite round_to_exact, at_scale_add, <- !round_to_exact, !sum_case_val by auto. done. }
  rewrite !money_cast_fits by (rewrite ?EQ, ?sum_case_val; done). cbn [rbind].
  eexists. split; [reflexivity|]. cbn [bs_balanced bs_assets bs_liabilities bs_equity].
  rewrite EQ, !sum_case_val. split; [|split; [done|split; [done|f_equal; lia]]].
  apply (dec_eqb_at_scale 2); [auto..|]. rewrite !at_scale_add, <- !round_to_exact, !sum_case_val by auto. lia.
Qed.

(** ** Sample books *)

Fixpoint run_requests (os : list books_op) (b : Books) : Books :=
  match os with
  | [] => b
  | o :: os' => run_requests os' (run_tx (run_books o) b).2
  end.

(** A request commits or leaves the books as they were. *)
Lemma run_requests_steps os : forall b, books_steps b (run_requests os b).
Proof.
  induction os as [|o os IH]; intros b; simpl; [constructor|]. unfold run_tx.
  destruct (run_books o b) as [[[] b']|e] eqn:E; simpl; [|apply IH].
  econstructor; [by eapply books_commit|apply IH].
Qed.

Definition empty_books : Books := mkBooks [] [] [] [] [(1, 2)]%N [(1, 5)]%N 100 1 0.

Definition sale_lines (amount : string) : list PostLine :=
  [mkPostLine 0 "cash_on_hand" amount "" None None; mkPostLine 0 "sales_revenue" "" amount None None].
Definition sale_entry (date : Z) (amount : string) : PostEntryInput :=
  mkPostEntry date "cash_reconciliation" (Some 9%N) (Some 5%N) None 2 false (sale_lines amount).

(** The chart, periods over days 1 to 31 and 32 to 60, and a sale of day 10. *)
Definition demo_requests : list books_op :=
  [BSeed 1; BCreatePeriod 1 1 31; BCreatePeriod 1 32 60; BPost 1 (sale_entry 10 "125.50")].
Definition demo_books : Books := run_requests demo_requests empty_books.

Lemma demo_reachable os : books_reachable (run_requests os empty_books).
Proof. exists empty_books. split; [by constructor|apply run_requests_steps]. Qed.

Lemma BalanceSheet_balanced_witness :
  exists s, BalanceSheet demo_books 1 20 = Ok s /\ bs_balanced s = true.
Proof.
  destruct (BalanceSheet_balanced demo_books 1 20 (demo_reachable _)) as (s & H1 & H2 & _);
    [unfold fits; vm_compute; reflexivity..|]. exists s. split; [exact H1|exact H2].
Defined.

(** ** Posting *)

(** What a line input becomes. *)
Definition posts_as (b : Books) (tenant entry : uuid) (ln : PostLine) (l : JournalLine) : Prop :=
  jl_tenant l = tenant /\ jl_entry l = entry
  /\ line_account b tenant ln = Ok (jl_account l)
  /\ money_in (money0 (pl_debit ln)) = Ok (jl_debit l)
  /\ money_in (money0 (pl_credit ln)) = Ok (jl_credit l).

Lemma post_lines_posts tenant entry lns : forall b ls b',
  post_lines tenant entry lns b = Ok (ls, b') -> Forall2 (posts_as b tenant entry) lns ls.
Proof.
  induction lns as [|ln lns IH]; intros b ls b' H; simpl in H; tx_steps H; subst; [constructor|].
  apply post_line_inv in E as (_ & _ & _ & [? ?]%of_entry_true & -> & Hd & Hc & Ha).
  constructor; [by repeat split|]. exact (IH _ _ _ E0).
Qed.

(** C7. A successful posting appends one entry, dated in an unlocked period that
    covers its date, and one line per input line, in order, on the account
    the line names or its system key resolves to, with the amounts rounded
    to cents; its debits equal its credits and are positive; nothing else
    in the books changes. *)
Theorem PostEntry_posts tenant i b v b' :
  books_reachable b -> PostEntry tenant i b = Ok (v, b') ->
  bk_entries b' = bk_entries b ++ [ev_entry v] /\ bk_lines b' = bk_lines b ++ ev_lines v
  /\ bk_accounts b' = bk_accounts b /\ bk_periods b' = bk_periods b
  /\ Forall2 (posts_as b tenant (je_id (ev_entry v))) (pi_lines i) (ev_lines v)
  /\ sum_by jl_debit (ev_lines v) = sum_by jl_credit (ev_lines v) /\ 0 < sum_by jl_debit (ev_lines v)
  /\ je_date (ev_entry v) = pi_date i /\ je_status (ev_entry v) = EntryPosted
  /\ exists p, In p (bk_periods b) /\ pe_id p = je_period (ev_entry v)
     /\ covers tenant (pi_date i) p = true /\ pe_status p <> PeriodLocked
     /\ (pe_status p = PeriodClosed -> pi_allow_closed i = true).
Proof.
  intros Hb%books_reachable_inv (Hp & Hls & _)%PostEntry_inv.
  destruct (post_journal_step _ _ _ _ _ Hp) as [Hj Et].
  pose proof (js_new_lines _ _ _ _ _ Hb Hj) as El. rewrite Et in El.
  pose proof (pe_balanced _ _ _ _ _ Hp) as H1. pose proof (pe_positive _ _ _ _ _ Hp) as H2.
  unfold total_debit, total_credit in H1, H2. rewrite El in H1, H2.
  split; [rewrite (js_entries _ _ _ _ _ Hj); by apply update_where_none|].
  split; [apply Hj|]. split; [apply Hj|]. split; [apply Hj|].
  split; [exact (post_lines_posts _ _ _ _ _ _ Hls)|]. split; [done|]. split; [done|].
  split; [by rewrite (pe_entry_row _ _ _ _ _ Hp)|]. split; [by rewrite (pe_entry_row _ _ _ _ _ Hp)|].
  destruct (resolvePostingPeriod_ok _ _ _ _ _ (pe_period_ok _ _ _ _ _ Hp)) as (p & [? ?]%first_where_some & ? & ? & ?).
  exists p. auto.
Qed.

Lemma PostEntry_posts_witness :
  exists v b', PostEntry 1 (sale_entry 12 "80.005") demo_books = Ok (v, b')
    /\ bk_entries b' = bk_entries demo_books ++ [ev_entry v]
    /\ sum_by jl_debit (ev_lines v) = sum_by jl_credit (ev_lines v).
Proof.
  destruct (PostEntry 1 (sale_entry 12 "80.005") demo_books) as [[v b']|e] eqn:E; [|vm_compute in E; discriminate E].
  destruct (PostEntry_posts 1 (sale_entry 12 "80.005") demo_books v b' (demo_reachable _) E)
    as (H1 & _ & _ & _ & _ & H2 & _).
  exists v, b'. split; [reflexivity|]. split; [exact H1|exact H2].
Defined.

(** The periods of a tenant are disjoint, so the covering one is the one the
    query returns. *)
Lemma covering_period b tenant date p :
  Books_inv b -> In p (bk_periods b) -> covers tenant date p = true ->
  first_where (covers tenant date) (bk_periods b) = Some p.
Proof.
  intros Hb Hp Hc. destruct (first_where (covers tenant date) (bk_periods b)) as [x|] eqn:E.
  - apply first_where_some in E as [Hx Hcx]. f_equal. apply (bi_periods_disjoint b Hb); [done..|].
    apply covers_true in Hc, Hcx. apply overlaps_true. split; [|lia]. by destruct Hc, Hcx; subst.
  - by rewrite (first_where_none _ _ _ E Hp) in Hc.
Qed.

(** C38. Posting is refused, with the books unchanged, where the books must not
    move: without lines; on a date no period covers; in a locked period,
    even for adjustments; in a closed period, adjustments apart; and when
    the lines all post but their debits and credits differ or are zero. *)
Theorem PostEntry_refuses tenant i b :
  books_reachable b ->
  (pi_lines i = [] -> PostEntry tenant i b = Err ErrNoLines)
  /\ (pi_lines i <> [] ->
      ((forall p, In p (bk_periods b) -> covers tenant (pi_date i) p = false) ->
         PostEntry tenant i b = Err ErrNoPeriod)
      /\ (forall p, In p (bk_periods b) -> covers tenant (pi_date i) p = true ->
         (pe_status p = PeriodLocked -> PostEntry tenant i b = Err ErrPeriodLocked)
         /\ (pe_status p = PeriodClosed -> pi_allow_closed i = false ->
               PostEntry tenant i b = Err ErrPeriodClosed)
         /\ (forall e ls b1, resolvePostingPeriod b tenant (pi_date i) (pi_allow_closed i) = Ok (pe_id p) ->
               insert_entry (new_entry b tenant (pe_id p) (pi_date i) (pi_source_type i) (pi_source i)
                 (pi_station i) (pi_memo i) (pi_posted_by i) None) b = Ok (e, add_entry e b) ->
               post_lines tenant (je_id e) (pi_lines i) (add_entry e b) = Ok (ls, b1) ->
               sum_by jl_debit ls <> sum_by jl_credit ls \/ sum_by jl_debit ls = 0 ->
               PostEntry tenant i b = Err ErrUnbalanced))).
Proof.
  intros Hb%books_reachable_inv. unfold PostEntry. split; [by intros ->|]. intros Hne.
  assert (Hl : negb (bool_decide (length (pi_lines i) = 0%nat)) = true)
    by (destruct (pi_lines i); done).
  rewrite Hl. split; [|intros p Hp Hc; pose proof (covering_period _ _ _ _ Hb Hp Hc) as Hf; split; [|split]].
  - intros Hno. tx_unfold. unfold resolvePostingPeriod.
    destruct (first_where _ _) as [p|] eqn:E; [|done]. apply first_where_some in E as [Hp Hc].
    by rewrite (Hno p Hp) in Hc.
  - intros Hs. tx_unfold. unfold resolvePostingPeriod. by rewrite Hf, Hs.
  - intros Hs Ha. tx_unfold. unfold resolvePostingPeriod. by rewrite Hf, Hs, Ha.
  - intros e ls b1 Hr He Hls Hbad. unfold tbind, tguard, tget, tlift. cbv beta iota.
    rewrite Hr. cbv beta iota. rewrite He. cbv beta iota. rewrite Hls. cbv beta iota.
    apply insert_entry_inv in He as (-> & _ & _). set (e := new_entry _ _ _ _ _ _ _ _ _ _) in *.
    destruct (inserts_effect _ _ _ _ (post_lines_inserts _ _ _ _ _ _ Hls)) as (_ & _ & _ & El & _ & _ & _ & _ & _ & Hall).
    assert (Hsel : entry_lines b1 tenant (je_id e) = ls).
    { unfold entry_lines. rewrite El, select_app, select_none, select_all; [done| |].
      - intros l Hin. rewrite Forall_forall in Hall. by apply Hall, list_elem_of_In.
      - intros l Hin. destruct (of_entry tenant (je_id e) l) eqn:Eo; [|done].
        apply of_entry_true in Eo as [_ Eo]. destruct (bi_line_entry b Hb l Hin) as (x & Hx & [Ex _]%line_entry_true).
        pose proof (bi_entry_fresh b Hb x Hx). change (je_id e) with (bk_next_id b) in Eo. exfalso. lia. }
    unfold total_debit, total_credit. rewrite Hsel.
    destruct (Z.eqb_spec (sum_by jl_debit ls) (sum_by jl_credit ls)), (Z.ltb_spec 0 (sum_by jl_debit ls)); try done.
    exfalso. lia.
Qed.

(** The first period closed. *)
Definition closed_requests : list books_op := demo_requests ++ [BStartClose 1 118 2; BClose 1 118 2].
Definition closed_books : Books := run_requests closed_requests empty_books.

Lemma PostEntry_refuses_witness : PostEntry 1 (sale_entry 10 "5") closed_books = Err ErrPeriodClosed.
Proof.
  destruct (PostEntry_refuses 1 (sale_entry 10 "5") closed_books (demo_reachable closed_requests)) as [_ H].
  destruct H as [_ H]; [discriminate|].
  destruct (H (mkPeriod 118 1 1 31 PeriodClosed (Some 2%N) (Some 0) None None)) as (_ & H2 & _);
    [vm_compute; auto|reflexivity|]. apply H2; reflexivity.
Defined.

(** ** Reversal *)

(** The net amount an entry moves on an account. *)
Definition account_net (b : Books) (tenant entry acct : uuid) : Z :=
  sum_by line_net (select (fun l => bool_decide (jl_account l = acct)) (entry_lines b tenant entry)).

(** The rows a reversal leaves: the original marked, the reversal as posted. *)
Lemma reversed_rows tenant id by_ memo b o rev ls b' :
  Books_inv b -> Books_inv b' -> reversed_entry tenant id by_ memo b o rev ls b' ->
  first_where (je_by tenant id) (bk_entries b') = Some (mark_entry_reversed (je_id rev) o)
  /\ first_where (je_by tenant (je_id rev)) (bk_entries b') = Some rev.
Proof.
  intros Hb Hb' Hr. destruct (reverse_journal_step _ _ _ _ _ _ _ _ _ Hr) as [Hj Et].
  destruct (first_where_some _ _ _ (re_orig _ _ _ _ _ _ _ _ _ Hr)) as [Hin Hid].
  pose proof (bi_entry_fresh b Hb o Hin) as Hlt. pose proof (js_id _ _ _ _ _ Hj) as Hnew.
  assert (Hkey : forall t i x, je_by t i x = true -> je_id x = i) by by intros t i x [_ ?]%je_by_true.
  split; (eapply (first_unique je_id); [apply Hb'|apply Hkey|rewrite (js_entries _ _ _ _ _ Hj)|]).
  - apply in_update_where. exists o. rewrite Hid. split; [apply in_or_app; auto|done].
  - exact Hid.
  - apply in_update_where. exists rev. split; [apply in_or_app; simpl; auto|].
    destruct (je_by tenant id rev) eqn:E; [|done]. apply je_by_true in E, Hid. lia.
  - by apply je_by_true.
Qed.

(** C8. A reversal cancels its original: every account's net over the two
    entries is zero; the reversal is dated as the original and names it;
    the original keeps its lines and total, is marked reversed by it, and
    cannot be reversed again. *)
Theorem ReverseEntry_nets tenant id by_ memo b v b' :
  books_reachable b -> ReverseEntry tenant id by_ memo b = Ok (v, b') ->
  exists o, getEntry b tenant id = Ok o /\ je_status (ev_entry o) = EntryPosted
    /\ je_reverses (ev_entry v) = Some id /\ je_date (ev_entry v) = je_date (ev_entry o)
    /\ (forall acct, account_net b' tenant id acct + account_net b' tenant (je_id (ev_entry v)) acct = 0)
    /\ getEntry b' tenant id
       = Ok (mkView (mark_entry_reversed (je_id (ev_entry v)) (ev_entry o)) (ev_total o) (ev_lines o))
    /\ forall by' memo', ReverseEntry tenant id by' memo' b' = Err ErrAlreadyReversed.
Proof.
  intros Hreach Hrun. pose proof (books_reachable_inv b Hreach) as Hb.
  assert (Hb' : Books_inv b').
  { eapply (inv_books_op (BReverse tenant id by_ memo) b tt); [done|]. cbn [run_books].
    unfold done_, tbind. by rewrite Hrun. }
  apply ReverseEntry_inv in Hrun as (o & rev & ls & Hr & Hv).
  destruct (reverse_journal_step _ _ _ _ _ _ _ _ _ Hr) as [Hj Et].
  destruct (reversed_rows _ _ _ _ _ _ _ _ _ Hb Hb' Hr) as [Ho' Hrev'].
  pose proof (re_orig _ _ _ _ _ _ _ _ _ Hr) as Ho.
  destruct (first_where_some _ _ _ Ho) as [Hin [Ht Hid]%je_by_true].
  assert (Hne : id <> je_id rev).
  { rewrite (js_id _ _ _ _ _ Hj). pose proof (bi_entry_fresh b Hb o Hin). lia. }
  assert (Hold : entry_lines b' tenant id = entry_lines b tenant id) by eauto using js_old_lines.
  assert (Hnew : entry_lines b' tenant (je_id rev) = ls) by (rewrite <- Et; eauto using js_new_lines).
  unfold getEntry in Hv. rewrite Hrev' in Hv. cbn [of_option rbind] in Hv. injection Hv as <-.
  unfold getEntry. rewrite Ho, Ho', Hold. cbn [of_option rbind]. eexists. split; [reflexivity|].
  cbn [ev_entry ev_total ev_lines]. split; [apply Hr|].
  split; [by rewrite (re_row _ _ _ _ _ _ _ _ _ Hr)|]. split; [by rewrite (re_row _ _ _ _ _ _ _ _ _ Hr)|].
  split; [|split; [done|]].
  - intros acct. unfold account_net, line_net. rewrite Hold, Hnew, !sum_by_sub.
    destruct (swapped_sums (fun a => bool_decide (a = acct)) _ _ _ (re_swapped _ _ _ _ _ _ _ _ _ Hr)) as [-> ->]. lia.
  - intros by' memo'. unfold ReverseEntry, getEntry, tbind, tget, tlift. rewrite Ho'. reflexivity.
Qed.

Lemma ReverseEntry_nets_witness :
  exists v b', ReverseEntry 1 120 2 None demo_books = Ok (v, b')
    /\ ReverseEntry 1 120 2 None b' = Err ErrAlreadyReversed.
Proof.
  destruct (ReverseEntry 1 120 2 None demo_books) as [[v b']|e] eqn:E; [|vm_compute in E; discriminate E].
  destruct (ReverseEntry_nets 1 120 2 None demo_books v b' (demo_reachable _) E)
    as (o & _ & _ & _ & _ & _ & _ & H).
  exists v, b'. split; [reflexivity|apply H].
Defined.
