(* ===== verification/AccountingReports.v ===== *)
(** * The books over time: locked periods, the trial balance, the chart

    What a locked period protects, against every later request; what the
    as-of date of the trial balance does; seeding the chart. *)

From stdpp Require Import base list strings.
From Stdlib Require Import ZArith Lia Ascii.
From S2P Require Import Prelude Numeric Accounting AccountingProps.

Local Open Scope Z_scope.
Local Open Scope tx_scope.

(** ** Locked ranges *)

Definition in_dates (from to : Z) (e : JournalEntry) : bool := (from <=? je_date e) && (je_date e <=? to).

(** Locked periods cover every date of the range. *)
Definition locked_range (b : Books) (tenant : uuid) (from to : Z) : Prop :=
  forall date, from <= date <= to ->
  exists p, In p (bk_periods b) /\ covers tenant date p = true /\ pe_status p = PeriodLocked.

(** The figures of a posting: its line, its entry, and the code and type of
    its account.  The account's name is not among them: it is the one thing a
    report prints that a later request may change ([export_rename]). *)
Definition figures_of (p : posting) : JournalLine * JournalEntry * (string * string) :=
  (p_line p, p_entry p, (ac_code (p_account p), ac_type (p_account p))).
Definition range_view (b : Books) (tenant : uuid) (from to : Z) :=
  figures_of <$> postings b tenant (in_dates from to).

(** The posting of one line, as the reports read it. *)
Definition line_view (b : Books) (tenant : uuid) (from to : Z) (l : JournalLine) :=
  figures_of <$> posting_of b tenant (in_dates from to) l.

Lemma range_view_lines b tenant from to :
  Books_inv b -> range_view b tenant from to = omap (line_view b tenant from to) (bk_lines b).
Proof.
  intros Hb. unfold range_view. rewrite (postings_omap b tenant _ Hb).
  induction (bk_lines b) as [|l ls IH]; [done|]. csimpl. unfold line_view at 1.
  destruct (posting_of b tenant (in_dates from to) l); csimpl; by rewrite IH.
Qed.

Lemma omap_ext_in {A B} (f g : A -> option B) (l : list A) :
  (forall x, In x l -> f x = g x) -> omap f l = omap g l.
Proof.
  induction l as [|x l IH]; intros H; [done|]. csimpl. rewrite (H x) by (simpl; auto).
  rewrite IH by (intros; apply H; simpl; auto). done.
Qed.

Lemma omap_none {A B} (f : A -> option B) (l : list A) :
  (forall x, In x l -> f x = None) -> omap f l = [].
Proof.
  induction l as [|x l IH]; intros H; [done|]. csimpl. rewrite (H x) by (simpl; auto).
  apply IH. intros; apply H; simpl; auto.
Qed.

(** A posting date inside a locked range is refused. *)
Lemma locked_excludes b tenant from to p date :
  Books_inv b -> locked_range b tenant from to -> In p (bk_periods b) ->
  covers tenant date p = true -> pe_status p <> PeriodLocked -> ~ from <= date <= to.
Proof.
  intros Hb Hl Hp Hc Hs Hd. destruct (Hl date Hd) as (x & Hx & Hcx & Hsx).
  pose proof (covering_period _ _ _ _ Hb Hp Hc). pose proof (covering_period _ _ _ _ Hb Hx Hcx). congruence.
Qed.

(** Accounts with the same ids, tenants, codes and types give the same figures. *)
Lemma line_view_accounts b b' tenant from to l :
  Books_inv b -> Books_inv b' -> In l (bk_lines b) -> bk_entries b' = bk_entries b ->
  (forall a, In a (bk_accounts b) -> exists a', In a' (bk_accounts b') /\ ac_id a' = ac_id a
     /\ ac_tenant a' = ac_tenant a /\ ac_code a' = ac_code a /\ ac_type a' = ac_type a) ->
  line_view b' tenant from to l = line_view b tenant from to l.
Proof.
  intros Hb Hb' Hl Ee Ha. unfold line_view, posting_of. rewrite Ee.
  destruct (first_where (line_entry l) (bk_entries b)) as [e|]; [|done].
  destruct (line_acct_first b l e Hb Hl) as (a & Ea & Hin). rewrite Ea.
  destruct (Ha a Hin) as (a' & Hin' & Hid & Ht & Hco & Hty).
  pose proof (first_where_some _ _ _ Ea) as [_ Hm]. unfold line_acct in Hm. simpl in Hm. bool_solve.
  assert (first_where (line_acct (l, e)) (bk_accounts b') = Some a') as ->.
  { apply (first_unique ac_id _ (jl_account l)); [apply Hb'| |done|].
    - intros x Hx. unfold line_acct in Hx. bool_solve. done.
    - unfold line_acct. simpl. by rewrite !bool_decide_eq_true_2 by congruence. }
  destruct (_ && _); [|done]. simpl. unfold figures_of. simpl. by rewrite Hco, Hty.
Qed.

(** Lines of entries outside the range do not show. *)
Lemma line_view_outside b tenant from to l e :
  Books_inv b -> In e (bk_entries b) -> line_entry l e = true ->
  (jl_tenant l = tenant -> ~ from <= je_date e <= to) -> line_view b tenant from to l = None.
Proof.
  intros Hb He Hle Hout. unfold line_view, posting_of. rewrite (line_entry_first b l e Hb He Hle).
  destruct (first_where _ (bk_accounts b)); [|done].
  destruct (_ && _ && _) eqn:E; [|done]. bool_solve. destruct Hout; [done|].
  unfold in_dates in *. bool_solve. split; by apply Z.leb_le.
Qed.

(** A journal step whose marked entries share the new entry's tenant and
    date leaves a locked range's figures alone. *)
Lemma range_view_journal b e ls q b' tenant from to :
  Books_inv b -> Books_inv b' -> journal_step b e ls q b' -> locked_range b tenant from to ->
  (forall y, In y (bk_entries b) -> q y = true -> je_tenant y = je_tenant e /\ je_date y = je_date e) ->
  range_view b' tenant from to = range_view b tenant from to.
Proof.
  intros Hb Hb' Hj Hl Hq. destruct (js_period _ _ _ _ _ Hj) as (p & Hp & _ & Hc & Hs).
  assert (Hout : je_tenant e = tenant -> ~ from <= je_date e <= to)
    by (intros <-; eauto using locked_excludes).
  rewrite !range_view_lines by done. rewrite (js_lines _ _ _ _ _ Hj), omap_app.
  assert (Hmem : forall y, In y (bk_entries b ++ [e]) ->
    In (if q y then mark_entry_reversed (je_id e) y else y) (bk_entries b')).
  { intros y Hy. rewrite (js_entries _ _ _ _ _ Hj). apply in_update_where. eauto. }
  rewrite (omap_none _ ls), app_nil_r.
  - apply omap_ext_in. intros l Hin. destruct (bi_line_entry b Hb l Hin) as (y & Hy & Hle).
    pose proof (Hmem y (in_or_app _ _ _ (or_introl Hy))) as Hy'. destruct (q y) eqn:Eq.
    + destruct (Hq y Hy Eq) as [Et Ed].
      assert (Hn : jl_tenant l = tenant -> ~ from <= je_date y <= to).
      { apply line_entry_true in Hle as [_ Hle]. rewrite Ed. intros <-. apply Hout. congruence. }
      rewrite (line_view_outside b _ _ _ l y) by done.
      by rewrite (line_view_outside b' _ _ _ l (mark_entry_reversed (je_id e) y)).
    + unfold line_view, posting_of.
      rewrite (line_entry_first b l y Hb Hy Hle), (line_entry_first b' l y Hb' Hy' Hle).
      by rewrite (js_accounts _ _ _ _ _ Hj).
  - intros l Hin. destruct (js_of _ _ _ _ _ Hj l Hin) as [[Ht Hi]%of_entry_true _].
    assert (He' := Hmem e ltac:(apply in_or_app; simpl; auto)).
    apply (line_view_outside b' _ _ _ l _ Hb' He').
    + apply line_entry_true. by destruct (q e).
    + intros <-. replace (je_date (if q e then _ else e)) with (je_date e) by by destruct (q e).
      apply Hout. congruence.
Qed.

(** Moving a period out of a status other than locked keeps the locked ones. *)
Lemma locked_range_move pool tenant id from to actor b p b' t lo hi :
  from <> PeriodLocked -> transition pool tenant id from to actor b = Ok (p, b') ->
  locked_range b t lo hi -> locked_range b' t lo hi.
Proof.
  intros Hf (p0 & _ & _ & ->)%transition_inv Hl d Hd. destruct (Hl d Hd) as (x & Hx & Hc & Hs).
  exists x. split; [|done]. simpl. apply in_update_where. exists x. split; [done|].
  rewrite (bool_decide_eq_false_2 (pe_status x = from)) by congruence. by rewrite andb_false_r.
Qed.

Lemma locked_range_same b b' t lo hi :
  bk_periods b' = bk_periods b -> locked_range b t lo hi -> locked_range b' t lo hi.
Proof. unfold locked_range. by intros ->. Qed.

Lemma range_view_same b b' t lo hi :
  bk_accounts b' = bk_accounts b -> bk_entries b' = bk_entries b -> bk_lines b' = bk_lines b ->
  range_view b' t lo hi = range_view b t lo hi.
Proof. unfold range_view, postings. by intros -> -> ->. Qed.

(** One request. *)
Definition keeps_range (t : uuid) (lo hi : Z) (b b' : Books) : Prop :=
  locked_range b' t lo hi /\ range_view b' t lo hi = range_view b t lo hi.

Lemma keeps_range_accounts b b' t lo hi :
  Books_inv b -> Books_inv b' -> bk_periods b' = bk_periods b -> bk_entries b' = bk_entries b ->
  bk_lines b' = bk_lines b ->
  (forall a, In a (bk_accounts b) -> exists a', In a' (bk_accounts b') /\ ac_id a' = ac_id a
     /\ ac_tenant a' = ac_tenant a /\ ac_code a' = ac_code a /\ ac_type a' = ac_type a) ->
  locked_range b t lo hi -> keeps_range t lo hi b b'.
Proof.
  intros Hb Hb' Ep Ee El Ha Hl. split; [by eapply locked_range_same|].
  rewrite !range_view_lines, El by done. apply omap_ext_in. intros l Hin. by apply line_view_accounts.
Qed.

Lemma seed_rows_rows tenant chart : forall n b m b',
  seed_rows tenant chart n b = Ok (m, b') ->
  exists new, bk_accounts b' = bk_accounts b ++ new /\ bk_periods b' = bk_periods b
    /\ bk_entries b' = bk_entries b /\ bk_lines b' = bk_lines b.
Proof.
  induction chart as [|i chart IH]; intros n b m b' H; simpl in H; tx_steps H.
  - subst. exists []. by rewrite app_nil_r.
  - eauto.
  - apply insert_account_inv in E0 as (-> & -> & _). apply IH in H as (new & -> & -> & -> & ->).
    eexists. simpl. rewrite <- app_assoc. auto.
Qed.

Lemma SeedDefaultChart_rows tenant b m b' :
  SeedDefaultChart tenant b = Ok (m, b') ->
  exists new, bk_accounts b' = bk_accounts b ++ new /\ bk_periods b' = bk_periods b
    /\ bk_entries b' = bk_entries b /\ bk_lines b' = bk_lines b.
Proof. unfold SeedDefaultChart. generalize defaultChart. intros chart. apply seed_rows_rows. Qed.

#[local] Opaque SeedDefaultChart.

Lemma keeps_range_op o b x b' t lo hi :
  Books_inv b -> locked_range b t lo hi -> run_books o b = Ok (x, b') -> keeps_range t lo hi b b'.
Proof.
  intros Hb Hl Hrun. pose proof (inv_books_op _ _ _ _ Hb Hrun) as Hb'.
  assert (Hper : forall pool tn id from to actor p, from <> PeriodLocked ->
    transition pool tn id from to actor b = Ok (p, b') -> keeps_range t lo hi b b').
  { intros pool tn id from to actor p Hf Ht. split; [by eapply locked_range_move|].
    apply transition_inv in Ht as (_ & _ & _ & ->). by apply range_view_same. }
  destruct o; cbn [run_books] in Hrun; apply done_ok in Hrun as (a & H); try (eapply Hper; [|exact H]; done).
  - unfold CreateAccount in H. tx_steps H. apply insert_account_inv in H as (-> & -> & _).
    apply keeps_range_accounts; try done. intros c Hc. exists c. split; [apply in_or_app; auto|done].
  - unfold UpdateAccount, update_returning in H. tx_steps H; simplify_eq.
    apply keeps_range_accounts; try done. intros c Hc. eexists. split; [apply in_update_where; eauto|].
    by destruct (ac_by tenant id c).
  - apply SeedDefaultChart_rows in H as (new & Ea & ? & ? & ?).
    apply keeps_range_accounts; try done. intros c Hc. exists c. rewrite Ea. split; [apply in_or_app; auto|done].
  - unfold CreatePeriod in H. tx_steps H. subst. split; [|by apply range_view_same].
    intros d Hd. destruct (Hl d Hd) as (p & Hp & ?). exists p. split; [apply in_or_app; auto|done].
  - apply PostEntry_inv in H as [Hp _]. destruct (post_journal_step _ _ _ _ _ Hp) as [Hj Et].
    split; [eapply locked_range_same; [apply Hj|done]|]. by eapply range_view_journal.
  - apply ReverseEntry_inv in H as (o & rev & ls & Hr & _).
    destruct (reverse_journal_step _ _ _ _ _ _ _ _ _ Hr) as [Hj Et].
    split; [eapply locked_range_same; [apply Hj|done]|]. eapply range_view_journal; try done.
    intros y Hy Hq. destruct (first_where_some _ _ _ (re_orig _ _ _ _ _ _ _ _ _ Hr)) as [Ho Hoq].
    assert (y = o) as ->.
    { pose proof (first_unique je_id (je_by tenant id) id (bk_entries b) y (bi_entry_ids b Hb)
        ltac:(by intros z [_ ?]%je_by_true) Hy Hq).
      pose proof (re_orig _ _ _ _ _ _ _ _ _ Hr). congruence. }
    apply je_by_true in Hoq as [-> _]. rewrite Et. by rewrite (re_row _ _ _ _ _ _ _ _ _ Hr).
Qed.

#[local] Transparent SeedDefaultChart.

Lemma keeps_range_steps b b' t lo hi :
  Books_inv b -> locked_range b t lo hi -> books_steps b b' -> keeps_range t lo hi b b'.
Proof.
  intros Hb Hl Hs. induction Hs as [b|b b1 b2 H Hs IH]; [by split|].
  assert (Hb1 := inv_books_step _ _ Hb H).
  assert (Hk : keeps_range t lo hi b b1).
  { destruct H as [o b' H|]; [by eapply keeps_range_op|by split]. }
  destruct Hk as [Hl1 E1]. destruct (IH Hb1 Hl1) as [Hl2 E2]. split; [done|congruence].
Qed.

(** The income statement is a function of the figures of its range. *)
Lemma IncomeStatement_figures b b' t lo hi :
  range_view b' t lo hi = range_view b t lo hi ->
  IncomeStatement b' t lo hi = IncomeStatement b t lo hi.
Proof.
  intros E. unfold IncomeStatement. cbv zeta.
  assert (Hf : forall f : posting -> option Z,
    (forall p p', figures_of p = figures_of p' -> f p = f p') ->
    sum_case f (postings b' t (in_dates lo hi)) = sum_case f (postings b t (in_dates lo hi))).
  { intros f Hf. unfold sum_case. f_equal. unfold range_view in E. revert E.
    generalize (postings b t (in_dates lo hi)). induction (postings b' t (in_dates lo hi)) as [|p ps IH];
      intros [|p' ps'] E; try done. injection E as E1 E2 E3 E4 E. csimpl.
    rewrite (Hf p p') by (unfold figures_of; congruence). by rewrite (IH ps'). }
  assert (Hcase : forall p p', figures_of p = figures_of p' ->
    has_type ["income"]%string p = has_type ["income"]%string p'
    /\ has_type ["contra_income"]%string p = has_type ["contra_income"]%string p'
    /\ has_type ["expense"]%string p = has_type ["expense"]%string p'
    /\ credit_less_debit p = credit_less_debit p' /\ debit_less_credit p = debit_less_credit p').
  { intros p p' [= E1 E2 _ E3]. unfold has_type, credit_less_debit, debit_less_credit. by rewrite E1, E3. }
  change (fun e => (lo <=? je_date e) && (je_date e <=? hi)) with (in_dates lo hi).
  rewrite !Hf; [done|intros p p' (H1 & H2 & H3 & H4 & H5)%Hcase; unfold revenue_case, expense_case;
    by rewrite ?H1, ?H2, ?H3, ?H4, ?H5..].
Qed.

(** Some period covers every date of the range. *)
Definition covered (b : Books) (tenant : uuid) (from to : Z) : Prop :=
  forall date, from <= date <= to -> exists p, In p (bk_periods b) /\ covers tenant date p = true.

(** The flag of an export, over a covered range, says it is locked. *)
Lemma RangeProvisional_locked b tenant from to :
  RangeProvisional b tenant from to = false -> covered b tenant from to -> locked_range b tenant from to.
Proof.
  intros Hf Hc d Hd. destruct (Hc d Hd) as (p & Hp & Hcov). exists p. split; [done|]. split; [done|].
  pose proof (proj1 (exists_where_false _ _) Hf p Hp) as Hno. cbv beta in Hno.
  apply covers_true in Hcov as (Ht & Hse).
  rewrite (bool_decide_eq_true_2 _ Ht), (proj2 (Z.leb_le (pe_start p) to)), (proj2 (Z.leb_le from (pe_end p))),
    !andb_true_r in Hno by lia. simpl in Hno. by bool_solve.
Qed.

(** The journal export of a range, but for the names of its accounts. *)
Definition without_name (r : JournalExportRow) : JournalExportRow :=
  mkExport (xr_number r) (xr_date r) (xr_code r) "" (xr_debit r) (xr_credit r) (xr_source r)
    (xr_status r) (xr_memo r).

Definition row_of_figures (f : JournalLine * JournalEntry * (string * string)) : JournalExportRow :=
  mkExport (je_number f.1.2) (je_date f.1.2) f.2.1 "" (numeric_text 2 (jl_debit f.1.1))
    (numeric_text 2 (jl_credit f.1.1)) (je_source_type f.1.2) (je_status f.1.2) (je_memo f.1.2).

Definition figures_le (collate : string -> string -> bool)
    (f g : JournalLine * JournalEntry * (string * string)) : bool :=
  (je_number f.1.2 <? je_number g.1.2)
  || ((je_number f.1.2 =? je_number g.1.2) && collate f.2.1 g.2.1).

Lemma order_by_fmap {A B} (f : A -> B) le le' (t : list A) :
  (forall x y, le x y = le' (f x) (f y)) -> f <$> order_by le t = order_by le' (f <$> t).
Proof.
  intros H. assert (Hi : forall x l, f <$> insert_by le x l = insert_by le' (f x) (f <$> l)).
  { intros x l. induction l as [|y l IH]; [done|]. csimpl. rewrite H.
    destruct (le' (f x) (f y)); csimpl; [done|by rewrite IH]. }
  induction t as [|x t IH]; [done|]. unfold order_by in *. csimpl. by rewrite Hi, IH.
Qed.

Lemma export_figures collate b tenant from to :
  without_name <$> ExportJournalLines collate b tenant from to
  = row_of_figures <$> order_by (figures_le collate) (range_view b tenant from to).
Proof.
  unfold ExportJournalLines, range_view.
  rewrite <- (order_by_fmap figures_of (number_code_le collate)), <- !list_fmap_compose by done. done.
Qed.

(** C9. The figures of an export over only locked periods are final: when the
    flag of [RangeProvisional] is false over a range that periods cover, no
    sequence of requests - postings, reversals, period moves, account
    changes - alters the lines and entries of the range with the codes and
    types of their accounts, its income statement, or any column or the order
    of its journal export except the account's name; and the range stays
    locked.  The name is read when the export is made: renaming an account
    changes it, and with it the export's checksum ([export_rename]). *)
Theorem locked_range_frozen b b' tenant from to :
  books_reachable b -> RangeProvisional b tenant from to = false -> covered b tenant from to ->
  books_steps b b' ->
  locked_range b' tenant from to
  /\ range_view b' tenant from to = range_view b tenant from to
  /\ IncomeStatement b' tenant from to = IncomeStatement b tenant from to
  /\ forall collate, without_name <$> ExportJournalLines collate b' tenant from to
       = without_name <$> ExportJournalLines collate b tenant from to.
Proof.
  intros Hb%books_reachable_inv Hf Hc Hs. pose proof (RangeProvisional_locked _ _ _ _ Hf Hc) as Hl.
  destruct (keeps_range_steps _ _ _ _ _ Hb Hl Hs) as [H1 H2].
  split; [done|]. split; [done|]. split; [by apply IncomeStatement_figures|].
  intros collate. by rewrite !export_figures, H2.
Qed.

(** The first period locked; then a reversal of its sale, refused, and a
    sale in the second. *)
Definition locked_requests : list books_op := closed_requests ++ [BLock 1 118 2].
Definition locked_books : Books := run_requests locked_requests empty_books.
Definition later_requests : list books_op := [BReverse 1 120 2 None; BPost 1 (sale_entry 40 "12")].

Lemma locked_range_frozen_witness :
  IncomeStatement (run_requests later_requests locked_books) 1 1 31 = IncomeStatement locked_books 1 1 31.
Proof.
  apply (locked_range_frozen locked_books _ 1 1 31 (demo_reachable locked_requests));
    [reflexivity| |apply run_requests_steps].
  intros d Hd. exists (mkPeriod 118 1 1 31 PeriodLocked (Some 2%N) (Some 0) (Some 2%N) (Some 0)).
  split; [vm_compute; auto|]. unfold covers. simpl.
  apply andb_true_intro. split; apply Z.leb_le; apply Hd.
Defined.

(** The name of an account is not frozen with the range: after a rename the
    export of the same locked dates prints another name, although its flag
    says it is final. *)
Theorem export_rename :
  let b' := run_requests [BUpdateAccount 1 100 "Till" ""] locked_books in
  RangeProvisional locked_books 1 1 31 = false /\ RangeProvisional b' 1 1 31 = false
  /\ xr_name <$> ExportJournalLines (fun _ _ => true) locked_books 1 1 31
     = ["Cash on Hand"; "Sales Revenue"]%string
  /\ xr_name <$> ExportJournalLines (fun _ _ => true) b' 1 1 31 = ["Till"; "Sales Revenue"]%string.
Proof. split; [reflexivity|]. split; [reflexivity|]. split; vm_compute; reflexivity. Qed.

(** Over dates no period covers the same flag is false as well, although
    such an export is not final: a period can still be created there and
    posted into, and the income statement of the dates changes. *)
Theorem RangeProvisional_gap :
  RangeProvisional demo_books 1 70 80 = false
  /\ let b' := run_requests [BCreatePeriod 1 61 90; BPost 1 (sale_entry 75 "40")] demo_books in
     is_revenue (IncomeStatement demo_books 1 70 80) = "0"%string
     /\ is_revenue (IncomeStatement b' 1 70 80) = "40.00"%string.
Proof. split; [reflexivity|]. split; vm_compute; reflexivity. Qed.

(** ** The trial balance *)

Lemma left_join_fst {A} (p : A -> JournalEntry -> bool) (xs : list A) (es : list JournalEntry) :
  NoDup (je_id <$> es) -> (forall x, exists k, forall e, p x e = true -> je_id e = k) ->
  (left_join p xs es).*1 = xs.
Proof.
  intros Hn Hk. induction xs as [|x xs IH]; [done|]. unfold left_join in *. cbn [flat_map].
  rewrite fmap_app, IH. destruct (Hk x) as [k Hx].
  rewrite (select_unique je_id (p x) k es Hn Hx). by destruct (first_where (p x) es).
Qed.

Lemma null_sum_fst f rows :
  null_sum f rows = sum_by (fun al => match al.2 with Some l => f l | None => 0 end) (rows.*1).
Proof. induction rows as [|[al e] rows IH]; [done|]. csimpl. unfold null_sum in *. simpl. by rewrite IH. Qed.

Lemma trial_row_date b a d1 d2 : Books_inv b -> trial_row b d1 a = trial_row b d2 a.
Proof.
  intros Hb. assert (H : forall f d, null_sum f (trial_rows b d a)
    = sum_by (fun al => match al.2 with Some l => f l | None => 0 end) (left_join acct_line [a] (bk_lines b))).
  { intros f d. rewrite null_sum_fst. unfold trial_rows. rewrite left_join_fst; [done|apply Hb|].
    intros [c [l|]]; [|by exists 0%N]. exists (jl_entry l). intros e He.
    unfold dated_entry in He. simpl in He. bool_solve.
    match goal with Hle : line_entry _ _ = true |- _ => by apply line_entry_true in Hle as [? _] end. }
  unfold trial_row. by rewrite !H.
Qed.

(** The as-of date of the trial balance has no effect: its status and date
    conditions sit on an outer join whose columns the sums do not read, so
    for every two dates the rows are the same. *)
Theorem TrialBalance_ignores_date collate b tenant d1 d2 :
  books_reachable b -> TrialBalance collate b tenant d1 = TrialBalance collate b tenant d2.
Proof.
  intros Hb%books_reachable_inv. unfold TrialBalance. apply omap_ext_in.
  intros a _. by apply trial_row_date.
Qed.

(** The sale of day 10 shows in the trial balance as of day 5. *)
Lemma TrialBalance_ignores_date_witness :
  TrialBalance (fun _ _ => true) demo_books 1 5 = TrialBalance (fun _ _ => true) demo_books 1 20
  /\ tb_debit <$> TrialBalance (fun _ _ => true) demo_books 1 5 = ["125.50"; "0.00"]%string.
Proof.
  split; [exact (TrialBalance_ignores_date (fun _ _ => true) demo_books 1 5 20 (demo_reachable _))|].
  vm_compute. reflexivity.
Defined.

(** ** Seeding the chart *)

(** No account of the tenant has the row's code or its system key. *)
Definition free_row (tenant : uuid) (l : list Account) (i : AccountInput) : bool :=
  negb (exists_where (same_code tenant (ai_code i)) l)
  && negb (exists_where (same_key tenant (ai_system_key i)) l).

(** Two rows of a chart that can stand together. *)
Definition apart (i j : AccountInput) : bool :=
  negb (bool_decide (lower (ai_code i) = lower (ai_code j)))
  && negb (bool_decide (ai_system_key i = ai_system_key j)).
Fixpoint apart_all (chart : list AccountInput) : bool :=
  match chart with
  | [] => true
  | i :: rest => forallb (apart i) rest && apart_all rest
  end.
Definition good_row (i : AccountInput) : bool :=
  account_checks (new_account 0 0 i) && bool_decide (ai_parent i = None) && bool_decide (is_Some (ai_system_key i)).

Fixpoint chart_accounts (tenant id : uuid) (chart : list AccountInput) : list Account :=
  match chart with
  | [] => []
  | i :: rest => new_account tenant id i :: chart_accounts tenant (id + 1)%N rest
  end.

Lemma free_row_snoc tenant l id i j :
  free_row tenant l j = true -> apart i j = true -> free_row tenant (l ++ [new_account tenant id i]) j = true.
Proof.
  unfold free_row, apart. intros [Hc Hk]%andb_true_iff [Ac Ak]%andb_true_iff.
  apply negb_true_iff in Hc, Hk, Ac, Ak. unfold exists_where in *. rewrite !existsb_app, Hc, Hk. simpl.
  unfold same_code, same_key. simpl. by rewrite Ac, Ak, !andb_false_r.
Qed.

Lemma seed_rows_all tenant chart : forall n b,
  forallb good_row chart = true -> apart_all chart = true ->
  forallb (free_row tenant (bk_accounts b)) chart = true ->
  exists b', seed_rows tenant chart n b = Ok (n + Z.of_nat (length chart), b')
    /\ bk_accounts b' = bk_accounts b ++ chart_accounts tenant (bk_next_id b) chart.
Proof.
  induction chart as [|i chart IH]; intros n b Hg Ha Hf.
  - exists b. simpl. rewrite Z.add_0_r, app_nil_r. done.
  - simpl in Hg, Ha, Hf. bool_solve. unfold good_row, free_row in *. bool_solve.
    set (a := new_account tenant (bk_next_id b) i).
    assert (Hins : insert_account a b = Ok (a, add_account a b)).
    { unfold insert_account, tbind, tget, tguard. simpl.
      change (account_checks a) with (account_checks (new_account 0 0 i)).
      replace (account_checks (new_account 0 0 i)) with true by done.
      match goal with
      | H1 : exists_where (same_code _ _) _ = false, H2 : exists_where (same_key _ _) _ = false |- _ =>
          rewrite H1, H2
      end. simpl. match goal with H1 : ai_parent i = None |- _ => rewrite H1 end. reflexivity. }
    destruct (IH (n + 1) (add_account a b)) as (b' & Hs & Ha'); [done|done| |].
    + simpl. apply forallb_forall. intros j Hj. apply free_row_snoc;
      match goal with H : forallb ?P chart = true |- ?P j = true => by apply (proj1 (forallb_forall P chart)) end.
    + exists b'. split.
      * cbn [seed_rows]. unfold tbind, tget. cbv beta iota.
        match goal with H1 : exists_where (same_code _ _) _ = false |- _ => rewrite H1 end.
        fold a. rewrite Hins. cbv beta iota. rewrite Hs. do 2 f_equal. simpl. lia.
      * rewrite Ha'. simpl. by rewrite <- app_assoc.
Qed.

Lemma seed_rows_none tenant chart : forall n b,
  (forall i, In i chart -> exists_where (same_code tenant (ai_code i)) (bk_accounts b) = true) ->
  seed_rows tenant chart n b = Ok (n, b).
Proof.
  induction chart as [|i chart IH]; intros n b H; [done|]. cbn [seed_rows]. unfold tbind, tget. cbv beta iota.
  rewrite H by (simpl; auto). apply IH. intros; apply H; simpl; auto.
Qed.

(** The accounts of a chart, found by key. *)
Lemma chart_accounts_in tenant chart : forall id i,
  In i chart -> exists k, In (new_account tenant k i) (chart_accounts tenant id chart).
Proof.
  induction chart as [|j chart IH]; intros id i; simpl; [done|]. intros [->|Hi]; [eauto|].
  destruct (IH (id + 1)%N i Hi) as [k Hk]. eauto.
Qed.

Lemma chart_accounts_row tenant chart : forall id a,
  In a (chart_accounts tenant id chart) -> exists i k, In i chart /\ a = new_account tenant k i.
Proof.
  induction chart as [|j chart IH]; intros id a; simpl; [done|]. intros [<-|Ha]; [eauto|].
  destruct (IH _ _ Ha) as (i & k & ? & ->). eauto.
Qed.

Lemma chart_ok : forallb good_row defaultChart = true /\ apart_all defaultChart = true.
Proof. split; vm_compute; reflexivity. Qed.

(** Rows with one key are one row. *)
Lemma apart_all_key chart i j : apart_all chart = true -> In i chart -> In j chart ->
  ai_system_key i = ai_system_key j -> i = j.
Proof.
  induction chart as [|x chart IH]; simpl; [done|]. intros H Hi Hj E. bool_solve.
  assert (Hx : forall y, In y chart -> ai_system_key x <> ai_system_key y).
  { intros y Hy. match goal with H : forallb (apart x) chart = true |- _ =>
      pose proof (proj1 (forallb_forall _ _) H y Hy) as Hap end. unfold apart in Hap. by bool_solve. }
  destruct Hi as [->|Hi], Hj as [->|Hj]; [done| | |auto].
  - by destruct (Hx j Hj).
  - by destruct (Hx i Hi).
Qed.

Lemma seed_rows_complete tenant chart b :
  forallb good_row chart = true -> apart_all chart = true ->
  (forall a, In a (bk_accounts b) -> ac_tenant a <> tenant) ->
  exists b', seed_rows tenant chart 0 b = Ok (Z.of_nat (length chart), b')
    /\ (forall i key, In i chart -> ai_system_key i = Some key ->
         exists a, In a (bk_accounts b') /\ ac_tenant a = tenant /\ ac_code a = ai_code i
           /\ ac_type a = ai_type i /\ resolveSystemAccount b' tenant key = Ok (ac_id a))
    /\ seed_rows tenant chart 0 b' = Ok (0, b').
Proof.
  intros Hg Ha Hno.
  assert (Hfree : forallb (free_row tenant (bk_accounts b)) chart = true).
  { apply forallb_forall. intros i _. unfold free_row, exists_where.
    assert (H : forall p, (forall a, p a = true -> ac_tenant a = tenant) -> existsb p (bk_accounts b) = false).
    { intros p Hp. apply exists_where_false. intros a Hin. destruct (p a) eqn:E; [|done].
      by destruct (Hno a Hin (Hp a E)). }
    rewrite !H; [done|..]; intros a Hx; unfold same_key, same_code in Hx; by bool_solve. }
  destruct (seed_rows_all tenant chart 0 b Hg Ha Hfree) as (b' & Hs & Ea).
  exists b'. split; [exact Hs|]. split.
  - intros i key Hi Hk. destruct (chart_accounts_in tenant chart (bk_next_id b) i Hi) as [k Hin].
    assert (Hin' : In (new_account tenant k i) (bk_accounts b')) by (rewrite Ea; apply in_or_app; auto).
    unfold resolveSystemAccount. destruct (first_where _ (bk_accounts b')) as [a|] eqn:Ef.
    + apply first_where_some in Ef as [Hina Hm]. bool_solve. exists a. split; [done|]. split; [done|].
      rewrite Ea in Hina. apply in_app_or in Hina as [Hina|Hina]; [by destruct (Hno a Hina)|].
      apply chart_accounts_row in Hina as (j & m & Hj & ->). simpl in *.
      assert (j = i) as -> by (apply (apart_all_key chart); [done..|congruence]). done.
    + pose proof (first_where_none _ _ _ Ef Hin') as Hn. simpl in Hn. by rewrite !bool_decide_eq_true_2 in Hn.
  - apply seed_rows_none. intros i Hi. apply exists_where_true.
    destruct (chart_accounts_in tenant chart (bk_next_id b) i Hi) as [k Hin].
    exists (new_account tenant k i). split; [rewrite Ea; apply in_or_app; auto|].
    unfold same_code. simpl. by rewrite !bool_decide_eq_true_2.
Qed.

(** Seeding a tenant without accounts always succeeds and creates the
    eighteen accounts of the default chart; every system key the posting
    code uses then resolves to the account with that key's code and type,
    and seeding again adds nothing. *)
Theorem SeedDefaultChart_complete tenant b :
  (forall a, In a (bk_accounts b) -> ac_tenant a <> tenant) ->
  exists b', SeedDefaultChart tenant b = Ok (18, b')
    /\ (forall i key, In i defaultChart -> ai_system_key i = Some key ->
         exists a, In a (bk_accounts b') /\ ac_tenant a = tenant /\ ac_code a = ai_code i
           /\ ac_type a = ai_type i /\ resolveSystemAccount b' tenant key = Ok (ac_id a))
    /\ SeedDefaultChart tenant b' = Ok (0, b').
Proof.
  intros Hno. destruct chart_ok as [Hg Ha]. unfold SeedDefaultChart.
  change 18 with (Z.of_nat (length defaultChart)). revert Hg Ha. generalize defaultChart.
  intros chart Hg Ha. by apply seed_rows_complete.
Qed.

Lemma SeedDefaultChart_complete_witness :
  exists b', SeedDefaultChart 1 empty_books = Ok (18, b') /\ SeedDefaultChart 1 b' = Ok (0, b').
Proof.
  destruct (SeedDefaultChart_complete 1 empty_books) as (b' & H1 & _ & H2); [intros a []|].
  exists b'. split; [exact H1|exact H2].
Defined.
