(* ===== verification/Revenue.v ===== *)
(** * Recognised sales (package [revenue]: repo.go, voids.go)

    Approving a shift values its close lines into [sales] rows: gross at the
    price in force, tax taken out of it, cost at the lifetime average of the
    tank's deliveries.  A void is requested, then approved or rejected by someone
    else; an approved one carries the negated amounts, which the day's roll-up
    adds.  The shift's totals become one journal entry of [Accounting]. *)

From stdpp Require Import base list strings.
From Stdlib Require Import ZArith Lia.
From S2P Require Import Prelude Numeric Schema Ledger Accounting Policy Operations Workforce Readings ShiftClose.

Local Open Scope Z_scope.
Local Open Scope tx_scope.

(** ** Recognition (repo.go) *)

(** The price in force: the latest effective one, the latest created among
    equals. *)
Definition price_le (a b : PriceChange) : bool :=
  (pc_from b <? pc_from a) || ((pc_from b =? pc_from a) && (pc_created b <=? pc_created a)).
Definition current_price (s : Site) (tenant station product : uuid) : option Z :=
  pc_price <$> head (order_by price_le
    (select (fun p => bool_decide (pc_tenant p = tenant /\ pc_station p = station
                                   /\ pc_product p = product) && (pc_from p <=? site_now s))
       (s_prices s))).

(** [SUM(litres * cost) / NULLIF(SUM(litres), 0)] *)
Definition average_cost (s : Site) (tenant tank : uuid) : option dec :=
  (fun '(n, d) => numeric_div (Dec n 7) (Dec d 3)) <$> WeightedAverageCost (s_inv s) tenant tank.

Definition gross_of (litres price : Z) : dec := round2 (dec_mul (dec_of 3 litres) (dec_of 4 price)).
Definition tax_of (gross : dec) (rate : Z) : dec :=
  round2 (numeric_div (dec_mul gross (dec_of 2 rate)) (dec_add (Dec 100 0) (dec_of 2 rate))).

(** The row one close line becomes. *)
Definition sale_row (id : uuid) (now : Z) (by_ : uuid) (l : CloseLine) (sh : Shift) (z : NozzleRow)
    (rate price : Z) (cost : option dec) : Tx Site site_error Sale :=
  let gross := gross_of (cl_litres l) price in
  let tax := tax_of gross rate in
  let net := dec_sub gross tax in
  let cogs := (fun c => round2 (dec_mul (dec_of 3 (cl_litres l)) c)) <$> cost in
  let opt p s (v : option dec) := match v with
                                  | None => tret None
                                  | Some d => let! x := col p s d in tret (Some x)
                                  end in
  let! g := col 14 2 gross in
  let! t := col 14 2 tax in
  let! n := col 14 2 net in
  let! u := opt 14%nat 4%nat cost in
  let! c := opt 14%nat 2%nat cogs in
  let! m := opt 14%nat 2%nat ((fun c => dec_sub net c) <$> cogs) in
  tret (mkSale id (cl_tenant l) (cl_shift l) (sh_station sh) (sh_day sh) (cl_nozzle l) (nz_product z)
          (nz_tank z) (cl_litres l) price g rate t n u c m by_ now).

(** The joined lines: shift, nozzle and product of the line. *)
Definition sale_lines (s : Site) (tenant shift : uuid) : list (CloseLine * Shift * NozzleRow * TaxedProduct) :=
  select (fun '(l, sh, z, p) => line_of tenant shift l && negb (cl_litres l =? 0))
    (join (fun '(l, sh, z) p => bool_decide (tp_id p = nz_product z /\ tp_tenant p = cl_tenant l))
       (join (fun '(l, sh) z => bool_decide (nz_id z = cl_nozzle l /\ nz_tenant z = cl_tenant l))
          (join (fun l sh => bool_decide (sh_id sh = cl_shift l /\ sh_tenant sh = cl_tenant l))
             (s_lines s) (op_shifts (s_ops s))) (op_nozzles (s_ops s))) (s_products s)).

Definition sale_fks (s : Site) (x : Sale) : bool :=
  fk_shift (s_ops s) (sale_tenant x) (sale_shift x)
  && fk_station (s_ops s) (sale_tenant x) (sale_station x)
  && exists_where (fun y => bool_decide (dy_tenant y = sale_tenant x /\ dy_id y = sale_day x))
       (op_days (s_ops s))
  && fk_nozzle (s_ops s) (sale_tenant x) (sale_nozzle x)
  && exists_where (fun p => bool_decide (tp_tenant p = sale_tenant x /\ tp_id p = sale_product x))
       (s_products s)
  && fk_tank (s_inv s) (sale_tenant x) (sale_tank x)
  && fk_pair (op_users (s_ops s)) (sale_tenant x) (sale_by x).

(** One row of the [INSERT ... SELECT]: a line without a price in force is
    filtered out, one whose nozzle has a sale already is skipped. *)
Definition recognize_line (tenant by_ : uuid) (row : CloseLine * Shift * NozzleRow * TaxedProduct)
  : Tx Site site_error Z :=
  let '(l, sh, z, p) := row in
  let! s := tget in
  match current_price s (cl_tenant l) (sh_station sh) (nz_product z) with
  | None => tret 0
  | Some price =>
      let! id := fresh_id in
      let! x := sale_row id (site_now s) by_ l sh z (tp_rate p) price
                  (average_cost s (cl_tenant l) (nz_tank z)) in
      let! s := tget in
      if exists_where (fun y => bool_decide (sale_shift y = sale_shift x /\ sale_nozzle y = sale_nozzle x))
           (s_sales s)
      then tret 0
      else tguard (sale_fks s x) SiteForeignKey ;;!
           tput (set_sales (s_sales s ++ [x]) s) ;;! tret 1
  end.

Fixpoint recognize_lines (tenant by_ : uuid) (rows : list (CloseLine * Shift * NozzleRow * TaxedProduct))
  : Tx Site site_error Z :=
  match rows with
  | [] => tret 0
  | r :: rest =>
      let! n := recognize_line tenant by_ r in
      let! m := recognize_lines tenant by_ rest in
      tret (n + m)
  end.

Definition RecognizeShiftSales (tenant shift recordedBy : uuid) : Tx Site site_error Z :=
  let! s := tget in recognize_lines tenant recordedBy (sale_lines s tenant shift).

Definition shift_sales (s : Site) (tenant shift : uuid) : list Sale :=
  select (fun x => bool_decide (sale_tenant x = tenant /\ sale_shift x = shift)) (s_sales s).
Definition nozzle_le (a b : Sale) : bool := (sale_nozzle a <=? sale_nozzle b)%N.
Definition ListForShift (s : Site) (tenant shift : uuid) : list Sale :=
  order_by nozzle_le (shift_sales s tenant shift).
Definition sale_nozzle_id_le (a b : Sale) : bool :=
  (sale_nozzle a <? sale_nozzle b)%N
  || ((sale_nozzle a =? sale_nozzle b)%N && (sale_id a <=? sale_id b)%N).
Definition ListForShiftPage (s : Site) (tenant shift : uuid) (limit offset : nat) : list Sale :=
  limit_offset limit offset (order_by sale_nozzle_id_le (shift_sales s tenant shift)).

Definition day_sales (s : Site) (tenant station day : uuid) : list Sale :=
  select (fun x => bool_decide (sale_tenant x = tenant /\ sale_station x = station /\ sale_day x = day))
    (s_sales s).
Definition ListForStationDay (s : Site) (tenant station day : uuid) : list Sale :=
  order_by (fun a b => sale_at a <=? sale_at b) (day_sales s tenant station day).
Definition sale_at_id_le (a b : Sale) : bool :=
  (sale_at a <? sale_at b) || ((sale_at a =? sale_at b) && (sale_id a <=? sale_id b)%N).
Definition ListForStationDayPage (s : Site) (tenant station day : uuid) (limit offset : nat)
  : list Sale := limit_offset limit offset (order_by sale_at_id_le (day_sales s tenant station day)).

(** ** Voids (voids.go) *)

Inductive void_error := ErrSaleNotFound | ErrVoidNotFound | ErrVoidBadState | ErrVoidSelfApprove
| ErrVoidActiveExists | VoidForeignKey.
#[export] Instance void_error_eq : EqDecision void_error.
Proof. solve_decision. Defined.

Definition GetSale (s : Site) (tenant id : uuid) : result void_error Sale :=
  of_option ErrSaleNotFound
    (first_where (fun x => bool_decide (sale_tenant x = tenant /\ sale_id x = id)) (s_sales s)).

Definition vd_by (tenant id : uuid) (v : SaleVoid) : bool :=
  bool_decide (vd_tenant v = tenant /\ vd_id v = id).
Definition GetVoid (s : Site) (tenant id : uuid) : result void_error SaleVoid :=
  of_option ErrVoidNotFound (first_where (vd_by tenant id) (s_voids s)).

Definition active_void (tenant sale : uuid) (v : SaleVoid) : bool :=
  bool_decide (vd_tenant v = tenant /\ vd_sale v = sale) && negb (bool_decide (vd_status v = VoidRejected)).
Definition VoidForSale (s : Site) (tenant sale : uuid) : result void_error SaleVoid :=
  of_option ErrVoidNotFound (first_where (active_void tenant sale) (s_voids s)).

(** [uq_sale_void_active] and the foreign keys. *)
Definition RequestVoid (tenant sale by_ : uuid) (reason : text) : Tx Site void_error SaleVoid :=
  let! id := fresh_id in
  let! s := tget in
  let v := mkVoid id tenant sale VoidRequested reason None None None None None None by_ None None
    (site_now s) None in
  tguard (negb (exists_where (active_void tenant sale) (s_voids s))) ErrVoidActiveExists ;;!
  tguard (exists_where (fun x => bool_decide (sale_tenant x = tenant /\ sale_id x = sale)) (s_sales s)
          && fk_pair (op_users (s_ops s)) tenant by_) VoidForeignKey ;;!
  tput (set_voids (s_voids s ++ [v]) s) ;;! tret v.

Definition approved_void (x : Sale) (by_ : uuid) (note : option text) (now : Z) (v : SaleVoid) : SaleVoid :=
  mkVoid (vd_id v) (vd_tenant v) (vd_sale v) VoidApproved (vd_reason v) (Some (- sale_litres x))
    (Some (- sale_gross x)) (Some (- sale_tax x)) (Some (- sale_net x)) (Z.opp <$> sale_cogs x)
    (Z.opp <$> sale_margin x) (vd_requested_by v) (Some by_) note (vd_requested_at v) (Some now).
Definition rejected_void (by_ : uuid) (note : option text) (now : Z) (v : SaleVoid) : SaleVoid :=
  mkVoid (vd_id v) (vd_tenant v) (vd_sale v) VoidRejected (vd_reason v) (vd_litres v) (vd_gross v)
    (vd_tax v) (vd_net v) (vd_cogs v) (vd_margin v) (vd_requested_by v) (Some by_) note
    (vd_requested_at v) (Some now).

(** The row under [FOR UPDATE]: requested, and by someone else. *)
Definition lock_void (tenant id decider : uuid) : Tx Site void_error SaleVoid :=
  let! s := tget in
  let! v := tlift (of_option ErrVoidNotFound (first_where (vd_by tenant id) (s_voids s))) in
  tguard (bool_decide (vd_status v = VoidRequested)) ErrVoidBadState ;;!
  tguard (negb (bool_decide (vd_requested_by v = decider))) ErrVoidSelfApprove ;;!
  tret v.

Definition void_sale (tenant : uuid) (v : SaleVoid) (x : Sale) : bool :=
  bool_decide (sale_tenant x = vd_tenant v /\ sale_id x = vd_sale v).

Definition ApproveVoid (tenant id approver : uuid) (note : option text) : Tx Site void_error SaleVoid :=
  let! v := lock_void tenant id approver in
  let! s := tget in
  match first_where (void_sale tenant v) (s_sales s) with
  | None => tfail ErrVoidBadState
  | Some x =>
      tguard (fk_pair (op_users (s_ops s)) tenant approver) VoidForeignKey ;;!
      let v' := approved_void x approver note (site_now s) v in
      tput (set_voids (update_where (fun w => vd_by tenant id w && bool_decide (vd_status w = VoidRequested))
              (approved_void x approver note (site_now s)) (s_voids s)) s) ;;!
      tret v'
  end.

Definition RejectVoid (tenant id decider : uuid) (note : option text) : Tx Site void_error SaleVoid :=
  let! v := lock_void tenant id decider in
  let! s := tget in
  tguard (fk_pair (op_users (s_ops s)) tenant decider) VoidForeignKey ;;!
  tput (set_voids (update_where (fun w => vd_by tenant id w && bool_decide (vd_status w = VoidRequested))
          (rejected_void decider note (site_now s)) (s_voids s)) s) ;;!
  tret (rejected_void decider note (site_now s) v).

Definition void_word (v : void_status) : string :=
  match v with VoidRequested => "requested" | VoidApproved => "approved" | VoidRejected => "rejected" end.
Definition requested_desc (a b : SaleVoid) : bool :=
  (vd_requested_at b <? vd_requested_at a)
  || ((vd_requested_at b =? vd_requested_at a) && (vd_id a <=? vd_id b)%N).
Definition ListVoidsPage (s : Site) (tenant : uuid) (status : string) (limit offset : nat)
  : list SaleVoid :=
  limit_offset limit offset (order_by requested_desc
    (select (fun v => bool_decide (vd_tenant v = tenant)
                      && (bool_decide (status = "")%string || bool_decide (void_word (vd_status v) = status)))
       (s_voids s))).

(** ** Roll-ups *)

Record DaySummaryR := mkDaySummary {
  ds_gross : Z; ds_net : Z; ds_tax : Z; ds_cogs : Z; ds_margin : Z; ds_litres : Z; ds_count : nat }.

Definition approved_of (x : Sale) (v : SaleVoid) : bool :=
  bool_decide (vd_tenant v = sale_tenant x /\ vd_sale v = sale_id x /\ vd_status v = VoidApproved).
Definition day_rows (s : Site) (tenant station day : uuid) : list (Sale * option SaleVoid) :=
  left_join approved_of (day_sales s tenant station day) (s_voids s).

(** [SUM] of a nullable column of the sale and of the void. *)
Definition sum_rows (f : Sale -> option Z) (g : SaleVoid -> option Z) (rows : list (Sale * option SaleVoid)) : Z :=
  sum_by (fun r => default 0 (f r.1)) rows + sum_by (fun r => default 0 (r.2 ≫= g)) rows.

Definition DaySummary (s : Site) (tenant station day : uuid) : DaySummaryR :=
  let rows := day_rows s tenant station day in
  mkDaySummary (sum_rows (fun x => Some (sale_gross x)) vd_gross rows)
    (sum_rows (fun x => Some (sale_net x)) vd_net rows)
    (sum_rows (fun x => Some (sale_tax x)) vd_tax rows)
    (sum_rows sale_cogs vd_cogs rows) (sum_rows sale_margin vd_margin rows)
    (sum_rows (fun x => Some (sale_litres x)) vd_litres rows)
    (length (select (fun r => bool_decide (r.2 = None)) rows)).

(** ** The revenue journal (repo.go) *)

Record ShiftRevenue := mkShiftRevenue {
  sr_gross : string; sr_net : string; sr_tax : string; sr_station : uuid; sr_date : Z; sr_found : bool }.

(** [None] when the shift, joined to its day, is not found. *)
Definition ShiftRevenueTotals (s : Site) (tenant shift : uuid) : option ShiftRevenue :=
  let rows := shift_sales s tenant shift in
  let total f := dec_text (coalesce_sum 2 f rows) in
  (fun '(sh, y) => mkShiftRevenue (total sale_gross) (total sale_net) (total sale_tax) (sh_station sh)
                     (dy_date y) (bool_decide (length rows <> 0%nat))) <$>
    first_where (fun '(sh, y) => sh_by tenant shift sh)
      (join (fun sh y => bool_decide (dy_id y = sh_day sh /\ dy_tenant y = sh_tenant sh))
         (op_shifts (s_ops s)) (op_days (s_ops s))).

Definition zero_text (v : string) : bool := bool_decide (v = "0")%string || bool_decide (v = "0.00")%string.

Definition revenue_lines (sr : ShiftRevenue) : list PostLine :=
  [ mkPostLine uuid_nil "sales_clearing" (sr_gross sr) "0" (Some (sr_station sr)) None;
    mkPostLine uuid_nil "sales_revenue" "0" (sr_net sr) (Some (sr_station sr)) None ]
  ++ (if zero_text (sr_tax sr) then []
      else [mkPostLine uuid_nil "output_vat" "0" (sr_tax sr) (Some (sr_station sr)) None]).

(** The entry posted, if one was. *)
Definition PostShiftRevenueJournal (s : Site) (tenant shift postedBy : uuid)
  : Tx Books acc_error (option EntryView) :=
  let! b := tget in
  if EntryExistsForSource b tenant "shift_revenue" shift then tret None
  else match ShiftRevenueTotals s tenant shift with
       | None => tret None
       | Some sr =>
           if negb (sr_found sr) || zero_text (sr_gross sr) then tret None
           else let! e := PostEntry tenant (mkPostEntry (sr_date sr) "shift_revenue" (Some shift)
                            (Some (sr_station sr)) (Some "shift sales revenue"%string) postedBy false
                            (revenue_lines sr)) in
                tret (Some e)
       end.
