(* ===== verification/ReadingHandlers.v ===== *)
(** * The reading requests (services/api/internal/server/
      meter_readings_handlers.go, dip_readings_handlers.go,
      reading_verification_handlers.go)

    Attendants capture meter readings and dips while their shift is open; a
    supervisor verifies the closings.  [pool] is the state the reads before the
    transaction showed; the transactions take no lock on the shift. *)

From stdpp Require Import base list strings.
From Stdlib Require Import ZArith Lia.
From S2P Require Import Prelude Numeric Schema Ledger Float64 Policy Operations Workforce WorkforceHandlers ShiftHandlers Reconcile Readings Calibration ShiftClose.

Local Open Scope Z_scope.
Local Open Scope tx_scope.

(** ** Common pieces *)

Definition TrimSpace (t : text) : text := trim_right IsSpace (trim_left IsSpace t).
Definition blank (t : text) : bool := bool_decide (TrimSpace t = []).

Definition parse_type (w : string) : option reading_type :=
  if bool_decide (w = "opening")%string then Some Opening
  else if bool_decide (w = "closing")%string then Some Closing else None.

Definition site_audit {E} (a : Actor) (action : string) (entity : uuid) : Tx Site E unit :=
  on_ops (ops_audit (ac_tenant a) (ac_user a) action entity).

(** Any other error of the database. *)
Definition internal {A} (c : Tx Site site_error A) : Tx Site http_error A :=
  tconv (fun _ => ops_internal) c.
Definition internal_res {A} (r : result site_error A) : result http_error A :=
  match r with Ok v => Ok v | Err _ => Err ops_internal end.

(** A figure read back as text. *)
Definition reading_text (m : MeterReading) : string := numeric_text 3 (mr_reading m).

Section Handlers.
Context {L : Type} `{Loader L}.
Context (policy : L) (cfgDefault cfgMax : Z).

(** ** Meter readings *)

Definition handleListMeterReadings (pool : Site) (ctx : option Actor) (id : result unit uuid)
    (limit offset : option (result unit Z))
  : result http_error (list MeterReading * bool * list (uuid * Z * Z * Z)) :=
  (let? a := ops_actor ctx in
   let? id := url_id "invalid shift id" id in
   let? shift := of_option (HttpError 404 "shift not found") (GetShift (s_ops pool) (ac_tenant a) id) in
   let? _ := authorizeStation policy a "station.read" (sh_station shift) in
   let? (l, o) := parsePage cfgDefault cfgMax limit offset in
   Ok (page_of l (ListActiveForShiftPage pool (ac_tenant a) id (Z.to_nat (l + 1)) (Z.to_nat o)),
       DispensedForShift pool (ac_tenant a) id))%res.

(** The floor of an opening: the previous shift's approved closing. *)
Definition check_opening_floor (pool : Site) (a : Actor) (shift : Shift) (nozzle : uuid)
    (t : reading_type) (reading : string) : result http_error unit :=
  match t with
  | Closing => Ok tt
  | Opening =>
      match ExpectedOpeningForNozzle pool (ac_tenant a) shift nozzle with
      | None => Ok tt
      | Some expected =>
          (let? below := internal_res (DecimalLess reading expected) in
           if below then Err (HttpError 422 "opening reading is below the previous shift's approved closing")
           else Ok tt)%res
      end
  end.

Definition capture_error (t : reading_type) (e : site_error) : http_error :=
  if bool_decide (e = SiteUnique) then
    match t with
    | Closing => HttpError 409 "a closing reading was already submitted for this nozzle; supervisor verification handles corrections"
    | Opening => HttpError 409 "a opening reading already exists for this nozzle; correct it instead"
    end
  else ops_internal.

(** The body is the nozzle, the reading type and the reading. *)
Definition handleCaptureMeterReading (pool : Site) (ctx : option Actor) (id : result unit uuid)
    (body : result unit (uuid * string * string)) : Tx Site http_error MeterReading :=
  let! a := tlift (ops_actor ctx) in
  let! (nozzle, word, reading) := tlift (json_body body) in
  let! t := tlift (of_option (bad_request "nozzle_id and reading_type (opening|closing) are required")
    (if bool_decide (nozzle = uuid_nil) then None else parse_type word)) in
  tguard (validDecimal reading) (bad_request "reading must be a non-negative decimal") ;;!
  let! (shift, override) := tlift
    (shiftForScopedWrite policy (s_ops pool) a id "reading.edit" "reading.override" true) in
  let! z := tlift (of_option (HttpError 404 "nozzle not found")
    (nozzles_Get (s_ops pool) (ac_tenant a) nozzle)) in
  tguard (bool_decide (nz_station z = sh_station shift))
    (bad_request "nozzle is at a different station than the shift") ;;!
  tlift (requireNozzleAssigned (s_ops pool) a (sh_id shift) nozzle override) ;;!
  tguard (ValidateScale (dispDecimal reading) (nz_places z))
    (HttpError 422 "reading has more decimals than the nozzle's meter precision") ;;!
  tlift (check_opening_floor pool a shift nozzle t reading) ;;!
  let! m := tconv (capture_error t)
    (Capture (ac_tenant a) (mkCapture (sh_id shift) nozzle t reading (ac_user a) None)) in
  site_audit a "meter_reading.captured" (mr_id m) ;;!
  tret m.

Definition supersede_error (e : site_error) : http_error :=
  if bool_decide (e = ErrReadingNotFound) || bool_decide (e = ErrDipNotFound)
  then HttpError 409 "reading is already superseded" else ops_internal.

Definition handleCorrectMeterReading (pool : Site) (ctx : option Actor) (id reading : result unit uuid)
    (body : result unit string) : Tx Site http_error MeterReading :=
  let! a := tlift (ops_actor ctx) in
  let! readingID := tlift (url_id "invalid reading id" reading) in
  let! value := tlift (json_body body) in
  tguard (validDecimal value) (bad_request "reading must be a non-negative decimal") ;;!
  let! (shift, override) := tlift
    (shiftForScopedWrite policy (s_ops pool) a id "reading.edit" "reading.override" true) in
  let! old := tlift (of_option (HttpError 404 "reading not found")
    (readings_Get pool (ac_tenant a) readingID)) in
  tguard (bool_decide (mr_shift old = sh_id shift))
    (bad_request "reading does not belong to this shift") ;;!
  tguard (bool_decide (mr_status old = ReadingActive))
    (HttpError 409 "reading is already superseded") ;;!
  tguard (negb (negb override && bool_decide (mr_type old = Closing)
                && negb (ActiveClosingRejected pool (ac_tenant a) (sh_id shift) (mr_nozzle old))))
    (HttpError 409 "your closing reading is locked after submission; ask your supervisor to review and correct it") ;;!
  tlift (requireNozzleAssigned (s_ops pool) a (sh_id shift) (mr_nozzle old) override) ;;!
  let! z := tlift (of_option ops_internal (nozzles_Get (s_ops pool) (ac_tenant a) (mr_nozzle old))) in
  tguard (ValidateScale (dispDecimal value) (nz_places z))
    (HttpError 422 "reading has more decimals than the nozzle's meter precision") ;;!
  tconv supersede_error (Supersede (ac_tenant a) (mr_id old)) ;;!
  let! fresh := internal (Capture (ac_tenant a)
    (mkCapture (sh_id shift) (mr_nozzle old) (mr_type old) value (ac_user a) (Some (mr_id old)))) in
  site_audit a "meter_reading.corrected" (mr_id fresh) ;;!
  tret fresh.

(** ** Dips *)

Definition handleListDipReadings (pool : Site) (ctx : option Actor) (id : result unit uuid)
    (limit offset : option (result unit Z)) : result http_error (list DipReading * bool) :=
  (let? a := ops_actor ctx in
   let? id := url_id "invalid shift id" id in
   let? shift := of_option (HttpError 404 "shift not found") (GetShift (s_ops pool) (ac_tenant a) id) in
   let? _ := authorizeStation policy a "station.read" (sh_station shift) in
   let? (l, o) := parsePage cfgDefault cfgMax limit offset in
   Ok (page_of l (ListDipsForShiftPage pool (ac_tenant a) id (Z.to_nat (l + 1)) (Z.to_nat o))))%res.

(** The volume as text, and the chart that gave it. *)
Definition resolveDipVolume (pool : Site) (a : Actor) (tank : uuid) (mm : string)
  : result http_error (string * uuid) :=
  match Lookup pool (ac_tenant a) tank (dispDecimal mm) with
  | Ok (v, chart) => Ok (FormatFloat3 v, chart)
  | Err ErrNoActiveChart => Err (HttpError 409 "tank has no active calibration chart")
  | Err ErrOutOfRange => Err (HttpError 422 "dip is outside the chart's range")
  | Err ErrEmptyChart => Err (HttpError 422 "the active chart has no entries")
  | Err _ => Err ops_internal
  end.

Record captureDipRequest := mkDipRequest {
  dq_tank : uuid; dq_type : string; dq_mm : string; dq_water : option dec; dq_temperature : option dec }.

Definition dip_error (word : string) (e : site_error) : http_error :=
  if bool_decide (e = SiteUnique)
  then HttpError 409 ("a " ++ word ++ " dip already exists for this tank; correct it instead")
  else ops_internal.

Definition handleCaptureDipReading (pool : Site) (ctx : option Actor) (id : result unit uuid)
    (body : result unit captureDipRequest) : Tx Site http_error DipReading :=
  let! a := tlift (ops_actor ctx) in
  let! req := tlift (json_body body) in
  let! t := tlift (of_option (bad_request "tank_id and reading_type (opening|closing) are required")
    (if bool_decide (dq_tank req = uuid_nil) then None else parse_type (dq_type req))) in
  tguard (validDecimal (dq_mm req)) (bad_request "dip_mm must be a non-negative decimal") ;;!
  let! (shift, override) := tlift
    (shiftForScopedWrite policy (s_ops pool) a id "reading.edit" "reading.override" true) in
  let! tank := tlift (of_option (HttpError 404 "tank not found") (tanks_Get (s_inv pool) (ac_tenant a) (dq_tank req))) in
  tguard (bool_decide (tk_station tank = sh_station shift))
    (bad_request "tank is at a different station than the shift") ;;!
  tlift (requireTankAssigned (s_ops pool) a (sh_id shift) (dq_tank req) override) ;;!
  let! (volume, chart) := tlift (resolveDipVolume pool a (dq_tank req) (dq_mm req)) in
  let! d := tconv (dip_error (dq_type req)) (CaptureDip (ac_tenant a)
    (mkCaptureDip (sh_id shift) (dq_tank req) t (dq_mm req) volume (dq_water req) (dq_temperature req)
       chart (ac_user a) None)) in
  site_audit a "dip_reading.captured" (dr_id d) ;;!
  tret d.

(** The body is the depth, the water and the temperature. *)
Definition handleCorrectDipReading (pool : Site) (ctx : option Actor) (id reading : result unit uuid)
    (body : result unit (string * option dec * option dec)) : Tx Site http_error DipReading :=
  let! a := tlift (ops_actor ctx) in
  let! readingID := tlift (url_id "invalid reading id" reading) in
  let! (mm, water, temperature) := tlift (json_body body) in
  tguard (validDecimal mm) (bad_request "dip_mm must be a non-negative decimal") ;;!
  let! (shift, override) := tlift
    (shiftForScopedWrite policy (s_ops pool) a id "reading.edit" "reading.override" true) in
  let! old := tlift (of_option (HttpError 404 "reading not found") (GetDip pool (ac_tenant a) readingID)) in
  tguard (bool_decide (dr_shift old = sh_id shift))
    (bad_request "reading does not belong to this shift") ;;!
  tguard (bool_decide (dr_status old = ReadingActive))
    (HttpError 409 "reading is already superseded") ;;!
  tlift (requireTankAssigned (s_ops pool) a (sh_id shift) (dr_tank old) override) ;;!
  let! (volume, chart) := tlift (resolveDipVolume pool a (dr_tank old) mm) in
  tconv supersede_error (SupersedeDip (ac_tenant a) (dr_id old)) ;;!
  let! fresh := internal (CaptureDip (ac_tenant a)
    (mkCaptureDip (sh_id shift) (dr_tank old) (dr_type old) mm volume water temperature chart
       (ac_user a) (Some (dr_id old)))) in
  site_audit a "dip_reading.corrected" (dr_id fresh) ;;!
  tret fresh.

(** ** Verification of the closings *)

(** The approval gate: rejected first, then flagged, then unverified. *)
Definition requireClosingReadingsVerified (s : Site) (tenant shift : uuid) : result http_error unit :=
  let '(unverified, rejected, flagged) := ClosingVerificationGateCounts s tenant shift in
  if (0 <? rejected)%nat then
    Err (HttpError 409 "a rejected closing reading is awaiting attendant re-capture before approving")
  else if (0 <? flagged)%nat then
    Err (HttpError 409 "a flagged closing reading is under investigation before approving")
  else if (0 <? unverified)%nat then
    Err (HttpError 409 "verify the shift's closing readings before approving")
  else Ok tt.

Definition shiftForVerification (pool : Site) (a : Actor) (id : result unit uuid) : result http_error Shift :=
  (let? id := url_id "invalid shift id" id in
   let? shift := of_option (HttpError 404 "shift not found") (GetShift (s_ops pool) (ac_tenant a) id) in
   let? _ := authorizeStation policy a "reading.override" (sh_station shift) in
   Ok shift)%res.

Definition handleListReadingVerifications (pool : Site) (ctx : option Actor) (id : result unit uuid)
  : result http_error (list Verification) :=
  (let? a := ops_actor ctx in
   let? id := url_id "invalid shift id" id in
   let? shift := of_option (HttpError 404 "shift not found") (GetShift (s_ops pool) (ac_tenant a) id) in
   let? _ := authorizeStation policy a "station.read" (sh_station shift) in
   Ok (ListVerificationsForShift pool (ac_tenant a) (sh_id shift)))%res.

(** As submitted: the final figure is the attendant's. *)
Definition as_submitted (shift : Shift) (m : MeterReading) (status : verification_status)
    (reason : option text) (by_ : uuid) : VerificationInput :=
  mkVerInput (sh_station shift) (sh_id shift) (mr_nozzle m) (mr_id m) (reading_text m) None
    (reading_text m) status reason by_.

(** The loop of the batch.  A unique violation is skipped by the code, but no
    savepoint guards the insert: the transaction is aborted, the next statement
    fails (25P02), and so does the commit. *)
Fixpoint verify_all (a : Actor) (shift : Shift) (pending : list MeterReading) (aborted : bool)
  : Tx Site http_error nat :=
  match pending with
  | [] => if aborted then tfail ops_internal else tret 0%nat
  | m :: rest =>
      if aborted then tfail ops_internal
      else fun s =>
        match InsertVerification (ac_tenant a) (as_submitted shift m VerApproved None (ac_user a)) s with
        | Ok (v, s') =>
            (site_audit a "reading_verification.approved" (vf_id v) ;;!
             let! k := verify_all a shift rest false in tret (S k)) s'
        | Err SiteUnique => verify_all a shift rest true s
        | Err _ => Err ops_internal
        end
  end.

(** The full set after the batch, and how many it added. *)
Definition handleVerifyShiftReadings (pool : Site) (ctx : option Actor) (id : result unit uuid)
  : Tx Site http_error (list Verification * nat) :=
  let! a := tlift (ops_actor ctx) in
  let! shift := tlift (shiftForVerification pool a id) in
  let pending := UnverifiedClosingForShift pool (ac_tenant a) (sh_id shift) in
  tguard (negb (existsb (fun m => bool_decide (mr_by m = ac_user a)) pending))
    (HttpError 403 "separation of duties: you cannot verify readings you recorded") ;;!
  let! n := verify_all a shift pending false in
  let! s := tget in
  tret (ListVerificationsForShift s (ac_tenant a) (sh_id shift), n).

(** An insert inside a savepoint: a unique violation rolls it back and lets
    the update run. *)
Definition savepoint {A} (c fallback : Tx Site site_error A) : Tx Site site_error A :=
  fun s => match c s with
           | Ok r => Ok r
           | Err e => if bool_decide (e = SiteUnique) then fallback s else Err e
           end.
Definition upsertVerificationClearingHold (tenant : uuid) (i : VerificationInput)
  : Tx Site site_error Verification :=
  savepoint (InsertVerification tenant i) (ReplaceHoldVerification tenant i).

Definition verdict_error (e : site_error) : http_error :=
  if bool_decide (e = ErrTerminalVerification) then HttpError 409 "reading is already verified"
  else ops_internal.

(** The checks a verdict makes on its reading. *)
Definition closing_for_verdict (pool : Site) (a : Actor) (shift : Shift) (reading : uuid)
    (superseded_msg sod_msg : string) : result http_error MeterReading :=
  (let? m := of_option (HttpError 404 "reading not found") (readings_Get pool (ac_tenant a) reading) in
   if negb (bool_decide (mr_shift m = sh_id shift)) then
     Err (bad_request "reading does not belong to this shift")
   else if negb (bool_decide (mr_type m = Closing)) then
     Err (HttpError 422 "only closing readings are verified")
   else if negb (bool_decide (mr_status m = ReadingActive)) then Err (HttpError 409 superseded_msg)
   else if bool_decide (mr_by m = ac_user a) then Err (HttpError 403 sod_msg)
   else Ok m)%res.

(** A correction: the body is the verified reading and the reason.  The frozen
    close line follows when the pool showed the shift closed. *)
Definition handleVerifyCorrectReading (pool : Site) (ctx : option Actor) (id reading : result unit uuid)
    (body : result unit (string * text)) : Tx Site http_error Verification :=
  let! a := tlift (ops_actor ctx) in
  let! readingID := tlift (url_id "invalid reading id" reading) in
  let! (verified, reason0) := tlift (json_body body) in
  tguard (validDecimal verified) (bad_request "verified_reading must be a non-negative decimal") ;;!
  let reason := TrimSpace reason0 in
  tguard (negb (bool_decide (reason = []))) (bad_request "reason is required when correcting a reading") ;;!
  let! shift := tlift (shiftForVerification pool a id) in
  tguard (negb (bool_decide (sh_status shift = ShiftApproved)))
    (HttpError 409 "shift is already approved") ;;!
  let! m := tlift (closing_for_verdict pool a shift readingID
    "reading is superseded; verify its active correction instead"
    "separation of duties: you cannot verify a reading you recorded") in
  let! z := tlift (of_option ops_internal (nozzles_Get (s_ops pool) (ac_tenant a) (mr_nozzle m))) in
  tguard (ValidateScale (dispDecimal verified) (nz_places z))
    (HttpError 422 "verified_reading has more decimals than the nozzle's meter precision") ;;!
  let! below := tlift (match ActiveForShiftNozzle pool (ac_tenant a) (sh_id shift) (mr_nozzle m) Opening with
                       | None => Ok false
                       | Some o => internal_res (DecimalLess verified (reading_text o))
                       end) in
  tguard (negb below) (HttpError 422 "verified_reading is below the shift's opening reading") ;;!
  let! v := tconv verdict_error (upsertVerificationClearingHold (ac_tenant a)
    (mkVerInput (sh_station shift) (sh_id shift) (mr_nozzle m) (mr_id m) (reading_text m)
       (Some verified) verified VerCorrected (Some reason) (ac_user a))) in
  (if bool_decide (sh_status shift = ShiftClosed) then
     fun s => match RecomputeCloseLineClosing (ac_tenant a) (sh_id shift) (mr_nozzle m) verified s with
              | Ok (line, s') =>
                  if has_minus (numeric_text 3 (cl_litres line))
                  then Err (HttpError 422 "verified_reading is below the shift's opening reading")
                  else Ok (tt, s')
              | Err ErrCloseLineNotFound => Ok (tt, s)
              | Err _ => Err ops_internal
              end
   else tret tt) ;;!
  site_audit a "reading_verification.corrected" (vf_id v) ;;!
  tret v.

Definition loadClosingForVerdict (pool : Site) (a : Actor) (id reading : result unit uuid) (verb : string)
  : result http_error (Shift * MeterReading) :=
  (let? readingID := url_id "invalid reading id" reading in
   let? shift := shiftForVerification pool a id in
   if bool_decide (sh_status shift = ShiftApproved) then Err (HttpError 409 "shift is already approved")
   else let? m := closing_for_verdict pool a shift readingID
                    ("reading is superseded; " ++ verb ++ " its active correction instead")
                    ("separation of duties: you cannot " ++ verb ++ " a reading you recorded") in
        Ok (shift, m))%res.

Definition recordReadingVerdict (a : Actor) (shift : Shift) (m : MeterReading)
    (status : verification_status) (reason : option text) (action : string)
  : Tx Site http_error Verification :=
  let! v := tconv verdict_error (upsertVerificationClearingHold (ac_tenant a)
    (as_submitted shift m status reason (ac_user a))) in
  site_audit a action (vf_id v) ;;!
  tret v.

Definition handleRejectReading (pool : Site) (ctx : option Actor) (id reading : result unit uuid)
    (body : result unit text) : Tx Site http_error Verification :=
  let! a := tlift (ops_actor ctx) in
  let! reason0 := tlift (json_body body) in
  let reason := TrimSpace reason0 in
  tguard (negb (bool_decide (reason = []))) (bad_request "reason is required when rejecting a reading") ;;!
  let! (shift, m) := tlift (loadClosingForVerdict pool a id reading "reject") in
  recordReadingVerdict a shift m VerRejected (Some reason) "reading_verification.rejected".

Definition handleFlagReading (pool : Site) (ctx : option Actor) (id reading : result unit uuid)
    (body : result unit text) : Tx Site http_error Verification :=
  let! a := tlift (ops_actor ctx) in
  let! reason0 := tlift (json_body body) in
  let reason := TrimSpace reason0 in
  tguard (negb (bool_decide (reason = []))) (bad_request "reason is required when flagging a reading") ;;!
  let! (shift, m) := tlift (loadClosingForVerdict pool a id reading "flag") in
  recordReadingVerdict a shift m VerFlagged (Some reason) "reading_verification.flagged".

Definition handleApproveReading (pool : Site) (ctx : option Actor) (id reading : result unit uuid)
  : Tx Site http_error Verification :=
  let! a := tlift (ops_actor ctx) in
  let! (shift, m) := tlift (loadClosingForVerdict pool a id reading "approve") in
  recordReadingVerdict a shift m VerApproved None "reading_verification.approved".
End Handlers.
