(* ===== verification/CloseHandlers.v ===== *)
(** * Closing, settling and approving a shift (services/api/internal/server/
      shift_close_handlers.go, collection_receipts_handlers.go,
      shift_exceptions_handlers.go, and [recognizeShiftRevenue] of
      revenue_handlers.go)

    Closing freezes one line per nozzle; cash is submitted and confirmed by
    someone else; approving posts the litres to the stock ledger and the value to
    the sales, in one transaction.  [pool] is the state the reads before the
    transaction showed. *)

From stdpp Require Import base list strings gmap.
From Stdlib Require Import ZArith Lia.
From S2P Require Import Prelude Numeric Schema Ledger Float64 Policy Operations Workforce WorkforceHandlers ShiftHandlers Readings ShiftClose Revenue ReadingHandlers.

Local Open Scope Z_scope.
Local Open Scope tx_scope.

(** ** Closing *)

Record ends := mkEnds { e_opening : option string; e_closing : option string }.

(** The last entry the rows gave an id. *)
Definition final_of (finals : list (uuid * Z)) (id : uuid) : option Z :=
  snd <$> last (select (fun p => bool_decide (p.1 = id)) finals).

Definition index_reading (finals : list (uuid * Z)) (acc : gmap uuid ends) (m : MeterReading)
  : gmap uuid ends :=
  let e := default (mkEnds None None) (acc !! mr_nozzle m) in
  let v := reading_text m in
  <[mr_nozzle m :=
      match mr_type m with
      | Opening => mkEnds (Some v) (e_closing e)
      | Closing => mkEnds (e_opening e)
          (Some match final_of finals (mr_id m) with Some f => numeric_text 3 f | None => v end)
      end]> acc.
Definition meterByNozzle (finals : list (uuid * Z)) (rows : list MeterReading) : gmap uuid ends :=
  fold_left (index_reading finals) rows ∅.

(** What the loop over the assignments collects. *)
Record close_scan := mkScan {
  sc_lines : list CloseLineInput; sc_missing_meter : list uuid; sc_rollback : list uuid;
  sc_missing_dip : list uuid; sc_seen : list uuid }.

Section Handlers.
Context {L : Type} `{Loader L}.
Context (policy : L) (cfgDefault cfgMax : Z).

Definition scan_dip (closingDips : list uuid) (tank : uuid) (c : close_scan) : close_scan :=
  if bool_decide (tank ∈ sc_seen c) then c
  else mkScan (sc_lines c) (sc_missing_meter c) (sc_rollback c)
         (if bool_decide (tank ∈ closingDips) then sc_missing_dip c else sc_missing_dip c ++ [tank])
         (tank :: sc_seen c).

Definition scan_meter (meters : gmap uuid ends) (rolledBack : list uuid) (shift : uuid) (z : NozzleRow)
    (nozzle : uuid) (c : close_scan) : close_scan :=
  match meters !! nozzle with
  | Some (mkEnds (Some opening) (Some closing)) =>
      if bool_decide (nozzle ∈ rolledBack)
      then mkScan (sc_lines c) (sc_missing_meter c) (sc_rollback c ++ [nozzle]) (sc_missing_dip c) (sc_seen c)
      else mkScan (sc_lines c ++ [mkLineInput shift nozzle opening closing (numeric_text 2 (nz_price z))])
             (sc_missing_meter c) (sc_rollback c) (sc_missing_dip c) (sc_seen c)
  | _ => mkScan (sc_lines c) (sc_missing_meter c ++ [nozzle]) (sc_rollback c) (sc_missing_dip c) (sc_seen c)
  end.

Fixpoint scan_assignments (pool : Site) (tenant shift : uuid) (meters : gmap uuid ends)
    (rolledBack closingDips : list uuid) (l : list NozzleAssignment) (c : close_scan)
  : result http_error close_scan :=
  match l with
  | [] => Ok c
  | n :: rest =>
      match nozzles_Get (s_ops pool) tenant (na_nozzle n) with
      | None => Err ops_internal
      | Some z =>
          scan_assignments pool tenant shift meters rolledBack closingDips rest
            (scan_meter meters rolledBack shift z (na_nozzle n) (scan_dip closingDips (nz_tank z) c))
      end
  end.

(** The reads before the transaction: the lines to freeze. *)
Definition close_inputs (pool : Site) (tenant shift : uuid) : result http_error (list CloseLineInput) :=
  (let assignments := ListNozzleAssignments (s_ops pool) tenant shift in
   if bool_decide (assignments = []) then
     Err (HttpError 422 "shift has no nozzle assignments; assign at least one before closing")
   else
     let meters := meterByNozzle (FinalClosingOverridesForShift pool tenant shift)
       (ListActiveForShift pool tenant shift) in
     let closingDips := dr_tank <$> select (fun d => bool_decide (dr_type d = Closing))
       (ListDipsForShift pool tenant shift) in
     let? c := scan_assignments pool tenant shift meters (RollbackNozzlesForShift pool tenant shift)
       closingDips assignments (mkScan [] [] [] [] []) in
     if bool_decide (sc_missing_meter c = [] /\ sc_missing_dip c = [] /\ sc_rollback c = [])
     then Ok (sc_lines c) else Err (HttpError 422 "shift is missing readings required to close"))%res.

Fixpoint insert_lines (tenant : uuid) (l : list CloseLineInput) : Tx Site http_error (list CloseLine) :=
  match l with
  | [] => tret []
  | i :: rest =>
      let! x := internal (InsertCloseLine tenant i) in
      let! xs := insert_lines tenant rest in
      tret (x :: xs)
  end.

Definition lock_shift (tenant id : uuid) : Tx Site http_error Shift :=
  let! s := tget in
  tlift (match GetShiftForUpdate (s_ops s) tenant id with
         | Ok sh => Ok sh
         | Err _ => Err (HttpError 404 "shift not found")
         end).

(** The closed shift, its lines and the expected cash. *)
Definition handleCloseShift (pool : Site) (ctx : option Actor) (id : result unit uuid)
  : Tx Site http_error (Shift * list CloseLine * Z) :=
  let! a := tlift (ops_actor ctx) in
  let! shift := tlift (shiftForWrite policy (s_ops pool) a id "shift.close" true) in
  let! inputs := tlift (close_inputs pool (ac_tenant a) (sh_id shift)) in
  let! locked := lock_shift (ac_tenant a) (sh_id shift) in
  tguard (bool_decide (sh_status locked = ShiftOpen)) (HttpError 409 "shift is not open") ;;!
  let! lines := insert_lines (ac_tenant a) inputs in
  let! closed := on_ops (tconv (fun _ => ops_internal) (CloseShift (ac_tenant a) (sh_id shift) (ac_user a))) in
  let! s := tget in
  let! expected := tlift (internal_res (SumExpectedForShift s (ac_tenant a) (sh_id shift))) in
  site_audit a "shift.closed" (sh_id closed) ;;!
  tret (closed, lines, expected).

Definition handleCloseSummary (pool : Site) (ctx : option Actor) (id : result unit uuid)
  : result http_error (Shift * list CloseLine * Z * option CashSubmission) :=
  (let? a := ops_actor ctx in
   let? id := url_id "invalid shift id" id in
   let? shift := of_option (HttpError 404 "shift not found") (GetShift (s_ops pool) (ac_tenant a) id) in
   let? _ := authorizeStation policy a "station.read" (sh_station shift) in
   let? expected := internal_res (SumExpectedForShift pool (ac_tenant a) id) in
   Ok (shift, ListCloseLines pool (ac_tenant a) id, expected, GetCashSubmission pool (ac_tenant a) id))%res.

(** ** Cash *)

Definition tenderOrZero (v0 : string) : string * bool :=
  let v := trim_space v0 in
  if bool_decide (v = "")%string then ("0"%string, true) else (v, validDecimal v).

Definition cashVarianceThreshold : string := "1000.00".

Record cashSubmissionRequest := mkCashRequest {
  cq_cash : string; cq_mobile : string; cq_card : string; cq_credit : string; cq_notes : option text }.

Definition no_notes (n : option text) : bool :=
  match n with None => true | Some t => blank t end.

Definition handleSubmitCash (pool : Site) (ctx : option Actor) (id : result unit uuid)
    (body : result unit cashSubmissionRequest) : Tx Site http_error CashSubmission :=
  let! a := tlift (ops_actor ctx) in
  let! req := tlift (json_body body) in
  let (cash, ok1) := tenderOrZero (cq_cash req) in
  let (mobile, ok2) := tenderOrZero (cq_mobile req) in
  let (card, ok3) := tenderOrZero (cq_card req) in
  let (credit, ok4) := tenderOrZero (cq_credit req) in
  tguard (ok1 && ok2 && ok3 && ok4) (bad_request "tender amounts must be non-negative decimals") ;;!
  let! (shift, override) := tlift
    (shiftForScopedWrite policy (s_ops pool) a id "cash.submit" "cash.override" false) in
  tguard (bool_decide (sh_status shift = ShiftClosed))
    (HttpError 409 "shift must be closed before cash is submitted") ;;!
  let! expected := tlift (internal_res (SumExpectedForShift pool (ac_tenant a) (sh_id shift))) in
  let! s := tget in
  let! status := tlift (match LockShiftStatusForShare (s_ops s) (ac_tenant a) (sh_id shift) with
                        | Ok st => Ok st | Err _ => Err ops_internal end) in
  tguard (bool_decide (status = ShiftClosed))
    (HttpError 409 "shift must be closed before cash is submitted") ;;!
  let! sub := tconv (fun e => if bool_decide (e = SiteUnique)
                              then HttpError 409 "cash has already been submitted for this shift"
                              else ops_internal)
    (InsertCashSubmission (ac_tenant a) (mkCashInput (sh_id shift) (numeric_text 2 expected) cash mobile
       card credit (ac_user a) (cq_notes req))) in
  (if negb override && no_notes (cq_notes req) then
     let! (_, zero) := tlift (internal_res
       (DecimalDifference (numeric_text 2 (cs_total sub)) (numeric_text 2 (cs_expected sub)))) in
     tguard zero (HttpError 422
       "your submitted total does not match the expected amount — add a reason explaining the difference")
   else tret tt) ;;!
  site_audit a "cash.submitted" (cs_id sub) ;;!
  let! over := tlift (internal_res
    (VarianceExceeds (numeric_text 2 (cs_variance sub)) cashVarianceThreshold)) in
  (if over then
     let! exc := internal (RaiseException (ac_tenant a) (sh_id shift) CashVariance SevHigh
       ("cash variance " ++ numeric_text 2 (cs_variance sub) ++ " exceeds threshold " ++ cashVarianceThreshold)) in
     site_audit a "shift_exception.raised" (se_id exc)
   else tret tt) ;;!
  tret sub.

(** ** Receipts *)

Definition requireCollectionReceiptConfirmed (s : Site) (tenant shift : uuid) : result http_error unit :=
  if CashSubmissionAwaitingReceipt s tenant shift
  then Err (HttpError 409 "confirm the shift's cash submission before approving") else Ok tt.

Definition handleGetCollectionReceipt (pool : Site) (ctx : option Actor) (id : result unit uuid)
  : result http_error CollectionReceipt :=
  (let? a := ops_actor ctx in
   let? id := url_id "invalid shift id" id in
   let? shift := of_option (HttpError 404 "shift not found") (GetShift (s_ops pool) (ac_tenant a) id) in
   let? _ := authorizeStation policy a "station.read" (sh_station shift) in
   of_option (HttpError 404 "no collection receipt for this shift yet")
     (GetCollectionReceiptForShift pool (ac_tenant a) (sh_id shift)))%res.

Record confirmRequest := mkConfirm {
  fq_received : string; fq_status : string; fq_reason : text; fq_comment : option text }.

Definition receipt_status_for (word : string) (zero : bool) : receipt_status :=
  if bool_decide (word = "rejected")%string then RcRejected
  else if bool_decide (word = "flagged")%string then RcFlagged
  else if zero then RcReceived else RcApprovedWithDifference.

Definition handleConfirmCashSubmission (pool : Site) (ctx : option Actor) (id : result unit uuid)
    (body : result unit confirmRequest) : Tx Site http_error CollectionReceipt :=
  let! a := tlift (ops_actor ctx) in
  let! req := tlift (json_body body) in
  tguard (validDecimal (fq_received req)) (bad_request "received_total must be a non-negative decimal") ;;!
  tguard (bool_decide (fq_status req ∈ [""; "received"; "rejected"; "flagged"]%string))
    (bad_request "status must be received, rejected, or flagged") ;;!
  let reason := TrimSpace (fq_reason req) in
  let! shift := tlift (shiftForWrite policy (s_ops pool) a id "cash.confirm" false) in
  tguard (bool_decide (sh_status shift = ShiftClosed)) (HttpError 409 "cash is confirmed on a closed shift") ;;!
  let! sub := tlift (of_option (HttpError 409 "no cash submission to confirm for this shift")
    (GetCashSubmission pool (ac_tenant a) (sh_id shift))) in
  let! admin := tlift (actorIsSystemAdmin policy a) in
  tguard (negb (bool_decide (cs_by sub = ac_user a) && negb admin))
    (HttpError 403 "separation of duties: you cannot confirm a cash submission you made") ;;!
  let! (_, zero) := tlift (internal_res
    (DecimalDifference (fq_received req) (numeric_text 2 (cs_expected sub)))) in
  let status := receipt_status_for (fq_status req) zero in
  tguard (bool_decide (status = RcReceived) || negb (bool_decide (reason = [])))
    (bad_request "reason is required when the received total differs from expected or the handover is rejected or flagged") ;;!
  let! s := tget in
  let! locked := tlift (match LockShiftStatusForShare (s_ops s) (ac_tenant a) (sh_id shift) with
                        | Ok st => Ok st | Err _ => Err ops_internal end) in
  tguard (bool_decide (locked = ShiftClosed)) (HttpError 409 "cash is confirmed on a closed shift") ;;!
  let i := mkReceiptInput (sh_station shift) (sh_id shift) (cs_id sub) (numeric_text 2 (cs_expected sub))
    (numeric_text 2 (cs_total sub)) (fq_received req) status
    (if bool_decide (reason = []) then None else Some reason) (fq_comment req) (ac_user a) in
  let! r := tconv (fun e => if bool_decide (e = ErrTerminalReceipt)
                            then HttpError 409 "this cash submission already has a confirmed collection receipt"
                            else ops_internal)
    (savepoint (InsertCollectionReceipt (ac_tenant a) i) (ReplaceHeldCollectionReceipt (ac_tenant a) i)) in
  site_audit a "cash.collection_confirmed" (cr_id r) ;;!
  tret r.

Definition handleExpectedOpeningReadings (pool : Site) (ctx : option Actor) (id : result unit uuid)
  : result http_error (list (NozzleAssignment * option previousClosing)) :=
  (let? a := ops_actor ctx in
   let? id := url_id "invalid shift id" id in
   let? shift := of_option (HttpError 404 "shift not found") (GetShift (s_ops pool) (ac_tenant a) id) in
   let? _ := if IsAttendantOnShift (s_ops pool) (ac_tenant a) (sh_id shift) (ac_user a) then Ok tt
             else authorizeStation policy a "station.read" (sh_station shift) in
   Ok (ExpectedOpeningsForShift pool (ac_tenant a) shift))%res.

(** ** Exceptions *)

Definition handleListShiftExceptions (pool : Site) (ctx : option Actor) (id : result unit uuid)
    (limit offset : option (result unit Z)) : result http_error (list ShiftException * bool) :=
  (let? a := ops_actor ctx in
   let? id := url_id "invalid shift id" id in
   let? shift := of_option (HttpError 404 "shift not found") (GetShift (s_ops pool) (ac_tenant a) id) in
   let? _ := authorizeStation policy a "station.read" (sh_station shift) in
   let? (l, o) := parsePage cfgDefault cfgMax limit offset in
   Ok (page_of l (ListExceptionsForShiftPage pool (ac_tenant a) id (Z.to_nat (l + 1)) (Z.to_nat o))))%res.

Definition handleResolveShiftException (pool : Site) (ctx : option Actor) (id : result unit uuid)
    (body : result unit string) : Tx Site http_error ShiftException :=
  let! a := tlift (ops_actor ctx) in
  let! id := tlift (url_id "invalid exception id" id) in
  let! status := tlift (json_body body) in
  tguard (bool_decide (status = "resolved")%string) (bad_request "status must be resolved") ;;!
  let! exc := tlift (of_option (HttpError 404 "exception not found") (GetException pool (ac_tenant a) id)) in
  let! shift := tlift (of_option ops_internal (GetShift (s_ops pool) (ac_tenant a) (se_shift exc))) in
  tlift (authorizeStation policy a "shift.approve" (sh_station shift)) ;;!
  let! r := tconv (fun e => if bool_decide (e = ErrExceptionNotFound)
                            then HttpError 409 "exception is already resolved" else ops_internal)
    (ResolveException (ac_tenant a) id (ac_user a)) in
  site_audit a "shift_exception.resolved" (se_id r) ;;!
  tret r.

(** ** Approval *)

Fixpoint audit_movements (a : Actor) (posted : list Movement) : Tx Site http_error unit :=
  match posted with
  | [] => tret tt
  | m :: rest =>
      on_inv (WriteWithOutbox (ac_tenant a) (ac_user a) "stock_movement.posted" (mv_id m)) ;;!
      audit_movements a rest
  end.

(** The litres are read on the pool ([now] is what it shows while the
    transaction runs), and posted in the transaction. *)
Definition postShiftSales (now : Site) (a : Actor) (shift : uuid) : Tx Site http_error unit :=
  let lines := (fun '(tank, litres) => mkSaleLine tank (float_of_milli litres)) <$>
    LitresSoldPerTankForShift now (ac_tenant a) shift in
  let! (posted, _) := on_inv (tconv (fun _ => ops_internal)
    (PostSalesForShift (ac_tenant a) shift (ac_user a) lines)) in
  audit_movements a posted.

Definition recognizeShiftRevenue (a : Actor) (shift : uuid) : Tx Site http_error unit :=
  let! n := internal (RecognizeShiftSales (ac_tenant a) shift (ac_user a)) in
  if n =? 0 then tret tt else site_audit a "revenue.recognized" shift.

(** The gates on exceptions, verification and receipt, which the code runs on
    the pool and again under the lock of the shift row. *)
Definition approval_gates (s : Site) (tenant shift : uuid) : result http_error unit :=
  (let? _ := if (0 <? OpenExceptionCountForShift s tenant shift)%nat
             then Err (HttpError 409 "resolve the shift's open exceptions before approving") else Ok tt in
   let? _ := requireClosingReadingsVerified s tenant shift in
   requireCollectionReceiptConfirmed s tenant shift)%res.

Definition handleApproveShift (pool now : Site) (ctx : option Actor) (id : result unit uuid)
    (body : result unit string) : Tx Site http_error Shift :=
  let! a := tlift (ops_actor ctx) in
  let! status := tlift (json_body body) in
  tguard (bool_decide (status = "approved")%string)
    (bad_request "status must be approved (close is via POST /close)") ;;!
  let! before := tlift (shiftForWrite policy (s_ops pool) a id "shift.approve" false) in
  tguard (bool_decide (sh_status before = ShiftClosed)) (HttpError 409 "only a closed shift can be approved") ;;!
  let! admin := tlift (actorIsSystemAdmin policy a) in
  tguard (negb (bool_decide (sh_closed_by before = Some (ac_user a)) && negb admin))
    (HttpError 403 "separation of duties: you cannot approve a shift you closed") ;;!
  tlift (approval_gates pool (ac_tenant a) (sh_id before)) ;;!
  let! locked := lock_shift (ac_tenant a) (sh_id before) in
  tguard (bool_decide (sh_status locked = ShiftClosed)) (HttpError 409 "only a closed shift can be approved") ;;!
  let! s := tget in
  tlift (approval_gates s (ac_tenant a) (sh_id before)) ;;!
  let! after := on_ops (tconv (fun _ => ops_internal)
    (ApproveShift (ac_tenant a) (sh_id before) (ac_user a))) in
  postShiftSales now a (sh_id before) ;;!
  recognizeShiftRevenue a (sh_id before) ;;!
  site_audit a "shift.approved" (sh_id after) ;;!
  tret after.
End Handlers.
