(* ===== verification/CloseProps.v ===== *)
(** * Properties of closing, settling and approving a shift

    What an approval guarantees and what it posts, what a close freezes, and the
    runs in which the frozen figures part from the readings or the cash. *)

From stdpp Require Import base list strings gmap.
From Stdlib Require Import ZArith Lia.
From S2P Require Import Prelude Frames Numeric Schema Ledger LedgerProps Float64 Policy Operations OperationsProps Workforce WorkforceHandlers ShiftHandlers Readings Calibration ShiftClose Revenue ReadingHandlers CloseHandlers.

Local Open Scope Z_scope.
Local Open Scope tx_scope.

(** ** Frames *)

Lemma keeps_on_inv {E A B} (f : Site -> B) (c : Tx DB E A) :
  (forall d s, f (set_inv d s) = f s) -> keeps f (on_inv c).
Proof. intros Hf s x s' H. unfold on_inv in H. destruct (c (s_inv s)) as [[]|]; simplify_eq. apply Hf. Qed.
Lemma keeps_on_ops {E A B} (f : Site -> B) (c : Tx Ops E A) :
  (forall s x o, c (s_ops s) = Ok (x, o) -> f (set_ops o s) = f s) -> keeps f (on_ops c).
Proof. intros Hf s x s' H. unfold on_ops in H. destruct (c (s_ops s)) as [[]|] eqn:Ec; simplify_eq. by eapply Hf. Qed.

(** The sampling of ids and the audit rows change nothing but their tables. *)
Definition shifts_of (s : Site) : list Shift := op_shifts (s_ops s).
Lemma keeps_fresh {E} : keeps (E := E) shifts_of fresh_id.
Proof. apply keeps_on_ops. by intros s x o [= _ <-]. Qed.
Lemma keeps_audit {E} a x e : keeps (E := E) shifts_of (site_audit a x e).
Proof. apply keeps_on_ops. by intros s y o [= _ <-]. Qed.
Lemma keeps_fresh_inv {E} : keeps (E := E) s_inv fresh_id.
Proof. by apply keeps_on_ops. Qed.
Lemma keeps_audit_inv {E} a x e : keeps (E := E) s_inv (site_audit a x e).
Proof. by apply keeps_on_ops. Qed.

Create HintDb site_frames.
#[export] Hint Resolve keeps_bind keeps_ret keeps_lift keeps_guard keeps_get keeps_conv keeps_fail
  keeps_fresh keeps_audit keeps_fresh_inv keeps_audit_inv : site_frames.

Ltac keep_steps :=
  repeat first
    [ apply keeps_ret | apply keeps_lift | apply keeps_guard | apply keeps_get | apply keeps_fail
    | apply keeps_fresh | apply keeps_audit | apply keeps_fresh_inv | apply keeps_audit_inv
    | apply keeps_conv
    | apply keeps_bind; [|intros ?]
    | match goal with
      | |- keeps _ (match ?x with _ => _ end) => destruct x
      | |- keeps _ (let '(_, _) := ?x in _) => destruct x
      end ].

Lemma keeps_put_sales {B E} (f : Site -> B) (v : Site -> list Sale) :
  (forall w s, f (set_sales w s) = f s) ->
  keeps (E := E) f (let! s := tget in tput (set_sales (v s) s)).
Proof. intros Hf s x s' [= _ <-]. apply Hf. Qed.

Lemma sale_row_keeps {B} (f : Site -> B) id now by_ l sh z rate price cost :
  keeps f (sale_row id now by_ l sh z rate price cost).
Proof. unfold sale_row, col. keep_steps. Qed.

Lemma recognize_line_keeps {B} (f : Site -> B) tenant by_ row :
  (forall w s, f (set_sales w s) = f s) -> keeps (E := site_error) f fresh_id ->
  keeps f (recognize_line tenant by_ row).
Proof.
  intros Hs Hi. destruct row as [[[l sh] z] p]. unfold recognize_line.
  apply keeps_bind; [apply keeps_get|]. intros s0. destruct (current_price _ _ _ _); [|apply keeps_ret].
  apply keeps_bind; [exact Hi|]. intros id. apply keeps_bind; [apply sale_row_keeps|]. intros x.
  intros s y s' H. tx_step H. destruct (exists_where _ _); [by tx_steps H; subst|].
  tx_steps H. subst. apply Hs.
Qed.

Lemma recognize_lines_keeps {B} (f : Site -> B) tenant by_ rows :
  (forall w s, f (set_sales w s) = f s) -> keeps (E := site_error) f fresh_id ->
  keeps f (recognize_lines tenant by_ rows).
Proof.
  intros Hs Hi. induction rows as [|r rest IH]; simpl; keep_steps; [by apply recognize_line_keeps|done].
Qed.

Lemma recognizeShiftRevenue_keeps {B} (f : Site -> B) a shift :
  (forall w s, f (set_sales w s) = f s) -> keeps (E := site_error) f fresh_id ->
  (forall x e, keeps (E := http_error) f (site_audit a x e)) ->
  keeps f (recognizeShiftRevenue a shift).
Proof.
  intros Hs Hi Ha. unfold recognizeShiftRevenue, internal, RecognizeShiftSales.
  apply keeps_bind; [apply keeps_conv, keeps_bind; [apply keeps_get|intros ?; by apply recognize_lines_keeps]|].
  intros n. destruct (n =? 0); [apply keeps_ret|apply Ha].
Qed.

Lemma audit_movements_keeps {B} (f : Site -> B) a posted :
  (forall d s, f (set_inv d s) = f s) -> keeps f (audit_movements a posted).
Proof.
  intros Hf. induction posted as [|m rest IH]; simpl; keep_steps; [by apply keeps_on_inv|done].
Qed.

Lemma postShiftSales_keeps {B} (f : Site -> B) now a shift :
  (forall d s, f (set_inv d s) = f s) -> keeps f (postShiftSales now a shift).
Proof.
  intros Hf. unfold postShiftSales. apply keeps_bind; [by apply keeps_on_inv|].
  intros [posted ?]. by apply audit_movements_keeps.
Qed.

(** ** The gates *)

Definition verified_good (v : Verification) : Prop := vf_status v = VerApproved \/ vf_status v = VerCorrected.

Lemma length_select_zero {R} (p : R -> bool) (l : list R) :
  (0 <? length (select p l))%nat = false -> forall r, In r l -> p r = false.
Proof.
  intros H%Nat.ltb_ge r Hr. destruct (p r) eqn:E; [|done].
  assert (Hin : In r (select p l)) by by apply in_select. destruct (select p l); simpl in *; [done|lia].
Qed.

Lemma in_left_join {A B} (p : A -> B -> bool) (xs : list A) (ys : list B) x y :
  In x xs -> In y ys -> p x y = true -> In (x, Some y) (left_join p xs ys).
Proof.
  intros Hx Hy Hp. unfold left_join. apply in_flat_map. exists x. split; [done|].
  assert (Hin : In y (select (p x) ys)) by by apply in_select.
  destruct (select (p x) ys) as [|z l]; [done|]. apply in_map_iff. exists y. auto.
Qed.

Lemma in_left_join_none {A B} (p : A -> B -> bool) (xs : list A) (ys : list B) x :
  In x xs -> (forall y, In y ys -> p x y = false) -> In (x, None) (left_join p xs ys).
Proof.
  intros Hx Hy. unfold left_join. apply in_flat_map. exists x. split; [done|].
  rewrite (select_none (p x) ys Hy). simpl. auto.
Qed.

(** The verification gate passes when every active closing has been decided,
    for good. *)
Lemma verification_gate s t i :
  requireClosingReadingsVerified s t i = Ok tt ->
  forall m, In m (s_meters s) -> active_closing t i m = true ->
  (exists v, In v (s_verifications s) /\ verifies m v = true)
  /\ (forall v, In v (s_verifications s) -> verifies m v = true -> verified_good v).
Proof.
  unfold requireClosingReadingsVerified, ClosingVerificationGateCounts, gate_count. intros H m Hm Ha.
  destruct (0 <? _)%nat eqn:Er in H; [done|]. destruct (0 <? _)%nat eqn:Ef in H; [done|].
  destruct (0 <? _)%nat eqn:Eu in H; [done|].
  pose proof (length_select_zero _ _ Er) as Hr. pose proof (length_select_zero _ _ Ef) as Hf.
  pose proof (length_select_zero _ _ Eu) as Hu. unfold gate_rows in *.
  assert (Hs : In m (select (active_closing t i) (s_meters s))) by by apply in_select.
  split.
  - destruct (exists_where (verifies m) (s_verifications s)) eqn:E.
    + apply exists_where_true in E as (v & ? & ?). eauto.
    + pose proof (proj1 (exists_where_false _ _) E) as Hn.
      specialize (Hu _ (in_left_join_none _ _ _ _ Hs Hn)). simpl in Hu. by bool_solve.
  - intros v Hv Hp. specialize (Hr _ (in_left_join _ _ _ _ _ Hs Hv Hp)).
    specialize (Hf _ (in_left_join _ _ _ _ _ Hs Hv Hp)). simpl in *. bool_solve.
    unfold verified_good. destruct (vf_status v); auto; done.
Qed.

Lemma receipt_gate s t i :
  requireCollectionReceiptConfirmed s t i = Ok tt ->
  forall c, In c (s_cash s) -> cs_tenant c = t -> cs_shift c = i ->
  exists r, In r (s_receipts s) /\ cr_submission r = cs_id c /\ terminal_good r = true.
Proof.
  unfold requireCollectionReceiptConfirmed, CashSubmissionAwaitingReceipt. intros H c Hc Ht Hi.
  destruct (exists_where _ (s_cash s)) eqn:E; [done|].
  pose proof (proj1 (exists_where_false _ _) E c Hc) as Hn. cbv beta in Hn.
  rewrite bool_decide_eq_true_2 in Hn by done. simpl in Hn. apply negb_false_iff in Hn.
  apply exists_where_true in Hn as (r & Hr & Hb). bool_solve. destruct_and?. eauto.
Qed.

Lemma exception_gate s t i :
  (0 <? OpenExceptionCountForShift s t i)%nat = false ->
  forall e, In e (s_exceptions s) -> se_of t i e = true -> se_status e = ExcResolved.
Proof.
  intros H e He Ho. pose proof (length_select_zero _ _ H e He) as Hn. cbv beta in Hn. rewrite Ho in Hn.
  simpl in Hn. bool_solve. by destruct (se_status e).
Qed.

(** What the gates say of a shift. *)
Record settled (s : Site) (t i : uuid) : Prop := {
  st_exceptions : forall e, In e (s_exceptions s) -> se_of t i e = true -> se_status e = ExcResolved;
  st_verified : forall m, In m (s_meters s) -> active_closing t i m = true ->
    exists v, In v (s_verifications s) /\ verifies m v = true;
  st_good : forall m v, In m (s_meters s) -> active_closing t i m = true ->
    In v (s_verifications s) -> verifies m v = true -> verified_good v;
  st_cash : forall c, In c (s_cash s) -> cs_tenant c = t -> cs_shift c = i ->
    exists r, In r (s_receipts s) /\ cr_submission r = cs_id c /\ terminal_good r = true;
}.

Lemma gates_settled s t i : approval_gates s t i = Ok tt -> settled s t i.
Proof.
  unfold approval_gates, rbind. destruct (0 <? _)%nat eqn:Ee; [done|].
  destruct (requireClosingReadingsVerified s t i) as [[]|] eqn:Ev; [|done]. intros Ec.
  constructor.
  - by apply exception_gate.
  - intros m Hm Ha. by destruct (verification_gate s t i Ev m Hm Ha).
  - intros m v Hm Ha. by destruct (verification_gate s t i Ev m Hm Ha) as [_ H]; apply H.
  - by apply receipt_gate.
Qed.

Section Approval.
Context {L : Type} `{Loader L}.
Context (policy : L).

Lemma lock_shift_ok t i s sh s' :
  lock_shift t i s = Ok (sh, s') -> s' = s /\ first_where (sh_by t i) (shifts_of s) = Some sh.
Proof.
  unfold lock_shift, GetShiftForUpdate, of_option. intros H1. tx_step H1. unfold tlift in H1.
  fold (shifts_of s) in H1. destruct (first_where _ (shifts_of s)); simplify_eq/=. auto.
Qed.

(** The parts of a successful approval. *)
Record approval (pool now : Site) (ctx : option Actor) (s : Site) (sh : Shift) (s' : Site) (a : Actor)
    (before locked : Shift) : Prop := {
  ap_actor : ops_actor ctx = Ok a;
  ap_before : first_where (sh_by (ac_tenant a) (sh_id before)) (shifts_of pool) = Some before;
  ap_locked : first_where (sh_by (ac_tenant a) (sh_id before)) (shifts_of s) = Some locked;
  ap_closed : sh_status locked = ShiftClosed;
  ap_allowed : authorizeStation policy a "shift.approve" (sh_station before) = Ok tt;
  ap_duties : sh_closed_by before = Some (ac_user a) -> actorIsSystemAdmin policy a = Ok true;
  ap_gates : approval_gates s (ac_tenant a) (sh_id before) = Ok tt;
  ap_result : sh = approved_shift (ac_user a) (site_now s) locked;
  ap_run : exists s1 s2 s3, s1 = set_ops (set_shifts (update_where (sh_by (ac_tenant a) (sh_id before))
             (approved_shift (ac_user a) (site_now s)) (shifts_of s)) (s_ops s)) s
    /\ postShiftSales now a (sh_id before) s1 = Ok (tt, s2)
    /\ recognizeShiftRevenue a (sh_id before) s2 = Ok (tt, s3)
    /\ site_audit (E := http_error) a "shift.approved" (sh_id sh) s3 = Ok (tt, s');
}.

Lemma handleApproveShift_inv pool now ctx id body s sh s' :
  handleApproveShift policy pool now ctx id body s = Ok (sh, s') ->
  exists a before locked, id = Ok (sh_id before) /\ approval pool now ctx s sh s' a before locked.
Proof.
  intros Hrun. unfold handleApproveShift in Hrun. tx_steps Hrun. subst.
  match goal with H : shiftForWrite _ _ _ _ _ _ = Ok ?b |- _ =>
    rename b into before; unfold shiftForWrite, rbind in H; rename H into Hw end.
  destruct id as [i|[]]; [|done]. cbn [url_id] in Hw.
  unfold GetShift in Hw. destruct (first_where _ (op_shifts (s_ops pool))) as [b|] eqn:Ef; simpl in Hw; [|done].
  destruct (authorizeStation _ _ _ _) as [[]|] eqn:Ea in Hw; [|done]. simplify_eq.
  assert (Hi : i = sh_id before) by (by apply first_where_some in Ef as [_ [? _]%sh_by_true]). subst i.
  match goal with H : lock_shift _ _ _ = _ |- _ => apply lock_shift_ok in H as [-> Hl] end.
  match goal with H : on_ops _ _ = _ |- _ => unfold on_ops, tconv in H; rename H into Hap end.
  destruct (ApproveShift _ _ _ _) as [[sh' o']|] eqn:Ep in Hap; [|done]. simplify_eq.
  unfold ApproveShift in Ep. tx_step Ep. unfold update_shift, update_returning in Ep. tx_steps Ep. simplify_eq.
  fold (shifts_of s) in *. rewrite Hl in *. simpl in *. simplify_eq.
  bool_solve.
  match goal with H : _ && negb ?adm = false |- _ => rename H into Hd, adm into admin end.
  eexists _, before, _. split; [done|]. constructor; try done.
  - intros Hc. rewrite (bool_decide_eq_true_2 _ Hc) in Hd. simpl in Hd. by destruct admin.
  - match goal with H : approval_gates s _ _ = Ok ?u |- _ => by destruct u end.
  - repeat match goal with u : unit |- _ => destruct u end. eauto 10.
Qed.

(** C10. An approval is never granted on an unsettled shift, whatever the reads
    before its transaction showed: in the state it commits on, the shift the
    request names is closed, every exception of it is resolved, every active
    closing reading carries a verification and only approved or corrected ones,
    and its cash submission, if any, has a receipt that is received or approved
    with a difference.  The approver holds the permission at the shift's station
    and, by the row of the shift that the request read, did not close it or is a
    system admin.  The shift comes out approved, by the approver. *)
Theorem handleApproveShift_settled pool now ctx id body s sh s' :
  handleApproveShift policy pool now ctx id body s = Ok (sh, s') ->
  exists a k before locked, ops_actor ctx = Ok a /\ id = Ok k
    /\ first_where (sh_by (ac_tenant a) k) (op_shifts (s_ops pool)) = Some before
    /\ authorizeStation policy a "shift.approve" (sh_station before) = Ok tt
    /\ (sh_closed_by before = Some (ac_user a) -> actorIsSystemAdmin policy a = Ok true)
    /\ first_where (sh_by (ac_tenant a) k) (op_shifts (s_ops s)) = Some locked
    /\ sh_status locked = ShiftClosed /\ settled s (ac_tenant a) k
    /\ sh_status sh = ShiftApproved /\ sh_approved_by sh = Some (ac_user a)
    /\ first_where (sh_by (ac_tenant a) k) (op_shifts (s_ops s')) = Some sh.
Proof.
  intros Hrun. destruct (handleApproveShift_inv _ _ _ _ _ _ _ _ Hrun) as (a & before & locked & -> & Ha).
  exists a, (sh_id before), before, locked. pose proof (ap_result _ _ _ _ _ _ _ _ _ Ha) as ->.
  split; [apply Ha|]. split; [done|]. split; [apply Ha|]. split; [apply Ha|]. split; [apply Ha|].
  split; [apply Ha|]. split; [apply Ha|]. split; [apply gates_settled, Ha|].
  split; [done|]. split; [done|].
  destruct (ap_run _ _ _ _ _ _ _ _ _ Ha) as (s1 & s2 & s3 & -> & H1 & H2 & H3).
  fold (shifts_of s'). rewrite (keeps_audit _ _ _ _ _ _ H3).
  rewrite (recognizeShiftRevenue_keeps shifts_of a _ ltac:(done) keeps_fresh (fun x e => keeps_audit a x e) _ _ _ H2).
  rewrite (postShiftSales_keeps shifts_of now a _ ltac:(done) _ _ _ H1).
  change (first_where (sh_by (ac_tenant a) (sh_id before)) (update_where (sh_by (ac_tenant a) (sh_id before))
    (approved_shift (ac_user a) (site_now s)) (shifts_of s)) = Some (approved_shift (ac_user a) (site_now s) locked)).
  pose proof (ap_locked _ _ _ _ _ _ _ _ _ Ha) as Hl.
  eapply first_where_update; [exact Hl| |done|]; by apply first_where_some in Hl as [_ ?].
Qed.
(** ** The draw-down of an approval *)

Lemma f_round3_float k : Z.abs k < 10 ^ 14 -> f_round3 (float_of_milli k) = k.
Proof.
  intros Hk. destruct (Z.eq_dec k 0) as [->|Hne]; [reflexivity|].
  pose proof (FormatFloat3_nearest k _ Hk (float_of_milli_near k Hne Hk)) as E.
  rewrite parse_FormatFloat3 in E. by injection E.
Qed.

Lemma group_keys_elem l x : In x (group_keys l) <-> In x l.
Proof.
  induction l as [|y l IH]; simpl; [done|]. rewrite filter_In, IH, negb_true_iff, N.eqb_neq.
  split; [tauto|]. intros [->|Hx]; [auto|]. destruct (N.eq_dec x y) as [->|?]; auto.
Qed.

Lemma group_keys_nodup l : List.NoDup (group_keys l).
Proof.
  induction l as [|y l IH]; simpl; constructor.
  - rewrite filter_In, negb_true_iff, N.eqb_neq. tauto.
  - by apply List.NoDup_filter.
Qed.

(** Picking one key out of distinct ones. *)
Lemma sum_by_key (v : uuid -> Z) (k : uuid) (l : list uuid) :
  List.NoDup l -> sum_by (fun x => if bool_decide (x = k) then v x else 0) l
    = if bool_decide (k ∈ l) then v k else 0.
Proof.
  induction 1 as [|x l Hx Hl IH]; simpl; [done|]. rewrite IH.
  destruct (decide (x = k)) as [->|Hne].
  - rewrite (bool_decide_eq_true_2 (k = k)), (bool_decide_eq_true_2 (k ∈ k :: l)) by (done || left).
    rewrite bool_decide_eq_false_2; [lia|]. by rewrite list_elem_of_In.
  - rewrite (bool_decide_eq_false_2 (x = k)) by done.
    assert (Hiff : (k ∈ l) <-> (k ∈ x :: l)) by (rewrite elem_of_cons; split; [auto|intros [->|?]; done]).
    by rewrite (bool_decide_ext _ _ Hiff).
Qed.

(** The litres of a shift's close lines through one tank. *)
Definition tank_litres (s : Site) (t shift k : uuid) : Z :=
  sum_by (fun r => cl_litres r.1) (select (fun r => bool_decide (nz_tank r.2 = k)) (line_nozzles s t shift)).

Lemma sale_lines_tank s t shift k :
  (forall j, Z.abs (tank_litres s t shift j) < 10 ^ 14) ->
  sum_by (line_on k) ((fun '(tank, litres) => mkSaleLine tank (float_of_milli litres)) <$>
    LitresSoldPerTankForShift s t shift) = tank_litres s t shift k.
Proof.
  intros Hb. rewrite sum_by_fmap. unfold LitresSoldPerTankForShift. cbv zeta. rewrite sum_by_fmap.
  rewrite (sum_by_proper _ _ _ (order_by_perm _ _)).
  rewrite (sum_by_ext _ (fun x => if bool_decide (x = k) then tank_litres s t shift x else 0)).
  2: { intros x _. unfold line_on. cbn [sl_tank sl_litres]. fold (tank_litres s t shift x).
       destruct (bool_decide _); [by rewrite f_round3_float|done]. }
  rewrite sum_by_key by apply group_keys_nodup. case_bool_decide as Hin; [done|].
  unfold tank_litres. symmetry. apply sum_by_zero. intros r [Hr Ht]%in_select. bool_solve. destruct Hin.
  rewrite list_elem_of_In, group_keys_elem. apply in_map_iff. eauto.
Qed.

Lemma audit_movements_sum a posted : keeps (fun s => db_movements (s_inv s)) (audit_movements a posted).
Proof.
  induction posted as [|m rest IH]; simpl; [apply keeps_ret|]. apply keeps_bind; [|done].
  intros s x s' [= _ <-]. done.
Qed.

(** C11. Approving a shift draws the stock ledger down by exactly what its close
    lines sold: for a shift whose sales were not posted yet, every tank of the
    tenant with an opening balance goes down by the litres of the close lines
    of the nozzles on that tank - summed in SQL, carried through a double,
    formatted and posted - and every other tank and tenant keeps its balance. *)
Theorem handleApproveShift_drawdown pool now ctx id body s sh s' a :
  handleApproveShift policy pool now ctx id body s = Ok (sh, s') -> ops_actor ctx = Ok a ->
  SalesPostedForShift (s_inv s) (ac_tenant a) (sh_id sh) = false ->
  (forall j, Z.abs (tank_litres now (ac_tenant a) (sh_id sh) j) < 10 ^ 14) ->
  forall t k, ledger_sum (s_inv s') t k = ledger_sum (s_inv s) t k
    - (if bool_decide (t = ac_tenant a) && HasOpeningBalance (s_inv s) (ac_tenant a) k
       then tank_litres now (ac_tenant a) (sh_id sh) k else 0).
Proof.
  intros Hrun Hact Hn Hb t k.
  destruct (handleApproveShift_inv _ _ _ _ _ _ _ _ Hrun) as (a' & before & locked & _ & Ha).
  pose proof (ap_actor _ _ _ _ _ _ _ _ _ Ha) as Ea. rewrite Hact in Ea. injection Ea as <-.
  assert (Hid : sh_id sh = sh_id before).
  { rewrite (ap_result _ _ _ _ _ _ _ _ _ Ha). simpl.
    by destruct (first_where_some _ _ _ (ap_locked _ _ _ _ _ _ _ _ _ Ha)) as [_ [? _]%sh_by_true]. }
  rewrite Hid in *. destruct (ap_run _ _ _ _ _ _ _ _ _ Ha) as (s1 & s2 & s3 & -> & H1 & H2 & H3).
  rewrite (keeps_audit_inv _ _ _ _ _ _ H3).
  rewrite (recognizeShiftRevenue_keeps s_inv a _ ltac:(done) keeps_fresh_inv (fun x e => keeps_audit_inv a x e) _ _ _ H2).
  unfold postShiftSales in H1. tx_step H1. destruct x as [posted skipped].
  unfold on_inv, tconv in E. destruct (PostSalesForShift _ _ _ _ _) as [[[p q] d']|] eqn:Ep; [|done].
  simplify_eq. unfold PostSalesForShift in Ep. tx_step Ep. simpl in Ep. rewrite Hn in Ep.
  apply post_sale_lines_posted in Ep as (p' & q' & _ & Hp).
  assert (Hm : db_movements (s_inv s2) = db_movements d') by apply (audit_movements_sum a _ _ _ _ H1).
  assert (Hl : ledger_sum (s_inv s2) t k = ledger_sum d' t k)
    by (unfold ledger_sum, tank_rows; by rewrite Hm).
  rewrite Hl, (sp_sum _ _ _ _ _ _ _ Hp). unfold sale_out. simpl. by rewrite sale_lines_tank.
Qed.
End Approval.

(** ** Sample runs of a shift, from its first reading to its approval

    One station with one nozzle on one tank; the attendant records and pays in,
    the supervisor verifies, closes and confirms, the manager approves. *)

Definition run_policy : PolicyDb :=
  mkPolicyDb [mkRole 1 "attendant" true false; mkRole 2 "supervisor" true false]
    [mkPermission 11 "reading.edit" true; mkPermission 12 "reading.override" true;
     mkPermission 13 "shift.close" true; mkPermission 14 "cash.submit" true;
     mkPermission 15 "cash.confirm" true; mkPermission 16 "shift.approve" true]
    [(3, 1, 1); (2, 1, 2); (4, 1, 2)]%N
    [(1, 11); (1, 14); (2, 12); (2, 13); (2, 15); (2, 16)]%N
    [(3, 1, 20); (2, 1, 20); (4, 1, 20)]%N.

Definition attendant : option Actor := Some (mkActor 3 1 9 false).
Definition boss : option Actor := Some (mkActor 2 1 9 false).
Definition manager : option Actor := Some (mkActor 4 1 9 false).

Definition site_db : DB :=
  demo_open "20000" (mkDB [] 1 [] [] [] [] [] [] [] [mkTank 1 10 20 30 false] [(1, 30)]%N
    [(1, 2); (1, 3); (1, 4)]%N [(1, 4)]%N [(1, 90)]%N [] 100%N 0).

(** Shift 200 is open; nozzle 50 draws on tank 10 at 3.00 the litre and is
    assigned to the attendant. *)
Definition site_ops : Ops :=
  mkOpsState [mkDay 90 1 20 7 DayOpen 2 0 None None None None None]
    [mkShift 200 1 20 90 "Morning" ShiftOpen 2 1 None None None None None None None]
    [mkAttendant 200 3 1 2 1] [mkAssignment 201 1 20 200 50 3 2 1] [mkStation 1 20 false]
    [(1, 2); (1, 3); (1, 4)]%N [] [mkNozzle 1 50 20 10 30 300 2 false] [] 300 5.

Definition site0 : Site :=
  mkSite site_ops site_db [] [] [] [] [] [] [] [] [] [mkPrice 60 1 20 30 31000 0 None None 2 0]
    [mkTaxed 1 30 1800 "DSL" "Diesel" "amber" false]
    [mkChart 70 1 10 "strap" 0 None true "csv_upload"]
    [mkChartEntry 70 0 0; mkChartEntry 70 2000 20000000].

(** One request after another, each reading the state it commits on. *)
Definition serve {A} (h : Site -> Tx Site http_error A) (s : Site) : Site := (run_tx (h s) s).2.

Definition capture (word reading : string) (s : Site) : Site :=
  serve (fun p => handleCaptureMeterReading run_policy p attendant (Ok 200%N) (Ok (50%N, word, reading))) s.
Definition dip_closing (mm : string) (s : Site) : Site :=
  serve (fun p => handleCaptureDipReading run_policy p attendant (Ok 200%N)
    (Ok (mkDipRequest 10 "closing" mm None None))) s.
Definition correct (ctx : option Actor) (reading : uuid) (v : string) (s : Site) : Site :=
  serve (fun p => handleCorrectMeterReading run_policy p ctx (Ok 200%N) (Ok reading) (Ok v)) s.
Definition verify_batch (s : Site) : Site :=
  serve (fun p => handleVerifyShiftReadings run_policy p boss (Ok 200%N)) s.
Definition verify_correct (reading : uuid) (v : string) (s : Site) : Site :=
  serve (fun p => handleVerifyCorrectReading run_policy p boss (Ok 200%N) (Ok reading) (Ok (v, runes "seen"))) s.
Definition close_shift (s : Site) : Site := serve (fun p => handleCloseShift run_policy p boss (Ok 200%N)) s.
Definition pay_in (cash : string) (s : Site) : Site :=
  serve (fun p => handleSubmitCash run_policy p attendant (Ok 200%N) (Ok (mkCashRequest cash "" "" "" None))) s.
Definition confirm (received : string) (s : Site) : Site :=
  serve (fun p => handleConfirmCashSubmission run_policy p boss (Ok 200%N)
    (Ok (mkConfirm received "" [] None))) s.

(** Read, dipped, verified, closed, paid in and confirmed. *)
Definition site_read : Site := dip_closing "1985" (capture "closing" "1150.50" (capture "opening" "1000.00" site0)).
Definition site_closed : Site := close_shift (verify_batch site_read).
Definition site_settled : Site := confirm "451.50" (pay_in "451.5" site_closed).

(** The approval of the settled shift. *)
Definition approve_run : result http_error (Shift * Site) :=
  handleApproveShift run_policy site_settled site_settled manager (Ok 200%N) (Ok "approved"%string) site_settled.
Definition approved_of_run : Shift * Site :=
  match approve_run with Ok r => r | Err _ => (mkShift 0 0 0 0 "" ShiftOpen 0 0 None None None None None None None, site0) end.

Lemma approve_run_ok : approve_run = Ok (approved_of_run.1, approved_of_run.2).
Proof. vm_compute. reflexivity. Qed.

Lemma handleApproveShift_settled_witness :
  handleApproveShift run_policy site_settled site_settled manager (Ok 200%N) (Ok "approved"%string) site_settled
    = Ok (approved_of_run.1, approved_of_run.2) /\
  exists a k before locked, ops_actor manager = Ok a /\ Ok 200%N = Ok (E := unit) k
    /\ first_where (sh_by (ac_tenant a) k) (op_shifts (s_ops site_settled)) = Some before
    /\ authorizeStation run_policy a "shift.approve" (sh_station before) = Ok tt
    /\ (sh_closed_by before = Some (ac_user a) -> actorIsSystemAdmin run_policy a = Ok true)
    /\ first_where (sh_by (ac_tenant a) k) (op_shifts (s_ops site_settled)) = Some locked
    /\ sh_status locked = ShiftClosed /\ settled site_settled (ac_tenant a) k
    /\ sh_status approved_of_run.1 = ShiftApproved /\ sh_approved_by approved_of_run.1 = Some (ac_user a)
    /\ first_where (sh_by (ac_tenant a) k) (op_shifts (s_ops approved_of_run.2)) = Some approved_of_run.1.
Proof.
  split; [exact approve_run_ok|].
  exact (handleApproveShift_settled run_policy _ _ _ _ _ _ _ _ approve_run_ok).
Defined.

Lemma run_tank_litres j : Z.abs (tank_litres site_settled 1 200 j) < 10 ^ 14.
Proof.
  assert (E : line_nozzles site_settled 1 200
    = [(mkCloseLine 304 1 200 50 1000000 1150500 150500 300 45150, mkNozzle 1 50 20 10 30 300 2 false)])
    by (vm_compute; reflexivity).
  unfold tank_litres. rewrite E. simpl. destruct (bool_decide (10%N = j)); simpl; lia.
Qed.

Lemma handleApproveShift_drawdown_witness :
  SalesPostedForShift (s_inv site_settled) 1 200 = false /\
  forall t k, ledger_sum (s_inv approved_of_run.2) t k = ledger_sum (s_inv site_settled) t k
    - (if bool_decide (t = 1%N) && HasOpeningBalance (s_inv site_settled) 1 k
       then tank_litres site_settled 1 200 k else 0).
Proof.
  split; [vm_compute; reflexivity|].
  assert (Hid : sh_id approved_of_run.1 = 200%N) by (vm_compute; reflexivity).
  pose proof (handleApproveShift_drawdown run_policy _ _ _ _ _ _ _ _ (mkActor 4 1 9 false) approve_run_ok eq_refl) as H.
  rewrite Hid in H. apply H; [vm_compute; reflexivity|exact run_tank_litres].
Defined.
