(* ===== verification/FreezeProps.v ===== *)
(** * What closing a shift freezes

    The scan of the assignments and the lines it leaves, followed from the
    readings through their text form to the columns. *)

From stdpp Require Import base list strings gmap.
From Stdlib Require Import ZArith Lia.
From S2P Require Import Prelude Numeric Schema Ledger LedgerProps Float64 Policy Operations OperationsProps Workforce WorkforceHandlers ShiftHandlers Readings Calibration ShiftClose Revenue ReadingHandlers CloseHandlers CloseProps.

Local Open Scope Z_scope.
Local Open Scope tx_scope.

(** ** The readings a line is built from *)

(** The last verification the rows hold for the reading decides its figure;
    without one the reading stands. *)
Definition closing_figure (s : Site) (t shift : uuid) (m : MeterReading) : Z :=
  default (mr_reading m) (final_of (FinalClosingOverridesForShift s t shift) (mr_id m)).

Section Index.
Context (s : Site) (t shift : uuid).
Let finals := FinalClosingOverridesForShift s t shift.

(** The entry of a nozzle comes from active readings of that nozzle. *)
Definition entry_from (rows : list MeterReading) (nozzle : uuid) (e : ends) : Prop :=
  (forall v, e_opening e = Some v -> exists m, In m rows /\ mr_nozzle m = nozzle /\ mr_type m = Opening
     /\ v = numeric_text 3 (mr_reading m))
  /\ (forall v, e_closing e = Some v -> exists m, In m rows /\ mr_nozzle m = nozzle /\ mr_type m = Closing
     /\ v = numeric_text 3 (closing_figure s t shift m)).

Lemma entry_from_mono rows rows' nozzle e :
  (forall m, In m rows -> In m rows') -> entry_from rows nozzle e -> entry_from rows' nozzle e.
Proof.
  intros Hi [Ho Hc]. split; intros v Hv; [destruct (Ho v Hv) as (m & ? & ?)|destruct (Hc v Hv) as (m & ? & ?)]; eauto.
Qed.

Lemma index_reading_from rows m acc :
  (forall k e, acc !! k = Some e -> entry_from rows k e) ->
  forall k e, index_reading finals acc m !! k = Some e -> entry_from (m :: rows) k e.
Proof.
  intros Ha k e He. unfold index_reading in He.
  assert (Hd : entry_from rows (mr_nozzle m) (default (mkEnds None None) (acc !! mr_nozzle m)))
    by (destruct (acc !! mr_nozzle m) eqn:E; simpl; [by apply Ha|split; done]).
  destruct (decide (k = mr_nozzle m)) as [->|Hne].
  - rewrite lookup_insert_eq in He. injection He as <-.
    apply (entry_from_mono _ (m :: rows)) in Hd; [|by right]. destruct Hd as [Ho Hc].
    destruct (mr_type m) eqn:Et; split; simpl; auto; intros v [= <-]; exists m; (split; [by left|]).
    + by rewrite Et.
    + rewrite Et. split_and!; try done. unfold closing_figure. fold finals. by destruct (final_of finals (mr_id m)).
  - rewrite lookup_insert_ne in He by done. apply (entry_from_mono rows); [by right|auto].
Qed.

Lemma fold_index_from rows seen acc :
  (forall k e, acc !! k = Some e -> entry_from seen k e) ->
  forall k e, fold_left (index_reading finals) rows acc !! k = Some e -> entry_from (rows ++ seen) k e.
Proof.
  revert seen acc. induction rows as [|m l IH]; intros seen acc Ha k e He; [by apply Ha|].
  apply (entry_from_mono (l ++ m :: seen)).
  - intros x [?|[->|?]]%in_app_or; simpl; rewrite ?in_app_iff; auto.
  - eapply IH; [|exact He]. by apply index_reading_from.
Qed.

Lemma meterByNozzle_from rows k e : meterByNozzle finals rows !! k = Some e -> entry_from rows k e.
Proof.
  intros He. rewrite <- (app_nil_r rows). eapply (fold_index_from rows [] ∅); [|exact He].
  intros k' e' H. by rewrite lookup_empty in H.
Qed.
End Index.

(** ** The scan of the assignments *)

(** The input the scan builds for an assignment. *)
Definition line_for (s : Site) (t shift : uuid) (n : NozzleAssignment) (i : CloseLineInput) : Prop :=
  exists z o c, nozzles_Get (s_ops s) t (na_nozzle n) = Some z
    /\ In o (select (mr_active t shift) (s_meters s)) /\ mr_nozzle o = na_nozzle n /\ mr_type o = Opening
    /\ In c (select (mr_active t shift) (s_meters s)) /\ mr_nozzle c = na_nozzle n /\ mr_type c = Closing
    /\ (exists d, In d (ListDipsForShift s t shift) /\ dr_type d = Closing /\ dr_tank d = nz_tank z)
    /\ mr_reading o <= mr_reading c
    /\ i = mkLineInput shift (na_nozzle n) (numeric_text 3 (mr_reading o))
             (numeric_text 3 (closing_figure s t shift c)) (numeric_text 2 (nz_price z)).

Definition scan_clean (c : close_scan) : Prop :=
  sc_missing_meter c = [] /\ sc_rollback c = [] /\ sc_missing_dip c = [].

Section Scan.
Context (s : Site) (t shift : uuid) (dips : list uuid).
Let rolled := RollbackNozzlesForShift s t shift.
Let meters := meterByNozzle (FinalClosingOverridesForShift s t shift) (ListActiveForShift s t shift).

Lemma scan_dip_clean tank c :
  (sc_missing_dip c = [] -> forall k, k ∈ sc_seen c -> k ∈ dips) ->
  sc_missing_dip (scan_dip dips tank c) = [] ->
  sc_missing_dip c = [] /\ tank ∈ dips /\ (forall k, k ∈ sc_seen (scan_dip dips tank c) -> k ∈ dips)
  /\ sc_lines (scan_dip dips tank c) = sc_lines c /\ sc_missing_meter (scan_dip dips tank c) = sc_missing_meter c
  /\ sc_rollback (scan_dip dips tank c) = sc_rollback c.
Proof.
  unfold scan_dip. intros Hs. case_bool_decide as Hin; simpl; [intros Hm; by auto 10|].
  case_bool_decide as Hd; [intros Hm|by intros [_ ?]%app_nil].
  split_and!; try done. intros k [->|Hk]%elem_of_cons; auto.
Qed.

Lemma scan_meter_clean z nozzle c :
  scan_clean (scan_meter meters rolled shift z nozzle c) ->
  scan_clean c /\ sc_seen (scan_meter meters rolled shift z nozzle c) = sc_seen c
  /\ exists o cl, meters !! nozzle = Some (mkEnds (Some o) (Some cl)) /\ (nozzle ∉ rolled)
     /\ sc_lines (scan_meter meters rolled shift z nozzle c)
          = sc_lines c ++ [mkLineInput shift nozzle o cl (numeric_text 2 (nz_price z))].
Proof.
  unfold scan_clean, scan_meter. destruct (meters !! nozzle) as [[[o|] [cl|]]|]; simpl;
    try (intros ([_ ?]%app_nil & _); done).
  case_bool_decide; simpl.
  - by intros (_ & [_ ?]%app_nil & _).
  - intros (? & ? & ?). split_and!; eauto.
Qed.

Lemma in_active m : In m (ListActiveForShift s t shift) -> In m (select (mr_active t shift) (s_meters s)).
Proof. rewrite <- !list_elem_of_In. unfold ListActiveForShift. by rewrite order_by_perm. Qed.

Lemma not_rolled_back o c :
  In o (select (mr_active t shift) (s_meters s)) -> mr_type o = Opening ->
  In c (select (mr_active t shift) (s_meters s)) -> mr_type c = Closing ->
  mr_nozzle c = mr_nozzle o -> mr_nozzle o ∉ rolled -> mr_reading o <= mr_reading c.
Proof.
  intros [Ho Hoa]%in_select Hot [Hc Hca]%in_select Hct Hn Hr.
  destruct (Z.le_gt_cases (mr_reading o) (mr_reading c)) as [?|Hlt]; [done|]. destruct Hr.
  unfold rolled, RollbackNozzlesForShift. apply list_elem_of_fmap. exists (o, c). split; [done|].
  rewrite order_by_perm. apply list_elem_of_In, in_select. split; [|by apply Z.ltb_lt].
  apply in_select. unfold mr_of. rewrite Hoa, Hot, bool_decide_eq_true_2 by done. split; [|done].
  apply in_join. split_and!; try done. unfold mr_active in *. bool_solve. apply bool_decide_eq_true_2. intuition congruence.
Qed.

Lemma scan_assignments_lines l c c' :
  dips = dr_tank <$> select (fun d => bool_decide (dr_type d = Closing)) (ListDipsForShift s t shift) ->
  scan_assignments s t shift meters rolled dips l c = Ok c' -> scan_clean c' ->
  (sc_missing_dip c = [] -> forall k, k ∈ sc_seen c -> k ∈ dips) ->
  scan_clean c /\ exists new, sc_lines c' = sc_lines c ++ new /\ Forall2 (line_for s t shift) l new.
Proof.
  intros Hdips. revert c. induction l as [|n l IH]; intros c Hrun Hc Hs; simpl in Hrun.
  - injection Hrun as ->. split; [done|]. exists []. by rewrite app_nil_r.
  - destruct (nozzles_Get _ _ _) as [z|] eqn:Ez; [|done].
    apply IH in Hrun as [Hm (new & Hn & Hf)]; [|done|].
    + pose proof (scan_meter_clean _ _ _ Hm) as (Hd & _ & o & cl & Hl & Hr & Hlines).
      destruct (scan_dip_clean (nz_tank z) c Hs (proj2 (proj2 Hd))) as (Hmd & Ht & _ & El & Em & Er).
      destruct Hd as (Hd1 & Hd2 & _). rewrite Em in Hd1. rewrite Er in Hd2. split; [by split_and!|].
      eexists (_ :: new). split; [rewrite Hn, Hlines, El; by rewrite <- app_assoc|]. constructor; [|done].
      destruct (meterByNozzle_from _ _ _ _ _ _ Hl) as [Ho Hcl].
      destruct (Ho o eq_refl) as (mo & ?%in_active & ? & ? & ->).
      destruct (Hcl cl eq_refl) as (mc & ?%in_active & ? & ? & ->).
      exists z, mo, mc. split_and!; try done; [|apply not_rolled_back; congruence].
      rewrite Hdips in Ht. apply list_elem_of_fmap in Ht as (d & -> & [? Hd]%list_elem_of_In%in_select). bool_solve. eauto.
    + intros Hnil k Hk. unfold scan_meter in *.
      assert (Hx : sc_missing_dip (scan_dip dips (nz_tank z) c) = [] /\ k ∈ sc_seen (scan_dip dips (nz_tank z) c)).
      { revert Hnil Hk. destruct (meters !! na_nozzle n) as [[[|] [|]]|]; simpl; try done. by case_bool_decide. }
      destruct Hx as [Hx1 Hx2]. by destruct (scan_dip_clean (nz_tank z) c Hs Hx1) as (_ & _ & H & _); apply H.
Qed.
End Scan.

(** ** The insert of a line *)

Lemma col_ok p sc d st z st' : col p sc d st = Ok (z, st') -> z = round_to sc d /\ st' = st.
Proof.
  unfold col, tlift, of_option. destruct (numeric_col p sc d) eqn:E; [|done]. intros [= <- <-].
  by apply numeric_col_some in E as [? _].
Qed.

Lemma dec_sub_same s a b : dec_sub (Dec a s) (Dec b s) = Dec (a - b) s.
Proof.
  unfold dec_sub, dec_add, dec_opp, at_scale. simpl. rewrite Nat.max_id, Nat.sub_diag.
  change (pow10 0) with 1. f_equal. lia.
Qed.

(** A frozen line of an assignment: the opening as read, the closing as read or
    as verified, the difference, and its value at the nozzle's price. *)
Definition frozen (pool : Site) (t shift : uuid) (n : NozzleAssignment) (l : CloseLine) : Prop :=
  exists z o c, nozzles_Get (s_ops pool) t (na_nozzle n) = Some z
    /\ In o (select (mr_active t shift) (s_meters pool)) /\ mr_nozzle o = na_nozzle n /\ mr_type o = Opening
    /\ In c (select (mr_active t shift) (s_meters pool)) /\ mr_nozzle c = na_nozzle n /\ mr_type c = Closing
    /\ (exists d, In d (ListDipsForShift pool t shift) /\ dr_type d = Closing /\ dr_tank d = nz_tank z)
    /\ mr_reading o <= mr_reading c
    /\ cl_tenant l = t /\ cl_shift l = shift /\ cl_nozzle l = na_nozzle n
    /\ cl_opening l = mr_reading o /\ cl_closing l = closing_figure pool t shift c
    /\ cl_litres l = cl_closing l - cl_opening l /\ cl_price l = nz_price z
    /\ cl_value l = round_to 2 (dec_mul (dec_of 3 (cl_litres l)) (dec_of 2 (cl_price l))).

Lemma InsertCloseLine_row t shift nozzle o c p s l s' :
  InsertCloseLine t (mkLineInput shift nozzle (numeric_text 3 o) (numeric_text 3 c) (numeric_text 2 p)) s
    = Ok (l, s') ->
  s_lines s' = s_lines s ++ [l] /\ shifts_of s' = shifts_of s
  /\ exists id, l = mkCloseLine id t shift nozzle o c (c - o) p (round_to 2 (dec_mul (dec_of 3 (c - o)) (dec_of 2 p))).
Proof.
  unfold InsertCloseLine, raw_num. cbn [li_opening li_closing li_price li_shift li_nozzle].
  rewrite !parse_numeric_text. intros H0. tx_steps H0. simplify_eq/=. rewrite !dec_sub_same in *.
  repeat match goal with H : col _ _ _ _ = Ok _ |- _ => apply col_ok in H as [-> ->] end.
  rewrite !round_to_same.
  match goal with H : fresh_id _ = Ok _ |- _ => injection H as <- <- end.
  split_and!; try done. by eexists.
Qed.

Lemma insert_lines_frozen pool t shift l inputs s lines s' :
  Forall2 (line_for pool t shift) l inputs -> insert_lines t inputs s = Ok (lines, s') ->
  Forall2 (frozen pool t shift) l lines /\ s_lines s' = s_lines s ++ lines /\ shifts_of s' = shifts_of s.
Proof.
  intros Hl. revert s lines s'. induction Hl as [|n i l inputs Hi Hl IH]; intros s lines s' Hrun; simpl in Hrun.
  - injection Hrun as <- <-. by rewrite app_nil_r.
  - unfold internal in Hrun. tx_steps Hrun. subst.
    destruct Hi as (z & o & c & Hz & Ho1 & Ho2 & Ho3 & Hc1 & Hc2 & Hc3 & Hd & Hr & ->).
    match goal with H : InsertCloseLine _ _ _ = _ |- _ =>
      apply InsertCloseLine_row in H as (E1 & E2 & i & ->) end.
    match goal with H : insert_lines _ _ _ = _ |- _ => apply IH in H as (Hf & E3 & E4) end.
    split_and!.
    + constructor; [|done]. exists z, o, c. by split_and!.
    + rewrite E3, E1. by rewrite <- app_assoc.
    + congruence.
Qed.

Lemma close_inputs_lines pool t shift inputs :
  close_inputs pool t shift = Ok inputs ->
  ListNozzleAssignments (s_ops pool) t shift <> []
  /\ Forall2 (line_for pool t shift) (ListNozzleAssignments (s_ops pool) t shift) inputs.
Proof.
  unfold close_inputs, rbind. destruct (bool_decide _) eqn:En; [done|]. apply bool_decide_eq_false in En.
  destruct (scan_assignments _ _ _ _ _ _ _ _) as [c|] eqn:Es; [|done]. case_bool_decide as Hb; [|done]. intros [= <-].
  destruct Hb as (? & ? & ?).
  eapply scan_assignments_lines in Es as [_ (new & E & Hf)]; [|done|by split_and!|by intros _ k ?%not_elem_of_nil].
  simpl in E. by subst.
Qed.

Lemma sum_expected s t shift x :
  SumExpectedForShift s t shift = Ok x -> x = sum_by cl_value (select (line_of t shift) (s_lines s)).
Proof.
  unfold SumExpectedForShift, of_option. destruct (numeric_col _ _ _) eqn:E; [|done]. intros [= <-].
  apply numeric_col_some in E as [-> _]. unfold coalesce_sum.
  destruct (select _ _) as [|r l]; [done|]. by rewrite round_to_same.
Qed.

Section Close.
Context {L : Type} `{Loader L}.
Context (policy : L).

(** A close freezes the whole shift in one step: one line per assigned
    nozzle, in order, each with the active opening as read, the active closing
    as read or as verified, never a raw closing below the opening, with the
    closing dip of the nozzle's tank taken; its litres are the difference of its
    readings and its value those litres at the nozzle's price, to the cent; the
    expected cash is the sum of the values of the shift's lines, the table only
    grows, and the shift, open under its lock, comes out closed by the actor. *)
Theorem handleCloseShift_freezes pool ctx id s closed lines expected s' :
  handleCloseShift policy pool ctx id s = Ok ((closed, lines, expected), s') ->
  exists a locked, ops_actor ctx = Ok a
    /\ first_where (sh_by (ac_tenant a) (sh_id closed)) (op_shifts (s_ops s)) = Some locked
    /\ sh_status locked = ShiftOpen
    /\ ListNozzleAssignments (s_ops pool) (ac_tenant a) (sh_id closed) <> []
    /\ Forall2 (frozen pool (ac_tenant a) (sh_id closed))
         (ListNozzleAssignments (s_ops pool) (ac_tenant a) (sh_id closed)) lines
    /\ s_lines s' = s_lines s ++ lines
    /\ expected = sum_by cl_value (select (line_of (ac_tenant a) (sh_id closed)) (s_lines s'))
    /\ sh_status closed = ShiftClosed /\ sh_closed_by closed = Some (ac_user a)
    /\ first_where (sh_by (ac_tenant a) (sh_id closed)) (op_shifts (s_ops s')) = Some closed.
Proof.
  intros Hrun. unfold handleCloseShift in Hrun. tx_steps Hrun. subst.
  match goal with H : context [shiftForWrite] |- _ => clear H end.
  match goal with H : close_inputs _ _ _ = Ok _ |- _ => apply close_inputs_lines in H as [Hne Hl] end.
  match goal with H : lock_shift _ _ _ = _ |- _ => apply lock_shift_ok in H as [-> Hk] end.
  match goal with H : insert_lines _ _ _ = _ |- _ => destruct (insert_lines_frozen _ _ _ _ _ _ _ _ Hl H) as (Hf & El & Es) end.
  match goal with H : on_ops _ _ = _ |- _ => unfold on_ops, tconv in H; rename H into Hcl end.
  destruct (CloseShift _ _ _ _) as [[cl o']|] eqn:Ep in Hcl; [|done]. simplify_eq.
  unfold CloseShift in Ep. tx_step Ep. unfold update_shift, update_returning in Ep. tx_steps Ep. simplify_eq.
  fold (shifts_of x5) in *. rewrite Es, Hk in *. simpl in E0. injection E0 as <-.
  assert (Hi : sh_id x2 = sh_id x0) by (by apply first_where_some in Hk as [_ [? _]%sh_by_true]).
  match goal with H : internal_res (SumExpectedForShift ?st _ _) = Ok _ |- _ =>
    unfold internal_res in H; destruct (SumExpectedForShift st _ _) eqn:Ex; simplify_eq/= end.
  apply sum_expected in Ex. injection E7 as <- <-. simpl in *. rewrite Hi. exists x, x2. bool_solve. split_and!; try done.
  eapply first_where_update; [exact Hk| |done|]; by apply first_where_some in Hk as [_ ?].
Qed.
End Close.

(** ** Runs *)

Definition out {E A} (r : result E (A * Site)) : Site := match r with Ok (_, s) => s | Err _ => site0 end.

Lemma handleCloseShift_freezes_witness :
  exists closed lines expected, handleCloseShift run_policy (verify_batch site_read) boss (Ok 200%N) (verify_batch site_read)
      = Ok ((closed, lines, expected), site_closed)
    /\ cl_litres <$> lines = [150500] /\ expected = 45150
    /\ exists a locked, ops_actor boss = Ok a
    /\ first_where (sh_by (ac_tenant a) (sh_id closed)) (op_shifts (s_ops (verify_batch site_read))) = Some locked
    /\ sh_status locked = ShiftOpen
    /\ ListNozzleAssignments (s_ops (verify_batch site_read)) (ac_tenant a) (sh_id closed) <> []
    /\ Forall2 (frozen (verify_batch site_read) (ac_tenant a) (sh_id closed))
         (ListNozzleAssignments (s_ops (verify_batch site_read)) (ac_tenant a) (sh_id closed)) lines
    /\ s_lines site_closed = s_lines (verify_batch site_read) ++ lines
    /\ expected = sum_by cl_value (select (line_of (ac_tenant a) (sh_id closed)) (s_lines site_closed))
    /\ sh_status closed = ShiftClosed /\ sh_closed_by closed = Some (ac_user a)
    /\ first_where (sh_by (ac_tenant a) (sh_id closed)) (op_shifts (s_ops site_closed)) = Some closed.
Proof.
  assert (Hrun : exists closed line, handleCloseShift run_policy (verify_batch site_read) boss (Ok 200%N) (verify_batch site_read)
    = Ok ((closed, [line], 45150), site_closed) /\ cl_litres line = 150500).
  { do 2 eexists. split; vm_compute; reflexivity. }
  destruct Hrun as (closed & line & Hrun & Hlitres). exists closed, [line], 45150. split; [exact Hrun|].
  split; [simpl; by rewrite Hlitres|]. split; [reflexivity|].
  exact (handleCloseShift_freezes run_policy _ _ _ _ _ _ _ _ Hrun).
Defined.

(** The roll-back check compares the readings as recorded, the close uses the
    verified ones: a closing verified down to 1050 and an opening corrected up to
    1080 afterwards pass it, and the shift closes with negative litres. *)
Example close_negative_litres :
  let s := close_shift (correct attendant 300 "1080.00" (verify_correct 301 "1050.00"
    (dip_closing "1985" (capture "closing" "1200.00" (capture "opening" "1000.00" site0))))) in
  cl_litres <$> s_lines s = [-30000] /\ cl_value <$> s_lines s = [-9000]
  /\ sh_status <$> op_shifts (s_ops s) = [ShiftClosed].
Proof. vm_compute. auto. Qed.

(** A closing corrected after the cash was paid in moves the close line but not
    the submission: the shift is approved with 2400.00 less than its lines and
    no exception. *)
Example cash_expected_stale :
  let s := confirm "451.50" (verify_correct 301 "1950.50" (pay_in "451.5" (close_shift site_read))) in
  SumExpectedForShift s 1 200 = Ok 285150 /\ cs_expected <$> s_cash s = [45150]
  /\ cs_variance <$> s_cash s = [0] /\ s_exceptions s = []
  /\ (exists sh s', handleApproveShift run_policy s s manager (Ok 200%N) (Ok "approved"%string) s = Ok (sh, s')
        /\ sh_status sh = ShiftApproved).
Proof. vm_compute. split_and!; [reflexivity..|]. eauto. Qed.
