(* ===== verification/VerdictProps.v ===== *)
(** * Properties of the verdicts on closing readings

    Who may decide on a reading, what a verdict may replace, and that a batch and
    a single verdict never disagree on one reading. *)

From stdpp Require Import base list strings gmap.
From Stdlib Require Import ZArith Lia.
From S2P Require Import Prelude Frames Numeric Schema Ledger LedgerProps Float64 Policy Operations OperationsProps Workforce WorkforceHandlers RosterProps ShiftHandlers Readings Calibration ShiftClose Revenue ReadingHandlers CloseHandlers CloseProps.

Local Open Scope Z_scope.
Local Open Scope tx_scope.

(** One verification per reading and tenant. *)
Definition verdict_key (v : Verification) : uuid * uuid := (vf_tenant v, vf_reading v).
Definition one_verdict_each (s : Site) : Prop := NoDup (verdict_key <$> s_verifications s).

(** The verdicts a request may leave: those decided for good stay as they are,
    no reading gets a second one, and a new or replaced one is by [by_] on a
    reading [who] says [by_] may decide on. *)
Record verdicts (by_ : uuid) (who : uuid -> Prop) (s s' : Site) : Prop := {
  vt_stand : forall v, In v (s_verifications s) -> verified_good v -> In v (s_verifications s');
  vt_once : one_verdict_each s -> one_verdict_each s';
  vt_who : forall v, In v (s_verifications s') -> In v (s_verifications s) \/ (vf_by v = by_ /\ who (vf_reading v));
}.

Lemma verdicts_refl b w s s' : s_verifications s' = s_verifications s -> verdicts b w s s'.
Proof. intros E. constructor; unfold one_verdict_each; rewrite E; auto. Qed.

Lemma verdicts_trans b w s1 s2 s3 : verdicts b w s1 s2 -> verdicts b w s2 s3 -> verdicts b w s1 s3.
Proof.
  intros [A1 A2 A3] [B1 B2 B3]. constructor; auto.
  intros v Hv. destruct (B3 v Hv) as [?|?]; auto.
Qed.

Lemma verification_row_by t id i s v s' :
  verification_row t id i s = Ok (v, s') ->
  s' = s /\ vf_by v = vi_by i /\ vf_reading v = vi_reading i /\ vf_tenant v = t.
Proof.
  unfold verification_row, num. intros H. tx_steps H; subst; simpl; try done.
  all: destruct (vi_supervisor i); tx_steps E0; subst; done.
Qed.

Lemma verification_fresh {E} : keeps (E := E) s_verifications fresh_id.
Proof. by apply keeps_on_ops. Qed.
Lemma verification_audit {E} a x e : keeps (E := E) s_verifications (site_audit a x e).
Proof. by apply keeps_on_ops. Qed.

Lemma InsertVerification_verdicts t i who s v s' :
  InsertVerification t i s = Ok (v, s') -> who (vi_reading i) -> verdicts (vi_by i) who s s'.
Proof.
  unfold InsertVerification. intros H Hw. tx_steps H. subst.
  pose proof (verification_fresh _ _ _ E) as Ef. apply verification_row_by in E0 as (-> & Hb & Hr & Ht).
  rewrite Ef in *. apply negb_true_iff in E1. pose proof (proj1 (exists_where_false _ _) E1) as Hno.
  constructor; unfold one_verdict_each; simpl; rewrite ?Ef.
  - intros w Hin _. apply in_or_app. auto.
  - intros Hn. rewrite fmap_app. apply NoDup_app. split_and!; [done| |apply NoDup_singleton].
    intros k (w & -> & Hin%list_elem_of_In)%list_elem_of_fmap Hk. apply list_elem_of_singleton in Hk.
    specialize (Hno w Hin). unfold vf_on in Hno. apply bool_decide_eq_false in Hno. apply Hno.
    unfold verdict_key in Hk. injection Hk as -> ->. by split.
  - intros w [Hin|[<-|[]]]%in_app_or; [auto|]. right. by rewrite Hb, Hr.
Qed.

Lemma ReplaceHoldVerification_verdicts t i who s v s' :
  ReplaceHoldVerification t i s = Ok (v, s') -> who (vi_reading i) -> verdicts (vi_by i) who s s'.
Proof.
  unfold ReplaceHoldVerification. intros H Hw. tx_step H. destruct (first_where _ _) as [old|] eqn:Ef; [|done].
  tx_steps H. subst. apply verification_row_by in E as (-> & Hb & Hr & Ht).
  apply first_where_some in Ef as [Hold Hp]. constructor; unfold one_verdict_each; simpl.
  - intros w Hin Hg. apply in_update_where. exists w. split; [done|].
    assert (Hh : on_hold w = false) by (unfold on_hold; by destruct Hg as [->| ->]). by rewrite Hh, andb_false_r.
  - intros Hn. match goal with |- NoDup (verdict_key <$> ?l) =>
      assert (E : verdict_key <$> l = verdict_key <$> s_verifications s); [|by rewrite E] end.
    apply (map_update_where verdict_key). intros w Hb'. apply andb_true_iff in Hb' as [Hb' _]. unfold vf_on in Hb'.
    apply bool_decide_eq_true in Hb' as [? ?]. unfold verdict_key. congruence.
  - intros w (w0 & Hw0 & ->)%in_update_where. match goal with |- In (if ?b then _ else _) _ \/ _ => destruct b end; [right; by rewrite Hb, Hr|auto].
Qed.

Lemma upsert_verdicts t i who s v s' :
  upsertVerificationClearingHold t i s = Ok (v, s') -> who (vi_reading i) -> verdicts (vi_by i) who s s'.
Proof.
  unfold upsertVerificationClearingHold, savepoint. intros H Hw.
  destruct (InsertVerification t i s) as [[v1 s1]|e] eqn:E.
  - injection H as <- <-. by eapply InsertVerification_verdicts.
  - destruct (bool_decide _); [by eapply ReplaceHoldVerification_verdicts|done].
Qed.

Section Verdicts.
Context {L : Type} `{Loader L}.
Context (policy : L).

(** A verdict request that read [pool] and committed. *)
Inductive verdict_request (pool : Site) (ctx : option Actor) (s s' : Site) : Prop :=
| vq_batch id r : handleVerifyShiftReadings policy pool ctx id s = Ok (r, s') -> verdict_request pool ctx s s'
| vq_correct id m body v : handleVerifyCorrectReading policy pool ctx id m body s = Ok (v, s') -> verdict_request pool ctx s s'
| vq_reject id m body v : handleRejectReading policy pool ctx id m body s = Ok (v, s') -> verdict_request pool ctx s s'
| vq_flag id m body v : handleFlagReading policy pool ctx id m body s = Ok (v, s') -> verdict_request pool ctx s s'
| vq_approve id m v : handleApproveReading policy pool ctx id m s = Ok (v, s') -> verdict_request pool ctx s s'.

(** An active closing another user recorded. *)
Definition others_closing (pool : Site) (by_ reading : uuid) : Prop :=
  exists m, In m (s_meters pool) /\ mr_id m = reading /\ mr_type m = Closing /\ mr_status m = ReadingActive
    /\ mr_by m <> by_.

Lemma closing_for_verdict_ok pool a sh r m1 m2 m :
  closing_for_verdict pool a sh r m1 m2 = Ok m -> others_closing pool (ac_user a) (mr_id m).
Proof.
  unfold closing_for_verdict, rbind, readings_Get. destruct (first_where _ _) as [x|] eqn:Ef; [|done]. simpl.
  destruct (bool_decide (mr_shift x = _)); [|done]. simpl.
  destruct (bool_decide (mr_type x = Closing)) eqn:E1; [|done]. simpl.
  destruct (bool_decide (mr_status x = ReadingActive)) eqn:E2; [|done]. simpl.
  destruct (bool_decide (mr_by x = ac_user a)) eqn:E3; [done|]. intros [= ->].
  apply first_where_some in Ef as [? _]. bool_solve. exists m. auto.
Qed.

Lemma load_closing_ok pool a id r verb sh m :
  loadClosingForVerdict policy pool a id r verb = Ok (sh, m) -> others_closing pool (ac_user a) (mr_id m).
Proof.
  unfold loadClosingForVerdict, rbind. repeat case_match; try done. intros [= _ ->]. by eapply closing_for_verdict_ok.
Qed.

Lemma recordReadingVerdict_verdicts pool a sh m st reason action s v s' :
  others_closing pool (ac_user a) (mr_id m) -> recordReadingVerdict a sh m st reason action s = Ok (v, s') ->
  verdicts (ac_user a) (others_closing pool (ac_user a)) s s'.
Proof.
  intros Ho Hrun. unfold recordReadingVerdict in Hrun. tx_steps Hrun. subst.
  eapply verdicts_trans; [exact (upsert_verdicts _ _ _ _ _ _ E Ho)|]. eapply verdicts_refl, verification_audit, E0.
Qed.

Lemma verify_all_verdicts pool a sh pending aborted s n s' :
  (forall m, In m pending -> others_closing pool (ac_user a) (mr_id m)) ->
  verify_all a sh pending aborted s = Ok (n, s') -> verdicts (ac_user a) (others_closing pool (ac_user a)) s s'.
Proof.
  revert aborted s n s'. induction pending as [|m rest IH]; intros aborted s n s' Ho Hrun; simpl in Hrun.
  - destruct aborted; [done|]. injection Hrun as _ <-. by apply verdicts_refl.
  - destruct aborted; [done|]. destruct (InsertVerification _ _ s) as [[v s1]|e] eqn:Ei.
    + tx_steps Hrun. subst. eapply verdicts_trans; [exact (InsertVerification_verdicts _ _ _ _ _ _ Ei (Ho m (or_introl eq_refl)))|].
      eapply verdicts_trans; [eapply verdicts_refl, verification_audit, E|].
      eapply IH; [|exact E0]. intros. apply Ho. by right.
    + destruct e; try done. eapply IH; [|exact Hrun]. intros. apply Ho. by right.
Qed.

Lemma recompute_keeps t sh n v : keeps s_verifications (RecomputeCloseLineClosing t sh n v).
Proof.
  intros s x s' Hrun. unfold RecomputeCloseLineClosing, raw_num, col in Hrun. tx_step Hrun.
  destruct (first_where _ _); [|done]. tx_steps Hrun. by subst.
Qed.

(** C12. A verdict on a closing reading is final and is never the recorder's own:
    whatever its reads before the transaction showed, a batch verification, a
    correction, a rejection, a flag or an approval of a reading leaves every
    approved or corrected verification as it is, keeps at most one verification
    per reading, and what it adds or replaces is by the acting user, on a reading
    its reads showed as an active closing of someone else. *)
Theorem verdicts_stand pool ctx s s' :
  verdict_request pool ctx s s' ->
  exists a, ops_actor ctx = Ok a /\ verdicts (ac_user a) (others_closing pool (ac_user a)) s s'.
Proof.
  intros [id r Hrun|id m body v Hrun|id m body v Hrun|id m body v Hrun|id m v Hrun].
  - unfold handleVerifyShiftReadings in Hrun. tx_steps Hrun. subst. eexists. split; [done|].
    eapply verify_all_verdicts; [|eassumption]. intros m Hm. apply negb_true_iff in E1.
    assert (Hb : bool_decide (mr_by m = ac_user x) = false)
      by exact (proj1 (exists_where_false _ _) E1 m Hm).
    apply list_elem_of_In in Hm. unfold UnverifiedClosingForShift in Hm. rewrite order_by_perm in Hm.
    apply list_elem_of_In, in_select in Hm as [Hm [Ha _]%andb_true_iff]. unfold active_closing in Ha.
    bool_solve. exists m. unfold mr_of, mr_active in *. bool_solve. intuition.
  - unfold handleVerifyCorrectReading in Hrun. tx_steps Hrun. subst. eexists. split; [done|].
    assert (Ek : s_verifications x9 = s_verifications x7).
    { match type of E13 with (if ?b then _ else _) _ = _ => destruct b end; [|by apply tret_ok in E13 as [_ ->]].
      destruct (RecomputeCloseLineClosing _ _ _ _ _) as [[line s1]|e] eqn:Er.
      - destruct (has_minus _); [done|]. injection E13 as _ <-. exact (recompute_keeps _ _ _ _ _ _ _ Er).
      - destruct e; try discriminate E13. by injection E13 as _ <-. }
    eapply verdicts_trans; [exact (upsert_verdicts _ _ _ _ _ _ E12 (closing_for_verdict_ok _ _ _ _ _ _ _ E7))|].
    apply verdicts_refl. by rewrite (verification_audit _ _ _ _ _ _ E14).
  - unfold handleRejectReading in Hrun. tx_steps Hrun. subst. eexists. split; [done|].
    eapply recordReadingVerdict_verdicts; [by eapply load_closing_ok|exact Hrun].
  - unfold handleFlagReading in Hrun. tx_steps Hrun. subst. eexists. split; [done|].
    eapply recordReadingVerdict_verdicts; [by eapply load_closing_ok|exact Hrun].
  - unfold handleApproveReading in Hrun. tx_steps Hrun. subst. eexists. split; [done|].
    eapply recordReadingVerdict_verdicts; [by eapply load_closing_ok|exact Hrun].
Qed.
End Verdicts.

Lemma verdicts_stand_witness :
  length (s_verifications (verify_batch site_read)) = 1%nat
  /\ exists a, ops_actor boss = Ok a
     /\ verdicts (ac_user a) (others_closing site_read (ac_user a)) site_read (verify_batch site_read).
Proof.
  split; [vm_compute; reflexivity|].
  assert (Hrun : exists r, handleVerifyShiftReadings run_policy site_read boss (Ok 200%N) site_read
    = Ok (r, verify_batch site_read)) by (eexists; vm_compute; reflexivity).
  destruct Hrun as [r Hrun].
  exact (verdicts_stand run_policy site_read boss site_read (verify_batch site_read) (vq_batch _ _ _ _ _ _ _ Hrun)).
Defined.
