(* ===== verification/RevenueProps.v ===== *)
(** * Properties of revenue: recognition, voids, roll-ups and the journal

    The split of a sale into net and tax, one sale per shift and nozzle, the day
    summary as the sum of the sales that stand, and the journal entry of a
    shift. *)

From stdpp Require Import base list strings gmap.
From Stdlib Require Import ZArith Lia.
From S2P Require Import Prelude Numeric Schema Ledger LedgerProps Float64 Policy Operations OperationsProps Workforce WorkforceHandlers RosterProps ShiftHandlers Readings Calibration ShiftClose Revenue ReadingHandlers CloseHandlers CloseProps FreezeProps.

Local Open Scope Z_scope.
Local Open Scope tx_scope.

(** ** Rounding *)

Lemma round_div_nonneg n d : 0 < d -> 0 <= n -> 0 <= round_div n d.
Proof. intros Hd Hn. pose proof (round_div_half n d Hd). nia. Qed.

Lemma round_div_le n d k : 0 < d -> n <= k * d -> round_div n d <= k.
Proof. intros Hd Hn. pose proof (round_div_half n d Hd). nia. Qed.

(** A nonnegative decimal at most [k] cents rounds to at most [k] cents. *)
Lemma round_to_range s m r k :
  0 <= m <= k * pow10 r -> 0 <= round_to s (Dec m (s + r)) <= k.
Proof.
  intros Hm. unfold round_to. simpl. pose proof (pow10_pos r) as Hp.
  destruct (Nat.leb_spec (s + r) s) as [Hle|Hgt].
  - assert (r = 0)%nat as -> by lia. unfold at_scale. simpl. replace (s - (s + 0))%nat with 0%nat by lia.
    rewrite pow10_0 in *. lia.
  - replace (s + r - s)%nat with r by lia.
    split; [apply round_div_nonneg; lia|apply round_div_le; lia].
Qed.

(** The scale of a quotient is at least that of the dividend. *)
Lemma div_scale_ge a b : (scale a <= 1000)%nat -> (scale a <= div_scale a b)%nat.
Proof. unfold div_scale. lia. Qed.

(** A tax included in a gross amount lies between zero and the amount. *)
Lemma tax_of_range g rate :
  0 <= g -> 0 <= rate -> 0 <= mant (tax_of (Dec g 2) rate) <= g.
Proof.
  intros Hg Hr. unfold tax_of, round2. cbn [mant].
  set (a := dec_mul (Dec g 2) (dec_of 2 rate)). set (b := dec_add (Dec 100 0) (dec_of 2 rate)).
  assert (Eb : b = Dec (10000 + rate) 2) by (unfold b, dec_add, dec_of, at_scale; cbn -[pow10 Z.mul Z.add]; f_equal;
      change (pow10 2) with 100; change (pow10 0) with 1; lia).
  pose proof (div_scale_ge a b ltac:(simpl; lia)) as Hs. unfold numeric_div. set (r := div_scale a b) in *.
  rewrite Eb. change (mant a) with (g * rate). change (scale a) with 4%nat in *. cbn [mant scale].
  change (pow10 4) with 10000. rewrite Z.sgn_pos, Z.mul_1_r, Z.abs_eq by lia.
  set (m := round_div _ _). assert (Es : Dec m r = Dec m (2 + (r - 2))) by (f_equal; lia). rewrite Es.
  apply round_to_range. unfold m.
  rewrite (pow10_add 2 r). pose proof (pow10_pos (r - 2)) as Hp.
  assert (Ep : pow10 r = 100 * pow10 (r - 2)) by (replace r with (2 + (r - 2))%nat at 1 by lia; by rewrite pow10_add).
  change (pow10 2) with 100. rewrite Ep. generalize (pow10 (r - 2)) Hp. intros q Hq.
  assert (Hgr : 0 <= g * rate) by nia.
  split; [apply round_div_nonneg; nia|]. apply round_div_le; [nia|].
  assert (g * rate * 10000 * q <= g * (10000 + rate) * 10000 * q) by nia. nia.
Qed.

(** ** Recognition *)

(** The sale of a close line: priced at the price in force, the tax taken out of
    the gross. *)
Record recognized (s : Site) (t shift : uuid) (x : Sale) : Prop := {
  rc_tenant : sale_tenant x = t;
  rc_shift : sale_shift x = shift;
  rc_line : exists l, In l (s_lines s) /\ line_of t shift l = true /\ cl_litres l <> 0
    /\ sale_nozzle x = cl_nozzle l /\ sale_litres x = cl_litres l;
  rc_price : current_price s t (sale_station x) (sale_product x) = Some (sale_price x);
  rc_gross : sale_gross x = round_to 2 (dec_mul (dec_of 3 (sale_litres x)) (dec_of 4 (sale_price x)));
  rc_split : sale_gross x = sale_net x + sale_tax x;
  rc_tax : 0 <= sale_gross x -> 0 <= sale_tax_rate x -> 0 <= sale_tax x <= sale_gross x;
  rc_margin : sale_margin x = (fun c => sale_net x - c) <$> sale_cogs x;
}.

Lemma col_some_ok p sc d st z st' :
  (let! x := col p sc d in tret (Some x)) st = Ok (z, st') -> z = Some (round_to sc d) /\ st' = st.
Proof. intros H. tx_steps H. simplify_eq. by apply col_ok in E as [-> ->]. Qed.
Lemma tret_none_ok st (z : option Z) st' :
  tret (E := site_error) (S := Site) None st = Ok (z, st') -> z = None /\ st' = st.
Proof. by intros [= <- <-]. Qed.

Lemma sale_row_split id now by_ l sh z rate price cost s x s' :
  sale_row id now by_ l sh z rate price cost s = Ok (x, s') ->
  s' = s /\ sale_tenant x = cl_tenant l /\ sale_shift x = cl_shift l /\ sale_nozzle x = cl_nozzle l
  /\ sale_litres x = cl_litres l /\ sale_price x = price /\ sale_station x = sh_station sh
  /\ sale_product x = nz_product z /\ sale_id x = id
  /\ sale_gross x = round_to 2 (dec_mul (dec_of 3 (sale_litres x)) (dec_of 4 (sale_price x)))
  /\ sale_gross x = sale_net x + sale_tax x
  /\ (0 <= sale_gross x -> 0 <= sale_tax_rate x -> 0 <= sale_tax x <= sale_gross x)
  /\ sale_margin x = (fun c => sale_net x - c) <$> sale_cogs x.
Proof.
  unfold sale_row. cbv zeta. intros Hrun.
  assert (Hg : exists g, gross_of (cl_litres l) price = Dec g 2
    /\ g = round_to 2 (dec_mul (dec_of 3 (cl_litres l)) (dec_of 4 price))) by by eexists.
  destruct Hg as (g & Eg & Hg). rewrite Eg in Hrun.
  assert (Ht : exists tx, tax_of (Dec g 2) rate = Dec tx 2 /\ (0 <= g -> 0 <= rate -> 0 <= tx <= g))
    by (eexists; split; [reflexivity|apply tax_of_range]).
  destruct Ht as (tx & Et & Ht). rewrite Et, dec_sub_same in Hrun.
  destruct cost as [c|]; cbn [fmap option_fmap option_map] in Hrun; unfold round2 in Hrun;
    rewrite ?dec_sub_same in Hrun; tx_steps Hrun; simplify_eq/=;
    repeat match goal with
      | H : col _ _ _ _ = Ok _ |- _ => apply col_ok in H as [-> ->]
      | H : tbind (col _ _ _) _ _ = Ok _ |- _ => apply col_some_ok in H as [-> ->]
      | H : tret None _ = Ok _ |- _ => apply tret_none_ok in H as [-> ->]
      end;
    rewrite ?round_to_same in *; simpl; split_and!; try done; try lia.
Qed.

(** What recognition reads besides the sales. *)
Definition sale_frame (s : Site) :=
  (s_lines s, op_shifts (s_ops s), op_nozzles (s_ops s), s_products s, s_prices s, site_now s).

Lemma frame_price s s' t st p : sale_frame s' = sale_frame s -> current_price s' t st p = current_price s t st p.
Proof. unfold sale_frame, current_price. by intros [= _ _ _ _ -> ->]. Qed.
Lemma frame_lines s s' t sh : sale_frame s' = sale_frame s -> sale_lines s' t sh = sale_lines s t sh.
Proof. unfold sale_frame, sale_lines. by intros [= -> -> -> -> _ _]. Qed.

Definition row_price (s : Site) (r : CloseLine * Shift * NozzleRow * TaxedProduct) : option Z :=
  let '(l, sh, z, p) := r in current_price s (cl_tenant l) (sh_station sh) (nz_product z).
Definition row_line (r : CloseLine * Shift * NozzleRow * TaxedProduct) : CloseLine := r.1.1.1.
(** A sale holds the key [uq_sales_shift_nozzle] of a line. *)
Definition sold (sales : list Sale) (l : CloseLine) : Prop :=
  exists y, In y sales /\ sale_shift y = cl_shift l /\ sale_nozzle y = cl_nozzle l.

Inductive line_step (t : uuid) (s : Site) (r : CloseLine * Shift * NozzleRow * TaxedProduct)
  : Z -> Site -> Prop :=
| ls_skip s' : sale_frame s' = sale_frame s -> s_sales s' = s_sales s -> s_voids s' = s_voids s ->
    (op_next_id (s_ops s) <= op_next_id (s_ops s'))%N ->
    row_price s r = None \/ sold (s_sales s) (row_line r) -> line_step t s r 0 s'
| ls_sale s' x : sale_frame s' = sale_frame s -> s_sales s' = s_sales s ++ [x] -> s_voids s' = s_voids s ->
    sale_id x = op_next_id (s_ops s) -> op_next_id (s_ops s') = (op_next_id (s_ops s) + 1)%N ->
    row_price s r <> None -> ~ sold (s_sales s) (row_line r) ->
    (In (row_line r) (s_lines s) -> line_of t (cl_shift (row_line r)) (row_line r) = true -> cl_litres (row_line r) <> 0 ->
     recognized s t (cl_shift (row_line r)) x) ->
    sale_shift x = cl_shift (row_line r) -> sale_nozzle x = cl_nozzle (row_line r) -> line_step t s r 1 s'.

Lemma recognize_line_step t by_ s r n s' :
  recognize_line t by_ r s = Ok (n, s') -> line_step t s r n s'.
Proof.
  destruct r as [[[l sh] z] p]. unfold recognize_line. intros Hrun. tx_step Hrun.
  destruct (current_price s _ _ _) as [price|] eqn:Ep.
  2: { injection Hrun as <- <-. apply ls_skip; auto. }
  tx_step Hrun. injection E as <- <-. tx_step Hrun. apply sale_row_split in E as (-> & Et & Es & En & El & Epr & Est & Epd & Eid & Eg & Esp & Etx & Em).
  tx_step Hrun. cbn [s_sales set_ops] in Hrun. destruct (exists_where _ _) eqn:Ex.
  - injection Hrun as <- <-. apply exists_where_true in Ex as (y & Hy & Hb). bool_solve. destruct_and?.
    apply ls_skip; try done; [simpl; lia|]. right. exists y. unfold row_line. simpl. split_and!; congruence.
  - tx_steps Hrun. subst. apply (ls_sale t s _ _ x); try done.
    + simpl. by rewrite Ep.
    + intros (y & Hy & H1 & H2). pose proof (proj1 (exists_where_false _ _) Ex y Hy) as Hf. apply bool_decide_eq_false in Hf. apply Hf.
      unfold row_line in *. simpl in *. split; congruence.
    + unfold row_line. simpl. intros Hin Hl Hlt. unfold line_of in Hl. bool_solve. destruct Hl as [Hl _].
      constructor; try done; [congruence|exists l; split_and!; try done; unfold line_of; by apply bool_decide_eq_true_2|].
      rewrite Est, Epd. by rewrite Hl in Ep.
Qed.

(** One sale per shift and nozzle. *)
Definition one_sale_each (sales : list Sale) : Prop :=
  NoDup ((fun x => (sale_shift x, sale_nozzle x)) <$> sales).

(** What a run of the recognition over some rows leaves. *)
Record lines_step (t : uuid) (s : Site) (rows : list (CloseLine * Shift * NozzleRow * TaxedProduct)) (n : Z)
    (s' : Site) (new : list Sale) : Prop := {
  lt_frame : sale_frame s' = sale_frame s;
  lt_voids : s_voids s' = s_voids s;
  lt_next : (op_next_id (s_ops s) <= op_next_id (s_ops s'))%N;
  lt_sales : s_sales s' = s_sales s ++ new;
  lt_count : n = Z.of_nat (length new);
  lt_ids : forall x, In x new -> (op_next_id (s_ops s) <= sale_id x < op_next_id (s_ops s'))%N;
  lt_nodup : NoDup (sale_id <$> new);
  lt_unique : one_sale_each (s_sales s) -> one_sale_each (s_sales s');
  lt_rows : forall x, In x new -> exists r, In r rows
    /\ (In (row_line r) (s_lines s) -> line_of t (cl_shift (row_line r)) (row_line r) = true -> cl_litres (row_line r) <> 0 ->
        recognized s t (cl_shift (row_line r)) x);
  lt_all : forall r, In r rows -> row_price s r <> None -> sold (s_sales s') (row_line r);
}.

Lemma recognized_frame s s' t sh x : sale_frame s' = sale_frame s -> recognized s' t sh x -> recognized s t sh x.
Proof.
  intros Hf []. assert (El : s_lines s' = s_lines s) by (by unfold sale_frame in Hf; injection Hf).
  constructor; try done; [by rewrite El in *|]. by rewrite <- (frame_price _ _ _ _ _ Hf).
Qed.
Lemma row_price_frame s s' r : sale_frame s' = sale_frame s -> row_price s' r = row_price s r.
Proof. intros Hf. destruct r as [[[l sh] z] p]. by apply frame_price. Qed.
Lemma sold_app sales new l : sold sales l -> sold (sales ++ new) l.
Proof. intros (y & ? & ?). exists y. split; [apply in_or_app; auto|done]. Qed.

Lemma one_sale_snoc sales x l :
  one_sale_each sales -> ~ sold sales l -> sale_shift x = cl_shift l -> sale_nozzle x = cl_nozzle l ->
  one_sale_each (sales ++ [x]).
Proof.
  unfold one_sale_each. intros Hu Hs H1 H2. rewrite fmap_app. apply NoDup_app. split_and!; [done| |apply NoDup_singleton].
  intros k (y & -> & Hy%list_elem_of_In)%list_elem_of_fmap Hin. apply list_elem_of_singleton in Hin. injection Hin as ? ?.
  apply Hs. exists y. split_and!; congruence.
Qed.

Lemma recognize_lines_step t by_ rows s n s' :
  recognize_lines t by_ rows s = Ok (n, s') -> exists new, lines_step t s rows n s' new.
Proof.
  revert s n s'. induction rows as [|r rest IH]; intros s n s' Hrun; simpl in Hrun.
  - injection Hrun as <- <-. exists []. constructor; try done; try lia; [by rewrite app_nil_r|constructor].
  - tx_steps Hrun. subst. apply recognize_line_step in E. apply IH in E0 as (new & []).
    destruct E as [s1 Hf Hs Hv Hn Hk|s1 x Hf Hs Hv Hid Hn Hpr Hk Hr Hx1 Hx2].
    + exists new. constructor; try congruence; try lia.
      * intros x Hx. destruct (lt_ids0 x Hx). lia.
      * by rewrite <- Hs.
      * intros x Hx. destruct (lt_rows0 x Hx) as (r' & ? & Hr'). exists r'. split; [by right|].
        intros. apply (recognized_frame _ _ _ _ _ Hf), Hr'; try done. unfold sale_frame in Hf. by injection Hf as ->.
      * intros r' [<-|Hr'] Hp.
        -- destruct Hk as [?|?]; [done|]. rewrite lt_sales0, Hs. by apply sold_app.
        -- apply lt_all0; [done|]. by rewrite (row_price_frame _ _ _ Hf).
    + exists (x :: new). constructor; try congruence; try lia.
      * rewrite lt_sales0, Hs. by rewrite <- app_assoc.
      * simpl. lia.
      * intros y [<-|Hy]; [lia|]. specialize (lt_ids0 y Hy). lia.
      * rewrite fmap_cons. constructor; [|done]. intros (y & Ey & Hy%list_elem_of_In)%list_elem_of_fmap.
        specialize (lt_ids0 y Hy). lia.
      * intros Hu. apply lt_unique0. rewrite Hs. by eapply one_sale_snoc.
      * intros y [<-|Hy]; [exists r; split; [by left|done]|]. destruct (lt_rows0 y Hy) as (r' & ? & Hr'). exists r'. split; [by right|].
        intros. apply (recognized_frame _ _ _ _ _ Hf), Hr'; try done. unfold sale_frame in Hf. by injection Hf as ->.
      * intros r' [<-|Hr'] Hp.
        -- rewrite lt_sales0, Hs. apply sold_app. exists x. split_and!; [apply in_or_app; right; by left|done..].
        -- apply lt_all0; [done|]. by rewrite (row_price_frame _ _ _ Hf).
Qed.

Lemma sale_lines_row s t sh r : In r (sale_lines s t sh) ->
  In (row_line r) (s_lines s) /\ line_of t sh (row_line r) = true /\ cl_litres (row_line r) <> 0.
Proof.
  unfold sale_lines. destruct r as [[[l x] z] p]. intros [Hj Hb]%in_select.
  apply in_join in Hj as (Hj & _ & _). apply in_join in Hj as (Hj & _ & _). apply in_join in Hj as (Hl & _ & _).
  unfold row_line. simpl. apply andb_true_iff in Hb as [? Hz%negb_true_iff%Z.eqb_neq]. done.
Qed.

Lemma RecognizeShiftSales_step t sh by_ s n s' :
  RecognizeShiftSales t sh by_ s = Ok (n, s') ->
  exists new, lines_step t s (sale_lines s t sh) n s' new /\ forall x, In x new -> recognized s t sh x.
Proof.
  unfold RecognizeShiftSales. intros Hrun. tx_step Hrun. apply recognize_lines_step in Hrun as (new & Hl).
  exists new. split; [done|]. intros x Hx. destruct (lt_rows _ _ _ _ _ _ Hl x Hx) as (r & Hr & Hrec).
  destruct (sale_lines_row _ _ _ _ Hr) as (H1 & H2 & H3). pose proof H2 as H2'. unfold line_of in H2'. bool_solve.
  destruct H2' as [? E]. rewrite E in Hrec. auto.
Qed.

Lemma recognize_lines_done t by_ rows s n s' :
  (forall r, In r rows -> row_price s r = None \/ sold (s_sales s) (row_line r)) ->
  recognize_lines t by_ rows s = Ok (n, s') -> n = 0 /\ s_sales s' = s_sales s.
Proof.
  revert s n s'. induction rows as [|r rest IH]; intros s n s' Hd Hrun; simpl in Hrun; [by injection Hrun as <- <-|].
  tx_steps Hrun. subst. apply recognize_line_step in E.
  destruct E as [s1 Hf Hs _ _ _|s1 x Hf Hs _ Hid Hn Hpr Hk Hr Hx1 Hx2].
  - apply IH in E0 as [-> ->]; [done|]. intros r' Hr'. rewrite Hs, (row_price_frame _ _ _ Hf). apply Hd. by right.
  - exfalso. by destruct (Hd r (or_introl eq_refl)).
Qed.

(** Recognising a shift turns its close lines into sales exactly: the run
    only appends sales, as many as it reports; each is the sale of a line of the
    shift with nonzero litres, at the price in force for its station and
    product, its gross the litres times that price to the cent, its net and tax
    adding up to the gross, its tax - taken out at the product's rate through
    the database's own division - between zero and the gross for a nonnegative
    gross and rate, and its margin the net less the cost of goods. *)
Theorem RecognizeShiftSales_splits t sh by_ s n s' :
  RecognizeShiftSales t sh by_ s = Ok (n, s') ->
  exists new, s_sales s' = s_sales s ++ new /\ n = Z.of_nat (length new)
    /\ forall x, In x new -> recognized s t sh x.
Proof. intros (new & Hl & Hr)%RecognizeShiftSales_step. exists new. destruct Hl. auto. Qed.

(** Sales are recognised once: the run keeps at most one sale per shift and
    nozzle, leaves one for every line of the shift that has a price in force,
    and a second run, whoever makes it, adds nothing. *)
Theorem RecognizeShiftSales_once t sh by_ s n s' :
  RecognizeShiftSales t sh by_ s = Ok (n, s') ->
  (one_sale_each (s_sales s) -> one_sale_each (s_sales s'))
  /\ (forall r, In r (sale_lines s t sh) -> row_price s r <> None -> sold (s_sales s') (row_line r))
  /\ (forall by' m s'', RecognizeShiftSales t sh by' s' = Ok (m, s'') -> m = 0 /\ s_sales s'' = s_sales s').
Proof.
  intros (new & Hl & _)%RecognizeShiftSales_step. destruct Hl. split_and!; [done..|].
  intros by' m s'' Hrun. unfold RecognizeShiftSales in Hrun. tx_step Hrun.
  eapply recognize_lines_done; [|exact Hrun]. intros r Hr.
  rewrite (frame_lines _ _ _ _ lt_frame0) in Hr. rewrite (row_price_frame _ _ _ lt_frame0).
  destruct (row_price s r) eqn:Ep; [right|by left]. apply lt_all0; [done|by rewrite Ep].
Qed.

(** ** Voids *)

(** The life of the sales and of their voids; [vs_other] is any transaction on
    the other tables, which may draw ids. *)
Inductive void_step (s : Site) : Site -> Prop :=
| vs_recognize t sh by_ n s' : RecognizeShiftSales t sh by_ s = Ok (n, s') -> void_step s s'
| vs_request t sale by_ reason v s' : RequestVoid t sale by_ reason s = Ok (v, s') -> void_step s s'
| vs_approve t id by_ note v s' : ApproveVoid t id by_ note s = Ok (v, s') -> void_step s s'
| vs_reject t id by_ note v s' : RejectVoid t id by_ note s = Ok (v, s') -> void_step s s'
| vs_other s' : s_sales s' = s_sales s -> s_voids s' = s_voids s ->
    (op_next_id (s_ops s) <= op_next_id (s_ops s'))%N -> void_step s s'.

Inductive void_reachable : Site -> Prop :=
| vr_start s : s_sales s = [] -> s_voids s = [] -> void_reachable s
| vr_step s s' : void_reachable s -> void_step s s' -> void_reachable s'.

Definition is_active (v : SaleVoid) : bool := negb (bool_decide (vd_status v = VoidRejected)).

(** An approved void carries the sale's figures with the opposite sign. *)
Definition reverses (v : SaleVoid) (x : Sale) : Prop :=
  vd_litres v = Some (- sale_litres x) /\ vd_gross v = Some (- sale_gross x) /\ vd_tax v = Some (- sale_tax x)
  /\ vd_net v = Some (- sale_net x) /\ vd_cogs v = Z.opp <$> sale_cogs x /\ vd_margin v = Z.opp <$> sale_margin x.

Record Void_inv (s : Site) : Prop := {
  vi_sales : NoDup (sale_id <$> s_sales s);
  vi_sales_lt : forall x, In x (s_sales s) -> (sale_id x < op_next_id (s_ops s))%N;
  vi_voids : NoDup (vd_id <$> s_voids s);
  vi_voids_lt : forall v, In v (s_voids s) -> (vd_id v < op_next_id (s_ops s))%N;
  vi_named : forall v, In v (s_voids s) -> (vd_sale v < op_next_id (s_ops s))%N;
  vi_active : forall v w, In v (s_voids s) -> In w (s_voids s) -> is_active v = true -> is_active w = true ->
    vd_tenant v = vd_tenant w -> vd_sale v = vd_sale w -> vd_id v = vd_id w;
  vi_amounts : forall v x, In v (s_voids s) -> vd_status v = VoidApproved -> In x (s_sales s) ->
    sale_tenant x = vd_tenant v -> sale_id x = vd_sale v -> reverses v x;
  vi_split : forall x, In x (s_sales s) -> sale_gross x = sale_net x + sale_tax x;
}.

Lemma vd_by_true t i v : vd_by t i v = true <-> vd_tenant v = t /\ vd_id v = i.
Proof. unfold vd_by. apply bool_decide_eq_true. Qed.

Lemma lock_void_ok t i d s v s' :
  lock_void t i d s = Ok (v, s') -> s' = s /\ first_where (vd_by t i) (s_voids s) = Some v /\ vd_status v = VoidRequested
    /\ vd_requested_by v <> d.
Proof.
  unfold lock_void. intros H. tx_steps H. subst. bool_solve. auto.
Qed.

(** An update of the row under the lock that keeps its keys, and leaves it
    rejected or with the amounts of its sale. *)
Lemma void_inv_update s t i g :
  Void_inv s -> (forall v, vd_id (g v) = vd_id v /\ vd_tenant (g v) = vd_tenant v /\ vd_sale (g v) = vd_sale v) ->
  (forall v x, vd_by t i v = true -> In v (s_voids s) -> vd_status (g v) = VoidApproved -> In x (s_sales s) ->
     sale_tenant x = vd_tenant v -> sale_id x = vd_sale v -> reverses (g v) x) ->
  Void_inv (set_voids (update_where (fun w => vd_by t i w && bool_decide (vd_status w = VoidRequested)) g (s_voids s)) s).
Proof.
  intros [] Hk Ha. set (p := fun w => _ && _).
  assert (Hold : forall r, In r (update_where p g (s_voids s)) -> exists r0, In r0 (s_voids s)
    /\ vd_id r = vd_id r0 /\ vd_tenant r = vd_tenant r0 /\ vd_sale r = vd_sale r0
    /\ (is_active r = true -> is_active r0 = true)).
  { intros r (r0 & H0 & ->)%in_update_where. exists r0. split; [done|]. destruct (p r0) eqn:Ep; [|done].
    destruct (Hk r0) as (-> & -> & ->). split_and!; try done. intros _. unfold p, is_active in *.
    bool_solve. destruct_and?. by rewrite H1. }
  constructor; cbn [s_sales s_voids s_ops set_voids].
  - done.
  - done.
  - apply NoDup_update; [|done]. intros r. apply Hk.
  - intros v Hv. destruct (Hold v Hv) as (v0 & ? & -> & _). auto.
  - intros v Hv. destruct (Hold v Hv) as (v0 & ? & _ & _ & -> & _). auto.
  - intros v w Hv Hw Hva Hwa. destruct (Hold v Hv) as (v0 & ? & -> & -> & -> & ?), (Hold w Hw) as (w0 & ? & -> & -> & -> & ?). auto.
  - intros v x (v0 & H0 & ->)%in_update_where. destruct (p v0) eqn:Ep; [|by auto].
    destruct (Hk v0) as (_ & -> & ->). apply Ha; [|done]. unfold p in Ep. by apply andb_true_iff in Ep as [? _].
  - done.
Qed.

Lemma void_inv_frame s s' : Void_inv s -> s_sales s' = s_sales s -> s_voids s' = s_voids s ->
  (op_next_id (s_ops s) <= op_next_id (s_ops s'))%N -> Void_inv s'.
Proof.
  intros [] Es Ev Hn. constructor; rewrite ?Es, ?Ev; try done; intros x Hx;
    [specialize (vi_sales_lt0 x Hx)|specialize (vi_voids_lt0 x Hx)|specialize (vi_named0 x Hx)]; lia.
Qed.

(** A new sale has an id no void names. *)
Lemma void_inv_recognize s t sh by_ n s' :
  Void_inv s -> RecognizeShiftSales t sh by_ s = Ok (n, s') -> Void_inv s'.
Proof.
  intros [] (new & Hl & Hrec)%RecognizeShiftSales_step. destruct Hl.
  constructor; rewrite ?lt_sales0, ?lt_voids0; try done.
  - rewrite fmap_app. apply NoDup_app. split_and!; try done.
    intros k (y & -> & Hy%list_elem_of_In)%list_elem_of_fmap (z & Ez & Hz%list_elem_of_In)%list_elem_of_fmap.
    specialize (vi_sales_lt0 y Hy). specialize (lt_ids0 z Hz). lia.
  - intros x [Hx|Hx]%in_app_or; [specialize (vi_sales_lt0 x Hx)|specialize (lt_ids0 x Hx)]; lia.
  - intros v Hin. specialize (vi_voids_lt0 v Hin). lia.
  - intros v Hin. specialize (vi_named0 v Hin). lia.
  - intros v x Hin Hst [Hx|Hx]%in_app_or; [by apply vi_amounts0|]. intros _ E.
    specialize (lt_ids0 x Hx). specialize (vi_named0 v Hin). lia.
  - intros x [Hx|Hx]%in_app_or; [by apply vi_split0|by apply (rc_split s t sh), Hrec].
Qed.

Lemma void_inv_request s t sale by_ reason v s' :
  Void_inv s -> RequestVoid t sale by_ reason s = Ok (v, s') -> Void_inv s'.
Proof.
  intros [] Hrun. unfold RequestVoid in Hrun. tx_steps Hrun. injection E as <- <-. subst.
  apply andb_true_iff in E1 as [E1 _]. apply negb_true_iff in E0.
  apply exists_where_true in E1 as (x & Hx & Hb). apply bool_decide_eq_true in Hb as [Ht Hid].
  pose proof (proj1 (exists_where_false _ _) E0) as Hno. simpl in *.
  assert (Hnew : forall w, In w (s_voids s) -> is_active w = true -> vd_tenant w = t -> vd_sale w = sale -> False).
  { intros w Hw Ha H1 H2. specialize (Hno w Hw). unfold active_void in Hno. unfold is_active in Ha.
    rewrite Ha, andb_true_r in Hno. apply bool_decide_eq_false in Hno. tauto. }
  constructor; cbn [s_sales s_voids s_ops set_voids set_ops]; try done.
  - intros y Hy. specialize (vi_sales_lt0 y Hy). simpl. lia.
  - by eapply NoDup_snoc_fresh.
  - intros w [Hw|[<-|[]]]%in_app_or; simpl; [specialize (vi_voids_lt0 w Hw)|]; lia.
  - intros w [Hw|[<-|[]]]%in_app_or; simpl; [specialize (vi_named0 w Hw)|specialize (vi_sales_lt0 x Hx)]; lia.
  - intros v w [Hv|[<-|[]]]%in_app_or [Hw|[<-|[]]]%in_app_or; simpl; auto; intros.
    + exfalso. by apply (Hnew v).
    + exfalso. by apply (Hnew w).
  - intros w y [Hw|[<-|[]]]%in_app_or; simpl; [by auto|done].
Qed.

Lemma void_inv_approve s t id by_ note v s' :
  Void_inv s -> ApproveVoid t id by_ note s = Ok (v, s') -> Void_inv s'.
Proof.
  intros Hi Hrun. unfold ApproveVoid in Hrun. tx_step Hrun. rename x into old. apply lock_void_ok in E as (-> & Hf & _).
  tx_step Hrun. destruct (first_where _ (s_sales s)) as [x|] eqn:Ex; [|done]. tx_steps Hrun. subst.
  apply void_inv_update; [done|intros ?; by split_and!|]. intros w y [Hwt Hwi]%vd_by_true Hin _ Hy Ht Hid.
  apply first_where_some in Hf as [Hvin [Hvt Hvi]%vd_by_true]. destruct Hi.
  assert (w = old) as -> by (apply (NoDup_unique _ _ vi_voids0); congruence).
  apply first_where_some in Ex as [Hx Hb]. unfold void_sale in Hb. apply bool_decide_eq_true in Hb as [Hxt Hxi].
  assert (y = x) as -> by (apply (NoDup_unique _ _ vi_sales0); congruence).
  unfold reverses. by split_and!.
Qed.

Lemma void_inv_reject s t id by_ note v s' :
  Void_inv s -> RejectVoid t id by_ note s = Ok (v, s') -> Void_inv s'.
Proof.
  intros Hi Hrun. unfold RejectVoid in Hrun. tx_step Hrun. apply lock_void_ok in E as (-> & Hf & _).
  tx_steps Hrun. subst. apply void_inv_update; [done|intros ?; by split_and!|done].
Qed.

Create HintDb voids.
#[local] Hint Resolve void_inv_recognize void_inv_request void_inv_approve void_inv_reject void_inv_frame : voids.

Lemma void_reachable_inv s : void_reachable s -> Void_inv s.
Proof.
  induction 1 as [s Es Ev|s s' _ IH Hs]; [|destruct Hs; eauto with voids].
  constructor; rewrite ?Es, ?Ev; try done; apply NoDup_nil_2.
Qed.

(** ** The day summary *)

Definition voided (s : Site) (x : Sale) : bool := exists_where (approved_of x) (s_voids s).

(** The reference: the sums over the sales that stand. *)
Definition standing_summary (s : Site) (tenant station day : uuid) : DaySummaryR :=
  let l := select (fun x => negb (voided s x)) (day_sales s tenant station day) in
  mkDaySummary (sum_by sale_gross l) (sum_by sale_net l) (sum_by sale_tax l)
    (sum_by (fun x => default 0 (sale_cogs x)) l) (sum_by (fun x => default 0 (sale_margin x)) l)
    (sum_by sale_litres l) (length l).

Lemma NoDup_filter_select {R} (p : R -> bool) (l : list R) : NoDup l -> NoDup (select p l).
Proof. rewrite !NoDup_ListNoDup. apply List.NoDup_filter. Qed.

(** The joined rows of one sale. *)
Lemma sale_void_rows s x : Void_inv s -> In x (s_sales s) ->
  (voided s x = false /\ left_join approved_of [x] (s_voids s) = [(x, None)])
  \/ (voided s x = true /\ exists v, left_join approved_of [x] (s_voids s) = [(x, Some v)] /\ reverses v x).
Proof.
  intros Hi Hx. unfold left_join. simpl. rewrite app_nil_r. unfold voided.
  destruct (exists_where (approved_of x) (s_voids s)) eqn:E; [right|left].
  - split; [done|]. apply exists_where_true in E as (v & Hv & Hb). pose proof Hb as Hb'.
    unfold approved_of in Hb'. apply bool_decide_eq_true in Hb' as (Ht & Hs & Hst). exists v.
    assert (Hr : reverses v x) by (by apply (vi_amounts s Hi)).
    assert (Hu : forall w, In w (select (approved_of x) (s_voids s)) -> w = v).
    { intros w [Hw Hwb]%in_select. unfold approved_of in Hwb. apply bool_decide_eq_true in Hwb as (Hwt & Hws & Hwst).
      apply (NoDup_unique _ _ (vi_voids s Hi)); [done..|].
      apply (vi_active s Hi); [done..| | | |]; unfold is_active; rewrite ?Hst, ?Hwst; congruence || done. }
    assert (Hn : NoDup (select (approved_of x) (s_voids s))).
    { apply NoDup_filter_select, (NoDup_fmap_1 vd_id), Hi. }
    assert (Hin : In v (select (approved_of x) (s_voids s))) by by apply in_select.
    split; [|done]. destruct (select (approved_of x) (s_voids s)) as [|w1 [|w2 l]]; [done| |].
    + by rewrite (Hu w1 (or_introl eq_refl)).
    + exfalso. rewrite (Hu w1), (Hu w2) in Hn by (simpl; auto). apply NoDup_cons in Hn as [Hn _]. apply Hn. left.
  - rewrite (select_none _ _ (proj1 (exists_where_false _ _) E)). done.
Qed.

Lemma left_join_cons {A B} (p : A -> B -> bool) x xs (ys : list B) :
  left_join p (x :: xs) ys = left_join p [x] ys ++ left_join p xs ys.
Proof. unfold left_join. simpl. by rewrite app_nil_r. Qed.

Section Summary.
Context (s : Site) (Hi : Void_inv s).

(** One column of the sale and of its reversal, summed over the joined rows. *)
Lemma sum_rows_standing (f : Sale -> option Z) (g : SaleVoid -> option Z) (l : list Sale) :
  (forall x, In x l -> In x (s_sales s)) -> (forall v x, reverses v x -> g v = Z.opp <$> f x) ->
  sum_rows f g (left_join approved_of l (s_voids s))
    = sum_by (fun x => default 0 (f x)) (select (fun x => negb (voided s x)) l).
Proof.
  intros Hl Hg. unfold sum_rows. induction l as [|x l IH]; [done|]. rewrite left_join_cons, !sum_by_app.
  specialize (IH (fun y Hy => Hl y (or_intror Hy))).
  destruct (sale_void_rows s x Hi (Hl x (or_introl eq_refl))) as [[E ->]|[E (v & -> & Hr)]]; simpl; rewrite E; simpl.
  - lia.
  - rewrite (Hg v x Hr). destruct (f x); simpl in *; lia.
Qed.

Lemma count_standing (l : list Sale) :
  (forall x, In x l -> In x (s_sales s)) ->
  length (select (fun r => bool_decide (r.2 = None)) (left_join approved_of l (s_voids s)))
    = length (select (fun x => negb (voided s x)) l).
Proof.
  intros Hl. induction l as [|x l IH]; [done|]. rewrite left_join_cons, select_app, length_app.
  rewrite (IH (fun y Hy => Hl y (or_intror Hy))).
  by destruct (sale_void_rows s x Hi (Hl x (or_introl eq_refl))) as [[E ->]|[E (v & -> & Hr)]]; simpl; rewrite E.
Qed.
End Summary.

(** The day summary nets the voids out: in every state the recognition and
    the voids can lead to, the sums of the sales and of the reversals of their
    approved voids, and the count, are those over the sales of the day that have
    no approved void - a requested or rejected void changes nothing. *)
Theorem DaySummary_standing s tenant station day :
  void_reachable s -> DaySummary s tenant station day = standing_summary s tenant station day.
Proof.
  intros Hi%void_reachable_inv. unfold DaySummary, standing_summary, day_rows.
  assert (Hl : forall x, In x (day_sales s tenant station day) -> In x (s_sales s)) by by intros x [? _]%in_select.
  rewrite count_standing by done.
  f_equal; (rewrite sum_rows_standing; [done|done|done|]); unfold reverses; intros v x Hr; simpl; tauto.
Qed.

(** ** Runs *)

Definition site_sold : Site := out (RecognizeShiftSales 1 200 4 site_settled).
Lemma run_recognized : RecognizeShiftSales 1 200 4 site_settled = Ok (1, site_sold).
Proof. vm_compute. reflexivity. Qed.

Lemma RecognizeShiftSales_splits_witness :
  exists new, s_sales site_sold = s_sales site_settled ++ new /\ 1 = Z.of_nat (length new)
    /\ forall x, In x new -> recognized site_settled 1 200 x.
Proof. exact (RecognizeShiftSales_splits 1 200 4 _ _ _ run_recognized). Defined.

Lemma RecognizeShiftSales_once_witness :
  (one_sale_each (s_sales site_settled) -> one_sale_each (s_sales site_sold))
  /\ (forall r, In r (sale_lines site_settled 1 200) -> row_price site_settled r <> None ->
        sold (s_sales site_sold) (row_line r))
  /\ (forall by' m s'', RecognizeShiftSales 1 200 by' site_sold = Ok (m, s'') ->
        m = 0 /\ s_sales s'' = s_sales site_sold).
Proof. exact (RecognizeShiftSales_once 1 200 4 _ _ _ run_recognized). Defined.

(** The sale is voided: requested by the attendant, approved by the manager. *)
Definition site_requested : Site := out (RequestVoid 1 307 3 (runes "double entry") site_sold).
Definition site_voided : Site := out (ApproveVoid 1 308 4 None site_requested).

Lemma site_sold_reachable : void_reachable site_sold.
Proof.
  apply (vr_step site_settled); [apply vr_start; vm_compute; reflexivity|].
  exact (vs_recognize _ _ _ _ _ _ run_recognized).
Qed.

Lemma site_voided_reachable : void_reachable site_voided.
Proof.
  assert (H1 : exists v, RequestVoid 1 307 3 (runes "double entry") site_sold = Ok (v, site_requested))
    by (eexists; vm_compute; reflexivity).
  assert (H2 : exists v, ApproveVoid 1 308 4 None site_requested = Ok (v, site_voided))
    by (eexists; vm_compute; reflexivity).
  destruct H1 as [v1 H1], H2 as [v2 H2].
  apply (vr_step site_requested); [|exact (vs_approve _ _ _ _ _ _ _ H2)].
  apply (vr_step site_sold); [exact site_sold_reachable|exact (vs_request _ _ _ _ _ _ _ H1)].
Qed.

Lemma DaySummary_standing_witness :
  length (day_sales site_voided 1 20 90) = 1%nat
  /\ DaySummary site_voided 1 20 90 = standing_summary site_voided 1 20 90.
Proof. split; [vm_compute; reflexivity|exact (DaySummary_standing _ 1 20 90 site_voided_reachable)]. Defined.
