(* ===== verification/RevenueJournal.v ===== *)
(** * The journal entry of a shift's revenue

    The entry posted for an approved shift, against the books of [Accounting]:
    it balances whatever the shift sold, and it is posted once. *)

From stdpp Require Import base list strings.
From Stdlib Require Import ZArith Lia.
From S2P Require Import Prelude Frames Numeric Schema Ledger Readings Revenue RevenueProps Accounting AccountingProps AccountingReports.

Local Open Scope Z_scope.
Local Open Scope tx_scope.

(** ** Posting lines *)

Lemma post_line_never tenant entry ln : never ErrUnbalanced (post_line tenant entry ln).
Proof.
  unfold post_line, insert_line. never_steps.
  - unfold line_account, resolveSystemAccount, of_option. by repeat case_match.
  - unfold money_in, of_option. by repeat case_match.
  - unfold money_in, of_option. by repeat case_match.
Qed.

Lemma post_lines_never tenant entry lns : never ErrUnbalanced (post_lines tenant entry lns).
Proof.
  induction lns as [|ln lns IH]; simpl; [apply never_ret|]. apply never_bind; [apply post_line_never|].
  intros s l s' _. revert s'. apply never_bind; [exact IH|]. by intros.
Qed.

(** ** A balanced input is never refused as unbalanced *)

Lemma post_totals tenant entry lns b ls b' :
  (forall l, In l (bk_lines b) -> of_entry tenant entry l = false) ->
  post_lines tenant entry lns b = Ok (ls, b') ->
  total_debit b' tenant entry = sum_by jl_debit ls /\ total_credit b' tenant entry = sum_by jl_credit ls
  /\ Forall (fun l => line_check l = true) ls.
Proof.
  intros Hb Hp. pose proof (inserts_effect _ _ _ _ (post_lines_inserts _ _ _ _ _ _ Hp)) as (_ & _ & _ & El & _ & _ & _ & _ & _ & Hg).
  unfold total_debit, total_credit, entry_lines. rewrite El, select_app, (select_none _ _ Hb). simpl.
  rewrite select_all; [split_and!; [done..|]; eapply Forall_impl; [exact Hg|by intros l (? & _)]|].
  intros l Hl. rewrite Forall_forall in Hg. by apply Hg, list_elem_of_In.
Qed.

Lemma fresh_entry_lines b tenant : Books_inv b -> forall l, In l (bk_lines b) -> of_entry tenant (bk_next_id b) l = false.
Proof.
  intros Hb l Hl. destruct (of_entry tenant (bk_next_id b) l) eqn:E; [|done]. apply of_entry_true in E as [_ E].
  destruct (bi_line_entry b Hb l Hl) as (e & He & [Hi _]%line_entry_true). pose proof (bi_entry_fresh b Hb e He). lia.
Qed.

Lemma PostEntry_never_unbalanced tenant i b :
  Books_inv b ->
  (forall b1 entry ls, Forall2 (posts_as b1 tenant entry) (pi_lines i) ls -> Forall (fun l => line_check l = true) ls ->
     sum_by jl_debit ls = sum_by jl_credit ls /\ 0 < sum_by jl_debit ls) ->
  PostEntry tenant i b <> Err ErrUnbalanced.
Proof.
  intros Hb Hls Hrun. unfold PostEntry in Hrun.
  apply tbind_err in Hrun as [Hrun|(? & s1 & H1 & Hrun)]; [unfold tguard in Hrun; by case_match|].
  assert (s1 = b) as -> by (unfold tguard in H1; by case_match; simplify_eq).
  apply tbind_err in Hrun as [?|(? & ? & [= <- <-] & Hrun)]; [done|].
  apply tbind_err in Hrun as [Hrun|(period & s2 & H2 & Hrun)].
  { unfold tlift, resolvePostingPeriod in Hrun. by repeat case_match; simplify_eq. }
  assert (s2 = b) as -> by (unfold tlift in H2; by case_match; simplify_eq). clear H2.
  apply tbind_err in Hrun as [Hrun|(e & s3 & H3 & Hrun)].
  { revert Hrun. unfold insert_entry, tbind, tget, tguard. by destruct (entry_fks _ _). }
  apply insert_entry_inv in H3 as (-> & _ & ->).
  apply tbind_err in Hrun as [Hrun|(ls & s4 & H4 & Hrun)]; [by apply post_lines_never in Hrun|].
  apply tbind_err in Hrun as [?|(? & ? & [= <- <-] & Hrun)]; [done|].
  simpl je_id in *. destruct (post_totals tenant _ _ (add_entry _ b) _ _ (fresh_entry_lines b tenant Hb) H4) as (Ed & Ec & Hg).
  destruct (Hls _ _ _ (post_lines_posts _ _ _ _ _ _ H4) Hg) as [Eq Hpos].
  rewrite Ed, Ec, Eq, Z.eqb_refl in Hrun. rewrite Eq in Hpos. rewrite (proj2 (Z.ltb_lt _ _) Hpos) in Hrun. done.
Qed.

(** ** The entry of a source stays *)

(** Entries are never taken out of the journal, and a reversal keeps the source
    of the entry it marks. *)
Definition source_kept (b b' : Books) : Prop :=
  forall t src k, EntryExistsForSource b t src k = true -> EntryExistsForSource b' t src k = true.

Lemma source_kept_same b b' : bk_entries b' = bk_entries b -> source_kept b b'.
Proof. intros E t src k. unfold EntryExistsForSource. by rewrite E. Qed.

Lemma source_kept_journal b e ls q b' : journal_step b e ls q b' -> source_kept b b'.
Proof.
  intros Hj t src k (x & Hx & Hp)%exists_where_true. apply exists_where_true.
  exists (if q x then mark_entry_reversed (je_id e) x else x). split; [|by destruct (q x)].
  rewrite (js_entries _ _ _ _ _ Hj). apply in_update_where. exists x. split; [|done]. apply in_or_app. auto.
Qed.

#[local] Opaque SeedDefaultChart.

Lemma source_kept_op o b x b' : run_books o b = Ok (x, b') -> source_kept b b'.
Proof.
  intros Hrun. destruct o; cbn [run_books] in Hrun; apply done_ok in Hrun as (a & H);
    try (apply transition_inv in H as (_ & _ & _ & ->); by apply source_kept_same).
  - unfold CreateAccount in H. tx_steps H. apply insert_account_inv in H as (-> & -> & _). by apply source_kept_same.
  - unfold UpdateAccount, update_returning in H. tx_steps H; simplify_eq. by apply source_kept_same.
  - apply SeedDefaultChart_rows in H as (new & _ & _ & ? & _). by apply source_kept_same.
  - unfold CreatePeriod in H. tx_steps H. subst. by apply source_kept_same.
  - apply PostEntry_inv in H as [Hp _]. destruct (post_journal_step _ _ _ _ _ Hp) as [Hj _].
    by eapply source_kept_journal.
  - apply ReverseEntry_inv in H as (o & rev & ls & Hr & _).
    destruct (reverse_journal_step _ _ _ _ _ _ _ _ _ Hr) as [Hj _]. by eapply source_kept_journal.
Qed.

#[local] Transparent SeedDefaultChart.

Lemma source_kept_steps b b' : books_steps b b' -> source_kept b b'.
Proof.
  induction 1 as [b|b b1 b2 H Hs IH]; [by intros ?|]. intros t src k Hx. apply IH.
  destruct H as [o b1 H|]; [by eapply source_kept_op|by eapply source_kept_same].
Qed.

(** ** The entry of a shift *)

(** The text of a total reads back as the total. *)
Lemma total_in (f : Sale -> Z) rows z :
  money_in (money0 (dec_text (coalesce_sum 2 f rows))) = Ok z -> z = sum_by f rows.
Proof.
  unfold money0. case_bool_decide as He; intros Hm.
  - exfalso. pose proof (parse_numeric_text (scale (coalesce_sum 2 f rows)) (mant (coalesce_sum 2 f rows))) as E.
    fold (dec_text (coalesce_sum 2 f rows)) in E. by rewrite He in E.
  - unfold money_in, dec_text in Hm. rewrite parse_numeric_text in Hm. unfold of_option in Hm.
    destruct (numeric_col _ _ _) eqn:E; simplify_eq. apply numeric_col_some in E as [-> _].
    unfold coalesce_sum. destruct rows; [done|]. by rewrite round_to_same.
Qed.

Lemma zero_in z : money_in (money0 "0") = Ok z -> z = 0.
Proof. vm_compute. by intros [= <-]. Qed.

(** A total is written as zero exactly when it is zero. *)
Lemma total_zero (f : Sale -> Z) rows : sum_by f rows = 0 -> zero_text (dec_text (coalesce_sum 2 f rows)) = true.
Proof. intros E. unfold coalesce_sum. destruct rows as [|x l]; [done|]. by rewrite E. Qed.
Lemma zero_total (f : Sale -> Z) rows : zero_text (dec_text (coalesce_sum 2 f rows)) = true -> sum_by f rows = 0.
Proof.
  unfold zero_text. intros [E|E]%orb_true_iff; apply bool_decide_eq_true in E;
    pose proof (parse_numeric_text (scale (coalesce_sum 2 f rows)) (mant (coalesce_sum 2 f rows))) as Ep;
    fold (dec_text (coalesce_sum 2 f rows)) in Ep; rewrite E in Ep; vm_compute in Ep;
    unfold coalesce_sum in Ep; destruct rows; simplify_eq; done.
Qed.

(** The debits and the credits the lines of a shift's entry post. *)
Lemma revenue_lines_posts b t entry st day found rows ls :
  (forall x, In x rows -> sale_gross x = sale_net x + sale_tax x) ->
  let total f := dec_text (coalesce_sum 2 f rows) in
  zero_text (total sale_gross) = false ->
  Forall2 (posts_as b t entry)
    (revenue_lines (mkShiftRevenue (total sale_gross) (total sale_net) (total sale_tax) st day found)) ls ->
  Forall (fun l => line_check l = true) ls ->
  sum_by jl_debit ls = sum_by sale_gross rows /\ sum_by jl_credit ls = sum_by sale_gross rows
  /\ 0 < sum_by sale_gross rows.
Proof.
  intros Hs total Hz Hp Hc.
  assert (Hsum : sum_by sale_gross rows = sum_by sale_net rows + sum_by sale_tax rows)
    by (rewrite <- sum_by_add; by apply sum_by_ext).
  unfold revenue_lines in Hp. cbn [sr_gross sr_net sr_tax sr_station] in Hp.
  apply Forall2_app_inv_l in Hp as (l1 & l2 & Hp & Ht & ->).
  apply Forall2_cons_inv_l in Hp as (a & l1' & (_ & _ & _ & Ha1%total_in & Ha2%zero_in) & Hp & ->).
  apply Forall2_cons_inv_l in Hp as (c & l1'' & (_ & _ & _ & Hc1%zero_in & Hc2%total_in) & Hp & ->).
  apply Forall2_nil_inv_l in Hp as ->.
  assert (Htax : sum_by jl_debit l2 = 0 /\ sum_by jl_credit l2 = sum_by sale_tax rows).
  { destruct (zero_text (total sale_tax)) eqn:Ez.
    - apply Forall2_nil_inv_l in Ht as ->. simpl. split; [done|]. symmetry. by apply zero_total.
    - apply Forall2_cons_inv_l in Ht as (d & l' & (_ & _ & _ & Hd1%zero_in & Hd2%total_in) & Ht & ->).
      apply Forall2_nil_inv_l in Ht as ->. simpl. lia. }
  destruct Htax as [Et1 Et2]. rewrite !sum_by_app. simpl. rewrite Et1, Et2, Ha1, Ha2, Hc1, Hc2.
  split; [lia|]. split; [lia|].
  apply Forall_app in Hc as [Hc _]. apply Forall_cons in Hc as [Hc _]. unfold line_check in Hc.
  apply andb_true_iff in Hc as [Hc _]. apply andb_true_iff in Hc as [Hc%Z.leb_le _]. rewrite Ha1 in Hc.
  assert (sum_by sale_gross rows <> 0); [|lia]. intros E0. apply total_zero in E0. unfold total in Hz. congruence.
Qed.

(** C13. The revenue of a shift always posts as a balanced entry: over sales
    reached by recognitions and voids and books reached by accounting requests,
    posting the shift's revenue is never refused as unbalanced; when an entry is
    posted its debits and its credits are the gross of the shift's sales, which is
    positive, and every later attempt, by anyone, whatever was sold since and
    whatever accounting requests were committed in between (other postings, the
    reversal of this entry included), posts nothing and leaves the books as they
    are. *)
Theorem PostShiftRevenueJournal_balances s t sh by_ b :
  void_reachable s -> books_reachable b ->
  PostShiftRevenueJournal s t sh by_ b <> Err ErrUnbalanced
  /\ forall v b', PostShiftRevenueJournal s t sh by_ b = Ok (Some v, b') ->
     sum_by jl_debit (ev_lines v) = sum_by sale_gross (shift_sales s t sh)
     /\ sum_by jl_credit (ev_lines v) = sum_by sale_gross (shift_sales s t sh)
     /\ 0 < sum_by sale_gross (shift_sales s t sh)
     /\ forall b2 s2 by2, books_steps b' b2 -> PostShiftRevenueJournal s2 t sh by2 b2 = Ok (None, b2).
Proof.
  intros Hs%void_reachable_inv Hb%books_reachable_inv.
  assert (Hsp : forall x, In x (shift_sales s t sh) -> sale_gross x = sale_net x + sale_tax x).
  { intros x [Hx _]%in_select. by apply (vi_split s Hs). }
  unfold PostShiftRevenueJournal at 1 2, ShiftRevenueTotals.
  destruct (first_where _ _) as [[st y]|]; cbn [fmap option_fmap option_map].
  2: { split; [|intros v b' H]; unfold tbind, tget; [by destruct (EntryExistsForSource _ _ _ _)|].
       tx_step H. by destruct (EntryExistsForSource _ _ _ _). }
  cbn [sr_found sr_gross sr_date sr_station].
  split.
  - unfold tbind, tget. destruct (EntryExistsForSource _ _ _ _); [done|]. destruct (_ || _) eqn:Ez; [done|].
    apply orb_false_iff in Ez as [Hf Ez].
    match goal with |- match PostEntry ?tt ?i ?b0 with _ => _ end <> _ =>
      assert (Hne : PostEntry tt i b0 <> Err ErrUnbalanced) end.
    + apply PostEntry_never_unbalanced; [done|]. intros b1 entry ls Hls Hc.
      by destruct (revenue_lines_posts _ _ _ _ _ _ _ _ Hsp Ez Hls Hc) as (-> & -> & ?).
    + destruct (PostEntry _ _ b) as [[? ?]|]; [done|congruence].
  - intros v0 b0 H. tx_step H. destruct (EntryExistsForSource _ _ _ _); [done|]. destruct (_ || _) eqn:Ez; [done|].
    apply orb_false_iff in Ez as [Hf Ez]. tx_step H. injection H as <- <-.
    rename x into v, x0 into b'. apply PostEntry_inv in E as (Hp & Hls & _).
    pose proof (inserts_effect _ _ _ _ (pe_lines_in _ _ _ _ _ Hp)) as (_ & _ & Ee & _ & _ & _ & _ & _ & _ & Hg).
    assert (Hc : Forall (fun l => line_check l = true) (ev_lines v)) by (eapply Forall_impl; [exact Hg|by intros l (? & _)]).
    destruct (revenue_lines_posts _ _ _ _ _ _ _ _ Hsp Ez (post_lines_posts _ _ _ _ _ _ Hls) Hc) as (-> & -> & ?).
    split_and!; [done..|]. intros b2 s2 by2 Hst. unfold PostShiftRevenueJournal, tbind, tget.
    assert (Hx : EntryExistsForSource b' t "shift_revenue" sh = true);
      [|by rewrite (source_kept_steps _ _ Hst _ _ _ Hx)].
    apply exists_where_true. exists (ev_entry v). rewrite Ee. split; [apply in_or_app; right; by left|].
    rewrite (pe_entry_row _ _ _ _ _ Hp). simpl. by rewrite !bool_decide_eq_true_2.
Qed.

(** ** A run *)

Definition journal_start : Books := mkBooks [] [] [] [] [(1, 4)]%N [(1, 20)]%N 100 1 0.
Definition journal_books : Books := run_requests [BSeed 1; BCreatePeriod 1 1 31] journal_start.

Lemma PostShiftRevenueJournal_balances_witness :
  (exists v b', PostShiftRevenueJournal site_sold 1 200 4 journal_books = Ok (Some v, b')
     /\ sum_by jl_debit (ev_lines v) = 46655)
  /\ PostShiftRevenueJournal site_sold 1 200 4 journal_books <> Err ErrUnbalanced
  /\ forall v b', PostShiftRevenueJournal site_sold 1 200 4 journal_books = Ok (Some v, b') ->
     sum_by jl_debit (ev_lines v) = sum_by sale_gross (shift_sales site_sold 1 200)
     /\ sum_by jl_credit (ev_lines v) = sum_by sale_gross (shift_sales site_sold 1 200)
     /\ 0 < sum_by sale_gross (shift_sales site_sold 1 200)
     /\ forall b2 s2 by2, books_steps b' b2 -> PostShiftRevenueJournal s2 1 200 by2 b2 = Ok (None, b2).
Proof.
  split; [do 2 eexists; split; vm_compute; reflexivity|].
  apply (PostShiftRevenueJournal_balances site_sold 1 200 4 journal_books site_sold_reachable).
  exists journal_start. split; [by constructor|apply run_requests_steps].
Defined.
