(* ===== verification/Finance.v ===== *)
(** * Receivables (package [receivables]: repo.go, invoices.go,
      customer_payments.go)

    Credit customers, the append-only ledger of their charges and payments, and
    the invoices that payments are allocated to.  Amounts are in cents; an amount
    of a request is the decimal its literal denotes, and [$N::numeric] is that
    decimal. *)

From stdpp Require Import base list strings.
From Stdlib Require Import ZArith Lia.
From S2P Require Import Prelude Numeric Schema Ledger Accounting.

Local Open Scope Z_scope.
Local Open Scope tx_scope.

(** ** Rows *)

(** [chk_customers_status] *)
Inductive customer_status :=
| CuProspect | CuActive | CuOnHold | CuSuspended | CuClosed | CuInactive | CuDeleted.
#[export] Instance customer_status_eq : EqDecision customer_status.
Proof. solve_decision. Defined.

Record Customer := mkCustomer {
  cu_id : uuid; cu_tenant : uuid; cu_code : string; cu_name : string; cu_contact : option string;
  cu_phone : option string; cu_email : option string; cu_limit : Z; cu_status : customer_status;
  cu_legal : option string; cu_trading : option string; cu_tax : option string;
  cu_address : option string; cu_type : string; cu_terms : Z; cu_notes : option string;
  cu_created : Z }.

Inductive ar_type := ArCharge | ArPayment | ArAdjustment.

Record AREntry := mkAR {
  ar_id : uuid; ar_tenant : uuid; ar_customer : uuid; ar_kind : ar_type; ar_amount : Z;
  ar_balance : Z; ar_src_type : option string; ar_src : option uuid; ar_by : uuid; ar_at : Z;
  ar_notes : option string }.

(** What the credit check reads of the fleet tables. *)
Record CreditProfile := mkProfile {
  pf_tenant : uuid; pf_customer : uuid; pf_hold : bool; pf_reason : option string;
  pf_risk : string; pf_warning : Z }.
Record FuelAuth := mkAuth {
  fa_tenant : uuid; fa_customer : uuid; fa_amount : Z; fa_approved : bool; fa_expiry : option Z }.

(** [chk_customer_invoice_status] *)
Inductive invoice_status := IvDraft | IvIssued | IvPartial | IvPaid | IvVoided.
#[export] Instance invoice_status_eq : EqDecision invoice_status.
Proof. solve_decision. Defined.

Record CustomerInvoice := mkInvoice {
  iv_id : uuid; iv_tenant : uuid; iv_customer : uuid; iv_number : option string; iv_date : Z;
  iv_due : option Z; iv_amount : Z; iv_outstanding : Z; iv_source_type : string;
  iv_source : option uuid; iv_station : option uuid; iv_status : invoice_status;
  iv_entry : option uuid; iv_by : uuid; iv_created : Z }.

Record InvoiceLine := mkInvoiceLine {
  il_id : uuid; il_tenant : uuid; il_invoice : uuid; il_description : option string; il_amount : Z;
  il_key : string; il_created : Z }.

Inductive payment_status := PyPosted | PyVoided.
#[export] Instance payment_status_eq : EqDecision payment_status.
Proof. solve_decision. Defined.

(** A customer's or a supplier's payment; [py_party] is the one or the other. *)
Record Payment := mkPayment {
  py_id : uuid; py_tenant : uuid; py_party : uuid; py_date : Z; py_method : string;
  py_reference : option string; py_amount : Z; py_allocated : Z; py_key : string;
  py_status : payment_status; py_entry : option uuid; py_by : uuid; py_created : Z }.

(** One application of a payment to an invoice or a payable. *)
Record Allocation := mkAllocation {
  al_id : uuid; al_tenant : uuid; al_payment : uuid; al_target : uuid; al_amount : Z; al_created : Z }.

(** [chk_payables_status] *)
Inductive payable_status := PbOpen | PbPartial | PbPaid | PbVoided.
#[export] Instance payable_status_eq : EqDecision payable_status.
Proof. solve_decision. Defined.

Record Payable := mkPayable {
  pb_id : uuid; pb_tenant : uuid; pb_supplier : uuid; pb_source : uuid; pb_number : option string;
  pb_date : option Z; pb_due : option Z; pb_amount : Z; pb_outstanding : Z; pb_station : option uuid;
  pb_status : payable_status; pb_entry : option uuid; pb_created : Z }.

(** What the import reads of an approved supplier invoice. *)
Record SupplierInvoice := mkSupplierInvoice {
  si_id : uuid; si_tenant : uuid; si_supplier : uuid; si_number : string; si_received : Z;
  si_due : option Z; si_total : Z; si_station : uuid; si_approved : bool }.

(** The finance tables beside the books; users and stations are those of the
    books. *)
Record Fin := mkFin {
  fn_books : Books;
  fn_customers : list Customer;
  fn_ar : list AREntry;
  fn_profiles : list CreditProfile;
  fn_auths : list FuelAuth;
  fn_invoices : list CustomerInvoice;
  fn_ilines : list InvoiceLine;
  fn_payments : list Payment;
  fn_allocs : list Allocation;
  fn_payables : list Payable;
  fn_sinvoices : list SupplierInvoice;
  fn_spayments : list Payment;
  fn_sallocs : list Allocation;
  fn_audit : list AuditRow;
  fn_next : uuid;
  fn_now : Z;
}.

Definition set_books v f := mkFin v (fn_customers f) (fn_ar f) (fn_profiles f) (fn_auths f) (fn_invoices f)
  (fn_ilines f) (fn_payments f) (fn_allocs f) (fn_payables f) (fn_sinvoices f) (fn_spayments f) (fn_sallocs f)
  (fn_audit f) (fn_next f) (fn_now f).
Definition set_customers v f := mkFin (fn_books f) v (fn_ar f) (fn_profiles f) (fn_auths f) (fn_invoices f)
  (fn_ilines f) (fn_payments f) (fn_allocs f) (fn_payables f) (fn_sinvoices f) (fn_spayments f) (fn_sallocs f)
  (fn_audit f) (fn_next f) (fn_now f).
Definition set_ar v f := mkFin (fn_books f) (fn_customers f) v (fn_profiles f) (fn_auths f) (fn_invoices f)
  (fn_ilines f) (fn_payments f) (fn_allocs f) (fn_payables f) (fn_sinvoices f) (fn_spayments f) (fn_sallocs f)
  (fn_audit f) (fn_next f) (fn_now f).
Definition set_invoices v f := mkFin (fn_books f) (fn_customers f) (fn_ar f) (fn_profiles f) (fn_auths f) v
  (fn_ilines f) (fn_payments f) (fn_allocs f) (fn_payables f) (fn_sinvoices f) (fn_spayments f) (fn_sallocs f)
  (fn_audit f) (fn_next f) (fn_now f).
Definition set_ilines v f := mkFin (fn_books f) (fn_customers f) (fn_ar f) (fn_profiles f) (fn_auths f)
  (fn_invoices f) v (fn_payments f) (fn_allocs f) (fn_payables f) (fn_sinvoices f) (fn_spayments f) (fn_sallocs f)
  (fn_audit f) (fn_next f) (fn_now f).
Definition set_payments v f := mkFin (fn_books f) (fn_customers f) (fn_ar f) (fn_profiles f) (fn_auths f)
  (fn_invoices f) (fn_ilines f) v (fn_allocs f) (fn_payables f) (fn_sinvoices f) (fn_spayments f) (fn_sallocs f)
  (fn_audit f) (fn_next f) (fn_now f).
Definition set_allocs v f := mkFin (fn_books f) (fn_customers f) (fn_ar f) (fn_profiles f) (fn_auths f)
  (fn_invoices f) (fn_ilines f) (fn_payments f) v (fn_payables f) (fn_sinvoices f) (fn_spayments f) (fn_sallocs f)
  (fn_audit f) (fn_next f) (fn_now f).
Definition set_payables v f := mkFin (fn_books f) (fn_customers f) (fn_ar f) (fn_profiles f) (fn_auths f)
  (fn_invoices f) (fn_ilines f) (fn_payments f) (fn_allocs f) v (fn_sinvoices f) (fn_spayments f) (fn_sallocs f)
  (fn_audit f) (fn_next f) (fn_now f).
Definition set_spayments v f := mkFin (fn_books f) (fn_customers f) (fn_ar f) (fn_profiles f) (fn_auths f)
  (fn_invoices f) (fn_ilines f) (fn_payments f) (fn_allocs f) (fn_payables f) (fn_sinvoices f) v (fn_sallocs f)
  (fn_audit f) (fn_next f) (fn_now f).
Definition set_sallocs v f := mkFin (fn_books f) (fn_customers f) (fn_ar f) (fn_profiles f) (fn_auths f)
  (fn_invoices f) (fn_ilines f) (fn_payments f) (fn_allocs f) (fn_payables f) (fn_sinvoices f) (fn_spayments f) v
  (fn_audit f) (fn_next f) (fn_now f).
Definition set_audit v f := mkFin (fn_books f) (fn_customers f) (fn_ar f) (fn_profiles f) (fn_auths f)
  (fn_invoices f) (fn_ilines f) (fn_payments f) (fn_allocs f) (fn_payables f) (fn_sinvoices f) (fn_spayments f)
  (fn_sallocs f) v (fn_next f) (fn_now f).
Definition bump_fin f := mkFin (fn_books f) (fn_customers f) (fn_ar f) (fn_profiles f) (fn_auths f)
  (fn_invoices f) (fn_ilines f) (fn_payments f) (fn_allocs f) (fn_payables f) (fn_sinvoices f) (fn_spayments f)
  (fn_sallocs f) (fn_audit f) (fn_next f + 1)%N (fn_now f).

(** The errors of the packages and the violations the driver reports. *)
Inductive fin_error :=
| ErrCustomerNotFound | ErrCreditLimit | ErrCreditHold | ErrInvoiceState | ErrInvoiceNotForCustomer
| ErrOverAllocated | ErrPaymentNotReversible
| FinNoRows | FinUnique | FinCheck | FinForeignKey | FinNumeric.
#[export] Instance fin_error_eq : EqDecision fin_error.
Proof. solve_decision. Defined.

Definition fin_fresh {E} : Tx Fin E uuid := fun f => Ok (fn_next f, bump_fin f).

(** A statement on the books inside a transaction on the finance tables. *)
Definition on_books_tx {E A} (c : Tx Books E A) : Tx Fin E A :=
  fun f => match c (fn_books f) with
           | Ok (a, b) => Ok (a, set_books b f)
           | Err e => Err e
           end.

(** A decimal assigned to a [numeric(14,2)] column. *)
Definition cents (d : dec) : Tx Fin fin_error Z := tlift (of_option FinNumeric (numeric_col 14 2 d)).

(** ** Customers (repo.go) *)

Definition live_customer (tenant id : uuid) (c : Customer) : bool :=
  bool_decide (cu_tenant c = tenant /\ cu_id c = id) && negb (bool_decide (cu_status c = CuDeleted)).
Definition fk_customer (f : Fin) (tenant id : uuid) : bool :=
  exists_where (fun c => bool_decide (cu_tenant c = tenant /\ cu_id c = id)) (fn_customers f).

(** [ORDER BY name] under the collation of the database. *)
Section Customers.
Context (collate : string -> string -> bool).

Definition listed (tenant : uuid) (c : Customer) : bool :=
  bool_decide (cu_tenant c = tenant) && negb (bool_decide (cu_status c = CuDeleted)).
Definition ListCustomers (f : Fin) (tenant : uuid) : list Customer :=
  order_by (fun a b => collate (cu_name a) (cu_name b)) (select (listed tenant) (fn_customers f)).
Definition name_id_le (a b : Customer) : bool :=
  if bool_decide (cu_name a = cu_name b) then (cu_id a <=? cu_id b)%N else collate (cu_name a) (cu_name b).
Definition ListCustomersPage (f : Fin) (tenant : uuid) (limit offset : nat) : list Customer :=
  limit_offset limit offset (order_by name_id_le (select (listed tenant) (fn_customers f))).
End Customers.

Definition GetCustomer (f : Fin) (tenant id : uuid) : result fin_error Customer :=
  of_option ErrCustomerNotFound (first_where (live_customer tenant id) (fn_customers f)).

(** [""] is the absent limit. *)
Record CustomerInput := mkCustomerInput {
  ni_code : string; ni_name : string; ni_contact : option string; ni_phone : option string;
  ni_email : option string; ni_limit : option dec; ni_legal : option string; ni_trading : option string;
  ni_tax : option string; ni_address : option string; ni_type : string; ni_terms : option Z;
  ni_notes : option string }.

(** [COALESCE(NULLIF(x, ''), y)] *)
Definition word_or (x y : string) : string := if bool_decide (x = "")%string then y else x.

(** [idx_customers_tenant_code] *)
Definition same_customer_code (tenant : uuid) (code : string) (c : Customer) : bool :=
  bool_decide (cu_tenant c = tenant) && bool_decide (lower (cu_code c) = lower code)
  && negb (bool_decide (cu_status c = CuDeleted)).

Definition CreateCustomer (tenant : uuid) (i : CustomerInput) : Tx Fin fin_error Customer :=
  let! limit := cents (default (Dec 0 0) (ni_limit i)) in
  tguard (0 <=? limit) FinCheck ;;!
  let! id := fin_fresh in
  let! f := tget in
  let c := mkCustomer id tenant (ni_code i) (ni_name i) (ni_contact i) (ni_phone i) (ni_email i) limit
    CuActive (ni_legal i) (ni_trading i) (ni_tax i) (ni_address i) (word_or (ni_type i) "standard")
    (default 0 (ni_terms i)) (ni_notes i) (fn_now f) in
  tguard (negb (exists_where (same_customer_code tenant (ni_code i)) (fn_customers f))) FinUnique ;;!
  tput (set_customers (fn_customers f ++ [c]) f) ;;! tret c.

(** The update of a live row, returned; the code does not change. *)
Definition update_customer (tenant id : uuid) (g : Customer -> Customer) : Tx Fin fin_error Customer :=
  let! f := tget in
  match first_where (live_customer tenant id) (fn_customers f) with
  | None => tfail ErrCustomerNotFound
  | Some c => tput (set_customers (update_where (live_customer tenant id) g (fn_customers f)) f) ;;! tret (g c)
  end.

Definition UpdateCustomer (tenant id : uuid) (i : CustomerInput) : Tx Fin fin_error Customer :=
  let! limit := match ni_limit i with
                | None => tret None
                | Some d => let! z := cents d in tret (Some z)
                end in
  tguard (match limit with None => true | Some z => 0 <=? z end) FinCheck ;;!
  update_customer tenant id (fun c =>
    mkCustomer (cu_id c) (cu_tenant c) (cu_code c) (word_or (ni_name i) (cu_name c)) (ni_contact i) (ni_phone i)
      (ni_email i) (default (cu_limit c) limit) (cu_status c) (opt_or (ni_legal i) (cu_legal c))
      (opt_or (ni_trading i) (cu_trading c)) (opt_or (ni_tax i) (cu_tax c)) (opt_or (ni_address i) (cu_address c))
      (word_or (ni_type i) (cu_type c)) (default (cu_terms c) (ni_terms i)) (opt_or (ni_notes i) (cu_notes c))
      (cu_created c)).

Definition with_status (st : customer_status) (c : Customer) : Customer :=
  mkCustomer (cu_id c) (cu_tenant c) (cu_code c) (cu_name c) (cu_contact c) (cu_phone c) (cu_email c) (cu_limit c)
    st (cu_legal c) (cu_trading c) (cu_tax c) (cu_address c) (cu_type c) (cu_terms c) (cu_notes c) (cu_created c).
Definition status_word (w : string) : option customer_status :=
  match w with
  | "prospect" => Some CuProspect | "active" => Some CuActive | "on_hold" => Some CuOnHold
  | "suspended" => Some CuSuspended | "closed" => Some CuClosed | "inactive" => Some CuInactive
  | "deleted" => Some CuDeleted | _ => None
  end%string.
(** A word the check does not list fails only when a row is updated. *)
Definition SetCustomerStatus (tenant id : uuid) (status : string) : Tx Fin fin_error Customer :=
  let! f := tget in
  tguard (exists_where (live_customer tenant id) (fn_customers f)) ErrCustomerNotFound ;;!
  let! st := tlift (of_option FinCheck (status_word status)) in
  update_customer tenant id (with_status st).

(** ** The receivables ledger (repo.go) *)

Definition ar_of (tenant customer : uuid) (e : AREntry) : bool :=
  bool_decide (ar_tenant e = tenant /\ ar_customer e = customer).
Definition ar_sum (f : Fin) (tenant customer : uuid) : Z :=
  sum_by ar_amount (select (ar_of tenant customer) (fn_ar f)).
Definition Balance (f : Fin) (tenant customer : uuid) : string :=
  dec_text (coalesce_sum 2 ar_amount (select (ar_of tenant customer) (fn_ar f))).

Definition auth_held (f : Fin) (tenant customer : uuid) : Z :=
  sum_by fa_amount (select (fun a => bool_decide (fa_tenant a = tenant /\ fa_customer a = customer) && fa_approved a)
    (fn_auths f)).

(** The profile of a customer is unique ([uq_ccp_customer]). *)
Definition manual_hold (f : Fin) (tenant customer : uuid) : bool :=
  match first_where (fun p => bool_decide (pf_tenant p = tenant /\ pf_customer p = customer)) (fn_profiles f) with
  | Some p => pf_hold p
  | None => false
  end.
Definition standing_hold (f : Fin) (c : Customer) : bool :=
  manual_hold f (cu_tenant c) (cu_id c)
  || bool_decide (cu_status c = CuOnHold) || bool_decide (cu_status c = CuSuspended).

Definition insert_ar (tenant customer : uuid) (kind : ar_type) (amount balance : dec) (srcType : option string)
    (src : option uuid) (by_ : uuid) (notes : option string) : Tx Fin fin_error AREntry :=
  let! a := cents amount in
  let! b := cents balance in
  let! id := fin_fresh in
  let! f := tget in
  let e := mkAR id tenant customer kind a b srcType src by_ (fn_now f) notes in
  tguard (fk_customer f tenant customer && fk_pair (bk_users (fn_books f)) tenant by_) FinForeignKey ;;!
  tput (set_ar (fn_ar f ++ [e]) f) ;;! tret e.

(** The insert is decided on what the first statement read: its snapshot is the
    state the charge starts in, or an older one when the statement waited for
    another charge's lock on the customer's row. *)
Definition charge_on (snap : Fin) (tenant customer : uuid) (amount : dec) (srcType : option string) (src : option uuid)
    (by_ : uuid) (notes : option string) (allowOverLimit : bool) : Tx Fin fin_error AREntry :=
  match first_where (live_customer tenant customer) (fn_customers snap) with
  | None => tfail ErrCustomerNotFound
  | Some c =>
      tguard (negb (standing_hold snap c)) ErrCreditHold ;;!
      let balance := dec_of 2 (ar_sum snap tenant customer) in
      let held := dec_of 2 (auth_held snap tenant customer) in
      tguard (allowOverLimit
              || dec_leb (dec_add (dec_add balance held) amount) (dec_of 2 (cu_limit c))) ErrCreditLimit ;;!
      insert_ar tenant customer ArCharge amount (dec_add balance amount) srcType src by_ notes
  end.
Definition PostCharge (tenant customer : uuid) (amount : dec) (srcType : option string) (src : option uuid)
    (by_ : uuid) (notes : option string) (allowOverLimit : bool) : Tx Fin fin_error AREntry :=
  let! f := tget in charge_on f tenant customer amount srcType src by_ notes allowOverLimit.

Definition PostPayment (tenant customer : uuid) (amount : dec) (srcType : option string) (src : option uuid)
    (by_ : uuid) (notes : option string) : Tx Fin fin_error AREntry :=
  let! f := tget in
  insert_ar tenant customer ArPayment (dec_opp amount) (dec_sub (dec_of 2 (ar_sum f tenant customer)) amount)
    srcType src by_ notes.

Definition ar_newest (a b : AREntry) : bool :=
  (ar_at b <? ar_at a) || ((ar_at b =? ar_at a) && (ar_id a <=? ar_id b)%N).
Definition Statement (f : Fin) (tenant customer : uuid) : list AREntry :=
  order_by ar_newest (select (ar_of tenant customer) (fn_ar f)).

(** Customers with a nonzero balance, largest first. *)
Definition Aging (f : Fin) (tenant : uuid) : list (Customer * Z) :=
  order_by (fun a b => b.2 <=? a.2)
    (select (fun r => negb (r.2 =? 0))
       ((fun c => (c, ar_sum f tenant (cu_id c))) <$> select (listed tenant) (fn_customers f))).

(** ** Invoices (invoices.go) *)

Record InvoiceInput := mkInvoiceInput {
  ii_customer : uuid; ii_number : option string; ii_date : Z; ii_due : option Z; ii_source_type : string;
  ii_source : option uuid; ii_station : option uuid; ii_by : uuid }.

Definition iv_by_id (tenant id : uuid) (i : CustomerInvoice) : bool :=
  bool_decide (iv_tenant i = tenant /\ iv_id i = id).

Definition with_invoice (amount outstanding : Z) (st : invoice_status) (entry : option uuid)
    (i : CustomerInvoice) : CustomerInvoice :=
  mkInvoice (iv_id i) (iv_tenant i) (iv_customer i) (iv_number i) (iv_date i) (iv_due i) amount outstanding
    (iv_source_type i) (iv_source i) (iv_station i) st entry (iv_by i) (iv_created i).

Definition CreateInvoice (tenant : uuid) (i : InvoiceInput) : Tx Fin fin_error CustomerInvoice :=
  let src := word_or (ii_source_type i) "manual" in
  let! id := fin_fresh in
  let! f := tget in
  let v := mkInvoice id tenant (ii_customer i) (ii_number i) (ii_date i) (ii_due i) 0 0 src (ii_source i)
    (ii_station i) IvDraft None (ii_by i) (fn_now f) in
  tguard (bool_decide (src ∈ ["credit_sale"; "manual"; "adjustment"]%string)) FinCheck ;;!
  tguard (fk_customer f tenant (ii_customer i) && fk_pair (bk_users (fn_books f)) tenant (ii_by i)
          && fk_opt (fk_pair (bk_stations (fn_books f)) tenant) (ii_station i)) FinForeignKey ;;!
  tput (set_invoices (fn_invoices f ++ [v]) f) ;;! tret v.

Definition fk_invoice (f : Fin) (tenant id : uuid) : bool := exists_where (iv_by_id tenant id) (fn_invoices f).

Definition AddInvoiceLine (tenant invoice : uuid) (description : option string) (amount : dec) (key : string)
  : Tx Fin fin_error unit :=
  let! a := cents amount in
  tguard (0 <? a) FinCheck ;;!
  let! id := fin_fresh in
  let! f := tget in
  tguard (fk_invoice f tenant invoice) FinForeignKey ;;!
  tput (set_ilines (fn_ilines f ++ [mkInvoiceLine id tenant invoice description a (word_or key "sales_revenue")
                                      (fn_now f)]) f).

Definition line_on_invoice (tenant invoice : uuid) (l : InvoiceLine) : bool :=
  bool_decide (il_tenant l = tenant /\ il_invoice l = invoice).
Definition lines_total (f : Fin) (tenant invoice : uuid) : dec :=
  coalesce_sum 2 il_amount (select (line_on_invoice tenant invoice) (fn_ilines f)).

Definition FinalizeInvoiceAmount (tenant invoice : uuid) : Tx Fin fin_error Z :=
  let! f := tget in
  tguard (fk_invoice f tenant invoice) FinNoRows ;;!
  let! total := cents (lines_total f tenant invoice) in
  tguard (0 <=? total) FinCheck ;;!
  tput (set_invoices (update_where (iv_by_id tenant invoice)
          (fun i => with_invoice total total (iv_status i) (iv_entry i) i) (fn_invoices f)) f) ;;!
  tret total.

Definition draft_invoice (tenant id : uuid) (i : CustomerInvoice) : bool :=
  iv_by_id tenant id i && bool_decide (iv_status i = IvDraft).
Definition issued (i : CustomerInvoice) : CustomerInvoice :=
  with_invoice (iv_amount i) (iv_outstanding i) IvIssued (iv_entry i) i.
Definition IssueInvoice (tenant id : uuid) : Tx Fin fin_error CustomerInvoice :=
  let! f := tget in
  match first_where (draft_invoice tenant id) (fn_invoices f) with
  | None => tfail ErrInvoiceState
  | Some i => tput (set_invoices (update_where (draft_invoice tenant id) issued (fn_invoices f)) f) ;;!
              tret (issued i)
  end.

(** The billed keys, sorted by the C collation of the words, with their totals. *)
Definition RevenueGroup : Type := string * Z.
Definition RevenueBreakdown (f : Fin) (tenant invoice : uuid) : list RevenueGroup :=
  let rows := select (line_on_invoice tenant invoice) (fn_ilines f) in
  (fun k => (k, sum_by il_amount (select (fun l => bool_decide (il_key l = k)) rows)))
    <$> order_by String.leb (remove_dups (il_key <$> rows)).

Definition line_created_le (a b : InvoiceLine) : bool :=
  (il_created a <? il_created b) || ((il_created a =? il_created b) && (il_id a <=? il_id b)%N).
Definition ListInvoiceLines (f : Fin) (tenant invoice : uuid) : list InvoiceLine :=
  order_by line_created_le (select (line_on_invoice tenant invoice) (fn_ilines f)).

Definition SetInvoiceJournalEntry (tenant id entry : uuid) : Tx Fin fin_error unit :=
  let! f := tget in
  tput (set_invoices (update_where (iv_by_id tenant id)
          (fun i => with_invoice (iv_amount i) (iv_outstanding i) (iv_status i) (Some entry) i) (fn_invoices f)) f).

Definition GetInvoice (f : Fin) (tenant id : uuid) : result fin_error CustomerInvoice :=
  of_option ErrCustomerNotFound (first_where (iv_by_id tenant id) (fn_invoices f)).

(** [uuid.Nil] lists every customer's. *)
Definition billed_to (tenant customer : uuid) (i : CustomerInvoice) : bool :=
  bool_decide (iv_tenant i = tenant)
  && (bool_decide (customer = uuid_nil) || bool_decide (iv_customer i = customer)).
Definition invoice_newest (a b : CustomerInvoice) : bool :=
  (iv_date b <? iv_date a) || ((iv_date b =? iv_date a) && (iv_created b <=? iv_created a)).
Definition ListInvoices (f : Fin) (tenant customer : uuid) : list CustomerInvoice :=
  order_by invoice_newest (select (billed_to tenant customer) (fn_invoices f)).
Definition invoice_newest_id (a b : CustomerInvoice) : bool :=
  (iv_date b <? iv_date a)
  || ((iv_date b =? iv_date a)
      && ((iv_created b <? iv_created a) || ((iv_created b =? iv_created a) && (iv_id a <=? iv_id b)%N))).
Definition ListInvoicesPage (f : Fin) (tenant customer : uuid) (limit offset : nat) : list CustomerInvoice :=
  limit_offset limit offset (order_by invoice_newest_id (select (billed_to tenant customer) (fn_invoices f))).

Definition open_invoice (i : CustomerInvoice) : bool :=
  bool_decide (iv_status i = IvIssued) || bool_decide (iv_status i = IvPartial).

(** The invoice may take the amount: the customer's, open, and not exceeded. *)
Definition payable_by (tenant customer id : uuid) (amount : dec) (i : CustomerInvoice) : bool :=
  iv_by_id tenant id i && bool_decide (iv_customer i = customer) && open_invoice i
  && dec_leb amount (dec_of 2 (iv_outstanding i)).

(** The decision is on the exact difference, the column holds it in cents. *)
Definition ApplyInvoicePayment (tenant customer id : uuid) (amount : dec) : Tx Fin fin_error CustomerInvoice :=
  let! f := tget in
  match first_where (payable_by tenant customer id amount) (fn_invoices f) with
  | Some i =>
      let rest := dec_sub (dec_of 2 (iv_outstanding i)) amount in
      let! rem := cents rest in
      tguard (0 <=? rem) FinCheck ;;!
      let i' := with_invoice (iv_amount i) rem (if dec_leb rest (Dec 0 0) then IvPaid else IvPartial) (iv_entry i) i in
      tput (set_invoices (update_where (payable_by tenant customer id amount) (fun _ => i') (fn_invoices f)) f) ;;!
      tret i'
  | None =>
      match first_where (iv_by_id tenant id) (fn_invoices f) with
      | Some i => if bool_decide (iv_customer i = customer) then tfail ErrOverAllocated
                  else tfail ErrInvoiceNotForCustomer
      | None => tfail ErrOverAllocated
      end
  end.

(** Open invoices per customer, largest first. *)
Definition InvoiceAging (f : Fin) (tenant : uuid) : list (Customer * Z) :=
  order_by (fun a b => b.2 <=? a.2)
    (select (fun r => 0 <? r.2)
       ((fun c => (c, sum_by iv_outstanding
                        (select (fun i => bool_decide (iv_tenant i = tenant /\ iv_customer i = cu_id c) && open_invoice i)
                           (fn_invoices f))))
          <$> select (fun c => bool_decide (cu_tenant c = tenant)) (fn_customers f))).

(** ** Customer payments (customer_payments.go) *)

Record CustomerPaymentInput := mkCustomerPaymentInput {
  qi_party : uuid; qi_date : Z; qi_method : string; qi_reference : option string; qi_key : string; qi_by : uuid }.

Definition py_by_id (tenant id : uuid) (p : Payment) : bool := bool_decide (py_tenant p = tenant /\ py_id p = id).
Definition with_payment (amount allocated : Z) (st : payment_status) (entry : option uuid) (p : Payment) : Payment :=
  mkPayment (py_id p) (py_tenant p) (py_party p) (py_date p) (py_method p) (py_reference p) amount allocated
    (py_key p) st entry (py_by p) (py_created p).

Definition CreateCustomerPayment (tenant : uuid) (i : CustomerPaymentInput) : Tx Fin fin_error Payment :=
  let! id := fin_fresh in
  let! f := tget in
  let p := mkPayment id tenant (qi_party i) (qi_date i) (qi_method i) (qi_reference i) 0 0
    (word_or (qi_key i) "bank") PyPosted None (qi_by i) (fn_now f) in
  tguard (fk_customer f tenant (qi_party i) && fk_pair (bk_users (fn_books f)) tenant (qi_by i)) FinForeignKey ;;!
  tput (set_payments (fn_payments f ++ [p]) f) ;;! tret p.

(** [allocated_amount + $3, amount + $3] on the rows the update finds. *)
Fixpoint bump_payments (q : Payment -> bool) (both : bool) (amount : dec) (l : list Payment)
  : result fin_error (list Payment) :=
  match l with
  | [] => Ok []
  | p :: rest =>
      (let? p' := if q p then
         let? total := if both then of_option FinNumeric (numeric_col 14 2 (dec_add (dec_of 2 (py_amount p)) amount))
                       else Ok (py_amount p) in
         let? allocated := of_option FinNumeric (numeric_col 14 2 (dec_add (dec_of 2 (py_allocated p)) amount)) in
         if (0 <=? total) && (0 <=? allocated) then Ok (with_payment total allocated (py_status p) (py_entry p) p)
         else Err FinCheck
       else Ok p in
       let? rest' := bump_payments q both amount rest in
       Ok (p' :: rest'))%res
  end.

Definition AddCustomerAllocation (tenant payment invoice : uuid) (amount : dec) : Tx Fin fin_error unit :=
  let! a := cents amount in
  tguard (0 <? a) FinCheck ;;!
  let! id := fin_fresh in
  let! f := tget in
  tguard (exists_where (py_by_id tenant payment) (fn_payments f) && fk_invoice f tenant invoice) FinForeignKey ;;!
  tput (set_allocs (fn_allocs f ++ [mkAllocation id tenant payment invoice a (fn_now f)]) f) ;;!
  let! f := tget in
  let! ps := tlift (bump_payments (py_by_id tenant payment) true amount (fn_payments f)) in
  tput (set_payments ps f).

Definition SetCustomerPaymentJournalEntry (tenant id entry : uuid) : Tx Fin fin_error unit :=
  let! f := tget in
  tput (set_payments (update_where (py_by_id tenant id)
          (fun p => with_payment (py_amount p) (py_allocated p) (py_status p) (Some entry) p) (fn_payments f)) f).

Definition payment_newest (a b : Payment) : bool :=
  (py_date b <? py_date a) || ((py_date b =? py_date a) && (py_created b <=? py_created a)).
Definition payment_newest_id (a b : Payment) : bool :=
  (py_date b <? py_date a)
  || ((py_date b =? py_date a)
      && ((py_created b <? py_created a) || ((py_created b =? py_created a) && (py_id a <=? py_id b)%N))).
Definition paid_in (tenant : uuid) (p : Payment) : bool := bool_decide (py_tenant p = tenant).
Definition ListCustomerPayments (f : Fin) (tenant : uuid) : list Payment :=
  order_by payment_newest (select (paid_in tenant) (fn_payments f)).
Definition ListCustomerPaymentsPage (f : Fin) (tenant : uuid) (limit offset : nat) : list Payment :=
  limit_offset limit offset (order_by payment_newest_id (select (paid_in tenant) (fn_payments f))).

(** The pool's read and the read under [FOR UPDATE] are one query. *)
Definition GetCustomerPayment (f : Fin) (tenant id : uuid) : result fin_error Payment :=
  of_option ErrCustomerNotFound (first_where (py_by_id tenant id) (fn_payments f)).
Definition getCustomerPaymentTx (tenant id : uuid) : Tx Fin fin_error Payment :=
  let! f := tget in tlift (GetCustomerPayment f tenant id).

Definition alloc_of (tenant payment : uuid) (a : Allocation) : bool :=
  bool_decide (al_tenant a = tenant /\ al_payment a = payment).
Definition alloc_created_le (a b : Allocation) : bool :=
  (al_created a <? al_created b) || ((al_created a =? al_created b) && (al_id a <=? al_id b)%N).
Definition ListCustomerAllocations (f : Fin) (tenant payment : uuid) : list Allocation :=
  order_by alloc_created_le (select (alloc_of tenant payment) (fn_allocs f)).

Definition restored (a : Allocation) (i : CustomerInvoice) : CustomerInvoice :=
  let rem := Z.min (iv_outstanding i + al_amount a) (iv_amount i) in
  with_invoice (iv_amount i) rem (if iv_amount i <=? rem then IvIssued else IvPartial) (iv_entry i) i.
Definition restore (tenant : uuid) (l : list Allocation) (t : list CustomerInvoice) : list CustomerInvoice :=
  fold_left (fun t a => update_where (iv_by_id tenant (al_target a)) (restored a) t) l t.

(** The allocations are read on the pool.  The stored sums stay within the
    column: none exceeds the invoice's amount. *)
Definition ReverseCustomerPayment (pool : Fin) (tenant payment : uuid) : Tx Fin fin_error (Payment * list Allocation) :=
  let! p := getCustomerPaymentTx tenant payment in
  tguard (bool_decide (py_status p = PyPosted)) ErrPaymentNotReversible ;;!
  let allocs := ListCustomerAllocations pool tenant payment in
  let! f := tget in
  tput (set_invoices (restore tenant allocs (fn_invoices f)) f) ;;!
  let! f := tget in
  tput (set_payments (update_where (py_by_id tenant payment)
          (fun p => with_payment (py_amount p) (py_allocated p) PyVoided (py_entry p) p) (fn_payments f)) f) ;;!
  tret (with_payment (py_amount p) (py_allocated p) PyVoided (py_entry p) p, allocs).
