(* ===== verification/Payables.v ===== *)
(** * Payables (package [payables]: repo.go, supplier_payments.go) and the aging
      of receivables (package [receivables]: aging.go)

    Supplier invoices imported as payables, the payments that settle them, and the
    day-aged views of what is outstanding on either side. *)

From stdpp Require Import base list strings.
From Stdlib Require Import ZArith Lia.
From S2P Require Import Prelude Numeric Schema Ledger Accounting Finance.

Local Open Scope Z_scope.
Local Open Scope tx_scope.

(** ** Payables (repo.go) *)

Definition pb_by_id (tenant id : uuid) (p : Payable) : bool := bool_decide (pb_tenant p = tenant /\ pb_id p = id).
Definition with_payable (outstanding : Z) (st : payable_status) (entry : option uuid) (p : Payable) : Payable :=
  mkPayable (pb_id p) (pb_tenant p) (pb_supplier p) (pb_source p) (pb_number p) (pb_date p) (pb_due p)
    (pb_amount p) outstanding (pb_station p) st entry (pb_created p).

(** Approved and without a payable. *)
Definition importable (f : Fin) (tenant : uuid) (i : SupplierInvoice) : bool :=
  bool_decide (si_tenant i = tenant) && si_approved i
  && negb (exists_where (fun p => bool_decide (pb_tenant p = si_tenant i /\ pb_source p = si_id i)) (fn_payables f)).

Fixpoint import_rows (l : list SupplierInvoice) : Tx Fin fin_error (list Payable) :=
  match l with
  | [] => tret []
  | i :: rest =>
      let! id := fin_fresh in
      let! f := tget in
      let p := mkPayable id (si_tenant i) (si_supplier i) (si_id i) (Some (si_number i)) (Some (si_received i))
        (si_due i) (si_total i) (si_total i) (Some (si_station i)) PbOpen None (fn_now f) in
      tguard (0 <=? si_total i) FinCheck ;;!
      tguard (negb (exists_where (fun q => bool_decide (pb_tenant q = si_tenant i /\ pb_source q = si_id i))
                      (fn_payables f))) FinUnique ;;!
      tput (set_payables (fn_payables f ++ [p]) f) ;;!
      let! ps := import_rows rest in
      tret (p :: ps)
  end.

Definition ImportApprovedInvoices (tenant : uuid) : Tx Fin fin_error (list Payable) :=
  let! f := tget in import_rows (select (importable f tenant) (fn_sinvoices f)).

(** [due_date NULLS LAST] *)
Definition due_lt (a b : option Z) : bool :=
  match a, b with
  | Some x, Some y => x <? y
  | Some _, None => true
  | None, _ => false
  end.
Definition due_first (a b : Payable) : bool :=
  due_lt (pb_due a) (pb_due b) || (negb (due_lt (pb_due b) (pb_due a)) && (pb_created a <=? pb_created b)).
Definition due_first_id (a b : Payable) : bool :=
  due_lt (pb_due a) (pb_due b)
  || (negb (due_lt (pb_due b) (pb_due a))
      && ((pb_created a <? pb_created b) || ((pb_created a =? pb_created b) && (pb_id a <=? pb_id b)%N))).
Definition owed (tenant : uuid) (p : Payable) : bool := bool_decide (pb_tenant p = tenant).
Definition payables_List (f : Fin) (tenant : uuid) : list Payable :=
  order_by due_first (select (owed tenant) (fn_payables f)).
Definition payables_ListPage (f : Fin) (tenant : uuid) (limit offset : nat) : list Payable :=
  limit_offset limit offset (order_by due_first_id (select (owed tenant) (fn_payables f))).

Definition payables_Get (f : Fin) (tenant id : uuid) : result fin_error Payable :=
  of_option ErrCustomerNotFound (first_where (pb_by_id tenant id) (fn_payables f)).

Definition SetJournalEntry (tenant id entry : uuid) : Tx Fin fin_error unit :=
  let! f := tget in
  tput (set_payables (update_where (pb_by_id tenant id)
          (fun p => with_payable (pb_outstanding p) (pb_status p) (Some entry) p) (fn_payables f)) f).

(** Not void, and not exceeded; the payment's supplier is not looked at. *)
Definition takes (tenant id : uuid) (amount : dec) (p : Payable) : bool :=
  pb_by_id tenant id p && negb (bool_decide (pb_status p = PbVoided))
  && dec_leb amount (dec_of 2 (pb_outstanding p)).

Definition ApplyPayment (tenant id : uuid) (amount : dec) : Tx Fin fin_error Payable :=
  let! f := tget in
  match first_where (takes tenant id amount) (fn_payables f) with
  | None => tfail ErrOverAllocated
  | Some p =>
      let rest := dec_sub (dec_of 2 (pb_outstanding p)) amount in
      let! rem := cents rest in
      tguard (0 <=? rem) FinCheck ;;!
      let p' := with_payable rem (if dec_leb rest (Dec 0 0) then PbPaid else PbPartial) (pb_entry p) p in
      tput (set_payables (update_where (takes tenant id amount) (fun _ => p') (fn_payables f)) f) ;;!
      tret p'
  end.

(** ** Supplier payments (supplier_payments.go) *)

Record SupplierPaymentInput := mkSupplierPaymentInput {
  ti_party : uuid; ti_date : Z; ti_method : string; ti_reference : option string; ti_amount : dec;
  ti_key : string; ti_by : uuid }.

(** The table has no foreign key on the supplier. *)
Definition CreatePayment (tenant : uuid) (i : SupplierPaymentInput) : Tx Fin fin_error Payment :=
  let! a := cents (ti_amount i) in
  tguard (0 <=? a) FinCheck ;;!
  let! id := fin_fresh in
  let! f := tget in
  let p := mkPayment id tenant (ti_party i) (ti_date i) (ti_method i) (ti_reference i) a 0
    (word_or (ti_key i) "bank") PyPosted None (ti_by i) (fn_now f) in
  tguard (fk_pair (bk_users (fn_books f)) tenant (ti_by i)) FinForeignKey ;;!
  tput (set_spayments (fn_spayments f ++ [p]) f) ;;! tret p.

Definition AddAllocation (tenant payment payable : uuid) (amount : dec) : Tx Fin fin_error unit :=
  let! a := cents amount in
  tguard (0 <? a) FinCheck ;;!
  let! id := fin_fresh in
  let! f := tget in
  tguard (exists_where (py_by_id tenant payment) (fn_spayments f)
          && exists_where (pb_by_id tenant payable) (fn_payables f)) FinForeignKey ;;!
  tput (set_sallocs (fn_sallocs f ++ [mkAllocation id tenant payment payable a (fn_now f)]) f) ;;!
  let! f := tget in
  let! ps := tlift (bump_payments (py_by_id tenant payment) false amount (fn_spayments f)) in
  tput (set_spayments ps f).

Definition SetPaymentJournalEntry (tenant id entry : uuid) : Tx Fin fin_error unit :=
  let! f := tget in
  tput (set_spayments (update_where (py_by_id tenant id)
          (fun p => with_payment (py_amount p) (py_allocated p) (py_status p) (Some entry) p) (fn_spayments f)) f).

Definition ListPayments (f : Fin) (tenant : uuid) : list Payment :=
  order_by payment_newest (select (paid_in tenant) (fn_spayments f)).
Definition ListPaymentsPage (f : Fin) (tenant : uuid) (limit offset : nat) : list Payment :=
  limit_offset limit offset (order_by payment_newest_id (select (paid_in tenant) (fn_spayments f))).

(** ** Day-aged buckets *)

(** The days a bill is past its due date at a day; none without a date. *)
Definition days_past (asOf : Z) (due : option Z) : Z := match due with None => 0 | Some d => asOf - d end.
Definition between (lo hi n : Z) : bool := (lo <=? n) && (n <=? hi).

(** The five sums of the [FILTER] clauses over rows with an amount and a number
    of days. *)
Record buckets := mkBuckets { bu_current : Z; bu_30 : Z; bu_60 : Z; bu_90 : Z; bu_over : Z }.
Definition bucket_sums {R} (days amount : R -> Z) (rows : list R) : buckets :=
  mkBuckets (sum_by amount (select (fun r => days r <=? 0) rows))
    (sum_by amount (select (fun r => between 1 30 (days r)) rows))
    (sum_by amount (select (fun r => between 31 60 (days r)) rows))
    (sum_by amount (select (fun r => between 61 90 (days r)) rows))
    (sum_by amount (select (fun r => 90 <? days r) rows)).

Record SupplierAging := mkSupplierAging {
  sa_supplier : uuid; sa_outstanding : Z; sa_count : nat; sa_buckets : buckets }.

Definition unsettled (tenant : uuid) (p : Payable) : bool :=
  bool_decide (pb_tenant p = tenant) && negb (bool_decide (pb_status p = PbPaid))
  && negb (bool_decide (pb_status p = PbVoided)).
Definition supplier_row (today : Z) (supplier : uuid) (rows : list Payable) : SupplierAging :=
  mkSupplierAging supplier (sum_by pb_outstanding rows) (length rows)
    (bucket_sums (fun p => days_past today (pb_due p)) pb_outstanding rows).

(** [today] is [now()::date]. *)
Definition payables_Aging (f : Fin) (tenant : uuid) (today : Z) : list SupplierAging :=
  let rows := select (unsettled tenant) (fn_payables f) in
  order_by (fun a b => sa_outstanding b <=? sa_outstanding a)
    (select (fun r => 0 <? sa_outstanding r)
       ((fun s => supplier_row today s (select (fun p => bool_decide (pb_supplier p = s)) rows))
          <$> remove_dups (pb_supplier <$> rows))).
Definition payables_AgingTotals (f : Fin) (tenant : uuid) (today : Z) : SupplierAging :=
  supplier_row today uuid_nil (select (fun p => unsettled tenant p && (0 <? pb_outstanding p)) (fn_payables f)).

(** *** Receivables (aging.go) *)

(** [GREATEST(0, asOf - due_date)] *)
Definition days_overdue (asOf : Z) (i : CustomerInvoice) : Z := Z.max 0 (days_past asOf (iv_due i)).
Definition aged_invoice (tenant : uuid) (i : CustomerInvoice) : bool :=
  bool_decide (iv_tenant i = tenant) && open_invoice i && (0 <? iv_outstanding i).

(** A NULL due date counts as current and is counted. *)
Definition no_due (i : CustomerInvoice) : Z := match iv_due i with None => 1 | Some _ => 0 end.

(** Approved and not expired. *)
Definition live_held (f : Fin) (tenant customer : uuid) : Z :=
  sum_by fa_amount (select (fun a => bool_decide (fa_tenant a = tenant /\ fa_customer a = customer) && fa_approved a
    && match fa_expiry a with None => true | Some e => fn_now f <? e end) (fn_auths f)).
Definition exposure (f : Fin) (tenant customer : uuid) : Z :=
  ar_sum f tenant customer + live_held f tenant customer.

Record AgingBucketRow := mkAgingRow {
  ag_customer : uuid; ag_code : string; ag_name : string; ag_buckets : buckets; ag_outstanding : Z;
  ag_overdue : Z; ag_limit : Z; ag_exposure : Z; ag_available : Z; ag_utilization : dec; ag_warning : Z;
  ag_over_limit : bool; ag_hold : bool; ag_reason : option string; ag_risk : string;
  ag_status : customer_status; ag_no_due : Z }.

Definition profile_of (f : Fin) (c : Customer) : option CreditProfile :=
  first_where (fun p => bool_decide (pf_tenant p = cu_tenant c /\ pf_customer p = cu_id c)) (fn_profiles f).
(** [ROUND(exposure / limit * 100, 2)], zero without a limit. *)
Definition utilization (limit used : Z) : dec :=
  if 0 <? limit then round2 (dec_mul (numeric_div (dec_of 2 used) (dec_of 2 limit)) (Dec 100 0)) else Dec 0 0.

Definition aging_row (f : Fin) (tenant : uuid) (asOf : Z) (c : Customer) (rows : list CustomerInvoice) : AgingBucketRow :=
  mkAgingRow (cu_id c) (cu_code c) (cu_name c) (bucket_sums (days_overdue asOf) iv_outstanding rows)
    (sum_by iv_outstanding rows) (sum_by iv_outstanding (select (fun i => 0 <? days_overdue asOf i) rows))
    (cu_limit c) (exposure f tenant (cu_id c)) (cu_limit c - exposure f tenant (cu_id c))
    (utilization (cu_limit c) (exposure f tenant (cu_id c))) (default 8000 (pf_warning <$> profile_of f c))
    ((0 <? cu_limit c) && (cu_limit c <? exposure f tenant (cu_id c))) (standing_hold f c)
    (profile_of f c ≫= pf_reason) (default "standard"%string (pf_risk <$> profile_of f c)) (cu_status c)
    (sum_by no_due rows).

(** The customers with a group of open invoices that sums above zero; the order,
    by outstanding and name, is left out here. *)
Definition aging_rows (f : Fin) (tenant : uuid) (asOf : Z) : list AgingBucketRow :=
  let inv := select (aged_invoice tenant) (fn_invoices f) in
  omap (fun c =>
    let rows := select (fun i => bool_decide (iv_customer i = cu_id c)) inv in
    if bool_decide (rows <> []) && (0 <? sum_by iv_outstanding rows) then Some (aging_row f tenant asOf c rows)
    else None) (select (listed tenant) (fn_customers f)).

Section Aging.
Context (collate : string -> string -> bool).
Definition aging_first (a b : AgingBucketRow) : bool :=
  (ag_outstanding b <? ag_outstanding a)
  || ((ag_outstanding b =? ag_outstanding a) && collate (ag_name a) (ag_name b)).
Definition AgingBuckets (f : Fin) (tenant : uuid) (asOf : Z) : list AgingBucketRow :=
  order_by aging_first (aging_rows f tenant asOf).
End Aging.

Record AgingTotals := mkAgingTotals {
  at_buckets : buckets; at_outstanding : Z; at_overdue : Z; at_with_balance : nat; at_over_limit : nat;
  at_on_hold : nat; at_no_due : Z; at_unallocated : nat; at_unallocated_amount : Z }.

Definition live_party (f : Fin) (tenant customer : uuid) : bool :=
  exists_where (live_customer tenant customer) (fn_customers f).

(** The three queries of the summary. *)
Definition AgingSummary (f : Fin) (tenant : uuid) (asOf : Z) : AgingTotals :=
  let inv := select (fun i => aged_invoice tenant i && live_party f tenant (iv_customer i)) (fn_invoices f) in
  let groups := select (fun c => 0 <? sum_by iv_outstanding (select (fun i => bool_decide (iv_customer i = c)) inv))
    (remove_dups (iv_customer <$> inv)) in
  let live := select (listed tenant) (fn_customers f) in
  let loose := select (fun p => bool_decide (py_tenant p = tenant) && bool_decide (py_status p = PyPosted)
    && (py_allocated p <? py_amount p) && live_party f tenant (py_party p)) (fn_payments f) in
  mkAgingTotals (bucket_sums (days_overdue asOf) iv_outstanding inv) (sum_by iv_outstanding inv)
    (sum_by iv_outstanding (select (fun i => 0 <? days_overdue asOf i) inv)) (length groups)
    (length (select (fun c => (0 <? cu_limit c) && (cu_limit c <? exposure f tenant (cu_id c))) live))
    (length (select (standing_hold f) live)) (sum_by no_due inv) (length loose)
    (sum_by (fun p => py_amount p - py_allocated p) loose).

Definition bucketLabel (daysOverdue : Z) : string :=
  if daysOverdue <=? 0 then "current" else if daysOverdue <=? 30 then "1-30"
  else if daysOverdue <=? 60 then "31-60" else if daysOverdue <=? 90 then "61-90" else "90+".

(** The open invoices of a customer with their days and label, and the last
    fifty payments. *)
Definition due_then_date (a b : CustomerInvoice) : bool :=
  due_lt (iv_due a) (iv_due b) || (negb (due_lt (iv_due b) (iv_due a)) && (iv_date a <=? iv_date b)).
Definition CustomerCreditDrilldown (f : Fin) (tenant customer : uuid) (asOf : Z)
  : list (CustomerInvoice * Z * string) * list Payment :=
  ((fun i => (i, days_overdue asOf i, bucketLabel (days_overdue asOf i))) <$>
     order_by due_then_date (select (fun i => aged_invoice tenant i && bool_decide (iv_customer i = customer)) (fn_invoices f)),
   take 50 (order_by payment_newest
     (select (fun p => bool_decide (py_tenant p = tenant /\ py_party p = customer)) (fn_payments f)))).
