(* ===== verification/FinanceHandlers.v ===== *)
(** * The finance handlers (services/api/internal/server/customers_handlers.go,
      customer_invoices_handlers.go, payables_handlers.go; [journalErrorResponse]
      of accounting_handlers.go, [parseDecimal] of pricing_handlers.go)

    The routes are behind a tenant-wide permission; the handlers ask for the actor
    only.  A date in a request is [None] when absent and an error when it does not
    parse; an amount is [None] when [strconv.ParseFloat] refuses its text, and the
    decimal it denotes otherwise; the texts of NaN and of the infinities, which
    ParseFloat accepts, are not requests of the model. *)

From stdpp Require Import base list strings.
From Stdlib Require Import ZArith Lia.
From S2P Require Import Prelude Numeric Schema Ledger Float64 Accounting Finance Payables Policy Operations Workforce WorkforceHandlers.

Local Open Scope Z_scope.
Local Open Scope tx_scope.

(** The value of a literal as a double; past the largest one it is refused. *)
Definition parseDecimal (d : dec) : option float64 :=
  let x := f_near (mant d) (pow10 (scale d)) in if f_overflows x then None else Some x.

(** [v, ok := parseDecimal(s); ok && v > 0], and [ok && v >= 0]. *)
Definition positive_amount (a : option dec) : option dec :=
  match a with
  | Some d => match parseDecimal d with
              | Some v => if f_lt (F64 0 0) v then Some d else None
              | None => None
              end
  | None => None
  end.
Definition nonnegative_amount (d : dec) : bool :=
  match parseDecimal d with Some v => f_le (F64 0 0) v | None => false end.

Definition journalErrorResponse (e : acc_error) : http_error :=
  match e with
  | ErrUnbalanced => HttpError 422 "entry debits do not equal credits"
  | ErrNoLines => HttpError 400 "entry has no lines"
  | ErrNoPeriod => HttpError 422 "no accounting period covers this date"
  | ErrPeriodClosed => HttpError 409 "the period is closed"
  | ErrPeriodLocked => HttpError 409 "the period is locked"
  | ErrSystemAccount => HttpError 400 "a referenced system account is not configured; seed the chart of accounts"
  | _ => ops_internal
  end.

Definition fin_audit {E} (a : Actor) (action : string) (entity : uuid) : Tx Fin E unit :=
  fun f => Ok (tt, set_audit (fn_audit f ++ [mkAudit (ac_tenant a) (ac_user a) action entity]) f).
Definition fin_internal {A} (c : Tx Fin fin_error A) : Tx Fin http_error A := tconv (fun _ => ops_internal) c.

Section Handlers.
Context (collate : string -> string -> bool) (cfgDefault cfgMax : Z).

(** ** Customers (customers_handlers.go) *)

Definition handleListCustomers (pool : Fin) (ctx : option Actor) (limit offset : option (result unit Z))
  : result http_error (list Customer * bool) :=
  (let? a := ops_actor ctx in
   let? (l, o) := parsePage cfgDefault cfgMax limit offset in
   Ok (page_of l (ListCustomersPage collate pool (ac_tenant a) (Z.to_nat (l + 1)) (Z.to_nat o))))%res.

(** The limit of the request: absent, refused, or a decimal. *)
Record customerRequest := mkCustomerRequest { nq_limit : option (option dec); nq_input : CustomerInput }.

Definition limit_of (q : customerRequest) : result http_error CustomerInput :=
  let i := nq_input q in
  let put l := mkCustomerInput (ni_code i) (ni_name i) (ni_contact i) (ni_phone i) (ni_email i) l (ni_legal i)
    (ni_trading i) (ni_tax i) (ni_address i) (ni_type i) (ni_terms i) (ni_notes i) in
  match nq_limit q with
  | None => Ok (put None)
  | Some (Some d) => if nonnegative_amount d then Ok (put (Some d))
                     else Err (bad_request "credit_limit must be a non-negative decimal")
  | Some None => Err (bad_request "credit_limit must be a non-negative decimal")
  end.

Definition handleCreateCustomer (ctx : option Actor) (body : result unit customerRequest)
  : Tx Fin http_error Customer :=
  let! a := tlift (ops_actor ctx) in
  let! q := tlift (json_body body) in
  tguard (negb (bool_decide (ni_code (nq_input q) = "")%string) && negb (bool_decide (ni_name (nq_input q) = "")%string))
    (bad_request "code and name are required") ;;!
  let! i := tlift (limit_of q) in
  let! c := tconv (fun e => if bool_decide (e = FinUnique)
                            then HttpError 409 "a customer with that code already exists" else ops_internal)
    (CreateCustomer (ac_tenant a) i) in
  fin_audit a "customer.created" (cu_id c) ;;! tret c.

Definition not_found_or_internal (m : string) (e : fin_error) : http_error :=
  if bool_decide (e = ErrCustomerNotFound) then HttpError 404 m else ops_internal.

Definition handleUpdateCustomer (ctx : option Actor) (id : result unit uuid) (body : result unit customerRequest)
  : Tx Fin http_error Customer :=
  let! a := tlift (ops_actor ctx) in
  let! id := tlift (url_id "invalid customer id" id) in
  let! q := tlift (json_body body) in
  let! i := tlift (limit_of q) in
  let! c := tconv (not_found_or_internal "customer not found") (UpdateCustomer (ac_tenant a) id i) in
  fin_audit a "customer.updated" (cu_id c) ;;! tret c.

Definition handleCustomerStatement (pool : Fin) (ctx : option Actor) (id : result unit uuid)
  : result http_error (Customer * string * list AREntry) :=
  (let? a := ops_actor ctx in
   let? id := url_id "invalid customer id" id in
   let? c := of_option (HttpError 404 "customer not found")
     (first_where (live_customer (ac_tenant a) id) (fn_customers pool)) in
   Ok (c, Balance pool (ac_tenant a) id, Statement pool (ac_tenant a) id))%res.

Definition handleRecordCustomerPayment (pool : Fin) (ctx : option Actor) (id : result unit uuid)
    (body : result unit (option dec * option string)) : Tx Fin http_error AREntry :=
  let! a := tlift (ops_actor ctx) in
  let! id := tlift (url_id "invalid customer id" id) in
  let! (amount, notes) := tlift (json_body body) in
  let! amount := tlift (of_option (bad_request "amount must be a positive decimal") (positive_amount amount)) in
  tlift (match GetCustomer pool (ac_tenant a) id with
         | Ok c => Ok c | Err e => Err (not_found_or_internal "customer not found" e) end) ;;!
  let! e := fin_internal (PostPayment (ac_tenant a) id amount (Some "customer_payment"%string) None (ac_user a) notes) in
  fin_audit a "customer_payment.recorded" (ar_id e) ;;! tret e.

(** ** Invoices (customer_invoices_handlers.go) *)

Record invoiceRequest := mkInvoiceRequest {
  vq_customer : uuid; vq_number : option string; vq_date : option (result unit Z); vq_due : option Z;
  vq_source_type : string; vq_source : option uuid; vq_station : option uuid;
  vq_lines : list (option string * option dec * string) }.

Fixpoint add_lines (tenant invoice : uuid) (l : list (option string * option dec * string)) : Tx Fin http_error unit :=
  match l with
  | [] => tret tt
  | (description, amount, key) :: rest =>
      let! d := tlift (of_option (bad_request "line amounts must be positive decimals") (positive_amount amount)) in
      fin_internal (AddInvoiceLine tenant invoice description d key) ;;!
      add_lines tenant invoice rest
  end.

(** [today] is the date of [time.Now()].  The id of the new invoice. *)
Definition handleCreateCustomerInvoice (today : Z) (ctx : option Actor) (body : result unit invoiceRequest)
  : Tx Fin http_error uuid :=
  let! a := tlift (ops_actor ctx) in
  let! q := tlift (json_body body) in
  tguard (negb (bool_decide (vq_customer q = uuid_nil)) && negb (bool_decide (vq_lines q = [])))
    (bad_request "customer_id and at least one line are required") ;;!
  let! date := tlift (match vq_date q with
                      | None => Ok today
                      | Some (Ok d) => Ok d
                      | Some (Err _) => Err (bad_request "invoice_date must be YYYY-MM-DD")
                      end) in
  let! v := tconv (fun e => if bool_decide (e = FinForeignKey) then bad_request "unknown customer or station"
                            else ops_internal)
    (CreateInvoice (ac_tenant a) (mkInvoiceInput (vq_customer q) (vq_number q) date (vq_due q) (vq_source_type q)
       (vq_source q) (vq_station q) (ac_user a))) in
  add_lines (ac_tenant a) (iv_id v) (vq_lines q) ;;!
  fin_internal (FinalizeInvoiceAmount (ac_tenant a) (iv_id v)) ;;!
  fin_audit a "customer_invoice.created" (iv_id v) ;;! tret (iv_id v).

Definition handleListCustomerInvoices (pool : Fin) (ctx : option Actor) (customer : option (result unit uuid))
    (limit offset : option (result unit Z)) : result http_error (list CustomerInvoice * bool) :=
  (let? a := ops_actor ctx in
   let customer := match customer with Some (Ok c) => c | _ => uuid_nil end in
   let? (l, o) := parsePage cfgDefault cfgMax limit offset in
   Ok (page_of l (ListInvoicesPage pool (ac_tenant a) customer (Z.to_nat (l + 1)) (Z.to_nat o))))%res.

Definition handleGetCustomerInvoice (pool : Fin) (ctx : option Actor) (id : result unit uuid)
  : result http_error CustomerInvoice :=
  (let? a := ops_actor ctx in
   let? id := url_id "invalid id" id in
   of_option (HttpError 404 "customer invoice not found") (first_where (iv_by_id (ac_tenant a) id) (fn_invoices pool)))%res.

Definition issue_lines (i : CustomerInvoice) (groups : list RevenueGroup) : list PostLine :=
  mkPostLine uuid_nil "accounts_receivable" (numeric_text 2 (iv_amount i)) "0" (iv_station i) None
  :: ((fun g => mkPostLine uuid_nil g.1 "0" (numeric_text 2 g.2) (iv_station i) None) <$> groups).

(** The entry posted. *)
Definition handleIssueCustomerInvoice (ctx : option Actor) (id : result unit uuid) : Tx Fin http_error EntryView :=
  let! a := tlift (ops_actor ctx) in
  let! id := tlift (url_id "invalid id" id) in
  let! i := tconv (fun e => if bool_decide (e = ErrInvoiceState) then HttpError 409 "only a draft invoice can be issued"
                            else ops_internal) (IssueInvoice (ac_tenant a) id) in
  let! f := tget in
  let groups := RevenueBreakdown f (ac_tenant a) id in
  let! e := on_books_tx (tconv journalErrorResponse (PostEntry (ac_tenant a)
    (mkPostEntry (iv_date i) "customer_invoice" (Some id) (iv_station i) None (ac_user a) false
       (issue_lines i groups)))) in
  fin_internal (SetInvoiceJournalEntry (ac_tenant a) id (je_id (ev_entry e))) ;;!
  fin_audit a "customer_invoice.issued" id ;;! tret e.

Definition handleCustomerInvoiceAging (pool : Fin) (ctx : option Actor) : result http_error (list (Customer * Z)) :=
  (let? a := ops_actor ctx in Ok (InvoiceAging pool (ac_tenant a)))%res.

(** ** Customer payments *)

Record paymentRequest := mkPaymentRequest {
  rq_party : uuid; rq_date : result unit Z; rq_method : string; rq_reference : option string; rq_key : string;
  rq_allocations : list (uuid * option dec) }.

Definition allocation_error (over other : string) (e : fin_error) : http_error :=
  if bool_decide (e = ErrOverAllocated) then HttpError 422 over
  else if bool_decide (e = ErrInvoiceNotForCustomer) then HttpError 422 other else ops_internal.
Definition unknown_or_internal (m : string) (e : fin_error) : http_error :=
  if bool_decide (e = FinForeignKey) then bad_request m else ops_internal.

(** The balanced pair of an allocation: debit the one account, credit the
    other. *)
Definition pair_lines (debit credit : string) (d : dec) : list PostLine :=
  [mkPostLine uuid_nil debit (dec_text d) "0" None None; mkPostLine uuid_nil credit "0" (dec_text d) None None].

Fixpoint allocate (tenant : uuid) (p : Payment) (key : string) (l : list (uuid * option dec))
  : Tx Fin http_error (list PostLine) :=
  match l with
  | [] => tret []
  | (invoice, amount) :: rest =>
      let! d := tlift (of_option (bad_request "allocation amounts must be positive decimals") (positive_amount amount)) in
      tconv (allocation_error "allocation exceeds the invoice's outstanding balance"
               "allocation targets an invoice that does not belong to the paying customer")
        (ApplyInvoicePayment tenant (py_party p) invoice d) ;;!
      tconv (unknown_or_internal "unknown customer invoice") (AddCustomerAllocation tenant (py_id p) invoice d) ;;!
      let! more := allocate tenant p key rest in
      tret (pair_lines key "accounts_receivable" d ++ more)
  end.

Definition payment_checks (q : paymentRequest) (party : string) : result http_error Z :=
  if bool_decide (rq_party q = uuid_nil) || bool_decide (rq_method q = "")%string || bool_decide (rq_allocations q = [])
  then Err (bad_request (party ++ ", method, and at least one allocation are required"))
  else match rq_date q with
       | Ok d => Ok d
       | Err _ => Err (bad_request "payment_date must be YYYY-MM-DD")
       end.

(** The payment and its entry. *)
Definition handlePostCustomerPayment (ctx : option Actor) (body : result unit paymentRequest)
  : Tx Fin http_error (uuid * EntryView) :=
  let! a := tlift (ops_actor ctx) in
  let! q := tlift (json_body body) in
  let! date := tlift (payment_checks q "customer_id") in
  let key := word_or (rq_key q) "bank" in
  let! p := tconv (unknown_or_internal "unknown customer") (CreateCustomerPayment (ac_tenant a)
    (mkCustomerPaymentInput (rq_party q) date (rq_method q) (rq_reference q) key (ac_user a))) in
  let! lines := allocate (ac_tenant a) p key (rq_allocations q) in
  let! e := on_books_tx (tconv journalErrorResponse (PostEntry (ac_tenant a)
    (mkPostEntry date "customer_payment" (Some (py_id p)) None None (ac_user a) false lines))) in
  fin_internal (SetCustomerPaymentJournalEntry (ac_tenant a) (py_id p) (je_id (ev_entry e))) ;;!
  fin_audit a "customer_payment.posted" (py_id p) ;;! tret (py_id p, e).

Definition reverse_error (e : acc_error) : http_error :=
  match e with
  | ErrAlreadyReversed => HttpError 409 "the payment's journal entry is already reversed"
  | _ => journalErrorResponse e
  end.

(** The voided payment and the reversal, if the payment had an entry. *)
Definition handleReverseCustomerPayment (pool : Fin) (ctx : option Actor) (id : result unit uuid) (reason : option string)
  : Tx Fin http_error (Payment * option EntryView) :=
  let! a := tlift (ops_actor ctx) in
  let! id := tlift (url_id "invalid id" id) in
  let! (p, allocs) := tconv (fun e =>
      if bool_decide (e = ErrCustomerNotFound) then HttpError 404 "customer payment not found"
      else if bool_decide (e = ErrPaymentNotReversible) then HttpError 409 "only a posted payment can be reversed"
      else ops_internal) (ReverseCustomerPayment pool (ac_tenant a) id) in
  let! rev := match py_entry p with
              | None => tret None
              | Some entry => let! e := on_books_tx (tconv reverse_error
                                (ReverseEntry (ac_tenant a) entry (ac_user a) reason)) in
                              tret (Some e)
              end in
  fin_audit a "customer_payment.reversed" (py_id p) ;;! tret (p, rev).

Definition handleListCustomerPayments (pool : Fin) (ctx : option Actor) (limit offset : option (result unit Z))
  : result http_error (list Payment * bool) :=
  (let? a := ops_actor ctx in
   let? (l, o) := parsePage cfgDefault cfgMax limit offset in
   Ok (page_of l (ListCustomerPaymentsPage pool (ac_tenant a) (Z.to_nat (l + 1)) (Z.to_nat o))))%res.

(** ** Payables (payables_handlers.go) *)

Fixpoint post_payables (a : Actor) (today : Z) (l : list Payable) : Tx Fin http_error unit :=
  match l with
  | [] => tret tt
  | p :: rest =>
      let! e := on_books_tx (tconv journalErrorResponse (PostEntry (ac_tenant a)
        (mkPostEntry (default today (pb_date p)) "payable" (Some (pb_id p)) (pb_station p) None (ac_user a) false
           [mkPostLine uuid_nil "inventory" (numeric_text 2 (pb_amount p)) "0" None None;
            mkPostLine uuid_nil "accounts_payable" "0" (numeric_text 2 (pb_amount p)) None None]))) in
      fin_internal (SetJournalEntry (ac_tenant a) (pb_id p) (je_id (ev_entry e))) ;;!
      post_payables a today rest
  end.

(** How many were imported. *)
Definition handleImportPayables (today : Z) (ctx : option Actor) : Tx Fin http_error nat :=
  let! a := tlift (ops_actor ctx) in
  let! created := fin_internal (ImportApprovedInvoices (ac_tenant a)) in
  post_payables a today created ;;!
  fin_audit a "payable.imported" (ac_tenant a) ;;! tret (length created).

Definition handleListPayables (pool : Fin) (ctx : option Actor) (limit offset : option (result unit Z))
  : result http_error (list Payable * bool) :=
  (let? a := ops_actor ctx in
   let? (l, o) := parsePage cfgDefault cfgMax limit offset in
   Ok (page_of l (payables_ListPage pool (ac_tenant a) (Z.to_nat (l + 1)) (Z.to_nat o))))%res.

Definition handleAPaging (pool : Fin) (today : Z) (ctx : option Actor)
  : result http_error (list SupplierAging * SupplierAging) :=
  (let? a := ops_actor ctx in
   Ok (payables_Aging pool (ac_tenant a) today, payables_AgingTotals pool (ac_tenant a) today))%res.

Fixpoint allocate_payables (tenant : uuid) (p : Payment) (key : string) (l : list (uuid * option dec))
  : Tx Fin http_error (list PostLine) :=
  match l with
  | [] => tret []
  | (payable, amount) :: rest =>
      let! d := tlift (of_option (bad_request "allocation amounts must be positive decimals") (positive_amount amount)) in
      tconv (fun e => if bool_decide (e = ErrOverAllocated)
                      then HttpError 422 "allocation exceeds the payable's outstanding balance" else ops_internal)
        (ApplyPayment tenant payable d) ;;!
      tconv (unknown_or_internal "unknown payable") (AddAllocation tenant (py_id p) payable d) ;;!
      let! more := allocate_payables tenant p key rest in
      tret (pair_lines "accounts_payable" key d ++ more)
  end.

Definition settle_header (tenant id : uuid) : Tx Fin http_error unit :=
  let! f := tget in
  tput (set_spayments (update_where (py_by_id tenant id)
          (fun p => with_payment (py_allocated p) (py_allocated p) (py_status p) (py_entry p) p) (fn_spayments f)) f).

Definition handleRecordSupplierPayment (ctx : option Actor) (body : result unit paymentRequest)
  : Tx Fin http_error (uuid * EntryView) :=
  let! a := tlift (ops_actor ctx) in
  let! q := tlift (json_body body) in
  let! date := tlift (payment_checks q "supplier_id") in
  let key := word_or (rq_key q) "bank" in
  let! p := fin_internal (CreatePayment (ac_tenant a)
    (mkSupplierPaymentInput (rq_party q) date (rq_method q) (rq_reference q) (Dec 0 0) key (ac_user a))) in
  let! lines := allocate_payables (ac_tenant a) p key (rq_allocations q) in
  settle_header (ac_tenant a) (py_id p) ;;!
  let! e := on_books_tx (tconv journalErrorResponse (PostEntry (ac_tenant a)
    (mkPostEntry date "supplier_payment" (Some (py_id p)) None None (ac_user a) false lines))) in
  fin_internal (SetPaymentJournalEntry (ac_tenant a) (py_id p) (je_id (ev_entry e))) ;;!
  fin_audit a "supplier_payment.posted" (py_id p) ;;! tret (py_id p, e).

Definition handleListSupplierPayments (pool : Fin) (ctx : option Actor) (limit offset : option (result unit Z))
  : result http_error (list Payment * bool) :=
  (let? a := ops_actor ctx in
   let? (l, o) := parsePage cfgDefault cfgMax limit offset in
   Ok (page_of l (ListPaymentsPage pool (ac_tenant a) (Z.to_nat (l + 1)) (Z.to_nat o))))%res.
End Handlers.
