(* ===== verification/SettleProps.v ===== *)
(** * Properties of the receivables: what is outstanding, what was paid

    The outstanding amount of an invoice against the allocations of the payments
    that stand, over every sequence of committed requests. *)

From stdpp Require Import base list strings relations.
From Stdlib Require Import ZArith Lia.
From S2P Require Import Prelude Frames Numeric Schema Ledger Float64 Accounting AccountingProps RosterProps Finance Payables Policy Operations Workforce WorkforceHandlers FinanceHandlers.

Local Open Scope Z_scope.
Local Open Scope tx_scope.

(** ** Amounts in cents *)

(** A literal with at most two decimals, and its cents. *)
Definition in_cents (d : dec) : Prop := (scale d <= 2)%nat.
Definition cents_of (d : dec) : Z := at_scale 2 d.

Lemma cents_ok d f z f' : cents d f = Ok (z, f') -> z = round_to 2 d /\ f' = f.
Proof.
  unfold cents, tlift, of_option. destruct (numeric_col 14 2 d) eqn:E; [|done]. intros [= <- <-].
  by apply numeric_col_some in E as [? _].
Qed.

Section Cents.
Context (d : dec) (Hd : in_cents d).

Lemma round_cents : round_to 2 d = cents_of d.
Proof. by apply round_to_exact. Qed.

Lemma add_cents x : round_to 2 (dec_add (dec_of 2 x) d) = x + cents_of d.
Proof. rewrite round_to_add by done. by rewrite round_cents. Qed.

Lemma dec_opp_cents : in_cents (dec_opp d) /\ cents_of (dec_opp d) = - cents_of d.
Proof. split; [done|]. unfold cents_of, at_scale, dec_opp. simpl. lia. Qed.

Lemma sub_cents x : dec_sub (dec_of 2 x) d = Dec (x - cents_of d) 2.
Proof.
  unfold dec_sub, dec_add, dec_of, cents_of. simpl. unfold in_cents in Hd. rewrite Nat.max_l by done. f_equal.
  unfold at_scale. simpl. rewrite pow10_0. lia.
Qed.

Lemma leb_cents x : dec_leb d (dec_of 2 x) = (cents_of d <=? x).
Proof.
  unfold dec_leb, cents_of, dec_of. simpl. unfold in_cents in Hd. rewrite Nat.max_r by done. by rewrite at_scale_same.
Qed.

Lemma cents_pos : 0 < mant d -> 0 < cents_of d.
Proof. intros H. unfold cents_of, at_scale. pose proof (pow10_pos (2 - scale d)). nia. Qed.
End Cents.

Lemma leb_zero x : dec_leb (Dec x 2) (Dec 0 0) = (x <=? 0).
Proof. unfold dec_leb. simpl. unfold at_scale. simpl. change (pow10 2) with 100. change (pow10 0) with 1. by rewrite Z.mul_1_r. Qed.

(** A positive double comes from a positive literal. *)
Lemma f_near_sign n d : 0 < d -> f_lt (F64 0 0) (f_near n d) = true -> 0 < n.
Proof.
  intros Hd. unfold f_near. destruct (Z.eqb_spec n 0) as [->|Hn]; [done|].
  destruct (Z.ltb_spec n 0) as [Hlt|?]; [|lia]. intros H. exfalso. revert H.
  pose proof (f_near_pos_spec (- n) d ltac:(lia) Hd) as [Hm _]. destruct (f_near_pos (- n) d) as [m e].
  unfold f_lt, f_le, f_num, f_den, f_neg. cbn [f_m f_e] in *. rewrite negb_true_iff, Z.leb_gt.
  pose proof (pw_pos e). pose proof (pw_pos 0). pose proof (pw_pos (- 0)).
  change (2 ^ 52) with 4503599627370496 in Hm. nia.
Qed.

Lemma positive_amount_ok a d : positive_amount a = Some d -> a = Some d /\ 0 < mant d.
Proof.
  unfold positive_amount, parseDecimal. destruct a as [x|]; [|done].
  destruct (f_overflows _); [done|]. destruct (f_lt _ _) eqn:E; [|done]. intros [= ->].
  split; [done|]. apply f_near_sign in E; [done|]. apply pow10_pos.
Qed.

(** ** The invoices and what was applied to them *)

(** The allocation's payment stands. *)
Definition stands (f : Fin) (a : Allocation) : bool :=
  exists_where (fun p => py_by_id (al_tenant a) (al_payment a) p && bool_decide (py_status p = PyPosted)) (fn_payments f).
Definition on_invoice (t i : uuid) (a : Allocation) : bool := bool_decide (al_tenant a = t /\ al_target a = i).
Definition applied (f : Fin) (t i : uuid) : Z :=
  sum_by al_amount (select (fun a => on_invoice t i a && stands f a) (fn_allocs f)).
Definition allocated (f : Fin) (t p : uuid) : Z := sum_by al_amount (select (alloc_of t p) (fn_allocs f)).

(** The status a stored balance has. *)
Definition status_fits (i : CustomerInvoice) : Prop :=
  match iv_status i with
  | IvDraft | IvIssued => iv_outstanding i = iv_amount i
  | IvPartial => 0 < iv_outstanding i < iv_amount i
  | IvPaid => iv_outstanding i = 0
  | IvVoided => False
  end.

Record Settle_inv (f : Fin) : Prop := {
  sv_invoices : NoDup (iv_id <$> fn_invoices f);
  sv_invoice_lt : forall i, In i (fn_invoices f) -> (iv_id i < fn_next f)%N;
  sv_payments : NoDup (py_id <$> fn_payments f);
  sv_payment_lt : forall p, In p (fn_payments f) -> (py_id p < fn_next f)%N;
  sv_alloc : forall a, In a (fn_allocs f) -> 0 < al_amount a
    /\ (exists i, In i (fn_invoices f) /\ iv_by_id (al_tenant a) (al_target a) i = true /\ iv_status i <> IvDraft)
    /\ (exists p, In p (fn_payments f) /\ py_by_id (al_tenant a) (al_payment a) p = true);
  sv_line : forall l, In l (fn_ilines f) -> 0 < il_amount l
    /\ (exists i, In i (fn_invoices f) /\ iv_by_id (il_tenant l) (il_invoice l) i = true);
  sv_billed : forall i, In i (fn_invoices f) ->
    iv_amount i = sum_by il_amount (select (line_on_invoice (iv_tenant i) (iv_id i)) (fn_ilines f));
  sv_positive : forall i, In i (fn_invoices f) -> 0 < iv_amount i;
  sv_ledger : forall i, In i (fn_invoices f) -> iv_outstanding i = iv_amount i - applied f (iv_tenant i) (iv_id i);
  sv_range : forall i, In i (fn_invoices f) -> 0 <= iv_outstanding i;
  sv_status : forall i, In i (fn_invoices f) -> status_fits i;
  sv_total : forall p, In p (fn_payments f) ->
    py_amount p = allocated f (py_tenant p) (py_id p) /\ py_allocated p = allocated f (py_tenant p) (py_id p);
}.

Lemma iv_by_id_true t k i : iv_by_id t k i = true <-> iv_tenant i = t /\ iv_id i = k.
Proof. unfold iv_by_id. apply bool_decide_eq_true. Qed.
Lemma py_by_id_true t k p : py_by_id t k p = true <-> py_tenant p = t /\ py_id p = k.
Proof. unfold py_by_id. apply bool_decide_eq_true. Qed.
Lemma on_invoice_true t k a : on_invoice t k a = true <-> al_tenant a = t /\ al_target a = k.
Proof. unfold on_invoice. apply bool_decide_eq_true. Qed.
Lemma alloc_of_true t k a : alloc_of t k a = true <-> al_tenant a = t /\ al_payment a = k.
Proof. unfold alloc_of. apply bool_decide_eq_true. Qed.

Lemma applied_nonneg f t i : Settle_inv f -> 0 <= applied f t i.
Proof.
  intros Hi. apply sum_by_nonneg. intros a [Ha _]%in_select. destruct (sv_alloc f Hi a Ha) as [? _]. lia.
Qed.

(** The tables the invariant reads, and the transactions that leave them alone:
    they may only draw ids. *)
Definition settle_frame (f : Fin) := (fn_invoices f, fn_ilines f, fn_payments f, fn_allocs f).
Definition quiet (f f' : Fin) : Prop := settle_frame f' = settle_frame f /\ (fn_next f <= fn_next f')%N.
#[export] Instance quiet_pre : PreOrder quiet.
Proof. split; [by intros f|]. intros f g h [E1 N1] [E2 N2]. split; [congruence|lia]. Qed.

Lemma settle_inv_quiet f f' : Settle_inv f -> quiet f f' -> Settle_inv f'.
Proof.
  intros [] [E Hn]. unfold settle_frame in E. injection E as Ei El Ep Ea.
  assert (Eap : forall t i, applied f' t i = applied f t i) by (intros; unfold applied, stands; by rewrite Ea, Ep).
  assert (Eal : forall t i, allocated f' t i = allocated f t i) by (intros; unfold allocated; by rewrite Ea).
  constructor; rewrite ?Ei, ?Ep, ?Ea, ?El; try done.
  - intros i Hx. specialize (sv_invoice_lt0 i Hx). lia.
  - intros p Hx. specialize (sv_payment_lt0 p Hx). lia.
  - intros i Hx. rewrite Eap. auto.
  - intros p Hx. rewrite Eal. auto.
Qed.

Section Quiet.
Local Abbreviation calm c := (obeys quiet c).

Lemma quiet_fresh {E} : calm (@fin_fresh E).
Proof. intros f x f' [= _ <-]. split; [done|]. simpl. lia. Qed.
Lemma quiet_books {E A} (c : Tx Books E A) : calm (on_books_tx c).
Proof. intros f x f' H. unfold on_books_tx in H. destruct (c (fn_books f)) as [[]|]; simplify_eq. by split. Qed.
Lemma quiet_audit {E} a x e : calm (@fin_audit E a x e).
Proof. by intros f y f' [= _ <-]. Qed.
Lemma quiet_cents d : calm (cents d).
Proof. apply obeys_lift; apply _. Qed.
End Quiet.

Ltac calm_steps :=
  repeat first
    [ apply quiet_fresh | apply quiet_books | apply quiet_audit | apply quiet_cents
    | apply obeys_ret; apply _ | apply obeys_lift; apply _ | apply obeys_guard; apply _ | apply obeys_fail
    | apply obeys_conv
    | lazymatch goal with
      | |- obeys _ (tbind tget _) => fail
      | |- obeys _ (tbind _ _) => apply obeys_bind; [apply _| |intros ?]
      end ].

(** The state read at the head of a computation is the one it writes. *)
Ltac calm_read := apply obeys_read; intros f x f' H; tx_steps H; simplify_eq; try by split.

Lemma quiet_create_customer t i : obeys quiet (CreateCustomer t i).
Proof. unfold CreateCustomer. calm_steps. calm_read. Qed.
Lemma quiet_update_customer t id g : obeys quiet (update_customer t id g).
Proof. calm_read. Qed.
Lemma quiet_UpdateCustomer t id i : obeys quiet (UpdateCustomer t id i).
Proof.
  unfold UpdateCustomer. apply obeys_bind; [apply _| |intros l].
  - destruct (ni_limit i); calm_steps.
  - calm_steps. apply quiet_update_customer.
Qed.
Lemma quiet_insert_ar t c k a b ty s u n : obeys quiet (insert_ar t c k a b ty s u n).
Proof. unfold insert_ar. calm_steps. calm_read. Qed.
Lemma quiet_PostPayment t c a ty s u n : obeys quiet (PostPayment t c a ty s u n).
Proof. unfold PostPayment. apply obeys_read. intros f x f'. apply quiet_insert_ar. Qed.
Lemma quiet_PostCharge t c a ty s u n o : obeys quiet (PostCharge t c a ty s u n o).
Proof.
  unfold PostCharge, charge_on. calm_read. by eapply quiet_insert_ar.
Qed.

Lemma quiet_import_rows l : obeys quiet (import_rows l).
Proof.
  induction l as [|i l IH]; [apply obeys_ret; apply _|]. cbn [import_rows].
  apply obeys_bind; [apply _|apply quiet_fresh|intros id]. apply obeys_read. intros f x f' H. tx_steps H. simplify_eq.
  by apply IH in E1.
Qed.
Lemma quiet_SetJournalEntry t id e : obeys quiet (SetJournalEntry t id e).
Proof. by intros f x f' [= _ <-]. Qed.
Lemma quiet_ApplyPayment t id a : obeys quiet (ApplyPayment t id a).
Proof. calm_read. Qed.
Lemma quiet_CreatePayment t i : obeys quiet (CreatePayment t i).
Proof. unfold CreatePayment. calm_steps. calm_read. Qed.
Lemma quiet_AddAllocation t p b a : obeys quiet (AddAllocation t p b a).
Proof. unfold AddAllocation. calm_steps. calm_read. simpl in H. by injection H as _ <-. Qed.

(** *** The requests that settle nothing on a customer's invoice *)

Lemma quiet_handleCreateCustomer ctx body : obeys quiet (handleCreateCustomer ctx body).
Proof. unfold handleCreateCustomer. calm_steps. apply quiet_create_customer. Qed.
Lemma quiet_handleUpdateCustomer ctx id body : obeys quiet (handleUpdateCustomer ctx id body).
Proof. unfold handleUpdateCustomer. calm_steps. apply quiet_UpdateCustomer. Qed.
Lemma quiet_handleRecordCustomerPayment pool ctx id body : obeys quiet (handleRecordCustomerPayment pool ctx id body).
Proof.
  unfold handleRecordCustomerPayment, fin_internal. calm_steps. destruct a1 as [amount notes]. calm_steps.
  apply quiet_PostPayment.
Qed.
Lemma quiet_post_payables a today l : obeys quiet (post_payables a today l).
Proof.
  induction l as [|p l IH]; [apply obeys_ret; apply _|]. cbn [post_payables]. unfold fin_internal. calm_steps; [|done].
  apply quiet_SetJournalEntry.
Qed.
Lemma quiet_handleImportPayables today ctx : obeys quiet (handleImportPayables today ctx).
Proof.
  unfold handleImportPayables, fin_internal, ImportApprovedInvoices. calm_steps; [|apply quiet_post_payables].
  apply obeys_read. intros f x f'. apply quiet_import_rows.
Qed.
Lemma quiet_allocate_payables t p key l : obeys quiet (allocate_payables t p key l).
Proof.
  induction l as [|[b d] l IH]; [apply obeys_ret; apply _|]. cbn [allocate_payables]. calm_steps; [| |done].
  - apply quiet_ApplyPayment.
  - apply quiet_AddAllocation.
Qed.
Lemma quiet_handleRecordSupplierPayment ctx body : obeys quiet (handleRecordSupplierPayment ctx body).
Proof.
  unfold handleRecordSupplierPayment, fin_internal. calm_steps.
  - apply quiet_CreatePayment.
  - apply quiet_allocate_payables.
  - by intros f x f' [= _ <-].
  - by intros f x f' [= _ <-].
Qed.

(** ** Revisions of the rows *)

(** Rewriting the invoices in place: keys, amounts and balances stay, and no
    invoice returns to draft. *)
Lemma settle_inv_revised (g : CustomerInvoice -> CustomerInvoice) f :
  Settle_inv f ->
  (forall i, iv_id (g i) = iv_id i /\ iv_tenant (g i) = iv_tenant i /\ iv_amount (g i) = iv_amount i
             /\ iv_outstanding (g i) = iv_outstanding i) ->
  (forall i, iv_status i <> IvDraft -> iv_status (g i) <> IvDraft) ->
  (forall i, status_fits i -> status_fits (g i)) ->
  Settle_inv (set_invoices (g <$> fn_invoices f) f).
Proof.
  intros [] Hg Hd Hs.
  assert (Hin : forall i, In i (g <$> fn_invoices f) -> exists j, In j (fn_invoices f) /\ i = g j).
  { intros i Hi%list_elem_of_In. apply list_elem_of_fmap in Hi as (j & -> & Hj%list_elem_of_In). eauto. }
  assert (Hto : forall i, In i (fn_invoices f) -> In (g i) (g <$> fn_invoices f)).
  { intros i Hi. apply list_elem_of_In, list_elem_of_fmap_2, list_elem_of_In, Hi. }
  assert (Hk : forall t k i, iv_by_id t k i = true -> iv_by_id t k (g i) = true).
  { intros t k i [? ?]%iv_by_id_true. destruct (Hg i) as (? & ? & _). apply iv_by_id_true. split; congruence. }
  constructor; simpl; try done.
  - rewrite <- list_fmap_compose. erewrite list_fmap_ext; [apply sv_invoices0|]. intros _ i _. apply Hg.
  - intros i (j & Hj & ->)%Hin. destruct (Hg j) as (-> & _). auto.
  - intros a Ha. destruct (sv_alloc0 a Ha) as (? & (i & Hi & Hb & Hst) & ?). split_and!; [done| |done]. exists (g i). auto.
  - intros l Hl. destruct (sv_line0 l Hl) as (? & i & Hi & Hb). split; [done|]. exists (g i). auto.
  - intros i (j & Hj & ->)%Hin. destruct (Hg j) as (-> & -> & -> & _). auto.
  - intros i (j & Hj & ->)%Hin. destruct (Hg j) as (_ & _ & -> & _). auto.
  - intros i (j & Hj & ->)%Hin. destruct (Hg j) as (-> & -> & -> & ->). by apply sv_ledger0.
  - intros i (j & Hj & ->)%Hin. destruct (Hg j) as (_ & _ & _ & ->). auto.
  - intros i (j & Hj & ->)%Hin. auto.
Qed.

Lemma stands_revised (g : Payment -> Payment) f a :
  (forall p, py_id (g p) = py_id p /\ py_tenant (g p) = py_tenant p /\ py_status (g p) = py_status p) ->
  stands (set_payments (g <$> fn_payments f) f) a = stands f a.
Proof.
  intros Hg. unfold stands. simpl. induction (fn_payments f) as [|p l IH]; [done|]. cbn. f_equal; [|exact IH].
  destruct (Hg p) as (E1 & E2 & E3). unfold py_by_id. by rewrite E1, E2, E3.
Qed.

(** Rewriting the payments in place: keys, status and totals stay. *)
Lemma settle_inv_repaid (g : Payment -> Payment) f :
  Settle_inv f ->
  (forall p, py_id (g p) = py_id p /\ py_tenant (g p) = py_tenant p /\ py_status (g p) = py_status p) ->
  (forall p, py_amount (g p) = py_amount p /\ py_allocated (g p) = py_allocated p) ->
  Settle_inv (set_payments (g <$> fn_payments f) f).
Proof.
  intros [] Hg Ht.
  assert (Hin : forall p, In p (g <$> fn_payments f) -> exists q, In q (fn_payments f) /\ p = g q).
  { intros p Hp%list_elem_of_In. apply list_elem_of_fmap in Hp as (q & -> & Hq%list_elem_of_In). eauto. }
  assert (Eap : forall t i, applied (set_payments (g <$> fn_payments f) f) t i = applied f t i).
  { intros t i. unfold applied. simpl. f_equal. apply select_ext. intros a _. by rewrite stands_revised. }
  constructor; simpl; try done.
  - rewrite <- list_fmap_compose. erewrite list_fmap_ext; [apply sv_payments0|]. intros _ p _. apply Hg.
  - intros p (q & Hq & ->)%Hin. destruct (Hg q) as (-> & _). auto.
  - intros a Ha. destruct (sv_alloc0 a Ha) as (? & ? & p & Hp & Hb). split_and!; [done..|]. exists (g p). split.
    + apply list_elem_of_In, list_elem_of_fmap_2, list_elem_of_In, Hp.
    + destruct (Hg p) as (E1 & E2 & _). unfold py_by_id in *. by rewrite E1, E2.
  - intros i Hi. rewrite Eap. auto.
  - intros p (q & Hq & ->)%Hin. destruct (Hg q) as (-> & -> & _), (Ht q) as (-> & ->). by apply sv_total0.
Qed.

(** ** Creating an invoice *)

(** The lines of a new invoice: positive, and its own. *)
Definition own_line (t k : uuid) (l : InvoiceLine) : Prop := 0 < il_amount l /\ il_tenant l = t /\ il_invoice l = k.

Lemma add_lines_effect t k ls : forall f x f',
  add_lines t k ls f = Ok (x, f') ->
  exists new, fn_ilines f' = fn_ilines f ++ new /\ length new = length ls /\ (forall l, In l new -> own_line t k l)
    /\ fn_invoices f' = fn_invoices f /\ fn_payments f' = fn_payments f /\ fn_allocs f' = fn_allocs f
    /\ (fn_next f <= fn_next f')%N.
Proof.
  induction ls as [|[[d a] key] ls IH]; intros f x f' H; cbn [add_lines] in H.
  { apply tret_ok in H as [_ ->]. exists []. rewrite app_nil_r. by split_and!. }
  unfold fin_internal, AddInvoiceLine in H. tx_steps H.
  apply tbind_ok in E0 as (z & f1 & [-> ->]%cents_ok & E0). tx_steps E0. injection E2 as <- <-. simpl in E0.
  injection E0 as _ <-. apply IH in H as (new & El & Hn & Ho & Ei & Ep & Ea & Hx). simpl in *.
  rewrite <- app_assoc in El. eexists. split; [exact El|]. split_and!; try done; try (simpl; lia).
  intros l [<-|Hl]; [|auto]. split_and!; simpl; [|done..]. by apply Z.ltb_lt.
Qed.

Lemma CreateInvoice_effect t i f v f' :
  CreateInvoice t i f = Ok (v, f') ->
  f' = set_invoices (fn_invoices f ++ [v]) (bump_fin f) /\ iv_id v = fn_next f /\ iv_tenant v = t /\ iv_status v = IvDraft.
Proof. unfold CreateInvoice. intros H. tx_steps H. injection E as <- <-. by subst. Qed.

Lemma lines_total_cents f t k :
  round_to 2 (lines_total f t k) = sum_by il_amount (select (line_on_invoice t k) (fn_ilines f)).
Proof. unfold lines_total, coalesce_sum. destruct (select _ _); [done|]. apply round_to_same. Qed.

Lemma FinalizeInvoiceAmount_effect t k f z f' :
  FinalizeInvoiceAmount t k f = Ok (z, f') ->
  z = sum_by il_amount (select (line_on_invoice t k) (fn_ilines f))
  /\ f' = set_invoices (update_where (iv_by_id t k) (fun i => with_invoice z z (iv_status i) (iv_entry i) i) (fn_invoices f)) f.
Proof.
  unfold FinalizeInvoiceAmount. intros H. apply tbind_get_ok, tbind_guard_ok in H as [_ H].
  apply tbind_ok in H as (y & f1 & [-> ->]%cents_ok & H). apply tbind_guard_ok in H as [_ H].
  rewrite lines_total_cents in H. apply tbind_put_ok, tret_ok in H as [-> ->]. done.
Qed.

(** A new invoice is appended as a draft with its lines, in full outstanding. *)
Lemma create_effect today ctx body f x f' :
  Settle_inv f -> handleCreateCustomerInvoice today ctx body f = Ok (x, f') ->
  exists v new, fn_invoices f' = fn_invoices f ++ [v] /\ fn_ilines f' = fn_ilines f ++ new
    /\ fn_payments f' = fn_payments f /\ fn_allocs f' = fn_allocs f
    /\ iv_id v = fn_next f /\ (fn_next f < fn_next f')%N /\ iv_status v = IvDraft /\ iv_outstanding v = iv_amount v
    /\ new <> [] /\ (forall l, In l new -> own_line (iv_tenant v) (iv_id v) l)
    /\ iv_amount v = sum_by il_amount (select (line_on_invoice (iv_tenant v) (iv_id v)) (fn_ilines f ++ new)).
Proof.
  intros Hi H. unfold handleCreateCustomerInvoice, fin_internal in H. tx_steps H.
  apply CreateInvoice_effect in E3 as (-> & Ek & Et & Es).
  apply add_lines_effect in E4 as (new & El & Hn & Ho & Ei & Ep & Ea & Hx).
  apply FinalizeInvoiceAmount_effect in E5 as (-> & ->). injection E6 as _ <-. subst f'. simpl in *.
  assert (Hself : iv_by_id (ac_tenant x0) (iv_id x3) x3 = true) by by apply iv_by_id_true.
  rewrite El, Ei, update_where_snoc, Hself.
  rewrite update_where_none; [|intros i Hin]. 
  - eexists _, new. split; [done|]. simpl. rewrite Et. split_and!; try done; [lia| ].
    intros ->. destruct (vq_lines x1) eqn:El'; [|done]. simpl in E1. by destruct (bool_decide _).
  - apply not_true_iff_false. intros [_ Hid]%iv_by_id_true. pose proof (sv_invoice_lt f Hi i Hin). lia.
Qed.

(** An invoice outside the table has no lines and no allocations. *)
Lemma unknown_invoice f t k :
  Settle_inv f -> (forall i, In i (fn_invoices f) -> iv_id i <> k) ->
  select (line_on_invoice t k) (fn_ilines f) = [] /\ applied f t k = 0.
Proof.
  intros Hi Hk. split.
  - apply select_none. intros l Hl. apply not_true_iff_false. intros [_ E]%bool_decide_eq_true.
    destruct (sv_line f Hi l Hl) as (_ & i & Hin & [_ Ei]%iv_by_id_true). apply (Hk i Hin). congruence.
  - unfold applied. rewrite select_none; [done|]. intros a Ha. apply not_true_iff_false.
    intros [[_ E]%on_invoice_true _]%andb_true_iff.
    destruct (sv_alloc f Hi a Ha) as (_ & (i & Hin & [_ Ei]%iv_by_id_true & _) & _). apply (Hk i Hin). congruence.
Qed.

Lemma create_inv today ctx body f x f' :
  Settle_inv f -> handleCreateCustomerInvoice today ctx body f = Ok (x, f') -> Settle_inv f'.
Proof.
  intros Hi H. destruct (create_effect _ _ _ _ _ _ Hi H)
    as (v & new & Ei & El & Ep & Ea & Ek & Hx & Es & Eo & Hnew & Hown & Eam).
  assert (Hlt : forall i, In i (fn_invoices f) -> iv_id i <> iv_id v).
  { intros i Hin E. pose proof (sv_invoice_lt f Hi i Hin). lia. }
  destruct (unknown_invoice f (iv_tenant v) (iv_id v) Hi Hlt) as [Hnl Hna].
  assert (Epos : 0 < iv_amount v).
  { rewrite Eam, select_app, Hnl, app_nil_l, select_all.
    - apply sum_by_pos; [done|]. intros l Hl. by apply Hown.
    - intros l Hl. destruct (Hown l Hl) as (_ & ? & ?). by apply bool_decide_eq_true. }
  assert (Eap : forall t i, applied f' t i = applied f t i) by (intros; unfold applied, stands; by rewrite Ea, Ep).
  assert (Eal : forall t i, allocated f' t i = allocated f t i) by (intros; unfold allocated; by rewrite Ea).
  assert (Hin : forall i, In i (fn_invoices f ++ [v]) -> In i (fn_invoices f) \/ i = v).
  { intros i [?|[<-|[]]]%in_app_iff; auto. }
  destruct Hi. constructor; rewrite ?Ei, ?El, ?Ep, ?Ea; try done.
  - apply (NoDup_snoc_fresh iv_id _ _ (fn_next f)); done.
  - intros i [Hi| ->]%Hin; [specialize (sv_invoice_lt0 i Hi)|]; lia.
  - intros p Hp. specialize (sv_payment_lt0 p Hp). lia.
  - intros a Ha. destruct (sv_alloc0 a Ha) as (? & (i & Hi & ?) & ?). split_and!; [done| |done].
    exists i. split; [apply in_app_iff; auto|done].
  - intros l [Hl|Hl]%in_app_iff.
    + destruct (sv_line0 l Hl) as (? & i & Hi & ?). split; [done|]. exists i. split; [apply in_app_iff; auto|done].
    + destruct (Hown l Hl) as (? & ? & ?). split; [done|]. exists v. split; [apply in_app_iff; simpl; auto|].
      by apply iv_by_id_true.
  - intros i [Hi| ->]%Hin; [|done]. rewrite (sv_billed0 i Hi), select_app, sum_by_app.
    rewrite (select_none _ new); [rewrite sum_by_nil; lia|]. intros l Hl. apply not_true_iff_false.
    intros [_ E]%bool_decide_eq_true. destruct (Hown l Hl) as (_ & _ & E'). apply (Hlt i Hi). congruence.
  - intros i [Hi| ->]%Hin; [auto|done].
  - intros i [Hi| ->]%Hin; rewrite Eap; [auto|lia].
  - intros i [Hi| ->]%Hin; [auto|lia].
  - intros i [Hi| ->]%Hin; [auto|]. unfold status_fits. by rewrite Es.
  - intros p Hp. rewrite Eal. auto.
Qed.

(** ** Issuing an invoice *)

Lemma IssueInvoice_inv t id f i f' : Settle_inv f -> IssueInvoice t id f = Ok (i, f') -> Settle_inv f'.
Proof.
  unfold IssueInvoice. intros Hi H. tx_steps H. subst f'.
  apply (settle_inv_revised (fun i => if draft_invoice t id i then issued i else i)); [done|..]; intros j.
  - by destruct (draft_invoice t id j).
  - by destruct (draft_invoice t id j).
  - destruct (draft_invoice t id j) eqn:Ed; [|done]. apply andb_true_iff in Ed as [_ Ed%bool_decide_eq_true].
    unfold status_fits. simpl. by rewrite Ed.
Qed.

Lemma SetInvoiceJournalEntry_inv t id e f x f' :
  Settle_inv f -> SetInvoiceJournalEntry t id e f = Ok (x, f') -> Settle_inv f'.
Proof.
  intros Hi [= _ <-]. eapply (settle_inv_revised (fun i => if iv_by_id t id i then _ i else i)); [done|..]; intros j;
    by destruct (iv_by_id t id j).
Qed.

Lemma issue_inv ctx id f x f' :
  Settle_inv f -> handleIssueCustomerInvoice ctx id f = Ok (x, f') -> Settle_inv f'.
Proof.
  intros Hi H. unfold handleIssueCustomerInvoice, fin_internal in H. tx_steps H. subst f'.
  eapply IssueInvoice_inv in E1; [|done]. eapply quiet_books, settle_inv_quiet in E2; [|done].
  eapply SetInvoiceJournalEntry_inv in E3; [|done]. by eapply quiet_audit, settle_inv_quiet in E4.
Qed.

(** ** Posting a payment *)

Lemma CreateCustomerPayment_effect t i f p f' :
  CreateCustomerPayment t i f = Ok (p, f') ->
  f' = set_payments (fn_payments f ++ [p]) (bump_fin f) /\ py_id p = fn_next f /\ py_tenant p = t
  /\ py_status p = PyPosted /\ py_amount p = 0 /\ py_allocated p = 0.
Proof. unfold CreateCustomerPayment. intros H. tx_steps H. injection E as <- <-. by subst. Qed.

Lemma CreateCustomerPayment_inv t i f p f' :
  Settle_inv f -> CreateCustomerPayment t i f = Ok (p, f') -> Settle_inv f'.
Proof.
  intros Hi H. apply CreateCustomerPayment_effect in H as (-> & Ek & Et & Es & Em & Eo).
  assert (Hno : forall a, In a (fn_allocs f) -> al_payment a <> py_id p).
  { intros a Ha E. destruct (sv_alloc f Hi a Ha) as (_ & _ & q & Hq & [_ Eq]%py_by_id_true).
    pose proof (sv_payment_lt f Hi q Hq). lia. }
  assert (Eap : forall t i, applied (set_payments (fn_payments f ++ [p]) (bump_fin f)) t i = applied f t i).
  { intros t' i'. unfold applied. simpl. f_equal. apply select_ext. intros a Ha. f_equal. unfold stands, exists_where. simpl.
    rewrite existsb_app. simpl. rewrite orb_false_r.
    replace (py_by_id (al_tenant a) (al_payment a) p) with false; [by rewrite orb_false_r|].
    symmetry. apply not_true_iff_false. intros [_ E]%py_by_id_true. by apply (Hno a Ha). }
  destruct Hi. constructor; simpl; try done.
  - intros j Hj. specialize (sv_invoice_lt0 j Hj). lia.
  - by apply (NoDup_snoc_fresh py_id _ _ (fn_next f)).
  - intros q [Hq|[<-|[]]]%in_app_iff; [specialize (sv_payment_lt0 q Hq)|]; lia.
  - intros a Ha. destruct (sv_alloc0 a Ha) as (? & ? & q & Hq & ?). split_and!; [done..|]. exists q.
    split; [apply in_app_iff; auto|done].
  - intros j Hj. rewrite Eap. auto.
  - intros q [Hq|[<-|[]]]%in_app_iff; [by apply sv_total0|]. unfold allocated. simpl.
    rewrite select_none; [by rewrite Em, Eo|]. intros a Ha. apply not_true_iff_false.
    intros [_ E]%alloc_of_true. by apply (Hno a Ha).
Qed.

Section Pair.
Context (t : uuid) (d : dec) (Hd : in_cents d) (Hpos : 0 < mant d).

Lemma ApplyInvoicePayment_effect c k f i' f' :
  ApplyInvoicePayment t c k d f = Ok (i', f') ->
  exists i, In i (fn_invoices f) /\ iv_by_id t k i = true /\ iv_customer i = c /\ open_invoice i = true
    /\ cents_of d <= iv_outstanding i
    /\ i' = with_invoice (iv_amount i) (iv_outstanding i - cents_of d)
              (if iv_outstanding i - cents_of d <=? 0 then IvPaid else IvPartial) (iv_entry i) i
    /\ f' = set_invoices (update_where (payable_by t c k d) (fun _ => i') (fn_invoices f)) f.
Proof.
  unfold ApplyInvoicePayment. intros H. apply tbind_get_ok in H.
  destruct (first_where (payable_by t c k d) (fn_invoices f)) as [i|] eqn:Ef.
  2:{ destruct (first_where (iv_by_id t k) _) as [j|]; [|done]. by destruct (bool_decide (iv_customer j = c)). }
  apply first_where_some in Ef as [Hin Hp]. rewrite (sub_cents d Hd) in H.
  apply tbind_ok in H as (rem & f1 & [-> ->]%cents_ok & H). rewrite round_to_same, leb_zero in H.
  apply tbind_guard_ok in H as [_ H]. apply tbind_put_ok, tret_ok in H as [-> ->].
  unfold payable_by in Hp. rewrite (leb_cents d Hd) in Hp. bool_solve. exists i. split_and!; try done. by apply Z.leb_le.
Qed.

Lemma bump_payments_effect q l ps :
  bump_payments q true d l = Ok ps ->
  ps = update_where q (fun p => with_payment (py_amount p + cents_of d) (py_allocated p + cents_of d) (py_status p) (py_entry p) p) l.
Proof.
  revert ps. induction l as [|p l IH]; intros ps H; [by injection H as <-|]. cbn [bump_payments] in H. unfold rbind in H.
  destruct (q p) eqn:Eq; cbn [update_where map]; rewrite Eq.
  - destruct (numeric_col 14 2 (dec_add (dec_of 2 (py_amount p)) d)) as [z1|] eqn:E1; [|done].
    destruct (numeric_col 14 2 (dec_add (dec_of 2 (py_allocated p)) d)) as [z2|] eqn:E2; [|done].
    apply numeric_col_some in E1 as [-> _]. apply numeric_col_some in E2 as [-> _].
    rewrite !(add_cents d Hd) in H. simpl in H. destruct (_ && _); [|done].
    destruct (bump_payments q true d l); [|done]. injection H as <-. f_equal. by apply IH.
  - destruct (bump_payments q true d l); [|done]. injection H as <-. f_equal. by apply IH.
Qed.

Lemma AddCustomerAllocation_effect p k f x f' :
  AddCustomerAllocation t p k d f = Ok (x, f') ->
  exists a, al_tenant a = t /\ al_payment a = p /\ al_target a = k /\ al_amount a = cents_of d
    /\ f' = set_payments (update_where (py_by_id t p) (fun q => with_payment (py_amount q + cents_of d)
               (py_allocated q + cents_of d) (py_status q) (py_entry q) q) (fn_payments f))
             (set_allocs (fn_allocs f ++ [a]) (bump_fin f)).
Proof.
  unfold AddCustomerAllocation. intros H. apply tbind_ok in H as (z & f1 & [-> ->]%cents_ok & H).
  rewrite (round_cents d Hd) in H. apply tbind_guard_ok in H as [_ H].
  apply tbind_ok in H as (id & f1 & [= <- <-] & H). apply tbind_get_ok, tbind_guard_ok in H as [_ H].
  apply tbind_put_ok, tbind_get_ok, tbind_lift_ok in H as (ps & Eb%bump_payments_effect & [= _ <-]). simpl in *.
  eexists (mkAllocation _ _ _ _ _ _). split_and!; [..|by rewrite Eb]; done.
Qed.
End Pair.

Section Paid.
Context (f : Fin) (Hi : Settle_inv f) (t k p : uuid) (c : Z) (i : CustomerInvoice) (a : Allocation).
Context (Hc : 0 < c) (Hin : In i (fn_invoices f)) (Hik : iv_by_id t k i = true) (Hopen : open_invoice i = true)
  (Hle : c <= iv_outstanding i).
Context (Ht : al_tenant a = t) (Hp : al_payment a = p) (Hk : al_target a = k) (Ha : al_amount a = c).
Context (Hstands : stands f a = true).
Let i' := with_invoice (iv_amount i) (iv_outstanding i - c)
  (if iv_outstanding i - c <=? 0 then IvPaid else IvPartial) (iv_entry i) i.
Let bump := fun q => with_payment (py_amount q + c) (py_allocated q + c) (py_status q) (py_entry q) q.
Context (q : CustomerInvoice -> bool) (Hqi : q i = true) (Hq : forall j, q j = true -> iv_by_id t k j = true).
Let f' := set_payments (update_where (py_by_id t p) bump (fn_payments f))
  (set_allocs (fn_allocs f ++ [a]) (bump_fin (set_invoices (update_where q (fun _ => i') (fn_invoices f)) f))).

Lemma paid_rows j : In j (fn_invoices f') -> (j = i') \/ (In j (fn_invoices f) /\ iv_id j <> iv_id i).
Proof.
  intros (r & Hr & ->)%in_update_where. destruct (q r) eqn:Er; [auto|]. right. split; [done|]. intros E.
  rewrite (NoDup_unique iv_id _ (sv_invoices f Hi) r i Hr Hin E) in Er. congruence.
Qed.

Lemma paid_to j : In j (fn_invoices f) -> exists j', In j' (fn_invoices f') /\ iv_id j' = iv_id j /\ iv_tenant j' = iv_tenant j
  /\ (iv_status j <> IvDraft -> iv_status j' <> IvDraft).
Proof.
  intros Hj. exists (if q j then i' else j). split; [apply in_update_where; eauto|].
  destruct (q j) eqn:Eq; [|done]. apply Hq, iv_by_id_true in Eq as [E1 E2]. apply iv_by_id_true in Hik as [E3 E4].
  simpl. split_and!; [congruence..|]. by destruct (_ <=? 0).
Qed.

Lemma paid_stands x : stands f' x = stands f x.
Proof.
  unfold f'. change (stands (set_payments ((fun q => if py_by_id t p q then bump q else q) <$> fn_payments f) f) x = stands f x).
  apply stands_revised. intros r. by destruct (py_by_id t p r).
Qed.

Lemma paid_applied t' k' : applied f' t' k' = applied f t' k' + (if on_invoice t' k' a then c else 0).
Proof.
  unfold applied. rewrite (select_ext _ (fun x => on_invoice t' k' x && stands f x)) by (intros r _; by rewrite paid_stands).
  change (fn_allocs f') with (fn_allocs f ++ [a]). rewrite select_app, sum_by_app. f_equal. unfold select. cbn [List.filter]. rewrite Hstands, andb_true_r.
  destruct (on_invoice t' k' a); [|done]. rewrite sum_by_cons, sum_by_nil. lia.
Qed.

Lemma paid_allocated t' p' : allocated f' t' p' = allocated f t' p' + (if alloc_of t' p' a then c else 0).
Proof.
  unfold allocated. change (fn_allocs f') with (fn_allocs f ++ [a]). rewrite select_app, sum_by_app. f_equal. unfold select. cbn [List.filter].
  destruct (alloc_of t' p' a); [|done]. rewrite sum_by_cons, sum_by_nil. lia.
Qed.

Lemma paid_inv : Settle_inv f'.
Proof.
  pose proof (applied_nonneg f (iv_tenant i) (iv_id i) Hi) as Hnn. pose proof (sv_ledger f Hi i Hin) as Hled.
  pose proof (sv_positive f Hi i Hin) as Hpos. apply iv_by_id_true in Hik as Hik'. destruct Hik' as [Et Ek].
  assert (Hon : on_invoice (iv_tenant i) (iv_id i) a = true) by (apply on_invoice_true; split; congruence).
  pose proof paid_rows as Hrows. pose proof paid_to as Hto.
  pose proof Hi as []. constructor.
  - assert (E : iv_id <$> fn_invoices f' = iv_id <$> fn_invoices f); [|by rewrite E].
    apply (map_update_where iv_id). intros r Er. apply Hq, iv_by_id_true in Er as [_ ->]. simpl. congruence.
  - intros j [->|[Hj _]]%Hrows; simpl; [specialize (sv_invoice_lt0 i Hin)|specialize (sv_invoice_lt0 j Hj)]; lia.
  - by apply NoDup_update.
  - intros r (s & Hs & ->)%in_update_where. specialize (sv_payment_lt0 s Hs). destruct (py_by_id t p s); simpl; lia.
  - intros x Hx. change (In x (fn_allocs f ++ [a])) in Hx.
    assert (Hx' : 0 < al_amount x /\ (exists j, In j (fn_invoices f) /\ iv_by_id (al_tenant x) (al_target x) j = true /\ iv_status j <> IvDraft)
      /\ exists r, In r (fn_payments f) /\ py_by_id (al_tenant x) (al_payment x) r = true).
    { apply in_app_iff in Hx as [Hx|[<-|[]]]; [auto|]. split_and!; [lia| |].
      - exists i. split_and!; [done|by rewrite Ht, Hk|]. intros E. unfold open_invoice in Hopen. by rewrite E in Hopen.
      - apply exists_where_true in Hstands as (r & Hr & [Hb _]%andb_true_iff). eauto. }
    destruct Hx' as (? & (j & Hj & [E1 E2]%iv_by_id_true & Hst) & r & Hr & Hb). split_and!; [done| |].
    + destruct (Hto j Hj) as (j' & Hj' & E3 & E4 & Hst'). exists j'. split_and!; [done| |auto]. apply iv_by_id_true. split; congruence.
    + exists (if py_by_id t p r then bump r else r). split; [apply in_update_where; eauto|]. by destruct (py_by_id t p r).
  - intros l Hl. destruct (sv_line0 l Hl) as (? & j & Hj & [E1 E2]%iv_by_id_true). split; [done|].
    destruct (Hto j Hj) as (j' & Hj' & E3 & E4 & _). exists j'. split; [done|]. apply iv_by_id_true. split; congruence.
  - intros j [->|[Hj _]]%Hrows; simpl; auto.
  - intros j [->|[Hj _]]%Hrows; simpl; auto.
  - intros j [->|[Hj Hne]]%Hrows; rewrite paid_applied; simpl; [rewrite Hon; lia|].
    replace (on_invoice _ _ a) with false; [rewrite (sv_ledger0 j Hj); lia|]. symmetry. apply not_true_iff_false.
    intros [_ E]%on_invoice_true. congruence.
  - intros j [->|[Hj _]]%Hrows; simpl; [lia|auto].
  - intros j [->|[Hj _]]%Hrows; [|auto]. unfold status_fits. simpl. destruct (Z.leb_spec (iv_outstanding i - c) 0); lia.
  - intros r (s & Hs & ->)%in_update_where. destruct (sv_total0 s Hs) as [E1 E2].
    destruct (py_by_id t p s) eqn:Eb; simpl; rewrite paid_allocated.
    + apply py_by_id_true in Eb as [E3 E4].
      replace (alloc_of _ _ a) with true; [lia|]. symmetry. apply alloc_of_true. split; congruence.
    + replace (alloc_of _ _ a) with false; [rewrite E1, E2; lia|]. symmetry. apply not_true_iff_false. intros [E3 E4]%alloc_of_true.
      rewrite <- not_true_iff_false in Eb. apply Eb, py_by_id_true. split; congruence.
Qed.
End Paid.

(** The amounts of a request are in cents. *)
Definition amounts_in_cents (l : list (uuid * option dec)) : Prop := forall k d, In (k, Some d) l -> in_cents d.
Definition payment_stands (f : Fin) (t p : uuid) : bool :=
  exists_where (fun q => py_by_id t p q && bool_decide (py_status q = PyPosted)) (fn_payments f).

Lemma payment_stands_revised (g : Payment -> Payment) f f' t p :
  fn_payments f' = g <$> fn_payments f ->
  (forall q, py_id (g q) = py_id q /\ py_tenant (g q) = py_tenant q /\ py_status (g q) = py_status q) ->
  payment_stands f' t p = payment_stands f t p.
Proof.
  intros E Hg. pose proof (stands_revised g f (mkAllocation 0 t p 0 0 0) Hg) as H. unfold stands in H. simpl in H.
  unfold payment_stands. by rewrite E.
Qed.

Section Allocate.
Context (t : uuid) (p : Payment) (key : string).

Lemma allocate_one_inv k d f i f1 x f2 :
  Settle_inv f -> payment_stands f t (py_id p) = true -> in_cents d -> 0 < mant d ->
  ApplyInvoicePayment t (py_party p) k d f = Ok (i, f1) -> AddCustomerAllocation t (py_id p) k d f1 = Ok (x, f2) ->
  Settle_inv f2 /\ payment_stands f2 t (py_id p) = true.
Proof.
  intros Hi Hs Hd Hpos H1 H2.
  apply (ApplyInvoicePayment_effect t d Hd) in H1 as (i0 & Hin & Hb & Hcu & Hopen & Hle & -> & ->).
  apply (AddCustomerAllocation_effect t d Hd) in H2 as (a & Ea1 & Ea2 & Ea3 & Ea4 & ->). split.
  - apply (paid_inv f Hi t k (py_id p) (cents_of d) i0 a); try done.
    + by apply cents_pos.
    + unfold stands. by rewrite Ea1, Ea2.
    + unfold payable_by. rewrite Hb, Hopen, bool_decide_eq_true_2 by done. simpl. rewrite leb_cents by done. by apply Z.leb_le.
    + intros j Hj. unfold payable_by in Hj. by bool_solve.
  - rewrite <- Hs. eapply (payment_stands_revised (fun q => if py_by_id t (py_id p) q then _ q else q)); [reflexivity|].
    intros q. by destruct (py_by_id t (py_id p) q).
Qed.

Lemma allocate_inv l : forall f lines f',
  amounts_in_cents l -> Settle_inv f -> payment_stands f t (py_id p) = true ->
  allocate t p key l f = Ok (lines, f') -> Settle_inv f'.
Proof.
  induction l as [|[k amount] l IH]; intros f lines f' Hc Hi Hs H; cbn [allocate] in H.
  { apply tret_ok in H as [_ ->]. done. }
  tx_steps H. apply positive_amount_ok in E as [-> Hpos]. subst f'.
  destruct (allocate_one_inv k x f x0 x1 x2 x3) as [Hi' Hs']; try done.
  { apply (Hc k). simpl. auto. }
  apply (IH x3 x4 x5); try done. intros k' d' Hin. apply (Hc k'). simpl. auto.
Qed.
End Allocate.

Lemma SetCustomerPaymentJournalEntry_inv t id e f x f' :
  Settle_inv f -> SetCustomerPaymentJournalEntry t id e f = Ok (x, f') -> Settle_inv f'.
Proof.
  intros Hi [= _ <-]. eapply (settle_inv_repaid (fun p => if py_by_id t id p then _ p else p)); [done|..]; intros q;
    by destruct (py_by_id t id q).
Qed.

Lemma pay_inv ctx q f x f' :
  amounts_in_cents (rq_allocations q) -> Settle_inv f ->
  handlePostCustomerPayment ctx (Ok q) f = Ok (x, f') -> Settle_inv f'.
Proof.
  intros Hc Hi H. unfold handlePostCustomerPayment, fin_internal, json_body in H. tx_steps H. subst f'. simplify_eq.
  pose proof (CreateCustomerPayment_inv _ _ _ _ _ Hi E2) as Hi1.
  apply CreateCustomerPayment_effect in E2 as (-> & Ek & Et & Es & _).
  eapply allocate_inv in E3; [|done..|].
  - eapply quiet_books, settle_inv_quiet in E4; [|done]. eapply SetCustomerPaymentJournalEntry_inv in E5; [|done].
    by eapply quiet_audit, settle_inv_quiet in E6.
  - apply exists_where_true. eexists. split; [apply in_app_iff; right; left; reflexivity|].
    rewrite Es, bool_decide_eq_true_2 by done. rewrite andb_true_r. by apply py_by_id_true.
Qed.

(** ** Reversing a payment *)

Definition restore_row (t : uuid) (l : list Allocation) (i : CustomerInvoice) : CustomerInvoice :=
  fold_left (fun i a => if iv_by_id t (al_target a) i then restored a i else i) l i.

Lemma restore_rows t l T : restore t l T = restore_row t l <$> T.
Proof.
  unfold restore. revert T. induction l as [|a l IH]; intros T; simpl.
  - by rewrite list_fmap_id.
  - rewrite IH. unfold update_where. change (List.map ?h T) with (h <$> T). by rewrite <- list_fmap_compose.
Qed.

Lemma with_invoice_id i : with_invoice (iv_amount i) (iv_outstanding i) (iv_status i) (iv_entry i) i = i.
Proof. by destruct i. Qed.

(** Within the invoice's amount, the cap of a reversal never cuts. *)
Lemma restore_row_spec t l : forall i,
  let hits := select (fun a => iv_by_id t (al_target a) i) l in
  let rem := iv_outstanding i + sum_by al_amount hits in
  (forall a, In a l -> 0 < al_amount a) -> rem <= iv_amount i ->
  restore_row t l i = with_invoice (iv_amount i) rem
    (if bool_decide (hits = []) then iv_status i else if iv_amount i <=? rem then IvIssued else IvPartial) (iv_entry i) i.
Proof.
  induction l as [|a l IH]; intros i hits rem Hpos Hle.
  { unfold rem, hits. simpl. by rewrite Z.add_0_r, with_invoice_id. }
  assert (Hrest : forall j, 0 <= sum_by al_amount (select (fun x => iv_by_id t (al_target x) j) l)).
  { intros j. apply sum_by_nonneg. intros x [Hx _]%in_select. specialize (Hpos x (or_intror Hx)). lia. }
  specialize (Hpos a (or_introl eq_refl)) as Ha. cbn [restore_row fold_left]. fold (restore_row t l).
  unfold rem, hits in *. clear rem hits. rewrite select_cons in *. destruct (iv_by_id t (al_target a) i) eqn:Eb.
  - rewrite sum_by_cons in *. specialize (Hrest i).
    assert (Ei : restored a i = with_invoice (iv_amount i) (iv_outstanding i + al_amount a)
      (if iv_amount i <=? iv_outstanding i + al_amount a then IvIssued else IvPartial) (iv_entry i) i).
    { unfold restored. rewrite Z.min_l by lia. done. }
    rewrite Ei. pose proof (IH (restored a i)) as IHi. rewrite Ei in IHi. unfold restore_row in *. rewrite IHi.
    2:{ intros x Hx. apply Hpos. by right. }
    2:{ simpl. change (fun x => iv_by_id t (al_target x) (with_invoice _ _ _ _ i)) with (fun x => iv_by_id t (al_target x) i). lia. }
    simpl. change (fun x => iv_by_id t (al_target x) (with_invoice _ _ _ _ i)) with (fun x => iv_by_id t (al_target x) i).
    rewrite Z.add_assoc. unfold with_invoice. simpl. f_equal.
    destruct (bool_decide _) eqn:En; [|reflexivity]. apply bool_decide_eq_true in En.
    change (select (fun x => iv_by_id t (al_target x) i) l = []) in En. rewrite En, sum_by_nil, Z.add_0_r. reflexivity.
  - apply (IH i); [|done]. intros x Hx. apply Hpos. by right.
Qed.

Definition voided (p : Payment) : Payment := with_payment (py_amount p) (py_allocated p) PyVoided (py_entry p) p.

Section Reversed.
Context (f : Fin) (Hi : Settle_inv f) (t p : uuid) (L : list Allocation).
Context (Hstands : payment_stands f t p = true) (HL : L ≡ₚ select (alloc_of t p) (fn_allocs f)).
Let f' := set_payments (update_where (py_by_id t p) voided (fn_payments f))
  (set_invoices (restore t L (fn_invoices f)) f).

(** What the payment had applied to the invoice. *)
Definition released (i : CustomerInvoice) : Z :=
  sum_by al_amount (select (fun a => iv_by_id t (al_target a) i) L).

Lemma voided_stands a : stands f' a = stands f a && negb (alloc_of t p a).
Proof.
  unfold stands, f'. simpl. unfold exists_where, update_where. induction (fn_payments f) as [|r l IH]; [done|]. simpl.
  rewrite IH, andb_orb_distrib_l. f_equal. destruct (py_by_id t p r) eqn:Er.
  - apply py_by_id_true in Er as [E1 E2]. change (py_by_id (al_tenant a) (al_payment a) (voided r))
      with (py_by_id (al_tenant a) (al_payment a) r). rewrite andb_false_r.
    destruct (py_by_id (al_tenant a) (al_payment a) r) eqn:Ea; [|done]. apply py_by_id_true in Ea as [E3 E4].
    replace (alloc_of t p a) with true; [by rewrite andb_false_r|]. symmetry. apply alloc_of_true. split; congruence.
  - destruct (py_by_id (al_tenant a) (al_payment a) r) eqn:Ea; [|done]. apply py_by_id_true in Ea as [E3 E4].
    replace (alloc_of t p a) with false; [by rewrite andb_true_r|]. symmetry. apply not_true_iff_false. intros [E1 E2]%alloc_of_true.
    rewrite <- not_true_iff_false in Er. apply Er, py_by_id_true. split; congruence.
Qed.

Lemma alloc_stands a : alloc_of t p a = true -> stands f a = true.
Proof. intros [E1 E2]%alloc_of_true. unfold stands. by rewrite E1, E2. Qed.

Lemma voided_applied i : applied f (iv_tenant i) (iv_id i) = applied f' (iv_tenant i) (iv_id i) + released i.
Proof.
  unfold released. rewrite HL, select_select. unfold applied. change (fn_allocs f') with (fn_allocs f). rewrite !sum_by_select, <- sum_by_add.
  apply sum_by_ext. intros a _. rewrite voided_stands.
  destruct (alloc_of t p a) eqn:Ea; cbn [negb andb].
  - rewrite (alloc_stands a Ea), andb_false_r, andb_true_r. apply alloc_of_true in Ea as [Ea _].
    replace (iv_by_id t (al_target a) i) with (on_invoice (iv_tenant i) (iv_id i) a); [by destruct (on_invoice _ _ _)|].
    unfold on_invoice, iv_by_id. apply bool_decide_ext. rewrite Ea. split; intros []; split; congruence.
  - rewrite andb_true_r. lia.
Qed.

Lemma released_positive a : In a L -> 0 < al_amount a.
Proof. intros Ha. apply list_elem_of_In in Ha. rewrite HL in Ha. apply list_elem_of_In, in_select in Ha as [Ha _]. by apply (sv_alloc f Hi). Qed.

Lemma applied'_nonneg i : 0 <= applied f' (iv_tenant i) (iv_id i).
Proof. apply sum_by_nonneg. intros a [Ha _]%in_select. destruct (sv_alloc f Hi a Ha) as [? _]. lia. Qed.

Lemma released_nonneg i : 0 <= released i.
Proof. apply sum_by_nonneg. intros a [Ha%released_positive _]%in_select. lia. Qed.
Lemma released_fits i : In i (fn_invoices f) ->
  (select (fun a => iv_by_id t (al_target a) i) L = [] -> released i = 0)
  /\ (select (fun a => iv_by_id t (al_target a) i) L <> [] -> 0 < released i <= iv_amount i - iv_outstanding i).
Proof.
  intros Hin. unfold released. split; [by intros ->|]. intros Hne. split.
  - apply sum_by_pos; [done|]. intros a [Ha%released_positive _]%in_select. lia.
  - fold (released i). rewrite (sv_ledger f Hi i Hin), voided_applied. pose proof (applied'_nonneg i). lia.
Qed.

(** The invoice after the reversal. *)
Lemma restored_row i : In i (fn_invoices f) ->
  restore_row t L i = with_invoice (iv_amount i) (iv_outstanding i + released i)
    (if bool_decide (select (fun a => iv_by_id t (al_target a) i) L = []) then iv_status i
     else if iv_amount i <=? iv_outstanding i + released i then IvIssued else IvPartial) (iv_entry i) i.
Proof.
  intros Hin. apply restore_row_spec; [apply released_positive|]. fold (released i).
  rewrite (sv_ledger f Hi i Hin), voided_applied. pose proof (applied'_nonneg i). lia.
Qed.

Lemma reversal_rows j : In j (fn_invoices f') -> exists i, In i (fn_invoices f) /\ j = restore_row t L i.
Proof.
  change (fn_invoices f') with (restore t L (fn_invoices f)). rewrite restore_rows. intros Hj%list_elem_of_In.
  apply list_elem_of_fmap in Hj as (i & -> & Hin%list_elem_of_In). eauto.
Qed.
Lemma reversal_to i : In i (fn_invoices f) -> In (restore_row t L i) (fn_invoices f').
Proof.
  change (fn_invoices f') with (restore t L (fn_invoices f)). rewrite restore_rows. intros Hin.
  apply list_elem_of_In, list_elem_of_fmap_2, list_elem_of_In, Hin.
Qed.

Lemma reversed_inv : Settle_inv f'.
Proof.
  pose proof reversal_rows as Hrows. pose proof reversal_to as Hto. pose proof restored_row as Hrow. pose proof Hi as [].
  constructor.
  - change (fn_invoices f') with (restore t L (fn_invoices f)). rewrite restore_rows, <- list_fmap_compose.
    erewrite list_fmap_ext; [apply sv_invoices0|]. intros n i Hn%list_elem_of_lookup_2%list_elem_of_In. simpl. by rewrite Hrow.
  - intros j (i & Hin & ->)%Hrows. rewrite (Hrow i Hin). exact (sv_invoice_lt0 i Hin).
  - by apply NoDup_update.
  - intros q (r & Hr & ->)%in_update_where. specialize (sv_payment_lt0 r Hr). by destruct (py_by_id t p r).
  - intros a Ha. destruct (sv_alloc0 a Ha) as (? & (i & Hin & Hb & Hst) & r & Hr & Hb'). split_and!; [done| |].
    + exists (restore_row t L i). split; [auto|]. rewrite (Hrow i Hin). split; [done|]. simpl.
      by repeat match goal with |- context [if ?b then _ else _] => destruct b end.
    + exists (if py_by_id t p r then voided r else r). split; [apply in_update_where; eauto|]. by destruct (py_by_id t p r).
  - intros l Hl. destruct (sv_line0 l Hl) as (? & i & Hin & Hb). split; [done|].
    exists (restore_row t L i). split; [auto|]. by rewrite (Hrow i Hin).
  - intros j (i & Hin & ->)%Hrows. rewrite (Hrow i Hin). exact (sv_billed0 i Hin).
  - intros j (i & Hin & ->)%Hrows. rewrite (Hrow i Hin). exact (sv_positive0 i Hin).
  - intros j (i & Hin & ->)%Hrows. rewrite (Hrow i Hin). simpl. rewrite (sv_ledger0 i Hin), voided_applied.
    unfold f'. lia.
  - intros j (i & Hin & ->)%Hrows. rewrite (Hrow i Hin). simpl. pose proof (released_nonneg i). specialize (sv_range0 i Hin). lia.
  - intros j (i & Hin & ->)%Hrows. rewrite (Hrow i Hin). pose proof (released_fits i Hin) as [Hnone Hsome].
    unfold status_fits. simpl. case_bool_decide as E.
    + rewrite (Hnone E), Z.add_0_r. by apply sv_status0.
    + destruct (Z.leb_spec (iv_amount i) (iv_outstanding i + released i)); specialize (Hsome E); specialize (sv_range0 i Hin); lia.
  - intros q (r & Hr & ->)%in_update_where. destruct (sv_total0 r Hr) as [E1 E2]. by destruct (py_by_id t p r).
Qed.
End Reversed.

(** A reversal gives back what the payment applied, and voids it. *)
Lemma reverse_effect pool ctx id reason f x f' :
  handleReverseCustomerPayment pool ctx (Ok id) reason f = Ok (x, f') ->
  exists t, payment_stands f t id = true
    /\ quiet (set_payments (update_where (py_by_id t id) voided (fn_payments f))
               (set_invoices (restore t (ListCustomerAllocations pool t id) (fn_invoices f)) f)) f'.
Proof.
  intros H. unfold handleReverseCustomerPayment, url_id in H.
  apply tbind_lift_ok in H as (a & _ & H). apply tbind_lift_ok in H as (p & [= <-] & H).
  apply tbind_conv_ok in H as ([q al] & f1 & Hr & H).
  unfold ReverseCustomerPayment, getCustomerPaymentTx, GetCustomerPayment in Hr.
  apply tbind_ok in Hr as (q0 & f0 & Hq & Hr). apply tbind_get_ok in Hq. unfold tlift, of_option in Hq.
  destruct (first_where _ _) as [q1|] eqn:Ef; [|done]. injection Hq as -> <-.
  apply tbind_guard_ok in Hr as (Hst & Hr). injection Hr as _ _ <-.
  apply first_where_some in Ef as [Hin Hb]. exists (ac_tenant a). split.
  - apply exists_where_true. exists q0. split; [done|]. by rewrite Hb.
  - revert H. match goal with |- ?c _ = _ -> quiet ?s _ => set (s0 := s); assert (Hq : obeys quiet c) end.
    { destruct (py_entry q); calm_steps. }
    apply Hq.
Qed.

Lemma reverse_inv pool ctx id reason f x f' :
  fn_allocs pool = fn_allocs f -> Settle_inv f ->
  handleReverseCustomerPayment pool ctx id reason f = Ok (x, f') -> Settle_inv f'.
Proof.
  intros Hpool Hi H. destruct id as [id|].
  - apply reverse_effect in H as (t & Hst & Hq). eapply settle_inv_quiet; [|exact Hq].
    apply reversed_inv; [done..|]. rewrite <- Hpool. apply order_by_perm.
  - unfold handleReverseCustomerPayment, url_id in H. by tx_steps H.
Qed.

(** ** Every sequence of committed requests *)

(** The allocations of a reversal are read on the pool: they are those committed
    when it holds the payment's lock. *)
Inductive settle_step (f f' : Fin) : Prop :=
| st_create_customer ctx body c : handleCreateCustomer ctx body f = Ok (c, f') -> settle_step f f'
| st_update_customer ctx id body c : handleUpdateCustomer ctx id body f = Ok (c, f') -> settle_step f f'
| st_record_payment pool ctx id body e : handleRecordCustomerPayment pool ctx id body f = Ok (e, f') -> settle_step f f'
| st_create_invoice today ctx body k : handleCreateCustomerInvoice today ctx body f = Ok (k, f') -> settle_step f f'
| st_issue ctx id e : handleIssueCustomerInvoice ctx id f = Ok (e, f') -> settle_step f f'
| st_pay ctx q r : amounts_in_cents (rq_allocations q) ->
    handlePostCustomerPayment ctx (Ok q) f = Ok (r, f') -> settle_step f f'
| st_reverse pool ctx id reason r : fn_allocs pool = fn_allocs f ->
    handleReverseCustomerPayment pool ctx id reason f = Ok (r, f') -> settle_step f f'
| st_import today ctx n : handleImportPayables today ctx f = Ok (n, f') -> settle_step f f'
| st_supplier_payment ctx body r : handleRecordSupplierPayment ctx body f = Ok (r, f') -> settle_step f f'
(** Another transaction, of the books or of another table. *)
| st_other : quiet f f' -> settle_step f f'.

Lemma settle_step_inv f f' : Settle_inv f -> settle_step f f' -> Settle_inv f'.
Proof.
  intros Hi [].
  - by eapply settle_inv_quiet, quiet_handleCreateCustomer.
  - by eapply settle_inv_quiet, quiet_handleUpdateCustomer.
  - by eapply settle_inv_quiet, quiet_handleRecordCustomerPayment.
  - by eapply create_inv.
  - by eapply issue_inv.
  - by eapply pay_inv.
  - by eapply reverse_inv.
  - by eapply settle_inv_quiet, quiet_handleImportPayables.
  - by eapply settle_inv_quiet, quiet_handleRecordSupplierPayment.
  - by eapply settle_inv_quiet.
Qed.

Lemma settle_reach f f' : rtc settle_step f f' -> Settle_inv f -> Settle_inv f'.
Proof. induction 1; eauto using settle_step_inv. Qed.

Lemma settle_inv_opening f : settle_frame f = ([], [], [], []) -> Settle_inv f.
Proof.
  unfold settle_frame. intros [= Ei El Ep Ea]. constructor; rewrite ?Ei, ?El, ?Ep, ?Ea; try (by intros ? []); apply NoDup_nil_2.
Qed.

(** ** What paying changes *)

(** The same invoice with another balance, a draft or not as before. *)
Definition rebalanced (i j : CustomerInvoice) : Prop :=
  j = with_invoice (iv_amount i) (iv_outstanding j) (iv_status j) (iv_entry i) i
  /\ (iv_status j = IvDraft <-> iv_status i = IvDraft).
#[export] Instance rebalanced_pre : PreOrder rebalanced.
Proof.
  split.
  - intros i. split; [|done]. symmetry. apply with_invoice_id.
  - intros i j k [E1 D1] [E2 D2]. split; [|tauto]. rewrite E2, E1. done.
Qed.

(** Balances move, payments keep their keys and status, and the new allocations
    are of one payment. *)
Record pays (t p : uuid) (f f' : Fin) : Prop := {
  pays_invoices : Forall2 rebalanced (fn_invoices f) (fn_invoices f');
  pays_payments : exists g, fn_payments f' = g <$> fn_payments f
    /\ forall q, py_id (g q) = py_id q /\ py_tenant (g q) = py_tenant q /\ py_status (g q) = py_status q;
  pays_allocs : exists new, fn_allocs f' = fn_allocs f ++ new /\ forall a, In a new -> alloc_of t p a = true;
}.
#[export] Instance pays_pre t p : PreOrder (pays t p).
Proof.
  split.
  - intros f. constructor; [done| |].
    + exists id. by rewrite list_fmap_id.
    + exists []. by rewrite app_nil_r.
  - intros f1 f2 f3 [I1 (g1 & P1 & K1) (n1 & A1 & N1)] [I2 (g2 & P2 & K2) (n2 & A2 & N2)]. constructor; [by etrans| |].
    + exists (g2 ∘ g1). rewrite P2, P1, list_fmap_compose. split; [done|]. intros q.
      destruct (K1 q) as (<- & <- & <-). apply K2.
    + exists (n1 ++ n2). rewrite A2, A1, app_assoc. split; [done|]. intros a [?|?]%in_app_iff; auto.
Qed.

Lemma Forall2_update {A} (R : A -> A -> Prop) `{!Reflexive R} (q : A -> bool) g l :
  (forall x, In x l -> q x = true -> R x (g x)) -> Forall2 R l (update_where q g l).
Proof.
  induction l as [|x l IH]; intros H; [constructor|]. constructor.
  - destruct (q x) eqn:E; [apply H; simpl; auto|reflexivity].
  - apply IH. intros y Hy. apply H. by right.
Qed.

Lemma allocate_one_pays t p k d f i f1 x f2 :
  Settle_inv f -> in_cents d -> ApplyInvoicePayment t (py_party p) k d f = Ok (i, f1) ->
  AddCustomerAllocation t (py_id p) k d f1 = Ok (x, f2) -> pays t (py_id p) f f2.
Proof.
  intros Hi Hd H1 H2.
  apply (ApplyInvoicePayment_effect t d Hd) in H1 as (i0 & Hin & [_ Hk]%iv_by_id_true & _ & Hopen & _ & -> & ->).
  apply (AddCustomerAllocation_effect t d Hd) in H2 as (a & Ea1 & Ea2 & Ea3 & Ea4 & ->). constructor.
  - apply Forall2_update; [apply _|]. intros j Hj Hq. unfold payable_by in Hq. bool_solve.
    assert (j = i0) as ->.
    { apply (NoDup_unique iv_id _ (sv_invoices f Hi)); [done..|]. apply iv_by_id_true in H as [_ ?]. congruence. }
    split; [done|]. simpl. unfold open_invoice in Hopen.
    destruct (_ <=? 0), (iv_status i0) eqn:Es; split; try done.
  - eexists (fun q => if py_by_id t (py_id p) q then _ q else q). split; [reflexivity|].
    intros q. by destruct (py_by_id t (py_id p) q).
  - exists [a]. split; [done|]. intros b [<-|[]]. by apply alloc_of_true.
Qed.

Lemma allocate_pays t p key l : forall f lines f',
  amounts_in_cents l -> Settle_inv f -> payment_stands f t (py_id p) = true ->
  allocate t p key l f = Ok (lines, f') -> pays t (py_id p) f f'.
Proof.
  induction l as [|[k amount] l IH]; intros f lines f' Hc Hi Hs H; cbn [allocate] in H.
  { apply tret_ok in H as [_ ->]. done. }
  tx_steps H. apply positive_amount_ok in E as [-> Hpos]. subst f'.
  assert (Hd : in_cents x) by (apply (Hc k); simpl; auto).
  destruct (allocate_one_inv t p k x f x0 x1 x2 x3) as [Hi' Hs']; try done.
  etrans; [by eapply allocate_one_pays|]. apply (IH x3 x4 x5); try done. intros k' d' Hin. apply (Hc k'). simpl. auto.
Qed.

Lemma quiet_pays t p f f' : quiet f f' -> pays t p f f'.
Proof.
  intros [E _]. unfold settle_frame in E. injection E as Ei El Ep Ea. constructor; rewrite ?Ei, ?Ep, ?Ea; [done| |].
  - exists id. by rewrite list_fmap_id.
  - exists []. by rewrite app_nil_r.
Qed.

Lemma pay_pays ctx q f pid e f' :
  amounts_in_cents (rq_allocations q) -> Settle_inv f ->
  handlePostCustomerPayment ctx (Ok q) f = Ok ((pid, e), f') ->
  exists p, py_id p = pid /\ pid = fn_next f /\ pays (py_tenant p) pid (set_payments (fn_payments f ++ [p]) (bump_fin f)) f'.
Proof.
  intros Hc Hi H. unfold handlePostCustomerPayment, fin_internal, json_body in H. tx_steps H. subst f'. simplify_eq.
  pose proof (CreateCustomerPayment_inv _ _ _ _ _ Hi E2) as Hi1.
  apply CreateCustomerPayment_effect in E2 as (-> & Ek & Et & Es & _). exists x2. split_and!; [done..|].
  eapply allocate_pays in E3; [|done..|].
  - rewrite Et. etrans; [exact E3|]. etrans; [eapply quiet_pays, quiet_books, E4|].
    etrans; [|eapply quiet_pays, quiet_audit, E6]. injection E5 as _ <-. constructor; [done| |exists []; by rewrite app_nil_r].
    eexists (fun q => if py_by_id (ac_tenant x) (py_id x2) q then _ q else q). split; [reflexivity|].
    intros r. by destruct (py_by_id (ac_tenant x) (py_id x2) r).
  - apply exists_where_true. exists x2. split; [apply in_app_iff; right; left; done|].
    rewrite Es, bool_decide_eq_true_2 by done. rewrite andb_true_r. by apply py_by_id_true.
Qed.
