(* ===== verification/SettleRuns.v ===== *)
(** * What the receivables promise, and runs of them

    The ledger of an invoice over every sequence of requests, a payment undone by
    its reversal, the credit gate of a charge, and the runs in which amounts finer
    than a cent break them. *)

From stdpp Require Import base list strings relations.
From Stdlib Require Import ZArith Lia.
From S2P Require Import Prelude Frames Numeric Schema Ledger Float64 Accounting AccountingProps RosterProps Finance Payables Policy Operations Workforce WorkforceHandlers FinanceHandlers SettleProps.

Local Open Scope Z_scope.
Local Open Scope tx_scope.

(** ** The ledger of the invoices *)

(** C14. From tables without invoices and payments, after any sequence of
    committed requests whose allocations are in cents, every customer invoice is
    the sum of its lines, its outstanding balance is that amount less the
    allocations of the payments that were not reversed, never below zero or above
    the amount, and its status is the one of that balance; and every payment,
    reversed or not, is the sum of its allocations. *)
Theorem receivables_ledger f f' :
  settle_frame f = ([], [], [], []) -> rtc settle_step f f' ->
  (forall i, In i (fn_invoices f') ->
     iv_amount i = sum_by il_amount (select (line_on_invoice (iv_tenant i) (iv_id i)) (fn_ilines f'))
     /\ iv_outstanding i = iv_amount i - applied f' (iv_tenant i) (iv_id i)
     /\ 0 <= iv_outstanding i <= iv_amount i /\ status_fits i)
  /\ (forall p, In p (fn_payments f') -> py_amount p = allocated f' (py_tenant p) (py_id p)).
Proof.
  intros E Hr. assert (Hi : Settle_inv f') by (eapply settle_reach, settle_inv_opening; done).
  split; [|intros p Hp; by apply (sv_total f' Hi)]. intros i Hin. pose proof (applied_nonneg f' (iv_tenant i) (iv_id i) Hi).
  pose proof (sv_range f' Hi i Hin). pose proof (sv_ledger f' Hi i Hin).
  split_and!; [by apply (sv_billed f' Hi)|lia..|by apply (sv_status f' Hi)].
Qed.

(** ** A payment and its reversal *)

Lemma Forall2_eq_in {A} (R : A -> A -> Prop) l l' :
  Forall2 R l l' -> (forall x y, In x l -> In y l' -> R x y -> x = y) -> l = l'.
Proof.
  induction 1 as [|x y l l' Hxy _ IH]; intros H; [done|]. f_equal.
  - apply H; simpl; auto.
  - apply IH. intros. apply H; simpl; auto.
Qed.

(** Equal balances are equal invoices. *)
Lemma rebalanced_eq i j :
  rebalanced i j -> iv_outstanding j = iv_outstanding i -> 0 < iv_amount i -> status_fits i -> status_fits j -> i = j.
Proof.
  intros [E D] Eo Hpos Hi Hj. rewrite E, Eo. rewrite E in Hj. unfold status_fits in *. simpl in Hj. rewrite Eo in Hj.
  rewrite <- (with_invoice_id i) at 1. f_equal.
  destruct (iv_status i), (iv_status j); try done; try lia; by destruct D as [D1 D2]; [discriminate D1 || discriminate D2].
Qed.

Section RoundTrip.
Context (f f1 : Fin) (p : Payment) (t' : uuid).
Context (Hi : Settle_inv f) (Hi1 : Settle_inv f1) (Hp : py_id p = fn_next f).
Context (Hpays : pays (py_tenant p) (py_id p) (set_payments (fn_payments f ++ [p]) (bump_fin f)) f1).
Context (Hst : payment_stands f1 t' (py_id p) = true).
Let f2 := set_payments (update_where (py_by_id t' (py_id p)) voided (fn_payments f1))
  (set_invoices (restore t' (ListCustomerAllocations f1 t' (py_id p)) (fn_invoices f1)) f1).

Lemma payment_old a : In a (fn_allocs f) -> al_payment a <> py_id p.
Proof.
  intros Ha E. destruct (sv_alloc f Hi a Ha) as (_ & _ & q & Hq & [_ Eq]%py_by_id_true).
  pose proof (sv_payment_lt f Hi q Hq). lia.
Qed.

Lemma payment_tenant : t' = py_tenant p.
Proof.
  apply exists_where_true in Hst as (q & Hq & [[E1 E2]%py_by_id_true _]%andb_true_iff).
  destruct Hpays as [_ (g & Eg & Hg) _]. rewrite Eg in Hq. apply list_elem_of_In, list_elem_of_fmap in Hq as (r & -> & Hr).
  destruct (Hg r) as (E3 & E4 & _). simpl in Hr. apply elem_of_app in Hr as [Hr|Hr%list_elem_of_singleton]; [|congruence].
  apply list_elem_of_In in Hr. pose proof (sv_payment_lt f Hi r Hr). rewrite E3 in E2. lia.
Qed.

Lemma round_stands a : In a (fn_allocs f) -> stands f2 a = stands f a.
Proof.
  intros Ha. unfold f2. rewrite voided_stands.
  replace (alloc_of t' (py_id p) a) with false.
  2:{ symmetry. apply not_true_iff_false. intros [_ E]%alloc_of_true. by apply (payment_old a Ha). }
  rewrite andb_true_r. destruct Hpays as [_ (g & Eg & Hg) _].
  pose proof (stands_revised g (set_payments (fn_payments f ++ [p]) (bump_fin f)) a Hg) as E. unfold stands in *. simpl in *.
  rewrite Eg. simpl. rewrite E. unfold exists_where. rewrite existsb_app. simpl. rewrite orb_false_r.
  replace (py_by_id (al_tenant a) (al_payment a) p) with false; [by rewrite orb_false_r|].
  symmetry. apply not_true_iff_false. intros [_ E']%py_by_id_true. by apply (payment_old a Ha).
Qed.

Lemma round_applied t k : applied f2 t k = applied f t k.
Proof.
  unfold applied. destruct (pays_allocs _ _ _ _ Hpays) as (new & Ea & Hnew). simpl in Ea.
  change (fn_allocs f2) with (fn_allocs f1). rewrite Ea, select_app, sum_by_app.
  rewrite (select_none _ new), sum_by_nil, Z.add_0_r.
  - f_equal. apply select_ext. intros a Ha. by rewrite round_stands.
  - intros a Ha. unfold f2. rewrite voided_stands, payment_tenant, (Hnew a Ha). by rewrite !andb_false_r.
Qed.

Lemma round_rebalanced : Forall2 rebalanced (fn_invoices f) (fn_invoices f2).
Proof.
  etrans; [exact (pays_invoices _ _ _ _ Hpays)|]. change (fn_invoices f2) with
    (restore t' (ListCustomerAllocations f1 t' (py_id p)) (fn_invoices f1)). rewrite restore_rows.
  apply Forall2_fmap_r, Forall_Forall2_diag, Forall_forall. intros i Hin%list_elem_of_In. simpl.
  rewrite (restored_row f1 Hi1 t' (py_id p)); [|done|apply order_by_perm|done]. split; [done|]. simpl.
  case_bool_decide as Eh; [done|]. destruct (select _ _) as [|a l] eqn:Es; [done|].
  assert (Ha : In a (ListCustomerAllocations f1 t' (py_id p)) /\ iv_by_id t' (al_target a) i = true).
  { apply (in_select (fun a => iv_by_id t' (al_target a) i)). rewrite Es. by left. }
  destruct Ha as [Ha [Et Ek]%iv_by_id_true]. apply list_elem_of_In in Ha. unfold ListCustomerAllocations in Ha.
  rewrite order_by_perm in Ha. apply list_elem_of_In, in_select in Ha as [Ha [Eat _]%alloc_of_true].
  destruct (sv_alloc f1 Hi1 a Ha) as (_ & (j & Hj & [_ Ejk]%iv_by_id_true & Hd) & _).
  assert (j = i) as -> by (apply (NoDup_unique iv_id _ (sv_invoices f1 Hi1)); [done..|congruence]).
  destruct (_ <=? _); split; try done; intros E; by destruct Hd.
Qed.

Lemma round_invoices : fn_invoices f2 = fn_invoices f.
Proof.
  assert (Hi2 : Settle_inv f2) by (apply reversed_inv; [done..|apply order_by_perm]).
  symmetry. apply (Forall2_eq_in rebalanced); [apply round_rebalanced|]. intros i j Hin Hjn Hij.
  apply rebalanced_eq; [done| |by apply (sv_positive f Hi)|by apply (sv_status f Hi)|by apply (sv_status f2 Hi2)].
  rewrite (sv_ledger f Hi i Hin), (sv_ledger f2 Hi2 j Hjn), round_applied. destruct Hij as [E _]. rewrite E. done.
Qed.
End RoundTrip.

(** C15. Reversing a customer payment undoes it: on tables reached, from ones
    without invoices and payments, by committed requests whose allocations are in
    cents, when a payment whose own allocations are in cents is posted and reversed
    next, the table of invoices is again, row for row, what it was before the
    payment, and the payment is voided and still shows its amount.  The cents
    matter: after a payment of half a cent an invoice is partly paid with its whole
    balance outstanding ([half_cent_applied]), a row that no later reversal
    restores. *)
Theorem payment_round_trip f0 ctx q f pid e f1 ctx' reason r f2 :
  settle_frame f0 = ([], [], [], []) -> rtc settle_step f0 f ->
  amounts_in_cents (rq_allocations q) ->
  handlePostCustomerPayment ctx (Ok q) f = Ok ((pid, e), f1) ->
  handleReverseCustomerPayment f1 ctx' (Ok pid) reason f1 = Ok (r, f2) ->
  fn_invoices f2 = fn_invoices f
  /\ (forall p, In p (fn_payments f2) -> py_id p = pid -> py_status p = PyVoided /\ py_amount p = allocated f2 (py_tenant p) pid).
Proof.
  intros E0 Hr Hc H1 H2. assert (Hi : Settle_inv f) by (eapply settle_reach, settle_inv_opening; done).
  pose proof (pay_inv _ _ _ _ _ Hc Hi H1) as Hi1. pose proof (reverse_inv _ _ _ _ _ _ _ eq_refl Hi1 H2) as Hi2.
  apply (pay_pays _ _ _ _ _ _ Hc Hi) in H1 as (p & <- & Hn & Hp). apply reverse_effect in H2 as (t & Hst & [E _]).
  unfold settle_frame in E. injection E as -> _ Ep _. split; [by apply (round_invoices f f1 p t)|].
  intros x Hx Ex. split; [|rewrite <- Ex; by apply (sv_total f2 Hi2)].
  rewrite Ep in Hx. apply in_update_where in Hx as (y & Hy & ->). destruct (py_by_id t (py_id p) y) eqn:Ey; [done|].
  exfalso. apply exists_where_true in Hst as (z & Hz & [Hz' _]%andb_true_iff).
  assert (y = z) as ->; [|congruence]. apply py_by_id_true in Hz' as [_ Hz'].
  apply (NoDup_unique py_id _ (sv_payments f1 Hi1)); [done..|congruence].
Qed.

(** ** A run: bill, issue, pay in part, reverse *)

Definition clerk : option Actor := Some (mkActor 2 1 9 false).
Definition acme : Customer :=
  mkCustomer 50 1 "ACME" "Acme" None None None 100000 CuActive None None None None "standard" 30 None 0.
Definition shop : Fin := mkFin demo_books [acme] [] [] [] [] [] [] [] [] [] [] [] [] 200 0.

Definition bill : invoiceRequest :=
  mkInvoiceRequest 50 None (Some (Ok 12)) (Some 20) "" None (Some 5%N)
    [(None, Some (Dec 12000 2), ""); (None, Some (Dec 35 1), "")]%string.
Definition part : paymentRequest := mkPaymentRequest 50 (Ok 14) "bank" None "" [(200%N, Some (Dec 50 0))].

Definition after {E A} (c : Tx Fin E A) (f : Fin) : Fin := (run_tx c f).2.
Definition billed : Fin := after (handleCreateCustomerInvoice 12 clerk (Ok bill)) shop.
Definition sent : Fin := after (handleIssueCustomerInvoice clerk (Ok 200%N)) billed.
Definition paid : Fin := after (handlePostCustomerPayment clerk (Ok part)) sent.
Definition undone : Fin := after (handleReverseCustomerPayment paid clerk (Ok 203%N) None) paid.

Definition rows (f : Fin) := (fun i => (iv_id i, iv_amount i, iv_outstanding i, iv_status i)) <$> fn_invoices f.
Example run_rows :
  rows billed = [(200%N, 12350, 12350, IvDraft)] /\ rows sent = [(200%N, 12350, 12350, IvIssued)]
  /\ rows paid = [(200%N, 12350, 7350, IvPartial)] /\ rows undone = [(200%N, 12350, 12350, IvIssued)].
Proof. vm_compute. done. Qed.

Definition commits {E A} (c : Tx Fin E A) (f : Fin) : bool := match c f with Ok _ => true | Err _ => false end.
Lemma after_ok {E A} (c : Tx Fin E A) f f' : f' = after c f -> commits c f = true -> exists x, c f = Ok (x, f').
Proof. intros ->. unfold commits, after, run_tx. destruct (c f) as [[x f']|]; [eauto|done]. Qed.

Lemma part_in_cents : amounts_in_cents (rq_allocations part).
Proof. intros k d [[= <- <-]|[]]. unfold in_cents. simpl. lia. Qed.

Lemma run_sent : rtc settle_step shop sent.
Proof.
  destruct (after_ok (handleCreateCustomerInvoice 12 clerk (Ok bill)) shop billed ltac:(unfold billed; reflexivity)
    ltac:(vm_compute; reflexivity)) as [k H1].
  destruct (after_ok (handleIssueCustomerInvoice clerk (Ok 200%N)) billed sent ltac:(unfold sent; reflexivity)
    ltac:(vm_compute; reflexivity)) as [e H2].
  apply rtc_l with billed; [exact (st_create_invoice _ _ _ _ _ _ H1)|]. apply rtc_once. exact (st_issue _ _ _ _ _ H2).
Qed.

Lemma run_paid : rtc settle_step shop paid.
Proof.
  destruct (after_ok (handlePostCustomerPayment clerk (Ok part)) sent paid ltac:(unfold paid; reflexivity)
    ltac:(vm_compute; reflexivity)) as [pr H3].
  eapply rtc_r; [apply run_sent|]. exact (st_pay _ _ _ _ _ part_in_cents H3).
Qed.

Lemma run_undone : rtc settle_step shop undone.
Proof.
  destruct (after_ok (handleReverseCustomerPayment paid clerk (Ok 203%N) None) paid undone ltac:(unfold undone; reflexivity)
    ltac:(vm_compute; reflexivity)) as [r H].
  eapply rtc_r; [apply run_paid|]. exact (st_reverse _ _ _ _ _ _ _ eq_refl H).
Qed.

Lemma receivables_ledger_witness : Forall (fun i => 0 <= iv_outstanding i <= iv_amount i) (fn_invoices undone).
Proof.
  apply List.Forall_forall. intros i Hin. apply (proj1 (receivables_ledger shop undone eq_refl run_undone) i Hin).
Defined.

Lemma part_posted : exists e, handlePostCustomerPayment clerk (Ok part) sent = Ok ((203%N, e), paid).
Proof.
  destruct (after_ok (handlePostCustomerPayment clerk (Ok part)) sent paid ltac:(unfold paid; reflexivity)
    ltac:(vm_compute; reflexivity)) as [[k e] H]. exists e. rewrite H. do 3 f_equal.
  pose proof (f_equal (fun r => match r with Ok ((k, _), _) => k | Err _ => 0%N end) H) as Ek.
  change (k = 203%N). etrans; [symmetry; exact Ek|]. vm_compute. reflexivity.
Qed.
Lemma part_reversed : exists r, handleReverseCustomerPayment paid clerk (Ok 203%N) None paid = Ok (r, undone).
Proof. apply after_ok; [by unfold undone|vm_compute; reflexivity]. Qed.

Lemma payment_round_trip_witness : fn_invoices undone = fn_invoices sent.
Proof.
  destruct part_posted as [e H1]. destruct part_reversed as [r H2].
  exact (proj1 (payment_round_trip shop clerk part sent 203 e paid clerk None r undone eq_refl run_sent part_in_cents H1 H2)).
Defined.

(** ** Amounts finer than a cent *)

(** A payment of half a cent: the exact difference rounds back to the balance, the
    allocation and the payment round up to a cent. *)
Definition half_cent : paymentRequest := mkPaymentRequest 50 (Ok 14) "bank" None "" [(200%N, Some (Dec 5 3))].
Definition shaved : Fin := after (handlePostCustomerPayment clerk (Ok half_cent)) sent.
Example half_cent_applied :
  commits (handlePostCustomerPayment clerk (Ok half_cent)) sent = true
  /\ rows shaved = [(200%N, 12350, 12350, IvPartial)]
  /\ (al_amount <$> fn_allocs shaved) = [1] /\ (py_amount <$> fn_payments shaved) = [1].
Proof. vm_compute. done. Qed.

(** A supplier's payment settles another supplier's payable. *)
Definition stocked : Fin :=
  mkFin demo_books [] [] [] [] [] [] [] [] [mkPayable 70 1 80 90 None None None 5000 5000 None PbOpen None 0] [] [] [] [] 200 0.
Definition stray : paymentRequest := mkPaymentRequest 81 (Ok 14) "bank" None "" [(70%N, Some (Dec 50 0))].
Example stray_settles :
  let f := after (handleRecordSupplierPayment clerk (Ok stray)) stocked in
  ((fun p => (pb_supplier p, pb_outstanding p, pb_status p)) <$> fn_payables f) = [(80%N, 0, PbPaid)]
  /\ (py_party <$> fn_spayments f) = [81%N].
Proof. vm_compute. done. Qed.

(** One approved invoice of nothing keeps every other from being imported. *)
Definition empty_bill : Fin :=
  mkFin demo_books [] [] [] [] [] [] [] [] [] [mkSupplierInvoice 70 1 80 "S-1" 5 None 90000 5 true;
    mkSupplierInvoice 71 1 80 "S-2" 6 None 0 5 true] [] [] [] 200 0.
Example empty_bill_blocks :
  handleImportPayables 14 clerk empty_bill = Err (HttpError 422 "entry debits do not equal credits").
Proof. vm_compute. done. Qed.
