(* ===== verification/CreditProps.v ===== *)
(** * The credit gate, the running balance and the aged views

    What a charge on a customer's account may do, the balances the receivables
    ledger stores, and the sums of the aged views of what is outstanding. *)

From stdpp Require Import base list strings relations.
From Stdlib Require Import ZArith Lia.
From S2P Require Import Prelude Frames Numeric Schema Ledger Float64 Accounting AccountingProps RosterProps Finance Payables Policy Operations Workforce WorkforceHandlers FinanceHandlers SettleProps.

Local Open Scope Z_scope.
Local Open Scope tx_scope.

(** ** The receivables ledger *)

Lemma insert_ar_effect t c k a b ty s u n f e f' :
  insert_ar t c k a b ty s u n f = Ok (e, f') ->
  ar_tenant e = t /\ ar_customer e = c /\ ar_kind e = k /\ ar_amount e = round_to 2 a /\ ar_balance e = round_to 2 b
  /\ f' = set_ar (fn_ar f ++ [e]) (bump_fin f).
Proof.
  unfold insert_ar. intros H. apply tbind_ok in H as (x & f1 & [-> ->]%cents_ok & H).
  apply tbind_ok in H as (y & f1 & [-> ->]%cents_ok & H). apply tbind_ok in H as (id & f1 & [= <- <-] & H).
  apply tbind_get_ok, tbind_guard_ok in H as [_ H]. by injection H as <- <-.
Qed.

Lemma ar_sum_snoc f e t c :
  ar_sum (set_ar (fn_ar f ++ [e]) (bump_fin f)) t c = ar_sum f t c + (if ar_of t c e then ar_amount e else 0).
Proof.
  unfold ar_sum. simpl. rewrite select_app, sum_by_app. f_equal. rewrite select_cons. simpl.
  destruct (ar_of t c e); [rewrite sum_by_cons, sum_by_nil; lia|done].
Qed.

Section Charge.
Context (t c : uuid) (d : dec) (Hd : in_cents d).

Lemma PostPayment_effect ty s u n f e f' :
  PostPayment t c d ty s u n f = Ok (e, f') ->
  ar_tenant e = t /\ ar_customer e = c /\ ar_amount e = - cents_of d /\ ar_balance e = ar_sum f t c - cents_of d
  /\ f' = set_ar (fn_ar f ++ [e]) (bump_fin f).
Proof.
  unfold PostPayment. intros H. apply tbind_get_ok in H. rewrite (sub_cents d Hd) in H.
  apply insert_ar_effect in H as (? & ? & _ & Ea & Eb & ?). rewrite round_to_same in Eb.
  destruct (dec_opp_cents d Hd) as [Ho Eo]. rewrite (round_cents _ Ho), Eo in Ea. done.
Qed.

(** The gate on the limit, in cents. *)
Lemma limit_cents b h l :
  dec_leb (dec_add (dec_add (dec_of 2 b) (dec_of 2 h)) d) (dec_of 2 l) = (b + h + cents_of d <=? l).
Proof.
  unfold in_cents in Hd. rewrite leb_cents by (unfold in_cents; simpl; lia). unfold cents_of.
  rewrite !at_scale_add by (simpl; lia). unfold dec_of. by rewrite !at_scale_same.
Qed.

Lemma PostCharge_effect ty s u n over f e f' :
  PostCharge t c d ty s u n over f = Ok (e, f') ->
  exists cu, In cu (fn_customers f) /\ live_customer t c cu = true /\ standing_hold f cu = false
    /\ (over = true \/ ar_sum f t c + auth_held f t c + cents_of d <= cu_limit cu)
    /\ ar_tenant e = t /\ ar_customer e = c /\ ar_amount e = cents_of d /\ ar_balance e = ar_sum f t c + cents_of d
    /\ f' = set_ar (fn_ar f ++ [e]) (bump_fin f).
Proof.
  unfold PostCharge. intros H. apply tbind_get_ok in H. unfold charge_on in H. destruct (first_where _ _) as [cu|] eqn:Ef; [|done].
  apply first_where_some in Ef as [Hin Hl]. apply tbind_guard_ok in H as [Hh H]. apply tbind_guard_ok in H as [Ho H].
  apply insert_ar_effect in H as (? & ? & _ & Ea & Eb & ?). rewrite (round_cents d Hd) in Ea. rewrite (add_cents d Hd) in Eb.
  exists cu. split_and!; try done; [by apply negb_true_iff|].
  rewrite limit_cents in Ho. apply orb_true_iff in Ho as [?|Ho%Z.leb_le]; auto.
Qed.

Lemma insert_ar_errors k a b ty s u n f e :
  insert_ar t c k a b ty s u n f = Err e -> e = FinNumeric \/ e = FinForeignKey.
Proof.
  unfold insert_ar. intros H. apply tbind_err in H as [H|(x & f1 & _ & H)].
  { unfold cents, tlift, of_option in H. destruct (numeric_col 14 2 a); [done|]. injection H as <-. auto. }
  apply tbind_err in H as [H|(y & f2 & _ & H)].
  { unfold cents, tlift, of_option in H. destruct (numeric_col 14 2 b); [done|]. injection H as <-. auto. }
  unfold tbind, fin_fresh, tget, tguard in H. simpl in H. destruct (_ && _); [done|]. injection H as <-. auto.
Qed.

(** The credit gate of a charge of an amount in cents that overlaps no other
    charge: a charge that commits
    is on a live customer without a hold, adds exactly the amount to that
    customer's balance and nothing to another's, and, unless the limit is
    overridden, the balance with what approved authorizations hold stays within
    the credit limit; it is refused as not found only when no live customer
    has the id, as on hold only when the customer has a hold (the override does
    not lift it), and for the limit only without the override and when the charge
    would pass it. *)
Theorem PostCharge_gate ty s u n over f :
  match PostCharge t c d ty s u n over f with
  | Ok (e, f') =>
      exists cu, In cu (fn_customers f) /\ live_customer t c cu = true /\ standing_hold f cu = false
        /\ ar_sum f' t c = ar_sum f t c + cents_of d
        /\ (forall t' c', (t', c') <> (t, c) -> ar_sum f' t' c' = ar_sum f t' c')
        /\ (over = true \/ ar_sum f' t c + auth_held f' t c <= cu_limit cu)
  | Err ErrCustomerNotFound => forall cu, In cu (fn_customers f) -> live_customer t c cu = false
  | Err ErrCreditHold =>
      exists cu, In cu (fn_customers f) /\ live_customer t c cu = true /\ standing_hold f cu = true
  | Err ErrCreditLimit => over = false
      /\ exists cu, In cu (fn_customers f) /\ live_customer t c cu = true
          /\ cu_limit cu < ar_sum f t c + auth_held f t c + cents_of d
  | Err e => e = FinNumeric \/ e = FinForeignKey
  end.
Proof.
  destruct (PostCharge t c d ty s u n over f) as [[e f']|e] eqn:H.
  - apply PostCharge_effect in H as (cu & Hin & Hl & Hh & Ho & Et & Ec & Ea & Eb & ->). exists cu. split_and!; try done.
    + rewrite ar_sum_snoc. unfold ar_of. rewrite bool_decide_eq_true_2 by done. lia.
    + intros t' c' Hne. rewrite ar_sum_snoc. unfold ar_of. rewrite bool_decide_eq_false_2; [lia|]. intros []. apply Hne. congruence.
    + destruct Ho as [Ho|Ho]; [by left|right]. rewrite ar_sum_snoc. unfold ar_of. rewrite bool_decide_eq_true_2 by done.
      change (auth_held (set_ar _ _) t c) with (auth_held f t c). lia.
  - unfold PostCharge, charge_on in H. apply tbind_err in H as [H|(f0 & f1 & [= <- <-] & H)]; [done|].
    destruct (first_where _ _) as [cu|] eqn:Ef; [|injection H as <-; intros cu Hin; by eapply first_where_none].
    apply first_where_some in Ef as [Hin Hl]. apply tbind_err in H as [H|(x & f1 & Hg & H)].
    { unfold tguard in H. destruct (standing_hold f cu) eqn:Eh; [|done]. injection H as <-. eauto. }
    apply tbind_err in H as [H|(y & f2 & _ & H)].
    { unfold tguard in H. rewrite limit_cents in H. destruct over; [done|]. cbn [orb] in H.
      destruct (Z.leb_spec (ar_sum f t c + auth_held f t c + cents_of d) (cu_limit cu)); [done|]. injection H as <-. eauto. }
    apply insert_ar_errors in H as [->| ->]; auto.
Qed.
End Charge.

(** *** The running balance *)

Inductive ar_step (f f' : Fin) : Prop :=
| ar_charge t c d ty s u n over e : in_cents d -> PostCharge t c d ty s u n over f = Ok (e, f') -> ar_step f f'
| ar_payment t c d ty s u n e : in_cents d -> PostPayment t c d ty s u n f = Ok (e, f') -> ar_step f f'
| ar_other : fn_ar f' = fn_ar f -> ar_step f f'.

(** Each entry stores the sum of the customer's entries up to it. *)
Definition running (l : list AREntry) : Prop :=
  forall l1 e l2, l = l1 ++ e :: l2 ->
    ar_balance e = sum_by ar_amount (select (ar_of (ar_tenant e) (ar_customer e)) (l1 ++ [e])).

Lemma running_snoc l e :
  running l -> ar_balance e = sum_by ar_amount (select (ar_of (ar_tenant e) (ar_customer e)) l) + ar_amount e ->
  running (l ++ [e]).
Proof.
  intros Hl He l1 x l2 E. destruct l2 as [|y l3 _] using rev_ind.
  - apply app_inj_tail in E as [-> ->]. rewrite select_app, sum_by_app, He. f_equal. rewrite select_cons. unfold ar_of.
    rewrite bool_decide_eq_true_2 by done. simpl. lia.
  - rewrite app_comm_cons, app_assoc in E. apply app_inj_tail in E as [-> _]. by apply (Hl l1 x l3).
Qed.

(** C16. The receivables ledger stores running balances: from an empty ledger, after
    any sequence of charges and payments in cents, the balance of every entry is
    the sum of the amounts of that customer's entries up to and with it. *)
Theorem ar_ledger_running f f' :
  fn_ar f = [] -> rtc ar_step f f' -> running (fn_ar f').
Proof.
  intros E Hr. assert (H : running (fn_ar f)) by (rewrite E; intros [] ? ? ?; done). clear E.
  induction Hr as [|f f1 f' Hs _ IH]; [done|]. apply IH. clear IH. destruct Hs as [t c d ty s u n over e Hd Hs|t c d ty s u n e Hd Hs|Hs]; [| |by rewrite Hs].
  - apply (PostCharge_effect t c d Hd) in Hs as (cu & _ & _ & _ & _ & Et & Ec & Ea & Eb & ->). apply running_snoc; [done|].
    by rewrite Et, Ec, Ea.
  - apply (PostPayment_effect t c d Hd) in Hs as (Et & Ec & Ea & Eb & ->). apply running_snoc; [done|]. by rewrite Et, Ec, Ea.
Qed.

(** ** Aged views *)

Definition bucket_total (b : buckets) : Z := bu_current b + bu_30 b + bu_60 b + bu_90 b + bu_over b.
Definition bucket_late (b : buckets) : Z := bu_30 b + bu_60 b + bu_90 b + bu_over b.

(** The buckets partition the rows by their days. *)
Lemma bucket_partition {R} (days amount : R -> Z) rows :
  bucket_total (bucket_sums days amount rows) = sum_by amount rows
  /\ bucket_late (bucket_sums days amount rows) = sum_by amount (select (fun r => 0 <? days r) rows).
Proof.
  unfold bucket_total, bucket_late, bucket_sums, between. simpl. rewrite !sum_by_select.
  induction rows as [|r rows IH]; [done|]. rewrite !sum_by_cons.
  destruct (Z.leb_spec (days r) 0), (Z.leb_spec 1 (days r)), (Z.leb_spec (days r) 30), (Z.leb_spec 31 (days r)),
    (Z.leb_spec (days r) 60), (Z.leb_spec 61 (days r)), (Z.leb_spec (days r) 90), (Z.ltb_spec 90 (days r)), (Z.ltb_spec 0 (days r));
    simpl; lia.
Qed.

Lemma sum_by_zeros {A} (l : list A) : sum_by (fun _ => 0) l = 0.
Proof. by apply sum_by_zero. Qed.

(** Summing a table group by group: each row is in the group of one key. *)
Lemma sum_by_groups {A B} (key : A -> uuid) (k : B -> uuid) (g : B -> Z) cs rs :
  NoDup (key <$> cs) ->
  sum_by (fun c => sum_by g (select (fun r => bool_decide (k r = key c)) rs)) cs
  = sum_by g (select (fun r => exists_where (fun c => bool_decide (key c = k r)) cs) rs).
Proof.
  intros Hnd. rewrite sum_by_select. induction rs as [|r rs IH].
  { simpl. apply sum_by_zeros. }
  rewrite sum_by_cons, <- IH.
  rewrite (sum_by_ext _ (fun c => (if bool_decide (k r = key c) then g r else 0)
    + sum_by g (select (fun r => bool_decide (k r = key c)) rs))).
  2:{ intros c _. rewrite select_cons. by destruct (bool_decide _). }
  rewrite sum_by_add. f_equal. clear IH. induction cs as [|c cs IH]; [done|].
  apply NoDup_cons in Hnd as [Hc Hnd]. rewrite sum_by_cons, IH by done. cbn [exists_where existsb].
  rewrite (bool_decide_ext (k r = key c) (key c = k r)) by done. case_bool_decide as E; [|done]. simpl.
  replace (exists_where _ cs) with false; [lia|]. symmetry. apply exists_where_false. intros c' Hc'.
  apply bool_decide_eq_false. intros E'. apply Hc. rewrite E, <- E'. by apply list_elem_of_fmap_2, list_elem_of_In.
Qed.

Section Summary.
Context (collate : string -> string -> bool) (f : Fin) (t : uuid) (asOf : Z).
Context (Hnd : NoDup (cu_id <$> fn_customers f)).
Let aged := select (aged_invoice t) (fn_invoices f).
Let of_customer (c : Customer) := select (fun i => bool_decide (iv_customer i = cu_id c)) aged.
Let live := select (listed t) (fn_customers f).

Lemma live_nodup : NoDup (cu_id <$> live).
Proof. by apply NoDup_select. Qed.

Lemma listed_party i : exists_where (fun c => bool_decide (cu_id c = iv_customer i)) live = live_party f t (iv_customer i).
Proof.
  unfold live, live_party. apply eq_true_iff_eq. rewrite !exists_where_true. unfold listed, live_customer.
  setoid_rewrite in_select. setoid_rewrite andb_true_iff. setoid_rewrite bool_decide_eq_true. firstorder.
Qed.

Lemma summary_sum (g : CustomerInvoice -> Z) :
  sum_by (fun c => sum_by g (of_customer c)) live
  = sum_by g (select (fun i => aged_invoice t i && live_party f t (iv_customer i)) (fn_invoices f)).
Proof.
  unfold of_customer. rewrite (sum_by_groups cu_id iv_customer g live aged live_nodup). unfold aged. rewrite select_select.
  f_equal. apply select_ext. intros i _. by rewrite listed_party.
Qed.

Lemma of_customer_pos c : of_customer c <> [] -> 0 < sum_by iv_outstanding (of_customer c).
Proof.
  intros Hne. apply sum_by_pos; [done|]. intros i [[_ Ha]%in_select _]%in_select. unfold aged_invoice in Ha. bool_solve.
  by apply Z.ltb_lt.
Qed.

(** A column of the view that is a sum over the customer's invoices. *)
Lemma column_sum (h : AgingBucketRow -> Z) (g : CustomerInvoice -> Z) :
  (forall c rows, h (aging_row f t asOf c rows) = sum_by g rows) ->
  sum_by h (AgingBuckets collate f t asOf)
  = sum_by g (select (fun i => aged_invoice t i && live_party f t (iv_customer i)) (fn_invoices f)).
Proof.
  intros Hh. unfold AgingBuckets. rewrite order_by_perm. unfold aging_rows. rewrite sum_by_omap, <- summary_sum.
  apply sum_by_ext. intros c _. fold aged. fold (of_customer c). case_bool_decide as E; simpl.
  - rewrite (proj2 (Z.ltb_lt 0 _)) by by apply of_customer_pos. apply Hh.
  - by rewrite E.
Qed.

Lemma aging_customers :
  ag_customer <$> aging_rows f t asOf = cu_id <$> select (fun c => bool_decide (of_customer c <> [])) live.
Proof.
  unfold aging_rows. fold aged live. induction live as [|c l IH]; [done|]. rewrite select_cons.
  match goal with |- _ <$> omap ?g _ = _ => change (omap g (c :: l)) with (match g c with Some y => y :: omap g l | None => omap g l end) end.
  cbn beta zeta. fold (of_customer c). case_bool_decide as E; [|exact IH].
  rewrite (proj2 (Z.ltb_lt 0 _)) by by apply of_customer_pos. cbn [andb fmap list_fmap]. f_equal. exact IH.
Qed.

Lemma with_balance : length (AgingBuckets collate f t asOf) = at_with_balance (AgingSummary f t asOf).
Proof.
  unfold AgingBuckets. rewrite order_by_perm, <- (length_fmap ag_customer), aging_customers.
  unfold AgingSummary. cbn [at_with_balance]. apply Permutation_length, NoDup_Permutation.
  - apply NoDup_select, live_nodup.
  - rewrite <- (list_fmap_id (select _ _)). apply NoDup_select. rewrite list_fmap_id. apply NoDup_remove_dups.
  - intros k. rewrite list_elem_of_fmap. setoid_rewrite list_elem_of_In. setoid_rewrite in_select.
    rewrite <- (list_elem_of_In (remove_dups _)), elem_of_remove_dups, list_elem_of_fmap. setoid_rewrite list_elem_of_In.
    setoid_rewrite in_select. split.
    + intros (c & -> & Hc & Hne%bool_decide_eq_true). destruct (of_customer c) as [|i l] eqn:Eo; [done|].
      assert (Hi : In i (of_customer c)) by (rewrite Eo; by left). apply in_select in Hi as [Hi Ek%bool_decide_eq_true].
      apply in_select in Hi as [Hi Ha].
      assert (Hp : live_party f t (iv_customer i) = true).
      { rewrite <- listed_party. apply exists_where_true. exists c. split; [exact Hc|]. by apply bool_decide_eq_true. }
      split; [exists i; rewrite Ha, Hp; done|]. apply Z.ltb_lt. apply sum_by_pos.
      * intros En. assert (Hi' : In i []); [|done]. rewrite <- En. apply in_select. split; [apply in_select; by rewrite Ha, Hp|].
        by apply bool_decide_eq_true.
      * intros j [[_ Hj]%in_select _]%in_select. unfold aged_invoice in Hj. bool_solve. by apply Z.ltb_lt.
    + intros [(i & -> & Hi & [Ha Hp]%andb_true_iff) _]. rewrite <- listed_party in Hp. apply exists_where_true in Hp as (c & Hc & Ec%bool_decide_eq_true).
      exists c. split; [done|]. split; [exact Hc|]. apply bool_decide_eq_true. intros En.
      assert (Hi' : In i []); [|done]. rewrite <- En. apply in_select. split; [by apply in_select|]. by apply bool_decide_eq_true.
Qed.
End Summary.

(** The receivables aging agrees with itself: when customer ids are unique,
    every bucket, the outstanding, the overdue and the undated count of the summary
    is the sum of that column over the rows of the aging view, the number of
    customers with a balance is the number of rows, and in each row and in the
    summary the five buckets add up to the outstanding amount and the four late
    ones to the overdue amount. *)
Theorem AgingSummary_agrees collate f t asOf :
  NoDup (cu_id <$> fn_customers f) ->
  let rows := AgingBuckets collate f t asOf in
  let total := AgingSummary f t asOf in
  let col (b : buckets -> Z) := sum_by (fun r => b (ag_buckets r)) rows in
  at_buckets total = mkBuckets (col bu_current) (col bu_30) (col bu_60) (col bu_90) (col bu_over)
  /\ at_outstanding total = sum_by ag_outstanding rows /\ at_overdue total = sum_by ag_overdue rows
  /\ at_no_due total = sum_by ag_no_due rows /\ at_with_balance total = length rows
  /\ (forall r, In r rows -> bucket_total (ag_buckets r) = ag_outstanding r /\ bucket_late (ag_buckets r) = ag_overdue r)
  /\ bucket_total (at_buckets total) = at_outstanding total /\ bucket_late (at_buckets total) = at_overdue total.
Proof.
  intros Hnd rows total col. split_and!.
  - unfold total, AgingSummary, col, rows. cbn [at_buckets]. unfold bucket_sums. f_equal; rewrite sum_by_select; symmetry;
      apply column_sum; try done; intros c l; simpl; by rewrite sum_by_select.
  - symmetry. by apply column_sum.
  - unfold total, AgingSummary. cbn [at_overdue]. rewrite sum_by_select. symmetry. apply column_sum; [done|].
    intros c l. simpl. by rewrite sum_by_select.
  - symmetry. by apply column_sum.
  - symmetry. by apply with_balance.
  - intros r Hr. apply list_elem_of_In in Hr. unfold rows, AgingBuckets in Hr. rewrite order_by_perm in Hr.
    unfold aging_rows in Hr. apply list_elem_of_omap in Hr as (c & _ & Hc). cbn zeta in Hc. destruct (_ && _); [|done]. injection Hc as <-.
    apply bucket_partition.
  - apply bucket_partition.
  - apply bucket_partition.
Qed.

(** ** Importing supplier invoices *)

(** The one row a filter finds. *)
Lemma select_the {A K} (key : A -> K) (p : A -> bool) l x :
  NoDup (key <$> l) -> In x l -> p x = true -> (forall y, In y l -> p y = true -> key y = key x) -> select p l = [x].
Proof.
  induction l as [|a l IH]; intros Hnd Hin Hp Huniq; [done|]. apply NoDup_cons in Hnd as [Ha Hnd]. rewrite select_cons.
  assert (Hk : forall y, In y l -> key y <> key a).
  { intros y Hy E. apply Ha. rewrite <- E. by apply list_elem_of_fmap_2, list_elem_of_In. }
  destruct Hin as [->|Hin].
  - rewrite Hp. f_equal. apply select_none. intros y Hy. apply not_true_iff_false. intros Hpy.
    apply (Hk y Hy), Huniq; [by right|done].
  - destruct (p a) eqn:Epa.
    + destruct (Hk x Hin). symmetry. apply Huniq; [by left|done].
    + apply IH; [done..|]. intros y Hy. apply Huniq. by right.
Qed.

Definition for_invoice (i : SupplierInvoice) (p : Payable) : bool :=
  bool_decide (pb_tenant p = si_tenant i /\ pb_source p = si_id i).

(** The payable of an imported invoice: the whole total is open. *)
Definition imports (i : SupplierInvoice) (p : Payable) : Prop :=
  for_invoice i p = true /\ pb_supplier p = si_supplier i /\ pb_amount p = si_total i /\ pb_outstanding p = si_total i
  /\ pb_due p = si_due i /\ pb_status p = PbOpen.

Lemma import_rows_effect l : forall f ps f',
  import_rows l f = Ok (ps, f') ->
  fn_payables f' = fn_payables f ++ ps /\ fn_sinvoices f' = fn_sinvoices f /\ Forall2 imports l ps
  /\ (NoDup ((fun p => (pb_tenant p, pb_source p)) <$> fn_payables f) -> NoDup ((fun p => (pb_tenant p, pb_source p)) <$> fn_payables f')).
Proof.
  induction l as [|i l IH]; intros f ps f' H; cbn [import_rows] in H.
  { apply tret_ok in H as [-> ->]. split_and!; [by rewrite app_nil_r|done|constructor|done]. }
  apply tbind_ok in H as (id & f1 & [= <- <-] & H). apply tbind_get_ok, tbind_guard_ok in H as [_ H].
  apply tbind_guard_ok in H as [Hnew H]. apply tbind_put_ok, tbind_ok in H as (ps' & f2 & H & [-> ->]%tret_ok).
  apply IH in H as (E1 & E2 & Hps & Hnd). simpl in *. split_and!.
  - by rewrite E1, <- app_assoc.
  - done.
  - constructor; [|done]. split_and!; try done. by apply bool_decide_eq_true.
  - intros H. apply Hnd. rewrite fmap_app. apply NoDup_app. split_and!; [done| |apply NoDup_singleton].
    intros x (p & -> & Hp%list_elem_of_In)%list_elem_of_fmap [= E3 E4]%list_elem_of_singleton.
    apply negb_true_iff, exists_where_false with (r := p) in Hnew; [|done]. apply bool_decide_eq_false in Hnew. auto.
Qed.

(** The import of approved supplier invoices happens once: a committed import
    appends one open payable of the full total for each approved invoice without
    one, leaves every approved invoice of the tenant with exactly one payable, and
    run again imports nothing and changes nothing. *)
Theorem ImportApprovedInvoices_once t f ps f' :
  NoDup ((fun p => (pb_tenant p, pb_source p)) <$> fn_payables f) ->
  ImportApprovedInvoices t f = Ok (ps, f') ->
  fn_payables f' = fn_payables f ++ ps /\ Forall2 imports (select (importable f t) (fn_sinvoices f)) ps
  /\ (forall i, In i (fn_sinvoices f') -> si_tenant i = t -> si_approved i = true ->
        exists p, select (for_invoice i) (fn_payables f') = [p])
  /\ ImportApprovedInvoices t f' = Ok ([], f').
Proof.
  intros Hnd H. unfold ImportApprovedInvoices in *. apply tbind_get_ok in H.
  apply import_rows_effect in H as (E1 & E2 & Hps & Hnd'). specialize (Hnd' Hnd).
  assert (Hhas : forall i, In i (fn_sinvoices f') -> si_tenant i = t -> si_approved i = true ->
    exists_where (for_invoice i) (fn_payables f') = true).
  { intros i Hi Ht Ha. rewrite E2 in Hi. apply exists_where_true.
    destruct (importable f t i) eqn:Ei.
    - assert (Hin : i ∈ select (importable f t) (fn_sinvoices f)) by by apply list_elem_of_In, in_select.
      apply list_elem_of_lookup in Hin as [n Hn]. destruct (Forall2_lookup_l _ _ _ _ _ Hps Hn) as (p & Hp & Him).
      exists p. rewrite E1. split; [apply in_app_iff; right; by eapply list_elem_of_In, list_elem_of_lookup_2|apply Him].
    - unfold importable in Ei. rewrite bool_decide_eq_true_2, Ha in Ei by done. cbn [andb] in Ei.
      apply negb_false_iff, exists_where_true in Ei as (p & Hp & Hf). exists p. rewrite E1. split; [apply in_app_iff; auto|done]. }
  split_and!; [done..| |].
  - intros i Hi Ht Ha. specialize (Hhas i Hi Ht Ha). apply exists_where_true in Hhas as (p & Hp & Hf). exists p.
    apply (select_the _ _ _ _ Hnd'); [done..|]. intros y Hy Hfy.
    unfold for_invoice in *. apply bool_decide_eq_true in Hf as [-> ->], Hfy as [-> ->]. done.
  - unfold tbind, tget. rewrite select_none; [done|]. intros i Hi. unfold importable.
    case_bool_decide as Et; [|done]. destruct (si_approved i) eqn:Ea; [|done]. simpl.
    apply negb_false_iff. by apply Hhas.
Qed.

(** ** A run *)

Definition clerk_customer (id : uuid) (name : string) : Customer :=
  mkCustomer id 1 name name None None None 100000 CuActive None None None None "standard" 30 None 0.
Definition aged_row (id customer due out : Z) : CustomerInvoice :=
  mkInvoice (Z.to_N id) 1 (Z.to_N customer) None 1 (if due =? 0 then None else Some due) 10000 out "manual" None None IvPartial None 2 0.
Definition aged_shop : Fin :=
  mkFin (mkBooks [] [] [] [] [(1, 2)]%N [] 100 1 0) [clerk_customer 50 "Acme"; clerk_customer 51 "Bolt"; clerk_customer 52 "Cove"] [] [] []
    [aged_row 200 50 100 2500; aged_row 201 50 60 4000; aged_row 202 51 0 700; aged_row 203 51 95 1000]
    [] [] [] [] [] [] [] [] 300 0.

Lemma AgingSummary_agrees_witness :
  at_outstanding (AgingSummary aged_shop 1 100) = 8200
  /\ sum_by ag_outstanding (AgingBuckets String.leb aged_shop 1 100) = 8200.
Proof.
  split; [vm_compute; reflexivity|].
  destruct (AgingSummary_agrees String.leb aged_shop 1 100) as (_ & E & _).
  { apply (bool_decide_unpack _). vm_compute. exact I. }
  rewrite <- E. vm_compute. reflexivity.
Defined.

Lemma PostCharge_gate_witness :
  exists e f', PostCharge 1 50 (Dec 9000 2) None None 2 None false aged_shop = Ok (e, f') /\ ar_sum f' 1 50 + auth_held f' 1 50 <= 100000.
Proof.
  pose proof (PostCharge_gate 1 50 (Dec 9000 2) ltac:(unfold in_cents; simpl; lia) None None 2 None false aged_shop) as H.
  destruct (PostCharge 1 50 (Dec 9000 2) None None 2 None false aged_shop) as [[e f']|x] eqn:E; [|vm_compute in E; discriminate].
  exists e, f'. split; [reflexivity|]. destruct H as (cu & Hin & _ & _ & _ & _ & [Ho|Ho]); [discriminate|].
  destruct Hin as [<-|[<-|[<-|[]]]]; exact Ho.
Defined.

(** Two charges of 600 within a limit of 1000: the second read its balance before
    the first committed, and both are posted. *)
Example charges_race :
  let charge snap := charge_on snap 1 50 (Dec 600 0) None None 2 None false in
  let first := (run_tx (charge aged_shop) aged_shop).2 in
  let both := (run_tx (charge aged_shop) first).2 in
  ar_sum both 1 50 = 120000 /\ (run_tx (charge first) first).1 = Err ErrCreditLimit.
Proof. vm_compute. done. Qed.

Lemma ar_ledger_running_witness :
  exists e f', PostCharge 1 50 (Dec 9000 2) None None 2 None false aged_shop = Ok (e, f') /\ running (fn_ar f').
Proof.
  destruct (PostCharge 1 50 (Dec 9000 2) None None 2 None false aged_shop) as [[e f']|x] eqn:E; [|vm_compute in E; discriminate].
  exists e, f'. split; [reflexivity|]. apply (ar_ledger_running aged_shop f' eq_refl). apply rtc_once.
  eapply ar_charge; [|exact E]. unfold in_cents. simpl. lia.
Defined.

Definition bought : Fin :=
  mkFin (fn_books aged_shop) [] [] [] [] [] [] [] [] []
    [mkSupplierInvoice 70 1 80 "S-1" 5 (Some 35) 90000 5 true; mkSupplierInvoice 71 1 80 "S-2" 6 None 1500 5 false]
    [] [] [] 300 0.

Lemma ImportApprovedInvoices_once_witness :
  exists ps f', ImportApprovedInvoices 1 bought = Ok (ps, f') /\ ImportApprovedInvoices 1 f' = Ok ([], f').
Proof.
  destruct (ImportApprovedInvoices 1 bought) as [[ps f']|e] eqn:E; [|vm_compute in E; discriminate].
  exists ps, f'. split; [reflexivity|]. apply (ImportApprovedInvoices_once 1 bought ps f'); [constructor|exact E].
Defined.
