(* ===== verification/KeyedLedger.v ===== *)
(** * The balance of a system account, and what a posting does to it

    [gl b t key]: debits less credits of the lines on the tenant's account with a
    system key.  A posting moves it by the amounts its lines name for that key. *)

From stdpp Require Import base list strings.
From Stdlib Require Import ZArith Lia.
From S2P Require Import Prelude Frames Numeric Schema Ledger Accounting AccountingProps RosterProps.

Local Open Scope Z_scope.
Local Open Scope tx_scope.

Definition keyed_account (t : uuid) (key : string) (id : uuid) (a : Account) : bool :=
  ac_by t id a && bool_decide (ac_system_key a = Some key).
Definition keyed (b : Books) (t : uuid) (key : string) (l : JournalLine) : bool :=
  bool_decide (jl_tenant l = t) && exists_where (keyed_account t key (jl_account l)) (bk_accounts b).
Definition gl (b : Books) (t : uuid) (key : string) : Z :=
  sum_by line_net (select (keyed b t key) (bk_lines b)).

(** What a line input adds to a key's balance. *)
Definition text_cents (s : string) : Z := match money_in (money0 s) with Ok z => z | Err _ => 0 end.
Definition line_gl (key : string) (ln : PostLine) : Z :=
  if bool_decide (pl_system_key ln = key) then text_cents (pl_debit ln) - text_cents (pl_credit ln) else 0.

Lemma text_cents_text s z : money_in (money0 (numeric_text s z)) = Ok (text_cents (numeric_text s z)) ->
  text_cents (numeric_text s z) = round_to 2 (Dec z s).
Proof.
  unfold text_cents. intros Hm. revert Hm. unfold money0. case_bool_decide as He.
  - exfalso. pose proof (parse_numeric_text s z) as E. by rewrite He in E.
  - unfold money_in. rewrite parse_numeric_text. unfold of_option. destruct (numeric_col _ _ _) eqn:E; [|done].
    by apply numeric_col_some in E as [-> _].
Qed.
Lemma text_cents_zero : text_cents "0" = 0.
Proof. done. Qed.

Lemma resolve_some b t key id : resolveSystemAccount b t key = Ok id ->
  exists a, In a (bk_accounts b) /\ ac_tenant a = t /\ ac_id a = id /\ ac_system_key a = Some key.
Proof.
  unfold resolveSystemAccount. intros H%of_option_ok. apply fmap_Some in H as (a & Ha & ->).
  apply first_where_some in Ha as [Hin Hp]. bool_solve. eauto.
Qed.

(** The account ids are unique, so a line resolved by a key is on that key only. *)
Lemma keyed_resolved b t key key' l :
  NoDup (ac_id <$> bk_accounts b) -> jl_tenant l = t -> resolveSystemAccount b t key' = Ok (jl_account l) ->
  keyed b t key l = bool_decide (key' = key).
Proof.
  intros Hn Ht (a & Hin & Hat & Hid & Hk)%resolve_some. unfold keyed. rewrite (bool_decide_eq_true_2 _ Ht). simpl.
  case_bool_decide as Ek.
  - subst key'. apply exists_where_true. exists a. split; [done|]. unfold keyed_account.
    apply andb_true_iff. split; [by apply ac_by_true|by apply bool_decide_eq_true].
  - apply exists_where_false. intros x Hx. unfold keyed_account. apply not_true_iff_false.
    intros [[_ Ei]%ac_by_true Es%bool_decide_eq_true]%andb_true_iff.
    assert (x = a) as -> by (apply (NoDup_unique ac_id _ Hn); [done..|congruence]). congruence.
Qed.

Lemma posts_as_gl b t key entry ln l :
  NoDup (ac_id <$> bk_accounts b) -> pl_account ln = uuid_nil -> posts_as b t entry ln l ->
  sum_by line_net (select (keyed b t key) [l]) = line_gl key ln.
Proof.
  intros Hn Ha (Ht & _ & Hacc & Hd & Hc). unfold line_account in Hacc. rewrite (bool_decide_eq_true_2 _ Ha) in Hacc.
  rewrite select_cons, (keyed_resolved b t key _ l Hn Ht Hacc). unfold line_gl, text_cents. rewrite Hd, Hc.
  case_bool_decide; [|done]. unfold sum_by, line_net. simpl. lia.
Qed.

Lemma lines_gl b t key entry lns ls :
  NoDup (ac_id <$> bk_accounts b) -> Forall (fun ln => pl_account ln = uuid_nil) lns ->
  Forall2 (posts_as b t entry) lns ls ->
  sum_by line_net (select (keyed b t key) ls) = sum_by (line_gl key) lns.
Proof.
  intros Hn Ha H. induction H as [|ln l lns ls Hl _ IH]; [done|]. apply Forall_cons in Ha as [Ha Has].
  change (l :: ls) with ([l] ++ ls). rewrite select_app, sum_by_app, sum_by_cons, (IH Has).
  by rewrite (posts_as_gl b t key entry ln l Hn Ha Hl).
Qed.

(** The tables of a posting, without an invariant on the books. *)
Lemma PostEntry_tables t i b v b' :
  PostEntry t i b = Ok (v, b') ->
  bk_accounts b' = bk_accounts b /\ bk_lines b' = bk_lines b ++ ev_lines v
  /\ bk_entries b' = bk_entries b ++ [ev_entry v]
  /\ je_tenant (ev_entry v) = t /\ je_source_type (ev_entry v) = pi_source_type i /\ je_source (ev_entry v) = pi_source i
  /\ je_id (ev_entry v) = bk_next_id b /\ (bk_next_id b < bk_next_id b')%N
  /\ Forall2 (posts_as b t (je_id (ev_entry v))) (pi_lines i) (ev_lines v).
Proof.
  intros (Hp & Hls & _)%PostEntry_inv.
  pose proof (inserts_effect _ _ _ _ (pe_lines_in _ _ _ _ _ Hp)) as (-> & _ & -> & -> & _ & _ & _ & _ & Hn & _).
  pose proof (post_lines_posts _ _ _ _ _ _ Hls) as Hf. rewrite (pe_entry_row _ _ _ _ _ Hp) in *. simpl in *.
  split_and!; try done. lia.
Qed.

Definition keyed_lines (i : PostEntryInput) : Prop := Forall (fun ln => pl_account ln = uuid_nil) (pi_lines i).

(** A posting by keys moves every key's balance by its lines, and leaves the other
    tenants' alone. *)
Lemma PostEntry_gl t i b v b' t' key :
  NoDup (ac_id <$> bk_accounts b) -> keyed_lines i -> PostEntry t i b = Ok (v, b') ->
  gl b' t' key = gl b t' key + (if bool_decide (t' = t) then sum_by (line_gl key) (pi_lines i) else 0).
Proof.
  intros Hn Hk (Ea & El & _ & _ & _ & _ & _ & _ & Hf)%PostEntry_tables. unfold gl, keyed. rewrite Ea, El, select_app, sum_by_app.
  f_equal. case_bool_decide as Et.
  - subst t'. by apply (lines_gl b t key (je_id (ev_entry v))).
  - rewrite select_none; [done|]. intros l Hl. apply andb_false_iff. left. apply bool_decide_eq_false. intros E.
    apply list_elem_of_In, list_elem_of_lookup in Hl as [k Hl]. destruct (Forall2_lookup_r _ _ _ _ _ Hf Hl) as (ln & _ & (E' & _)). congruence.
Qed.

(** A debit of one key and a credit of another. *)
Lemma pair_gl key t i b v b' st d c s z :
  PostEntry t i b = Ok (v, b') ->
  pi_lines i = [mkPostLine uuid_nil d (numeric_text s z) "0" st None; mkPostLine uuid_nil c "0" (numeric_text s z) st None] ->
  sum_by (line_gl key) (pi_lines i)
  = ((if bool_decide (d = key) then 1 else 0) - (if bool_decide (c = key) then 1 else 0)) * round_to 2 (Dec z s).
Proof.
  intros (_ & _ & _ & _ & _ & _ & _ & _ & Hf)%PostEntry_tables El. rewrite El in Hf |- *.
  apply Forall2_cons_inv_l in Hf as (l & ls & (_ & _ & _ & Hd & _) & _ & _). simpl in Hd.
  rewrite !sum_by_cons, sum_by_nil. unfold line_gl. simpl. rewrite text_cents_zero.
  assert (E : text_cents (numeric_text s z) = round_to 2 (Dec z s)).
  { apply text_cents_text. unfold text_cents. by rewrite Hd. }
  rewrite E. repeat case_bool_decide; lia.
Qed.
