(* ===== verification/Treasury.v ===== *)
(** * Tender payments and the tables of cash, expenses and banking (package
      [payments]: repo.go; rows of the packages [expenses] and [banking])

    [Till] holds these tables beside a station's shifts ([Site]) and the finance
    tables and books ([Fin]); ids, audit rows and the clock are those of [Fin].
    Money columns are numeric(14,2), in cents. *)

From stdpp Require Import base list strings.
From Stdlib Require Import ZArith Lia.
From S2P Require Import Prelude Numeric Schema Ledger Accounting Finance Payables Operations Readings.

Local Open Scope Z_scope.
Local Open Scope tx_scope.

(** ** Rows *)

(** [chk_payments_tender] *)
Inductive tender_type := TdCash | TdMobile | TdCard | TdCredit | TdVoucher.
#[export] Instance tender_type_eq : EqDecision tender_type.
Proof. solve_decision. Defined.

Record Tender := mkTender {
  td_id : uuid; td_tenant : uuid; td_station : uuid; td_shift : option uuid; td_customer : option uuid;
  td_type : tender_type; td_amount : Z; td_reference : option string; td_by : uuid; td_at : Z;
  td_recorded : bool; td_notes : option string; td_key : option string }.

Record Category := mkCategory {
  ct_id : uuid; ct_tenant : uuid; ct_name : string; ct_key : string; ct_threshold : option Z; ct_active : bool }.

(** [chk_expense_status] *)
Inductive expense_status := ExDraft | ExSubmitted | ExApproved | ExPosted | ExRejected | ExVoided.
#[export] Instance expense_status_eq : EqDecision expense_status.
Proof. solve_decision. Defined.

Record Expense := mkExpense {
  ex_id : uuid; ex_tenant : uuid; ex_station : option uuid; ex_category : option uuid; ex_payee : option string;
  ex_date : Z; ex_amount : Z; ex_key : string; ex_mode : string; ex_reference : option string;
  ex_notes : option string; ex_status : expense_status; ex_entry : option uuid; ex_approver : option uuid;
  ex_by : uuid; ex_created : Z }.

(** [chk_pcf_status] *)
Inductive float_status := FlActive | FlSuspended | FlClosed.
#[export] Instance float_status_eq : EqDecision float_status.
Proof. solve_decision. Defined.

Record PettyFloat := mkFloat {
  fl_id : uuid; fl_tenant : uuid; fl_station : uuid; fl_name : string; fl_balance : Z; fl_status : float_status;
  fl_by : uuid; fl_created : Z }.

(** [chk_pct_type] *)
Inductive txn_type := TxTopup | TxSpend | TxReimbursement | TxAdjustment | TxTransfer.
#[export] Instance txn_type_eq : EqDecision txn_type.
Proof. solve_decision. Defined.

Record PettyTransaction := mkPetty {
  pt_id : uuid; pt_tenant : uuid; pt_float : uuid; pt_type : txn_type; pt_amount : Z; pt_balance : Z;
  pt_description : option string; pt_key : option string; pt_overdraw : bool; pt_entry : option uuid;
  pt_by : uuid; pt_created : Z }.

Record PettyReconciliation := mkPettyRecon {
  pn_id : uuid; pn_tenant : uuid; pn_float : uuid; pn_expected : Z; pn_counted : Z; pn_variance : Z;
  pn_entry : option uuid; pn_by : uuid; pn_created : Z }.

(** [chk_cash_recon_status] *)
Inductive cash_status := CrDraft | CrSubmitted | CrApproved | CrPosted | CrRejected.
#[export] Instance cash_status_eq : EqDecision cash_status.
Proof. solve_decision. Defined.

Record CashReconciliation := mkCashRecon {
  cr_id : uuid; cr_tenant : uuid; cr_station : uuid; cr_day : uuid; cr_expected : Z; cr_counted : Z;
  cr_variance : Z; cr_status : cash_status; cr_notes : option string; cr_entry : option uuid;
  cr_reviewer : option uuid; cr_by : uuid; cr_created : Z }.
Record CashReconLine := mkCashReconLine {
  cx_id : uuid; cx_tenant : uuid; cx_recon : uuid; cx_shift : uuid; cx_expected : Z }.

Record BankAccount := mkBankAccount {
  ba_id : uuid; ba_tenant : uuid; ba_name : string; ba_number : option string; ba_currency : string;
  ba_active : bool; ba_created : Z }.

(** [chk_bank_deposit_status] *)
Inductive deposit_status := DpDraft | DpPrepared | DpInTransit | DpConfirmed | DpPosted | DpVoided.
#[export] Instance deposit_status_eq : EqDecision deposit_status.
Proof. solve_decision. Defined.

Record BankDeposit := mkDeposit {
  bd_id : uuid; bd_tenant : uuid; bd_station : uuid; bd_account : uuid; bd_slip : option string; bd_amount : Z;
  bd_reference : option string; bd_expected : option Z; bd_actual : option Z; bd_status : deposit_status;
  bd_prepared : option uuid; bd_confirmed : option uuid; bd_by : uuid; bd_created : Z }.
Record DepositLine := mkDepositLine {
  bl_id : uuid; bl_tenant : uuid; bl_deposit : uuid; bl_recon : uuid; bl_amount : Z }.

Record StatementImport := mkImport {
  im_id : uuid; im_tenant : uuid; im_account : uuid; im_start : option Z; im_end : option Z; im_hash : string;
  im_count : nat; im_by : uuid }.

(** [chk_bsl_status] *)
Inductive line_status := SlUnmatched | SlMatched | SlBankFee | SlUnknown.
#[export] Instance line_status_eq : EqDecision line_status.
Proof. solve_decision. Defined.

Record StatementLine := mkStatementLine {
  sl_id : uuid; sl_tenant : uuid; sl_import : uuid; sl_account : uuid; sl_txn : Z; sl_value : option Z;
  sl_amount : Z; sl_reference : option string; sl_description : option string; sl_status : line_status;
  sl_doc : option (string * uuid); sl_entry : option uuid; sl_created : Z }.

Record Till := mkTill {
  tl_site : Site;
  tl_fin : Fin;
  tl_categories : list Category;
  tl_expenses : list Expense;
  tl_floats : list PettyFloat;
  tl_ptxns : list PettyTransaction;
  tl_precons : list PettyReconciliation;
  tl_crecons : list CashReconciliation;
  tl_crlines : list CashReconLine;
  tl_baccounts : list BankAccount;
  tl_deposits : list BankDeposit;
  tl_dlines : list DepositLine;
  tl_imports : list StatementImport;
  tl_slines : list StatementLine;
  tl_tenders : list Tender;
}.

Definition put_fin v s := mkTill (tl_site s) v (tl_categories s) (tl_expenses s) (tl_floats s) (tl_ptxns s)
  (tl_precons s) (tl_crecons s) (tl_crlines s) (tl_baccounts s) (tl_deposits s) (tl_dlines s) (tl_imports s)
  (tl_slines s) (tl_tenders s).
Definition put_categories v s := mkTill (tl_site s) (tl_fin s) v (tl_expenses s) (tl_floats s) (tl_ptxns s)
  (tl_precons s) (tl_crecons s) (tl_crlines s) (tl_baccounts s) (tl_deposits s) (tl_dlines s) (tl_imports s)
  (tl_slines s) (tl_tenders s).
Definition put_expenses v s := mkTill (tl_site s) (tl_fin s) (tl_categories s) v (tl_floats s) (tl_ptxns s)
  (tl_precons s) (tl_crecons s) (tl_crlines s) (tl_baccounts s) (tl_deposits s) (tl_dlines s) (tl_imports s)
  (tl_slines s) (tl_tenders s).
Definition put_floats v s := mkTill (tl_site s) (tl_fin s) (tl_categories s) (tl_expenses s) v (tl_ptxns s)
  (tl_precons s) (tl_crecons s) (tl_crlines s) (tl_baccounts s) (tl_deposits s) (tl_dlines s) (tl_imports s)
  (tl_slines s) (tl_tenders s).
Definition put_ptxns v s := mkTill (tl_site s) (tl_fin s) (tl_categories s) (tl_expenses s) (tl_floats s) v
  (tl_precons s) (tl_crecons s) (tl_crlines s) (tl_baccounts s) (tl_deposits s) (tl_dlines s) (tl_imports s)
  (tl_slines s) (tl_tenders s).
Definition put_precons v s := mkTill (tl_site s) (tl_fin s) (tl_categories s) (tl_expenses s) (tl_floats s) (tl_ptxns
  s) v (tl_crecons s) (tl_crlines s) (tl_baccounts s) (tl_deposits s) (tl_dlines s) (tl_imports s) (tl_slines s)
  (tl_tenders s).
Definition put_crecons v s := mkTill (tl_site s) (tl_fin s) (tl_categories s) (tl_expenses s) (tl_floats s) (tl_ptxns
  s) (tl_precons s) v (tl_crlines s) (tl_baccounts s) (tl_deposits s) (tl_dlines s) (tl_imports s) (tl_slines s)
  (tl_tenders s).
Definition put_crlines v s := mkTill (tl_site s) (tl_fin s) (tl_categories s) (tl_expenses s) (tl_floats s) (tl_ptxns
  s) (tl_precons s) (tl_crecons s) v (tl_baccounts s) (tl_deposits s) (tl_dlines s) (tl_imports s) (tl_slines s)
  (tl_tenders s).
Definition put_baccounts v s := mkTill (tl_site s) (tl_fin s) (tl_categories s) (tl_expenses s) (tl_floats s)
  (tl_ptxns s) (tl_precons s) (tl_crecons s) (tl_crlines s) v (tl_deposits s) (tl_dlines s) (tl_imports s) (tl_slines
  s) (tl_tenders s).
Definition put_deposits v s := mkTill (tl_site s) (tl_fin s) (tl_categories s) (tl_expenses s) (tl_floats s) (tl_ptxns
  s) (tl_precons s) (tl_crecons s) (tl_crlines s) (tl_baccounts s) v (tl_dlines s) (tl_imports s) (tl_slines s)
  (tl_tenders s).
Definition put_dlines v s := mkTill (tl_site s) (tl_fin s) (tl_categories s) (tl_expenses s) (tl_floats s) (tl_ptxns
  s) (tl_precons s) (tl_crecons s) (tl_crlines s) (tl_baccounts s) (tl_deposits s) v (tl_imports s) (tl_slines s)
  (tl_tenders s).
Definition put_imports v s := mkTill (tl_site s) (tl_fin s) (tl_categories s) (tl_expenses s) (tl_floats s) (tl_ptxns
  s) (tl_precons s) (tl_crecons s) (tl_crlines s) (tl_baccounts s) (tl_deposits s) (tl_dlines s) v (tl_slines s)
  (tl_tenders s).
Definition put_slines v s := mkTill (tl_site s) (tl_fin s) (tl_categories s) (tl_expenses s) (tl_floats s) (tl_ptxns
  s) (tl_precons s) (tl_crecons s) (tl_crlines s) (tl_baccounts s) (tl_deposits s) (tl_dlines s) (tl_imports s) v
  (tl_tenders s).
Definition put_tenders v s := mkTill (tl_site s) (tl_fin s) (tl_categories s) (tl_expenses s) (tl_floats s) (tl_ptxns
  s) (tl_precons s) (tl_crecons s) (tl_crlines s) (tl_baccounts s) (tl_deposits s) (tl_dlines s) (tl_imports s)
  (tl_slines s) v.


Inductive till_error :=
| TlNotFound | TlBadState | TlDuplicate | TlOverdraw | TlFloatBusy | TlSelfApproval
| TlUnique | TlCheck | TlForeignKey | TlNumeric.
#[export] Instance till_error_eq : EqDecision till_error.
Proof. solve_decision. Defined.

(** ** Statements *)

Definition on_fin {E A} (c : Tx Fin E A) : Tx Till E A :=
  fun s => match c (tl_fin s) with Ok (a, f) => Ok (a, put_fin f s) | Err e => Err e end.
Definition till_fresh {E} : Tx Till E uuid := on_fin fin_fresh.
Definition till_now (s : Till) : Z := fn_now (tl_fin s).
Definition till_books (s : Till) : Books := fn_books (tl_fin s).
Definition till_user (s : Till) (tenant id : uuid) : bool := fk_pair (bk_users (till_books s)) tenant id.
Definition till_station (s : Till) (tenant id : uuid) : bool := fk_pair (bk_stations (till_books s)) tenant id.

(** A decimal assigned to a [numeric(14,2)] column. *)
Definition till_cents (d : dec) : Tx Till till_error Z := tlift (of_option TlNumeric (numeric_col 14 2 d)).

(** [INSERT] of one row, and [UPDATE ... RETURNING] of one row with the error of
    its absence. *)
Definition insert_row {R} (get : Till -> list R) (put : list R -> Till -> Till) (x : R) : Tx Till till_error R :=
  let! s := tget in tput (put (get s ++ [x]) s) ;;! tret x.
Definition update_row {R} (get : Till -> list R) (put : list R -> Till -> Till) (q : R -> bool) (g : R -> R)
    (none : till_error) : Tx Till till_error R :=
  let! s := tget in
  match first_where q (get s) with
  | None => tfail none
  | Some x => tput (put (update_where q g (get s)) s) ;;! tret (g x)
  end.

(** [$2::uuid IS NULL OR station_id = $2] under [nullUUID]. *)
Definition null_or (id x : uuid) : bool := bool_decide (id = uuid_nil) || bool_decide (x = id).

(** ** Tenders (payments/repo.go) *)

Record RecordInput := mkRecordInput {
  ri_station : uuid; ri_shift : option uuid; ri_customer : option uuid; ri_type : tender_type; ri_amount : dec;
  ri_reference : option string; ri_by : uuid; ri_notes : option string; ri_key : option string }.
Record RecordResult := mkRecordResult { rr_payment : Tender; rr_replayed : bool }.

Definition same_key (tenant : uuid) (key : string) (p : Tender) : bool :=
  bool_decide (td_tenant p = tenant /\ td_key p = Some key).

(** A conflict on the key returns the row that holds it; it is found before the
    foreign keys are looked at. *)
Definition Record_ (tenant : uuid) (i : RecordInput) : Tx Till till_error RecordResult :=
  let! amount := till_cents (ri_amount i) in
  tguard (0 <=? amount) TlCheck ;;!
  tguard (match ri_key i with
          | None => true
          | Some k => (1 <=? String.length k)%nat && (String.length k <=? 255)%nat
          end) TlCheck ;;!
  let! id := till_fresh in
  let! s := tget in
  match match ri_key i with Some k => first_where (same_key tenant k) (tl_tenders s) | None => None end with
  | Some p => tret (mkRecordResult p true)
  | None =>
      tguard (till_station s tenant (ri_station i)
              && fk_opt (fun h => exists_where (sh_by tenant h) (op_shifts (s_ops (tl_site s)))) (ri_shift i)
              && fk_opt (fk_customer (tl_fin s) tenant) (ri_customer i)
              && till_user s tenant (ri_by i)) TlForeignKey ;;!
      let! p := insert_row tl_tenders put_tenders
        (mkTender id tenant (ri_station i) (ri_shift i) (ri_customer i) (ri_type i) amount (ri_reference i) (ri_by i)
           (till_now s) true (ri_notes i) (ri_key i)) in
      tret (mkRecordResult p false)
  end.

Definition of_shift (tenant shift : uuid) (p : Tender) : bool :=
  bool_decide (td_tenant p = tenant /\ td_shift p = Some shift).
Definition received_le (a b : Tender) : bool := td_at a <=? td_at b.
Definition received_id_le (a b : Tender) : bool :=
  (td_at a <? td_at b) || ((td_at a =? td_at b) && (td_id a <=? td_id b)%N).
Definition payments_ListForShift (s : Till) (tenant shift : uuid) : list Tender :=
  order_by received_le (select (of_shift tenant shift) (tl_tenders s)).
Definition payments_ListForShiftPage (s : Till) (tenant shift : uuid) (limit offset : nat) : list Tender :=
  limit_offset limit offset (order_by received_id_le (select (of_shift tenant shift) (tl_tenders s))).

Record ShiftReconciliation := mkShiftRecon { sx_tendered : dec; sx_recognized : dec; sx_variance : dec }.
Definition ReconcileShift (s : Till) (tenant shift : uuid) : ShiftReconciliation :=
  let tendered := coalesce_sum 2 td_amount (select (fun p => of_shift tenant shift p && td_recorded p) (tl_tenders s)) in
  let recognized := coalesce_sum 2 sale_gross
    (select (fun x => bool_decide (sale_tenant x = tenant /\ sale_shift x = shift)) (s_sales (tl_site s))) in
  mkShiftRecon tendered recognized (dec_sub tendered recognized).
