(* ===== verification/Expenses.v ===== *)
(** * Expenses and petty cash (package [expenses]: expenses.go, petty_cash.go)

    Expense categories, the expense lifecycle draft -> submitted -> approved ->
    posted, and the floats with their transactions and counts.  An amount of a
    request is the decimal its literal denotes. *)

From stdpp Require Import base list strings.
From Stdlib Require Import ZArith Lia.
From S2P Require Import Prelude Numeric Schema Ledger Accounting Finance Payables Operations Readings Treasury.

Local Open Scope Z_scope.
Local Open Scope tx_scope.

(** ** Categories (expenses.go) *)

Record CategoryInput := mkCategoryInput { ci_name : string; ci_key : string; ci_threshold : option dec }.

Definition ct_by_id (tenant id : uuid) (c : Category) : bool := bool_decide (ct_tenant c = tenant /\ ct_id c = id).
(** [uq_expense_categories_name] *)
Definition same_category (tenant : uuid) (name : string) (c : Category) : bool :=
  bool_decide (ct_tenant c = tenant) && bool_decide (lower (ct_name c) = lower name).

(** The optional threshold as [$N::numeric], checked by
    [chk_expense_category_threshold_nonneg]. *)
Definition threshold_col (d : option dec) : Tx Till till_error (option Z) :=
  match d with
  | None => tret None
  | Some d => let! z := till_cents d in tguard (0 <=? z) TlCheck ;;! tret (Some z)
  end.

Definition CreateCategory (tenant : uuid) (i : CategoryInput) : Tx Till till_error Category :=
  let! threshold := threshold_col (ci_threshold i) in
  let! id := till_fresh in
  let! s := tget in
  tguard (negb (exists_where (same_category tenant (ci_name i)) (tl_categories s))) TlUnique ;;!
  insert_row tl_categories put_categories
    (mkCategory id tenant (ci_name i) (word_or (ci_key i) "operating_expense") threshold true).

Definition GetCategory (s : Till) (tenant id : uuid) : result till_error Category :=
  of_option TlNotFound (first_where (ct_by_id tenant id) (tl_categories s)).

(** The check and the unique index are those of the row updated. *)
Definition UpdateCategory (tenant id : uuid) (i : CategoryInput) : Tx Till till_error Category :=
  let! s := tget in
  tguard (exists_where (ct_by_id tenant id) (tl_categories s)) TlNotFound ;;!
  let! threshold := threshold_col (ci_threshold i) in
  tguard (negb (exists_where (fun c => same_category tenant (ci_name i) c && negb (ct_by_id tenant id c))
                  (tl_categories s))) TlUnique ;;!
  update_row tl_categories put_categories (ct_by_id tenant id)
    (fun c => mkCategory (ct_id c) (ct_tenant c) (ci_name i) (word_or (ci_key i) "operating_expense") threshold
                (ct_active c)) TlNotFound.

(** The statuses are [active] and [archived]. *)
Definition SetCategoryStatus (tenant id : uuid) (active : bool) : Tx Till till_error Category :=
  update_row tl_categories put_categories (ct_by_id tenant id)
    (fun c => mkCategory (ct_id c) (ct_tenant c) (ct_name c) (ct_key c) (ct_threshold c) active) TlNotFound.

(** [ORDER BY name] under the collation of the database. *)
Section Listing.
Context (collate : string -> string -> bool).

Definition ListCategories (s : Till) (tenant : uuid) : list Category :=
  order_by (named_le collate ct_name) (select (fun c => bool_decide (ct_tenant c = tenant)) (tl_categories s)).
Definition ListCategoriesPage (s : Till) (tenant : uuid) (limit offset : nat) : list Category :=
  limit_offset limit offset (order_by (named_id_le collate ct_name ct_id)
    (select (fun c => bool_decide (ct_tenant c = tenant)) (tl_categories s))).

Definition ListFloats (s : Till) (tenant : uuid) : list PettyFloat :=
  order_by (named_le collate fl_name) (select (fun f => bool_decide (fl_tenant f = tenant)) (tl_floats s)).
Definition ListFloatsPage (s : Till) (tenant : uuid) (limit offset : nat) : list PettyFloat :=
  limit_offset limit offset (order_by (named_id_le collate fl_name fl_id)
    (select (fun f => bool_decide (fl_tenant f = tenant)) (tl_floats s))).
End Listing.

(** ** Expenses *)

Record ExpenseInput := mkExpenseInput {
  xi_station : option uuid; xi_category : option uuid; xi_payee : option string; xi_date : Z; xi_amount : dec;
  xi_key : string; xi_mode : string; xi_reference : option string; xi_notes : option string; xi_by : uuid }.

Definition resolveAccountKey (s : Till) (tenant : uuid) (i : ExpenseInput) : string :=
  word_or (xi_key i)
    (word_or (match xi_category i with
              | Some c => match first_where (ct_by_id tenant c) (tl_categories s) with
                          | Some row => ct_key row | None => "" end
              | None => ""
              end) "operating_expense").

(** [chk_expense_payment_mode] *)
Definition payment_modes : list string := ["cash"; "bank"; "payable"; "petty_cash"]%string.

Definition CreateExpense (tenant : uuid) (i : ExpenseInput) : Tx Till till_error Expense :=
  let! s0 := tget in
  let key := resolveAccountKey s0 tenant i in
  let mode := word_or (xi_mode i) "cash" in
  let! amount := till_cents (xi_amount i) in
  let! id := till_fresh in
  let! s := tget in
  tguard ((0 <? amount) && bool_decide (mode ∈ payment_modes)) TlCheck ;;!
  tguard (fk_opt (till_station s tenant) (xi_station i)
          && fk_opt (fun c => exists_where (ct_by_id tenant c) (tl_categories s)) (xi_category i)
          && till_user s tenant (xi_by i)) TlForeignKey ;;!
  insert_row tl_expenses put_expenses
    (mkExpense id tenant (xi_station i) (xi_category i) (xi_payee i) (xi_date i) amount key mode (xi_reference i)
       (xi_notes i) ExDraft None None (xi_by i) (till_now s)).

Definition ex_by_id (tenant id : uuid) (e : Expense) : bool := bool_decide (ex_tenant e = tenant /\ ex_id e = id).
Definition ex_at (tenant id : uuid) (st : expense_status) (e : Expense) : bool :=
  ex_by_id tenant id e && bool_decide (ex_status e = st).
Definition with_expense (st : expense_status) (entry approver : option uuid) (e : Expense) : Expense :=
  mkExpense (ex_id e) (ex_tenant e) (ex_station e) (ex_category e) (ex_payee e) (ex_date e) (ex_amount e) (ex_key e)
    (ex_mode e) (ex_reference e) (ex_notes e) st entry approver (ex_by e) (ex_created e).

Definition GetExpense (s : Till) (tenant id : uuid) : result till_error Expense :=
  of_option TlNotFound (first_where (ex_by_id tenant id) (tl_expenses s)).

Definition expense_word (st : expense_status) : string :=
  match st with
  | ExDraft => "draft" | ExSubmitted => "submitted" | ExApproved => "approved" | ExPosted => "posted"
  | ExRejected => "rejected" | ExVoided => "voided"
  end.
Definition expense_listed (tenant : uuid) (status : string) (e : Expense) : bool :=
  bool_decide (ex_tenant e = tenant)
  && (bool_decide (status = "")%string || bool_decide (expense_word (ex_status e) = status)).
Definition expense_newest (a b : Expense) : bool :=
  (ex_date b <? ex_date a) || ((ex_date b =? ex_date a) && (ex_created b <=? ex_created a)).
Definition expense_newest_id (a b : Expense) : bool :=
  (ex_date b <? ex_date a)
  || ((ex_date b =? ex_date a)
      && ((ex_created b <? ex_created a) || ((ex_created b =? ex_created a) && (ex_id a <=? ex_id b)%N))).
Definition ListExpenses (s : Till) (tenant : uuid) (status : string) : list Expense :=
  order_by expense_newest (select (expense_listed tenant status) (tl_expenses s)).
Definition ListExpensesPage (s : Till) (tenant : uuid) (status : string) (limit offset : nat) : list Expense :=
  limit_offset limit offset (order_by expense_newest_id (select (expense_listed tenant status) (tl_expenses s))).

(** [transition]: the row must be in the status [from]. *)
Definition expense_step (tenant id : uuid) (from : expense_status) (g : Expense -> Expense)
  : Tx Till till_error Expense :=
  update_row tl_expenses put_expenses (ex_at tenant id from) g TlBadState.

Definition SubmitExpense (tenant id : uuid) : Tx Till till_error Expense :=
  expense_step tenant id ExDraft (fun e => with_expense ExSubmitted (ex_entry e) (ex_approver e) e).

Definition ApproveExpense (tenant id approver : uuid) : Tx Till till_error Expense :=
  let! s := tget in
  let! e := tlift (GetExpense s tenant id) in
  tguard (bool_decide (ex_status e = ExSubmitted)) TlBadState ;;!
  tguard (negb (bool_decide (ex_by e = approver))) TlSelfApproval ;;!
  expense_step tenant id ExSubmitted (fun e => with_expense ExApproved (ex_entry e) (Some approver) e).

Definition MarkExpensePosted (tenant id entry : uuid) : Tx Till till_error Expense :=
  expense_step tenant id ExApproved (fun e => with_expense ExPosted (Some entry) (ex_approver e) e).

(** ** Petty cash (petty_cash.go) *)

Definition fl_by_id (tenant id : uuid) (f : PettyFloat) : bool := bool_decide (fl_tenant f = tenant /\ fl_id f = id).
Definition with_balance (z : Z) (f : PettyFloat) : PettyFloat :=
  mkFloat (fl_id f) (fl_tenant f) (fl_station f) (fl_name f) z (fl_status f) (fl_by f) (fl_created f).

Definition CreateFloat (tenant station : uuid) (name : string) (by_ : uuid) : Tx Till till_error PettyFloat :=
  let! id := till_fresh in
  let! s := tget in
  tguard (till_station s tenant station && till_user s tenant by_) TlForeignKey ;;!
  insert_row tl_floats put_floats (mkFloat id tenant station name 0 FlActive by_ (till_now s)).

Definition GetFloat (s : Till) (tenant id : uuid) : result till_error PettyFloat :=
  of_option TlNotFound (first_where (fl_by_id tenant id) (tl_floats s)).

Definition increases (t : txn_type) : bool :=
  match t with TxTopup | TxReimbursement | TxAdjustment => true | TxSpend | TxTransfer => false end.

(** [balance + ($3::numeric * $4::int)] *)
Definition moved (t : txn_type) (balance : Z) (amount : dec) : dec :=
  (if increases t then dec_add else dec_sub) (dec_of 2 balance) amount.

Definition RecordTransaction (tenant float : uuid) (t : txn_type) (amount : dec) (description key : option string)
    (overdraw : bool) (by_ : uuid) : Tx Till till_error PettyTransaction :=
  let! s := tget in
  let! f := tlift (GetFloat s tenant float) in
  tguard (bool_decide (fl_status f = FlActive)) TlFloatBusy ;;!
  let after := moved t (fl_balance f) amount in
  tguard (dec_leb (Dec 0 0) after || overdraw) TlOverdraw ;;!
  let! balance := till_cents after in
  update_row tl_floats put_floats (fl_by_id tenant float) (with_balance balance) TlOverdraw ;;!
  let! a := till_cents amount in
  tguard (0 <? a) TlCheck ;;!
  let! id := till_fresh in
  let! s := tget in
  tguard (till_user s tenant by_) TlForeignKey ;;!
  insert_row tl_ptxns put_ptxns
    (mkPetty id tenant float t a balance description key overdraw None by_ (till_now s)).

Definition pt_by_id (tenant id : uuid) (t : PettyTransaction) : bool := bool_decide (pt_tenant t = tenant /\ pt_id t = id).
Definition SetTransactionJournalEntry (tenant id entry : uuid) : Tx Till till_error unit :=
  let! s := tget in
  tput (put_ptxns (update_where (pt_by_id tenant id)
          (fun t => mkPetty (pt_id t) (pt_tenant t) (pt_float t) (pt_type t) (pt_amount t) (pt_balance t)
                      (pt_description t) (pt_key t) (pt_overdraw t) (Some entry) (pt_by t) (pt_created t))
          (tl_ptxns s)) s).

Definition of_float (tenant float : uuid) (t : PettyTransaction) : bool :=
  bool_decide (pt_tenant t = tenant /\ pt_float t = float).
Definition ListTransactions (s : Till) (tenant float : uuid) : list PettyTransaction :=
  order_by (fun a b => pt_created a <=? pt_created b) (select (of_float tenant float) (tl_ptxns s)).
Definition petty_le (a b : PettyTransaction) : bool :=
  (pt_created a <? pt_created b) || ((pt_created a =? pt_created b) && (pt_id a <=? pt_id b)%N).
Definition ListTransactionsPage (s : Till) (tenant float : uuid) (limit offset : nat) : list PettyTransaction :=
  limit_offset limit offset (order_by petty_le (select (of_float tenant float) (tl_ptxns s))).

(** The row, and the exact magnitudes [GREATEST(x, 0)]. *)
Record CountResult := mkCount { cn_row : PettyReconciliation; cn_short : dec; cn_over : dec }.
Definition dec_pos (d : dec) : dec := if dec_leb (Dec 0 0) d then d else Dec 0 0.

Definition ReconcileFloat (tenant float : uuid) (counted : dec) (by_ : uuid) : Tx Till till_error CountResult :=
  let! s := tget in
  let! f := tlift (GetFloat s tenant float) in
  let expected := dec_of 2 (fl_balance f) in
  let! c := till_cents counted in
  let! variance := till_cents (dec_sub counted expected) in
  let! id := till_fresh in
  let! s := tget in
  tguard (till_user s tenant by_) TlForeignKey ;;!
  let! row := insert_row tl_precons put_precons
    (mkPettyRecon id tenant float (fl_balance f) c variance None by_ (till_now s)) in
  let! s := tget in
  tput (put_floats (update_where (fl_by_id tenant float) (with_balance c) (tl_floats s)) s) ;;!
  tret (mkCount row (dec_pos (dec_sub expected counted)) (dec_pos (dec_sub counted expected))).

Definition pn_by_id (tenant id : uuid) (n : PettyReconciliation) : bool :=
  bool_decide (pn_tenant n = tenant /\ pn_id n = id).
Definition SetReconciliationJournalEntry (tenant id entry : uuid) : Tx Till till_error unit :=
  let! s := tget in
  tput (put_precons (update_where (pn_by_id tenant id)
          (fun n => mkPettyRecon (pn_id n) (pn_tenant n) (pn_float n) (pn_expected n) (pn_counted n) (pn_variance n)
                      (Some entry) (pn_by n) (pn_created n)) (tl_precons s)) s).
