(* ===== verification/Banking.v ===== *)
(** * Cash reconciliation, deposits and bank statements (package [banking]:
      cash_reconciliation.go, deposits.go, statements.go)

    A day's cash is reconciled against the cash tenders of its shifts, deposited,
    and matched with the bank's statement. *)

From stdpp Require Import base list strings.
From Stdlib Require Import ZArith Lia.
From S2P Require Import Prelude Numeric Schema Ledger Accounting Finance Payables Operations Readings Treasury Expenses.

Local Open Scope Z_scope.
Local Open Scope tx_scope.

(** ** Cash reconciliations (cash_reconciliation.go) *)

Definition till_shifts (s : Till) : list Shift := op_shifts (s_ops (tl_site s)).
Definition till_days (s : Till) : list OperatingDay := op_days (s_ops (tl_site s)).
Definition dy_by_id (tenant id : uuid) (d : OperatingDay) : bool := bool_decide (dy_tenant d = tenant /\ dy_id d = id).
Definition day_shift (tenant day : uuid) (h : Shift) : bool := bool_decide (sh_tenant h = tenant /\ sh_day h = day).
Definition cash_of (tenant shift : uuid) (p : Tender) : bool :=
  of_shift tenant shift p && bool_decide (td_type p = TdCash) && td_recorded p.

(** The cash tenders joined to the day's shifts. *)
Definition day_cash (s : Till) (tenant day : uuid) : list Tender :=
  mjoin ((fun h => select (cash_of tenant (sh_id h)) (tl_tenders s))
           <$> select (day_shift tenant day) (till_shifts s)).

Definition cr_by_id (tenant id : uuid) (c : CashReconciliation) : bool :=
  bool_decide (cr_tenant c = tenant /\ cr_id c = id).
(** [uq_cash_recon_day] *)
Definition of_day (tenant day : uuid) (c : CashReconciliation) : bool :=
  bool_decide (cr_tenant c = tenant /\ cr_day c = day).

(** One line per shift of the day. *)
Fixpoint seed_lines (tenant recon : uuid) (l : list Shift) : Tx Till till_error unit :=
  match l with
  | [] => tret tt
  | h :: rest =>
      let! s := tget in
      let! z := till_cents (coalesce_sum 2 td_amount (select (cash_of tenant (sh_id h)) (tl_tenders s))) in
      let! id := till_fresh in
      insert_row tl_crlines put_crlines (mkCashReconLine id tenant recon (sh_id h) z) ;;!
      seed_lines tenant recon rest
  end.

Definition CreateCashReconciliation (tenant station day by_ : uuid) : Tx Till till_error CashReconciliation :=
  let! s := tget in
  let! expected := till_cents (coalesce_sum 2 td_amount (day_cash s tenant day)) in
  let! id := till_fresh in
  let! s := tget in
  tguard (negb (exists_where (of_day tenant day) (tl_crecons s))) TlDuplicate ;;!
  tguard (till_station s tenant station && exists_where (dy_by_id tenant day) (till_days s)
          && till_user s tenant by_) TlForeignKey ;;!
  let! c := insert_row tl_crecons put_crecons
    (mkCashRecon id tenant station day expected 0 0 CrDraft None None None by_ (till_now s)) in
  seed_lines tenant id (select (day_shift tenant day) (till_shifts s)) ;;! tret c.

Definition GetCashReconciliation (s : Till) (tenant id : uuid) : result till_error CashReconciliation :=
  of_option TlNotFound (first_where (cr_by_id tenant id) (tl_crecons s)).
Definition recon_listed (tenant station : uuid) (c : CashReconciliation) : bool :=
  bool_decide (cr_tenant c = tenant) && null_or station (cr_station c).
Definition ListCashReconciliations (s : Till) (tenant station : uuid) : list CashReconciliation :=
  order_by (newest cr_created) (select (recon_listed tenant station) (tl_crecons s)).
Definition ListCashReconciliationsPage (s : Till) (tenant station : uuid) (limit offset : nat)
  : list CashReconciliation :=
  limit_offset limit offset (order_by (newest_id cr_created cr_id) (select (recon_listed tenant station) (tl_crecons s))).

Definition submittable (tenant id : uuid) (c : CashReconciliation) : bool :=
  cr_by_id tenant id c && (bool_decide (cr_status c = CrDraft) || bool_decide (cr_status c = CrRejected)).
Definition submitted (counted variance : Z) (notes : option string) (c : CashReconciliation) : CashReconciliation :=
  mkCashRecon (cr_id c) (cr_tenant c) (cr_station c) (cr_day c) (cr_expected c) counted variance CrSubmitted
    (opt_or notes (cr_notes c)) (cr_entry c) (cr_reviewer c) (cr_by c) (cr_created c).

Definition SubmitCashReconciliation (tenant id : uuid) (counted : dec) (notes : option string)
  : Tx Till till_error CashReconciliation :=
  let! s := tget in
  match first_where (submittable tenant id) (tl_crecons s) with
  | None => tfail TlBadState
  | Some c =>
      let! z := till_cents counted in
      let! v := till_cents (dec_sub counted (dec_of 2 (cr_expected c))) in
      update_row tl_crecons put_crecons (submittable tenant id) (submitted z v notes) TlBadState
  end.

Record CashPosting := mkCashPosting {
  cp_station : uuid; cp_date : Z; cp_counted : Z; cp_expected : Z; cp_short : Z; cp_over : Z; cp_status : cash_status }.

(** The day joined to the row is unique. *)
Definition PostingFor (s : Till) (tenant id : uuid) : result till_error CashPosting :=
  match first_where (cr_by_id tenant id) (tl_crecons s) with
  | None => Err TlNotFound
  | Some c =>
      match first_where (dy_by_id tenant (cr_day c)) (till_days s) with
      | None => Err TlNotFound
      | Some d => Ok (mkCashPosting (cr_station c) (dy_date d) (cr_counted c) (cr_expected c)
                        (Z.max (cr_expected c - cr_counted c) 0) (Z.max (cr_counted c - cr_expected c) 0)
                        (cr_status c))
      end
  end.

Definition awaiting (tenant id : uuid) (c : CashReconciliation) : bool :=
  cr_by_id tenant id c && bool_decide (cr_status c = CrSubmitted).
Definition MarkCashReconciliationPosted (tenant id reviewer : uuid) (entry : option uuid) : Tx Till till_error unit :=
  update_row tl_crecons put_crecons (awaiting tenant id)
    (fun c => mkCashRecon (cr_id c) (cr_tenant c) (cr_station c) (cr_day c) (cr_expected c) (cr_counted c)
                (cr_variance c) CrPosted (cr_notes c) entry (Some reviewer) (cr_by c) (cr_created c)) TlBadState ;;!
  tret tt.

(** ** Bank accounts (deposits.go) *)

Definition CreateBankAccount (tenant : uuid) (name : string) (number : option string) (currency : string)
  : Tx Till till_error BankAccount :=
  let! id := till_fresh in
  let! s := tget in
  insert_row tl_baccounts put_baccounts
    (mkBankAccount id tenant name number (word_or currency "NGN") true (till_now s)).

Section Listing.
Context (collate : string -> string -> bool).
Definition ListBankAccounts (s : Till) (tenant : uuid) : list BankAccount :=
  order_by (named_le collate ba_name) (select (fun a => bool_decide (ba_tenant a = tenant)) (tl_baccounts s)).
Definition ListBankAccountsPage (s : Till) (tenant : uuid) (limit offset : nat) : list BankAccount :=
  limit_offset limit offset (order_by (named_id_le collate ba_name ba_id)
    (select (fun a => bool_decide (ba_tenant a = tenant)) (tl_baccounts s))).
End Listing.

Definition fk_bank (s : Till) (tenant id : uuid) : bool :=
  exists_where (fun a => bool_decide (ba_tenant a = tenant /\ ba_id a = id)) (tl_baccounts s).

(** ** Deposits (deposits.go) *)

Record DepositInput := mkDepositInput {
  di_station : uuid; di_account : uuid; di_slip : option string; di_reference : option string;
  di_expected : option Z; di_by : uuid }.

Definition CreateDeposit (tenant : uuid) (i : DepositInput) : Tx Till till_error BankDeposit :=
  let! id := till_fresh in
  let! s := tget in
  tguard (till_station s tenant (di_station i) && fk_bank s tenant (di_account i) && till_user s tenant (di_by i))
    TlForeignKey ;;!
  insert_row tl_deposits put_deposits
    (mkDeposit id tenant (di_station i) (di_account i) (di_slip i) 0 (di_reference i) (di_expected i) None DpDraft
       None None (di_by i) (till_now s)).

Definition bd_by_id (tenant id : uuid) (d : BankDeposit) : bool := bool_decide (bd_tenant d = tenant /\ bd_id d = id).
(** [uq_bdl_recon] *)
Definition deposits_recon (tenant recon : uuid) (l : DepositLine) : bool :=
  bool_decide (bl_tenant l = tenant /\ bl_recon l = recon).
Definition AddDepositLine (tenant deposit recon : uuid) (amount : dec) : Tx Till till_error unit :=
  let! a := till_cents amount in
  tguard (0 <? a) TlCheck ;;!
  let! id := till_fresh in
  let! s := tget in
  tguard (negb (exists_where (deposits_recon tenant recon) (tl_dlines s))) TlDuplicate ;;!
  tguard (exists_where (bd_by_id tenant deposit) (tl_deposits s)
          && exists_where (cr_by_id tenant recon) (tl_crecons s)) TlForeignKey ;;!
  insert_row tl_dlines put_dlines (mkDepositLine id tenant deposit recon a) ;;! tret tt.

Definition GetDeposit (s : Till) (tenant id : uuid) : result till_error BankDeposit :=
  of_option TlNotFound (first_where (bd_by_id tenant id) (tl_deposits s)).
Definition deposit_listed (tenant station : uuid) (d : BankDeposit) : bool :=
  bool_decide (bd_tenant d = tenant) && null_or station (bd_station d).
Definition ListDeposits (s : Till) (tenant station : uuid) : list BankDeposit :=
  order_by (newest bd_created) (select (deposit_listed tenant station) (tl_deposits s)).
Definition ListDepositsPage (s : Till) (tenant station : uuid) (limit offset : nat) : list BankDeposit :=
  limit_offset limit offset (order_by (newest_id bd_created bd_id) (select (deposit_listed tenant station) (tl_deposits s))).

Definition with_deposit (amount : Z) (reference : option string) (actual : option Z) (st : deposit_status)
    (prepared confirmed : option uuid) (d : BankDeposit) : BankDeposit :=
  mkDeposit (bd_id d) (bd_tenant d) (bd_station d) (bd_account d) (bd_slip d) amount reference (bd_expected d) actual
    st prepared confirmed (bd_by d) (bd_created d).
Definition of_deposit (tenant deposit : uuid) (l : DepositLine) : bool :=
  bool_decide (bl_tenant l = tenant /\ bl_deposit l = deposit).

Definition draft_deposit (tenant id : uuid) (d : BankDeposit) : bool :=
  bd_by_id tenant id d && bool_decide (bd_status d = DpDraft).
(** The amount, the sum of the lines. *)
Definition PrepareDeposit (tenant id : uuid) : Tx Till till_error Z :=
  let! s := tget in
  tguard (exists_where (draft_deposit tenant id) (tl_deposits s)) TlBadState ;;!
  let! total := till_cents (coalesce_sum 2 bl_amount (select (of_deposit tenant id) (tl_dlines s))) in
  update_row tl_deposits put_deposits (draft_deposit tenant id)
    (fun d => with_deposit total (bd_reference d) (bd_actual d) DpPrepared (bd_prepared d) (bd_confirmed d) d) TlBadState ;;!
  tret total.

Definition set_deposit (tenant id : uuid) (g : BankDeposit -> BankDeposit) : Tx Till till_error unit :=
  let! s := tget in tput (put_deposits (update_where (bd_by_id tenant id) g (tl_deposits s)) s).
Definition SetDepositPreparedEntry (tenant id entry : uuid) : Tx Till till_error unit :=
  set_deposit tenant id (fun d => with_deposit (bd_amount d) (bd_reference d) (bd_actual d) (bd_status d) (Some entry)
                                    (bd_confirmed d) d).
Definition SetDepositConfirmedEntry (tenant id entry : uuid) : Tx Till till_error unit :=
  set_deposit tenant id (fun d => with_deposit (bd_amount d) (bd_reference d) (bd_actual d) (bd_status d) (bd_prepared d)
                                    (Some entry) d).

Definition confirmable (tenant id : uuid) (d : BankDeposit) : bool :=
  bd_by_id tenant id d && bool_decide (bd_status d ∈ [DpPrepared; DpInTransit; DpConfirmed]).
Definition ConfirmDeposit (tenant id : uuid) (actual : Z) (reference : option string) : Tx Till till_error Z :=
  let! d := update_row tl_deposits put_deposits (confirmable tenant id)
    (fun d => with_deposit (bd_amount d) (opt_or reference (bd_reference d)) (Some actual) DpPosted (bd_prepared d)
                (bd_confirmed d) d) TlBadState in
  tret (bd_amount d).

(** ** Statements (statements.go) *)

Record StatementLineInput := mkStatementInput {
  sn_txn : Z; sn_value : option Z; sn_amount : dec; sn_reference : option string; sn_description : option string }.

Fixpoint import_lines (tenant import account : uuid) (l : list StatementLineInput) : Tx Till till_error unit :=
  match l with
  | [] => tret tt
  | i :: rest =>
      let! a := till_cents (sn_amount i) in
      let! id := till_fresh in
      let! s := tget in
      insert_row tl_slines put_slines
        (mkStatementLine id tenant import account (sn_txn i) (sn_value i) a (sn_reference i) (sn_description i)
           SlUnmatched None None (till_now s)) ;;!
      import_lines tenant import account rest
  end.

(** [uq_bsi_hash] *)
Definition same_import (tenant account : uuid) (hash : string) (i : StatementImport) : bool :=
  bool_decide (im_tenant i = tenant /\ im_account i = account /\ im_hash i = hash).

Definition ImportStatement (tenant account : uuid) (start stop : option Z) (hash : string) (by_ : uuid)
    (lines : list StatementLineInput) : Tx Till till_error (uuid * nat) :=
  let! id := till_fresh in
  let! s := tget in
  tguard (negb (exists_where (same_import tenant account hash) (tl_imports s))) TlDuplicate ;;!
  tguard (fk_bank s tenant account && till_user s tenant by_) TlForeignKey ;;!
  insert_row tl_imports put_imports (mkImport id tenant account start stop hash (length lines) by_) ;;!
  import_lines tenant id account lines ;;! tret (id, length lines).

Definition line_word (st : line_status) : string :=
  match st with
  | SlUnmatched => "unmatched" | SlMatched => "matched" | SlBankFee => "bank_fee" | SlUnknown => "unknown"
  end.
Definition line_listed (tenant account : uuid) (status : string) (l : StatementLine) : bool :=
  bool_decide (sl_tenant l = tenant) && null_or account (sl_account l)
  && (bool_decide (status = "")%string || bool_decide (line_word (sl_status l) = status)).
Definition line_newest (a b : StatementLine) : bool :=
  (sl_txn b <? sl_txn a) || ((sl_txn b =? sl_txn a) && newest sl_created a b).
Definition line_newest_id (a b : StatementLine) : bool :=
  (sl_txn b <? sl_txn a) || ((sl_txn b =? sl_txn a) && newest_id sl_created sl_id a b).
Definition ListStatementLines (s : Till) (tenant account : uuid) (status : string) : list StatementLine :=
  order_by line_newest (select (line_listed tenant account status) (tl_slines s)).
Definition ListStatementLinesPage (s : Till) (tenant account : uuid) (status : string) (limit offset : nat)
  : list StatementLine :=
  limit_offset limit offset (order_by line_newest_id (select (line_listed tenant account status) (tl_slines s))).

Definition sl_by_id (tenant id : uuid) (l : StatementLine) : bool := bool_decide (sl_tenant l = tenant /\ sl_id l = id).
Definition GetStatementLine (s : Till) (tenant id : uuid) : result till_error StatementLine :=
  of_option TlNotFound (first_where (sl_by_id tenant id) (tl_slines s)).

Definition with_line (st : line_status) (doc : option (string * uuid)) (entry : option uuid) (l : StatementLine)
  : StatementLine :=
  mkStatementLine (sl_id l) (sl_tenant l) (sl_import l) (sl_account l) (sl_txn l) (sl_value l) (sl_amount l)
    (sl_reference l) (sl_description l) st doc entry (sl_created l).
Definition matchable (tenant id : uuid) (l : StatementLine) : bool :=
  sl_by_id tenant id l && (bool_decide (sl_status l = SlUnmatched) || bool_decide (sl_status l = SlUnknown)).
Definition MatchLine (tenant id : uuid) (docType : string) (doc : uuid) : Tx Till till_error unit :=
  update_row tl_slines put_slines (matchable tenant id)
    (fun l => with_line SlMatched (Some (docType, doc)) (sl_entry l) l) TlBadState ;;! tret tt.
Definition UnmatchLine (tenant id : uuid) : Tx Till till_error unit :=
  update_row tl_slines put_slines (sl_by_id tenant id) (with_line SlUnmatched None None) TlNotFound ;;! tret tt.
Definition MarkLine (tenant id : uuid) (st : line_status) (entry : option uuid) : Tx Till till_error unit :=
  update_row tl_slines put_slines (sl_by_id tenant id) (fun l => with_line st (sl_doc l) entry l) TlNotFound ;;! tret tt.
