(* ===== verification/ExpenseHandlers.v ===== *)
(** * The expense and petty-cash handlers (services/api/internal/server/
      expenses_handlers.go; [txAudit] of accounting_handlers.go, [isZeroMoney] of
      banking_handlers.go)

    The routes are behind a tenant-wide permission.  Requests are read as in the
    finance handlers; names are trimmed of ASCII space.  [today] is the date of
    [time.Now()], [pool] the state the reads before the transaction showed. *)

From stdpp Require Import base list strings.
From Stdlib Require Import ZArith Lia.
From S2P Require Import Prelude Numeric Schema Ledger Float64 Accounting Finance Payables Policy Operations Workforce WorkforceHandlers Readings FinanceHandlers Treasury Expenses.

Local Open Scope Z_scope.
Local Open Scope tx_scope.

Definition till_audit {E} (a : Actor) (action : string) (entity : uuid) : Tx Till E unit :=
  on_fin (fin_audit a action entity).
Definition till_internal {A} (c : Tx Till till_error A) : Tx Till http_error A := tconv (fun _ => ops_internal) c.

(** The entity is what the body returns, here a function of its value. *)
Definition txAudit {A} (a : Actor) (action : string) (entity : A -> uuid) (c : Tx Till http_error A)
  : Tx Till http_error A :=
  let! x := c in till_audit a action (entity x) ;;! tret x.

(** A parameter that does not parse reads as zero. *)
Definition isZeroMoney (d : dec) : bool :=
  match parseDecimal d with Some v => f_eq v (F64 0 0) | None => true end.

(** [PostEntry] in the transaction of a handler. *)
Definition post_journal (tenant : uuid) (i : PostEntryInput) : Tx Till http_error EntryView :=
  on_fin (on_books_tx (tconv journalErrorResponse (PostEntry tenant i))).

(** Debit the one account, credit the other, at a station. *)
Definition transfer_lines (station : option uuid) (debit credit amount : string) : list PostLine :=
  [mkPostLine uuid_nil debit amount "0" station None; mkPostLine uuid_nil credit "0" amount station None].

Definition paymentModeAccount (mode : string) : string :=
  match mode with
  | "bank" => "bank" | "payable" => "accounts_payable" | "petty_cash" => "petty_cash" | _ => "cash_on_hand"
  end.

(** An optional date of a request. *)
Definition date_or (today : Z) (m : string) (d : option (result unit Z)) : result http_error Z :=
  match d with None => Ok today | Some (Ok t) => Ok t | Some (Err _) => Err (bad_request m) end.

Section Handlers.
Context (collate : string -> string -> bool) (cfgDefault cfgMax : Z).

(** ** Categories *)

(** [None] when the field is absent or blank, [Some None] when ParseFloat refuses
    it. *)
Definition parseCategoryThreshold (raw : option (option dec)) : result http_error (option dec) :=
  match raw with
  | None => Ok None
  | Some (Some d) => if nonnegative_amount d then Ok (Some d)
                     else Err (bad_request "approval_threshold must be a non-negative decimal")
  | Some None => Err (bad_request "approval_threshold must be a non-negative decimal")
  end.

Record categoryRequest := mkCategoryRequest { gq_name : string; gq_key : string; gq_threshold : option (option dec) }.

(** A body that does not decode and a blank name are the same error. *)
Definition category_input (body : result unit categoryRequest) : result http_error CategoryInput :=
  match body with
  | Err _ => Err (bad_request "name is required")
  | Ok q => if bool_decide (trim_space (gq_name q) = "")%string then Err (bad_request "name is required")
            else (let? t := parseCategoryThreshold (gq_threshold q) in
                  Ok (mkCategoryInput (trim_space (gq_name q)) (trim_space (gq_key q)) t))%res
  end.

Definition category_error (e : till_error) : http_error :=
  match e with
  | TlNotFound => HttpError 404 "category not found"
  | TlUnique => HttpError 409 "a category with this name already exists"
  | _ => ops_internal
  end.

Definition handleCreateExpenseCategory (ctx : option Actor) (body : result unit categoryRequest)
  : Tx Till http_error Category :=
  let! a := tlift (ops_actor ctx) in
  let! i := tlift (category_input body) in
  txAudit a "expense_category.created" ct_id (tconv category_error (CreateCategory (ac_tenant a) i)).

Definition handleListExpenseCategories (pool : Till) (ctx : option Actor) (limit offset : option (result unit Z))
  : result http_error (list Category * bool) :=
  (let? a := ops_actor ctx in
   let? (l, o) := parsePage cfgDefault cfgMax limit offset in
   Ok (page_of l (ListCategoriesPage collate pool (ac_tenant a) (Z.to_nat (l + 1)) (Z.to_nat o))))%res.

Definition handleUpdateExpenseCategory (ctx : option Actor) (id : result unit uuid) (body : result unit categoryRequest)
  : Tx Till http_error Category :=
  let! a := tlift (ops_actor ctx) in
  let! id := tlift (url_id "invalid id" id) in
  let! i := tlift (category_input body) in
  txAudit a "expense_category.updated" (fun _ => id) (tconv category_error (UpdateCategory (ac_tenant a) id i)).

Definition handleSetExpenseCategoryStatus (ctx : option Actor) (id : result unit uuid) (body : result unit string)
  : Tx Till http_error Category :=
  let! a := tlift (ops_actor ctx) in
  let! id := tlift (url_id "invalid id" id) in
  let! status := tlift (json_body body) in
  tguard (bool_decide (status = "active" \/ status = "archived")%string)
    (bad_request "status must be active or archived") ;;!
  txAudit a ("expense_category." ++ status) (fun _ => id)
    (tconv category_error (SetCategoryStatus (ac_tenant a) id (bool_decide (status = "active")%string))).

(** ** Expenses *)

Record expenseRequest := mkExpenseRequest {
  xq_station : option uuid; xq_category : option uuid; xq_payee : option string; xq_date : option (result unit Z);
  xq_amount : option dec; xq_key : string; xq_mode : string; xq_reference : option string; xq_notes : option string }.

Definition handleCreateExpense (today : Z) (ctx : option Actor) (body : result unit expenseRequest)
  : Tx Till http_error Expense :=
  let! a := tlift (ops_actor ctx) in
  let! q := tlift (json_body body) in
  let! amount := tlift (of_option (bad_request "amount must be a positive decimal") (positive_amount (xq_amount q))) in
  let! date := tlift (date_or today "expense_date must be YYYY-MM-DD" (xq_date q)) in
  txAudit a "expense.created" ex_id
    (tconv (fun e => if bool_decide (e = TlForeignKey) then bad_request "unknown station or category" else ops_internal)
       (CreateExpense (ac_tenant a)
          (mkExpenseInput (xq_station q) (xq_category q) (xq_payee q) date amount (xq_key q) (xq_mode q) (xq_reference q)
             (xq_notes q) (ac_user a)))).

Definition handleListExpenses (pool : Till) (ctx : option Actor) (status : string) (limit offset : option (result unit Z))
  : result http_error (list Expense * bool) :=
  (let? a := ops_actor ctx in
   let? (l, o) := parsePage cfgDefault cfgMax limit offset in
   Ok (page_of l (ListExpensesPage pool (ac_tenant a) status (Z.to_nat (l + 1)) (Z.to_nat o))))%res.

(** A read of one row of the tenant. *)
Definition get_or_404 {R} (m : string) (r : result till_error R) : result http_error R :=
  match r with
  | Ok x => Ok x
  | Err e => Err (if bool_decide (e = TlNotFound) then HttpError 404 m else ops_internal)
  end.

Definition handleGetExpense (pool : Till) (ctx : option Actor) (id : result unit uuid) : result http_error Expense :=
  (let? a := ops_actor ctx in
   let? id := url_id "invalid id" id in
   get_or_404 "expense not found" (GetExpense pool (ac_tenant a) id))%res.

Definition transition_error (e : till_error) : http_error :=
  match e with
  | TlSelfApproval => HttpError 403 "separation of duties: you cannot approve an expense you created"
  | TlBadState => HttpError 409 "expense is not in the required state for this action"
  | _ => ops_internal
  end.
Definition expenseTransition (ctx : option Actor) (id : result unit uuid) (action : string)
    (fn : Actor -> uuid -> Tx Till till_error Expense) : Tx Till http_error Expense :=
  let! a := tlift (ops_actor ctx) in
  let! id := tlift (url_id "invalid id" id) in
  txAudit a ("expense." ++ action) (fun _ => id) (tconv transition_error (fn a id)).

Definition handleSubmitExpense (ctx : option Actor) (id : result unit uuid) : Tx Till http_error Expense :=
  expenseTransition ctx id "submitted" (fun a id => SubmitExpense (ac_tenant a) id).
Definition handleApproveExpense (ctx : option Actor) (id : result unit uuid) : Tx Till http_error Expense :=
  expenseTransition ctx id "approved" (fun a id => ApproveExpense (ac_tenant a) id (ac_user a)).

(** The entry posted; the row the pool showed decides what is posted. *)
Definition handlePostExpense (pool : Till) (ctx : option Actor) (id : result unit uuid) : Tx Till http_error EntryView :=
  let! a := tlift (ops_actor ctx) in
  let! id := tlift (url_id "invalid id" id) in
  let! e := tlift (get_or_404 "expense not found" (GetExpense pool (ac_tenant a) id)) in
  tguard (bool_decide (ex_status e = ExApproved)) (HttpError 409 "expense must be approved before posting") ;;!
  let! v := post_journal (ac_tenant a)
    (mkPostEntry (ex_date e) "expense" (Some id) (ex_station e) None (ac_user a) false
       (transfer_lines (ex_station e) (ex_key e) (paymentModeAccount (ex_mode e)) (numeric_text 2 (ex_amount e)))) in
  till_internal (MarkExpensePosted (ac_tenant a) id (je_id (ev_entry v))) ;;!
  till_audit a "expense.posted" id ;;! tret v.

(** ** Petty cash *)

(** A body that does not decode has the message of a missing field. *)
Definition handleCreatePettyCashFloat (ctx : option Actor) (body : result unit (uuid * string))
  : Tx Till http_error PettyFloat :=
  let! a := tlift (ops_actor ctx) in
  let! (station, name) := tlift (match body with
    | Ok (st, n) => if bool_decide (st = uuid_nil) || bool_decide (n = "")%string
                    then Err (bad_request "station_id and name are required") else Ok (st, n)
    | Err _ => Err (bad_request "station_id and name are required")
    end) in
  txAudit a "petty_cash.float_created" fl_id
    (tconv (fun e => if bool_decide (e = TlForeignKey) then bad_request "unknown station" else ops_internal)
       (CreateFloat (ac_tenant a) station name (ac_user a))).

Definition handleListPettyCashFloats (pool : Till) (ctx : option Actor) (limit offset : option (result unit Z))
  : result http_error (list PettyFloat * bool) :=
  (let? a := ops_actor ctx in
   let? (l, o) := parsePage cfgDefault cfgMax limit offset in
   Ok (page_of l (ListFloatsPage collate pool (ac_tenant a) (Z.to_nat (l + 1)) (Z.to_nat o))))%res.

Definition handleGetPettyCashFloat (pool : Till) (ctx : option Actor) (id : result unit uuid)
  : result http_error PettyFloat :=
  (let? a := ops_actor ctx in
   let? id := url_id "invalid id" id in
   get_or_404 "float not found" (GetFloat pool (ac_tenant a) id))%res.

Record pettyRequest := mkPettyRequest {
  tq_type : string; tq_amount : option dec; tq_date : option (result unit Z); tq_description : option string;
  tq_key : option string; tq_overdraw : bool }.

Definition txn_word (w : string) : option txn_type :=
  match w with
  | "topup" => Some TxTopup | "spend" => Some TxSpend | "reimbursement" => Some TxReimbursement
  | "adjustment" => Some TxAdjustment | "transfer" => Some TxTransfer | _ => None
  end%string.

Definition petty_lines (t : txn_type) (key : option string) (amount : dec) : list PostLine :=
  let text := dec_text amount in
  match t with
  | TxTopup | TxReimbursement => transfer_lines None "petty_cash" "bank" text
  | TxSpend => transfer_lines None (word_or (default "" key) "operating_expense") "petty_cash" text
  | TxAdjustment => transfer_lines None "petty_cash" "cash_over_short" text
  | TxTransfer => transfer_lines None "bank" "petty_cash" text
  end%string.

Definition petty_error (e : till_error) : http_error :=
  match e with
  | TlNotFound => HttpError 404 "float not found"
  | TlFloatBusy => HttpError 409 "float is not active"
  | TlOverdraw => HttpError 422 "transaction would overdraw the float; set overdraw to override"
  | _ => ops_internal
  end.

(** The transaction and its entry. *)
Definition handlePettyCashTransaction (today : Z) (ctx : option Actor) (id : result unit uuid)
    (body : result unit pettyRequest) : Tx Till http_error (PettyTransaction * EntryView) :=
  let! a := tlift (ops_actor ctx) in
  let! id := tlift (url_id "invalid id" id) in
  let! q := tlift (json_body body) in
  let! t := tlift (of_option (bad_request "txn_type must be topup|spend|reimbursement|adjustment|transfer")
                     (txn_word (tq_type q))) in
  let! amount := tlift (of_option (bad_request "amount must be a positive decimal") (positive_amount (tq_amount q))) in
  let! date := tlift (date_or today "date must be YYYY-MM-DD" (tq_date q)) in
  let! x := tconv petty_error (RecordTransaction (ac_tenant a) id t amount (tq_description q) (tq_key q) (tq_overdraw q)
    (ac_user a)) in
  let! v := post_journal (ac_tenant a)
    (mkPostEntry date "petty_cash" (Some (pt_id x)) None None (ac_user a) false (petty_lines t (tq_key q) amount)) in
  till_internal (SetTransactionJournalEntry (ac_tenant a) (pt_id x) (je_id (ev_entry v))) ;;!
  till_audit a ("petty_cash." ++ tq_type q) (pt_id x) ;;! tret (x, v).

Definition handleListPettyCashTransactions (pool : Till) (ctx : option Actor) (id : result unit uuid)
    (limit offset : option (result unit Z)) : result http_error (list PettyTransaction * bool) :=
  (let? a := ops_actor ctx in
   let? id := url_id "invalid id" id in
   let? (l, o) := parsePage cfgDefault cfgMax limit offset in
   Ok (page_of l (ListTransactionsPage pool (ac_tenant a) id (Z.to_nat (l + 1)) (Z.to_nat o))))%res.

Definition count_lines (c : CountResult) : list PostLine :=
  if negb (isZeroMoney (cn_short c))
  then transfer_lines None "cash_over_short" "petty_cash" (dec_text (cn_short c))
  else if negb (isZeroMoney (cn_over c))
       then transfer_lines None "petty_cash" "cash_over_short" (dec_text (cn_over c))
       else [].

(** The count, and the entry when there is a variance. *)
Definition handleReconcilePettyCash (today : Z) (ctx : option Actor) (id : result unit uuid)
    (body : result unit (option dec * option (result unit Z))) : Tx Till http_error (CountResult * option EntryView) :=
  let! a := tlift (ops_actor ctx) in
  let! id := tlift (url_id "invalid id" id) in
  let! (counted, date) := tlift (json_body body) in
  let! counted := tlift (match counted with
    | Some d => if nonnegative_amount d then Ok d else Err (bad_request "counted_cash must be a non-negative decimal")
    | None => Err (bad_request "counted_cash must be a non-negative decimal")
    end) in
  let! date := tlift (date_or today "date must be YYYY-MM-DD" date) in
  let! c := tconv (fun e => if bool_decide (e = TlNotFound) then HttpError 404 "float not found" else ops_internal)
    (ReconcileFloat (ac_tenant a) id counted (ac_user a)) in
  let lines := count_lines c in
  let! v := match lines with
            | [] => tret None
            | _ =>
                let! v := post_journal (ac_tenant a)
                  (mkPostEntry date "petty_cash_reconciliation" (Some (pn_id (cn_row c))) None None (ac_user a) false lines) in
                till_internal (SetReconciliationJournalEntry (ac_tenant a) (pn_id (cn_row c)) (je_id (ev_entry v))) ;;!
                tret (Some v)
            end in
  till_audit a "petty_cash.reconciled" (pn_id (cn_row c)) ;;! tret (c, v).
End Handlers.
