(* ===== verification/BankHandlers.v ===== *)
(** * The banking and tender handlers (services/api/internal/server/
      banking_handlers.go, payments_handlers.go)

    The banking routes are behind a tenant-wide permission; a tender is recorded
    with [payment.record] at the shift's station. *)

From stdpp Require Import base list strings.
From Stdlib Require Import ZArith Lia.
From S2P Require Import Prelude Numeric Schema Ledger Float64 Accounting Finance Payables Policy Operations Workforce WorkforceHandlers Readings FinanceHandlers Treasury Expenses Banking ExpenseHandlers.

Local Open Scope Z_scope.
Local Open Scope tx_scope.

(** The magnitude of a column in cents. *)
Definition absMoney (z : Z) : Z := Z.abs z.

(** [None] on an absent and on a bad date. *)
Definition parseOptDate (d : option (result unit Z)) : option Z :=
  match d with Some (Ok t) => Some t | _ => None end.

Section Handlers.
Context {L : Type} `{Loader L}.
Context (policy : L) (collate : string -> string -> bool) (cfgDefault cfgMax : Z).

(** ** Cash reconciliation *)

Definition handleCreateCashReconciliation (ctx : option Actor) (station : result unit uuid) (body : result unit uuid)
  : Tx Till http_error CashReconciliation :=
  let! a := tlift (ops_actor ctx) in
  let! station := tlift (url_id "invalid station id" station) in
  let! day := tlift (match body with
    | Ok d => if bool_decide (d = uuid_nil) then Err (bad_request "operating_day_id is required") else Ok d
    | Err _ => Err (bad_request "operating_day_id is required")
    end) in
  let! c := tconv (fun e => match e with
      | TlDuplicate => HttpError 409 "a cash reconciliation already exists for this operating day"
      | TlForeignKey => bad_request "unknown station or operating day"
      | _ => ops_internal
      end) (CreateCashReconciliation (ac_tenant a) station day (ac_user a)) in
  till_audit a "cash_reconciliation.created" (cr_id c) ;;! tret c.

Definition handleListCashReconciliations (pool : Till) (ctx : option Actor) (station : result unit uuid)
    (limit offset : option (result unit Z)) : result http_error (list CashReconciliation * bool) :=
  (let? a := ops_actor ctx in
   let? station := url_id "invalid station id" station in
   let? (l, o) := parsePage cfgDefault cfgMax limit offset in
   Ok (page_of l (ListCashReconciliationsPage pool (ac_tenant a) station (Z.to_nat (l + 1)) (Z.to_nat o))))%res.

Definition handleGetCashReconciliation (pool : Till) (ctx : option Actor) (id : result unit uuid)
  : result http_error CashReconciliation :=
  (let? a := ops_actor ctx in
   let? id := url_id "invalid id" id in
   get_or_404 "cash reconciliation not found" (GetCashReconciliation pool (ac_tenant a) id))%res.

Definition handleSubmitCashReconciliation (ctx : option Actor) (id : result unit uuid)
    (body : result unit (option dec * option string)) : Tx Till http_error CashReconciliation :=
  let! a := tlift (ops_actor ctx) in
  let! id := tlift (url_id "invalid id" id) in
  let! (counted, notes) := tlift (json_body body) in
  let! counted := tlift (match counted with
    | Some d => if nonnegative_amount d then Ok d else Err (bad_request "counted_cash must be a non-negative decimal")
    | None => Err (bad_request "counted_cash must be a non-negative decimal")
    end) in
  let! c := tconv (fun e => if bool_decide (e = TlBadState)
                            then HttpError 409 "reconciliation is not in a submittable state" else ops_internal)
    (SubmitCashReconciliation (ac_tenant a) id counted notes) in
  till_audit a "cash_reconciliation.submitted" (cr_id c) ;;! tret c.

(** Up to four lines: a zero amount has none. *)
Definition cash_line (st : uuid) (key : string) (debit : bool) (z : Z) : list PostLine :=
  if isZeroMoney (dec_of 2 z) then []
  else [if debit then mkPostLine uuid_nil key (numeric_text 2 z) "0" (Some st) None
        else mkPostLine uuid_nil key "0" (numeric_text 2 z) (Some st) None].
Definition cash_lines (p : CashPosting) : list PostLine :=
  cash_line (cp_station p) "cash_on_hand" true (cp_counted p)
  ++ cash_line (cp_station p) "sales_clearing" false (cp_expected p)
  ++ cash_line (cp_station p) "cash_over_short" true (cp_short p)
  ++ cash_line (cp_station p) "cash_over_short" false (cp_over p).

Definition handleApproveCashReconciliation (ctx : option Actor) (id : result unit uuid)
  : Tx Till http_error EntryView :=
  let! a := tlift (ops_actor ctx) in
  let! id := tlift (url_id "invalid id" id) in
  let! s := tget in
  let! p := tlift (get_or_404 "cash reconciliation not found" (PostingFor s (ac_tenant a) id)) in
  tguard (bool_decide (cp_status p = CrSubmitted)) (HttpError 409 "reconciliation must be submitted before approval") ;;!
  let! c := tlift (of_option ops_internal (first_where (cr_by_id (ac_tenant a) id) (tl_crecons s))) in
  tguard (negb (bool_decide (cr_by c = ac_user a)))
    (HttpError 403 "separation of duties: you cannot approve a cash reconciliation you submitted") ;;!
  tguard (negb (bool_decide (length (cash_lines p) = 0%nat)))
    (HttpError 422 "nothing to post: counted and expected cash are both zero") ;;!
  let! v := post_journal (ac_tenant a)
    (mkPostEntry (cp_date p) "cash_reconciliation" (Some id) (Some (cp_station p)) None (ac_user a) false (cash_lines p)) in
  till_internal (MarkCashReconciliationPosted (ac_tenant a) id (ac_user a) (Some (je_id (ev_entry v)))) ;;!
  till_audit a "cash_reconciliation.posted" id ;;! tret v.

(** ** Bank accounts *)

Definition handleCreateBankAccount (ctx : option Actor) (body : result unit (string * option string * string))
  : Tx Till http_error BankAccount :=
  let! a := tlift (ops_actor ctx) in
  let! (name, number, currency) := tlift (match body with
    | Ok (n, m, c) => if bool_decide (trim_space n = "")%string then Err (bad_request "name is required") else Ok (n, m, c)
    | Err _ => Err (bad_request "name is required")
    end) in
  txAudit a "bank_account.created" ba_id (till_internal (CreateBankAccount (ac_tenant a) name number currency)).

Definition handleListBankAccounts (pool : Till) (ctx : option Actor) (limit offset : option (result unit Z))
  : result http_error (list BankAccount * bool) :=
  (let? a := ops_actor ctx in
   let? (l, o) := parsePage cfgDefault cfgMax limit offset in
   Ok (page_of l (ListBankAccountsPage collate pool (ac_tenant a) (Z.to_nat (l + 1)) (Z.to_nat o))))%res.

(** ** Deposits *)

Record depositRequest := mkDepositRequest {
  dq_station : uuid; dq_account : uuid; dq_slip : option string; dq_reference : option string;
  dq_expected : option (result unit Z); dq_lines : list (uuid * option dec) }.

Definition deposit_line_error (e : till_error) : http_error :=
  match e with
  | TlDuplicate => HttpError 409 "a cash reconciliation has already been deposited"
  | TlForeignKey => bad_request "unknown cash reconciliation"
  | _ => ops_internal
  end.
Fixpoint add_deposit_lines (tenant deposit : uuid) (l : list (uuid * option dec)) : Tx Till http_error unit :=
  match l with
  | [] => tret tt
  | (recon, amount) :: rest =>
      let! d := tlift (of_option (bad_request "deposit line amounts must be positive decimals") (positive_amount amount)) in
      tconv deposit_line_error (AddDepositLine tenant deposit recon d) ;;!
      add_deposit_lines tenant deposit rest
  end.

Definition handleCreateBankDeposit (ctx : option Actor) (body : result unit depositRequest)
  : Tx Till http_error uuid :=
  let! a := tlift (ops_actor ctx) in
  let! q := tlift (json_body body) in
  tguard (negb (bool_decide (dq_station q = uuid_nil)) && negb (bool_decide (dq_account q = uuid_nil))
          && negb (bool_decide (dq_lines q = [])))
    (bad_request "station_id, bank_account_id, and at least one line are required") ;;!
  let! expected := tlift (match dq_expected q with
    | None => Ok None
    | Some (Ok t) => Ok (Some t)
    | Some (Err _) => Err (bad_request "expected_bank_date must be YYYY-MM-DD")
    end) in
  let! d := tconv (fun e => if bool_decide (e = TlForeignKey) then bad_request "unknown station or bank account"
                            else ops_internal)
    (CreateDeposit (ac_tenant a) (mkDepositInput (dq_station q) (dq_account q) (dq_slip q) (dq_reference q) expected
       (ac_user a))) in
  add_deposit_lines (ac_tenant a) (bd_id d) (dq_lines q) ;;!
  till_audit a "bank_deposit.created" (bd_id d) ;;! tret (bd_id d).

Definition handleListBankDeposits (pool : Till) (ctx : option Actor) (station : option (result unit uuid))
    (limit offset : option (result unit Z)) : result http_error (list BankDeposit * bool) :=
  (let? a := ops_actor ctx in
   let station := match station with Some (Ok st) => st | _ => uuid_nil end in
   let? (l, o) := parsePage cfgDefault cfgMax limit offset in
   Ok (page_of l (ListDepositsPage pool (ac_tenant a) station (Z.to_nat (l + 1)) (Z.to_nat o))))%res.

Definition deposit_lines (station : uuid) (debit credit : string) (amount : Z) : list PostLine :=
  transfer_lines (Some station) debit credit (numeric_text 2 amount).

Definition handlePrepareBankDeposit (pool : Till) (today : Z) (ctx : option Actor) (id : result unit uuid)
  : Tx Till http_error EntryView :=
  let! a := tlift (ops_actor ctx) in
  let! id := tlift (url_id "invalid id" id) in
  let! dep := tlift (get_or_404 "deposit not found" (GetDeposit pool (ac_tenant a) id)) in
  let! amount := tconv (fun e => if bool_decide (e = TlBadState) then HttpError 409 "deposit is not in draft state"
                                 else ops_internal) (PrepareDeposit (ac_tenant a) id) in
  tguard (negb (isZeroMoney (dec_of 2 amount))) (HttpError 422 "deposit has no amount to prepare") ;;!
  let! v := post_journal (ac_tenant a)
    (mkPostEntry (default today (bd_expected dep)) "bank_deposit" (Some id) (Some (bd_station dep)) None (ac_user a) false
       (deposit_lines (bd_station dep) "bank_clearing" "cash_on_hand" amount)) in
  till_internal (SetDepositPreparedEntry (ac_tenant a) id (je_id (ev_entry v))) ;;!
  till_audit a "bank_deposit.prepared" id ;;! tret v.

Definition handleConfirmBankDeposit (pool : Till) (ctx : option Actor) (id : result unit uuid)
    (body : result unit (result unit Z * option string)) : Tx Till http_error EntryView :=
  let! a := tlift (ops_actor ctx) in
  let! id := tlift (url_id "invalid id" id) in
  let! (actual, reference) := tlift (json_body body) in
  let! actual := tlift (match actual with
    | Ok t => Ok t | Err _ => Err (bad_request "actual_bank_date must be YYYY-MM-DD") end) in
  let! dep := tlift (get_or_404 "deposit not found" (GetDeposit pool (ac_tenant a) id)) in
  let! amount := tconv (fun e => if bool_decide (e = TlBadState)
                                 then HttpError 409 "deposit must be prepared before confirmation" else ops_internal)
    (ConfirmDeposit (ac_tenant a) id actual reference) in
  let! v := post_journal (ac_tenant a)
    (mkPostEntry actual "bank_deposit" (Some id) (Some (bd_station dep)) None (ac_user a) false
       (deposit_lines (bd_station dep) "bank" "bank_clearing" amount)) in
  till_internal (SetDepositConfirmedEntry (ac_tenant a) id (je_id (ev_entry v))) ;;!
  till_audit a "bank_deposit.confirmed" id ;;! tret v.

(** ** Statements *)

Record statementRequest := mkStatementRequest {
  sq_account : uuid; sq_start : option (result unit Z); sq_end : option (result unit Z);
  sq_lines : list (result unit Z * option (result unit Z) * option dec * option string * option string) }.

Definition statement_line (l : result unit Z * option (result unit Z) * option dec * option string * option string)
  : result http_error StatementLineInput :=
  let '(txn, value, amount, reference, description) := l in
  match txn with
  | Err _ => Err (bad_request "txn_date must be YYYY-MM-DD")
  | Ok t =>
      match amount with
      | Some d => match parseDecimal d with
                  | Some _ => Ok (mkStatementInput t (parseOptDate value) d reference description)
                  | None => Err (bad_request "line amount must be a decimal")
                  end
      | None => Err (bad_request "line amount must be a decimal")
      end
  end.
Fixpoint statement_inputs (l : list (result unit Z * option (result unit Z) * option dec * option string * option string))
  : result http_error (list StatementLineInput) :=
  match l with
  | [] => Ok []
  | x :: rest => (let? i := statement_line x in let? more := statement_inputs rest in Ok (i :: more))%res
  end.

(** [hash] is the hexadecimal SHA-256 of the body that [body] decodes. *)
Definition handleImportBankStatement (hash : string) (ctx : option Actor) (body : result unit statementRequest)
  : Tx Till http_error (uuid * nat) :=
  let! a := tlift (ops_actor ctx) in
  let! q := tlift (json_body body) in
  tguard (negb (bool_decide (sq_account q = uuid_nil)) && negb (bool_decide (length (sq_lines q) = 0%nat)))
    (bad_request "bank_account_id and at least one line are required") ;;!
  let! lines := tlift (statement_inputs (sq_lines q)) in
  let! (id, n) := tconv (fun e => match e with
      | TlDuplicate => HttpError 409 "this statement has already been imported"
      | TlForeignKey => bad_request "unknown bank account"
      | _ => ops_internal
      end) (ImportStatement (ac_tenant a) (sq_account q) (parseOptDate (sq_start q)) (parseOptDate (sq_end q)) hash
              (ac_user a) lines) in
  till_audit a "bank_statement.imported" id ;;! tret (id, n).

Definition handleListBankStatementLines (pool : Till) (ctx : option Actor) (account : option (result unit uuid))
    (status : string) (limit offset : option (result unit Z)) : result http_error (list StatementLine * bool) :=
  (let? a := ops_actor ctx in
   let account := match account with Some (Ok i) => i | _ => uuid_nil end in
   let? (l, o) := parsePage cfgDefault cfgMax limit offset in
   Ok (page_of l (ListStatementLinesPage pool (ac_tenant a) account status (Z.to_nat (l + 1)) (Z.to_nat o))))%res.

Definition handleMatchBankStatementLine (ctx : option Actor) (id : result unit uuid) (body : result unit (string * uuid))
  : Tx Till http_error unit :=
  let! a := tlift (ops_actor ctx) in
  let! id := tlift (url_id "invalid id" id) in
  let! (docType, doc) := tlift (match body with
    | Ok (t, d) => if bool_decide (t = "")%string || bool_decide (d = uuid_nil)
                   then Err (bad_request "doc_type and doc_id are required") else Ok (t, d)
    | Err _ => Err (bad_request "doc_type and doc_id are required")
    end) in
  txAudit a "bank_statement_line.matched" (fun _ => id)
    (tconv (fun e => if bool_decide (e = TlBadState) then HttpError 409 "line cannot be matched from its current state"
                     else ops_internal) (MatchLine (ac_tenant a) id docType doc)).

Definition handleUnmatchBankStatementLine (ctx : option Actor) (id : result unit uuid) : Tx Till http_error unit :=
  let! a := tlift (ops_actor ctx) in
  let! id := tlift (url_id "invalid id" id) in
  txAudit a "bank_statement_line.unmatched" (fun _ => id)
    (tconv (fun e => if bool_decide (e = TlNotFound) then HttpError 404 "line not found" else ops_internal)
       (UnmatchLine (ac_tenant a) id)).

Definition handleBankFeeStatementLine (pool : Till) (ctx : option Actor) (id : result unit uuid)
  : Tx Till http_error EntryView :=
  let! a := tlift (ops_actor ctx) in
  let! id := tlift (url_id "invalid id" id) in
  let! l := tlift (get_or_404 "line not found" (GetStatementLine pool (ac_tenant a) id)) in
  let amount := absMoney (sl_amount l) in
  tguard (negb (isZeroMoney (dec_of 2 amount))) (HttpError 422 "line amount is zero") ;;!
  let! v := post_journal (ac_tenant a)
    (mkPostEntry (sl_txn l) "bank_fee" (Some id) None None (ac_user a) false
       (transfer_lines None "operating_expense" "bank" (numeric_text 2 amount))) in
  till_internal (MarkLine (ac_tenant a) id SlBankFee (Some (je_id (ev_entry v)))) ;;!
  till_audit a "bank_statement_line.bank_fee" id ;;! tret v.

(** ** Tenders (payments_handlers.go) *)

Definition tender_word (w : string) : option tender_type :=
  match w with
  | "cash" => Some TdCash | "mobile_money" => Some TdMobile | "card" => Some TdCard | "credit" => Some TdCredit
  | "voucher" => Some TdVoucher | _ => None
  end%string.

Record recordPaymentRequest := mkRecordRequest {
  mq_tender : string; mq_amount : option dec; mq_reference : option string; mq_customer : option uuid;
  mq_over : bool; mq_notes : option string; mq_key : option string }.

Definition resolveIdempotencyKey (header : string) (bodyKey : option string) : result unit (option string) :=
  let raw := trim_space (word_or header (default ""%string bodyKey)) in
  if bool_decide (raw = "")%string then Ok None
  else if (255 <? String.length raw)%nat then Err tt else Ok (Some raw).

Definition actorHolds (a : Actor) (code : string) : bool :=
  match LoadFor policy a with Ok ps => HasPermission ps code | Err _ => false end.

(** What a posting had written when an account was missing: the header and the
    lines before. *)
Fixpoint lines_written (tenant entry : uuid) (l : list PostLine) (b : Books) : Books :=
  match l with
  | [] => b
  | ln :: rest => match post_line tenant entry ln b with
                  | Ok (_, b') => lines_written tenant entry rest b'
                  | Err _ => b
                  end
  end.
Definition entry_written (tenant : uuid) (i : PostEntryInput) (b : Books) : Books :=
  match resolvePostingPeriod b tenant (pi_date i) (pi_allow_closed i) with
  | Err _ => b
  | Ok period =>
      match insert_entry (new_entry b tenant period (pi_date i) (pi_source_type i) (pi_source i) (pi_station i)
                            (pi_memo i) (pi_posted_by i) None) b with
      | Ok (e, b') => lines_written tenant (je_id e) (pi_lines i) b'
      | Err _ => b
      end
  end.

(** [postCreditChargeJournal] goes on after [ErrNoPeriod] and [ErrSystemAccount];
    what the latter left of the entry stays in the transaction.  The id is that of
    an entry so left. *)
Definition postCreditChargeJournal (day_of : Z -> Z) (a : Actor) (p : Tender) : Tx Till http_error (option uuid) :=
  let! s := tget in
  if EntryExistsForSource (till_books s) (ac_tenant a) "ar_charge" (td_id p) then tret None
  else
    let i := mkPostEntry (day_of (td_at p)) "ar_charge" (Some (td_id p)) (Some (td_station p))
      (Some "credit fuel sale — accounts receivable"%string) (ac_user a) true
      (deposit_lines (td_station p) "accounts_receivable" "sales_clearing" (td_amount p)) in
    match PostEntry (ac_tenant a) i (till_books s) with
    | Ok (_, b) => tput (put_fin (set_books b (tl_fin s)) s) ;;! tret None
    | Err ErrNoPeriod => tret None
    | Err ErrSystemAccount =>
        tput (put_fin (set_books (entry_written (ac_tenant a) i (till_books s)) (tl_fin s)) s) ;;!
        tret (Some (bk_next_id (till_books s)))
    | Err _ => tfail ops_internal
    end.

(** The deferred trigger [journal_lines_balanced] at commit. *)
Definition commit_balanced (entry : option uuid) : Tx Till http_error unit :=
  let! s := tget in
  tguard (match entry with
          | None => true
          | Some e => let ls := select (fun l => bool_decide (jl_entry l = e)) (bk_lines (till_books s)) in
                      sum_by jl_debit ls =? sum_by jl_credit ls
          end) ops_internal.

Definition charge_error (e : fin_error) : http_error :=
  match e with
  | ErrCreditHold => HttpError 422 "customer account is on credit hold; charge refused"
  | ErrCreditLimit => HttpError 422 "charge would exceed the customer's credit limit"
  | ErrCustomerNotFound => bad_request "unknown customer for this tenant"
  | _ => ops_internal
  end.

(** The tender; [true] when it is the replay of one recorded before, whose
    transaction is rolled back.  [day_of] is the date of a timestamp. *)
Definition handleRecordPayment (pool : Till) (day_of : Z -> Z) (ctx : option Actor) (id : result unit uuid)
    (header : string) (body : result unit recordPaymentRequest) : Tx Till http_error (Tender * bool) :=
  let! a := tlift (ops_actor ctx) in
  let! id := tlift (url_id "invalid shift id" id) in
  let! q := tlift (json_body body) in
  let! t := tlift (of_option (bad_request "tender_type must be cash|mobile_money|card|credit|voucher")
                     (tender_word (mq_tender q))) in
  let! amount := tlift (match mq_amount q with
    | Some d => if nonnegative_amount d then Ok d else Err (bad_request "amount must be a non-negative decimal")
    | None => Err (bad_request "amount must be a non-negative decimal")
    end) in
  tguard (negb (bool_decide (t = TdCredit) && bool_decide (mq_customer q = None)))
    (bad_request "credit tender requires a customer_id") ;;!
  let! key := tlift (match resolveIdempotencyKey header (mq_key q) with
    | Ok k => Ok k | Err _ => Err (bad_request "idempotency key must be 1-255 characters") end) in
  let! shift := tlift (of_option (HttpError 404 "shift not found") (GetShift (s_ops (tl_site pool)) (ac_tenant a) id)) in
  tlift (authorizeStation policy a "payment.record" (sh_station shift)) ;;!
  let! before := tget in
  let! res := tconv (fun e => if bool_decide (e = TlForeignKey) then bad_request "unknown customer for this tenant"
                              else ops_internal)
    (Record_ (ac_tenant a) (mkRecordInput (sh_station shift) (Some id) (mq_customer q) t amount (mq_reference q)
       (ac_user a) (mq_notes q) key)) in
  let p := rr_payment res in
  if rr_replayed res then tput before ;;! tret (p, true)
  else
    let! left_entry := match mq_customer q with
      | Some c =>
          if bool_decide (t = TdCredit)
          then tconv charge_error (on_fin (PostCharge (ac_tenant a) c amount (Some "shift"%string) (Some id) (ac_user a)
                 (mq_notes q) (mq_over q && actorHolds a "credit.override_limit"))) ;;!
               postCreditChargeJournal day_of a p
          else tret None
      | None => tret None
      end in
    till_audit a "payment.recorded" (td_id p) ;;!
    commit_balanced left_entry ;;! tret (p, false).

Definition shiftForRevenueRead (pool : Till) (ctx : option Actor) (id : result unit uuid)
  : result http_error (Actor * Shift) :=
  (let? a := ops_actor ctx in
   let? id := url_id "invalid shift id" id in
   let? shift := of_option (HttpError 404 "shift not found") (GetShift (s_ops (tl_site pool)) (ac_tenant a) id) in
   let? _ := authorizeStation policy a "revenue.read" (sh_station shift) in
   Ok (a, shift))%res.

Definition handleListShiftPayments (pool : Till) (ctx : option Actor) (id : result unit uuid)
    (limit offset : option (result unit Z)) : result http_error (list Tender * bool) :=
  (let? (a, shift) := shiftForRevenueRead pool ctx id in
   let? (l, o) := parsePage cfgDefault cfgMax limit offset in
   Ok (page_of l (payments_ListForShiftPage pool (ac_tenant a) (sh_id shift) (Z.to_nat (l + 1)) (Z.to_nat o))))%res.

(** The totals and whether the variance is over one unit of currency. *)
Definition handleShiftPaymentReconciliation (pool : Till) (ctx : option Actor) (id : result unit uuid)
  : result http_error (ShiftReconciliation * bool) :=
  (let? (a, shift) := shiftForRevenueRead pool ctx id in
   let rec_ := ReconcileShift pool (ac_tenant a) (sh_id shift) in
   Ok (rec_, match parseDecimal (sx_variance rec_) with
             | Some v => f_lt (F64 1 0) (if f_lt v (F64 0 0) then f_neg v else v)
             | None => false
             end))%res.
End Handlers.
