(* ===== verification/TreasuryProps.v ===== *)
(** * Properties of cash, expenses and banking: the tables of a treasury

    The requests on the treasury's tables as one type, and the well-formedness of
    the tables that every committed request preserves: ids, unique indexes, checks,
    and the columns each status of a document fixes. *)

From stdpp Require Import base list strings relations.
From Stdlib Require Import ZArith Lia.
From S2P Require Import Prelude Frames Numeric Schema Ledger Float64 Accounting AccountingProps RosterProps KeyedLedger Finance Payables Policy Operations Workforce WorkforceHandlers Readings FinanceHandlers SettleProps Treasury Expenses Banking ExpenseHandlers BankHandlers.

Local Open Scope Z_scope.
Local Open Scope tx_scope.

(** ** Requests *)

Inductive request :=
| RqCreateCategory (ctx : option Actor) (body : result unit categoryRequest)
| RqUpdateCategory (ctx : option Actor) (id : result unit uuid) (body : result unit categoryRequest)
| RqSetCategory (ctx : option Actor) (id : result unit uuid) (body : result unit string)
| RqCreateExpense (today : Z) (ctx : option Actor) (body : result unit expenseRequest)
| RqSubmitExpense (ctx : option Actor) (id : result unit uuid)
| RqApproveExpense (ctx : option Actor) (id : result unit uuid)
| RqPostExpense (ctx : option Actor) (id : result unit uuid)
| RqCreateFloat (ctx : option Actor) (body : result unit (uuid * string))
| RqPetty (today : Z) (ctx : option Actor) (id : result unit uuid) (body : result unit pettyRequest)
| RqCount (today : Z) (ctx : option Actor) (id : result unit uuid) (body : result unit (option dec * option (result unit Z)))
| RqCreateRecon (ctx : option Actor) (station body : result unit uuid)
| RqSubmitRecon (ctx : option Actor) (id : result unit uuid) (body : result unit (option dec * option string))
| RqApproveRecon (ctx : option Actor) (id : result unit uuid)
| RqBankAccount (ctx : option Actor) (body : result unit (string * option string * string))
| RqDeposit (ctx : option Actor) (body : result unit depositRequest)
| RqPrepare (today : Z) (ctx : option Actor) (id : result unit uuid)
| RqConfirm (ctx : option Actor) (id : result unit uuid) (body : result unit (result unit Z * option string))
| RqImport (hash : string) (ctx : option Actor) (body : result unit statementRequest)
| RqMatch (ctx : option Actor) (id : result unit uuid) (body : result unit (string * uuid))
| RqUnmatch (ctx : option Actor) (id : result unit uuid)
| RqFee (ctx : option Actor) (id : result unit uuid)
| RqTender (day_of : Z -> Z) (ctx : option Actor) (id : result unit uuid) (header : string)
    (body : result unit recordPaymentRequest).

Definition ignore {A} (c : Tx Till http_error A) : Tx Till http_error unit := c ;;! tret tt.

Section Serve.
Context {L : Type} `{Loader L} (policy : L).

(** The handler of a request; [pool] is the state its reads showed. *)
Definition serve (pool : Till) (r : request) : Tx Till http_error unit :=
  match r with
  | RqCreateCategory c b => ignore (handleCreateExpenseCategory c b)
  | RqUpdateCategory c i b => ignore (handleUpdateExpenseCategory c i b)
  | RqSetCategory c i b => ignore (handleSetExpenseCategoryStatus c i b)
  | RqCreateExpense t c b => ignore (handleCreateExpense t c b)
  | RqSubmitExpense c i => ignore (handleSubmitExpense c i)
  | RqApproveExpense c i => ignore (handleApproveExpense c i)
  | RqPostExpense c i => ignore (handlePostExpense pool c i)
  | RqCreateFloat c b => ignore (handleCreatePettyCashFloat c b)
  | RqPetty t c i b => ignore (handlePettyCashTransaction t c i b)
  | RqCount t c i b => ignore (handleReconcilePettyCash t c i b)
  | RqCreateRecon c st b => ignore (handleCreateCashReconciliation c st b)
  | RqSubmitRecon c i b => ignore (handleSubmitCashReconciliation c i b)
  | RqApproveRecon c i => ignore (handleApproveCashReconciliation c i)
  | RqBankAccount c b => ignore (handleCreateBankAccount c b)
  | RqDeposit c b => ignore (handleCreateBankDeposit c b)
  | RqPrepare t c i => ignore (handlePrepareBankDeposit pool t c i)
  | RqConfirm c i b => ignore (handleConfirmBankDeposit pool c i b)
  | RqImport h c b => ignore (handleImportBankStatement h c b)
  | RqMatch c i b => ignore (handleMatchBankStatementLine c i b)
  | RqUnmatch c i => ignore (handleUnmatchBankStatementLine c i)
  | RqFee c i => ignore (handleBankFeeStatementLine pool c i)
  | RqTender d c i h b => ignore (handleRecordPayment policy pool d c i h b)
  end.
End Serve.

(** ** Well-formed tables *)

Definition category_ok (c : Category) : Prop := forall z, ct_threshold c = Some z -> 0 <= z.

(** Another than the author. *)
Definition countersigned (who : option uuid) (by_ : uuid) : Prop := exists u, who = Some u /\ u <> by_.

(** The statuses [rejected] and [voided] are not reached. *)
Definition expense_ok (e : Expense) : Prop :=
  0 < ex_amount e /\ ex_mode e ∈ payment_modes
  /\ match ex_status e with
     | ExDraft | ExSubmitted => ex_approver e = None /\ ex_entry e = None
     | ExApproved => countersigned (ex_approver e) (ex_by e) /\ ex_entry e = None
     | ExPosted => countersigned (ex_approver e) (ex_by e) /\ is_Some (ex_entry e)
     | ExRejected | ExVoided => False
     end.

Definition recon_ok (c : CashReconciliation) : Prop :=
  0 <= cr_expected c < 10 ^ 14 /\ 0 <= cr_counted c < 10 ^ 14
  /\ match cr_status c with
     | CrDraft => cr_counted c = 0 /\ cr_reviewer c = None /\ cr_entry c = None
     | CrSubmitted => cr_reviewer c = None /\ cr_entry c = None
     | CrPosted => countersigned (cr_reviewer c) (cr_by c) /\ is_Some (cr_entry c)
     | CrApproved | CrRejected => False
     end.

Definition deposit_ok (d : BankDeposit) : Prop :=
  match bd_status d with
  | DpDraft => bd_amount d = 0 /\ bd_prepared d = None /\ bd_confirmed d = None
  | DpPrepared => 0 < bd_amount d /\ is_Some (bd_prepared d) /\ bd_confirmed d = None
  | DpPosted => 0 < bd_amount d /\ is_Some (bd_prepared d) /\ is_Some (bd_confirmed d) /\ is_Some (bd_actual d)
  | DpInTransit | DpConfirmed | DpVoided => False
  end.

Definition statement_ok (l : StatementLine) : Prop :=
  match sl_status l with
  | SlUnmatched => sl_doc l = None /\ sl_entry l = None
  | SlMatched => is_Some (sl_doc l) /\ sl_entry l = None
  | SlBankFee => is_Some (sl_entry l)
  | SlUnknown => False
  end.

Definition tender_ok (p : Tender) : Prop :=
  0 <= td_amount p /\ forall k, td_key p = Some k -> (1 <= String.length k <= 255)%nat.
Definition tender_key (p : Tender) : option (uuid * string) := (fun k => (td_tenant p, k)) <$> td_key p.

Record till_wf (s : Till) : Prop := {
  wf_categories : table ct_id category_ok (fn_next (tl_fin s)) (tl_categories s);
  wf_expenses : table ex_id expense_ok (fn_next (tl_fin s)) (tl_expenses s);
  wf_floats : table fl_id (fun f => fl_status f = FlActive) (fn_next (tl_fin s)) (tl_floats s);
  wf_ptxns : table pt_id (fun t => 0 < pt_amount t) (fn_next (tl_fin s)) (tl_ptxns s);
  wf_precons : table pn_id (fun n => 0 <= pn_counted n) (fn_next (tl_fin s)) (tl_precons s);
  wf_crecons : table cr_id recon_ok (fn_next (tl_fin s)) (tl_crecons s);
  wf_baccounts : table ba_id (fun _ => True) (fn_next (tl_fin s)) (tl_baccounts s);
  wf_deposits : table bd_id deposit_ok (fn_next (tl_fin s)) (tl_deposits s);
  wf_dlines : table bl_id (fun l => 0 < bl_amount l) (fn_next (tl_fin s)) (tl_dlines s);
  wf_slines : table sl_id statement_ok (fn_next (tl_fin s)) (tl_slines s);
  wf_tenders : table td_id tender_ok (fn_next (tl_fin s)) (tl_tenders s);
  wf_names : NoDup ((fun c => (ct_tenant c, lower (ct_name c))) <$> tl_categories s);
  wf_days : NoDup ((fun c => (cr_tenant c, cr_day c)) <$> tl_crecons s);
  wf_deposited : NoDup ((fun l => (bl_tenant l, bl_recon l)) <$> tl_dlines s);
  wf_hashes : NoDup ((fun i => (im_tenant i, im_account i, im_hash i)) <$> tl_imports s);
  wf_keys : NoDup (omap tender_key (tl_tenders s));
}.

Definition wf_rel (s s' : Till) : Prop := till_wf s -> till_wf s'.
#[export] Instance wf_rel_pre : PreOrder wf_rel.
Proof. split; unfold Reflexive, Transitive, wf_rel; auto. Qed.

(** ** The pieces that leave the tables alone *)

Lemma wf_fin s f : (fn_next (tl_fin s) <= fn_next f)%N -> till_wf s -> till_wf (put_fin f s).
Proof. intros Hn []. constructor; simpl; try done; by eapply table_mono. Qed.

Lemma on_fin_ok {E A} (c : Tx Fin E A) s x s' :
  on_fin c s = Ok (x, s') -> exists f, c (tl_fin s) = Ok (x, f) /\ s' = put_fin f s.
Proof. unfold on_fin. destruct (c (tl_fin s)) as [[a f]|] eqn:Ec; [|done]. intros [= <- <-]. eauto. Qed.

Lemma on_books_ok {E A} (c : Tx Books E A) f x f' :
  on_books_tx c f = Ok (x, f') -> exists b, c (fn_books f) = Ok (x, b) /\ f' = set_books b f.
Proof. unfold on_books_tx. destruct (c (fn_books f)) as [[a b]|] eqn:Ec; [|done]. intros [= <- <-]. eauto. Qed.

Lemma post_journal_ok t i s v s' :
  post_journal t i s = Ok (v, s') ->
  exists b, PostEntry t i (till_books s) = Ok (v, b) /\ s' = put_fin (set_books b (tl_fin s)) s.
Proof.
  unfold post_journal. intros (f & H & ->)%on_fin_ok. apply on_books_ok in H as (b & H & ->).
  unfold tconv in H. destruct (PostEntry t i _) as [[w b']|] eqn:E; simplify_eq. eauto.
Qed.

Lemma till_audit_ok {E} a x e s u s' :
  @till_audit E a x e s = Ok (u, s') ->
  s' = put_fin (set_audit (fn_audit (tl_fin s) ++ [mkAudit (ac_tenant a) (ac_user a) x e]) (tl_fin s)) s.
Proof. by intros (f & [= _ <-] & ->)%on_fin_ok. Qed.

Lemma till_cents_ok d s z s' : till_cents d s = Ok (z, s') -> z = round_to 2 d /\ s' = s.
Proof.
  unfold till_cents, tlift, of_option. destruct (numeric_col 14 2 d) eqn:E; [|done]. intros [= <- <-].
  by apply numeric_col_some in E as [? _].
Qed.

Lemma till_cents_bound d s z s' : till_cents d s = Ok (z, s') -> Z.abs (round_to 2 d) < 10 ^ 14.
Proof.
  unfold till_cents, tlift, of_option. destruct (numeric_col 14 2 d) eqn:E; [|done]. intros _.
  by apply numeric_col_some in E as [-> ?].
Qed.

Lemma insert_row_ok {R} (get : Till -> list R) put x s y s' :
  insert_row get put x s = Ok (y, s') -> y = x /\ s' = put (get s ++ [x]) s.
Proof. by intros [= <- <-]. Qed.

Lemma update_row_ok {R} (get : Till -> list R) put q g none s y s' :
  update_row get put q g none s = Ok (y, s') ->
  exists x, first_where q (get s) = Some x /\ y = g x /\ s' = put (update_where q g (get s)) s.
Proof.
  unfold update_row, tbind, tget. destruct (first_where q (get s)) as [x|] eqn:E; [|done]. intros [= <- <-]. eauto.
Qed.

Lemma obeys_post_journal t i : obeys wf_rel (post_journal t i).
Proof. intros s v s' (b & _ & ->)%post_journal_ok Hs. by apply wf_fin. Qed.
Lemma obeys_till_audit {E} a x e : obeys wf_rel (@till_audit E a x e).
Proof. intros s v s' ->%till_audit_ok Hs. by apply wf_fin. Qed.
Lemma obeys_txAudit {A} a x (en : A -> uuid) c : obeys wf_rel c -> obeys wf_rel (txAudit a x en c).
Proof.
  intros Hc. apply obeys_bind; [apply _|done|intros y]. apply obeys_bind; [apply _|apply obeys_till_audit|intros ?].
  apply obeys_ret, _.
Qed.
Lemma obeys_till_internal {A} (c : Tx Till till_error A) : obeys wf_rel c -> obeys wf_rel (till_internal c).
Proof. apply obeys_conv. Qed.

(** ** The statements of the packages *)

(** Split a run of a statement into its guards and its effect. *)
Ltac till_run H :=
  tx_steps H;
  repeat match goal with
  | E : till_fresh ?s = Ok (?i, ?s') |- _ => injection E as <- <-
  | E : till_cents _ _ = Ok _ |- _ => apply till_cents_ok in E as [-> ->]
  | E : insert_row _ _ _ _ = Ok _ |- _ => apply insert_row_ok in E as [-> ->]
  | E : update_row _ _ _ _ _ _ = Ok _ |- _ => apply update_row_ok in E as (? & ? & -> & ->)
  | E : tret _ _ = Ok _ |- _ => injection E as <- <-
  | E : tput _ _ = Ok _ |- _ => injection E as <- <-
  | E : negb _ = true |- _ => apply negb_true_iff in E
  | E : _ && _ = true |- _ => apply andb_true_iff in E as [? E]
  end; simplify_eq/=.

(** A table is replaced, the others are as they were. *)
Ltac wf_put Hs :=
  destruct Hs; constructor; simpl; try assumption; try (eapply table_mono; [|eassumption]; lia).

Ltac wf_snoc := eapply table_snoc; [| | |eassumption]; [reflexivity| |lia].

Lemma threshold_col_ok d s z s' : threshold_col d s = Ok (z, s') -> s' = s /\ forall k, z = Some k -> 0 <= k.
Proof.
  unfold threshold_col. destruct d as [d|]; intros H; till_run H; [|done]. split; [done|]. intros k [= <-]. lia.
Qed.

Lemma wf_CreateCategory t i : obeys wf_rel (CreateCategory t i).
Proof.
  intros s x s' H Hs. unfold CreateCategory in H. tx_steps H. apply threshold_col_ok in E as [-> Hz]. till_run H.
  wf_put Hs.
  - wf_snoc. exact Hz.
  - eapply NoDup_snoc_guard; [done..|]. simpl. intros y [= Et En]. unfold same_category. by rewrite !bool_decide_eq_true_2.
Qed.

Lemma ct_by_id_true t k c : ct_by_id t k c = true <-> ct_tenant c = t /\ ct_id c = k.
Proof. unfold ct_by_id. apply bool_decide_eq_true. Qed.

(** A renamed row keeps the names unique. *)
Lemma renamed_unique (t k : uuid) (name : string) (g : Category -> Category) (l : list Category) :
  (forall c, ct_tenant (g c) = ct_tenant c /\ ct_name (g c) = name) -> NoDup (ct_id <$> l) ->
  NoDup ((fun c => (ct_tenant c, lower (ct_name c))) <$> l) ->
  exists_where (fun c => same_category t name c && negb (ct_by_id t k c)) l = false ->
  NoDup ((fun c => (ct_tenant c, lower (ct_name c))) <$> update_where (ct_by_id t k) g l).
Proof.
  intros Hg Hid Hn He. rewrite exists_where_false in He. induction l as [|x l IH]; [constructor|].
  apply NoDup_cons in Hid as [Hx Hid]. apply NoDup_cons in Hn as [Hxn Hn]. simpl.
  apply NoDup_cons. split; [|apply IH; auto; intros; apply He; by right].
  intros Hin. apply list_elem_of_fmap in Hin as (y & Ey & Hy). apply list_elem_of_In, in_update_where in Hy as (z & Hz & ->).
  assert (Hne : ct_id z <> ct_id x) by (intros E; apply Hx; rewrite <- E; by apply list_elem_of_fmap_2, list_elem_of_In).
  specialize (He z (or_intror Hz)) as Hez. specialize (He x (or_introl eq_refl)) as Hex. unfold same_category in Hez, Hex.
  destruct (ct_by_id t k x) eqn:Ex, (ct_by_id t k z) eqn:Ez.
  - apply ct_by_id_true in Ex, Ez. destruct Ex, Ez. congruence.
  - destruct (Hg x) as [E1 E2]. rewrite E1, E2 in Ey. injection Ey as Et En. apply ct_by_id_true in Ex as [Ex _].
    rewrite !bool_decide_eq_true_2 in Hez by congruence. done.
  - destruct (Hg z) as [E1 E2]. rewrite E1, E2 in Ey. injection Ey as Et En. apply ct_by_id_true in Ez as [Ez _].
    rewrite !bool_decide_eq_true_2 in Hex by congruence. done.
  - apply Hxn. rewrite Ey. apply (list_elem_of_fmap_2 (fun c => (ct_tenant c, lower (ct_name c)))). by apply list_elem_of_In.
Qed.

Lemma wf_UpdateCategory t id i : obeys wf_rel (UpdateCategory t id i).
Proof.
  intros s x s' H Hs. unfold UpdateCategory in H. tx_steps H. apply threshold_col_ok in E0 as [-> Hz]. till_run H.
  wf_put Hs.
  - eapply table_update; [|eassumption]. simpl. intros c _ _. split; [done|]. intros _. exact Hz.
  - eapply renamed_unique; [|apply wf_categories0|done..]. done.
Qed.

Lemma wf_SetCategoryStatus t id a : obeys wf_rel (SetCategoryStatus t id a).
Proof.
  intros s x s' H Hs. unfold SetCategoryStatus in H. till_run H. wf_put Hs.
  - eapply table_update; [|eassumption]. done.
  - by rewrite fmap_update_where.
Qed.

Lemma wf_CreateExpense t i : obeys wf_rel (CreateExpense t i).
Proof.
  intros s x s' H Hs. unfold CreateExpense in H. till_run H. wf_put Hs.
  wf_snoc. split; [simpl; lia|]. split; [by eapply bool_decide_eq_true|done].
Qed.

(** The guard of a transition is on the row's status. *)
Lemma wf_expense_step t id from g :
  (forall e, ex_status e = from -> ex_id (g e) = ex_id e /\ (expense_ok e -> expense_ok (g e))) ->
  obeys wf_rel (expense_step t id from g).
Proof.
  intros Hg s x s' H Hs. unfold expense_step in H. till_run H. wf_put Hs.
  eapply table_update; [|eassumption]. intros e [_ E]%andb_true_iff _. apply bool_decide_eq_true in E. by apply Hg.
Qed.

Lemma wf_SubmitExpense t id : obeys wf_rel (SubmitExpense t id).
Proof.
  apply wf_expense_step. intros e E. split; [done|]. unfold expense_ok. simpl. by rewrite E.
Qed.
Lemma wf_MarkExpensePosted t id en : obeys wf_rel (MarkExpensePosted t id en).
Proof.
  apply wf_expense_step. intros e E. split; [done|]. unfold expense_ok. simpl. rewrite E. intros (? & ? & ? & _). by split_and!.
Qed.

Lemma ex_by_id_true t k e : ex_by_id t k e = true <-> ex_tenant e = t /\ ex_id e = k.
Proof. unfold ex_by_id. apply bool_decide_eq_true. Qed.

Lemma wf_ApproveExpense t id u : obeys wf_rel (ApproveExpense t id u).
Proof.
  intros s x s' H Hs. unfold ApproveExpense, GetExpense, expense_step in H. till_run H.
  apply bool_decide_eq_true in E0. apply bool_decide_eq_false in E1. apply first_where_some in E as [Hin Hid].
  assert (Hn := proj1 (wf_expenses s Hs)). wf_put Hs.
  eapply table_update; [|eassumption]. intros e [Hk Est%bool_decide_eq_true]%andb_true_iff He. split; [done|].
  assert (e = x0) as ->. { apply (NoDup_unique ex_id _ Hn); [done..|]. apply ex_by_id_true in Hk as [], Hid as []. congruence. }
  unfold expense_ok, countersigned. simpl. rewrite Est. intros (? & ? & ? & ?). split_and!; eauto.
Qed.

Lemma wf_CreateFloat t st n u : obeys wf_rel (CreateFloat t st n u).
Proof. intros s x s' H Hs. unfold CreateFloat in H. till_run H. wf_put Hs. wf_snoc. done. Qed.

Lemma wf_RecordTransaction t fl ty a d k o u : obeys wf_rel (RecordTransaction t fl ty a d k o u).
Proof.
  intros s x s' H Hs. unfold RecordTransaction, GetFloat in H. till_run H. wf_put Hs.
  - eapply table_mono; [|eapply table_update; [|eassumption]]; [lia|done].
  - wf_snoc. simpl. lia.
Qed.
Lemma wf_SetTransactionJournalEntry t id e : obeys wf_rel (SetTransactionJournalEntry t id e).
Proof. intros s x s' [= _ <-] Hs. wf_put Hs. by eapply table_update. Qed.
Lemma wf_SetReconciliationJournalEntry t id e : obeys wf_rel (SetReconciliationJournalEntry t id e).
Proof. intros s x s' [= _ <-] Hs. wf_put Hs. by eapply table_update. Qed.

Lemma round_nonneg d : 0 <= mant d -> 0 <= round_to 2 d.
Proof.
  intros Hd. unfold round_to. case_match; [unfold at_scale; pose proof (pow10_pos (2 - scale d)); nia|].
  unfold round_div. pose proof (pow10_pos (scale d - 2)). apply Z.mul_nonneg_nonneg; [lia|apply Z.div_pos; lia].
Qed.

Lemma wf_ReconcileFloat t fl c u : 0 <= mant c -> obeys wf_rel (ReconcileFloat t fl c u).
Proof.
  intros Hc s x s' H Hs. unfold ReconcileFloat, GetFloat in H. till_run H. wf_put Hs.
  - eapply table_mono; [|eapply table_update; [|eassumption]]; [lia|done].
  - wf_snoc. by apply round_nonneg.
Qed.

(** Cash tenders are not negative. *)
Lemma day_cash_nonneg s t day : till_wf s -> 0 <= sum_by td_amount (day_cash s t day).
Proof.
  intros Hs. apply sum_by_nonneg. intros p Hp. unfold day_cash in Hp.
  apply list_elem_of_In, list_elem_of_join in Hp as (l & Hp & Hl). apply list_elem_of_fmap in Hl as (h & -> & _).
  apply list_elem_of_In, in_select in Hp as [Hp _]. by apply (wf_tenders s Hs).
Qed.

Lemma coalesce_round {R} (f : R -> Z) l : round_to 2 (coalesce_sum 2 f l) = sum_by f l.
Proof. unfold coalesce_sum. destruct l; [done|]. by rewrite round_to_same. Qed.

Lemma wf_seed_lines t r l : obeys wf_rel (seed_lines t r l).
Proof.
  induction l as [|h l IH]; [apply obeys_ret; apply _|]. intros s x s' H Hs. cbn [seed_lines] in H. till_run H.
  eapply IH; [eassumption|]. wf_put Hs.
Qed.

Lemma wf_CreateCashReconciliation t st d u : obeys wf_rel (CreateCashReconciliation t st d u).
Proof.
  intros s x s' H Hs. unfold CreateCashReconciliation in H. tx_step H. tx_step H. apply till_cents_bound in E as Hb.
  rewrite coalesce_round in Hb. till_run H. eapply wf_seed_lines; [eassumption|].
  pose proof (day_cash_nonneg s t d Hs) as Hp. wf_put Hs.
  - wf_snoc. unfold recon_ok. simpl. rewrite coalesce_round. split_and!; try done; lia.
  - eapply NoDup_snoc_guard; [done..|]. simpl. intros y [= Et Ed]. by apply bool_decide_eq_true.
Qed.

Lemma wf_SubmitCashReconciliation t id c n : 0 <= mant c -> obeys wf_rel (SubmitCashReconciliation t id c n).
Proof.
  intros Hc s x s' H Hs. unfold SubmitCashReconciliation in H. do 2 tx_step H; [|done]. tx_step H. apply till_cents_bound in E0 as Hb.
  pose proof (round_nonneg c Hc). till_run H. wf_put Hs.
  - eapply table_update; [|eassumption]. intros r [_ Hq]%andb_true_iff _. split; [done|].
    intros (Hx & _ & Hst). split; [done|]. split; [simpl; lia|].
    apply orb_true_iff in Hq as [Eq%bool_decide_eq_true|Eq%bool_decide_eq_true]; rewrite Eq in Hst; simpl; [|done].
    by destruct Hst as (_ & ? & ?).
  - by rewrite fmap_update_where.
Qed.

Lemma wf_CreateBankAccount t n m c : obeys wf_rel (CreateBankAccount t n m c).
Proof. intros s x s' H Hs. unfold CreateBankAccount in H. till_run H. wf_put Hs. wf_snoc. done. Qed.
Lemma wf_CreateDeposit t i : obeys wf_rel (CreateDeposit t i).
Proof. intros s x s' H Hs. unfold CreateDeposit in H. till_run H. wf_put Hs. wf_snoc. done. Qed.
Lemma wf_AddDepositLine t d r a : obeys wf_rel (AddDepositLine t d r a).
Proof.
  intros s x s' H Hs. unfold AddDepositLine in H. till_run H. wf_put Hs.
  - wf_snoc. simpl. lia.
  - eapply NoDup_snoc_guard; [done..|]. simpl. intros y [= Et Er]. by apply bool_decide_eq_true.
Qed.

Lemma wf_import_lines t im acc l : obeys wf_rel (import_lines t im acc l).
Proof.
  induction l as [|i l IH]; [apply obeys_ret; apply _|]. intros s x s' H Hs. cbn [import_lines] in H. till_run H.
  eapply IH; [eassumption|]. wf_put Hs. wf_snoc. done.
Qed.
Lemma wf_ImportStatement t acc st en h u l : obeys wf_rel (ImportStatement t acc st en h u l).
Proof.
  intros s x s' H Hs. unfold ImportStatement in H. till_run H. eapply wf_import_lines; [eassumption|]. wf_put Hs.
  eapply NoDup_snoc_guard; [done..|]. simpl. intros y [= Et Ea Eh]. by apply bool_decide_eq_true.
Qed.

Lemma wf_MatchLine t id ty d : obeys wf_rel (MatchLine t id ty d).
Proof.
  intros s x s' H Hs. unfold MatchLine in H. till_run H. wf_put Hs. eapply table_update; [|eassumption].
  intros l [_ Hq]%andb_true_iff _. split; [done|]. unfold statement_ok. simpl.
  apply orb_true_iff in Hq as [Eq%bool_decide_eq_true|Eq%bool_decide_eq_true]; rewrite Eq; [|done]. by intros [_ ?].
Qed.
Lemma wf_UnmatchLine t id : obeys wf_rel (UnmatchLine t id).
Proof. intros s x s' H Hs. unfold UnmatchLine in H. till_run H. wf_put Hs. by eapply table_update. Qed.
Lemma wf_MarkFee t id e : obeys wf_rel (MarkLine t id SlBankFee (Some e)).
Proof.
  intros s x s' H Hs. unfold MarkLine in H. till_run H. wf_put Hs. eapply table_update; [|eassumption].
  intros l _ _. split; [done|]. intros _. by eexists.
Qed.

Lemma omap_snoc {A B} (f : A -> option B) l x : omap f (l ++ [x]) = omap f l ++ match f x with Some y => [y] | None => [] end.
Proof. rewrite omap_app. simpl. by destruct (f x). Qed.

(** A recorded tender or the one that holds the key. *)
Lemma Record_ok t i s r s' :
  Record_ t i s = Ok (r, s') ->
  (rr_replayed r = true /\ In (rr_payment r) (tl_tenders s)
     /\ exists k, ri_key i = Some k /\ first_where (same_key t k) (tl_tenders s) = Some (rr_payment r))
  \/ (rr_replayed r = false /\ s' = put_tenders (tl_tenders s ++ [rr_payment r]) (put_fin (bump_fin (tl_fin s)) s)
      /\ rr_payment r = mkTender (fn_next (tl_fin s)) t (ri_station i) (ri_shift i) (ri_customer i) (ri_type i)
           (round_to 2 (ri_amount i)) (ri_reference i) (ri_by i) (till_now s) true (ri_notes i) (ri_key i)
      /\ 0 <= round_to 2 (ri_amount i) /\ (forall k, ri_key i = Some k -> (1 <= String.length k <= 255)%nat)
      /\ (forall k, ri_key i = Some k -> first_where (same_key t k) (tl_tenders s) = None)).
Proof.
  intros H. unfold Record_ in H. tx_steps H; apply till_cents_ok in E as [-> ->]; injection E2 as <- <-; simpl in E3.
  - left. simplify_eq. destruct (ri_key i) as [k|]; [|done]. apply first_where_some in E3 as Hp.
    split; [done|]. split; [apply Hp|eauto].
  - right. apply insert_row_ok in E5 as [-> ->]. simplify_eq. simpl. apply Z.leb_le in E0. split_and!; try done.
    + intros k Ek. rewrite Ek in E1. apply andb_true_iff in E1 as [?%Nat.leb_le ?%Nat.leb_le]. lia.
    + intros k Ek. by rewrite Ek in E3.
Qed.

Lemma wf_Record t i : obeys wf_rel (Record_ t i).
Proof.
  intros s r s' H Hs. pose proof H as H0. apply Record_ok in H as [(Hr & _)|(_ & -> & Ep & Ha & Hk & Hn)].
  - unfold Record_ in H0. tx_steps H0; apply till_cents_ok in E as [-> ->]; injection E2 as <- <-; simplify_eq; try done.
    by apply (wf_fin s); [simpl; lia|].
  - clear H0. rewrite Ep. wf_put Hs.
    + wf_snoc. by split.
    + rewrite omap_snoc. unfold tender_key at 2. simpl. destruct (ri_key i) as [k|]; [|by rewrite app_nil_r]. simpl.
      apply NoDup_app. split; [done|]. split; [|apply NoDup_singleton]. intros x Hx ->%list_elem_of_singleton.
      apply list_elem_of_omap in Hx as (p & Hp & Ek). unfold tender_key in Ek. apply fmap_Some in Ek as (k' & Ek' & [= Et <-]).
      pose proof (first_where_none _ _ p (Hn k eq_refl) ltac:(by apply list_elem_of_In)) as Hf.
      unfold same_key in Hf. apply bool_decide_eq_false in Hf. by destruct Hf.
Qed.

(** ** The requests *)

(** A non-negative double comes from a non-negative literal. *)
Lemma nonnegative_mant d : nonnegative_amount d = true -> 0 <= mant d.
Proof.
  unfold nonnegative_amount, parseDecimal. destruct (f_overflows _); [done|]. unfold f_near.
  destruct (Z.eqb_spec (mant d) 0) as [->|Hn]; [done|]. destruct (Z.ltb_spec (mant d) 0) as [Hlt|?]; [|lia].
  pose proof (f_near_pos_spec (- mant d) (pow10 (scale d)) ltac:(lia) ltac:(apply pow10_pos)) as [Hm _].
  destruct (f_near_pos _ _) as [m e]. unfold f_le, f_num, f_den, f_neg. cbn [f_m f_e] in *. rewrite Z.leb_le.
  pose proof (pw_pos e). pose proof (pw_pos 0). pose proof (pw_pos (- 0)). change (2 ^ 52) with 4503599627370496 in Hm. nia.
Qed.

Lemma zero_money z : isZeroMoney (dec_of 2 z) = false -> z <> 0.
Proof. intros H ->. by vm_compute in H. Qed.

Lemma till_internal_ok {A} (c : Tx Till till_error A) s x s' : till_internal c s = Ok (x, s') -> c s = Ok (x, s').
Proof. unfold till_internal, tconv. destruct (c s) as [[]|]; [|done]. by intros [= <- <-]. Qed.

(** Split a run of a handler. *)
Ltac till_serve H :=
  tx_steps H; simplify_eq;
  repeat match goal with
  | E : till_audit _ _ _ _ = Ok _ |- _ => apply till_audit_ok in E as ->
  | E : post_journal _ _ _ = Ok _ |- _ =>
      let b := fresh "b" in let Hpost := fresh "Hpost" in apply post_journal_ok in E as (b & Hpost & ->)
  | E : till_internal _ _ = Ok _ |- _ => apply till_internal_ok in E
  end.

(** Steps of a handler that only read, check, or run a statement shown above. *)
Create HintDb till.
#[export] Hint Resolve wf_CreateCategory wf_UpdateCategory wf_SetCategoryStatus wf_CreateExpense wf_SubmitExpense
  wf_MarkExpensePosted wf_ApproveExpense wf_CreateFloat wf_RecordTransaction wf_SetTransactionJournalEntry
  wf_SetReconciliationJournalEntry wf_CreateCashReconciliation wf_CreateBankAccount wf_CreateDeposit wf_AddDepositLine
  wf_ImportStatement wf_MatchLine wf_UnmatchLine wf_MarkFee wf_Record obeys_post_journal : till.

Ltac wf_steps :=
  repeat first
    [ apply obeys_txAudit | apply obeys_till_audit | apply obeys_till_internal | apply obeys_conv
    | apply obeys_ret; apply _ | apply obeys_lift; apply _ | apply obeys_guard; apply _ | apply obeys_fail
    | solve [eauto with till]
    | apply obeys_bind; [apply _| |intros ?]; cbn beta iota zeta
    | lazymatch goal with
      | |- obeys _ (match ?x with _ => _ end) => destruct x
      | |- obeys _ ((fun _ => _) _) => cbn beta
      end ].

Lemma wf_create_expense td c b : obeys wf_rel (handleCreateExpense td c b).
Proof. unfold handleCreateExpense. wf_steps. Qed.
Lemma wf_post_expense pool c i : obeys wf_rel (handlePostExpense pool c i).
Proof. unfold handlePostExpense. wf_steps. Qed.
Lemma wf_petty td c i b : obeys wf_rel (handlePettyCashTransaction td c i b).
Proof. unfold handlePettyCashTransaction. wf_steps. Qed.
Lemma wf_add_deposit_lines t d l : obeys wf_rel (add_deposit_lines t d l).
Proof. induction l as [|[r a] l IH]; cbn [add_deposit_lines]; wf_steps. Qed.
#[export] Hint Resolve wf_add_deposit_lines : till.
Lemma wf_deposit c b : obeys wf_rel (handleCreateBankDeposit c b).
Proof. unfold handleCreateBankDeposit. wf_steps. Qed.

Lemma wf_count td c i b : obeys wf_rel (handleReconcilePettyCash td c i b).
Proof.
  unfold handleReconcilePettyCash. do 2 (apply obeys_bind; [apply _|apply obeys_lift; apply _|intros ?]).
  apply obeys_bind; [apply _|apply obeys_lift; apply _|intros [d dt]].
  intros s x s' H Hs. apply tbind_lift_ok in H as (n & En & H). destruct d as [d|]; [|done].
  destruct (nonnegative_amount d) eqn:Ed; simplify_eq. apply nonnegative_mant in Ed. revert H Hs.
  match goal with |- ?k s = _ -> _ => change (k s = Ok (x, s') -> wf_rel s s') end. revert s x s'.
  match goal with |- forall s x s', ?k s = _ -> _ => change (obeys wf_rel k) end.
  pose proof (fun t fl u => wf_ReconcileFloat t fl n u Ed). wf_steps.
Qed.

Lemma wf_submit_recon c i b : obeys wf_rel (handleSubmitCashReconciliation c i b).
Proof.
  unfold handleSubmitCashReconciliation. do 2 (apply obeys_bind; [apply _|apply obeys_lift; apply _|intros ?]).
  apply obeys_bind; [apply _|apply obeys_lift; apply _|intros [d nt]].
  intros s x s' H Hs. apply tbind_lift_ok in H as (n & En & H). destruct d as [d|]; [|done].
  destruct (nonnegative_amount d) eqn:Ed; simplify_eq. apply nonnegative_mant in Ed. tx_steps H. simplify_eq.
  apply till_audit_ok in E0 as ->. apply wf_fin; [done|]. by eapply wf_SubmitCashReconciliation.
Qed.

Lemma cr_by_id_true t k c : cr_by_id t k c = true <-> cr_tenant c = t /\ cr_id c = k.
Proof. unfold cr_by_id. apply bool_decide_eq_true. Qed.

Lemma wf_approve_recon c i : obeys wf_rel (handleApproveCashReconciliation c i).
Proof.
  intros s x s' H Hs. unfold handleApproveCashReconciliation in H. till_serve H. apply wf_fin; [done|].
  unfold MarkCashReconciliationPosted in E7. till_run E7. apply first_where_some in E3 as [Hin Hid].
  apply bool_decide_eq_false in E4. assert (Hn := proj1 (wf_crecons s Hs)). wf_put Hs.
  - eapply table_update; [|eassumption]. intros r [Hk Est%bool_decide_eq_true]%andb_true_iff Hr. split; [done|].
    assert (r = x3) as ->. { apply (NoDup_unique cr_id _ Hn); [done..|]. apply cr_by_id_true in Hk as [], Hid as []. congruence. }
    intros (? & ? & ?). unfold recon_ok, countersigned. simpl. split; [done|]. split; [done|]. split; [eauto|by eexists].
  - by rewrite fmap_update_where.
Qed.

(** Two updates of the same rows. *)
Lemma update_where_compose {R} (q1 q2 : R -> bool) g1 g2 (l : list R) :
  (forall x, In x l -> q1 x = true -> q2 (g1 x) = true) -> (forall x, In x l -> q1 x = false -> q2 x = false) ->
  update_where q2 g2 (update_where q1 g1 l) = update_where q1 (fun x => g2 (g1 x)) l.
Proof.
  intros H1 H2. induction l as [|x l IH]; [done|]. simpl. f_equal.
  - destruct (q1 x) eqn:E; [by rewrite H1; [|left|]|by rewrite H2; [|left|]].
  - apply IH; intros; [by apply H1; [right|]|by apply H2; [right|]].
Qed.

Lemma bd_by_id_true t k d : bd_by_id t k d = true <-> bd_tenant d = t /\ bd_id d = k.
Proof. unfold bd_by_id. apply bool_decide_eq_true. Qed.

(** The row of an id is the one a guard on it found. *)
Lemma only_row n (l : list BankDeposit) t k q x :
  table bd_id deposit_ok n l -> (forall y, q y = true -> bd_by_id t k y = true) -> first_where q l = Some x ->
  forall y, In y l -> q y = false -> bd_by_id t k y = false.
Proof.
  intros [Hn _] Hq [Hx Eq]%first_where_some y Hy Hf. destruct (bd_by_id t k y) eqn:E; [|done].
  assert (y = x) as ->; [|congruence]. apply (NoDup_unique bd_id _ Hn); [done..|].
  apply Hq, bd_by_id_true in Eq as []. apply bd_by_id_true in E as []. congruence.
Qed.

Lemma deposit_total_nonneg s t k : till_wf s -> 0 <= sum_by bl_amount (select (of_deposit t k) (tl_dlines s)).
Proof.
  intros Hs. apply sum_by_nonneg. intros l [Hl _]%in_select. destruct (proj2 (wf_dlines s Hs) l Hl). lia.
Qed.

(** Preparing: the draft row gets the sum of its lines and its entry. *)
Definition prepared_row (total : Z) (entry : uuid) (d : BankDeposit) : BankDeposit :=
  with_deposit total (bd_reference d) (bd_actual d) DpPrepared (Some entry) (bd_confirmed d) d.
Definition posted_row (actual : Z) (reference : option string) (entry : uuid) (d : BankDeposit) : BankDeposit :=
  with_deposit (bd_amount d) (opt_or reference (bd_reference d)) (Some actual) DpPosted (bd_prepared d) (Some entry) d.

Lemma draft_by_id t k d : draft_deposit t k d = true -> bd_by_id t k d = true.
Proof. by intros [? _]%andb_true_iff. Qed.
Lemma confirmable_by_id t k d : confirmable t k d = true -> bd_by_id t k d = true.
Proof. by intros [? _]%andb_true_iff. Qed.

(** What preparing and confirming do to the state, the audit row apart. *)
Lemma prepare_effect pool td c i s v s' :
  till_wf s -> handlePrepareBankDeposit pool td c i s = Ok (v, s') ->
  exists a k dep x b, let total := sum_by bl_amount (select (of_deposit (ac_tenant a) k) (tl_dlines s)) in
    0 < total /\ first_where (draft_deposit (ac_tenant a) k) (tl_deposits s) = Some x
    /\ PostEntry (ac_tenant a) (mkPostEntry (default td (bd_expected dep)) "bank_deposit" (Some k) (Some (bd_station dep)) None
         (ac_user a) false (deposit_lines (bd_station dep) "bank_clearing" "cash_on_hand" total)) (till_books s) = Ok (v, b)
    /\ exists au, s' = put_deposits (update_where (draft_deposit (ac_tenant a) k) (prepared_row total (je_id (ev_entry v)))
                         (tl_deposits s)) (put_fin (set_audit au (set_books b (tl_fin s))) s).
Proof.
  intros Hs H. unfold handlePrepareBankDeposit in H. till_serve H. unfold PrepareDeposit in E2. till_run E2.
  unfold SetDepositPreparedEntry, set_deposit in E5. till_run E5. rewrite coalesce_round in *.
  pose proof (deposit_total_nonneg s (ac_tenant x) x0 Hs) as Hp. pose proof (zero_money _ E3) as Hz.
  eexists x, x0, x1, _, b. split; [lia|]. split; [eassumption|]. split; [exact Hpost|].
  eexists. unfold put_deposits, put_fin. simpl. f_equal. rewrite update_where_compose; [done| |].
  - intros y _ Hy. by apply draft_by_id in Hy.
  - eapply only_row; [exact (wf_deposits s Hs)|apply draft_by_id|eassumption].
Qed.

Lemma confirm_effect pool c i body s v s' :
  till_wf s -> handleConfirmBankDeposit pool c i body s = Ok (v, s') ->
  exists a k dep x b actual reference,
    first_where (confirmable (ac_tenant a) k) (tl_deposits s) = Some x
    /\ PostEntry (ac_tenant a) (mkPostEntry actual "bank_deposit" (Some k) (Some (bd_station dep)) None
         (ac_user a) false (deposit_lines (bd_station dep) "bank" "bank_clearing" (bd_amount x))) (till_books s) = Ok (v, b)
    /\ exists au, s' = put_deposits (update_where (confirmable (ac_tenant a) k)
                         (posted_row actual reference (je_id (ev_entry v))) (tl_deposits s))
                         (put_fin (set_audit au (set_books b (tl_fin s))) s).
Proof.
  intros Hs H. unfold handleConfirmBankDeposit in H. till_serve H. unfold ConfirmDeposit in E5. till_run E5.
  unfold SetDepositConfirmedEntry, set_deposit in E7. till_run E7.
  do 7 eexists. split; [eassumption|]. split; [exact Hpost|]. eexists. unfold put_deposits, put_fin. simpl. f_equal. rewrite update_where_compose; [done| |].
  - intros y _ Hy. by apply confirmable_by_id in Hy.
  - eapply only_row; [exact (wf_deposits s Hs)|apply confirmable_by_id|eassumption].
Qed.

Lemma wf_prepare pool td c i : obeys wf_rel (handlePrepareBankDeposit pool td c i).
Proof.
  intros s v s' H Hs. apply prepare_effect in H as (a & k & dep & x & b & Ht & _ & _ & au & ->); [|done].
  wf_put Hs. eapply table_update; [|eassumption]. intros d [_ Ed%bool_decide_eq_true]%andb_true_iff _. split; [done|].
  unfold deposit_ok. simpl. rewrite Ed. intros (_ & _ & ?). split_and!; [done|by eexists|done].
Qed.

Lemma wf_confirm pool c i body : obeys wf_rel (handleConfirmBankDeposit pool c i body).
Proof.
  intros s v s' H Hs. apply confirm_effect in H as (a & k & dep & x & b & act & rf & _ & _ & au & ->); [|done].
  wf_put Hs. eapply table_update; [|eassumption]. intros d [_ Ed%bool_decide_eq_true]%andb_true_iff _. split; [done|].
  unfold deposit_ok. simpl. set_unfold in Ed. destruct Ed as [->|[->|[->|[]]]]; try done.
  intros (? & ? & _). split_and!; try done; by eexists.
Qed.

(** ** Tenders *)

Lemma on_fin_quiet {E A} (c : Tx Fin E A) : obeys quiet c -> obeys wf_rel (on_fin c).
Proof. intros Hc s x s' (f & Hf & ->)%on_fin_ok Hs. apply Hc in Hf as [_ Hn]. by apply wf_fin. Qed.

Lemma wf_charge_journal d a p : obeys wf_rel (postCreditChargeJournal d a p).
Proof.
  unfold postCreditChargeJournal. intros s x s' H Hs. tx_step H. destruct (EntryExistsForSource _ _ _ _); [by injection H as <- <-|].
  destruct (PostEntry _ _ _) as [[v b]|e]; [injection H as <- <-; by apply wf_fin|].
  destruct e; try discriminate H; injection H as <- <-; [by apply wf_fin|done].
Qed.

#[export] Hint Resolve wf_charge_journal : till.

Lemma commit_balanced_ok e s u s' : commit_balanced e s = Ok (u, s') -> s' = s.
Proof. unfold commit_balanced. intros H. tx_step H. unfold tguard in H. case_match; [|done]. by injection H. Qed.

Section Served.
Context {L : Type} `{Loader L} (policy : L).

Lemma wf_tender pool d c i h b : obeys wf_rel (handleRecordPayment policy pool d c i h b).
Proof.
  intros s x s' H0 Hs. unfold handleRecordPayment in H0. tx_steps H0; simplify_eq; try done.
  apply commit_balanced_ok in E12 as ->. apply till_audit_ok in E11 as ->. apply wf_fin; [done|].
  apply wf_Record in E8. specialize (E8 Hs). clear Hs. revert E10 E8. generalize x9, x10, x11.
  match goal with |- forall s x s', ?k s = _ -> _ => change (obeys wf_rel k) end.
  wf_steps. apply on_fin_quiet, quiet_PostCharge.
Qed.

(** Every committed request keeps the tables well-formed, whatever its reads
    showed. *)
Lemma serve_wf pool r : obeys wf_rel (serve policy pool r).
Proof.
  destruct r; cbn [serve]; (apply obeys_bind; [apply _| |intros; apply obeys_ret; apply _]).
  all: try solve [eauto using wf_create_expense, wf_post_expense, wf_petty, wf_count, wf_submit_recon, wf_approve_recon,
    wf_deposit, wf_prepare, wf_confirm, wf_tender].
  all: unfold handleCreateExpenseCategory, handleUpdateExpenseCategory, handleSetExpenseCategoryStatus,
    handleSubmitExpense, handleApproveExpense, expenseTransition, handleCreatePettyCashFloat, handleCreateCashReconciliation,
    handleCreateBankAccount, handleImportBankStatement, handleMatchBankStatementLine, handleUnmatchBankStatementLine,
    handleBankFeeStatementLine; wf_steps.
Qed.
End Served.
