(* ===== verification/TreasuryRuns.v ===== *)
(** * What the treasury promises

    The floats against the petty-cash account and the deposits in transit against
    the clearing account over every sequence of requests, the one entry of a posted
    expense, the entry of an approved count, and the replay of a tender. *)

From stdpp Require Import base list strings relations.
From Stdlib Require Import ZArith Lia.
From S2P Require Import Prelude Frames Numeric Schema Ledger Float64 Accounting AccountingProps RosterProps KeyedLedger Finance Payables Policy Operations Workforce WorkforceHandlers Readings FinanceHandlers SettleProps Treasury Expenses Banking ExpenseHandlers BankHandlers TreasuryProps.

Local Open Scope Z_scope.
Local Open Scope tx_scope.

(** ** Sub-ledgers and their accounts *)

Definition float_total (s : Till) (t : uuid) : Z :=
  sum_by fl_balance (select (fun f => bool_decide (fl_tenant f = t)) (tl_floats s)).
Definition under_way (d : BankDeposit) : bool := bool_decide (bd_status d ∈ [DpPrepared; DpInTransit; DpConfirmed]).
Definition in_transit (s : Till) (t : uuid) : Z :=
  sum_by bd_amount (select (fun d => bool_decide (bd_tenant d = t) && under_way d) (tl_deposits s)).

(** How far the sub-ledgers are from the accounts that control them. *)
Definition gap (s : Till) (t : uuid) : Z * Z :=
  (float_total s t - gl (till_books s) t "petty_cash", in_transit s t - gl (till_books s) t "bank_clearing").

Definition accounts_unique (s : Till) : Prop := NoDup (ac_id <$> bk_accounts (till_books s)).

(** What the gaps depend on. *)
Definition tie_frame (s : Till) := (tl_floats s, tl_deposits s, bk_accounts (till_books s), bk_lines (till_books s)).
Lemma gap_frame s s' t : tie_frame s' = tie_frame s -> gap s' t = gap s t.
Proof.
  unfold tie_frame. intros E. injection E as E1 E2 E3 E4. unfold gap, float_total, in_transit, gl, keyed.
  by rewrite E1, E2, E3, E4.
Qed.

(** A row of a table is replaced. *)
Lemma sum_by_update_row {R} (id : R -> uuid) (f : R -> Z) q g k (l : list R) x :
  NoDup (id <$> l) -> (forall y, q y = true -> id y = k) -> first_where q l = Some x ->
  sum_by f (update_where q g l) = sum_by f l + (f (g x) - f x).
Proof.
  intros Hn Hq Hf. induction l as [|y l IH]; [done|]. apply NoDup_cons in Hn as [Hy Hn]. simpl in Hf |- *.
  destruct (q y) eqn:E.
  - injection Hf as ->. rewrite update_where_none; [lia|]. intros z Hz. apply not_true_iff_false. intros Ez.
    apply Hy. rewrite (Hq x E), <- (Hq z Ez). by apply list_elem_of_fmap_2, list_elem_of_In.
  - rewrite (IH Hn Hf). lia.
Qed.

(** ** Postings off the two accounts *)

Definition control_keys : list string := ["petty_cash"; "bank_clearing"]%string.
(** Membership of a literal key. *)
Ltac decide_key := apply (bool_decide_unpack _); vm_compute; exact I.
Definition off_control (ln : PostLine) : Prop := pl_account ln = uuid_nil /\ (pl_system_key ln ∉ control_keys).

Lemma off_control_gl key lns : key ∈ control_keys -> Forall off_control lns -> sum_by (line_gl key) lns = 0.
Proof.
  intros Hk Hl. apply sum_by_zero. intros ln Hin%list_elem_of_In. rewrite Forall_forall in Hl. destruct (Hl ln Hin) as [_ Hn].
  unfold line_gl. rewrite bool_decide_eq_false_2; [done|]. by intros <-.
Qed.
Lemma off_control_keyed i : Forall off_control (pi_lines i) -> keyed_lines i.
Proof. intros H. eapply Forall_impl; [exact H|]. by intros ln [? _]. Qed.

Lemma off_control_books t i b v b' t' key :
  NoDup (ac_id <$> bk_accounts b) -> Forall off_control (pi_lines i) -> key ∈ control_keys ->
  PostEntry t i b = Ok (v, b') -> gl b' t' key = gl b t' key.
Proof.
  intros Hn Hl Hk H. rewrite (PostEntry_gl t i b v b' t' key Hn (off_control_keyed i Hl) H).
  rewrite off_control_gl by done. case_match; lia.
Qed.

(** The gaps stay, the accounts stay unique. *)
Definition tied (s s' : Till) : Prop :=
  till_wf s -> accounts_unique s -> till_wf s' /\ accounts_unique s' /\ forall t, gap s' t = gap s t.
Lemma tied_frame s s' : (till_wf s -> till_wf s') -> tie_frame s' = tie_frame s -> tied s s'.
Proof.
  intros Hw E Hs Hu. split; [auto|]. split; [|intros t; by apply gap_frame].
  unfold accounts_unique. unfold tie_frame in E. injection E as _ _ -> _. done.
Qed.

Lemma PostEntry_unique t i b v b' :
  PostEntry t i b = Ok (v, b') -> NoDup (ac_id <$> bk_accounts b) -> NoDup (ac_id <$> bk_accounts b').
Proof. by intros (-> & _)%PostEntry_tables. Qed.

#[export] Instance tied_pre : PreOrder tied.
Proof.
  split; unfold Reflexive, Transitive, tied; [auto|]. intros s s1 s2 H1 H2 Hs Hu. destruct (H1 Hs Hu) as (Hs1 & Hu1 & E1).
  destruct (H2 Hs1 Hu1) as (Hs2 & Hu2 & E2). split_and!; [done..|]. intros t. by rewrite E2.
Qed.

Lemma tied_post t i : Forall off_control (pi_lines i) -> obeys tied (post_journal t i).
Proof.
  intros Hl s v s' (b & Hp & ->)%post_journal_ok Hs Hu. split; [by apply wf_fin|].
  split; [unfold accounts_unique; simpl; by eapply PostEntry_unique|]. intros t'. unfold gap. simpl.
  unfold till_books. simpl. f_equal; f_equal; eapply off_control_books; try done; decide_key.
Qed.

(** A statement on the other tables. *)
Ltac tied_by wf :=
  let s := fresh "s" in let x := fresh "x" in let s' := fresh "s'" in let H := fresh "H" in
  intros s x s' H; apply tied_frame; [intros ?; by eapply wf|].

Lemma tied_CreateCategory t i : obeys tied (CreateCategory t i).
Proof.
  tied_by wf_CreateCategory. unfold CreateCategory in H. tx_steps H. apply threshold_col_ok in E as [-> _]. by till_run H.
Qed.
Lemma tied_UpdateCategory t id i : obeys tied (UpdateCategory t id i).
Proof.
  tied_by wf_UpdateCategory. unfold UpdateCategory in H. tx_steps H. apply threshold_col_ok in E0 as [-> _]. by till_run H.
Qed.
Lemma tied_SetCategoryStatus t id a : obeys tied (SetCategoryStatus t id a).
Proof. tied_by wf_SetCategoryStatus. unfold SetCategoryStatus in H. by till_run H. Qed.
Lemma tied_CreateExpense t i : obeys tied (CreateExpense t i).
Proof. tied_by wf_CreateExpense. unfold CreateExpense in H. by till_run H. Qed.
Lemma tied_SubmitExpense t id : obeys tied (SubmitExpense t id).
Proof. tied_by wf_SubmitExpense. unfold SubmitExpense, expense_step in H. by till_run H. Qed.
Lemma tied_ApproveExpense t id u : obeys tied (ApproveExpense t id u).
Proof. tied_by wf_ApproveExpense. unfold ApproveExpense, expense_step in H. by till_run H. Qed.
Lemma tied_MarkExpensePosted t id e : obeys tied (MarkExpensePosted t id e).
Proof. tied_by wf_MarkExpensePosted. unfold MarkExpensePosted, expense_step in H. by till_run H. Qed.
Lemma tied_SetTransactionJournalEntry t id e : obeys tied (SetTransactionJournalEntry t id e).
Proof. tied_by wf_SetTransactionJournalEntry. by injection H as _ <-. Qed.
Lemma tied_SetReconciliationJournalEntry t id e : obeys tied (SetReconciliationJournalEntry t id e).
Proof. tied_by wf_SetReconciliationJournalEntry. by injection H as _ <-. Qed.
Lemma frame_seed_lines t r l : keeps tie_frame (seed_lines t r l).
Proof.
  induction l as [|h l IH]; [apply keeps_ret|]. intros s x s' H. cbn [seed_lines] in H. till_run H. apply IH in H. by rewrite H.
Qed.
Lemma tied_CreateCashReconciliation t st d u : obeys tied (CreateCashReconciliation t st d u).
Proof.
  tied_by wf_CreateCashReconciliation. unfold CreateCashReconciliation in H. till_run H.
  match goal with E : seed_lines _ _ _ _ = _ |- _ => apply frame_seed_lines in E; by rewrite E end.
Qed.
Lemma tied_CreateBankAccount t n m c : obeys tied (CreateBankAccount t n m c).
Proof. tied_by wf_CreateBankAccount. unfold CreateBankAccount in H. by till_run H. Qed.
Lemma tied_AddDepositLine t d r a : obeys tied (AddDepositLine t d r a).
Proof. tied_by wf_AddDepositLine. unfold AddDepositLine in H. by till_run H. Qed.
Lemma frame_import_lines t im acc l : keeps tie_frame (import_lines t im acc l).
Proof.
  induction l as [|i l IH]; [apply keeps_ret|]. intros s x s' H. cbn [import_lines] in H. till_run H. apply IH in H. by rewrite H.
Qed.
Lemma tied_ImportStatement t acc st en h u l : obeys tied (ImportStatement t acc st en h u l).
Proof.
  tied_by wf_ImportStatement. unfold ImportStatement in H. till_run H.
  match goal with E : import_lines _ _ _ _ _ = _ |- _ => apply frame_import_lines in E; by rewrite E end.
Qed.
Lemma tied_MatchLine t id ty d : obeys tied (MatchLine t id ty d).
Proof. tied_by wf_MatchLine. unfold MatchLine in H. by till_run H. Qed.
Lemma tied_UnmatchLine t id : obeys tied (UnmatchLine t id).
Proof. tied_by wf_UnmatchLine. unfold UnmatchLine in H. by till_run H. Qed.
Lemma tied_MarkFee t id e : obeys tied (MarkLine t id SlBankFee (Some e)).
Proof. tied_by wf_MarkFee. unfold MarkLine in H. by till_run H. Qed.

(** A new float is empty, a new deposit is a draft. *)
Lemma tied_CreateFloat t st n u : obeys tied (CreateFloat t st n u).
Proof.
  intros s x s' H Hs Hu. split; [by eapply wf_CreateFloat|]. unfold CreateFloat in H. till_run H. split; [done|].
  intros t'. unfold gap, float_total. simpl. rewrite select_app, sum_by_app, select_cons. simpl.
  case_bool_decide; simpl; by rewrite Z.add_0_r.
Qed.
Lemma tied_CreateDeposit t i : obeys tied (CreateDeposit t i).
Proof.
  intros s x s' H Hs Hu. split; [by eapply wf_CreateDeposit|]. unfold CreateDeposit in H. till_run H. split; [done|].
  intros t'. unfold gap, in_transit. simpl. rewrite select_app, sum_by_app, select_cons. simpl.
  rewrite andb_false_r. simpl. by rewrite Z.add_0_r.
Qed.

Lemma tied_till_audit {E} a x e : obeys tied (@till_audit E a x e).
Proof. intros s v s' ->%till_audit_ok. apply tied_frame; [by apply wf_fin|done]. Qed.
Lemma tied_txAudit {A} a x (en : A -> uuid) c : obeys tied c -> obeys tied (txAudit a x en c).
Proof.
  intros Hc. apply obeys_bind; [apply _|done|intros y]. apply obeys_bind; [apply _|apply tied_till_audit|intros ?].
  apply obeys_ret, _.
Qed.

Create HintDb tie.
#[export] Hint Resolve tied_CreateCategory tied_UpdateCategory tied_SetCategoryStatus tied_CreateExpense tied_SubmitExpense
  tied_ApproveExpense tied_MarkExpensePosted tied_SetTransactionJournalEntry tied_SetReconciliationJournalEntry
  tied_CreateCashReconciliation tied_CreateBankAccount tied_AddDepositLine tied_ImportStatement tied_MatchLine
  tied_UnmatchLine tied_MarkFee tied_CreateFloat tied_CreateDeposit : tie.

Ltac tie_steps :=
  repeat first
    [ apply tied_txAudit | apply tied_till_audit | (unfold till_internal; apply obeys_conv) | apply obeys_conv
    | apply obeys_ret; apply _ | apply obeys_lift; apply _ | apply obeys_guard; apply _ | apply obeys_fail
    | solve [eauto with tie]
    | apply obeys_bind; [apply _| |intros ?]; cbn beta iota zeta
    | lazymatch goal with
      | |- obeys _ (match ?x with _ => _ end) => destruct x
      | |- obeys _ ((fun _ => _) _) => cbn beta
      end ].
Lemma tied_add_deposit_lines t d l : obeys tied (add_deposit_lines t d l).
Proof. induction l as [|[r a] l IH]; cbn [add_deposit_lines]; tie_steps. Qed.
#[export] Hint Resolve tied_add_deposit_lines : tie.

(** ** Requests that post elsewhere *)

Lemma off_transfer st d c a : d ∉ control_keys -> c ∉ control_keys -> Forall off_control (transfer_lines st d c a).
Proof. intros Hd Hc. by repeat constructor. Qed.

Lemma tied_submit_recon c i b : obeys tied (handleSubmitCashReconciliation c i b).
Proof.
  tied_by wf_submit_recon. unfold handleSubmitCashReconciliation in H. till_serve H.
  all: unfold SubmitCashReconciliation in *;
    match goal with E : tbind _ _ _ = Ok _ |- _ => till_run E; done end.
Qed.

Lemma off_cash_lines p : Forall off_control (cash_lines p).
Proof.
  unfold cash_lines, cash_line. rewrite !Forall_app. split_and!; (case_match; [constructor|]); repeat constructor; decide_key.
Qed.
Lemma tied_approve_recon c i : obeys tied (handleApproveCashReconciliation c i).
Proof.
  intros s v s' H. assert (Hw : till_wf s -> till_wf s') by (intros; by eapply wf_approve_recon).
  unfold handleApproveCashReconciliation in H. tx_steps H. simplify_eq.
  apply till_audit_ok in E8 as ->. apply till_internal_ok in E7. unfold MarkCashReconciliationPosted in E7. till_run E7.
  intros Hs Hu. eapply tied_post in E6 as Ht; [|apply off_cash_lines]. destruct (Ht Hs Hu) as (_ & Hu' & Hg). split; [auto|]. split; [done|]. 
  intros t. rewrite <- Hg. by apply gap_frame.
Qed.

(** The row the pool showed names neither account. *)
Definition plain_expense (e : Expense) : Prop := (ex_key e ∉ control_keys) /\ ex_mode e <> "petty_cash"%string.

Lemma mode_account m : m <> "petty_cash"%string -> paymentModeAccount m ∉ control_keys.
Proof.
  intros Hm. unfold paymentModeAccount. repeat case_match; subst; try done; decide_key.
Qed.

Lemma tied_post_expense pool c i :
  (forall t k e, i = Ok k -> GetExpense pool t k = Ok e -> plain_expense e) -> obeys tied (handlePostExpense pool c i).
Proof.
  intros Hp s v s' H. unfold handlePostExpense in H. tx_steps H. simplify_eq.
  assert (Hx : plain_expense x1).
  { unfold url_id, get_or_404 in E0, E1. destruct i as [k|]; simplify_eq.
    destruct (GetExpense pool _ _) eqn:Eg; simplify_eq. by eapply Hp. }
  destruct Hx as [Hk Hm]. etrans; [eapply tied_post; [|exact E3]; by apply off_transfer; [|apply mode_account]|].
  etrans; [eapply tied_MarkExpensePosted, till_internal_ok, E4|]. by eapply tied_till_audit.
Qed.

Lemma tied_fee pool c i : obeys tied (handleBankFeeStatementLine pool c i).
Proof.
  unfold handleBankFeeStatementLine. tie_steps. apply tied_post. apply off_transfer; decide_key.
Qed.

(** Lines written before a missing account. *)
Lemma lines_written_gl t entry lns key t' : forall b,
  NoDup (ac_id <$> bk_accounts b) -> Forall off_control lns -> key ∈ control_keys ->
  bk_accounts (lines_written t entry lns b) = bk_accounts b
  /\ gl (lines_written t entry lns b) t' key = gl b t' key.
Proof.
  induction lns as [|ln lns IH]; intros b Hn Hl Hk; [done|]. apply Forall_cons in Hl as [[Ha Hc] Hl]. simpl.
  destruct (post_line t entry ln b) as [[l b']|] eqn:E; [|done].
  apply post_line_inv in E as (_ & _ & _ & [Et _]%of_entry_true & -> & _ & _ & Hacc).
  unfold line_account in Hacc. rewrite (bool_decide_eq_true_2 _ Ha) in Hacc.
  destruct (IH (add_line l b) Hn Hl Hk) as [-> ->]. split; [done|]. unfold gl, keyed. simpl.
  rewrite select_app, sum_by_app, select_cons. fold (keyed b t' key l).
  assert (Hf : keyed b t' key l = false).
  { destruct (decide (t' = t)) as [->|Hne].
    - rewrite (keyed_resolved b t key _ l Hn Et Hacc). apply bool_decide_eq_false. by intros <-.
    - unfold keyed. apply andb_false_iff. left. apply bool_decide_eq_false. congruence. }
  rewrite Hf. apply Z.add_0_r.
Qed.

Lemma entry_written_gl t i key t' b :
  NoDup (ac_id <$> bk_accounts b) -> Forall off_control (pi_lines i) -> key ∈ control_keys ->
  bk_accounts (entry_written t i b) = bk_accounts b /\ gl (entry_written t i b) t' key = gl b t' key.
Proof.
  intros Hn Hl Hk. unfold entry_written. destruct (resolvePostingPeriod _ _ _ _); [|done].
  destruct (insert_entry _ b) as [[e b']|] eqn:E; [|done]. apply insert_entry_inv in E as (_ & _ & ->).
  by apply (lines_written_gl t (je_id e) (pi_lines i) key t' (add_entry _ b)).
Qed.

Lemma tied_charge_journal d a p : obeys tied (postCreditChargeJournal d a p).
Proof.
  intros s x s' H. unfold postCreditChargeJournal in H. tx_step H.
  destruct (EntryExistsForSource _ _ _ _); [injection H as <- <-; reflexivity|].
  assert (Hl : Forall off_control (deposit_lines (td_station p) "accounts_receivable" "sales_clearing" (td_amount p)))
    by (apply off_transfer; decide_key).
  destruct (PostEntry _ _ _) as [[v b]|e] eqn:Ep; match type of Ep with PostEntry _ ?i _ = _ => set (j := i) in * end.
  - injection H as <- <-. intros Hs Hu. split; [by apply wf_fin|]. split; [unfold accounts_unique; simpl; by eapply PostEntry_unique|].
    intros t'. unfold gap, till_books. simpl. f_equal; f_equal; eapply off_control_books; try done; decide_key.
  - destruct e; try discriminate H; injection H as <- <-; [|reflexivity].
    intros Hs Hu. split; [by apply wf_fin|]. split.
    + change (NoDup (ac_id <$> bk_accounts (entry_written (ac_tenant a) j (till_books s)))).
      by rewrite (proj1 (entry_written_gl (ac_tenant a) j "petty_cash" (ac_tenant a) (till_books s) Hu Hl ltac:(decide_key))).
    + intros t'. unfold gap, till_books. simpl. f_equal; f_equal; apply entry_written_gl; try done; decide_key.
Qed.
#[export] Hint Resolve tied_charge_journal : tie.

Lemma keeps_insert_ar_books t c k a b ty sr u n : keeps fn_books (insert_ar t c k a b ty sr u n).
Proof. intros f x f' H. unfold insert_ar in H. tx_steps H. apply cents_ok in E as [_ ->], E0 as [_ ->]. injection E1 as _ <-. by simplify_eq. Qed.
Lemma keeps_charge_books t c a ty sr u n o : keeps fn_books (PostCharge t c a ty sr u n o).
Proof. intros f x f' H. unfold PostCharge, charge_on in H. tx_steps H. by eapply keeps_insert_ar_books. Qed.

Lemma frame_Record t i : keeps tie_frame (Record_ t i).
Proof.
  intros s r s' H. unfold Record_ in H. tx_steps H; apply till_cents_ok in E as [-> ->]; injection E2 as <- <-; simplify_eq; [done|].
  by apply insert_row_ok in E5 as [_ ->].
Qed.

Section Tender.
Context {L : Type} `{Loader L} (policy : L).

Lemma tied_tender pool d c i h b : obeys tied (handleRecordPayment policy pool d c i h b).
Proof.
  intros s x s' H0. unfold handleRecordPayment in H0. tx_steps H0; simplify_eq; try reflexivity.
  apply commit_balanced_ok in E12 as ->. etrans; [|eapply tied_till_audit, E11].
  etrans; [apply tied_frame; [by eapply wf_Record|by eapply frame_Record]|].
  revert E10. clear. generalize x9, x10, x11.
  match goal with |- forall s x s', ?k s = _ -> _ => change (obeys tied k) end. tie_steps.
  intros s y s' (f & Hf & ->)%on_fin_ok. apply tied_frame; [intros; apply wf_fin; [|done]; by apply quiet_PostCharge in Hf as [_ ?]|].
  apply keeps_charge_books in Hf. unfold tie_frame, till_books. simpl. by rewrite Hf.
Qed.
End Tender.

(** ** Petty cash *)

Lemma fl_by_id_true t k f : fl_by_id t k f = true <-> fl_tenant f = t /\ fl_id f = k.
Proof. unfold fl_by_id. apply bool_decide_eq_true. Qed.

(** A float's new balance moves its tenant's total by the difference. *)
Lemma float_total_update s t k f z t' :
  till_wf s -> first_where (fl_by_id t k) (tl_floats s) = Some f ->
  sum_by fl_balance (select (fun x => bool_decide (fl_tenant x = t')) (update_where (fl_by_id t k) (with_balance z) (tl_floats s)))
  = float_total s t' + (if bool_decide (t' = t) then z - fl_balance f else 0).
Proof.
  intros Hs Hf. rewrite select_update by done. unfold float_total.
  assert (Hft : fl_tenant f = t) by (apply first_where_some in Hf as [_ [? _]%fl_by_id_true]; done).
  case_bool_decide as Et.
  - subst t'. rewrite (sum_by_update_row fl_id fl_balance _ _ k _ f); [done|..].
    + apply (NoDup_select fl_id), (wf_floats s Hs).
    + by intros y [_ ?]%fl_by_id_true.
    + apply first_only; [|apply first_where_some in Hf; tauto|].
      * apply in_select. apply first_where_some in Hf as [? _]. split; [done|by apply bool_decide_eq_true].
      * intros y [Hy _]%in_select [_ Ek]%fl_by_id_true. apply first_where_some in Hf as [Hin [_ Ef]%fl_by_id_true].
        apply (NoDup_unique fl_id _ (proj1 (wf_floats s Hs))); [done..|congruence].
  - rewrite update_where_none; [lia|]. intros y [_ Ey%bool_decide_eq_true]%in_select. apply not_true_iff_false.
    intros [? _]%fl_by_id_true. congruence.
Qed.

(** The amounts of a request in cents, the account of a spend off the control
    accounts. *)
Definition plain_petty (q : pettyRequest) : Prop :=
  (forall d, tq_amount q = Some d -> in_cents d)
  /\ (word_or (default ""%string (tq_key q)) "operating_expense" ∉ control_keys).

Definition petty_sign (t : txn_type) : Z := if increases t then 1 else -1.

Lemma petty_gl t i b v b' ty key d :
  PostEntry t i b = Ok (v, b') -> pi_lines i = petty_lines ty key d -> in_cents d ->
  (word_or (default ""%string key) "operating_expense" ∉ control_keys) ->
  sum_by (line_gl "petty_cash") (pi_lines i) = petty_sign ty * cents_of d /\ sum_by (line_gl "bank_clearing") (pi_lines i) = 0
  /\ keyed_lines i.
Proof.
  intros Hp El Hd Hk. assert (Ek : keyed_lines i).
  { unfold keyed_lines. rewrite El. unfold petty_lines, transfer_lines. by destruct ty; repeat constructor. }
  assert (Er : round_to 2 (Dec (mant d) (scale d)) = cents_of d) by (destruct d; by apply round_cents).
  split_and!; [| |done]; unfold petty_sign; destruct ty; unfold petty_lines, transfer_lines, dec_text in El;
    rewrite (pair_gl _ _ _ _ _ _ _ _ _ _ _ Hp El), Er; cbn [increases];
    rewrite ?(bool_decide_eq_false_2 (word_or _ _ = _)) by (intros E; rewrite E in Hk; apply Hk; decide_key);
    rewrite ?bool_decide_eq_true_2 by done; simpl; lia.
Qed.

(** The gaps when a table and the books moved together. *)
Lemma tied_moves s s' t (p c : Z) :
  (forall t', float_total s' t' = float_total s t' + (if bool_decide (t' = t) then p else 0)) ->
  (forall t', in_transit s' t' = in_transit s t' + (if bool_decide (t' = t) then c else 0)) ->
  (forall t', gl (till_books s') t' "petty_cash" = gl (till_books s) t' "petty_cash" + (if bool_decide (t' = t) then p else 0)) ->
  (forall t', gl (till_books s') t' "bank_clearing"
              = gl (till_books s) t' "bank_clearing" + (if bool_decide (t' = t) then c else 0)) ->
  forall t', gap s' t' = gap s t'.
Proof. intros H1 H2 H3 H4 t'. unfold gap. rewrite H1, H2, H3, H4. f_equal; lia. Qed.

Lemma posted_moves t i b v b' (p c : Z) :
  NoDup (ac_id <$> bk_accounts b) -> PostEntry t i b = Ok (v, b') ->
  sum_by (line_gl "petty_cash") (pi_lines i) = p /\ sum_by (line_gl "bank_clearing") (pi_lines i) = c /\ keyed_lines i ->
  (forall t', gl b' t' "petty_cash" = gl b t' "petty_cash" + (if bool_decide (t' = t) then p else 0))
  /\ (forall t', gl b' t' "bank_clearing" = gl b t' "bank_clearing" + (if bool_decide (t' = t) then c else 0)).
Proof. intros Hn H (<- & <- & Hk). split; intros t'; by apply (PostEntry_gl t i b v b'). Qed.

Lemma moved_cents ty z d : in_cents d -> round_to 2 (moved ty z d) = z + petty_sign ty * cents_of d.
Proof.
  intros Hd. unfold moved, petty_sign. destruct (increases ty); [rewrite add_cents by done; lia|].
  rewrite sub_cents by done. rewrite round_to_same. lia.
Qed.

Lemma tied_petty td c i b :
  (forall q, b = Ok q -> plain_petty q) -> obeys tied (handlePettyCashTransaction td c i b).
Proof.
  intros Hq s v s' H Hs Hu. assert (Hw := wf_petty td c i b s v s' H Hs). split; [done|].
  unfold handlePettyCashTransaction in H. till_serve H. unfold json_body in E1. destruct b as [q|]; simplify_eq.
  destruct (Hq x1 eq_refl) as [Hc Hk]. apply positive_amount_ok in E3 as [Ha _]. specialize (Hc _ Ha).
  unfold RecordTransaction, GetFloat in E5. till_run E5. unfold SetTransactionJournalEntry in *.
  match goal with E : tbind tget _ _ = Ok _ |- _ => till_run E end.
  destruct (petty_gl _ _ _ _ _ _ _ _ Hpost eq_refl Hc Hk) as (Gp & Gc & Gk).
  destruct (posted_moves _ _ _ _ _ _ _ Hu Hpost (conj Gp (conj Gc Gk))) as [Mp Mc].
  split; [unfold accounts_unique; simpl; by eapply PostEntry_unique|].
  eapply (tied_moves s _ (ac_tenant x) (petty_sign x2 * cents_of x3) 0); [|..|exact Mp|exact Mc].
  - intros t'. unfold float_total at 1. simpl. erewrite float_total_update by eassumption. rewrite moved_cents by done.
    by rewrite Z.add_simpl_l.
  - intros t'. unfold in_transit. simpl. case_match; lia.
Qed.

(** ** Counts *)

(** A figure of a column is written as zero exactly when it is. *)
Lemma zero_money_iff z : 0 <= z < 10 ^ 14 -> isZeroMoney (Dec z 2) = (z =? 0).
Proof.
  intros Hz. unfold isZeroMoney, parseDecimal, f_near. cbn [mant scale]. destruct (Z.eqb_spec z 0) as [->|Hn]; [done|].
  destruct (Z.ltb_spec z 0); [lia|]. change (pow10 2) with 100.
  rewrite near_no_overflow by (try lia; change (2 ^ 51) with 2251799813685248; lia).
  destruct (f_near_pos_spec z 100 ltac:(lia) ltac:(lia)) as [Hm _]. destruct (f_near_pos z 100) as [m e].
  unfold f_eq, f_le, f_num, f_den. cbn [f_m f_e] in *. apply andb_false_iff. left. apply Z.leb_gt.
  pose proof (pw_pos e). pose proof (pw_pos (- 0)). change (2 ^ 52) with 4503599627370496 in Hm. nia.
Qed.

Lemma sub_from_cents d x : in_cents d -> dec_sub d (dec_of 2 x) = Dec (cents_of d - x) 2.
Proof.
  intros Hd. unfold dec_sub, dec_add, dec_of, cents_of, in_cents in *. simpl. rewrite Nat.max_r by done. f_equal.
  unfold at_scale. simpl. rewrite pow10_0. lia.
Qed.
Lemma dec_pos_cents x : exists s, dec_pos (Dec x 2) = Dec (Z.max x 0) s /\ (s = 2%nat \/ (s = 0%nat /\ x < 0)).
Proof.
  assert (E : dec_leb (Dec 0 0) (Dec x 2) = (0 <=? x)).
  { unfold dec_leb, at_scale. simpl. by rewrite pow10_0, Z.mul_1_r. }
  unfold dec_pos. rewrite E.
  destruct (Z.leb_spec 0 x); [exists 2%nat; split; [f_equal; lia|auto]|exists 0%nat; split; [f_equal; lia|right; lia]].
Qed.
Lemma zero_money_pos x : Z.abs x < 10 ^ 14 -> isZeroMoney (dec_pos (Dec x 2)) = (x <=? 0).
Proof.
  intros Hx. destruct (dec_pos_cents x) as (s & -> & [->|[-> Hn]]).
  - rewrite zero_money_iff by lia. destruct (Z.eqb_spec (Z.max x 0) 0), (Z.leb_spec x 0); lia || done.
  - rewrite Z.max_r by lia. symmetry. apply Z.leb_le. lia.
Qed.
Lemma pos_text x : 0 < x -> dec_pos (Dec x 2) = Dec x 2.
Proof. intros Hx. destruct (dec_pos_cents x) as (s & -> & [->|[_ ?]]); [f_equal|]; lia. Qed.

Definition count_of (row : PettyReconciliation) (expected counted : Z) : CountResult :=
  mkCount row (dec_pos (Dec (expected - counted) 2)) (dec_pos (Dec (counted - expected) 2)).

(** The lines of a count: none when the cash is what was expected, or a pair that
    moves the petty-cash account to the cash counted. *)
Lemma count_lines_cases row expected counted :
  Z.abs (counted - expected) < 10 ^ 14 ->
  (counted = expected /\ count_lines (count_of row expected counted) = [])
  \/ (counted < expected /\ count_lines (count_of row expected counted)
        = transfer_lines None "cash_over_short" "petty_cash" (numeric_text 2 (expected - counted)))
  \/ (expected < counted /\ count_lines (count_of row expected counted)
        = transfer_lines None "petty_cash" "cash_over_short" (numeric_text 2 (counted - expected))).
Proof.
  intros Hb. unfold count_lines, count_of. cbn [cn_short cn_over]. rewrite !zero_money_pos by lia.
  destruct (Z.leb_spec (expected - counted) 0) as [H1|H1]; simpl.
  - destruct (Z.leb_spec (counted - expected) 0) as [H2|H2]; simpl; [left; split; [lia|done]|].
    right; right. split; [lia|]. by rewrite pos_text by lia.
  - right; left. split; [lia|]. by rewrite pos_text by lia.
Qed.

Lemma count_gl t i b v b' row expected counted :
  PostEntry t i b = Ok (v, b') -> Z.abs (counted - expected) < 10 ^ 14 ->
  pi_lines i = count_lines (count_of row expected counted) -> counted <> expected ->
  sum_by (line_gl "petty_cash") (pi_lines i) = counted - expected /\ sum_by (line_gl "bank_clearing") (pi_lines i) = 0
  /\ keyed_lines i.
Proof.
  intros Hp Hb El Hne. destruct (count_lines_cases row expected counted Hb) as [[? _]|[[_ E]|[_ E]]]; [done|..];
    rewrite E in El; unfold transfer_lines in El;
    (split_and!; [rewrite (pair_gl _ _ _ _ _ _ _ _ _ _ _ Hp El), round_to_same; simpl; lia..|
       unfold keyed_lines; rewrite El; by repeat constructor]).
Qed.

Lemma ReconcileFloat_ok t k d u s r s' :
  in_cents d -> ReconcileFloat t k d u s = Ok (r, s') ->
  exists f, first_where (fl_by_id t k) (tl_floats s) = Some f
    /\ r = count_of (cn_row r) (fl_balance f) (cents_of d) /\ Z.abs (cents_of d - fl_balance f) < 10 ^ 14
    /\ tl_floats s' = update_where (fl_by_id t k) (with_balance (cents_of d)) (tl_floats s)
    /\ tl_deposits s' = tl_deposits s /\ till_books s' = till_books s.
Proof.
  intros Hd H. unfold ReconcileFloat, GetFloat in H. tx_steps H. apply till_cents_bound in E1 as Hb.
  rewrite sub_from_cents, round_to_same in Hb by done. till_run H. eexists. split; [eassumption|].
  unfold count_of. rewrite sub_cents, sub_from_cents, round_cents by done. by split_and!.
Qed.

(** The entry of a count, when there is one, brings the account to the count. *)
Definition post_count (a : Actor) (date : Z) (c : CountResult) : Tx Till http_error (option EntryView) :=
  match count_lines c with
  | [] => tret None
  | _ =>
      let! v := post_journal (ac_tenant a)
        (mkPostEntry date "petty_cash_reconciliation" (Some (pn_id (cn_row c))) None None (ac_user a) false (count_lines c)) in
      till_internal (SetReconciliationJournalEntry (ac_tenant a) (pn_id (cn_row c)) (je_id (ev_entry v))) ;;! tret (Some v)
  end.

Lemma count_posted a date row expected n s v s' :
  accounts_unique s -> Z.abs (n - expected) < 10 ^ 14 -> post_count a date (count_of row expected n) s = Ok (v, s') ->
  accounts_unique s' /\ tl_floats s' = tl_floats s /\ tl_deposits s' = tl_deposits s
  /\ (forall t, gl (till_books s') t "petty_cash" = gl (till_books s) t "petty_cash"
                 + (if bool_decide (t = ac_tenant a) then n - expected else 0))
  /\ (forall t, gl (till_books s') t "bank_clearing" = gl (till_books s) t "bank_clearing"
                 + (if bool_decide (t = ac_tenant a) then 0 else 0)).
Proof.
  intros Hu Hb H. unfold post_count in H. destruct (decide (n = expected)) as [->|Hne].
  - destruct (count_lines_cases row expected expected Hb) as [[_ El]|[[? _]|[? _]]]; [|lia..].
    rewrite El in H. injection H as _ <-. split_and!; try done; intros t; destruct (bool_decide _); lia.
  - pose proof (count_lines_cases row expected n Hb) as Hl. destruct (count_lines _) as [|l ls] eqn:El.
    { by destruct Hl as [[? _]|[[_ E]|[_ E]]]. }
    rewrite <- El in H. till_serve H. unfold SetReconciliationJournalEntry in *.
    match goal with E : tbind tget _ _ = Ok _ |- _ => till_run E end.
    split_and!; try done; [unfold accounts_unique; simpl; by eapply PostEntry_unique|..];
      eapply (posted_moves _ _ _ _ _ _ _ Hu Hpost); by eapply (count_gl _ _ _ _ _ row).
Qed.

Lemma tied_count td c i b :
  (forall d dt, b = Ok (Some d, dt) -> in_cents d) -> obeys tied (handleReconcilePettyCash td c i b).
Proof.
  intros Hb s v s' H Hs Hu. assert (Hw := wf_count td c i b s v s' H Hs). split; [done|].
  unfold handleReconcilePettyCash in H. till_serve H. destruct o as [d|]; [|done].
  unfold json_body in E1. destruct b as [[? ?]|]; simplify_eq. specialize (Hb d _ eq_refl).
  destruct (nonnegative_amount d); simplify_eq. apply ReconcileFloat_ok in E5 as (f & Hf & Ec & Hbd & Ef & Ed & Eb); [|done].
  rewrite Ec in E6. apply (count_posted x x3) in E6 as (Hu' & Ef' & Ed' & Mp & Mc);
    [|unfold accounts_unique; by rewrite Eb|done]. split; [done|].
  eapply (tied_moves s _ (ac_tenant x) (cents_of x2 - fl_balance f) 0).
  - intros t'. unfold float_total at 1. simpl. rewrite Ef', Ef. by erewrite float_total_update.
  - intros t'. unfold in_transit. simpl. rewrite Ed', Ed. destruct (bool_decide _); lia.
  - intros t'. rewrite <- Eb. apply Mp.
  - intros t'. rewrite <- Eb. apply Mc.
Qed.

(** ** Deposits *)

Definition transit_of (t : uuid) (d : BankDeposit) : Z := if bool_decide (bd_tenant d = t) && under_way d then bd_amount d else 0.
Lemma in_transit_sum l t :
  sum_by bd_amount (select (fun d => bool_decide (bd_tenant d = t) && under_way d) l) = sum_by (transit_of t) l.
Proof. by rewrite sum_by_select. Qed.

(** A deposit that changes moves its tenant's total by the difference. *)
Lemma in_transit_update s t k q g x t' :
  till_wf s -> (forall y, q y = true -> bd_by_id t k y = true) -> first_where q (tl_deposits s) = Some x ->
  sum_by bd_amount (select (fun d => bool_decide (bd_tenant d = t') && under_way d) (update_where q g (tl_deposits s)))
  = in_transit s t' + (transit_of t' (g x) - transit_of t' x).
Proof.
  intros Hs Hq Hx. unfold in_transit. rewrite !in_transit_sum.
  apply (sum_by_update_row bd_id _ _ _ k); [apply (wf_deposits s Hs)| |done]. by intros y [_ ?]%Hq%bd_by_id_true.
Qed.

Lemma transit_gl t i b v b' st d c z :
  PostEntry t i b = Ok (v, b') -> pi_lines i = deposit_lines st d c z ->
  d <> "petty_cash"%string -> c <> "petty_cash"%string ->
  sum_by (line_gl "petty_cash") (pi_lines i) = 0
  /\ sum_by (line_gl "bank_clearing") (pi_lines i)
     = ((if bool_decide (d = "bank_clearing"%string) then 1 else 0) - (if bool_decide (c = "bank_clearing"%string) then 1 else 0)) * z
  /\ keyed_lines i.
Proof.
  intros Hp El Hd Hc. unfold deposit_lines, transfer_lines in El.
  split_and!; [rewrite (pair_gl _ _ _ _ _ _ _ _ _ _ _ Hp El), !bool_decide_eq_false_2 by done; lia
    |by rewrite (pair_gl _ _ _ _ _ _ _ _ _ _ _ Hp El), round_to_same
    |unfold keyed_lines; rewrite El; by repeat constructor].
Qed.

Lemma tied_prepare pool td c i : obeys tied (handlePrepareBankDeposit pool td c i).
Proof.
  intros s v s' H Hs Hu. assert (Hw := wf_prepare _ _ _ _ _ _ _ H Hs). split; [done|].
  apply prepare_effect in H as (a & k & dep & x & b & Ht & Hx & Hp & au & ->); [|done]. set (total := sum_by _ _) in *.
  split; [unfold accounts_unique; simpl; by eapply PostEntry_unique|].
  destruct (posted_moves _ _ _ _ _ _ _ Hu Hp (transit_gl _ _ _ _ _ _ _ _ _ Hp eq_refl ltac:(done) ltac:(done))) as [Mp Mc].
  eapply (tied_moves s _ (ac_tenant a)); [|..|exact Mp|exact Mc].
  - intros t'. by rewrite Tauto.if_same, Z.add_0_r.
  - intros t'. unfold in_transit at 1. simpl. erewrite in_transit_update; [|done|apply draft_by_id|done]. f_equal.
    apply first_where_some in Hx as [_ [[Et _]%bd_by_id_true Ed%bool_decide_eq_true]%andb_true_iff].
    unfold transit_of, under_way, prepared_row, with_deposit. simpl. rewrite Et, Ed. rewrite andb_true_r, andb_false_r.
    destruct (decide (t' = ac_tenant a)) as [->|Hne]; [rewrite !bool_decide_eq_true_2 by done|rewrite !bool_decide_eq_false_2 by done]; lia.
Qed.

Lemma tied_confirm pool c i body : obeys tied (handleConfirmBankDeposit pool c i body).
Proof.
  intros s v s' H Hs Hu. assert (Hw := wf_confirm _ _ _ _ _ _ _ H Hs). split; [done|].
  apply confirm_effect in H as (a & k & dep & x & b & act & rf & Hx & Hp & au & ->); [|done].
  split; [unfold accounts_unique; simpl; by eapply PostEntry_unique|].
  destruct (posted_moves _ _ _ _ _ _ _ Hu Hp (transit_gl _ _ _ _ _ _ _ _ _ Hp eq_refl ltac:(done) ltac:(done))) as [Mp Mc].
  eapply (tied_moves s _ (ac_tenant a)); [|..|exact Mp|exact Mc].
  - intros t'. by rewrite Tauto.if_same, Z.add_0_r.
  - intros t'. unfold in_transit at 1. simpl. erewrite in_transit_update; [|done|apply confirmable_by_id|done]. f_equal.
    apply first_where_some in Hx as [_ [[Et _]%bd_by_id_true Ed]%andb_true_iff].
    unfold transit_of, posted_row, with_deposit. simpl. rewrite Et. unfold under_way. rewrite Ed. simpl.
    rewrite andb_true_r, andb_false_r.
    destruct (decide (t' = ac_tenant a)) as [->|Hne]; [rewrite !bool_decide_eq_true_2 by done|rewrite !bool_decide_eq_false_2 by done]; lia.
Qed.

(** ** Sequences of requests *)

Definition till_tables (s : Till) :=
  (tl_categories s, tl_expenses s, tl_floats s, tl_ptxns s, tl_precons s, tl_crecons s, tl_crlines s, tl_baccounts s,
   tl_deposits s, tl_dlines s, tl_imports s, tl_slines s, tl_tenders s).

(** The journal headers of the expenses. *)
Definition expense_header (e : JournalEntry) : bool := bool_decide (je_source_type e = "expense"%string).
Definition expense_headers (b : Books) : list JournalEntry := select expense_header (bk_entries b).

(** A request elsewhere in the system: it writes none of the treasury's tables, and
    the accounts keep their primary key.  It may post or reverse anything in the
    books, on the control accounts too: a manual journal entry, the reversal of one,
    a supplier payment drawn on petty cash. *)
Record elsewhere (s s' : Till) : Prop := {
  el_tables : till_tables s' = till_tables s;
  el_next : (fn_next (tl_fin s) <= fn_next (tl_fin s'))%N;
  el_unique : accounts_unique s -> accounts_unique s';
}.

(** What such a request moved on the account of a key. *)
Definition moved_elsewhere (s s' : Till) (t : uuid) (key : string) : Z :=
  gl (till_books s') t key - gl (till_books s) t key.

Lemma empty_wf s : till_tables s = ([], [], [], [], [], [], [], [], [], [], [], [], []) -> till_wf s.
Proof.
  intros E. unfold till_tables in E.
  injection E as E1 E2 E3 E4 E5 E6 E7 E8 E9 E10 E11 E12 E13.
  constructor; rewrite ?E1, ?E2, ?E3, ?E4, ?E5, ?E6, ?E8, ?E9, ?E10, ?E11, ?E12, ?E13; first [exact (table_nil _ _ _)|by apply NoDup_nil_2].
Qed.

Lemma elsewhere_wf s s' : elsewhere s s' -> till_wf s -> till_wf s'.
Proof.
  intros [E Hn _] []. unfold till_tables in E. injection E as E1 E2 E3 E4 E5 E6 E7 E8 E9 E10 E11 E12 E13.
  constructor; rewrite ?E1, ?E2, ?E3, ?E4, ?E5, ?E6, ?E8, ?E9, ?E10, ?E11, ?E12, ?E13; try done; by eapply table_mono.
Qed.
Lemma elsewhere_gap s s' t :
  elsewhere s s' -> gap s' t = ((gap s t).1 - moved_elsewhere s s' t "petty_cash", (gap s t).2 - moved_elsewhere s s' t "bank_clearing").
Proof.
  intros [E _ _]. unfold till_tables in E. injection E as _ _ E3 _ _ _ _ _ E9 _ _ _ _.
  unfold gap, float_total, in_transit, moved_elsewhere. rewrite E3, E9. simpl. f_equal; lia.
Qed.

(** Amounts of petty cash in cents, and no expense or spend on a control account. *)
Definition plain (pool : Till) (r : request) : Prop :=
  match r with
  | RqPetty _ _ _ (Ok q) => plain_petty q
  | RqCount _ _ _ (Ok (Some d, _)) => in_cents d
  | RqPostExpense _ (Ok k) => forall t e, GetExpense pool t k = Ok e -> plain_expense e
  | _ => True
  end.

Section Steps.
Context {L : Type} `{Loader L} (policy : L).

Inductive till_step (P : Till -> request -> Prop) (s s' : Till) : Prop :=
| step_serve pool r : P pool r -> serve policy pool r s = Ok (tt, s') -> till_step P s s'
| step_elsewhere : elsewhere s s' -> till_step P s s'.

Lemma serve_tied pool r : plain pool r -> obeys tied (serve policy pool r).
Proof.
  intros Hr. destruct r; cbn [serve plain] in *; (apply obeys_bind; [apply _| |intros; apply obeys_ret; apply _]).
  all: try solve [eauto using tied_fee, tied_submit_recon, tied_approve_recon, tied_prepare, tied_confirm, tied_tender].
  all: try solve [unfold handleCreateExpenseCategory, handleUpdateExpenseCategory, handleSetExpenseCategoryStatus,
    handleCreateExpense, handleSubmitExpense, handleApproveExpense, expenseTransition, handleCreatePettyCashFloat,
    handleCreateCashReconciliation, handleCreateBankAccount, handleCreateBankDeposit, handleImportBankStatement,
    handleMatchBankStatementLine, handleUnmatchBankStatementLine; tie_steps].
  - apply tied_post_expense. intros t k e ->. apply Hr.
  - apply tied_petty. by intros q ->.
  - apply tied_count. by intros d dt ->.
Qed.

Lemma reach_wf P s s' : rtc (till_step P) s s' -> till_wf s -> till_wf s'.
Proof.
  induction 1 as [|s s1 s2 [pool r _ H1|H1] _ IH]; [done| |]; intros Hs; apply IH; [|by eapply elsewhere_wf].
  by eapply serve_wf.
Qed.

(** A sequence of requests, with what those elsewhere moved on each account. *)
Inductive till_run (P : Till -> request -> Prop) : Till -> Till -> (uuid -> string -> Z) -> Prop :=
| run_done s : till_run P s s (fun _ _ => 0)
| run_serve s pool r s1 s2 moved :
    P pool r -> serve policy pool r s = Ok (tt, s1) -> till_run P s1 s2 moved -> till_run P s s2 moved
| run_elsewhere s s1 s2 moved :
    elsewhere s s1 -> till_run P s1 s2 moved ->
    till_run P s s2 (fun t key => moved_elsewhere s s1 t key + moved t key).

Lemma run_gap s s' moved :
  till_run plain s s' moved -> till_wf s -> accounts_unique s ->
  forall t, gap s' t = ((gap s t).1 - moved t "petty_cash", (gap s t).2 - moved t "bank_clearing").
Proof.
  induction 1 as [s|s pool r s1 s2 moved Hp H1 _ IH|s s1 s2 moved H1 _ IH]; intros Hs Hu t.
  - destruct (gap s t). simpl. f_equal; lia.
  - destruct (serve_tied pool r Hp _ _ _ H1 Hs Hu) as (Hs1 & Hu1 & Hg). by rewrite IH, Hg.
  - rewrite IH by eauto using elsewhere_wf, el_unique. rewrite (elsewhere_gap _ _ t H1). simpl. f_equal; lia.
Qed.

(** C27. From empty tables, after any sequence of committed requests (whatever their
    reads showed) and of requests elsewhere, the treasury's tables are well-formed:
    ids are unique, the unique indexes hold (category names, one reconciliation per
    day, one deposit line per reconciliation, one import per file, one tender per
    idempotency key), amounts are in range, and every document has exactly the
    columns its status calls for; an approved or posted expense and a posted
    reconciliation are countersigned by someone other than their author. *)
Theorem till_well_formed P s s' :
  till_tables s = ([], [], [], [], [], [], [], [], [], [], [], [], []) -> rtc (till_step P) s s' -> till_wf s'.
Proof. intros E Hr. eapply reach_wf; [exact Hr|by apply empty_wf]. Qed.

(** C20. Petty cash agrees with the general ledger.  Take well-formed tables on which
    a tenant's floats sum to the balance of its petty-cash account, and any sequence
    of committed requests: treasury requests with petty-cash amounts in cents, among
    them no expense that is charged to or paid from the petty-cash or the
    bank-clearing account and no petty-cash spend booked on one of the two, and
    requests elsewhere in the system, which write no treasury table but may post to
    or reverse on any account.  Then the petty-cash account holds the sum of the
    floats plus exactly the net amount the requests elsewhere moved on it; without
    such postings the two agree. *)
Theorem petty_cash_agrees s s' moved t :
  till_wf s -> accounts_unique s -> float_total s t = gl (till_books s) t "petty_cash" -> till_run plain s s' moved ->
  gl (till_books s') t "petty_cash" = float_total s' t + moved t "petty_cash"%string.
Proof.
  intros Hs Hu E Hr. pose proof (run_gap s s' moved Hr Hs Hu t) as Hg. unfold gap in Hg. simpl in Hg. injection Hg as H1 _. lia.
Qed.

(** C21. Deposits in transit agree with the general ledger.  Take well-formed tables
    on which the bank-clearing account of a tenant holds its deposits in transit, and
    any sequence of committed requests: treasury requests with petty-cash amounts in
    cents, among them no expense that is charged to or paid from the petty-cash or
    the bank-clearing account and no petty-cash spend booked on one of the two, and
    requests elsewhere in the system, which write no treasury table but may post to
    or reverse on any account.  Then the bank-clearing account holds the deposits
    that were prepared and are not yet confirmed, plus exactly the net amount the
    requests elsewhere moved on it. *)
Theorem clearing_agrees s s' moved t :
  till_wf s -> accounts_unique s -> in_transit s t = gl (till_books s) t "bank_clearing" -> till_run plain s s' moved ->
  gl (till_books s') t "bank_clearing" = in_transit s' t + moved t "bank_clearing"%string.
Proof.
  intros Hs Hu E Hr. pose proof (run_gap s s' moved Hr Hs Hu t) as Hg. unfold gap in Hg. simpl in Hg. injection Hg as _ H1. lia.
Qed.
End Steps.
