(* ===== verification/TreasuryDocs.v ===== *)
(** * What a document of the treasury leads to

    A posted expense has one journal entry and no other has any; an approved cash
    reconciliation posts the day's cash; a tender with an idempotency key is recorded
    once. *)

From stdpp Require Import base list strings relations.
From Stdlib Require Import ZArith Lia.
From S2P Require Import Prelude Frames Numeric Schema Ledger Float64 Accounting AccountingProps RosterProps KeyedLedger RevenueJournal Finance Payables Policy Operations Workforce WorkforceHandlers Readings FinanceHandlers SettleProps Treasury Expenses Banking ExpenseHandlers BankHandlers TreasuryProps TreasuryRuns.

Local Open Scope Z_scope.
Local Open Scope tx_scope.

(** ** The entry of an expense *)

Definition header_for (t k : uuid) (j : JournalEntry) : bool := bool_decide (je_tenant j = t /\ je_source j = Some k).
Definition expense_entries (b : Books) (t k : uuid) : list JournalEntry := select (header_for t k) (expense_headers b).

Definition entry_ok (b : Books) (e : Expense) : Prop :=
  (ex_status e = ExPosted -> exists j, expense_entries b (ex_tenant e) (ex_id e) = [j] /\ ex_entry e = Some (je_id j))
  /\ (ex_status e <> ExPosted -> expense_entries b (ex_tenant e) (ex_id e) = []).

Record once_inv (s : Till) : Prop := {
  on_rows : forall e, In e (tl_expenses s) -> entry_ok (till_books s) e;
  on_sources : forall j, In j (expense_headers (till_books s)) -> exists k, je_source j = Some k /\ (k < fn_next (tl_fin s))%N;
}.

Definition once (s s' : Till) : Prop := till_wf s -> once_inv s -> once_inv s'.

(** Statements that touch neither the expenses nor the books; the tenders only
    grow. *)
Definition apart (s s' : Till) : Prop :=
  tl_expenses s' = tl_expenses s /\ expense_headers (till_books s') = expense_headers (till_books s)
  /\ (fn_next (tl_fin s) <= fn_next (tl_fin s'))%N /\ tl_tenders s `prefix_of` tl_tenders s'.
#[export] Instance apart_pre : PreOrder apart.
Proof.
  split; [by intros s|]. intros s s1 s2 (E1 & E2 & E3 & E4) (F1 & F2 & F3 & F4). split_and!; [congruence..|lia|by etrans].
Qed.
Lemma apart_once s s' : apart s s' -> once s s'.
Proof.
  intros (E1 & E2 & Hn & _) _ [Hr Hso]. constructor.
  - intros e He. rewrite E1 in He. unfold entry_ok, expense_entries. rewrite E2. by apply Hr.
  - intros j Hj. rewrite E2 in Hj. destruct (Hso j Hj) as (k & ? & ?). exists k. split; [done|lia].
Qed.

Ltac apart_done := split_and!; [done|done|simpl; lia|simpl; first [done|by eexists]].
Ltac apart_run H := till_run H; apart_done.

Lemma apart_fin s f : fn_books f = fn_books (tl_fin s) -> (fn_next (tl_fin s) <= fn_next f)%N -> apart s (put_fin f s).
Proof. intros E Hn. split_and!; [done|unfold till_books; simpl; by rewrite E|done..]. Qed.
Lemma apart_audit {E} a x e : obeys apart (@till_audit E a x e).
Proof. intros s v s' ->%till_audit_ok. by apply apart_fin. Qed.
Lemma apart_txAudit {A} a x (en : A -> uuid) c : obeys apart c -> obeys apart (txAudit a x en c).
Proof.
  intros Hc. apply obeys_bind; [apply _|done|intros y]. apply obeys_bind; [apply _|apply apart_audit|intros ?].
  apply obeys_ret, _.
Qed.
(** A posting of another kind of document. *)
Lemma headers_other t i b v b' :
  PostEntry t i b = Ok (v, b') -> pi_source_type i <> "expense"%string -> expense_headers b' = expense_headers b.
Proof.
  intros (_ & _ & E & _ & Es & _)%PostEntry_tables Hne. unfold expense_headers. rewrite E, select_app, select_cons.
  unfold expense_header. rewrite Es, bool_decide_eq_false_2 by done. apply app_nil_r.
Qed.
Lemma apart_post t i : pi_source_type i <> "expense"%string -> obeys apart (post_journal t i).
Proof.
  intros Hne s v s' (b & Hp & ->)%post_journal_ok. split_and!; [done|by apply headers_other in Hp|done..].
Qed.

Lemma apart_threshold d : obeys apart (threshold_col d).
Proof. by intros s x s' [-> _]%threshold_col_ok. Qed.
Lemma apart_CreateCategory t i : obeys apart (CreateCategory t i).
Proof. apply obeys_bind; [apply _|apply apart_threshold|]. intros z s x s' H. apart_run H. Qed.
Lemma apart_UpdateCategory t id i : obeys apart (UpdateCategory t id i).
Proof.
  intros s x s' H. unfold UpdateCategory in H. tx_steps H. apply threshold_col_ok in E0 as [-> _]. apart_run H.
Qed.
Lemma apart_SetCategoryStatus t id a : obeys apart (SetCategoryStatus t id a).
Proof. intros s x s' H. unfold SetCategoryStatus in H. apart_run H. Qed.
Lemma apart_CreateFloat t st n u : obeys apart (CreateFloat t st n u).
Proof. intros s x s' H. unfold CreateFloat in H. apart_run H. Qed.
Lemma apart_RecordTransaction t fl ty a d k o u : obeys apart (RecordTransaction t fl ty a d k o u).
Proof. intros s x s' H. unfold RecordTransaction in H. apart_run H. Qed.
Lemma apart_SetTransactionJournalEntry t id e : obeys apart (SetTransactionJournalEntry t id e).
Proof. by intros s x s' [= _ <-]. Qed.
Lemma apart_ReconcileFloat t fl c u : obeys apart (ReconcileFloat t fl c u).
Proof. intros s x s' H. unfold ReconcileFloat in H. apart_run H. Qed.
Lemma apart_SetReconciliationJournalEntry t id e : obeys apart (SetReconciliationJournalEntry t id e).
Proof. by intros s x s' [= _ <-]. Qed.
Lemma apart_seed_lines t r l : obeys apart (seed_lines t r l).
Proof.
  induction l as [|h l IH]; [apply obeys_ret; apply _|]. intros s x s' H. cbn [seed_lines] in H. till_run H.
  etrans; [|eapply IH; eassumption]. apart_done.
Qed.
Lemma apart_CreateCashReconciliation t st d u : obeys apart (CreateCashReconciliation t st d u).
Proof.
  intros s x s' H. unfold CreateCashReconciliation in H. till_run H. etrans; [|eapply apart_seed_lines; eassumption].
  apart_done.
Qed.
Lemma apart_SubmitCashReconciliation t id c n : obeys apart (SubmitCashReconciliation t id c n).
Proof. intros s x s' H. unfold SubmitCashReconciliation in H. apart_run H. Qed.
Lemma apart_MarkCashReconciliationPosted t id u e : obeys apart (MarkCashReconciliationPosted t id u e).
Proof. intros s x s' H. unfold MarkCashReconciliationPosted in H. apart_run H. Qed.
Lemma apart_CreateBankAccount t n m c : obeys apart (CreateBankAccount t n m c).
Proof. intros s x s' H. unfold CreateBankAccount in H. apart_run H. Qed.
Lemma apart_CreateDeposit t i : obeys apart (CreateDeposit t i).
Proof. intros s x s' H. unfold CreateDeposit in H. apart_run H. Qed.
Lemma apart_AddDepositLine t d r a : obeys apart (AddDepositLine t d r a).
Proof. intros s x s' H. unfold AddDepositLine in H. apart_run H. Qed.
Lemma apart_PrepareDeposit t id : obeys apart (PrepareDeposit t id).
Proof. intros s x s' H. unfold PrepareDeposit in H. apart_run H. Qed.
Lemma apart_set_deposit t id g : obeys apart (set_deposit t id g).
Proof. by intros s x s' [= _ <-]. Qed.
Lemma apart_ConfirmDeposit t id a r : obeys apart (ConfirmDeposit t id a r).
Proof. intros s x s' H. unfold ConfirmDeposit in H. apart_run H. Qed.
Lemma apart_import_lines t im acc l : obeys apart (import_lines t im acc l).
Proof.
  induction l as [|i l IH]; [apply obeys_ret; apply _|]. intros s x s' H. cbn [import_lines] in H. till_run H.
  etrans; [|eapply IH; eassumption]. apart_done.
Qed.
Lemma apart_ImportStatement t acc st en h u l : obeys apart (ImportStatement t acc st en h u l).
Proof.
  intros s x s' H. unfold ImportStatement in H. till_run H. etrans; [|eapply apart_import_lines; eassumption].
  apart_done.
Qed.
Lemma apart_MatchLine t id ty d : obeys apart (MatchLine t id ty d).
Proof. intros s x s' H. unfold MatchLine in H. apart_run H. Qed.
Lemma apart_UnmatchLine t id : obeys apart (UnmatchLine t id).
Proof. intros s x s' H. unfold UnmatchLine in H. apart_run H. Qed.
Lemma apart_MarkLine t id st e : obeys apart (MarkLine t id st e).
Proof. intros s x s' H. unfold MarkLine in H. apart_run H. Qed.
Lemma apart_Record t i : obeys apart (Record_ t i).
Proof.
  intros s r s' H. unfold Record_ in H. tx_steps H; apply till_cents_ok in E as [-> ->]; injection E2 as <- <-; simplify_eq.
  - by apply apart_fin; [|simpl; lia].
  - apply insert_row_ok in E5 as [_ ->]. apart_done.
Qed.

Create HintDb apart.
#[export] Hint Resolve apart_CreateCategory apart_UpdateCategory apart_SetCategoryStatus apart_CreateFloat
  apart_RecordTransaction apart_SetTransactionJournalEntry apart_ReconcileFloat apart_SetReconciliationJournalEntry
  apart_CreateCashReconciliation apart_SubmitCashReconciliation apart_MarkCashReconciliationPosted apart_CreateBankAccount
  apart_CreateDeposit apart_AddDepositLine apart_PrepareDeposit apart_set_deposit apart_ConfirmDeposit
  apart_ImportStatement apart_MatchLine apart_UnmatchLine apart_MarkLine apart_Record : apart.
#[export] Hint Extern 1 (obeys apart (post_journal _ _)) => (apply apart_post; cbn [pi_source_type]; discriminate) : apart.

Ltac apart_steps :=
  repeat first
    [ apply apart_txAudit | apply apart_audit | (unfold till_internal; apply obeys_conv) | apply obeys_conv
    | apply obeys_ret; apply _ | apply obeys_lift; apply _ | apply obeys_guard; apply _ | apply obeys_fail
    | solve [eauto with apart]
    | lazymatch goal with |- obeys _ (tbind tget _) => fail | _ => apply obeys_bind; [apply _| |intros ?]; cbn beta iota zeta end
    | lazymatch goal with
      | |- obeys _ (match ?x with _ => _ end) => destruct x
      | |- obeys _ ((fun _ => _) _) => cbn beta
      end ].

Lemma apart_add_deposit_lines t d l : obeys apart (add_deposit_lines t d l).
Proof. induction l as [|[r a] l IH]; cbn [add_deposit_lines]; apart_steps. Qed.
#[export] Hint Resolve apart_add_deposit_lines : apart.

Lemma apart_get {E A} (k : Till -> Tx Till E A) : (forall s, obeys apart (k s)) -> obeys apart (tbind tget k).
Proof. intros Hk s x s' H. by apply (Hk s s x s'). Qed.

(** A credit tender's entry, whole or cut short, is not an expense's. *)
Lemma lines_written_entries t entry lns : forall b, bk_entries (lines_written t entry lns b) = bk_entries b.
Proof.
  induction lns as [|ln lns IH]; intros b; [done|]. simpl. destruct (post_line t entry ln b) as [[l b']|] eqn:E; [|done].
  apply post_line_inv in E as (_ & _ & _ & _ & -> & _). by rewrite IH.
Qed.
Lemma headers_written t i b :
  pi_source_type i <> "expense"%string -> expense_headers (entry_written t i b) = expense_headers b.
Proof.
  intros Hne. unfold entry_written. destruct (resolvePostingPeriod _ _ _ _); [|done].
  destruct (insert_entry _ b) as [[e b']|] eqn:E; [|done]. apply insert_entry_inv in E as (-> & _ & ->).
  unfold expense_headers. rewrite lines_written_entries. simpl. rewrite select_app, select_cons. unfold expense_header. simpl.
  rewrite bool_decide_eq_false_2 by done. apply app_nil_r.
Qed.
Lemma apart_charge_journal d a p : obeys apart (postCreditChargeJournal d a p).
Proof.
  intros s x s' H. unfold postCreditChargeJournal in H. tx_step H.
  destruct (EntryExistsForSource _ _ _ _); [injection H as <- <-; reflexivity|].
  destruct (PostEntry _ _ _) as [[v b]|e] eqn:Ep.
  - injection H as <- <-. split_and!; [done|by apply headers_other in Ep|done..].
  - destruct e; try discriminate H; injection H as <- <-; [|reflexivity]. split_and!; [done|by apply headers_written|done..].
Qed.
#[export] Hint Resolve apart_charge_journal : apart.

Section Once.
Context {L : Type} `{Loader L} (policy : L).

(** A tender that is no replay is among the tenders of the committed state, and
    what follows its insert leaves the expenses alone. *)
Lemma tender_recorded pool d c i h b s p s' :
  handleRecordPayment policy pool d c i h b s = Ok ((p, false), s') ->
  exists t r f, Record_ t r s = Ok (mkRecordResult p false, f) /\ apart f s'.
Proof.
  intros H0. unfold handleRecordPayment in H0. tx_steps H0; simplify_eq.
  destruct x7 as [p r]. simpl in E9. subst r. eexists _, _, _. split; [exact E8|].
  apply commit_balanced_ok in E12 as ->. etrans; [|eapply apart_audit, E11].
  simpl in E10. revert E10. clear. generalize x8, x9, x10.
  match goal with |- forall s x s', ?k s = _ -> _ => change (obeys apart k) end. apart_steps.
  intros s y s' (f & Hf & ->)%on_fin_ok. apply apart_fin; [by apply keeps_charge_books in Hf|by apply quiet_PostCharge in Hf as [_ ?]].
Qed.

Lemma apart_tender pool d c i h b : obeys apart (handleRecordPayment policy pool d c i h b).
Proof.
  intros s [p r] s' H0. destruct r.
  - unfold handleRecordPayment in H0. tx_steps H0; simplify_eq; reflexivity.
  - apply tender_recorded in H0 as (t & i' & f & Hr & Ha). etrans; [by eapply apart_Record|exact Ha].
Qed.

End Once.

(** ** Requests on expenses *)

(** A row that changes, its entries apart. *)
Lemma once_update s s' t k from g x :
  till_wf s -> tl_expenses s' = update_where (ex_at t k from) g (tl_expenses s) ->
  first_where (ex_at t k from) (tl_expenses s) = Some x ->
  (forall e, ex_tenant (g e) = ex_tenant e /\ ex_id (g e) = ex_id e) ->
  once_inv s -> (forall j, In j (expense_headers (till_books s')) -> exists k, je_source j = Some k /\ (k < fn_next (tl_fin s'))%N) ->
  (forall t' k', (t', k') <> (t, k) -> expense_entries (till_books s') t' k' = expense_entries (till_books s) t' k') ->
  entry_ok (till_books s') (g x) -> once_inv s'.
Proof.
  intros Hs E Hx Hg [Hr _] Hso He Hok. constructor; [|done]. intros e Hin. rewrite E in Hin.
  apply in_update_where in Hin as (y & Hy & ->). apply first_where_some in Hx as [Hx Hxk].
  pose proof Hxk as [[Ext Exk]%ex_by_id_true _]%andb_true_iff.
  assert (Hu : forall z, In z (tl_expenses s) -> ex_id z = k -> z = x).
  { intros z Hz Ez. apply (NoDup_unique ex_id _ (proj1 (wf_expenses s Hs))); [done..|congruence]. }
  destruct (ex_at t k from y) eqn:Ey.
  - apply andb_true_iff in Ey as [[_ Eyk]%ex_by_id_true _]. by rewrite (Hu y Hy Eyk).
  - assert (ex_id y <> k) by (intros Eyk; rewrite (Hu y Hy Eyk) in Ey; congruence).
    unfold entry_ok. rewrite He by congruence. by apply Hr.
Qed.

(** A transition short of posting. *)
Lemma once_step t k from g s x s' :
  till_wf s -> once_inv s -> expense_step t k from g s = Ok (x, s') -> from <> ExPosted ->
  (forall e, ex_tenant (g e) = ex_tenant e /\ ex_id (g e) = ex_id e /\ ex_status (g e) <> ExPosted) -> once_inv s'.
Proof.
  intros Hs Hi H Hf Hg. unfold expense_step in H. till_run H.
  match goal with E : first_where _ _ = Some ?y |- _ => rename y into e; rename E into He end.
  eapply (once_update s _ t k from g e); try done; [intros; by destruct (Hg e0) as (? & ? & _)|apply Hi|].
  apply first_where_some in He as [Hin [_ Est%bool_decide_eq_true]%andb_true_iff]. destruct (Hg e) as (E1 & E2 & E3).
  split; [done|]. intros _. rewrite E1, E2. apply (on_rows s Hi e Hin). congruence.
Qed.

Lemma once_create t i s x s' : till_wf s -> once_inv s -> CreateExpense t i s = Ok (x, s') -> once_inv s'.
Proof.
  intros Hs [Hr Hso] H. unfold CreateExpense in H. till_run H. constructor; simpl.
  - intros e [He|[<-|[]]]%in_app_or; [by apply Hr|]. split; [done|]. intros _. simpl. unfold expense_entries.
    apply select_none. intros j Hj. destruct (Hso j Hj) as (k & Ek & Hk). apply bool_decide_eq_false. rewrite Ek. intros [_ [= ->]]. lia.
  - intros j Hj. destruct (Hso j Hj) as (k & ? & ?). exists k. split; [done|lia].
Qed.

Lemma once_post_expense pool c i s v s' :
  till_wf s -> once_inv s -> handlePostExpense pool c i s = Ok (v, s') -> once_inv s'.
Proof.
  intros Hs Hi H. unfold handlePostExpense in H. till_serve H. unfold MarkExpensePosted, expense_step in *.
  match goal with E : update_row _ _ _ _ _ _ = Ok _ |- _ => till_run E end.
  match goal with E : first_where _ _ = Some ?y |- _ => rename y into e; rename E into He end.
  match type of Hpost with _ = Ok (?w, _) => rename w into v end.
  apply PostEntry_tables in Hpost as (_ & _ & Ee & Et & Es & Ek & _). cbn [pi_source_type pi_source] in Es, Ek.
  assert (Eh : expense_headers b = expense_headers (till_books s) ++ [ev_entry v]).
  { unfold expense_headers. rewrite Ee, select_app, select_cons. unfold expense_header at 2.
    by rewrite Es, bool_decide_eq_true_2. }
  apply first_where_some in He as Hin. destruct Hin as [Hin [[Ext Exk]%ex_by_id_true Est%bool_decide_eq_true]%andb_true_iff].
  eapply (once_update s _ _ _ ExApproved _ e); [done|reflexivity|done|done|done| | |].
  - intros j Hj. change (In j (expense_headers b)) in Hj. rewrite Eh in Hj. apply in_app_or in Hj as [Hj|[<-|[]]].
    + by apply (on_sources s Hi).
    + rewrite Ek. eexists. split; [done|]. simpl. rewrite <- Exk. by apply (wf_expenses s Hs).
  - intros t' k' Hne. change (expense_entries b t' k' = expense_entries (till_books s) t' k'). unfold expense_entries.
    rewrite Eh, select_app, select_cons. unfold header_for at 2. rewrite Et, Ek, bool_decide_eq_false_2; [apply app_nil_r|].
    intros [F1 F2]. apply Hne. congruence.
  - split; [|done]. intros _. exists (ev_entry v). split; [|done].
    change (expense_entries b (ex_tenant e) (ex_id e) = [ev_entry v]). unfold expense_entries.
    rewrite Eh, select_app, select_cons. destruct (on_rows s Hi e Hin) as [_ Hno].
    unfold expense_entries in Hno. rewrite Hno by congruence. unfold header_for. by rewrite Et, Ek, Ext, Exk, bool_decide_eq_true_2.
Qed.

Section OnceClaims.
Context {L : Type} `{Loader L} (policy : L).

(** The requests that move an expense or its entry. *)
Definition on_expense (r : request) : bool :=
  match r with RqCreateExpense _ _ _ | RqSubmitExpense _ _ | RqApproveExpense _ _ | RqPostExpense _ _ => true | _ => false end.

Lemma serve_apart pool r : on_expense r = false -> obeys apart (serve policy pool r).
Proof.
  intros Hr. destruct r; try discriminate Hr; cbn [serve]; (apply obeys_bind; [apply _| |intros; apply obeys_ret; apply _]);
    try apply apart_tender;
    unfold handleCreateExpenseCategory, handleUpdateExpenseCategory, handleSetExpenseCategoryStatus,
      handleCreatePettyCashFloat, handlePettyCashTransaction, handleReconcilePettyCash, handleCreateCashReconciliation,
      handleSubmitCashReconciliation, handleApproveCashReconciliation, handleCreateBankAccount, handleCreateBankDeposit,
      handlePrepareBankDeposit, handleConfirmBankDeposit, SetDepositPreparedEntry, SetDepositConfirmedEntry,
      handleImportBankStatement, handleMatchBankStatementLine, handleUnmatchBankStatementLine, handleBankFeeStatementLine;
    apart_steps; apply apart_get; intros ?; apart_steps.
Qed.

Lemma once_audited s au : once_inv s -> once_inv (put_fin (set_audit au (tl_fin s)) s).
Proof. by intros []. Qed.

Lemma serve_once pool r : obeys once (serve policy pool r).
Proof.
  intros s x s' H0. destruct (on_expense r) eqn:Er; [|by eapply apart_once, serve_apart].
  intros Hs Hi. destruct r; try discriminate Er; cbn [serve] in H0; unfold ignore in H0; apply tbind_ok in H0 as (y & s1 & H1 & [= _ <-]).
  - unfold handleCreateExpense, txAudit in H1. till_serve H1. apply once_audited. by eapply once_create.
  - unfold handleSubmitExpense, expenseTransition, txAudit in H1. till_serve H1. apply once_audited. by eapply once_step.
  - unfold handleApproveExpense, expenseTransition, txAudit, ApproveExpense in H1. till_serve H1. apply once_audited.
    match goal with E : tbind _ _ _ = _ |- _ => tx_steps E; by eapply once_step end.
  - by eapply once_post_expense.
Qed.

Lemma elsewhere_once s s' :
  elsewhere s s' -> expense_headers (till_books s') = expense_headers (till_books s) -> once s s'.
Proof.
  intros [E Hn _] Hh. apply apart_once. unfold till_tables in E. injection E as _ E2 _ _ _ _ _ _ _ _ _ _ E13. split_and!; [done..|by rewrite E13].
Qed.

(** Requests of the treasury, and requests elsewhere that neither post nor reverse
    an entry of an expense. *)
Inductive booking_step (P : Till -> request -> Prop) (s s' : Till) : Prop :=
| booking_serve pool r : P pool r -> serve policy pool r s = Ok (tt, s') -> booking_step P s s'
| booking_elsewhere : elsewhere s s' -> expense_headers (till_books s') = expense_headers (till_books s) -> booking_step P s s'.

(** An expense reaches the journal once: from tables without expenses and a
    journal without entries for any, after any sequence of committed requests
    (posting reads the expense before its transaction, so two posts may both have
    seen it approved) and of requests elsewhere that leave the entries of expenses
    alone, a posted expense has exactly one entry, the one it is linked to, and an
    expense in any other status has none. *)
Theorem expense_posted_once P s s' :
  till_wf s -> tl_expenses s = [] -> expense_headers (till_books s) = [] -> rtc (booking_step P) s s' ->
  forall e, In e (tl_expenses s') ->
    (ex_status e = ExPosted ->
       exists j, expense_entries (till_books s') (ex_tenant e) (ex_id e) = [j] /\ ex_entry e = Some (je_id j))
    /\ (ex_status e <> ExPosted -> expense_entries (till_books s') (ex_tenant e) (ex_id e) = []).
Proof.
  intros Hs E1 E2 Hr. enough (once_inv s') as Hi by apply Hi.
  assert (Hi : once_inv s) by (constructor; rewrite ?E1, ?E2; done). clear E1 E2. revert Hs Hi.
  induction Hr as [|s s1 s2 [pool r _ H1|H1 Hh] _ IH]; [done| |]; intros Hs Hi; apply IH.
  - by eapply serve_wf.
  - by eapply serve_once.
  - by eapply elsewhere_wf.
  - by eapply elsewhere_once.
Qed.
End OnceClaims.

(** ** The entry of a day's cash *)

(** The columns of a posting. *)
Record posting_ok (p : CashPosting) : Prop := {
  po_counted : 0 <= cp_counted p < 10 ^ 14;
  po_expected : 0 <= cp_expected p < 10 ^ 14;
  po_short : cp_short p = Z.max (cp_expected p - cp_counted p) 0;
  po_over : cp_over p = Z.max (cp_counted p - cp_expected p) 0;
}.

Lemma cash_line_nonzero st key debit z : 0 <= z < 10 ^ 14 ->
  cash_line st key debit z
  = if z =? 0 then []
    else [if debit then mkPostLine uuid_nil key (numeric_text 2 z) "0" (Some st) None
          else mkPostLine uuid_nil key "0" (numeric_text 2 z) (Some st) None].
Proof. intros Hz. unfold cash_line, dec_of. by rewrite zero_money_iff. Qed.

(** One line's share of the debits, the credits and a key's balance. *)
Lemma cash_line_posts b t entry st key debit z ls :
  0 <= z < 10 ^ 14 -> Forall2 (posts_as b t entry) (cash_line st key debit z) ls ->
  sum_by jl_debit ls = (if debit then z else 0) /\ sum_by jl_credit ls = (if debit then 0 else z)
  /\ forall k, sum_by (line_gl k) (cash_line st key debit z)
               = (if bool_decide (key = k) then (if debit then z else - z) else 0).
Proof.
  intros Hz Hf. rewrite cash_line_nonzero in * by done. destruct (Z.eqb_spec z 0) as [->|Hn].
  - apply Forall2_nil_inv_l in Hf as ->. split_and!; [by destruct debit..|]. intros k. rewrite sum_by_nil. by destruct (bool_decide _), debit.
  - apply Forall2_cons_inv_l in Hf as (l & ls' & (_ & _ & _ & Hd & Hc) & ->%Forall2_nil_inv_l & ->).
    assert (Ht : forall y, money_in (money0 (numeric_text 2 z)) = Ok y -> y = z /\ text_cents (numeric_text 2 z) = z).
    { intros y Hy. assert (E : text_cents (numeric_text 2 z) = z).
      { rewrite text_cents_text; [apply round_to_same|]. unfold text_cents. by rewrite Hy. }
      split; [|done]. rewrite <- E. unfold text_cents. by rewrite Hy. }
    destruct debit; simpl in Hd, Hc; rewrite !sum_by_cons, !sum_by_nil.
    + destruct (Ht _ Hd) as [-> E]. rewrite (zero_in _ Hc). split_and!; [lia..|]. intros k. rewrite sum_by_cons, sum_by_nil.
      unfold line_gl. simpl. rewrite E, text_cents_zero. case_bool_decide; lia.
    + destruct (Ht _ Hc) as [-> E]. rewrite (zero_in _ Hd). split_and!; [lia..|]. intros k. rewrite sum_by_cons, sum_by_nil.
      unfold line_gl. simpl. rewrite E, text_cents_zero. case_bool_decide; lia.
Qed.

(** The four lines together: they balance, and their shares by key. *)
Lemma cash_lines_posts b t entry p ls :
  posting_ok p -> Forall2 (posts_as b t entry) (cash_lines p) ls ->
  sum_by jl_debit ls = cp_counted p + cp_short p /\ sum_by jl_credit ls = cp_expected p + cp_over p
  /\ sum_by (line_gl "cash_on_hand") (cash_lines p) = cp_counted p
  /\ sum_by (line_gl "sales_clearing") (cash_lines p) = - cp_expected p
  /\ sum_by (line_gl "cash_over_short") (cash_lines p) = cp_short p - cp_over p.
Proof.
  intros [Hc He Hs Ho] Hf. unfold cash_lines in *.
  apply Forall2_app_inv_l in Hf as (l1 & k1 & H1 & Hf & ->). apply Forall2_app_inv_l in Hf as (l2 & k2 & H2 & Hf & ->).
  apply Forall2_app_inv_l in Hf as (l3 & l4 & H3 & H4 & ->).
  apply cash_line_posts in H1 as (D1 & C1 & G1); [|lia]. apply cash_line_posts in H2 as (D2 & C2 & G2); [|lia].
  apply cash_line_posts in H3 as (D3 & C3 & G3); [|lia]. apply cash_line_posts in H4 as (D4 & C4 & G4); [|lia].
  rewrite !sum_by_app, !G1, !G2, !G3, !G4. simpl. lia.
Qed.

Lemma PostingFor_ok s t id p : till_wf s -> PostingFor s t id = Ok p ->
  exists c, first_where (cr_by_id t id) (tl_crecons s) = Some c /\ posting_ok p
    /\ cp_counted p = cr_counted c /\ cp_expected p = cr_expected c /\ cp_status p = cr_status c.
Proof.
  intros Hs H. unfold PostingFor in H. destruct (first_where _ _) as [c|] eqn:E; [|done]. case_match; [|done].
  injection H as <-. exists c. apply (table_row _ _ _ _ _ _ (wf_crecons s Hs)) in E as (? & ? & _).
  split; [done|]. split; [by constructor|]. by split_and!.
Qed.

Lemma post_journal_err t i s e : post_journal t i s = Err e ->
  exists x, PostEntry t i (till_books s) = Err x /\ e = journalErrorResponse x.
Proof.
  unfold post_journal, on_fin, on_books_tx, tconv, till_books. destruct (PostEntry t i _) as [[]|x]; [done|]. intros [= <-]. eauto.
Qed.
Lemma unbalanced_response x : journalErrorResponse x = HttpError 422 "entry debits do not equal credits" -> x = ErrUnbalanced.
Proof. by destruct x. Qed.

(** The lines of a posting that has any balance. *)
Lemma cash_never_unbalanced s t i p :
  Books_inv (till_books s) -> posting_ok p -> pi_lines i = cash_lines p -> cash_lines p <> [] ->
  PostEntry t i (till_books s) <> Err ErrUnbalanced.
Proof.
  intros Hb Hp El Hne. apply PostEntry_never_unbalanced; [done|]. rewrite El. intros b1 entry ls Hf _.
  destruct (cash_lines_posts b1 t entry p ls Hp Hf) as (-> & -> & _). destruct Hp as [Hc He Hs Ho]. split; [lia|].
  destruct (decide (cp_counted p + cp_short p = 0)) as [E|E]; [|lia]. destruct Hne. unfold cash_lines.
  rewrite !cash_line_nonzero by lia. assert (cp_counted p = 0 /\ cp_expected p = 0 /\ cp_short p = 0 /\ cp_over p = 0) as (-> & -> & -> & ->) by lia.
  done.
Qed.

Lemma approve_error ctx id s :
  till_wf s -> Books_inv (till_books s) ->
  handleApproveCashReconciliation ctx id s <> Err (HttpError 422 "entry debits do not equal credits").
Proof.
  intros Hs Hb Hrun. unfold handleApproveCashReconciliation, tbind, tlift, tguard, tget in Hrun.
  destruct (ops_actor ctx) as [a|e] eqn:Ea; [|unfold ops_actor in Ea; case_match; by simplify_eq].
  destruct (url_id "invalid id" id) as [k|e] eqn:Ek; [|unfold url_id in Ek; case_match; by simplify_eq].
  destruct (get_or_404 _ _) as [p|e] eqn:Ep; [|unfold get_or_404 in Ep; repeat case_match; by simplify_eq].
  destruct (bool_decide _); [|done]. destruct (of_option _ _) as [c|e] eqn:Ec; [|unfold of_option in Ec; case_match; by simplify_eq].
  destruct (negb _); [|done]. destruct (negb _) eqn:El; [|done].
  destruct (post_journal _ _ s) as [[v s2]|e] eqn:Ej.
  - unfold till_internal, tconv in Hrun. destruct (MarkCashReconciliationPosted _ _ _ _ _) as [[]|]; [|done]. done.
  - injection Hrun as ->. apply post_journal_err in Ej as (x & Hx & ->%eq_sym%unbalanced_response). revert Hx.
    unfold get_or_404 in Ep. destruct (PostingFor s (ac_tenant a) k) as [p'|] eqn:Epf; [|done]. injection Ep as ->.
    apply PostingFor_ok in Epf as (_ & _ & Hp & _); [|done]. eapply cash_never_unbalanced; [done|done|done|].
    intros E. by rewrite E in El.
Qed.

(** Approving a cash reconciliation never fails because its entry does not
    balance, and when it commits, the approver is not the author, cash on hand grew
    by the cash counted, sales clearing fell by the cash expected, and cash
    over/short took exactly the difference. *)
Theorem approve_cash_posts ctx id s :
  till_wf s -> Books_inv (till_books s) ->
  handleApproveCashReconciliation ctx id s <> Err (HttpError 422 "entry debits do not equal credits")
  /\ (forall v s', handleApproveCashReconciliation ctx id s = Ok (v, s') ->
      exists a k c, ops_actor ctx = Ok a /\ id = Ok k /\ first_where (cr_by_id (ac_tenant a) k) (tl_crecons s) = Some c
        /\ cr_status c = CrSubmitted /\ cr_by c <> ac_user a
        /\ gl (till_books s') (ac_tenant a) "cash_on_hand" = gl (till_books s) (ac_tenant a) "cash_on_hand" + cr_counted c
        /\ gl (till_books s') (ac_tenant a) "sales_clearing" = gl (till_books s) (ac_tenant a) "sales_clearing" - cr_expected c
        /\ gl (till_books s') (ac_tenant a) "cash_over_short"
           = gl (till_books s) (ac_tenant a) "cash_over_short" + (cr_expected c - cr_counted c)).
Proof.
  intros Hs Hb. split; [by apply approve_error|]. intros v s' H. unfold handleApproveCashReconciliation in H. till_serve H.
  unfold get_or_404 in *. destruct (PostingFor s _ _) as [p'|] eqn:Ep; [|done]. simplify_eq.
  apply PostingFor_ok in Ep as (c & Hc & Hp & Ec & Ex & Est); [|done]. simplify_eq.
  assert (Hk : forall key, gl b (ac_tenant x) key = gl (till_books s) (ac_tenant x) key + sum_by (line_gl key) (cash_lines x1)).
  { intros key. erewrite PostEntry_gl; [|exact (bi_account_ids _ Hb)| |exact Hpost]; [by rewrite bool_decide_eq_true_2|].
    apply off_control_keyed, off_cash_lines. }
  apply PostEntry_tables in Hpost as (_ & _ & _ & _ & _ & _ & _ & _ & Hf).
  apply cash_lines_posts in Hf as (_ & _ & G1 & G2 & G3); [|done].
  unfold MarkCashReconciliationPosted in *. match goal with E : tbind _ _ _ = _ |- _ => till_run E end. bool_solve.
  exists x, x0, c. unfold url_id in *. destruct id; [|done]. simplify_eq.
  split_and!; try done; [congruence|..]; unfold till_books at 1; simpl; rewrite Hk; [rewrite G1|rewrite G2|rewrite G3]; [lia..|].
  rewrite (po_short _ Hp), (po_over _ Hp). lia.
Qed.

(** ** Tenders *)

Lemma grows_expense_step t k from g : keeps tl_tenders (expense_step t k from g).
Proof. intros s x s' H. unfold expense_step in H. by till_run H. Qed.

Section Tenders.
Context {L : Type} `{Loader L} (policy : L).

(** No statement removes or changes a tender. *)
Lemma serve_grows pool r s x s' : serve policy pool r s = Ok (x, s') -> tl_tenders s `prefix_of` tl_tenders s'.
Proof.
  intros H0. destruct (on_expense r) eqn:Er; [|by eapply serve_apart].
  enough (tl_tenders s' = tl_tenders s) as -> by done.
  destruct r; try discriminate Er; cbn [serve] in H0; unfold ignore in H0; apply tbind_ok in H0 as (y & s1 & H1 & [= _ <-]).
  - unfold handleCreateExpense, txAudit, CreateExpense in H1. till_serve H1.
    by match goal with E : tbind _ _ _ = _ |- _ => till_run E end.
  - unfold handleSubmitExpense, expenseTransition, txAudit in H1. till_serve H1.
    match goal with E : SubmitExpense _ _ _ = _ |- _ => exact (grows_expense_step _ _ _ _ _ _ _ E) end.
  - unfold handleApproveExpense, expenseTransition, txAudit, ApproveExpense in H1. till_serve H1.
    match goal with E : tbind _ _ _ = _ |- _ => tx_steps E; exact (grows_expense_step _ _ _ _ _ _ _ E) end.
  - unfold handlePostExpense in H1. till_serve H1.
    match goal with E : MarkExpensePosted _ _ _ _ = _ |- _ => exact (grows_expense_step _ _ _ _ _ _ _ E) end.
Qed.

Lemma reach_grows P s s' : rtc (till_step policy P) s s' -> tl_tenders s `prefix_of` tl_tenders s'.
Proof.
  induction 1 as [|s s1 s2 [pool r _ H1|H1] _ IH]; [done| |]; (etrans; [|exact IH]).
  - by eapply serve_grows.
  - destruct H1 as [E _ _]. unfold till_tables in E. injection E as _ _ _ _ _ _ _ _ _ _ _ _ ->. done.
Qed.

Lemma keyed_first s t k p :
  till_wf s -> In p (tl_tenders s) -> td_tenant p = t -> td_key p = Some k -> first_where (same_key t k) (tl_tenders s) = Some p.
Proof.
  intros Hs Hp Et Ek. pose proof (wf_keys s Hs) as Hn. revert Hp Hn. generalize (tl_tenders s) as l. clear Hs s.
  induction l as [|q l IH]; [done|]. intros Hp Hn. simpl. assert (Ep : tender_key p = Some (t, k)) by (unfold tender_key; by rewrite Ek, Et).
  destruct Hp as [->|Hp].
  - unfold same_key at 1. by rewrite bool_decide_eq_true_2.
  - simpl in Hn. unfold same_key at 1. case_bool_decide as E.
    + exfalso. destruct E as [E1 E2]. assert (Eq : tender_key q = Some (t, k)) by (unfold tender_key; by rewrite E1, E2).
      rewrite Eq in Hn. apply NoDup_cons in Hn as [Hn _]. apply Hn, list_elem_of_omap. exists p. by rewrite <- list_elem_of_In in Hp.
    + apply IH; [done|]. destruct (tender_key q); [by apply NoDup_cons in Hn as [_ ?]|done].
Qed.

(** The statement run again where the key is held. *)
Lemma Record_replay t i s r s1 s2 k p :
  Record_ t i s = Ok (r, s1) -> ri_key i = Some k -> first_where (same_key t k) (tl_tenders s2) = Some p ->
  Record_ t i s2 = Ok (mkRecordResult p true, put_fin (bump_fin (tl_fin s2)) s2).
Proof.
  intros Hr Hk Hf. unfold Record_, till_cents, tlift, tguard, tbind, tget, tret in *.
  destruct (of_option TlNumeric _) as [z|]; [|done]. destruct (0 <=? z); [|done]. rewrite Hk in *.
  destruct (_ && _); [|done]. simpl. by rewrite Hf.
Qed.

(** C22. A tender with an idempotency key is recorded once: when the request that
    recorded it is repeated by the same caller, with the same permissions, after any
    further sequence of committed requests, while the shift it names is still found
    at its station (open or not), the answer is the same tender, flagged as a replay, and
    nothing changes: no second tender, charge, journal entry or audit row. *)
Theorem tender_replay P pool d ctx id header q s p s1 s2 pool' d' :
  till_wf s -> handleRecordPayment policy pool d ctx id header (Ok q) s = Ok ((p, false), s1) -> td_key p <> None ->
  rtc (till_step policy P) s1 s2 ->
  (forall a k, ops_actor ctx = Ok a -> id = Ok k ->
     sh_station <$> GetShift (s_ops (tl_site pool')) (ac_tenant a) k = sh_station <$> GetShift (s_ops (tl_site pool)) (ac_tenant a) k) ->
  handleRecordPayment policy pool' d' ctx id header (Ok q) s2 = Ok ((p, true), s2).
Proof.
  intros Hs Hr Hk Hrun Hsh. assert (Hs1 : till_wf s1) by by eapply wf_tender.
  pose proof (reach_wf policy P s1 s2 Hrun Hs1) as Hs2. pose proof (reach_grows P s1 s2 Hrun) as Hg.
  assert (Hin : In p (tl_tenders s2)).
  { pose proof Hr as (t & i & f & Hrec & (_ & _ & _ & Hf))%tender_recorded.
    apply Record_ok in Hrec as [(? & _)|(_ & -> & _)]; [done|]. simpl in Hf.
    destruct Hg as [l1 ->], Hf as [l2 ->]. rewrite !in_app_iff. simpl. auto. }
  unfold handleRecordPayment in Hr. tx_steps Hr; simplify_eq.
  pose proof E8 as Hp. apply Record_ok in Hp as [(? & _)|(_ & _ & Ep & _)]; [congruence|].
  destruct x4 as [k|]; [|by rewrite Ep in Hk].
  assert (Hf : first_where (same_key (ac_tenant x) k) (tl_tenders s2) = Some (rr_payment x7)).
  { apply keyed_first; [done..|by rewrite Ep|by rewrite Ep]. }
  assert (exists sh', GetShift (s_ops (tl_site pool')) (ac_tenant x) x0 = Some sh' /\ sh_station sh' = sh_station x5) as (sh' & Hsh' & Est).
  { unfold url_id in E0. destruct id as [i|]; simplify_eq. specialize (Hsh x x0 E eq_refl).
    unfold of_option in E6. destruct (GetShift (s_ops (tl_site pool)) _ _) eqn:Eg; simplify_eq.
    destruct (GetShift (s_ops (tl_site pool')) _ _) as [y|]; [|done]. exists y. split; [done|]. by injection Hsh. }
  eapply Record_replay in E8; [|done|exact Hf].
  unfold handleRecordPayment, tbind, tlift, tguard, tget, tconv.
  rewrite E, E0, E1; cbn beta iota. rewrite E2; cbn [of_option]. rewrite E3, E4, E5, Hsh'; cbn [of_option]. rewrite Est, E7, E8.
  reflexivity.
Qed.
End Tenders.
