(* ===== verification/TreasurySamples.v ===== *)
(** * A fortnight at the till

    One run of the treasury's requests: the tenders of a shift, the day's cash
    counted and approved, banked and confirmed, a petty-cash float topped up, spent
    and counted, an expense from its draft to its entry; and the runs in which a
    sub-ledger leaves its account. *)

From stdpp Require Import base list strings relations.
From Stdlib Require Import ZArith Lia.
From S2P Require Import Prelude Frames Numeric Schema Ledger Float64 Accounting AccountingProps Finance Policy Operations OperationsProps Workforce WorkforceHandlers Readings CloseHandlers CloseProps KeyedLedger Treasury Expenses Banking ExpenseHandlers BankHandlers TreasuryProps TreasuryRuns TreasuryDocs.

Local Open Scope Z_scope.
Local Open Scope tx_scope.

Definition cashier_policy : PolicyDb :=
  mkPolicyDb [mkRole 1 "cashier" true false] [mkPermission 11 "payment.record" true]
    [(3, 1, 1)]%N [(1, 11)]%N [(3, 1, 20)]%N.

Definition till_chart : Books :=
  run_requests [BSeed 1; BCreatePeriod 1 1 31] (mkBooks [] [] [] [] [(1, 2); (1, 3); (1, 4)]%N [(1, 20)]%N 100 1 0).

Definition till0 : Till :=
  mkTill site0 (mkFin till_chart [] [] [] [] [] [] [] [] [] [] [] [] [] 400 0)
    [] [] [] [] [] [] [] [] [] [] [] [] [].

(** A request that reads the state it commits on. *)
Definition onward (r : request) (s : Till) : Till := (run_tx (serve cashier_policy s r) s).2.
Definition served (r : request) (s : Till) : bool :=
  match serve cashier_policy s r s with Ok _ => true | Err _ => false end.

Definition tender_of (kind : string) (amount : dec) (customer : option uuid) (key : option string) : recordPaymentRequest :=
  mkRecordRequest kind (Some amount) None customer false None key.
Definition tender (q : recordPaymentRequest) : request := RqTender id attendant (Ok 200%N) "" (Ok q).
Definition petty (float : uuid) (kind : string) (amount : dec) : request :=
  RqPetty 9 boss (Ok float) (Ok (mkPettyRequest kind (Some amount) None None None false)).
Definition spent (mode : string) : request :=
  RqCreateExpense 9 boss (Ok (mkExpenseRequest (Some 20%N) None None None (Some (Dec 1999 2)) "" mode None None)).

(** The cash of shift 200 is counted 0.50 short and awaits its approval. *)
Definition first_tender : recordPaymentRequest := tender_of "cash" (Dec 300 0) None (Some "k1").
Definition counting : list request :=
  [tender first_tender; tender (tender_of "card" (Dec 9900 2) None None);
   tender (tender_of "cash" (Dec 1205 1) None (Some "k2"));
   RqCreateRecon boss (Ok 20%N) (Ok 90%N); RqSubmitRecon boss (Ok 403%N) (Ok (Some (Dec 420 0), None))]%string.

(** Approved, and the deposit prepared. *)
Definition banking : list request :=
  [RqApproveRecon manager (Ok 403%N); RqBankAccount boss (Ok ("Main", None, "")%string);
   RqDeposit boss (Ok (mkDepositRequest 20 405 None None None [(403%N, Some (Dec 42000 2))]));
   RqPrepare 9 boss (Ok 406%N)].

(** A float topped up with 100.00, spent 25.50 of and counted 0.50 short; an
    expense paid in cash. *)
Definition desk : list request :=
  [RqCreateFloat boss (Ok (20%N, "Front desk"%string)); petty 408 "topup" (Dec 100 0); petty 408 "spend" (Dec 2550 2);
   RqCount 10 boss (Ok 408%N) (Ok (Some (Dec 74 0), None)); spent "cash"; RqSubmitExpense boss (Ok 412%N);
   RqApproveExpense manager (Ok 412%N); RqPostExpense boss (Ok 412%N)].

(** ** Runs of requests *)

Definition runs (l : list request) (s : Till) : Till := fold_left (fun s r => onward r s) l s.

(** Every request of the list commits, under the condition [P]. *)
Fixpoint all_served (l : list request) (s : Till) : bool :=
  match l with [] => true | r :: rest => served r s && all_served rest (onward r s) end.
Fixpoint all_fit (P : Till -> request -> Prop) (l : list request) (s : Till) : Prop :=
  match l with [] => True | r :: rest => P s r /\ all_fit P rest (onward r s) end.

Lemma onward_ok r s : served r s = true -> serve cashier_policy s r s = Ok (tt, onward r s).
Proof. unfold served, onward, run_tx. by destruct (serve cashier_policy s r s) as [[[] s']|]. Qed.

(** A run of served requests, as the steps of any relation they are steps of. *)
Lemma runs_rtc (R : Till -> Till -> Prop) (P : Till -> request -> Prop) l :
  (forall r s s', P s r -> serve cashier_policy s r s = Ok (tt, s') -> R s s') ->
  forall s, all_served l s = true -> all_fit P l s -> rtc R s (runs l s).
Proof.
  intros HR. induction l as [|r l IH]; intros s Hs Hf; [constructor|]. simpl in Hs, Hf. apply andb_true_iff in Hs as [H1 H2].
  destruct Hf as [Hp Hf]. eapply rtc_l; [eapply HR; [exact Hp|by apply onward_ok]|]. by apply IH.
Qed.
Lemma runs_steps P l s : all_served l s = true -> all_fit P l s -> rtc (till_step cashier_policy P) s (runs l s).
Proof. apply runs_rtc. intros r s1 s2 Hp H. by eapply step_serve. Qed.
Lemma runs_bookings P l s : all_served l s = true -> all_fit P l s -> rtc (booking_step cashier_policy P) s (runs l s).
Proof. apply runs_rtc. intros r s1 s2 Hp H. by eapply booking_serve. Qed.
Lemma runs_then P l s2 moved : forall s,
  all_served l s = true -> all_fit P l s -> till_run cashier_policy P (runs l s) s2 moved -> till_run cashier_policy P s s2 moved.
Proof.
  induction l as [|r l IH]; intros s Hs Hf Hr; [exact Hr|]. simpl in Hs, Hf. apply andb_true_iff in Hs as [H1 H2].
  destruct Hf as [Hp Hf]. eapply run_serve; [exact Hp|by apply onward_ok|]. by apply IH.
Qed.
Lemma all_fit_any l : forall s, all_fit (fun _ _ => True) l s.
Proof. induction l; simpl; auto. Qed.

Definition run : list request := counting ++ banking ++ desk.
Lemma run_served : all_served run till0 = true.
Proof. vm_compute. reflexivity. Qed.

Lemma till0_wf : till_wf till0.
Proof. by apply empty_wf. Qed.
Lemma till0_unique : accounts_unique till0.
Proof. unfold accounts_unique. apply (bool_decide_unpack _). vm_compute. exact I. Qed.

(** [plain], as a test. *)
#[export] Instance plain_expense_dec e : Decision (plain_expense e).
Proof. unfold plain_expense. apply _. Defined.
Definition spend_key_ok (q : pettyRequest) : bool :=
  bool_decide (word_or (default ""%string (tq_key q)) "operating_expense" ∉ control_keys).
Definition plainb (s : Till) (r : request) : bool :=
  match r with
  | RqPetty _ _ _ (Ok q) => from_option (fun d => (scale d <=? 2)%nat) true (tq_amount q) && spend_key_ok q
  | RqCount _ _ _ (Ok (Some d, _)) => (scale d <=? 2)%nat
  | RqPostExpense _ (Ok _) => forallb (fun e => bool_decide (plain_expense e)) (tl_expenses s)
  | _ => true
  end.
Lemma plainb_ok s r : plainb s r = true -> plain s r.
Proof.
  destruct r; try done; simpl.
  - destruct id as [k|]; [|done]. intros Hf t e He. unfold GetExpense in He.
    destruct (first_where _ _) as [e'|] eqn:Ef; simplify_eq/=. apply first_where_some in Ef as [Hin _].
    rewrite forallb_forall in Hf. by apply (bool_decide_unpack _), Is_true_true, Hf.
  - destruct body as [q|]; [|done]. intros [Hd Hk]%andb_true_iff. split.
    + intros d Eq. rewrite Eq in Hd. by apply Nat.leb_le in Hd.
    + by apply (bool_decide_unpack _), Is_true_true.
  - destruct body as [[[d|] ?]|]; [|done..]. intros Hd. by apply Nat.leb_le in Hd.
Qed.
Fixpoint all_plain (l : list request) (s : Till) : bool :=
  match l with [] => true | r :: rest => plainb s r && all_plain rest (onward r s) end.
Lemma all_plain_ok l : forall s, all_plain l s = true -> all_fit plain l s.
Proof.
  induction l as [|r l IH]; intros s H; [done|]. simpl in *. apply andb_true_iff in H as [H1 H2].
  split; [by apply plainb_ok|by apply IH].
Qed.

Lemma run_plain : all_fit plain run till0.
Proof. apply all_plain_ok. vm_compute. reflexivity. Qed.
Lemma run_steps : rtc (till_step cashier_policy plain) till0 (runs run till0).
Proof. exact (runs_steps plain run till0 run_served run_plain). Qed.

Lemma run_bookings : rtc (booking_step cashier_policy plain) till0 (runs run till0).
Proof. exact (runs_bookings plain run till0 run_served run_plain). Qed.

(** ** The properties on the run *)

Lemma till_well_formed_witness : till_wf (runs run till0) /\ length (tl_expenses (runs run till0)) = 1%nat.
Proof.
  split; [|vm_compute; reflexivity]. eapply (till_well_formed cashier_policy plain till0); [reflexivity|exact run_steps].
Defined.

(** A manual journal entry after the run: 5.00 moved from bank clearing to petty cash. *)
Definition manual_entry : PostEntryInput :=
  mkPostEntry 12 "manual_adjustment" None None None 2 false
    [mkPostLine uuid_nil "petty_cash" "5.00" "0" None None; mkPostLine uuid_nil "bank_clearing" "0" "5.00" None None]%string.
Definition till_end : Till := runs run till0.
Definition till_moved : Till :=
  put_fin (set_books (run_requests [BPost 1 manual_entry] (till_books till_end)) (tl_fin till_end)) till_end.

Lemma journal_elsewhere b s :
  NoDup (ac_id <$> bk_accounts b) -> elsewhere s (put_fin (set_books b (tl_fin s)) s).
Proof. intros Hb. by constructor. Qed.

Lemma till_end_moved : elsewhere till_end till_moved.
Proof. apply journal_elsewhere. apply (bool_decide_unpack _). vm_compute. exact I. Qed.

Lemma runs_then_elsewhere s s1 :
  s = runs run till0 -> elsewhere s s1 ->
  till_run cashier_policy plain till0 s1 (fun t key => moved_elsewhere s s1 t key + 0).
Proof.
  intros Es He. apply (runs_then plain run s1 _ till0 run_served run_plain). rewrite <- Es.
  apply (run_elsewhere cashier_policy plain s s1 s1 (fun _ _ => 0) He). constructor.
Qed.

Lemma till_end_run : till_end = runs run till0.
Proof. unfold till_end. reflexivity. Qed.

Lemma moved_run :
  till_run cashier_policy plain till0 till_moved (fun t key => moved_elsewhere till_end till_moved t key + 0).
Proof. apply (runs_then_elsewhere till_end till_moved till_end_run till_end_moved). Qed.

(** The float holds 74.00; the account, with the 5.00 posted by hand, 79.00. *)
Lemma petty_cash_agrees_witness :
  float_total till_moved 1 = 7400 /\ gl (till_books till_moved) 1 "petty_cash" = 7900.
Proof.
  split; [vm_compute; reflexivity|].
  rewrite (petty_cash_agrees cashier_policy till0 till_moved _ 1 till0_wf till0_unique ltac:(vm_compute; reflexivity) moved_run).
  vm_compute. reflexivity.
Defined.

(** The deposit of 420.00 is in transit; bank clearing holds it less the 5.00. *)
Lemma clearing_agrees_witness :
  in_transit till_moved 1 = 42000 /\ gl (till_books till_moved) 1 "bank_clearing" = 41500.
Proof.
  split; [vm_compute; reflexivity|].
  rewrite (clearing_agrees cashier_policy till0 till_moved _ 1 till0_wf till0_unique ltac:(vm_compute; reflexivity) moved_run).
  vm_compute. reflexivity.
Defined.

(** Expense 412 and its entry. *)
Lemma expense_posted_once_witness :
  exists e j, In e (tl_expenses (runs run till0)) /\ ex_id e = 412%N /\ ex_status e = ExPosted
    /\ expense_entries (till_books (runs run till0)) (ex_tenant e) (ex_id e) = [j] /\ ex_entry e = Some (je_id j).
Proof.
  destruct (first_where (ex_by_id 1 412) (tl_expenses (runs run till0))) as [e|] eqn:E; [|vm_compute in E; discriminate E].
  pose proof (first_where_some _ _ _ E) as [Hin _].
  assert (Est : ex_id <$> first_where (ex_by_id 1 412) (tl_expenses (runs run till0)) = Some 412%N) by (vm_compute; reflexivity).
  assert (Es : ex_status <$> first_where (ex_by_id 1 412) (tl_expenses (runs run till0)) = Some ExPosted) by (vm_compute; reflexivity).
  rewrite E in Est, Es. injection Est as Est. injection Es as Es.
  destruct (expense_posted_once cashier_policy plain till0 (runs run till0) till0_wf eq_refl ltac:(vm_compute; reflexivity)
              run_bookings e Hin) as [Hp _].
  destruct (Hp Es) as (j & H1 & H2). exists e, j. exact (conj Hin (conj Est (conj Es (conj H1 H2)))).
Defined.

(** The count of 420.00 against 420.50 of tenders. *)
Definition counted_till : Till := runs counting till0.
Lemma counted_wf : till_wf counted_till.
Proof.
  apply (reach_wf cashier_policy (fun _ _ => True) till0); [|exact till0_wf].
  apply runs_steps; [vm_compute; reflexivity|apply all_fit_any].
Qed.
Lemma counted_books : Books_inv (till_books counted_till).
Proof.
  assert (E : till_books counted_till = till_chart) by (vm_compute; reflexivity). rewrite E. apply books_reachable_inv.
  eexists. split; [|apply run_requests_steps]. by constructor.
Qed.
Lemma approve_cash_posts_witness :
  exists v s', handleApproveCashReconciliation manager (Ok 403%N) counted_till = Ok (v, s')
    /\ exists c, gl (till_books s') 1 "cash_on_hand" = gl (till_books counted_till) 1 "cash_on_hand" + cr_counted c
        /\ gl (till_books s') 1 "sales_clearing" = gl (till_books counted_till) 1 "sales_clearing" - cr_expected c.
Proof.
  destruct (handleApproveCashReconciliation manager (Ok 403%N) counted_till) as [[v s']|e] eqn:E;
    [|vm_compute in E; discriminate E].
  exists v, s'. split; [exact eq_refl|].
  destruct (approve_cash_posts manager (Ok 403%N) counted_till counted_wf counted_books) as [_ H].
  destruct (H v s' E) as (a & k & c & [= <-] & _ & _ & _ & _ & H1 & H2 & _). exists c. split; [exact H1|exact H2].
Defined.

(** The first tender again, after the rest of the run. *)
Definition tendered : Tender * bool * Till :=
  match handleRecordPayment cashier_policy till0 id attendant (Ok 200%N) "" (Ok first_tender) till0 with
  | Ok (x, s) => (x, s)
  | Err _ => (mkTender 0 0 0 None None TdCash 0 None 0 0 false None None, true, till0)
  end.
Lemma tendered_ok :
  handleRecordPayment cashier_policy till0 id attendant (Ok 200%N) "" (Ok first_tender) till0
  = Ok ((tendered.1.1, false), tendered.2).
Proof. vm_compute. reflexivity. Qed.
Definition later : Till := runs (tail run) tendered.2.
Lemma tender_replay_witness :
  td_id tendered.1.1 = 400%N
  /\ handleRecordPayment cashier_policy later id attendant (Ok 200%N) "" (Ok first_tender) later
     = Ok ((tendered.1.1, true), later).
Proof.
  split; [vm_compute; reflexivity|].
  eapply (tender_replay cashier_policy (fun _ _ => True) till0); [exact till0_wf|exact tendered_ok|vm_compute; discriminate| |].
  - apply runs_steps; [vm_compute; reflexivity|apply all_fit_any].
  - intros a k _ _. assert (E : tl_site later = tl_site till0) by (vm_compute; reflexivity). by rewrite E.
Defined.

(** ** Where the sub-ledgers leave their accounts *)

Definition gaps (l : list request) (s : Till) : bool * (Z * Z) := (all_served l s, gap (runs l s) 1).

(** A spend finer than a cent: the float keeps its 1.00, the account loses 0.01. *)
Example half_cent_spend :
  gaps [RqCreateFloat boss (Ok (20%N, "Desk"%string)); petty 400 "topup" (Dec 1 0); petty 400 "spend" (Dec 5 3)] till0
  = (true, (1, 0)).
Proof. vm_compute. reflexivity. Qed.

(** An expense paid from petty cash moves the account and no float. *)
Example expense_from_petty :
  gaps [spent "petty_cash"; RqSubmitExpense boss (Ok 400%N); RqApproveExpense manager (Ok 400%N);
        RqPostExpense boss (Ok 400%N)] till0
  = (true, (1999, 0)).
Proof. vm_compute. reflexivity. Qed.

(** One line of a statement, posted as a bank fee twice. *)
Definition fee_statement : statementRequest :=
  mkStatementRequest 400 None None [(Ok 9, None, Some (Dec (-250) 2), None, None)].
Definition charged : Till :=
  runs [RqBankAccount boss (Ok ("Main", None, "")%string); RqImport "h" boss (Ok fee_statement);
        RqFee boss (Ok 402%N); RqFee boss (Ok 402%N)] till0.
Example fee_twice :
  gl (till_books charged) 1 "bank" = -500 /\ (sl_amount <$> tl_slines charged) = [-250].
Proof. vm_compute. split; reflexivity. Qed.

(** Without a chart of accounts the charge of a credit tender commits, and so does
    the header of an entry without lines. *)
Definition credit_till (b : Books) : Till :=
  mkTill site0 (mkFin b
    [mkCustomer 50 1 "ACME" "Acme" None None None 100000 CuActive None None None None "standard" 30 None 0]
    [] [] [] [] [] [] [] [] [] [] [] [] 400 9) [] [] [] [] [] [] [] [] [] [] [] [] [].
Definition bare : Till :=
  credit_till (run_requests [BCreatePeriod 1 1 31] (mkBooks [] [] [] [] [(1, 2); (1, 3)]%N [(1, 20)]%N 100 1 9)).
Definition on_credit : request := tender (tender_of "credit" (Dec 75 0) (Some 50%N) None).
Example orphan_header :
  served on_credit bare = true
  /\ (je_source_type <$> bk_entries (till_books (onward on_credit bare))) = ["ar_charge"%string]
  /\ bk_lines (till_books (onward on_credit bare)) = [].
Proof. vm_compute. auto. Qed.

(** A credit tender of nothing is refused as an internal error. *)
Example credit_of_nothing :
  serve cashier_policy till0 (tender (tender_of "credit" (Dec 0 0) (Some 50%N) None)) (credit_till till_chart)
  = Err ops_internal.
Proof. vm_compute. reflexivity. Qed.
