(* ===== verification/Procurement.v ===== *)
(** * Procurement (package [procurement]: suppliers.go, purchase_orders.go)

    Suppliers with the products they deliver, and purchase orders from their draft
    to their closing.  [Proc] adds the tables of the package to those of the stock:
    orders and their lines are the rows receiving reads, and [db_suppliers] is the
    key of the suppliers' table, which the foreign keys of the stock tables refer
    to. *)

From stdpp Require Import base list strings.
From Stdlib Require Import ZArith Lia.
From S2P Require Import Prelude Numeric Schema Ledger Receiving Accounting Operations.

Local Open Scope Z_scope.
Local Open Scope tx_scope.

(** ** Tables *)

Inductive supplier_status := SpActive | SpInactive | SpDeactivated.
#[export] Instance supplier_status_eq : EqDecision supplier_status.
Proof. solve_decision. Defined.

Record Supplier := mkSupplier {
  su_id : uuid; su_tenant : uuid; su_code : string; su_name : string; su_contact : option string;
  su_email : option string; su_phone : option string; su_terms : Z; su_status : supplier_status;
  su_deactivated : option Z; su_created : Z }.

(** A row of [supplier_products]. *)
Record Supply := mkSupply { sp_tenant : uuid; sp_supplier : uuid; sp_product : uuid }.

Inductive invoice_status := VnRecorded | VnMatched | VnDiscrepancy | VnApproved.
#[export] Instance invoice_status_eq : EqDecision invoice_status.
Proof. solve_decision. Defined.

Record VendorInvoice := mkVendorInvoice {
  vi_id : uuid; vi_tenant : uuid; vi_supplier : uuid; vi_po : uuid; vi_station : uuid; vi_number : string;
  vi_status : invoice_status; vi_received : Z; vi_due : option Z; vi_total : Z; vi_by : uuid;
  vi_approved : option (uuid * Z); vi_notes : option string; vi_created : Z }.
Record VendorLine := mkVendorLine {
  vl_id : uuid; vl_tenant : uuid; vl_invoice : uuid; vl_po : uuid; vl_po_line : uuid; vl_delivery : option uuid;
  vl_product : uuid; vl_litres : Z; vl_price : Z; vl_amount : Z; vl_created : Z }.

(** What differs: litres, or the unit price. *)
Inductive variance := VarLitres (z : Z) | VarPrice (z : Z).
Record Discrepancy := mkDiscrepancy {
  dc_id : uuid; dc_tenant : uuid; dc_invoice : uuid; dc_po : uuid; dc_delivery : option uuid; dc_po_line : uuid;
  dc_variance : variance; dc_detail : string; dc_resolved : option (uuid * Z); dc_raised : Z }.

(** A product as [products.Get] shows it to the receipt: its loss tolerance. *)
Record ProductRow := mkProductRow { pw_tenant : uuid; pw_id : uuid; pw_tolerance : string; pw_deleted : bool }.

Record Proc := mkProc {
  pr_db : DB;
  pr_stations : list StationRow;
  pr_products : list ProductRow;
  pr_suppliers : list Supplier;
  pr_supplies : list Supply;
  pr_invoices : list VendorInvoice;
  pr_lines : list VendorLine;
  pr_discs : list Discrepancy;
  pr_outbox : list AuditRow;   (* events written without an audit row *)
}.

Definition put_db v s := mkProc v (pr_stations s) (pr_products s) (pr_suppliers s) (pr_supplies s) (pr_invoices s)
  (pr_lines s) (pr_discs s) (pr_outbox s).
Definition put_suppliers v s := mkProc (pr_db s) (pr_stations s) (pr_products s) v (pr_supplies s) (pr_invoices s)
  (pr_lines s) (pr_discs s) (pr_outbox s).
Definition put_supplies v s := mkProc (pr_db s) (pr_stations s) (pr_products s) (pr_suppliers s) v (pr_invoices s)
  (pr_lines s) (pr_discs s) (pr_outbox s).
Definition put_invoices v s := mkProc (pr_db s) (pr_stations s) (pr_products s) (pr_suppliers s) (pr_supplies s) v
  (pr_lines s) (pr_discs s) (pr_outbox s).
Definition put_vlines v s := mkProc (pr_db s) (pr_stations s) (pr_products s) (pr_suppliers s) (pr_supplies s)
  (pr_invoices s) v (pr_discs s) (pr_outbox s).
Definition put_discs v s := mkProc (pr_db s) (pr_stations s) (pr_products s) (pr_suppliers s) (pr_supplies s)
  (pr_invoices s) (pr_lines s) v (pr_outbox s).
Definition put_outbox v s := mkProc (pr_db s) (pr_stations s) (pr_products s) (pr_suppliers s) (pr_supplies s)
  (pr_invoices s) (pr_lines s) (pr_discs s) v.

Inductive proc_error :=
| PrNotFound | PrSupplierInUse | PrSupplierUnavailable | PrNotDraft | PrInvalidTransition | PrNotMatched
| PrHasDiscrepancy | PrAlreadyResolved | PrSelfApproval
| PrUnique | PrCheck | PrForeignKey | PrNumeric.
#[export] Instance proc_error_eq : EqDecision proc_error.
Proof. solve_decision. Defined.

(** ** Statements *)

Definition on_db {E A} (c : Tx DB E A) : Tx Proc E A :=
  fun s => match c (pr_db s) with Ok (a, d) => Ok (a, put_db d s) | Err e => Err e end.
Definition proc_fresh {E} : Tx Proc E uuid :=
  fun s => Ok (db_next_id (pr_db s), put_db (set_next_id (db_next_id (pr_db s) + 1)%N (pr_db s)) s).
Definition proc_now (s : Proc) : Z := db_now (pr_db s).
Definition proc_user (s : Proc) (tenant id : uuid) : bool := fk_pair (db_users (pr_db s)) tenant id.
Definition proc_station (s : Proc) (tenant id : uuid) : bool :=
  exists_where (fun x => bool_decide (st_tenant x = tenant /\ st_id x = id)) (pr_stations s).
Definition proc_supplier (s : Proc) (tenant id : uuid) : bool := fk_pair (db_suppliers (pr_db s)) tenant id.
Definition proc_product (s : Proc) (tenant id : uuid) : bool := fk_pair (db_products (pr_db s)) tenant id.

(** A decimal into a column, and a text through [::numeric]. *)
Definition proc_col (p sc : nat) (d : dec) : Tx Proc proc_error Z := tlift (of_option PrNumeric (numeric_col p sc d)).
Definition proc_text (v : string) : Tx Proc proc_error dec := tlift (of_option PrNumeric (parse_numeric v)).

(** ** Suppliers (suppliers.go) *)

Record SupplierInput := mkSupplierInput {
  pi_code : string; pi_name : string; pi_contact : option string; pi_email : option string; pi_phone : option string;
  pi_terms : Z; pi_products : list uuid }.
(** [up_products] is [None] when [ProductIDsSet] is false. *)
Record SupplierUpdateInput := mkSupplierUpdate {
  up_code : option string; up_name : option string; up_contact : option string; up_email : option string;
  up_phone : option string; up_terms : option Z; up_status : option supplier_status; up_products : option (list uuid) }.

Definition su_by_id (tenant id : uuid) (x : Supplier) : bool := bool_decide (su_tenant x = tenant /\ su_id x = id).
(** [idx_suppliers_tenant_code] *)
Definition same_supplier (tenant : uuid) (code : string) (x : Supplier) : bool :=
  bool_decide (su_tenant x = tenant /\ lower (su_code x) = lower code).

(** [supplierProductIDs], ordered by the product. *)
Definition supplierProductIDs (s : Proc) (tenant supplier : uuid) : list uuid :=
  order_by N.leb (sp_product <$> select (fun x => bool_decide (sp_tenant x = tenant /\ sp_supplier x = supplier)) (pr_supplies s)).

Definition GetSupplier (s : Proc) (tenant id : uuid) : result proc_error (Supplier * list uuid) :=
  match first_where (su_by_id tenant id) (pr_suppliers s) with
  | None => Err PrNotFound
  | Some x => Ok (x, supplierProductIDs s tenant id)
  end.

Section Listing.
Context (collate : string -> string -> bool).
Definition with_products (s : Proc) (tenant : uuid) (x : Supplier) : Supplier * list uuid :=
  (x, supplierProductIDs s tenant (su_id x)).
Definition of_tenant (tenant : uuid) (x : Supplier) : bool := bool_decide (su_tenant x = tenant).
Definition ListSuppliers (s : Proc) (tenant : uuid) : list (Supplier * list uuid) :=
  with_products s tenant <$> order_by (named_le collate su_name) (select (of_tenant tenant) (pr_suppliers s)).
Definition ListSuppliersPage (s : Proc) (tenant : uuid) (limit offset : nat) : list (Supplier * list uuid) :=
  with_products s tenant
    <$> limit_offset limit offset (order_by (named_id_le collate su_name su_id) (select (of_tenant tenant) (pr_suppliers s))).
End Listing.

(** A product already listed is skipped: [ON CONFLICT DO NOTHING]. *)
Fixpoint insert_supplies (tenant supplier : uuid) (l : list uuid) : Tx Proc proc_error unit :=
  match l with
  | [] => tret tt
  | p :: rest =>
      let! s := tget in
      (if exists_where (fun x => bool_decide (sp_supplier x = supplier /\ sp_product x = p)) (pr_supplies s)
       then tret tt
       else tguard (proc_supplier s tenant supplier && proc_product s tenant p) PrForeignKey ;;!
            tput (put_supplies (pr_supplies s ++ [mkSupply tenant supplier p]) s)) ;;!
      insert_supplies tenant supplier rest
  end.
Definition replaceSupplierProducts (tenant supplier : uuid) (l : list uuid) : Tx Proc proc_error unit :=
  let! s := tget in
  tput (put_supplies (select (fun x => negb (bool_decide (sp_tenant x = tenant /\ sp_supplier x = supplier))) (pr_supplies s)) s) ;;!
  insert_supplies tenant supplier l.

(** The row is added to the key of the table too. *)
Definition add_supplier (x : Supplier) (s : Proc) : Proc :=
  let d := pr_db s in
  put_suppliers (pr_suppliers s ++ [x])
    (put_db (mkDB (db_movements d) (db_next_seq d) (db_adjustments d) (db_openings d) (db_deliveries d) (db_pos d)
       (db_po_lines d) (db_recons d) (db_transfers d) (db_tanks d) (db_products d) (db_users d)
       (db_suppliers d ++ [(su_tenant x, su_id x)]) (db_days d) (db_audit d) (db_next_id d) (db_now d)) s).

Definition CreateSupplier (tenant : uuid) (i : SupplierInput) : Tx Proc proc_error (Supplier * list uuid) :=
  let! id := proc_fresh in
  let! s := tget in
  tguard (0 <=? pi_terms i) PrCheck ;;!
  tguard (negb (exists_where (same_supplier tenant (pi_code i)) (pr_suppliers s))) PrUnique ;;!
  let x := mkSupplier id tenant (pi_code i) (pi_name i) (pi_contact i) (pi_email i) (pi_phone i) (pi_terms i) SpActive
             None (proc_now s) in
  tput (add_supplier x s) ;;!
  replaceSupplierProducts tenant id (pi_products i) ;;! tret (x, pi_products i).

Definition coalesce {A} (a : option A) (b : A) : A := default b a.
Definition updated_supplier (now : Z) (i : SupplierUpdateInput) (x : Supplier) : Supplier :=
  mkSupplier (su_id x) (su_tenant x) (coalesce (up_code i) (su_code x)) (coalesce (up_name i) (su_name x))
    (opt_or (up_contact i) (su_contact x)) (opt_or (up_email i) (su_email x)) (opt_or (up_phone i) (su_phone x))
    (coalesce (up_terms i) (su_terms x)) (coalesce (up_status i) (su_status x))
    (if bool_decide (up_status i = Some SpDeactivated) then Some (coalesce (su_deactivated x) now) else su_deactivated x)
    (su_created x).

Definition UpdateSupplier (tenant id : uuid) (i : SupplierUpdateInput) : Tx Proc proc_error (Supplier * list uuid) :=
  let! s := tget in
  match first_where (su_by_id tenant id) (pr_suppliers s) with
  | None => tfail PrNotFound
  | Some x =>
      let y := updated_supplier (proc_now s) i x in
      tguard (0 <=? su_terms y) PrCheck ;;!
      tguard (negb (exists_where (fun z => same_supplier tenant (su_code y) z && negb (bool_decide (su_id z = id)))
                      (pr_suppliers s))) PrUnique ;;!
      tput (put_suppliers (update_where (su_by_id tenant id) (updated_supplier (proc_now s) i) (pr_suppliers s)) s) ;;!
      match up_products i with
      | Some l => replaceSupplierProducts tenant id l ;;! tret (y, l)
      | None => let! s := tget in tret (y, supplierProductIDs s tenant id)
      end
  end.

Definition po_open (st : po_status) : bool :=
  bool_decide (st ∈ [PODraft; POSubmitted; POConfirmed; POPartiallyReceived]).
Definition open_orders (s : Proc) (tenant supplier : uuid) : list PurchaseOrder :=
  select (fun p => bool_decide (po_tenant p = tenant /\ po_supplier p = supplier) && po_open (po_st p)) (db_pos (pr_db s)).

Definition DeactivateSupplier (tenant id : uuid) : Tx Proc proc_error (Supplier * list uuid) :=
  let! s := tget in
  tguard (bool_decide (open_orders s tenant id = [])) PrSupplierInUse ;;!
  UpdateSupplier tenant id (mkSupplierUpdate None None None None None None (Some SpDeactivated) None).

(** ** Purchase orders (purchase_orders.go) *)

Record POLineInput := mkPOLineInput { ni_product : uuid; ni_litres : string; ni_price : string }.
Record PurchaseOrderInput := mkPOInput {
  oi_station : uuid; oi_supplier : uuid; oi_expected : option Z; oi_notes : option string; oi_lines : list POLineInput;
  oi_raised_by : uuid }.
(** [None] is a field that is not set. *)
Record PurchaseOrderUpdateInput := mkPOUpdate {
  ou_expected : option (option Z); ou_notes : option string; ou_lines : option (list POLineInput) }.

(** [ORDER BY created_at, id]: the lines of an order are inserted together, and
    replaced together, so they share their [created_at]. *)
Definition pl_le (a b : POLine) : bool := (pl_id a <=? pl_id b)%N.
Definition listPurchaseOrderLines (s : Proc) (tenant po : uuid) : list POLine :=
  order_by pl_le (order_lines (pr_db s) tenant po).

Definition GetPurchaseOrder (s : Proc) (tenant id : uuid) : result proc_error (PurchaseOrder * list POLine) :=
  match first_where (po_by tenant id) (db_pos (pr_db s)) with
  | None => Err PrNotFound
  | Some p => Ok (p, listPurchaseOrderLines s tenant id)
  end.

Record PurchaseOrderFilter := mkPOFilter {
  of_stations : option (list uuid); of_supplier : option uuid; of_status : option string }.
Definition po_word (st : po_status) : string :=
  match st with
  | PODraft => "draft" | POSubmitted => "submitted" | POConfirmed => "confirmed"
  | POPartiallyReceived => "partially_received" | POReceived => "received" | POClosed => "closed"
  | POCancelled => "cancelled"
  end%string.
Definition any_or {A} (o : option A) (p : A -> bool) : bool := match o with Some x => p x | None => true end.
Definition po_listed (tenant : uuid) (f : PurchaseOrderFilter) (p : PurchaseOrder) : bool :=
  bool_decide (po_tenant p = tenant)
  && any_or (of_stations f) (fun l => bool_decide (po_station p ∈ l))
  && any_or (of_supplier f) (fun x => bool_decide (po_supplier p = x))
  && any_or (of_status f) (fun w => bool_decide (po_word (po_st p) = w)).
Definition po_created (p : PurchaseOrder) : Z := ph_created (po_head p).
Definition with_po_lines (s : Proc) (tenant : uuid) (p : PurchaseOrder) : PurchaseOrder * list POLine :=
  (p, listPurchaseOrderLines s tenant (po_id p)).
Definition ListPurchaseOrders (s : Proc) (tenant : uuid) (f : PurchaseOrderFilter) : list (PurchaseOrder * list POLine) :=
  with_po_lines s tenant <$> order_by (newest po_created) (select (po_listed tenant f) (db_pos (pr_db s))).
Definition ListPurchaseOrdersPage (s : Proc) (tenant : uuid) (f : PurchaseOrderFilter) (limit offset : nat)
  : list (PurchaseOrder * list POLine) :=
  with_po_lines s tenant
    <$> limit_offset limit offset (order_by (newest_id po_created po_id) (select (po_listed tenant f) (db_pos (pr_db s)))).

Fixpoint insertPurchaseOrderLines (tenant po : uuid) (l : list POLineInput) : Tx Proc proc_error unit :=
  match l with
  | [] => tret tt
  | ln :: rest =>
      let! litres := proc_text (ni_litres ln) in
      let! litres := proc_col 14 3 litres in
      let! price := proc_text (ni_price ln) in
      let! price := proc_col 14 2 price in
      tguard ((0 <? litres) && (0 <=? price)) PrCheck ;;!
      let! id := proc_fresh in
      let! s := tget in
      tguard (fk_po (pr_db s) tenant po && proc_product s tenant (ni_product ln)) PrForeignKey ;;!
      tput (put_db (set_po_lines (db_po_lines (pr_db s) ++ [mkPOLine id tenant po (ni_product ln) litres price 0]) (pr_db s)) s) ;;!
      insertPurchaseOrderLines tenant po rest
  end.

Definition CreatePurchaseOrder (tenant : uuid) (i : PurchaseOrderInput) : Tx Proc proc_error (PurchaseOrder * list POLine) :=
  let! s := tget in
  tguard (exists_where (fun x => su_by_id tenant (oi_supplier i) x && bool_decide (su_status x = SpActive)) (pr_suppliers s))
    PrSupplierUnavailable ;;!
  let! id := proc_fresh in
  let! s := tget in
  tguard (proc_station s tenant (oi_station i) && proc_supplier s tenant (oi_supplier i)
          && proc_user s tenant (oi_raised_by i)) PrForeignKey ;;!
  let p := mkPO id tenant (oi_station i) (oi_supplier i) PODraft
             (mkPOHead (oi_expected i) (oi_raised_by i) None None None None (oi_notes i) (proc_now s)) in
  tput (put_db (set_pos (db_pos (pr_db s) ++ [p]) (pr_db s)) s) ;;!
  insertPurchaseOrderLines tenant id (oi_lines i) ;;!
  let! s := tget in tret (p, listPurchaseOrderLines s tenant id).

Definition set_po_head (h : POHead -> POHead) (p : PurchaseOrder) : PurchaseOrder :=
  mkPO (po_id p) (po_tenant p) (po_station p) (po_supplier p) (po_st p) (h (po_head p)).
Definition edited (i : PurchaseOrderUpdateInput) (h : POHead) : POHead :=
  mkPOHead (default (ph_expected h) (ou_expected i)) (ph_raised_by h) (ph_submitted h) (ph_confirmed h) (ph_cancelled h)
    (ph_closed h) (opt_or (ou_notes i) (ph_notes h)) (ph_created h).

(** The rows that refer to a line of the order keep it from being deleted. *)
Definition line_in_use (s : Proc) (l : POLine) : bool :=
  exists_where (fun x => bool_decide (dl_tenant x = pl_tenant l /\ dl_po x = Some (pl_po l) /\ dl_po_line x = Some (pl_id l)))
    (db_deliveries (pr_db s))
  || exists_where (fun x => bool_decide (vl_tenant x = pl_tenant l /\ vl_po x = pl_po l /\ vl_po_line x = pl_id l)) (pr_lines s)
  || exists_where (fun x => bool_decide (dc_tenant x = pl_tenant l /\ dc_po x = pl_po l /\ dc_po_line x = pl_id l)) (pr_discs s).
Definition of_order (tenant po : uuid) (l : POLine) : bool := bool_decide (pl_tenant l = tenant /\ pl_po l = po).

Definition UpdatePurchaseOrderDraft (tenant id : uuid) (i : PurchaseOrderUpdateInput)
  : Tx Proc proc_error (PurchaseOrder * list POLine) :=
  let! s := tget in
  match first_where (fun p => po_by tenant id p && bool_decide (po_st p = PODraft)) (db_pos (pr_db s)) with
  | None => if exists_where (po_by tenant id) (db_pos (pr_db s)) then tfail PrNotDraft else tfail PrNotFound
  | Some p =>
      tput (put_db (set_pos (update_where (fun p => po_by tenant id p && bool_decide (po_st p = PODraft))
                               (set_po_head (edited i)) (db_pos (pr_db s))) (pr_db s)) s) ;;!
      match ou_lines i with
      | None => tret tt
      | Some l =>
          let! s := tget in
          tguard (negb (existsb (line_in_use s) (order_lines (pr_db s) tenant id))) PrForeignKey ;;!
          tput (put_db (set_po_lines (select (fun l => negb (of_order tenant id l)) (db_po_lines (pr_db s))) (pr_db s)) s) ;;!
          insertPurchaseOrderLines tenant id l
      end ;;!
      let! s := tget in tret (set_po_head (edited i) p, listPurchaseOrderLines s tenant id)
  end.

Definition stamped (b : bool) (actor : uuid) (now : Z) (old : option (uuid * Z)) : option (uuid * Z) :=
  if b then Some (actor, now) else old.
Definition moved_order (actor : uuid) (now : Z) (to : po_status) (p : PurchaseOrder) : PurchaseOrder :=
  let h := po_head p in
  let on st := stamped (bool_decide (to = st)) actor now in
  mkPO (po_id p) (po_tenant p) (po_station p) (po_supplier p) to
    (mkPOHead (ph_expected h) (ph_raised_by h) (on POSubmitted (ph_submitted h)) (on POConfirmed (ph_confirmed h))
       (on POCancelled (ph_cancelled h)) (on POClosed (ph_closed h)) (ph_notes h) (ph_created h)).
Definition at_status (tenant id : uuid) (st : po_status) (p : PurchaseOrder) : bool :=
  po_by tenant id p && bool_decide (po_st p = st).

(** The actor of a step of its own is a user of the tenant. *)
Definition TransitionPurchaseOrder (tenant id actor : uuid) (from to : po_status)
  : Tx Proc proc_error (PurchaseOrder * list POLine) :=
  let! s := tget in
  match first_where (at_status tenant id from) (db_pos (pr_db s)) with
  | None => tfail PrInvalidTransition
  | Some p =>
      tguard (bool_decide (to ∈ [PODraft; POPartiallyReceived; POReceived]) || proc_user s tenant actor) PrForeignKey ;;!
      tput (put_db (set_pos (update_where (at_status tenant id from) (moved_order actor (proc_now s) to) (db_pos (pr_db s)))
                      (pr_db s)) s) ;;!
      let! s := tget in tret (moved_order actor (proc_now s) to p, listPurchaseOrderLines s tenant id)
  end.

Definition ValidPurchaseOrderTransition (from to : po_status) : bool :=
  match from with
  | PODraft => bool_decide (to = POSubmitted) || bool_decide (to = POCancelled)
  | POSubmitted => bool_decide (to = POConfirmed) || bool_decide (to = POCancelled)
  | POConfirmed => bool_decide (to = POCancelled)
  | POReceived => bool_decide (to = POClosed)
  | _ => false
  end.
