(* ===== verification/SupplierInvoices.v ===== *)
(** * Supplier invoices (package [procurement]: invoices.go)

    An invoice is recorded against one order; each of its lines is compared with
    the delivery it names, or with the order when it names none, and with the
    order's price.  What is out of tolerance is a discrepancy, and an invoice is
    approved once none is open.

    The litres of a line arrive as a double; the decimal the driver sends for one is
    the parameter [driver]. *)

From stdpp Require Import base list strings.
From Stdlib Require Import ZArith Lia.
From S2P Require Import Prelude Numeric Schema Ledger Receiving Float64 Accounting Operations Procurement.

Local Open Scope Z_scope.
Local Open Scope tx_scope.

Record SupplierInvoiceLineInput := mkInvoiceLineInput {
  ln_po_line : uuid; ln_delivery : option uuid; ln_litres : float64; ln_price : string; ln_amount : option string }.
Record SupplierInvoiceInput := mkInvoiceInput {
  vn_po : uuid; vn_number : string; vn_received : option Z; vn_due : option Z; vn_notes : option string; vn_by : uuid;
  vn_lines : list SupplierInvoiceLineInput }.

Definition vi_by_id (tenant id : uuid) (x : VendorInvoice) : bool := bool_decide (vi_tenant x = tenant /\ vi_id x = id).
(** [idx_supplier_invoices_number] *)
Definition same_number (tenant supplier : uuid) (number : string) (x : VendorInvoice) : bool :=
  bool_decide (vi_tenant x = tenant /\ vi_supplier x = supplier /\ lower (vi_number x) = lower number).
Definition line_of (tenant invoice : uuid) (l : VendorLine) : bool :=
  bool_decide (vl_tenant l = tenant /\ vl_invoice l = invoice).
Definition disc_of (tenant invoice : uuid) (x : Discrepancy) : bool :=
  bool_decide (dc_tenant x = tenant /\ dc_invoice x = invoice).
Definition dc_open (x : Discrepancy) : bool := bool_decide (dc_resolved x = None).
Definition invoice_lines (s : Proc) (tenant invoice : uuid) : list VendorLine :=
  select (line_of tenant invoice) (pr_lines s).
Definition invoice_discs (s : Proc) (tenant invoice : uuid) : list Discrepancy :=
  select (disc_of tenant invoice) (pr_discs s).

(** ** Reading *)

(** [ORDER BY created_at, id]; the lines of an invoice are inserted together. *)
Definition listInvoiceLines (s : Proc) (tenant invoice : uuid) : list VendorLine :=
  order_by (fun a b => (vl_id a <=? vl_id b)%N) (invoice_lines s tenant invoice).
Definition listInvoiceDiscrepancies (s : Proc) (tenant invoice : uuid) : list Discrepancy :=
  order_by (newest dc_raised) (invoice_discs s tenant invoice).
Definition invoice_view : Type := VendorInvoice * list VendorLine * list Discrepancy.
Definition view_of (s : Proc) (tenant : uuid) (x : VendorInvoice) : invoice_view :=
  (x, listInvoiceLines s tenant (vi_id x), listInvoiceDiscrepancies s tenant (vi_id x)).

Definition GetSupplierInvoice (s : Proc) (tenant id : uuid) : result proc_error invoice_view :=
  match first_where (vi_by_id tenant id) (pr_invoices s) with
  | None => Err PrNotFound
  | Some x => Ok (view_of s tenant x)
  end.

Record SupplierInvoiceFilter := mkInvoiceFilter {
  vf_stations : option (list uuid); vf_supplier : option uuid; vf_po : option uuid; vf_status : option string }.
Definition invoice_word (st : invoice_status) : string :=
  match st with
  | VnRecorded => "recorded" | VnMatched => "matched" | VnDiscrepancy => "discrepancy" | VnApproved => "approved"
  end%string.
Definition invoice_listed (tenant : uuid) (f : SupplierInvoiceFilter) (x : VendorInvoice) : bool :=
  bool_decide (vi_tenant x = tenant)
  && any_or (vf_stations f) (fun l => bool_decide (vi_station x ∈ l))
  && any_or (vf_supplier f) (fun y => bool_decide (vi_supplier x = y))
  && any_or (vf_po f) (fun y => bool_decide (vi_po x = y))
  && any_or (vf_status f) (fun w => bool_decide (invoice_word (vi_status x) = w)).
Definition ListSupplierInvoicesPage (s : Proc) (tenant : uuid) (f : SupplierInvoiceFilter) (limit offset : nat)
  : list invoice_view :=
  view_of s tenant
    <$> limit_offset limit offset (order_by (newest_id vi_received vi_id) (select (invoice_listed tenant f) (pr_invoices s))).

Definition GetDiscrepancy (s : Proc) (tenant id : uuid) : result proc_error Discrepancy :=
  of_option PrNotFound (first_where (fun x => bool_decide (dc_tenant x = tenant /\ dc_id x = id)) (pr_discs s)).
Definition OpenDiscrepancyCount (s : Proc) (tenant invoice : uuid) : nat :=
  length (select dc_open (invoice_discs s tenant invoice)).

(** ** The match *)

(** Half a percent, and one litre or one cent at least. *)
Definition half_percent : dec := Dec 5 3.
Definition dec_max (a b : dec) : dec := if dec_leb b a then a else b.
Definition beyond (sc : nat) (least : dec) (actual reference : Z) : bool :=
  dec_ltb (dec_max (dec_mul (dec_of sc reference) half_percent) least)
          (dec_abs (dec_sub (dec_of sc actual) (dec_of sc reference))).
Definition litres_beyond : Z -> Z -> bool := beyond 3 (Dec 1 0).
Definition price_beyond : Z -> Z -> bool := beyond 2 (Dec 1 2).

Definition dl_by (tenant id : uuid) (x : Delivery) : bool := bool_decide (dl_tenant x = tenant /\ dl_id x = id).
(** The line's reference: the delivery it names, or what was ordered. *)
Definition reference_litres (s : Proc) (l : VendorLine) (o : POLine) : Z :=
  match vl_delivery l with
  | Some k => match first_where (dl_by (vl_tenant l) k) (db_deliveries (pr_db s)) with
              | Some x => dl_volume x | None => 0 end
  | None => pl_ordered o
  end.
(** The lines of an invoice joined to those of the order. *)
Definition line_match (s : Proc) (tenant invoice : uuid) : list (VendorLine * POLine) :=
  join (fun l o => po_line_by (vl_tenant l) (vl_po l) (vl_po_line l) o) (invoice_lines s tenant invoice)
    (db_po_lines (pr_db s)).

Definition quantity_detail (l : VendorLine) : string :=
  match vl_delivery l with
  | Some _ => "invoice quantity differs from received litres"
  | None => "invoice quantity differs from ordered litres"
  end%string.
Definition price_detail : string := "invoice unit price differs from purchase order price"%string.

(** [INSERT ... SELECT] of the rows, each with an id of its own. *)
Fixpoint insert_discs (tenant : uuid) (l : list (VendorLine * variance * string)) : Tx Proc proc_error unit :=
  match l with
  | [] => tret tt
  | (x, v, detail) :: rest =>
      tguard (match v with VarLitres z => Z.abs z <? pow10 14 | VarPrice z => Z.abs z <? pow10 14 end) PrNumeric ;;!
      let! id := proc_fresh in
      let! s := tget in
      tput (put_discs (pr_discs s ++ [mkDiscrepancy id tenant (vl_invoice x) (vl_po x) (vl_delivery x) (vl_po_line x) v
                                        detail None (proc_now s)]) s) ;;!
      insert_discs tenant rest
  end.
Definition quantity_rows (s : Proc) (m : list (VendorLine * POLine)) : list (VendorLine * variance * string) :=
  (fun '(l, o) => (l, VarLitres (vl_litres l - reference_litres s l o), quantity_detail l))
    <$> select (fun '(l, o) => litres_beyond (vl_litres l) (reference_litres s l o)) m.
Definition price_rows (m : list (VendorLine * POLine)) : list (VendorLine * variance * string) :=
  (fun '(l, o) => (l, VarPrice (vl_price l - pl_unit_price o), price_detail))
    <$> select (fun '(l, o) => price_beyond (vl_price l) (pl_unit_price o)) m.
Definition raiseInvoiceDiscrepancies (tenant invoice : uuid) : Tx Proc proc_error unit :=
  let! s := tget in
  insert_discs tenant (quantity_rows s (line_match s tenant invoice)) ;;!
  let! s := tget in
  insert_discs tenant (price_rows (line_match s tenant invoice)).

Definition set_invoice_status (st : invoice_status) (x : VendorInvoice) : VendorInvoice :=
  mkVendorInvoice (vi_id x) (vi_tenant x) (vi_supplier x) (vi_po x) (vi_station x) (vi_number x) st (vi_received x)
    (vi_due x) (vi_total x) (vi_by x) (vi_approved x) (vi_notes x) (vi_created x).
Definition unapproved (tenant id : uuid) (x : VendorInvoice) : bool :=
  vi_by_id tenant id x && negb (bool_decide (vi_status x = VnApproved)).
Definition refreshInvoiceMatchStatus (tenant invoice : uuid) : Tx Proc proc_error unit :=
  let! s := tget in
  let st := if (0 <? OpenDiscrepancyCount s tenant invoice)%nat then VnDiscrepancy else VnMatched in
  tput (put_invoices (update_where (unapproved tenant invoice) (set_invoice_status st) (pr_invoices s)) s).

(** ** Recording *)

Definition set_invoice_total (z : Z) (x : VendorInvoice) : VendorInvoice :=
  mkVendorInvoice (vi_id x) (vi_tenant x) (vi_supplier x) (vi_po x) (vi_station x) (vi_number x) (vi_status x)
    (vi_received x) (vi_due x) z (vi_by x) (vi_approved x) (vi_notes x) (vi_created x).

Section Recording.
Context (driver : float64 -> dec).

(** [COALESCE($8::numeric, ROUND($6::numeric * $7::numeric, 2))], assigned to the
    column; the litres and the price are those of the request, not the columns. *)
Definition line_amount (litres price : dec) (amount : option dec) : dec :=
  match amount with Some a => a | None => dec_of 2 (round_to 2 (dec_mul litres price)) end.
Definition opt_text (v : option string) : Tx Proc proc_error (option dec) :=
  match v with None => tret None | Some t => let! d := proc_text t in tret (Some d) end.

Definition insert_invoice_line (tenant invoice po : uuid) (i : SupplierInvoiceLineInput) : Tx Proc proc_error unit :=
  let! price := proc_text (ln_price i) in
  let! amount := opt_text (ln_amount i) in
  let! s := tget in
  match first_where (po_line_by tenant po (ln_po_line i)) (db_po_lines (pr_db s)) with
  | None => tfail PrNotFound
  | Some o =>
      let! litres := proc_col 14 3 (driver (ln_litres i)) in
      let! pcol := proc_col 14 2 price in
      let! acol := proc_col 14 2 (line_amount (driver (ln_litres i)) price amount) in
      tguard ((0 <? litres) && (0 <=? pcol) && (0 <=? acol)) PrCheck ;;!
      let! id := proc_fresh in
      let! s := tget in
      tguard (fk_opt (fun k => exists_where (dl_by tenant k) (db_deliveries (pr_db s))) (ln_delivery i)) PrForeignKey ;;!
      tput (put_vlines (pr_lines s ++ [mkVendorLine id tenant invoice po (ln_po_line i) (ln_delivery i) (pl_product o)
                                         litres pcol acol (proc_now s)]) s)
  end.
Fixpoint insert_invoice_lines (tenant invoice po : uuid) (l : list SupplierInvoiceLineInput) : Tx Proc proc_error unit :=
  match l with
  | [] => tret tt
  | i :: rest => insert_invoice_line tenant invoice po i ;;! insert_invoice_lines tenant invoice po rest
  end.

Definition RecordSupplierInvoice (tenant : uuid) (i : SupplierInvoiceInput) : Tx Proc proc_error invoice_view :=
  let! s := tget in
  match first_where (po_by tenant (vn_po i)) (db_pos (pr_db s)) with
  | None => tfail PrNotFound
  | Some p =>
      tguard (negb (bool_decide (po_st p ∈ [PODraft; POCancelled]))) PrInvalidTransition ;;!
      let! id := proc_fresh in
      let! s := tget in
      tguard (negb (exists_where (same_number tenant (po_supplier p) (vn_number i)) (pr_invoices s))) PrUnique ;;!
      tguard (proc_supplier s tenant (po_supplier p) && proc_station s tenant (po_station p)
              && proc_user s tenant (vn_by i)) PrForeignKey ;;!
      tput (put_invoices (pr_invoices s ++
        [mkVendorInvoice id tenant (po_supplier p) (vn_po i) (po_station p) (vn_number i) VnRecorded
           (default (proc_now s) (vn_received i)) (vn_due i) 0 (vn_by i) None (vn_notes i) (proc_now s)]) s) ;;!
      insert_invoice_lines tenant id (vn_po i) (vn_lines i) ;;!
      let! s := tget in
      let! total := proc_col 14 2 (dec_of 2 (sum_by vl_amount (invoice_lines s tenant id))) in
      tguard (0 <=? total) PrCheck ;;!
      tput (put_invoices (update_where (vi_by_id tenant id) (set_invoice_total total) (pr_invoices s)) s) ;;!
      raiseInvoiceDiscrepancies tenant id ;;!
      refreshInvoiceMatchStatus tenant id ;;!
      let! s := tget in
      tlift (GetSupplierInvoice s tenant id)
  end.
End Recording.

(** ** Approval *)

Definition approved_invoice (actor : uuid) (now : Z) (x : VendorInvoice) : VendorInvoice :=
  mkVendorInvoice (vi_id x) (vi_tenant x) (vi_supplier x) (vi_po x) (vi_station x) (vi_number x) VnApproved
    (vi_received x) (vi_due x) (vi_total x) (vi_by x) (Some (actor, now)) (vi_notes x) (vi_created x).
Definition matched (tenant id : uuid) (x : VendorInvoice) : bool :=
  vi_by_id tenant id x && bool_decide (vi_status x = VnMatched).

(** The row is locked between its check and the update, which therefore finds it. *)
Definition ApproveSupplierInvoice (tenant id actor : uuid) : Tx Proc proc_error invoice_view :=
  let! s := tget in
  tguard (OpenDiscrepancyCount s tenant id =? 0)%nat PrHasDiscrepancy ;;!
  match first_where (vi_by_id tenant id) (pr_invoices s) with
  | None => tfail PrNotFound
  | Some x =>
      tguard (bool_decide (vi_status x = VnMatched)) PrNotMatched ;;!
      tguard (negb (bool_decide (vi_by x = actor))) PrSelfApproval ;;!
      tguard (proc_user s tenant actor) PrForeignKey ;;!
      tput (put_invoices (update_where (matched tenant id) (approved_invoice actor (proc_now s)) (pr_invoices s)) s) ;;!
      let! s := tget in
      tret (view_of s tenant (approved_invoice actor (proc_now s) x))
  end.

Definition resolved_disc (actor : uuid) (now : Z) (x : Discrepancy) : Discrepancy :=
  mkDiscrepancy (dc_id x) (dc_tenant x) (dc_invoice x) (dc_po x) (dc_delivery x) (dc_po_line x) (dc_variance x)
    (dc_detail x) (Some (actor, now)) (dc_raised x).
Definition open_by_id (tenant id : uuid) (x : Discrepancy) : bool :=
  bool_decide (dc_tenant x = tenant /\ dc_id x = id) && dc_open x.

Definition ResolveDiscrepancy (tenant id actor : uuid) : Tx Proc proc_error Discrepancy :=
  let! s := tget in
  match first_where (open_by_id tenant id) (pr_discs s) with
  | None => match GetDiscrepancy s tenant id with Err _ => tfail PrNotFound | Ok _ => tfail PrAlreadyResolved end
  | Some x =>
      tguard (proc_user s tenant actor) PrForeignKey ;;!
      tput (put_discs (update_where (open_by_id tenant id) (resolved_disc actor (proc_now s)) (pr_discs s)) s) ;;!
      refreshInvoiceMatchStatus tenant (dc_invoice x) ;;!
      tret (resolved_disc actor (proc_now s) x)
  end.
