(* ===== verification/ProcurementHandlers.v ===== *)
(** * Requests on procurement (procurement_handlers.go)

    [pool] is what a request reads before its transaction. *)

From stdpp Require Import base list strings.
From Stdlib Require Import ZArith Lia.
From S2P Require Import Prelude Numeric Schema Ledger Receiving Float64 Accounting Policy Operations Workforce WorkforceHandlers Procurement SupplierInvoices.

Local Open Scope Z_scope.
Local Open Scope tx_scope.

Definition proc_audit (a : Actor) (action : string) (entity : uuid) : Tx Proc http_error unit :=
  on_db (WriteWithOutbox (ac_tenant a) (ac_user a) action entity).
(** [events.WriteOutbox] *)
Definition write_outbox (a : Actor) (type : string) (entity : uuid) : Tx Proc http_error unit :=
  let! s := tget in tput (put_outbox (pr_outbox s ++ [mkAudit (ac_tenant a) (ac_user a) type entity]) s).
Definition found {A} (m : string) (r : result proc_error A) : result http_error A :=
  match r with Ok x => Ok x | Err e => Err (if bool_decide (e = PrNotFound) then HttpError 404 m else ops_internal) end.

Definition validOptionalDecimal (v : option string) : bool := match v with None => true | Some t => validDecimal t end.
Definition trimOptionalDecimal (v : option string) : option string := trim_space <$> v.

(** A date that is absent or empty is [None]. *)
Definition date_field (m : string) (d : option (result unit Z)) : result http_error (option Z) :=
  match d with
  | None => Ok None
  | Some (Ok t) => Ok (Some t)
  | Some (Err _) => Err (bad_request m)
  end.
Definition expected_message : string := "invalid expected_delivery_date (want YYYY-MM-DD)"%string.

Section Handlers.
Context {L : Type} `{Loader L}.
Context (policy : L) (collate : string -> string -> bool) (cfgDefault cfgMax : Z).
Context (driver : float64 -> dec) (numeric_div : dec -> dec -> dec).

(** ** Suppliers *)

Definition handleListSuppliers (pool : Proc) (ctx : option Actor) (limit offset : option (result unit Z))
  : result http_error (list (Supplier * list uuid) * bool) :=
  (let? a := ops_actor ctx in
   let? (l, o) := parsePage cfgDefault cfgMax limit offset in
   Ok (page_of l (ListSuppliersPage collate pool (ac_tenant a) (Z.to_nat (l + 1)) (Z.to_nat o))))%res.

Definition handleGetSupplier (pool : Proc) (ctx : option Actor) (id : result unit uuid)
  : result http_error (Supplier * list uuid) :=
  (let? a := ops_actor ctx in
   let? id := url_id "invalid supplier id" id in
   found "supplier not found" (GetSupplier pool (ac_tenant a) id))%res.

Definition supplier_error (e : proc_error) : http_error :=
  match e with
  | PrUnique => HttpError 409 "a supplier with that code already exists"
  | PrForeignKey => HttpError 404 "one or more products were not found"
  | _ => ops_internal
  end.

Definition supplierRequest : Type := SupplierInput.
Definition handleCreateSupplier (ctx : option Actor) (body : result unit supplierRequest)
  : Tx Proc http_error (Supplier * list uuid) :=
  let! a := tlift (ops_actor ctx) in
  let! q := tlift (json_body body) in
  let code := trim_space (pi_code q) in
  let name := trim_space (pi_name q) in
  tguard (negb (bool_decide (code = "")%string) && negb (bool_decide (name = "")%string))
    (bad_request "code and name are required") ;;!
  tguard (0 <=? pi_terms q) (bad_request "payment_terms_days must be non-negative") ;;!
  let! x := tconv supplier_error
    (CreateSupplier (ac_tenant a) (mkSupplierInput code name (pi_contact q) (pi_email q) (pi_phone q) (pi_terms q) (pi_products q))) in
  proc_audit a "supplier.created" (su_id x.1) ;;! tret x.

Definition supplier_status_word (w : string) : option supplier_status :=
  if bool_decide (w = "active")%string then Some SpActive
  else if bool_decide (w = "inactive")%string then Some SpInactive
  else if bool_decide (w = "deactivated")%string then Some SpDeactivated
  else None.
Record supplierUpdateRequest := mkSupplierUpdateRequest {
  uq_code : option string; uq_name : option string; uq_contact : option string; uq_email : option string;
  uq_phone : option string; uq_terms : option Z; uq_status : option string; uq_products : option (list uuid) }.

Definition handleUpdateSupplier (pool : Proc) (ctx : option Actor) (id : result unit uuid)
    (body : result unit supplierUpdateRequest) : Tx Proc http_error (Supplier * list uuid) :=
  let! a := tlift (ops_actor ctx) in
  let! id := tlift (url_id "invalid supplier id" id) in
  let! q := tlift (json_body body) in
  tguard (match uq_terms q with Some t => 0 <=? t | None => true end) (bad_request "payment_terms_days must be non-negative") ;;!
  let! st := tlift (match uq_status q with
    | None => Ok None
    | Some w => match supplier_status_word w with Some st => Ok (Some st) | None => Err (bad_request "invalid supplier status") end
    end) in
  let! _ := tlift (found "supplier not found" (GetSupplier pool (ac_tenant a) id)) in
  let! x := tconv supplier_error (UpdateSupplier (ac_tenant a) id
    (mkSupplierUpdate (uq_code q) (uq_name q) (uq_contact q) (uq_email q) (uq_phone q) (uq_terms q) st (uq_products q))) in
  proc_audit a "supplier.updated" id ;;! tret x.

Definition handleDeactivateSupplier (pool : Proc) (ctx : option Actor) (id : result unit uuid)
  : Tx Proc http_error (Supplier * list uuid) :=
  let! a := tlift (ops_actor ctx) in
  let! id := tlift (url_id "invalid supplier id" id) in
  let! _ := tlift (found "supplier not found" (GetSupplier pool (ac_tenant a) id)) in
  let! x := tconv (fun e => if bool_decide (e = PrSupplierInUse)
                            then HttpError 409 "supplier is referenced by an open purchase order" else ops_internal)
    (DeactivateSupplier (ac_tenant a) id) in
  proc_audit a "supplier.deactivated" id ;;! tret x.

(** ** Purchase orders *)

(** [poLineInputs]; the litres are the text of a [decimalInput]. *)
Definition line_ok (l : POLineInput) : bool :=
  negb (bool_decide (ni_product l = uuid_nil)) && validDecimal (ni_litres l)
  && f_lt (F64 0 0) (dispDecimal (ni_litres l)) && validDecimal (ni_price l).
Definition poLineInputs (l : list POLineInput) : option (list POLineInput) :=
  if forallb line_ok l then Some ((fun x => mkPOLineInput (ni_product x) (ni_litres x) (trim_space (ni_price x))) <$> l)
  else None.
Definition lines_message : string :=
  "lines must have product_id, positive ordered_litres, and decimal unit_price"%string.

Record createPORequest := mkCreatePO {
  cq_station : uuid; cq_supplier : uuid; cq_expected : option (result unit Z); cq_notes : option string;
  cq_lines : list POLineInput }.

Definition handleCreatePurchaseOrder (pool : Proc) (ctx : option Actor) (body : result unit createPORequest)
  : Tx Proc http_error (PurchaseOrder * list POLine) :=
  let! a := tlift (ops_actor ctx) in
  let! q := tlift (json_body body) in
  tguard (negb (bool_decide (cq_station q = uuid_nil)) && negb (bool_decide (cq_supplier q = uuid_nil))
          && negb (length (cq_lines q) =? 0)%nat)
    (bad_request "station_id, supplier_id, and at least one line are required") ;;!
  let! lines := tlift (of_option (bad_request lines_message) (poLineInputs (cq_lines q))) in
  let! expected := tlift (date_field expected_message (cq_expected q)) in
  tguard (exists_where (fun x => bool_decide (st_id x = cq_station q /\ st_tenant x = ac_tenant a) && negb (st_deleted x))
            (pr_stations pool)) (HttpError 404 "station not found") ;;!
  tlift (authorizeStation policy a "purchase_order.manage" (cq_station q)) ;;!
  let! x := tconv (fun e => match e with
      | PrSupplierUnavailable => HttpError 409 "supplier is not active"
      | PrForeignKey => HttpError 404 "supplier, station, or product not found"
      | _ => ops_internal
      end) (CreatePurchaseOrder (ac_tenant a) (mkPOInput (cq_station q) (cq_supplier q) expected (cq_notes q) lines (ac_user a))) in
  proc_audit a "purchase_order.created" (po_id x.1) ;;! tret x.

Definition query_id (m : string) (q : option (result unit uuid)) : result http_error (option uuid) :=
  match q with None => Ok None | Some (Ok i) => Ok (Some i) | Some (Err _) => Err (bad_request m) end.

Definition handleListPurchaseOrders (pool : Proc) (ctx : option Actor) (station supplier : option (result unit uuid))
    (status : option string) (limit offset : option (result unit Z))
  : result http_error (list (PurchaseOrder * list POLine) * bool) :=
  (let? a := ops_actor ctx in
   let? filter := stationReadFilter policy a station in
   let? supplier := query_id "invalid supplier_id" supplier in
   let? (l, o) := parsePage cfgDefault cfgMax limit offset in
   Ok (page_of l (ListPurchaseOrdersPage pool (ac_tenant a) (mkPOFilter filter supplier status) (Z.to_nat (l + 1))
                    (Z.to_nat o))))%res.

Definition purchaseOrderForStationPermission (pool : Proc) (ctx : option Actor) (id : result unit uuid) (perm : string)
  : result http_error (Actor * (PurchaseOrder * list POLine)) :=
  (let? a := ops_actor ctx in
   let? id := url_id "invalid purchase order id" id in
   let? po := found "purchase order not found" (GetPurchaseOrder pool (ac_tenant a) id) in
   let? _ := authorizeStation policy a perm (po_station po.1) in
   Ok (a, po))%res.

Definition handleGetPurchaseOrder (pool : Proc) (ctx : option Actor) (id : result unit uuid)
  : result http_error (PurchaseOrder * list POLine) :=
  (let? (_, po) := purchaseOrderForStationPermission pool ctx id "purchase_order.read" in Ok po)%res.

(** A date is absent, empty or a text. *)
Record updatePORequest := mkUpdatePO {
  wq_expected : option (option (result unit Z)); wq_notes : option string; wq_lines : option (list POLineInput) }.

Definition handleUpdatePurchaseOrder (pool : Proc) (ctx : option Actor) (id : result unit uuid)
    (body : result unit updatePORequest) : Tx Proc http_error (PurchaseOrder * list POLine) :=
  let! (a, before) := tlift (purchaseOrderForStationPermission pool ctx id "purchase_order.manage") in
  let! q := tlift (json_body body) in
  let! expected := tlift (match wq_expected q with
    | None => Ok None
    | Some d => (let? t := date_field expected_message d in Ok (Some t))%res
    end) in
  let! lines := tlift (match wq_lines q with
    | None => Ok None
    | Some [] => Err (bad_request "at least one line is required")
    | Some l => (let? l := of_option (bad_request lines_message) (poLineInputs l) in Ok (Some l))%res
    end) in
  let! x := tconv (fun e => match e with
      | PrNotDraft => HttpError 409 "purchase order lines can only be edited while draft"
      | PrForeignKey => HttpError 404 "product not found"
      | _ => ops_internal
      end) (UpdatePurchaseOrderDraft (ac_tenant a) (po_id before.1) (mkPOUpdate expected (wq_notes q) lines)) in
  proc_audit a "purchase_order.updated" (po_id x.1) ;;! tret x.

Definition po_of_word (w : string) : option po_status :=
  find (fun st => bool_decide (po_word st = w))
    [PODraft; POSubmitted; POConfirmed; POPartiallyReceived; POReceived; POClosed; POCancelled].
Definition poTransitionEvent (st : po_status) : string :=
  match st with
  | POSubmitted => "purchase_order.submitted" | POConfirmed => "purchase_order.confirmed"
  | POCancelled => "purchase_order.cancelled" | POClosed => "purchase_order.closed"
  | _ => "purchase_order.updated"
  end%string.
Definition transition_refused : http_error := HttpError 409 "invalid purchase order status transition".

Definition handleTransitionPurchaseOrder (pool : Proc) (ctx : option Actor) (id : result unit uuid) (body : result unit string)
  : Tx Proc http_error (PurchaseOrder * list POLine) :=
  let! (a, before) := tlift (purchaseOrderForStationPermission pool ctx id "purchase_order.approve") in
  let! w := tlift (json_body body) in
  let! to := tlift (of_option transition_refused (po_of_word w)) in
  tguard (ValidPurchaseOrderTransition (po_st before.1) to) transition_refused ;;!
  let! x := tconv (fun e => if bool_decide (e = PrInvalidTransition) then transition_refused else ops_internal)
    (TransitionPurchaseOrder (ac_tenant a) (po_id before.1) (ac_user a) (po_st before.1) to) in
  proc_audit a (poTransitionEvent to) (po_id x.1) ;;! tret x.

(** ** Receipts *)

Record receivePOReceiptRequest := mkReceiptRequest {
  eq_tank : uuid; eq_line : uuid; eq_volume : string; eq_before : option float64; eq_after : option float64;
  eq_price : option string; eq_freight : string; eq_duty : string; eq_levies : string; eq_notes : option string }.

Definition receipt_error (e : inv_error) : http_error :=
  match e with
  | ErrNoOpeningBalance => HttpError 409 "tank has no opening balance; set one before receiving deliveries"
  | ErrPurchaseOrderNotReceivable => HttpError 409 "purchase order is not confirmed or partially received"
  | ErrPOLineNotFound => HttpError 404 "purchase order line not found"
  | ErrReceiptTankMismatch => bad_request "tank does not match the purchase order station/product"
  | ErrOverReceipt => HttpError 422 "receipt exceeds the ordered quantity"
  | _ => ops_internal
  end.

Definition f_abs (x : float64) : float64 := if f_lt x (F64 0 0) then f_neg x else x.
(** The cross-check of the dips, which is answered and not stored as a verdict. *)
Definition dip_mismatch (pool : Proc) (tenant : uuid) (tank : Tank) (volume : string) (before after : option float64)
  : result http_error bool :=
  match before, after with
  | Some b, Some c =>
      let vol := dispDecimal volume in
      let v := f_sub vol (f_sub c b) in
      match first_where (fun p => bool_decide (pw_id p = tk_product tank /\ pw_tenant p = tenant) && negb (pw_deleted p))
              (pr_products pool) with
      | None => Err ops_internal
      | Some p => Ok (f_lt (f_div (f_mul vol (dispDecimal (pw_tolerance p))) (F64 100 0)) (f_abs v))
      end
  | _, _ => Ok false
  end.

Definition handleReceivePurchaseOrderReceipt (pool : Proc) (ctx : option Actor) (id : result unit uuid)
    (body : result unit receivePOReceiptRequest) : Tx Proc http_error (GoodsReceiptResult * bool) :=
  let! (a, po) := tlift (purchaseOrderForStationPermission pool ctx id "delivery.receive") in
  let! q := tlift (json_body body) in
  tguard (negb (bool_decide (eq_tank q = uuid_nil)) && negb (bool_decide (eq_line q = uuid_nil))
          && validDecimal (eq_volume q) && f_lt (F64 0 0) (dispDecimal (eq_volume q)))
    (bad_request "tank_id, po_line_id, and a positive decimal volume_litres are required") ;;!
  tguard (any_or (eq_before q) (fun x => negb (f_lt x (F64 0 0))) && any_or (eq_after q) (fun x => negb (f_lt x (F64 0 0))))
    (bad_request "dip volumes must be non-negative") ;;!
  tguard (validOptionalDecimal (eq_price q) && validDecimal (defaultDecimal (eq_freight q))
          && validDecimal (defaultDecimal (eq_duty q)) && validDecimal (defaultDecimal (eq_levies q)))
    (bad_request "cost fields must be non-negative decimal strings") ;;!
  let! tank := tlift (of_option (HttpError 404 "tank not found")
    (first_where (fun t => tank_by (ac_tenant a) (eq_tank q) t && negb (tk_deleted t)) (db_tanks (pr_db pool)))) in
  let! mismatch := tlift (dip_mismatch pool (ac_tenant a) tank (eq_volume q) (eq_before q) (eq_after q)) in
  let! res := tconv receipt_error (on_db (ReceiveGoodsReceipt numeric_div (ac_tenant a)
    (mkGoodsReceiptInput (eq_tank q) (po_id po.1) (eq_line q) (eq_volume q) (eq_price q) (defaultDecimal (eq_freight q))
       (defaultDecimal (eq_duty q)) (defaultDecimal (eq_levies q)) (ac_user a) (eq_notes q)))) in
  proc_audit a "goods_receipt.recorded" (dl_id (res_delivery res)) ;;!
  proc_audit a "goods_receipt.priced" (dl_id (res_delivery res)) ;;!
  (if bool_decide (res_po_status res ∈ [POPartiallyReceived; POReceived])
   then proc_audit a "purchase_order.received" (po_id po.1) else tret tt) ;;!
  tret (res, mismatch).

(** ** Invoices *)

Record recordInvoiceRequest := mkRecordInvoice {
  rq_po : uuid; rq_number : string; rq_received : option (result unit Z); rq_due : option (result unit Z);
  rq_notes : option string; rq_lines : list SupplierInvoiceLineInput }.

Definition invoice_line_ok (l : SupplierInvoiceLineInput) : bool :=
  negb (bool_decide (ln_po_line l = uuid_nil)) && f_lt (F64 0 0) (ln_litres l) && validDecimal (ln_price l)
  && validOptionalDecimal (ln_amount l).
Definition trimmed_line (l : SupplierInvoiceLineInput) : SupplierInvoiceLineInput :=
  mkInvoiceLineInput (ln_po_line l) (ln_delivery l) (ln_litres l) (trim_space (ln_price l)) (trimOptionalDecimal (ln_amount l)).

Fixpoint audit_discs (a : Actor) (l : list Discrepancy) : Tx Proc http_error unit :=
  match l with
  | [] => tret tt
  | x :: rest =>
      (if dc_open x then proc_audit a "procurement_discrepancy.raised" (dc_id x) else tret tt) ;;! audit_discs a rest
  end.

Definition handleRecordSupplierInvoice (pool : Proc) (ctx : option Actor) (body : result unit recordInvoiceRequest)
  : Tx Proc http_error invoice_view :=
  let! a := tlift (ops_actor ctx) in
  let! q := tlift (json_body body) in
  let number := trim_space (rq_number q) in
  tguard (negb (bool_decide (rq_po q = uuid_nil)) && negb (bool_decide (number = "")%string)
          && negb (length (rq_lines q) =? 0)%nat)
    (bad_request "purchase_order_id, invoice_number, and lines are required") ;;!
  let! received := tlift (date_field "received_at must be RFC3339" (rq_received q)) in
  let! due := tlift (date_field "invalid due_date (want YYYY-MM-DD)" (rq_due q)) in
  let! po := tlift (found "purchase order not found" (GetPurchaseOrder pool (ac_tenant a) (rq_po q))) in
  tlift (authorizeStation policy a "invoice.manage" (po_station po.1)) ;;!
  tguard (forallb invoice_line_ok (rq_lines q))
    (bad_request "invoice lines require po_line_id, positive invoiced_litres, and decimal unit_price/amount") ;;!
  let! x := tconv (fun e => match e with
      | PrUnique => HttpError 409 "supplier invoice number already exists"
      | PrInvalidTransition => HttpError 409 "invoice can only be recorded against a submitted or later purchase order"
      | PrNotFound | PrForeignKey => HttpError 404 "purchase order line or delivery not found"
      | _ => ops_internal
      end) (RecordSupplierInvoice driver (ac_tenant a)
              (mkInvoiceInput (rq_po q) number received due (rq_notes q) (ac_user a) (trimmed_line <$> rq_lines q))) in
  proc_audit a "supplier_invoice.recorded" (vi_id x.1.1) ;;!
  audit_discs a x.2 ;;! tret x.

Definition handleListSupplierInvoices (pool : Proc) (ctx : option Actor) (station supplier po : option (result unit uuid))
    (status : option string) (limit offset : option (result unit Z)) : result http_error (list invoice_view * bool) :=
  (let? a := ops_actor ctx in
   let? filter := stationReadFilter policy a station in
   let? supplier := query_id "invalid supplier_id" supplier in
   let? po := query_id "invalid purchase_order_id" po in
   let? (l, o) := parsePage cfgDefault cfgMax limit offset in
   Ok (page_of l (ListSupplierInvoicesPage pool (ac_tenant a) (mkInvoiceFilter filter supplier po status)
                    (Z.to_nat (l + 1)) (Z.to_nat o))))%res.

Definition invoiceForStationPermission (pool : Proc) (ctx : option Actor) (id : result unit uuid) (perm : string)
  : result http_error (Actor * invoice_view) :=
  (let? a := ops_actor ctx in
   let? id := url_id "invalid supplier invoice id" id in
   let? x := found "supplier invoice not found" (GetSupplierInvoice pool (ac_tenant a) id) in
   let? _ := authorizeStation policy a perm (vi_station x.1.1) in
   Ok (a, x))%res.

Definition handleGetSupplierInvoice (pool : Proc) (ctx : option Actor) (id : result unit uuid)
  : result http_error invoice_view :=
  (let? (_, x) := invoiceForStationPermission pool ctx id "invoice.manage" in Ok x)%res.

Definition handleApproveSupplierInvoice (pool : Proc) (ctx : option Actor) (id : result unit uuid)
  : Tx Proc http_error invoice_view :=
  let! (a, before) := tlift (invoiceForStationPermission pool ctx id "invoice.approve") in
  let! x := tconv (fun e => match e with
      | PrHasDiscrepancy => HttpError 409 "resolve procurement discrepancies before approving"
      | PrNotMatched => HttpError 409 "invoice is not matched"
      | PrSelfApproval => HttpError 403 "separation of duties: you cannot approve an invoice you recorded"
      | _ => ops_internal
      end) (ApproveSupplierInvoice (ac_tenant a) (vi_id before.1.1) (ac_user a)) in
  proc_audit a "supplier_invoice.approved" (vi_id x.1.1) ;;!
  write_outbox a "PayableCreated" (vi_id x.1.1) ;;! tret x.

Definition handleResolveProcurementDiscrepancy (pool : Proc) (ctx : option Actor) (id : result unit uuid)
    (body : result unit string) : Tx Proc http_error Discrepancy :=
  let! a := tlift (ops_actor ctx) in
  let! id := tlift (url_id "invalid discrepancy id" id) in
  let! w := tlift (json_body body) in
  tguard (bool_decide (w = "resolved")%string) (bad_request "status must be resolved") ;;!
  let! before := tlift (found "discrepancy not found" (GetDiscrepancy pool (ac_tenant a) id)) in
  let! inv := tlift (match GetSupplierInvoice pool (ac_tenant a) (dc_invoice before) with
    | Ok x => Ok x | Err _ => Err ops_internal end) in
  tlift (authorizeStation policy a "invoice.approve" (vi_station inv.1.1)) ;;!
  let! x := tconv (fun e => if bool_decide (e = PrAlreadyResolved) then HttpError 409 "discrepancy is already resolved"
                            else ops_internal) (ResolveDiscrepancy (ac_tenant a) id (ac_user a)) in
  proc_audit a "procurement_discrepancy.resolved" (dc_id x) ;;! tret x.
End Handlers.
