(* ===== verification/ProcurementProps.v ===== *)
(** * Properties of procurement: the effect of each statement

    Requests on the tables of [Proc] as one type, the effect of every operation,
    and the invariant that ties orders, deliveries, invoices and discrepancies. *)

From stdpp Require Import base list strings relations.
From Stdlib Require Import ZArith Lia.
From S2P Require Import Prelude Frames Numeric Schema Ledger StockRequestsProps Receiving ReceivingProps Float64 Accounting Policy Operations RosterProps Workforce WorkforceHandlers Procurement SupplierInvoices ProcurementHandlers.

Local Open Scope Z_scope.
Local Open Scope tx_scope.

(** ** Requests *)

Inductive proc_request :=
| PqCreateSupplier (ctx : option Actor) (body : result unit supplierRequest)
| PqUpdateSupplier (ctx : option Actor) (id : result unit uuid) (body : result unit supplierUpdateRequest)
| PqDeactivate (ctx : option Actor) (id : result unit uuid)
| PqCreateOrder (ctx : option Actor) (body : result unit createPORequest)
| PqUpdateOrder (ctx : option Actor) (id : result unit uuid) (body : result unit updatePORequest)
| PqTransition (ctx : option Actor) (id : result unit uuid) (body : result unit string)
| PqReceipt (ctx : option Actor) (id : result unit uuid) (body : result unit receivePOReceiptRequest)
| PqInvoice (ctx : option Actor) (body : result unit recordInvoiceRequest)
| PqApprove (ctx : option Actor) (id : result unit uuid)
| PqResolve (ctx : option Actor) (id : result unit uuid) (body : result unit string).

Definition done_with {A} (c : Tx Proc http_error A) : Tx Proc http_error unit := c ;;! tret tt.

Section Serve.
Context {L : Type} `{Loader L} (policy : L) (driver : float64 -> dec) (numeric_div : dec -> dec -> dec).

(** The handler of a request; [pool] is the state its reads showed. *)
Definition proc_serve (pool : Proc) (r : proc_request) : Tx Proc http_error unit :=
  match r with
  | PqCreateSupplier c b => done_with (handleCreateSupplier c b)
  | PqUpdateSupplier c i b => done_with (handleUpdateSupplier pool c i b)
  | PqDeactivate c i => done_with (handleDeactivateSupplier pool c i)
  | PqCreateOrder c b => done_with (handleCreatePurchaseOrder policy pool c b)
  | PqUpdateOrder c i b => done_with (handleUpdatePurchaseOrder policy pool c i b)
  | PqTransition c i b => done_with (handleTransitionPurchaseOrder policy pool c i b)
  | PqReceipt c i b => done_with (handleReceivePurchaseOrderReceipt policy numeric_div pool c i b)
  | PqInvoice c b => done_with (handleRecordSupplierInvoice policy driver pool c b)
  | PqApprove c i => done_with (handleApproveSupplierInvoice policy pool c i)
  | PqResolve c i b => done_with (handleResolveProcurementDiscrepancy policy pool c i b)
  end.
End Serve.

(** ** Effects *)

(** What the properties are about. *)
Definition proc_next (s : Proc) : uuid := db_next_id (pr_db s).
Definition proc_tables (s : Proc) :=
  (db_pos (pr_db s), db_po_lines (pr_db s), db_deliveries (pr_db s), db_movements (pr_db s), pr_invoices s, pr_lines s, pr_discs s).
Definition calm (s s' : Proc) : Prop := proc_tables s' = proc_tables s /\ (proc_next s <= proc_next s')%N.
#[export] Instance calm_pre : PreOrder calm.
Proof. split; [by intros s|]. intros s s1 s2 [E1 H1] [E2 H2]. split; [congruence|lia]. Qed.

Lemma on_db_ok {E A} (c : Tx DB E A) s x s' : on_db c s = Ok (x, s') -> exists d, c (pr_db s) = Ok (x, d) /\ s' = put_db d s.
Proof. unfold on_db. destruct (c (pr_db s)) as [[y d]|]; [|done]. intros [= -> <-]. eauto. Qed.
Lemma proc_col_ok p sc d s z s' : proc_col p sc d s = Ok (z, s') -> numeric_col p sc d = Some z /\ s' = s.
Proof. unfold proc_col. intros (H & ->)%tlift_ok. destruct (numeric_col p sc d); by simplify_eq/=. Qed.
Lemma proc_text_ok v s d s' : proc_text v s = Ok (d, s') -> parse_numeric v = Some d /\ s' = s.
Proof. unfold proc_text. intros (H & ->)%tlift_ok. destruct (parse_numeric v); by simplify_eq/=. Qed.

Lemma calm_audit a x k : obeys calm (proc_audit a x k).
Proof. intros s y s' (d & ->%WriteWithOutbox_ok & ->)%on_db_ok. by split. Qed.
Lemma calm_outbox a x k : obeys calm (write_outbox a x k).
Proof. intros s y s' [= _ <-]. by split. Qed.
Lemma calm_insert_supplies t k l : obeys calm (insert_supplies t k l).
Proof.
  induction l as [|p l IH]; intros s x s' H; cbn [insert_supplies] in H; [by apply tret_ok in H as [_ ->]|].
  apply tbind_get_ok, tbind_ok in H as (u & s1 & H1 & H2). apply IH in H2. etrans; [|exact H2]. tx_steps H1.
  - by subst.
  - injection H1 as _ <-. by split.
Qed.
Lemma calm_replace t k l : obeys calm (replaceSupplierProducts t k l).
Proof.
  intros s x s' H. unfold replaceSupplierProducts in H. tx_steps H. apply calm_insert_supplies in H. etrans; [|exact H]. by split.
Qed.
Lemma calm_CreateSupplier t i : obeys calm (CreateSupplier t i).
Proof.
  intros s x s' H. unfold CreateSupplier in H. tx_steps H. simplify_eq. unfold proc_fresh in *. simplify_eq.
  eapply calm_replace in E2. etrans; [|exact E2]. split; [done|unfold proc_next; simpl; lia].
Qed.
Lemma calm_UpdateSupplier t k i : obeys calm (UpdateSupplier t k i).
Proof.
  intros s x s' H. unfold UpdateSupplier in H. tx_steps H; simplify_eq; [|by split].
  eapply calm_replace in E3. etrans; [|exact E3]. by split.
Qed.
Lemma calm_DeactivateSupplier t k : obeys calm (DeactivateSupplier t k).
Proof. intros s x s' H. unfold DeactivateSupplier in H. tx_steps H. by apply calm_UpdateSupplier in H. Qed.

(** Lines added to an order. *)
Definition no_lines (s : Proc) :=
  (db_pos (pr_db s), db_deliveries (pr_db s), db_movements (pr_db s), pr_invoices s, pr_lines s, pr_discs s).
Definition new_line (t po : uuid) (o : POLine) : Prop :=
  pl_tenant o = t /\ pl_po o = po /\ pl_received o = 0 /\ 0 < pl_ordered o /\ 0 <= pl_unit_price o.
Lemma lines_added t po l : forall s u s', insertPurchaseOrderLines t po l s = Ok (u, s') ->
  no_lines s' = no_lines s
  /\ exists ls, db_po_lines (pr_db s') = db_po_lines (pr_db s) ++ ls
     /\ fresh_rows pl_id (proc_next s) (proc_next s') ls /\ forall o, In o ls -> new_line t po o.
Proof.
  induction l as [|x l IH]; intros s u s' H; cbn [insertPurchaseOrderLines] in H.
  { apply tret_ok in H as [_ ->]. split; [done|]. exists []. rewrite app_nil_r. split; [done|]. split; [apply fresh_nil|done]. }
  tx_steps H. apply proc_text_ok in E as [_ ->]. apply proc_text_ok in E1 as [_ ->].
  apply proc_col_ok in E0 as [_ ->], E2 as [_ ->]. unfold proc_fresh in E4. injection E4 as <- <-.
  apply IH in H as (En & ls & El & Hf & Hls). split; [exact En|]. eexists (_ :: ls). simpl in El. rewrite <- app_assoc in El.
  split; [exact El|]. split; [by apply fresh_cons|]. intros o [<-|Ho]; [|by apply Hls].
  bool_solve. unfold new_line. simpl. split_and!; [done..| |]; lia.
Qed.

(** The step of an order from one status to another. *)
Lemma create_order_ok t i s x s' : CreatePurchaseOrder t i s = Ok (x, s') ->
  exists p ls, po_id p = proc_next s /\ po_tenant p = t /\ po_st p = PODraft
    /\ po_head p = mkPOHead (oi_expected i) (oi_raised_by i) None None None None (oi_notes i) (proc_now s)
    /\ no_lines s' = (db_pos (pr_db s) ++ [p], db_deliveries (pr_db s), db_movements (pr_db s), pr_invoices s, pr_lines s, pr_discs s)
    /\ db_po_lines (pr_db s') = db_po_lines (pr_db s) ++ ls
    /\ fresh_rows pl_id (proc_next s + 1) (proc_next s') ls /\ (forall o, In o ls -> new_line t (po_id p) o).
Proof.
  intros H. unfold CreatePurchaseOrder in H. tx_steps H. simplify_eq. unfold proc_fresh in E0. injection E0 as <- <-.
  apply lines_added in E2 as (En & ls & El & Hf & Hls). eexists _, ls. split; [|split; [|split; [|split; [|split; [|split; [|split]]]]]].
  5: exact En. all: done.
Qed.

Definition keeps_terms (g : PurchaseOrder -> PurchaseOrder) : Prop :=
  forall p, po_id (g p) = po_id p /\ po_tenant (g p) = po_tenant p /\ po_station (g p) = po_station p
    /\ po_supplier (g p) = po_supplier p.

Definition is_draft (t id : uuid) (p : PurchaseOrder) : bool := po_by t id p && bool_decide (po_st p = PODraft).
Lemma update_order_ok t id i s x s' : UpdatePurchaseOrderDraft t id i s = Ok (x, s') ->
  (exists p, In p (db_pos (pr_db s)) /\ is_draft t id p = true)
  /\ no_lines s' = (update_where (is_draft t id) (set_po_head (edited i)) (db_pos (pr_db s)), db_deliveries (pr_db s),
                    db_movements (pr_db s), pr_invoices s, pr_lines s, pr_discs s)
  /\ (proc_next s <= proc_next s')%N
  /\ (db_po_lines (pr_db s') = db_po_lines (pr_db s)
      \/ exists ls, db_po_lines (pr_db s') = select (fun l => negb (of_order t id l)) (db_po_lines (pr_db s)) ++ ls
           /\ (forall o, In o (order_lines (pr_db s) t id) -> line_in_use s o = false)
           /\ fresh_rows pl_id (proc_next s) (proc_next s') ls /\ (forall o, In o ls -> new_line t id o)).
Proof.
  intros H. unfold UpdatePurchaseOrderDraft in H. fold (is_draft t id) in H. apply tbind_get_ok in H.
  destruct (first_where (is_draft t id) (db_pos (pr_db s))) as [p|] eqn:Ep; [|by tx_steps H].
  apply tbind_put_ok, tbind_ok in H as (u & s1 & H1 & H2). apply tbind_get_ok, tret_ok in H2 as [_ ->].
  split; [exists p; by apply first_where_some in Ep|].
  destruct (ou_lines i) as [l|]; [|by apply tret_ok in H1 as [_ ->]; split; [|split; [|left]]].
  tx_steps H1. apply lines_added in H1 as (En & ls & El & Hf & Hls). split; [exact En|]. split; [apply Hf|]. right.
  exists ls. split; [exact El|]. split; [|done]. intros o Ho. simpl in E. apply negb_true_iff in E.
  destruct (line_in_use s o) eqn:Eu; [|done]. exfalso. apply not_true_iff_false in E. apply E, existsb_exists. exists o.
  split; [exact Ho|exact Eu].
Qed.

Lemma transition_ok t id actor from to s x s' : TransitionPurchaseOrder t id actor from to s = Ok (x, s') ->
  proc_tables s' = (update_where (at_status t id from) (moved_order actor (proc_now s) to) (db_pos (pr_db s)),
    db_po_lines (pr_db s), db_deliveries (pr_db s), db_movements (pr_db s), pr_invoices s, pr_lines s, pr_discs s)
  /\ proc_next s' = proc_next s.
Proof. intros H. unfold TransitionPurchaseOrder in H. tx_steps H. by simplify_eq. Qed.

(** Lines of an invoice, and the discrepancies raised. *)
Definition no_vlines (s : Proc) :=
  (db_pos (pr_db s), db_po_lines (pr_db s), db_deliveries (pr_db s), db_movements (pr_db s), pr_invoices s, pr_discs s).
Definition vline_ok (t inv po : uuid) (s : Proc) (l : VendorLine) : Prop :=
  vl_tenant l = t /\ vl_invoice l = inv /\ vl_po l = po /\ 0 < vl_litres l /\ 0 <= vl_price l /\ 0 <= vl_amount l
  /\ (exists o, In o (db_po_lines (pr_db s)) /\ po_line_by t po (vl_po_line l) o = true)
  /\ (forall k, vl_delivery l = Some k -> exists x, In x (db_deliveries (pr_db s)) /\ dl_by t k x = true).

Lemma opt_text_ok v s d s' : opt_text v s = Ok (d, s') -> s' = s.
Proof. unfold opt_text. destruct v; intros H; tx_steps H; [|done]. apply proc_text_ok in E as [_ ->]. done. Qed.

Lemma invoice_line_added driver t inv po i s u s' : insert_invoice_line driver t inv po i s = Ok (u, s') ->
  exists l, s' = put_vlines (pr_lines s ++ [l]) (put_db (set_next_id (proc_next s + 1)%N (pr_db s)) s)
    /\ vl_id l = proc_next s /\ vline_ok t inv po s l.
Proof.
  unfold insert_invoice_line. intros H. tx_steps H. apply proc_text_ok in E as [_ ->]. apply opt_text_ok in E0 as ->.
  apply proc_col_ok in E2 as [_ ->], E3 as [_ ->], E4 as [_ ->]. unfold proc_fresh in E6. injection E6 as <- <-.
  injection H as _ <-. bool_solve. eexists. split; [reflexivity|]. split; [done|].
  apply first_where_some in E1. unfold vline_ok. simpl. split_and!; try done; [lia..|by eexists|].
  intros k Ek. rewrite Ek in E7. by apply exists_where_true in E7.
Qed.

Lemma invoice_lines_added driver t inv po l : forall s u s', insert_invoice_lines driver t inv po l s = Ok (u, s') ->
  no_vlines s' = no_vlines s
  /\ exists ls, pr_lines s' = pr_lines s ++ ls /\ fresh_rows vl_id (proc_next s) (proc_next s') ls
     /\ forall x, In x ls -> vline_ok t inv po s x.
Proof.
  induction l as [|i l IH]; intros s u s' H; cbn [insert_invoice_lines] in H.
  { apply tret_ok in H as [_ ->]. split; [done|]. exists []. rewrite app_nil_r. split; [done|]. split; [apply fresh_nil|done]. }
  apply tbind_ok in H as (v & s1 & (x & -> & Hx & Hok)%invoice_line_added & H).
  apply IH in H as (En & ls & El & Hf & Hls). split; [exact En|]. exists (x :: ls). simpl in El. rewrite <- app_assoc in El.
  split; [exact El|]. split; [by apply fresh_cons|]. intros y [<-|Hy]; [done|]. by apply Hls in Hy.
Qed.

Definition no_discs (s : Proc) :=
  (db_pos (pr_db s), db_po_lines (pr_db s), db_deliveries (pr_db s), db_movements (pr_db s), pr_invoices s, pr_lines s).
Definition raised_for (t : uuid) (r : VendorLine * variance * string) (d : Discrepancy) : Prop :=
  dc_tenant d = t /\ dc_invoice d = vl_invoice r.1.1 /\ dc_po d = vl_po r.1.1 /\ dc_po_line d = vl_po_line r.1.1
  /\ dc_delivery d = vl_delivery r.1.1 /\ dc_variance d = r.1.2 /\ dc_resolved d = None.

Lemma discs_added t l : forall s u s', insert_discs t l s = Ok (u, s') ->
  no_discs s' = no_discs s
  /\ exists ds, pr_discs s' = pr_discs s ++ ds /\ fresh_rows dc_id (proc_next s) (proc_next s') ds
     /\ Forall2 (raised_for t) l ds.
Proof.
  induction l as [|[[x v] w] l IH]; intros s u s' H; cbn [insert_discs] in H.
  { apply tret_ok in H as [_ ->]. split; [done|]. exists []. rewrite app_nil_r. split; [done|].
    split; [apply fresh_nil|constructor]. }
  tx_steps H. unfold proc_fresh in E0. injection E0 as <- <-. apply IH in H as (En & ds & El & Hf & Hds).
  split; [exact En|]. eexists (_ :: ds). simpl in El. rewrite <- app_assoc in El. split; [exact El|].
  split; [by apply fresh_cons|]. constructor; [|exact Hds]. done.
Qed.

Definition to_raise (s : Proc) (m : list (VendorLine * POLine)) : list (VendorLine * variance * string) :=
  quantity_rows s m ++ price_rows m.
Lemma raise_ok t inv s u s' : raiseInvoiceDiscrepancies t inv s = Ok (u, s') ->
  no_discs s' = no_discs s
  /\ exists ds, pr_discs s' = pr_discs s ++ ds /\ fresh_rows dc_id (proc_next s) (proc_next s') ds
     /\ Forall2 (raised_for t) (to_raise s (line_match s t inv)) ds.
Proof.
  unfold raiseInvoiceDiscrepancies. intros H. tx_steps H. apply discs_added in E as (En1 & d1 & E1 & F1 & R1).
  apply discs_added in H as (En2 & d2 & E2 & F2 & R2). split; [congruence|]. exists (d1 ++ d2).
  assert (Em : line_match x0 t inv = line_match s t inv).
  { unfold line_match, invoice_lines. unfold no_discs in En1. by injection En1 as _ -> _ _ _ ->. }
  rewrite Em in R2. split; [by rewrite E2, E1, <- app_assoc|]. split; [by eapply fresh_app|]. by apply Forall2_app.
Qed.

(** The rows of an invoice that is being recorded are its own. *)
Record ids_below (s : Proc) : Prop := {
  ib_invoices : forall x, In x (pr_invoices s) -> (vi_id x < proc_next s)%N;
  ib_lines : forall l, In l (pr_lines s) -> (vl_invoice l < proc_next s)%N;
  ib_discs : forall d, In d (pr_discs s) -> (dc_invoice d < proc_next s)%N;
}.

Lemma update_where_last {R} (q : R -> bool) g (l : list R) x :
  (forall y, In y l -> q y = false) -> q x = true -> update_where q g (l ++ [x]) = l ++ [g x].
Proof.
  intros Hl Hx. unfold update_where. rewrite map_app. simpl. rewrite Hx. f_equal. induction l as [|y l IH]; [done|]. simpl.
  rewrite (Hl y) by (by left). f_equal. apply IH. intros z Hz. apply Hl. by right.
Qed.
Lemma select_own {R} (p : R -> bool) (l ls : list R) :
  (forall y, In y l -> p y = false) -> (forall y, In y ls -> p y = true) -> select p (l ++ ls) = ls.
Proof. intros H1 H2. rewrite select_app, (select_none _ l H1), (select_all _ ls H2). done. Qed.

(** The three-way match of a set of lines with those of the order. *)
Definition matched_lines (s : Proc) (ls : list VendorLine) : list (VendorLine * POLine) :=
  join (fun l o => po_line_by (vl_tenant l) (vl_po l) (vl_po_line l) o) ls (db_po_lines (pr_db s)).

Record recorded (t : uuid) (i : SupplierInvoiceInput) (s : Proc) (v : invoice_view) (s' : Proc)
    (p : PurchaseOrder) (x : VendorInvoice) (ls : list VendorLine) (ds : list Discrepancy) : Prop := {
  rd_order : In p (db_pos (pr_db s)) /\ po_by t (vn_po i) p = true /\ (po_st p ∉ [PODraft; POCancelled]);
  rd_row : x = mkVendorInvoice (proc_next s) t (po_supplier p) (vn_po i) (po_station p) (vn_number i)
      (if decide (ds = []) then VnMatched else VnDiscrepancy) (default (proc_now s) (vn_received i)) (vn_due i)
      (sum_by vl_amount ls) (vn_by i) None (vn_notes i) (proc_now s);
  rd_tables : proc_tables s' = (db_pos (pr_db s), db_po_lines (pr_db s), db_deliveries (pr_db s), db_movements (pr_db s),
      pr_invoices s ++ [x], pr_lines s ++ ls, pr_discs s ++ ds);
  rd_next : (proc_next s < proc_next s')%N;
  rd_lines : fresh_rows vl_id (proc_next s + 1) (proc_next s') ls;
  rd_line : forall l, In l ls -> vline_ok t (proc_next s) (vn_po i) s l;
  rd_discs : fresh_rows dc_id (proc_next s + 1) (proc_next s') ds;
  rd_raised : Forall2 (raised_for t) (to_raise s (matched_lines s ls)) ds;
  rd_view : v = view_of s' t x;
}.

Lemma to_raise_frame s s' m : db_deliveries (pr_db s') = db_deliveries (pr_db s) -> to_raise s' m = to_raise s m.
Proof.
  intros E. unfold to_raise. f_equal. unfold quantity_rows.
  assert (Er : forall l o, reference_litres s' l o = reference_litres s l o) by (intros; unfold reference_litres; by rewrite E).
  rewrite (select_ext _ (fun '(l, o) => litres_beyond (vl_litres l) (reference_litres s l o))).
  - apply list_fmap_ext. intros _ [l o] _. by rewrite Er.
  - intros [l o] _. by rewrite Er.
Qed.

Lemma raised_open t m ds n :
  Forall2 (raised_for t) m ds -> (forall r, In r m -> vl_invoice r.1.1 = n) ->
  (forall d, In d ds -> disc_of t n d = true /\ dc_open d = true).
Proof.
  induction 1 as [|r d m ds (Ht & Hn & _ & _ & _ & _ & Ho) _ IH]; intros Hm d' Hd; [done|]. destruct Hd as [<-|Hd].
  - unfold disc_of, dc_open. rewrite Hn, (Hm r) by (by left). by rewrite !bool_decide_eq_true_2.
  - apply IH; [|done]. intros. apply Hm. by right.
Qed.
Lemma to_raise_lines s ls r : In r (to_raise s (matched_lines s ls)) -> In r.1.1 ls.
Proof.
  intros [Hr|Hr]%in_app_or; apply list_elem_of_In, list_elem_of_fmap in Hr as ([l o] & -> & Hr%list_elem_of_In);
    apply in_select in Hr as [Hr _]; by apply in_join in Hr as (? & _ & _).
Qed.

(** What the refresh of a new invoice decides. *)
Lemma refresh_new t n s ds u s' x :
  refreshInvoiceMatchStatus t n s = Ok (u, s') ->
  (forall d, In d ds -> disc_of t n d = true /\ dc_open d = true) ->
  (exists old, pr_discs s = old ++ ds /\ forall d, In d old -> disc_of t n d = false) ->
  (exists old, pr_invoices s = old ++ [x] /\ forall y, In y old -> vi_by_id t n y = false) ->
  vi_by_id t n x = true -> vi_status x <> VnApproved ->
  exists old, pr_invoices s = old ++ [x]
    /\ s' = put_invoices (old ++ [set_invoice_status (if decide (ds = []) then VnMatched else VnDiscrepancy) x]) s.
Proof.
  intros H Hds (od & Ed & Hod) (oi & Ei & Hoi) Hx Hst. unfold refreshInvoiceMatchStatus in H. tx_steps H. injection H as _ <-.
  exists oi. split; [done|]. rewrite Ei, update_where_last.
  - do 4 f_equal. unfold OpenDiscrepancyCount, invoice_discs. rewrite Ed, select_own; [|done|by intros y Hy; apply Hds].
    rewrite select_all by (intros y Hy; by apply Hds). destruct ds; by case_decide.
  - intros y Hy. unfold unapproved. by rewrite Hoi.
  - unfold unapproved. rewrite Hx. by rewrite bool_decide_eq_false_2.
Qed.

Lemma record_ok driver t i s v s' :
  ids_below s -> RecordSupplierInvoice driver t i s = Ok (v, s') -> exists p x ls ds, recorded t i s v s' p x ls ds.
Proof.
  intros [Hi Hl Hd] H. unfold RecordSupplierInvoice in H. apply tbind_get_ok in H.
  destruct (first_where (po_by t (vn_po i)) (db_pos (pr_db s))) as [p|] eqn:Ep; [|done]. apply first_where_some in Ep as [Hp Eb].
  tx_steps H. unfold proc_fresh in E0. injection E0 as <- <-. apply proc_col_ok in E4 as [Et ->].
  apply invoice_lines_added in E3 as (En & ls & El & Hf & Hls).
  apply raise_ok in E6 as (En5 & ds & Ed & Fd & Rd). unfold no_discs in En5. unfold no_vlines in En. simpl in *.
  injection En as N1 N2 N3 N4 N5 N6. injection En5 as M1 M2 M3 M4 M5 M6. fold (proc_next s) in *.
  assert (Hown : forall l, In l ls -> line_of t (proc_next s) l = true).
  { intros l (E3 & E4 & _)%Hls. by apply bool_decide_eq_true. }
  assert (Eown : invoice_lines x2 t (proc_next s) = ls).
  { unfold invoice_lines. rewrite El. apply select_own; [|done]. intros l Hin%Hl. apply bool_decide_eq_false. lia. }
  assert (Hold : forall y, In y (pr_invoices s) -> vi_by_id t (proc_next s) y = false).
  { intros y Hy%Hi. apply bool_decide_eq_false. lia. }
  apply numeric_col_some in Et as [Et _]. rewrite Eown in Et. unfold dec_of in Et. rewrite round_to_same in Et. subst x3.
  rewrite N5, update_where_last in M5; [|done|by apply bool_decide_eq_true].
  match type of M5 with _ = _ ++ [?r] => set (x := r) in M5 end.
  assert (Em : forall w, line_match (put_invoices w x2) t (proc_next s) = matched_lines s ls).
  { intros w. unfold line_match, matched_lines. rewrite <- Eown at 1. cbn [pr_db put_invoices]. by rewrite N2. }
  rewrite Em, (to_raise_frame s) in Rd by exact N3.
  assert (Hds : forall d, In d ds -> disc_of t (proc_next s) d = true /\ dc_open d = true).
  { eapply raised_open; [exact Rd|]. intros r Hr%to_raise_lines. by apply Hls. }
  eapply (refresh_new _ _ _ ds _ _ x) in E7 as (old & Eo & ->); [|done| | |by apply bool_decide_eq_true|done].
  2:{ exists (pr_discs s). rewrite Ed, N6. split; [done|]. intros d Hin%Hd. apply bool_decide_eq_false. lia. }
  2:{ by exists (pr_invoices s). }
  rewrite M5 in Eo. apply app_inj_tail in Eo as [<- _]. apply tlift_ok in H as [H ->]. unfold GetSupplierInvoice in H. cbn [pr_invoices put_invoices] in H.
  rewrite (first_where_last _ _ _ Hold) in H by (by apply bool_decide_eq_true). injection H as <-.
  destruct Hf as (F1 & F2 & F3), Fd as (G1 & G2 & G3). unfold proc_next in *. simpl in *.
  eexists p, _, ls, ds. constructor; try reflexivity; unfold proc_next; simpl.
  - split; [done|]. split; [done|]. by bool_solve.
  - unfold proc_tables. simpl. by rewrite M1, M2, M3, M4, M6, N1, N2, N3, N4, El, Ed, N6.
  - lia.
  - split; [done|]. split; [lia|]. intros l Hin. specialize (F3 l Hin). lia.
  - intros l Hin. by apply Hls in Hin.
  - split; [done|]. split; [lia|]. intros d Hin. specialize (G3 d Hin). lia.
  - exact Rd.
Qed.

Lemma approve_ok t id actor s v s' : ApproveSupplierInvoice t id actor s = Ok (v, s') ->
  exists x, In x (pr_invoices s) /\ vi_by_id t id x = true /\ vi_status x = VnMatched /\ vi_by x <> actor
    /\ OpenDiscrepancyCount s t id = 0%nat
    /\ s' = put_invoices (update_where (matched t id) (approved_invoice actor (proc_now s)) (pr_invoices s)) s.
Proof.
  unfold ApproveSupplierInvoice. intros H. tx_steps H. simplify_eq. apply first_where_some in E0 as [Hx Hb].
  bool_solve. apply Nat.eqb_eq in E. by exists v0.
Qed.

Definition disc_verdict (s : Proc) (t inv : uuid) : invoice_status :=
  if (0 <? OpenDiscrepancyCount s t inv)%nat then VnDiscrepancy else VnMatched.
Definition refreshed (t inv : uuid) (s : Proc) : Proc :=
  put_invoices (update_where (unapproved t inv) (set_invoice_status (disc_verdict s t inv)) (pr_invoices s)) s.
Lemma resolve_ok t id actor s d s' : ResolveDiscrepancy t id actor s = Ok (d, s') ->
  exists x, In x (pr_discs s) /\ open_by_id t id x = true
    /\ s' = refreshed t (dc_invoice x)
              (put_discs (update_where (open_by_id t id) (resolved_disc actor (proc_now s)) (pr_discs s)) s).
Proof.
  unfold ResolveDiscrepancy. intros H. tx_steps H.
  apply first_where_some in E as [Hx Hb]. exists d0. split; [done|]. split; [done|].
  unfold refreshInvoiceMatchStatus in *. tx_steps E1. injection E1 as _ <-. by simplify_eq.
Qed.

(** ** The invariant *)

(** A non-draft order keeps what was agreed. *)
Definition terms (o : POLine) := (pl_id o, pl_tenant o, pl_po o, pl_product o, pl_ordered o, pl_unit_price o).
Definition order_terms (s : Proc) (t po : uuid) := terms <$> order_lines (pr_db s) t po.
Record steady (s s' : Proc) : Prop := {
  sd_orders : forall p, In p (db_pos (pr_db s)) -> po_st p <> PODraft ->
    exists p', In p' (db_pos (pr_db s')) /\ po_id p' = po_id p /\ po_tenant p' = po_tenant p /\ po_station p' = po_station p
      /\ po_supplier p' = po_supplier p /\ po_st p' <> PODraft;
  sd_terms : forall p, In p (db_pos (pr_db s)) -> po_st p <> PODraft ->
    order_terms s' (po_tenant p) (po_id p) = order_terms s (po_tenant p) (po_id p);
  sd_deliveries : db_deliveries (pr_db s) `prefix_of` db_deliveries (pr_db s');
}.
#[export] Instance steady_pre : PreOrder steady.
Proof.
  split.
  - intros s. constructor; [|done..]. intros p Hp Hd. by exists p.
  - intros s s1 s2 [A1 A2 A3] [B1 B2 B3]. constructor; [| |by etrans].
    + intros p Hp Hd. destruct (A1 p Hp Hd) as (q & Hq & E1 & E2 & E3 & E4 & Hd').
      destruct (B1 q Hq Hd') as (r & Hr & F1 & F2 & F3 & F4 & Hd''). exists r. split_and!; congruence.
    + intros p Hp Hd. destruct (A1 p Hp Hd) as (q & Hq & E1 & E2 & _ & _ & Hd'). rewrite <- (A2 p Hp Hd), <- E1, <- E2. by apply B2.
Qed.

(** The columns a status fixes. *)
Definition order_ok (p : PurchaseOrder) : Prop :=
  let h := po_head p in
  match po_st p with
  | PODraft => ph_submitted h = None /\ ph_confirmed h = None /\ ph_cancelled h = None /\ ph_closed h = None
  | POSubmitted => is_Some (ph_submitted h) /\ ph_confirmed h = None /\ ph_cancelled h = None /\ ph_closed h = None
  | POConfirmed | POPartiallyReceived | POReceived =>
      is_Some (ph_submitted h) /\ is_Some (ph_confirmed h) /\ ph_cancelled h = None /\ ph_closed h = None
  | POClosed => is_Some (ph_submitted h) /\ is_Some (ph_confirmed h) /\ ph_cancelled h = None /\ is_Some (ph_closed h)
  | POCancelled => is_Some (ph_cancelled h) /\ ph_closed h = None
  end.
Definition line_priced (o : POLine) : Prop := 0 < pl_ordered o /\ 0 <= pl_unit_price o.
(** An approved invoice is countersigned, and no other one is. *)
Definition invoice_ok (x : VendorInvoice) : Prop :=
  match vi_status x with
  | VnApproved => exists u at_, vi_approved x = Some (u, at_) /\ u <> vi_by x
  | VnRecorded => False
  | _ => vi_approved x = None
  end.

(** What is out of tolerance has a discrepancy. *)
Definition has_disc (s : Proc) (l : VendorLine) (v : variance) : Prop :=
  exists d, In d (pr_discs s) /\ dc_tenant d = vl_tenant l /\ dc_invoice d = vl_invoice l /\ dc_po_line d = vl_po_line l
    /\ dc_variance d = v.
Definition flagged (s : Proc) (l : VendorLine) (o : POLine) : Prop :=
  (litres_beyond (vl_litres l) (reference_litres s l o) = true -> has_disc s l (VarLitres (vl_litres l - reference_litres s l o)))
  /\ (price_beyond (vl_price l) (pl_unit_price o) = true -> has_disc s l (VarPrice (vl_price l - pl_unit_price o))).

Record invoice_sound (s : Proc) (x : VendorInvoice) : Prop := {
  is_ordered : exists p, In p (db_pos (pr_db s)) /\ po_by (vi_tenant x) (vi_po x) p = true /\ po_st p <> PODraft
    /\ po_supplier p = vi_supplier x /\ po_station p = vi_station x;
  is_total : vi_total x = sum_by vl_amount (invoice_lines s (vi_tenant x) (vi_id x));
  is_verdict : match vi_status x with
    | VnDiscrepancy => OpenDiscrepancyCount s (vi_tenant x) (vi_id x) <> 0%nat
    | _ => OpenDiscrepancyCount s (vi_tenant x) (vi_id x) = 0%nat
    end;
  is_lines : forall l, In l (invoice_lines s (vi_tenant x) (vi_id x)) ->
    vl_po l = vi_po x /\ (exists o, In o (db_po_lines (pr_db s)) /\ po_line_by (vl_tenant l) (vl_po l) (vl_po_line l) o = true)
    /\ (forall k, vl_delivery l = Some k -> exists y, In y (db_deliveries (pr_db s)) /\ dl_by (vl_tenant l) k y = true);
  is_flagged : forall l o, In l (invoice_lines s (vi_tenant x) (vi_id x)) -> In o (db_po_lines (pr_db s)) ->
    po_line_by (vl_tenant l) (vl_po l) (vl_po_line l) o = true -> flagged s l o;
}.

Record Proc_inv (s : Proc) : Prop := {
  pv_orders : table po_id order_ok (proc_next s) (db_pos (pr_db s));
  pv_olines : table pl_id line_priced (proc_next s) (db_po_lines (pr_db s));
  pv_receiving : Receiving_wf (pr_db s);
  pv_received : forall x k, In x (db_deliveries (pr_db s)) -> dl_po_line x = Some k -> (k < proc_next s)%N;
  pv_invoices : table vi_id invoice_ok (proc_next s) (pr_invoices s);
  pv_lines : table vl_id (fun l => (vl_invoice l < proc_next s)%N) (proc_next s) (pr_lines s);
  pv_discs : table dc_id (fun d => (dc_invoice d < proc_next s)%N) (proc_next s) (pr_discs s);
  pv_sound : forall x, In x (pr_invoices s) -> invoice_sound s x;
}.

(** ** Invoices while orders and deliveries move on *)

Lemma in_order_lines d t po o : In o (order_lines d t po) <-> In o (db_po_lines d) /\ pl_tenant o = t /\ pl_po o = po.
Proof. unfold order_lines. by rewrite in_select, bool_decide_eq_true. Qed.
Lemma po_line_by_true t po k o : po_line_by t po k o = true <-> pl_tenant o = t /\ pl_po o = po /\ pl_id o = k.
Proof. unfold po_line_by. apply bool_decide_eq_true. Qed.
Lemma po_by_true t k p : po_by t k p = true <-> po_tenant p = t /\ po_id p = k.
Proof. unfold po_by. apply bool_decide_eq_true. Qed.
Lemma line_of_true t k l : line_of t k l = true <-> vl_tenant l = t /\ vl_invoice l = k.
Proof. unfold line_of. apply bool_decide_eq_true. Qed.

Lemma terms_back s s' t po o' : order_terms s' t po = order_terms s t po -> In o' (order_lines (pr_db s') t po) ->
  exists o, In o (order_lines (pr_db s) t po) /\ terms o = terms o'.
Proof.
  unfold order_terms. intros E Hin. apply list_elem_of_In, (list_elem_of_fmap_2 terms) in Hin. rewrite E in Hin.
  apply list_elem_of_fmap in Hin as (o & Eo & Ho%list_elem_of_In). by exists o.
Qed.

Lemma first_where_prefix {R} (q : R -> bool) (l l' : list R) :
  l `prefix_of` l' -> (exists y, In y l /\ q y = true) -> first_where q l' = first_where q l.
Proof.
  intros [k ->] (y & Hy & Hq). induction l as [|z l IH]; [done|]. simpl. destruct (q z) eqn:E; [done|]. apply IH.
  destruct Hy as [->|Hy]; [congruence|done].
Qed.

Section Steady.
Context (s s' : Proc) (Hst : steady s s') (Hl : pr_lines s' = pr_lines s) (Hd : pr_discs s' = pr_discs s).

Lemma reference_steady l o o' :
  terms o = terms o' -> (forall k, vl_delivery l = Some k -> exists y, In y (db_deliveries (pr_db s)) /\ dl_by (vl_tenant l) k y = true) ->
  reference_litres s' l o' = reference_litres s l o.
Proof.
  intros [= _ _ _ _ E _] Hk. unfold reference_litres. destruct (vl_delivery l) as [k|]; [|done].
  by rewrite (first_where_prefix _ _ _ (sd_deliveries s s' Hst) (Hk k eq_refl)).
Qed.
Lemma flagged_steady l o o' :
  terms o = terms o' -> (forall k, vl_delivery l = Some k -> exists y, In y (db_deliveries (pr_db s)) /\ dl_by (vl_tenant l) k y = true) ->
  flagged s l o -> flagged s' l o'.
Proof.
  intros E Hk. unfold flagged, has_disc. rewrite (reference_steady l o o' E Hk), Hd. by injection E as _ _ _ _ _ ->.
Qed.

Lemma sound_steady x : invoice_sound s x -> invoice_sound s' x.
Proof.
  intros [(p & Hp & Eb & Hnd & Esu & Esn) Ht Hv Hls Hfl]. apply po_by_true in Eb as [Ept Epi].
  assert (Eil : invoice_lines s' (vi_tenant x) (vi_id x) = invoice_lines s (vi_tenant x) (vi_id x)) by (unfold invoice_lines; by rewrite Hl).
  assert (Ett : order_terms s' (vi_tenant x) (vi_po x) = order_terms s (vi_tenant x) (vi_po x)).
  { rewrite <- Ept, <- Epi. by apply (sd_terms s s' Hst). }
  constructor.
  - destruct (sd_orders s s' Hst p Hp Hnd) as (p' & Hp' & E1 & E2 & E3 & E4 & Hnd'). exists p'. split; [done|].
    split; [apply po_by_true; split; congruence|]. split_and!; congruence.
  - by rewrite Eil.
  - unfold OpenDiscrepancyCount, invoice_discs in *. by rewrite Hd.
  - intros l Hin. rewrite Eil in Hin. destruct (Hls l Hin) as (Epo & (o & Ho & Eo) & Hk). split; [done|]. split.
    + apply in_select in Hin as [_ [Elt _]%line_of_true]. apply po_line_by_true in Eo as (O1 & O2 & O3).
      destruct (terms_back s' s (vi_tenant x) (vi_po x) o) as (o' & Ho' & [= T1 T2 T3 _ _ _]); [done|apply in_order_lines; split; [done|]; split; congruence|].
      exists o'. split; [by apply in_order_lines in Ho' as (? & _)|]. apply po_line_by_true. split_and!; congruence.
    + intros k Ek. destruct (Hk k Ek) as (y & Hy & Ey). exists y. split; [|done]. destruct (sd_deliveries s s' Hst) as [r ->].
      apply in_or_app. by left.
  - intros l o' Hin Ho' Eo'. rewrite Eil in Hin. pose proof (Hls l Hin) as (Epo & _ & Hk).
    apply in_select in Hin as Hin'. destruct Hin' as [_ [Elt _]%line_of_true]. pose proof Eo' as (O1 & O2 & O3)%po_line_by_true.
    destruct (terms_back s s' (vi_tenant x) (vi_po x) o') as (o & Ho & Et); [done|apply in_order_lines; split; [done|]; split; congruence|].
    apply (flagged_steady l o o' Et Hk). apply in_order_lines in Ho as (Ho & _). apply Hfl; [done|done|].
    injection Et as T1 T2 T3 _ _ _. apply po_line_by_true. split_and!; congruence.
Qed.
End Steady.

(** ** The invariant is preserved *)

Definition inv_rel (s s' : Proc) : Prop := Proc_inv s -> Proc_inv s' /\ steady s s'.
#[export] Instance inv_rel_pre : PreOrder inv_rel.
Proof.
  split; unfold Reflexive, Transitive, inv_rel; [by split|]. intros s s1 s2 H1 H2 Hs. destruct (H1 Hs) as [Hs1 A].
  destruct (H2 Hs1) as [Hs2 B]. split; [done|by etrans].
Qed.

(** Orders move, invoices do not. *)
Lemma inv_orders s s' :
  Proc_inv s -> steady s s' -> pr_invoices s' = pr_invoices s -> pr_lines s' = pr_lines s -> pr_discs s' = pr_discs s ->
  (proc_next s <= proc_next s')%N -> table po_id order_ok (proc_next s') (db_pos (pr_db s')) ->
  table pl_id line_priced (proc_next s') (db_po_lines (pr_db s')) -> Receiving_wf (pr_db s') ->
  (forall x k, In x (db_deliveries (pr_db s')) -> dl_po_line x = Some k -> (k < proc_next s')%N) -> Proc_inv s' /\ steady s s'.
Proof.
  intros [H1 H2 H3 H4 H5 H6 H7 H8] Hst Ei El Ed Hn Ho Hol Hr Hk. split; [|done]. constructor; try done; rewrite ?Ei, ?El, ?Ed.
  - by eapply table_mono.
  - eapply table_mono; [exact Hn|]. eapply table_weaken; [|exact H6]. simpl. intros. lia.
  - eapply table_mono; [exact Hn|]. eapply table_weaken; [|exact H7]. simpl. intros. lia.
  - intros x Hx. eapply sound_steady; [done..|by apply H8].
Qed.

Lemma calm_inv s s' : calm s s' -> inv_rel s s'.
Proof.
  intros [E Hn] Hs. unfold proc_tables in E. injection E as E1 E2 E3 E4 E5 E6 E7.
  apply inv_orders; try done; rewrite ?E1, ?E2, ?E3.
  - constructor; unfold order_terms, order_lines; rewrite ?E1, ?E2, ?E3; [|done..]. intros p Hp Hd. by exists p.
  - eapply table_mono; [exact Hn|apply Hs].
  - eapply table_mono; [exact Hn|apply Hs].
  - eapply Receiving_wf_frame; [apply Hs|done..|rewrite E4; reflexivity|done].
  - intros x k Hx Hk. pose proof (pv_received s Hs x k Hx Hk). lia.
Qed.

(** The order lines are extended by new ones, or lose those of one order. *)
Lemma receiving_lines d d' ls n :
  Receiving_wf d -> db_deliveries d' = db_deliveries d -> db_movements d' = db_movements d ->
  (db_next_id d <= db_next_id d')%N -> (n <= db_next_id d')%N ->
  table pl_id line_priced n (db_po_lines d') ->
  (forall o, In o (db_po_lines d') -> In o (db_po_lines d) \/ In o ls) ->
  (forall o, In o ls -> pl_received o = 0 /\ forall x, In x (db_deliveries d) -> dl_po_line x <> Some (pl_id o)) ->
  Receiving_wf d'.
Proof.
  intros [H1 H2 H3 H4 H5] E1 E2 Hn Hn' [Ht _] Hor Hnew. constructor; rewrite ?E1, ?E2; try done.
  - intros x Hx. specialize (H2 x Hx). lia.
  - by apply NoDup_ListNoDup in Ht.
  - intros o [Ho|Ho]%Hor; [unfold delivered; rewrite E1; by apply H4|]. destruct (Hnew o Ho) as [-> Hx].
    unfold delivered. rewrite E1, select_none; [done|]. intros x Hin. apply bool_decide_eq_false. intros (_ & _ & Ek). by apply (Hx x Hin).
  - intros o [Ho|Ho]%Hor; [by apply H5|]. right. by apply Hnew.
Qed.

Lemma order_unique s p q : Proc_inv s -> In p (db_pos (pr_db s)) -> In q (db_pos (pr_db s)) -> po_id p = po_id q -> p = q.
Proof. intros Hs. by eapply table_same, Hs. Qed.
Lemma order_id s p : Proc_inv s -> In p (db_pos (pr_db s)) -> (po_id p < proc_next s)%N.
Proof. intros Hs Hp. by apply (pv_orders s Hs). Qed.
Lemma not_received s o x :
  Proc_inv s -> (proc_next s <= pl_id o)%N -> In x (db_deliveries (pr_db s)) -> dl_po_line x <> Some (pl_id o).
Proof. intros Hs Hn Hx Hk. pose proof (pv_received s Hs x _ Hx Hk). lia. Qed.

(** A change of some orders that keeps their ids and no draft appears. *)
Lemma steady_update s s' q g :
  db_pos (pr_db s') = update_where q g (db_pos (pr_db s)) -> keeps_terms g ->
  (forall p, q p = true -> po_st p <> PODraft -> po_st (g p) <> PODraft) ->
  (forall p, In p (db_pos (pr_db s)) -> po_st p <> PODraft -> order_terms s' (po_tenant p) (po_id p) = order_terms s (po_tenant p) (po_id p)) ->
  db_deliveries (pr_db s) `prefix_of` db_deliveries (pr_db s') -> steady s s'.
Proof.
  intros E Hg Hd Ht Hp. constructor; [|done..]. intros p Hin Hnd. exists (if q p then g p else p). rewrite E.
  split; [apply in_update_where; by exists p|]. destruct (Hg p) as (G1 & G2 & G3 & G4). destruct (q p) eqn:Eq; [|done].
  split_and!; try done. by apply Hd.
Qed.

Lemma inv_create_order t i : obeys inv_rel (CreatePurchaseOrder t i).
Proof.
  intros s x s' (p & ls & Ei & Et & Es & Eh & En & El & Hf & Hls)%create_order_ok Hs.
  unfold no_lines in En. injection En as N1 N2 N3 N4 N5 N6. pose proof Hf as (_ & Hn & Hid).
  assert (Ht : table pl_id line_priced (proc_next s') (db_po_lines (pr_db s'))).
  { rewrite El. apply (table_app _ _ (proc_next s + 1)); [apply (table_mono _ _ (proc_next s)); [lia|apply Hs]|exact Hf|]. intros o Ho. split; by apply Hls. }
  apply inv_orders; try done.
  - constructor.
    + intros q Hq Hd. exists q. rewrite N1. split; [apply in_or_app; by left|done].
    + intros q Hq Hd. unfold order_terms, order_lines. rewrite El, select_app, (select_none _ ls), app_nil_r; [done|].
      intros o (_ & Eo & _)%Hls. apply bool_decide_eq_false. intros [_ E]. pose proof (order_id s q Hs Hq). lia.
    + by rewrite N2.
  - lia.
  - rewrite N1. eapply table_snoc; [exact Ei| |lia|apply Hs]. unfold order_ok. rewrite Es, Eh. done.
  - eapply (receiving_lines _ _ ls); [apply Hs|done|done|unfold proc_next in *; lia| |exact Ht| |].
    + reflexivity.
    + intros o. rewrite El. apply in_app_or.
    + intros o Ho. split; [by apply Hls|]. intros y. apply not_received; [done|]. specialize (Hid o Ho). lia.
  - intros y k. rewrite N2. intros Hy Hk. pose proof (pv_received s Hs y k Hy Hk). lia.
Qed.

Lemma keeps_terms_head h : keeps_terms (set_po_head h).
Proof. by intros p. Qed.
Lemma order_ok_head i p : order_ok p -> order_ok (set_po_head (edited i) p).
Proof. unfold order_ok. simpl. by destruct (po_st p). Qed.

Lemma inv_update_order t id i : obeys inv_rel (UpdatePurchaseOrderDraft t id i).
Proof.
  intros s x s' ((p0 & Hp0 & E0) & En & Hn & Hl)%update_order_ok Hs. unfold no_lines in En. injection En as N1 N2 N3 N4 N5 N6.
  assert (Ho : table po_id order_ok (proc_next s') (db_pos (pr_db s'))).
  { rewrite N1. eapply table_update; [|eapply table_mono; [exact Hn|apply Hs]]. intros p _ _. split; [done|apply order_ok_head]. }
  assert (Hr : forall y k, In y (db_deliveries (pr_db s')) -> dl_po_line y = Some k -> (k < proc_next s')%N).
  { intros y k. rewrite N2. intros Hy Hk. pose proof (pv_received s Hs y k Hy Hk). lia. }
  assert (Hst : (forall p, In p (db_pos (pr_db s)) -> po_st p <> PODraft -> order_terms s' (po_tenant p) (po_id p) = order_terms s (po_tenant p) (po_id p)) -> steady s s').
  { intros Ht. eapply steady_update; [exact N1|apply keeps_terms_head|by intros p _|exact Ht|by rewrite N2]. }
  destruct Hl as [El|(ls & El & _ & Hf & Hls)].
  - apply inv_orders; try done.
    + apply Hst. intros p _ _. unfold order_terms, order_lines. by rewrite El.
    + rewrite El. eapply table_mono; [exact Hn|apply Hs].
    + eapply Receiving_wf_frame; [apply Hs|done..|rewrite N3; reflexivity|done].
  - assert (Ht : table pl_id line_priced (proc_next s') (db_po_lines (pr_db s'))).
    { rewrite El. eapply table_app; [apply table_select, Hs|exact Hf|]. intros o Hin. split; by apply Hls. }
    apply inv_orders; try done.
    + apply Hst. intros p Hp Hd. unfold is_draft in E0. apply andb_true_iff in E0 as [[_ E1]%po_by_true E2%bool_decide_eq_true].
      assert (Hne : po_id p <> id). { intros E. apply Hd. by rewrite (order_unique s p p0) by congruence. }
      unfold order_terms, order_lines. rewrite El, select_app, (select_none _ ls), app_nil_r.
      * f_equal. rewrite select_select. apply select_ext. intros o _. unfold of_order.
        case_bool_decide as A; [|done]. rewrite bool_decide_eq_false_2; [done|]. intros [_ ?]. apply Hne. destruct A. congruence.
      * intros o (_ & Eo & _)%Hls. apply bool_decide_eq_false. intros [_ E]. congruence.
    + eapply (receiving_lines _ _ ls); [apply Hs|done|done|exact Hn|reflexivity|exact Ht| |].
      * intros o. rewrite El. intros [Hin|Hin]%in_app_or; [left; by apply in_select in Hin as [? _]|by right].
      * intros o Hin. split; [by apply Hls|]. intros y. apply not_received; [done|]. by apply Hf.
Qed.

Lemma transition_stamps actor now from to p :
  ValidPurchaseOrderTransition from to = true -> po_st p = from -> order_ok p -> order_ok (moved_order actor now to p).
Proof.
  intros Hv <- Hok. unfold order_ok, moved_order, stamped in *. cbv zeta in *.
  destruct (po_st p); try discriminate Hv; simpl in Hv; apply orb_true_iff in Hv || (revert Hv; rewrite bool_decide_eq_true; intros ->).
  all: try (destruct Hv as [->%bool_decide_eq_true| ->%bool_decide_eq_true]); destruct_and!; simpl; split_and!; try done.
Qed.

Lemma inv_transition t id actor from to :
  ValidPurchaseOrderTransition from to = true -> obeys inv_rel (TransitionPurchaseOrder t id actor from to).
Proof.
  intros Hv s x s' [E En]%transition_ok Hs. unfold proc_tables in E. injection E as E1 E2 E3 E4 E5 E6 E7.
  assert (Hto : to <> PODraft). { intros ->. by destruct from. }
  apply inv_orders; try done; rewrite ?E2, ?E3, ?En.
  - eapply steady_update; [exact E1|by intros p|by intros p _ _| |by rewrite E3]. intros p _ _. unfold order_terms, order_lines. by rewrite E2.
  - reflexivity.
  - rewrite E1. eapply table_update; [|apply Hs]. intros p [_ Hp%bool_decide_eq_true]%andb_true_iff _. split; [done|].
    by eapply transition_stamps.
  - apply Hs.
  - eapply Receiving_wf_frame; [apply Hs|done..|rewrite E4; reflexivity|]. unfold proc_next in En. by rewrite En.
  - apply Hs.
Qed.

Lemma advanced_kept ls : advanced_status ls = POReceived \/ advanced_status ls = POPartiallyReceived \/ advanced_status ls = POConfirmed.
Proof. unfold advanced_status. repeat case_match; auto. Qed.

Lemma inv_receipt numeric_div t i : obeys inv_rel (on_db (E := inv_error) (ReceiveGoodsReceipt numeric_div t i)).
Proof.
  intros s x s' (d & Hr & ->)%on_db_ok Hs. pose proof (Receiving_wf_receipt _ _ _ _ _ _ (pv_receiving s Hs) Hr) as Hw.
  apply ReceiveGoodsReceipt_inv in Hr as (v & po & line & tank & d1 & Hr).
  destruct (find_po_line_inv _ _ _ _ _ _ (rcp_find _ _ _ _ _ _ _ _ _ _ Hr)) as (Hl & Hlt & Hlp & Hli & Hpo & Hpt & Hpi).
  destruct Hr as [_ _ Hrec _ _ (Di & _ & _ & _ & Dl & _) -> Hadv _ _ ->].
  pose proof (advanced_kept (order_lines (set_pos (update_where (po_by t (gr_po i)) (set_po_status (res_po_status x)) (db_pos (pr_db s)))
    (set_po_lines (update_where (po_line_by t (gr_po i) (gr_po_line i)) (set_received (round_to 3 (new_received line v))) (db_po_lines (pr_db s)))
    (set_deliveries (db_deliveries (pr_db s) ++ [res_delivery x]) (set_next_id (db_next_id (pr_db s) + 1)%N (pr_db s))))) t (gr_po i))) as Hk.
  rewrite <- Hadv in Hk. clear Hadv.
  apply inv_orders; try done; unfold proc_next; simpl.
  - eapply steady_update; simpl; [reflexivity|by intros p| | |by eexists].
    + intros p _ _. simpl. by destruct Hk as [->|[->| ->]].
    + intros p _ _. unfold order_terms, order_lines.
      change (db_po_lines (pr_db (put_db _ s))) with
        (update_where (po_line_by t (gr_po i) (gr_po_line i)) (set_received (round_to 3 (new_received line v))) (db_po_lines (pr_db s))).
      rewrite select_update by done. by apply fmap_update_where.
  - lia.
  - eapply table_update; [|eapply table_mono; [|apply Hs]; unfold proc_next; lia]. intros p [Ept Epi]%po_by_true Hp. split; [done|].
    intros Hok. assert (p = po) as -> by (eapply order_unique; [done..|congruence]). unfold order_ok in *. simpl. clear Hw.
    destruct (po_st po); try discriminate Hrec; by destruct Hk as [->|[->| ->]].
  - eapply table_update; [|eapply table_mono; [|apply Hs]; unfold proc_next; lia]. done.
  - intros y k Hy Ek. apply in_app_or in Hy as [Hy|[<-|[]]]; [pose proof (pv_received s Hs y k Hy Ek); unfold proc_next in *; lia|].
    rewrite Dl in Ek. injection Ek as <-. destruct (pv_olines s Hs) as [_ Ho]. destruct (Ho line Hl) as [? _]. unfold proc_next in *. lia.
Qed.

(** ** Invoices move, orders do not *)

Definition order_tables (s : Proc) := (db_pos (pr_db s), db_po_lines (pr_db s), db_deliveries (pr_db s), db_movements (pr_db s)).
Lemma steady_same s s' : order_tables s' = order_tables s -> steady s s'.
Proof.
  unfold order_tables. intros E. injection E as E1 E2 E3 _. constructor; unfold order_terms, order_lines; rewrite ?E1, ?E2, ?E3; [|done..].
  intros p Hp Hd. by exists p.
Qed.

Definition discs_kept (s s' : Proc) : Prop :=
  forall d, In d (pr_discs s) -> exists d', In d' (pr_discs s') /\ dc_tenant d' = dc_tenant d /\ dc_invoice d' = dc_invoice d
    /\ dc_po_line d' = dc_po_line d /\ dc_variance d' = dc_variance d.
Lemma flagged_kept s s' l o :
  db_deliveries (pr_db s') = db_deliveries (pr_db s) -> discs_kept s s' -> flagged s l o -> flagged s' l o.
Proof.
  intros E Hk [H1 H2]. assert (Er : reference_litres s' l o = reference_litres s l o) by (unfold reference_litres; by rewrite E).
  unfold flagged. rewrite Er. split; intros Hb; [destruct (H1 Hb) as (d & Hd & ?)|destruct (H2 Hb) as (d & Hd & ?)]; destruct_and!;
    destruct (Hk d Hd) as (d' & ? & ? & ? & ? & ?); exists d'; split_and!; congruence.
Qed.

(** The row of an invoice with another status. *)
Definition same_bill (x y : VendorInvoice) : Prop :=
  vi_tenant y = vi_tenant x /\ vi_id y = vi_id x /\ vi_po y = vi_po x /\ vi_total y = vi_total x
  /\ vi_supplier y = vi_supplier x /\ vi_station y = vi_station x.
Lemma sound_frame s s' x y :
  order_tables s' = order_tables s -> discs_kept s s' -> same_bill x y ->
  invoice_lines s' (vi_tenant x) (vi_id x) = invoice_lines s (vi_tenant x) (vi_id x) ->
  match vi_status y with
  | VnDiscrepancy => OpenDiscrepancyCount s' (vi_tenant x) (vi_id x) <> 0%nat
  | _ => OpenDiscrepancyCount s' (vi_tenant x) (vi_id x) = 0%nat
  end -> invoice_sound s x -> invoice_sound s' y.
Proof.
  intros E Hk (Y1 & Y2 & Y3 & Y4 & Y5 & Y6) El Hv [H1 H2 _ H4 H5]. unfold order_tables in E. injection E as E1 E2 E3 _.
  constructor; rewrite ?Y1, ?Y2, ?Y3, ?Y4, ?Y5, ?Y6, ?E1, ?E2, ?El; try done.
  - intros l Hl. destruct (H4 l Hl) as (? & ? & ?). rewrite E3. done.
  - intros l o Hl Ho Hb. eapply flagged_kept; [done..|]. by apply H5.
Qed.

Lemma inv_invoices s s' :
  Proc_inv s -> order_tables s' = order_tables s -> (proc_next s <= proc_next s')%N ->
  table vi_id invoice_ok (proc_next s') (pr_invoices s') ->
  table vl_id (fun l => (vl_invoice l < proc_next s')%N) (proc_next s') (pr_lines s') ->
  table dc_id (fun d => (dc_invoice d < proc_next s')%N) (proc_next s') (pr_discs s') ->
  (forall x, In x (pr_invoices s') -> invoice_sound s' x) -> Proc_inv s' /\ steady s s'.
Proof.
  intros Hs E Hn Hi Hl Hd Hx. split; [|by apply steady_same]. unfold order_tables in E. injection E as E1 E2 E3 E4.
  constructor; try done; rewrite ?E1, ?E2, ?E3.
  - eapply table_mono; [exact Hn|apply Hs].
  - eapply table_mono; [exact Hn|apply Hs].
  - eapply Receiving_wf_frame; [apply Hs|done..|rewrite E4; reflexivity|done].
  - intros x k Hin Hk. pose proof (pv_received s Hs x k Hin Hk). lia.
Qed.

Lemma inv_ids s : Proc_inv s -> ids_below s.
Proof. intros Hs. constructor; intros x Hx; [by apply (pv_invoices s Hs)|by apply (pv_lines s Hs)|by apply (pv_discs s Hs)]. Qed.

Lemma raised_flagged s s' t n po ls ds l o :
  Forall2 (raised_for t) (to_raise s (matched_lines s ls)) ds -> (forall d, In d ds -> In d (pr_discs s')) ->
  db_deliveries (pr_db s') = db_deliveries (pr_db s) -> (forall l, In l ls -> vline_ok t n po s l) ->
  In l ls -> In o (db_po_lines (pr_db s)) -> po_line_by (vl_tenant l) (vl_po l) (vl_po_line l) o = true -> flagged s' l o.
Proof.
  intros Hr Hin E Hls Hl Ho Hb. assert (Er : reference_litres s' l o = reference_litres s l o) by (unfold reference_litres; by rewrite E).
  assert (Hm : In (l, o) (matched_lines s ls)) by (by apply in_join).
  assert (Hd : forall v w, In (l, v, w) (to_raise s (matched_lines s ls)) -> has_disc s' l v).
  { intros v w (k & Hk)%list_elem_of_In%list_elem_of_lookup. destruct (Forall2_lookup_l _ _ _ _ _ Hr Hk) as (d & Hd & Hf).
    exists d. split; [by apply Hin, list_elem_of_In, list_elem_of_lookup; exists k|]. destruct (Hls l Hl) as (Et & _).
    destruct Hf as (F1 & F2 & _ & F4 & _ & F6 & _). simpl in *. split_and!; congruence. }
  unfold flagged. rewrite Er. split; intros Hx; (eapply Hd, in_or_app).
  - left. apply list_elem_of_In, list_elem_of_fmap. exists (l, o). split; [done|]. apply list_elem_of_In, in_select. done.
  - right. apply list_elem_of_In, list_elem_of_fmap. exists (l, o). split; [done|]. apply list_elem_of_In, in_select. done.
Qed.

(** Rows added for another invoice. *)
Lemma count_other s s' t k ds :
  pr_discs s' = pr_discs s ++ ds -> (forall d, In d ds -> dc_invoice d <> k) ->
  OpenDiscrepancyCount s' t k = OpenDiscrepancyCount s t k.
Proof.
  intros E Hd. unfold OpenDiscrepancyCount, invoice_discs. rewrite E, select_app, (select_none _ ds), app_nil_r; [done|].
  intros d Hin. apply bool_decide_eq_false. intros [_ ?]. by apply (Hd d Hin).
Qed.

Lemma raised_in t m ds d : Forall2 (raised_for t) m ds -> In d ds -> exists r, In r m /\ raised_for t r d.
Proof.
  intros H (k & Hk)%list_elem_of_In%list_elem_of_lookup. destruct (Forall2_lookup_r _ _ _ _ _ H Hk) as (r & Hr & Hf).
  exists r. split; [|done]. apply list_elem_of_In, list_elem_of_lookup. by exists k.
Qed.

Lemma recorded_own t i s v s' p x ls ds :
  ids_below s -> recorded t i s v s' p x ls ds ->
  invoice_lines s' t (vi_id x) = ls /\ OpenDiscrepancyCount s' t (vi_id x) = length ds.
Proof.
  intros [_ Hl Hd] [_ -> E _ _ Hls _ Hr _]. simpl. unfold proc_tables in E. injection E as _ _ _ _ _ E6 E7. split.
  - unfold invoice_lines. rewrite E6. apply select_own; [intros l Hin%Hl; apply bool_decide_eq_false; lia|].
    intros l (? & ? & _)%Hls. by apply bool_decide_eq_true.
  - assert (Hds : forall d, In d ds -> disc_of t (proc_next s) d = true /\ dc_open d = true).
    { eapply raised_open; [exact Hr|]. intros r Hin%to_raise_lines. by apply Hls. }
    unfold OpenDiscrepancyCount, invoice_discs. rewrite E7, select_own; [|intros d Hin%Hd; apply bool_decide_eq_false; lia|by intros; apply Hds].
    by rewrite select_all by (intros d Hin; by apply Hds).
Qed.

Lemma recorded_sound t i s v s' p x ls ds :
  ids_below s -> recorded t i s v s' p x ls ds -> invoice_sound s' x.
Proof.
  intros Hb Hr. destruct (recorded_own t i s v s' p x ls ds Hb Hr) as [El Ec].
  destruct Hr as [(Hp & Ep & Hst) Ex E _ _ Hls _ Hr _]. unfold proc_tables in E. injection E as E1 E2 E3 _ E5 E6 E7.
  assert (Et : vi_tenant x = t) by (by rewrite Ex). assert (Epo : vi_po x = vn_po i) by (by rewrite Ex).
  constructor; rewrite ?Et, ?Epo, ?El, ?Ec, ?E1, ?E2, ?E3.
  - exists p. split; [done|]. split; [done|]. split; [intros E; apply Hst; rewrite E; left|by rewrite Ex].
  - by rewrite Ex.
  - rewrite Ex. simpl. case_decide as Hd; [by rewrite Hd|]. by destruct ds.
  - intros l (H1 & H2 & H3 & _ & _ & _ & H7 & H8)%Hls. by rewrite H1, H3.
  - intros l o Hl Ho Hob. eapply (raised_flagged s s'); [exact Hr| |exact E3|exact Hls|done..].
    intros d Hd. rewrite E7. apply in_or_app. by right.
Qed.

Lemma inv_record driver t i : obeys inv_rel (RecordSupplierInvoice driver t i).
Proof.
  intros s v s' H Hs. pose proof (inv_ids s Hs) as Hb. apply record_ok in H as (p & x & ls & ds & Hr); [|done].
  pose proof (recorded_sound _ _ _ _ _ _ _ _ _ Hb Hr) as Hx. destruct Hr as [_ Ex E Hn Fl Hls Fd Hr _].
  unfold proc_tables in E. injection E as E1 E2 E3 E4 E5 E6 E7.
  assert (Hdi : forall d, In d ds -> dc_invoice d = proc_next s).
  { intros d (r & Hin%to_raise_lines & (_ & -> & _))%(raised_in _ _ _ _ Hr). by apply Hls. }
  apply inv_invoices; try done.
  - unfold order_tables. by rewrite E1, E2, E3, E4.
  - lia.
  - rewrite E5. eapply table_snoc; [| |exact Hn|apply Hs]; rewrite Ex; [done|]. unfold invoice_ok. simpl. by case_decide.
  - rewrite E6. apply (table_app _ _ (proc_next s + 1)).
    + apply (table_mono _ _ (proc_next s)); [lia|]. eapply table_weaken; [|apply Hs]. simpl. intros. lia.
    + exact Fl.
    + intros l (_ & -> & _)%Hls. done.
  - rewrite E7. apply (table_app _ _ (proc_next s + 1)).
    + apply (table_mono _ _ (proc_next s)); [lia|]. eapply table_weaken; [|apply Hs]. simpl. intros. lia.
    + exact Fd.
    + intros d ->%Hdi. done.
  - intros y Hy. rewrite E5 in Hy. apply in_app_or in Hy as [Hy|[<-|[]]]; [|done]. pose proof (ib_invoices s Hb y Hy) as Hlt.
    assert (Ec : OpenDiscrepancyCount s' (vi_tenant y) (vi_id y) = OpenDiscrepancyCount s (vi_tenant y) (vi_id y)).
    { eapply count_other; [exact E7|]. intros d ->%Hdi. lia. }
    eapply (sound_frame s s' y y); [unfold order_tables; by rewrite E1, E2, E3, E4| |done| | |by apply Hs].
    + intros d Hd. exists d. rewrite E7. split; [apply in_or_app; by left|done].
    + unfold invoice_lines. rewrite E6, select_app, (select_none _ ls), app_nil_r; [done|]. intros l (_ & E & _)%Hls.
      apply bool_decide_eq_false. intros [_ ?]. lia.
    + rewrite Ec. apply (is_verdict s y), Hs, Hy.
Qed.

Lemma inv_approve t id actor : obeys inv_rel (ApproveSupplierInvoice t id actor).
Proof.
  intros s v s' (x & Hx & Eb & Est & Hne & Hc & ->)%approve_ok Hs. apply inv_invoices; try done; simpl; try apply Hs.
  - eapply table_update; [|apply Hs]. intros y [Ey Hm]%andb_true_iff Hy. split; [done|]. intros _. unfold invoice_ok. simpl.
    exists actor, (proc_now s). split; [done|]. apply bool_decide_eq_true in Ey, Eb. destruct_and!.
    assert (y = x) as ->; [|congruence]. eapply table_same; [apply Hs|done|done|congruence].
  - intros z (y & Hy & ->)%in_update_where. destruct (matched t id y) eqn:Em.
    + apply andb_true_iff in Em as [[Y1 Y2]%bool_decide_eq_true _].
      eapply (sound_frame s _ y); [done|by intros d Hd; exists d|done|done| |by apply Hs]. simpl. by rewrite Y1, Y2.
    + eapply (sound_frame s _ y); [done|by intros d Hd; exists d|done|done| |by apply Hs]. by apply (is_verdict s y), Hs.
Qed.

Lemma select_apart {R} (p q : R -> bool) g (l : list R) :
  (forall d, In d l -> q d = true -> p d = false /\ p (g d) = false) -> select p (update_where q g l) = select p l.
Proof.
  intros H. induction l as [|d l IH]; [done|]. change (update_where q g (d :: l)) with ((if q d then g d else d) :: update_where q g l).
  rewrite !select_cons, IH by (intros; apply H; [by right|done]). destruct (q d) eqn:E; [|done].
  destruct (H d) as [-> ->]; [by left|done..].
Qed.

Lemma inv_resolve t id actor : obeys inv_rel (ResolveDiscrepancy t id actor).
Proof.
  intros s v s' (x & Hx & Eo & ->)%resolve_ok Hs. pose proof Eo as Eo'. apply andb_true_iff in Eo' as [[X1 X2]%bool_decide_eq_true Xo].
  set (s1 := put_discs _ s).
  assert (Hone : forall d, In d (pr_discs s) -> open_by_id t id d = true -> d = x).
  { intros d Hd [[D1 D2]%bool_decide_eq_true _]%andb_true_iff. eapply table_same; [apply Hs|done|done|congruence]. }
  assert (Hkept : discs_kept s (refreshed t (dc_invoice x) s1)).
  { intros d Hd. exists (if open_by_id t id d then resolved_disc actor (proc_now s) d else d). split; [apply in_update_where; by exists d|].
    by destruct (open_by_id t id d). }
  apply inv_invoices; try done; simpl.
  - eapply table_update; [|apply Hs]. intros y [_ Hna%negb_true_iff%bool_decide_eq_false]%andb_true_iff _. split; [done|].
    unfold invoice_ok, disc_verdict. simpl. destruct (vi_status y); try done; by destruct (_ <? _)%nat.
  - apply Hs.
  - eapply table_update; [|apply Hs]. done.
  - intros z (y & Hy & ->)%in_update_where. pose proof (pv_sound s Hs y Hy) as Hsy. destruct (unapproved t (dc_invoice x) y) eqn:Eu.
    + apply andb_true_iff in Eu as [[Y1 Y2]%bool_decide_eq_true _]. eapply (sound_frame s _ y); [done..| |done].
      simpl. unfold disc_verdict. rewrite Y1, Y2. change (OpenDiscrepancyCount (refreshed t (dc_invoice x) s1)) with (OpenDiscrepancyCount s1).
      destruct (0 <? OpenDiscrepancyCount s1 t (dc_invoice x))%nat eqn:E; [apply Nat.ltb_lt in E|apply Nat.ltb_ge in E]; lia.
    + assert (Ec : OpenDiscrepancyCount (refreshed t (dc_invoice x) s1) (vi_tenant y) (vi_id y) = OpenDiscrepancyCount s (vi_tenant y) (vi_id y)).
      { unfold OpenDiscrepancyCount, invoice_discs. cbn [refreshed pr_discs put_invoices]. subst s1. cbn [pr_discs put_discs].
        rewrite select_apart; [done|]. intros d Hd ->%Hone; [|done]. enough (disc_of (vi_tenant y) (vi_id y) x = false) by done.
        apply bool_decide_eq_false. intros [E1 E2]. unfold unapproved, vi_by_id in Eu. rewrite (bool_decide_eq_true_2 (_ /\ _)) in Eu by (split; congruence).
        simpl in Eu. apply negb_false_iff, bool_decide_eq_true in Eu. pose proof (is_verdict s y Hsy) as Hv. rewrite Eu in Hv.
        assert (Hin : In x (select dc_open (invoice_discs s (vi_tenant y) (vi_id y)))).
        { apply in_select. split; [apply in_select; split; [done|by apply bool_decide_eq_true]|done]. }
        unfold OpenDiscrepancyCount in Hv. by destruct (select dc_open _). }
      eapply (sound_frame s _ y); [done..| |done]. rewrite Ec. apply (is_verdict s y Hsy).
Qed.
