(* ===== verification/ProcurementRuns.v ===== *)
(** * What procurement promises

    Over every sequence of requests: orders keep their terms once they leave the
    draft, receipts stay within what was ordered, an invoice is approved only when
    its lines match or their discrepancies were resolved, and the payables are the
    approved invoices. *)

From stdpp Require Import base list strings relations.
From Stdlib Require Import ZArith Lia.
From S2P Require Import Prelude Frames Numeric Schema Ledger Accounting Finance Payables CreditProps StockRequestsProps Receiving ReceivingProps Float64 Policy Operations RosterProps Workforce WorkforceHandlers Procurement SupplierInvoices ProcurementHandlers ProcurementProps.

Local Open Scope Z_scope.
Local Open Scope tx_scope.

(** ** Requests keep the invariant *)

Create HintDb proc.
#[export] Hint Resolve inv_create_order inv_update_order inv_receipt inv_record inv_approve inv_resolve : proc.

Lemma obeys_calm {E A} (c : Tx Proc E A) : obeys calm c -> obeys inv_rel c.
Proof. intros H s x s' Hc. by apply calm_inv, (H s x). Qed.
#[export] Hint Extern 1 (obeys inv_rel _) =>
  apply obeys_calm; solve [eauto using calm_audit, calm_outbox, calm_CreateSupplier, calm_UpdateSupplier, calm_DeactivateSupplier] : proc.

Ltac proc_steps :=
  repeat first
    [ apply obeys_conv | apply obeys_ret; apply _ | apply obeys_lift; apply _ | apply obeys_guard; apply _
    | solve [eauto with proc]
    | apply obeys_bind; [apply _| |intros ?]; cbn beta iota zeta
    | lazymatch goal with
      | |- obeys _ (match ?x with _ => _ end) => destruct x
      end ].

Lemma inv_audit_discs a l : obeys inv_rel (audit_discs a l).
Proof. induction l as [|x l IH]; cbn [audit_discs]; proc_steps. Qed.
#[export] Hint Resolve inv_audit_discs : proc.

Section Steps.
Context {L : Type} `{Loader L} (policy : L) (driver : float64 -> dec) (numeric_div : dec -> dec -> dec).

Lemma inv_handle_transition pool c i b : obeys inv_rel (handleTransitionPurchaseOrder policy pool c i b).
Proof.
  intros s x s' H0. unfold handleTransitionPurchaseOrder in H0. tx_steps H0.
  etrans; [by eapply inv_transition|]. subst. eapply calm_inv, calm_audit, E5.
Qed.

Lemma proc_serve_inv pool r : obeys inv_rel (proc_serve policy driver numeric_div pool r).
Proof.
  destruct r; cbn [proc_serve]; unfold done_with; (apply obeys_bind; [apply _| |intros; apply obeys_ret; apply _]).
  6: apply inv_handle_transition.
  all: unfold handleCreateSupplier, handleUpdateSupplier, handleDeactivateSupplier, handleCreatePurchaseOrder,
    handleUpdatePurchaseOrder, handleReceivePurchaseOrderReceipt, handleRecordSupplierInvoice, handleApproveSupplierInvoice,
    handleResolveProcurementDiscrepancy; proc_steps.
Qed.

(** A request elsewhere in the system: orders and invoices are as they were, and a
    delivery recorded there is on no order. *)
Record proc_elsewhere (s s' : Proc) : Prop := {
  pe_orders : db_pos (pr_db s') = db_pos (pr_db s) /\ db_po_lines (pr_db s') = db_po_lines (pr_db s);
  pe_invoices : pr_invoices s' = pr_invoices s /\ pr_lines s' = pr_lines s /\ pr_discs s' = pr_discs s;
  pe_deliveries : exists l, db_deliveries (pr_db s') = db_deliveries (pr_db s) ++ l /\ forall x, In x l -> dl_po_line x = None;
  pe_next : (proc_next s <= proc_next s')%N;
  pe_receiving : Receiving_wf (pr_db s) -> Receiving_wf (pr_db s');
}.
Lemma elsewhere_inv s s' : proc_elsewhere s s' -> inv_rel s s'.
Proof.
  intros [[E1 E2] (E3 & E4 & E5) (l & E6 & Hl) Hn Hr] Hs. apply inv_orders; try done; rewrite ?E1, ?E2.
  - constructor; unfold order_terms, order_lines; rewrite ?E1, ?E2; [|done|rewrite E6; by eexists]. intros p Hp Hd. by exists p.
  - eapply table_mono; [exact Hn|apply Hs].
  - eapply table_mono; [exact Hn|apply Hs].
  - apply Hr, Hs.
  - intros x k Hx Hk. rewrite E6 in Hx. apply in_app_or in Hx as [Hx|Hx]; [|by rewrite Hl in Hk].
    pose proof (pv_received s Hs x k Hx Hk). lia.
Qed.

Inductive proc_step (s s' : Proc) : Prop :=
| pstep_serve pool r : proc_serve policy driver numeric_div pool r s = Ok (tt, s') -> proc_step s s'
| pstep_elsewhere : proc_elsewhere s s' -> proc_step s s'.

Lemma proc_reach s s' : rtc proc_step s s' -> inv_rel s s'.
Proof.
  induction 1 as [|s s1 s2 [pool r H1|H1] _ IH]; [reflexivity| |]; (etrans; [|exact IH]).
  - by eapply proc_serve_inv.
  - by apply elsewhere_inv.
Qed.
(** Before the first order: no rows of procurement, and sound receiving. *)
Definition opening (s : Proc) : Prop :=
  db_pos (pr_db s) = [] /\ db_po_lines (pr_db s) = [] /\ pr_invoices s = [] /\ pr_lines s = [] /\ pr_discs s = []
  /\ Receiving_wf (pr_db s) /\ forall x, In x (db_deliveries (pr_db s)) -> dl_po_line x = None.
Lemma opening_inv s : opening s -> Proc_inv s.
Proof.
  intros (E1 & E2 & E3 & E4 & E5 & Hr & Hd). constructor; rewrite ?E1, ?E2, ?E3, ?E4, ?E5; try exact (table_nil _ _ _); try done.
  intros x k Hx Hk. by rewrite Hd in Hk.
Qed.
Lemma reach_inv s s' : opening s -> rtc proc_step s s' -> Proc_inv s'.
Proof. intros Ho%opening_inv Hr. by apply (proc_reach s s' Hr). Qed.

(** ** Orders *)

(** Once a purchase order has left the draft its terms are fixed: over any
    further sequence of requests (receipts, transitions, edits, other orders,
    whatever their reads showed) it stays an order of the same tenant, station and
    supplier that is not a draft, and its lines keep their product, ordered litres
    and unit price, with no line added or removed. *)
Theorem order_terms_frozen s0 s s' p :
  opening s0 -> rtc proc_step s0 s -> rtc proc_step s s' -> In p (db_pos (pr_db s)) -> po_st p <> PODraft ->
  order_terms s' (po_tenant p) (po_id p) = order_terms s (po_tenant p) (po_id p)
  /\ exists p', In p' (db_pos (pr_db s')) /\ po_id p' = po_id p /\ po_tenant p' = po_tenant p /\ po_station p' = po_station p
       /\ po_supplier p' = po_supplier p /\ po_st p' <> PODraft.
Proof.
  intros Ho Hr Hr' Hp Hd. destruct (proc_reach s s' Hr' (reach_inv s0 s Ho Hr)) as [_ Hst].
  split; [by apply (sd_terms s s' Hst)|by apply (sd_orders s s' Hst)].
Qed.

(** Orders are well-formed in every reachable state: ids are unique, each status
    has exactly the stamps of the steps that lead to it (submitted, confirmed,
    cancelled, closed), lines are of positive litres, the received litres of a line
    are the sum of its deliveries, and they are within the ordered quantity plus
    half a percent (and the rounding of one reading). *)
Theorem orders_well_formed s0 s :
  opening s0 -> rtc proc_step s0 s ->
  table po_id order_ok (proc_next s) (db_pos (pr_db s))
  /\ forall l, In l (db_po_lines (pr_db s)) -> 0 < pl_ordered l /\ 0 <= pl_unit_price l /\ pl_received l = delivered (pr_db s) l
       /\ (pl_received l = 0 \/ 1000 * pl_received l <= 1005 * pl_ordered l + 500).
Proof.
  intros Ho Hr. pose proof (reach_inv s0 s Ho Hr) as Hs. split; [apply Hs|]. intros l Hl.
  destruct (pv_olines s Hs) as [_ Hp]. destruct (Hp l Hl) as (_ & H1 & H2). destruct (pv_receiving s Hs) as [_ _ _ H4 H5].
  split_and!; [done..|by apply H4|]. destruct (H5 l Hl); auto.
Qed.

(** ** The three-way match *)

(** Half a percent or one litre; half a percent or one cent. *)
Definition within_litres (invoiced reference : Z) : Prop := 200 * Z.abs (invoiced - reference) <= Z.max reference 200000.
Definition within_price (invoiced agreed : Z) : Prop := 200 * Z.abs (invoiced - agreed) <= Z.max agreed 200.

Ltac tolerance_arith :=
  unfold litres_beyond, within_litres, price_beyond, within_price, beyond, dec_ltb, dec_max, dec_leb, dec_sub, dec_add,
    dec_opp, dec_mul, dec_abs, dec_of, half_percent, at_scale; simpl; rewrite negb_false_iff;
  match goal with |- context [if ?a <=? ?b then Dec _ _ else _] => destruct (Z.leb_spec a b) end;
  simpl; unfold pow10 in *; simpl in *; rewrite Z.leb_le; lia.
Lemma litres_within a r : litres_beyond a r = false <-> within_litres a r.
Proof. tolerance_arith. Qed.
Lemma price_within a r : price_beyond a r = false <-> within_price a r.
Proof. tolerance_arith. Qed.

Definition line_within (s : Proc) (l : VendorLine) (o : POLine) : Prop :=
  within_litres (vl_litres l) (reference_litres s l o) /\ within_price (vl_price l) (pl_unit_price o).

Lemma nothing_to_raise s ls :
  to_raise s (matched_lines s ls) = []
  <-> forall l o, In l ls -> In o (db_po_lines (pr_db s)) -> po_line_by (vl_tenant l) (vl_po l) (vl_po_line l) o = true -> line_within s l o.
Proof.
  unfold to_raise, quantity_rows, price_rows. split.
  - intros [E1%fmap_nil_inv E2%fmap_nil_inv]%app_nil. intros l o Hl Ho Hb.
    assert (Hm : In (l, o) (matched_lines s ls)) by (by apply in_join). split; [apply litres_within|apply price_within].
    + destruct (litres_beyond _ _) eqn:E; [|done]. exfalso. by eapply (in_nil (a := (l, o))); rewrite <- E1; apply in_select.
    + destruct (price_beyond _ _) eqn:E; [|done]. exfalso. by eapply (in_nil (a := (l, o))); rewrite <- E2; apply in_select.
  - intros Hw. rewrite !select_none; [done|..]; intros [l o] (Hl & Ho & Hb)%in_join; destruct (Hw l o Hl Ho Hb);
      [by apply price_within|by apply litres_within].
Qed.

(** Recording an invoice decides its match: its total is the sum of its lines; it
    is matched exactly when every line bills within half a percent or one litre of
    its reference (the delivery it names, or what was ordered) and within half a
    percent or one cent of the order's unit price; otherwise it is in discrepancy,
    with an open discrepancy for each such excess. *)
Theorem record_matches s0 s t i v s' :
  opening s0 -> rtc proc_step s0 s -> RecordSupplierInvoice driver t i s = Ok (v, s') ->
  let x := v.1.1 in
  vi_total x = sum_by vl_amount (invoice_lines s' t (vi_id x))
  /\ (vi_status x = VnMatched <->
        forall l o, In l (invoice_lines s' t (vi_id x)) -> In o (db_po_lines (pr_db s)) ->
          po_line_by (vl_tenant l) (vl_po l) (vl_po_line l) o = true -> line_within s l o)
  /\ (vi_status x <> VnMatched -> vi_status x = VnDiscrepancy)
  /\ OpenDiscrepancyCount s' t (vi_id x) = length (to_raise s (matched_lines s (invoice_lines s' t (vi_id x)))).
Proof.
  intros Ho Hr H0. pose proof (inv_ids s (reach_inv s0 s Ho Hr)) as Hb. apply record_ok in H0 as (p & x & ls & ds & Hrec); [|done].
  destruct (recorded_own _ _ _ _ _ _ _ _ _ Hb Hrec) as [El Ec]. pose proof (rd_view _ _ _ _ _ _ _ _ _ Hrec) as ->.
  pose proof (Forall2_length _ _ _ (rd_raised _ _ _ _ _ _ _ _ _ Hrec)) as Elen. cbn [fst view_of]. rewrite El, <- nothing_to_raise, Ec.
  pose proof (rd_row _ _ _ _ _ _ _ _ _ Hrec) as Ex. rewrite Ex. cbn [vi_total vi_status].
  split; [done|]. destruct (decide (ds = [])) as [->|Hd]; simpl.
  - split; [|done]. split; [|done]. intros _. by destruct (to_raise _ _).
  - split; [|done]. split; [done|]. intros E. rewrite E in Elen. by destruct ds.
Qed.

(** C36. In every reachable state an approved supplier invoice is the sum of its
    lines, was approved by someone other than its recorder, belongs to the supplier
    and the station of an order that is not a draft, and each of its lines is
    within tolerance of the order and its reference or had its difference raised as
    a discrepancy that was resolved. *)
Theorem approved_invoices_match s0 s x :
  opening s0 -> rtc proc_step s0 s -> In x (pr_invoices s) -> vi_status x = VnApproved ->
  vi_total x = sum_by vl_amount (invoice_lines s (vi_tenant x) (vi_id x))
  /\ (exists u at_, vi_approved x = Some (u, at_) /\ u <> vi_by x)
  /\ (exists p, In p (db_pos (pr_db s)) /\ po_by (vi_tenant x) (vi_po x) p = true /\ po_st p <> PODraft
        /\ po_supplier p = vi_supplier x /\ po_station p = vi_station x)
  /\ forall l, In l (invoice_lines s (vi_tenant x) (vi_id x)) -> exists o, In o (db_po_lines (pr_db s))
       /\ po_line_by (vi_tenant x) (vi_po x) (vl_po_line l) o = true
       /\ (within_litres (vl_litres l) (reference_litres s l o)
            \/ exists d, In d (invoice_discs s (vi_tenant x) (vi_id x)) /\ dc_po_line d = vl_po_line l
                 /\ dc_variance d = VarLitres (vl_litres l - reference_litres s l o) /\ dc_resolved d <> None)
       /\ (within_price (vl_price l) (pl_unit_price o)
            \/ exists d, In d (invoice_discs s (vi_tenant x) (vi_id x)) /\ dc_po_line d = vl_po_line l
                 /\ dc_variance d = VarPrice (vl_price l - pl_unit_price o) /\ dc_resolved d <> None).
Proof.
  intros Ho Hr Hx Est. pose proof (reach_inv s0 s Ho Hr) as Hs. destruct (pv_sound s Hs x Hx) as [H1 H2 H3 H4 H5].
  rewrite Est in H3. split; [done|]. split; [|split; [done|]].
  { destruct (pv_invoices s Hs) as [_ Hok]. destruct (Hok x Hx) as [_ Hi]. unfold invoice_ok in Hi. by rewrite Est in Hi. }
  intros l Hl. destruct (H4 l Hl) as (Epo & (o & Hin & Eo) & _). pose proof (H5 l o Hl Hin Eo) as [F1 F2].
  apply in_select in Hl as [_ [Elt Eli]%line_of_true]. exists o. split; [done|]. split; [by rewrite <- Elt, <- Epo|].
  assert (Hres : forall d, In d (pr_discs s) -> dc_tenant d = vl_tenant l -> dc_invoice d = vl_invoice l ->
    In d (invoice_discs s (vi_tenant x) (vi_id x)) /\ dc_resolved d <> None).
  { intros d Hd E1 E2. assert (Hi : In d (invoice_discs s (vi_tenant x) (vi_id x))).
    { apply in_select. split; [done|]. apply bool_decide_eq_true. split; congruence. }
    split; [done|]. intros E. assert (Hop : In d (select dc_open (invoice_discs s (vi_tenant x) (vi_id x)))).
    { apply in_select. split; [done|]. by apply bool_decide_eq_true. }
    unfold OpenDiscrepancyCount in H3. by destruct (select dc_open _). }
  split; [rewrite <- litres_within|rewrite <- price_within].
  - destruct (litres_beyond _ _) eqn:E; [right|by left]. destruct (F1 eq_refl) as (d & Hd & D1 & D2 & D3 & D4).
    destruct (Hres d Hd D1 D2). by exists d.
  - destruct (price_beyond _ _) eqn:E; [right|by left]. destruct (F2 eq_refl) as (d & Hd & D1 & D2 & D3 & D4).
    destruct (Hres d Hd D1 D2). by exists d.
Qed.

(** ** From the order to the payable *)

(** A supplier invoice as the payables read it; [day_of] is the date of a time. *)
Definition payable_row (day_of : Z -> Z) (x : VendorInvoice) : SupplierInvoice :=
  mkSupplierInvoice (vi_id x) (vi_tenant x) (vi_supplier x) (vi_number x) (day_of (vi_received x)) (vi_due x) (vi_total x)
    (vi_station x) (bool_decide (vi_status x = VnApproved)).

(** What is imported into the payables was ordered and approved: over every
    sequence of procurement requests, each payable the import creates is for a
    supplier invoice of the tenant that someone other than its recorder approved,
    that has no open discrepancy and stands against an order of that supplier; its
    amount and its open balance are the sum of the invoice's lines. *)
Theorem payables_from_orders day_of s0 s f t ps f' :
  opening s0 -> rtc proc_step s0 s -> fn_sinvoices f = payable_row day_of <$> pr_invoices s ->
  ImportApprovedInvoices t f = Ok (ps, f') ->
  forall b, In b ps -> exists x, In x (pr_invoices s) /\ vi_tenant x = t /\ pb_source b = vi_id x
    /\ (exists u at_, vi_approved x = Some (u, at_) /\ u <> vi_by x)
    /\ OpenDiscrepancyCount s t (vi_id x) = 0%nat
    /\ (exists p, In p (db_pos (pr_db s)) /\ po_by t (vi_po x) p = true /\ po_st p <> PODraft /\ po_supplier p = pb_supplier b)
    /\ pb_amount b = sum_by vl_amount (invoice_lines s t (vi_id x)) /\ pb_outstanding b = pb_amount b.
Proof.
  intros Ho Hr Ef H0 b Hb. pose proof (reach_inv s0 s Ho Hr) as Hs. unfold ImportApprovedInvoices in H0. apply tbind_get_ok in H0.
  apply import_rows_effect in H0 as (_ & _ & Him & _).
  apply list_elem_of_In, list_elem_of_lookup in Hb as [n Hn]. destruct (Forall2_lookup_r _ _ _ _ _ Him Hn) as (i & Hi & Hf).
  assert (Hin : In i (select (importable f t) (fn_sinvoices f))) by (apply list_elem_of_In, list_elem_of_lookup; by exists n).
  apply in_select in Hin as [Hin Himp]. rewrite Ef in Hin. apply list_elem_of_In, list_elem_of_fmap in Hin as (x & -> & Hx%list_elem_of_In).
  unfold importable in Himp. bool_solve. simpl in *. destruct Hf as (Hs1 & Hs2 & Hs3 & Hs4 & _). apply bool_decide_eq_true in Hs1.
  destruct Hs1 as [_ Hsrc]. simpl in *. subst t. destruct (pv_sound s Hs x Hx) as [(p & P1 & P2 & P3 & P4 & _) H2' H3' _ _].
  exists x. split; [done|]. split; [done|]. split; [done|].
  match goal with E : bool_decide (vi_status x = VnApproved) = true |- _ => apply bool_decide_eq_true in E as Est end. rewrite Est in H3'. split; [|split; [done|split; [|split]]].
  - destruct (pv_invoices s Hs) as [_ Hok]. destruct (Hok x Hx) as [_ Hi']. unfold invoice_ok in Hi'. by rewrite Est in Hi'.
  - exists p. split_and!; [done..|congruence].
  - congruence.
  - congruence.
Qed.
End Steps.
