(* ===== verification/ProcurementSamples.v ===== *)
(** * Orders from their draft to a payable

    One run of the requests on procurement, the properties on it, and the runs in
    which the three-way match lets through what it does not compare. *)

From stdpp Require Import base list strings relations.
From Stdlib Require Import ZArith Lia.
From S2P Require Import Prelude Frames Numeric Schema Ledger LedgerProps Accounting Finance Payables CreditProps StockRequestsProps Receiving ReceivingProps Float64 Policy Operations ReconcileProps Workforce WorkforceHandlers Procurement SupplierInvoices ProcurementHandlers ProcurementProps ProcurementRuns.

Local Open Scope Z_scope.
Local Open Scope tx_scope.

Definition buyers : PolicyDb :=
  mkPolicyDb [mkRole 1 "buyer" true false; mkRole 2 "approver" true false]
    [mkPermission 11 "purchase_order.manage" true; mkPermission 12 "purchase_order.approve" true;
     mkPermission 13 "delivery.receive" true; mkPermission 14 "invoice.manage" true; mkPermission 15 "invoice.approve" true]
    [(2, 1, 1); (3, 1, 2)]%N [(1, 11); (1, 12); (1, 13); (1, 14); (2, 15)]%N [(2, 1, 20); (3, 1, 20)]%N.
Definition buyer : option Actor := Some (mkActor 2 1 9 false).
Definition approver : option Actor := Some (mkActor 3 1 9 false).

(** The exact decimal of a double. *)
Definition exact_decimal (x : float64) : dec :=
  if (f_e x <=? 0) then Dec (f_m x * 5 ^ (- f_e x)) (Z.to_nat (- f_e x)) else Dec (f_m x * 2 ^ f_e x) 0.

Definition depot : DB :=
  demo_open "100" (mkDB [] 1 [] [] [] [] [] [] [] [mkTank 1 10 20 30 false] [(1, 30)]%N [(1, 2); (1, 3)]%N [] [] [] 100%N 0).
Definition proc0 : Proc :=
  mkProc depot [mkStation 1 20 false] [mkProductRow 1 30 "0.5" false] [] [] [] [] [] [].

(** A request that reads the state it commits on. *)
Definition serve_now : Proc -> proc_request -> Tx Proc http_error unit := proc_serve buyers exact_decimal dec_quot.
Definition onwards (r : proc_request) (s : Proc) : Proc := (run_tx (serve_now s r) s).2.
Definition accepted (r : proc_request) (s : Proc) : bool := match serve_now s r s with Ok _ => true | Err _ => false end.
Definition orders (l : list proc_request) (s : Proc) : Proc := fold_left (fun s r => onwards r s) l s.
Fixpoint all_accepted (l : list proc_request) (s : Proc) : bool :=
  match l with [] => true | r :: rest => accepted r s && all_accepted rest (onwards r s) end.

(** An order of 1000 litres at 2.50, confirmed; 600 litres received. *)
Definition ordering : list proc_request :=
  [PqCreateSupplier buyer (Ok (mkSupplierInput "S1" "Depot" None None None 30 [30%N]));
   PqCreateOrder buyer (Ok (mkCreatePO 20 101 None None [mkPOLineInput 30 "1000" "2.50"]));
   PqTransition buyer (Ok 102%N) (Ok "submitted"%string); PqTransition buyer (Ok 102%N) (Ok "confirmed"%string);
   PqReceipt buyer (Ok 102%N) (Ok (mkReceiptRequest 10 103 "600" None None None "" "" "" None))].

Definition bill_for (number : string) (delivery : option uuid) (litres : Z) (price : string) (amount : option string)
  : recordInvoiceRequest :=
  mkRecordInvoice 102 number None None None [mkInvoiceLineInput 103 delivery (F64 litres 0) price amount].
(** The delivery is billed in full; then 900 litres without a delivery, 100 off the
    order: the difference is resolved.  Both invoices are approved. *)
Definition billing : list proc_request :=
  [PqInvoice buyer (Ok (bill_for "A-1" (Some 104%N) 600 "2.51" None)); PqInvoice buyer (Ok (bill_for "A-2" None 900 "2.50" None));
   PqApprove approver (Ok 106%N); PqResolve approver (Ok 110%N) (Ok "resolved"%string); PqApprove approver (Ok 108%N)].

Lemma onwards_ok r s : accepted r s = true -> serve_now s r s = Ok (tt, onwards r s).
Proof. unfold accepted, onwards, run_tx. by destruct (serve_now s r s) as [[[] s']|]. Qed.
Lemma orders_steps l : forall s, all_accepted l s = true -> rtc (proc_step buyers exact_decimal dec_quot) s (orders l s).
Proof.
  induction l as [|r l IH]; intros s Hs; [constructor|]. simpl in Hs. apply andb_true_iff in Hs as [H1 H2].
  eapply rtc_l; [eapply pstep_serve; by apply onwards_ok|]. by apply IH.
Qed.
Lemma proc0_opening : opening proc0.
Proof. split_and!; try reflexivity; [constructor|]; simpl; (intros ? [] || constructor). Qed.

Definition ordered : Proc := orders ordering proc0.
Definition billed : Proc := orders billing ordered.
Lemma ordered_steps : rtc (proc_step buyers exact_decimal dec_quot) proc0 ordered.
Proof. apply orders_steps. vm_compute. reflexivity. Qed.
Lemma billed_steps : rtc (proc_step buyers exact_decimal dec_quot) ordered billed.
Proof. apply orders_steps. vm_compute. reflexivity. Qed.
Lemma purchase_steps : rtc (proc_step buyers exact_decimal dec_quot) proc0 billed.
Proof. etrans; [exact ordered_steps|exact billed_steps]. Qed.

Lemma nth_row {R} (l : list R) (k n : nat) : length l = k -> (n < k)%nat -> exists x, In x l /\ l !! n = Some x.
Proof.
  intros <- Hn. apply lookup_lt_is_Some in Hn as [x Hx]. exists x. split; [|exact Hx]. apply list_elem_of_In. by eapply list_elem_of_lookup_2.
Qed.

(** ** The properties on the run *)

Lemma order_terms_frozen_witness :
  exists p, In p (db_pos (pr_db ordered)) /\ po_id p = 102%N
    /\ order_terms billed (po_tenant p) (po_id p) = order_terms ordered (po_tenant p) (po_id p).
Proof.
  destruct (db_pos (pr_db ordered)) as [|p l] eqn:E; [vm_compute in E; discriminate E|].
  assert (Hp : In p (db_pos (pr_db ordered))) by (rewrite E; left; reflexivity).
  assert (Ep : po_id p = 102%N /\ po_st p <> PODraft) by (vm_compute in E; injection E as <- _; split; [reflexivity|discriminate]).
  destruct Ep as [Ei Ed]. exists p. split; [left; reflexivity|]. split; [exact Ei|].
  exact (proj1 (order_terms_frozen buyers exact_decimal dec_quot proc0 ordered billed p proc0_opening ordered_steps billed_steps Hp Ed)).
Defined.

Lemma orders_well_formed_witness :
  table po_id order_ok (proc_next billed) (db_pos (pr_db billed)) /\ length (db_pos (pr_db billed)) = 1%nat.
Proof.
  split; [|vm_compute; reflexivity].
  exact (proj1 (orders_well_formed buyers exact_decimal dec_quot proc0 billed proc0_opening purchase_steps)).
Defined.

(** 600 litres received at 2.50 and billed as 600.5 litres at 2.51: a match. *)
Definition near_bill : SupplierInvoiceInput :=
  mkInvoiceInput 102 "A-3" None None None 2 [mkInvoiceLineInput 103 (Some 104%N) (F64 1201 (-1)) "2.51" None].
Lemma record_matches_witness :
  exists v s', RecordSupplierInvoice exact_decimal 1 near_bill ordered = Ok (v, s') /\ vi_status v.1.1 = VnMatched
    /\ vi_total v.1.1 = sum_by vl_amount (invoice_lines s' 1 (vi_id v.1.1)) /\ vi_total v.1.1 = 150726.
Proof.
  destruct (RecordSupplierInvoice exact_decimal 1 near_bill ordered) as [[v s']|] eqn:E; [|vm_compute in E; discriminate E].
  assert (Ev : vi_status v.1.1 = VnMatched /\ vi_total v.1.1 = 150726).
  { vm_compute in E. injection E as <- _. split; reflexivity. }
  destruct Ev as [E1 E2]. exists v, s'. split; [reflexivity|]. split; [exact E1|]. split; [|exact E2].
  exact (proj1 (record_matches buyers exact_decimal dec_quot proc0 ordered 1 near_bill v s' proc0_opening ordered_steps E)).
Defined.

(** The invoice of 900 litres was approved after its difference was resolved. *)
Lemma approved_invoices_match_witness :
  exists x, In x (pr_invoices billed) /\ vi_status x = VnApproved /\ vi_total x = 225000
    /\ vi_total x = sum_by vl_amount (invoice_lines billed (vi_tenant x) (vi_id x)).
Proof.
  destruct (nth_row (pr_invoices billed) 2 1) as (x & Hx & E); [vm_compute; reflexivity|repeat constructor|].
  assert (Ex : vi_status x = VnApproved /\ vi_total x = 225000) by (vm_compute in E; injection E as <-; split; reflexivity).
  destruct Ex as [E1 E2]. exists x. split; [exact Hx|]. split; [exact E1|]. split; [exact E2|].
  exact (proj1 (approved_invoices_match buyers exact_decimal dec_quot proc0 billed x proc0_opening purchase_steps Hx E1)).
Defined.

(** Both invoices are imported. *)
Definition importing (l : list SupplierInvoice) : Fin :=
  mkFin (mkBooks [] [] [] [] [] [] 100 1 0) [] [] [] [] [] [] [] [] [] l [] [] [] 400 0.
Lemma importing_rows l : fn_sinvoices (importing l) = l.
Proof. reflexivity. Qed.
Definition imports : Fin := importing (payable_row id <$> pr_invoices billed).
Lemma payables_from_orders_witness :
  exists ps f', ImportApprovedInvoices 1 imports = Ok (ps, f') /\ pb_amount <$> ps = [150600; 225000]
    /\ forall b, In b ps -> pb_outstanding b = pb_amount b.
Proof.
  destruct (ImportApprovedInvoices 1 imports) as [[ps f']|] eqn:E; [|vm_compute in E; discriminate E]. exists ps, f'.
  split; [reflexivity|]. split; [vm_compute in E; injection E as <- _; reflexivity|]. intros b Hb.
  destruct (payables_from_orders buyers exact_decimal dec_quot id proc0 billed imports 1 ps f' proc0_opening purchase_steps
              (importing_rows _) E b Hb) as (x & _ & _ & _ & _ & _ & _ & _ & Ho). exact Ho.
Defined.

(** ** What the match and the guards let through *)

(** A supplier with an open order cannot be deactivated, but its status can be
    updated to deactivated. *)
Definition retired : supplierUpdateRequest :=
  mkSupplierUpdateRequest None None None None None None (Some "deactivated"%string) None.
Example deactivated_by_update :
  accepted (PqDeactivate buyer (Ok 101%N)) ordered = false
  /\ accepted (PqUpdateSupplier buyer (Ok 101%N) (Ok retired)) ordered = true
  /\ su_status <$> pr_suppliers (onwards (PqUpdateSupplier buyer (Ok 101%N) (Ok retired)) ordered) = [SpDeactivated].
Proof. vm_compute. split_and!; reflexivity. Qed.

(** The amount of a line is not compared: 600 litres at 2.50 billed as 999999.00 match. *)
Example amount_unmatched :
  let s := onwards (PqInvoice buyer (Ok (bill_for "A-1" (Some 104%N) 600 "2.50" (Some "999999.00"%string)))) ordered in
  (fun x => (vi_status x, vi_total x)) <$> pr_invoices s = [(VnMatched, 99999900)].
Proof. vm_compute. reflexivity. Qed.

(** One delivery billed in full by two invoices, each a match. *)
Example delivery_billed_twice :
  let s := orders [PqInvoice buyer (Ok (bill_for "A-1" (Some 104%N) 600 "2.50" None));
                   PqInvoice buyer (Ok (bill_for "A-2" (Some 104%N) 600 "2.50" None))] ordered in
  (fun x => (vi_status x, vi_total x)) <$> pr_invoices s = [(VnMatched, 150000); (VnMatched, 150000)].
Proof. vm_compute. reflexivity. Qed.

(** Litres that round to zero pass the check of the request and fail in the database. *)
Example crumbs_of_fuel :
  serve_now ordered (PqCreateOrder buyer (Ok (mkCreatePO 20 101 None None [mkPOLineInput 30 "0.0004" "2.50"]))) ordered
  = Err ops_internal.
Proof. vm_compute. reflexivity. Qed.
