(* ===== verification/Secrets.v ===== *)
(** * Passwords and secrets at rest (packages [identity/password],
      [identity/secretcrypto])

    The PHC text of a password hash and the versioned text of an encrypted secret,
    with Go's base64 and its scanner.  The primitives (argon2id, HMAC-SHA256, the
    AEAD) are parameters.  [PasswordHasher] and [SecretBox] are what the identity
    service asks of the two; the argon2id hasher and the AES-GCM cipher implement
    them. *)

From stdpp Require Import base list strings.
From Stdlib Require Import ZArith Lia Ascii String.
From S2P Require Import Prelude Numeric.

Local Open Scope Z_scope.

(** ** base64.RawStdEncoding *)

Definition std_alphabet : string := "ABCDEFGHIJKLMNOPQRSTUVWXYZabcdefghijklmnopqrstuvwxyz0123456789+/".
Definition b64_char (i : Z) : ascii := default "A"%char (String.get (Z.to_nat i) std_alphabet).
Fixpoint index_of (c : ascii) (s : string) (i : Z) : option Z :=
  match s with
  | EmptyString => None
  | String d s' => if bool_decide (d = c) then Some i else index_of c s' (i + 1)
  end.
Definition b64_val (c : ascii) : option Z := index_of c std_alphabet 0.

(** Bytes to sextets and back; the last group may be short and is not padded. *)
Fixpoint sextets (l : list Z) : list Z :=
  match l with
  | a :: b :: c :: r =>
      a / 4 :: (a mod 4) * 16 + b / 16 :: (b mod 16) * 4 + c / 64 :: c mod 64 :: sextets r
  | [a; b] => [a / 4; (a mod 4) * 16 + b / 16; (b mod 16) * 4]
  | [a] => [a / 4; (a mod 4) * 16]
  | [] => []
  end.
Fixpoint octets (l : list Z) : option (list Z) :=
  match l with
  | w :: x :: y :: z :: r =>
      match octets r with
      | Some t => Some (w * 4 + x / 16 :: (x mod 16) * 16 + y / 4 :: (y mod 4) * 64 + z :: t)
      | None => None
      end
  | [w; x; y] => Some [w * 4 + x / 16; (x mod 16) * 16 + y / 4]
  | [w; x] => Some [w * 4 + x / 16]
  | [w] => None
  | [] => Some []
  end.

Definition byte (c : ascii) : Z := Z.of_N (N_of_ascii c).
Definition unbyte (z : Z) : ascii := ascii_of_N (Z.to_N z).
Definition bytes (s : string) : list Z := byte <$> list_ascii_of_string s.
Definition text (l : list Z) : string := string_of_list_ascii (unbyte <$> l).

Definition EncodeToString (s : string) : string := string_of_list_ascii (b64_char <$> sextets (bytes s)).
(** Line breaks are skipped; trailing bits are not checked. *)
Definition line_break (c : ascii) : bool := bool_decide (c = "010"%char \/ c = "013"%char).
Definition DecodeString (s : string) : option string :=
  match mapM b64_val (List.filter (fun c => negb (line_break c)) (list_ascii_of_string s)) with
  | Some l => text <$> octets l
  | None => None
  end.

(** ** fmt.Sscanf *)

(** [SkipSpace]: blanks are skipped, a line end is an error. *)
Fixpoint skip_space (s : string) : option string :=
  match s with
  | String "013" (String "010" _ as r) => skip_space r
  | String c r => if bool_decide (c = "010"%char) then None else if is_space c then skip_space r else Some s
  | EmptyString => Some s
  end.
(** [%d] into an unsigned integer of [bits] bits, and into an [int]. *)
Definition scan_uint (bits : Z) (s : string) : option (Z * string) :=
  match skip_space s with
  | None => None
  | Some s =>
      let '(v, n, rest) := take_digits s 0 0 in
      if (n =? 0)%nat then None else if v <? 2 ^ bits then Some (v, rest) else None
  end.
Definition scan_int (s : string) : option (Z * string) :=
  match skip_space s with
  | None => None
  | Some s =>
      let '(neg, s) := match s with String "-" r => (true, r) | String "+" r => (false, r) | _ => (false, s) end in
      let '(v, n, rest) := take_digits s 0 0 in
      if (n =? 0)%nat then None
      else if neg then if v <=? 2 ^ 63 then Some (- v, rest) else None
      else if v <? 2 ^ 63 then Some (v, rest) else None
  end.
Fixpoint literal (l s : string) : option string :=
  match l, s with
  | EmptyString, _ => Some s
  | String c l', String d s' => if bool_decide (c = d) then literal l' s' else None
  | _, EmptyString => None
  end.

(** ** The argon2id hasher (hasher.go) *)

Record Params := mkParams { Memory : Z; Iterations : Z; Parallelism : Z; SaltLength : Z; KeyLength : Z }.
Definition DefaultParams : Params := mkParams (64 * 1024) 3 4 16 32.
Definition argon2_Version : Z := 19.

Definition safeUint32 (n : Z) : Z := if n <? 0 then 0 else if 2 ^ 32 - 1 <? n then 2 ^ 32 - 1 else n.

(** [strings.Split(encoded, "$")] and the parts of the PHC text. *)
Definition decode (encoded : string) : option (Params * string * string) :=
  match Split "$" encoded with
  | [_; alg; ver; params; salt; key] =>
      if negb (bool_decide (alg = "argon2id"%string)) then None
      else match (literal "v=" ver ≫= scan_int) with
      | None => None
      | Some (v, _) =>
          if negb (v =? argon2_Version) then None
          else
            match (literal "m=" params ≫= scan_uint 32) with
            | None => None
            | Some (m, r) =>
            match (literal ",t=" r ≫= scan_uint 32) with
            | None => None
            | Some (t, r) =>
            match (literal ",p=" r ≫= scan_uint 8) with
            | None => None
            | Some (p, _) =>
            match DecodeString salt, DecodeString key with
            | Some salt, Some key =>
                Some (mkParams m t p (safeUint32 (Z.of_nat (String.length salt)))
                        (safeUint32 (Z.of_nat (String.length key))), salt, key)
            | _, _ => None
            end end end end
      end
  | _ => None
  end.

Definition phc (p : Params) (salt key : string) : string :=
  ("$argon2id$v=" ++ uint_text argon2_Version ++ "$m=" ++ uint_text (Memory p) ++ ",t=" ++ uint_text (Iterations p)
   ++ ",p=" ++ uint_text (Parallelism p) ++ "$" ++ EncodeToString salt ++ "$" ++ EncodeToString key)%string.

(** A hasher: its parameters, its pepper, and the primitives it calls. *)
Record Argon := mkArgon {
  ar_params : Params;
  ar_pepper : string;
  (** [argon2.IDKey(input, salt, time, memory, threads, keyLen)] *)
  IDKey : string -> string -> Z -> Z -> Z -> Z -> string;
  (** [hmac.New(sha256.New, key)] over the message *)
  hmac_sha256 : string -> string -> string;
}.

Definition peppered (h : Argon) (password : string) : string :=
  if bool_decide (ar_pepper h = "")%string then password else hmac_sha256 h (ar_pepper h) password.

(** [salt] is what [rand.Read] returned. *)
Definition Hash (h : Argon) (salt password : string) : result unit string :=
  if bool_decide (password = "")%string then Err tt
  else
    let p := ar_params h in
    Ok (phc p salt (IDKey h (peppered h password) salt (Iterations p) (Memory p) (Parallelism p) (KeyLength p))).

Definition Verify (h : Argon) (password encoded : string) : result unit (bool * bool) :=
  match decode encoded with
  | None => Err tt
  | Some (p, salt, key) =>
      let keyLen := safeUint32 (Z.of_nat (String.length key)) in
      let candidate := IDKey h (peppered h password) salt (Iterations p) (Memory p) (Parallelism p) keyLen in
      if negb (bool_decide (candidate = key)) then Ok (false, false)
      else
        let q := ar_params h in
        Ok (true, (Memory p <? Memory q) || (Iterations p <? Iterations q) || (Parallelism p <? Parallelism q)
                  || (keyLen <? KeyLength q))
  end.

(** ** Secrets at rest (secretcrypto.go) *)

(** [sb_seal nonce plain] is the ciphertext with its tag, [sb_open] its inverse. *)
Record Cipher := mkCipher {
  NonceSize : nat;
  sb_seal : string -> string -> string;
  sb_open : string -> string -> option string;
}.
Definition secret_prefix : string := "v1:".

Definition Encrypt (c : Cipher) (nonce plain : string) : string :=
  (secret_prefix ++ EncodeToString (nonce ++ sb_seal c nonce plain))%string.
Definition Decrypt (c : Cipher) (stored : string) : option string :=
  match literal secret_prefix stored with
  | None => Some stored
  | Some rest =>
      match DecodeString rest with
      | None => None
      | Some raw =>
          if (String.length raw <? NonceSize c)%nat then None
          else sb_open c (substring 0 (NonceSize c) raw)
                 (substring (NonceSize c) (String.length raw - NonceSize c) raw)
      end
  end.

(** ** What the service asks of them *)

Class PasswordHasher (H : Type) := {
  hash_password : H -> string -> string -> result unit string;
  verify_password : H -> string -> string -> result unit (bool * bool);
}.
(** A hash verifies its own password. *)
Class PasswordHasherSpec (H : Type) `{PasswordHasher H} := {
  hasher_ok : H -> string -> Prop;
  verify_own : forall h salt pw e, hasher_ok h salt -> hash_password h salt pw = Ok e -> verify_password h pw e = Ok (true, false);
}.
#[export] Instance argon_hasher : PasswordHasher Argon := { hash_password := Hash; verify_password := Verify }.

Class SecretBox (B : Type) := {
  seal_secret : B -> string -> string -> string;
  open_secret : B -> string -> option string;
}.
Class SecretBoxSpec (B : Type) `{SecretBox B} := {
  box_ok : B -> string -> Prop;
  open_sealed : forall b nonce plain, box_ok b nonce -> open_secret b (seal_secret b nonce plain) = Some plain;
}.
#[export] Instance aes_box : SecretBox Cipher := { seal_secret := Encrypt; open_secret := Decrypt }.

(** ** base64 is decoded to what was encoded *)

Definition is_byte (z : Z) : Prop := 0 <= z < 256.
Lemma byte_bound c : is_byte (byte c).
Proof. unfold is_byte, byte. pose proof (N_ascii_bounded c). lia. Qed.
Lemma unbyte_byte c : unbyte (byte c) = c.
Proof. unfold unbyte, byte. rewrite N2Z.id. apply ascii_N_embedding. Qed.
Lemma bytes_bound s : Forall is_byte (bytes s).
Proof. unfold bytes. apply Forall_fmap, Forall_forall. intros c _. apply byte_bound. Qed.
Lemma text_bytes s : text (bytes s) = s.
Proof.
  unfold text, bytes. rewrite <- list_fmap_compose, (list_fmap_ext _ id), list_fmap_id.
  - apply string_of_list_ascii_of_string.
  - intros i c _. apply unbyte_byte.
Qed.

(** Induction by groups of three. *)
Lemma list_ind3 {A} (P : list A -> Prop) :
  P [] -> (forall a, P [a]) -> (forall a b, P [a; b]) -> (forall a b c l, P l -> P (a :: b :: c :: l)) -> forall l, P l.
Proof.
  intros H0 H1 H2 H3 l. assert (H : P l /\ (forall a, P (a :: l)) /\ (forall a b, P (a :: b :: l))); [|apply H].
  induction l as [|x l (IH1 & IH2 & IH3)]; auto.
Qed.

Ltac byte_arith := Z.to_euclidean_division_equations; lia.
Lemma octets_sextets l : Forall is_byte l -> octets (sextets l) = Some l.
Proof.
  induction l as [|a|a b|a b c l IH] using list_ind3; intros H; repeat (apply Forall_cons in H as [? H]); unfold is_byte in *.
  - done.
  - cbn [sextets octets]. f_equal. f_equal. byte_arith.
  - cbn [sextets octets]. f_equal. f_equal; [|f_equal]; byte_arith.
  - cbn [sextets octets]. rewrite (IH H). f_equal. f_equal; [|f_equal; [|f_equal]]; byte_arith.
Qed.
Lemma sextets_bound l : Forall is_byte l -> Forall (fun z => 0 <= z < 64) (sextets l).
Proof.
  induction l as [|a|a b|a b c l IH] using list_ind3; intros H; repeat (apply Forall_cons in H as [? H]); unfold is_byte in *;
    cbn [sextets]; repeat constructor; try byte_arith. by apply IH.
Qed.

(** Over the alphabet: the value of each character, and none is a separator. *)
Definition b64_ok (i : Z) : bool :=
  bool_decide (b64_val (b64_char i) = Some i) && negb (line_break (b64_char i)) && negb (bool_decide (b64_char i = "$"%char)).
Lemma b64_all : forallb (fun n => b64_ok (Z.of_nat n)) (seq 0 64) = true.
Proof. vm_compute. reflexivity. Qed.
Lemma b64_char_ok i : 0 <= i < 64 -> b64_val (b64_char i) = Some i /\ line_break (b64_char i) = false /\ b64_char i <> "$"%char.
Proof.
  intros Hi. pose proof b64_all as H. rewrite forallb_forall in H. specialize (H (Z.to_nat i)).
  rewrite Z2Nat.id in H by lia. unfold b64_ok in H. assert (Hin : In (Z.to_nat i) (seq 0 64)) by (apply in_seq; lia).
  specialize (H Hin). bool_solve. auto.
Qed.

Lemma b64_values l : Forall (fun z => 0 <= z < 64) l ->
  mapM b64_val (List.filter (fun c => negb (line_break c)) (b64_char <$> l)) = Some l.
Proof.
  induction l as [|i l IH]; intros H; [done|]. apply Forall_cons in H as [Hi H]. destruct (b64_char_ok i Hi) as (E1 & E2 & _).
  specialize (IH H). rewrite fmap_cons. cbn [List.filter]. rewrite E2. cbn [negb].
  change (mapM b64_val (b64_char i :: ?k)) with (b64_val (b64_char i) ≫= fun y => mapM b64_val k ≫= fun t => mret (y :: t)).
  by rewrite E1, IH.
Qed.
Lemma decode_encode s : DecodeString (EncodeToString s) = Some s.
Proof.
  unfold DecodeString, EncodeToString. rewrite list_ascii_of_string_of_list_ascii, b64_values by apply sextets_bound, bytes_bound.
  rewrite octets_sextets by apply bytes_bound. simpl. by rewrite text_bytes.
Qed.

(** ** The PHC text is parsed to what was printed *)

Definition without (c : ascii) (s : string) : Prop := Forall (fun d => d <> c) (list_ascii_of_string s).
Lemma without_app c a b : without c a -> without c b -> without c (a ++ b).
Proof.
  unfold without. induction a as [|d a IH]; simpl; [done|]. intros [H1 H2]%Forall_cons Hb. constructor; auto.
Qed.
Lemma without_digits k z : 0 <= z -> without "$" (digits_n k z).
Proof.
  revert z. induction k as [|k IH]; intros z Hz; simpl; [constructor|]. apply without_app; [apply IH, Z.div_pos; lia|].
  constructor; [|constructor]. intros E. pose proof (digit_val_digit (z mod 10)) as Hd. rewrite E in Hd.
  pose proof (Z.mod_pos_bound z 10). discriminate Hd; lia.
Qed.
Lemma without_encoded s : without "$" (EncodeToString s).
Proof.
  unfold without, EncodeToString. rewrite list_ascii_of_string_of_list_ascii. apply Forall_fmap.
  eapply Forall_impl; [apply sextets_bound, bytes_bound|]. intros i Hi. by apply (b64_char_ok i Hi).
Qed.
Lemma Split_last c a : without c a -> Split c a = [a].
Proof.
  unfold Split. induction a as [|d a IH]; [done|]. intros [H1 H2]%Forall_cons. specialize (IH H2). simpl.
  destruct (split_on c a) as [hd tl]. rewrite bool_decide_eq_false_2 by done. by injection IH as -> ->.
Qed.
Lemma Split_step c a b : without c a -> Split c (a ++ String c b) = a :: Split c b.
Proof.
  unfold Split. induction a as [|d a IH]; [intros _|intros [H1 H2]%Forall_cons].
  - simpl. destruct (split_on c b) as [hd tl]. by rewrite bool_decide_eq_true_2.
  - specialize (IH H2). simpl. destruct (split_on c (a ++ String c b)) as [hd tl].
    rewrite bool_decide_eq_false_2 by done. by injection IH as -> ->.
Qed.

Lemma literal_app l s : literal l (l ++ s) = Some s.
Proof. induction l as [|c l IH]; simpl; [done|]. by rewrite bool_decide_eq_true_2. Qed.
Lemma skip_digits z rest : 0 <= z -> skip_space (uint_text z ++ rest) = Some (uint_text z ++ rest)%string.
Proof.
  intros Hz. unfold uint_text. destruct (ndigits z) as [|k] eqn:Ek; [pose proof (ndigits_pos z); lia|]. clear Ek.
  assert (Hd : exists d s, 0 <= d < 10 /\ digits_n (S k) z = String (digit d) s).
  { revert z Hz. induction k as [|k IH]; intros z Hz.
    - exists (z mod 10), ""%string. split; [apply Z.mod_pos_bound; lia|done].
    - destruct (IH (z / 10)) as (d & s & Hd & E); [apply Z.div_pos; lia|]. eexists d, _. split; [done|].
      change (digits_n (S (S k)) z) with (digits_n (S k) (z / 10) ++ String (digit (z mod 10)) "")%string. by rewrite E. }
  destruct Hd as (d & s & Hd & ->). cbn [String.append]. revert d Hd. by apply digit_cases.
Qed.
(** A number followed by a text that starts with no digit. *)
Definition no_digit (s : string) : Prop := match s with EmptyString => True | String c _ => digit_val c = None end.
Lemma take_uint z rest : 0 <= z -> no_digit rest -> take_digits (uint_text z ++ rest) 0 0 = (z, ndigits z, rest).
Proof.
  intros Hz Hr. rewrite take_digits_uint by done. rewrite Z.mul_0_l, Z.add_0_l, Nat.add_0_l.
  destruct rest as [|c r]; simpl in *; [done|]. by rewrite Hr.
Qed.
Lemma scan_uint_text bits z rest : 0 <= z < 2 ^ bits -> no_digit rest -> scan_uint bits (uint_text z ++ rest) = Some (z, rest).
Proof.
  intros Hz Hr. unfold scan_uint. rewrite skip_digits by lia. rewrite take_uint by (lia || done).
  rewrite (proj2 (Nat.eqb_neq _ _)) by (pose proof (ndigits_pos z); lia). by rewrite (proj2 (Z.ltb_lt _ _)) by lia.
Qed.

(** Parameters of the widths of the Go struct.  [argon2.IDKey] panics for zero
    iterations or zero parallelism, which these widths admit and [IDKey], a total
    function, does not show: with such costs the code makes no hash. *)
Definition params_fit (p : Params) : Prop :=
  0 <= Memory p < 2 ^ 32 /\ 0 <= Iterations p < 2 ^ 32 /\ 0 <= Parallelism p < 2 ^ 8.
Lemma string_app_nil (s : string) : (s ++ "")%string = s.
Proof. induction s as [|c s IH]; [done|]. exact (f_equal (String c) IH). Qed.

Lemma decode_phc p salt key : params_fit p ->
  decode (phc p salt key)
  = Some (mkParams (Memory p) (Iterations p) (Parallelism p) (safeUint32 (Z.of_nat (String.length salt)))
            (safeUint32 (Z.of_nat (String.length key))), salt, key).
Proof.
  intros (Hm & Ht & Hp).
  set (params := ("m=" ++ uint_text (Memory p) ++ ",t=" ++ uint_text (Iterations p) ++ ",p=" ++ uint_text (Parallelism p))%string).
  assert (E : Split "$" (phc p salt key) = [""; "argon2id"; "v=19"; params; EncodeToString salt; EncodeToString key]%string).
  { assert (Eq : phc p salt key = ("" ++ String "$" ("argon2id" ++ String "$" ("v=19" ++ String "$" (params ++ String "$"
      (EncodeToString salt ++ String "$" (EncodeToString key))))))%string).
    { unfold phc, params. rewrite !string_app_assoc. reflexivity. }
    assert (Hw : without "$" params).
    { unfold params. repeat apply without_app; try (apply without_digits; lia); repeat constructor; discriminate. }
    rewrite Eq. rewrite !Split_step; try done; try apply without_encoded; try (repeat constructor; discriminate).
    rewrite Split_last by apply without_encoded. done. }
  unfold decode. rewrite E. cbn [bool_decide decide_rel negb].
  change (literal "v=" "v=19" ≫= scan_int) with (Some (19, ""%string)). cbn [Z.eqb negb argon2_Version].
  rewrite bool_decide_eq_true_2 by done. cbn [negb]. change (negb (19 =? argon2_Version)) with false. cbn iota.
  unfold params. rewrite literal_app. cbn [mbind option_bind]. rewrite scan_uint_text by done.
  rewrite literal_app. cbn [mbind option_bind]. rewrite scan_uint_text by done.
  rewrite literal_app. cbn [mbind option_bind].
  rewrite <- (string_app_nil (uint_text (Parallelism p))). rewrite scan_uint_text by done. by rewrite !decode_encode.
Qed.

Lemma safeUint32_fits n : 0 <= n < 2 ^ 32 -> safeUint32 n = n.
Proof. intros H. unfold safeUint32. destruct (Z.ltb_spec n 0); [lia|]. destruct (Z.ltb_spec (2 ^ 32 - 1) n); lia. Qed.

(** ** Properties *)

(** C32. A stored password hash is read back as it was made: for every password, salt
    and parameters of the struct's widths, verifying any password against the hash
    of another compares the two derived keys under the same salt and costs; its own
    password therefore matches, and a rehash is asked for exactly when the hasher
    that verifies has higher costs than the one that hashed.  (Zero iterations or
    parallelism, on which the library panics, make no hash to read back.) *)
Theorem Verify_Hash h0 h salt pw pw' e :
  params_fit (ar_params h0) -> ar_pepper h = ar_pepper h0 -> IDKey h = IDKey h0 -> hmac_sha256 h = hmac_sha256 h0 ->
  (forall i s t m c n, 0 <= n < 2 ^ 32 -> Z.of_nat (String.length (IDKey h i s t m c n)) = n) ->
  0 <= KeyLength (ar_params h0) < 2 ^ 32 ->
  Hash h0 salt pw = Ok e ->
  let p := ar_params h0 in
  let key w := IDKey h (peppered h w) salt (Iterations p) (Memory p) (Parallelism p) (KeyLength p) in
  Verify h pw' e
  = Ok (bool_decide (key pw' = key pw),
        bool_decide (key pw' = key pw)
        && ((Memory p <? Memory (ar_params h)) || (Iterations p <? Iterations (ar_params h))
            || (Parallelism p <? Parallelism (ar_params h)) || (KeyLength p <? KeyLength (ar_params h)))).
Proof.
  intros Hf Ep Ei Eh Hl Hk H p key. unfold Hash in H. case_bool_decide; [done|]. injection H as <-. unfold Verify.
  rewrite decode_phc by done. fold p. cbn [Memory Iterations Parallelism].
  assert (Epep : forall w, peppered h0 w = peppered h w) by (intros w; unfold peppered; by rewrite Ep, Eh).
  rewrite Epep, <- Ei. fold (key pw). assert (Elen : Z.of_nat (String.length (key pw)) = KeyLength p) by (by apply Hl).
  rewrite Elen, safeUint32_fits by done. fold (key pw'). case_bool_decide; done.
Qed.

(** A hasher for the examples: the key is the input, cut or filled to its length. *)
Fixpoint fill (n : nat) (s : string) : string :=
  match n with
  | O => ""
  | S n' => match s with EmptyString => String "." (fill n' s) | String c s' => String c (fill n' s') end
  end.
Lemma fill_length n : forall s, String.length (fill n s) = n.
Proof. induction n as [|n IH]; intros s; [done|]. destruct s; simpl; by rewrite IH. Qed.
Definition demo_hasher (p : Params) : Argon :=
  mkArgon p "pepper" (fun i s t m c n => fill (Z.to_nat n) (i ++ s)) (fun k m => (k ++ m)%string).

Definition weaker : Params := mkParams 1024 3 4 16 32.
Lemma Verify_Hash_witness :
  exists e, Hash (demo_hasher weaker) "salt" "correct horse" = Ok e
    /\ Verify (demo_hasher DefaultParams) "correct horse" e = Ok (true, true)
    /\ Verify (demo_hasher DefaultParams) "wrong horse" e = Ok (false, false).
Proof.
  destruct (Hash (demo_hasher weaker) "salt" "correct horse") as [e|] eqn:E; [|vm_compute in E; discriminate E].
  exists e. split; [reflexivity|].
  split; (rewrite (Verify_Hash (demo_hasher weaker) (demo_hasher DefaultParams) "salt" "correct horse" _ e);
    [vm_compute; reflexivity|repeat split; vm_compute; congruence|reflexivity|reflexivity|reflexivity
    |intros i s t m c n Hn; simpl; rewrite fill_length; lia|split; vm_compute; congruence|exact E]).
Defined.

Lemma append_length a b : String.length (a ++ b) = (String.length a + String.length b)%nat.
Proof. induction a as [|c a IH]; [done|]. exact (f_equal S IH). Qed.
Lemma substring_head a b : substring 0 (String.length a) (a ++ b) = a.
Proof. induction a as [|c a IH]; [by destruct b|]. exact (f_equal (String c) IH). Qed.
Lemma substring_all b : substring 0 (String.length b) b = b.
Proof. induction b as [|c b IH]; [done|]. exact (f_equal (String c) IH). Qed.
Lemma substring_tail a b : substring (String.length a) (String.length b) (a ++ b) = b.
Proof. induction a as [|c a IH]; [apply substring_all|exact IH]. Qed.

(** An encrypted secret opens to itself. *)
Lemma open_Encrypt c nonce plain :
  String.length nonce = NonceSize c -> sb_open c nonce (sb_seal c nonce plain) = Some plain ->
  Decrypt c (Encrypt c nonce plain) = Some plain.
Proof.
  intros Hn Ho. unfold Decrypt, Encrypt. rewrite literal_app, decode_encode, append_length, Hn.
  rewrite (proj2 (Nat.ltb_ge _ _)) by lia. rewrite Nat.add_comm, Nat.add_sub, <- Hn, substring_head, substring_tail. done.
Qed.

(** The two implement what the service asks, under the documented behaviour of their
    primitives. *)
Definition argon_ok (h : Argon) (salt : string) : Prop :=
  params_fit (ar_params h) /\ 0 <= KeyLength (ar_params h) < 2 ^ 32
  /\ forall i s t m c n, 0 <= n < 2 ^ 32 -> Z.of_nat (String.length (IDKey h i s t m c n)) = n.
Lemma argon_verify_own h salt pw e : argon_ok h salt -> Hash h salt pw = Ok e -> Verify h pw e = Ok (true, false).
Proof.
  intros (Hf & Hk & Hl) H. unfold Hash in H. case_bool_decide; [done|]. injection H as <-. unfold Verify.
  rewrite decode_phc by done. cbn [Memory Iterations Parallelism]. rewrite Hl by done.
  rewrite safeUint32_fits, bool_decide_eq_true_2 by done. cbn [negb]. by rewrite !Z.ltb_irrefl.
Qed.
#[export] Instance argon_hasher_spec : PasswordHasherSpec Argon := { hasher_ok := argon_ok; verify_own := argon_verify_own }.

Definition aes_ok (c : Cipher) (nonce : string) : Prop :=
  String.length nonce = NonceSize c /\ forall plain, sb_open c nonce (sb_seal c nonce plain) = Some plain.
Lemma aes_open_sealed c nonce plain : aes_ok c nonce -> Decrypt c (Encrypt c nonce plain) = Some plain.
Proof. intros [Hn Ho]. by apply open_Encrypt. Qed.
#[export] Instance aes_box_spec : SecretBoxSpec Cipher := { box_ok := aes_ok; open_sealed := aes_open_sealed }.
