(* ===== verification/Sessions.v ===== *)
(** * Accounts and sessions (packages [identity/repo], [identity/session])

    The tables of users, durable sessions and backup codes, and the session store in
    Redis, which holds each live session under its token and the token under the
    session's id.  [now] is one clock for the database, Redis and the process, in
    nanoseconds. *)

From stdpp Require Import base list strings gmap.
From Stdlib Require Import ZArith Lia.
From S2P Require Import Prelude Numeric Schema Operations Policy Frames.

Local Open Scope Z_scope.
Local Open Scope tx_scope.

(** ** Rows *)

Inductive user_status := UsActive | UsInvited | UsSuspended | UsDeleted.
#[export] Instance user_status_eq : EqDecision user_status.
Proof. solve_decision. Defined.

Record User := mkUser {
  us_id : uuid; us_tenant : uuid; us_email : string; us_name : string; us_status : user_status;
  us_hash : option string; us_changed : option Z; us_secret : option string; us_mfa : bool;
  us_login : option Z; us_failed : Z; us_locked : option Z; us_epoch : Z; us_created : Z }.
Record SessionRow := mkSessionRow {
  sr_id : uuid; sr_hash : string; sr_user : uuid; sr_tenant : uuid; sr_device : option uuid; sr_ip : option string;
  sr_agent : string; sr_issued : Z; sr_seen : Z; sr_expires : Z; sr_revoked : option (Z * string) }.
Record MfaRow := mkMfaRow {
  mf_user : uuid; mf_tenant : uuid; mf_codes : list string; mf_generated : option Z; mf_enabled : option Z }.
Record TenantRow := mkTenantRow { tn_id : uuid; tn_slug : string; tn_deleted : bool }.

(** [session.Session]; the raw token is not stored. *)
Record Session := mkSession {
  ss_id : uuid; ss_user : uuid; ss_tenant : uuid; ss_device : option uuid; ss_ip : string; ss_agent : string;
  ss_issued : Z; ss_seen : Z; ss_expires : Z; ss_mfa : bool; ss_epoch : Z }.

(** What a key of the session store holds. *)
Inductive stored := VSession (s : Session) | VToken (raw : string).

(** [at_kv] is the session store, [at_guard] the counters of the limiter and the
    marks of used codes, [at_reset] the reset tokens: three ranges of Redis keys, each
    entry with the instant it expires.  [at_jobs] are the detached rehashes still to
    run. *)
Record Auth := mkAuth {
  at_tenants : list TenantRow;
  at_users : list User;
  at_sessions : list SessionRow;
  at_mfa : list MfaRow;
  at_policy : PolicyDb;
  at_stations : list StationRow;
  at_kv : gmap string (stored * Z);
  at_guard : redis;
  at_reset : gmap string (uuid * Z);
  at_jobs : list (uuid * string);
  at_audit : list AuditRow;
  at_next : uuid;
  at_now : Z;
}.

Definition put_users v s := mkAuth (at_tenants s) v (at_sessions s) (at_mfa s) (at_policy s) (at_stations s) (at_kv s)
  (at_guard s) (at_reset s) (at_jobs s) (at_audit s) (at_next s) (at_now s).
Definition put_sessions v s := mkAuth (at_tenants s) (at_users s) v (at_mfa s) (at_policy s) (at_stations s) (at_kv s)
  (at_guard s) (at_reset s) (at_jobs s) (at_audit s) (at_next s) (at_now s).
Definition put_mfa v s := mkAuth (at_tenants s) (at_users s) (at_sessions s) v (at_policy s) (at_stations s) (at_kv s)
  (at_guard s) (at_reset s) (at_jobs s) (at_audit s) (at_next s) (at_now s).
Definition put_policy v s := mkAuth (at_tenants s) (at_users s) (at_sessions s) (at_mfa s) v (at_stations s) (at_kv s)
  (at_guard s) (at_reset s) (at_jobs s) (at_audit s) (at_next s) (at_now s).
Definition put_kv v s := mkAuth (at_tenants s) (at_users s) (at_sessions s) (at_mfa s) (at_policy s) (at_stations s) v
  (at_guard s) (at_reset s) (at_jobs s) (at_audit s) (at_next s) (at_now s).
Definition put_guard v s := mkAuth (at_tenants s) (at_users s) (at_sessions s) (at_mfa s) (at_policy s) (at_stations s)
  (at_kv s) v (at_reset s) (at_jobs s) (at_audit s) (at_next s) (at_now s).
Definition put_reset v s := mkAuth (at_tenants s) (at_users s) (at_sessions s) (at_mfa s) (at_policy s) (at_stations s)
  (at_kv s) (at_guard s) v (at_jobs s) (at_audit s) (at_next s) (at_now s).
Definition put_jobs v s := mkAuth (at_tenants s) (at_users s) (at_sessions s) (at_mfa s) (at_policy s) (at_stations s)
  (at_kv s) (at_guard s) (at_reset s) v (at_audit s) (at_next s) (at_now s).
Definition put_trail v s := mkAuth (at_tenants s) (at_users s) (at_sessions s) (at_mfa s) (at_policy s) (at_stations s)
  (at_kv s) (at_guard s) (at_reset s) (at_jobs s) v (at_next s) (at_now s).
Definition put_next v s := mkAuth (at_tenants s) (at_users s) (at_sessions s) (at_mfa s) (at_policy s) (at_stations s)
  (at_kv s) (at_guard s) (at_reset s) (at_jobs s) (at_audit s) v (at_now s).
Definition put_time v s := mkAuth (at_tenants s) (at_users s) (at_sessions s) (at_mfa s) (at_policy s) (at_stations s)
  (at_kv s) (at_guard s) (at_reset s) (at_jobs s) (at_audit s) (at_next s) v.

(** [AeNoRows] is [pgx.ErrNoRows]; [AeInternal] any other failure below the service. *)
Inductive auth_error :=
| ErrInvalidCredentials | ErrUserSuspended | ErrUserLocked | ErrTenantNotFound | ErrUserNotFound | ErrSessionNotFound
| ErrSessionExpired | ErrSessionRevoked | ErrMfaRequired | ErrMfaInvalid | ErrTotpReplay | ErrMfaAlreadyEnabled
| ErrMfaNotEnabled | ErrPasswordWeak | ErrResetTokenInvalid | ErrRateLimited
| AeNoRows | AeUnique | AeForeignKey | AeCheck | AeOverflow | AeInternal.
#[export] Instance auth_error_eq : EqDecision auth_error.
Proof. solve_decision. Defined.

Definition auth_fresh {E} : Tx Auth E uuid := fun s => Ok (at_next s, put_next (at_next s + 1)%N s).
(** [integer] columns. *)
Definition int4 (z : Z) : bool := (- 2 ^ 31 <=? z) && (z <? 2 ^ 31).

(** ** Users (repo/user.go) *)

Definition IsActive (u : User) : bool := bool_decide (us_status u = UsActive).
Definition IsLocked (u : User) (now : Z) : bool := match us_locked u with Some t => now <? t | None => false end.
Definition us_live (u : User) : bool := negb (bool_decide (us_status u = UsDeleted)).
Definition us_by (id : uuid) (u : User) : bool := bool_decide (us_id u = id).

Definition FindForLogin (s : Auth) (slug email : string) : option User :=
  match select (fun '(u, t) => us_live u && negb (tn_deleted t) && bool_decide (tn_slug t = slug)
                               && bool_decide (lower (us_email u) = lower email))
          (join (fun u t => bool_decide (tn_id t = us_tenant u)) (at_users s) (at_tenants s)) with
  | (u, _) :: _ => Some u
  | [] => None
  end.
Definition FindByEmail : Auth -> string -> string -> option User := FindForLogin.
Definition FindByID (s : Auth) (tenant id : uuid) : option User :=
  first_where (fun u => bool_decide (us_id u = id /\ us_tenant u = tenant) && us_live u) (at_users s).
Definition TenantOf (s : Auth) (id : uuid) : option uuid := us_tenant <$> first_where (us_by id) (at_users s).
Definition CurrentSessionEpoch (s : Auth) (id : uuid) : option Z := us_epoch <$> first_where (us_by id) (at_users s).

Definition change_user (id : uuid) (f : User -> User) : Tx Auth auth_error unit :=
  let! s := tget in tput (put_users (update_where (us_by id) f (at_users s)) s).

Definition with_password (hash : string) (now : Z) (u : User) : User :=
  mkUser (us_id u) (us_tenant u) (us_email u) (us_name u)
    (if bool_decide (us_status u = UsInvited) then UsActive else us_status u)
    (Some hash) (Some now) (us_secret u) (us_mfa u) (us_login u) 0 None (us_epoch u) (us_created u).
Definition SetPassword (id : uuid) (hash : string) : Tx Auth auth_error unit :=
  let! s := tget in change_user id (with_password hash (at_now s)).

Definition logged_in (now : Z) (u : User) : User :=
  mkUser (us_id u) (us_tenant u) (us_email u) (us_name u) (us_status u) (us_hash u) (us_changed u) (us_secret u) (us_mfa u)
    (Some now) 0 None (us_epoch u) (us_created u).
Definition MarkLoginSuccess (id : uuid) : Tx Auth auth_error unit :=
  let! s := tget in change_user id (logged_in (at_now s)).

Definition failed_again (lockAfter lockFor now : Z) (u : User) : User :=
  mkUser (us_id u) (us_tenant u) (us_email u) (us_name u) (us_status u) (us_hash u) (us_changed u) (us_secret u) (us_mfa u)
    (us_login u) (us_failed u + 1) (if lockAfter <=? us_failed u + 1 then Some (now + lockFor) else us_locked u)
    (us_epoch u) (us_created u).
Definition MarkLoginFailure (id : uuid) (lockAfter lockFor : Z) : Tx Auth auth_error Z :=
  let! s := tget in
  match first_where (us_by id) (at_users s) with
  | None => tfail AeNoRows
  | Some u =>
      tguard (int4 (us_failed u + 1)) AeOverflow ;;!
      change_user id (failed_again lockAfter lockFor (at_now s)) ;;! tret (us_failed u + 1)
  end.

Definition with_mfa (secret : option string) (on : bool) (u : User) : User :=
  mkUser (us_id u) (us_tenant u) (us_email u) (us_name u) (us_status u) (us_hash u) (us_changed u) secret on (us_login u)
    (us_failed u) (us_locked u) (us_epoch u) (us_created u).
Definition users_EnrollMfa (id : uuid) (secret : string) : Tx Auth auth_error unit :=
  change_user id (with_mfa (Some secret) false).
Definition ActivateMfa (id : uuid) : Tx Auth auth_error unit := change_user id (fun u => with_mfa (us_secret u) true u).
Definition users_DisableMfa (id : uuid) : Tx Auth auth_error unit := change_user id (with_mfa None false).

Definition next_epoch (u : User) : User :=
  mkUser (us_id u) (us_tenant u) (us_email u) (us_name u) (us_status u) (us_hash u) (us_changed u) (us_secret u) (us_mfa u)
    (us_login u) (us_failed u) (us_locked u) (us_epoch u + 1) (us_created u).
Definition BumpSessionEpoch (id : uuid) : Tx Auth auth_error unit :=
  let! s := tget in
  tguard (forallb (fun u => negb (us_by id u) || int4 (us_epoch u + 1)) (at_users s)) AeOverflow ;;!
  change_user id next_epoch.

(** [ORDER BY created_at DESC], with the id descending for pages. *)
Definition newest_desc (a b : User) : bool :=
  (us_created b <? us_created a) || ((us_created b =? us_created a) && (us_id b <=? us_id a)%N).
Definition users_List (s : Auth) (tenant : uuid) : list User :=
  order_by (newest us_created) (select (fun u => bool_decide (us_tenant u = tenant) && us_live u) (at_users s)).
Definition users_ListPage (s : Auth) (tenant : uuid) (limit offset : nat) : list User :=
  limit_offset limit offset
    (order_by newest_desc (select (fun u => bool_decide (us_tenant u = tenant) && us_live u) (at_users s))).

(** [chk_users_email] is a parameter; the address is unique in the tenant. *)
Definition Invite (email_ok : string -> bool) (tenant : uuid) (email name : string) : Tx Auth auth_error uuid :=
  let! id := auth_fresh in
  let! s := tget in
  tguard (exists_where (fun t => bool_decide (tn_id t = tenant)) (at_tenants s)) AeForeignKey ;;!
  tguard (email_ok email) AeCheck ;;!
  tguard (negb (exists_where (fun u => bool_decide (us_tenant u = tenant /\ lower (us_email u) = lower email) && us_live u)
                  (at_users s))) AeUnique ;;!
  tput (put_users (at_users s ++ [mkUser id tenant email name UsInvited None None None false None 0 None 0 (at_now s)]) s) ;;!
  tret id.

Definition with_status (st : user_status) (u : User) : User :=
  mkUser (us_id u) (us_tenant u) (us_email u) (us_name u) st (us_hash u) (us_changed u) (us_secret u) (us_mfa u)
    (us_login u) (us_failed u) (us_locked u) (us_epoch u) (us_created u).
Definition UpdateStatus (tenant id : uuid) (st : user_status) : Tx Auth auth_error unit :=
  let! s := tget in
  let hit u := bool_decide (us_id u = id /\ us_tenant u = tenant) && us_live u in
  tguard (exists_where hit (at_users s)) AeNoRows ;;!
  tput (put_users (update_where hit (with_status st) (at_users s)) s).

(** ** Grants *)

Definition set_access v db := mkPolicyDb (pd_roles db) (pd_permissions db) (pd_user_roles db) (pd_role_permissions db) v.
Definition set_user_roles v db := mkPolicyDb (pd_roles db) (pd_permissions db) v (pd_role_permissions db) (pd_station_access db).

(** [ON CONFLICT (user_id, station_id) DO NOTHING] *)
Definition GrantStationAccess (user station tenant : uuid) : Tx Auth auth_error unit :=
  let! s := tget in
  let db := at_policy s in
  if exists_where (fun '(u, _, x) => bool_decide (u = user /\ x = station)) (pd_station_access db) then tret tt
  else tput (put_policy (set_access (pd_station_access db ++ [(user, tenant, station)]) db) s).
Definition RevokeStationAccess (user station : uuid) : Tx Auth auth_error unit :=
  let! s := tget in
  let db := at_policy s in
  tput (put_policy (set_access (select (fun '(u, _, x) => negb (bool_decide (u = user /\ x = station))) (pd_station_access db)) db) s).
Definition ListStationAccess (s : Auth) (user : uuid) : list uuid :=
  (select (fun '(u, _, _) => bool_decide (u = user)) (pd_station_access (at_policy s))).*2.
(** [ORDER BY code] under the collation of the database. *)
Definition ListRoles (collate : string -> string -> bool) (s : Auth) (user : uuid) : list string :=
  order_by collate
    ((fun '(_, r) => ro_code r)
       <$> join (fun '(_, _, k) r => bool_decide (ro_id r = k))
             (select (fun '(u, _, _) => bool_decide (u = user)) (pd_user_roles (at_policy s))) (pd_roles (at_policy s))).
Definition RevokeRole (user role : uuid) : Tx Auth auth_error unit :=
  let! s := tget in
  let db := at_policy s in
  tput (put_policy (set_user_roles (select (fun '(u, _, r) => negb (bool_decide (u = user /\ r = role))) (pd_user_roles db)) db) s).
Definition RoleIDByCode (s : Auth) (code : string) : option uuid :=
  ro_id <$> first_where (fun r => bool_decide (ro_code r = code) && ro_system r) (pd_roles (at_policy s)).
Definition insert_user_role (user role tenant : uuid) : Tx Auth auth_error unit :=
  let! s := tget in
  let db := at_policy s in
  if exists_where (fun '(u, _, r) => bool_decide (u = user /\ r = role)) (pd_user_roles db) then tret tt
  else tput (put_policy (set_user_roles (pd_user_roles db ++ [(user, tenant, role)]) db) s).

(** ** Durable sessions (repo/session.go) *)

(** [parse_ip] is [net.ParseIP(ip) != nil]. *)
Definition sessions_Insert (parse_ip : string -> bool) (hash : string) (user tenant : uuid) (device : option uuid)
    (ip agent : string) (expires : Z) : Tx Auth auth_error uuid :=
  let! id := auth_fresh in
  let! s := tget in
  tguard (negb (exists_where (fun r => bool_decide (sr_hash r = hash)) (at_sessions s))) AeUnique ;;!
  tguard (exists_where (us_by user) (at_users s)) AeForeignKey ;;!
  tput (put_sessions (at_sessions s ++ [mkSessionRow id hash user tenant device (if parse_ip ip then Some ip else None) agent
                                          (at_now s) (at_now s) expires None]) s) ;;!
  tret id.
Definition sr_standing (r : SessionRow) : bool := bool_decide (sr_revoked r = None).
Definition sr_revoke (now : Z) (reason : string) (r : SessionRow) : SessionRow :=
  mkSessionRow (sr_id r) (sr_hash r) (sr_user r) (sr_tenant r) (sr_device r) (sr_ip r) (sr_agent r) (sr_issued r)
    (sr_seen r) (sr_expires r) (Some (now, reason)).
Definition sessions_Revoke {E} (id : uuid) (reason : string) : Tx Auth E unit :=
  let! s := tget in
  tput (put_sessions (update_where (fun r => bool_decide (sr_id r = id) && sr_standing r) (sr_revoke (at_now s) reason)
                        (at_sessions s)) s).
Definition RevokeAllForUser (user : uuid) (reason : string) : Tx Auth auth_error unit :=
  let! s := tget in
  tput (put_sessions (update_where (fun r => bool_decide (sr_user r = user) && sr_standing r) (sr_revoke (at_now s) reason)
                        (at_sessions s)) s).
Definition sr_touch (now expires : Z) (r : SessionRow) : SessionRow :=
  mkSessionRow (sr_id r) (sr_hash r) (sr_user r) (sr_tenant r) (sr_device r) (sr_ip r) (sr_agent r) (sr_issued r) now
    expires (sr_revoked r).
Definition TouchExpiry (id : uuid) (expires : Z) : Tx Auth auth_error unit :=
  let! s := tget in
  tput (put_sessions (update_where (fun r => bool_decide (sr_id r = id) && sr_standing r) (sr_touch (at_now s) expires)
                        (at_sessions s)) s).
Definition sr_active (s : Auth) (user : uuid) (r : SessionRow) : bool :=
  bool_decide (sr_user r = user) && sr_standing r && (at_now s <? sr_expires r).
Definition ListActiveForUser (s : Auth) (user : uuid) : list SessionRow :=
  order_by (newest sr_issued) (select (sr_active s user) (at_sessions s)).
Definition latest_desc (a b : SessionRow) : bool :=
  (sr_issued b <? sr_issued a) || ((sr_issued b =? sr_issued a) && (sr_id b <=? sr_id a)%N).
Definition ListActiveForUserPage (s : Auth) (user : uuid) (limit offset : nat) : list SessionRow :=
  limit_offset limit offset (order_by latest_desc (select (sr_active s user) (at_sessions s))).
Definition FindActiveOwnedBy (s : Auth) (id user : uuid) : option SessionRow :=
  first_where (fun r => bool_decide (sr_id r = id) && sr_active s user r) (at_sessions s).

(** ** Backup codes (repo/user_mfa.go) *)

Definition mf_by (user : uuid) (r : MfaRow) : bool := bool_decide (mf_user r = user).
Definition SetBackupCodes (tenant user : uuid) (hashes : list string) : Tx Auth auth_error unit :=
  let! s := tget in
  tguard (exists_where (fun u => bool_decide (us_tenant u = tenant /\ us_id u = user)) (at_users s)) AeForeignKey ;;!
  let now := at_now s in
  tput (put_mfa
    (if exists_where (mf_by user) (at_mfa s)
     then update_where (mf_by user)
            (fun r => mkMfaRow (mf_user r) (mf_tenant r) hashes (Some now) (opt_or (mf_enabled r) (Some now))) (at_mfa s)
     else at_mfa s ++ [mkMfaRow user tenant hashes (Some now) (Some now)]) s).
Definition BackupCodes (s : Auth) (user : uuid) : option (list string) := mf_codes <$> first_where (mf_by user) (at_mfa s).
Definition RemainingCount (s : Auth) (user : uuid) : nat := length (default [] (BackupCodes s user)).
(** [array_remove] removes every occurrence. *)
Definition without_code (hash : string) (r : MfaRow) : MfaRow :=
  mkMfaRow (mf_user r) (mf_tenant r) (select (fun h => negb (bool_decide (h = hash))) (mf_codes r)) (mf_generated r) (mf_enabled r).
Definition ConsumeBackupCode (user : uuid) (hash : string) : Tx Auth auth_error unit :=
  let! s := tget in tput (put_mfa (update_where (mf_by user) (without_code hash) (at_mfa s)) s).
Definition mfa_Clear (user : uuid) : Tx Auth auth_error unit :=
  let! s := tget in tput (put_mfa (select (fun r => negb (mf_by user r)) (at_mfa s)) s).

(** ** The session store (session/redis_store.go) *)

(** [GET]: an expired entry is absent. *)
Definition kv_live {V} (m : gmap string (V * Z)) (now : Z) (k : string) : option V :=
  match m !! k with Some (v, e) => if now <? e then Some v else None | None => None end.

Section Store.
(** The text of an id. *)
Context (uuid_string : uuid -> string).

Definition store_prefix : string := "session:".
Definition tokenKey (raw : string) : string := (store_prefix ++ raw)%string.
Definition idKey (id : uuid) : string := (store_prefix ++ "id:" ++ uuid_string id)%string.

(** Both keys with the same time to live; a session that has expired is refused. *)
Definition store_Put (raw : string) (x : Session) : Svc Auth auth_error unit :=
  fun s =>
    if ss_expires x - at_now s <=? 0 then (Err AeInternal, s)
    else (Ok tt, put_kv (<[idKey (ss_id x) := (VToken raw, ss_expires x)]>
                           (<[tokenKey raw := (VSession x, ss_expires x)]> (at_kv s))) s).
(** A value that is not a session does not decode. *)
Definition store_Get (s : Auth) (raw : string) : result auth_error Session :=
  match kv_live (at_kv s) (at_now s) (tokenKey raw) with
  | None => Err ErrSessionNotFound
  | Some (VSession x) => Ok x
  | Some (VToken _) => Err AeInternal
  end.
Definition store_del (keys : list string) (s : Auth) : Auth := put_kv (foldr delete (at_kv s) keys) s.
(** [EXPIRE] on a live key. *)
Definition expire_at (now e : Z) (k : string) (m : gmap string (stored * Z)) : gmap string (stored * Z) :=
  match kv_live m now k with Some v => <[k := (v, e)]> m | None => m end.
Definition store_Touch (raw : string) (ttl : Z) : Svc Auth auth_error unit :=
  fun s =>
    if ttl <=? 0 then (Err AeInternal, s)
    else match store_Get s raw with
    | Err e => (Err e, s)
    | Ok x =>
        let e := at_now s + ttl in
        (Ok tt, put_kv (expire_at (at_now s) e (idKey (ss_id x)) (expire_at (at_now s) e (tokenKey raw) (at_kv s))) s)
    end.
Definition store_Delete (raw : string) : Svc Auth auth_error unit :=
  fun s => match store_Get s raw with
           | Err e => (if bool_decide (e = ErrSessionNotFound) then Ok tt else Err e, s)
           | Ok x => (Ok tt, store_del [tokenKey raw; idKey (ss_id x)] s)
           end.
(** An id key holds a token: [store_Put] is the only writer, and its tokens are texts
    that do not start with [id:]. *)
Definition store_DeleteByID (id : uuid) : Svc Auth auth_error unit :=
  fun s => match kv_live (at_kv s) (at_now s) (idKey id) with
           | Some (VToken raw) => (Ok tt, store_del [tokenKey raw; idKey id] s)
           | Some (VSession _) => (Ok tt, store_del [idKey id] s)
           | None => (Ok tt, s)
           end.
End Store.
