(* ===== verification/SessionStore.v ===== *)
(** * The session store refines a map from tokens to sessions

    Under each token its session, and under each session's id its token: the two
    ranges of keys together are one map from tokens, from which a session can be
    deleted by id. *)

From stdpp Require Import base list strings gmap.
From Stdlib Require Import ZArith Lia.
From S2P Require Import Prelude Numeric Schema Operations Policy Frames Secrets Sessions.

Local Open Scope Z_scope.

(** Tokens are texts of [RawURLEncoding]; they do not start like an id's key. *)
Definition plain_token (raw : string) : bool := bool_decide (literal "id:" raw = None).

(** ** The specification *)

Abbreviation vault := (gmap string (Session * Z)).

Inductive store_op :=
| OpPut (raw : string) (x : Session)
| OpGet (raw : string)
| OpTouch (raw : string) (ttl : Z)
| OpDelete (raw : string)
| OpDeleteByID (id : uuid).

Definition vault_get (m : vault) (now : Z) (raw : string) : option Session := kv_live m now raw.
Definition vault_step (now : Z) (op : store_op) (m : vault) : result auth_error (option Session) * vault :=
  match op with
  | OpPut raw x => if ss_expires x <=? now then (Err AeInternal, m) else (Ok None, <[raw := (x, ss_expires x)]> m)
  | OpGet raw => (match vault_get m now raw with Some x => Ok (Some x) | None => Err ErrSessionNotFound end, m)
  | OpTouch raw ttl =>
      if ttl <=? 0 then (Err AeInternal, m)
      else match vault_get m now raw with
           | Some x => (Ok None, <[raw := (x, now + ttl)]> m)
           | None => (Err ErrSessionNotFound, m)
           end
  | OpDelete raw => (Ok None, match vault_get m now raw with Some _ => delete raw m | None => m end)
  | OpDeleteByID id => (Ok None, filter (fun '(_, (x, e)) => ~ (ss_id x = id /\ now < e)) m)
  end.

(** What a caller keeps to: a token stands for one session, a session has one token. *)
Definition op_ok (m : vault) (op : store_op) : Prop :=
  match op with
  | OpPut raw x => plain_token raw = true /\ forall raw' y e, m !! raw' = Some (y, e) -> (raw' = raw <-> ss_id y = ss_id x)
  | OpGet raw | OpTouch raw _ | OpDelete raw => plain_token raw = true
  | OpDeleteByID _ => True
  end.

Section Store.
Context (uuid_string : uuid -> string) `{!Inj (=) (=) uuid_string}.

Definition store_run (op : store_op) : Svc Auth auth_error (option Session) :=
  match op with
  | OpPut raw x => sbind (store_Put uuid_string raw x) (fun _ => sret None)
  | OpGet raw => fun s => (match store_Get s raw with Ok x => Ok (Some x) | Err e => Err e end, s)
  | OpTouch raw ttl => sbind (store_Touch uuid_string raw ttl) (fun _ => sret None)
  | OpDelete raw => sbind (store_Delete uuid_string raw) (fun _ => sret None)
  | OpDeleteByID id => sbind (store_DeleteByID uuid_string id) (fun _ => sret None)
  end.

(** [kv] stores the map [m]. *)
Record stores (m : vault) (kv : gmap string (stored * Z)) : Prop := {
  st_plain : forall raw v, m !! raw = Some v -> plain_token raw = true;
  st_token : forall raw, plain_token raw = true ->
    kv !! tokenKey raw = (fun '(x, e) => (VSession x, e)) <$> m !! raw;
  st_index : forall id v, kv !! idKey uuid_string id = Some v <->
    exists raw x e, m !! raw = Some (x, e) /\ ss_id x = id /\ v = (VToken raw, e);
}.

(** ** Keys *)

Lemma append_inj p : Inj (=) (=) (String.append p).
Proof. intros a b E. induction p as [|c p IH]; [exact E|]. injection E as E. by apply IH. Qed.
#[local] Instance tokenKey_inj : Inj (=) (=) tokenKey.
Proof. intros a b E. by apply (append_inj store_prefix). Qed.
#[local] Instance idKey_inj : Inj (=) (=) (idKey uuid_string).
Proof. intros a b E. apply (append_inj store_prefix), (append_inj "id:") in E. by apply (inj uuid_string). Qed.
Lemma literal_append l s : literal l (l ++ s) = Some s.
Proof. induction l as [|c l IH]; [done|]. change (literal (String c l) (String c (l ++ s)) = Some s). simpl. by rewrite bool_decide_eq_true_2. Qed.
Lemma key_apart raw id : plain_token raw = true -> tokenKey raw <> idKey uuid_string id.
Proof.
  intros Hp%bool_decide_eq_true_1 E. apply (append_inj store_prefix) in E. rewrite E in Hp.
  by rewrite (literal_append "id:" (uuid_string id)) in Hp.
Qed.

Lemma stores_get m s now raw : plain_token raw = true -> stores m (at_kv s) -> at_now s = now ->
  store_Get s raw = match vault_get m now raw with Some x => Ok x | None => Err ErrSessionNotFound end.
Proof.
  intros Hp Hs <-. unfold store_Get, vault_get, kv_live. rewrite (st_token _ _ Hs raw Hp).
  destruct (m !! raw) as [[x e]|]; simpl; [|done]. by destruct (at_now s <? e).
Qed.
Lemma vault_get_some m now raw x : vault_get m now raw = Some x -> exists e, m !! raw = Some (x, e) /\ now < e.
Proof.
  unfold vault_get, kv_live. destruct (m !! raw) as [[y e]|]; [|done]. destruct (now <? e) eqn:E; [|done]. intros [= ->].
  exists e. split; [done|lia].
Qed.

(** ** Operations *)

Lemma stores_unique m kv raw x e raw' y e' : stores m kv -> m !! raw = Some (x, e) -> m !! raw' = Some (y, e') -> ss_id x = ss_id y -> raw = raw'.
Proof.
  intros Hs Hx Hy E. assert (H1 : kv !! idKey uuid_string (ss_id x) = Some (VToken raw, e)) by (apply (st_index _ _ Hs); exists raw, x, e; done).
  assert (H2 : kv !! idKey uuid_string (ss_id x) = Some (VToken raw', e')) by (apply (st_index _ _ Hs); exists raw', y, e'; done). congruence.
Qed.
Lemma stores_insert m kv raw x e : stores m kv -> plain_token raw = true ->
  (forall raw' y e', m !! raw' = Some (y, e') -> (raw' = raw <-> ss_id y = ss_id x)) ->
  stores (<[raw := (x, e)]> m) (<[idKey uuid_string (ss_id x) := (VToken raw, e)]> (<[tokenKey raw := (VSession x, e)]> kv)).
Proof.
  intros Hs Hp Hm. split.
  - intros raw' v [[<- _]|[_ Hv]]%lookup_insert_Some; [done|by eapply st_plain].
  - intros raw' Hp'. rewrite lookup_insert_ne by (intros E; symmetry in E; revert E; by apply key_apart).
    destruct (decide (raw' = raw)) as [->|Hne]; [by rewrite !lookup_insert_eq|].
    rewrite !lookup_insert_ne by (first [done|by intros E%(inj tokenKey)]). by apply st_token.
  - intros id v. destruct (decide (id = ss_id x)) as [->|Hne].
    + rewrite lookup_insert_eq. split.
      * intros [= <-]. exists raw, x, e. by rewrite lookup_insert_eq.
      * intros (raw' & y & e' & Hy & Ey & ->). apply lookup_insert_Some in Hy as [[<- [= -> ->]]|[Hn Hy]]; [done|].
        destruct Hn. symmetry. by apply (Hm raw' y e').
    + rewrite lookup_insert_ne by (by intros E%(inj (idKey uuid_string))).
      rewrite lookup_insert_ne by (by apply key_apart). rewrite (st_index _ _ Hs). split.
      * intros (raw' & y & e' & Hy & <- & ->). exists raw', y, e'. split; [|done]. rewrite lookup_insert_ne; [done|].
        intros <-. destruct Hne. by apply (Hm raw y e').
      * intros (raw' & y & e' & Hy & Ey & ->). apply lookup_insert_Some in Hy as [[<- [= -> ->]]|[_ Hy]]; [done|].
        by exists raw', y, e'.
Qed.
Lemma stores_delete m kv raw x e : stores m kv -> m !! raw = Some (x, e) ->
  stores (delete raw m) (delete (tokenKey raw) (delete (idKey uuid_string (ss_id x)) kv)).
Proof.
  intros Hs Hx. assert (Hp : plain_token raw = true) by (by eapply st_plain). split.
  - intros raw' v [_ Hv]%lookup_delete_Some. by eapply st_plain.
  - intros raw' Hp'. destruct (decide (raw' = raw)) as [->|Hne]; [by rewrite !lookup_delete_eq|].
    rewrite !lookup_delete_ne by (first [done|by intros E%(inj tokenKey)|intros E; symmetry in E; revert E; by apply key_apart]).
    by apply st_token.
  - intros id v. rewrite lookup_delete_ne by (by apply key_apart). destruct (decide (id = ss_id x)) as [->|Hne].
    + rewrite lookup_delete_eq. split; [done|]. intros (raw' & y & e' & [Hn Hy]%lookup_delete_Some & Ey & _).
      destruct Hn. by eapply stores_unique.
    + rewrite lookup_delete_ne by (by intros E%(inj (idKey uuid_string))). rewrite (st_index _ _ Hs). split.
      * intros (raw' & y & e' & Hy & Ey & ->). exists raw', y, e'. split; [|done]. apply lookup_delete_Some. split; [|done].
        intros <-. rewrite Hx in Hy. by simplify_eq.
      * intros (raw' & y & e' & [_ Hy]%lookup_delete_Some & Ey & ->). by exists raw', y, e'.
Qed.
Lemma stores_index m kv now raw x e : stores m kv -> m !! raw = Some (x, e) -> now < e ->
  kv_live kv now (idKey uuid_string (ss_id x)) = Some (VToken raw).
Proof.
  intros Hs Hx Hl. unfold kv_live. rewrite (proj2 (st_index _ _ Hs (ss_id x) (VToken raw, e))) by (exists raw, x, e; done).
  by rewrite (proj2 (Z.ltb_lt now e) Hl).
Qed.

(** Deletion by id on the map: the one live session with that id. *)
Lemma filter_none (m : vault) id now :
  (forall raw x e, m !! raw = Some (x, e) -> ss_id x = id -> e <= now) -> filter (fun '(_, (x, e)) => ~ (ss_id x = id /\ now < e)) m = m.
Proof.
  intros Hn. apply map_filter_id. intros raw [x e] Hx [E L]. pose proof (Hn raw x e Hx E). lia.
Qed.
Lemma filter_one m kv raw x e now : stores m kv -> m !! raw = Some (x, e) -> now < e ->
  filter (fun '(_, (y, e')) => ~ (ss_id y = ss_id x /\ now < e')) m = delete raw m.
Proof.
  intros Hs Hx Hl. apply map_eq. intros raw'. apply option_eq. intros [y e'].
  rewrite map_lookup_filter_Some, lookup_delete_Some. split.
  - intros [Hy Hn]. split; [|done]. intros <-. rewrite Hx in Hy. injection Hy as <- <-. by apply Hn.
  - intros [Hne Hy]. split; [done|]. intros [E _]. apply Hne. by eapply stores_unique.
Qed.

Lemma put_kv_same s : put_kv (at_kv s) s = s.
Proof. by destruct s. Qed.
Lemma store_step m s op : stores m (at_kv s) -> op_ok m op ->
  (store_run op s).1 = (vault_step (at_now s) op m).1
  /\ stores (vault_step (at_now s) op m).2 (at_kv (store_run op s).2)
  /\ (store_run op s).2 = put_kv (at_kv (store_run op s).2) s.
Proof.
  intros Hs Hok. destruct op as [raw x|raw|raw ttl|raw|id]; cbn [store_run vault_step op_ok] in *.
  - destruct Hok as [Hp Hm]. unfold sbind, store_Put. destruct (Z.leb_spec (ss_expires x) (at_now s)).
    + rewrite (proj2 (Z.leb_le _ _)) by lia. by rewrite put_kv_same.
    + rewrite (proj2 (Z.leb_gt _ _)) by lia. split; [done|]. split; [by apply stores_insert|done].
  - rewrite (stores_get m s (at_now s)) by done. rewrite put_kv_same. by destruct (vault_get m (at_now s) raw).
  - unfold sbind, store_Touch. destruct (ttl <=? 0) eqn:Et; [by rewrite put_kv_same|].
    rewrite (stores_get m s (at_now s)) by done. destruct (vault_get m (at_now s) raw) as [x|] eqn:Eg; [|by rewrite put_kv_same].
    apply vault_get_some in Eg as (e & Hx & Hl). split; [done|]. split; [|done]. cbn [snd at_kv put_kv].
    assert (Hkv : kv_live (at_kv s) (at_now s) (tokenKey raw) = Some (VSession x)).
    { unfold kv_live. rewrite (st_token _ _ Hs raw Hok), Hx. simpl. by rewrite (proj2 (Z.ltb_lt _ _) Hl). }
    unfold expire_at at 2. rewrite Hkv. unfold expire_at.
    assert (Hi : kv_live (<[tokenKey raw := (VSession x, at_now s + ttl)]> (at_kv s)) (at_now s) (idKey uuid_string (ss_id x)) = Some (VToken raw)).
    { unfold kv_live. rewrite lookup_insert_ne by (by apply key_apart). by eapply stores_index. }
    rewrite Hi. apply stores_insert; [done..|]. intros raw' y e' Hy. split; [intros ->; by simplify_eq|].
    intros E. symmetry. by eapply stores_unique.
  - unfold sbind, store_Delete. rewrite (stores_get m s (at_now s)) by done.
    destruct (vault_get m (at_now s) raw) as [x|] eqn:Eg; [|by rewrite put_kv_same].
    apply vault_get_some in Eg as (e & Hx & Hl). split; [done|]. split; [|done]. by eapply stores_delete.
  - unfold sbind, store_DeleteByID. destruct (kv_live _ _ _) as [v|] eqn:Ek.
    + unfold kv_live in Ek. destruct (at_kv s !! idKey uuid_string id) as [[v' e]|] eqn:Ei; [|done].
      apply (st_index _ _ Hs) in Ei as (raw & x & e' & Hx & <- & [= -> ->]). destruct (Z.ltb_spec (at_now s) e'); [|done].
      injection Ek as <-. split; [done|]. split; [|done]. cbn [snd]. rewrite (filter_one m _ raw x e' _ Hs Hx) by done.
      by eapply stores_delete.
    + rewrite filter_none; [by rewrite put_kv_same|]. intros raw x e Hx <-. destruct (Z.le_gt_cases e (at_now s)) as [|Hl]; [done|].
      by rewrite (stores_index m _ _ raw x e Hs Hx Hl) in Ek.
Qed.

(** ** Sequences *)

(** Each operation after some time has passed. *)
Fixpoint store_runs (l : list (N * store_op)) (s : Auth) : list (result auth_error (option Session)) * Auth :=
  match l with
  | [] => ([], s)
  | (d, op) :: rest =>
      let '(r, s1) := store_run op (put_time (at_now s + Z.of_N d) s) in
      let '(rs, s2) := store_runs rest s1 in (r :: rs, s2)
  end.
Fixpoint vault_runs (now : Z) (l : list (N * store_op)) (m : vault) : list (result auth_error (option Session)) * vault :=
  match l with
  | [] => ([], m)
  | (d, op) :: rest =>
      let '(r, m1) := vault_step (now + Z.of_N d) op m in
      let '(rs, m2) := vault_runs (now + Z.of_N d) rest m1 in (r :: rs, m2)
  end.
Fixpoint ops_ok (now : Z) (l : list (N * store_op)) (m : vault) : Prop :=
  match l with
  | [] => True
  | (d, op) :: rest => op_ok m op /\ ops_ok (now + Z.of_N d) rest (vault_step (now + Z.of_N d) op m).2
  end.

Lemma stores_empty : stores ∅ ∅.
Proof. split; [done|by intros|]. intros id v. split; [done|]. by intros (raw & x & e & Hx & _). Qed.

(** C31. The session store in Redis, with its two keys for each session, is a map from
    tokens to sessions from which a session can also be deleted by its id: any
    sequence of puts, reads, extensions and deletions, with time passing in between
    and entries expiring, gives the results that map gives, and leaves what
    represents it; for callers that give a session one token. *)
Theorem store_refines l m s : stores m (at_kv s) -> ops_ok (at_now s) l m ->
  (store_runs l s).1 = (vault_runs (at_now s) l m).1 /\ stores (vault_runs (at_now s) l m).2 (at_kv (store_runs l s).2).
Proof.
  revert m s. induction l as [|[d op] l IH]; intros m s Hs Hok; [done|]. cbn [store_runs vault_runs ops_ok] in *.
  set (s0 := put_time (at_now s + Z.of_N d) s). destruct Hok as [Ho Hok].
  destruct (store_step m s0 op Hs Ho) as (E1 & Hs1 & Ef). change (at_now s0) with (at_now s + Z.of_N d) in *.
  destruct (store_run op s0) as [r s1]. destruct (vault_step (at_now s + Z.of_N d) op m) as [r' m1]. cbn [fst snd] in *.
  assert (En : at_now s1 = at_now s + Z.of_N d) by (by rewrite Ef). rewrite <- En in Hok |- *.
  destruct (IH m1 s1 Hs1 Hok) as [F1 F2]. destruct (store_runs l s1), (vault_runs (at_now s1) l m1). cbn [fst snd] in *.
  split; [congruence|done].
Qed.
End Store.
