(* ===== verification/Identity.v ===== *)
(** * The identity service (identity/service.go)

    Login with its rate limits, lockout and second factor, sessions and their
    revocation, passwords and their reset, MFA and its backup codes.

    A method reads on the pool, talks to Redis and runs transactions in turn.  [pool]
    is the state its reads on the pool showed; [seen] the state of Redis at a read
    that precedes the write based on it.  What is drawn at random (tokens, salts,
    nonces, codes) is an argument.  The outbox row an audit row comes with is left out. *)

From stdpp Require Import base list strings gmap.
From Stdlib Require Import ZArith Lia Ascii.
From S2P Require Import Prelude Numeric Schema Operations Policy Frames Secrets Sessions Workforce WorkforceHandlers.

Local Open Scope Z_scope.
Local Open Scope svc_scope.

Definition minute_ns : Z := 60 * second.
Record ServiceConfig := mkServiceConfig {
  SessionTTL : Z; LoginLockAfter : Z; LoginLockFor : Z; LoginRateMax : Z; LoginRateWindow : Z; PasswordResetTTL : Z;
  PasswordResetPrefix : string }.
Definition positive_or (d x : Z) : Z := if x <=? 0 then d else x.
Definition SafeDefaults (c : ServiceConfig) : ServiceConfig :=
  mkServiceConfig (positive_or (12 * 60 * minute_ns) (SessionTTL c)) (positive_or 10 (LoginLockAfter c))
    (positive_or (30 * minute_ns) (LoginLockFor c)) (positive_or 5 (LoginRateMax c))
    (positive_or (15 * minute_ns) (LoginRateWindow c)) (positive_or (60 * minute_ns) (PasswordResetTTL c))
    (if bool_decide (PasswordResetPrefix c = "")%string then "pwd_reset:"%string else PasswordResetPrefix c).

Record LoginRequest := mkLoginRequest {
  lr_slug : string; lr_email : string; lr_password : string; lr_code : string; lr_ip : string; lr_agent : string;
  lr_device : option uuid }.
(** [MfaRequired], or the token with its session. *)
Inductive LoginResult := LoginMfaRequired | LoginGranted (token : string) (x : Session).

(** Commands of Redis that fail in a request: the write of a new session, and the
    deletion of a session by its id. *)
Record Outage := mkOutage { put_fails : bool; del_fails : uuid -> bool }.

(** ** Texts *)

(** [base64.RawURLEncoding]: the standard alphabet with two characters replaced. *)
Definition url_char (c : ascii) : ascii :=
  if bool_decide (c = "+"%char) then "-"%char else if bool_decide (c = "/"%char) then "_"%char else c.
Fixpoint map_string (f : ascii -> ascii) (s : string) : string :=
  match s with EmptyString => EmptyString | String c s' => String (f c) (map_string f s') end.
Definition base64Hash (b : string) : string := map_string url_char (EncodeToString b).

Definition backupCodeAlphabet : string := "ABCDEFGHJKMNPQRSTUVWXYZ23456789".
Definition code_char (z : Z) : ascii :=
  default "A"%char (String.get (Z.to_nat (z mod Z.of_nat (String.length backupCodeAlphabet))) backupCodeAlphabet).
(** Ten bytes, with a hyphen before the sixth character. *)
Definition backupCode (buf : list Z) : string :=
  let cs := code_char <$> buf in
  String.string_of_list_ascii (take 5 cs ++ ["-"%char] ++ drop 5 cs).
Fixpoint drop_chars (p : ascii -> bool) (s : string) : string :=
  match s with EmptyString => EmptyString | String c s' => if p c then drop_chars p s' else String c (drop_chars p s') end.
Definition normalizeBackupCode (code : string) : string :=
  drop_chars (fun c => bool_decide (c = "-"%char \/ c = " "%char)) (upper (trim_space code)).

Definition rolesRequiringMfa : list string :=
  ["system_admin"; "finance_officer"; "tenant_admin"; "admin"; "finance"; "finance_lead"; "accountant"]%string.
Definition RoleRequiresMfa (codes : list string) : bool :=
  existsb (fun c => bool_decide (lower c ∈ rolesRequiringMfa)) codes.

Section Service.
Context {H B : Type} `{PasswordHasher H} `{SecretBox B} (hasher : H) (box : B).
Context (sha256 : string -> string) (uuid_string : uuid -> string) (code_digest : string -> string).
Context (parse_ip : string -> bool) (collate : string -> string -> bool).
(** [totp.ValidateCustom(code, secret, at, ...)] *)
Context (totp_verify : string -> string -> Z -> bool).
Context (cfg : ServiceConfig).

Abbreviation service := (Svc Auth auth_error).

Definition auditAuth (tenant actor : uuid) (action : string) : Tx Auth auth_error unit :=
  (let! s := tget in tput (put_trail (at_audit s ++ [mkAudit tenant actor action actor]) s))%tx.

(** ** Guards *)

Definition rate_buckets (q : LoginRequest) : list string :=
  ["login:ip:" ++ lower (lr_ip q); "login:acct:" ++ lower (lr_slug q) ++ ":" ++ lower (lr_email q)]%string.
Definition allow (bucket : string) : service unit :=
  fun s => let '(r, g) := Allow (limiter_prefix "") bucket (LoginRateMax cfg) (LoginRateWindow cfg) (at_now s) (at_guard s) in
           (match r with Ok u => Ok u | Err _ => Err ErrRateLimited end, put_guard g s).
Fixpoint allow_all (l : list string) : service unit :=
  match l with [] => sret tt | b :: rest => allow b ;;~ allow_all rest end.
Fixpoint reset_all (l : list string) : service unit :=
  match l with
  | [] => sret tt
  | b :: rest => smod (fun s => put_guard (limiter_Reset (limiter_prefix "") b (at_guard s)) s) ;;~ reset_all rest
  end.

Definition verifyTOTP (stored code : string) (now : Z) : bool :=
  match open_secret box stored with None => false | Some secret => totp_verify secret code now end.
(** A valid code is consumed before it counts. *)
Definition checkTOTP (user : uuid) (stored code : string) : service unit :=
  let~ s := sget in
  match open_secret box stored with
  | None => sfail ErrMfaInvalid
  | Some secret =>
      if negb (totp_verify secret code (at_now s)) then sfail ErrMfaInvalid
      else fun s =>
        let '(r, g) := Consume code_digest uuid_string (guard_prefix "") user code (at_now s) (at_guard s) in
        (match r with Ok u => Ok u | Err _ => Err ErrTotpReplay end, put_guard g s)
  end.

(** The first stored hash the code verifies against; one that does not parse is
    passed over. *)
Definition matching_code (candidate : string) (hashes : list string) : option string :=
  first_where (fun h => match verify_password hasher candidate h with Ok (true, _) => true | _ => false end) hashes.
Definition consumeBackupCode (pool : Auth) (user : uuid) (code : string) : service bool :=
  let candidate := normalizeBackupCode code in
  if bool_decide (candidate = "")%string then sret false
  else match BackupCodes pool user with
  | None => sret false
  | Some hashes =>
      match matching_code candidate hashes with
      | None => sret false
      | Some h => inTx (ConsumeBackupCode user h) ;;~ sret true
      end
  end.

(** A failure is counted with its audit row; that it could not be is only logged. *)
Definition record_failure (u : User) (action : string) : service unit :=
  attempt (inTx (let! _ := MarkLoginFailure (us_id u) (LoginLockAfter cfg) (LoginLockFor cfg) in
                 auditAuth (us_tenant u) (us_id u) action)%tx : service unit).

(** ** Login *)

(** [Ok true]: the time-based code; a code that is no such code may be a backup code. *)
Definition time_code (u : User) (code : string) : service bool :=
  match us_secret u with
  | None => sret false
  | Some stored =>
      fun s => match checkTOTP (us_id u) stored code s with
               | (Ok _, s') => (Ok true, s')
               | (Err ErrMfaInvalid, s') => (Ok false, s')
               | (Err e, s') => (Err e, s')
               end
  end.
Definition second_factor (pool : Auth) (u : User) (code : string) : service unit :=
  let~ ok := time_code u code in
  let~ ok := (if ok then sret true else consumeBackupCode pool (us_id u) code) in
  if ok : bool then sret tt else record_failure u "user.mfa_failed" ;;~ sfail ErrMfaInvalid.

(** The durable session and the live one. *)
Definition issue (o : Outage) (raw : string) (q : LoginRequest) (u : User) : service LoginResult :=
  let~ s := sget in
  let expires := at_now s + SessionTTL cfg in
  let~ id := inTx (let! _ := MarkLoginSuccess (us_id u) in
                   let! id := sessions_Insert parse_ip (sha256 raw) (us_id u) (us_tenant u) (lr_device q) (lr_ip q) (lr_agent q) expires in
                   let! _ := auditAuth (us_tenant u) (us_id u) "user.logged_in" in tret id)%tx in
  reset_all (rate_buckets q) ;;~
  let x := mkSession id (us_id u) (us_tenant u) (lr_device q) (lr_ip q) (lr_agent q) (at_now s) (at_now s) expires (us_mfa u)
             (us_epoch u) in
  fun s' =>
    match (if put_fails o then (Err AeInternal, s') else store_Put uuid_string raw x s') with
    | (Ok _, s2) => (Ok (LoginGranted raw x), s2)
    | (Err e, s2) => (Err e, (run_tx (sessions_Revoke (E := auth_error) id "redis put failed") s2).2)
    end.

Definition Login (pool : Auth) (o : Outage) (raw : string) (q : LoginRequest) : service LoginResult :=
  allow_all (rate_buckets q) ;;~
  match FindForLogin pool (lr_slug q) (lr_email q) with
  | None => sfail ErrInvalidCredentials
  | Some u =>
      sguard (negb (bool_decide (us_status u = UsSuspended))) ErrUserSuspended ;;~
      sguard (IsActive u) ErrInvalidCredentials ;;~
      let~ s := sget in
      sguard (negb (IsLocked u (at_now s))) ErrUserLocked ;;~
      match us_hash u with
      | None => sfail ErrInvalidCredentials
      | Some hash =>
          match verify_password hasher (lr_password q) hash with
          | Err _ => sfail AeInternal
          | Ok (false, _) => record_failure u "user.login_failed" ;;~ sfail ErrInvalidCredentials
          | Ok (true, rehash) =>
              if us_mfa u && bool_decide (lr_code q = "")%string then sret LoginMfaRequired
              else
                (if us_mfa u then second_factor pool u (lr_code q) else sret tt) ;;~
                (if rehash then smod (fun s => put_jobs (at_jobs s ++ [(us_id u, lr_password q)]) s) else sret tt) ;;~
                issue o raw q u
          end
      end
  end.

(** The detached rehash: the password is set again, whatever it is by then. *)
Definition rehash_job (salt : string) (job : uuid * string) : service unit :=
  match hash_password hasher salt job.2 with
  | Ok hash => attempt (inTx (SetPassword job.1 hash) : service unit)
  | Err _ => sret tt
  end.

(** ** Sessions *)

Definition Logout (raw : string) : service unit :=
  let~ s := sget in
  match store_Get s raw with
  | Err e => if bool_decide (e = ErrSessionNotFound) then sret tt else sfail e
  | Ok x =>
      store_Delete uuid_string raw ;;~
      inTx (let! _ := sessions_Revoke (ss_id x) "logout" in auditAuth (ss_tenant x) (ss_user x) "user.logged_out")%tx
  end.

Definition RevokeSession (pool : Auth) (owner id : uuid) : service unit :=
  match FindActiveOwnedBy pool id owner with
  | None => sfail ErrSessionNotFound
  | Some row =>
      store_DeleteByID uuid_string id ;;~
      inTx (let! _ := sessions_Revoke (sr_id row) "self-revoke" in auditAuth (sr_tenant row) owner "user.session_revoked")%tx
  end.

(** The live sessions, one by one; a delete that fails is passed over. *)
Fixpoint delete_live (o : Outage) (rows : list SessionRow) : service unit :=
  match rows with
  | [] => sret tt
  | r :: rest => (if del_fails o (sr_id r) then sret tt else attempt (store_DeleteByID uuid_string (sr_id r))) ;;~ delete_live o rest
  end.
(** The rest of [revokeAllUserSessions], in the caller's transaction.  The deletes above
    run while it is open and are not undone with it. *)
Definition revokeAllUserSessions (user : uuid) (reason : string) : Tx Auth auth_error unit :=
  (let! _ := BumpSessionEpoch user in RevokeAllForUser user reason)%tx.

Definition with_expiry (e now : Z) (x : Session) : Session :=
  mkSession (ss_id x) (ss_user x) (ss_tenant x) (ss_device x) (ss_ip x) (ss_agent x) (ss_issued x) now e (ss_mfa x) (ss_epoch x).
Definition Refresh (seen : Auth) (raw : string) : service Session :=
  match store_Get seen raw with
  | Err e => sfail e
  | Ok x =>
      let~ s := sget in
      let x := with_expiry (at_now s + SessionTTL cfg) (at_now s) x in
      store_Put uuid_string raw x ;;~
      inTx (TouchExpiry (ss_id x) (ss_expires x)) ;;~ sret x
  end.

Definition Resolve (raw : string) : service Session :=
  let~ s := sget in
  match store_Get s raw with
  | Err e => sfail e
  | Ok x =>
      if ss_expires x <? at_now s then attempt (store_Delete uuid_string raw) ;;~ sfail ErrSessionExpired
      else match CurrentSessionEpoch s (ss_user x) with
      | None => attempt (store_Delete uuid_string raw) ;;~ sfail ErrSessionRevoked
      | Some e =>
          if negb (e =? ss_epoch x) then attempt (store_Delete uuid_string raw) ;;~ sfail ErrSessionRevoked
          else sret x
      end
  end.

(** ** Passwords *)

Definition strong (pw : string) : bool := (12 <=? String.length pw)%nat.
(** The new hash, the end of every session and the audit row. *)
Definition replace_password (pool : Auth) (o : Outage) (tenant user : uuid) (hash reason action : string) : service unit :=
  delete_live o (ListActiveForUser pool user) ;;~
  inTx (let! _ := SetPassword user hash in let! _ := revokeAllUserSessions user reason in auditAuth tenant user action)%tx.

Definition ChangePassword (pool : Auth) (o : Outage) (salt : string) (tenant user : uuid) (old new : string) : service unit :=
  sguard (strong new) ErrPasswordWeak ;;~
  match FindByID pool tenant user with
  | None => sfail ErrUserNotFound
  | Some u =>
      (match us_hash u with
       | None => sret tt
       | Some h => match verify_password hasher old h with
                   | Err _ => sfail AeInternal
                   | Ok (m, _) => sguard m ErrInvalidCredentials
                   end
       end) ;;~
      match hash_password hasher salt new with
      | Err _ => sfail AeInternal
      | Ok hash => replace_password pool o tenant user hash "password change" "user.password_changed"
      end
  end.

Definition reset_key (token : string) : string := (PasswordResetPrefix cfg ++ base64Hash (sha256 token))%string.
Definition IssueResetToken (raw : string) (user : uuid) : service string :=
  smod (fun s => put_reset (<[reset_key raw := (user, at_now s + PasswordResetTTL cfg)]> (at_reset s)) s) ;;~ sret raw.
(** [None]: no such account, and nothing is said. *)
Definition RequestPasswordReset (pool : Auth) (raw slug email : string) : service (option string) :=
  match FindByEmail pool slug email with
  | None => sret None
  | Some u =>
      let~ _ := IssueResetToken raw (us_id u) in
      attempt (inTx (auditAuth (us_tenant u) (us_id u) "user.password_reset_requested") : service unit) ;;~ sret (Some raw)
  end.
(** The token is read in [seen], and deleted when all is done. *)
Definition ConfirmPasswordReset (seen : Auth) (o : Outage) (salt token new : string) : service unit :=
  sguard (strong new) ErrPasswordWeak ;;~
  match kv_live (at_reset seen) (at_now seen) (reset_key token) with
  | None => sfail ErrResetTokenInvalid
  | Some user =>
      match hash_password hasher salt new with
      | Err _ => sfail AeInternal
      | Ok hash =>
          match TenantOf seen user with
          | None => sfail AeNoRows
          | Some tenant =>
              replace_password seen o tenant user hash "password reset" "user.password_reset" ;;~
              smod (fun s => put_reset (delete (reset_key token) (at_reset s)) s)
          end
      end
  end.

(** ** MFA *)

(** The secret and the URL [totp.Enroll] made. *)
Record Enrollment := mkEnrollment { en_secret : string; en_url : string }.
Definition EnrollMfa (pool : Auth) (nonce : string) (e : Enrollment) (user tenant : uuid) : service Enrollment :=
  match FindByID pool tenant user with
  | None => sfail AeNoRows
  | Some u =>
      sguard (negb (us_mfa u)) ErrMfaAlreadyEnabled ;;~
      inTx (let! _ := users_EnrollMfa user (seal_secret box nonce (en_secret e)) in auditAuth tenant user "user.mfa_enrolled")%tx ;;~
      sret e
  end.
Definition VerifyMfa (pool : Auth) (user tenant : uuid) (code : string) : service unit :=
  match FindByID pool tenant user with
  | None => sfail AeNoRows
  | Some u =>
      match us_secret u with
      | None => sfail AeInternal
      | Some stored =>
          let~ s := sget in
          sguard (verifyTOTP stored code (at_now s)) ErrMfaInvalid ;;~
          inTx (let! _ := ActivateMfa user in auditAuth tenant user "user.mfa_activated")%tx
      end
  end.

(** [rand] gives the bytes of a code and the salt of its hash. *)
Fixpoint hash_codes (l : list (list Z * string)) : result unit (list string * list string) :=
  match l with
  | [] => Ok ([], [])
  | (buf, salt) :: rest =>
      let code := backupCode buf in
      (let? h := hash_password hasher salt (normalizeBackupCode code) in
       let? (plain, hashes) := hash_codes rest in Ok (code :: plain, h :: hashes))%res
  end.
Definition newBackupCodes (rand : nat -> list Z * string) : result unit (list string * list string) :=
  hash_codes (rand <$> seq 0 10).

Definition ConfirmEnroll (pool : Auth) (rand : nat -> list Z * string) (user tenant : uuid) (code : string)
  : service (list string) :=
  match FindByID pool tenant user with
  | None => sfail AeNoRows
  | Some u =>
      match us_secret u with
      | None => sfail AeInternal
      | Some stored =>
          let~ s := sget in
          sguard (verifyTOTP stored code (at_now s)) ErrMfaInvalid ;;~
          match newBackupCodes rand with
          | Err _ => sfail AeInternal
          | Ok (plain, hashes) =>
              inTx (let! _ := ActivateMfa user in let! _ := SetBackupCodes tenant user hashes in
                    auditAuth tenant user "user.mfa_activated")%tx ;;~
              sret plain
          end
      end
  end.

Definition DisableMfa (pool : Auth) (user tenant : uuid) (code : string) : service unit :=
  match FindByID pool tenant user with
  | None => sfail ErrUserNotFound
  | Some u =>
      sguard (us_mfa u) ErrMfaNotEnabled ;;~
      let~ s := sget in
      let totp := match us_secret u with Some stored => verifyTOTP stored code (at_now s) | None => false end in
      let~ ok := (if totp then sret true else consumeBackupCode pool user code) in
      sguard ok ErrMfaInvalid ;;~
      inTx (let! _ := users_DisableMfa user in let! _ := mfa_Clear user in auditAuth tenant user "user.mfa_disabled")%tx
  end.

Definition RegenerateBackupCodes (pool : Auth) (rand : nat -> list Z * string) (user tenant : uuid) : service (list string) :=
  match FindByID pool tenant user with
  | None => sfail ErrUserNotFound
  | Some u =>
      sguard (us_mfa u) ErrMfaNotEnabled ;;~
      match newBackupCodes rand with
      | Err _ => sfail AeInternal
      | Ok (plain, hashes) =>
          inTx (let! _ := SetBackupCodes tenant user hashes in auditAuth tenant user "user.mfa_backup_codes_regenerated")%tx ;;~
          sret plain
      end
  end.

Definition RemainingBackupCodes (s : Auth) (user : uuid) : nat := RemainingCount s user.
Record MfaStatus := mkMfaStatus { ms_enabled : bool; ms_required : bool; ms_remaining : nat }.
Definition MfaState (s : Auth) (tenant user : uuid) : result auth_error MfaStatus :=
  match FindByID s tenant user with
  | None => Err ErrUserNotFound
  | Some u => Ok (mkMfaStatus (us_mfa u) (RoleRequiresMfa (ListRoles collate s user)) (RemainingCount s user))
  end.
End Service.

(** ** Requests on accounts and sessions (auth_handlers.go, auth_middleware.go,
      me_handlers.go, server_routes_mfa.go, users_handlers.go, admin_handlers.go) *)

Definition mapAuthError (e : auth_error) : http_error :=
  match e with
  | ErrInvalidCredentials | ErrMfaInvalid => HttpError 401 "invalid credentials"
  | ErrTotpReplay => HttpError 401 "mfa code already used"
  | ErrMfaRequired => HttpError 401 "mfa code required"
  | ErrUserLocked => HttpError 403 "account is locked, try again later"
  | ErrUserSuspended => HttpError 403 "account is suspended"
  | ErrRateLimited => HttpError 429 "too many attempts"
  | ErrPasswordWeak => HttpError 400 "password does not meet minimum strength requirements"
  | ErrResetTokenInvalid => HttpError 400 "reset token invalid or expired"
  | ErrMfaAlreadyEnabled => HttpError 409 "MFA is already enabled"
  | ErrMfaNotEnabled => HttpError 409 "MFA is not enabled"
  | ErrSessionNotFound | ErrSessionExpired => HttpError 401 "session invalid"
  | _ => HttpError 500 "internal error"
  end.

(** [xff] is the header, [host] the host part of the remote address when it has one. *)
Definition clientIP (depth : Z) (xff : string) (host : option string) (remote : string) : string :=
  let peer := default remote host in
  if (0 <? depth) && negb (bool_decide (xff = "")%string) then
    let parts := Split "," xff in
    let idx := Z.max 0 (Z.of_nat (length parts) - depth) in
    match parts !! Z.to_nat idx with
    | Some p => let ip := trim_space p in if bool_decide (ip = "")%string then peer else ip
    | None => peer
    end
  else peer.

(** The header in any case, and what follows it trimmed. *)
Definition extractBearer (h : string) : string :=
  match literal "bearer " (lower (String.substring 0 7 h)) with
  | Some _ => trim_space (String.substring 7 (String.length h - 7) h)
  | None => ""
  end.

(** A body [decodeJSON] read, or the text of its error. *)
Definition decoded {A} (body : result string A) : result http_error A :=
  match body with Ok x => Ok x | Err m => Err (HttpError 400 m) end.
Definition nonempty (s : string) : bool := negb (bool_decide (s = "")%string).

Section Handlers.
Context {H B : Type} `{PasswordHasher H} `{SecretBox B} (hasher : H) (box : B).
Context (sha256 : string -> string) (uuid_string : uuid -> string) (code_digest : string -> string).
Context (parse_ip : string -> bool) (collate : string -> string -> bool) (email_ok : string -> bool).
Context (totp_verify : string -> string -> Z -> bool) (cfg : ServiceConfig) (cfgDefault cfgMax : Z).

Abbreviation handler := (Svc Auth http_error).

Record loginRequest := mkLogin { gq_slug : string; gq_email : string; gq_password : string; gq_code : string }.
Definition handleLogin (pool : Auth) (o : Outage) (raw ip agent : string) (body : result unit loginRequest) : handler LoginResult :=
  let~ q := slift (json_body body) in
  sguard (nonempty (gq_slug q) && nonempty (gq_email q) && nonempty (gq_password q))
    (bad_request "tenant_slug, email, and password are required") ;;~
  sconv mapAuthError (Login hasher box sha256 uuid_string code_digest parse_ip totp_verify cfg pool o raw
    (mkLoginRequest (gq_slug q) (gq_email q) (gq_password q) (gq_code q) ip agent None)).

Definition bearer (h : string) : result http_error string :=
  let t := extractBearer h in
  if nonempty t then Ok t else Err (HttpError 401 "missing or malformed Authorization header").
Definition handleLogout (h : string) : handler unit :=
  let~ t := slift (bearer h) in
  sconv (fun _ => HttpError 500 "logout failed") (Logout uuid_string t).
Definition handleRefresh (seen : Auth) (h : string) : handler Z :=
  let~ t := slift (bearer h) in
  let~ x := sconv mapAuthError (Refresh uuid_string cfg seen t) in sret (ss_expires x).

(** [requireAuth]: the actor the wrapped handler runs as. *)
Definition resolve_http (e : auth_error) : http_error :=
  match e with
  | ErrSessionNotFound => HttpError 401 "session not found"
  | ErrSessionExpired => HttpError 401 "session expired"
  | ErrSessionRevoked => HttpError 401 "session revoked"
  | _ => HttpError 500 "auth error"
  end.
Definition requireAuth (h : string) : handler Actor :=
  let~ t := slift (bearer h) in
  let~ x := sconv resolve_http (Resolve uuid_string t) in
  sret (mkActor (ss_user x) (ss_tenant x) (ss_id x) (ss_mfa x)).

Definition handlePasswordResetRequest (pool : Auth) (raw : string) (body : result unit (string * string)) : handler unit :=
  let~ q := slift (json_body body) in
  sguard (nonempty q.1 && nonempty q.2) (bad_request "tenant_slug and email are required") ;;~
  let~ _ := sconv (fun _ => HttpError 500 "could not process reset") (RequestPasswordReset sha256 cfg pool raw q.1 q.2) in
  sret tt.
Definition handlePasswordResetConfirm (seen : Auth) (o : Outage) (salt : string) (body : result unit (string * string)) : handler unit :=
  let~ q := slift (json_body body) in
  sguard (nonempty q.1 && nonempty q.2) (bad_request "token and new_password are required") ;;~
  sconv mapAuthError (ConfirmPasswordReset hasher sha256 uuid_string cfg seen o salt q.1 q.2).

Definition handleMfaEnroll (pool : Auth) (nonce : string) (e : Enrollment) (ctx : option Actor) : handler Enrollment :=
  let~ a := slift (ops_actor ctx) in
  sconv mapAuthError (EnrollMfa box pool nonce e (ac_user a) (ac_tenant a)).
Definition handleMfaVerify (pool : Auth) (ctx : option Actor) (body : result unit string) : handler unit :=
  let~ a := slift (ops_actor ctx) in
  let~ code := slift (json_body body) in
  sguard (nonempty code) (bad_request "code is required") ;;~
  sconv mapAuthError (VerifyMfa box totp_verify pool (ac_user a) (ac_tenant a) code).

(** The MFA fields are absent when the state cannot be read. *)
Definition handleMe (pool : Auth) (ctx : option Actor) : result http_error (Actor * option MfaStatus) :=
  (let? a := ops_actor ctx in
   Ok (a, match MfaState collate pool (ac_tenant a) (ac_user a) with Ok st => Some st | Err _ => None end))%res.

(** ** The actor's own account *)

Definition handleListMySessions (pool : Auth) (ctx : option Actor) (limit offset : option (result unit Z))
  : result http_error (list (SessionRow * bool) * bool) :=
  (let? a := ops_actor ctx in
   let? (l, o) := parsePage cfgDefault cfgMax limit offset in
   let '(rows, more) := page_of l (ListActiveForUserPage pool (ac_user a) (Z.to_nat (l + 1)) (Z.to_nat o)) in
   Ok ((fun r => (r, bool_decide (sr_id r = ac_session a))) <$> rows, more))%res.
Definition handleRevokeMySession (pool : Auth) (ctx : option Actor) (id : result unit uuid) : handler unit :=
  let~ a := slift (ops_actor ctx) in
  let~ id := slift (url_id "invalid session id" id) in
  sconv (fun e => if bool_decide (e = ErrSessionNotFound) then HttpError 404 "session not found" else ops_internal)
    (RevokeSession uuid_string pool (ac_user a) id).
Definition handleChangeMyPassword (pool : Auth) (o : Outage) (salt : string) (ctx : option Actor)
    (body : result string (string * string)) : handler unit :=
  let~ a := slift (ops_actor ctx) in
  let~ q := slift (decoded body) in
  sguard (nonempty q.1 && nonempty q.2) (bad_request "old_password and new_password are required") ;;~
  sconv (fun e => match e with
      | ErrInvalidCredentials => HttpError 401 "current password is incorrect"
      | ErrPasswordWeak => bad_request "password does not meet minimum strength requirements"
      | _ => ops_internal
      end) (ChangePassword hasher uuid_string pool o salt (ac_tenant a) (ac_user a) q.1 q.2).

Definition handleMfaEnrollBegin : Auth -> string -> Enrollment -> option Actor -> handler Enrollment := handleMfaEnroll.
Definition handleMfaConfirm (pool : Auth) (rand : nat -> list Z * string) (ctx : option Actor) (body : result string string)
  : handler (list string) :=
  let~ a := slift (ops_actor ctx) in
  let~ code := slift (decoded body) in
  sguard (nonempty code) (bad_request "code is required") ;;~
  sconv mapAuthError (ConfirmEnroll hasher box totp_verify pool rand (ac_user a) (ac_tenant a) code).
Definition handleMfaDisable (pool : Auth) (ctx : option Actor) (body : result string string) : handler unit :=
  let~ a := slift (ops_actor ctx) in
  let~ code := slift (decoded body) in
  sguard (nonempty code) (bad_request "code is required") ;;~
  sconv mapAuthError (DisableMfa hasher box totp_verify pool (ac_user a) (ac_tenant a) code).
Definition handleMfaBackupCodes (pool : Auth) (rand : nat -> list Z * string) (ctx : option Actor) : handler (list string) :=
  let~ a := slift (ops_actor ctx) in
  sconv mapAuthError (RegenerateBackupCodes hasher pool rand (ac_user a) (ac_tenant a)).

(** ** Users of the tenant *)

Definition user_audit (a : Actor) (action : string) (entity : uuid) : Tx Auth auth_error unit :=
  (let! s := tget in tput (put_trail (at_audit s ++ [mkAudit (ac_tenant a) (ac_user a) action entity]) s))%tx.

Definition handleListUsers (pool : Auth) (ctx : option Actor) (limit offset : option (result unit Z))
  : result http_error (list (User * list string * list uuid * bool) * bool) :=
  (let? a := ops_actor ctx in
   let? (l, o) := parsePage cfgDefault cfgMax limit offset in
   let '(rows, more) := page_of l (users_ListPage pool (ac_tenant a) (Z.to_nat (l + 1)) (Z.to_nat o)) in
   Ok ((fun u => let stations := ListStationAccess pool (us_id u) in
                 (u, ListRoles collate pool (us_id u), stations, (length stations =? 0)%nat)) <$> rows, more))%res.

Definition handleInviteUser (ctx : option Actor) (body : result unit (string * string)) : handler uuid :=
  let~ a := slift (ops_actor ctx) in
  let~ q := slift (json_body body) in
  sguard (nonempty q.1 && nonempty q.2) (bad_request "email and full_name are required") ;;~
  sconv (fun _ => HttpError 500 "could not invite user")
    (inTx (let! id := Invite email_ok (ac_tenant a) q.1 q.2 in let! _ := user_audit a "user.invited" id in tret id)%tx).

Definition settable_status (w : string) : option user_status :=
  if bool_decide (w = "active")%string then Some UsActive
  else if bool_decide (w = "suspended")%string then Some UsSuspended
  else None.
Definition handleUpdateUserStatus (ctx : option Actor) (id : result unit uuid) (body : result unit string) : handler unit :=
  let~ a := slift (ops_actor ctx) in
  let~ id := slift (url_id "invalid user id" id) in
  let~ w := slift (json_body body) in
  let~ st := slift (of_option (bad_request "status must be 'active' or 'suspended'") (settable_status w)) in
  sconv (fun e => if bool_decide (e = AeNoRows) then HttpError 404 "user not found" else ops_internal)
    (inTx (let! _ := UpdateStatus (ac_tenant a) id st in user_audit a "user.status_changed" id)%tx).

Definition userInTenant (pool : Auth) (tenant id : uuid) : bool := match FindByID pool tenant id with Some _ => true | None => false end.

Definition handleGrantRole (ctx : option Actor) (id : result unit uuid) (body : result unit string) : handler uuid :=
  let~ a := slift (ops_actor ctx) in
  let~ id := slift (url_id "invalid user id" id) in
  let~ code := slift (json_body body) in
  sguard (nonempty code) (bad_request "role_code is required") ;;~
  inTx (let! s := tget in
        let! role := tlift (of_option (bad_request "unknown role_code") (RoleIDByCode s code)) in
        let! _ := tguard (userInTenant s (ac_tenant a) id) (HttpError 404 "user not found") in
        let! _ := tconv (fun _ => ops_internal) (insert_user_role id role (ac_tenant a)) in
        let! _ := tconv (fun _ => ops_internal) (user_audit a "user.role.granted" id) in tret role)%tx.

Definition handleRevokeUserRole (pool : Auth) (ctx : option Actor) (id : result unit uuid) (code : string) : handler unit :=
  let~ a := slift (ops_actor ctx) in
  let~ id := slift (url_id "invalid user id" id) in
  sguard (nonempty code) (bad_request "role code is required") ;;~
  sguard (userInTenant pool (ac_tenant a) id) (HttpError 404 "user not found") ;;~
  let~ role := slift (of_option (HttpError 404 "role not found") (RoleIDByCode pool code)) in
  sconv (fun _ => ops_internal) (inTx (let! _ := RevokeRole id role in user_audit a "user.role.revoked" id)%tx).

Definition station_in (pool : Auth) (tenant id : uuid) : bool :=
  exists_where (fun x => bool_decide (st_id x = id /\ st_tenant x = tenant) && negb (st_deleted x)) (at_stations pool).
Definition handleGrantStationAccess (pool : Auth) (ctx : option Actor) (id : result unit uuid) (body : result unit uuid)
  : handler unit :=
  let~ a := slift (ops_actor ctx) in
  let~ id := slift (url_id "invalid user id" id) in
  let~ station := slift (json_body body) in
  sguard (negb (bool_decide (station = uuid_nil))) (bad_request "station_id is required") ;;~
  sguard (userInTenant pool (ac_tenant a) id) (HttpError 404 "user not found") ;;~
  sguard (station_in pool (ac_tenant a) station) (HttpError 404 "station not found") ;;~
  sconv (fun _ => ops_internal)
    (inTx (let! _ := GrantStationAccess id station (ac_tenant a) in user_audit a "user.station_access.granted" id)%tx).
Definition handleRevokeStationAccess (pool : Auth) (ctx : option Actor) (id station : result unit uuid) : handler unit :=
  let~ a := slift (ops_actor ctx) in
  let~ id := slift (url_id "invalid user id" id) in
  let~ station := slift (url_id "invalid station id" station) in
  sguard (userInTenant pool (ac_tenant a) id) (HttpError 404 "user not found") ;;~
  sconv (fun _ => ops_internal)
    (inTx (let! _ := RevokeStationAccess id station in user_audit a "user.station_access.revoked" id)%tx).
End Handlers.
