(* ===== verification/IdentityProps.v ===== *)
(** * Properties of accounts and sessions: what a request may change

    The requests as one type; the relations every one of them follows: epochs only
    grow, a count of failures at the threshold has a lock, and a session enters the
    store only from a login or a refresh. *)

From stdpp Require Import base list strings gmap.
From Stdlib Require Import ZArith Lia.
From S2P Require Import Prelude Frames Numeric Schema Policy Operations Workforce WorkforceHandlers Secrets Sessions Identity.

Local Open Scope Z_scope.
Local Open Scope svc_scope.

(** ** Requests *)

(** [AqProvision] issues the reset token of a new tenant's administrator; [AqJob] runs
    a detached rehash; [AqTime] lets time pass. *)
Inductive auth_request :=
| AqLogin (o : Outage) (raw ip agent : string) (body : result unit loginRequest)
| AqLogout (header : string)
| AqRefresh (header : string)
| AqAuth (header : string)
| AqResetRequest (raw : string) (body : result unit (string * string))
| AqResetConfirm (o : Outage) (salt : string) (body : result unit (string * string))
| AqProvision (raw : string) (user : uuid)
| AqRevoke (ctx : option Actor) (id : result unit uuid)
| AqChange (o : Outage) (salt : string) (ctx : option Actor) (body : result string (string * string))
| AqEnroll (nonce : string) (e : Enrollment) (ctx : option Actor)
| AqVerify (ctx : option Actor) (body : result unit string)
| AqConfirm (rand : nat -> list Z * string) (ctx : option Actor) (body : result string string)
| AqDisable (ctx : option Actor) (body : result string string)
| AqCodes (rand : nat -> list Z * string) (ctx : option Actor)
| AqInvite (ctx : option Actor) (body : result unit (string * string))
| AqStatus (ctx : option Actor) (id : result unit uuid) (body : result unit string)
| AqGrantRole (ctx : option Actor) (id : result unit uuid) (body : result unit string)
| AqRevokeRole (ctx : option Actor) (id : result unit uuid) (code : string)
| AqGrantStation (ctx : option Actor) (id body : result unit uuid)
| AqRevokeStation (ctx : option Actor) (id station : result unit uuid)
| AqJob (n : nat) (salt : string)
| AqTime (d : N).

Definition quietly {A} (c : Svc Auth http_error A) : Svc Auth http_error unit := c ;;~ sret tt.

Section Requests.
Context {H B : Type} `{PasswordHasher H} `{SecretBox B} (hasher : H) (box : B).
Context (sha256 : string -> string) (uuid_string : uuid -> string) (code_digest : string -> string).
Context (parse_ip : string -> bool) (email_ok : string -> bool).
Context (totp_verify : string -> string -> Z -> bool) (cfg : ServiceConfig).

Definition run_job (n : nat) (salt : string) : Svc Auth http_error unit :=
  let~ s := sget in
  match at_jobs s !! n with
  | None => sret tt
  | Some job => smod (put_jobs (take n (at_jobs s) ++ drop (S n) (at_jobs s))) ;;~
                attempt (rehash_job hasher salt job)
  end.

(** The handler of a request; [pool] is the state its reads showed. *)
Definition auth_serve (pool : Auth) (r : auth_request) : Svc Auth http_error unit :=
  match r with
  | AqLogin o raw ip agent b => quietly (handleLogin hasher box sha256 uuid_string code_digest parse_ip totp_verify cfg pool o raw ip agent b)
  | AqLogout h => quietly (handleLogout uuid_string h)
  | AqRefresh h => quietly (handleRefresh uuid_string cfg pool h)
  | AqAuth h => quietly (requireAuth uuid_string h)
  | AqResetRequest raw b => quietly (handlePasswordResetRequest sha256 cfg pool raw b)
  | AqResetConfirm o salt b => quietly (handlePasswordResetConfirm hasher sha256 uuid_string cfg pool o salt b)
  | AqProvision raw u => quietly (sconv mapAuthError (IssueResetToken sha256 cfg raw u))
  | AqRevoke c i => quietly (handleRevokeMySession uuid_string pool c i)
  | AqChange o salt c b => quietly (handleChangeMyPassword hasher uuid_string pool o salt c b)
  | AqEnroll nonce e c => quietly (handleMfaEnroll box pool nonce e c)
  | AqVerify c b => quietly (handleMfaVerify box totp_verify pool c b)
  | AqConfirm rand c b => quietly (handleMfaConfirm hasher box totp_verify pool rand c b)
  | AqDisable c b => quietly (handleMfaDisable hasher box totp_verify pool c b)
  | AqCodes rand c => quietly (handleMfaBackupCodes hasher pool rand c)
  | AqInvite c b => quietly (handleInviteUser email_ok c b)
  | AqStatus c i b => quietly (handleUpdateUserStatus c i b)
  | AqGrantRole c i b => quietly (handleGrantRole c i b)
  | AqRevokeRole c i code => quietly (handleRevokeUserRole pool c i code)
  | AqGrantStation c i b => quietly (handleGrantStationAccess pool c i b)
  | AqRevokeStation c i st => quietly (handleRevokeStationAccess pool c i st)
  | AqJob n salt => run_job n salt
  | AqTime d => smod (fun s => put_time (at_now s + Z.of_N d) s)
  end.
End Requests.

(** ** Accounts *)

Section Accounts.
Context (cfg : ServiceConfig).

(** At the threshold there is a lock; the count is not negative. *)
Definition lock_ok (u : User) : Prop := 0 <= us_failed u /\ (LoginLockAfter cfg <= us_failed u -> us_locked u <> None).
Definition accounts_ok (s : Auth) : Prop := table us_id lock_ok (at_next s) (at_users s).

Record ac_rel (s s' : Auth) : Prop := {
  ac_ok : accounts_ok s -> accounts_ok s';
  ac_epochs : forall u, In u (at_users s) -> exists u', In u' (at_users s') /\ us_id u' = us_id u /\ us_epoch u <= us_epoch u';
  ac_next : (at_next s <= at_next s')%N;
  ac_clock : at_now s <= at_now s';
}.
#[export] Instance ac_rel_pre : PreOrder ac_rel.
Proof.
  split.
  - intros s. split; [done| |lia|lia]. intros u Hu. exists u. split_and!; [done..|lia].
  - intros s s1 s2 [A1 B1 C1 D1] [A2 B2 C2 D2]. split; [auto| |lia|lia].
    intros u Hu. destruct (B1 u Hu) as (u1 & Hu1 & E1 & L1). destruct (B2 u1 Hu1) as (u2 & Hu2 & E2 & L2).
    exists u2. split_and!; [done|congruence|lia].
Qed.

(** Nothing about accounts changes. *)
Lemma ac_same s s' : at_users s' = at_users s -> (at_next s <= at_next s')%N -> at_now s <= at_now s' -> ac_rel s s'.
Proof.
  intros Eu Hn Hc. split; [| |done|done].
  - intros Ht. unfold accounts_ok in *. rewrite Eu. by eapply table_mono.
  - intros u Hu. exists u. rewrite Eu. split_and!; [done..|lia].
Qed.
(** A change row by row. *)
Definition row_ok (u u' : User) : Prop := us_id u' = us_id u /\ us_epoch u <= us_epoch u' /\ (lock_ok u -> lock_ok u').
Lemma ac_update q f s : (forall u, row_ok u (f u)) -> ac_rel s (put_users (update_where q f (at_users s)) s).
Proof.
  intros Hf. split; [| |simpl; lia|simpl; lia].
  - intros Ht. apply table_update; [|exact Ht]. intros u _ _. by destruct (Hf u) as (E & _ & Hl).
  - intros u Hu. exists (if q u then f u else u). split; [apply in_update_where; by exists u|].
    destruct (q u); [destruct (Hf u) as (E & L & _)|]; split; (done || lia).
Qed.

(** What a transaction may do: the session store is not its business. *)
Definition tx_rel (s s' : Auth) : Prop := ac_rel s s' /\ at_kv s' = at_kv s.
#[export] Instance tx_rel_pre : PreOrder tx_rel.
Proof.
  split; [by intros s|]. intros s s1 s2 [A1 E1] [A2 E2]. split; [by etrans|congruence].
Qed.
Lemma tx_change id f : (forall u, row_ok u (f u)) -> obeys tx_rel (change_user id f).
Proof. intros Hf s x s' [= _ <-]. split; [by apply ac_update|done]. Qed.
Lemma tx_same s s' : at_users s' = at_users s -> at_next s' = at_next s -> at_now s' = at_now s -> at_kv s' = at_kv s -> tx_rel s s'.
Proof. intros E1 E2 E3 E4. split; [|done]. apply ac_same; [done|rewrite E2; lia|rewrite E3; lia]. Qed.
End Accounts.

Create HintDb accounts.
Section AccountOps.
Context (cfg : ServiceConfig) (Hcfg : 0 < LoginLockAfter cfg).
Abbreviation R := (tx_rel cfg).

Lemma cleared_ok u : us_failed u = 0 -> lock_ok cfg u.
Proof. intros E. split; [lia|]. intros Hf. exfalso. lia. Qed.
Lemma ac_SetPassword id hash : obeys R (SetPassword id hash).
Proof.
  intros s x s' Ht. unfold SetPassword in Ht. tx_steps Ht. eapply (tx_change cfg); [|exact Ht]. intros u.
  split; [done|]. split; [simpl; lia|]. intros _. by apply cleared_ok.
Qed.
Lemma ac_MarkLoginSuccess id : obeys R (MarkLoginSuccess id).
Proof.
  intros s x s' Ht. unfold MarkLoginSuccess in Ht. tx_steps Ht. eapply (tx_change cfg); [|exact Ht]. intros u.
  split; [done|]. split; [simpl; lia|]. intros _. by apply cleared_ok.
Qed.
Lemma ac_MarkLoginFailure id lockFor : obeys R (MarkLoginFailure id (LoginLockAfter cfg) lockFor).
Proof.
  intros s x s' Ht. unfold MarkLoginFailure in Ht. tx_steps Ht. subst. eapply (tx_change cfg); [|exact E1]. intros u'.
  split; [done|]. split; [simpl; lia|]. intros [L1 L2]. split; simpl; [lia|]. intros Hf.
  by rewrite (proj2 (Z.leb_le _ _)) by lia.
Qed.
Lemma ac_mfa id secret on : obeys R (change_user id (fun u => with_mfa (secret u) (on u) u)).
Proof. apply tx_change. intros u. split; [done|]. split; [simpl; lia|]. done. Qed.
Lemma ac_BumpSessionEpoch id : obeys R (BumpSessionEpoch id).
Proof.
  intros s x s' Ht. unfold BumpSessionEpoch in Ht. tx_steps Ht. eapply (tx_change cfg); [|exact Ht]. intros u.
  split; [done|]. split; [simpl; lia|]. done.
Qed.
Lemma ac_UpdateStatus t id st : obeys R (UpdateStatus t id st).
Proof.
  intros s x s' Ht. unfold UpdateStatus in Ht. tx_steps Ht. injection Ht as _ <-. split; [|done]. apply ac_update. intros u.
  split; [done|]. split; [simpl; lia|]. done.
Qed.
Lemma ac_Invite ok t email name : obeys R (Invite ok t email name).
Proof.
  intros s x s' Ht. unfold Invite in Ht. tx_steps Ht. unfold auth_fresh in E. injection E as <- <-. subst. split; [|done]. split.
  - intros Hs. unfold accounts_ok in *. simpl. apply (table_snoc us_id (lock_ok cfg) (at_next s)); [done|by apply cleared_ok|lia|exact Hs].
  - intros u Hu. exists u. simpl. split; [apply in_or_app; by left|]. split; [done|lia].
  - simpl. lia.
  - simpl. lia.
Qed.

(** Statements on the other tables. *)
Lemma ac_audit t u a : obeys R (auditAuth t u a).
Proof. intros s x s' [= _ <-]. by apply tx_same. Qed.
Lemma ac_user_audit a x k : obeys R (user_audit a x k).
Proof. intros s y s' [= _ <-]. by apply tx_same. Qed.
Lemma ac_revoke_all u r : obeys R (RevokeAllForUser u r).
Proof. intros s y s' [= _ <-]. by apply tx_same. Qed.
Lemma ac_revoke {E} i r : obeys R (sessions_Revoke (E := E) i r).
Proof. intros s y s' [= _ <-]. by apply tx_same. Qed.
Lemma ac_touch i e : obeys R (TouchExpiry i e).
Proof. intros s y s' [= _ <-]. by apply tx_same. Qed.
Lemma ac_consume u h : obeys R (ConsumeBackupCode u h).
Proof. intros s y s' [= _ <-]. by apply tx_same. Qed.
Lemma ac_clear u : obeys R (mfa_Clear u).
Proof. intros s y s' [= _ <-]. by apply tx_same. Qed.
Lemma ac_codes t u l : obeys R (SetBackupCodes t u l).
Proof. intros s y s' Ht. unfold SetBackupCodes in Ht. tx_steps Ht. injection Ht as _ <-. by apply tx_same. Qed.
Lemma ac_insert pi h u t d i a e : obeys R (sessions_Insert pi h u t d i a e).
Proof.
  intros s y s' Ht. unfold sessions_Insert in Ht. tx_steps Ht. unfold auth_fresh in E. injection E as <- <-. subst.
  split; [|done]. apply ac_same; [done|simpl; lia|simpl; lia].
Qed.
Lemma ac_role u r t : obeys R (insert_user_role u r t).
Proof. intros s y s' Ht. unfold insert_user_role in Ht. tx_steps Ht; [by subst|]. injection Ht as _ <-. by apply tx_same. Qed.
Lemma ac_unrole u r : obeys R (RevokeRole u r).
Proof. intros s y s' [= _ <-]. by apply tx_same. Qed.
Lemma ac_access u st t : obeys R (GrantStationAccess u st t).
Proof. intros s y s' Ht. unfold GrantStationAccess in Ht. tx_steps Ht; [by subst|]. injection Ht as _ <-. by apply tx_same. Qed.
Lemma ac_unaccess u st : obeys R (RevokeStationAccess u st).
Proof. intros s y s' [= _ <-]. by apply tx_same. Qed.
End AccountOps.
#[export] Hint Resolve ac_SetPassword ac_MarkLoginSuccess ac_MarkLoginFailure ac_mfa ac_BumpSessionEpoch ac_UpdateStatus ac_Invite
  ac_audit ac_user_audit ac_revoke_all ac_revoke ac_touch ac_consume ac_clear ac_codes ac_insert ac_role ac_unrole ac_access
  ac_unaccess : accounts.

(** Splits a transaction into its statements. *)
Ltac tx_split db :=
  repeat first
    [ progress cbn beta iota zeta
    | apply obeys_ret; apply _ | apply obeys_lift; apply _ | apply obeys_guard; apply _ | apply obeys_fail
    | apply obeys_conv
    | solve [eauto with db]
    | apply obeys_bind; [apply _| |intros ?]
    | lazymatch goal with
      | |- obeys _ (match ?x with _ => _ end) => destruct x
      end ].

(** ** Sessions enter the store from a login or a refresh *)

(** A session new in [s']: with an id drawn since [s] for the account and the epoch of
    a row of [pool], or one of [pool] that is refreshed. *)
Definition read_in (pool s s' : Auth) (x : Session) : Prop :=
  (exists u, In u (at_users pool) /\ us_id u = ss_user x /\ us_epoch u = ss_epoch x /\ (at_next s <= ss_id x < at_next s')%N)
  \/ (exists k y e, at_kv pool !! k = Some (VSession y, e) /\ ss_user y = ss_user x /\ ss_epoch y = ss_epoch x /\ ss_id y = ss_id x).
Definition kv_rel (pool s s' : Auth) : Prop :=
  forall k x e, at_kv s' !! k = Some (VSession x, e) -> (exists e0, at_kv s !! k = Some (VSession x, e0)) \/ read_in pool s s' x.
Definition moves (cfg : ServiceConfig) (pool s s' : Auth) : Prop := ac_rel cfg s s' /\ kv_rel pool s s'.
Lemma read_in_mono pool s s1 s2 s3 x : (at_next s <= at_next s1)%N -> (at_next s2 <= at_next s3)%N ->
  read_in pool s1 s2 x -> read_in pool s s3 x.
Proof. intros L1 L2 [(u & Hu & E1 & E2 & L)|Hy]; [left|by right]. exists u. split_and!; (done || lia). Qed.
#[export] Instance moves_pre cfg pool : PreOrder (moves cfg pool).
Proof.
  split.
  - intros s. split; [reflexivity|]. intros k x e Hx. left. eauto.
  - intros s s1 s2 [A1 K1] [A2 K2]. split; [by etrans|]. intros k x e Hx.
    pose proof (ac_next _ _ _ A1). pose proof (ac_next _ _ _ A2).
    destruct (K2 k x e Hx) as [[e0 He]|Hn]; [|right; by eapply read_in_mono; [| |exact Hn]].
    destruct (K1 k x e0 He) as [He'|Hn]; [by left|]. right. by eapply read_in_mono; [| |exact Hn].
Qed.
Lemma moves_tx cfg pool {E A} (c : Tx Auth E A) : obeys (tx_rel cfg) c -> follows (moves cfg pool) (inTx c).
Proof.
  intros Hc. apply follows_tx; [apply _|]. intros s x s' Hs. destruct (Hc s x s' Hs) as [Ha Ek]. split; [done|].
  intros k y e Hy. rewrite Ek in Hy. left. eauto.
Qed.
Lemma moves_same cfg pool s s' : at_users s' = at_users s -> (at_next s <= at_next s')%N -> at_now s <= at_now s' ->
  kv_rel pool s s' -> moves cfg pool s s'.
Proof. intros E1 E2 E3 Hk. split; [by apply ac_same|done]. Qed.
(** Keys deleted. *)
Lemma kv_deleted pool keys s : kv_rel pool s (store_del keys s).
Proof.
  intros k x e Hx. left. exists e. simpl in Hx. induction keys as [|k' keys IH]; [done|]. simpl in Hx.
  apply lookup_delete_Some in Hx as [_ Hx]. by apply IH.
Qed.

(** A run that may store the session [y] and no other. *)
Definition adds (cfg : ServiceConfig) (y : Session) (s s' : Auth) : Prop :=
  ac_rel cfg s s' /\ forall k x e, at_kv s' !! k = Some (VSession x, e) -> (exists e0, at_kv s !! k = Some (VSession x, e0)) \/ x = y.
#[export] Instance adds_pre cfg y : PreOrder (adds cfg y).
Proof.
  split.
  - intros s. split; [reflexivity|]. intros k x e Hx. left. eauto.
  - intros s s1 s2 [A1 K1] [A2 K2]. split; [by etrans|]. intros k x e Hx. destruct (K2 k x e Hx) as [[e0 He]|]; [|by right].
    by eapply K1.
Qed.
Lemma adds_same cfg y s s' : tx_rel cfg s s' -> adds cfg y s s'.
Proof. intros [Ha Ek]. split; [done|]. intros k x e Hx. rewrite Ek in Hx. left. eauto. Qed.

Section Services.
Context {H B : Type} `{PasswordHasher H} `{SecretBox B} (hasher : H) (box : B).
Context (sha256 : string -> string) (uuid_string : uuid -> string) (code_digest : string -> string).
Context (parse_ip : string -> bool) (email_ok : string -> bool).
Context (totp_verify : string -> string -> Z -> bool) (cfg : ServiceConfig) (Hcfg : 0 < LoginLockAfter cfg).
Abbreviation M := (moves cfg).

Lemma moves_mod_same pool {E} f : (forall s, at_users (f s) = at_users s /\ at_next (f s) = at_next s /\ at_now (f s) = at_now s
  /\ at_kv (f s) = at_kv s) -> follows (E := E) (M pool) (smod f).
Proof.
  intros Hf. apply follows_mod. intros s. destruct (Hf s) as (E1 & E2 & E3 & E4). apply moves_same; [done|rewrite E2; lia|rewrite E3; lia|].
  intros k x e Hx. rewrite E4 in Hx. left. eauto.
Qed.
Lemma moves_Delete pool raw : follows (M pool) (store_Delete uuid_string raw).
Proof.
  intros s r s' Hs. unfold store_Delete in Hs. destruct (store_Get s raw); injection Hs as _ <-; [|reflexivity].
  apply moves_same; [done|simpl; lia|simpl; lia|apply kv_deleted].
Qed.
Lemma moves_DeleteByID pool id : follows (M pool) (store_DeleteByID uuid_string id).
Proof.
  intros s r s' Hs. unfold store_DeleteByID in Hs. destruct (kv_live _ _ _) as [[]|]; injection Hs as _ <-; [..|reflexivity];
    (apply moves_same; [done|simpl; lia|simpl; lia|apply kv_deleted]).
Qed.
Lemma adds_Put raw x : follows (adds cfg x) (store_Put uuid_string raw x).
Proof.
  intros s r s' Hs. unfold store_Put in Hs. destruct (_ <=? 0); injection Hs as _ <-; [reflexivity|].
  split; [apply ac_same; [done|simpl; lia|simpl; lia]|]. intros k y e Hy. simpl in Hy.
  apply lookup_insert_Some in Hy as [[_ Ey]|[_ Hy]]; [done|].
  apply lookup_insert_Some in Hy as [[_ Ey]|[_ Hy]]; [right; congruence|left; eauto].
Qed.

Lemma moves_guard_state pool s g : M pool s (put_guard g s).
Proof. apply moves_same; [done|simpl; lia|simpl; lia|]. intros k x e Hx. left. eauto. Qed.
Lemma moves_allow pool b : follows (M pool) (allow cfg b).
Proof.
  intros s r s' Hs. unfold allow in Hs. destruct (Allow _ _ _ _ _ _) as [x g]. injection Hs as _ <-. apply moves_guard_state.
Qed.
Lemma moves_allow_all pool l : follows (M pool) (allow_all cfg l).
Proof. induction l as [|b l IH]; cbn [allow_all]; [apply follows_ret; apply _|]. apply follows_bind; [apply _|apply moves_allow|done]. Qed.
Lemma adds_reset_all y l : follows (adds cfg y) (reset_all l).
Proof.
  induction l as [|b l IH]; cbn [reset_all]; [apply follows_ret; apply _|]. apply follows_bind; [apply _| |done].
  apply follows_mod. intros s. by apply adds_same, tx_same.
Qed.
Lemma moves_checkTOTP pool u stored code : follows (M pool) (checkTOTP box uuid_string code_digest totp_verify u stored code).
Proof.
  unfold checkTOTP. apply follows_bind; [apply _|apply follows_get; apply _|]. intros s0. destruct (open_secret box stored) as [secret|]; [|svc_steps].
  destruct (negb _); [svc_steps|]. intros s r s' Hs. destruct (Consume _ _ _ _ _ _ _) as [x g]. injection Hs as _ <-.
  apply moves_guard_state.
Qed.
Lemma moves_time_code pool u code : follows (M pool) (time_code box uuid_string code_digest totp_verify u code).
Proof.
  unfold time_code. destruct (us_secret u) as [stored|]; [|svc_steps]. intros s r s' Hs.
  destruct (checkTOTP _ _ _ _ _ _ _ s) as [x s1] eqn:Ec. apply (moves_checkTOTP pool) in Ec.
  destruct x as [?|[]]; injection Hs as _ <-; exact Ec.
Qed.
Lemma moves_consume pool pool' u code : follows (M pool) (consumeBackupCode hasher pool' u code).
Proof.
  unfold consumeBackupCode. destruct (bool_decide _); [svc_steps|]. destruct (BackupCodes pool' u) as [l|]; [|svc_steps].
  destruct (matching_code hasher _ l) as [h|]; [|svc_steps]. apply follows_bind; [apply _| |intros; svc_steps].
  apply moves_tx. apply ac_consume.
Qed.
Lemma moves_record_failure pool u a : follows (M pool) (record_failure cfg u a).
Proof. unfold record_failure. apply follows_attempt, moves_tx. tx_split accounts. Qed.

Lemma moves_second_factor pool pool' u code : follows (M pool) (second_factor hasher box uuid_string code_digest totp_verify cfg pool' u code).
Proof.
  unfold second_factor. apply follows_bind; [apply _|apply moves_time_code|]. intros b1.
  apply follows_bind; [apply _|destruct b1; [svc_steps|apply moves_consume]|]. intros b2. destruct b2; [svc_steps|].
  apply follows_bind; [apply _|apply moves_record_failure|intros; svc_steps].
Qed.
(** The transaction of a login: its session's id is new. *)
Lemma issue_tx u hash d ip agent expires s id s' :
  (let! _ := MarkLoginSuccess (us_id u) in
   let! id := sessions_Insert parse_ip hash (us_id u) (us_tenant u) d ip agent expires in
   let! _ := auditAuth (us_tenant u) (us_id u) "user.logged_in" in tret id)%tx s = Ok (id, s') ->
  tx_rel cfg s s' /\ id = at_next s /\ at_next s' = (at_next s + 1)%N.
Proof.
  intros Ht. split; [revert Ht; generalize id s'; apply (fun c => c s); tx_split accounts|].
  tx_steps Ht. unfold MarkLoginSuccess, change_user in E. tx_steps E. unfold sessions_Insert in E0. tx_steps E0.
  unfold auth_fresh in E2. unfold auditAuth in E1. tx_steps E1. unfold tput in *. simplify_eq. done.
Qed.
Lemma moves_issue pool o raw q u : In u (at_users pool) -> follows (M pool) (issue sha256 uuid_string parse_ip cfg o raw q u).
Proof.
  intros Hu s0 r s' Hs. unfold issue in Hs. change (sbind sget ?k s0) with (k s0 s0) in Hs. cbn beta zeta in Hs.
  unfold sbind in Hs at 1. destruct (inTx _ s0) as [[id|e] s1] eqn:Et; cycle 1.
  { injection Hs as _ <-. eapply (moves_tx cfg pool); [|exact Et]. tx_split accounts. }
  apply inTx_ok, issue_tx in Et as (T1 & Eid & En).
  set (x := mkSession _ _ _ _ _ _ _ _ _ _ _) in Hs.
  assert (Ha : adds cfg x s1 s').
  { revert Hs. apply follows_bind; [apply _|apply adds_reset_all|]. intros _ s2 r2 s2' Hs.
    destruct (if put_fails o then _ else _) as [y s3] eqn:Ep. assert (Hm : adds cfg x s2 s3).
    { destruct (put_fails o); [injection Ep as _ <-; reflexivity|]. by eapply adds_Put. }
    destruct y; injection Hs as _ <-; [done|]. etrans; [exact Hm|]. by apply adds_same, tx_same. }
  destruct T1 as [A1 E1]. destruct Ha as [A2 K2]. split; [by etrans|]. intros k y e Hy.
  destruct (K2 k y e Hy) as [Hk| ->]; [left; by rewrite E1 in Hk|]. right. left. exists u. split_and!; [done..| |].
  - simpl. lia.
  - pose proof (ac_next _ _ _ A2). simpl. lia.
Qed.
Lemma found_in s slug email u : FindForLogin s slug email = Some u -> In u (at_users s).
Proof.
  unfold FindForLogin. destruct (select _ _) as [|[u' t] l] eqn:El; [done|]. intros [= ->].
  assert (Hin : In (u, t) ((u, t) :: l)) by (by left). rewrite <- El in Hin. apply in_select in Hin as [Hin _].
  apply in_join in Hin as (Hin & _). exact Hin.
Qed.
Lemma moves_Login pool o raw q :
  follows (M pool) (Login hasher box sha256 uuid_string code_digest parse_ip totp_verify cfg pool o raw q).
Proof.
  unfold Login. apply follows_bind; [apply _|apply moves_allow_all|]. intros _.
  destruct (FindForLogin pool _ _) as [u|] eqn:Ef; [|svc_steps]. apply found_in in Ef.
  repeat (apply follows_bind; [apply _|svc_steps|intros ?]).
  destruct (us_hash u) as [h|]; [|svc_steps]. destruct (verify_password hasher _ h) as [[[] rehash]|]; [| |svc_steps].
  - destruct (us_mfa u && _); [svc_steps|]. apply follows_bind; [apply _| |intros _].
    + destruct (us_mfa u); [apply moves_second_factor|svc_steps].
    + apply follows_bind; [apply _| |intros _; by apply moves_issue]. destruct rehash; [|svc_steps]. by apply moves_mod_same.
  - apply follows_bind; [apply _|apply moves_record_failure|intros; svc_steps].
Qed.

(** ** Sessions, passwords, MFA *)

Lemma moves_attempt_delete pool raw {F} : follows (E := F) (M pool) (attempt (store_Delete uuid_string raw)).
Proof. apply follows_attempt, moves_Delete. Qed.
Lemma moves_Logout pool raw : follows (M pool) (Logout uuid_string raw).
Proof.
  unfold Logout. apply follows_bind; [apply _|apply follows_get; apply _|]. intros s0. destruct (store_Get s0 raw) as [x|e].
  - apply follows_bind; [apply _|apply moves_Delete|]. intros _. apply moves_tx. tx_split accounts.
  - svc_steps.
Qed.
Lemma moves_RevokeSession pool pool' owner id : follows (M pool) (RevokeSession uuid_string pool' owner id).
Proof.
  unfold RevokeSession. destruct (FindActiveOwnedBy _ _ _) as [row|]; [|svc_steps].
  apply follows_bind; [apply _|apply moves_DeleteByID|]. intros _. apply moves_tx. tx_split accounts.
Qed.
Lemma moves_delete_live pool o rows : follows (M pool) (delete_live uuid_string o rows).
Proof.
  induction rows as [|r rows IH]; cbn [delete_live]; [svc_steps|]. apply follows_bind; [apply _| |done].
  destruct (del_fails o (sr_id r)); [svc_steps|]. apply follows_attempt, moves_DeleteByID.
Qed.
Lemma get_entry s raw x : store_Get s raw = Ok x -> exists e, at_kv s !! tokenKey raw = Some (VSession x, e) /\ at_now s < e.
Proof.
  unfold store_Get, kv_live. destruct (at_kv s !! tokenKey raw) as [[v e]|]; [|done].
  destruct (at_now s <? e) eqn:Ee; [|done]. destruct v as [y|]; [|done]. intros [= ->]. exists e. split; [done|lia].
Qed.
Lemma moves_Refresh pool raw : follows (M pool) (Refresh uuid_string cfg pool raw).
Proof.
  unfold Refresh. destruct (store_Get pool raw) as [x|e] eqn:Eg; [|svc_steps]. apply get_entry in Eg as (e & Ek & _).
  apply follows_bind; [apply _|apply follows_get; apply _|]. intros s0. apply follows_bind; [apply _| |intros _].
  - intros s1 r1 s1' Hp. apply adds_Put in Hp as [Ha Hk]. split; [done|]. intros k y e' Hy.
    destruct (Hk k y e' Hy) as [?| ->]; [by left|]. right. right. by exists (tokenKey raw), x, e.
  - apply follows_bind; [apply _|apply moves_tx, ac_touch|]. intros _. svc_steps.
Qed.
Lemma moves_Resolve pool raw : follows (M pool) (Resolve uuid_string raw).
Proof.
  unfold Resolve. apply follows_bind; [apply _|apply follows_get; apply _|]. intros s0. destruct (store_Get s0 raw) as [x|e]; [|svc_steps].
  destruct (_ <? _); [|destruct (CurrentSessionEpoch _ _) as [e|]; [destruct (negb _); [|svc_steps]|]];
    (apply follows_bind; [apply _|apply moves_attempt_delete|intros _; svc_steps]).
Qed.

Lemma ac_replace tenant user hash reason action :
  obeys (tx_rel cfg) (let! _ := SetPassword user hash in let! _ := revokeAllUserSessions user reason in auditAuth tenant user action)%tx.
Proof. unfold revokeAllUserSessions. tx_split accounts. Qed.
Lemma moves_replace pool pool' o tenant user hash reason action :
  follows (M pool) (replace_password uuid_string pool' o tenant user hash reason action).
Proof.
  unfold replace_password. apply follows_bind; [apply _|apply moves_delete_live|]. intros _. apply moves_tx, ac_replace.
Qed.
Lemma moves_ChangePassword pool pool' o salt tenant user old new :
  follows (M pool) (ChangePassword hasher uuid_string pool' o salt tenant user old new).
Proof.
  unfold ChangePassword. apply follows_bind; [apply _|svc_steps|]. intros _. destruct (FindByID _ _ _) as [u|]; [|svc_steps].
  apply follows_bind; [apply _|destruct (us_hash u); svc_steps|]. intros _.
  destruct (hash_password _ _ _); [apply moves_replace|svc_steps].
Qed.
Lemma moves_IssueResetToken pool raw user : follows (M pool) (IssueResetToken sha256 cfg raw user).
Proof. unfold IssueResetToken. apply follows_bind; [apply _|by apply moves_mod_same|intros; svc_steps]. Qed.
Lemma moves_RequestPasswordReset pool pool' raw slug email :
  follows (M pool) (RequestPasswordReset sha256 cfg pool' raw slug email).
Proof.
  unfold RequestPasswordReset. destruct (FindByEmail _ _ _) as [u|]; [|svc_steps].
  apply follows_bind; [apply _|apply moves_IssueResetToken|]. intros _. apply follows_bind; [apply _| |intros; svc_steps].
  apply follows_attempt, moves_tx, ac_audit.
Qed.
Lemma moves_ConfirmPasswordReset pool pool' o salt token new :
  follows (M pool) (ConfirmPasswordReset hasher sha256 uuid_string cfg pool' o salt token new).
Proof.
  unfold ConfirmPasswordReset. apply follows_bind; [apply _|svc_steps|]. intros _.
  destruct (kv_live _ _ _) as [user|]; [|svc_steps]. destruct (hash_password _ _ _) as [h|]; [|svc_steps].
  destruct (TenantOf _ _) as [t|]; [|svc_steps]. apply follows_bind; [apply _|apply moves_replace|]. intros _. by apply moves_mod_same.
Qed.
Lemma moves_rehash pool salt job : follows (M pool) (rehash_job hasher salt job).
Proof. unfold rehash_job. destruct (hash_password _ _ _); [|svc_steps]. apply follows_attempt, moves_tx. eauto with accounts. Qed.

Lemma ac_enroll id secret : obeys (tx_rel cfg) (users_EnrollMfa id secret).
Proof. apply (ac_mfa cfg id (fun _ => Some secret) (fun _ => false)). Qed.
Lemma ac_activate id : obeys (tx_rel cfg) (ActivateMfa id).
Proof. apply (ac_mfa cfg id us_secret (fun _ => true)). Qed.
Lemma ac_disable id : obeys (tx_rel cfg) (users_DisableMfa id).
Proof. apply (ac_mfa cfg id (fun _ => None) (fun _ => false)). Qed.
Hint Resolve ac_enroll ac_activate ac_disable : accounts.

Lemma moves_EnrollMfa pool pool' nonce e user tenant : follows (M pool) (EnrollMfa box pool' nonce e user tenant).
Proof.
  unfold EnrollMfa. destruct (FindByID _ _ _) as [u|]; [|svc_steps]. apply follows_bind; [apply _|svc_steps|]. intros _.
  apply follows_bind; [apply _|apply moves_tx; tx_split accounts|intros; svc_steps].
Qed.
Lemma moves_VerifyMfa pool pool' user tenant code : follows (M pool) (VerifyMfa box totp_verify pool' user tenant code).
Proof.
  unfold VerifyMfa. destruct (FindByID _ _ _) as [u|]; [|svc_steps]. destruct (us_secret u); [|svc_steps].
  do 2 (apply follows_bind; [apply _|svc_steps|intros ?]). apply moves_tx. tx_split accounts.
Qed.
Lemma moves_ConfirmEnroll pool pool' rand user tenant code :
  follows (M pool) (ConfirmEnroll hasher box totp_verify pool' rand user tenant code).
Proof.
  unfold ConfirmEnroll. destruct (FindByID _ _ _) as [u|]; [|svc_steps]. destruct (us_secret u); [|svc_steps].
  do 2 (apply follows_bind; [apply _|svc_steps|intros ?]). destruct (newBackupCodes _ _) as [[plain hashes]|]; [|svc_steps].
  apply follows_bind; [apply _|apply moves_tx; tx_split accounts|intros; svc_steps].
Qed.
Lemma moves_DisableMfa pool pool' user tenant code : follows (M pool) (DisableMfa hasher box totp_verify pool' user tenant code).
Proof.
  unfold DisableMfa. destruct (FindByID _ _ _) as [u|]; [|svc_steps].
  do 2 (apply follows_bind; [apply _|svc_steps|intros ?]). cbn zeta.
  apply follows_bind; [apply _| |intros ok; apply follows_bind; [apply _|svc_steps|intros _; apply moves_tx; tx_split accounts]].
  destruct (match us_secret u with Some _ => _ | None => _ end); [svc_steps|apply moves_consume].
Qed.
Lemma moves_Regenerate pool pool' rand user tenant : follows (M pool) (RegenerateBackupCodes hasher pool' rand user tenant).
Proof.
  unfold RegenerateBackupCodes. destruct (FindByID _ _ _) as [u|]; [|svc_steps]. apply follows_bind; [apply _|svc_steps|]. intros _.
  destruct (newBackupCodes _ _) as [[plain hashes]|]; [|svc_steps].
  apply follows_bind; [apply _|apply moves_tx; tx_split accounts|intros; svc_steps].
Qed.

(** ** Every request *)

Lemma moves_run_job pool n salt : follows (M pool) (run_job hasher n salt).
Proof.
  unfold run_job. apply follows_bind; [apply _|apply follows_get; apply _|]. intros s0. destruct (at_jobs s0 !! n); [|svc_steps].
  apply follows_bind; [apply _|by apply moves_mod_same|]. intros _. apply follows_attempt, moves_rehash.
Qed.
Lemma moves_time pool d : follows (E := http_error) (M pool) (smod (fun s => put_time (at_now s + Z.of_N d) s)).
Proof.
  apply follows_mod. intros s. apply moves_same; [done|simpl; lia|simpl; lia|]. intros k x e Hx. left. eauto.
Qed.
Lemma moves_user_tx pool {E F A} (f : E -> F) (c : Tx Auth E A) : obeys (tx_rel cfg) c -> follows (M pool) (sconv f (inTx c)).
Proof. intros Hc. by apply follows_conv, moves_tx. Qed.
Lemma moves_GrantRole pool c i b : follows (M pool) (handleGrantRole c i b).
Proof.
  unfold handleGrantRole. repeat (apply follows_bind; [apply _|svc_steps|intros ?]). apply moves_tx.
  apply obeys_bind; [apply _|by intros s1 x1 s1' [= _ <-]|]. intros s1. tx_split accounts.
Qed.

Lemma serve_moves pool r :
  follows (M pool) (auth_serve hasher box sha256 uuid_string code_digest parse_ip email_ok totp_verify cfg pool r).
Proof.
  destruct r; cbn [auth_serve]; unfold quietly;
    try (apply follows_bind; [apply _| |intros ?; apply follows_ret; apply _]);
    [unfold handleLogin|unfold handleLogout|unfold handleRefresh|unfold requireAuth|unfold handlePasswordResetRequest
    |unfold handlePasswordResetConfirm| |unfold handleRevokeMySession|unfold handleChangeMyPassword|unfold handleMfaEnroll
    |unfold handleMfaVerify|unfold handleMfaConfirm|unfold handleMfaDisable|unfold handleMfaBackupCodes|unfold handleInviteUser
    |unfold handleUpdateUserStatus|apply moves_GrantRole|unfold handleRevokeUserRole|unfold handleGrantStationAccess
    |unfold handleRevokeStationAccess|apply moves_run_job|apply moves_time];
    repeat (apply follows_bind; [apply _|solve [svc_steps]|intros ?]).
  - apply follows_conv, moves_Login.
  - apply follows_conv, moves_Logout.
  - apply follows_bind; [apply _|apply follows_conv, moves_Refresh|intros; svc_steps].
  - apply follows_bind; [apply _|apply follows_conv, moves_Resolve|intros; svc_steps].
  - apply follows_bind; [apply _|apply follows_conv, moves_RequestPasswordReset|intros; svc_steps].
  - apply follows_conv, moves_ConfirmPasswordReset.
  - apply follows_conv, moves_IssueResetToken.
  - apply follows_conv, moves_RevokeSession.
  - apply follows_conv, moves_ChangePassword.
  - apply follows_conv, moves_EnrollMfa.
  - apply follows_conv, moves_VerifyMfa.
  - apply follows_conv, moves_ConfirmEnroll.
  - apply follows_conv, moves_DisableMfa.
  - apply follows_conv, moves_Regenerate.
  - apply moves_user_tx. tx_split accounts.
  - apply moves_user_tx. tx_split accounts.
  - apply moves_user_tx. tx_split accounts.
  - apply moves_user_tx. tx_split accounts.
  - apply moves_user_tx. tx_split accounts.
Qed.
End Services.
