(* ===== verification/IdentityRuns.v ===== *)
(** * What accounts and sessions promise

    Over every sequence of requests, each with reads that may show any earlier state:
    a password change ends every session for good, an account at the threshold of
    failures is locked, and a login is granted only with its factors. *)

From stdpp Require Import base list strings gmap.
From Stdlib Require Import ZArith Lia.
From S2P Require Import Prelude Frames Numeric Schema Policy Operations Workforce WorkforceHandlers Secrets Sessions Identity IdentityProps.

Local Open Scope Z_scope.
Local Open Scope svc_scope.

(** ** Epochs *)

Section Epochs.
Context (cfg : ServiceConfig).

Lemma epoch_row s u : accounts_ok cfg s -> In u (at_users s) -> CurrentSessionEpoch s (us_id u) = Some (us_epoch u).
Proof.
  intros Hs Hu. unfold CurrentSessionEpoch. rewrite (first_only _ _ u); [done|done|by apply bool_decide_eq_true_2|].
  intros v Hv Ev%bool_decide_eq_true_1. by eapply table_same.
Qed.
Lemma epoch_found s i n : CurrentSessionEpoch s i = Some n -> exists u, In u (at_users s) /\ us_id u = i /\ us_epoch u = n.
Proof.
  unfold CurrentSessionEpoch. destruct (first_where _ _) as [u|] eqn:Eu; [|done]. intros [= <-].
  apply first_where_some in Eu as [Hu Ei%bool_decide_eq_true_1]. eauto.
Qed.
Lemma epoch_grows s s' i n : ac_rel cfg s s' -> accounts_ok cfg s -> CurrentSessionEpoch s i = Some n ->
  exists m, CurrentSessionEpoch s' i = Some m /\ n <= m.
Proof.
  intros Hr Hs (u & Hu & <- & <-)%epoch_found. destruct (ac_epochs _ _ _ Hr u Hu) as (u' & Hu' & <- & L).
  exists (us_epoch u'). split; [apply epoch_row; [by apply (ac_ok _ _ _ Hr)|done]|done].
Qed.
(** A row of the account that changes. *)
Lemma epoch_change s i f d : (forall u, us_id (f u) = us_id u /\ us_epoch (f u) = us_epoch u + d) ->
  CurrentSessionEpoch (put_users (update_where (us_by i) f (at_users s)) s) i
  = (fun n => n + d) <$> CurrentSessionEpoch s i.
Proof.
  intros Hf. unfold CurrentSessionEpoch. simpl. induction (at_users s) as [|u l IH]; [done|].
  unfold update_where, first_where in *. cbn [map fmap list_fmap List.find]. destruct (us_by i u) eqn:Eb.
  - assert (us_by i (f u) = true) as -> by (unfold us_by in *; by rewrite (proj1 (Hf u))). simpl. by rewrite (proj2 (Hf u)).
  - by rewrite Eb.
Qed.
End Epochs.

(** ** Runs *)

Section Runs.
Context {H B : Type} `{PasswordHasher H} `{SecretBox B} (hasher : H) (box : B).
Context (sha256 : string -> string) (uuid_string : uuid -> string) (code_digest : string -> string).
Context (parse_ip : string -> bool) (email_ok : string -> bool).
Context (totp_verify : string -> string -> Z -> bool) (cfg : ServiceConfig).
Abbreviation serve := (auth_serve hasher box sha256 uuid_string code_digest parse_ip email_ok totp_verify cfg).

(** The states of a run, the latest first.  What a request reads on the pool or in
    Redis before it writes may be any state up to then. *)
Definition auth_start (s : Auth) : Prop := accounts_ok cfg s /\ at_kv s = ∅.
Inductive auth_run : list Auth -> Prop :=
| ar_start s : auth_start s -> auth_run [s]
| ar_step s h pool r x s' : auth_run (s :: h) -> In pool (s :: h) -> serve pool r s = (x, s') -> auth_run (s' :: s :: h).

Definition holds_session (s : Auth) (x : Session) : Prop := exists k e, at_kv s !! k = Some (VSession x, e).
(** A session's id was drawn before, and its epoch is not ahead of its account's. *)
Definition auth_inv (s : Auth) : Prop :=
  accounts_ok cfg s
  /\ forall x, holds_session s x -> (ss_id x < at_next s)%N /\ exists n, CurrentSessionEpoch s (ss_user x) = Some n /\ ss_epoch x <= n.
Record history_ok (s : Auth) (h : list Auth) : Prop := {
  ho_inv : forall a, In a (s :: h) -> auth_inv a;
  ho_past : forall a, In a (s :: h) -> ac_rel cfg a s;
}.

Lemma history_start s : auth_start s -> history_ok s [].
Proof.
  intros [Hs Hk]. assert (Hno : forall x, holds_session s x -> False) by (intros x (k & e & Hx); by rewrite Hk in Hx). split.
  - intros a [<-|[]]. split; [done|]. intros x Hx. by destruct (Hno x).
  - intros a [<-|[]]. reflexivity.
Qed.
(** Where a session of the new state comes from. *)
Lemma session_origin pool s h s' x : history_ok s h -> In pool (s :: h) -> moves cfg pool s s' -> holds_session s' x ->
  (exists a y, In a (s :: h) /\ holds_session a y /\ ss_id y = ss_id x /\ ss_user y = ss_user x /\ ss_epoch y = ss_epoch x)
  \/ (exists u, In u (at_users pool) /\ us_id u = ss_user x /\ us_epoch u = ss_epoch x /\ (at_next s <= ss_id x < at_next s')%N).
Proof.
  intros Hh Hp [Ha Hk] (k & e & Hx). destruct (Hk k x e Hx) as [[e0 H0']|[Hn|(k' & y & e' & Hy & E1 & E2 & E3)]].
  - left. exists s, x. split_and!; [by left|by exists k, e0|done..].
  - by right.
  - left. exists pool, y. split_and!; [done|by exists k', e'|done..].
Qed.
Lemma history_step pool s h s' : history_ok s h -> In pool (s :: h) -> moves cfg pool s s' -> history_ok s' (s :: h).
Proof.
  intros Hh Hp Hm. pose proof (ac_ok _ _ _ (proj1 Hm)) as Hok. pose proof (ac_next _ _ _ (proj1 Hm)) as Hnext.
  assert (Hac : forall a, In a (s :: h) -> ac_rel cfg a s') by (intros a Hin; etrans; [by apply (ho_past _ _ Hh)|apply Hm]).
  assert (Hinv : auth_inv s').
  { split; [apply Hok, (ho_inv _ _ Hh); by left|]. intros x Hx.
    destruct (session_origin pool s h s' x Hh Hp Hm Hx) as [(a & y & Hin & Hy & E1 & E2 & E3)|(u & Hu & E1 & E2 & L)].
    - destruct (ho_inv _ _ Hh a Hin) as [Aok Ak]. destruct (Ak y Hy) as (Lt & n & En & Le).
      pose proof (ac_next _ _ _ (Hac a Hin)). split; [rewrite <- E1; lia|].
      destruct (epoch_grows cfg a s' (ss_user y) n (Hac a Hin) Aok En) as (m & Em & Lm). exists m. rewrite <- E2. split; [done|lia].
    - split; [lia|]. destruct (ho_inv _ _ Hh pool Hp) as [Aok _]. pose proof (epoch_row cfg pool u Aok Hu) as En.
      destruct (epoch_grows cfg pool s' _ _ (Hac pool Hp) Aok En) as (m & Em & Lm). exists m. rewrite <- E1. split; [done|lia]. }
  split.
  - intros a [<-|Hin]; [done|by apply (ho_inv _ _ Hh)].
  - intros a [<-|Hin]; [reflexivity|by apply Hac].
Qed.
Lemma run_history : 0 < LoginLockAfter cfg -> forall l, auth_run l -> match l with s :: h => history_ok s h | [] => False end.
Proof.
  intros Hcfg l Hl. induction Hl as [s Hs|s h pool r x s' _ IH Hp Hx]; [by apply history_start|].
  eapply history_step; [exact IH|exact Hp|]. by eapply serve_moves.
Qed.

(** ** The end of every session of an account *)

(** Whose password a request replaces when it succeeds. *)
Definition revoked_user (pool : Auth) (r : auth_request) : option uuid :=
  match r with
  | AqChange _ _ ctx _ => ac_user <$> ctx
  | AqResetConfirm _ _ (Ok (token, _)) => kv_live (at_reset pool) (at_now pool) (reset_key sha256 cfg token)
  | _ => None
  end.

Definition users_kept (s s' : Auth) : Prop := at_users s' = at_users s.
Instance users_kept_pre : PreOrder users_kept.
Proof. split; [done|]. intros s s1 s2 E1 E2. unfold users_kept in *. congruence. Qed.
Lemma users_delete_live o rows : follows users_kept (delete_live uuid_string o rows).
Proof.
  induction rows as [|r rows IH]; cbn [delete_live]; [svc_steps|]. apply follows_bind; [apply _| |done].
  destruct (del_fails o (sr_id r)); [svc_steps|]. apply follows_attempt. intros s x s' Hs. unfold store_DeleteByID in Hs.
  by destruct (kv_live _ _ _) as [[]|]; injection Hs as _ <-.
Qed.
Lemma epoch_kept s s' i : at_users s' = at_users s -> CurrentSessionEpoch s' i = CurrentSessionEpoch s i.
Proof. intros E. unfold CurrentSessionEpoch. by rewrite E. Qed.
Lemma replace_bumps pool o tenant user hash reason action s s' :
  replace_password uuid_string pool o tenant user hash reason action s = (Ok tt, s') ->
  CurrentSessionEpoch s' user = (fun n => n + 1) <$> CurrentSessionEpoch s user.
Proof.
  intros Hs. unfold replace_password in Hs. svc_inv Hs. apply users_delete_live in E. apply inTx_ok in Hs.
  unfold revokeAllUserSessions in Hs. tx_steps Hs. unfold SetPassword, change_user in E0. tx_steps E0. injection E0 as _ <-.
  tx_steps E1. unfold BumpSessionEpoch, change_user in E0. tx_steps E0. injection E0 as _ <-. injection E1 as _ <-. injection Hs as <-.
  set (s1 := put_users (update_where (us_by user) (with_password hash (at_now x0)) (at_users x0)) x0).
  rewrite <- (epoch_kept s x0 user E). transitivity (CurrentSessionEpoch (put_users (update_where (us_by user) next_epoch (at_users s1)) s1) user);
    [done|]. rewrite (epoch_change s1 user next_epoch 1) by done. unfold s1.
  rewrite (epoch_change _ user (with_password hash (at_now x0)) 0) by (intros u; simpl; split; [done|lia]).
  destruct (CurrentSessionEpoch x0 user) as [n|]; [|done]. simpl. f_equal. lia.
Qed.

Lemma revocation_bumps pool r user s s' : revoked_user pool r = Some user -> serve pool r s = (Ok tt, s') ->
  CurrentSessionEpoch s' user = (fun n => n + 1) <$> CurrentSessionEpoch s user.
Proof.
  intros Hr Hs. destruct r; try done; cbn [auth_serve] in Hs; unfold quietly in Hs.
  - destruct body as [[token new]|]; [|done]. svc_inv Hs. subst. unfold handlePasswordResetConfirm in E. svc_inv E.
    unfold ConfirmPasswordReset in E. simpl in E0. injection E0 as <-. cbn [fst snd] in *. cbn [revoked_user] in Hr.
    svc_inv E; try done. injection Hr as ->. injection E as _ <-. destruct x1.
    rewrite <- (replace_bumps _ _ _ _ _ _ _ _ _ E5). by apply epoch_kept.
  - svc_inv Hs. unfold handleChangeMyPassword in E. svc_inv E. unfold ChangePassword in E. svc_inv E; try done.
    assert (x4 = s) as ->.
    { destruct (us_hash u) as [hash|]; [destruct (verify_password hasher _ hash) as [[m ?]|]|]; by injection E5. }
    destruct ctx as [act|]; [|done]. unfold ops_actor, identity_Require in E0. cbn in E0, Hr. destruct (IsAuthenticated act); [|done].
    injection E0 as <-. injection Hr as <-. subst s'. destruct x. by eapply replace_bumps.
Qed.

Lemma run_inv c m : auth_run (c :: m) ->
  m = [] \/ exists s h pool r y, m = s :: h /\ auth_run (s :: h) /\ In pool (s :: h) /\ serve pool r s = (y, c).
Proof. intros Hr. remember (c :: m) as l eqn:El. destruct Hr; injection El as -> <-; [by left|right]. by eexists _, _, _, _, _. Qed.
Lemma run_suffix l s h : auth_run (l ++ s :: h) -> auth_run (s :: h).
Proof.
  induction l as [|c l IH]; [done|]. cbn [app]. intros Hr. apply IH.
  destruct (run_inv c _ Hr) as [E|(s0 & h0 & pool & r & y & E & Hr' & _)]; [by destruct l|]. by rewrite E.
Qed.
(** Sessions with ids drawn before a state keep to the epoch of that state. *)
Lemma old_sessions s h : 0 < LoginLockAfter cfg -> forall l, auth_run (l ++ s :: h) ->
  forall b x, In b (l ++ s :: h) -> holds_session b x -> (ss_id x < at_next s)%N ->
  exists n, CurrentSessionEpoch s (ss_user x) = Some n /\ ss_epoch x <= n.
Proof.
  intros Hcfg l. induction l as [|c l IH]; intros Hrun b x Hb Hx Hid.
  - pose proof (run_history Hcfg _ Hrun) as Hh. destruct (ho_inv _ _ Hh b Hb) as [Aok Ak].
    destruct (Ak x Hx) as (_ & n & En & Le).
    destruct (epoch_grows cfg b s _ n (ho_past _ _ Hh b Hb) Aok En) as (m & Em & Lm). exists m. split; [done|lia].
  - destruct (run_inv c _ Hrun) as [E|(s0 & h0 & pool & r & y & E & Hr & Hp & Hs)]; [by destruct l|].
    rewrite <- E in Hr. destruct Hb as [<-|Hb]; [|by eapply IH].
    assert (Hm : moves cfg pool s0 c) by (by eapply serve_moves).
    assert (Hh : history_ok s0 h0) by (rewrite E in Hr; exact (run_history Hcfg _ Hr)).
    assert (Hn : (at_next s <= at_next s0)%N).
    { apply (ac_next cfg), (ho_past _ _ Hh). rewrite <- E. apply in_or_app. right. by left. }
    destruct (session_origin pool s0 h0 c x Hh Hp Hm Hx) as [(a & z & Hin & Hz & F1 & F2 & F3)|(u & _ & _ & _ & L)]; [|lia].
    rewrite <- F2, <- F3. apply (IH Hr a z); [rewrite <- E in Hin; exact Hin|done|by rewrite F1].
Qed.
Lemma Resolve_ok raw t x t' : Resolve uuid_string raw t = (Ok x, t') ->
  t' = t /\ store_Get t raw = Ok x /\ at_now t <= ss_expires x /\ CurrentSessionEpoch t (ss_user x) = Some (ss_epoch x).
Proof.
  intros Hr. unfold Resolve in Hr. svc_inv Hr; try done; subst. apply negb_false_iff, Z.eqb_eq in E2. split_and!; [done..| |congruence].
  by apply Z.ltb_ge.
Qed.
End Runs.

(** C28. After a request has replaced a user's password (a change by the user, or a reset
    confirmed), no session that existed up to then is ever accepted again, whatever
    requests follow and whichever deletions in Redis failed: a session of that user
    that resolves later has an id drawn since, and an epoch beyond the one the
    account had in every state up to the change.  Reads on the pool and in Redis
    may have shown any earlier state, so logins and refreshes that were under way are
    covered. *)
Theorem revocation_final {H B : Type} `{PasswordHasher H} `{SecretBox B} (hasher : H) (box : B)
    (sha256 : string -> string) (uuid_string : uuid -> string) (code_digest : string -> string) (parse_ip email_ok : string -> bool)
    (totp_verify : string -> string -> Z -> bool) (cfg : ServiceConfig) h s pool r user s' l t raw x t' :
  0 < LoginLockAfter cfg -> In pool (s :: h) -> revoked_user sha256 cfg pool r = Some user ->
  auth_serve hasher box sha256 uuid_string code_digest parse_ip email_ok totp_verify cfg pool r s = (Ok tt, s') ->
  auth_run hasher box sha256 uuid_string code_digest parse_ip email_ok totp_verify cfg (l ++ s' :: s :: h) ->
  In t (l ++ [s']) -> Resolve uuid_string raw t = (Ok x, t') -> ss_user x = user ->
  (forall a y, In a (s :: h) -> holds_session a y -> ss_id y <> ss_id x)
  /\ (at_next s <= ss_id x)%N
  /\ (forall a n, In a (s :: h) -> CurrentSessionEpoch a user = Some n -> n < ss_epoch x).
Proof.
  intros Hcfg Hp Hu Hs Hrun Ht Hx <-. apply Resolve_ok in Hx as (_ & Hg & _ & He).
  destruct (in_split t _ Ht) as (l1 & l2 & El).
  assert (Hlast : In s' (t :: l2)).
  { destruct (exists_last (l := t :: l2) ltac:(done)) as (m & z & Em). rewrite Em in *. rewrite app_assoc in El.
    apply app_inj_tail in El as [_ ->]. apply in_or_app. right. by left. }
  assert (Hrun' : auth_run hasher box sha256 uuid_string code_digest parse_ip email_ok totp_verify cfg (t :: l2 ++ s :: h)).
  { eapply (run_suffix _ _ _ _ _ _ _ _ _ l1). change (t :: l2 ++ s :: h) with ((t :: l2) ++ s :: h).
    rewrite app_assoc, <- El, <- app_assoc. exact Hrun. }
  pose proof (run_history _ _ _ _ _ _ _ _ cfg Hcfg _ Hrun') as Hh.
  assert (Hh0 : history_ok cfg s h) by exact (run_history _ _ _ _ _ _ _ _ cfg Hcfg _ (run_suffix _ _ _ _ _ _ _ _ _ (t :: l2) _ _ Hrun')).
  assert (Hpast : forall a n, In a (s :: h) -> CurrentSessionEpoch a (ss_user x) = Some n -> n < ss_epoch x).
  { intros a n Ha Hn.
    destruct (epoch_grows cfg a s _ n (ho_past _ _ _ Hh0 a Ha) (proj1 (ho_inv _ _ _ Hh0 a Ha)) Hn) as (m & Em & Lm).
    pose proof (revocation_bumps _ _ _ _ _ _ _ _ _ _ _ _ _ _ Hu Hs) as Eb. rewrite Em in Eb. cbn in Eb.
    assert (Hs' : In s' (t :: l2 ++ s :: h)) by (change (In s' ((t :: l2) ++ s :: h)); apply in_or_app; by left).
    destruct (epoch_grows cfg s' t _ _ (ho_past _ _ _ Hh s' Hs') (proj1 (ho_inv _ _ _ Hh s' Hs')) Eb) as (k & Ek & Lk).
    rewrite He in Ek. injection Ek as <-. lia. }
  assert (Hid : (at_next s <= ss_id x)%N).
  { destruct (N.le_gt_cases (at_next s) (ss_id x)) as [|Hlt]; [done|]. exfalso.
    apply get_entry in Hg as (e & Ek & _).
    destruct (old_sessions _ _ _ _ _ _ _ _ cfg s h Hcfg (t :: l2) Hrun' t x) as (n & En & Le); [by left|by exists (tokenKey raw), e|done|].
    assert (n < ss_epoch x) by (apply (Hpast s n); [by left|done]). lia. }
  split; [|done]. intros a y Ha Hy E. destruct (proj2 (ho_inv _ _ _ Hh0 a Ha) y Hy) as [Lt _].
  pose proof (ac_next _ _ _ (ho_past _ _ _ Hh0 a Ha)). lia.
Qed.
