(* ===== verification/IdentityLogin.v ===== *)
(** * What a login checks, and what it leaves

    A granted login in terms of the account, the factors and the session issued; an
    account at the threshold of failures refuses every login until its lock ends. *)

From stdpp Require Import base list strings gmap pretty.
From Stdlib Require Import ZArith Lia.
From S2P Require Import Prelude Frames Numeric Schema Policy Operations Workforce WorkforceHandlers Secrets Sessions SessionStore Identity IdentityProps IdentityRuns.

Local Open Scope Z_scope.
Local Open Scope svc_scope.

Section Login.
Context {H B : Type} `{PasswordHasher H} `{SecretBox B} (hasher : H) (box : B).
Context (sha256 : string -> string) (uuid_string : uuid -> string) (code_digest : string -> string).
Context (parse_ip : string -> bool) (totp_verify : string -> string -> Z -> bool) (cfg : ServiceConfig).
Abbreviation login := (Login hasher box sha256 uuid_string code_digest parse_ip totp_verify cfg).
Abbreviation used_key u code := (guard_key code_digest uuid_string (guard_prefix "") u code).

(** ** The limiter *)

(** Only the counters change; the marks of used codes are under another prefix. *)
Definition limited (s s' : Auth) : Prop :=
  s' = put_guard (at_guard s') s /\ forall u code, at_guard s' !! used_key u code = at_guard s !! used_key u code.
#[local] Instance limited_pre : PreOrder limited.
Proof.
  split.
  - intros s. split; [by destruct s|done].
  - intros s s1 s2 [E1 G1] [E2 G2]. split; [rewrite E2, E1; done|]. intros u code. by rewrite G2, G1.
Qed.
Lemma limited_allow_all l : follows limited (allow_all cfg l).
Proof.
  induction l as [|b l IH]; cbn [allow_all]; [apply follows_ret; apply _|]. apply follows_bind; [apply _| |done].
  intros s r s' Hs. unfold allow in Hs.
  destruct (Allow_view (S := redis) (limiter_prefix "") b (LoginRateMax cfg) (LoginRateWindow cfg) (at_now s) (at_guard s)) as [_ Ev].
  destruct (Allow _ _ _ _ _ _) as [x g]. injection Hs as _ <-. cbn in Ev. split; [done|]. intros u code. simpl. rewrite Ev.
  by rewrite lookup_insert_ne.
Qed.
Lemma limited_reset_all l : follows limited (reset_all l).
Proof.
  induction l as [|b l IH]; cbn [reset_all]; [apply follows_ret; apply _|]. apply follows_bind; [apply _| |done].
  apply follows_mod. intros s. split; [done|]. intros u code. simpl. unfold limiter_Reset. by rewrite lookup_delete_ne.
Qed.

(** ** The second factor *)

(** The current code of the account's secret, not used before and marked since. *)
Definition totp_accepted (u : User) (code : string) (s s' : Auth) : Prop :=
  exists stored secret, us_secret u = Some stored /\ open_secret box stored = Some secret
    /\ totp_verify secret code (at_now s) = true
    /\ live (at_guard s) (at_now s) (used_key (us_id u) code) = None
    /\ at_guard s' !! used_key (us_id u) code = Some (1, at_now s + AcceptanceWindow).
(** A stored backup code, which is no longer stored. *)
Definition backup_accepted (pool : Auth) (u : User) (code : string) (s' : Auth) : Prop :=
  exists codes h re, BackupCodes pool (us_id u) = Some codes /\ In h codes
    /\ verify_password hasher (normalizeBackupCode code) h = Ok (true, re)
    /\ forall codes', BackupCodes s' (us_id u) = Some codes' -> ~ In h codes'.

Lemma checkTOTP_ok u stored code s s' : us_secret u = Some stored ->
  checkTOTP box uuid_string code_digest totp_verify (us_id u) stored code s = (Ok tt, s') ->
  totp_accepted u code s s' /\ s' = put_guard (at_guard s') s.
Proof.
  intros Hu Hs. unfold checkTOTP in Hs. svc_inv Hs; try done.
  pose proof (Consume_view (S := redis) code_digest uuid_string (guard_prefix "") (us_id u) code (at_now s) (at_guard s)) as Ev. cbn zeta in Ev.
  destruct (Consume _ _ _ _ _ _ _) as [x g]. destruct x as [[]|]; [|done]. injection Hs as <-. cbn [fst snd kv_view redis_store_spec] in Ev.
  destruct (live _ _ _) eqn:El; destruct Ev as [Ev1 Ev2]; [done|]. split; [|done].
  eexists stored, _. split_and!; [done|exact E|by apply negb_false_iff|exact El|]. cbn. rewrite Ev2. apply lookup_insert_eq.
Qed.
Lemma time_code_ok u code s b s' : time_code box uuid_string code_digest totp_verify u code s = (Ok b, s') ->
  s' = put_guard (at_guard s') s /\ (b = true -> totp_accepted u code s s').
Proof.
  unfold time_code. destruct (us_secret u) as [stored|] eqn:Es; [|intros [= <- <-]; by split; [destruct s|]].
  destruct (checkTOTP _ _ _ _ _ _ _ s) as [x s1] eqn:Ec. intros Hs. destruct x as [[]|e].
  - injection Hs as <- <-. apply checkTOTP_ok in Ec as [? ?]; [done|done].
  - destruct e; try done. injection Hs as <- <-. split; [|done].
    unfold checkTOTP in Ec. unfold sbind, sget in Ec. destruct (open_secret box stored); [|injection Ec as <-; by destruct s].
    destruct (negb _); [injection Ec as <-; by destruct s|]. destruct (Consume _ _ _ _ _ _ _) as [[] g]; done.
Qed.

Lemma codes_without s u h codes :
  BackupCodes (put_mfa (update_where (mf_by u) (without_code h) (at_mfa s)) s) u = Some codes -> ~ In h codes.
Proof.
  unfold BackupCodes. simpl. induction (at_mfa s) as [|r l IH]; [done|]. unfold update_where, first_where in *.
  cbn [map List.find]. destruct (mf_by u r) eqn:Eb.
  - assert (mf_by u (without_code h r) = true) as -> by exact Eb. intros [= <-] [_ Hn]%in_select. by rewrite bool_decide_eq_true_2 in Hn.
  - by rewrite Eb.
Qed.
Lemma matching_in candidate l h : matching_code hasher candidate l = Some h ->
  In h l /\ exists re, verify_password hasher candidate h = Ok (true, re).
Proof.
  unfold matching_code. intros [Hin Hv]%first_where_some. split; [done|].
  destruct (verify_password hasher candidate h) as [[[] re]|]; [eauto|done..].
Qed.
Lemma backup_ok pool u code s s' : consumeBackupCode hasher pool (us_id u) code s = (Ok true, s') ->
  backup_accepted pool u code s' /\ s' = put_mfa (at_mfa s') s.
Proof.
  unfold consumeBackupCode. destruct (bool_decide _); [done|]. destruct (BackupCodes pool (us_id u)) as [codes|] eqn:Ec; [|done].
  destruct (matching_code hasher _ codes) as [h|] eqn:Em; [|done]. intros Hs. svc_inv Hs. subst. apply inTx_ok in E. injection E as <- <-.
  apply matching_in in Em as [Hin [re Hre]]. split; [|done]. exists codes, h, re. split_and!; [done..|]. apply codes_without.
Qed.
(** What the second factor leaves for the rest of the login. *)
Definition factors_only (s s' : Auth) : Prop := s' = put_mfa (at_mfa s') (put_guard (at_guard s') s).
Lemma second_factor_ok pool u code s s' :
  second_factor hasher box uuid_string code_digest totp_verify cfg pool u code s = (Ok tt, s') ->
  factors_only s s' /\ (totp_accepted u code s s' \/ backup_accepted pool u code s').
Proof.
  intros Hs. unfold second_factor in Hs. svc_inv Hs. apply time_code_ok in E as [Eg Ht]. subst. destruct x.
  - injection E0 as <-. split; [by rewrite Eg at 1|]. left. by apply Ht.
  - apply backup_ok in E0 as [Hb Em]. split; [rewrite Em, Eg; done|by right].
Qed.

(** ** The session *)

Definition the_session (s : Auth) (q : LoginRequest) (u : User) (id : uuid) : Session :=
  mkSession id (us_id u) (us_tenant u) (lr_device q) (lr_ip q) (lr_agent q) (at_now s) (at_now s) (at_now s + SessionTTL cfg)
    (us_mfa u) (us_epoch u).
Record issued (raw : string) (q : LoginRequest) (u : User) (s s' : Auth) (x : Session) : Prop := {
  is_session : x = the_session s q u (at_next s);
  is_stored : store_Get s' raw = Ok x;
  is_row : In (mkSessionRow (ss_id x) (sha256 raw) (us_id u) (us_tenant u) (lr_device q)
                 (if parse_ip (lr_ip q) then Some (lr_ip q) else None) (lr_agent q) (at_now s) (at_now s) (ss_expires x) None)
             (at_sessions s');
  is_cleared : forall v, In v (at_users s') -> us_id v = us_id u -> us_failed v = 0 /\ us_locked v = None;
  is_mfa : at_mfa s' = at_mfa s;
  is_used : forall i code, at_guard s' !! used_key i code = at_guard s !! used_key i code;
}.
Lemma issue_rows raw q u expires s id s1 :
  (let! _ := MarkLoginSuccess (us_id u) in
   let! id := sessions_Insert parse_ip (sha256 raw) (us_id u) (us_tenant u) (lr_device q) (lr_ip q) (lr_agent q) expires in
   let! _ := auditAuth (us_tenant u) (us_id u) "user.logged_in" in tret id)%tx s = Ok (id, s1) ->
  id = at_next s /\ at_now s1 = at_now s /\ at_kv s1 = at_kv s /\ at_mfa s1 = at_mfa s /\ at_guard s1 = at_guard s
  /\ at_users s1 = update_where (us_by (us_id u)) (logged_in (at_now s)) (at_users s)
  /\ at_sessions s1 = at_sessions s ++ [mkSessionRow id (sha256 raw) (us_id u) (us_tenant u) (lr_device q)
                 (if parse_ip (lr_ip q) then Some (lr_ip q) else None) (lr_agent q) (at_now s) (at_now s) expires None].
Proof.
  intros E. tx_steps E. subst. unfold MarkLoginSuccess, change_user in E0. tx_steps E0. injection E0 as _ <-.
  unfold sessions_Insert in E1. tx_steps E1. subst. unfold auth_fresh in E. injection E as <- <-.
  unfold auditAuth in E2. tx_steps E2. injection E2 as _ <-. done.
Qed.
Lemma store_Put_ok raw x s s' : plain_token raw = true -> store_Put uuid_string raw x s = (Ok tt, s') ->
  s' = put_kv (at_kv s') s /\ store_Get s' raw = Ok x.
Proof.
  intros Hp. unfold store_Put. destruct (Z.leb_spec (ss_expires x - at_now s) 0); [done|]. intros [= <-]. split; [done|].
  unfold store_Get, kv_live. cbn. rewrite lookup_insert_ne by (intros E; symmetry in E; revert E; by apply key_apart).
  rewrite lookup_insert_eq. by rewrite (proj2 (Z.ltb_lt _ _)) by lia.
Qed.
Lemma issue_ok o raw q u s token x s' : plain_token raw = true ->
  issue sha256 uuid_string parse_ip cfg o raw q u s = (Ok (LoginGranted token x), s') -> token = raw /\ issued raw q u s s' x.
Proof.
  intros Hp Hs. unfold issue in Hs. svc_inv Hs. apply inTx_ok, issue_rows in E as (-> & En & Ek & Em & Eg & Eu & Es).
  apply limited_reset_all in E0 as [El Ex]. fold (the_session s q u (at_next s)) in Hs.
  destruct (put_fails o); [done|]. destruct (store_Put _ raw _ _) as [[[]|] s2] eqn:Ep; [|done]. injection Hs as <- <- <-.
  apply (store_Put_ok raw _ _ _ Hp) in Ep as [E2 Hg]. split; [done|]. split; [done|done| | | |].
  - rewrite E2, El. cbn. rewrite Es. apply in_or_app. right. by left.
  - intros v Hv Ei. rewrite E2, El in Hv. cbn in Hv. rewrite Eu in Hv. apply in_update_where in Hv as (v0 & Hv0 & ->).
    destruct (us_by (us_id u) v0) eqn:Eb; [done|]. unfold us_by in Eb. by rewrite bool_decide_eq_true_2 in Eb.
  - rewrite E2, El. exact Em.
  - intros i code. rewrite E2. cbn. by rewrite Ex, Eg.
Qed.
(** An accepted factor, seen from before the limits were checked and after the session
    was issued. *)
Lemma totp_carry u code s s1 s2 s' : totp_accepted u code s1 s2 -> at_now s1 = at_now s ->
  at_guard s1 !! used_key (us_id u) code = at_guard s !! used_key (us_id u) code ->
  at_guard s' !! used_key (us_id u) code = at_guard s2 !! used_key (us_id u) code -> totp_accepted u code s s'.
Proof.
  intros (stored & secret & E1 & E2 & E3 & E4 & E5) En Eg Eg'. exists stored, secret. rewrite <- En.
  split_and!; [done..| |by rewrite Eg']. unfold live in *. by rewrite <- Eg.
Qed.
Lemma backup_carry pool u code s2 s' : backup_accepted pool u code s2 -> at_mfa s' = at_mfa s2 -> backup_accepted pool u code s'.
Proof.
  intros (codes & h & re & E1 & E2 & E3 & E4) Em. exists codes, h, re. split_and!; [done..|].
  unfold BackupCodes in *. by rewrite Em.
Qed.
Lemma job_kept (b : bool) u pw s x s' :
  (if b then smod (fun s => put_jobs (at_jobs s ++ [(us_id u, pw)]) s) else sret tt : Svc Auth auth_error unit) s = (Ok x, s') ->
  at_now s' = at_now s /\ at_next s' = at_next s /\ at_mfa s' = at_mfa s /\ at_guard s' = at_guard s.
Proof. destruct b; intros [= _ <-]; done. Qed.
Lemma factor_kept pool u code s s1 s2 x :
  (if us_mfa u then second_factor hasher box uuid_string code_digest totp_verify cfg pool u code else sret tt) s1 = (Ok x, s2) ->
  limited s s1 ->
  at_now s2 = at_now s /\ at_next s2 = at_next s
  /\ (us_mfa u = true -> forall s', at_mfa s' = at_mfa s2 ->
       (forall i c, at_guard s' !! used_key i c = at_guard s2 !! used_key i c) ->
       totp_accepted u code s s' \/ backup_accepted pool u code s').
Proof.
  intros Hf [El Eu]. destruct (us_mfa u).
  - destruct x. apply second_factor_ok in Hf as [Ef Ha]. rewrite Ef. cbn. rewrite El. cbn. split_and!; [done..|].
    intros _ s' Em Eg. destruct Ha as [Ha|Ha]; [left|right]; [|by eapply backup_carry].
    eapply totp_carry; [exact Ha|by rewrite El|apply Eu|apply Eg].
  - injection Hf as _ <-. rewrite El. done.
Qed.
End Login.

(** C29. A login is granted only for an account that is active and not locked, with the
    password its stored hash verifies and, when the account has MFA, a second factor:
    the current code of its secret, not seen in the acceptance window and marked as
    used since, or a stored backup code, removed since.  The token is the one drawn,
    its live session carries the account's epoch and ends after the configured time,
    its durable row stands, and the account's failures and lock are cleared. *)
Theorem Login_grants {H B : Type} `{PasswordHasher H} `{SecretBox B} (hasher : H) (box : B)
    (sha256 : string -> string) (uuid_string : uuid -> string) (code_digest : string -> string) (parse_ip : string -> bool)
    (totp_verify : string -> string -> Z -> bool) (cfg : ServiceConfig) pool o raw q s token x s' :
  plain_token raw = true ->
  Login hasher box sha256 uuid_string code_digest parse_ip totp_verify cfg pool o raw q s = (Ok (LoginGranted token x), s') ->
  token = raw
  /\ exists u hash re, FindForLogin pool (lr_slug q) (lr_email q) = Some u
     /\ us_status u = UsActive /\ IsLocked u (at_now s) = false
     /\ us_hash u = Some hash /\ verify_password hasher (lr_password q) hash = Ok (true, re)
     /\ (us_mfa u = true -> lr_code q <> ""%string
          /\ (totp_accepted box uuid_string code_digest totp_verify u (lr_code q) s s'
              \/ backup_accepted hasher pool u (lr_code q) s'))
     /\ x = the_session cfg s q u (at_next s) /\ store_Get s' raw = Ok x
     /\ In (mkSessionRow (ss_id x) (sha256 raw) (us_id u) (us_tenant u) (lr_device q)
              (if parse_ip (lr_ip q) then Some (lr_ip q) else None) (lr_agent q) (at_now s) (at_now s) (ss_expires x) None)
          (at_sessions s')
     /\ forall v, In v (at_users s') -> us_id v = us_id u -> us_failed v = 0 /\ us_locked v = None.
Proof.
  intros Hp Hs. unfold Login in Hs. svc_inv Hs; try done.
  apply (limited_allow_all uuid_string code_digest) in E. pose proof (proj1 E) as El.
  destruct (factor_kept _ _ _ _ _ _ _ _ _ _ _ _ _ E9 E) as (En1 & Ei1 & Hf). apply job_kept in E10 as (En2 & Ei2 & Em2 & Eg2).
  apply (issue_ok sha256 uuid_string code_digest) in Hs as [-> [I1 I2 I3 I4 I5 I6]]; [|done]. split; [done|].
  rewrite En2, En1 in I3. unfold the_session in I1. rewrite En2, En1, Ei2, Ei1 in I1.
  exists u, s0, b0. split_and!; [done|by apply bool_decide_eq_true_1 in E2| |done|done| |done|done|done|done].
  - rewrite El in E3. by apply negb_true_iff in E3.
  - intros Hm. split; [rewrite Hm in E8; by apply bool_decide_eq_false_1 in E8|]. apply Hf; [done|by rewrite I5|].
    intros i c. by rewrite I6, Eg2.
Qed.

(** C30. In every state a run of requests reaches, an account whose failures have come to
    the threshold has a lock, and until the lock ends every login that finds it is
    refused, with any password and any code: no count, no session and no entry of the
    store changes. *)
Theorem lockout {H B : Type} `{PasswordHasher H} `{SecretBox B} (hasher : H) (box : B)
    (sha256 : string -> string) (uuid_string : uuid -> string) (code_digest : string -> string) (parse_ip email_ok : string -> bool)
    (totp_verify : string -> string -> Z -> bool) (cfg : ServiceConfig) s h u :
  0 < LoginLockAfter cfg ->
  auth_run hasher box sha256 uuid_string code_digest parse_ip email_ok totp_verify cfg (s :: h) ->
  In u (at_users s) -> LoginLockAfter cfg <= us_failed u ->
  exists t, us_locked u = Some t
  /\ forall o raw q, FindForLogin s (lr_slug q) (lr_email q) = Some u -> at_now s < t ->
     exists e s', Login hasher box sha256 uuid_string code_digest parse_ip totp_verify cfg s o raw q s = (Err e, s')
       /\ at_users s' = at_users s /\ at_sessions s' = at_sessions s /\ at_kv s' = at_kv s.
Proof.
  intros Hcfg Hrun Hu Hf. pose proof (run_history _ _ _ _ _ _ _ _ cfg Hcfg _ Hrun) as Hh.
  destruct (ho_inv _ _ _ Hh s (or_introl eq_refl)) as [[_ Hrows] _]. destruct (Hrows u Hu) as [_ [_ Hl]].
  destruct (us_locked u) as [t|] eqn:Et; [|by destruct Hl]. exists t. split; [done|]. intros o raw q Hq Hnow.
  unfold Login, sbind. destruct (allow_all cfg (rate_buckets q) s) as [r s1] eqn:Ea.
  apply (limited_allow_all uuid_string code_digest) in Ea as [El _]. destruct r as [[]|e]; [|exists e, s1; by rewrite El].
  rewrite Hq. cbn [sguard]. destruct (negb (bool_decide _)); [|exists ErrUserSuspended, s1; by rewrite El].
  destruct (IsActive u); [|exists ErrInvalidCredentials, s1; by rewrite El]. cbn [sget]. exists ErrUserLocked, s1.
  assert (IsLocked u (at_now s1) = true) as ->; [|by rewrite El]. unfold IsLocked. rewrite Et, El. by apply Z.ltb_lt.
Qed.

(** ** Accounts and sessions: concrete runs

    One tenant with one user; the hasher and the cipher of the code over simple
    primitives. *)

Definition the_hasher : Argon := demo_hasher DefaultParams.
Definition the_box : Cipher := mkCipher 2 (fun nonce plain => plain) (fun nonce sealed => Some sealed).
Definition id_text (u : uuid) : string := pretty u.
(** A verifier that ignores space around the code. *)
Definition the_totp (secret code : string) (now : Z) : bool := bool_decide (trim_space code = secret).
Definition digest (s : string) : string := s.
Definition anything (s : string) : bool := true.
Definition config : ServiceConfig := SafeDefaults (mkServiceConfig 0 0 0 0 0 0 "").
Definition hashed (p : Params) (pw : string) : string :=
  match Hash (demo_hasher p) "salt" pw with Ok e => e | Err _ => "" end.

Definition person (hash : string) (secret : option string) (mfa : bool) (failed : Z) (locked : option Z) : User :=
  mkUser 5 1 "amina@acme.test" "Amina" UsActive (Some hash) None secret mfa None failed locked 0 0.
Definition world (u : User) (codes : list string) : Auth :=
  mkAuth [mkTenantRow 1 "acme" false] [u] [] [mkMfaRow 5 1 codes None None] (mkPolicyDb [] [] [] [] []) [] ∅ ∅ ∅ [] [] 100 0.
Definition plain_world : Auth := world (person (hashed DefaultParams "correct horse") None false 0 None) [].

Definition serve : Auth -> auth_request -> Svc Auth http_error unit :=
  auth_serve the_hasher the_box digest id_text digest anything anything the_totp config.
Definition after (pool : Auth) (r : auth_request) (s : Auth) : Auth := (serve pool r s).2.
Definition calm_day : Outage := mkOutage false (fun _ => false).
Definition redis_down : Outage := mkOutage false (fun _ => true).
Definition sign_in (raw pw code : string) : auth_request :=
  AqLogin calm_day raw "10.0.0.1" "agent" (Ok (mkLogin "acme" "amina@acme.test" pw code)).
Definition amina : option Actor := Some (mkActor 5 1 100 false).
Definition change (old new : string) : auth_request := AqChange redis_down "salt" amina (Ok (old, new)).

Lemma served pool r s x : (serve pool r s).1 = x -> serve pool r s = (x, after pool r s).
Proof. intros <-. apply surjective_pairing. Qed.

(** ** A password change while Redis is down *)

Definition day1 : Auth := after plain_world (sign_in "tok1" "correct horse" "") plain_world.
Definition day2 : Auth := after day1 (change "correct horse" "battery staple") day1.
Definition day3 : Auth := after day2 (sign_in "tok2" "battery staple" "") day2.

Lemma accounts_start u codes : us_id u = 5%N -> lock_ok config u -> auth_start config (world u codes).
Proof.
  intros Hi Hl. split; [|done]. split; [apply NoDup_singleton|]. intros v [<-|[]]. split; [rewrite Hi; done|done].
Qed.
Lemma days_run : auth_run the_hasher the_box digest id_text digest anything anything the_totp config [day3; day2; day1; plain_world].
Proof.
  eapply ar_step with (r := sign_in "tok2" "battery staple" "") (pool := day2); [|by left|apply (served _ _ _ _ eq_refl)].
  eapply ar_step with (r := change "correct horse" "battery staple") (pool := day1); [|by left|apply (served _ _ _ _ eq_refl)].
  eapply ar_step with (r := sign_in "tok1" "correct horse" "") (pool := plain_world); [|by left|apply (served _ _ _ _ eq_refl)].
  apply ar_start, accounts_start; [done|]. split; [simpl; lia|]. vm_compute. congruence.
Qed.
(** The old session is still in Redis, and no longer resolves. *)
Example stale_session_refused :
  (exists x, store_Get day2 "tok1" = Ok x) /\ (Resolve id_text "tok1" day2).1 = Err ErrSessionRevoked.
Proof. split; [eexists|]; vm_compute; reflexivity. Qed.

Definition first_session : Session := the_session config plain_world (mkLoginRequest "acme" "amina@acme.test" "correct horse" "" "10.0.0.1" "agent" None)
  (person "" None false 0 None) 100.
Lemma revocation_final_witness :
  exists x, Resolve id_text "tok2" day3 = (Ok x, day3) /\ ss_id first_session <> ss_id x.
Proof.
  destruct (Resolve id_text "tok2" day3) as [[x|e] t'] eqn:E; [|exfalso; vm_compute in E; discriminate E].
  pose proof (Resolve_ok _ _ _ _ _ E) as (-> & _). exists x. split; [done|].
  destruct (revocation_final the_hasher the_box digest id_text digest anything anything the_totp config [plain_world] day1 day1
    (change "correct horse" "battery staple") 5%N day2 [day3] day3 "tok2" x day3) as [Hy _].
  - vm_compute. reflexivity.
  - by left.
  - reflexivity.
  - apply served. vm_compute. reflexivity.
  - exact days_run.
  - by left.
  - exact E.
  - vm_compute in E. injection E as <-. reflexivity.
  - apply (Hy day1); [by left|]. exists (tokenKey "tok1"). eexists. vm_compute. reflexivity.
Defined.

(** ** Logins with a second factor *)

Definition mfa_world : Auth :=
  world (person (hashed DefaultParams "correct horse") (Some (Encrypt the_box "nn" "123456")) true 3 None)
    [hashed DefaultParams "ABCDEFGHJK"].
Definition request (pw code : string) : LoginRequest := mkLoginRequest "acme" "amina@acme.test" pw code "10.0.0.1" "agent" None.
Definition try_login (pool : Auth) (raw code : string) (s : Auth) : result auth_error LoginResult * Auth :=
  Login the_hasher the_box digest id_text digest anything the_totp config pool calm_day raw (request "correct horse" code) s.
Definition grants (r : result auth_error LoginResult * Auth) : bool :=
  match r.1 with Ok (LoginGranted _ _) => true | _ => false end.

(** A backup code, in the form it is shown. *)
Lemma Login_grants_witness :
  exists x s', try_login mfa_world "tok1" "abcde-fghjk" mfa_world = (Ok (LoginGranted "tok1" x), s')
  /\ store_Get s' "tok1" = Ok x /\ RemainingCount s' 5 = 0%nat
  /\ forall v, In v (at_users s') -> us_id v = 5%N -> us_failed v = 0 /\ us_locked v = None.
Proof.
  destruct (try_login mfa_world "tok1" "abcde-fghjk" mfa_world) as [[[|token x]|e] s'] eqn:E;
    [exfalso; vm_compute in E; discriminate E| |exfalso; vm_compute in E; discriminate E].
  destruct (Login_grants the_hasher the_box digest id_text digest anything the_totp config mfa_world calm_day "tok1"
    (request "correct horse" "abcde-fghjk") mfa_world token x s') as (-> & u & hash & re & Hu & _ & _ & _ & _ & _ & _ & Hg & _ & Hc);
    [vm_compute; reflexivity|exact E|].
  exists x, s'. split; [done|]. split; [done|]. split; [|].
  - transitivity (RemainingCount (try_login mfa_world "tok1" "abcde-fghjk" mfa_world).2 5); [by rewrite E|vm_compute; reflexivity].
  - assert (us_id u = 5%N) as <-; [|exact Hc]. vm_compute in Hu. by injection Hu as <-.
Defined.

(** A mark is kept for the text of the code as sent: the same code with a space after it
    is accepted again in its window, where the verifier ignores the space. *)
Example code_accepted_twice :
  let s1 := (try_login mfa_world "tok1" "123456" mfa_world).2 in
  (try_login s1 "tok2" "123456" s1).1 = Err ErrTotpReplay /\ grants (try_login s1 "tok2" "123456 " s1) = true.
Proof. split; vm_compute; reflexivity. Qed.
(** Two logins that read the codes before either removed it are both granted. *)
Example backup_code_twice :
  let first := try_login mfa_world "tok1" "ABCDE-FGHJK" mfa_world in
  grants first = true /\ grants (try_login mfa_world "tok2" "ABCDE-FGHJK" first.2) = true.
Proof. split; vm_compute; reflexivity. Qed.

(** ** A locked account *)

Definition locked_world : Auth := world (person (hashed DefaultParams "correct horse") None false 10 (Some 500)) [].
Lemma lockout_witness :
  exists e s', try_login locked_world "tok1" "" locked_world = (Err e, s') /\ at_users s' = at_users locked_world.
Proof.
  destruct (lockout the_hasher the_box digest id_text digest anything anything the_totp config locked_world []
    (person (hashed DefaultParams "correct horse") None false 10 (Some 500))) as (t & Et & Hl).
  - vm_compute. reflexivity.
  - apply ar_start, accounts_start; [done|]. split; [simpl; lia|done].
  - by left.
  - vm_compute. congruence.
  - injection Et as <-.
    destruct (Hl calm_day "tok1" (request "correct horse" "")) as (e & s' & E & Eu & _); [vm_compute; reflexivity|vm_compute; reflexivity|].
    exists e, s'. by split.
Defined.

(** ** Races and omissions *)

(** A suspended user's session still resolves. *)
Example suspended_still_resolves :
  let s := after day1 (AqStatus (Some (mkActor 7 1 200 false)) (Ok 5%N) (Ok "suspended"%string)) day1 in
  map us_status (at_users s) = [UsSuspended] /\ exists x, (Resolve id_text "tok1" s).1 = Ok x.
Proof. split; [|eexists]; vm_compute; reflexivity. Qed.

(** A refresh that read the session before a logout writes it back. *)
Example refresh_undoes_logout :
  let out := after day1 (AqLogout "Bearer tok1") day1 in
  (Resolve id_text "tok1" out).1 = Err ErrSessionNotFound
  /\ exists x, (Resolve id_text "tok1" (after day1 (AqRefresh "Bearer tok1") out)).1 = Ok x.
Proof. split; [|eexists]; vm_compute; reflexivity. Qed.

(** A reset token read by two requests before either deletes it replaces the password
    twice. *)
Example reset_token_twice :
  let s := after plain_world (AqProvision "reset" 5) plain_world in
  let first := serve s (AqResetConfirm calm_day "salt" (Ok ("reset"%string, "battery staple"%string))) s in
  let again := serve s (AqResetConfirm calm_day "salt" (Ok ("reset"%string, "intruder's own"%string))) first.2 in
  first.1 = Ok tt /\ again.1 = Ok tt.
Proof. split; vm_compute; reflexivity. Qed.

(** The detached rehash of a login sets the old password again after a change. *)
Definition weak_world : Auth := world (person (hashed weaker "correct horse") None false 0 None) [].
Example rehash_restores_password :
  let s1 := after weak_world (sign_in "tok1" "correct horse" "") weak_world in
  let s2 := after s1 (change "correct horse" "battery staple") s1 in
  let s3 := after s2 (AqJob 0 "salt") s2 in
  (serve s2 (sign_in "tok2" "correct horse" "") s2).1 = Err (HttpError 401 "invalid credentials")
  /\ (serve s3 (sign_in "tok2" "correct horse" "") s3).1 = Ok tt.
Proof. split; vm_compute; reflexivity. Qed.

(** ** The session store *)

Definition op_sequence : list (N * store_op) :=
  [(0, OpPut "tok1" first_session); (5, OpGet "tok1"); (1, OpTouch "tok1" 60); (10, OpDeleteByID 100); (0, OpGet "tok1")]%N.
Lemma store_refines_witness :
  (store_runs id_text op_sequence plain_world).1 = [Ok None; Ok (Some first_session); Ok None; Ok None; Err ErrSessionNotFound].
Proof.
  destruct (store_refines id_text op_sequence ∅ plain_world) as [-> _].
  - exact (stores_empty id_text).
  - split; [split; [reflexivity|by intros raw' y e]|]. repeat (split; [first [reflexivity|exact I]|]). exact I.
  - vm_compute. reflexivity.
Defined.
