(* ===== verification/Events.v ===== *)
(** * Domain events (package [events]): the outbox, the bus and the publisher

    A business transaction writes its events into the outbox; publishers, any number
    of them, take batches of pending rows under row locks, run the subscribed
    handlers and record what happened.  A crash of a publisher, or a statement of
    its transaction that fails, leaves the rows as they were; what the handlers did
    stays. *)

From stdpp Require Import base list strings gmap.
From Stdlib Require Import ZArith Lia.
From S2P Require Import Prelude.

Local Open Scope Z_scope.
Local Open Scope tx_scope.

(** ** Envelopes (event.go) *)

(** What the subscribers read out of the JSON payload: each field as [json.Unmarshal]
    leaves it when the key is absent. *)
Record Payload := mkPayload {
  pl_recorded_by : option uuid;
  pl_submitted_reading : string; pl_final_reading : string; pl_verdict_reason : option string;
  pl_attendant : option uuid;
  pl_submitted_by : option uuid; pl_expected : string; pl_received : string; pl_difference : string; pl_status : string;
  pl_reason : option string;
  pl_checked_in : list uuid;
  pl_expected_cash : string; pl_variance : string }.
Definition null_payload : Payload := mkPayload None "" "" None None None "" "" "" "" None [] "" "".

Record Event := mkEvent {
  ev_id : uuid; ev_tenant : option uuid; ev_type : string; ev_version : Z; ev_aggregate : string; ev_aggregate_id : string;
  ev_actor : option uuid; ev_payload : Payload; ev_metadata : option string; ev_occurred : option Z;
  ev_correlation : string; ev_causation : string }.
Record OutboxRow := mkOutboxRow { ox_event : Event; ox_attempts : Z; ox_published : option Z; ox_failed : option Z }.
Definition ox_id (r : OutboxRow) : uuid := ev_id (ox_event r).

(** ** The outbox (outbox.go) *)

Inductive outbox_error := OxRequiresType | OxRequiresAggregate | OxRequiresAggregateID | OxForeignKey | OxDuplicate.

Definition with_defaults (fresh : uuid) (now : Z) (e : Event) : Event :=
  mkEvent (if bool_decide (ev_id e = uuid_nil) then fresh else ev_id e) (ev_tenant e) (ev_type e)
    (if ev_version e =? 0 then 1 else ev_version e) (ev_aggregate e) (ev_aggregate_id e) (ev_actor e) (ev_payload e)
    (ev_metadata e) (opt_or (ev_occurred e) (Some now)) (ev_correlation e) (ev_causation e).
(** [known] is that the tenant and the actor of the event exist. *)
Definition WriteOutbox (known : Event -> bool) (fresh : uuid) (now : Z) (e : Event) : Tx (list OutboxRow) outbox_error unit :=
  tguard (negb (bool_decide (ev_type e = "")%string)) OxRequiresType ;;!
  tguard (negb (bool_decide (ev_aggregate e = "")%string)) OxRequiresAggregate ;;!
  tguard (negb (bool_decide (ev_aggregate_id e = "")%string)) OxRequiresAggregateID ;;!
  let e := with_defaults fresh now e in
  let! rows := tget in
  tguard (known e) OxForeignKey ;;!
  tguard (negb (exists_where (fun r => bool_decide (ox_id r = ev_id e)) rows)) OxDuplicate ;;!
  tput (rows ++ [mkOutboxRow e 0 None None]).

(** ** The bus (bus.go) *)

Section Bus.
Context {W : Type}.

(** What a handler does to the world, and the error it returns. *)
Definition Handler : Type := Event -> W -> option string * W.
(** The handlers of each type, in the order they subscribed. *)
Definition InProcessBus : Type := gmap string (list Handler).
Definition NewInProcessBus : InProcessBus := ∅.
Definition handlers_of (b : InProcessBus) (t : string) : list Handler := default [] (b !! t).
Definition Subscribe (t : string) (h : Handler) (b : InProcessBus) : InProcessBus := <[t := handlers_of b t ++ [h]]> b.

(** Every handler runs, whatever the others returned. *)
Fixpoint run_handlers (hs : list Handler) (e : Event) (w : W) : list string * W :=
  match hs with
  | [] => ([], w)
  | h :: rest =>
      let '(err, w1) := h e w in
      let '(errs, w2) := run_handlers rest e w1 in
      (match err with Some m => m :: errs | None => errs end, w2)
  end.
Definition matching (b : InProcessBus) (e : Event) : list Handler := handlers_of b (ev_type e) ++ handlers_of b "*".
(** [true] when no handler failed. *)
Definition Publish (b : InProcessBus) (e : Event) (w : W) : bool * W :=
  let '(errs, w') := run_handlers (matching b e) e w in
  (match errs with [] => true | _ => false end, w').

(** ** The publisher (publisher.go) *)

Definition MaxOutboxAttempts : Z := 10.
Record outboxFailure := mkFailure { of_id : uuid; of_attempts : Z; of_dead : bool }.
Definition classifyFailure (id : uuid) (priorAttempts : Z) : outboxFailure :=
  let next := priorAttempts + 1 in mkFailure id next (MaxOutboxAttempts <=? next).

Record PublisherConfig := mkPublisherConfig { PollInterval : Z; BatchSize : Z }.
Definition publisher_SafeDefaults (c : PublisherConfig) : PublisherConfig :=
  mkPublisherConfig (if PollInterval c <=? 0 then 2000000000 else PollInterval c) (if BatchSize c <=? 0 then 100 else BatchSize c).

Definition pending (r : OutboxRow) : bool := bool_decide (ox_published r = None /\ ox_failed r = None).
Definition earlier (a b : OutboxRow) : bool := default 0 (ev_occurred (ox_event a)) <=? default 0 (ev_occurred (ox_event b)).
(** [ORDER BY occurred_at LIMIT n FOR UPDATE SKIP LOCKED] *)
Definition poll (size : nat) (locked : list uuid) (rows : list OutboxRow) : list OutboxRow :=
  limit_offset size 0 (order_by earlier (select (fun r => pending r && negb (bool_decide (ox_id r ∈ locked))) rows)).

(** The progress of a publisher through its batch. *)
Record Batch := mkBatch { ba_todo : list OutboxRow; ba_sent : list uuid; ba_bad : list outboxFailure }.
Definition dispatch (b : InProcessBus) (x : OutboxRow) (rest : list OutboxRow) (p : Batch) (w : W) : Batch * W :=
  let '(ok, w') := Publish b (ox_event x) w in
  (if ok then mkBatch rest (ba_sent p ++ [ox_id x]) (ba_bad p)
   else mkBatch rest (ba_sent p) (ba_bad p ++ [classifyFailure (ox_id x) (ox_attempts x)]), w').
Fixpoint dispatch_all (b : InProcessBus) (l : list OutboxRow) (p : Batch) (w : W) : Batch * W :=
  match l with
  | [] => (p, w)
  | x :: rest => let '(p', w') := dispatch b x rest p w in dispatch_all b rest p' w'
  end.

Definition set_published (now : Z) (r : OutboxRow) : OutboxRow := mkOutboxRow (ox_event r) (ox_attempts r) (Some now) (ox_failed r).
Definition set_failure (now : Z) (f : outboxFailure) (r : OutboxRow) : OutboxRow :=
  mkOutboxRow (ox_event r) (of_attempts f) (ox_published r) (if of_dead f then Some now else None).
Definition mark_published (sent : list uuid) (now : Z) (rows : list OutboxRow) : list OutboxRow :=
  update_where (fun r => bool_decide (ox_id r ∈ sent)) (set_published now) rows.
Fixpoint record_failures (l : list outboxFailure) (now : Z) (rows : list OutboxRow) : list OutboxRow :=
  match l with
  | [] => rows
  | f :: rest => record_failures rest now (update_where (fun r => bool_decide (ox_id r = of_id f)) (set_failure now f) rows)
  end.
Definition settle (p : Batch) (now : Z) (rows : list OutboxRow) : list OutboxRow :=
  record_failures (ba_bad p) now (mark_published (ba_sent p) now rows).

(** One tick, when nothing fails: the batch, the handlers, the record. *)
Definition processOnce (b : InProcessBus) (size : nat) (locked : list uuid) (now : Z) (rows : list OutboxRow) (w : W)
  : list OutboxRow * W :=
  match poll size locked rows with
  | [] => (rows, w)
  | batch => let '(p, w') := dispatch_all b batch (mkBatch batch [] []) w in (settle p now rows, w')
  end.
End Bus.
Arguments Handler : clear implicits.
Arguments InProcessBus : clear implicits.

(** ** The sweep of dead letters (scheduler/jobs_system.go) *)

Definition requeue (r : OutboxRow) : OutboxRow := mkOutboxRow (ox_event r) 0 (ox_published r) None.
Definition parked (cutoff : Z) (r : OutboxRow) : bool :=
  bool_decide (ox_published r = None) && match ox_failed r with Some t => t <=? cutoff | None => false end.
(** A row of the log of job runs: when it finished, if it has. *)
Definition outboxSweepJob (requeueAfter jobRunRetention now : Z) (rows : list OutboxRow) (runs : list (option Z))
  : list OutboxRow * list (option Z) :=
  (if 0 <? requeueAfter then update_where (parked (now - requeueAfter)) requeue rows else rows,
   if 0 <? jobRunRetention
   then select (fun f => match f with Some t => negb (t <=? now - jobRunRetention) | None => true end) runs
   else runs).
