(* ===== verification/EventsProps.v ===== *)
(** * Publishers at work: the outbox under any interleaving

    Publishers, writers and the sweep as a transition system, with a record of every
    delivery attempt. *)

From stdpp Require Import base list strings gmap.
From Stdlib Require Import ZArith Lia.
From S2P Require Import Prelude Events.

Local Open Scope Z_scope.

(** ** The system *)

Section System.
Context {W : Type} (bus : InProcessBus W) (size : nat) (known : Event -> bool).
(** What else may happen to the world the handlers work on. *)
Context (evolves : W -> W -> Prop).

(** [sy_busy] holds the batch each publisher has under lock; [sy_log] every run of the
    handlers, with its outcome. *)
Record Sys := mkSys {
  sy_rows : list OutboxRow; sy_busy : gmap nat Batch; sy_world : W; sy_log : list (uuid * bool); sy_now : Z }.

Definition held (p : Batch) : list uuid := map ox_id (ba_todo p) ++ ba_sent p ++ map of_id (ba_bad p).
Definition locked (m : gmap nat Batch) : list uuid := concat (map (fun kv => held kv.2) (map_to_list m)).

Inductive step (s : Sys) : Sys -> Prop :=
| step_write fresh e rows : WriteOutbox known fresh (sy_now s) e (sy_rows s) = Ok (tt, rows) ->
    step s (mkSys rows (sy_busy s) (sy_world s) (sy_log s) (sy_now s))
| step_poll p : sy_busy s !! p = None ->
    step s (mkSys (sy_rows s) (<[p := mkBatch (poll size (locked (sy_busy s)) (sy_rows s)) [] []]> (sy_busy s))
              (sy_world s) (sy_log s) (sy_now s))
| step_send p b x rest b' w' ok : sy_busy s !! p = Some b -> ba_todo b = x :: rest ->
    dispatch bus x rest b (sy_world s) = (b', w') -> ok = (Publish bus (ox_event x) (sy_world s)).1 ->
    step s (mkSys (sy_rows s) (<[p := b']> (sy_busy s)) w' (sy_log s ++ [(ox_id x, ok)]) (sy_now s))
| step_commit p b : sy_busy s !! p = Some b -> ba_todo b = [] ->
    step s (mkSys (settle b (sy_now s) (sy_rows s)) (delete p (sy_busy s)) (sy_world s) (sy_log s) (sy_now s))
| step_crash p : step s (mkSys (sy_rows s) (delete p (sy_busy s)) (sy_world s) (sy_log s) (sy_now s))
| step_sweep after : 0 < after ->
    step s (mkSys (outboxSweepJob after 0 (sy_now s) (sy_rows s) []).1 (sy_busy s) (sy_world s) (sy_log s) (sy_now s))
| step_world w : evolves (sy_world s) w -> step s (mkSys (sy_rows s) (sy_busy s) w (sy_log s) (sy_now s))
| step_time d : step s (mkSys (sy_rows s) (sy_busy s) (sy_world s) (sy_log s) (sy_now s + Z.of_N d)).

Definition started (s : Sys) : Prop := sy_rows s = [] /\ sy_busy s = ∅ /\ sy_log s = [].
Definition reachable (s : Sys) : Prop := exists s0, started s0 /\ rtc step s0 s.

(** ** The invariant *)

Definition failures_of (i : uuid) (l : list (uuid * bool)) : Z := Z.of_nat (length (select (fun d => bool_decide (d = (i, false))) l)).
(** Published after a run of every handler without error; parked after the last of the
    attempts; pending with attempts to spare. *)
Definition row_ok (l : list (uuid * bool)) (r : OutboxRow) : Prop :=
  0 <= ox_attempts r <= failures_of (ox_id r) l
  /\ match ox_published r, ox_failed r with
     | Some _, None => In (ox_id r, true) l
     | None, Some _ => MaxOutboxAttempts <= ox_attempts r
     | None, None => ox_attempts r < MaxOutboxAttempts
     | Some _, Some _ => False
     end.
(** A held row is pending, and what is noted about it is what happened. *)
Definition noted (l : list (uuid * bool)) (rows : list OutboxRow) (f : outboxFailure) : Prop :=
  of_attempts f <= failures_of (of_id f) l
  /\ exists r, In r rows /\ pending r = true /\ f = classifyFailure (ox_id r) (ox_attempts r).
Record batch_ok (l : list (uuid * bool)) (rows : list OutboxRow) (b : Batch) : Prop := {
  bo_todo : forall x, In x (ba_todo b) -> In x rows /\ pending x = true;
  bo_sent : forall i, In i (ba_sent b) -> In (i, true) l /\ exists r, In r rows /\ pending r = true /\ ox_id r = i;
  bo_bad : forall f, In f (ba_bad b) -> noted l rows f;
  bo_nodup : NoDup (held b);
}.
Record sys_ok (s : Sys) : Prop := {
  so_ids : NoDup (map ox_id (sy_rows s));
  so_rows : forall r, In r (sy_rows s) -> row_ok (sy_log s) r;
  so_batches : forall p b, sy_busy s !! p = Some b -> batch_ok (sy_log s) (sy_rows s) b;
  so_apart : forall p q b c i, sy_busy s !! p = Some b -> sy_busy s !! q = Some c -> In i (held b) -> In i (held c) -> p = q;
}.

(** *** More deliveries *)

Lemma failures_snoc i l d : failures_of i (l ++ [d]) = failures_of i l + (if bool_decide (d = (i, false)) then 1 else 0).
Proof. unfold failures_of. rewrite select_app, length_app. simpl. case_bool_decide; simpl; lia. Qed.
Lemma failures_more i l d : failures_of i l <= failures_of i (l ++ [d]).
Proof. rewrite failures_snoc. case_bool_decide; lia. Qed.
Lemma row_ok_more l d r : row_ok l r -> row_ok (l ++ [d]) r.
Proof.
  intros [Ha Hr]. pose proof (failures_more (ox_id r) l d). split; [lia|].
  destruct (ox_published r), (ox_failed r); try done. apply in_or_app. by left.
Qed.
Lemma batch_ok_more l d rows b : batch_ok l rows b -> batch_ok (l ++ [d]) rows b.
Proof.
  intros [H1 H2 H3 H4]. split; [done| | |done].
  - intros i Hi. destruct (H2 i Hi). split; [apply in_or_app; by left|done].
  - intros f Hf. destruct (H3 f Hf) as [Ha Hr]. split; [|done]. pose proof (failures_more (of_id f) l d). lia.
Qed.

(** *** Rows that change *)

(** A change of the rows under which a batch stands. *)
Lemma batch_ok_rows l rows rows' b :
  (forall r, In r rows -> pending r = true -> In (ox_id r) (held b) -> In r rows') -> batch_ok l rows b -> batch_ok l rows' b.
Proof.
  intros Hk [H1 H2 H3 H4]. split; [| | |done].
  - intros x Hx. destruct (H1 x Hx) as [Hin Hp]. split; [|done]. apply Hk; [done|done|].
    apply in_or_app. left. by apply in_map.
  - intros i Hi. destruct (H2 i Hi) as (Hl & r & Hr & Hp & Ei). split; [done|]. exists r. split; [|done].
    apply Hk; [done|done|]. rewrite Ei. apply in_or_app. right. apply in_or_app. by left.
  - intros f Hf. destruct (H3 f Hf) as (Ha & r & Hr & Hp & Ef). split; [done|]. exists r. split; [|done].
    apply Hk; [done|done|]. apply in_or_app. right. apply in_or_app. right. rewrite Ef in Hf.
    by apply (in_map of_id) in Hf.
Qed.

(** *** Recording a batch, row by row *)

Definition settled (b : Batch) (now : Z) (r : OutboxRow) : OutboxRow :=
  List.fold_left (fun x f => if bool_decide (ox_id x = of_id f) then set_failure now f x else x) (ba_bad b)
    (if bool_decide (ox_id r ∈ ba_sent b) then set_published now r else r).
Lemma settle_map b now rows : settle b now rows = map (settled b now) rows.
Proof.
  unfold settle, settled, mark_published, update_where.
  assert (Hg : forall l t, record_failures l now t
    = map (fun r => List.fold_left (fun x f => if bool_decide (ox_id x = of_id f) then set_failure now f x else x) l r) t).
  { induction l as [|f l IH]; intros t; simpl; [by rewrite map_id|]. rewrite IH. unfold update_where. by rewrite map_map. }
  rewrite Hg, map_map. reflexivity.
Qed.

Abbreviation note now := (fun x f => if bool_decide (ox_id x = of_id f) then set_failure now f x else x).
Lemma notes_event now l r : ox_event (List.fold_left (note now) l r) = ox_event r.
Proof. revert r. induction l as [|f l IH]; intros r; simpl; [done|]. rewrite IH. by case_bool_decide. Qed.
Lemma notes_none now l r : ~ In (ox_id r) (map of_id l) -> List.fold_left (note now) l r = r.
Proof.
  induction l as [|f l IH]; intros Hn; simpl; [done|]. rewrite bool_decide_eq_false_2 by (intros E; apply Hn; by left).
  apply IH. intros Hin. apply Hn. by right.
Qed.
Lemma notes_one now l r f : NoDup (map of_id l) -> In f l -> of_id f = ox_id r -> List.fold_left (note now) l r = set_failure now f r.
Proof.
  intros Hd Hin Ef. induction l as [|g l IH]; [done|]. simpl in Hd. apply NoDup_cons in Hd as [Hg Hd]. simpl. destruct Hin as [->|Hin].
  - rewrite bool_decide_eq_true_2 by done. apply notes_none. intros Hi. apply Hg, list_elem_of_In.
    change (ox_id (set_failure now f r)) with (ox_id r) in Hi. by rewrite Ef.
  - rewrite bool_decide_eq_false_2; [by apply IH|]. intros E. apply Hg. rewrite <- E, <- Ef. by apply list_elem_of_In, in_map.
Qed.
Lemma settled_event b now r : ox_event (settled b now r) = ox_event r.
Proof. unfold settled. rewrite notes_event. by case_bool_decide. Qed.
Lemma settled_id b now r : ox_id (settled b now r) = ox_id r.
Proof. unfold ox_id. by rewrite settled_event. Qed.

Lemma held_parts b : NoDup (held b) ->
  NoDup (map of_id (ba_bad b)) /\ forall i, In i (ba_sent b) -> ~ In i (map of_id (ba_bad b)).
Proof.
  unfold held. intros (_ & _ & Hd)%NoDup_app. apply NoDup_app in Hd as (_ & Hd & Hb). split; [done|].
  intros i Hi Hj. apply (Hd i); by apply list_elem_of_In.
Qed.
Lemma settled_other b now r : ba_todo b = [] -> ~ In (ox_id r) (held b) -> settled b now r = r.
Proof.
  intros Et Hn. unfold held in Hn. rewrite Et in Hn. simpl in Hn. unfold settled.
  rewrite bool_decide_eq_false_2 by (intros Hi%list_elem_of_In; apply Hn, in_or_app; by left).
  apply notes_none. intros Hi. apply Hn, in_or_app. by right.
Qed.
Lemma settled_sent b now r : NoDup (held b) -> In (ox_id r) (ba_sent b) -> settled b now r = set_published now r.
Proof.
  intros [_ Hs]%held_parts Hi. unfold settled. rewrite bool_decide_eq_true_2 by (by apply list_elem_of_In).
  apply notes_none. by apply Hs.
Qed.
Lemma settled_bad b now r f : NoDup (held b) -> In f (ba_bad b) -> of_id f = ox_id r -> settled b now r = set_failure now f r.
Proof.
  intros [Hd Hs]%held_parts Hf Ef. unfold settled. rewrite bool_decide_eq_false_2; [by apply notes_one|].
  intros Hi%list_elem_of_In. apply (Hs _ Hi). rewrite <- Ef. by apply in_map.
Qed.

(** ** Every step keeps the invariant *)

Lemma pending_not r : pending r = true <-> ox_published r = None /\ ox_failed r = None.
Proof. unfold pending. by rewrite bool_decide_eq_true. Qed.
Lemma same_row (rows : list OutboxRow) x y : NoDup (map ox_id rows) -> In x rows -> In y rows -> ox_id x = ox_id y -> x = y.
Proof.
  intros Hd Hx Hy E. apply list_elem_of_In, list_elem_of_lookup in Hx as [i Hi].
  apply list_elem_of_In, list_elem_of_lookup in Hy as [j Hj].
  assert (i = j) as ->; [|congruence]. eapply (NoDup_lookup (map ox_id rows)); [done| |].
  - rewrite list_lookup_fmap, Hi. done.
  - rewrite list_lookup_fmap, Hj. simpl. by rewrite E.
Qed.

Lemma ok_write s fresh e rows : WriteOutbox known fresh (sy_now s) e (sy_rows s) = Ok (tt, rows) -> sys_ok s ->
  sys_ok (mkSys rows (sy_busy s) (sy_world s) (sy_log s) (sy_now s)).
Proof.
  intros Hw [H1 H2 H3 H4]. unfold WriteOutbox in Hw. tx_steps Hw. injection Hw as <-. split; simpl.
  - rewrite map_app. apply NoDup_app. split; [done|]. split; [|apply NoDup_singleton].
    intros i Hi Hn. simpl in Hn. apply list_elem_of_singleton in Hn as ->. apply list_elem_of_In, in_map_iff in Hi as (r & Er & Hr).
    match goal with H : negb (exists_where _ _) = true |- _ =>
      apply negb_true_iff in H; pose proof (proj1 (exists_where_false _ _) H r Hr) as Hb end.
    by apply bool_decide_eq_false_1 in Hb.
  - intros r [Hr|[<-|[]]]%in_app_or; [by apply H2|]. split; simpl; [|done]. unfold failures_of. simpl. lia.
  - intros p b Hb. eapply batch_ok_rows; [|by apply (H3 p)]. intros r Hr _ _. apply in_or_app. by left.
  - done.
Qed.

Lemma in_poll l rows x : In x (poll size l rows) -> In x rows /\ pending x = true /\ ~ In (ox_id x) l.
Proof.
  unfold poll, limit_offset. rewrite drop_0. intros Hx%list_elem_of_In. apply elem_of_take in Hx as (i & Hx & _).
  apply list_elem_of_lookup_2 in Hx. rewrite order_by_perm in Hx. apply list_elem_of_In, in_select in Hx as [Hx Hb].
  apply andb_true_iff in Hb as [Hp Hl]. split; [done|]. split; [done|]. apply negb_true_iff, bool_decide_eq_false_1 in Hl.
  by rewrite <- list_elem_of_In.
Qed.
Lemma poll_nodup l rows : NoDup (map ox_id rows) -> NoDup (map ox_id (poll size l rows)).
Proof.
  intros Hd. unfold poll, limit_offset. rewrite drop_0.
  set (o := order_by _ _). eapply (sublist_NoDup _ (ox_id <$> o)); [|apply fmap_sublist, sublist_take].
  unfold o. rewrite order_by_perm. by apply NoDup_select.
Qed.
Lemma in_locked m p b i : m !! p = Some b -> In i (held b) -> In i (locked m).
Proof.
  intros Hb Hi. unfold locked. apply in_concat. exists (held b). split; [|done].
  apply (in_map (fun kv : nat * Batch => held kv.2) _ (p, b)), list_elem_of_In. by apply elem_of_map_to_list.
Qed.

Lemma ok_poll s p : sys_ok s ->
  sys_ok (mkSys (sy_rows s) (<[p := mkBatch (poll size (locked (sy_busy s)) (sy_rows s)) [] []]> (sy_busy s))
            (sy_world s) (sy_log s) (sy_now s)).
Proof.
  intros [H1 H2 H3 H4]. set (b0 := mkBatch _ [] []).
  assert (Hnew : forall i, In i (held b0) -> ~ In i (locked (sy_busy s))).
  { intros i Hi. unfold held in Hi. simpl in Hi. rewrite app_nil_r in Hi. apply in_map_iff in Hi as (x & <- & Hx).
    apply in_poll in Hx as (_ & _ & Hx). done. }
  split; simpl; [done|done| |].
  - intros q b [[_ <-]|[_ Hb]]%lookup_insert_Some; [|by apply (H3 q)]. split; [|done|done|].
    + intros x Hx. apply in_poll in Hx as (? & ? & _). done.
    + unfold held. simpl. rewrite app_nil_r. by apply poll_nodup.
  - intros q q' b c i Hb Hc Hi Hj.
    apply lookup_insert_Some in Hb as [[<- <-]|[_ Hb]]; apply lookup_insert_Some in Hc as [[<- <-]|[_ Hc]]; [done| | |by eapply H4].
    + by destruct (Hnew i Hi (in_locked _ _ _ _ Hc Hj)).
    + by destruct (Hnew i Hj (in_locked _ _ _ _ Hb Hi)).
Qed.

(** A delivery moves a row within its batch. *)
Lemma dispatch_held x rest b w b' w' : ba_todo b = x :: rest -> dispatch bus x rest b w = (b', w') -> held b' ≡ₚ held b.
Proof.
  intros Et Hd. unfold dispatch in Hd. destruct (Publish bus (ox_event x) w) as [ok w1]. injection Hd as <- _.
  unfold held. rewrite Et. destruct ok; simpl; [solve_Permutation|]. rewrite map_app. simpl. solve_Permutation.
Qed.
Lemma ok_dispatch l rows x rest b w b' w' : batch_ok l rows b -> (forall r, In r rows -> row_ok l r) -> ba_todo b = x :: rest ->
  dispatch bus x rest b w = (b', w') -> batch_ok (l ++ [(ox_id x, (Publish bus (ox_event x) w).1)]) rows b'.
Proof.
  intros Hb Hrows Et Hd. pose proof (dispatch_held _ _ _ _ _ _ Et Hd) as Hp. unfold dispatch in Hd.
  destruct (Publish bus (ox_event x) w) as [ok w1]. injection Hd as <- _. simpl.
  assert (Hx : In x rows /\ pending x = true) by (apply (bo_todo _ _ _ Hb); rewrite Et; by left).
  assert (Hnd : NoDup (held (if ok then mkBatch rest (ba_sent b ++ [ox_id x]) (ba_bad b)
     else mkBatch rest (ba_sent b) (ba_bad b ++ [classifyFailure (ox_id x) (ox_attempts x)])))) by (rewrite Hp; apply Hb).
  apply (batch_ok_more l (ox_id x, ok)) in Hb as [B1 B2 B3 _]. rewrite Et in B1. destruct ok; split; simpl in *; auto.
  - intros i [Hi|[<-|[]]]%in_app_or; [by apply B2|]. split; [apply in_or_app; right; by left|]. exists x. tauto.
  - intros f [Hf|[<-|[]]]%in_app_or; [by apply B3|]. split; [|exists x; tauto]. simpl. rewrite failures_snoc, bool_decide_eq_true_2 by done.
    destruct (Hrows x (proj1 Hx)) as [Ha _]. lia.
Qed.
Lemma ok_send s p b x rest b' w' : sy_busy s !! p = Some b -> ba_todo b = x :: rest -> dispatch bus x rest b (sy_world s) = (b', w') ->
  sys_ok s ->
  sys_ok (mkSys (sy_rows s) (<[p := b']> (sy_busy s)) w' (sy_log s ++ [(ox_id x, (Publish bus (ox_event x) (sy_world s)).1)]) (sy_now s)).
Proof.
  intros Hp Et Hd [H1 H2 H3 H4]. pose proof (dispatch_held _ _ _ _ _ _ Et Hd) as Hperm.
  assert (Hin : forall i, In i (held b') -> In i (held b)).
  { intros i. rewrite <- !list_elem_of_In. by rewrite Hperm. }
  split; simpl; [done| | |].
  - intros r Hr. by apply row_ok_more, H2.
  - intros q c [[_ <-]|[_ Hc]]%lookup_insert_Some; [by eapply ok_dispatch; [apply (H3 p)|..]|by apply batch_ok_more, (H3 q)].
  - intros q q' c c' i Hc Hc' Hi Hj.
    apply lookup_insert_Some in Hc as [[<- <-]|[_ Hc]]; apply lookup_insert_Some in Hc' as [[<- <-]|[_ Hc']]; [done|..]; eauto.
Qed.

Lemma settled_ok l rows b now r : NoDup (map ox_id rows) -> batch_ok l rows b -> ba_todo b = [] -> In r rows -> row_ok l r ->
  row_ok l (settled b now r).
Proof.
  intros Hd Hb Et Hr Hok. destruct (in_dec N.eq_dec (ox_id r) (held b)) as [Hh|Hh]; [|by rewrite settled_other].
  unfold held in Hh. rewrite Et in Hh. simpl in Hh. apply in_app_or in Hh as [Hs|Hf].
  - rewrite settled_sent by (done || apply Hb). destruct (bo_sent _ _ _ Hb _ Hs) as (Hl & r' & Hr' & Hp & Ei).
    assert (r' = r) as -> by (by eapply same_row). apply pending_not in Hp as [Ep Ef]. destruct Hok as [Ha _].
    split; [done|]. simpl. by rewrite Ef.
  - apply in_map_iff in Hf as (f & Ef & Hf). rewrite (settled_bad b now r f) by (done || apply Hb).
    destruct (bo_bad _ _ _ Hb f Hf) as (Ha & r' & Hr' & Hp & Ec).
    assert (r' = r) as -> by (eapply same_row; [done..|]; rewrite Ec in Ef; done). apply pending_not in Hp as [Ep Efl].
    destruct Hok as [[Ha0 _] _]. rewrite Ec in *. unfold classifyFailure in *. simpl in *. split; simpl; [change (ox_id (set_failure _ _ _)) with (ox_id r); lia|].
    rewrite Ep. destruct (Z.leb_spec MaxOutboxAttempts (ox_attempts r + 1)); lia.
Qed.
Lemma ok_release s p rows : sys_ok s -> NoDup (map ox_id rows) -> (forall r, In r rows -> row_ok (sy_log s) r) ->
  (forall q b, q <> p -> sy_busy s !! q = Some b -> batch_ok (sy_log s) rows b) ->
  sys_ok (mkSys rows (delete p (sy_busy s)) (sy_world s) (sy_log s) (sy_now s)).
Proof.
  intros [_ _ _ H4] H1 H2 H3. split; simpl; [done|done| |].
  - intros q b [Hq Hb]%lookup_delete_Some. by apply (H3 q).
  - intros q q' b c i [_ Hb]%lookup_delete_Some [_ Hc]%lookup_delete_Some. by eapply H4.
Qed.
Lemma ok_commit s p b : sy_busy s !! p = Some b -> ba_todo b = [] -> sys_ok s ->
  sys_ok (mkSys (settle b (sy_now s) (sy_rows s)) (delete p (sy_busy s)) (sy_world s) (sy_log s) (sy_now s)).
Proof.
  intros Hp Et Hs. pose proof Hs as [H1 H2 H3 H4]. rewrite settle_map. apply ok_release; [done|..].
  - rewrite map_map. erewrite map_ext; [exact H1|]. intros r. apply settled_id.
  - intros r Hr. apply in_map_iff in Hr as (r0 & <- & Hr0). eapply settled_ok; [exact H1|by apply (H3 p)|done|done|by apply H2].
  - intros q c Hq Hc. eapply batch_ok_rows; [|by apply (H3 q)]. intros r Hr Hpe Hh. apply in_map_iff. exists r. split; [|done].
    apply settled_other; [done|]. intros Hi. by destruct Hq, (H4 p q b c (ox_id r)).
Qed.
Lemma ok_sweep s after : sys_ok s ->
  sys_ok (mkSys (outboxSweepJob after 0 (sy_now s) (sy_rows s) []).1 (sy_busy s) (sy_world s) (sy_log s) (sy_now s)).
Proof.
  intros [H1 H2 H3 H4]. unfold outboxSweepJob. cbn [fst]. destruct (0 <? after); [|by split]. split; simpl; [| | |done].
  - unfold update_where. rewrite map_map. erewrite map_ext; [exact H1|]. intros r. simpl. by destruct (parked _ r).
  - intros r Hr. apply in_update_where in Hr as (r0 & Hr0 & ->). destruct (parked _ r0) eqn:Ep; [|by apply H2].
    apply andb_true_iff in Ep as [Epub%bool_decide_eq_true_1 _]. split; simpl; [|by rewrite Epub].
    destruct (H2 r0 Hr0) as [Ha _]. change (ox_id (requeue r0)) with (ox_id r0). lia.
  - intros p b Hb. eapply batch_ok_rows; [|by apply (H3 p)]. intros r Hr Hpe _. apply in_update_where. exists r. split; [done|].
    unfold parked. apply pending_not in Hpe as [_ ->]. by rewrite andb_false_r.
Qed.
Lemma step_ok s s' : step s s' -> sys_ok s -> sys_ok s'.
Proof.
  intros Hst Hs. destruct Hst as [fresh e rows Hw|p Hp|p b x rest b' w' ok Hp Et Hd ->|p b Hp Et|p|after Ha|w Hw|d].
  - by eapply ok_write.
  - by apply ok_poll.
  - by eapply ok_send.
  - by eapply ok_commit.
  - destruct Hs as [H1 H2 H3 H4]. apply ok_release; [by split|done|done|]. intros q b _ Hb. by apply (H3 q).
  - by apply ok_sweep.
  - by destruct Hs.
  - by destruct Hs.
Qed.
Lemma reachable_ok s : reachable s -> sys_ok s.
Proof.
  intros (s0 & (E1 & E2 & E3) & Hr). assert (H0 : sys_ok s0).
  { split; rewrite ?E1, ?E2, ?E3; simpl; [apply NoDup_nil_2|done|intros p b Hb|intros p q b c i Hb]; by rewrite lookup_empty in Hb. }
  clear E1 E2 E3. induction Hr as [|x y z Hxy _ IH]; [done|]. by apply IH, (step_ok x).
Qed.

(** Events are only added. *)
Lemma step_prefix s s' : step s s' -> (map ox_event (sy_rows s)) `prefix_of` (map ox_event (sy_rows s')).
Proof.
  intros Hst. destruct Hst as [fresh e rows Hw|p Hp|p b x rest b' w' ok Hp Et Hd ->|p b Hp Et|p|after Ha|w Hw|d]; simpl; try done.
  - unfold WriteOutbox in Hw. tx_steps Hw. injection Hw as <-. rewrite map_app. by apply prefix_app_r.
  - rewrite settle_map, map_map. erewrite (map_ext (fun r => ox_event (settled b (sy_now s) r))); [done|]. intros r. apply settled_event.
  - destruct (0 <? after); simpl; [|done]. unfold update_where. rewrite map_map.
    rewrite (map_ext (fun r => ox_event (if parked (sy_now s - after) r then requeue r else r)) ox_event); [done|].
    intros r. by destruct (parked _ r).
Qed.
Lemma run_prefix s s' : rtc step s s' -> (map ox_event (sy_rows s)) `prefix_of` (map ox_event (sy_rows s')).
Proof. induction 1 as [|x y z Hxy _ IH]; [done|]. etrans; [by apply step_prefix|done]. Qed.

(** ** A tick is a run of one publisher *)

Lemma dispatch_all_steps p : forall l s b, sy_busy s !! p = Some b -> ba_todo b = l ->
  exists b' log, dispatch_all bus l b (sy_world s) = (b', (dispatch_all bus l b (sy_world s)).2)
    /\ ba_todo b' = [] /\ held b' ≡ₚ held b
    /\ rtc step s (mkSys (sy_rows s) (<[p := b']> (sy_busy s)) (dispatch_all bus l b (sy_world s)).2 log (sy_now s)).
Proof.
  induction l as [|x l IH]; intros s b Hb Et.
  - exists b, (sy_log s). simpl. rewrite insert_id by done. split_and!; [done..|]. destruct s. apply rtc_refl.
  - cbn [dispatch_all]. destruct (dispatch bus x l b (sy_world s)) as [b1 w1] eqn:Ed.
    set (s1 := mkSys (sy_rows s) (<[p := b1]> (sy_busy s)) w1 (sy_log s ++ [(ox_id x, (Publish bus (ox_event x) (sy_world s)).1)]) (sy_now s)).
    assert (Et1 : ba_todo b1 = l) by (unfold dispatch in Ed; destruct (Publish _ _ _) as [[] ?]; by injection Ed as <- _).
    destruct (IH s1 b1) as (b' & log & E1 & E2 & E3 & Hr); [apply lookup_insert_eq|done|]. exists b', log.
    split_and!; [done|done| |].
    + rewrite E3. by eapply dispatch_held.
    + apply (rtc_l _ _ s1); [by eapply step_send|]. unfold s1 in Hr. simpl in Hr. rewrite insert_insert_eq in Hr. exact Hr.
Qed.
(** The tick of an idle publisher, in a state where others may hold rows. *)
Lemma tick_run s p : sy_busy s !! p = None ->
  exists b log, let s1 := mkSys (sy_rows s) (<[p := b]> (sy_busy s)) (processOnce bus size (locked (sy_busy s)) (sy_now s) (sy_rows s) (sy_world s)).2 log (sy_now s) in
    rtc step s s1 /\ ba_todo b = [] /\ held b ≡ₚ map ox_id (poll size (locked (sy_busy s)) (sy_rows s))
    /\ (processOnce bus size (locked (sy_busy s)) (sy_now s) (sy_rows s) (sy_world s)).1 = settle b (sy_now s) (sy_rows s).
Proof.
  intros Hp. set (l := poll size (locked (sy_busy s)) (sy_rows s)).
  set (s0 := mkSys (sy_rows s) (<[p := mkBatch l [] []]> (sy_busy s)) (sy_world s) (sy_log s) (sy_now s)).
  destruct (dispatch_all_steps p l s0 (mkBatch l [] [])) as (b & log & E1 & E2 & E3 & Hr); [apply lookup_insert_eq|done|].
  exists b, log. unfold s0 in Hr, E1. simpl in Hr, E1. rewrite insert_insert_eq in Hr.
  assert (Hw : processOnce bus size (locked (sy_busy s)) (sy_now s) (sy_rows s) (sy_world s)
    = (settle b (sy_now s) (sy_rows s), (dispatch_all bus l (mkBatch l [] []) (sy_world s)).2)).
  { unfold processOnce. fold l. destruct l as [|x l']; [|by rewrite E1].
    simpl in E1. injection E1 as <-. cbn [dispatch_all snd]. f_equal. symmetry. apply update_where_none. done. }
  rewrite Hw. simpl. split_and!; [|done| |done].
  - apply (rtc_l _ _ s0); [by apply step_poll|exact Hr].
  - rewrite E3. unfold held. simpl. by rewrite app_nil_r.
Qed.
Lemma tick_steps s p : sy_busy s !! p = None ->
  exists log, rtc step s (mkSys (processOnce bus size (locked (sy_busy s)) (sy_now s) (sy_rows s) (sy_world s)).1 (sy_busy s)
    (processOnce bus size (locked (sy_busy s)) (sy_now s) (sy_rows s) (sy_world s)).2 log (sy_now s)).
Proof.
  intros Hp. destruct (tick_run s p Hp) as (b & log & Hr & Et & _ & ->). exists log. eapply rtc_r; [exact Hr|].
  pose proof (step_commit (mkSys (sy_rows s) (<[p := b]> (sy_busy s))
    (processOnce bus size (locked (sy_busy s)) (sy_now s) (sy_rows s) (sy_world s)).2 log (sy_now s)) p b) as Hc. simpl in Hc.
  rewrite delete_insert_id in Hc by done. apply Hc; [apply lookup_insert_eq|done].
Qed.

(** ** Attempts run out *)

Definition weight (r : OutboxRow) : Z := if pending r then MaxOutboxAttempts - ox_attempts r else 0.
Lemma weight_settled l rows b now r : NoDup (map ox_id rows) -> batch_ok l rows b -> ba_todo b = [] -> In r rows -> row_ok l r ->
  0 <= weight (settled b now r) <= weight r /\ (In (ox_id r) (held b) -> weight (settled b now r) < weight r).
Proof.
  intros Hd Hb Et Hr Hok. pose proof (settled_ok l rows b now r Hd Hb Et Hr Hok) as Hok'.
  assert (Hnn : forall x, row_ok l x -> 0 <= weight x).
  { intros x [Ha Hx]. unfold weight. destruct (pending x) eqn:Ep; [|lia]. apply pending_not in Ep as [E1 E2]. rewrite E1, E2 in Hx. lia. }
  pose proof (Hnn _ Hok'). destruct (in_dec N.eq_dec (ox_id r) (held b)) as [Hh|Hh]; [|rewrite settled_other in * by done; split; [lia|done]].
  enough (weight (settled b now r) < weight r) by (split; [lia|done]).
  pose proof Hh as Hh'. unfold held in Hh'. rewrite Et in Hh'. simpl in Hh'. destruct Hok as [Ha Hx]. apply in_app_or in Hh' as [Hs|Hf].
  - rewrite settled_sent by (done || apply Hb). destruct (bo_sent _ _ _ Hb _ Hs) as (_ & r' & Hr' & Hp & Ei).
    assert (r' = r) as -> by (by eapply same_row). unfold weight. rewrite Hp. apply pending_not in Hp as [E1 E2]. rewrite E1, E2 in Hx.
    assert (pending (set_published now r) = false) as -> by (apply bool_decide_eq_false_2; by intros [? _]). lia.
  - apply in_map_iff in Hf as (f & Ef & Hf). rewrite (settled_bad b now r f) by (done || apply Hb).
    destruct (bo_bad _ _ _ Hb f Hf) as (_ & r' & Hr' & Hp & Ec).
    assert (r' = r) as -> by (eapply same_row; [done..|]; rewrite Ec in Ef; done). unfold weight at 2. rewrite Hp.
    apply pending_not in Hp as [E1 E2]. rewrite E1, E2 in Hx. rewrite Ec. unfold weight.
    destruct (pending (set_failure _ _ r)) eqn:Ep; simpl; lia.
Qed.
End System.
