(* ===== verification/Notifications.v ===== *)
(** * The notification feed (package [notifications], notifications_subscriber.go)

    The subscriber of the event bus turns a domain event into rows of the feed, one
    for each target, and mails the critical ones; the revenue consumer of main.go
    posts the journal entry of a recognised shift.  Deliveries repeat: a row is keyed
    by the event it came from and its target. *)

From stdpp Require Import base list strings gmap.
From Stdlib Require Import ZArith Lia Ascii.
From S2P Require Import Prelude Numeric Schema Accounting Policy Operations Workforce WorkforceHandlers Readings Revenue Frames Sessions Events.

Local Open Scope Z_scope.

(** ** Rows *)

Record Notification := mkNotification {
  nt_id : uuid; nt_tenant : uuid; nt_user : option uuid; nt_type : string; nt_title : string; nt_body : string; nt_severity : string;
  nt_rel_type : option string; nt_rel_id : option string; nt_source : option uuid; nt_read : option Z; nt_created : Z }.
Record CreateInput := mkCreateInput {
  ci_user : option uuid; ci_type : string; ci_title : string; ci_body : string; ci_severity : string;
  ci_rel_type : option string; ci_rel_id : option string }.
Record Preference := mkPreference {
  pf_id : uuid; pf_tenant : uuid; pf_user : uuid; pf_category : string; pf_channel : string; pf_enabled : bool;
  pf_start : option string; pf_end : option string; pf_created : Z; pf_updated : Z }.
Record Mail := mkMail { ml_to : string; ml_subject : string; ml_body : string }.

(** What the handlers of the bus work on. *)
Record Desk := mkDesk {
  dk_notes : list Notification; dk_prefs : list Preference; dk_mail : list Mail; dk_auth : Auth; dk_site : Site; dk_books : Books;
  dk_audit : list AuditRow; dk_next : uuid; dk_now : Z }.
Definition put_notes v d := mkDesk v (dk_prefs d) (dk_mail d) (dk_auth d) (dk_site d) (dk_books d) (dk_audit d) (dk_next d) (dk_now d).
Definition put_prefs v d := mkDesk (dk_notes d) v (dk_mail d) (dk_auth d) (dk_site d) (dk_books d) (dk_audit d) (dk_next d) (dk_now d).
Definition put_mail v d := mkDesk (dk_notes d) (dk_prefs d) v (dk_auth d) (dk_site d) (dk_books d) (dk_audit d) (dk_next d) (dk_now d).
Definition put_desk_books v d := mkDesk (dk_notes d) (dk_prefs d) (dk_mail d) (dk_auth d) (dk_site d) v (dk_audit d) (dk_next d) (dk_now d).
Definition put_desk_audit v d := mkDesk (dk_notes d) (dk_prefs d) (dk_mail d) (dk_auth d) (dk_site d) (dk_books d) v (dk_next d) (dk_now d).
Definition put_desk_next v d := mkDesk (dk_notes d) (dk_prefs d) (dk_mail d) (dk_auth d) (dk_site d) (dk_books d) (dk_audit d) v (dk_now d).

Definition SeverityInfo : string := "info".
Definition SeveritySuccess : string := "success".
Definition SeverityWarning : string := "warning".
Definition SeverityCritical : string := "critical".

(** ** The repository (repo.go) *)

Inductive note_error := NtNotFound | NtNoRows | NtForeignKey | NtCheck | NtDatabase.
#[export] Instance note_error_eq : EqDecision note_error.
Proof. solve_decision. Defined.

Definition or_info (s : string) : string := if bool_decide (s = "")%string then SeverityInfo else s.
Definition severity_ok (s : string) : bool := bool_decide (s ∈ [SeverityInfo; SeveritySuccess; SeverityWarning; SeverityCritical]).
(** The tenant exists, and the user in it. *)
Definition note_refs (d : Desk) (tenant : uuid) (user : option uuid) : bool :=
  exists_where (fun t => bool_decide (tn_id t = tenant)) (at_tenants (dk_auth d))
  && fk_opt (fun u => exists_where (fun x => bool_decide (us_tenant x = tenant /\ us_id x = u)) (at_users (dk_auth d))) user.
Definition insert_note (d : Desk) (tenant : uuid) (i : CreateInput) (source : option uuid) : result note_error (Notification * Desk) :=
  let severity := or_info (ci_severity i) in
  if negb (severity_ok severity) then Err NtCheck
  else if negb (note_refs d tenant (ci_user i)) then Err NtForeignKey
  else let n := mkNotification (dk_next d) tenant (ci_user i) (ci_type i) (ci_title i) (ci_body i) severity (ci_rel_type i) (ci_rel_id i)
                  source None (dk_now d) in
       Ok (n, put_notes (dk_notes d ++ [n]) (put_desk_next (dk_next d + 1)%N d)).
Definition notifications_Create (tenant : uuid) (i : CreateInput) : Svc Desk note_error Notification :=
  fun d => match insert_note d tenant i None with Ok (n, d') => (Ok n, d') | Err e => (Err e, d) end.

(** [uq_notifications_event_target] *)
Definition note_target (u : option uuid) : uuid := default uuid_nil u.
Definition same_event (tenant source : uuid) (user : option uuid) (n : Notification) : bool :=
  bool_decide (nt_tenant n = tenant /\ nt_source n = Some source /\ note_target (nt_user n) = note_target user).
(** The row, and whether it is new. *)
Definition CreateFromEvent (tenant source : uuid) (i : CreateInput) : Svc Desk note_error (Notification * bool) :=
  fun d =>
    if exists_where (same_event tenant source (ci_user i)) (dk_notes d) then
      match first_where (fun n => bool_decide (nt_tenant n = tenant /\ nt_source n = Some source /\ nt_user n = ci_user i)) (dk_notes d) with
      | Some n => (Ok (n, false), d)
      | None => (Err NtNoRows, d)
      end
    else match insert_note d tenant i (Some source) with
    | Ok (n, d') => (Ok (n, true), d')
    | Err e => (Err e, d)
    end.

Definition visible (tenant user : uuid) (n : Notification) : bool :=
  bool_decide (nt_tenant n = tenant /\ (nt_user n = Some user \/ nt_user n = None)).
Definition unread (n : Notification) : bool := bool_decide (nt_read n = None).
Definition latest_note (a b : Notification) : bool :=
  (nt_created b <? nt_created a) || ((nt_created b =? nt_created a) && (nt_id b <=? nt_id a)%N).
Definition notifications_ListForUser (d : Desk) (tenant user : uuid) (unreadOnly : bool) (limit offset : nat) : list Notification :=
  limit_offset limit offset
    (order_by latest_note (select (fun n => visible tenant user n && (negb unreadOnly || unread n)) (dk_notes d))).
Definition UnreadCount (d : Desk) (tenant user : uuid) : nat := length (select (fun n => visible tenant user n && unread n) (dk_notes d)).
Definition read_at (now : Z) (n : Notification) : Notification :=
  mkNotification (nt_id n) (nt_tenant n) (nt_user n) (nt_type n) (nt_title n) (nt_body n) (nt_severity n) (nt_rel_type n) (nt_rel_id n)
    (nt_source n) (Some now) (nt_created n).
Definition MarkRead (tenant user id : uuid) : Svc Desk note_error unit :=
  fun d =>
    let hit n := bool_decide (nt_id n = id) && visible tenant user n in
    if exists_where (fun n => hit n && unread n) (dk_notes d)
    then (Ok tt, put_notes (update_where (fun n => hit n && unread n) (read_at (dk_now d)) (dk_notes d)) d)
    else (if exists_where hit (dk_notes d) then Ok tt else Err NtNotFound, d).
Definition MarkAllRead (tenant user : uuid) : Svc Desk note_error nat :=
  fun d =>
    let hit n := visible tenant user n && unread n in
    (Ok (length (select hit (dk_notes d))), put_notes (update_where hit (read_at (dk_now d)) (dk_notes d)) d).

(** ** Preferences (preferences.go) *)

Definition preferences_ListForUser (collate : string -> string -> bool) (d : Desk) (tenant user : uuid) : list Preference :=
  order_by (fun a b => if bool_decide (pf_category a = pf_category b) then collate (pf_channel a) (pf_channel b)
                       else collate (pf_category a) (pf_category b))
    (select (fun p => bool_decide (pf_tenant p = tenant /\ pf_user p = user)) (dk_prefs d)).
Record PreferenceInput := mkPreferenceInput {
  pi_category : string; pi_channel : string; pi_enabled : bool; pi_start : option string; pi_end : option string }.
Definition preference_key (tenant user : uuid) (i : PreferenceInput) (p : Preference) : bool :=
  bool_decide (pf_tenant p = tenant /\ pf_user p = user /\ pf_category p = pi_category i /\ pf_channel p = pi_channel i).
Definition toggled (now : Z) (i : PreferenceInput) (p : Preference) : Preference :=
  mkPreference (pf_id p) (pf_tenant p) (pf_user p) (pf_category p) (pf_channel p) (pi_enabled i) (pi_start i) (pi_end i) (pf_created p) now.
Definition preferences_Upsert (tenant user : uuid) (i : PreferenceInput) : Tx Desk note_error Preference :=
  (let! d := tget in
   match first_where (preference_key tenant user i) (dk_prefs d) with
   | Some p => tput (put_prefs (update_where (preference_key tenant user i) (toggled (dk_now d) i) (dk_prefs d)) d) ;;!
               tret (toggled (dk_now d) i p)
   | None =>
       tguard (note_refs d tenant (Some user)) NtForeignKey ;;!
       let p := mkPreference (dk_next d) tenant user (pi_category i) (pi_channel i) (pi_enabled i) (pi_start i) (pi_end i) (dk_now d) (dk_now d) in
       tput (put_prefs (dk_prefs d ++ [p]) (put_desk_next (dk_next d + 1)%N d)) ;;! tret p
   end)%tx.

(** ** Subscribers of the event bus (notifications_subscriber.go, main.go)

    Which notification an event raises and for whom, the handler that writes them, the
    consumer that posts the revenue journal, and the bus they make up; the requests
    on the feed and its preferences (server_routes_notifications.go,
    notification_preferences_handlers.go). *)

(** ** Targets *)

Record notifSpec := mkSpec { ns_type : string; ns_title : string; ns_body : string; ns_severity : string }.
Record notifTarget := mkTarget { tg_spec : notifSpec; tg_user : option uuid }.

Definition no_money (s : string) : bool := bool_decide (s ∈ [""; "0"; "0.00"; "0.0000"]%string).
Definition shiftClosedHasVariance (p : Payload) : bool := if no_money (pl_variance p) then negb (no_money (pl_expected_cash p)) else true.

Definition notifSpecFor (e : Event) : option notifSpec :=
  let t := ev_type e in
  if bool_decide (t = "RevenueRecognized")%string then
    Some (mkSpec "revenue.recognized" "Revenue recognized" "A shift's sales have been recognized into revenue." SeverityInfo)
  else if bool_decide (t = "ShiftClosed")%string then
    Some (if shiftClosedHasVariance (ev_payload e)
          then mkSpec "shift.closed" "Shift closed" "A shift was closed with a cash variance — review the close summary." SeverityWarning
          else mkSpec "shift.closed" "Shift closed" "A shift has been closed." SeveritySuccess)
  else if bool_decide (t = "RiskDetectionRun")%string then
    Some (mkSpec "risk.alert_raised" "Risk alert raised" "Risk detection raised one or more alerts — review the risk queue." SeverityCritical)
  else if bool_decide (t = "IncidentOpened")%string then
    Some (mkSpec "incident.opened" "Incident opened" "An incident was opened — check the incidents queue." SeverityCritical)
  else if bool_decide (t = "ApprovalRequested")%string then
    Some (mkSpec "approval.requested" "Approval requested" "An approval request is awaiting your decision." SeverityWarning)
  else None.

(** An id that is there and not nil. *)
Definition resolved (o : option uuid) : option uuid := match o with Some u => if bool_decide (u = uuid_nil) then None else Some u | None => None end.
Definition reason_text (r : option string) : string :=
  match r with Some m => if bool_decide (m = "")%string then "" else " Reason: " ++ m ++ "." | None => "" end.
(** The recorder, or the whole tenant when the payload has none. *)
Definition readingVerdictTargets (p : Payload) (spec : notifSpec) : list notifTarget := [mkTarget spec (resolved (pl_recorded_by p))].
Definition readingVerificationTargets (e : Event) : list notifTarget :=
  let p := ev_payload e in
  let figures := if bool_decide (pl_submitted_reading p = "" \/ pl_final_reading p = "")%string then ""%string
                 else (": submitted " ++ pl_submitted_reading p ++ ", final " ++ pl_final_reading p)%string in
  readingVerdictTargets p (mkSpec "reading.corrected" "Closing reading corrected"
    ("A supervisor corrected your submitted closing meter reading" ++ figures ++ "." ++ reason_text (pl_verdict_reason p)
     ++ " Check the review status of your shift readings.") SeverityWarning).
Definition readingApprovedTargets (e : Event) : list notifTarget :=
  readingVerdictTargets (ev_payload e) (mkSpec "reading.approved" "Closing reading approved"
    "Your submitted closing meter reading was approved by a supervisor." SeveritySuccess).
Definition readingRejectedTargets (e : Event) : list notifTarget :=
  readingVerdictTargets (ev_payload e) (mkSpec "reading.rejected" "Closing reading rejected"
    ("A supervisor rejected your submitted closing meter reading — please re-capture it." ++ reason_text (pl_verdict_reason (ev_payload e)))
    SeverityWarning).
Definition readingFlaggedTargets (e : Event) : list notifTarget :=
  readingVerdictTargets (ev_payload e) (mkSpec "reading.flagged" "Closing reading flagged"
    ("A supervisor flagged your submitted closing meter reading for investigation." ++ reason_text (pl_verdict_reason (ev_payload e)))
    SeverityWarning).
Definition personal (spec : notifSpec) (u : option uuid) : list notifTarget :=
  match resolved u with Some i => [mkTarget spec (Some i)] | None => [] end.
Definition nozzleAssignedTargets (e : Event) : list notifTarget :=
  personal (mkSpec "assignment.created" "Nozzle assigned to you"
    "You have been assigned a nozzle for your shift — review and confirm it on My Shift." SeverityInfo) (pl_attendant (ev_payload e)).
Definition nozzleUnassignedTargets (e : Event) : list notifTarget :=
  personal (mkSpec "assignment.changed" "Nozzle assignment changed"
    "A nozzle assignment was removed from you for your shift — check My Shift for your current assignments." SeverityInfo)
    (pl_attendant (ev_payload e)).

Fixpoint decimalIsZero (s : string) : bool :=
  match s with
  | EmptyString => true
  | String c s' => bool_decide (c ∈ ["0"; "."; "-"; "+"]%char) && decimalIsZero s'
  end.
Definition decimalIsNegative (s : string) : bool := has_minus s && negb (decimalIsZero s).
Definition collectionReceiptTargets (e : Event) : list notifTarget :=
  let p := ev_payload e in
  let head := ("A supervisor recorded your cash handover: received " ++ pl_received p ++ " against expected " ++ pl_expected p ++ ".")%string in
  let '(severity, tail) :=
    if bool_decide (pl_status p = "rejected")%string then (SeverityWarning, " The handover was rejected."%string)
    else if decimalIsNegative (pl_difference p) then (SeverityWarning, (" Shortage of " ++ trim_minus (pl_difference p) ++ ".")%string)
    else if negb (decimalIsZero (pl_difference p)) then (SeverityWarning, (" Excess of " ++ pl_difference p ++ ".")%string)
    else (SeveritySuccess, ""%string) in
  personal (mkSpec "collection.receipt_recorded" "Collection receipt recorded" (head ++ tail ++ reason_text (pl_reason p)) severity)
    (pl_submitted_by p).

Fixpoint distinct (seen ids : list uuid) : list uuid :=
  match ids with
  | [] => []
  | i :: rest => if bool_decide (i = uuid_nil \/ i ∈ seen) then distinct seen rest else i :: distinct (i :: seen) rest
  end.
Definition shiftApprovedTargets (e : Event) : list notifTarget :=
  (fun i => mkTarget (mkSpec "shift.approved" "Shift approved"
     "Your shift has been approved and finalized — readings and collections are confirmed." SeveritySuccess) (Some i))
    <$> distinct [] (pl_checked_in (ev_payload e)).

Definition notifTargetsFor (e : Event) : list notifTarget :=
  let t := ev_type e in
  if bool_decide (t = "ReadingVerificationApproved")%string then readingApprovedTargets e
  else if bool_decide (t = "ReadingVerificationCorrected")%string then readingVerificationTargets e
  else if bool_decide (t = "ReadingVerificationRejected")%string then readingRejectedTargets e
  else if bool_decide (t = "ReadingVerificationFlagged")%string then readingFlaggedTargets e
  else if bool_decide (t = "ShiftNozzleAssigned")%string then nozzleAssignedTargets e
  else if bool_decide (t = "ShiftNozzleUnassigned")%string then nozzleUnassignedTargets e
  else if bool_decide (t = "CashCollectionConfirmed")%string then collectionReceiptTargets e
  else if bool_decide (t = "ShiftApproved")%string then shiftApprovedTargets e
  else match notifSpecFor e with Some spec => [mkTarget spec None] | None => [] end.

Definition subscribedEventTypes : list string :=
  ["RevenueRecognized"; "ShiftClosed"; "RiskDetectionRun"; "IncidentOpened"; "ApprovalRequested"; "ReadingVerificationApproved";
   "ReadingVerificationCorrected"; "ReadingVerificationRejected"; "ReadingVerificationFlagged"; "ShiftNozzleAssigned";
   "ShiftNozzleUnassigned"; "CashCollectionConfirmed"; "ShiftApproved"]%string.

(** ** Handlers of the bus *)

Section Handlers.
(** Statements that fail for a reason outside the model, mail that is not delivered,
    and [uuid.Parse]. *)
Context (broken : Event -> notifTarget -> Z -> bool) (commit_fails : Event -> Z -> bool) (undelivered : string -> bool).
Context (uuid_parse : string -> option uuid).

Definition strPtr (s : string) : option string := if bool_decide (s = "")%string then None else Some s.
Definition emailTenantUsers (tenant : uuid) (spec : notifSpec) (d : Desk) : Desk :=
  let to := select (fun u => IsActive u && negb (bool_decide (us_email u = "")%string) && negb (undelivered (us_email u)))
              (users_List (dk_auth d) tenant) in
  put_mail (dk_mail d ++ ((fun u => mkMail (us_email u) ("[FuelGrid OS] " ++ ns_title spec) (ns_body spec)) <$> to)) d.
Definition target_input (e : Event) (t : notifTarget) : CreateInput :=
  mkCreateInput (tg_user t) (ns_type (tg_spec t)) (ns_title (tg_spec t)) (ns_body (tg_spec t)) (ns_severity (tg_spec t))
    (strPtr (ev_aggregate e)) (strPtr (ev_aggregate_id e)).
(** The first target that fails ends the run. *)
Fixpoint notify (tenant : uuid) (e : Event) (l : list notifTarget) (d : Desk) : option string * Desk :=
  match l with
  | [] => (None, d)
  | t :: rest =>
      if broken e t (dk_now d) then (Some "database"%string, d)
      else match CreateFromEvent tenant (ev_id e) (target_input e t) d with
      | (Err _, d') => (Some "notification"%string, d')
      | (Ok (_, fresh), d') =>
          notify tenant e rest
            (if fresh && bool_decide (ns_severity (tg_spec t) = SeverityCritical) then emailTenantUsers tenant (tg_spec t) d' else d')
      end
  end.
Definition notification_handler : Handler Desk :=
  fun e d => match ev_tenant e with None => (None, d) | Some tenant => notify tenant e (notifTargetsFor e) d end.

Definition log_handler : Handler Desk := fun _ d => (None, d).
(** An error of the posting is logged and the event counts as handled. *)
Definition revenue_consumer : Handler Desk :=
  fun e d => match ev_tenant e, ev_actor e with
  | Some tenant, Some actor =>
      match uuid_parse (ev_aggregate_id e) with
      | None => (None, d)
      | Some shift =>
          match PostShiftRevenueJournal (dk_site d) tenant shift actor (dk_books d) with
          | Err _ => (None, d)
          | Ok (None, _) => (None, d)
          | Ok (Some _, b) => if commit_fails e (dk_now d) then (Some "commit"%string, d) else (None, put_desk_books b d)
          end
      end
  | _, _ => (None, d)
  end.

Definition subscribeNotifications (b : InProcessBus Desk) : InProcessBus Desk :=
  List.fold_left (fun b t => Subscribe t notification_handler b) subscribedEventTypes b.
Definition api_bus : InProcessBus Desk :=
  subscribeNotifications (Subscribe "RevenueRecognized" revenue_consumer (Subscribe "*" log_handler NewInProcessBus)).
End Handlers.

(** ** Requests on the feed *)

Section Feed.
Context (collate : string -> string -> bool) (cfgDefault cfgMax : Z).

Definition handleListNotifications (d : Desk) (ctx : option Actor) (limit offset : option (result unit Z)) (unread : string)
  : result http_error (list Notification * bool) :=
  (let? a := ops_actor ctx in
   let? (l, o) := parsePage cfgDefault cfgMax limit offset in
   Ok (page_of l (notifications_ListForUser d (ac_tenant a) (ac_user a) (bool_decide (unread = "true")%string)
                    (Z.to_nat (l + 1)) (Z.to_nat o))))%res.
Definition handleNotificationUnreadCount (d : Desk) (ctx : option Actor) : result http_error nat :=
  (let? a := ops_actor ctx in Ok (UnreadCount d (ac_tenant a) (ac_user a)))%res.
Definition handleMarkNotificationRead (ctx : option Actor) (id : result unit uuid) : Svc Desk http_error unit :=
  (let~ a := slift (ops_actor ctx) in
   let~ id := slift (url_id "invalid notification id" id) in
   sconv (fun e => if bool_decide (e = NtNotFound) then HttpError 404 "notification not found" else ops_internal)
     (MarkRead (ac_tenant a) (ac_user a) id))%svc.
Definition handleMarkAllNotificationsRead (ctx : option Actor) : Svc Desk http_error nat :=
  (let~ a := slift (ops_actor ctx) in sconv (fun _ => ops_internal) (MarkAllRead (ac_tenant a) (ac_user a)))%svc.

Definition notificationCategories : list string := ["approval"; "incident"; "revenue"; "risk"; "shift"]%string.
Definition notificationChannels : list string := ["email"; "in_app"]%string.
(** The keys of a map, in byte order: the two sets above are in it. *)
Definition handleListNotificationPreferences (d : Desk) (ctx : option Actor)
  : result http_error (list Preference * list string * list string) :=
  (let? a := ops_actor ctx in
   Ok (preferences_ListForUser collate d (ac_tenant a) (ac_user a), notificationCategories, notificationChannels))%res.

Definition digit2 (a b : ascii) : option Z :=
  let d c := Z.of_N (N_of_ascii c) - 48 in
  if (0 <=? d a) && (d a <=? 9) && (0 <=? d b) && (d b <=? 9) then Some (d a * 10 + d b) else None.
Definition isHHMM (s : string) : bool :=
  match s with
  | String h1 (String h2 (String ":" (String m1 (String m2 EmptyString)))) =>
      match digit2 h1 h2, digit2 m1 m2 with
      | Some h, Some m => (h <=? 23) && (m <=? 59)
      | _, _ => false
      end
  | _ => false
  end.
Definition given (o : option string) : option string :=
  match o with Some s => if bool_decide (trim_space s = "")%string then None else Some (trim_space s) | None => None end.
Definition normalizeQuietHours (rawStart rawEnd : option string) : result http_error (option string * option string) :=
  match given rawStart, given rawEnd with
  | None, None => Ok (None, None)
  | Some s, Some e => if isHHMM s && isHHMM e then Ok (Some s, Some e) else Err (bad_request "quiet hours must be HH:MM (24h)")
  | _, _ => Err (bad_request "quiet hours require both a start and an end")
  end.

Record upsertRequest := mkUpsert {
  uq_category : string; uq_channel : string; uq_enabled : option bool; uq_start : option string; uq_end : option string }.
Definition desk_audit (a : Actor) (action : string) : Tx Desk http_error unit :=
  (let! d := tget in tput (put_desk_audit (dk_audit d ++ [mkAudit (ac_tenant a) (ac_user a) action (ac_user a)]) d))%tx.
Definition handleUpsertNotificationPreference (ctx : option Actor) (body : result string upsertRequest) : Svc Desk http_error Preference :=
  (let~ a := slift (ops_actor ctx) in
   let~ q := slift (match body with Ok x => Ok x | Err m => Err (bad_request m) end) in
   let category := trim_space (uq_category q) in
   let channel := trim_space (uq_channel q) in
   sguard (bool_decide (category ∈ notificationCategories)) (bad_request "unknown notification category") ;;~
   sguard (bool_decide (channel ∈ notificationChannels)) (bad_request "unknown notification channel") ;;~
   let~ enabled := slift (of_option (bad_request "enabled is required") (uq_enabled q)) in
   let~ window := slift (normalizeQuietHours (uq_start q) (uq_end q)) in
   inTx (let! p := tconv (fun _ => ops_internal)
                     (preferences_Upsert (ac_tenant a) (ac_user a) (mkPreferenceInput category channel enabled window.1 window.2)) in
         let! _ := desk_audit a "notification.preference_changed" in tret p)%tx)%svc.
End Feed.
