(* ===== verification/FeedProps.v ===== *)
(** * What the outbox and the feed promise

    The publishers over the bus of the API: every event is published after its handlers
    accepted it, and its notifications are in the feed once, however often it was
    delivered. *)

From stdpp Require Import base list strings gmap.
From Stdlib Require Import ZArith Lia Ascii.
From S2P Require Import Prelude Numeric Schema Accounting Policy Operations Workforce WorkforceHandlers Readings Revenue Frames Sessions Events EventsProps Notifications.

Local Open Scope Z_scope.

(** ** Targets are distinct *)

Lemma distinct_fresh seen ids i : In i (distinct seen ids) -> ~ In i seen.
Proof.
  revert seen. induction ids as [|j ids IH]; intros seen; simpl; [done|]. case_bool_decide as Hj; [by apply IH|].
  intros [<-|Hi]; [intros Hs; apply Hj; right; by apply list_elem_of_In|]. intros Hs. apply (IH (j :: seen) Hi). by right.
Qed.
Lemma distinct_nodup seen ids : NoDup (distinct seen ids).
Proof.
  revert seen. induction ids as [|j ids IH]; intros seen; simpl; [apply NoDup_nil_2|]. case_bool_decide as Hj; [apply IH|].
  apply NoDup_cons. split; [|apply IH]. rewrite list_elem_of_In. intros Hi%distinct_fresh. apply Hi. by left.
Qed.
Lemma distinct_real seen ids i : In i (distinct seen ids) -> i <> uuid_nil.
Proof.
  revert seen. induction ids as [|j ids IH]; intros seen; simpl; [done|]. case_bool_decide as Hj; [by apply IH|].
  intros [<-|Hi]; [tauto|by eapply IH].
Qed.
Lemma resolved_real o u : resolved o = Some u -> u <> uuid_nil.
Proof. destruct o as [v|]; [|done]. simpl. case_bool_decide; [done|]. by intros [= <-]. Qed.

(** At most one target for each user, and none for the nil one. *)
Definition targets_ok (l : list notifTarget) : Prop :=
  NoDup (map tg_user l) /\ forall t, In t l -> tg_user t <> Some uuid_nil.
Lemma targets_one t : tg_user t <> Some uuid_nil -> targets_ok [t].
Proof. intros Ht. split; [apply NoDup_singleton|]. by intros t' [<-|[]]. Qed.
Lemma targets_personal spec u : targets_ok (personal spec u).
Proof.
  unfold personal. destruct (resolved u) as [i|] eqn:E; [|split; [apply NoDup_nil_2|done]].
  apply targets_one. simpl. intros [= ->]. by apply resolved_real in E.
Qed.
Lemma targets_verdict p spec : targets_ok (readingVerdictTargets p spec).
Proof. apply targets_one. simpl. intros E. by apply resolved_real in E. Qed.
Lemma targets_shift e : targets_ok (shiftApprovedTargets e).
Proof.
  unfold shiftApprovedTargets. split.
  - change (NoDup (tg_user <$> ((fun i => mkTarget (mkSpec "shift.approved" "Shift approved"
     "Your shift has been approved and finalized — readings and collections are confirmed." SeveritySuccess) (Some i))
       <$> distinct [] (pl_checked_in (ev_payload e))))). rewrite <- list_fmap_compose. apply (NoDup_fmap_2 _), distinct_nodup.
  - intros t Ht. apply list_elem_of_In, list_elem_of_fmap in Ht as (i & -> & Hi). simpl. intros [= ->].
    apply list_elem_of_In, distinct_real in Hi. done.
Qed.
Lemma targets_for e : targets_ok (notifTargetsFor e).
Proof.
  unfold notifTargetsFor. repeat case_bool_decide; try (apply targets_verdict || apply targets_personal || apply targets_shift).
  - unfold collectionReceiptTargets. destruct (if bool_decide (pl_status _ = _) then _ else _) as [sv tl]. apply targets_personal.
  - destruct (notifSpecFor e); [by apply targets_one|split; [apply NoDup_nil_2|done]].
Qed.

(** ** The feed *)

Definition note_key (n : Notification) : uuid * option uuid * uuid := (nt_tenant n, nt_source n, note_target (nt_user n)).
Definition from_event (n : Notification) : bool := bool_decide (nt_source n <> None).
(** The rows of an event for a target. *)
Definition about_target (event tenant : uuid) (user : option uuid) (n : Notification) : bool :=
  bool_decide (nt_source n = Some event /\ nt_tenant n = tenant /\ nt_user n = user).
(** The notification the target asks for. *)
Definition note_for (e : Event) (t : notifTarget) (n : Notification) : Prop :=
  ev_tenant e = Some (nt_tenant n) /\ nt_source n = Some (ev_id e) /\ nt_user n = tg_user t /\ nt_type n = ns_type (tg_spec t)
  /\ nt_title n = ns_title (tg_spec t) /\ nt_body n = ns_body (tg_spec t) /\ nt_severity n = or_info (ns_severity (tg_spec t)).
(** The unique index, and every row that names an event is one of its targets'. *)
Definition feed_ok (evs : list Event) (d : Desk) : Prop :=
  NoDup (note_key <$> select from_event (dk_notes d))
  /\ forall n, In n (dk_notes d) -> from_event n = true -> exists e t, In e evs /\ In t (notifTargetsFor e) /\ note_for e t n.
(** Rows stay, but for the mark that they were read. *)
Definition same_note (n n' : Notification) : Prop := n' = n \/ exists now, n' = read_at now n.
Definition notes_kept (d d' : Desk) : Prop := forall n, In n (dk_notes d) -> exists n', In n' (dk_notes d') /\ same_note n n'.
#[export] Instance notes_kept_pre : PreOrder notes_kept.
Proof.
  split.
  - intros d n Hn. exists n. split; [done|by left].
  - intros d d1 d2 H1 H2 n Hn. destruct (H1 n Hn) as (n1 & Hn1 & E1). destruct (H2 n1 Hn1) as (n2 & Hn2 & E2). exists n2. split; [done|].
    destruct E1 as [->|[now ->]], E2 as [->|[now' ->]]; [by left|right; eauto|right; eauto|right; exists now'; done].
Qed.
Lemma note_for_same e t n n' : same_note n n' -> note_for e t n -> note_for e t n'.
Proof. by intros [->|[now ->]]. Qed.
Lemma kept_app d d' l : dk_notes d' = dk_notes d ++ l -> notes_kept d d'.
Proof. intros E n Hn. exists n. rewrite E. split; [apply in_or_app; by left|by left]. Qed.

Definition has_note (d : Desk) (e : Event) (t : notifTarget) : Prop := exists n, In n (dk_notes d) /\ note_for e t n.
Lemma has_note_kept d d' e t : notes_kept d d' -> has_note d e t -> has_note d' e t.
Proof. intros Hk (n & Hn & Hf). destruct (Hk n Hn) as (n' & Hn' & E). exists n'. split; [done|by eapply note_for_same]. Qed.

(** A target and its event are known by the key of their row. *)
Lemma target_unique l t t' : targets_ok l -> In t l -> In t' l -> tg_user t = tg_user t' -> t = t'.
Proof.
  intros [Hd _] Ht Ht' E. apply list_elem_of_In, list_elem_of_lookup in Ht as [i Hi].
  apply list_elem_of_In, list_elem_of_lookup in Ht' as [j Hj].
  assert (i = j) as ->; [|congruence]. eapply (NoDup_lookup (map tg_user l)); [done| |].
  - rewrite list_lookup_fmap, Hi. done.
  - rewrite list_lookup_fmap, Hj. simpl. by rewrite E.
Qed.
Lemma event_unique (evs : list Event) e e' : NoDup (map ev_id evs) -> In e evs -> In e' evs -> ev_id e = ev_id e' -> e = e'.
Proof.
  intros Hd He He' E. apply list_elem_of_In, list_elem_of_lookup in He as [i Hi].
  apply list_elem_of_In, list_elem_of_lookup in He' as [j Hj].
  assert (i = j) as ->; [|congruence]. eapply (NoDup_lookup (map ev_id evs)); [done| |].
  - rewrite list_lookup_fmap, Hi. done.
  - rewrite list_lookup_fmap, Hj. simpl. by rewrite E.
Qed.
Lemma target_real u v : u <> Some uuid_nil -> v <> Some uuid_nil -> note_target u = note_target v -> u = v.
Proof. destruct u as [u|], v as [v|]; simpl; intros Hu Hv E; congruence. Qed.

Lemma insert_note_ok evs d tenant e t n d' : feed_ok evs d -> In e evs -> In t (notifTargetsFor e) -> ev_tenant e = Some tenant ->
  exists_where (same_event tenant (ev_id e) (tg_user t)) (dk_notes d) = false ->
  insert_note d tenant (target_input e t) (Some (ev_id e)) = Ok (n, d') ->
  feed_ok evs d' /\ notes_kept d d' /\ has_note d' e t.
Proof.
  intros [Hd Hf] He Ht Et Hx Hi. unfold insert_note in Hi. destruct (negb _); [done|]. destruct (negb _); [done|].
  injection Hi as <- <-. set (n := mkNotification _ _ _ _ _ _ _ _ _ _ _ _).
  assert (Hn : note_for e t n) by (by split_and!). split; [|split; [by eapply kept_app|]].
  - split.
    + cbn [dk_notes put_notes]. rewrite select_app, fmap_app. apply NoDup_app. split; [done|]. cbn [select List.filter from_event].
      split; [|apply NoDup_singleton]. intros k Hk Hk'. apply list_elem_of_singleton in Hk' as ->.
      apply list_elem_of_fmap in Hk as (m & Em & Hm). apply list_elem_of_In, in_select in Hm as [Hm _].
      pose proof (proj1 (exists_where_false _ _) Hx m Hm) as Hb. apply bool_decide_eq_false_1 in Hb. apply Hb.
      unfold note_key in Em. simpl in Em. injection Em as -> -> ->. done.
    + intros m Hm Hs. simpl in Hm. apply in_app_or in Hm as [Hm|[<-|[]]]; [by apply Hf|]. by exists e, t.
  - exists n. split; [|done]. apply in_or_app. right. by left.
Qed.
Lemma CreateFromEvent_ok evs d tenant e t r d' : NoDup (map ev_id evs) -> feed_ok evs d -> In e evs -> In t (notifTargetsFor e) ->
  ev_tenant e = Some tenant -> CreateFromEvent tenant (ev_id e) (target_input e t) d = (r, d') ->
  feed_ok evs d' /\ notes_kept d d' /\ (forall x, r = Ok x -> has_note d' e t).
Proof.
  intros Hu Hd He Ht Et Hc. unfold CreateFromEvent in Hc. cbn [ci_user target_input] in Hc.
  destruct (exists_where _ _) eqn:Ex.
  - destruct (first_where _ _) as [n|] eqn:Ef; injection Hc as <- <-; split; [done| |done|]; (split; [reflexivity|]); [intros x Hx|done].
    apply first_where_some in Ef as [Hn (E1 & E2 & E3)%bool_decide_eq_true_1]. exists n. split; [done|].
    destruct (proj2 Hd n Hn) as (e' & t' & He' & Ht' & Hf); [apply bool_decide_eq_true_2; congruence|].
    pose proof Hf as (F1 & F2 & F3 & _). rewrite E2 in F2. injection F2 as F2.
    assert (e' = e) as -> by (by eapply event_unique). assert (t' = t) as ->; [|done].
    eapply target_unique; [apply targets_for|done|done|congruence].
  - destruct (insert_note _ _ _ _) as [[n d1]|err] eqn:Ei; injection Hc as <- <-.
    + destruct (insert_note_ok evs d tenant e t n d1) as (F1 & F2 & F3); [done..|]. split_and!; [done..|]. by intros.
    + split; [done|]. split; [reflexivity|done].
Qed.

(** ** Handlers *)

Lemma feed_ok_notes evs d d' : dk_notes d' = dk_notes d -> feed_ok evs d -> feed_ok evs d'.
Proof. intros E. unfold feed_ok. by rewrite E. Qed.
Lemma kept_notes d d' : dk_notes d' = dk_notes d -> notes_kept d d'.
Proof. intros E n Hn. exists n. rewrite E. split; [done|by left]. Qed.

Section Bus.
Context (broken : Event -> notifTarget -> Z -> bool) (commit_fails : Event -> Z -> bool) (undelivered : string -> bool).
Context (uuid_parse : string -> option uuid).
Abbreviation the_bus := (api_bus broken commit_fails undelivered uuid_parse).
Abbreviation feed_handler := (notification_handler broken undelivered).

Definition safe_handler (h : Handler Desk) : Prop :=
  forall evs e d r d', NoDup (map ev_id evs) -> In e evs -> feed_ok evs d -> h e d = (r, d') -> feed_ok evs d' /\ notes_kept d d'.

Lemma notify_ok evs tenant e l : NoDup (map ev_id evs) -> In e evs -> ev_tenant e = Some tenant ->
  (forall t, In t l -> In t (notifTargetsFor e)) ->
  forall d r d', feed_ok evs d -> notify broken undelivered tenant e l d = (r, d') ->
  feed_ok evs d' /\ notes_kept d d' /\ (r = None -> forall t, In t l -> has_note d' e t).
Proof.
  intros Hu He Et. induction l as [|t l IH]; intros Hl d r d' Hd Hn; cbn [notify] in Hn; [by injection Hn as <- <-|].
  destruct (broken e t (dk_now d)); [by injection Hn as <- <-|].
  destruct (CreateFromEvent tenant (ev_id e) (target_input e t) d) as [res d1] eqn:Ec.
  destruct (CreateFromEvent_ok evs d tenant e t res d1) as (F1 & F2 & F3); [done|done|done|apply Hl; by left|done|done|].
  destruct res as [[n fresh]|err]; [|by injection Hn as <- <-].
  set (d2 := if fresh && _ then _ else d1) in Hn.
  assert (E2 : dk_notes d2 = dk_notes d1) by (unfold d2; by destruct (fresh && _)).
  destruct (IH ltac:(intros t' Ht'; apply Hl; by right) d2 r d') as (G1 & G2 & G3); [by apply (feed_ok_notes evs d1)|done|].
  split; [done|]. split; [etrans; [done|]; etrans; [by apply kept_notes|done]|].
  intros Hr t' [<-|Ht']; [|by apply G3]. eapply has_note_kept; [exact G2|].
  eapply has_note_kept; [by apply kept_notes|by eapply F3].
Qed.
Lemma safe_feed : safe_handler feed_handler.
Proof.
  intros evs e d r d' Hu He Hd Hh. unfold notification_handler in Hh. destruct (ev_tenant e) as [tenant|] eqn:Et; [|by injection Hh as <- <-].
  by destruct (notify_ok evs tenant e (notifTargetsFor e) Hu He Et ltac:(done) d r d' Hd Hh) as (F1 & F2 & _).
Qed.
Lemma feed_delivers evs e d d' t : NoDup (map ev_id evs) -> In e evs -> feed_ok evs d -> feed_handler e d = (None, d') ->
  ev_tenant e <> None -> In t (notifTargetsFor e) -> has_note d' e t.
Proof.
  intros Hu He Hd Hh Ht Hin. unfold notification_handler in Hh. destruct (ev_tenant e) as [tenant|] eqn:Et; [|done].
  destruct (notify_ok evs tenant e (notifTargetsFor e) Hu He Et ltac:(done) d None d' Hd Hh) as (_ & _ & F3). by apply F3.
Qed.
Lemma safe_quiet (h : Handler Desk) : (forall e d, dk_notes (h e d).2 = dk_notes d) -> safe_handler h.
Proof.
  intros Hq evs e d r d' _ _ Hd Hh. pose proof (Hq e d) as E. rewrite Hh in E. simpl in E.
  split; [by apply (feed_ok_notes evs d)|by apply kept_notes].
Qed.
Lemma safe_revenue : safe_handler (revenue_consumer commit_fails uuid_parse).
Proof.
  apply safe_quiet. intros e d. unfold revenue_consumer. destruct (ev_tenant e); [|done]. destruct (ev_actor e); [|done].
  destruct (uuid_parse _); [|done]. destruct (PostShiftRevenueJournal _ _ _ _ _) as [[[x|] b]|]; [|done|done]. by destruct (commit_fails _ _).
Qed.

(** ** The bus *)

Lemma handlers_subscribe {W} t u (h : Handler W) b : handlers_of (Subscribe t h b) u = if bool_decide (u = t) then handlers_of b t ++ [h] else handlers_of b u.
Proof.
  unfold Subscribe, handlers_of, InProcessBus in *.
  case_bool_decide as E; [subst u; by rewrite (lookup_insert_eq (M := gmap string))|]. by rewrite (lookup_insert_ne (M := gmap string)).
Qed.
Definition all_safe (b : InProcessBus Desk) : Prop := forall t, Forall safe_handler (handlers_of b t).
Lemma safe_subscribe t h b : safe_handler h -> all_safe b -> all_safe (Subscribe t h b).
Proof. intros Hh Hb u. rewrite handlers_subscribe. case_bool_decide; [apply Forall_app; split; [apply Hb|by apply Forall_singleton]|apply Hb]. Qed.
Lemma safe_fold l : forall b, all_safe b -> all_safe (List.fold_left (fun b t => Subscribe t feed_handler b) l b).
Proof. induction l as [|t l IH]; intros b Hb; simpl; [done|]. apply IH, safe_subscribe; [apply safe_feed|done]. Qed.
Lemma bus_safe : all_safe the_bus.
Proof.
  unfold api_bus, subscribeNotifications. apply safe_fold, safe_subscribe; [apply safe_revenue|].
  apply safe_subscribe; [by apply safe_quiet|]. intros t. apply Forall_nil_2.
Qed.
Lemma fold_keeps l t h : forall b, In h (handlers_of b t) -> In h (handlers_of (List.fold_left (fun b t => Subscribe t feed_handler b) l b) t).
Proof.
  induction l as [|u l IH]; intros b Hb; simpl; [done|]. apply IH. rewrite handlers_subscribe. case_bool_decide as E; [|done].
  subst u. apply in_or_app. by left.
Qed.
Lemma fold_adds l t : forall b, In t l -> In feed_handler (handlers_of (List.fold_left (fun b t => Subscribe t feed_handler b) l b) t).
Proof.
  induction l as [|u l IH]; intros b Ht; [done|]. simpl. destruct Ht as [->|Ht]; [|by apply IH].
  apply fold_keeps. rewrite handlers_subscribe, bool_decide_eq_true_2 by done. apply in_or_app. right. by left.
Qed.

Lemma run_handlers_ok evs e hs : NoDup (map ev_id evs) -> In e evs -> Forall safe_handler hs ->
  forall d errs d', feed_ok evs d -> run_handlers hs e d = (errs, d') ->
  feed_ok evs d' /\ notes_kept d d'
  /\ (errs = [] -> In feed_handler hs -> ev_tenant e <> None -> forall t, In t (notifTargetsFor e) -> has_note d' e t).
Proof.
  intros Hu He. induction hs as [|h hs IH]; intros Hs d errs d' Hd Hr; cbn [run_handlers] in Hr; [by injection Hr as <- <-|].
  apply Forall_cons in Hs as [Hh Hs]. destruct (h e d) as [err d1] eqn:E1. destruct (run_handlers hs e d1) as [errs1 d2] eqn:E2.
  injection Hr as <- <-. destruct (Hh evs e d err d1 Hu He Hd E1) as [F1 F2].
  destruct (IH Hs d1 errs1 d2 F1 E2) as (G1 & G2 & G3). split; [done|]. split; [by etrans|].
  intros Ee Hin Ht t Htg. destruct err; [done|]. destruct Hin as [->|Hin]; [|by apply G3].
  eapply has_note_kept; [exact G2|]. by eapply (feed_delivers evs e d d1 t).
Qed.
(** A delivery without error leaves every notification of a subscribed event. *)
Lemma Publish_ok evs e d ok d' : NoDup (map ev_id evs) -> In e evs -> feed_ok evs d -> Publish the_bus e d = (ok, d') ->
  feed_ok evs d' /\ notes_kept d d'
  /\ (ok = true -> In (ev_type e) subscribedEventTypes -> ev_tenant e <> None -> forall t, In t (notifTargetsFor e) -> has_note d' e t).
Proof.
  intros Hu He Hd Hp. unfold Publish in Hp. destruct (run_handlers (matching the_bus e) e d) as [errs d1] eqn:Er.
  injection Hp as <- <-. destruct (run_handlers_ok evs e (matching the_bus e) Hu He) with d errs d1 as (F1 & F2 & F3); [|done|done|].
  { apply Forall_app. split; apply bus_safe. }
  split; [done|]. split; [done|]. intros Hok Ht. destruct errs; [|done]. apply F3; [done|].
  apply in_or_app. left. by apply fold_adds.
Qed.
End Bus.
