(* ===== verification/FeedRuns.v ===== *)
(** * The outbox and the feed: theorems and sample runs *)

From stdpp Require Import base list strings gmap.
From Stdlib Require Import ZArith Lia Ascii.
From S2P Require Import CloseProps Prelude Numeric Schema Accounting Policy Operations Workforce WorkforceHandlers Readings Revenue Frames Sessions Events EventsProps Notifications FeedProps AccountingProps.

Local Open Scope Z_scope.

(** ** What else happens to the feed *)

(** Requests of its readers, notifications that no event raised, and anything that leaves
    the rows alone. *)
Inductive desk_step (d : Desk) : Desk -> Prop :=
| ds_read ctx id : desk_step d (handleMarkNotificationRead ctx id d).2
| ds_read_all ctx : desk_step d (handleMarkAllNotificationsRead ctx d).2
| ds_create tenant i : desk_step d (notifications_Create tenant i d).2
| ds_prefer ctx body : desk_step d (handleUpsertNotificationPreference ctx body d).2
| ds_other d' : dk_notes d' = dk_notes d -> desk_step d d'.

Lemma read_ok evs d q now : feed_ok evs d ->
  feed_ok evs (put_notes (update_where q (read_at now) (dk_notes d)) d) /\ notes_kept d (put_notes (update_where q (read_at now) (dk_notes d)) d).
Proof.
  intros [Hd Hf]. split; [split|].
  - cbn [dk_notes put_notes]. assert (E : note_key <$> select from_event (update_where q (read_at now) (dk_notes d))
      = note_key <$> select from_event (dk_notes d)); [|by rewrite E].
    clear Hd Hf. induction (dk_notes d) as [|n l IH]; [done|]. cbn [update_where map]. rewrite !select_cons.
    assert (E : from_event (if q n then read_at now n else n) = from_event n) by (by destruct (q n)). rewrite E.
    destruct (from_event n); [|exact IH]. cbn [fmap list_fmap]. f_equal; [by destruct (q n)|exact IH].
  - intros n Hn Hs. simpl in Hn. apply in_update_where in Hn as (n0 & Hn0 & ->).
    destruct (Hf n0 Hn0) as (e & t & He & Ht & Hfor); [by destruct (q n0)|]. exists e, t. split_and!; [done..|]. by destruct (q n0).
  - intros n Hn. exists (if q n then read_at now n else n). split; [apply in_update_where; by exists n|].
    destruct (q n); [right; eauto|by left].
Qed.
Lemma desk_step_ok evs d d' : desk_step d d' -> feed_ok evs d -> feed_ok evs d' /\ notes_kept d d'.
Proof.
  intros Hst Hd. destruct Hst as [ctx id|ctx|tenant i|ctx body|d' E].
  - unfold handleMarkNotificationRead, sbind, slift. destruct (ops_actor ctx) as [a|]; [|by split]. destruct (url_id _ id) as [k|]; [|by split].
    unfold sconv, MarkRead. destruct (exists_where _ _); [by apply read_ok|]. by destruct (exists_where _ _).
  - unfold handleMarkAllNotificationsRead, sbind, slift. destruct (ops_actor ctx) as [a|]; [|by split]. by apply read_ok.
  - unfold notifications_Create, insert_note. destruct (negb _); [by split|]. destruct (negb _); [by split|]. simpl.
    destruct Hd as [Hd Hf]. split; [split|by eapply kept_app].
    + cbn [dk_notes put_notes]. rewrite select_app. simpl. by rewrite app_nil_r.
    + intros n Hn Hs. simpl in Hn. apply in_app_or in Hn as [Hn|[<-|[]]]; [by apply Hf|done].
  - enough (E : dk_notes (handleUpsertNotificationPreference ctx body d).2 = dk_notes d)
      by (split; [by apply (feed_ok_notes evs d)|by apply kept_notes]).
    unfold handleUpsertNotificationPreference, sbind, slift, sguard, inTx, run_tx. destruct (ops_actor ctx) as [a|]; [|done].
    destruct body as [q|]; [|done]. destruct (bool_decide _); [|done]. destruct (bool_decide _); [|done].
    destruct (of_option _ _) as [en|]; [|done]. destruct (normalizeQuietHours _ _) as [w|]; [|done].
    destruct (tbind _ _ d) as [[p d1]|] eqn:E; [|done]. simpl. tx_steps E. subst.
    match goal with H : preferences_Upsert _ _ _ _ = _ |- _ => unfold preferences_Upsert in H; tx_steps H end;
      simplify_eq; unfold desk_audit, tbind, tget, tput in *; simplify_eq; done.
  - split; [by apply (feed_ok_notes evs d)|by apply kept_notes].
Qed.

(** ** Runs *)

Section Runs.
Context (broken : Event -> notifTarget -> Z -> bool) (commit_fails : Event -> Z -> bool) (undelivered : string -> bool).
Context (uuid_parse : string -> option uuid) (size : nat) (known : Event -> bool).
Abbreviation the_bus := (api_bus broken commit_fails undelivered uuid_parse).
Abbreviation feed_step := (step the_bus size known desk_step).

(** At the start no event and no row that names one. *)
Definition feed_start (s : Sys) : Prop := started s /\ forall n, In n (dk_notes (sy_world s)) -> nt_source n = None.
Definition feed_reachable (s : Sys) : Prop := exists s0, feed_start s0 /\ rtc feed_step s0 s.

Abbreviation events s := (map ox_event (sy_rows (W := Desk) s)).
Record feed_inv (s : Sys) : Prop := {
  fi_sys : sys_ok s;
  fi_feed : feed_ok (events s) (sy_world s);
  fi_log : forall i ok, In (i, ok) (sy_log s) -> In i (map ev_id (events s));
  fi_sent : forall e t, In e (events s) -> In (ev_id e, true) (sy_log s) -> In (ev_type e) subscribedEventTypes ->
    ev_tenant e <> None -> In t (notifTargetsFor e) -> has_note (sy_world s) e t;
}.
Lemma event_ids s : sys_ok s -> NoDup (map ev_id (events s)).
Proof. intros Hs. rewrite map_map. apply Hs. Qed.
Lemma feed_ok_more evs evs' d : (forall e, In e evs -> In e evs') -> feed_ok evs d -> feed_ok evs' d.
Proof. intros Hi [Hd Hf]. split; [done|]. intros n Hn Hs. destruct (Hf n Hn Hs) as (e & t & He & R). exists e, t. split; [by apply Hi|done]. Qed.
(** Steps that leave the events, the log and the world alone. *)
Lemma inv_same s s' : feed_inv s -> sys_ok s' -> events s' = events s -> sy_world s' = sy_world s -> sy_log s' = sy_log s -> feed_inv s'.
Proof.
  intros [H1 H2 H3 H4] Hs Ee Ew El. split; [done|..].
  - by rewrite Ee, Ew.
  - by rewrite Ee, El.
  - intros e t. rewrite Ee, Ew, El. apply H4.
Qed.
Lemma inv_world s w : feed_inv s -> desk_step (sy_world s) w -> feed_inv (mkSys (sy_rows s) (sy_busy s) w (sy_log s) (sy_now s)).
Proof.
  intros [H1 H2 H3 H4] Hw. destruct (desk_step_ok _ _ _ Hw H2) as [F1 F2]. split; simpl; [by destruct H1|done|done|].
  intros e t He Hl Ht Hn Htg. eapply has_note_kept; [exact F2|]. by apply H4.
Qed.
Lemma inv_write s fresh e rows : feed_inv s -> WriteOutbox known fresh (sy_now s) e (sy_rows s) = Ok (tt, rows) ->
  feed_inv (mkSys rows (sy_busy s) (sy_world s) (sy_log s) (sy_now s)).
Proof.
  intros [H1 H2 H3 H4] Hw. pose proof (ok_write known s fresh e rows Hw H1) as Hs. pose proof (event_ids _ Hs) as Hnd. simpl in Hnd.
  assert (Er : exists x, map ox_event rows = events s ++ [x]).
  { unfold WriteOutbox in Hw. tx_steps Hw. injection Hw as <-. rewrite map_app. by eexists. }
  destruct Er as [x Er]. rewrite Er in Hnd. split; simpl; [done|..]; rewrite ?Er.
  - eapply feed_ok_more; [|exact H2]. intros y Hy. apply in_or_app. by left.
  - intros i ok Hi. rewrite map_app. apply in_or_app. left. by eapply H3.
  - intros y t Hy Hl Ht Hn Htg. apply in_app_or in Hy as [Hy|[<-|[]]]; [by apply H4|]. exfalso.
    rewrite map_app in Hnd. apply NoDup_app in Hnd as (_ & Hnd & _). apply (Hnd (ev_id x)).
    + apply list_elem_of_In. by eapply H3.
    + apply list_elem_of_singleton. done.
Qed.
Lemma inv_send s p b x rest b' w' : feed_inv s -> sy_busy s !! p = Some b -> ba_todo b = x :: rest ->
  dispatch the_bus x rest b (sy_world s) = (b', w') ->
  feed_inv (mkSys (sy_rows s) (<[p := b']> (sy_busy s)) w' (sy_log s ++ [(ox_id x, (Publish the_bus (ox_event x) (sy_world s)).1)]) (sy_now s)).
Proof.
  intros [H1 H2 H3 H4] Hp Et Hd.
  assert (Hx : In (ox_event x) (events s)).
  { apply in_map. apply (bo_todo _ _ _ (so_batches _ H1 p b Hp)). rewrite Et. by left. }
  pose proof (event_ids s H1) as Hu. destruct (Publish the_bus (ox_event x) (sy_world s)) as [ok w1] eqn:Epub.
  assert (w1 = w') as -> by (unfold dispatch in Hd; rewrite Epub in Hd; by injection Hd as _ <-).
  destruct (Publish_ok _ _ _ _ (events s) (ox_event x) (sy_world s) ok w' Hu Hx H2 Epub) as (F1 & F2 & F3).
  pose proof (ok_send the_bus desk_step s p b x rest b' w' Hp Et Hd H1) as Hs. rewrite Epub in Hs. split; simpl; [exact Hs|done| |].
  - intros i o [Hi|[[= <- <-]|[]]]%in_app_or; [by eapply H3|]. by apply (in_map ev_id) in Hx.
  - intros e t He Hl Ht Hn Htg. apply in_app_or in Hl as [Hl|[E|[]]].
    + eapply has_note_kept; [exact F2|]. by apply H4.
    + injection E as Ei Eo. assert (e = ox_event x) as -> by (by eapply event_unique). by apply F3.
Qed.
Lemma feed_step_inv s s' : feed_step s s' -> feed_inv s -> feed_inv s'.
Proof.
  intros Hst Hi. pose proof (step_ok _ _ _ _ s s' Hst (fi_sys _ Hi)) as Hs.
  destruct Hst as [fresh e rows Hw|p Hp|p b x rest b' w' ok Hp Et Hd ->|p b Hp Et|p|after Ha|w Hw|d].
  - by eapply inv_write.
  - by apply (inv_same s).
  - by eapply inv_send.
  - apply (inv_same s); [done|done| |done|done]. simpl. rewrite settle_map, map_map. apply map_ext. intros r. apply settled_event.
  - by apply (inv_same s).
  - apply (inv_same s); [done|done| |done|done]. simpl. destruct (0 <? after); simpl; [|done]. unfold update_where. rewrite map_map.
    apply map_ext. intros r. by destruct (parked _ r).
  - by apply inv_world.
  - by apply (inv_same s).
Qed.
Lemma feed_reachable_inv s : feed_reachable s -> feed_inv s.
Proof.
  intros (s0 & [Hst Hn] & Hr). assert (H0 : feed_inv s0).
  { assert (Hs : sys_ok s0) by (apply (reachable_ok the_bus size known desk_step); exists s0; split; [done|apply rtc_refl]).
    destruct Hst as (E1 & E2 & E3). split; [done|..]; rewrite ?E1, ?E3; simpl; [|done|done]. split.
    - rewrite select_none; [apply NoDup_nil_2|]. intros n Hin. unfold from_event. by rewrite (Hn n Hin).
    - intros n Hin Hf. unfold from_event in Hf. by rewrite (Hn n Hin) in Hf. }
  clear Hst Hn. induction Hr as [|x y z Hxy _ IH]; [done|]. by apply IH, (feed_step_inv x).
Qed.
End Runs.

(** ** The outbox *)

Lemma run_ok {W} (bus : InProcessBus W) size known evolves s s' : rtc (step bus size known evolves) s s' -> sys_ok s -> sys_ok s'.
Proof. induction 1 as [|x y z Hxy _ IH]; [done|]. intros Hx. by apply IH, (step_ok bus size known evolves x). Qed.

(** C33. Over every interleaving of writers, of any number of publishers that may crash at
    any moment and lose their record, and of the sweep of dead letters: an event is
    marked published only after a run in which every subscribed handler returned
    without error; it is parked only after ten failed runs; the attempt count on an
    event's row never exceeds the failed runs there were, and while the event is
    pending the count is below ten (the runs may be more: a crash loses the record of
    one and the sweep sets the count back); no two publishers hold the same event, and
    what a publisher is about to deliver is pending; events are never changed or
    removed.  The publisher's tick is such a run of steps. *)
Theorem outbox_sound {W : Type} (bus : InProcessBus W) (size : nat) (known : Event -> bool) (evolves : W -> W -> Prop) (s : Sys) :
  reachable bus size known evolves s ->
  (forall r, In r (sy_rows s) -> row_ok (sy_log s) r)
  /\ (forall p q b c i, sy_busy s !! p = Some b -> sy_busy s !! q = Some c -> In i (held b) -> In i (held c) -> p = q)
  /\ (forall p b x, sy_busy s !! p = Some b -> In x (ba_todo b) -> In x (sy_rows s) /\ pending x = true)
  /\ (forall s', rtc (step bus size known evolves) s s' -> (map ox_event (sy_rows s)) `prefix_of` (map ox_event (sy_rows s')))
  /\ (forall p, sy_busy s !! p = None ->
      let r := processOnce bus size (locked (sy_busy s)) (sy_now s) (sy_rows s) (sy_world s) in
      exists log, rtc (step bus size known evolves) s (mkSys r.1 (sy_busy s) r.2 log (sy_now s))).
Proof.
  intros Hr. pose proof (reachable_ok bus size known evolves s Hr) as [H1 H2 H3 H4]. split; [done|]. split; [done|]. split; [|split].
  - intros p b x Hb Hx. by apply (bo_todo _ _ _ (H3 p b Hb)).
  - intros s'. apply run_prefix.
  - intros p Hp. by apply (tick_steps bus size known evolves s p).
Qed.

(** *** Draining *)

Section Drain.
Context {W : Type} (bus : InProcessBus W) (size : nat).

(** Ticks of one publisher, at the instants of a clock. *)
Fixpoint ticks (clock : nat -> Z) (n : nat) (rows : list OutboxRow) (w : W) : list OutboxRow * W :=
  match n with
  | O => (rows, w)
  | S n => let '(rows', w') := processOnce bus size [] (clock n) rows w in ticks clock n rows' w'
  end.

Definition rows_ok (rows : list OutboxRow) : Prop := exists l, NoDup (map ox_id rows) /\ forall r, In r rows -> row_ok l r.
Definition weight_of (rows : list OutboxRow) : Z := sum_by weight rows.
Lemma weight_row l r : row_ok l r -> 0 <= weight r <= MaxOutboxAttempts.
Proof.
  intros [Ha Hx]. unfold weight. destruct (pending r) eqn:Ep; [|unfold MaxOutboxAttempts; lia].
  apply pending_not in Ep as [E1 E2]. rewrite E1, E2 in Hx. lia.
Qed.
Lemma weight_bound l rows : (forall r, In r rows -> row_ok l r) ->
  0 <= weight_of rows <= MaxOutboxAttempts * Z.of_nat (length (select pending rows)).
Proof.
  unfold weight_of. induction rows as [|r rows IH]; intros Hr; simpl; [unfold MaxOutboxAttempts; lia|].
  pose proof (weight_row l r (Hr r (or_introl eq_refl))). specialize (IH ltac:(intros x Hx; apply Hr; by right)).
  assert (Hw : pending r = false -> weight r = 0) by (intros Ep; unfold weight; by rewrite Ep).
  destruct (pending r) eqn:Ep; simpl; [unfold MaxOutboxAttempts in *; lia|]. rewrite Hw by done. lia.
Qed.
Context (Hsize : (0 < size)%nat).
Lemma poll_none rows : poll size [] rows = [] -> forall r, In r rows -> pending r = false.
Proof.
  intros Hp r Hr. destruct (pending r) eqn:Ep; [|done]. exfalso.
  assert (Hin : In r (select (fun r => pending r && negb (bool_decide (ox_id r ∈ []))) rows)).
  { apply in_select. split; [done|]. rewrite Ep. apply negb_true_iff, bool_decide_eq_false_2. by intros ?%not_elem_of_nil. }
  apply list_elem_of_In in Hin. rewrite <- (order_by_perm earlier) in Hin.
  unfold poll, limit_offset in Hp. rewrite drop_0 in Hp. destruct (order_by earlier _) as [|x l]; [by apply not_elem_of_nil in Hin|].
  destruct size; [lia|done].
Qed.
Lemma tick_weight now rows w : rows_ok rows -> poll size [] rows <> [] ->
  rows_ok (processOnce bus size [] now rows w).1 /\ weight_of (processOnce bus size [] now rows w).1 < weight_of rows.
Proof.
  intros (l & Hd & Hr) Hne. set (s := mkSys rows ∅ w l now).
  assert (Hs : sys_ok s) by (split; simpl; [done|done|by intros p b Hb|by intros p q b c i Hb]).
  destruct (tick_run bus size (fun _ => true) eq s 0 ltac:(done)) as (b & log & Hrun & Et & Hp & E1).
  change (locked (sy_busy s)) with (@nil uuid) in *. simpl in Hp, E1, Hrun.
  set (s1 := mkSys rows _ _ log now) in Hrun. assert (Hs1 : sys_ok s1) by (by eapply run_ok; [exact Hrun|]).
  assert (Hb : batch_ok log rows b) by (by apply (so_batches _ Hs1 0%nat); apply lookup_insert_eq).
  pose proof (so_rows _ Hs1) as Hr1. simpl in Hr1. rewrite E1, settle_map. split.
  - exists log. split; [rewrite map_map; erewrite map_ext; [exact Hd|]; intros r; apply settled_id|].
    intros r Hin. apply in_map_iff in Hin as (r0 & <- & Hin). apply (settled_ok log rows); [done|done|done|done|by apply Hr1].
  - destruct (poll size [] rows) as [|x rest] eqn:Ep; [done|].
    assert (Hx : In x rows) by (by eapply (in_poll size [] rows x); rewrite Ep; left).
    assert (Hxh : In (ox_id x) (held b)) by (apply list_elem_of_In; rewrite Hp; apply list_elem_of_In; by left).
    unfold weight_of. apply in_split in Hx as (r1 & r2 & Er). 
    assert (Hle : forall t, (forall r, In r t -> In r rows) -> sum_by weight (map (settled b now) t) <= sum_by weight t).
    { induction t as [|r t IH]; intros Hin; simpl; [lia|].
      destruct (weight_settled log rows b now r Hd Hb Et (Hin r (or_introl eq_refl)) (Hr1 r (Hin r (or_introl eq_refl)))) as [? _].
      specialize (IH ltac:(intros y Hy; apply Hin; by right)). lia. }
    assert (Hlt : weight (settled b now x) < weight x).
    { assert (In x rows) by (rewrite Er; apply in_or_app; right; by left). by apply (weight_settled log rows b now x Hd Hb Et); [|apply Hr1|]. }
    pose proof (Hle r1 ltac:(intros y Hy; rewrite Er; apply in_or_app; by left)).
    pose proof (Hle r2 ltac:(intros y Hy; rewrite Er; apply in_or_app; right; by right)).
    rewrite Er, map_app, !sum_by_app. simpl. lia.
Qed.
Lemma ticks_idle clock n rows w : poll size [] rows = [] -> ticks clock n rows w = (rows, w).
Proof. intros Hp. induction n as [|n IH]; simpl; [done|]. unfold processOnce. by rewrite Hp. Qed.
Lemma ticks_drain clock : forall n rows w, rows_ok rows -> weight_of rows <= Z.of_nat n ->
  forall r, In r (ticks clock n rows w).1 -> pending r = false.
Proof.
  induction n as [|n IH]; intros rows w Hok Hn.
  - intros r Hr. destruct (pending r) eqn:Ep; [|done]. simpl in Hr. destruct Hok as (l & _ & Hrows).
    assert (0 < weight_of rows); [|lia]. unfold weight_of. apply in_split in Hr as (r1 & r2 & Er).
    assert (Hnn : forall t, (forall y, In y t -> In y rows) -> 0 <= sum_by weight t).
    { intros t Ht. apply sum_by_nonneg. intros y Hy. by destruct (weight_row l y (Hrows y (Ht y Hy))). }
    pose proof (Hnn r1 ltac:(intros y Hy; rewrite Er; apply in_or_app; by left)).
    pose proof (Hnn r2 ltac:(intros y Hy; rewrite Er; apply in_or_app; right; by right)).
    destruct (Hrows r) as [Ha Hx]; [rewrite Er; apply in_or_app; right; by left|]. rewrite Er, sum_by_app. simpl. unfold weight at 2.
    rewrite Ep. apply pending_not in Ep as [E1 E2]. rewrite E1, E2 in Hx. lia.
  - destruct (poll size [] rows) as [|x rest] eqn:Ep.
    + rewrite ticks_idle by done. simpl. by apply poll_none.
    + simpl. destruct (tick_weight (clock n) rows w Hok ltac:(by rewrite Ep)) as [F1 F2].
      destruct (processOnce bus size [] (clock n) rows w) as [rows' w']. simpl in *. apply IH; [done|lia].
Qed.
End Drain.

Lemma select_key {R K} (key : R -> K) (p q : R -> bool) t n : NoDup (key <$> select q t) ->
  (forall x, p x = true -> q x = true /\ key x = key n) -> In n t -> p n = true -> select p t = [n].
Proof.
  induction t as [|x t IH]; intros Hd Hp Hn Hpn; [done|]. rewrite select_cons in Hd |- *. destruct (p x) eqn:Ep.
  - destruct (Hp x Ep) as [Eq Ek]. rewrite Eq in Hd. apply NoDup_cons in Hd as [Hx Hd].
    assert (Hnone : forall y, In y t -> p y = false).
    { intros y Hy. destruct (p y) eqn:Epy; [|done]. destruct (Hp y Epy) as [Eqy Eky]. destruct Hx. rewrite Ek, <- Eky.
      apply list_elem_of_fmap_2, list_elem_of_In, in_select. done. }
    rewrite select_none by done. destruct Hn as [->|Hn]; [done|]. by rewrite (Hnone n Hn) in Hpn.
  - destruct Hn as [->|Hn]; [congruence|]. apply IH; [|done..]. destruct (q x); [apply NoDup_cons in Hd as [_ Hd]; exact Hd|exact Hd].
Qed.

(** C35. A publisher alone empties the outbox, whatever its handlers do: from any state of
    the system in which no other holds rows, after ten ticks for each pending event
    every event is published or parked, in batches of any size. *)
Theorem outbox_drains {W : Type} (bus : InProcessBus W) (size : nat) (known : Event -> bool) (evolves : W -> W -> Prop)
    (clock : nat -> Z) (n : nat) (s : Sys) :
  (0 < size)%nat -> reachable bus size known evolves s ->
  (Z.to_nat MaxOutboxAttempts * length (select pending (sy_rows s)) <= n)%nat ->
  forall r, In r (ticks bus size clock n (sy_rows s) (sy_world s)).1 -> ox_published r <> None \/ ox_failed r <> None.
Proof.
  intros Hsize Hr Hn r Hin. pose proof (reachable_ok bus size known evolves s Hr) as [H1 H2 _ _].
  assert (Hp : pending r = false).
  { refine (ticks_drain bus size Hsize clock n (sy_rows s) (sy_world s) _ _ r Hin); [by exists (sy_log s)|].
    pose proof (weight_bound (sy_log s) (sy_rows s) H2). unfold MaxOutboxAttempts in *. lia. }
  destruct (ox_published r) eqn:E1; [by left|]. destruct (ox_failed r) eqn:E2; [by right|].
  exfalso. assert (pending r = true) by (by apply pending_not). congruence.
Qed.

(** C34. Deliveries repeat, notifications do not: over every interleaving of publishers,
    their crashes, the sweep, and the requests of the feed's readers, an event of a
    tenant that is marked published has, for each of its targets, the notification
    the mapping gives, and no other row of the feed has that event and target. *)
Theorem feed_exactly_once (broken : Event -> notifTarget -> Z -> bool) (commit_fails : Event -> Z -> bool)
    (undelivered : string -> bool) (uuid_parse : string -> option uuid) (size : nat) (known : Event -> bool) (s : Sys) (r : OutboxRow) t :
  feed_reachable broken commit_fails undelivered uuid_parse size known s ->
  In r (sy_rows s) -> ox_published r <> None -> ev_tenant (ox_event r) <> None -> In (ev_type (ox_event r)) subscribedEventTypes ->
  In t (notifTargetsFor (ox_event r)) ->
  exists n, note_for (ox_event r) t n
    /\ select (about_target (ox_id r) (nt_tenant n) (tg_user t)) (dk_notes (sy_world s)) = [n].
Proof.
  intros Hre Hr Hp Hn Ht Htg. apply feed_reachable_inv in Hre as [F1 F2 F3 F4].
  assert (Hl : In (ox_id r, true) (sy_log s)).
  { destruct (so_rows _ F1 r Hr) as [_ Hx]. destruct (ox_published r); [|done]. by destruct (ox_failed r). }
  destruct (F4 (ox_event r) t (in_map _ _ _ Hr) Hl Ht Hn Htg) as (n & Hin & Hf). exists n. split; [done|].
  pose proof Hf as (E1 & E2 & E3 & _). destruct F2 as [Hd _].
  apply (select_key note_key _ from_event); [done| |done|by apply bool_decide_eq_true_2].
  intros m (M1 & M2 & M3)%bool_decide_eq_true_1. split; [apply bool_decide_eq_true_2; by rewrite M1|].
  unfold note_key. by rewrite M1, M2, M3, E2, E3.
Qed.

(** ** The outbox and the feed: concrete runs *)

Definition watcher : User := mkUser 5 1 "amina@acme.test" "Amina" UsActive None None None false None 0 None 0 0.
Definition desk_auth : Auth :=
  mkAuth [mkTenantRow 1 "acme" false] [watcher] [] [] (mkPolicyDb [] [] [] [] []) [] ∅ ∅ ∅ [] [] 100 0.
Definition desk0 : Desk := mkDesk [] [] [] desk_auth site0 empty_books [] 200 10.
Definition never3 (e : Event) (t : notifTarget) (now : Z) : bool := false.
Definition never2 (e : Event) (now : Z) : bool := false.
Definition reaches (s : string) : bool := false.
Definition no_parse (s : string) : option uuid := None.
Definition sample_bus : InProcessBus Desk := api_bus never3 never2 reaches no_parse.
Definition any_event (e : Event) : bool := true.

Definition incident : Event := mkEvent 50 (Some 1%N) "IncidentOpened" 1 "incident" "77" (Some 5%N) null_payload None (Some 3) "" "".
Definition incident_rows : list OutboxRow := [mkOutboxRow incident 0 None None].

(** A publisher delivers the event and crashes before it records it. *)
Definition opened : Sys := mkSys [] ∅ desk0 [] 10.
Definition written : Sys := mkSys incident_rows ∅ desk0 [] 10.
Definition taken : Batch := mkBatch incident_rows [] [].
Definition polled : Sys := mkSys incident_rows (<[0%nat := taken]> ∅) desk0 [] 10.
Definition done_batch : Batch := mkBatch [] [50%N] [].
Definition desk1 : Desk := (Publish sample_bus incident desk0).2.
Definition delivered : Sys := mkSys incident_rows (<[0%nat := done_batch]> (<[0%nat := taken]> ∅)) desk1 [(50%N, true)] 10.
Definition crashed : Sys := mkSys incident_rows (delete 0%nat (<[0%nat := done_batch]> (<[0%nat := taken]> ∅))) desk1 [(50%N, true)] 10.

Lemma crash_run : rtc (step sample_bus 2 any_event desk_step) opened crashed.
Proof.
  apply (rtc_l _ _ written). { apply (step_write _ _ _ _ opened 99 incident). vm_compute. reflexivity. }
  apply (rtc_l _ _ polled). { exact (step_poll sample_bus 2 any_event desk_step written 0%nat eq_refl). }
  apply (rtc_l _ _ delivered).
  { apply (step_send sample_bus 2 any_event desk_step polled 0%nat taken (mkOutboxRow incident 0 None None) [] done_batch desk1 true);
      [reflexivity|reflexivity| |vm_compute; reflexivity].
    unfold dispatch, desk1. destruct (Publish sample_bus incident desk0) as [ok w] eqn:E.
    assert (ok = true) as ->; [|cbn [ox_event sy_world polled]; by rewrite E].
    change ok with (ok, w).1. rewrite <- E. vm_compute. reflexivity. }
  apply rtc_once. exact (step_crash sample_bus 2 any_event desk_step delivered 0%nat).
Qed.
Lemma crash_feed : feed_reachable never3 never2 reaches no_parse 2 any_event crashed.
Proof. exists opened. split; [split; [split; [done|]; by split|done]|]. exact crash_run. Qed.

(** Another takes the event again. *)
Definition second_tick : list OutboxRow * Desk := processOnce sample_bus 2 (locked (sy_busy crashed)) 10 incident_rows desk1.
Definition incident_row : OutboxRow := mkOutboxRow incident 0 (Some 10) None.
Definition incident_target : notifTarget :=
  mkTarget (mkSpec "incident.opened" "Incident opened" "An incident was opened — check the incidents queue." SeverityCritical) None.
Lemma feed_exactly_once_witness :
  exists n, note_for (ox_event incident_row) incident_target n
    /\ select (about_target (ox_id incident_row) (nt_tenant n) (tg_user incident_target)) (dk_notes second_tick.2) = [n].
Proof.
  destruct (tick_steps sample_bus 2 any_event desk_step crashed 1%nat) as [log Hrun]; [vm_compute; reflexivity|].
  refine (feed_exactly_once never3 never2 reaches no_parse 2 any_event
    (mkSys second_tick.1 (sy_busy crashed) second_tick.2 log 10) incident_row incident_target _ _ _ _ _ _).
  - destruct crash_feed as (s0 & Hst & Hr). exists s0. split; [exact Hst|]. etrans; [exact Hr|exact Hrun].
  - vm_compute. by left.
  - done.
  - done.
  - vm_compute. tauto.
  - vm_compute. by left.
Defined.
(** One row and one mail, after two deliveries. *)
Example two_deliveries : length (dk_notes second_tick.2) = 1%nat /\ length (dk_mail second_tick.2) = 1%nat.
Proof. split; vm_compute; reflexivity. Qed.

Lemma outbox_sound_witness : row_ok (sy_log crashed) (mkOutboxRow incident 0 None None).
Proof.
  apply (outbox_sound sample_bus 2 any_event desk_step crashed); [|by left].
  exists opened. split; [split; [done|]; by split|exact crash_run].
Defined.

(** A handler that never succeeds: the event is parked after ten ticks. *)
Definition grumble : Handler unit := fun _ w => (Some "no"%string, w).
Definition bad_bus : InProcessBus unit := Subscribe "*" grumble NewInProcessBus.
Definition stuck : Sys := mkSys incident_rows ∅ tt [] 10.
Lemma outbox_drains_witness :
  exists r, (ticks bad_bus 1 (fun _ => 20) 10 incident_rows tt).1 = [r] /\ (ox_published r <> None \/ ox_failed r <> None).
Proof.
  exists (mkOutboxRow incident 10 None (Some 20)). split; [vm_compute; reflexivity|].
  apply (outbox_drains bad_bus 1 any_event eq (fun _ => 20) 10 stuck); [lia| |vm_compute; lia|vm_compute; by left].
  exists (mkSys [] ∅ tt [] 10). split; [split; [done|]; by split|]. apply rtc_once.
  apply (step_write bad_bus 1 any_event eq (mkSys [] ∅ tt [] 10) 99 incident incident_rows). vm_compute. reflexivity.
Defined.
Example parked_after_ten : (ticks bad_bus 1 (fun _ => 20) 10 incident_rows tt).1 = [mkOutboxRow incident 10 None (Some 20)].
Proof. vm_compute. reflexivity. Qed.

(** Any shift that took cash is announced as closed with a variance. *)
Example exact_cash_announced :
  let p := mkPayload None "" "" None None None "" "" "" "" None [] "1500.00" "0.00" in
  match notifSpecFor (mkEvent 51 (Some 1%N) "ShiftClosed" 1 "shift" "8" None p None None "" "") with
  | Some spec => ns_severity spec = SeverityWarning
  | None => False
  end.
Proof. reflexivity. Qed.
