(* ===== verification/Pricing.v ===== *)
(** * The selling price book (package [pricing]: repo.go; services/api/internal/
      server/pricing_handlers.go)

    Prices are appended with the time they take effect; the price in force at a
    time is the latest one effective by then.  The book is the [s_prices] table of
    [Readings], which recognition reads in [Revenue]; the routes are behind
    [price.change] and [pricing.read] at the station.  The application's clock and
    the database's are one. *)

From stdpp Require Import base list strings.
From Stdlib Require Import ZArith Lia.
From S2P Require Import Prelude Frames Numeric Schema Ledger Float64 Policy Operations Workforce WorkforceHandlers Readings ShiftClose Revenue FinanceHandlers OperationsProps CloseProps.

Local Open Scope Z_scope.
Local Open Scope tx_scope.

(** ** The book (repo.go) *)

Definition price_of (tenant station product : uuid) (p : PriceChange) : bool :=
  bool_decide (pc_tenant p = tenant /\ pc_station p = station /\ pc_product p = product).
(** The entries of the pair that are effective by [at_]. *)
Definition effective (tenant station product : uuid) (at_ : Z) (p : PriceChange) : bool :=
  price_of tenant station product p && (pc_from p <=? at_).

Definition ResolvePrice (s : Site) (tenant station product : uuid) (at_ : Z) : option Z :=
  pc_price <$> head (order_by price_le (select (effective tenant station product at_) (s_prices s))).

Record SetPriceInput := mkSetPrice {
  pi_station : uuid; pi_product : uuid; pi_price : dec; pi_from : option Z; pi_reason : option string; pi_by : uuid }.

Definition fk_product (s : Site) (tenant product : uuid) : bool :=
  exists_where (fun p => bool_decide (tp_tenant p = tenant /\ tp_id p = product)) (s_products s).

Definition SetPrice (tenant : uuid) (i : SetPriceInput) : Tx Site site_error PriceChange :=
  let! price := tlift (of_option SiteNumeric (numeric_col 14 4 (pi_price i))) in
  tguard (0 <=? price) SiteCheck ;;!
  let! id := fresh_id in
  let! s := tget in
  let p := mkPrice id tenant (pi_station i) (pi_product i) price (default (site_now s) (pi_from i))
    (ResolvePrice s tenant (pi_station i) (pi_product i) (site_now s)) (pi_reason i) (pi_by i) (site_now s) in
  tguard (fk_station (s_ops s) tenant (pi_station i) && fk_product s tenant (pi_product i)
          && fk_pair (op_users (s_ops s)) tenant (pi_by i)) SiteForeignKey ;;!
  tput (set_prices (s_prices s ++ [p]) s) ;;! tret p.

Record BoardEntry := mkBoard {
  be_product : uuid; be_code : string; be_name : string; be_color : string;
  be_active : option Z; be_next : option Z; be_next_from : option Z }.

(** [ORDER BY effective_from ASC, created_at ASC] *)
Definition sooner (a b : PriceChange) : bool :=
  (pc_from a <? pc_from b) || ((pc_from a =? pc_from b) && (pc_created a <=? pc_created b)).
Definition next_change (s : Site) (tenant station product : uuid) : option PriceChange :=
  head (order_by sooner (select (fun p => price_of tenant station product p && (site_now s <? pc_from p)) (s_prices s))).

Section Board.
Context (collate : string -> string -> bool).
Definition priced_product (s : Site) (tenant station : uuid) (p : TaxedProduct) : bool :=
  bool_decide (tp_tenant p = tenant) && negb (tp_deleted p)
  && exists_where (price_of tenant station (tp_id p)) (s_prices s).
Definition PriceBoard (s : Site) (tenant station : uuid) : list BoardEntry :=
  (fun p => let next := next_change s tenant station (tp_id p) in
     mkBoard (tp_id p) (tp_code p) (tp_name p) (tp_color p) (ResolvePrice s tenant station (tp_id p) (site_now s))
       (pc_price <$> next) (pc_from <$> next)) <$>
    order_by (named_le collate tp_name) (select (priced_product s tenant station) (s_products s)).
End Board.

Definition History (s : Site) (tenant station product : uuid) : list PriceChange :=
  order_by price_le (select (price_of tenant station product) (s_prices s)).
Definition price_id_le (a b : PriceChange) : bool :=
  (pc_from b <? pc_from a)
  || ((pc_from b =? pc_from a)
      && ((pc_created b <? pc_created a) || ((pc_created b =? pc_created a) && (pc_id a <=? pc_id b)%N))).
Definition HistoryPage (s : Site) (tenant station product : uuid) (limit offset : nat) : list PriceChange :=
  limit_offset limit offset (order_by price_id_le (select (price_of tenant station product) (s_prices s))).

(** ** The handlers (pricing_handlers.go) *)

(** [products.Get] *)
Definition products_Get (s : Site) (tenant product : uuid) : option TaxedProduct :=
  first_where (fun p => bool_decide (tp_id p = product /\ tp_tenant p = tenant) && negb (tp_deleted p)) (s_products s).

(** The lifetime average of the station's deliveries of the product, as SQL
    divides it. *)
Definition landed_cost (s : Site) (tenant station product : uuid) : option dec :=
  (fun '(n, d) => numeric_div (Dec n 7) (Dec d 3)) <$>
    AverageLandedCostForStationProduct (s_inv s) tenant station product.

(** [q_price] is [None] when [strconv.ParseFloat] refuses the text; [q_from] is
    absent when empty. *)
Record setPriceRequest := mkPriceRequest {
  q_product : uuid; q_price : option dec; q_from : option (result unit Z); q_reason : option string;
  q_below : bool }.

Definition asked_price (q : setPriceRequest) : result http_error (dec * float64) :=
  match q_price q with
  | Some d => match parseDecimal d with
              | Some v => if f_lt v (F64 0 0) then Err (bad_request "unit_price must be a non-negative decimal")
                          else Ok (d, v)
              | None => Err (bad_request "unit_price must be a non-negative decimal")
              end
  | None => Err (bad_request "unit_price must be a non-negative decimal")
  end.
(** Whether the landed cost is known and above the price.  The refusal quotes both
    amounts after its first words. *)
Definition below_cost (cost : option dec) (price : float64) : bool :=
  match cost with
  | Some c => match parseDecimal c with Some v => f_lt price v | None => false end
  | None => false
  end.

Definition set_price_error (e : site_error) : http_error :=
  if bool_decide (e = SiteForeignKey) then bad_request "product is not at this station's tenant" else ops_internal.
Definition price_action (from : option Z) (now : Z) : string :=
  match from with Some t => if now <? t then "price.scheduled" else "price.changed" | None => "price.changed" end.

Definition handleSetPrice (pool : Site) (ctx : option Actor) (station : result unit uuid)
    (body : result unit setPriceRequest) : Tx Site http_error PriceChange :=
  let! a := tlift (ops_actor ctx) in
  let! station := tlift (url_id "invalid station id" station) in
  let! q := tlift (json_body body) in
  tguard (negb (bool_decide (q_product q = uuid_nil))) (bad_request "product_id is required") ;;!
  let! (price, v) := tlift (asked_price q) in
  let! from := tlift (match q_from q with
    | None => Ok None
    | Some (Ok t) => Ok (Some t)
    | Some (Err _) => Err (bad_request "invalid effective_from (want RFC3339)")
    end) in
  let! _ := tlift (of_option (HttpError 404 "product not found") (products_Get pool (ac_tenant a) (q_product q))) in
  tguard (q_below q || negb (below_cost (landed_cost pool (ac_tenant a) station (q_product q)) v))
    (HttpError 422 "selling price is below landed cost; set allow_below_cost to override") ;;!
  let! p := tconv set_price_error
    (SetPrice (ac_tenant a) (mkSetPrice station (q_product q) price from (q_reason q) (ac_user a))) in
  let! s := tget in
  on_ops (ops_audit (ac_tenant a) (ac_user a) (price_action from (site_now s)) (pc_id p)) ;;! tret p.

Section Handlers.
Context (collate : string -> string -> bool) (cfgDefault cfgMax : Z).

Definition handlePriceBoard (pool : Site) (ctx : option Actor) (station : result unit uuid)
  : result http_error (list BoardEntry) :=
  (let? a := ops_actor ctx in
   let? station := url_id "invalid station id" station in
   Ok (PriceBoard collate pool (ac_tenant a) station))%res.

Definition handlePriceHistory (pool : Site) (ctx : option Actor) (station product : result unit uuid)
    (limit offset : option (result unit Z)) : result http_error (list PriceChange * bool) :=
  (let? a := ops_actor ctx in
   let? station := url_id "invalid station id" station in
   let? product := url_id "product_id query param is required" product in
   let? (l, o) := parsePage cfgDefault cfgMax limit offset in
   Ok (page_of l (HistoryPage pool (ac_tenant a) station product (Z.to_nat (l + 1)) (Z.to_nat o))))%res.
End Handlers.

(** ** Theorems *)

Lemma price_le_total a b : price_le a b = false -> price_le b a = true.
Proof. unfold price_le. lia. Qed.
Lemma price_le_trans a b c : price_le a b = true -> price_le b c = true -> price_le a c = true.
Proof. unfold price_le. lia. Qed.

(** What an accepted entry leaves in the tables. *)
Lemma SetPrice_ok tenant i s p s' :
  SetPrice tenant i s = Ok (p, s') ->
  s_prices s' = s_prices s ++ [p] /\ 0 <= pc_price p /\ numeric_col 14 4 (pi_price i) = Some (pc_price p)
  /\ pc_tenant p = tenant /\ pc_station p = pi_station i /\ pc_product p = pi_product i
  /\ pc_from p = default (site_now s) (pi_from i) /\ pc_created p = site_now s /\ site_now s' = site_now s
  /\ pc_previous p = ResolvePrice s tenant (pi_station i) (pi_product i) (site_now s).
Proof.
  intros H. unfold SetPrice in H. tx_steps H. simplify_eq/=.
  match goal with E : fresh_id _ = Ok _ |- _ => injection E as <- <- end. simpl.
  repeat split; try done. lia.
Qed.

Lemma handleSetPrice_set pool ctx st body s p s' :
  handleSetPrice pool ctx st body s = Ok (p, s') ->
  exists a station q price v s1, ops_actor ctx = Ok a /\ st = Ok station /\ body = Ok q
    /\ asked_price q = Ok (price, v)
    /\ (q_below q = true \/ below_cost (landed_cost pool (ac_tenant a) station (q_product q)) v = false)
    /\ SetPrice (ac_tenant a)
         (mkSetPrice station (q_product q) price
            (match q_from q with Some (Ok t) => Some t | _ => None end) (q_reason q) (ac_user a)) s = Ok (p, s1)
    /\ s_prices s' = s_prices s1 /\ site_now s' = site_now s1.
Proof.
  intros H. unfold handleSetPrice in H. tx_step H. tx_step H. tx_step H. tx_step H. tx_step H.
  match type of H with context [match ?x with pair _ _ => _ end] => destruct x as [price v] end.
  tx_steps H.
  match goal with E : on_ops _ _ = Ok _ |- _ => injection E as _ <- end. subst.
  match goal with E : url_id _ ?x = Ok _ |- _ => destruct x as [station|]; [injection E as ->|done] end.
  match goal with E : json_body ?x = Ok _ |- _ => destruct x as [q|]; [injection E as ->|done] end.
  match goal with E : _ || negb _ = true |- _ => apply orb_true_iff in E; rewrite negb_true_iff in E end.
  eexists _, _, _, _, _, _. do 5 (split; [first [eassumption | reflexivity]|]). split.
  { match goal with E : match q_from ?q with _ => _ end = Ok _ |- _ => destruct (q_from q) as [[]|] end; simplify_eq; eassumption. }
  done.
Qed.

(** The first row of a listing that one more row joins. *)
Lemma in_force_snoc (l : list PriceChange) p :
  pc_price <$> head (order_by price_le (l ++ [p])) =
  if exists_where (fun q => price_le q p) l then pc_price <$> head (order_by price_le l) else Some (pc_price p).
Proof.
  rewrite head_order_snoc by (exact price_le_total || exact price_le_trans).
  destruct (head (order_by price_le l)) as [x|] eqn:Ex.
  - destruct (head_order_least _ _ _ price_le_total price_le_trans Ex) as [Hx Hl].
    destruct (price_le x p) eqn:Ep.
    + rewrite (proj2 (exists_where_true _ _)); eauto.
    + destruct (exists_where _ l) eqn:Ee; [|done]. apply exists_where_true in Ee as (q & Hq & Hp).
      by rewrite (price_le_trans _ _ _ (Hl q Hq) Hp) in Ep.
  - destruct l as [|y l]; [done|]. simpl in Ex. by rewrite head_insert_by in Ex.
Qed.

Lemma exists_where_select {R} (p q : R -> bool) (l : list R) :
  exists_where p (select q l) = exists_where (fun x => q x && p x) l.
Proof. induction l as [|x l IH]; simpl; [done|]. destruct (q x); cbn; [f_equal|]; exact IH. Qed.

Lemma SetPrice_resolves pool ctx st body s p s' tenant station product at_ :
  handleSetPrice pool ctx st body s = Ok (p, s') ->
  ResolvePrice s' tenant station product at_ =
  if effective tenant station product at_ p
     && negb (exists_where (fun q => effective tenant station product at_ q && price_le q p) (s_prices s))
  then Some (pc_price p) else ResolvePrice s tenant station product at_.
Proof.
  intros (a & station0 & q & price & v & s1 & _ & _ & _ & _ & _ & Hset & Hs' & _)%handleSetPrice_set.
  apply SetPrice_ok in Hset as [Hl _]. unfold ResolvePrice. rewrite Hs', Hl, select_app. simpl.
  destruct (effective tenant station product at_ p); simpl; [|by rewrite app_nil_r].
  rewrite in_force_snoc.
  rewrite exists_where_select. by destruct (exists_where _ (s_prices s)).
Qed.

(** The time a request takes effect: the one it names, or now. *)
Definition takes_effect (q : setPriceRequest) (now : Z) : Z := match q_from q with Some (Ok t) => t | _ => now end.

(** An entry of the pair that is effective by [at_] and not older than one made at
    [now] for [from]: it took effect later, or at the same time and was made no
    earlier. *)
Definition outlasts (tenant station product : uuid) (from now at_ : Z) (x : PriceChange) : bool :=
  bool_decide (pc_tenant x = tenant) && bool_decide (pc_station x = station) && bool_decide (pc_product x = product)
  && (pc_from x <=? at_) && ((from <? pc_from x) || ((pc_from x =? from) && (now <=? pc_created x))).

Lemma exists_where_eq {R} (p q : R -> bool) (l : list R) : (forall x, p x = q x) -> exists_where p l = exists_where q l.
Proof. intros H. unfold exists_where. induction l as [|x l IH]; simpl; [done|]. by rewrite H, IH. Qed.

Lemma outlasts_effective tenant station product at_ p x :
  effective tenant station product at_ x && price_le x p = outlasts tenant station product (pc_from p) (pc_created p) at_ x.
Proof.
  unfold effective, price_of, price_le, outlasts. rewrite (Z.eqb_sym (pc_from p)).
  destruct (bool_decide (pc_tenant x = tenant /\ _)) eqn:E; simpl.
  - apply bool_decide_eq_true in E as (-> & -> & ->). by rewrite !bool_decide_eq_true_2.
  - apply bool_decide_eq_false in E. repeat case_bool_decide; try done. tauto.
Qed.

(** C26. An accepted price request changes the price in force exactly where it
    should.  The row it adds is the request's: the caller's tenant, the station and
    the product named, the price rounded to four decimals, effective from the time
    named or at once, beside the price that was active.  From then on, for that
    tenant, station and product, the price in force is the requested one, except at
    the times when an entry already in the book is effective that took effect later
    (or at the same time, made no earlier); every other price, at every time, past
    ones included, is as before.  Nothing more is written when a scheduled time
    arrives. *)
Theorem SetPrice_in_force pool ctx st body s p s' :
  handleSetPrice pool ctx st body s = Ok (p, s') ->
  exists a k q price, ops_actor ctx = Ok a /\ st = Ok k /\ body = Ok q /\ q_price q = Some price
    /\ s_prices s' = s_prices s ++ [p]
    /\ (pc_tenant p, pc_station p, pc_product p) = (ac_tenant a, k, q_product q)
    /\ pc_price p = round_to 4 price /\ pc_from p = takes_effect q (site_now s) /\ pc_created p = site_now s
    /\ pc_previous p = ResolvePrice s (ac_tenant a) k (q_product q) (site_now s)
    /\ forall tenant station product at_,
         ResolvePrice s' tenant station product at_ =
         if bool_decide (tenant = ac_tenant a /\ station = k /\ product = q_product q)
            && (takes_effect q (site_now s) <=? at_)
            && negb (exists_where (outlasts tenant station product (takes_effect q (site_now s)) (site_now s) at_) (s_prices s))
         then Some (round_to 4 price) else ResolvePrice s tenant station product at_.
Proof.
  intros H. pose proof (handleSetPrice_set _ _ _ _ _ _ _ H) as (a & k & q & price & v & s1 & Ha & -> & -> & Hp & _ & Hset & Hs' & _).
  apply SetPrice_ok in Hset as (Hl & _ & [Hr _]%numeric_col_some & Ht & Hst & Hpr & Hf & Hc & _ & Hprev). simpl in *.
  assert (Eq : q_price q = Some price).
  { unfold asked_price in Hp. destruct (q_price q) as [d|]; [|done]. destruct (parseDecimal d); [|done]. by destruct (f_lt _ _); simplify_eq. }
  assert (Ef : pc_from p = takes_effect q (site_now s)) by (rewrite Hf; unfold takes_effect; by destruct (q_from q) as [[]|]).
  exists a, k, q, price. do 4 (split; [done|]). split; [by rewrite Hs'|]. split; [by rewrite Ht, Hst, Hpr|]. do 4 (split; [done|]).
  intros tenant station product at_. rewrite (SetPrice_resolves _ _ _ _ _ _ _ _ _ _ _ H), <- Ef, <- Hc, <- Hr.
  rewrite (exists_where_eq _ _ _ (outlasts_effective tenant station product at_ p)). unfold effective, price_of.
  rewrite Ht, Hst, Hpr. erewrite (bool_decide_ext (ac_tenant a = tenant /\ _)); [done|]. split; by intros (-> & -> & ->).
Qed.

(** What was active is kept beside the new price, and recognition prices the next
    sale with the request that took effect at once. *)
Theorem price_set_now pool ctx st q s p s' :
  handleSetPrice pool ctx st (Ok q) s = Ok (p, s') -> q_from q = None ->
  (forall x, In x (s_prices s) -> pc_from x <= site_now s /\ pc_created x < site_now s) ->
  pc_previous p = current_price s (pc_tenant p) (pc_station p) (pc_product p)
  /\ current_price s' (pc_tenant p) (pc_station p) (pc_product p) = Some (pc_price p).
Proof.
  intros H Hq Hb.
  destruct (handleSetPrice_set _ _ _ _ _ _ _ H) as (a & station & q' & price & v & s1 & _ & _ & [= <-] & _ & _ & Hset & _ & Hn').
  rewrite Hq in Hset. apply SetPrice_ok in Hset as (Hl & _ & _ & Ht & Hst & Hp & Hf & Hc & Hn & Hprev). simpl in *.
  split; [by rewrite Hprev, Ht, Hst, Hp|].
  change (ResolvePrice s' (pc_tenant p) (pc_station p) (pc_product p) (site_now s') = Some (pc_price p)).
  rewrite (SetPrice_resolves _ _ _ _ _ _ _ _ _ _ _ H), Hn', Hn.
  assert (effective (pc_tenant p) (pc_station p) (pc_product p) (site_now s) p = true) as ->.
  { unfold effective, price_of. rewrite bool_decide_eq_true_2 by done. simpl. lia. }
  rewrite (proj2 (exists_where_false _ _)); [done|].
  intros x Hx. destruct (Hb x Hx). apply andb_false_iff. right. unfold price_le. lia.
Qed.

(** A price below what the station's deliveries of the product cost on average is
    only accepted when the request overrides the guard: otherwise the cost is
    unknown, or the price is at least the cost, compared as doubles the way the
    code compares them.  No accepted price is negative. *)
Theorem price_covers_cost pool ctx st body s p s' :
  handleSetPrice pool ctx st body s = Ok (p, s') ->
  0 <= pc_price p /\
  exists a q price v, ops_actor ctx = Ok a /\ body = Ok q /\ q_price q = Some price
    /\ parseDecimal price = Some v /\ pc_price p = round_to 4 price
    /\ (q_below q = false -> forall cost c,
          landed_cost pool (pc_tenant p) (pc_station p) (pc_product p) = Some cost ->
          parseDecimal cost = Some c -> f_le c v = true).
Proof.
  intros (a & station & q & price & v & s1 & Ha & _ & -> & Hp & Hc & Hset & _)%handleSetPrice_set.
  apply SetPrice_ok in Hset as (_ & Hpos & [Hr _]%numeric_col_some & -> & -> & -> & _). simpl in *. split; [done|].
  unfold asked_price in Hp. destruct (q_price q) as [d|] eqn:Eq; [|done]. destruct (parseDecimal d) as [w|] eqn:Ed; [|done].
  destruct (f_lt w _); [done|]. injection Hp as -> ->. exists a, q, price, v. do 5 (split; [done|]).
  intros Hb cost c Hcost Ec. destruct Hc as [Hc|Hc]; [by rewrite Hb in Hc|].
  unfold below_cost in Hc. rewrite Hcost, Ec in Hc. unfold f_lt in Hc. by apply negb_false_iff in Hc.
Qed.

(** ** A sample book

    Diesel stands at 3.10 at the station of [site0]; at time 5 the manager sets 3.25
    at once, then 3.40 from time 9. *)

Definition priced (price : dec) (from : option (result unit Z)) (s : Site) : Site :=
  serve (fun p => handleSetPrice p boss (Ok 20%N) (Ok (mkPriceRequest 30 (Some price) from None false))) s.
Definition book1 : Site := priced (Dec 325 2) None site0.
Definition book2 : Site := priced (Dec 340 2) (Some (Ok 9)) book1.

Example book2_prices :
  (fun t => ResolvePrice book2 1 20 30 t) <$> [4; 5; 8; 9; 20]
  = [Some 31000; Some 32500; Some 32500; Some 34000; Some 34000].
Proof. vm_compute. reflexivity. Qed.
Example book2_board :
  PriceBoard (fun _ _ => true) book2 1 20
  = [mkBoard 30 "DSL" "Diesel" "amber" (Some 32500) (Some 34000) (Some 9)].
Proof. vm_compute. reflexivity. Qed.

Definition later_price : setPriceRequest := mkPriceRequest 30 (Some (Dec 340 2)) (Some (Ok 9)) None false.
Lemma later_price_set : exists p, handleSetPrice book1 boss (Ok 20%N) (Ok later_price) book1 = Ok (p, book2).
Proof. eexists. vm_compute. reflexivity. Qed.

Lemma SetPrice_in_force_witness :
  ResolvePrice book2 1 20 30 8 = ResolvePrice book1 1 20 30 8 /\ ResolvePrice book2 1 20 30 9 = Some 34000.
Proof.
  destruct later_price_set as (p & E).
  destruct (SetPrice_in_force book1 boss (Ok 20%N) (Ok later_price) book1 p book2 E)
    as (a & k & q & price & [= <-] & [= <-] & [= <-] & [= <-] & _ & _ & _ & _ & _ & _ & H).
  split; (etrans; [exact (H 1%N 20%N 30%N _)|]; vm_compute; reflexivity).
Defined.

(** After a delivery of 1000 litres at 3.00 the litre, 2.90 is refused and 3.20 is
    not. *)
Definition delivered : Site :=
  set_inv (set_movements (db_movements (s_inv book1)
    ++ [mkMovement 400 9 1 10 TypeDelivery (Some SrcDelivery) None 1000000 21000000 None None None (Some 30000) 2 5 None
          StatusPosted None]) (s_inv book1)) book1.
Definition priced_at (price : dec) (below : bool) : setPriceRequest := mkPriceRequest 30 (Some price) None None below.
Example below_cost_refused :
  (http_code <$> match run_tx (handleSetPrice delivered boss (Ok 20%N) (Ok (priced_at (Dec 290 2) false))) delivered with
                 | (Err e, _) => Some e | _ => None end) = Some 422
  /\ exists p, (run_tx (handleSetPrice delivered boss (Ok 20%N) (Ok (priced_at (Dec 290 2) true))) delivered).1 = Ok p
               /\ pc_price p = 29000.
Proof. split; [|eexists; split]; vm_compute; reflexivity. Qed.

Lemma price_covers_cost_witness :
  exists p s', handleSetPrice delivered boss (Ok 20%N) (Ok (priced_at (Dec 320 2) false)) delivered = Ok (p, s')
    /\ 0 <= pc_price p /\ is_Some (landed_cost delivered 1 20 30).
Proof.
  eexists _, _. split; [vm_compute; reflexivity|]. split; [|vm_compute; eauto].
  eapply (price_covers_cost delivered boss (Ok 20%N) (Ok (priced_at (Dec 320 2) false)) delivered).
  vm_compute. reflexivity.
Defined.
