(* ===== verification/Takings.v ===== *)
(** * Revenue days and mobile money (package [revenue]: days.go; package
      [payments]: mpesa_repo.go; package [payments/mpesa]; the job
      [revenueComputeJob] of [scheduler]; services/api/internal/server/
      revenue_close_handlers.go, server_routes_payments.go)

    A revenue day is the roll-up of a station's sales and tenders of an operating
    day, a draft until it is locked.  A mobile-money collection is pushed to the
    payer's phone, settled by the provider's callback and matched with a revenue
    day.  [Takings] holds the two tables beside the till's.

    The provider is a parameter: what its token and push endpoints answer.  Text is
    ASCII; a body that does not decode is an error, and a value of the callback's
    metadata is what [encoding/json] reads of it.  Amounts are plain decimal
    literals: the texts with an exponent, hexadecimal ones, NaN and the infinities,
    which ParseFloat accepts, are not requests of the model. *)

From stdpp Require Import base list strings.
From Stdlib Require Import ZArith Lia Ascii String.
From S2P Require Import Prelude Calendar Numeric Schema Ledger Float64 Accounting Finance Payables Policy Operations Workforce WorkforceHandlers Readings ShiftClose Revenue FinanceHandlers Treasury ExpenseHandlers Secrets.

Local Open Scope Z_scope.
Local Open Scope tx_scope.

(** ** Rows *)

Inductive revenue_status := RdDraft | RdLocked.
#[export] Instance revenue_status_eq : EqDecision revenue_status.
Proof. solve_decision. Defined.

(** Amounts are numeric(14,2), in cents. *)
Record RevenueDay := mkRevenueDay {
  rd_id : uuid; rd_tenant : uuid; rd_station : uuid; rd_day : uuid; rd_date : Z;
  rd_gross : Z; rd_net : Z; rd_tax : Z; rd_cogs : Z; rd_margin : Z;
  rd_cash : Z; rd_momo : Z; rd_card : Z; rd_credit : Z; rd_voucher : Z; rd_tender : Z; rd_variance : Z;
  rd_status : revenue_status; rd_locked_by : option uuid; rd_locked_at : option Z }.

(** [chk_mpesa_status] *)
Inductive mpesa_status := MpPending | MpPaid | MpFailed | MpCancelled.
#[export] Instance mpesa_status_eq : EqDecision mpesa_status.
Proof. solve_decision. Defined.

Record MpesaTransaction := mkMpesa {
  mp_id : uuid; mp_tenant : uuid; mp_station : uuid; mp_checkout : string; mp_merchant : option string;
  mp_amount : Z; mp_phone : string; mp_status : mpesa_status; mp_code : option Z; mp_receipt : option string;
  mp_reference : option string; mp_description : option string; mp_raw : option string;
  mp_day : option uuid; mp_reconciled : option Z; mp_created : Z; mp_updated : Z }.

Record Takings := mkTakings { tg_till : Till; tg_days : list RevenueDay; tg_mpesa : list MpesaTransaction }.

Definition tput_till v t := mkTakings v (tg_days t) (tg_mpesa t).
Definition tput_days v t := mkTakings (tg_till t) v (tg_mpesa t).
Definition tput_mpesa v t := mkTakings (tg_till t) (tg_days t) v.

Inductive takings_error := TgNotFound | TgLocked | TgNotPaid | TgUnique | TgCheck | TgForeignKey | TgNumeric.
#[export] Instance takings_error_eq : EqDecision takings_error.
Proof. solve_decision. Defined.

Definition on_till {E A} (c : Tx Till E A) : Tx Takings E A :=
  fun t => match c (tg_till t) with Ok (a, s) => Ok (a, tput_till s t) | Err e => Err e end.
Definition tg_fresh {E} : Tx Takings E uuid := on_till till_fresh.
Definition tg_now (t : Takings) : Z := till_now (tg_till t).
Definition tg_site (t : Takings) : Site := tl_site (tg_till t).
Definition tg_audit {E} (a : Actor) (action : string) (entity : uuid) : Tx Takings E unit :=
  on_till (till_audit a action entity).

(** ** Revenue days (days.go) *)

Record TenderBreakdown := mkBreakdown {
  tb_cash : Z; tb_momo : Z; tb_card : Z; tb_credit : Z; tb_voucher : Z; tb_total : Z }.

(** The recorded tenders of the shifts of the day. *)
Definition day_tender (o : Ops) (tenant station day : uuid) (p : Tender) : bool :=
  bool_decide (td_tenant p = tenant /\ td_station p = station) && td_recorded p
  && match td_shift p with
     | Some h => exists_where (fun s => bool_decide (sh_id s = h /\ sh_tenant s = tenant /\ sh_day s = day)) (op_shifts o)
     | None => false
     end.
Definition of_kind (k : tender_type) (p : Tender) : bool := bool_decide (td_type p = k).

Definition DayTenders (t : Takings) (tenant station day : uuid) : TenderBreakdown :=
  let rows := select (day_tender (s_ops (tg_site t)) tenant station day) (tl_tenders (tg_till t)) in
  let kind k := sum_by td_amount (select (of_kind k) rows) in
  mkBreakdown (kind TdCash) (kind TdMobile) (kind TdCard) (kind TdCredit) (kind TdVoucher) (sum_by td_amount rows).

(** The sales of the station's day, and the approved void that takes one back. *)
Definition sale_of_day (tenant station day : uuid) (x : Sale) : bool :=
  bool_decide (sale_tenant x = tenant /\ sale_station x = station /\ sale_day x = day).
Definition reversal_of (x : Sale) (v : SaleVoid) : bool :=
  bool_decide (vd_tenant v = sale_tenant x /\ vd_sale v = sale_id x /\ vd_status v = VoidApproved).

(** The row proposed for a station and an operating day: each total of the sales
    plus that of the reversals joined to them, the tenders by kind, and what they
    are over the gross. *)
Definition rolled_up (t : Takings) (id tenant station : uuid) (y : OperatingDay) : RevenueDay :=
  let sales := left_join reversal_of (select (sale_of_day tenant station (dy_id y)) (s_sales (tg_site t)))
                 (s_voids (tg_site t)) in
  let total (amount : Sale -> option Z) (reversal : SaleVoid -> option Z) :=
    sum_by (fun r => default 0 (amount r.1)) sales + sum_by (fun r => default 0 (r.2 ≫= reversal)) sales in
  let paid := select (day_tender (s_ops (tg_site t)) tenant station (dy_id y)) (tl_tenders (tg_till t)) in
  let kind k := sum_by td_amount (select (of_kind k) paid) in
  let gross := total (fun x => Some (sale_gross x)) vd_gross in
  let tender := sum_by td_amount paid in
  mkRevenueDay id tenant station (dy_id y) (dy_date y) gross (total (fun x => Some (sale_net x)) vd_net)
    (total (fun x => Some (sale_tax x)) vd_tax) (total sale_cogs vd_cogs) (total sale_margin vd_margin)
    (kind TdCash) (kind TdMobile) (kind TdCard) (kind TdCredit) (kind TdVoucher) tender (tender - gross)
    RdDraft None None.
Definition recomputed (n d : RevenueDay) : RevenueDay :=
  mkRevenueDay (rd_id d) (rd_tenant d) (rd_station d) (rd_day d) (rd_date d) (rd_gross n) (rd_net n) (rd_tax n)
    (rd_cogs n) (rd_margin n) (rd_cash n) (rd_momo n) (rd_card n) (rd_credit n) (rd_voucher n) (rd_tender n)
    (rd_variance n) (rd_status d) (rd_locked_by d) (rd_locked_at d).

Definition in_numeric (z : Z) : bool := Z.abs z <? pow10 14.
Definition amounts_fit (d : RevenueDay) : bool :=
  forallb in_numeric [rd_gross d; rd_net d; rd_tax d; rd_cogs d; rd_margin d; rd_cash d; rd_momo d; rd_card d;
                      rd_credit d; rd_voucher d; rd_tender d; rd_variance d].

(** [uq_revenue_days_station_day] *)
Definition same_station_day (n d : RevenueDay) : bool :=
  bool_decide (rd_station d = rd_station n /\ rd_day d = rd_day n).
Definition is_locked (d : RevenueDay) : bool := bool_decide (rd_status d = RdLocked).

(** No row comes back for a locked day, nor for an operating day that is not there. *)
Definition ComputeDay (tenant station day : uuid) : Tx Takings takings_error RevenueDay :=
  let! id := tg_fresh in
  let! t := tget in
  match first_where (dy_by tenant day) (op_days (s_ops (tg_site t))) with
  | None => tfail TgLocked
  | Some y =>
      let n := rolled_up t id tenant station y in
      tguard (amounts_fit n) TgNumeric ;;!
      match first_where (same_station_day n) (tg_days t) with
      | Some d =>
          tguard (negb (is_locked d)) TgLocked ;;!
          tput (tput_days (update_where (same_station_day n) (recomputed n) (tg_days t)) t) ;;! tret (recomputed n d)
      | None =>
          tguard (till_station (tg_till t) tenant station) TgForeignKey ;;!
          tput (tput_days (tg_days t ++ [n]) t) ;;! tret n
      end
  end.

Definition rd_by_id (tenant id : uuid) (d : RevenueDay) : bool := bool_decide (rd_tenant d = tenant /\ rd_id d = id).
Definition GetDayByID (t : Takings) (tenant id : uuid) : result takings_error RevenueDay :=
  of_option TgNotFound (first_where (rd_by_id tenant id) (tg_days t)).
Definition revenue_GetDay (t : Takings) (tenant station day : uuid) : result takings_error RevenueDay :=
  of_option TgNotFound (first_where (fun d => bool_decide (rd_tenant d = tenant /\ rd_station d = station
                                                           /\ rd_day d = day)) (tg_days t)).

Definition rd_at (tenant station : uuid) (d : RevenueDay) : bool :=
  bool_decide (rd_tenant d = tenant /\ rd_station d = station).
Definition RecentDays (t : Takings) (tenant station : uuid) (limit : nat) : list RevenueDay :=
  take limit (order_by (newest rd_date) (select (rd_at tenant station) (tg_days t))).

(** The days of a window and how many are not locked. *)
Definition WindowLockState (t : Takings) (tenant station : uuid) (from to_ : Z) : nat * nat :=
  let rows := select (fun d => rd_at tenant station d && (from <=? rd_date d) && (rd_date d <=? to_)) (tg_days t) in
  (List.length rows, List.length (select (fun d => negb (is_locked d)) rows)).

Definition locked_day (by_ : uuid) (now : Z) (d : RevenueDay) : RevenueDay :=
  mkRevenueDay (rd_id d) (rd_tenant d) (rd_station d) (rd_day d) (rd_date d) (rd_gross d) (rd_net d) (rd_tax d)
    (rd_cogs d) (rd_margin d) (rd_cash d) (rd_momo d) (rd_card d) (rd_credit d) (rd_voucher d) (rd_tender d)
    (rd_variance d) RdLocked (Some by_) (Some now).
Definition unlocked_by_id (tenant id : uuid) (d : RevenueDay) : bool := rd_by_id tenant id d && negb (is_locked d).

(** When no row is updated, the pool tells whether there is one. *)
Definition LockDay (pool : Takings) (tenant id by_ : uuid) : Tx Takings takings_error RevenueDay :=
  let! t := tget in
  match first_where (unlocked_by_id tenant id) (tg_days t) with
  | Some d =>
      tguard (till_user (tg_till t) tenant by_) TgForeignKey ;;!
      tput (tput_days (update_where (unlocked_by_id tenant id) (locked_day by_ (tg_now t)) (tg_days t)) t) ;;!
      tret (locked_day by_ (tg_now t) d)
  | None => match GetDayByID pool tenant id with Err _ => tfail TgNotFound | Ok _ => tfail TgLocked end
  end.

(** ** Handlers of the revenue days (revenue_close_handlers.go) *)

Definition compute_error (e : takings_error) : http_error :=
  match e with
  | TgLocked => HttpError 409 "revenue day is locked"
  | TgForeignKey => bad_request "operating day not found for this station"
  | _ => ops_internal
  end.
Definition handleComputeRevenueDay (ctx : option Actor) (station : result unit uuid) (body : result unit uuid)
  : Tx Takings http_error RevenueDay :=
  let! a := tlift (ops_actor ctx) in
  let! station := tlift (url_id "invalid station id" station) in
  let! day := tlift (match body with
    | Ok d => if bool_decide (d = uuid_nil) then Err (bad_request "operating_day_id is required") else Ok d
    | Err _ => Err (bad_request "operating_day_id is required")
    end) in
  let! d := tconv compute_error (ComputeDay (ac_tenant a) station day) in
  tg_audit a "revenue_day.computed" (rd_id d) ;;! tret d.

Definition lock_error (e : takings_error) : http_error :=
  match e with
  | TgNotFound => HttpError 404 "revenue day not found"
  | TgLocked => HttpError 409 "revenue day already locked"
  | _ => ops_internal
  end.
Definition handleLockRevenueDay (pool : Takings) (ctx : option Actor) (id : result unit uuid)
  : Tx Takings http_error RevenueDay :=
  let! a := tlift (ops_actor ctx) in
  let! id := tlift (url_id "invalid revenue day id" id) in
  let! d := tconv lock_error (LockDay pool (ac_tenant a) id (ac_user a)) in
  tg_audit a "period.locked" (rd_id d) ;;! tret d.

(** The latest active day with its live totals, and the recent revenue days. *)
Definition handleRevenueOverview (pool : Takings) (ctx : option Actor) (station : result unit uuid)
  : result http_error (option (OperatingDay * DaySummaryR * TenderBreakdown) * list RevenueDay) :=
  (let? a := ops_actor ctx in
   let? station := url_id "invalid station id" station in
   if negb (stations_Get (s_ops (tg_site pool)) (ac_tenant a) station) then Err (HttpError 404 "station not found")
   else
     let live := (fun y => (y, DaySummary (tg_site pool) (ac_tenant a) station (dy_id y),
                            DayTenders pool (ac_tenant a) station (dy_id y))) <$>
                   LatestActiveDayForStation (s_ops (tg_site pool)) (ac_tenant a) station in
     Ok (live, RecentDays pool (ac_tenant a) station 14))%res.

Definition handleARaging (pool : Takings) (ctx : option Actor) : result http_error (list (Customer * Z)) :=
  (let? a := ops_actor ctx in Ok (Aging (tl_fin (tg_till pool)) (ac_tenant a)))%res.

(** ** The nightly recompute (scheduler/jobs.go)

    Each open day in its own transaction; a locked one counts as computed, another
    error as an error of the tenant. *)
Definition open_days (o : Ops) (tenant : uuid) : list (uuid * uuid) :=
  (fun y => (dy_station y, dy_id y)) <$>
    select (fun y => bool_decide (dy_tenant y = tenant /\ dy_status y = DayOpen)) (op_days o).
Fixpoint compute_days (tenant : uuid) (days : list (uuid * uuid)) (t : Takings) (computed errors : nat)
  : Takings * nat * nat :=
  match days with
  | [] => (t, computed, errors)
  | (station, day) :: rest =>
      match run_tx (ComputeDay tenant station day) t with
      | (Ok _, t') => compute_days tenant rest t' (S computed) errors
      | (Err TgLocked, _) => compute_days tenant rest t (S computed) errors
      | (Err _, _) => compute_days tenant rest t computed (S errors)
      end
  end.
(** [tenants] are the active ones. *)
Fixpoint revenueComputeJob (tenants : list uuid) (t : Takings) (computed errors : nat) : Takings * nat * nat :=
  match tenants with
  | [] => (t, computed, errors)
  | tid :: rest =>
      let '(t', c, e) := compute_days tid (open_days (s_ops (tg_site t)) tid) t computed errors in
      revenueComputeJob rest t' c e
  end.

(** ** Phones and amounts (mpesa/callback.go) *)

Fixpoint all_digits (s : string) : bool :=
  match s with
  | EmptyString => true
  | String c r => match digit_val c with Some _ => all_digits r | None => false end
  end.
(** [strings.ReplaceAll(s, " ", "")] and [strings.TrimPrefix(s, "+")] *)
Fixpoint drop_blanks (s : string) : string :=
  match s with
  | EmptyString => EmptyString
  | String c r => if bool_decide (c = " "%char) then drop_blanks r else String c (drop_blanks r)
  end.
Definition trim_plus (s : string) : string := match s with String "+" r => r | _ => s end.

Definition NormalizePhone (raw : string) : option string :=
  let s := trim_plus (drop_blanks (trim_space raw)) in
  if bool_decide (s = "")%string then None
  else if negb (all_digits s) then None
  else if String.prefix "254" s && (String.length s =? 12)%nat then Some s
  else if String.prefix "0" s && (String.length s =? 10)%nat then Some ("254" ++ String.substring 1 9 s)%string
  else if (String.length s =? 9)%nat && (String.prefix "7" s || String.prefix "1" s) then Some ("254" ++ s)%string
  else None.

(** The text before the first point and, if there is one, after it. *)
Fixpoint cut_dot (s : string) : string * option string :=
  match s with
  | EmptyString => (EmptyString, None)
  | String c r => if bool_decide (c = "."%char) then (EmptyString, Some r)
                  else let '(i, f) := cut_dot r in (String c i, f)
  end.
(** [strconv.ParseInt(s, 10, 64)] *)
Definition ParseInt (s : string) : option Z :=
  let '(neg, r) := match s with String "-" r => (true, r) | String "+" r => (false, r) | _ => (false, s) end in
  let '(v, n, rest) := take_digits r 0 0 in
  if (n =? 0)%nat || negb (bool_decide (rest = "")%string) then None
  else if neg then (if v <=? 2 ^ 63 then Some (- v) else None)
  else (if v <? 2 ^ 63 then Some v else None).

Definition WholeShillings (amount : string) : option Z :=
  let s := trim_space amount in
  if bool_decide (s = "")%string then None
  else
    let '(i, f) := cut_dot s in
    if negb (match f with Some f => all_digits f | None => true end) then None
    else match ParseInt (if bool_decide (i = "")%string then "0" else i)%string with
         | Some v => if v <=? 0 then None else Some v
         | None => None
         end.

(** ** The provider's callback (mpesa/callback.go) *)

(** A JSON value as the code tells them apart: a string, a number by its text,
    [null], no value, another by its text. *)
Inductive json_value := JString (s : string) | JNumber (lex : string) | JNull | JAbsent | JOther (raw : string).

Definition trimJSONString (v : json_value) : string :=
  match v with JString s => s | JNumber l => l | JNull | JAbsent => "" | JOther r => trim_space r end.
Definition trimJSONNumberOrString (v : json_value) : string :=
  match v with JString s => s | JNumber l => l | JNull | JAbsent => "" | JOther r => trim_space r end.
(** A string that is a number decodes to [json.Number], the same text. *)
Definition decimalFromJSON (v : json_value) : string :=
  match v with JString s => trim_space s | JNumber l => l | JNull | JAbsent => "" | JOther r => trim_space r end.

Record CallbackPayload := mkPayload {
  cb_merchant : string; cb_checkout : string; cb_code : Z; cb_desc : string; cb_items : list (string * json_value) }.
Record CallbackResult := mkCallback {
  cr_merchant : string; cr_checkout : string; cr_code : Z; cr_desc : string; cr_success : bool;
  cr_receipt : string; cr_amount : string; cr_phone : string }.

Definition read_item (r : CallbackResult) (item : string * json_value) : CallbackResult :=
  let '(name, v) := item in
  match name with
  | "MpesaReceiptNumber" => mkCallback (cr_merchant r) (cr_checkout r) (cr_code r) (cr_desc r) (cr_success r)
      (trimJSONString v) (cr_amount r) (cr_phone r)
  | "Amount" => mkCallback (cr_merchant r) (cr_checkout r) (cr_code r) (cr_desc r) (cr_success r)
      (cr_receipt r) (decimalFromJSON v) (cr_phone r)
  | "PhoneNumber" => mkCallback (cr_merchant r) (cr_checkout r) (cr_code r) (cr_desc r) (cr_success r)
      (cr_receipt r) (cr_amount r)
      (match NormalizePhone (trimJSONNumberOrString v) with Some p => p | None => trimJSONNumberOrString v end)
  | _ => r
  end%string.
(** [None] when the body does not decode or names no checkout id. *)
Definition ParseCallback (raw : result unit CallbackPayload) : option CallbackResult :=
  match raw with
  | Err _ => None
  | Ok p =>
      if bool_decide (cb_checkout p = "")%string then None
      else
        let r := mkCallback (cb_merchant p) (cb_checkout p) (cb_code p) (cb_desc p) (cb_code p =? 0) "" "" "" in
        if negb (cr_success r) then Some r else Some (fold_left read_item (cb_items p) r)
  end.

(** ** The provider's client (mpesa/client.go) *)

Record Config := mkConfig {
  cf_key : string; cf_secret : string; cf_shortcode : string; cf_passkey : string; cf_env : string;
  cf_callback : string }.
Definition cfg_Enabled (c : Config) : bool :=
  negb (bool_decide (trim_space (cf_key c) = "")%string) && negb (bool_decide (trim_space (cf_secret c) = "")%string).

(** [ml_exp] is in nanoseconds. *)
Record Client := mkClient { ml_cfg : Config; ml_base : string; ml_enabled : bool; ml_token : string; ml_exp : Z }.
Definition mpesa_New (c : Config) : Client :=
  mkClient c (if bool_decide (lower (trim_space (cf_env c)) = "production"%string) then "https://api.safaricom.co.ke"
              else "https://sandbox.safaricom.co.ke") (cfg_Enabled c) "" 0.

Definition second : Z := 1000000000.
Definition tokenSkew : Z := 60 * second.
Inductive mpesa_error := MpDisabled | MpConfig | MpRefused.

(** [expires_in] through [strconv.Atoi], 3599 seconds when it is not a positive
    number. *)
Definition token_ttl (expires : string) : Z :=
  match ParseInt (trim_space expires) with Some s => if 0 <? s then s else 3599 | None => 3599 end.
(** A [time.Duration] is an [int64]. *)
Definition wrap64 (z : Z) : Z := (z + 2 ^ 63) mod 2 ^ 64 - 2 ^ 63.
(** [reply] is what the token endpoint of the base URL answers to the credentials:
    the two fields, or an error of the request. *)
Definition accessToken (now : Z) (reply : string -> Config -> result unit (string * string)) (c : Client)
  : result mpesa_error string * Client :=
  if negb (ml_enabled c) then (Err MpDisabled, c)
  else if negb (bool_decide (ml_token c = "")%string) && (now <? ml_exp c - tokenSkew) then (Ok (ml_token c), c)
  else match reply (ml_base c) (ml_cfg c) with
       | Err _ => (Err MpRefused, c)
       | Ok (tok, expires) =>
           if bool_decide (tok = "")%string then (Err MpRefused, c)
           else (Ok tok, mkClient (ml_cfg c) (ml_base c) (ml_enabled c) tok (now + wrap64 (token_ttl expires * second)))
       end.

Record STKPushInput := mkPush { pq_phone : string; pq_amount : string; pq_reference : string; pq_description : string }.
Record STKPushResult := mkPushResult {
  pr_merchant : string; pr_checkout : string; pr_code : string; pr_desc : string; pr_message : string }.
Record stkPushBody := mkPushBody {
  sb_shortcode : string; sb_password : string; sb_timestamp : string; sb_type : string; sb_amount : string;
  sb_partyA : string; sb_partyB : string; sb_phone : string; sb_callback : string; sb_reference : string; sb_description : string }.

(** [time.Format("20060102150405")] of a local time. *)
Definition stamp (t : Z) : string :=
  (pad 4 (Year t) ++ pad 2 (Month t) ++ pad 2 (Day t) ++ pad 2 (t_hour t) ++ pad 2 (t_minute t)
   ++ pad 2 ((t mod minute) / second))%string.
(** [base64.StdEncoding]: padded to a multiple of four. *)
Definition std_encode (s : string) : string :=
  (EncodeToString s ++ match (String.length s mod 3)%nat with 1%nat => "==" | 2%nat => "=" | _ => "" end)%string.

Definition stk_body (local : Z) (cfg : Config) (phone : string) (amount : Z) (i : STKPushInput) : stkPushBody :=
  let ts := stamp local in
  let ref := word_or (pq_reference i) "FuelGrid" in
  mkPushBody (cf_shortcode cfg) (std_encode (cf_shortcode cfg ++ cf_passkey cfg ++ ts)) ts "CustomerPayBillOnline"
    (uint_text amount) phone (cf_shortcode cfg) phone (cf_callback cfg) (if (12 <? String.length ref)%nat then String.substring 0 12 ref else ref)
    (word_or (pq_description i) "Fuel payment").

(** [send] is what the push endpoint of the base URL answers to a token and a body; [local] is
    [now] in the zone of the server. *)
Definition STKPush (now local : Z) (reply : string -> Config -> result unit (string * string))
    (send : string -> string -> stkPushBody -> result unit STKPushResult) (c : Client) (i : STKPushInput)
  : result mpesa_error STKPushResult * Client :=
  if negb (ml_enabled c) then (Err MpDisabled, c)
  else if bool_decide (cf_shortcode (ml_cfg c) = "")%string || bool_decide (cf_passkey (ml_cfg c) = "")%string
          || bool_decide (cf_callback (ml_cfg c) = "")%string then (Err MpConfig, c)
  else match NormalizePhone (pq_phone i), WholeShillings (pq_amount i) with
       | Some phone, Some amount =>
           match accessToken now reply c with
           | (Ok tok, c') => (match send (ml_base c) tok (stk_body local (ml_cfg c) phone amount i) with
                              | Ok r => Ok r | Err _ => Err MpRefused end, c')
           | (Err e, c') => (Err e, c')
           end
       | _, _ => (Err MpRefused, c)
       end.

(** ** Transactions (mpesa_repo.go) *)

(** [NULLIF($n, '')] *)
Definition non_empty (s : string) : option string := if bool_decide (s = "")%string then None else Some s.

Record InitiateMpesaInput := mkInitiate {
  in_station : uuid; in_checkout : string; in_merchant : string; in_amount : string; in_phone : string;
  in_reference : string; in_description : string }.

(** [uq_mpesa_tenant_checkout] *)
Definition same_checkout (tenant : uuid) (checkout : string) (m : MpesaTransaction) : bool :=
  bool_decide (mp_tenant m = tenant /\ mp_checkout m = checkout).
Definition InitiateMpesa (tenant : uuid) (i : InitiateMpesaInput) : Tx Takings takings_error MpesaTransaction :=
  let! amount := tlift (of_option TgNumeric (parse_numeric (in_amount i) ≫= numeric_col 14 2)) in
  tguard (0 <=? amount) TgCheck ;;!
  let! id := tg_fresh in
  let! t := tget in
  tguard (negb (exists_where (same_checkout tenant (in_checkout i)) (tg_mpesa t))) TgUnique ;;!
  tguard (till_station (tg_till t) tenant (in_station i)) TgForeignKey ;;!
  let m := mkMpesa id tenant (in_station i) (in_checkout i) (non_empty (in_merchant i)) amount (in_phone i) MpPending
    None None (non_empty (in_reference i)) (non_empty (in_description i)) None None None (tg_now t) (tg_now t) in
  tput (tput_mpesa (tg_mpesa t ++ [m]) t) ;;! tret m.

Record SettleMpesaInput := mkSettle {
  se_checkout : string; se_status : mpesa_status; se_code : Z; se_receipt : string; se_raw : string }.
Definition settled (i : SettleMpesaInput) (now : Z) (m : MpesaTransaction) : MpesaTransaction :=
  mkMpesa (mp_id m) (mp_tenant m) (mp_station m) (mp_checkout m) (mp_merchant m) (mp_amount m) (mp_phone m)
    (se_status i) (Some (se_code i)) (non_empty (se_receipt i)) (mp_reference m) (mp_description m)
    (Some (word_or (se_raw i) "null")) (mp_day m) (mp_reconciled m) (mp_created m) now.
Definition awaiting (checkout : string) (m : MpesaTransaction) : bool :=
  bool_decide (mp_checkout m = checkout /\ mp_status m = MpPending).
Definition getMpesaByCheckoutID (t : Takings) (checkout : string) : result takings_error MpesaTransaction :=
  of_option TgNotFound (first_where (fun m => bool_decide (mp_checkout m = checkout)) (tg_mpesa t)).
(** The rows of every tenant; a result code is an [integer] column. *)
Definition SettleMpesaByCheckoutID (i : SettleMpesaInput) : Tx Takings takings_error MpesaTransaction :=
  tguard ((- 2 ^ 31 <=? se_code i) && (se_code i <? 2 ^ 31)) TgNumeric ;;!
  let! t := tget in
  match first_where (awaiting (se_checkout i)) (tg_mpesa t) with
  | Some m => tput (tput_mpesa (update_where (awaiting (se_checkout i)) (settled i (tg_now t)) (tg_mpesa t)) t) ;;!
              tret (settled i (tg_now t) m)
  | None => tlift (getMpesaByCheckoutID t (se_checkout i))
  end.

Definition mp_by_id (tenant id : uuid) (m : MpesaTransaction) : bool := bool_decide (mp_tenant m = tenant /\ mp_id m = id).
Definition GetMpesa (t : Takings) (tenant id : uuid) : result takings_error MpesaTransaction :=
  of_option TgNotFound (first_where (mp_by_id tenant id) (tg_mpesa t)).

Definition status_word (s : mpesa_status) : string :=
  match s with MpPending => "pending" | MpPaid => "paid" | MpFailed => "failed" | MpCancelled => "cancelled" end.
Definition ListMpesa (t : Takings) (tenant : uuid) (station : option uuid) (status : string) (limit offset : nat)
  : list MpesaTransaction :=
  limit_offset limit offset (order_by (newest mp_created)
    (select (fun m => bool_decide (mp_tenant m = tenant)
       && match station with Some s => bool_decide (mp_station m = s) | None => true end
       && (bool_decide (status = "")%string || bool_decide (status_word (mp_status m) = status))) (tg_mpesa t))).

Definition matched (day : uuid) (now : Z) (m : MpesaTransaction) : MpesaTransaction :=
  mkMpesa (mp_id m) (mp_tenant m) (mp_station m) (mp_checkout m) (mp_merchant m) (mp_amount m) (mp_phone m)
    (mp_status m) (mp_code m) (mp_receipt m) (mp_reference m) (mp_description m) (mp_raw m) (Some day) (Some now)
    (mp_created m) now.
Definition paid_by_id (tenant id : uuid) (m : MpesaTransaction) : bool :=
  mp_by_id tenant id m && bool_decide (mp_status m = MpPaid).
Definition fk_revenue_day (t : Takings) (tenant day : uuid) : bool := exists_where (rd_by_id tenant day) (tg_days t).
Definition ReconcileMpesa (pool : Takings) (tenant id day : uuid) : Tx Takings takings_error MpesaTransaction :=
  let! t := tget in
  match first_where (paid_by_id tenant id) (tg_mpesa t) with
  | Some m =>
      tguard (fk_revenue_day t tenant day) TgForeignKey ;;!
      tput (tput_mpesa (update_where (paid_by_id tenant id) (matched day (tg_now t)) (tg_mpesa t)) t) ;;!
      tret (matched day (tg_now t) m)
  | None => match GetMpesa pool tenant id with Err _ => tfail TgNotFound | Ok _ => tfail TgNotPaid end
  end.

(** ** Handlers of mobile money (server_routes_payments.go) *)

(** A plain decimal literal without blanks, as ParseFloat reads it. *)
Definition plain_decimal (s : string) : option dec :=
  match s with
  | String "-" r => dec_opp <$> parse_unsigned r
  | String "+" r => parse_unsigned r
  | _ => parse_unsigned s
  end.

Section Handlers.
Context {L : Type} `{Loader L}.
Context (policy : L) (cfgDefault cfgMax : Z).

Definition handleListMpesaTransactions (pool : Takings) (ctx : option Actor) (station : option (result unit uuid))
    (status : string) (limit offset : option (result unit Z)) : result http_error (list MpesaTransaction * bool) :=
  (let? a := ops_actor ctx in
   let? (l, o) := parsePage cfgDefault cfgMax limit offset in
   let? station := match station with
                   | None => Ok None
                   | Some (Ok s) => Ok (Some s)
                   | Some (Err _) => Err (bad_request "invalid station_id")
                   end in
   Ok (page_of l (ListMpesa pool (ac_tenant a) station status (Z.to_nat (l + 1)) (Z.to_nat o))))%res.

Record initiateMpesaRequest := mkInitiateRequest {
  iq_station : uuid; iq_phone : string; iq_amount : string; iq_reference : string; iq_description : string }.
Definition push_error (e : mpesa_error) : http_error :=
  match e with
  | MpDisabled => HttpError 503 "M-Pesa is not configured"
  | MpConfig => HttpError 503 "M-Pesa shortcode/passkey/callback not configured"
  | MpRefused => HttpError 502 "M-Pesa request failed"
  end.
(** [push] is the outcome of [STKPush] on the request; the transaction begins after
    it. *)
Definition handleInitiateMpesaSTKPush (push : STKPushInput -> result mpesa_error STKPushResult) (ctx : option Actor)
    (body : result unit initiateMpesaRequest) : Tx Takings http_error (MpesaTransaction * string) :=
  let! a := tlift (ops_actor ctx) in
  let! q := tlift (json_body body) in
  tguard (negb (bool_decide (iq_station q = uuid_nil))) (bad_request "station_id is required") ;;!
  tguard (negb (bool_decide (iq_phone q = "")%string)) (bad_request "phone is required") ;;!
  tguard (bool_decide (is_Some (positive_amount (plain_decimal (iq_amount q)))))
    (bad_request "amount must be a positive decimal") ;;!
  tlift (authorizeStation policy a "payment.mpesa.manage" (iq_station q)) ;;!
  let! r := tlift (match push (mkPush (iq_phone q) (iq_amount q) (iq_reference q) (iq_description q)) with
                   | Ok r => Ok r | Err e => Err (push_error e) end) in
  let! m := tconv (fun e => if bool_decide (e = TgForeignKey) then bad_request "unknown station for this tenant"
                            else ops_internal)
    (InitiateMpesa (ac_tenant a) (mkInitiate (iq_station q) (pr_checkout r) (pr_merchant r) (iq_amount q) (iq_phone q)
       (iq_reference q) (iq_description q))) in
  tg_audit a "payment.mpesa.initiated" (mp_id m) ;;! tret (m, pr_message r).

(** The answer is the same acknowledgement whatever happens; a failed settlement is
    only logged.  [raw] is the body as text beside what it decodes to. *)
Definition handleMpesaCallback (raw : string) (body : result unit CallbackPayload) (t : Takings) : Takings :=
  match ParseCallback body with
  | None => t
  | Some p =>
      (run_tx (SettleMpesaByCheckoutID
         (mkSettle (cr_checkout p) (if cr_success p then MpPaid else MpFailed) (cr_code p) (cr_receipt p) raw)) t).2
  end.

Definition reconcile_error (e : takings_error) : http_error :=
  match e with
  | TgNotPaid => HttpError 422 "only a paid transaction can be reconciled"
  | TgNotFound => HttpError 404 "transaction not found"
  | TgForeignKey => bad_request "unknown revenue day for this tenant"
  | _ => ops_internal
  end.
Definition handleReconcileMpesa (pool : Takings) (ctx : option Actor) (id : result unit uuid) (body : result unit uuid)
  : Tx Takings http_error MpesaTransaction :=
  let! a := tlift (ops_actor ctx) in
  let! id := tlift (url_id "invalid transaction id" id) in
  let! day := tlift (json_body body) in
  tguard (negb (bool_decide (day = uuid_nil))) (bad_request "revenue_day_id is required") ;;!
  let! txn := tlift (match GetMpesa pool (ac_tenant a) id with
                     | Ok m => Ok m | Err _ => Err (HttpError 404 "transaction not found") end) in
  tlift (authorizeStation policy a "payment.mpesa.manage" (mp_station txn)) ;;!
  let! d := tlift (match GetDayByID pool (ac_tenant a) day with
                   | Ok d => Ok d | Err _ => Err (bad_request "unknown revenue day for this tenant") end) in
  tguard (bool_decide (rd_station d = mp_station txn))
    (HttpError 422 "revenue day belongs to a different station than the transaction") ;;!
  let! m := tconv reconcile_error (ReconcileMpesa pool (ac_tenant a) id day) in
  tg_audit a "payment.mpesa.reconciled" (mp_id m) ;;! tret m.
End Handlers.
