(* ===== verification/TakingsProps.v ===== *)
(** * What the takings promise

    Phones and amounts as they reach the provider, the roll-up of a revenue day, and
    the two tables over every sequence of requests: locked days and settled
    collections are final, and a collection is matched once it is paid, with a day of
    its own station. *)

From stdpp Require Import base list strings relations.
From Stdlib Require Import ZArith Lia Ascii String.
From S2P Require Import Prelude Frames Calendar Numeric Schema Ledger Float64 Accounting AccountingProps RosterProps Finance Payables Policy Operations OperationsProps Workforce WorkforceHandlers Readings ShiftClose Revenue CloseHandlers CloseProps RevenueProps KeyedLedger FinanceHandlers Treasury Expenses Banking ExpenseHandlers BankHandlers TreasuryProps TreasuryRuns TreasuryDocs TreasurySamples Secrets Takings.

Local Open Scope Z_scope.
Local Open Scope tx_scope.

(** ** Phones *)

Lemma all_digits_app a b : all_digits (a ++ b) = all_digits a && all_digits b.
Proof. induction a as [|c a IH]; simpl; [done|]. by destruct (digit_val c). Qed.
Lemma digit_not_space c v : digit_val c = Some v -> is_space c = false.
Proof.
  unfold digit_val, is_space. cbv zeta. generalize (N_of_ascii c). intros n.
  destruct (_ && _) eqn:E; [|done]. intros _. apply andb_true_iff in E as [E1%Z.leb_le E2%Z.leb_le].
  apply orb_false_iff. split; [apply andb_false_iff; right; apply N.leb_gt|apply N.eqb_neq]; lia.
Qed.
Lemma trim_digits s : all_digits s = true -> trim_space s = s.
Proof.
  unfold trim_space. intros H.
  assert (Hr : Numeric.trim_right is_space s = s).
  { induction s as [|c s IH]; [done|]. simpl in H |- *. destruct (digit_val c) as [v|] eqn:E; [|done].
    rewrite (IH H), (digit_not_space c v E). by destruct s. }
  destruct s as [|c s]; [done|]. simpl in H. destruct (digit_val c) as [v|] eqn:E; [|done].
  cbn [Numeric.trim_left]. by rewrite (digit_not_space c v E).
Qed.
Lemma drop_blanks_digits s : all_digits s = true -> drop_blanks s = s.
Proof.
  induction s as [|c s IH]; [done|]. simpl. destruct (digit_val c) as [v|] eqn:E; [|done]. intros H.
  rewrite bool_decide_eq_false_2; [by rewrite IH|]. by intros ->.
Qed.
Lemma trim_plus_digits s : all_digits s = true -> trim_plus s = s.
Proof.
  destruct s as [|c s]; [done|]. simpl. intros H. destruct (digit_val c) as [v|] eqn:E; [|done].
  destruct c as [[] [] [] [] [] [] [] []]; try done.
Qed.

Lemma substring_0_all s : substring 0 (String.length s) s = s.
Proof. induction s as [|c s IH]; simpl; [done|]. by rewrite IH. Qed.

Definition canonical_phone (p : string) : Prop :=
  all_digits p = true /\ String.length p = 12%nat /\ String.prefix "254" p = true.
Lemma canonical_fixed p : canonical_phone p -> NormalizePhone p = Some p.
Proof.
  intros (Hd & Hl & Hp). unfold NormalizePhone.
  rewrite trim_digits, drop_blanks_digits, trim_plus_digits by done.
  rewrite bool_decide_eq_false_2 by (by intros ->). by rewrite Hd, Hp, Hl.
Qed.

(** A phone number the client accepts is turned into twelve digits that begin
    with 254, and normalising such a number again changes nothing: the number sent
    to the provider and the one its callback is read with agree. *)
Theorem NormalizePhone_canonical raw p :
  NormalizePhone raw = Some p -> canonical_phone p /\ NormalizePhone p = Some p.
Proof.
  intros H. assert (Hc : canonical_phone p); [|split; [done|by apply canonical_fixed]].
  unfold NormalizePhone in H. set (s := trim_plus (drop_blanks (trim_space raw))) in H. clearbody s.
  case_bool_decide as He; [done|]. destruct (all_digits s) eqn:Ed; [|done]. simpl in H.
  destruct (_ && _) eqn:E1 in H.
  { apply andb_true_iff in E1 as [E1 E2%Nat.eqb_eq]. injection H as <-. done. }
  destruct (String.prefix "0" s && _) eqn:E2 in H.
  { apply andb_true_iff in E2 as [E2 E3%Nat.eqb_eq]. injection H as <-.
    destruct s as [|c s']; [done|]. simpl in Ed, E3 |- *. destruct (digit_val c); [|done]. injection E3 as E3.
    assert (Hs : substring 0 9 s' = s') by (rewrite <- E3; apply substring_0_all).
    rewrite Hs. split; [done|]. split; [change (3 + String.length s' = 12)%nat; lia|by destruct s']. }
  destruct (_ && _) eqn:E3 in H; [|done]. injection H as <-.
  apply andb_true_iff in E3 as [E3%Nat.eqb_eq _]. split; [done|]. split; [change (3 + String.length s = 12)%nat; lia|by destruct s].
Qed.

(** ** Amounts *)

Lemma take_digits_nonneg s v n r : take_digits s 0 0 = (v, n, r) -> 0 <= v.
Proof. destruct (take_digits_acc s 0 0) as (w & Hw & E). rewrite E. intros [= <- _ _]. lia. Qed.
Lemma take_digits_all s acc n : all_digits s = true ->
  exists w, 0 <= w < pow10 (String.length s)
    /\ take_digits s acc n = (acc * pow10 (String.length s) + w, (n + String.length s)%nat, ""%string).
Proof.
  revert acc n. induction s as [|c s IH]; intros acc n H; cbn [String.length take_digits].
  - exists 0. rewrite pow10_0. split; [lia|]. f_equal. f_equal; lia.
  - cbn [all_digits] in H. destruct (digit_val c) as [x|] eqn:Ec; [|done].
    assert (0 <= x <= 9). { unfold digit_val in Ec. destruct (_ && _) eqn:E in Ec; [|done]. injection Ec as <-. lia. }
    destruct (IH (acc * 10 + x) (S n) H) as (w & Hw & ->). exists (x * pow10 (String.length s) + w).
    rewrite pow10_S. split; [nia|]. f_equal. f_equal; [ring|lia].
Qed.
Lemma take_digits_cut r : forall i f acc n v m, cut_dot r = (i, f) -> take_digits i acc n = (v, m, ""%string) ->
  take_digits r acc n = (v, m, match f with Some f => String "." f | None => ""%string end).
Proof.
  induction r as [|c r IH]; intros i f acc n v m Hc Ht; cbn [cut_dot] in Hc.
  { injection Hc as <- <-. done. }
  case_bool_decide as Ec.
  - subst c. injection Hc as <- <-. cbn in Ht |- *. by injection Ht as -> ->.
  - destruct (cut_dot r) as [i' f'] eqn:Er. injection Hc as <- <-. cbn [take_digits] in Ht |- *.
    destruct (digit_val c) as [x|]; [|done]. by eapply IH.
Qed.

Definition floor_of (v : Z) (d : dec) : Prop := v * pow10 (scale d) <= mant d < (v + 1) * pow10 (scale d).
Lemma parse_unsigned_cut r i f v m :
  cut_dot r = (i, f) -> take_digits i 0 0 = (v, m, ""%string) -> m <> 0%nat ->
  match f with Some f => all_digits f | None => true end = true ->
  exists d, parse_unsigned r = Some d /\ floor_of v d.
Proof.
  intros Hc Ht Hm Hf. unfold parse_unsigned. rewrite (take_digits_cut _ _ _ _ _ _ _ Hc Ht).
  destruct f as [f|]; cbn beta iota.
  - destruct (take_digits_all f v 0 Hf) as (w & Hw & ->).
    rewrite (proj2 (Nat.ltb_lt 0 _)) by lia. eexists. split; [done|]. unfold floor_of. simpl. nia.
  - rewrite (proj2 (Nat.ltb_lt 0 m)) by lia. eexists. split; [done|]. unfold floor_of. simpl. rewrite pow10_0. lia.
Qed.

Lemma ParseInt_pos i v : ParseInt i = Some v -> 0 < v ->
  v < 2 ^ 63 /\ exists r m, (i = String "+" r \/ i = r) /\ take_digits r 0 0 = (v, m, ""%string) /\ m <> 0%nat.
Proof.
  intros H Hv. assert (Hr : forall r, (let '(v, n, rest) := take_digits r 0 0 in
      if (n =? 0)%nat || negb (bool_decide (rest = "")%string) then None
      else if v <? 2 ^ 63 then Some v else None) = Some v ->
    v < 2 ^ 63 /\ exists m, take_digits r 0 0 = (v, m, ""%string) /\ m <> 0%nat).
  { intros r Hr. destruct (take_digits r 0 0) as [[x n] rest].
    destruct (Nat.eqb_spec n 0); [done|]. simpl in Hr. case_bool_decide; [|done]. simpl in Hr. subst rest.
    destruct (Z.ltb_spec x (2 ^ 63)); [|done]. injection Hr as ->. eauto. }
  destruct i as [|c i]; [by vm_compute in H|].
  destruct (decide (c = "+"%char)) as [->|Hp].
  { destruct (Hr i H) as (? & m & ? & ?). split; [done|]. exists i, m. auto. }
  destruct (decide (c = "-"%char)) as [->|Hn].
  { exfalso. unfold ParseInt in H. cbn iota in H. destruct (take_digits i 0 0) as [[x n] rest] eqn:E.
    apply take_digits_nonneg in E. destruct (_ || _); [done|]. destruct (_ <=? _); [|done]. injection H as <-. lia. }
  destruct (Hr (String c i)) as (? & m & ? & ?); [|split; [done|]; exists (String c i), m; auto].
  revert H. unfold ParseInt. destruct c as [[] [] [] [] [] [] [] []]; done.
Qed.

(** The whole shillings pushed to the payer's phone are the recorded amount
    rounded down: an amount the client accepts is also the decimal that is stored,
    it is at least one shilling and below two to the 63, and what is asked of
    the payer falls short of what is recorded by less than a shilling. *)
Theorem WholeShillings_floor amount v :
  WholeShillings amount = Some v ->
  1 <= v < 2 ^ 63 /\ exists d, parse_numeric amount = Some d /\ floor_of v d.
Proof.
  unfold WholeShillings, parse_numeric. set (s := trim_space amount). clearbody s.
  case_bool_decide as He; [done|]. destruct (cut_dot s) as [i f] eqn:Ec.
  destruct (match f with Some f => all_digits f | None => true end) eqn:Ef; [|done]. cbn [negb].
  destruct (ParseInt _) as [w|] eqn:Ep; [|done]. destruct (Z.leb_spec w 0); [done|]. intros [= <-].
  case_bool_decide as Hi; [injection Ep as <-; lia|].
  destruct (ParseInt_pos _ _ Ep ltac:(lia)) as (Hb & r & m & Hr & Ht & Hm). split; [lia|].
  destruct s as [|c s]; [done|]. cbn [cut_dot] in Ec. case_bool_decide as Edot; [by injection Ec as <- _|].
  destruct (cut_dot s) as [i' f'] eqn:Es. injection Ec as <- <-. destruct Hr as [[= -> ->]|<-].
  - by eapply parse_unsigned_cut.
  - assert (Hd : exists x, digit_val c = Some x).
    { cbn [take_digits] in Ht. destruct (digit_val c); [eauto|]. by injection Ht as _ <- _. }
    assert (exists d, parse_unsigned (String c s) = Some d /\ floor_of w d) as Hd'.
    { eapply parse_unsigned_cut; [|exact Ht|done|exact Ef]. cbn [cut_dot]. rewrite bool_decide_eq_false_2 by done.
      by rewrite Es. }
    clear - Hd Hd'. destruct Hd as [x Hx].
    destruct c as [[] [] [] [] [] [] [] []]; first [exact Hd' | discriminate Hx].
Qed.

(** ** The roll-up of a day *)

Lemma sum_by_kinds (l : list Tender) :
  let kind k := sum_by td_amount (select (of_kind k) l) in
  sum_by td_amount l = kind TdCash + kind TdMobile + kind TdCard + kind TdCredit + kind TdVoucher.
Proof.
  cbv beta zeta. rewrite !sum_by_select, <- !sum_by_add. apply sum_by_ext. intros p _. unfold of_kind.
  by destruct (td_type p); simpl; lia.
Qed.

(** The tenders add up and the variance is what they are over the gross. *)
Definition totals_ok (d : RevenueDay) : Prop :=
  rd_tender d = rd_cash d + rd_momo d + rd_card d + rd_credit d + rd_voucher d
  /\ rd_variance d = rd_tender d - rd_gross d.
Lemma rolled_up_totals t id tenant station y : totals_ok (rolled_up t id tenant station y).
Proof. split; [apply sum_by_kinds|done]. Qed.

(** What a revenue day should say, straight from the tables.  A sale of the day
    stands unless an approved void of its tenant names it; a tender counts when it
    is recorded at the station for a shift of the day. *)
Definition stands (s : Site) (tenant station day : uuid) (x : Sale) : bool :=
  bool_decide (sale_tenant x = tenant) && bool_decide (sale_station x = station) && bool_decide (sale_day x = day)
  && forallb (fun v => negb (bool_decide (vd_tenant v = tenant) && bool_decide (vd_sale v = sale_id x)
                             && bool_decide (vd_status v = VoidApproved))) (s_voids s).
Definition shifts_of_day (o : Ops) (tenant day : uuid) : list uuid :=
  sh_id <$> select (fun h => bool_decide (sh_tenant h = tenant) && bool_decide (sh_day h = day)) (op_shifts o).
Definition counts (o : Ops) (tenant station day : uuid) (p : Tender) : bool :=
  td_recorded p && bool_decide (td_tenant p = tenant) && bool_decide (td_station p = station)
  && bool_decide (td_shift p ∈ Some <$> shifts_of_day o tenant day).

Section Reference.
Context (t : Takings) (tenant station day : uuid).
Definition standing_total (f : Sale -> Z) : Z :=
  sum_by (fun x => if stands (tg_site t) tenant station day x then f x else 0) (s_sales (tg_site t)).
Definition taken (k : tender_type) : Z :=
  sum_by (fun p => if counts (s_ops (tg_site t)) tenant station day p && bool_decide (td_type p = k) then td_amount p else 0)
    (tl_tenders (tg_till t)).

Record rolls_up (d : RevenueDay) : Prop := {
  ru_gross : rd_gross d = standing_total sale_gross;
  ru_net : rd_net d = standing_total sale_net;
  ru_tax : rd_tax d = standing_total sale_tax;
  ru_cogs : rd_cogs d = standing_total (fun x => default 0 (sale_cogs x));
  ru_margin : rd_margin d = standing_total (fun x => default 0 (sale_margin x));
  ru_cash : rd_cash d = taken TdCash;
  ru_momo : rd_momo d = taken TdMobile;
  ru_card : rd_card d = taken TdCard;
  ru_credit : rd_credit d = taken TdCredit;
  ru_voucher : rd_voucher d = taken TdVoucher;
  ru_tender : rd_tender d = taken TdCash + taken TdMobile + taken TdCard + taken TdCredit + taken TdVoucher;
  ru_variance : rd_variance d = rd_tender d - rd_gross d;
}.
End Reference.

Lemma stands_standing s tenant station day x :
  stands s tenant station day x = sale_of_day tenant station day x && negb (voided s x).
Proof.
  unfold stands, sale_of_day, voided, exists_where. apply eq_bool_prop_intro. rewrite !Is_true_true.
  rewrite !andb_true_iff, !bool_decide_eq_true, negb_true_iff, List.forallb_forall.
  split.
  - intros [[[<- <-] <-] Hv]. split; [done|]. apply exists_where_false. intros v Hin. specialize (Hv v Hin).
    unfold approved_of. apply bool_decide_eq_false. intros (E1 & E2 & E3).
    by rewrite E1, E2, E3, !bool_decide_eq_true_2 in Hv.
  - intros [(<- & <- & <-) Hv]. split; [done|]. intros v Hin.
    pose proof (proj1 (exists_where_false _ _) Hv v Hin) as Hn. unfold approved_of in Hn. apply bool_decide_eq_false in Hn.
    apply negb_true_iff, not_true_iff_false. rewrite !andb_true_iff, !bool_decide_eq_true. tauto.
Qed.

Lemma counts_tender o tenant station day p : counts o tenant station day p = day_tender o tenant station day p.
Proof.
  unfold counts, day_tender, shifts_of_day. apply eq_bool_prop_intro. rewrite !Is_true_true, !andb_true_iff, !bool_decide_eq_true.
  destruct (td_shift p) as [h|].
  - rewrite exists_where_true. split.
    + intros (((? & ?) & ?) & (k & [= <-] & (x & -> & [Hx Hb]%list_elem_of_In%in_select)%list_elem_of_fmap)%list_elem_of_fmap).
      bool_solve. split; [done|]. exists x. by rewrite bool_decide_eq_true_2.
    + intros (((? & ?) & ?) & (x & Hx & (<- & ? & ?)%bool_decide_eq_true)). split; [done|].
      apply list_elem_of_fmap. eexists. split; [done|]. apply list_elem_of_fmap. exists x. split; [done|].
      apply list_elem_of_In, in_select. split; [done|]. by rewrite !bool_decide_eq_true_2.
  - split; [|by intros [_ ?]]. intros [_ (k & ? & _)%list_elem_of_fmap]. done.
Qed.

(** One total of the sales, one kind of the tenders. *)
Lemma joined_standing t tenant station day (f : Sale -> option Z) (g : SaleVoid -> option Z) :
  Void_inv (tg_site t) -> (forall v x, reverses v x -> g v = Z.opp <$> f x) ->
  sum_rows f g (left_join reversal_of (select (sale_of_day tenant station day) (s_sales (tg_site t))) (s_voids (tg_site t)))
  = standing_total t tenant station day (fun x => default 0 (f x)).
Proof.
  intros Hi Hg. change reversal_of with approved_of. rewrite (sum_rows_standing _ Hi) by (done || by intros x [? _]%in_select).
  unfold standing_total. rewrite !sum_by_select. apply sum_by_ext. intros x _. rewrite stands_standing.
  by destruct (sale_of_day _ _ _ x), (voided _ x).
Qed.

Lemma paid_kind t tenant station day k :
  sum_by td_amount (select (of_kind k) (select (day_tender (s_ops (tg_site t)) tenant station day) (tl_tenders (tg_till t))))
  = taken t tenant station day k.
Proof.
  unfold taken. rewrite !sum_by_select. apply sum_by_ext. intros p _. rewrite counts_tender. unfold of_kind.
  by destruct (day_tender _ _ _ _ p), (bool_decide _).
Qed.

Lemma rolled_up_rolls t id tenant station y :
  Void_inv (tg_site t) -> rolls_up t tenant station (dy_id y) (rolled_up t id tenant station y).
Proof.
  intros Hi. constructor; try apply paid_kind; try reflexivity;
    try (apply (joined_standing t tenant station (dy_id y)); [done|]; unfold reverses; intros v x Hr; simpl; tauto).
  unfold rolled_up, rd_tender. by rewrite sum_by_kinds, !paid_kind.
Qed.

Definition tg_next (t : Takings) : uuid := fn_next (tl_fin (tg_till t)).

(** A computation adds the row of the station's day or replaces the totals of the
    draft there is. *)
Lemma ComputeDay_inv tenant station day t d t' :
  ComputeDay tenant station day t = Ok (d, t') ->
  tg_mpesa t' = tg_mpesa t /\ tg_next t' = (tg_next t + 1)%N /\ tg_site t' = tg_site t
  /\ tl_tenders (tg_till t') = tl_tenders (tg_till t)
  /\ exists y n, first_where (dy_by tenant day) (op_days (s_ops (tg_site t))) = Some y
      /\ n = rolled_up t (tg_next t) tenant station y /\ amounts_fit n = true
      /\ ((first_where (same_station_day n) (tg_days t) = None /\ d = n /\ tg_days t' = tg_days t ++ [n])
          \/ exists d0, first_where (same_station_day n) (tg_days t) = Some d0 /\ rd_status d0 = RdDraft
             /\ d = recomputed n d0 /\ tg_days t' = update_where (same_station_day n) (recomputed n) (tg_days t)).
Proof.
  intros H. unfold ComputeDay in H. tx_step H. injection E as <- <-. tx_step H.
  destruct (first_where (dy_by tenant day) _) as [y|] eqn:Ey; [|done].
  tx_step H. destruct (first_where (same_station_day _) _) as [d0|] eqn:Ed.
  - tx_steps H. simplify_eq/=. split_and!; try done. exists y. eexists. split; [reflexivity|]. split; [reflexivity|]. split; [done|].
    right. exists d0. split; [exact Ed|]. split; [|done]. apply negb_true_iff in E0. unfold is_locked in E0.
    destruct (rd_status d0); [done|]. by rewrite bool_decide_eq_true_2 in E0.
  - tx_steps H. simplify_eq/=. split_and!; try done. exists y. eexists. split; [reflexivity|]. split; [reflexivity|]. split; [done|]. auto.
Qed.

(** The figures of a proposed row depend on the tables it is computed from alone. *)
Lemma recomputed_ids n n' d : recomputed n' n = n -> recomputed n' d = recomputed n d.
Proof. intros E. destruct n, n'. unfold recomputed in E. simpl in E. injection E. intros. subst. done. Qed.

Lemma rolled_up_again t t' id id' tenant station y :
  tg_site t' = tg_site t -> tl_tenders (tg_till t') = tl_tenders (tg_till t) ->
  let n := rolled_up t id tenant station y in let n' := rolled_up t' id' tenant station y in
  recomputed n' n = n /\ same_station_day n' = same_station_day n /\ amounts_fit n' = amounts_fit n.
Proof. intros Es Et. cbv zeta. unfold rolled_up. by rewrite Es, Et. Qed.

Lemma update_where_twice {R} (p : R -> bool) (f g : R -> R) (l : list R) :
  (forall x, p x = true -> p (f x) = true /\ g (f x) = f x) -> update_where p g (update_where p f l) = update_where p f l.
Proof.
  intros H. unfold update_where. rewrite <- list_fmap_compose. apply list_fmap_ext. intros _ x _. unfold compose.
  destruct (p x) eqn:E; [|by rewrite E]. destruct (H x E) as [-> ?]. done.
Qed.

Lemma ComputeDay_found tenant station day t y :
  first_where (dy_by tenant day) (op_days (s_ops (tg_site t))) = Some y ->
  let n := rolled_up t (tg_next t) tenant station y in
  let t1 := tput_till (put_fin (bump_fin (tl_fin (tg_till t))) (tg_till t)) t in
  ComputeDay tenant station day t =
  if amounts_fit n then
    match first_where (same_station_day n) (tg_days t) with
    | Some d => if is_locked d then Err TgLocked
                else Ok (recomputed n d, tput_days (update_where (same_station_day n) (recomputed n) (tg_days t)) t1)
    | None => if till_station (tg_till t1) tenant station then Ok (n, tput_days (tg_days t ++ [n]) t1) else Err TgForeignKey
    end
  else Err TgNumeric.
Proof.
  intros Hy n t1.
  assert (E : ComputeDay tenant station day t = match first_where (dy_by tenant day) (op_days (s_ops (tg_site t))) with
    | None => Err TgLocked
    | Some y => (let n := rolled_up t (tg_next t) tenant station y in
       tguard (amounts_fit n) TgNumeric ;;!
       match first_where (same_station_day n) (tg_days t) with
       | Some d => tguard (negb (is_locked d)) TgLocked ;;!
           tput (tput_days (update_where (same_station_day n) (recomputed n) (tg_days t)) t1) ;;! tret (recomputed n d)
       | None => tguard (till_station (tg_till t1) tenant station) TgForeignKey ;;! tput (tput_days (tg_days t ++ [n]) t1) ;;! tret n
       end) t1 end).
  { unfold ComputeDay, tbind at 1 2, tg_fresh, tget. simpl. by destruct (first_where (dy_by _ _) _). }
  rewrite E, Hy. fold n. cbv zeta. unfold tbind, tguard, tput, tret. destruct (amounts_fit n); [|done].
  destruct (first_where (same_station_day n) _) as [d|]; [by destruct (is_locked d)|by destruct (till_station _ _ _)].
Qed.

(** Computed again on the tables it left, the day is found as it was. *)
Lemma ComputeDay_again tenant station day t d t' :
  ComputeDay tenant station day t = Ok (d, t') ->
  exists t2, ComputeDay tenant station day t' = Ok (d, t2) /\ tg_days t2 = tg_days t'.
Proof.
  intros H. apply ComputeDay_inv in H as (_ & _ & Hs & Htd & y & n & Hy & -> & Hfit & Hd).
  set (n := rolled_up t (tg_next t) tenant station y) in *.
  destruct (rolled_up_again t t' (tg_next t) (tg_next t') tenant station y Hs Htd) as (En & Ek & Ef).
  set (n' := rolled_up t' (tg_next t') tenant station y) in *. fold n in En, Ek, Ef.
  assert (Hk : forall x, same_station_day n x = true -> same_station_day n (recomputed n x) = true) by done.
  assert (Hrow : first_where (same_station_day n') (tg_days t') = Some d /\ is_locked d = false /\ recomputed n' d = d
    /\ update_where (same_station_day n') (recomputed n') (tg_days t') = tg_days t').
  { rewrite Ek. destruct Hd as [(Hf & -> & ->)|(d0 & Hf & Hst & -> & ->)].
    - assert (Hn : same_station_day n n = true) by (unfold same_station_day; by apply bool_decide_eq_true).
      assert (Hno : forall x, In x (tg_days t) -> same_station_day n x = false) by (intros x; by apply first_where_none).
      split_and!; [by apply first_where_last|done|done|].
      unfold update_where. rewrite map_app. fold (update_where (same_station_day n) (recomputed n') (tg_days t)).
      rewrite update_where_none by done. simpl. by rewrite Hn, En.
    - apply first_where_some in Hf as Hin. destruct Hin as [_ Hd0]. split_and!.
      + by eapply first_where_update.
      + unfold is_locked. simpl. by rewrite Hst.
      + by rewrite (recomputed_ids n n').
      + apply update_where_twice. intros x Hx. split; [done|]. by rewrite (recomputed_ids n n'). }
  destruct Hrow as (Hf & Hl & Hr & Hu).
  rewrite <- Hs in Hy. exists (tput_days (tg_days t') (tput_till (put_fin (bump_fin (tl_fin (tg_till t'))) (tg_till t')) t')).
  split; [|done]. rewrite (ComputeDay_found tenant station day t' y Hy). fold n'. rewrite Ef, Hfit, Hf, Hl, Hr, Hu. done.
Qed.

(** C25. A computed revenue day is the roll-up of its station's day.  On sales and
    voids reached by recognitions and void requests, where the rows of a station
    belong to its tenant, the row returned is the draft of the requested tenant,
    station and day, and stands in the table; its gross, net, tax, cost and margin
    are the sums over the day's sales that no approved void takes back, each tender
    kind the sum of the recorded tenders of the station for the day's shifts, the
    tender total the sum of the five kinds and the variance what it is over the
    gross; and computing the day again at once returns the same row and leaves the
    table as it is. *)
Theorem ComputeDay_rolls_up tenant station day t d t' :
  ComputeDay tenant station day t = Ok (d, t') -> void_reachable (tg_site t) ->
  (forall x, In x (tg_days t) -> rd_station x = station -> rd_tenant x = tenant) ->
  rd_tenant d = tenant /\ rd_station d = station /\ rd_day d = day /\ rd_status d = RdDraft
  /\ In d (tg_days t') /\ rolls_up t tenant station day d
  /\ exists t2, ComputeDay tenant station day t' = Ok (d, t2) /\ tg_days t2 = tg_days t'.
Proof.
  intros H Hv%void_reachable_inv Ht. pose proof (ComputeDay_again _ _ _ _ _ _ H) as Hag.
  apply ComputeDay_inv in H as (_ & _ & _ & _ & y & n & Hy & -> & _ & Hd).
  assert (Ey : dy_id y = day) by (apply first_where_some in Hy as [_ Hy]; unfold dy_by in Hy; apply bool_decide_eq_true in Hy; tauto).
  pose proof (rolled_up_rolls t (tg_next t) tenant station y Hv) as Hr. rewrite Ey in Hr.
  destruct Hd as [(_ & -> & Hd)|(d0 & Hf & Hst & -> & Hd)]; rewrite Hd in *.
  - split_and!; try done. apply in_app_iff. right. by left.
  - apply first_where_some in Hf as [Hin Hk]. pose proof Hk as [Hk1 Hk2]%bool_decide_eq_true. simpl in Hk1, Hk2.
    split_and!; try done; [exact (Ht d0 Hin Hk1)|simpl; congruence|apply in_update_where; exists d0; by rewrite Hk|by destruct Hr].
Qed.

(** ** The invariant *)

Definition day_ok (d : RevenueDay) : Prop :=
  totals_ok d /\ (rd_status d = RdLocked <-> is_Some (rd_locked_by d)).

(** A collection says no more than its status. *)
Definition txn_ok (m : MpesaTransaction) : Prop :=
  0 <= mp_amount m /\
  match mp_status m with
  | MpPending => mp_code m = None /\ mp_receipt m = None /\ mp_raw m = None
  | MpPaid => mp_code m = Some 0
  | MpFailed => mp_receipt m = None /\ exists c, mp_code m = Some c /\ c <> 0
  | MpCancelled => False
  end.
(** A match is of a paid collection with a day of its tenant and station. *)
Definition linked (days : list RevenueDay) (m : MpesaTransaction) : Prop :=
  forall i, mp_day m = Some i ->
    mp_status m = MpPaid
    /\ exists d, In d days /\ rd_id d = i /\ rd_tenant d = mp_tenant m /\ rd_station d = mp_station m.

Definition station_day (d : RevenueDay) : uuid * uuid := (rd_station d, rd_day d).
Definition checkout_key (m : MpesaTransaction) : uuid * string := (mp_tenant m, mp_checkout m).
Definition takings_ok (t : Takings) : Prop :=
  table rd_id day_ok (tg_next t) (tg_days t) /\ NoDup (station_day <$> tg_days t)
  /\ table mp_id (fun m => txn_ok m /\ linked (tg_days t) m) (tg_next t) (tg_mpesa t)
  /\ NoDup (checkout_key <$> tg_mpesa t).

(** ** What is final

    A row stays, with what identifies it; a locked day and the outcome of a settled
    collection do not change, and a match is only replaced by another. *)
Definition day_kept (d d' : RevenueDay) : Prop :=
  rd_id d' = rd_id d /\ rd_tenant d' = rd_tenant d /\ rd_station d' = rd_station d /\ rd_day d' = rd_day d
  /\ rd_date d' = rd_date d /\ (rd_status d = RdLocked -> d' = d).
Definition txn_terms (m : MpesaTransaction) :=
  (mp_id m, mp_tenant m, mp_station m, mp_checkout m, mp_merchant m, mp_amount m, mp_phone m, mp_reference m,
   mp_description m, mp_created m).
Definition txn_outcome (m : MpesaTransaction) := (mp_status m, mp_code m, mp_receipt m, mp_raw m).
Definition txn_kept (m m' : MpesaTransaction) : Prop :=
  txn_terms m' = txn_terms m /\ (mp_status m <> MpPending -> txn_outcome m' = txn_outcome m)
  /\ (is_Some (mp_day m) -> is_Some (mp_day m')).
Definition final (t t' : Takings) : Prop :=
  (forall d, In d (tg_days t) -> exists d', In d' (tg_days t') /\ day_kept d d')
  /\ (forall m, In m (tg_mpesa t) -> exists m', In m' (tg_mpesa t') /\ txn_kept m m').

Lemma day_kept_refl d : day_kept d d.
Proof. by repeat split. Qed.
Lemma txn_kept_refl m : txn_kept m m.
Proof. by repeat split. Qed.
#[export] Hint Resolve day_kept_refl txn_kept_refl : fuelgrid.
#[export] Instance final_preorder : PreOrder final.
Proof.
  split; [split; eauto with fuelgrid|]. intros a b c [Hd Hm] [Hd' Hm']. split.
  - intros d (d1 & H1 & K1)%Hd. destruct (Hd' d1 H1) as (d2 & H2 & K2). exists d2. split; [done|].
    destruct K1 as (? & ? & ? & ? & ? & K1), K2 as (? & ? & ? & ? & ? & K2). repeat split; try congruence.
    intros Hl. destruct (K1 Hl). by apply K2.
  - intros m (m1 & H1 & K1)%Hm. destruct (Hm' m1 H1) as (m2 & H2 & K2). exists m2. split; [done|].
    destruct K1 as (T1 & O1 & D1), K2 as (T2 & O2 & D2). split; [by rewrite T2|]. split; [|by auto].
    intros Hp. rewrite <- (O1 Hp). apply O2. specialize (O1 Hp). unfold txn_outcome in O1. by injection O1 as -> _ _ _.
Qed.

(** ** Moves *)

(** What one request does to the two tables. *)
Inductive takings_move (t t' : Takings) : Prop :=
| mv_none : tg_days t' = tg_days t -> tg_mpesa t' = tg_mpesa t -> (tg_next t <= tg_next t')%N -> takings_move t t'
| mv_day_new n : tg_mpesa t' = tg_mpesa t -> (tg_next t < tg_next t')%N -> rd_id n = tg_next t -> day_ok n ->
    exists_where (same_station_day n) (tg_days t) = false -> tg_days t' = tg_days t ++ [n] -> takings_move t t'
| mv_day_again n d : tg_mpesa t' = tg_mpesa t -> (tg_next t <= tg_next t')%N -> totals_ok n ->
    first_where (same_station_day n) (tg_days t) = Some d -> rd_status d = RdDraft ->
    tg_days t' = update_where (same_station_day n) (recomputed n) (tg_days t) -> takings_move t t'
| mv_lock tenant id by_ now : tg_mpesa t' = tg_mpesa t -> (tg_next t <= tg_next t')%N ->
    tg_days t' = update_where (unlocked_by_id tenant id) (locked_day by_ now) (tg_days t) -> takings_move t t'
| mv_push m : tg_days t' = tg_days t -> (tg_next t < tg_next t')%N -> mp_id m = tg_next t -> txn_ok m -> mp_day m = None ->
    exists_where (same_checkout (mp_tenant m) (mp_checkout m)) (tg_mpesa t) = false ->
    tg_mpesa t' = tg_mpesa t ++ [m] -> takings_move t t'
| mv_settle i now : tg_days t' = tg_days t -> (tg_next t <= tg_next t')%N ->
    (se_status i = MpPaid /\ se_code i = 0 \/ se_status i = MpFailed /\ se_code i <> 0 /\ se_receipt i = ""%string) ->
    tg_mpesa t' = update_where (awaiting (se_checkout i)) (settled i now) (tg_mpesa t) -> takings_move t t'
| mv_match tenant id day now d : tg_days t' = tg_days t -> (tg_next t <= tg_next t')%N ->
    In d (tg_days t) -> rd_id d = day -> rd_tenant d = tenant ->
    (forall m, In m (tg_mpesa t) -> mp_id m = id -> mp_station m = rd_station d) ->
    tg_mpesa t' = update_where (paid_by_id tenant id) (matched day now) (tg_mpesa t) -> takings_move t t'.

Lemma days_kept_update q g l d :
  (forall x, In x l -> q x = true -> day_kept x (g x)) -> In d l -> exists d', In d' (update_where q g l) /\ day_kept d d'.
Proof.
  intros Hg Hd. exists (if q d then g d else d). split; [apply in_update_where; eauto|].
  destruct (q d) eqn:E; [by apply Hg|apply day_kept_refl].
Qed.
Lemma txns_kept_update q g l m :
  (forall x, In x l -> q x = true -> txn_kept x (g x)) -> In m l -> exists m', In m' (update_where q g l) /\ txn_kept m m'.
Proof.
  intros Hg Hm. exists (if q m then g m else m). split; [apply in_update_where; eauto|].
  destruct (q m) eqn:E; [by apply Hg|apply txn_kept_refl].
Qed.

(** The one draft the guard saw is the row of the station's day. *)
Lemma only_draft t n d x :
  NoDup (station_day <$> tg_days t) -> first_where (same_station_day n) (tg_days t) = Some d ->
  In x (tg_days t) -> same_station_day n x = true -> x = d.
Proof.
  intros Hn [Hd Kd]%first_where_some Hx Kx. apply bool_decide_eq_true in Kd as [? ?], Kx as [? ?].
  apply list_elem_of_In, list_elem_of_lookup in Hx as [i Hi]. apply list_elem_of_In, list_elem_of_lookup in Hd as [j Hj].
  assert (i = j) as ->; [|congruence]. eapply NoDup_lookup; [exact Hn| |]; rewrite list_lookup_fmap.
  - rewrite Hi. reflexivity.
  - rewrite Hj. simpl. unfold station_day. congruence.
Qed.

Lemma move_final t t' : takings_ok t -> takings_move t t' -> final t t'.
Proof.
  intros (_ & Hn & _ & _) Hm. destruct Hm as [Ed Em _|n Em _ _ _ _ Ed|n d Em _ _ Hf Hst Ed|tenant id by_ now Em _ Ed
    |m Ed _ _ _ _ _ Em|i now Ed _ _ Em|tenant id day now d Ed _ _ _ _ _ Em]; split; rewrite ?Ed, ?Em; eauto with fuelgrid.
  - intros d Hd. exists d. split; [apply in_app_iff; auto|apply day_kept_refl].
  - intros x Hx. apply days_kept_update; [|done]. intros y Hy Ky. rewrite (only_draft t n d y Hn Hf Hy Ky).
    repeat split. by rewrite Hst.
  - intros x Hx. apply days_kept_update; [|done]. intros y Hy [_ Ky]%andb_true_iff. repeat split.
    intros Hl. unfold is_locked in Ky. by rewrite bool_decide_eq_true_2 in Ky.
  - intros x Hx. exists x. split; [apply in_app_iff; auto|apply txn_kept_refl].
  - intros x Hx. apply txns_kept_update; [|done]. intros y Hy [_ Ky]%bool_decide_eq_true. by repeat split.
  - intros x Hx. apply txns_kept_update; [|done]. intros y Hy Ky. repeat split. simpl. eauto.
Qed.

Lemma linked_mono days days' m :
  (forall d, In d days -> exists d', In d' days' /\ day_kept d d') -> linked days m -> linked days' m.
Proof.
  intros Hk Hl i Hi. destruct (Hl i Hi) as (Hp & d & Hd & E1 & E2 & E3). split; [done|].
  destruct (Hk d Hd) as (d' & Hd' & K). exists d'. destruct K as (? & ? & ? & _). split_and!; congruence.
Qed.

(** What each row of the collections becomes. *)
Lemma move_txns t t' : takings_ok t -> takings_move t t' ->
  table mp_id (fun m => txn_ok m /\ linked (tg_days t) m) (tg_next t') (tg_mpesa t') /\ NoDup (checkout_key <$> tg_mpesa t').
Proof.
  intros (_ & _ & Ht & Hn) Hm. destruct Hm as [_ Em Hx|n Em Hx _ _ _ _|n d Em Hx _ _ _ _|tenant id by_ now Em Hx _
    |m _ Hx Hid Hok Hday Hnew Em|i now _ Hx Hi Em|tenant id day now d _ Hx Hd Hdi Hdt Hst Em]; rewrite Em.
  1-4: split; [eapply table_mono; [|exact Ht]; lia|done].
  - split.
    + eapply table_snoc; [exact Hid| |exact Hx|exact Ht]. split; [done|]. intros j. by rewrite Hday.
    + eapply NoDup_snoc_guard; [exact Hn|exact Hnew|]. intros y [= E1 E2]. by apply bool_decide_eq_true.
  - split; [|by rewrite fmap_update_where].
    eapply table_mono; [exact Hx|]. apply table_update; [|exact Ht]. intros x [Ex Ex']%bool_decide_eq_true Hin. split; [done|].
    intros [[Ha Hs] Hl]. split; [|by intros j Hj; destruct (Hl j Hj) as [Hp _]; rewrite Ex' in Hp].
    split; [done|]. simpl. destruct Hi as [[-> ->]|(-> & Hc & ->)]; [done|]. split; [done|eauto].
  - split; [|by rewrite fmap_update_where].
    eapply table_mono; [exact Hx|]. apply table_update; [|exact Ht].
    intros x [[Ex Ex']%bool_decide_eq_true Ep%bool_decide_eq_true]%andb_true_iff Hin. split; [done|].
    intros [Hok Hl]. split; [exact Hok|]. intros j [= <-]. split; [done|]. exists d. simpl.
    split_and!; [done|done|congruence|]. symmetry. by apply Hst.
Qed.

Lemma move_days t t' : takings_ok t -> takings_move t t' ->
  table rd_id day_ok (tg_next t') (tg_days t') /\ NoDup (station_day <$> tg_days t').
Proof.
  intros (Ht & Hn & _) Hm. destruct Hm as [Ed _ Hx|n _ Hx Hid Hok Hnew Ed|n d _ Hx Htot Hf Hst Ed|tenant id by_ now _ Hx Ed
    |m Ed Hx _ _ _ _ _|i now Ed Hx _ _|tenant id day now d Ed Hx _ _ _ _ _]; rewrite Ed.
  1, 5-7: split; [eapply table_mono; [|exact Ht]; lia|done].
  - split.
    + eapply table_snoc; [exact Hid|exact Hok|exact Hx|exact Ht].
    + eapply NoDup_snoc_guard; [exact Hn|exact Hnew|]. intros y [= E1 E2]. by apply bool_decide_eq_true.
  - split; [|by rewrite fmap_update_where].
    eapply table_mono; [exact Hx|]. apply table_update; [|exact Ht]. intros x _ _. split; [done|].
    intros [_ Hl]. by split.
  - split; [|by rewrite fmap_update_where].
    eapply table_mono; [exact Hx|]. apply table_update; [|exact Ht]. intros x _ _. split; [done|].
    intros [Hto _]. split; [exact Hto|]. simpl. split; eauto.
Qed.

Lemma move_ok t t' : takings_ok t -> takings_move t t' -> takings_ok t' /\ final t t'.
Proof.
  intros Hok Hm. pose proof (move_final _ _ Hok Hm) as Hf. split; [|done].
  destruct (move_days _ _ Hok Hm) as [Hd Hdn], (move_txns _ _ Hok Hm) as [Hx Hxn]. split_and!; try done.
  eapply table_weaken; [|exact Hx]. intros m _ [Ho Hl]. split; [done|]. eapply linked_mono; [apply Hf|done].
Qed.

(** ** Requests *)

Section Steps.
Context {L : Type} `{Loader L} (policy : L).

(** The nightly job is one [QNightly] per open day. *)
Inductive takings_req :=
| QCompute (ctx : option Actor) (station body : result unit uuid)
| QLock (ctx : option Actor) (id : result unit uuid)
| QPush (push : STKPushInput -> result mpesa_error STKPushResult) (ctx : option Actor)
    (body : result unit initiateMpesaRequest)
| QCallback (raw : string) (body : result unit CallbackPayload)
| QReconcile (ctx : option Actor) (id body : result unit uuid)
| QNightly (tenant station day : uuid).

Definition takings_serve (pool : Takings) (r : takings_req) : Tx Takings http_error unit :=
  match r with
  | QCompute ctx station body => handleComputeRevenueDay ctx station body ;;! tret tt
  | QLock ctx id => handleLockRevenueDay pool ctx id ;;! tret tt
  | QPush push ctx body => handleInitiateMpesaSTKPush policy push ctx body ;;! tret tt
  | QCallback raw body => fun t => Ok (tt, handleMpesaCallback raw body t)
  | QReconcile ctx id body => handleReconcileMpesa policy pool ctx id body ;;! tret tt
  | QNightly tenant station day => fun t => Ok (tt, (run_tx (ComputeDay tenant station day) t).2)
  end.

(** A request that commits, its reads having shown an earlier state of the two
    tables; or any request of the till, which leaves them alone. *)
Inductive takings_step (t t' : Takings) : Prop :=
| tk_serve pool r : final pool t -> takings_serve pool r t = Ok (tt, t') -> takings_step t t'
| tk_till s : (fn_next (tl_fin (tg_till t)) <= fn_next (tl_fin s))%N -> t' = tput_till s t -> takings_step t t'.

Lemma tg_audit_move {E} a action entity t u t' :
  tg_audit (E := E) a action entity t = Ok (u, t') ->
  tg_days t' = tg_days t /\ tg_mpesa t' = tg_mpesa t /\ tg_next t' = tg_next t.
Proof. by intros [= _ <-]. Qed.

Lemma ComputeDay_move tenant station day t d t' : ComputeDay tenant station day t = Ok (d, t') -> takings_move t t'.
Proof.
  intros (Em & Hn & _ & _ & y & n & _ & -> & _ & Hd)%ComputeDay_inv.
  pose proof (rolled_up_totals t (tg_next t) tenant station y) as Htot.
  destruct Hd as [(Hf & _ & Ed)|(d0 & Hf & Hst & _ & Ed)].
  - eapply mv_day_new; [done|lia| | | |exact Ed]; [done|split; [done|]|].
    + simpl. split; [done|]. by intros [? ?].
    + apply exists_where_false. intros x Hx. by eapply first_where_none.
  - eapply mv_day_again; [done|lia|exact Htot|exact Hf|exact Hst|exact Ed].
Qed.

(** An audit row after a move is no further move. *)
Lemma move_then t t1 t' :
  takings_move t t1 -> tg_days t' = tg_days t1 -> tg_mpesa t' = tg_mpesa t1 -> tg_next t' = tg_next t1 -> takings_move t t'.
Proof.
  intros Hm Ed Em Hn. destruct Hm; [eapply mv_none|eapply mv_day_new|eapply mv_day_again|eapply mv_lock|eapply mv_push
    |eapply mv_settle|eapply mv_match]; rewrite ?Ed, ?Em, ?Hn; eauto.
Qed.

Lemma LockDay_move pool tenant id by_ t d t' : LockDay pool tenant id by_ t = Ok (d, t') -> takings_move t t'.
Proof.
  intros H0. unfold LockDay in H0. tx_step H0. destruct (first_where _ _) as [d0|] eqn:Ef.
  - tx_steps H0. subst. by eapply mv_lock.
  - by destruct (GetDayByID _ _ _).
Qed.

Lemma InitiateMpesa_move tenant i t m t' : InitiateMpesa tenant i t = Ok (m, t') -> takings_move t t'.
Proof.
  intros H0. unfold InitiateMpesa in H0. tx_steps H0. injection E1 as <- <-. subst.
  eapply mv_push; [done| | | | | |reflexivity]; try done.
  - unfold tg_next. simpl. lia.
  - split; [simpl; lia|done].
  - simpl. by apply negb_true_iff in E2.
Qed.

(** The callback settles with a consistent outcome, or does nothing. *)
Lemma read_item_code items r : cr_code (fold_left read_item items r) = cr_code r
  /\ cr_success (fold_left read_item items r) = cr_success r.
Proof.
  revert r. induction items as [|[name v] items IH]; intros r; [done|]. cbn [fold_left].
  destruct (IH (read_item r (name, v))) as [-> ->]. unfold read_item.
  repeat match goal with |- context [match ?x with _ => _ end] => destruct x end; done.
Qed.
Lemma ParseCallback_outcome body p : ParseCallback body = Some p ->
  cr_success p = (cr_code p =? 0) /\ (cr_success p = false -> cr_receipt p = ""%string).
Proof.
  unfold ParseCallback. destruct body as [b|]; [|done]. case_bool_decide; [done|]. cbn [cr_success].
  destruct (cb_code b =? 0) eqn:E; cbn [negb]; intros [= <-]; [|done].
  destruct (read_item_code (cb_items b) (mkCallback (cb_merchant b) (cb_checkout b) (cb_code b) (cb_desc b) true "" "" ""))
    as [-> ->]. simpl. by rewrite E.
Qed.
Lemma handleMpesaCallback_move raw body t : takings_move t (handleMpesaCallback raw body t).
Proof.
  assert (Hs : takings_move t t) by (by eapply mv_none).
  unfold handleMpesaCallback. destruct (ParseCallback body) as [p|] eqn:Ep; [|done].
  apply ParseCallback_outcome in Ep as [Hok Hr]. unfold run_tx.
  destruct (SettleMpesaByCheckoutID _ t) as [[m t']|] eqn:E; [|done]. simpl.
  unfold SettleMpesaByCheckoutID in E. tx_step E. tx_step E. destruct (first_where _ _) as [m0|].
  - tx_steps E. subst. eapply mv_settle; [done|done| |reflexivity]. simpl.
    destruct (cr_success p); [left; split; [done|lia]|right; split; [done|split; [lia|auto]]].
  - unfold tlift in E. destruct (getMpesaByCheckoutID _ _); [|done]. by injection E as _ <-.
Qed.

Lemma final_row pool t id m m' :
  final pool t -> takings_ok t -> In m (tg_mpesa pool) -> mp_id m = id -> In m' (tg_mpesa t) -> mp_id m' = id ->
  mp_station m' = mp_station m.
Proof.
  intros [_ Hf] (_ & _ & Ht & _) Hm Ei Hm' Ei'. destruct (Hf m Hm) as (m1 & H1 & K & _).
  unfold txn_terms in K. injection K as K1 K2 K3 _ _ _ _ _ _ _. rewrite <- K3.
  f_equal. eapply table_same; [exact Ht|done|done|congruence].
Qed.

Lemma handleReconcileMpesa_move pool ctx id body t m t' :
  takings_ok t -> final pool t -> handleReconcileMpesa policy pool ctx id body t = Ok (m, t') -> takings_move t t'.
Proof.
  intros Hok Hf H0. unfold handleReconcileMpesa in H0. tx_steps H0. subst.
  match goal with E : tg_audit _ _ _ _ = Ok _ |- _ => apply tg_audit_move in E as (Ed & Em & Hn) end.
  eapply move_then; [|exact Ed|exact Em|exact Hn]. clear Ed Em Hn.
  unfold GetMpesa in E3. destruct (first_where _ (tg_mpesa pool)) as [m0|] eqn:Em0; [|done]. injection E3 as <-.
  unfold GetDayByID in E5. destruct (first_where _ (tg_days pool)) as [d0|] eqn:Ed0; [|done]. injection E5 as <-.
  apply first_where_some in Em0 as [Hm0 [_ Hmi]%bool_decide_eq_true], Ed0 as [Hd0 [Hdt Hdi]%bool_decide_eq_true].
  apply bool_decide_eq_true in E6. destruct (proj1 Hf d0 Hd0) as (d1 & Hd1 & K1 & K2 & K3 & _).
  unfold ReconcileMpesa in E7. tx_step E7. destruct (first_where _ (tg_mpesa t)) as [m1|] eqn:Em1.
  - tx_steps E7. subst. eapply (mv_match _ _ (ac_tenant x) (mp_id m0) (rd_id d0) _ d1); [done|done|done|congruence|congruence| |reflexivity].
    intros m Hm Hi. rewrite K3, E6. by eapply final_row.
  - by destruct (GetMpesa _ _ _).
Qed.

Lemma takings_step_ok t t' : takings_ok t -> takings_step t t' -> takings_ok t' /\ final t t'.
Proof.
  intros Hok Hs. apply move_ok; [done|]. destruct Hs as [pool r Hf Hr|s Hn ->]; [|by eapply mv_none].
  destruct r as [ctx station body|ctx id|push ctx body|raw body|ctx id body|tenant station day]; cbn [takings_serve] in Hr.
  - tx_steps Hr. subst. unfold handleComputeRevenueDay in E. tx_steps E. subst.
    apply tg_audit_move in E4 as (Ed & Em & Hn). eapply move_then; [by eapply ComputeDay_move|done..].
  - tx_steps Hr. subst. unfold handleLockRevenueDay in E. tx_steps E. subst.
    apply tg_audit_move in E3 as (Ed & Em & Hn). eapply move_then; [by eapply LockDay_move|done..].
  - tx_steps Hr. subst. unfold handleInitiateMpesaSTKPush in E. tx_steps E. subst.
    match goal with E : tg_audit _ _ _ _ = Ok _ |- _ => apply tg_audit_move in E as (Ed & Em & Hn) end.
    eapply move_then; [by eapply InitiateMpesa_move|done..].
  - injection Hr as <-. apply handleMpesaCallback_move.
  - tx_steps Hr. subst. by eapply handleReconcileMpesa_move.
  - injection Hr as <-. unfold run_tx. destruct (ComputeDay _ _ _ t) as [[d t1]|] eqn:E; [by eapply ComputeDay_move|].
    by eapply mv_none.
Qed.

Lemma takings_run t t' : takings_ok t -> rtc takings_step t t' -> takings_ok t' /\ final t t'.
Proof.
  intros Hok Hr. revert Hok. induction Hr as [t|t t1 t2 Hs _ IH]; intros Hok; [by split|].
  destruct (takings_step_ok _ _ Hok Hs) as [H1 F1]. destruct (IH H1) as [H2 F2]. split; [done|]. by etrans.
Qed.

(** C23. Over every sequence of requests and nightly recomputes, with the callbacks in
    any order and number and the reads of a request as old as they may be: a
    revenue day's tenders add up and its variance is theirs over the gross, there
    is one per station and operating day; a collection is paid exactly when the
    provider's result code is zero, and one that is matched is paid and matched with a
    revenue day of its own tenant and station. *)
Theorem takings_invariant t t' : takings_ok t -> rtc takings_step t t' -> takings_ok t'.
Proof. intros Hok Hr. by apply (takings_run t). Qed.

(** C24. Locked revenue days and settled collections are final: whatever requests,
    duplicated or forged callbacks and recomputes follow, a locked day is still
    there unchanged, a draft day is still there under its id, station and operating
    day, every collection is still there with its amount and its payer, one that was
    paid or failed keeps its outcome and its receipt, and no match is undone. *)
Theorem takings_final t t' : takings_ok t -> rtc takings_step t t' ->
  (forall d, In d (tg_days t) -> rd_status d = RdLocked -> In d (tg_days t'))
  /\ (forall d, In d (tg_days t) -> exists d', In d' (tg_days t') /\ rd_id d' = rd_id d /\ rd_tenant d' = rd_tenant d
        /\ rd_station d' = rd_station d /\ rd_day d' = rd_day d)
  /\ (forall m, In m (tg_mpesa t) -> exists m', In m' (tg_mpesa t') /\ txn_terms m' = txn_terms m
        /\ (mp_status m <> MpPending -> txn_outcome m' = txn_outcome m) /\ (is_Some (mp_day m) -> is_Some (mp_day m'))).
Proof.
  intros Hok Hr. destruct (takings_run _ _ Hok Hr) as [_ [Hd Hm]]. split; [|split; [|done]].
  - intros d Hin Hl. destruct (Hd d Hin) as (d' & Hd' & _ & _ & _ & _ & _ & K). by rewrite <- (K Hl).
  - intros d Hin. destruct (Hd d Hin) as (d' & Hd' & K). exists d'. unfold day_kept in K. tauto.
Qed.

(** The nightly job is a run of such steps. *)
Lemma compute_days_steps tenant days : forall t c e, rtc takings_step t (compute_days tenant days t c e).1.1.
Proof.
  induction days as [|[station day] days IH]; intros t c e; [constructor|]. cbn [compute_days].
  assert (Hs : takings_step t (run_tx (ComputeDay tenant station day) t).2)
    by (eapply (tk_serve _ _ t (QNightly tenant station day)); reflexivity).
  destruct (run_tx (ComputeDay tenant station day) t) as [[d|x] t1] eqn:E; [by eapply rtc_l; [exact Hs|]|].
  destruct x; apply IH.
Qed.
Theorem revenueComputeJob_steps tenants : forall t c e, rtc takings_step t (revenueComputeJob tenants t c e).1.1.
Proof.
  induction tenants as [|tid tenants IH]; intros t c e; [constructor|]. cbn [revenueComputeJob].
  pose proof (compute_days_steps tid (open_days (s_ops (tg_site t)) tid) t c e) as Hs.
  destruct (compute_days _ _ _ _ _) as [[t1 c1] e1]. simpl in Hs. etrans; [exact Hs|apply IH].
Qed.
End Steps.

(** ** A sample day

    The tenders of the sample shift are rolled up; 150.75 is asked of a payer, who
    pays; the collection is matched with the day, which is locked. *)

Definition momo_policy : PolicyDb :=
  mkPolicyDb [mkRole 1 "finance" true false] [mkPermission 11 "payment.mpesa.manage" true]
    [(2, 1, 1)]%N [(1, 11)]%N [(2, 1, 20)]%N.
Definition takings0 : Takings := mkTakings (runs counting till0) [] [].

(** The provider answers every push with the same checkout id. *)
Definition client0 : Client := mpesa_New (mkConfig "key" "secret" "174379" "pass" "sandbox" "https://cb").
Definition provider (c : Client) (i : STKPushInput) : result mpesa_error STKPushResult :=
  (STKPush 0 0 (fun _ _ => Ok ("token", "3599")%string) (fun _ _ _ => Ok (mkPushResult "m1" "ws1" "0" "ok" "sent")) c i).1.
Definition asked (amount : string) : initiateMpesaRequest := mkInitiateRequest 20 "0712 345 678" amount "" "".
Definition pay : takings_req := QPush (provider client0) boss (Ok (asked "150.75")).
Definition callback (code : Z) : takings_req :=
  QCallback "{}" (Ok (mkPayload "m1" "ws1" code "done" [("Amount", JNumber "150"); ("MpesaReceiptNumber", JString "NLJ7")]%string)).

Definition tk_onward (t : Takings) (r : takings_req) : Takings := (run_tx (takings_serve momo_policy t r) t).2.
Definition tk_served (t : Takings) (r : takings_req) : bool :=
  match takings_serve momo_policy t r t with Ok _ => true | Err _ => false end.
Fixpoint tk_all (l : list takings_req) (t : Takings) : bool :=
  match l with [] => true | r :: rest => tk_served t r && tk_all rest (tk_onward t r) end.
Lemma tk_steps l : forall t, tk_all l t = true -> rtc (takings_step momo_policy) t (fold_left tk_onward l t).
Proof.
  induction l as [|r l IH]; intros t Ht; [constructor|]. simpl in Ht. apply andb_true_iff in Ht as [H1 H2].
  eapply rtc_l; [|by apply IH]. eapply (tk_serve _ _ _ t r); [reflexivity|].
  unfold tk_served in H1. unfold tk_onward, run_tx. by destruct (takings_serve _ t r t) as [[[] t']|].
Qed.

Definition closing_run : list takings_req :=
  [QCompute boss (Ok 20%N) (Ok 90%N); pay; callback 0; QReconcile boss (Ok 406%N) (Ok 405%N); QLock boss (Ok 405%N)].
Definition takings1 : Takings := fold_left tk_onward closing_run takings0.

Example closing_run_rows :
  tk_all closing_run takings0 = true
  /\ (fun d => (rd_cash d, rd_card d, rd_tender d, rd_status d, rd_locked_by d)) <$> tg_days takings1
     = [(42050, 9900, 51950, RdLocked, Some 2%N)]
  /\ (fun m => (mp_amount m, mp_status m, mp_receipt m, mp_day m)) <$> tg_mpesa takings1
     = [(15075, MpPaid, Some "NLJ7"%string, Some 405%N)].
Proof. split_and!; vm_compute; reflexivity. Qed.

Lemma takings0_ok : takings_ok takings0.
Proof. split; [apply table_nil|]. split; [apply NoDup_nil_2|]. split; [apply table_nil|apply NoDup_nil_2]. Qed.
Lemma takings1_ok : takings_ok takings1.
Proof.
  apply (takings_run momo_policy takings0); [apply takings0_ok|]. apply (tk_steps closing_run takings0). vm_compute. reflexivity.
Qed.

Lemma takings1_locked d : In d (tg_days takings1) -> rd_status d = RdLocked.
Proof.
  assert (H : forallb is_locked (tg_days takings1) = true) by (vm_compute; reflexivity).
  intros Hd. rewrite List.forallb_forall in H. specialize (H d Hd). unfold is_locked in H. by apply bool_decide_eq_true in H.
Qed.

Lemma takings_invariant_witness : takings_ok takings1.
Proof.
  apply (takings_invariant momo_policy takings0); [apply takings0_ok|]. apply (tk_steps closing_run takings0). vm_compute. reflexivity.
Defined.

(** The callback comes again, as a failure, and the nightly job runs. *)
Definition later_run : list takings_req := [callback 1032; callback 0; QNightly 1 20 90].
Lemma takings_final_witness :
  Forall (fun d => In d (tg_days (fold_left tk_onward later_run takings1))) (tg_days takings1).
Proof.
  apply List.Forall_forall. intros d Hd.
  refine (proj1 (takings_final momo_policy takings1 (fold_left tk_onward later_run takings1) _ _) d Hd _).
  - apply takings1_ok.
  - apply (tk_steps later_run takings1). vm_compute. reflexivity.
  - by apply takings1_locked.
Defined.

(** The day with its sale recognised: 519.50 of tenders against 466.55 sold; and
    the same day after the sale was voided. *)
Definition with_site (s : Site) (t : Takings) : Takings :=
  let l := tg_till t in
  tput_till (mkTill s (tl_fin l) (tl_categories l) (tl_expenses l) (tl_floats l) (tl_ptxns l) (tl_precons l)
    (tl_crecons l) (tl_crlines l) (tl_baccounts l) (tl_deposits l) (tl_dlines l) (tl_imports l) (tl_slines l)
    (tl_tenders l)) t.
Lemma with_site_site s t : tg_site (with_site s t) = s.
Proof. reflexivity. Qed.
Lemma with_site_days s t : tg_days (with_site s t) = tg_days t.
Proof. reflexivity. Qed.
Definition takings_sold : Takings := with_site site_sold takings0.
Definition day_figures (r : result takings_error (RevenueDay * Takings)) : option (Z * Z * Z * Z) :=
  match r with Ok (d, _) => Some (rd_gross d, rd_cash d, rd_tender d, rd_variance d) | Err _ => None end.
Example day_computed :
  day_figures (ComputeDay 1 20 90 takings_sold) = Some (46655, 42050, 51950, 5295)
  /\ day_figures (ComputeDay 1 20 90 (with_site site_voided takings0)) = Some (0, 42050, 51950, 51950).
Proof. split; vm_compute; reflexivity. Qed.

Lemma takings_sold_computed : exists d t', ComputeDay 1 20 90 takings_sold = Ok (d, t').
Proof.
  destruct day_computed as [H _]. destruct (ComputeDay 1 20 90 takings_sold) as [[d t']|]; [eauto|discriminate H].
Qed.

Lemma takings_sold_reachable : void_reachable (tg_site takings_sold).
Proof. unfold takings_sold. rewrite with_site_site. exact site_sold_reachable. Qed.
Lemma takings_sold_days x : In x (tg_days takings_sold) -> rd_station x = 20%N -> rd_tenant x = 1%N.
Proof. unfold takings_sold. rewrite with_site_days. intros []. Qed.

Lemma ComputeDay_rolls_up_witness :
  exists d t', ComputeDay 1 20 90 takings_sold = Ok (d, t') /\ rd_day d = 90%N /\ rolls_up takings_sold 1 20 90 d
    /\ standing_total takings_sold 1 20 90 sale_gross = 46655.
Proof.
  destruct takings_sold_computed as (d & t' & E). exists d, t'.
  destruct (ComputeDay_rolls_up 1 20 90 takings_sold d t' E takings_sold_reachable takings_sold_days) as (_ & _ & H1 & _ & _ & H2 & _).
  split; [exact E|]. split; [exact H1|]. split; [exact H2|]. vm_compute. reflexivity.
Defined.

Lemma NormalizePhone_canonical_witness :
  NormalizePhone "+254 712 345 678" = Some "254712345678"%string /\ canonical_phone "254712345678".
Proof. split; [reflexivity|]. by apply (NormalizePhone_canonical " 0712345678 "). Defined.

Lemma WholeShillings_floor_witness :
  WholeShillings "150.75" = Some 150 /\ 1 <= 150 < 2 ^ 63.
Proof. split; [reflexivity|]. by apply (WholeShillings_floor "150.75"). Defined.

(** ** Runs the code does not mean *)

(** The payer is asked for 150 shillings; the transaction, once paid, says
    150.75. *)
Example fraction_not_collected :
  sb_amount (stk_body 0 (ml_cfg client0) "254712345678" (default 0 (WholeShillings "150.75"))
    (mkPush "0712 345 678" "150.75" "" "")) = "150"%string
  /\ (fun m => (mp_amount m, mp_status m)) <$> tg_mpesa (fold_left tk_onward [pay; callback 0] takings0)
     = [(15075, MpPaid)].
Proof. split; vm_compute; reflexivity. Qed.

(** The result that arrives before the transaction commits is acknowledged and
    lost. *)
Example early_callback_lost :
  (fun m => mp_status m) <$> tg_mpesa (fold_left tk_onward [callback 0; pay] takings0) = [MpPending].
Proof. vm_compute. reflexivity. Qed.

(** One callback settles the collections of two tenants that have the id. *)
Definition pending_of (id tenant : uuid) : MpesaTransaction :=
  mkMpesa id tenant 20 "ws1" None 100 "254712345678" MpPending None None None None None None None 0 0.
Example callback_crosses_tenants :
  (fun m => (mp_tenant m, mp_status m)) <$>
    tg_mpesa (tk_onward (tput_mpesa [pending_of 1 1; pending_of 2 7] takings0) (callback 0))
  = [(1%N, MpPaid); (7%N, MpPaid)].
Proof. vm_compute. reflexivity. Qed.

(** A checkout id met again is an internal error. *)
Example retried_push_fails :
  (run_tx (handleInitiateMpesaSTKPush momo_policy (provider client0) boss (Ok (asked "150.75"))) (tk_onward takings0 pay)).1
  = Err ops_internal.
Proof. vm_compute. reflexivity. Qed.

(** An operating day that does not exist is said to be locked. *)
Example unknown_day_said_locked :
  (run_tx (handleComputeRevenueDay boss (Ok 20%N) (Ok 91%N)) takings0).1 = Err (HttpError 409 "revenue day is locked").
Proof. vm_compute. reflexivity. Qed.

(** The operating day of station 20 makes a revenue day of station 21. *)
Definition two_stations : Takings :=
  mkTakings (put_fin (mkFin (mkBooks [] [] [] [] [(1, 2)]%N [(1, 20); (1, 21)]%N 100 1 0)
    [] [] [] [] [] [] [] [] [] [] [] [] [] 400 0) till0) [] [].
Example other_stations_day_computed :
  (fun d => (rd_station d, rd_day d)) <$>
    tg_days (tk_onward two_stations (QCompute boss (Ok 21%N) (Ok 90%N))) = [(21, 90)]%N
  /\ dy_station <$> op_days (s_ops (tg_site two_stations)) = [20%N].
Proof. split; vm_compute; reflexivity. Qed.

(** A number of another network is accepted, in its local and in its full form. *)
Example other_network_accepted :
  NormalizePhone "0201234567" = Some "254201234567"%string /\ NormalizePhone "254201234567" = Some "254201234567"%string.
Proof. split; reflexivity. Qed.
