(* ===== verification/Fleet.v ===== *)
(** * Customer credit and fleet fuel (package [fleet], and its handlers in
      services/api/internal/server/fleet_authorization_handlers.go,
      fleet_credit_handlers.go, fleet_identity_handlers.go,
      fleet_odometer_handlers.go, fleet_statement_handlers.go)

    Credit profiles and the credit position of a customer, fuel authorizations with
    their limits and denials, vehicles, drivers, credentials, odometer readings,
    price agreements, statements and credit alerts, beside the finance tables: the
    balance of a customer is the receivables ledger's, and the charge of the
    receivables reads the holds kept here ([fin_view]).

    Timestamps are nanoseconds and dates day numbers, as in the calendar;
    [date_at] is the date of a timestamp and [midnight] the start of a date, both in
    the time zone of the database session.  The application's clock and the
    database's are one.  A text that SQL casts to a number is [Err] when the cast
    refuses it; a string field that the code treats as absent when empty is [None]
    then. *)

From stdpp Require Import base list strings.
From Stdlib Require Import ZArith Lia Ascii String.
From S2P Require Import Prelude Calendar Numeric Schema Ledger Float64 Accounting Finance Payables Policy Operations Workforce WorkforceHandlers FinanceHandlers Treasury BankHandlers Secrets.

Local Open Scope Z_scope.
Local Open Scope tx_scope.

(** ** Rows *)

Record Contact := mkContact {
  ct_id : uuid; ct_tenant : uuid; ct_customer : uuid; ct_name : string; ct_role : option string;
  ct_email : option string; ct_phone : option string; ct_statement : string; ct_notification : string;
  ct_created : Z }.

(** [warning_threshold_pct] is [numeric(5,2)]. *)
Record FleetProfile := mkFleetProfile {
  cp_id : uuid; cp_tenant : uuid; cp_customer : uuid; cp_terms : Z; cp_grace : Z; cp_cycle : Z;
  cp_risk : string; cp_warning : Z; cp_hold : bool; cp_reason : option string; cp_review : option Z;
  cp_updated : Z }.

(** [chk_cpa_price_type], [chk_cpa_status]; prices are [numeric(14,4)]. *)
Inductive price_type := PtFixed | PtDiscount | PtMarkup.
#[export] Instance price_type_eq : EqDecision price_type.
Proof. solve_decision. Defined.
Inductive agreement_status := AgDraft | AgApproved | AgActive | AgExpired | AgCancelled.
#[export] Instance agreement_status_eq : EqDecision agreement_status.
Proof. solve_decision. Defined.
Record PriceAgreement := mkAgreement {
  pa_id : uuid; pa_tenant : uuid; pa_customer : uuid; pa_product : uuid; pa_station : option uuid;
  pa_type : price_type; pa_fixed : option Z; pa_discount : option Z; pa_markup : option Z; pa_from : Z;
  pa_to : option Z; pa_status : agreement_status; pa_version : Z; pa_approved_by : option uuid; pa_by : uuid;
  pa_created : Z }.

Inductive vehicle_status := VhActive | VhOnHold | VhRetired.
#[export] Instance vehicle_status_eq : EqDecision vehicle_status.
Proof. solve_decision. Defined.
Record Vehicle := mkVehicle {
  vh_id : uuid; vh_tenant : uuid; vh_customer : uuid; vh_registration : string; vh_number : option string;
  vh_vin : option string; vh_type : option string; vh_product : option uuid; vh_capacity : option Z;
  vh_odometer : bool; vh_status : vehicle_status; vh_created : Z }.

Inductive driver_status := DrActive | DrOnHold | DrInactive.
#[export] Instance driver_status_eq : EqDecision driver_status.
Proof. solve_decision. Defined.
Record Driver := mkDriver {
  dr_id : uuid; dr_tenant : uuid; dr_customer : uuid; dr_name : string; dr_phone : option string;
  dr_license : option string; dr_pin : option string; dr_status : driver_status; dr_products : list uuid;
  dr_rule : string; dr_created : Z }.

Inductive credential_status := CdIssued | CdActive | CdSuspended | CdExpired | CdRevoked.
#[export] Instance credential_status_eq : EqDecision credential_status.
Proof. solve_decision. Defined.
Record Credential := mkCredential {
  cd_id : uuid; cd_tenant : uuid; cd_customer : uuid; cd_vehicle : option uuid; cd_driver : option uuid;
  cd_type : string; cd_hash : string; cd_mask : string; cd_status : credential_status; cd_issued : Z;
  cd_expiry : option Z; cd_used : option Z; cd_created : Z }.

(** [chk_fuel_limit_period] *)
Inductive limit_period := PerTransaction | PerDay | PerWeek | PerMonth.
#[export] Instance limit_period_eq : EqDecision limit_period.
Proof. solve_decision. Defined.
Record FuelLimit := mkLimit {
  lm_id : uuid; lm_tenant : uuid; lm_customer : option uuid; lm_vehicle : option uuid; lm_product : option uuid;
  lm_scope : string; lm_period : limit_period; lm_amount : option Z; lm_litres : option Z; lm_created : Z }.

(** [chk_fuel_auth_status] *)
Inductive auth_status := AuRequested | AuApproved | AuFulfilled | AuExpired | AuCancelled | AuVoided.
#[export] Instance auth_status_eq : EqDecision auth_status.
Proof. solve_decision. Defined.
Record Authorization := mkAuthorization {
  az_id : uuid; az_tenant : uuid; az_customer : uuid; az_vehicle : option uuid; az_driver : option uuid;
  az_credential : option uuid; az_station : uuid; az_product : option uuid; az_requested : Z; az_approved : Z;
  az_odometer : option Z; az_status : auth_status; az_expiry : option Z; az_source : string;
  az_consumed : option uuid; az_by : uuid; az_created : Z }.

Record Denial := mkDenial {
  de_id : uuid; de_tenant : uuid; de_customer : uuid; de_station : uuid; de_code : string; de_detail : string;
  de_amount : Z; de_override : bool; de_actor : uuid; de_created : Z }.

Inductive validation_status := OdValid | OdWarning | OdOverride.
#[export] Instance validation_status_eq : EqDecision validation_status.
Proof. solve_decision. Defined.
Record OdometerReading := mkOdometer {
  od_id : uuid; od_tenant : uuid; od_vehicle : uuid; od_auth : option uuid; od_station : option uuid;
  od_reading : Z; od_distance : option Z; od_status : validation_status; od_note : option string; od_by : uuid;
  od_captured : Z }.

Inductive statement_status := StDraft | StIssued | StSuperseded.
#[export] Instance statement_status_eq : EqDecision statement_status.
Proof. solve_decision. Defined.
Record CustomerStatement := mkStatement {
  ss_id : uuid; ss_tenant : uuid; ss_customer : uuid; ss_start : Z; ss_end : Z; ss_opening : Z; ss_charges : Z;
  ss_payments : Z; ss_closing : Z; ss_status : statement_status; ss_by : uuid; ss_at : Z }.

Inductive alert_status := AlOpen | AlAcknowledged | AlResolved | AlDismissed.
#[export] Instance alert_status_eq : EqDecision alert_status.
Proof. solve_decision. Defined.
Record CreditAlert := mkAlert {
  ca_id : uuid; ca_tenant : uuid; ca_customer : uuid; ca_type : string; ca_severity : string;
  ca_status : alert_status; ca_detail : option string; ca_assigned : option uuid; ca_reason : option string;
  ca_created : Z }.

(** The fleet tables beside the finance ones, with the [(tenant_id, id)] pairs of
    [sales] and [products]. *)
Record Flt := mkFlt {
  fl_fin : Fin;
  fl_sales : list (uuid * uuid);
  fl_products : list (uuid * uuid);
  fl_contacts : list Contact;
  fl_profiles : list FleetProfile;
  fl_agreements : list PriceAgreement;
  fl_vehicles : list Vehicle;
  fl_drivers : list Driver;
  fl_credentials : list Credential;
  fl_limits : list FuelLimit;
  fl_auths : list Authorization;
  fl_denials : list Denial;
  fl_odometer : list OdometerReading;
  fl_statements : list CustomerStatement;
  fl_alerts : list CreditAlert;
}.

Definition fput_fin v l := mkFlt v (fl_sales l) (fl_products l) (fl_contacts l) (fl_profiles l)
  (fl_agreements l) (fl_vehicles l) (fl_drivers l) (fl_credentials l) (fl_limits l) (fl_auths l) (fl_denials l)
  (fl_odometer l) (fl_statements l) (fl_alerts l).
Definition fput_contacts v l := mkFlt (fl_fin l) (fl_sales l) (fl_products l) v (fl_profiles l)
  (fl_agreements l) (fl_vehicles l) (fl_drivers l) (fl_credentials l) (fl_limits l) (fl_auths l) (fl_denials l)
  (fl_odometer l) (fl_statements l) (fl_alerts l).
Definition fput_profiles v l := mkFlt (fl_fin l) (fl_sales l) (fl_products l) (fl_contacts l) v
  (fl_agreements l) (fl_vehicles l) (fl_drivers l) (fl_credentials l) (fl_limits l) (fl_auths l) (fl_denials l)
  (fl_odometer l) (fl_statements l) (fl_alerts l).
Definition fput_agreements v l := mkFlt (fl_fin l) (fl_sales l) (fl_products l) (fl_contacts l) (fl_profiles l)
  v (fl_vehicles l) (fl_drivers l) (fl_credentials l) (fl_limits l) (fl_auths l) (fl_denials l) (fl_odometer l)
  (fl_statements l) (fl_alerts l).
Definition fput_vehicles v l := mkFlt (fl_fin l) (fl_sales l) (fl_products l) (fl_contacts l) (fl_profiles l)
  (fl_agreements l) v (fl_drivers l) (fl_credentials l) (fl_limits l) (fl_auths l) (fl_denials l)
  (fl_odometer l) (fl_statements l) (fl_alerts l).
Definition fput_drivers v l := mkFlt (fl_fin l) (fl_sales l) (fl_products l) (fl_contacts l) (fl_profiles l)
  (fl_agreements l) (fl_vehicles l) v (fl_credentials l) (fl_limits l) (fl_auths l) (fl_denials l)
  (fl_odometer l) (fl_statements l) (fl_alerts l).
Definition fput_credentials v l := mkFlt (fl_fin l) (fl_sales l) (fl_products l) (fl_contacts l) (fl_profiles l)
  (fl_agreements l) (fl_vehicles l) (fl_drivers l) v (fl_limits l) (fl_auths l) (fl_denials l) (fl_odometer l)
  (fl_statements l) (fl_alerts l).
Definition fput_limits v l := mkFlt (fl_fin l) (fl_sales l) (fl_products l) (fl_contacts l) (fl_profiles l)
  (fl_agreements l) (fl_vehicles l) (fl_drivers l) (fl_credentials l) v (fl_auths l) (fl_denials l)
  (fl_odometer l) (fl_statements l) (fl_alerts l).
Definition fput_auths v l := mkFlt (fl_fin l) (fl_sales l) (fl_products l) (fl_contacts l) (fl_profiles l)
  (fl_agreements l) (fl_vehicles l) (fl_drivers l) (fl_credentials l) (fl_limits l) v (fl_denials l)
  (fl_odometer l) (fl_statements l) (fl_alerts l).
Definition fput_denials v l := mkFlt (fl_fin l) (fl_sales l) (fl_products l) (fl_contacts l) (fl_profiles l)
  (fl_agreements l) (fl_vehicles l) (fl_drivers l) (fl_credentials l) (fl_limits l) (fl_auths l) v
  (fl_odometer l) (fl_statements l) (fl_alerts l).
Definition fput_odometer v l := mkFlt (fl_fin l) (fl_sales l) (fl_products l) (fl_contacts l) (fl_profiles l)
  (fl_agreements l) (fl_vehicles l) (fl_drivers l) (fl_credentials l) (fl_limits l) (fl_auths l) (fl_denials l)
  v (fl_statements l) (fl_alerts l).
Definition fput_statements v l := mkFlt (fl_fin l) (fl_sales l) (fl_products l) (fl_contacts l) (fl_profiles l)
  (fl_agreements l) (fl_vehicles l) (fl_drivers l) (fl_credentials l) (fl_limits l) (fl_auths l) (fl_denials l)
  (fl_odometer l) v (fl_alerts l).
Definition fput_alerts v l := mkFlt (fl_fin l) (fl_sales l) (fl_products l) (fl_contacts l) (fl_profiles l)
  (fl_agreements l) (fl_vehicles l) (fl_drivers l) (fl_credentials l) (fl_limits l) (fl_auths l) (fl_denials l)
  (fl_odometer l) (fl_statements l) v.

(** The errors of the package and the violations the driver reports. *)
Inductive fleet_error :=
| FlNotFound | FlConflict | FlBadState | FlConsumed | FlSaleNotFound
| FlUnique | FlCheck | FlForeignKey | FlNumeric | FlHash.
#[export] Instance fleet_error_eq : EqDecision fleet_error.
Proof. solve_decision. Defined.

Definition fl_now (l : Flt) : Z := fn_now (fl_fin l).
Definition fl_fresh {E} : Tx Flt E uuid := fun l => Ok (fn_next (fl_fin l), fput_fin (bump_fin (fl_fin l)) l).
Definition fl_col (p s : nat) (d : dec) : Tx Flt fleet_error Z := tlift (of_option FlNumeric (numeric_col p s d)).
(** A nullable column given by an optional text. *)
Definition fl_opt_col (p s : nat) (d : option (result unit dec)) : Tx Flt fleet_error (option Z) :=
  match d with
  | None => tret None
  | Some (Err _) => tfail FlNumeric
  | Some (Ok x) => let! z := fl_col p s x in tret (Some z)
  end.
Definition fl_users (l : Flt) := bk_users (fn_books (fl_fin l)).
Definition fl_stations (l : Flt) := bk_stations (fn_books (fl_fin l)).
Definition fl_customer (l : Flt) (tenant id : uuid) : bool := fk_customer (fl_fin l) tenant id.

(** What the receivables read of the fleet tables. *)
Definition hold_row (a : Authorization) : FuelAuth :=
  mkAuth (az_tenant a) (az_customer a) (az_approved a) (bool_decide (az_status a = AuApproved)) (az_expiry a).
Definition profile_row (p : FleetProfile) : CreditProfile :=
  mkProfile (cp_tenant p) (cp_customer p) (cp_hold p) (cp_reason p) (cp_risk p) (cp_warning p).
Definition fin_view (l : Flt) : Fin :=
  let f := fl_fin l in
  mkFin (fn_books f) (fn_customers f) (fn_ar f) (profile_row <$> fl_profiles l) (hold_row <$> fl_auths l)
    (fn_invoices f) (fn_ilines f) (fn_payments f) (fn_allocs f) (fn_payables f) (fn_sinvoices f) (fn_spayments f)
    (fn_sallocs f) (fn_audit f) (fn_next f) (fn_now f).
(** A statement of the receivables inside a transaction on the fleet tables. *)
Definition on_fin {E A} (c : Tx Fin E A) : Tx Flt E A :=
  fun l => match c (fin_view l) with
           | Ok (a, f) => Ok (a, fput_fin f l)
           | Err e => Err e
           end.

(** [$2::uuid IS NULL OR customer_id = $2], where the nil id is the absent one. *)
Definition for_customer (filter customer : uuid) : bool :=
  bool_decide (filter = uuid_nil) || bool_decide (customer = filter).

(** ** Contacts (contacts.go) *)

Record ContactInput := mkContactInput {
  ki_name : string; ki_role : option string; ki_email : option string; ki_phone : option string;
  ki_statement : string; ki_notification : string }.

Definition ct_of (tenant customer : uuid) (c : Contact) : bool :=
  bool_decide (ct_tenant c = tenant /\ ct_customer c = customer).

Section Contacts.
Context (collate : string -> string -> bool).
Definition ListContacts (l : Flt) (tenant customer : uuid) : list Contact :=
  order_by (named_le collate ct_name) (select (ct_of tenant customer) (fl_contacts l)).
Definition ListContactsPage (l : Flt) (tenant customer : uuid) (limit offset : nat) : list Contact :=
  limit_offset limit offset
    (order_by (named_id_le collate ct_name ct_id) (select (ct_of tenant customer) (fl_contacts l))).
End Contacts.

Definition CreateContact (tenant customer : uuid) (i : ContactInput) : Tx Flt fleet_error Contact :=
  let! id := fl_fresh in
  let! l := tget in
  let c := mkContact id tenant customer (ki_name i) (ki_role i) (ki_email i) (ki_phone i)
    (word_or (ki_statement i) "email") (word_or (ki_notification i) "email") (fl_now l) in
  tguard (fl_customer l tenant customer) FlForeignKey ;;!
  tput (fput_contacts (fl_contacts l ++ [c]) l) ;;! tret c.

Definition ct_by_id (tenant customer id : uuid) (c : Contact) : bool :=
  ct_of tenant customer c && bool_decide (ct_id c = id).
Definition DeleteContact (tenant customer id : uuid) : Tx Flt fleet_error unit :=
  let! l := tget in
  tguard (exists_where (ct_by_id tenant customer id) (fl_contacts l)) FlNotFound ;;!
  tput (fput_contacts (select (fun c => negb (ct_by_id tenant customer id c)) (fl_contacts l)) l).

(** ** Credit profiles and the credit position (credit_profiles.go) *)

Record CreditProfileInput := mkCreditProfileInput {
  pi_terms : option Z; pi_grace : option Z; pi_cycle : option Z; pi_risk : string;
  pi_warning : option (result unit dec); pi_review : option Z }.

(** An [int] in an [integer] column. *)
Definition int4 (z : Z) : bool := (- 2 ^ 31 <=? z) && (z <? 2 ^ 31).
Definition int4_opt (o : option Z) : bool := match o with Some z => int4 z | None => true end.
Definition cp_of (tenant customer : uuid) (p : FleetProfile) : bool :=
  bool_decide (cp_tenant p = tenant /\ cp_customer p = customer).
Definition merged_profile (i : CreditProfileInput) (warning : option Z) (now : Z) (p : FleetProfile) : FleetProfile :=
  mkFleetProfile (cp_id p) (cp_tenant p) (cp_customer p) (default (cp_terms p) (pi_terms i))
    (default (cp_grace p) (pi_grace i)) (default (cp_cycle p) (pi_cycle i)) (word_or (pi_risk i) (cp_risk p))
    (default (cp_warning p) warning) (cp_hold p) (cp_reason p) (opt_or (pi_review i) (cp_review p)) now.

(** The row proposed for the insert is checked before the conflict is found; an
    existing row has its customer. *)
Definition UpsertCreditProfile (tenant customer : uuid) (i : CreditProfileInput) : Tx Flt fleet_error FleetProfile :=
  tguard (int4_opt (pi_terms i) && int4_opt (pi_grace i) && int4_opt (pi_cycle i)) FlNumeric ;;!
  let! warning := fl_opt_col 5 2 (pi_warning i) in
  let proposed := default 8000 warning in
  tguard ((0 <=? proposed) && (proposed <=? 10000)) FlCheck ;;!
  let! id := fl_fresh in
  let! l := tget in
  match first_where (cp_of tenant customer) (fl_profiles l) with
  | Some p =>
      tput (fput_profiles (update_where (cp_of tenant customer) (merged_profile i warning (fl_now l)) (fl_profiles l)) l)
      ;;! tret (merged_profile i warning (fl_now l) p)
  | None =>
      tguard (fl_customer l tenant customer) FlForeignKey ;;!
      let p := mkFleetProfile id tenant customer (default 0 (pi_terms i)) (default 0 (pi_grace i))
        (default 30 (pi_cycle i)) (word_or (pi_risk i) "standard") proposed false None (pi_review i) (fl_now l) in
      tput (fput_profiles (fl_profiles l ++ [p]) l) ;;! tret p
  end.

Definition GetCreditProfile (l : Flt) (tenant customer : uuid) : result fleet_error FleetProfile :=
  of_option FlNotFound (first_where (cp_of tenant customer) (fl_profiles l)).

Definition held_profile (hold : bool) (reason : option string) (now : Z) (p : FleetProfile) : FleetProfile :=
  mkFleetProfile (cp_id p) (cp_tenant p) (cp_customer p) (cp_terms p) (cp_grace p) (cp_cycle p) (cp_risk p)
    (cp_warning p) hold reason (cp_review p) now.
Definition SetHold (tenant customer : uuid) (hold : bool) (reason : option string) : Tx Flt fleet_error unit :=
  let! id := fl_fresh in
  let! l := tget in
  if exists_where (cp_of tenant customer) (fl_profiles l)
  then tput (fput_profiles (update_where (cp_of tenant customer) (held_profile hold reason (fl_now l)) (fl_profiles l)) l)
  else
    tguard (fl_customer l tenant customer) FlForeignKey ;;!
    tput (fput_profiles (fl_profiles l
      ++ [mkFleetProfile id tenant customer 0 0 30 "standard" 8000 hold reason None (fl_now l)]) l).

Record Position := mkPosition {
  ps_customer : uuid; ps_limit : Z; ps_exposure : Z; ps_available : Z; ps_overdue : Z; ps_status : customer_status;
  ps_hold : bool; ps_reason : option string; ps_warning_pct : Z; ps_over : bool; ps_warning : bool }.

Section Zone.
Context (date_at midnight : Z -> Z).

(** [status IN ('issued', 'partially_paid') AND due_date < CURRENT_DATE] *)
Definition past_due (today : Z) (i : CustomerInvoice) : bool :=
  open_invoice i && match iv_due i with Some d => d <? today | None => false end.
Definition invoiced (tenant customer : uuid) (i : CustomerInvoice) : bool :=
  bool_decide (iv_tenant i = tenant /\ iv_customer i = customer).
Definition overdue (l : Flt) (tenant customer : uuid) : Z :=
  sum_by iv_outstanding (select (fun i => invoiced tenant customer i && past_due (date_at (fl_now l)) i)
    (fn_invoices (fl_fin l))).

(** The customer's row is read whatever its status. *)
Definition CreditPosition (l : Flt) (tenant customer : uuid) : option Position :=
  match first_where (fun c => bool_decide (cu_tenant c = tenant /\ cu_id c = customer)) (fn_customers (fl_fin l)) with
  | None => None
  | Some c =>
      let f := fin_view l in
      let used := exposure f tenant customer in
      let pct := default 8000 (pf_warning <$> profile_of f c) in
      Some (mkPosition customer (cu_limit c) used (cu_limit c - used) (overdue l tenant customer) (cu_status c)
        (standing_hold f c) (profile_of f c ≫= pf_reason) pct (cu_limit c <? used)
        ((0 <? cu_limit c)
         && dec_leb (numeric_div (dec_mul (dec_of 2 (cu_limit c)) (dec_of 2 pct)) (Dec 100 0)) (dec_of 2 used)))
  end.

(** ** Fuel limits (authorizations.go) *)

Definition period_word (w : string) : option limit_period :=
  match w with
  | "transaction" => Some PerTransaction | "day" => Some PerDay | "week" => Some PerWeek | "month" => Some PerMonth
  | _ => None
  end%string.
Definition vh_by_id (tenant id : uuid) (v : Vehicle) : bool := bool_decide (vh_tenant v = tenant /\ vh_id v = id).
Definition dr_by_id (tenant id : uuid) (d : Driver) : bool := bool_decide (dr_tenant d = tenant /\ dr_id d = id).
Definition cd_by_id (tenant id : uuid) (c : Credential) : bool := bool_decide (cd_tenant c = tenant /\ cd_id c = id).
Definition fk_vehicle (l : Flt) (tenant : uuid) : option uuid -> bool :=
  fk_opt (fun v => exists_where (vh_by_id tenant v) (fl_vehicles l)).
Definition fk_driver (l : Flt) (tenant : uuid) : option uuid -> bool :=
  fk_opt (fun d => exists_where (dr_by_id tenant d) (fl_drivers l)).
Definition fk_credential (l : Flt) (tenant : uuid) : option uuid -> bool :=
  fk_opt (fun c => exists_where (cd_by_id tenant c) (fl_credentials l)).

Definition CreateLimit (tenant : uuid) (customer vehicle product : option uuid) (scope period : string)
    (maxAmount maxLitres : option (result unit dec)) : Tx Flt fleet_error uuid :=
  let! amount := fl_opt_col 14 2 maxAmount in
  let! litres := fl_opt_col 14 3 maxLitres in
  let! per := tlift (of_option FlCheck (period_word (word_or period "transaction"))) in
  let! id := fl_fresh in
  let! l := tget in
  tguard (fk_opt (fl_customer l tenant) customer && fk_vehicle l tenant vehicle) FlForeignKey ;;!
  tput (fput_limits (fl_limits l
    ++ [mkLimit id tenant customer vehicle product (word_or scope "transaction") per amount litres (fl_now l)]) l) ;;!
  tret id.

Definition lm_of (tenant customer : uuid) (m : FuelLimit) : bool :=
  bool_decide (lm_tenant m = tenant)
  && (bool_decide (customer = uuid_nil) || bool_decide (lm_customer m = Some customer)).
Definition ListLimits (l : Flt) (tenant customer : uuid) : list FuelLimit :=
  order_by (newest lm_created) (select (lm_of tenant customer) (fl_limits l)).
Definition ListLimitsPage (l : Flt) (tenant customer : uuid) (limit offset : nat) : list FuelLimit :=
  limit_offset limit offset (order_by (newest_id lm_created lm_id) (select (lm_of tenant customer) (fl_limits l))).

(** ** Authorizations (authorizations.go) *)

(** [RequestedAmount] is [None] when empty, which counts as zero. *)
Record AuthRequest := mkAuthRequest {
  ai_customer : uuid; ai_vehicle : option uuid; ai_driver : option uuid; ai_credential : option uuid;
  ai_station : uuid; ai_product : option uuid; ai_amount : option dec; ai_odometer : option (result unit dec);
  ai_source : string }.
Record AuthDecision := mkDecision { dn_code : string; dn_detail : string }.
Definition requested (i : AuthRequest) : dec := default (Dec 0 0) (ai_amount i).

(** [date_trunc(period, now())]; weeks begin on Monday, day 0 is one. *)
Definition date_trunc (p : limit_period) (t : Z) : Z :=
  let d := date_at t in
  midnight (match p with
            | PerMonth => day_number (year_of d) (month_of d) 1
            | PerWeek => d - d mod 7
            | PerDay | PerTransaction => d
            end).

Definition opt_scope (scope given : option uuid) : bool :=
  match scope with None => true | Some x => bool_decide (given = Some x) end.
Definition limit_applies (tenant : uuid) (i : AuthRequest) (m : FuelLimit) : bool :=
  bool_decide (lm_tenant m = tenant) && opt_scope (lm_customer m) (Some (ai_customer i))
  && opt_scope (lm_vehicle m) (ai_vehicle i) && opt_scope (lm_product m) (ai_product i).
(** The holds that count against a limit of a period. *)
Definition counted (l : Flt) (customer : uuid) (m : FuelLimit) (a : Authorization) : bool :=
  bool_decide (az_tenant a = lm_tenant m /\ az_customer a = customer)
  && (bool_decide (az_status a = AuApproved) || bool_decide (az_status a = AuFulfilled))
  && opt_scope (lm_vehicle m) (az_vehicle a) && opt_scope (lm_product m) (az_product a)
  && (date_trunc (lm_period m) (fl_now l) <=? az_created a).
Definition period_total (l : Flt) (customer : uuid) (m : FuelLimit) : Z :=
  sum_by az_approved (select (counted l customer m) (fl_auths l)).
Definition violated (l : Flt) (tenant : uuid) (i : AuthRequest) (m : FuelLimit) : bool :=
  limit_applies tenant i m &&
  match lm_amount m with
  | None => false
  | Some most =>
      dec_ltb (dec_of 2 most)
        (if bool_decide (lm_period m = PerTransaction) then requested i
         else dec_add (requested i) (dec_of 2 (period_total l (ai_customer i) m)))
  end.
Definition strictness (p : limit_period) : Z :=
  match p with PerTransaction => 0 | PerDay => 1 | PerWeek => 2 | PerMonth => 3 end.
Definition violatedPeriod (l : Flt) (tenant : uuid) (i : AuthRequest) : option limit_period :=
  lm_period <$> head (order_by (fun a b => strictness (lm_period a) <=? strictness (lm_period b))
    (select (violated l tenant i) (fl_limits l))).
Definition period_name (p : limit_period) : string :=
  match p with PerTransaction => "transaction" | PerDay => "day" | PerWeek => "week" | PerMonth => "month" end.
Definition limit_code (p : limit_period) : string :=
  match p with
  | PerTransaction => "transaction_limit" | PerDay => "daily_limit" | PerWeek => "weekly_limit"
  | PerMonth => "monthly_limit"
  end.
Definition customer_status_name (s : customer_status) : string :=
  match s with
  | CuProspect => "prospect" | CuActive => "active" | CuOnHold => "on_hold" | CuSuspended => "suspended"
  | CuClosed => "closed" | CuInactive => "inactive" | CuDeleted => "deleted"
  end.
Definition credential_status_name (s : credential_status) : string :=
  match s with
  | CdIssued => "issued" | CdActive => "active" | CdSuspended => "suspended" | CdExpired => "expired"
  | CdRevoked => "revoked"
  end.

(** A credential that is given and found must be active. *)
Definition credential_refusal (l : Flt) (tenant : uuid) (i : AuthRequest) : option AuthDecision :=
  match ai_credential i ≫= (fun c => first_where (cd_by_id tenant c) (fl_credentials l)) with
  | Some c =>
      if bool_decide (cd_status c = CdActive) then None
      else Some (mkDecision "credential_status" ("credential is " ++ credential_status_name (cd_status c)))
  | None => None
  end.

(** The rule that refuses a request without an override, in the order the rules are
    asked. *)
Definition refusal (l : Flt) (tenant : uuid) (i : AuthRequest) (p : Position) : option AuthDecision :=
  if bool_decide (ps_status p = CuSuspended) || bool_decide (ps_status p = CuClosed)
  then Some (mkDecision "account_status" ("account is " ++ customer_status_name (ps_status p)))
  else if ps_hold p then Some (mkDecision "account_hold" "customer account is on hold")
  else
    opt_or (credential_refusal l tenant i)
      (if negb (dec_leb (requested i) (dec_of 2 (ps_available p)))
       then Some (mkDecision "insufficient_credit" "requested amount exceeds available credit")
       else (fun per => mkDecision (limit_code per)
                          ("requested amount exceeds the " ++ period_name per ++ " limit"))
            <$> violatedPeriod l tenant i).

(** [logDenial] drops the error of its insert, but a failed statement aborts the
    transaction: [false] says so. *)
Definition logDenial (tenant : uuid) (i : AuthRequest) (d : AuthDecision) (override : bool) (actor : uuid)
  : Tx Flt fleet_error bool :=
  match numeric_col 14 2 (requested i) with
  | None => tret false
  | Some z =>
      let! id := fl_fresh in
      let! l := tget in
      tput (fput_denials (fl_denials l
        ++ [mkDenial id tenant (ai_customer i) (ai_station i) (dn_code d) (dn_detail d) z override actor (fl_now l)]) l)
      ;;! tret true
  end.

Definition with_auth (st : auth_status) (consumed : option uuid) (a : Authorization) : Authorization :=
  mkAuthorization (az_id a) (az_tenant a) (az_customer a) (az_vehicle a) (az_driver a) (az_credential a)
    (az_station a) (az_product a) (az_requested a) (az_approved a) (az_odometer a) st (az_expiry a) (az_source a)
    consumed (az_by a) (az_created a).
Definition auth_status_to (st : auth_status) (a : Authorization) : Authorization := with_auth st (az_consumed a) a.

(** The customer's holds whose expiry has passed are released. *)
Definition lapsed (tenant customer : uuid) (now : Z) (a : Authorization) : bool :=
  bool_decide (az_tenant a = tenant /\ az_customer a = customer) && bool_decide (az_status a = AuApproved)
  && match az_expiry a with Some e => e <? now | None => false end.
Definition release_expired (tenant customer : uuid) (l : Flt) : Flt :=
  fput_auths (update_where (lapsed tenant customer (fl_now l)) (auth_status_to AuExpired) (fl_auths l)) l.

(** The hold, for an hour. *)
Definition insert_auth (tenant : uuid) (i : AuthRequest) (by_ : uuid) : Tx Flt fleet_error Authorization :=
  let! amount := fl_col 14 2 (requested i) in
  let! odometer := fl_opt_col 14 1 (ai_odometer i) in
  let! id := fl_fresh in
  let! l := tget in
  let a := mkAuthorization id tenant (ai_customer i) (ai_vehicle i) (ai_driver i) (ai_credential i) (ai_station i)
    (ai_product i) amount amount odometer AuApproved (Some (fl_now l + Calendar.hour)) (word_or (ai_source i) "forecourt")
    None by_ (fl_now l) in
  tguard (fl_customer l tenant (ai_customer i) && fk_pair (fl_stations l) tenant (ai_station i)
          && fk_vehicle l tenant (ai_vehicle i) && fk_driver l tenant (ai_driver i)
          && fk_credential l tenant (ai_credential i) && fk_pair (fl_users l) tenant by_) FlForeignKey ;;!
  tput (fput_auths (fl_auths l ++ [a]) l) ;;! tret a.

(** The authorization, or the decision of a denial with whether its transaction can
    still commit.  The customer's row is locked first and every statement after
    that reads a snapshot of its own. *)
Definition RequestAuthorization (tenant : uuid) (i : AuthRequest) (by_ : uuid) (override : bool)
  : Tx Flt fleet_error (Authorization + AuthDecision * bool) :=
  let! l := tget in
  let l := release_expired tenant (ai_customer i) l in
  tput l ;;!
  match CreditPosition l tenant (ai_customer i) with
  | None => tret (inr (mkDecision "unknown_customer" "", true))
  | Some p =>
      match (if override then None else refusal l tenant i p) with
      | Some d => let! logged := logDenial tenant i d override by_ in tret (inr (d, logged))
      | None => let! a := insert_auth tenant i by_ in tret (inl a)
      end
  end.
End Zone.

Definition az_by_id (tenant id : uuid) (a : Authorization) : bool :=
  bool_decide (az_tenant a = tenant /\ az_id a = id).
Definition az_of (tenant customer : uuid) (a : Authorization) : bool :=
  bool_decide (az_tenant a = tenant) && for_customer customer (az_customer a).
Definition GetAuthorization (l : Flt) (tenant id : uuid) : result fleet_error Authorization :=
  of_option FlNotFound (first_where (az_by_id tenant id) (fl_auths l)).
Definition ListAuthorizations (l : Flt) (tenant customer : uuid) : list Authorization :=
  order_by (newest az_created) (select (az_of tenant customer) (fl_auths l)).
Definition ListAuthorizationsPage (l : Flt) (tenant customer : uuid) (limit offset : nat) : list Authorization :=
  limit_offset limit offset (order_by (newest_id az_created az_id) (select (az_of tenant customer) (fl_auths l))).

(** [uq_fuel_auth_consumed] *)
Definition consumed_in (tenant sale : uuid) (a : Authorization) : bool :=
  bool_decide (az_tenant a = tenant /\ az_consumed a = Some sale).
Definition fulfillable (tenant id : uuid) (a : Authorization) : bool :=
  az_by_id tenant id a && bool_decide (az_status a = AuApproved) && bool_decide (az_consumed a = None).
Definition FulfillAuthorization (tenant id sale : uuid) : Tx Flt fleet_error Authorization :=
  let! l := tget in
  tguard (fk_pair (fl_sales l) tenant sale) FlSaleNotFound ;;!
  match first_where (fulfillable tenant id) (fl_auths l) with
  | None => tfail FlConsumed
  | Some a =>
      tguard (negb (exists_where (consumed_in tenant sale) (fl_auths l))) FlConsumed ;;!
      tput (fput_auths (update_where (fulfillable tenant id) (with_auth AuFulfilled (Some sale)) (fl_auths l)) l) ;;!
      tret (with_auth AuFulfilled (Some sale) a)
  end.

(** [to] is "cancelled" or, anything else, "voided". *)
Definition cancellable (tenant id : uuid) (a : Authorization) : bool :=
  az_by_id tenant id a && (bool_decide (az_status a = AuRequested) || bool_decide (az_status a = AuApproved)).
Definition voidable (tenant id : uuid) (a : Authorization) : bool :=
  az_by_id tenant id a && (bool_decide (az_status a = AuApproved) || bool_decide (az_status a = AuFulfilled)).
Definition SetAuthorizationStatus (tenant id : uuid) (to : string) : Tx Flt fleet_error Authorization :=
  let! l := tget in
  let '(q, g) := if bool_decide (to = "cancelled")%string then (cancellable tenant id, auth_status_to AuCancelled)
                 else (voidable tenant id, with_auth AuVoided None) in
  match first_where q (fl_auths l) with
  | None => tfail FlBadState
  | Some a => tput (fput_auths (update_where q g (fl_auths l)) l) ;;! tret (g a)
  end.

(** ** Vehicles (vehicles.go) *)

Record VehicleInput := mkVehicleInput {
  hi_customer : uuid; hi_registration : string; hi_number : option string; hi_vin : option string;
  hi_type : option string; hi_product : option uuid; hi_capacity : option (result unit dec); hi_odometer : bool }.

(** [uq_vehicles_registration] *)
Definition registered (tenant : uuid) (registration : string) (v : Vehicle) : bool :=
  bool_decide (vh_tenant v = tenant) && bool_decide (lower (vh_registration v) = lower registration)
  && negb (bool_decide (vh_status v = VhRetired)).

Definition CreateVehicle (tenant : uuid) (i : VehicleInput) : Tx Flt fleet_error Vehicle :=
  let! capacity := fl_opt_col 14 3 (hi_capacity i) in
  let! id := fl_fresh in
  let! l := tget in
  let v := mkVehicle id tenant (hi_customer i) (hi_registration i) (hi_number i) (hi_vin i) (hi_type i) (hi_product i)
    capacity (hi_odometer i) VhActive (fl_now l) in
  tguard (negb (exists_where (registered tenant (hi_registration i)) (fl_vehicles l))) FlConflict ;;!
  tguard (fl_customer l tenant (hi_customer i) && fk_opt (fk_pair (fl_products l) tenant) (hi_product i)) FlForeignKey ;;!
  tput (fput_vehicles (fl_vehicles l ++ [v]) l) ;;! tret v.

Definition GetVehicle (l : Flt) (tenant id : uuid) : result fleet_error Vehicle :=
  of_option FlNotFound (first_where (vh_by_id tenant id) (fl_vehicles l)).
Definition vh_of (tenant customer : uuid) (v : Vehicle) : bool :=
  bool_decide (vh_tenant v = tenant) && for_customer customer (vh_customer v).

Section Vehicles.
Context (collate : string -> string -> bool).
Definition ListVehicles (l : Flt) (tenant customer : uuid) : list Vehicle :=
  order_by (named_le collate vh_registration) (select (vh_of tenant customer) (fl_vehicles l)).
Definition ListVehiclesPage (l : Flt) (tenant customer : uuid) (limit offset : nat) : list Vehicle :=
  limit_offset limit offset
    (order_by (named_id_le collate vh_registration vh_id) (select (vh_of tenant customer) (fl_vehicles l))).
End Vehicles.

Definition vehicle_word (w : string) : option vehicle_status :=
  match w with
  | "active" => Some VhActive | "on_hold" => Some VhOnHold | "retired" => Some VhRetired | _ => None
  end%string.
Definition with_vehicle_status (st : vehicle_status) (v : Vehicle) : Vehicle :=
  mkVehicle (vh_id v) (vh_tenant v) (vh_customer v) (vh_registration v) (vh_number v) (vh_vin v) (vh_type v)
    (vh_product v) (vh_capacity v) (vh_odometer v) st (vh_created v).
(** A vehicle that returns from retirement must find its registration free. *)
Definition SetVehicleStatus (tenant id : uuid) (status : string) : Tx Flt fleet_error Vehicle :=
  let! l := tget in
  match first_where (vh_by_id tenant id) (fl_vehicles l) with
  | None => tfail FlNotFound
  | Some v =>
      let! st := tlift (of_option FlCheck (vehicle_word status)) in
      tguard (bool_decide (st = VhRetired)
              || negb (exists_where (fun x => registered tenant (vh_registration v) x && negb (vh_by_id tenant id x))
                         (fl_vehicles l))) FlUnique ;;!
      tput (fput_vehicles (update_where (vh_by_id tenant id) (with_vehicle_status st) (fl_vehicles l)) l) ;;!
      tret (with_vehicle_status st v)
  end.

(** ** Drivers (drivers.go) *)

Record DriverInput := mkDriverInput {
  vi_customer : uuid; vi_name : string; vi_phone : option string; vi_license : option string; vi_pin : option string;
  vi_products : list uuid; vi_rule : string }.

Section Tokens.
Context (hasher : Argon) (uuid_string : uuid -> string).

(** [salt] is what the hasher drew; an empty PIN is no PIN. *)
Definition pin_hash (salt pin : string) : result fleet_error (option string) :=
  if bool_decide (pin = "")%string then Ok None
  else match Hash hasher salt pin with Ok h => Ok (Some h) | Err _ => Err FlHash end.
Definition rule_word (w : string) : bool :=
  bool_decide (w = "any" \/ w = "assigned" \/ w = "primary")%string.
Definition CreateDriver (salt : string) (tenant : uuid) (i : DriverInput) : Tx Flt fleet_error Driver :=
  let! pin := tlift (pin_hash salt (default ""%string (vi_pin i))) in
  tguard (rule_word (word_or (vi_rule i) "any")) FlCheck ;;!
  let! id := fl_fresh in
  let! l := tget in
  let d := mkDriver id tenant (vi_customer i) (vi_name i) (vi_phone i) (vi_license i) pin DrActive (vi_products i)
    (word_or (vi_rule i) "any") (fl_now l) in
  tguard (fl_customer l tenant (vi_customer i)) FlForeignKey ;;!
  tput (fput_drivers (fl_drivers l ++ [d]) l) ;;! tret d.

Definition GetDriver (l : Flt) (tenant id : uuid) : result fleet_error Driver :=
  of_option FlNotFound (first_where (dr_by_id tenant id) (fl_drivers l)).
Definition dr_of (tenant customer : uuid) (d : Driver) : bool :=
  bool_decide (dr_tenant d = tenant) && for_customer customer (dr_customer d).
Definition ListDrivers (collate : string -> string -> bool) (l : Flt) (tenant customer : uuid) : list Driver :=
  order_by (named_le collate dr_name) (select (dr_of tenant customer) (fl_drivers l)).
Definition ListDriversPage (collate : string -> string -> bool) (l : Flt) (tenant customer : uuid) (limit offset : nat)
  : list Driver :=
  limit_offset limit offset
    (order_by (named_id_le collate dr_name dr_id) (select (dr_of tenant customer) (fl_drivers l))).

Definition driver_word (w : string) : option driver_status :=
  match w with
  | "active" => Some DrActive | "on_hold" => Some DrOnHold | "inactive" => Some DrInactive | _ => None
  end%string.
Definition with_driver (st : driver_status) (pin : option string) (d : Driver) : Driver :=
  mkDriver (dr_id d) (dr_tenant d) (dr_customer d) (dr_name d) (dr_phone d) (dr_license d) pin st (dr_products d)
    (dr_rule d) (dr_created d).
Definition SetDriverStatus (tenant id : uuid) (status : string) : Tx Flt fleet_error Driver :=
  let! l := tget in
  match first_where (dr_by_id tenant id) (fl_drivers l) with
  | None => tfail FlNotFound
  | Some d =>
      let! st := tlift (of_option FlCheck (driver_word status)) in
      tput (fput_drivers (update_where (dr_by_id tenant id) (fun d => with_driver st (dr_pin d) d) (fl_drivers l)) l) ;;!
      tret (with_driver st (dr_pin d) d)
  end.
Definition ResetDriverPIN (salt : string) (tenant id : uuid) (pin : string) : Tx Flt fleet_error unit :=
  let! hash := tlift (pin_hash salt pin) in
  let! l := tget in
  tguard (exists_where (dr_by_id tenant id) (fl_drivers l)) FlNotFound ;;!
  tput (fput_drivers (update_where (dr_by_id tenant id) (fun d => with_driver (dr_status d) hash d) (fl_drivers l)) l).
Definition VerifyDriverPIN (l : Flt) (tenant id : uuid) (pin : string) : result fleet_error bool :=
  match first_where (dr_by_id tenant id) (fl_drivers l) with
  | None => Err FlNotFound
  | Some d =>
      match dr_pin d with
      | None => Ok false
      | Some stored => match Verify hasher pin stored with Ok (m, _) => Ok m | Err _ => Err FlHash end
      end
  end.

(** ** Credentials (credentials.go) *)

Record CredentialInput := mkCredentialInput {
  di_customer : uuid; di_vehicle : option uuid; di_driver : option uuid; di_type : string; di_token : string;
  di_expiry : option Z }.

(** The last four bytes of a longer token. *)
Definition maskToken (raw : string) : string :=
  let n := String.length raw in
  if (n <=? 4)%nat then "****"%string else ("****" ++ substring (n - 4) 4 raw)%string.

(** [hex.EncodeToString] *)
Definition hex_digit (z : Z) : ascii := if z <? 10 then digit z else ascii_of_N (Z.to_N (z + 87)).
Definition hex_text (s : string) : string :=
  string_of_list_ascii (flat_map (fun b => [hex_digit (b / 16); hex_digit (b mod 16)]) (bytes s)).
(** The token key and the pepper of the hasher are one secret. *)
Definition hashToken (tenant : uuid) (raw : string) : string :=
  hex_text (hmac_sha256 hasher (ar_pepper hasher) (uuid_string tenant ++ ":" ++ raw)).

Definition type_word (w : string) : bool :=
  bool_decide (w = "card" \/ w = "qr" \/ w = "rfid" \/ w = "manual_code")%string.
(** [uq_credential_token] *)
Definition cd_token (tenant : uuid) (hash : string) (c : Credential) : bool :=
  bool_decide (cd_tenant c = tenant /\ cd_hash c = hash).
Definition IssueCredential (date_at : Z -> Z) (tenant : uuid) (i : CredentialInput) : Tx Flt fleet_error Credential :=
  let ct := word_or (di_type i) "card" in
  let hash := hashToken tenant (di_token i) in
  tguard (type_word ct) FlCheck ;;!
  let! id := fl_fresh in
  let! l := tget in
  let c := mkCredential id tenant (di_customer i) (di_vehicle i) (di_driver i) ct hash (maskToken (di_token i)) CdActive
    (date_at (fl_now l)) (di_expiry i) None (fl_now l) in
  tguard (negb (exists_where (cd_token tenant hash) (fl_credentials l))) FlConflict ;;!
  tguard (fl_customer l tenant (di_customer i) && fk_vehicle l tenant (di_vehicle i) && fk_driver l tenant (di_driver i))
    FlForeignKey ;;!
  tput (fput_credentials (fl_credentials l ++ [c]) l) ;;! tret c.

Definition cd_of (tenant customer : uuid) (c : Credential) : bool :=
  bool_decide (cd_tenant c = tenant) && for_customer customer (cd_customer c).
Definition ListCredentials (l : Flt) (tenant customer : uuid) : list Credential :=
  order_by (newest cd_created) (select (cd_of tenant customer) (fl_credentials l)).
Definition ListCredentialsPage (l : Flt) (tenant customer : uuid) (limit offset : nat) : list Credential :=
  limit_offset limit offset (order_by (newest_id cd_created cd_id) (select (cd_of tenant customer) (fl_credentials l))).

Definition credential_word (w : string) : option credential_status :=
  match w with
  | "issued" => Some CdIssued | "active" => Some CdActive | "suspended" => Some CdSuspended
  | "expired" => Some CdExpired | "revoked" => Some CdRevoked | _ => None
  end%string.
Definition with_credential (st : credential_status) (used : option Z) (c : Credential) : Credential :=
  mkCredential (cd_id c) (cd_tenant c) (cd_customer c) (cd_vehicle c) (cd_driver c) (cd_type c) (cd_hash c) (cd_mask c)
    st (cd_issued c) (cd_expiry c) used (cd_created c).
Definition SetCredentialStatus (tenant id : uuid) (status : string) : Tx Flt fleet_error Credential :=
  let! l := tget in
  match first_where (cd_by_id tenant id) (fl_credentials l) with
  | None => tfail FlNotFound
  | Some c =>
      let! st := tlift (of_option FlCheck (credential_word status)) in
      tput (fput_credentials (update_where (cd_by_id tenant id) (fun c => with_credential st (cd_used c) c)
              (fl_credentials l)) l) ;;!
      tret (with_credential st (cd_used c) c)
  end.

Record CredentialContext := mkCredentialContext {
  cc_credential : Credential; cc_customer : string; cc_expired : bool; cc_usable : bool }.
(** The expiry date is scanned as its midnight in UTC; the update of [last_used_at]
    cannot fail. *)
Definition ValidateCredential (tenant : uuid) (rawToken : string) : Tx Flt fleet_error CredentialContext :=
  let! l := tget in
  match head (join (fun c k => bool_decide (cu_id k = cd_customer c /\ cu_tenant k = cd_tenant c))
                (select (cd_token tenant (hashToken tenant rawToken)) (fl_credentials l)) (fn_customers (fl_fin l))) with
  | None => tfail FlNotFound
  | Some (c, k) =>
      let expired := match cd_expiry c with Some d => d * Calendar.day <? fl_now l | None => false end in
      let usable := bool_decide (cd_status c = CdActive) && negb expired in
      (if usable
       then tput (fput_credentials (update_where (cd_by_id tenant (cd_id c))
                    (fun c => with_credential (cd_status c) (Some (fl_now l)) c) (fl_credentials l)) l)
       else tret tt) ;;!
      tret (mkCredentialContext c (cu_name k) expired usable)
  end.
End Tokens.

(** ** Odometer readings (odometer.go) *)

Definition od_of (tenant vehicle : uuid) (o : OdometerReading) : bool :=
  bool_decide (od_tenant o = tenant /\ od_vehicle o = vehicle).
(** [max(reading)], NULL without rows. *)
Definition max_reading (rows : list OdometerReading) : option Z :=
  match rows with [] => None | _ => Some (max_by od_reading 0 rows) end.
Definition RecordOdometer (tenant vehicle : uuid) (auth station : option uuid) (reading : dec) (note : option string)
    (override : bool) (by_ : uuid) : Tx Flt fleet_error OdometerReading :=
  let! r := fl_col 14 1 reading in
  let! l := tget in
  let prev := max_reading (select (od_of tenant vehicle) (fl_odometer l)) in
  let status := match prev with
    | Some m => if dec_leb reading (dec_of 1 m) then if override then OdOverride else OdWarning else OdValid
    | None => OdValid
    end in
  let! distance := match prev with
    | Some m => let! d := fl_col 14 1 (dec_sub reading (dec_of 1 m)) in tret (Some d)
    | None => tret None
    end in
  let! id := fl_fresh in
  let! l := tget in
  let o := mkOdometer id tenant vehicle auth station r distance status note by_ (fl_now l) in
  tguard (exists_where (vh_by_id tenant vehicle) (fl_vehicles l) && fk_pair (fl_users l) tenant by_) FlForeignKey ;;!
  tput (fput_odometer (fl_odometer l ++ [o]) l) ;;! tret o.

Definition ListOdometerReadings (l : Flt) (tenant vehicle : uuid) : list OdometerReading :=
  order_by (newest od_captured) (select (od_of tenant vehicle) (fl_odometer l)).
Definition ListOdometerReadingsPage (l : Flt) (tenant vehicle : uuid) (limit offset : nat) : list OdometerReading :=
  limit_offset limit offset
    (order_by (newest_id od_captured od_id) (select (od_of tenant vehicle) (fl_odometer l))).

Record VehicleConsumption := mkConsumption {
  vc_vehicle : uuid; vc_registration : string; vc_fuelings : Z; vc_amount : Z; vc_start : option Z; vc_end : option Z;
  vc_distance : option Z }.

Section Dates.
Context (date_at : Z -> Z).
Definition within (from to t : Z) : bool := (from <=? date_at t) && (date_at t <=? to).
Definition min_by {R} (f : R -> Z) (d : Z) (t : list R) : Z := - max_by (fun r => - f r) (- d) t.
Definition vehicle_consumption (l : Flt) (tenant : uuid) (from to : Z) (v : Vehicle) : VehicleConsumption :=
  let fuel := select (fun a => bool_decide (az_tenant a = tenant /\ az_vehicle a = Some (vh_id v))
    && bool_decide (az_status a = AuFulfilled) && within from to (az_created a)) (fl_auths l) in
  let read := select (fun o => od_of tenant (vh_id v) o && within from to (od_captured o)) (fl_odometer l) in
  let lo := match read with [] => None | _ => Some (min_by od_reading 0 read) end in
  let hi := max_reading read in
  mkConsumption (vh_id v) (vh_registration v) (Z.of_nat (List.length fuel)) (sum_by az_approved fuel) lo hi
    (match lo, hi with Some a, Some b => Some (b - a) | _, _ => None end).
Definition FleetConsumption (collate : string -> string -> bool) (l : Flt) (tenant customer : uuid) (from to : Z)
  : list VehicleConsumption :=
  vehicle_consumption l tenant from to <$>
    order_by (named_le collate vh_registration)
      (select (fun v => bool_decide (vh_tenant v = tenant /\ vh_customer v = customer)) (fl_vehicles l)).
End Dates.

(** ** Price agreements (price_agreements.go) *)

Record PriceAgreementInput := mkAgreementInput {
  gi_customer : uuid; gi_product : uuid; gi_station : option uuid; gi_type : string;
  gi_fixed : option (result unit dec); gi_discount : option (result unit dec); gi_markup : option (result unit dec);
  gi_from : Z; gi_to : option Z; gi_by : uuid }.

Definition price_word (w : string) : option price_type :=
  match w with
  | "fixed" => Some PtFixed | "discount" => Some PtDiscount | "markup" => Some PtMarkup | _ => None
  end%string.
Definition CreatePriceAgreement (tenant : uuid) (i : PriceAgreementInput) : Tx Flt fleet_error PriceAgreement :=
  let! fixed := fl_opt_col 14 4 (gi_fixed i) in
  let! discount := fl_opt_col 14 4 (gi_discount i) in
  let! markup := fl_opt_col 14 4 (gi_markup i) in
  let! pt := tlift (of_option FlCheck (price_word (word_or (gi_type i) "fixed"))) in
  let! id := fl_fresh in
  let! l := tget in
  let a := mkAgreement id tenant (gi_customer i) (gi_product i) (gi_station i) pt fixed discount markup (gi_from i)
    (gi_to i) AgDraft 1 None (gi_by i) (fl_now l) in
  tguard (fl_customer l tenant (gi_customer i) && fk_pair (fl_products l) tenant (gi_product i)
          && fk_opt (fk_pair (fl_stations l) tenant) (gi_station i) && fk_pair (fl_users l) tenant (gi_by i))
    FlForeignKey ;;!
  tput (fput_agreements (fl_agreements l ++ [a]) l) ;;! tret a.

Definition pa_by_id (tenant id : uuid) (a : PriceAgreement) : bool :=
  bool_decide (pa_tenant a = tenant /\ pa_id a = id).
Definition pa_of (tenant customer : uuid) (a : PriceAgreement) : bool :=
  bool_decide (pa_tenant a = tenant) && for_customer customer (pa_customer a).
Definition GetPriceAgreement (l : Flt) (tenant id : uuid) : result fleet_error PriceAgreement :=
  of_option FlNotFound (first_where (pa_by_id tenant id) (fl_agreements l)).
Definition ListPriceAgreements (l : Flt) (tenant customer : uuid) : list PriceAgreement :=
  order_by (newest pa_created) (select (pa_of tenant customer) (fl_agreements l)).
Definition ListPriceAgreementsPage (l : Flt) (tenant customer : uuid) (limit offset : nat) : list PriceAgreement :=
  limit_offset limit offset (order_by (newest_id pa_created pa_id) (select (pa_of tenant customer) (fl_agreements l))).

(** The status an agreement must have before a transition to another. *)
Definition agreement_from (to : agreement_status) : option agreement_status :=
  match to with
  | AgApproved => Some AgDraft | AgActive => Some AgApproved | AgExpired => Some AgActive | _ => None
  end.
Definition with_agreement (st : agreement_status) (approver : option uuid) (a : PriceAgreement) : PriceAgreement :=
  mkAgreement (pa_id a) (pa_tenant a) (pa_customer a) (pa_product a) (pa_station a) (pa_type a) (pa_fixed a)
    (pa_discount a) (pa_markup a) (pa_from a) (pa_to a) st (pa_version a) (opt_or approver (pa_approved_by a)) (pa_by a)
    (pa_created a).
Definition transitions (tenant id : uuid) (to : agreement_status) (a : PriceAgreement) : bool :=
  pa_by_id tenant id a &&
  if bool_decide (to = AgCancelled)
  then negb (bool_decide (pa_status a = AgExpired)) && negb (bool_decide (pa_status a = AgCancelled))
  else bool_decide (Some (pa_status a) = agreement_from to).
(** [uq_cpagr_active_scoped], [uq_cpagr_active_tenantwide] *)
Definition same_scope (a b : PriceAgreement) : bool :=
  bool_decide (pa_tenant a = pa_tenant b /\ pa_customer a = pa_customer b /\ pa_product a = pa_product b
               /\ pa_station a = pa_station b).
Definition active_in_scope (a b : PriceAgreement) : bool :=
  same_scope a b && bool_decide (pa_status b = AgActive).
Definition TransitionPriceAgreement (tenant id : uuid) (to : agreement_status) (approver : option uuid)
  : Tx Flt fleet_error PriceAgreement :=
  let! l := tget in
  let g := with_agreement to (if bool_decide (to = AgCancelled) then None else approver) in
  match first_where (transitions tenant id to) (fl_agreements l) with
  | None => tfail FlBadState
  | Some a =>
      tguard (negb (bool_decide (to = AgActive)) || negb (exists_where (active_in_scope a) (fl_agreements l))) FlConflict ;;!
      tput (fput_agreements (update_where (transitions tenant id to) g (fl_agreements l)) l) ;;! tret (g a)
  end.

(** [None] is no agreement; a NULL price cannot be scanned into a string. *)
Definition agreed_price (a : PriceAgreement) (retail : dec) : option dec :=
  match pa_type a with
  | PtFixed => dec_of 4 <$> pa_fixed a
  | PtDiscount =>
      let p := dec_sub retail (default (Dec 0 0) (dec_of 4 <$> pa_discount a)) in
      Some (if dec_leb (Dec 0 0) p then p else Dec 0 0)
  | PtMarkup => Some (dec_add retail (default (Dec 0 0) (dec_of 4 <$> pa_markup a)))
  end.
Definition in_force (today : Z) (tenant customer product station : uuid) (a : PriceAgreement) : bool :=
  bool_decide (pa_tenant a = tenant /\ pa_customer a = customer /\ pa_product a = product)
  && bool_decide (pa_status a = AgActive) && (pa_from a <=? today)
  && match pa_to a with None => true | Some d => today <=? d end
  && match pa_station a with None => true | Some s => bool_decide (s = station) end.
(** [ORDER BY station_id NULLS LAST] *)
Definition station_first (a b : PriceAgreement) : bool :=
  match pa_station a, pa_station b with
  | Some x, Some y => (x <=? y)%N
  | None, Some _ => false
  | _, None => true
  end.
Definition ResolveCustomerPrice (date_at : Z -> Z) (l : Flt) (tenant customer product station : uuid) (retail : dec)
  : result unit (option dec) :=
  match head (order_by station_first
                (select (in_force (date_at (fl_now l)) tenant customer product station) (fl_agreements l))) with
  | None => Ok None
  | Some a => match agreed_price a retail with Some p => Ok (Some p) | None => Err tt end
  end.

(** ** Statements (statements.go) *)

Section Statements.
Context (date_at : Z -> Z).

Definition ar_charge (e : AREntry) : bool := match ar_kind e with ArCharge => true | _ => false end.
Definition ar_payment (e : AREntry) : bool := match ar_kind e with ArPayment => true | _ => false end.
(** A sum over the customer's entries of the receivables ledger. *)
Definition ledger_sum (l : Flt) (tenant customer : uuid) (q : AREntry -> bool) : Z :=
  sum_by ar_amount (select (fun e => ar_of tenant customer e && q e) (fn_ar (fl_fin l))).
Definition before (d : Z) (e : AREntry) : bool := date_at (ar_at e) <? d.
Definition between (d d' : Z) (e : AREntry) : bool := within date_at d d' (ar_at e).
Definition until (d : Z) (e : AREntry) : bool := date_at (ar_at e) <=? d.

Definition GenerateStatement (tenant customer : uuid) (start_ end_ : Z) (by_ : uuid)
  : Tx Flt fleet_error CustomerStatement :=
  let! l := tget in
  let total q := ledger_sum l tenant customer q in
  let! opening := fl_col 14 2 (dec_of 2 (total (before start_))) in
  let! charges := fl_col 14 2 (dec_of 2 (total (fun e => between start_ end_ e && ar_charge e))) in
  let! payments := fl_col 14 2 (dec_of 2 (- total (fun e => between start_ end_ e && ar_payment e))) in
  let! closing := fl_col 14 2 (dec_of 2 (total (until end_))) in
  let! id := fl_fresh in
  let! l := tget in
  let s := mkStatement id tenant customer start_ end_ opening charges payments closing StDraft by_ (fl_now l) in
  tguard (fl_customer l tenant customer) FlForeignKey ;;!
  tput (fput_statements (fl_statements l ++ [s]) l) ;;! tret s.

Definition with_statement (st : statement_status) (s : CustomerStatement) : CustomerStatement :=
  mkStatement (ss_id s) (ss_tenant s) (ss_customer s) (ss_start s) (ss_end s) (ss_opening s) (ss_charges s)
    (ss_payments s) (ss_closing s) st (ss_by s) (ss_at s).
Definition draft_statement (tenant id : uuid) (s : CustomerStatement) : bool :=
  bool_decide (ss_tenant s = tenant /\ ss_id s = id) && bool_decide (ss_status s = StDraft).
Definition IssueStatement (tenant id : uuid) : Tx Flt fleet_error CustomerStatement :=
  let! l := tget in
  match first_where (draft_statement tenant id) (fl_statements l) with
  | None => tfail FlBadState
  | Some s =>
      tput (fput_statements (update_where (draft_statement tenant id) (with_statement StIssued) (fl_statements l)) l) ;;!
      tret (with_statement StIssued s)
  end.

Definition ss_of (tenant customer : uuid) (s : CustomerStatement) : bool :=
  bool_decide (ss_tenant s = tenant /\ ss_customer s = customer).
Definition ListStatements (l : Flt) (tenant customer : uuid) : list CustomerStatement :=
  order_by (newest ss_end) (select (ss_of tenant customer) (fl_statements l)).
Definition ListStatementsPage (l : Flt) (tenant customer : uuid) (limit offset : nat) : list CustomerStatement :=
  limit_offset limit offset (order_by (newest_id ss_end ss_id) (select (ss_of tenant customer) (fl_statements l))).

(** ** Credit alerts (statements.go) *)

Definition severity_word (w : string) : bool :=
  bool_decide (w = "info" \/ w = "low" \/ w = "medium" \/ w = "high" \/ w = "critical")%string.
Definition standing (s : alert_status) : bool := bool_decide (s = AlOpen) || bool_decide (s = AlAcknowledged).
(** [uq_credit_alert_open] *)
Definition standing_alert (tenant customer : uuid) (type : string) (a : CreditAlert) : bool :=
  bool_decide (ca_tenant a = tenant /\ ca_customer a = customer /\ ca_type a = type) && standing (ca_status a).
(** [INSERT ... ON CONFLICT DO NOTHING]: whether a row was created. *)
Definition RaiseAlert (tenant customer : uuid) (type severity detail : string) : Tx Flt fleet_error bool :=
  let! id := fl_fresh in
  let! l := tget in
  tguard (severity_word (word_or severity "medium")) FlCheck ;;!
  if exists_where (standing_alert tenant customer type) (fl_alerts l) then tret false
  else
    tguard (fl_customer l tenant customer) FlForeignKey ;;!
    tput (fput_alerts (fl_alerts l
      ++ [mkAlert id tenant customer type (word_or severity "medium") AlOpen (Some detail) None None (fl_now l)]) l) ;;!
    tret true.

Fixpoint raise_all (tenant : uuid) (type severity detail : string) (cs : list uuid) : Tx Flt fleet_error nat :=
  match cs with
  | [] => tret 0%nat
  | c :: rest =>
      let! new := RaiseAlert tenant c type severity detail in
      let! n := raise_all tenant type severity detail rest in
      tret (if new then S n else n)
  end.
(** The balance and every approved hold, expired or not. *)
Definition over_limit (l : Flt) (c : Customer) : bool :=
  (0 <? cu_limit c)
  && (cu_limit c <? ar_sum (fin_view l) (cu_tenant c) (cu_id c) + auth_held (fin_view l) (cu_tenant c) (cu_id c)).
Definition over_limit_customers (l : Flt) (tenant : uuid) : list uuid :=
  cu_id <$> select (fun c => bool_decide (cu_tenant c = tenant) && over_limit l c) (fn_customers (fl_fin l)).
Definition overdue_customers (l : Flt) (tenant : uuid) : list uuid :=
  remove_dups (iv_customer <$> select (fun i => bool_decide (iv_tenant i = tenant) && past_due (date_at (fl_now l)) i)
    (fn_invoices (fl_fin l))).
Definition ScanCreditAlerts (tenant : uuid) : Tx Flt fleet_error nat :=
  let! l := tget in
  let! n := raise_all tenant "over_limit" "high" "exposure exceeds credit limit" (over_limit_customers l tenant) in
  let! l := tget in
  let! m := raise_all tenant "overdue" "medium" "has past-due invoices" (overdue_customers l tenant) in
  tret (n + m)%nat.

Definition alert_word (w : string) : option alert_status :=
  match w with
  | "open" => Some AlOpen | "acknowledged" => Some AlAcknowledged | "resolved" => Some AlResolved
  | "dismissed" => Some AlDismissed | _ => None
  end%string.
Definition alert_in (tenant : uuid) (status : string) (a : CreditAlert) : bool :=
  bool_decide (ca_tenant a = tenant)
  && (bool_decide (status = "")%string || bool_decide (alert_word status = Some (ca_status a))).
Definition ListAlerts (l : Flt) (tenant : uuid) (status : string) : list CreditAlert :=
  order_by (newest ca_created) (select (alert_in tenant status) (fl_alerts l)).
Definition ListAlertsPage (l : Flt) (tenant : uuid) (status : string) (limit offset : nat) : list CreditAlert :=
  limit_offset limit offset (order_by (newest_id ca_created ca_id) (select (alert_in tenant status) (fl_alerts l))).

Definition ca_by_id (tenant id : uuid) (a : CreditAlert) : bool := bool_decide (ca_tenant a = tenant /\ ca_id a = id).
Definition with_alert (st : alert_status) (reason : option string) (assigned : option uuid) (a : CreditAlert) : CreditAlert :=
  mkAlert (ca_id a) (ca_tenant a) (ca_customer a) (ca_type a) (ca_severity a) st (ca_detail a)
    (opt_or assigned (ca_assigned a)) (opt_or reason (ca_reason a)) (ca_created a).
(** From any status; a closed alert that stands again must find its type free. *)
Definition TransitionAlert (tenant id : uuid) (to : string) (reason : option string) (assigned : option uuid)
  : Tx Flt fleet_error unit :=
  let! l := tget in
  match first_where (ca_by_id tenant id) (fl_alerts l) with
  | None => tfail FlNotFound
  | Some a =>
      let! st := tlift (of_option FlCheck (alert_word to)) in
      tguard (negb (standing st)
              || negb (exists_where (fun x => standing_alert tenant (ca_customer a) (ca_type a) x
                                              && negb (ca_by_id tenant id x)) (fl_alerts l))) FlUnique ;;!
      tput (fput_alerts (update_where (ca_by_id tenant id) (with_alert st reason assigned) (fl_alerts l)) l)
  end.
End Statements.

(** ** The handlers

    The routes are behind tenant-wide permissions; the handlers ask for the actor
    only. *)

Definition fleet_audit {E} (a : Actor) (action : string) (entity : uuid) : Tx Flt E unit :=
  fun l => Ok (tt, fput_fin (set_audit (fn_audit (fl_fin l) ++ [mkAudit (ac_tenant a) (ac_user a) action entity])
                               (fl_fin l)) l).
(** The body of a request, refused with one message when it does not decode or lacks
    a required field. *)
Definition body_with {Q} (m : string) (ok : Q -> bool) (body : result unit Q) : result http_error Q :=
  match body with Ok q => if ok q then Ok q else Err (bad_request m) | Err _ => Err (bad_request m) end.
Definition fk_or_internal (m : string) (e : fleet_error) : http_error :=
  if bool_decide (e = FlForeignKey) then bad_request m else ops_internal.
Definition conflict_or (c m : string) (e : fleet_error) : http_error :=
  if bool_decide (e = FlConflict) then HttpError 409 c else fk_or_internal m e.
Definition missing_or_internal (m : string) (e : fleet_error) : http_error :=
  if bool_decide (e = FlNotFound) then HttpError 404 m else ops_internal.
Definition fl_internal {A} (c : Tx Flt fleet_error A) : Tx Flt http_error A := tconv (fun _ => ops_internal) c.
(** [queryUUID]: the nil id when absent or malformed. *)
Definition queryUUID (v : option (result unit uuid)) : uuid := match v with Some (Ok i) => i | _ => uuid_nil end.
(** [parseDateParam]: the default when absent or malformed. *)
Definition parseDateParam (v : option (result unit Z)) (def : Z) : Z := match v with Some (Ok d) => d | _ => def end.
Definition set_id (i : uuid) : bool := negb (bool_decide (i = uuid_nil)).
Definition set_text (s : string) : bool := negb (bool_decide (s = "")%string).

Section Handlers.
Context {L : Type} `{Loader L}.
Context (policy : L) (collate : string -> string -> bool) (cfgDefault cfgMax : Z).
Context (date_at midnight : Z -> Z) (hasher : Argon) (uuid_string : uuid -> string).

(** A page of a listing. *)
Definition fleet_page {R} (ctx : option Actor) (limit offset : option (result unit Z)) (rows : uuid -> nat -> nat -> list R)
  : result http_error (list R * bool) :=
  (let? a := ops_actor ctx in
   let? (n, o) := parsePage cfgDefault cfgMax limit offset in
   Ok (page_of n (rows (ac_tenant a) (Z.to_nat (n + 1)) (Z.to_nat o))))%res.
Definition fleet_page_of {R} (m : string) (ctx : option Actor) (id : result unit uuid)
    (limit offset : option (result unit Z)) (rows : uuid -> uuid -> nat -> nat -> list R)
  : result http_error (list R * bool) :=
  (let? a := ops_actor ctx in
   let? id := url_id m id in
   let? (n, o) := parsePage cfgDefault cfgMax limit offset in
   Ok (page_of n (rows (ac_tenant a) id (Z.to_nat (n + 1)) (Z.to_nat o))))%res.

(** *** Authorizations and limits (fleet_authorization_handlers.go) *)

Record authorizationRequest := mkAuthorizationRequest { uq_request : AuthRequest; uq_override : bool }.

(** The authorization, or the denial a 422 explains: a denial is committed, and what
    it wrote is lost when its transaction was aborted. *)
Definition handleRequestAuthorization (ctx : option Actor) (body : result unit authorizationRequest)
  : Tx Flt http_error (Authorization + AuthDecision) :=
  let! a := tlift (ops_actor ctx) in
  let! q := tlift (body_with "customer_id and station_id are required"
    (fun q => set_id (ai_customer (uq_request q)) && set_id (ai_station (uq_request q))) body) in
  tlift (of_option (bad_request "requested_amount must be a positive decimal")
    (positive_amount (ai_amount (uq_request q)))) ;;!
  tguard (negb (uq_override q) || actorHolds policy a "fuel_authorization.override")
    (HttpError 403 "override requires fuel_authorization.override") ;;!
  fun l =>
    match RequestAuthorization date_at midnight (ac_tenant a) (uq_request q) (ac_user a) (uq_override q) l with
    | Ok (inr (d, committed), l') => Ok (inr d, if committed then l' else l)
    | Ok (inl x, l') => (fleet_audit a "fuel_authorization.approved" (az_id x) ;;! tret (inl x)) l'
    | Err e => Err (fk_or_internal "unknown customer, station, vehicle, driver, or credential" e)
    end.

Definition handleListAuthorizations (pool : Flt) (ctx : option Actor) (customer : option (result unit uuid))
    (limit offset : option (result unit Z)) : result http_error (list Authorization * bool) :=
  fleet_page ctx limit offset (fun t => ListAuthorizationsPage pool t (queryUUID customer)).
Definition handleGetAuthorization (pool : Flt) (ctx : option Actor) (id : result unit uuid)
  : result http_error Authorization :=
  (let? a := ops_actor ctx in
   let? id := url_id "invalid id" id in
   of_option (HttpError 404 "authorization not found") (first_where (az_by_id (ac_tenant a) id) (fl_auths pool)))%res.

Definition handleFulfillAuthorization (ctx : option Actor) (id : result unit uuid) (body : result unit uuid)
  : Tx Flt http_error Authorization :=
  let! a := tlift (ops_actor ctx) in
  let! id := tlift (url_id "invalid id" id) in
  let! sale := tlift (body_with "consumed_by (sale id) is required" set_id body) in
  let! x := tconv (fun e => match e with
      | FlConsumed => HttpError 409 "authorization is not approved or already consumed"
      | FlSaleNotFound => HttpError 422 "consumed_by must reference an existing sale in this tenant"
      | _ => ops_internal
      end) (FulfillAuthorization (ac_tenant a) id sale) in
  fleet_audit a "fuel_authorization.fulfilled" id ;;! tret x.

Definition handleAuthorizationStatus (to : string) (ctx : option Actor) (id : result unit uuid)
  : Tx Flt http_error Authorization :=
  let! a := tlift (ops_actor ctx) in
  let! id := tlift (url_id "invalid id" id) in
  let! x := tconv (fun e => if bool_decide (e = FlBadState)
                            then HttpError 409 "authorization cannot transition from its current state"
                            else ops_internal) (SetAuthorizationStatus (ac_tenant a) id to) in
  fleet_audit a ("fuel_authorization." ++ to) id ;;! tret x.

Definition handleListFuelLimits (pool : Flt) (ctx : option Actor) (customer : option (result unit uuid))
    (limit offset : option (result unit Z)) : result http_error (list FuelLimit * bool) :=
  fleet_page ctx limit offset (fun t => ListLimitsPage pool t (queryUUID customer)).

Record limitRequest := mkLimitRequest {
  lq_customer : option uuid; lq_vehicle : option uuid; lq_product : option uuid; lq_scope : string; lq_period : string;
  lq_amount : option (result unit dec); lq_litres : option (result unit dec) }.
Definition handleCreateFuelLimit (ctx : option Actor) (body : result unit limitRequest) : Tx Flt http_error uuid :=
  let! a := tlift (ops_actor ctx) in
  let! q := tlift (json_body body) in
  let! id := tconv (fk_or_internal "unknown customer or vehicle") (CreateLimit (ac_tenant a) (lq_customer q)
    (lq_vehicle q) (lq_product q) (lq_scope q) (lq_period q) (lq_amount q) (lq_litres q)) in
  fleet_audit a "fuel_limit.created" id ;;! tret id.

(** *** Credit (fleet_credit_handlers.go) *)

Definition validCustomerStatuses (w : string) : bool :=
  bool_decide (w = "prospect" \/ w = "active" \/ w = "on_hold" \/ w = "suspended" \/ w = "closed")%string.
Definition handleSetCustomerStatus (ctx : option Actor) (id : result unit uuid) (body : result unit string)
  : Tx Flt http_error Customer :=
  let! a := tlift (ops_actor ctx) in
  let! id := tlift (url_id "invalid customer id" id) in
  let! status := tlift (body_with "status must be prospect|active|on_hold|suspended|closed" validCustomerStatuses body) in
  let! c := tconv (fun _ => HttpError 404 "customer not found") (on_fin (SetCustomerStatus (ac_tenant a) id status)) in
  fleet_audit a "customer.status_changed" id ;;! tret c.

Definition handleListCustomerContacts (pool : Flt) (ctx : option Actor) (id : result unit uuid)
    (limit offset : option (result unit Z)) : result http_error (list Contact * bool) :=
  fleet_page_of "invalid customer id" ctx id limit offset (ListContactsPage collate pool).
Definition handleCreateCustomerContact (ctx : option Actor) (id : result unit uuid) (body : result unit ContactInput)
  : Tx Flt http_error uuid :=
  let! a := tlift (ops_actor ctx) in
  let! customer := tlift (url_id "invalid customer id" id) in
  let! i := tlift (body_with "name is required" (fun i => set_text (ki_name i)) body) in
  let! c := tconv (fk_or_internal "unknown customer") (CreateContact (ac_tenant a) customer i) in
  fleet_audit a "customer_contact.created" (ct_id c) ;;! tret (ct_id c).
Definition handleDeleteCustomerContact (ctx : option Actor) (id contact : result unit uuid) : Tx Flt http_error unit :=
  let! a := tlift (ops_actor ctx) in
  let! customer := tlift (url_id "invalid customer id" id) in
  let! contact := tlift (url_id "invalid contact id" contact) in
  tconv (missing_or_internal "contact not found") (DeleteContact (ac_tenant a) customer contact) ;;!
  fleet_audit a "customer_contact.deleted" contact.

Definition handleGetCreditProfile (pool : Flt) (ctx : option Actor) (id : result unit uuid)
  : result http_error FleetProfile :=
  (let? a := ops_actor ctx in
   let? customer := url_id "invalid customer id" id in
   of_option (HttpError 404 "no credit profile for this customer")
     (first_where (cp_of (ac_tenant a) customer) (fl_profiles pool)))%res.
Record profileRequest := mkProfileRequest {
  fq_terms : option Z; fq_grace : option Z; fq_cycle : option Z; fq_risk : string;
  fq_warning : option (result unit dec); fq_review : option (result unit Z) }.
Definition handleUpsertCreditProfile (ctx : option Actor) (id : result unit uuid) (body : result unit profileRequest)
  : Tx Flt http_error FleetProfile :=
  let! a := tlift (ops_actor ctx) in
  let! customer := tlift (url_id "invalid customer id" id) in
  let! q := tlift (json_body body) in
  let! p := tconv (fk_or_internal "unknown customer") (UpsertCreditProfile (ac_tenant a) customer
    (mkCreditProfileInput (fq_terms q) (fq_grace q) (fq_cycle q) (fq_risk q) (fq_warning q) (parseOptDate (fq_review q)))) in
  fleet_audit a "customer_credit.updated" customer ;;! tret p.
Definition handleCreditPosition (pool : Flt) (ctx : option Actor) (id : result unit uuid) : result http_error Position :=
  (let? a := ops_actor ctx in
   let? customer := url_id "invalid customer id" id in
   of_option (HttpError 404 "customer not found") (CreditPosition date_at pool (ac_tenant a) customer))%res.
Definition handleSetCreditHold (ctx : option Actor) (id : result unit uuid) (body : result unit (bool * option string))
  : Tx Flt http_error unit :=
  let! a := tlift (ops_actor ctx) in
  let! customer := tlift (url_id "invalid customer id" id) in
  let! (hold, reason) := tlift (json_body body) in
  tconv (fk_or_internal "unknown customer") (SetHold (ac_tenant a) customer hold reason) ;;!
  fleet_audit a (if hold then "customer_credit.hold_applied" else "customer_credit.hold_released") customer.

Definition handleListPriceAgreements (pool : Flt) (ctx : option Actor) (customer : option (result unit uuid))
    (limit offset : option (result unit Z)) : result http_error (list PriceAgreement * bool) :=
  fleet_page ctx limit offset (fun t => ListPriceAgreementsPage pool t (queryUUID customer)).
(** [today] is the date of [time.Now()] where the server runs. *)
Record agreementRequest := mkAgreementRequest {
  gq_customer : uuid; gq_product : uuid; gq_station : option uuid; gq_type : string;
  gq_fixed : option (result unit dec); gq_discount : option (result unit dec); gq_markup : option (result unit dec);
  gq_from : option (result unit Z); gq_to : option (result unit Z) }.
Definition handleCreatePriceAgreement (today : Z) (ctx : option Actor) (body : result unit agreementRequest)
  : Tx Flt http_error PriceAgreement :=
  let! a := tlift (ops_actor ctx) in
  let! q := tlift (json_body body) in
  tguard (set_id (gq_customer q) && set_id (gq_product q)) (bad_request "customer_id and product_id are required") ;;!
  let! from := tlift (match gq_from q with
    | None => Ok today
    | Some (Ok d) => Ok d
    | Some (Err _) => Err (bad_request "effective_from must be YYYY-MM-DD")
    end) in
  let! g := tconv (fk_or_internal "unknown customer, product, or station") (CreatePriceAgreement (ac_tenant a)
    (mkAgreementInput (gq_customer q) (gq_product q) (gq_station q) (gq_type q) (gq_fixed q) (gq_discount q) (gq_markup q)
       from (parseOptDate (gq_to q)) (ac_user a))) in
  fleet_audit a "customer_price_agreement.created" (pa_id g) ;;! tret g.

Inductive agreement_action := ActApprove | ActActivate | ActExpire | ActCancel.
Definition statusFor (x : agreement_action) : agreement_status * string :=
  match x with
  | ActApprove => (AgApproved, "approved") | ActActivate => (AgActive, "active") | ActExpire => (AgExpired, "expired")
  | ActCancel => (AgCancelled, "cancelled")
  end%string.
Definition handleTransitionPriceAgreement (action : agreement_action) (ctx : option Actor) (id : result unit uuid)
  : Tx Flt http_error PriceAgreement :=
  let! a := tlift (ops_actor ctx) in
  let! id := tlift (url_id "invalid id" id) in
  let '(to, name) := statusFor action in
  let! g := tconv (fun e => match e with
      | FlBadState => HttpError 409 "agreement is not in the required state for this action"
      | FlConflict => HttpError 409 "another active agreement exists for this customer/product/scope"
      | _ => ops_internal
      end) (TransitionPriceAgreement (ac_tenant a) id to
              (if bool_decide (to = AgApproved) then Some (ac_user a) else None)) in
  fleet_audit a ("customer_price_agreement." ++ name) id ;;! tret g.

(** *** Vehicles, drivers, credentials (fleet_identity_handlers.go) *)

Definition handleListVehicles (pool : Flt) (ctx : option Actor) (customer : option (result unit uuid))
    (limit offset : option (result unit Z)) : result http_error (list Vehicle * bool) :=
  fleet_page ctx limit offset (fun t => ListVehiclesPage collate pool t (queryUUID customer)).
Definition handleCreateVehicle (ctx : option Actor) (body : result unit VehicleInput) : Tx Flt http_error Vehicle :=
  let! a := tlift (ops_actor ctx) in
  let! i := tlift (body_with "customer_id and registration are required"
    (fun i => set_id (hi_customer i) && set_text (hi_registration i)) body) in
  let! v := tconv (conflict_or "a vehicle with this registration already exists" "unknown customer or product")
    (CreateVehicle (ac_tenant a) i) in
  fleet_audit a "customer_vehicle.created" (vh_id v) ;;! tret v.

(** [allowed] are the statuses of the entity, [apply] its repository's update. *)
Definition fleetStatusTransition {R} (entity : string) (allowed : string -> bool)
    (apply : uuid -> uuid -> string -> Tx Flt fleet_error R) (ctx : option Actor) (id : result unit uuid)
    (body : result unit string) : Tx Flt http_error R :=
  let! a := tlift (ops_actor ctx) in
  let! id := tlift (url_id "invalid id" id) in
  let! status := tlift (body_with "invalid status for this entity" allowed body) in
  let! r := tconv (missing_or_internal "not found") (apply (ac_tenant a) id status) in
  fleet_audit a (entity ++ ".status_changed") id ;;! tret r.
Definition handleSetVehicleStatus : option Actor -> result unit uuid -> result unit string -> Tx Flt http_error Vehicle :=
  fleetStatusTransition "customer_vehicle" (fun w => bool_decide (w = "active" \/ w = "on_hold" \/ w = "retired")%string)
    SetVehicleStatus.

Definition handleListDrivers (pool : Flt) (ctx : option Actor) (customer : option (result unit uuid))
    (limit offset : option (result unit Z)) : result http_error (list Driver * bool) :=
  fleet_page ctx limit offset (fun t => ListDriversPage collate pool t (queryUUID customer)).
Definition handleCreateDriver (salt : string) (ctx : option Actor) (body : result unit DriverInput)
  : Tx Flt http_error Driver :=
  let! a := tlift (ops_actor ctx) in
  let! i := tlift (body_with "customer_id and name are required"
    (fun i => set_id (vi_customer i) && set_text (vi_name i)) body) in
  let! d := tconv (fk_or_internal "unknown customer") (CreateDriver hasher salt (ac_tenant a) i) in
  fleet_audit a "customer_driver.created" (dr_id d) ;;! tret d.
Definition handleSetDriverStatus : option Actor -> result unit uuid -> result unit string -> Tx Flt http_error Driver :=
  fleetStatusTransition "customer_driver" (fun w => bool_decide (w = "active" \/ w = "on_hold" \/ w = "inactive")%string)
    SetDriverStatus.
(** Whether a PIN is set. *)
Definition handleResetDriverPIN (salt : string) (ctx : option Actor) (id : result unit uuid) (body : result unit string)
  : Tx Flt http_error bool :=
  let! a := tlift (ops_actor ctx) in
  let! id := tlift (url_id "invalid driver id" id) in
  let! pin := tlift (json_body body) in
  tconv (missing_or_internal "driver not found") (ResetDriverPIN hasher salt (ac_tenant a) id pin) ;;!
  fleet_audit a "customer_driver.pin_reset" id ;;! tret (set_text pin).

Definition handleListCredentials (pool : Flt) (ctx : option Actor) (customer : option (result unit uuid))
    (limit offset : option (result unit Z)) : result http_error (list Credential * bool) :=
  fleet_page ctx limit offset (fun t => ListCredentialsPage pool t (queryUUID customer)).
Record credentialRequest := mkCredentialRequest {
  dq_customer : uuid; dq_vehicle : option uuid; dq_driver : option uuid; dq_type : string; dq_token : string;
  dq_expiry : option (result unit Z) }.
Definition handleIssueCredential (ctx : option Actor) (body : result unit credentialRequest)
  : Tx Flt http_error Credential :=
  let! a := tlift (ops_actor ctx) in
  let! q := tlift (body_with "customer_id and token are required"
    (fun q => set_id (dq_customer q) && set_text (dq_token q)) body) in
  let! c := tconv (conflict_or "a credential with this token already exists" "unknown customer, vehicle, or driver")
    (IssueCredential hasher uuid_string date_at (ac_tenant a) (mkCredentialInput (dq_customer q) (dq_vehicle q)
       (dq_driver q) (dq_type q) (dq_token q) (parseOptDate (dq_expiry q)))) in
  fleet_audit a "fuel_credential.issued" (cd_id c) ;;! tret c.
Definition handleSetCredentialStatus : option Actor -> result unit uuid -> result unit string
    -> Tx Flt http_error Credential :=
  fleetStatusTransition "fuel_credential"
    (fun w => bool_decide (w = "issued" \/ w = "active" \/ w = "suspended" \/ w = "expired" \/ w = "revoked")%string)
    SetCredentialStatus.
Definition handleValidateCredential (ctx : option Actor) (body : result unit string)
  : Tx Flt http_error CredentialContext :=
  let! a := tlift (ops_actor ctx) in
  let! token := tlift (body_with "token is required" set_text body) in
  tconv (missing_or_internal "credential not recognized") (ValidateCredential hasher uuid_string (ac_tenant a) token).

(** *** Odometer readings and consumption (fleet_odometer_handlers.go) *)

Record odometerRequest := mkOdometerRequest {
  oq_reading : option dec; oq_auth : option uuid; oq_station : option uuid; oq_note : option string; oq_override : bool }.
Definition handleRecordOdometer (ctx : option Actor) (id : result unit uuid) (body : result unit odometerRequest)
  : Tx Flt http_error OdometerReading :=
  let! a := tlift (ops_actor ctx) in
  let! vehicle := tlift (url_id "invalid vehicle id" id) in
  let! q := tlift (json_body body) in
  let! reading := tlift (match oq_reading q with
    | Some d => if nonnegative_amount d then Ok d else Err (bad_request "reading must be a non-negative decimal")
    | None => Err (bad_request "reading must be a non-negative decimal")
    end) in
  let! o := tconv (fk_or_internal "unknown vehicle") (RecordOdometer (ac_tenant a) vehicle (oq_auth q) (oq_station q)
    reading (oq_note q) (oq_override q) (ac_user a)) in
  fleet_audit a "vehicle_odometer.recorded" (od_id o) ;;! tret o.
Definition handleListOdometer (pool : Flt) (ctx : option Actor) (id : result unit uuid)
    (limit offset : option (result unit Z)) : result http_error (list OdometerReading * bool) :=
  fleet_page_of "invalid vehicle id" ctx id limit offset (ListOdometerReadingsPage pool).
(** [monthAgo] and [today] are the dates of [time.Now().AddDate(0, -1, 0)] and of
    [time.Now()]. *)
Definition handleFleetConsumption (pool : Flt) (monthAgo today : Z) (ctx : option Actor)
    (customer : option (result unit uuid)) (from to : option (result unit Z))
  : result http_error (list VehicleConsumption) :=
  (let? a := ops_actor ctx in
   let customer := queryUUID customer in
   if bool_decide (customer = uuid_nil) then Err (bad_request "customer_id is required")
   else Ok (FleetConsumption date_at collate pool (ac_tenant a) customer (parseDateParam from monthAgo)
              (parseDateParam to today)))%res.

(** *** Statements and alerts (fleet_statement_handlers.go) *)

Definition handleGenerateStatement (ctx : option Actor) (id : result unit uuid)
    (body : result unit (result unit Z * result unit Z)) : Tx Flt http_error CustomerStatement :=
  let! a := tlift (ops_actor ctx) in
  let! customer := tlift (url_id "invalid customer id" id) in
  let! (start_, end_) := tlift (json_body body) in
  let! (start_, end_) := tlift (match start_, end_ with
    | Ok s, Ok e => Ok (s, e)
    | _, _ => Err (bad_request "period_start and period_end must be YYYY-MM-DD")
    end) in
  let! s := tconv (fk_or_internal "unknown customer")
    (GenerateStatement date_at (ac_tenant a) customer start_ end_ (ac_user a)) in
  fleet_audit a "customer_statement.generated" (ss_id s) ;;! tret s.
Definition handleIssueStatement (ctx : option Actor) (id : result unit uuid) : Tx Flt http_error CustomerStatement :=
  let! a := tlift (ops_actor ctx) in
  let! id := tlift (url_id "invalid id" id) in
  let! s := tconv (fun e => if bool_decide (e = FlBadState) then HttpError 409 "only a draft statement can be issued"
                            else ops_internal) (IssueStatement (ac_tenant a) id) in
  fleet_audit a "customer_statement.issued" id ;;! tret s.
Definition handleListStatements (pool : Flt) (ctx : option Actor) (id : result unit uuid)
    (limit offset : option (result unit Z)) : result http_error (list CustomerStatement * bool) :=
  fleet_page_of "invalid customer id" ctx id limit offset (ListStatementsPage pool).

Definition handleScanCreditAlerts (ctx : option Actor) : Tx Flt http_error nat :=
  let! a := tlift (ops_actor ctx) in
  let! n := fl_internal (ScanCreditAlerts date_at (ac_tenant a)) in
  fleet_audit a "customer_credit_alert.scanned" (ac_tenant a) ;;! tret n.
Definition handleListCreditAlerts (pool : Flt) (ctx : option Actor) (status : string)
    (limit offset : option (result unit Z)) : result http_error (list CreditAlert * bool) :=
  fleet_page ctx limit offset (fun t => ListAlertsPage pool t status).
(** The error of the decoder is dropped. *)
Definition handleTransitionCreditAlert (to : string) (ctx : option Actor) (id : result unit uuid)
    (body : result unit (option string)) : Tx Flt http_error unit :=
  let! a := tlift (ops_actor ctx) in
  let! id := tlift (url_id "invalid id" id) in
  let reason := match body with Ok r => r | Err _ => None end in
  tconv (missing_or_internal "alert not found") (TransitionAlert (ac_tenant a) id to reason (Some (ac_user a))) ;;!
  fleet_audit a ("customer_credit_alert." ++ to) id.
End Handlers.
