(* ===== verification/FleetProps.v ===== *)
(** * What customer credit and the fleet promise

    Over every sequence of requests: an authorization consumes one sale and a sale
    is consumed by one authorization, a credit line that is not overridden is never
    oversold by the charges and the holds together, a customer has one agreed price
    in force; and what a granted request has passed. *)

From stdpp Require Import base list strings relations.
From Stdlib Require Import ZArith Lia.
From S2P Require Import Prelude Frames Calendar Numeric Schema Ledger Float64 Accounting RosterProps Finance Payables Policy Operations Workforce WorkforceHandlers FinanceHandlers SettleProps CreditProps Treasury BankHandlers Secrets Fleet.

Local Open Scope Z_scope.
Local Open Scope tx_scope.

(** ** Requests *)

(** What the tables of the receivables are asked for beside the fleet: a charge, a
    payment, a new or changed customer. *)
Inductive fleet_req :=
| RqAuthorize (c : option Actor) (b : result unit authorizationRequest)
| RqFulfill (c : option Actor) (i b : result unit uuid)
| RqAuthStatus (to : string) (c : option Actor) (i : result unit uuid)
| RqLimit (c : option Actor) (b : result unit limitRequest)
| RqStatus (c : option Actor) (i : result unit uuid) (b : result unit string)
| RqContact (c : option Actor) (i : result unit uuid) (b : result unit ContactInput)
| RqNoContact (c : option Actor) (i k : result unit uuid)
| RqProfile (c : option Actor) (i : result unit uuid) (b : result unit profileRequest)
| RqHold (c : option Actor) (i : result unit uuid) (b : result unit (bool * option string))
| RqAgreement (today : Z) (c : option Actor) (b : result unit agreementRequest)
| RqAgreementStatus (x : agreement_action) (c : option Actor) (i : result unit uuid)
| RqVehicle (c : option Actor) (b : result unit VehicleInput)
| RqVehicleStatus (c : option Actor) (i : result unit uuid) (b : result unit string)
| RqDriver (salt : string) (c : option Actor) (b : result unit DriverInput)
| RqDriverStatus (c : option Actor) (i : result unit uuid) (b : result unit string)
| RqPin (salt : string) (c : option Actor) (i : result unit uuid) (b : result unit string)
| RqCredential (c : option Actor) (b : result unit credentialRequest)
| RqCredentialStatus (c : option Actor) (i : result unit uuid) (b : result unit string)
| RqValidate (c : option Actor) (b : result unit string)
| RqOdometer (c : option Actor) (i : result unit uuid) (b : result unit odometerRequest)
| RqStatement (c : option Actor) (i : result unit uuid) (b : result unit (result unit Z * result unit Z))
| RqIssue (c : option Actor) (i : result unit uuid)
| RqScan (c : option Actor)
| RqAlert (to : string) (c : option Actor) (i : result unit uuid) (b : result unit (option string))
| RqCharge (tenant customer : uuid) (amount : dec) (ty : option string) (src : option uuid) (by_ : uuid)
    (notes : option string) (over : bool)
| RqPayment (pool : Fin) (c : option Actor) (i : result unit uuid) (b : result unit (option dec * option string))
| RqCustomer (c : option Actor) (b : result unit customerRequest)
| RqEdit (c : option Actor) (i : result unit uuid) (b : result unit customerRequest).

Definition done_with {E A} (c : Tx Flt E A) : Tx Flt E unit := tbind c (fun _ => tret tt).
Definition unconverted {A} (c : Tx Flt fin_error A) : Tx Flt http_error A := tconv (fun _ => ops_internal) c.

Section Serve.
Context {L : Type} `{Loader L} (policy : L) (date_at midnight : Z -> Z) (hasher : Argon) (uuid_string : uuid -> string).

Definition fleet_serve (r : fleet_req) : Tx Flt http_error unit :=
  match r with
  | RqAuthorize c b => done_with (handleRequestAuthorization policy date_at midnight c b)
  | RqFulfill c i b => done_with (handleFulfillAuthorization c i b)
  | RqAuthStatus to c i => done_with (handleAuthorizationStatus to c i)
  | RqLimit c b => done_with (handleCreateFuelLimit c b)
  | RqStatus c i b => done_with (handleSetCustomerStatus c i b)
  | RqContact c i b => done_with (handleCreateCustomerContact c i b)
  | RqNoContact c i k => handleDeleteCustomerContact c i k
  | RqProfile c i b => done_with (handleUpsertCreditProfile c i b)
  | RqHold c i b => handleSetCreditHold c i b
  | RqAgreement today c b => done_with (handleCreatePriceAgreement today c b)
  | RqAgreementStatus x c i => done_with (handleTransitionPriceAgreement x c i)
  | RqVehicle c b => done_with (handleCreateVehicle c b)
  | RqVehicleStatus c i b => done_with (handleSetVehicleStatus c i b)
  | RqDriver salt c b => done_with (handleCreateDriver hasher salt c b)
  | RqDriverStatus c i b => done_with (handleSetDriverStatus c i b)
  | RqPin salt c i b => done_with (handleResetDriverPIN hasher salt c i b)
  | RqCredential c b => done_with (handleIssueCredential date_at hasher uuid_string c b)
  | RqCredentialStatus c i b => done_with (handleSetCredentialStatus c i b)
  | RqValidate c b => done_with (handleValidateCredential hasher uuid_string c b)
  | RqOdometer c i b => done_with (handleRecordOdometer c i b)
  | RqStatement c i b => done_with (handleGenerateStatement date_at c i b)
  | RqIssue c i => done_with (handleIssueStatement c i)
  | RqScan c => done_with (handleScanCreditAlerts date_at c)
  | RqAlert to c i b => handleTransitionCreditAlert to c i b
  | RqCharge t c d ty s u n over => done_with (unconverted (on_fin (PostCharge t c d ty s u n over)))
  | RqPayment pool c i b => done_with (on_fin (handleRecordCustomerPayment pool c i b))
  | RqCustomer c b => done_with (on_fin (handleCreateCustomer c b))
  | RqEdit c i b => done_with (on_fin (handleUpdateCustomer c i b))
  end.
End Serve.

(** ** Frames *)

Definition cu_key (c : Customer) : uuid * uuid * Z := (cu_tenant c, cu_id c, cu_limit c).
Definition core (l : Flt) :=
  (fl_auths l, fl_sales l, fn_ar (fl_fin l), cu_key <$> fn_customers (fl_fin l), fl_now l).
Definition fl_next (l : Flt) : uuid := fn_next (fl_fin l).

(** Nothing of the credit standing moves. *)
Definition quiet_fleet (l l' : Flt) : Prop := core l' = core l /\ (fl_next l <= fl_next l')%N.
#[export] Instance quiet_fleet_preorder : PreOrder quiet_fleet.
Proof.
  split; [intros l; split; [done|lia]|]. intros a b c [E1 H1] [E2 H2]. split; [congruence|lia].
Qed.
(** No agreement moves. *)
Definition unpriced (l l' : Flt) : Prop := fl_agreements l' = fl_agreements l /\ (fl_next l <= fl_next l')%N.
#[export] Instance unpriced_preorder : PreOrder unpriced.
Proof.
  split; [intros l; split; [done|lia]|]. intros a b c [E1 H1] [E2 H2]. split; [congruence|lia].
Qed.

Lemma fl_col_ok p s d l z l' : fl_col p s d l = Ok (z, l') -> z = round_to s d /\ l' = l.
Proof.
  unfold fl_col, tlift, of_option. destruct (numeric_col p s d) eqn:E; [|done].
  apply numeric_col_some in E as [-> _]. by intros [= <- <-].
Qed.

(** The steps every frame obeys. *)
Class FleetFrame (R : Flt -> Flt -> Prop) := {
  ff_pre :: PreOrder R;
  ff_fresh : forall E, obeys (E := E) R fl_fresh;
  ff_audit : forall E a x i, obeys (E := E) R (fleet_audit a x i);
}.
#[export] Instance quiet_frame : FleetFrame quiet_fleet.
Proof. split; [apply _| |]; intros; intros ? ? ? [= <- <-]; split; unfold fl_next; simpl; try done; lia. Qed.
#[export] Instance unpriced_frame : FleetFrame unpriced.
Proof. split; [apply _| |]; intros; intros ? ? ? [= <- <-]; split; unfold fl_next; simpl; try done; lia. Qed.

Create HintDb fleet.
Section Frame.
Context (R : Flt -> Flt -> Prop) `{!FleetFrame R}.
Lemma frame_col p s d : obeys R (fl_col p s d).
Proof. apply obeys_lift, _. Qed.
Lemma frame_opt_col p s d : obeys R (fl_opt_col p s d).
Proof.
  destruct d as [[d|]|]; [|apply obeys_fail|apply obeys_ret, _].
  apply obeys_bind; [apply _|apply frame_col|]. intros. apply obeys_ret, _.
Qed.
Lemma frame_get {E} : obeys (E := E) R tget.
Proof. intros l x l' [= _ <-]. reflexivity. Qed.
End Frame.
#[export] Hint Resolve ff_fresh ff_audit frame_col frame_opt_col : fleet.
#[export] Hint Extern 1 (FleetFrame _) => apply _ : fleet.

(** The last read and write of an operation, read off its run. *)
Ltac frame_leaf :=
  let l := fresh "l" in let x := fresh "x" in let l' := fresh "l'" in let Hx := fresh "Hx" in
  apply obeys_read; intros l x l' Hx; tx_steps Hx;
  repeat match goal with
    | E : (match ?b with _ => _ end) _ = Ok _ |- _ => destruct b
    | E : tput _ _ = Ok _ |- _ => injection E as ?
    | E : tret _ _ = Ok _ |- _ => injection E as ?
    end; simplify_eq;
  first [reflexivity | split; [reflexivity|unfold fl_next; cbn; lia]].
Ltac frame_steps :=
  repeat first
    [ apply obeys_conv | apply obeys_ret; apply _ | apply obeys_lift; apply _ | apply obeys_guard; apply _
    | apply obeys_fail
    | solve [eauto with fleet typeclass_instances]
    | solve [frame_leaf]
    | apply obeys_bind; [apply _|first [solve [apply frame_get; apply _]|idtac]|intros ?]; cbn beta iota zeta
    | lazymatch goal with
      | |- obeys _ (match ?x with _ => _ end) => destruct x
      end ].

(** The finance operations on the view of their tables. *)
Definition grows (f f' : Fin) : Prop := (fn_next f <= fn_next f')%N /\ fn_now f' = fn_now f.
#[export] Instance grows_preorder : PreOrder grows.
Proof. split; [split; [lia|done]|]. intros a b c [H1 E1] [H2 E2]. split; [lia|congruence]. Qed.
Lemma grows_insert t c k a b ty s u n : obeys grows (insert_ar t c k a b ty s u n).
Proof. intros f e f' H. apply insert_ar_effect in H as (_ & _ & _ & _ & _ & ->). split; simpl; [lia|done]. Qed.
Lemma grows_audit {E} a x i : obeys (E := E) grows (fin_audit a x i).
Proof. intros f y f' [= _ <-]. split; simpl; [lia|done]. Qed.
Lemma grows_fresh {E} : obeys (E := E) grows fin_fresh.
Proof. intros f y f' [= _ <-]. split; simpl; [lia|done]. Qed.
Lemma grows_charge t c d ty s u n o : obeys grows (PostCharge t c d ty s u n o).
Proof.
  apply obeys_read. intros f e f' H. unfold charge_on in H. tx_steps H. by eapply grows_insert.
Qed.
(** What the requests on the receivables do to the ledger and to the limits. *)
Lemma payment_effect pool c i b f e f' :
  handleRecordCustomerPayment pool c i b f = Ok (e, f') ->
  fn_ar f' = fn_ar f ++ [e] /\ fn_customers f' = fn_customers f /\ grows f f' /\ ar_amount e <= 0.
Proof.
  intros H. unfold handleRecordCustomerPayment, fin_internal, PostPayment in H. tx_steps H. subst.
  apply tbind_get_ok in E5. apply positive_amount_ok in E3 as [_ Hd]. injection E6 as <- <-.
  apply insert_ar_effect in E5 as (_ & _ & _ & Ea & _ & ->). split_and!; [done..|split; simpl; [lia|done]|].
  rewrite Ea. unfold dec_opp, round_to, at_scale. simpl. pose proof (pow10_pos (2 - scale x2)).
  destruct (scale x2 <=? 2)%nat; [nia|]. unfold round_div. rewrite Z.sgn_neg by lia. rewrite Z.abs_neq by lia.
  pose proof (pow10_pos (scale x2 - 2)).
  assert (0 <= (2 * - - mant x2 + pow10 (scale x2 - 2)) / (2 * pow10 (scale x2 - 2))) by (apply Z.div_pos; lia). lia.
Qed.

Lemma charge_effect t c d ty s u n o f e f' :
  PostCharge t c d ty s u n o f = Ok (e, f') ->
  exists cu, In cu (fn_customers f) /\ live_customer t c cu = true /\ standing_hold f cu = false
    /\ (o = true \/ ar_sum f t c + auth_held f t c + ar_amount e <= cu_limit cu)
    /\ ar_tenant e = t /\ ar_customer e = c /\ fn_ar f' = fn_ar f ++ [e] /\ fn_customers f' = fn_customers f
    /\ grows f f'.
Proof.
  unfold PostCharge. intros H. apply tbind_get_ok in H. unfold charge_on in H.
  destruct (first_where _ _) as [cu|] eqn:Ef; [|done]. apply first_where_some in Ef as [Hin Hl].
  apply tbind_guard_ok in H as [Hh H]. apply tbind_guard_ok in H as [Ho H].
  apply insert_ar_effect in H as (? & ? & _ & Ea & _ & ->). exists cu.
  split_and!; try done; [by apply negb_true_iff| |split; simpl; [lia|done]].
  apply orb_true_iff in Ho as [?|Ho]; [by left|right]. rewrite Ea.
  assert (Hle : dec_leb d (dec_of 2 (cu_limit cu - ar_sum f t c - auth_held f t c)) = true).
  { revert Ho. unfold dec_leb, dec_add, dec_of, at_scale. cbn [mant scale]. rewrite !Nat.max_id, !Nat.sub_diag, !pow10_0, !Z.mul_1_r.
    rewrite !Z.leb_le. destruct (Nat.le_gt_cases (scale d) 2) as [Hs|Hs].
    - rewrite !(Nat.max_l 2 (scale d)), !(Nat.max_r (scale d) 2), !Nat.sub_diag, !pow10_0 by lia. lia.
    - rewrite !(Nat.max_r 2 (scale d)), !(Nat.max_l (scale d) 2), !Nat.sub_diag, !pow10_0 by lia. lia. }
  apply (dec_leb_round 2 0) in Hle. rewrite pow10_0 in Hle. lia.
Qed.

Lemma create_customer_effect c b f x f' :
  handleCreateCustomer c b f = Ok (x, f') ->
  fn_ar f' = fn_ar f /\ fn_customers f' = fn_customers f ++ [x] /\ cu_id x = fn_next f /\ (fn_next f < fn_next f')%N
  /\ fn_now f' = fn_now f.
Proof.
  intros H. unfold handleCreateCustomer, CreateCustomer in H. tx_steps H. subst. injection E4 as <- <-.
  tx_steps E3. subst. apply cents_ok in E4 as [-> ->]. injection E6 as <- <-. split_and!; simpl; try done. lia.
Qed.

(** The limit of an edited customer. *)
Definition edited_limit (limit : option Z) (c : Customer) : uuid * uuid * Z :=
  (cu_tenant c, cu_id c, default (cu_limit c) limit).
Lemma edit_effect c i b f x f' :
  handleUpdateCustomer c i b f = Ok (x, f') ->
  exists t id limit g, fn_customers f' = update_where (live_customer t id) g (fn_customers f)
    /\ (forall k, cu_key (g k) = edited_limit limit k)
    /\ ((forall q, b = Ok q -> nq_limit q = None) -> limit = None)
    /\ fn_ar f' = fn_ar f /\ grows f f'.
Proof.
  intros H. unfold handleUpdateCustomer, UpdateCustomer in H. tx_steps H. subst. injection E4 as <- <-.
  apply tbind_ok in E3 as (limit & f1 & El & E3). apply tbind_guard_ok in E3 as [_ E3].
  assert (f1 = f /\ (ni_limit x3 = None -> limit = None)) as [-> Hl].
  { destruct (ni_limit x3); [|by injection El as <- <-]. tx_steps El. subst. by apply cents_ok in E4 as [_ ->]. }
  unfold update_customer in E3. tx_steps E3. subst. exists (ac_tenant x0), x1, limit. eexists.
  split_and!; [done..| |done|split; simpl; [lia|done]].
  intros Hq. apply Hl. destruct b as [q|]; [|done]. injection E1 as ->. unfold limit_of in E2. rewrite (Hq x2 eq_refl) in E2.
  by injection E2 as <-.
Qed.
Ltac open_handlers :=
  unfold done_with, handleCreateFuelLimit, CreateLimit, handleSetCustomerStatus, handleCreateCustomerContact, CreateContact,
    handleDeleteCustomerContact, DeleteContact, handleUpsertCreditProfile, UpsertCreditProfile, handleSetCreditHold, SetHold,
    handleCreatePriceAgreement, CreatePriceAgreement, handleTransitionPriceAgreement, TransitionPriceAgreement,
    handleCreateVehicle, CreateVehicle, handleSetVehicleStatus, handleSetDriverStatus, handleSetCredentialStatus,
    fleetStatusTransition, SetVehicleStatus, SetDriverStatus, SetCredentialStatus, handleCreateDriver, CreateDriver,
    handleResetDriverPIN, ResetDriverPIN, handleIssueCredential, IssueCredential, handleValidateCredential,
    ValidateCredential, handleRecordOdometer, RecordOdometer, handleGenerateStatement, GenerateStatement,
    handleIssueStatement, IssueStatement, handleScanCreditAlerts, ScanCreditAlerts, fl_internal,
    handleTransitionCreditAlert, TransitionAlert.

Section Quiet.
Context {L : Type} `{Loader L} (policy : L) (date_at midnight : Z -> Z) (hasher : Argon) (uuid_string : uuid -> string).

(** The requests that move holds, balances or limits, and those that move
    agreements. *)
Definition moves_credit (r : fleet_req) : bool :=
  match r with
  | RqAuthorize _ _ | RqFulfill _ _ _ | RqAuthStatus _ _ _ | RqCharge _ _ _ _ _ _ _ _ | RqPayment _ _ _ _
  | RqCustomer _ _ | RqEdit _ _ _ => true
  | _ => false
  end.

Lemma quiet_raise t c ty sv d : obeys quiet_fleet (RaiseAlert t c ty sv d).
Proof. unfold RaiseAlert. frame_steps. Qed.
Lemma quiet_raise_all t ty sv d cs : obeys quiet_fleet (raise_all t ty sv d cs).
Proof. induction cs as [|c cs IH]; cbn [raise_all]; frame_steps. Qed.
Lemma quiet_status t i w : obeys quiet_fleet (on_fin (SetCustomerStatus t i w)).
Proof.
  intros l x l' Hx. unfold on_fin in Hx. destruct (SetCustomerStatus t i w (fin_view l)) as [[y f]|] eqn:E; [|done].
  injection Hx as <- <-. unfold SetCustomerStatus, update_customer in E. tx_steps E. subst.
  split; [|unfold fl_next; simpl; lia]. unfold core, fl_now. simpl. by rewrite fmap_update_where.
Qed.
Hint Resolve quiet_raise_all quiet_status : fleet.

Lemma quiet_serve r :
  moves_credit r = false -> obeys quiet_fleet (fleet_serve policy date_at midnight hasher uuid_string r).
Proof. destruct r; try done; intros _; cbn [fleet_serve]; open_handlers; frame_steps. Qed.
End Quiet.

(** ** What the authorization operations do *)

Section Authorize.
Context {L : Type} `{Loader L} (policy : L) (date_at midnight : Z -> Z).

(** The row a granted request inserts. *)
Definition granted (t : uuid) (i : AuthRequest) (u : uuid) (l : Flt) (a : Authorization) : Prop :=
  az_id a = fl_next l /\ az_tenant a = t /\ az_customer a = ai_customer i /\ az_vehicle a = ai_vehicle i
  /\ az_driver a = ai_driver i /\ az_credential a = ai_credential i /\ az_station a = ai_station i
  /\ az_product a = ai_product i /\ az_requested a = round_to 2 (requested i) /\ az_approved a = round_to 2 (requested i)
  /\ az_status a = AuApproved /\ az_consumed a = None /\ az_expiry a = Some (fl_now l + Calendar.hour)
  /\ az_created a = fl_now l /\ az_by a = u.

Lemma insert_auth_effect t i u l a l' :
  insert_auth t i u l = Ok (a, l') ->
  granted t i u l a /\ fl_customer l t (ai_customer i) = true /\ fk_credential l t (ai_credential i) = true
  /\ l' = fput_auths (fl_auths l ++ [a]) (fput_fin (bump_fin (fl_fin l)) l).
Proof.
  intros H0. unfold insert_auth in H0. tx_steps H0. subst. apply fl_col_ok in E as [-> ->].
  assert (x2 = l) as ->.
  { destruct (ai_odometer i) as [[d|]|]; [|done|by injection E0]. unfold fl_opt_col in E0. tx_steps E0. subst.
    by apply fl_col_ok in E as [_ ->]. }
  injection E1 as <- <-. repeat (apply andb_true_iff in E2 as [E2 ?]). split; [|done].
  repeat split; done.
Qed.

Lemma RequestAuthorization_effect t i u ov l r l' :
  RequestAuthorization date_at midnight t i u ov l = Ok (r, l') ->
  let l1 := release_expired t (ai_customer i) l in
  match r with
  | inl a => (exists p, CreditPosition date_at l1 t (ai_customer i) = Some p
                /\ (ov = false -> refusal date_at midnight l1 t i p = None))
             /\ granted t i u l1 a /\ fl_customer l1 t (ai_customer i) = true
             /\ fk_credential l1 t (ai_credential i) = true
             /\ l' = fput_auths (fl_auths l1 ++ [a]) (fput_fin (bump_fin (fl_fin l1)) l1)
  | inr _ => l' = l1 \/ exists d, l' = fput_denials (fl_denials l1 ++ [d]) (fput_fin (bump_fin (fl_fin l1)) l1)
  end.
Proof.
  intros H0. unfold RequestAuthorization in H0. apply tbind_get_ok, tbind_put_ok in H0. intros l1.
  destruct (CreditPosition date_at _ t (ai_customer i)) as [p|] eqn:Ep;
    [|injection H0 as <- <-; by left].
  destruct (if ov then None else _) as [d|] eqn:Ed.
  - tx_steps H0. subst. unfold logDenial in E. destruct (numeric_col 14 2 (requested i)).
    + unfold tbind, fl_fresh, tget, tput, tret in E. injection E as <- <-. right. by eexists.
    + injection E as <- <-. by left.
  - tx_steps H0. subst. apply insert_auth_effect in E as (? & ? & ? & ->). split_and!; try done.
    exists p. split; [done|]. by intros ->.
Qed.

Lemma handleRequest_effect c b l x l' :
  handleRequestAuthorization policy date_at midnight c b l = Ok (x, l') ->
  exists a q, c = Some a /\ b = Ok q /\ 0 < mant (requested (uq_request q))
    /\ (uq_override q = true -> actorHolds policy a "fuel_authorization.override" = true)
    /\ ((l' = l /\ exists d, x = inr d) \/ exists r l1 s,
          RequestAuthorization date_at midnight (ac_tenant a) (uq_request q) (ac_user a) (uq_override q) l = Ok (r, l1)
          /\ x = match r with inl z => inl z | inr d => inr d.1 end
          /\ l' = fput_fin (set_audit s (fl_fin l1)) l1).
Proof.
  intros H0. unfold handleRequestAuthorization in H0.
  apply tbind_lift_ok in H0 as (a & Ea & H0). apply tbind_lift_ok in H0 as (q & Eb & H0).
  apply tbind_lift_ok in H0 as (d & Ed%of_option_ok & H0). apply tbind_guard_ok in H0 as [Eo H0].
  apply positive_amount_ok in Ed as [Ed Hd]. exists a, q. split_and!.
  - unfold ops_actor, identity_Require in Ea. destruct c as [k|]; [|done]. simpl in Ea.
    destruct (IsAuthenticated k); [|done]. by injection Ea as ->.
  - unfold body_with in Eb. destruct b; [|done]. destruct (_ && _); [|done]. by injection Eb as ->.
  - unfold requested. by rewrite Ed.
  - intros Ho. by rewrite Ho in Eo.
  - destruct (RequestAuthorization _ _ _ _ _ _ _) as [[[z|[e k]] l1]|]; [| |done].
    + injection H0 as <- <-. right. eexists (inl z), l1, _. split_and!; [done..|]. reflexivity.
    + injection H0 as <- <-. destruct k; [|by left; eauto]. right. exists (inr (e, true)), l1, (fn_audit (fl_fin l1)).
      split_and!; [done..|]. destruct l1 as [[]]; done.
Qed.
End Authorize.

Lemma handleFulfill_effect c i b l x l' :
  handleFulfillAuthorization c i b l = Ok (x, l') ->
  exists t id sale s, fk_pair (fl_sales l) t sale = true /\ exists_where (consumed_in t sale) (fl_auths l) = false
    /\ l' = fput_fin (set_audit s (fl_fin l))
              (fput_auths (update_where (fulfillable t id) (with_auth AuFulfilled (Some sale)) (fl_auths l)) l).
Proof.
  intros H. unfold handleFulfillAuthorization, FulfillAuthorization in H. tx_steps H. subst. injection E3 as <- <-.
  tx_steps E2. subst. eexists (ac_tenant _), _, _, _. split_and!; [done|by apply negb_true_iff|done].
Qed.

Lemma handleStatus_effect to c i l x l' :
  handleAuthorizationStatus to c i l = Ok (x, l') ->
  exists t id s, l' = fput_fin (set_audit s (fl_fin l))
      (fput_auths (update_where (cancellable t id) (auth_status_to AuCancelled) (fl_auths l)) l)
    \/ l' = fput_fin (set_audit s (fl_fin l))
      (fput_auths (update_where (voidable t id) (with_auth AuVoided None) (fl_auths l)) l).
Proof.
  intros H. unfold handleAuthorizationStatus, SetAuthorizationStatus in H. tx_steps H. subst. injection E2 as <- <-.
  apply tbind_get_ok in E1. exists (ac_tenant x0), x1. destruct (bool_decide (to = _)); tx_steps E1; subst; eexists;
    [by left|by right].
Qed.

(** ** Runs *)

(** A request without an override: the credit limit is neither passed over nor
    edited. *)
Definition plain (r : fleet_req) : Prop :=
  match r with
  | RqAuthorize _ b => forall q, b = Ok q -> uq_override q = false
  | RqCharge _ _ _ _ _ _ _ over => over = false
  | RqEdit _ _ b => forall q, b = Ok q -> nq_limit q = None
  | _ => True
  end.

Definition at_time (t : Z) (l : Flt) : Flt :=
  let f := fl_fin l in
  fput_fin (mkFin (fn_books f) (fn_customers f) (fn_ar f) (fn_profiles f) (fn_auths f) (fn_invoices f) (fn_ilines f)
    (fn_payments f) (fn_allocs f) (fn_payables f) (fn_sinvoices f) (fn_spayments f) (fn_sallocs f) (fn_audit f)
    (fn_next f) t) l.
Definition sold (s : uuid * uuid) (l : Flt) : Flt :=
  mkFlt (fl_fin l) (fl_sales l ++ [s]) (fl_products l) (fl_contacts l) (fl_profiles l) (fl_agreements l) (fl_vehicles l)
    (fl_drivers l) (fl_credentials l) (fl_limits l) (fl_auths l) (fl_denials l) (fl_odometer l) (fl_statements l)
    (fl_alerts l).

Section Runs.
Context {L : Type} `{Loader L} (policy : L) (date_at midnight : Z -> Z) (hasher : Argon) (uuid_string : uuid -> string).
Let serve := fleet_serve policy date_at midnight hasher uuid_string.

(** A request that commits, the clock, or a sale recorded elsewhere; requests are
    served one after another. *)
Inductive fleet_step (strict : bool) (l l' : Flt) : Prop :=
| fstep_serve r : (strict = true -> plain r) -> serve r l = Ok (tt, l') -> fleet_step strict l l'
| fstep_clock t : fl_now l <= t -> l' = at_time t l -> fleet_step strict l l'
| fstep_sale s : l' = sold s l -> fleet_step strict l l'.

(** What a step does to the authorizations, the balances and the limits. *)
Inductive fleet_move (strict : bool) (l l' : Flt) : Prop :=
| fm_quiet : quiet_fleet l l' -> fleet_move strict l l'
| fm_request t i u ov r l1 s : 0 < mant (requested i) -> (strict = true -> ov = false) ->
    RequestAuthorization date_at midnight t i u ov l = Ok (r, l1) -> l' = fput_fin (set_audit s (fl_fin l1)) l1 ->
    fleet_move strict l l'
| fm_fulfill t id sale s : fk_pair (fl_sales l) t sale = true -> exists_where (consumed_in t sale) (fl_auths l) = false ->
    l' = fput_fin (set_audit s (fl_fin l))
           (fput_auths (update_where (fulfillable t id) (with_auth AuFulfilled (Some sale)) (fl_auths l)) l) ->
    fleet_move strict l l'
| fm_cancel t id s :
    l' = fput_fin (set_audit s (fl_fin l))
           (fput_auths (update_where (cancellable t id) (auth_status_to AuCancelled) (fl_auths l)) l) ->
    fleet_move strict l l'
| fm_void t id s :
    l' = fput_fin (set_audit s (fl_fin l))
           (fput_auths (update_where (voidable t id) (with_auth AuVoided None) (fl_auths l)) l) ->
    fleet_move strict l l'
| fm_fin f' e : grows (fin_view l) f' -> l' = fput_fin f' l -> fn_customers f' = fn_customers (fl_fin l) ->
    fn_ar f' = fn_ar (fl_fin l) ++ [e] ->
    (ar_amount e <= 0
     \/ exists cu, In cu (fn_customers (fl_fin l)) /\ cu_tenant cu = ar_tenant e /\ cu_id cu = ar_customer e
        /\ (strict = true -> ar_sum (fin_view l) (ar_tenant e) (ar_customer e)
              + auth_held (fin_view l) (ar_tenant e) (ar_customer e) + ar_amount e <= cu_limit cu)) ->
    fleet_move strict l l'
| fm_customer f' c : l' = fput_fin f' l -> fn_customers f' = fn_customers (fl_fin l) ++ [c] -> cu_id c = fl_next l ->
    (fl_next l < fn_next f')%N -> fn_ar f' = fn_ar (fl_fin l) -> fn_now f' = fl_now l -> fleet_move strict l l'
| fm_edit f' t id limit g : l' = fput_fin f' l -> grows (fin_view l) f' -> fn_ar f' = fn_ar (fl_fin l) ->
    fn_customers f' = update_where (live_customer t id) g (fn_customers (fl_fin l)) ->
    (forall k, cu_key (g k) = edited_limit limit k) -> (strict = true -> limit = None) -> fleet_move strict l l'
| fm_clock t : fl_now l <= t -> l' = at_time t l -> fleet_move strict l l'
| fm_sale s : l' = sold s l -> fleet_move strict l l'.

Lemma on_view_ok {E A} (c : Tx Fin E A) l x l' :
  on_fin c l = Ok (x, l') -> exists f, c (fin_view l) = Ok (x, f) /\ l' = fput_fin f l.
Proof. unfold on_fin. destruct (c (fin_view l)) as [[a f]|]; [|done]. intros [= <- <-]. eauto. Qed.
Lemma done_with_ok {E A} (c : Tx Flt E A) l u l' : done_with c l = Ok (u, l') -> exists x, c l = Ok (x, l').
Proof. intros (x & l1 & Hc & [= _ <-])%tbind_ok. eauto. Qed.

Lemma step_move strict l l' : fleet_step strict l l' -> fleet_move strict l l'.
Proof.
  intros [r Hp Hr|t Ht ->|s ->]; [|by eapply fm_clock|by eapply fm_sale].
  destruct (moves_credit r) eqn:Em; [|apply fm_quiet; by eapply (quiet_serve policy date_at midnight hasher uuid_string r)].
  destruct r; try discriminate Em; subst serve; cbn [fleet_serve plain] in *; apply done_with_ok in Hr as (x & Hr).
  - apply handleRequest_effect in Hr as (a & q & _ & -> & Hm & _ & [[-> _]|(z & l1 & s & Hz & _ & ->)]); [by apply fm_quiet|].
    eapply fm_request; [done| |done|done]. intros Hs. by apply Hp.
  - apply handleFulfill_effect in Hr as (t & id & sale & s & ? & ? & ->). by eapply fm_fulfill.
  - apply handleStatus_effect in Hr as (t & id & s & [->| ->]); [by eapply fm_cancel|by eapply fm_void].
  - unfold unconverted, tconv in Hr. destruct (on_fin _ l) as [[y l1]|] eqn:E; [|done]. injection Hr as -> ->.
    apply on_view_ok in E as (f & E & ->).
    apply charge_effect in E as (cu & Hin & Hl & _ & Ho & <- & <- & Ea & Ec & Hg).
    eapply fm_fin; [done..|]. right. exists cu. unfold live_customer in Hl. bool_solve. destruct H0. split_and!; try done.
    intros Hs. destruct Ho as [Ho|Ho]; [|done]. by rewrite (Hp Hs) in Ho.
  - apply on_view_ok in Hr as (f & E & ->). apply payment_effect in E as (Ea & Ec & Hg & Hn). eapply fm_fin; [done..|]. by left.
  - apply on_view_ok in Hr as (f & E & ->). apply create_customer_effect in E as (Ea & Ec & Hi & Hn & Hw). by eapply fm_customer.
  - apply on_view_ok in Hr as (f & E & ->). apply edit_effect in E as (t & id & lim & g & Ec & Hk & Hl & Ea & Hg).
    eapply fm_edit; [done..|]. auto.
Qed.

(** ** Authorizations and the sales they consume *)

Definition auth_row (sales : list (uuid * uuid)) (a : Authorization) : Prop :=
  0 <= az_approved a /\ (az_status a = AuFulfilled <-> az_consumed a <> None)
  /\ forall s, az_consumed a = Some s -> In (az_tenant a, s) sales.
Record Auth_inv (l : Flt) : Prop := {
  av_table : table az_id (auth_row (fl_sales l)) (fl_next l) (fl_auths l);
  av_once : forall a b s, In a (fl_auths l) -> In b (fl_auths l) -> az_tenant a = az_tenant b ->
    az_consumed a = Some s -> az_consumed b = Some s -> a = b;
}.

(** A change of status that consumes nothing new. *)
Lemma inv_release l l' q g :
  fl_auths l' = update_where q g (fl_auths l) -> fl_sales l' = fl_sales l -> (fl_next l <= fl_next l')%N ->
  (forall a, q a = true -> az_id (g a) = az_id a /\ az_tenant (g a) = az_tenant a
     /\ (az_consumed (g a) = None \/ az_consumed (g a) = az_consumed a)
     /\ (auth_row (fl_sales l) a -> auth_row (fl_sales l) (g a))) ->
  Auth_inv l -> Auth_inv l'.
Proof.
  intros Ea Es Hn Hg [Ht Ho]. constructor; rewrite Ea, ?Es.
  - eapply table_mono; [exact Hn|]. apply table_update; [|done]. intros a Hq _. destruct (Hg a Hq) as (? & _ & _ & ?). auto.
  - intros a b s (a0 & Ha & ->)%in_update_where (b0 & Hb & ->)%in_update_where Et Ha1 Hb1.
    assert (Hten : forall k, az_tenant (if q k then g k else k) = az_tenant k).
    { intros k. destruct (q k) eqn:E; [|done]. by destruct (Hg k E) as (_ & -> & _). }
    assert (a0 = b0) as ->; [|done]. apply (Ho a0 b0 s); try done.
    + by rewrite !Hten in Et.
    + destruct (q a0) eqn:E1; [|done]. destruct (Hg a0 E1) as (_ & _ & [E|E] & _); congruence.
    + destruct (q b0) eqn:E1; [|done]. destruct (Hg b0 E1) as (_ & _ & [E|E] & _); congruence.
Qed.

Lemma inv_frame l l' :
  fl_auths l' = fl_auths l -> (exists m, fl_sales l' = fl_sales l ++ m) -> (fl_next l <= fl_next l')%N ->
  Auth_inv l -> Auth_inv l'.
Proof.
  intros Ea (m & Es) Hn [Ht Ho]. constructor; rewrite Ea; [|done]. eapply table_mono; [exact Hn|].
  eapply table_weaken; [|exact Ht]. intros a _ (H1 & H2 & H3). split_and!; try done. intros s Hs. rewrite Es.
  apply in_or_app. left. auto.
Qed.

Lemma released_inv t c l : Auth_inv l -> Auth_inv (release_expired t c l).
Proof.
  apply (inv_release _ _ (lapsed t c (fl_now l)) (auth_status_to AuExpired)); [done..|unfold fl_next; simpl; lia|].
  intros a Hq. unfold lapsed in Hq. bool_solve. split_and!; try done; [by right|]. intros (H1' & H2' & H3').
  split_and!; try done. simpl. split; [done|]. intros Hc. apply H2' in Hc. congruence.
Qed.

Lemma round_cents_nonneg d : 0 < mant d -> 0 <= round_to 2 d.
Proof.
  intros Hm. unfold round_to, at_scale, round_div. pose proof (pow10_pos (2 - scale d)). pose proof (pow10_pos (scale d - 2)).
  destruct (scale d <=? 2)%nat; [nia|]. rewrite Z.sgn_pos by done. rewrite Z.abs_eq by lia. rewrite Z.mul_1_l.
  apply Z.div_pos; lia.
Qed.
Lemma granted_inv t i u l a :
  0 < mant (requested i) -> granted t i u l a -> Auth_inv l ->
  Auth_inv (fput_auths (fl_auths l ++ [a]) (fput_fin (bump_fin (fl_fin l)) l)).
Proof.
  intros Hm (Hid & _ & _ & _ & _ & _ & _ & _ & _ & Hap & Hst & Hco & _) [Ht Ho]. constructor; simpl.
  - eapply table_snoc; [exact Hid| |unfold fl_next; simpl; lia|done]. split_and!.
    + rewrite Hap. by apply round_cents_nonneg.
    + rewrite Hst, Hco. done.
    + rewrite Hco. done.
  - intros x y s [Hx|[<-|[]]]%in_app_or [Hy|[<-|[]]]%in_app_or Et Hx1 Hy1; [eauto|congruence..].
Qed.

Lemma fulfilled_inv t id sale l l' :
  fk_pair (fl_sales l) t sale = true -> exists_where (consumed_in t sale) (fl_auths l) = false ->
  fl_auths l' = update_where (fulfillable t id) (with_auth AuFulfilled (Some sale)) (fl_auths l) ->
  fl_sales l' = fl_sales l -> fl_next l' = fl_next l -> Auth_inv l -> Auth_inv l'.
Proof.
  intros Hs Hn Ea Es En [Ht Ho]. unfold fk_pair in Hs. apply exists_where_true in Hs as (p & Hp & Hpe%bool_decide_eq_true).
  subst p. assert (Hone : forall a b, In a (fl_auths l) -> In b (fl_auths l) -> fulfillable t id a = true ->
    fulfillable t id b = true -> a = b).
  { intros a b Ha Hb Hqa Hqb. unfold fulfillable, az_by_id in *. bool_solve. destruct_and!. by eapply table_same; [exact Ht|..|congruence]. }
  assert (Hfree : forall b, In b (fl_auths l) -> az_tenant b = t -> az_consumed b <> Some sale).
  { intros b Hb Htb Hc. rewrite exists_where_false in Hn. specialize (Hn b Hb). unfold consumed_in in Hn. bool_solve. by apply Hn. }
  constructor; rewrite Ea, ?Es, ?En.
  - apply table_update; [|done]. intros a Hq _. split; [done|]. intros (Hr1 & Hr2 & Hr3). unfold fulfillable, az_by_id in Hq.
    bool_solve. destruct_and!. split_and!; [done|by split|]. intros s' [= <-]. simpl. by subst t.
  - intros a b s (a0 & Ha & ->)%in_update_where (b0 & Hb & ->)%in_update_where.
    destruct (fulfillable t id a0) eqn:E1, (fulfillable t id b0) eqn:E2; intros Et Ha1 Hb1; [f_equal; auto| | |by eapply Ho].
    + simpl in *. injection Ha1 as <-. unfold fulfillable, az_by_id in E1. bool_solve. destruct_and!. exfalso.
      apply (Hfree b0 Hb); congruence.
    + simpl in *. injection Hb1 as <-. unfold fulfillable, az_by_id in E2. bool_solve. destruct_and!. exfalso.
      apply (Hfree a0 Ha); congruence.
Qed.

Lemma move_auth strict l l' : fleet_move strict l l' -> Auth_inv l -> Auth_inv l'.
Proof.
  intros [[Hc Hn]|t i u ov r l1 s Hm _ Hr ->|t id sale s Hs Hf ->|t id s ->|t id s ->|f' e [Hn _] -> _ _ _
         |f' c -> _ _ Hn _ _|f' t id lim g -> [Hn _] _ _ _ _|t _ ->|s ->] Hi.
  - injection Hc as Ha Hs _ _ _. eapply inv_frame; [done|by exists []; rewrite app_nil_r|done|done].
  - apply RequestAuthorization_effect in Hr. apply (released_inv t (ai_customer i)) in Hi.
    apply (inv_frame l1); [done|by exists []; rewrite app_nil_r|done|]. destruct r as [a|d].
    + destruct Hr as (_ & Hg & _ & _ & ->). by eapply granted_inv.
    + destruct Hr as [->|(x & ->)]; [done|]. eapply inv_frame; [..|exact Hi]; [done|by exists []; rewrite app_nil_r|].
      unfold fl_next; simpl; lia.
  - by eapply fulfilled_inv.
  - eapply (inv_release l _ (cancellable t id)); [done..| |exact Hi]. intros a Hq. unfold cancellable in Hq. bool_solve.
    split_and!; try done; [by right|]. intros (H1' & H2' & H3'). split_and!; try done. simpl. split; [done|]. intros Hx.
    apply H2' in Hx. rewrite Hx in *. by apply orb_true_iff in H1 as [E|E]; apply bool_decide_eq_true in E.
  - eapply (inv_release l _ (voidable t id)); [done..| |exact Hi]. intros a Hq. split_and!; try done; [by left|].
    intros (H1' & H2' & H3'). split_and!; try done.
  - apply (inv_frame l); [done|by exists []; rewrite app_nil_r|exact Hn|done].
  - apply (inv_frame l); [done|by exists []; rewrite app_nil_r|unfold fl_next in *; simpl; lia|done].
  - apply (inv_frame l); [done|by exists []; rewrite app_nil_r|exact Hn|done].
  - apply (inv_frame l); [done|by exists []; rewrite app_nil_r|done|done].
  - apply (inv_frame l); [done|by exists [s]|done|done].
Qed.

(** The life of an authorization: everything but its status and the sale is fixed,
    and a hold that was left is not taken up again. *)
Definition may_become (s s' : auth_status) : bool :=
  bool_decide (s = s')
  || match s with
     | AuRequested => bool_decide (s' = AuCancelled)
     | AuApproved => negb (bool_decide (s' = AuRequested))
     | AuFulfilled => bool_decide (s' = AuVoided)
     | _ => false
     end.
Definition evolved (l l' : Flt) : Prop :=
  forall a, In a (fl_auths l) -> exists a', In a' (fl_auths l')
    /\ with_auth AuApproved None a' = with_auth AuApproved None a /\ may_become (az_status a) (az_status a') = true.
#[local] Instance evolved_preorder : PreOrder evolved.
Proof.
  split; [intros l a Ha; exists a; split_and!; try done; by destruct (az_status a)|].
  intros x y z H1 H2 a Ha. destruct (H1 a Ha) as (b & Hb & E1 & M1). destruct (H2 b Hb) as (c & Hc & E2 & M2).
  exists c. split_and!; [done|congruence|]. clear -M1 M2. destruct (az_status a), (az_status b), (az_status c); done.
Qed.
Lemma evolved_app l l' m : fl_auths l' = fl_auths l ++ m -> evolved l l'.
Proof.
  intros E a Ha. exists a. rewrite E. split_and!; [by apply in_or_app; left|done|by destruct (az_status a)].
Qed.
Lemma evolved_update l l' q g :
  fl_auths l' = update_where q g (fl_auths l) ->
  (forall a, q a = true -> with_auth AuApproved None (g a) = with_auth AuApproved None a
     /\ may_become (az_status a) (az_status (g a)) = true) -> evolved l l'.
Proof.
  intros E Hg a Ha. exists (if q a then g a else a). rewrite E. split; [apply in_update_where; eauto|].
  destruct (q a) eqn:Hq; [by apply Hg|]. split; [done|by destruct (az_status a)].
Qed.
Lemma move_evolved strict l l' : fleet_move strict l l' -> evolved l l'.
Proof.
  intros [[Hc Hn]|t i u ov r l1 s Hm _ Hr ->|t id sale s Hs Hf ->|t id s ->|t id s ->|f' e _ -> _ _ _
         |f' c -> _ _ _ _ _|f' t id lim g -> _ _ _ _ _|t _ ->|s ->];
    try (apply (evolved_app _ _ []); by rewrite app_nil_r).
  - injection Hc as Ha _ _ _ _. apply (evolved_app _ _ []). by rewrite app_nil_r.
  - apply RequestAuthorization_effect in Hr. trans (release_expired t (ai_customer i) l).
    + eapply evolved_update; [done|]. intros a Hq. unfold lapsed in Hq. bool_solve. split; [done|]. by rewrite H2.
    + destruct r as [a|d]; [destruct Hr as (_ & _ & _ & _ & ->); by eapply evolved_app|].
      destruct Hr as [->|(x & ->)]; apply (evolved_app _ _ []); by rewrite app_nil_r.
  - eapply evolved_update; [done|]. intros a Hq. unfold fulfillable in Hq. bool_solve. split; [done|]. by rewrite H2.
  - eapply evolved_update; [done|]. intros a Hq. unfold cancellable in Hq. bool_solve. split; [done|].
    apply orb_true_iff in H1 as [E|E]; apply bool_decide_eq_true in E; by rewrite E.
  - eapply evolved_update; [done|]. intros a Hq. unfold voidable in Hq. bool_solve. split; [done|].
    apply orb_true_iff in H1 as [E|E]; apply bool_decide_eq_true in E; by rewrite E.
Qed.

Lemma reach_auth strict l l' : rtc (fleet_step strict) l l' -> Auth_inv l -> Auth_inv l' /\ evolved l l'.
Proof.
  induction 1 as [l|l l1 l2 Hs _ IH]; intros Hi; [by split|]. apply step_move in Hs.
  destruct (IH (move_auth _ _ _ Hs Hi)) as [H1 H2]. split; [done|]. etrans; [by eapply move_evolved|done].
Qed.

(** C19. Fuel authorizations and sales.  Starting without authorizations, over every
    sequence of requests to the fleet and the receivables, sales recorded elsewhere
    and passing time: an authorization is fulfilled exactly when it names a sale, the
    sale is one of its own tenant, and no sale is consumed by two authorizations.
    And whatever follows, an authorization keeps its customer, station, amounts and
    expiry, and moves only forward: a hold ends as fulfilled, expired, cancelled or
    voided, a fulfilled one can only be voided, and nothing becomes a hold again. *)
Theorem sales_consumed_once l0 l l' :
  fl_auths l0 = [] -> rtc (fleet_step false) l0 l -> rtc (fleet_step false) l l' ->
  (forall a, In a (fl_auths l) ->
     (az_status a = AuFulfilled <-> exists s, az_consumed a = Some s)
     /\ (forall s, az_consumed a = Some s -> In (az_tenant a, s) (fl_sales l)))
  /\ (forall a b s, In a (fl_auths l) -> In b (fl_auths l) -> az_tenant a = az_tenant b ->
        az_consumed a = Some s -> az_consumed b = Some s -> a = b)
  /\ forall a, In a (fl_auths l) -> exists a', In a' (fl_auths l')
       /\ with_auth AuApproved None a' = with_auth AuApproved None a
       /\ may_become (az_status a) (az_status a') = true.
Proof.
  intros E0 Hr Hr'. assert (Hi : Auth_inv l0) by (constructor; rewrite E0; [apply table_nil|done]).
  destruct (reach_auth _ _ _ Hr Hi) as [[Ht Ho] _]. split_and!; [|done|].
  - intros a Ha. destruct Ht as [_ Ht]. destruct (Ht a Ha) as (_ & _ & Hf & Hs). split; [|done]. rewrite Hf.
    destruct (az_consumed a); [|split; [done|by intros []]]. split; [eauto|done].
  - by apply (reach_auth false l l' Hr').
Qed.

(** ** Credit lines *)

Lemma sum_by_le {R} (f g : R -> Z) t : (forall r, In r t -> f r <= g r) -> sum_by f t <= sum_by g t.
Proof.
  induction t as [|r t IH]; intros Hle; [done|]. rewrite !sum_by_cons. specialize (Hle r (or_introl eq_refl)) as H1.
  assert (sum_by f t <= sum_by g t) by (apply IH; intros; apply Hle; by right). lia.
Qed.
(** The holds of a customer that the position counts, and all of them. *)
Definition holds (t c : uuid) (a : Authorization) : bool :=
  bool_decide (az_tenant a = t /\ az_customer a = c) && bool_decide (az_status a = AuApproved).
Definition live (t c : uuid) (now : Z) (a : Authorization) : bool :=
  holds t c a && match az_expiry a with None => true | Some e => now <? e end.
Definition live_sum (l : Flt) (t c : uuid) : Z := sum_by az_approved (select (live t c (fl_now l)) (fl_auths l)).
Definition credit_used (l : Flt) (t c : uuid) : Z :=
  sum_by ar_amount (select (ar_of t c) (fn_ar (fl_fin l))) + live_sum l t c.

Lemma live_held_sum l t c : live_held (fin_view l) t c = live_sum l t c.
Proof.
  unfold live_held, live_sum, live, holds, fl_now. simpl. rewrite !sum_by_select, sum_by_fmap. apply sum_by_ext.
  intros a _. simpl. done.
Qed.
Lemma exposure_used l t c : exposure (fin_view l) t c = credit_used l t c.
Proof. unfold exposure, credit_used. by rewrite live_held_sum. Qed.
Lemma live_le_held l t c : Auth_inv l -> live_sum l t c <= auth_held (fin_view l) t c.
Proof.
  intros [[_ Ht] _]. unfold live_sum, auth_held. simpl. rewrite !sum_by_select, sum_by_fmap. apply sum_by_le.
  intros a Ha. destruct (Ht a Ha) as (_ & Hp & _). unfold live, holds. simpl.
  destruct (bool_decide _ && bool_decide _); simpl; [|done]. destruct (az_expiry a); [destruct (_ <? _)|]; lia.
Qed.

(** The clock runs and holds are left: what is used does not grow. *)
Lemma live_fewer l l' t c g :
  Auth_inv l -> fl_now l <= fl_now l' -> fl_auths l' = g <$> fl_auths l ->
  (forall a, In a (fl_auths l) -> live t c (fl_now l') (g a) = true -> g a = a) ->
  live_sum l' t c <= live_sum l t c.
Proof.
  intros [[_ Ht] _] Hn Ea Hg. unfold live_sum. rewrite Ea, !sum_by_select, sum_by_fmap. apply sum_by_le. intros a Ha.
  destruct (Ht a Ha) as (_ & Hp & _). destruct (live t c (fl_now l') (g a)) eqn:E; [|destruct (live _ _ _ a); lia].
  pose proof (Hg a Ha E) as Eg. rewrite Eg in E |- *. assert (live t c (fl_now l) a = true) as ->; [|lia].
  revert E. unfold live. destruct (holds t c a); simpl; [|done]. destruct (az_expiry a); [|done]. rewrite !Z.ltb_lt. lia.
Qed.
Lemma live_left l l' t c q g :
  Auth_inv l -> fl_now l' = fl_now l -> fl_auths l' = update_where q g (fl_auths l) ->
  (forall a, q a = true -> az_status (g a) <> AuApproved) -> live_sum l' t c <= live_sum l t c.
Proof.
  intros Hi Hn Ea Hg. apply (live_fewer l l' t c (fun a => if q a then g a else a)); [done|lia|done|].
  intros a _ Hl. destruct (q a) eqn:E; [|done]. specialize (Hg a E). unfold live, holds in Hl. bool_solve. done.
Qed.

Definition cust_ok (l : Flt) : Prop :=
  NoDup (cu_id <$> fn_customers (fl_fin l)) /\ forall c, In c (fn_customers (fl_fin l)) -> (cu_id c < fl_next l)%N.
Lemma cust_keys l : cu_id <$> fn_customers (fl_fin l) = (fun k => k.1.2) <$> (cu_key <$> fn_customers (fl_fin l)).
Proof. by rewrite <- list_fmap_compose. Qed.
Lemma cust_ok_keys l :
  cust_ok l <-> NoDup ((fun k => k.1.2) <$> (cu_key <$> fn_customers (fl_fin l)))
    /\ forall k, In k (cu_key <$> fn_customers (fl_fin l)) -> (k.1.2 < fl_next l)%N.
Proof.
  unfold cust_ok. rewrite <- cust_keys. split; intros [Hd Hl]; (split; [done|]).
  - intros k (c & -> & Hc%list_elem_of_In)%list_elem_of_In%list_elem_of_fmap. by apply Hl.
  - intros c Hc. apply (Hl (cu_key c)). by apply list_elem_of_In, list_elem_of_fmap_2, list_elem_of_In.
Qed.
(** The limit of a customer is the one of its id. *)
Lemma cust_limit l cu t c lim :
  cust_ok l -> In (t, c, lim) (cu_key <$> fn_customers (fl_fin l)) -> In cu (fn_customers (fl_fin l)) -> cu_id cu = c ->
  cu_key cu = (t, c, lim).
Proof.
  intros [Hd _] (k & Ek & Hk)%list_elem_of_In%list_elem_of_fmap Hin Hc. rewrite Ek. f_equal.
  apply list_elem_of_In, list_elem_of_lookup in Hin as [i Hi]. apply list_elem_of_lookup in Hk as [j Hj].
  assert (i = j) as ->; [|congruence]. injection Ek as _ Ek _.
  eapply NoDup_lookup; [exact Hd|rewrite list_lookup_fmap, Hi; done|rewrite list_lookup_fmap, Hj; simpl; congruence].
Qed.

Record Line (l : Flt) (t c : uuid) (lim : Z) : Prop := {
  ln_auth : Auth_inv l;
  ln_cust : cust_ok l;
  ln_key : In (t, c, lim) (cu_key <$> fn_customers (fl_fin l));
  ln_used : credit_used l t c <= lim;
}.
(** Customers and balance as they were, holds not grown. *)
Lemma line_frame l l' t c lim :
  Auth_inv l' -> cu_key <$> fn_customers (fl_fin l') = cu_key <$> fn_customers (fl_fin l) ->
  fn_ar (fl_fin l') = fn_ar (fl_fin l) -> (fl_next l <= fl_next l')%N -> live_sum l' t c <= live_sum l t c ->
  Line l t c lim -> Line l' t c lim.
Proof.
  intros Hi Ek Ea Hn Hl [_ Hc Hk Hu]. constructor; [done| |by rewrite Ek|].
  - apply cust_ok_keys in Hc as [Hd Hlt]. apply cust_ok_keys. rewrite Ek. split; [done|]. intros k Hk'. specialize (Hlt k Hk'). lia.
  - unfold credit_used in *. rewrite Ea. lia.
Qed.

(** What a request that no rule refused has passed. *)
Lemma refusal_none l t i p :
  refusal date_at midnight l t i p = None ->
  ps_status p <> CuSuspended /\ ps_status p <> CuClosed /\ ps_hold p = false /\ credential_refusal l t i = None
  /\ round_to 2 (requested i) <= ps_available p /\ violatedPeriod date_at midnight l t i = None.
Proof.
  unfold refusal. destruct (bool_decide (ps_status p = CuSuspended)) eqn:E1; [done|].
  destruct (bool_decide (ps_status p = CuClosed)) eqn:E2; [done|]. simpl. destruct (ps_hold p); [done|].
  destruct (credential_refusal l t i); [done|]. simpl. destruct (dec_leb _ _) eqn:E3; [|done]. simpl.
  destruct (violatedPeriod _ _ _ _ _) eqn:E4; [done|]. intros _. bool_solve. split_and!; try done.
  apply (dec_leb_round 2 0) in E3. rewrite pow10_0 in E3. lia.
Qed.

Lemma position_customer l t c p :
  CreditPosition date_at l t c = Some p ->
  exists cu, In cu (fn_customers (fl_fin l)) /\ cu_tenant cu = t /\ cu_id cu = c /\ ps_limit p = cu_limit cu
    /\ ps_status p = cu_status cu /\ ps_hold p = standing_hold (fin_view l) cu
    /\ ps_available p = cu_limit cu - credit_used l t c.
Proof.
  unfold CreditPosition. destruct (first_where _ _) as [cu|] eqn:E; [|done]. intros [= <-]. simpl.
  apply first_where_some in E as [Hin Hk]. bool_solve. destruct Hk. exists cu. rewrite exposure_used. done.
Qed.

(** The hold of a grant on top of what was used. *)
Lemma granted_used t c l a :
  credit_used (fput_auths (fl_auths l ++ [a]) (fput_fin (bump_fin (fl_fin l)) l)) t c
  = credit_used l t c + (if live t c (fl_now l) a then az_approved a else 0).
Proof.
  unfold credit_used, live_sum. simpl. rewrite select_app, sum_by_app, select_cons. simpl.
  change (fl_now (fput_auths _ _)) with (fl_now l). destruct (live t c (fl_now l) a); rewrite ?sum_by_cons, ?sum_by_nil; lia.
Qed.

Lemma line_request l t c lim t' i u ov r l1 :
  0 < mant (requested i) -> ov = false -> RequestAuthorization date_at midnight t' i u ov l = Ok (r, l1) ->
  Auth_inv l1 -> Line l t c lim -> Line l1 t c lim.
Proof.
  intros Hm -> Hr Hi1 HL. apply RequestAuthorization_effect in Hr. set (l0 := release_expired t' (ai_customer i) l) in *.
  assert (H0 : Line l0 t c lim).
  { apply (line_frame l); [apply released_inv, HL|done|done| | |exact HL]; [unfold fl_next; simpl; lia|].
    eapply (live_left l); [apply HL|done|done|]. done. }
  destruct r as [a|d].
  - destruct Hr as ((p & Hp & Hf) & Hg & _ & _ & ->). specialize (Hf eq_refl). apply refusal_none in Hf as (_ & _ & _ & _ & Hav & _).
    apply position_customer in Hp as (cu & Hin & Ht & Hc & _ & _ & _ & Eav). destruct H0 as [Hi Hcu Hk Hu].
    constructor; [done| |done|].
    + destruct Hcu as [Hd Hl]. split; [done|]. intros x Hx. specialize (Hl x Hx). unfold fl_next, l0 in *. simpl in *. lia.
    + rewrite granted_used. destruct (live t c (fl_now l0) a) eqn:El; [|lia].
      unfold live, holds in El. bool_solve. destruct H0 as [Et Ec]. destruct Hg as (_ & Ht2 & Hc2 & _ & _ & _ & _ & _ & _ & Hap & _).
      assert (t = t' /\ c = ai_customer i) as [-> ->] by (split; congruence).
      pose proof (cust_limit l0 cu t' (ai_customer i) lim Hcu Hk Hin Hc) as [= _ _ E]. lia.
  - destruct Hr as [->|(x & ->)]; [done|]. apply (line_frame l0); [done|done|done| |done|exact H0]. unfold fl_next; simpl; lia.
Qed.

Lemma used_snoc l f' e t c :
  fn_ar f' = fn_ar (fl_fin l) ++ [e] -> fn_now f' = fl_now l ->
  credit_used (fput_fin f' l) t c = credit_used l t c + (if ar_of t c e then ar_amount e else 0).
Proof.
  intros Ea En. unfold credit_used. simpl. rewrite Ea, select_app, sum_by_app, select_cons. simpl.
  assert (live_sum (fput_fin f' l) t c = live_sum l t c) as -> by (unfold live_sum, fl_now; simpl; by rewrite En).
  destruct (ar_of t c e); rewrite ?sum_by_cons, ?sum_by_nil; lia.
Qed.

Lemma line_ledger l t c lim f' e :
  grows (fin_view l) f' -> fn_customers f' = fn_customers (fl_fin l) -> fn_ar f' = fn_ar (fl_fin l) ++ [e] ->
  (ar_amount e <= 0
   \/ exists cu, In cu (fn_customers (fl_fin l)) /\ cu_tenant cu = ar_tenant e /\ cu_id cu = ar_customer e
      /\ ar_sum (fin_view l) (ar_tenant e) (ar_customer e)
            + auth_held (fin_view l) (ar_tenant e) (ar_customer e) + ar_amount e <= cu_limit cu) ->
  Auth_inv (fput_fin f' l) -> Line l t c lim -> Line (fput_fin f' l) t c lim.
Proof.
  intros [Hn Hw] Ec Ea Hcase Hi [Hi0 Hcu Hk Hu]. constructor; [done| |simpl; by rewrite Ec|].
  - destruct Hcu as [Hd Hl]. unfold cust_ok. simpl. rewrite Ec. split; [done|]. intros x Hx. specialize (Hl x Hx).
    unfold fl_next in *. simpl in *. lia.
  - rewrite (used_snoc l f' e t c Ea Hw). destruct (ar_of t c e) eqn:E; [|lia]. unfold ar_of in E. bool_solve. destruct E as [E1 E2].
    destruct Hcase as [Hneg|(cu & Hin & Ht & Hc & Hle)]; [lia|]. rewrite E1, E2 in *.
    pose proof (cust_limit l cu t c lim Hcu Hk Hin Hc) as [= _ _ El]. pose proof (live_le_held l t c Hi0).
    unfold credit_used, ar_sum in *. simpl in *. lia.
Qed.

Lemma line_customers l t c lim f' :
  fn_ar f' = fn_ar (fl_fin l) -> fn_now f' = fl_now l -> In (t, c, lim) (cu_key <$> fn_customers f') ->
  Auth_inv (fput_fin f' l) -> cust_ok (fput_fin f' l) -> Line l t c lim -> Line (fput_fin f' l) t c lim.
Proof.
  intros Ea En Hk' Hi Hcu [_ _ _ Hu]. constructor; try done. unfold credit_used, live_sum, fl_now in *. simpl.
  by rewrite Ea, En.
Qed.

Lemma line_move l l' t c lim : fleet_move true l l' -> Line l t c lim -> Line l' t c lim.
Proof.
  intros Hmv HL. pose proof (move_auth _ _ _ Hmv (ln_auth _ _ _ _ HL)) as Hi.
  destruct Hmv as [[Hc Hn]|t' i u ov r l1 s Hm Ho Hr ->|t' id sale s Hs Hf ->|t' id s ->|t' id s ->|f' e Hg -> Ec Ea Hcase
         |f' k -> Ec Ek Hn Ea En|f' t' id lim' g -> Hg Ea Ec Hk Hs|t' Ht ->|s ->].
  - injection Hc as Ha Hs Har Hck Hnw. apply (line_frame l); [done|done|done|done| |exact HL].
    unfold live_sum. by rewrite Ha, Hnw.
  - pose proof Hr as Hr2. apply RequestAuthorization_effect in Hr2. eapply line_request in Hr; [|done|by apply Ho| |exact HL].
    + apply (line_frame l1); [exact Hi|done|done|done|done|exact Hr].
    + revert Hi. apply inv_frame; [done|by exists []; rewrite app_nil_r|done].
  - apply (line_frame l); [done|done|done|done| |exact HL]. eapply (live_left l); [apply HL|done|done|done].
  - apply (line_frame l); [done|done|done|done| |exact HL]. eapply (live_left l); [apply HL|done|done|done].
  - apply (line_frame l); [done|done|done|done| |exact HL]. eapply (live_left l); [apply HL|done|done|done].
  - apply (line_ledger l t c lim f' e); try done. destruct Hcase as [?|(cu & ? & ? & ? & Hle)]; [by left|right]. eauto 10.
  - pose proof HL as [_ [Hd Hl] Hk _]. apply line_customers; try done.
    + rewrite Ec, fmap_app. apply in_or_app. by left.
    + split; simpl; rewrite Ec.
      * eapply NoDup_snoc_fresh; [done| |exact Ek]. apply Hl.
      * intros x [Hx|[<-|[]]]%in_app_or; unfold fl_next in *; simpl; [specialize (Hl x Hx)|]; lia.
  - assert (Ek : cu_key <$> fn_customers f' = cu_key <$> fn_customers (fl_fin l)).
    { rewrite Ec. apply fmap_update_where. intros x _. rewrite Hk, (Hs eq_refl). done. }
    destruct Hg as [Hn Hw]. apply (line_frame l); [done|exact Ek|done|exact Hn| |exact HL]. unfold live_sum, fl_now. simpl.
    rewrite Hw. done.
  - apply (line_frame l); [done|done|done|done| |exact HL].
    apply (live_fewer l _ t c (fun a => a)); [apply HL|done|simpl; by rewrite list_fmap_id|done].
  - apply (line_frame l); [done|done|done|done|done|exact HL].
Qed.

Lemma cust_frame l l' :
  cu_id <$> fn_customers (fl_fin l') = cu_id <$> fn_customers (fl_fin l) -> (fl_next l <= fl_next l')%N ->
  cust_ok l -> cust_ok l'.
Proof.
  intros E Hn [Hd Hl]. unfold cust_ok. rewrite E. split; [done|]. intros x Hx.
  assert (Hin : In (cu_id x) (cu_id <$> fn_customers (fl_fin l))).
  { rewrite <- E. by apply list_elem_of_In, list_elem_of_fmap_2, list_elem_of_In. }
  apply list_elem_of_In, list_elem_of_fmap in Hin as (y & -> & Hy%list_elem_of_In). specialize (Hl y Hy). lia.
Qed.
Lemma move_cust strict l l' : fleet_move strict l l' -> cust_ok l -> cust_ok l'.
Proof.
  intros [[Hc Hn]|t i u ov r l1 s Hm _ Hr ->|t id sale s Hs Hf ->|t id s ->|t id s ->|f' e [Hn _] -> Ec _ _
         |f' c -> Ec Ek Hn _ _|f' t id lim g -> [Hn _] _ Ec Hk _|t _ ->|s ->] Hi; try exact Hi.
  - injection Hc as _ _ _ Hc _. apply (cust_frame l); [by rewrite !cust_keys, Hc|done|done].
  - apply RequestAuthorization_effect in Hr. destruct r as [a|d]; [destruct Hr as (_ & _ & _ & _ & ->)|destruct Hr as [->|(x & ->)]];
      (apply (cust_frame l); [done|unfold fl_next; simpl; lia|done]).
  - apply (cust_frame l); [simpl; by rewrite Ec|exact Hn|done].
  - destruct Hi as [Hd Hl]. split; simpl; rewrite Ec; [by eapply NoDup_snoc_fresh|].
    intros x [Hx|[<-|[]]]%in_app_or; unfold fl_next in *; simpl; [specialize (Hl x Hx)|]; lia.
  - apply (cust_frame l); [simpl; rewrite Ec; apply fmap_update_where|exact Hn|done]. intros x _. by specialize (Hk x) as [= _ -> _].
Qed.

(** No authorization yet, and customers with ids of their own. *)
Definition fleet_opening (l : Flt) : Prop := fl_auths l = [] /\ cust_ok l.
Lemma opening_reach strict l l' : fleet_opening l -> rtc (fleet_step strict) l l' -> Auth_inv l' /\ cust_ok l'.
Proof.
  intros [E Hc] Hr. assert (Hi : Auth_inv l) by (constructor; rewrite E; [apply table_nil|done]). clear E. revert Hc Hi.
  induction Hr as [|l l1 l2 Hs%step_move _ IH]; intros Hc Hi; [done|].
  apply IH; [by eapply move_cust|by eapply move_auth].
Qed.

(** C17. A credit line is not oversold.  From any state the system reaches, once what
    a customer uses of the limit (the balance of the receivables ledger and the live
    fuel holds) is within the limit, it stays within it over every sequence of
    requests of the fleet and the receivables served one after another, with sales
    recorded elsewhere and time passing, as long as no request overrides the limit
    or edits it: the charges of the receivables and the holds of the authorizations
    draw on one line. *)
Theorem credit_line_held s l0 l t c lim :
  fleet_opening s -> rtc (fleet_step false) s l0 ->
  In (t, c, lim) (cu_key <$> fn_customers (fl_fin l0)) -> exposure (fin_view l0) t c <= lim ->
  rtc (fleet_step true) l0 l ->
  In (t, c, lim) (cu_key <$> fn_customers (fl_fin l)) /\ exposure (fin_view l) t c <= lim.
Proof.
  intros Ho Hr Hk Hu Hr'. destruct (opening_reach _ _ _ Ho Hr) as [Hi Hc]. rewrite exposure_used in *.
  assert (HL : Line l0 t c lim) by done. clear - Hr' HL. induction Hr' as [l|l l1 l2 Hs%step_move _ IH]; [by destruct HL|].
  apply IH. by eapply line_move.
Qed.

(** ** What a grant has passed *)

Lemma head_order_none {R} (le : R -> R -> bool) (l : list R) : head (order_by le l) = None -> l = [].
Proof.
  intros E. pose proof (order_by_perm le l) as Hp. destruct (order_by le l); [|done]. by apply Permutation_nil_l in Hp.
Qed.
Lemma within_every_limit l t i m :
  violatedPeriod date_at midnight l t i = None -> In m (fl_limits l) -> violated date_at midnight l t i m = false.
Proof.
  unfold violatedPeriod. intros E%fmap_None%head_order_none Hin. destruct (violated _ _ _ _ _ _) eqn:Hv; [|done].
  assert (Hs : In m (select (violated date_at midnight l t i) (fl_limits l))) by by apply in_select. by rewrite E in Hs.
Qed.
(** A bound on a sum that is compared before it is rounded. *)
Lemma sum_round d z most : dec_ltb (dec_of 2 most) (dec_add d (dec_of 2 z)) = false -> round_to 2 d + z <= most.
Proof.
  unfold dec_ltb. rewrite negb_false_iff. intros Hle.
  assert (Hd : dec_leb d (dec_of 2 (most - z)) = true).
  { revert Hle. unfold dec_leb, dec_add, dec_of, at_scale. cbn [mant scale]. rewrite !Z.leb_le.
    destruct (Nat.le_gt_cases (scale d) 2) as [Hs|Hs].
    - rewrite !(Nat.max_r (scale d) 2), !Nat.max_id, !Nat.sub_diag, !pow10_0 by lia. lia.
    - rewrite !(Nat.max_l (scale d) 2), ?(Nat.max_l (scale d) 2), ?Nat.max_id, !Nat.sub_diag, !pow10_0 by lia. lia. }
  apply (dec_leb_round 2 0) in Hd. rewrite pow10_0 in Hd. lia.
Qed.
Lemma transaction_round d most : dec_ltb (dec_of 2 most) d = false -> round_to 2 d <= most.
Proof.
  unfold dec_ltb. rewrite negb_false_iff. intros Hd. apply (dec_leb_round 2 0) in Hd. rewrite pow10_0 in Hd. lia.
Qed.
Lemma period_snoc l a c m :
  period_total date_at midnight (fput_auths (fl_auths l ++ [a]) (fput_fin (bump_fin (fl_fin l)) l)) c m
  = period_total date_at midnight l c m + (if counted date_at midnight l c m a then az_approved a else 0).
Proof.
  unfold period_total. simpl. rewrite select_app, sum_by_app, select_cons. simpl.
  change (counted date_at midnight (fput_auths _ _)) with (counted date_at midnight l).
  destruct (counted _ _ _ _ _ a); rewrite ?sum_by_cons, ?sum_by_nil; lia.
Qed.

(** The rules a request has passed when it was granted without an override. *)
Definition rules_passed (t : uuid) (i : AuthRequest) (a : Authorization) (l l' : Flt) : Prop :=
  (exists cu, In cu (fn_customers (fl_fin l)) /\ cu_tenant cu = t /\ cu_id cu = ai_customer i
     /\ cu_status cu <> CuClosed /\ cu_status cu <> CuSuspended /\ standing_hold (fin_view l) cu = false
     /\ exposure (fin_view l') t (ai_customer i) <= cu_limit cu)
  /\ (forall k, ai_credential i = Some k -> exists cd, first_where (cd_by_id t k) (fl_credentials l) = Some cd
        /\ cd_status cd = CdActive)
  /\ forall m most, In m (fl_limits l) -> limit_applies t i m = true -> lm_amount m = Some most ->
       if bool_decide (lm_period m = PerTransaction) then az_approved a <= most
       else period_total date_at midnight l' (ai_customer i) m <= most.

Lemma rules_of_grant t i u l a p :
  let l1 := release_expired t (ai_customer i) l in
  let l2 := fput_auths (fl_auths l1 ++ [a]) (fput_fin (bump_fin (fl_fin l1)) l1) in
  0 < mant (requested i) -> CreditPosition date_at l1 t (ai_customer i) = Some p ->
  refusal date_at midnight l1 t i p = None -> granted t i u l1 a -> fk_credential l1 t (ai_credential i) = true ->
  rules_passed t i a l l2.
Proof.
  intros l1 l2 Hm Hp Hf Hg Hfk. apply refusal_none in Hf as (Hs & Hc & Hh & Hcr & Hav & Hv).
  apply position_customer in Hp as (cu & Hin & Ht & Hid & _ & Es & Eh & Eav). rewrite Es in *.
  destruct Hg as (_ & _ & _ & _ & _ & _ & _ & _ & _ & Hap & _). pose proof (round_cents_nonneg _ Hm) as Hnn. split_and!.
  - exists cu. split_and!; try done; [rewrite Eh in Hh; exact Hh|]. rewrite exposure_used. unfold l2. rewrite granted_used.
    destruct (live _ _ _ _); lia.
  - intros k Hk. unfold credential_refusal in Hcr. unfold fk_credential in Hfk. rewrite Hk in *. simpl in *.
    change (fl_credentials l1) with (fl_credentials l) in *. destruct (first_where _ _) as [cd|] eqn:E.
    + exists cd. split; [done|]. destruct (bool_decide _) eqn:Eb; [by bool_solve|done].
    + apply exists_where_true in Hfk as (x & Hx & Hq). by rewrite (first_where_none _ _ _ E Hx) in Hq.
  - intros m most Hm' Ha He. pose proof (within_every_limit l1 t i m Hv Hm') as Hno. unfold violated in Hno. rewrite Ha, He in Hno.
    simpl in Hno. destruct (bool_decide (lm_period m = PerTransaction)); [rewrite Hap; by apply transaction_round|].
    apply sum_round in Hno. unfold l2. rewrite period_snoc. destruct (counted _ _ _ _ _ a); lia.
Qed.

(** C18. What a fuel authorization was granted on.  A request that is answered with an
    authorization came from an authenticated actor and asked for a positive amount;
    the row stored holds that amount rounded to cents, for an hour (an amount below
    half a cent is held as 0.00).  Without the override (which needs
    its permission) the customer of the tenant is neither suspended, closed nor on
    hold, the credential is an active one of the tenant, what the customer uses
    after the grant is within the credit limit, and every fuel limit that applies
    to the customer, the vehicle and the product is kept: one transaction's, and the
    total of the period's holds with the new one. *)
Theorem grant_passed_rules ctx body l a l' :
  handleRequestAuthorization policy date_at midnight ctx body l = Ok (inl a, l') ->
  exists actor q asked, ops_actor ctx = Ok actor /\ body = Ok q
    /\ ai_amount (uq_request q) = Some asked /\ 0 < mant asked /\ In a (fl_auths l') /\ az_status a = AuApproved
    /\ az_tenant a = ac_tenant actor /\ az_customer a = ai_customer (uq_request q)
    /\ az_approved a = round_to 2 asked /\ 0 <= az_approved a
    /\ az_expiry a = Some (fl_now l + Calendar.hour)
    /\ (if uq_override q then actorHolds policy actor "fuel_authorization.override" = true
        else rules_passed (ac_tenant actor) (uq_request q) a l l').
Proof.
  intros Hrun. assert (Hau : exists x, ops_actor ctx = Ok x)
    by (unfold handleRequestAuthorization in Hrun; apply tbind_lift_ok in Hrun as (x & Ex & _); eauto).
  apply handleRequest_effect in Hrun as (x & q & -> & -> & Hm & Ho & [[_ (d & ?)]|(r & l1 & s & Hr & Ea & ->)]); [done|].
  assert (Hx : ops_actor (Some x) = Ok x)
    by (destruct Hau as [y Hy]; unfold ops_actor, identity_Require in *; simpl in *; by destruct (IsAuthenticated x)).
  assert (exists asked, ai_amount (uq_request q) = Some asked) as [asked Hask]
    by (unfold requested in Hm; destruct (ai_amount (uq_request q)); [eauto|simpl in Hm; lia]).
  assert (Eq : requested (uq_request q) = asked) by (unfold requested; by rewrite Hask).
  destruct r as [z|d]; [|done]. injection Ea as <-. apply RequestAuthorization_effect in Hr as ((p & Hp & Hf) & Hg & _ & Hfk & ->).
  pose proof Hg as (_ & Ht & Hc & _ & _ & _ & _ & _ & _ & Hap & Hst & _ & Hex & _). exists x, q, asked.
  rewrite Eq in Hap. split_and!; try done; [by rewrite <- Eq|..].
  - apply in_or_app. right. by left.
  - rewrite Hap, <- Eq. by apply round_cents_nonneg.
  - destruct (uq_override q); [by apply Ho|].
    destruct (rules_of_grant _ _ _ _ _ _ Hm Hp (Hf eq_refl) Hg Hfk) as ((cu & HH) & Hk & Hl). split_and!; [|done|done].
    exists cu. exact HH.
Qed.

(** ** Price agreements *)

Lemma unpriced_fin {E A} (c : Tx Fin E A) : obeys grows c -> obeys unpriced (on_fin c).
Proof. intros Hc l x l' (f & Hx & ->)%on_view_ok. split; [done|]. by apply (Hc (fin_view l) x f). Qed.
Lemma unpriced_raise_all t ty sv d cs : obeys unpriced (raise_all t ty sv d cs).
Proof. unfold raise_all, RaiseAlert. induction cs as [|c cs IH]; frame_steps. Qed.
Lemma unpriced_status t i w : obeys unpriced (on_fin (SetCustomerStatus t i w)).
Proof.
  apply unpriced_fin. intros f x f' E. unfold SetCustomerStatus, update_customer in E. tx_steps E. subst.
  split; simpl; [lia|done].
Qed.
Lemma unpriced_charge t c d ty s u n o : obeys unpriced (on_fin (PostCharge t c d ty s u n o)).
Proof. apply unpriced_fin, grows_charge. Qed.
Lemma unpriced_payment pool c i b : obeys unpriced (on_fin (handleRecordCustomerPayment pool c i b)).
Proof. apply unpriced_fin. by intros f x f' (_ & _ & Hg & _)%payment_effect. Qed.
Lemma unpriced_customer c b : obeys unpriced (on_fin (handleCreateCustomer c b)).
Proof. apply unpriced_fin. intros f x f' (_ & _ & _ & Hn & Hw)%create_customer_effect. split; [lia|done]. Qed.
Lemma unpriced_edit c i b : obeys unpriced (on_fin (handleUpdateCustomer c i b)).
Proof. apply unpriced_fin. by intros f x f' (? & ? & ? & ? & _ & _ & _ & _ & Hg)%edit_effect. Qed.
Lemma unpriced_request c b : obeys unpriced (handleRequestAuthorization policy date_at midnight c b).
Proof.
  intros l x l' (a & q & _ & _ & _ & _ & [[-> _]|(r & l1 & s & Hr & _ & ->)])%handleRequest_effect; [reflexivity|].
  apply RequestAuthorization_effect in Hr. destruct r as [z|d].
  - destruct Hr as (_ & _ & _ & _ & ->). split; [done|unfold fl_next; simpl; lia].
  - destruct Hr as [->|(y & ->)]; split; try done; unfold fl_next; simpl; lia.
Qed.
Hint Resolve unpriced_raise_all unpriced_status unpriced_charge unpriced_payment unpriced_customer unpriced_edit
  unpriced_request : fleet.

Lemma unpriced_serve r :
  match r with RqAgreement _ _ _ | RqAgreementStatus _ _ _ => True | _ => obeys unpriced (serve r) end.
Proof.
  destruct r; try done; subst serve; cbn [fleet_serve]; open_handlers;
    unfold handleFulfillAuthorization, FulfillAuthorization, handleAuthorizationStatus, SetAuthorizationStatus, unconverted;
    frame_steps.
Qed.

Record Price_inv (l : Flt) : Prop := {
  pv_table : table pa_id (fun _ => True) (fl_next l) (fl_agreements l);
  pv_once : forall a b, In a (fl_agreements l) -> In b (fl_agreements l) -> pa_status a = AgActive ->
    pa_status b = AgActive -> same_scope a b = true -> a = b;
}.
Lemma price_unpriced l l' : unpriced l l' -> Price_inv l -> Price_inv l'.
Proof. intros [E Hn] [Ht Ho]. constructor; rewrite E; [by eapply table_mono|done]. Qed.

Lemma agreement_created today c b l x l' :
  handleCreatePriceAgreement today c b l = Ok (x, l') ->
  fl_agreements l' = fl_agreements l ++ [x] /\ pa_id x = fl_next l /\ (fl_next l < fl_next l')%N /\ pa_status x = AgDraft.
Proof.
  intros H0. unfold handleCreatePriceAgreement, CreatePriceAgreement in H0. tx_steps H0. subst.
  repeat match goal with E : (match ?o with Some _ => _ | None => _ end) = _ |- _ => clear E end.
  match goal with E : fleet_audit _ _ _ _ = _ |- _ => injection E as <- <- end.
  match goal with E : tbind _ _ _ = _ |- _ => tx_steps E; subst end.
  repeat match goal with
    | E : fl_opt_col _ _ ?o ?m = Ok (_, ?m') |- _ =>
        assert (m' = m) as -> by
          (clear -E; destruct o as [[?|]|]; [|done|by injection E]; apply tbind_ok in E as (? & ? & [_ ->]%fl_col_ok & [= _ <-]); done);
        clear E
    | E : fl_fresh _ = Ok _ |- _ => injection E as <- <-
    end.
  split_and!; try done. unfold fl_next. simpl. lia.
Qed.

Lemma price_created today c b l x l' :
  handleCreatePriceAgreement today c b l = Ok (x, l') -> Price_inv l -> Price_inv l'.
Proof.
  intros (Ea & Hid & Hn & Hst)%agreement_created [Ht Ho]. constructor; rewrite Ea; [by eapply table_snoc|].
  intros a b' [Ha|[<-|[]]]%in_app_or [Hb|[<-|[]]]%in_app_or H1 H2 Hs; [auto|congruence..].
Qed.

Lemma transition_effect x c i l a l' :
  handleTransitionPriceAgreement x c i l = Ok (a, l') ->
  exists t id to appr a0, first_where (transitions t id to) (fl_agreements l) = Some a0
    /\ (to = AgActive -> exists_where (active_in_scope a0) (fl_agreements l) = false)
    /\ fl_agreements l' = update_where (transitions t id to) (with_agreement to appr) (fl_agreements l)
    /\ fl_next l' = fl_next l.
Proof.
  intros H0. unfold handleTransitionPriceAgreement, TransitionPriceAgreement in H0. tx_steps H0. subst.
  match goal with E : fleet_audit _ _ _ _ = _ |- _ => injection E as <- <- end.
  match goal with E : tbind tget _ _ = _ |- _ => tx_steps E; subst end.
  do 5 eexists. split_and!; [done| |done|done]. intros ->. rewrite bool_decide_eq_true_2 in * by done. simpl in *. by apply negb_true_iff.
Qed.

Lemma price_transition x c i l a l' :
  handleTransitionPriceAgreement x c i l = Ok (a, l') -> Price_inv l -> Price_inv l'.
Proof.
  intros (t & id & to & appr & a0 & Hf & Hg & Ea & En)%transition_effect [Ht Ho].
  apply first_where_some in Hf as [Ha0 Hq0].
  assert (Hone : forall k, In k (fl_agreements l) -> transitions t id to k = true -> k = a0).
  { intros k Hk Hq. unfold transitions, pa_by_id in *. bool_solve. destruct_and!. by eapply table_same; [exact Ht|..|congruence]. }
  constructor; rewrite Ea, ?En; [by apply table_update|].
  intros k m (k0 & Hk & ->)%in_update_where (m0 & Hm & ->)%in_update_where.
  destruct (transitions t id to k0) eqn:E1, (transitions t id to m0) eqn:E2; intros S1 S2 Hs; [| | |by apply Ho].
  - by rewrite (Hone k0 Hk E1), (Hone m0 Hm E2).
  - rewrite (Hone k0 Hk E1) in *. simpl in S1. specialize (Hg S1). rewrite exists_where_false in Hg. specialize (Hg m0 Hm).
    unfold active_in_scope, same_scope in *. simpl in Hs. by rewrite Hs, bool_decide_eq_true_2 in Hg.
  - rewrite (Hone m0 Hm E2) in *. simpl in S2. specialize (Hg S2). rewrite exists_where_false in Hg. specialize (Hg k0 Hk).
    unfold active_in_scope, same_scope in *. simpl in Hs. apply bool_decide_eq_true in Hs as (? & ? & ? & ?).
    rewrite !bool_decide_eq_true_2 in Hg by done. done.
Qed.

Lemma step_price strict l l' : fleet_step strict l l' -> Price_inv l -> Price_inv l'.
Proof.
  intros [r _ Hr|t _ ->|s ->]; [|by apply price_unpriced|by apply price_unpriced].
  pose proof (unpriced_serve r) as Hu. destruct r; try (by apply price_unpriced, (Hu _ _ _ Hr)); subst serve;
    apply done_with_ok in Hr as (y & Hr); [by eapply price_created|by eapply price_transition].
Qed.
Lemma reach_price strict l l' : fl_agreements l = [] -> rtc (fleet_step strict) l l' -> Price_inv l'.
Proof.
  intros E Hr. assert (Hi : Price_inv l) by (constructor; rewrite E; [apply table_nil|done]). clear E. revert Hi.
  induction Hr; [done|]. intros. by eauto using step_price.
Qed.

(** The agreement the price is taken from. *)
Lemma insert_head (x : PriceAgreement) l :
  head (insert_by station_first x l) = match head l with
    | Some y => Some (if station_first x y then x else y)
    | None => Some x
    end.
Proof. destruct l as [|y l]; [done|]. simpl. by destruct (station_first x y). Qed.
Lemma head_scoped (l : list PriceAgreement) s a :
  (forall k, In k l -> pa_station k = None \/ pa_station k = Some s) ->
  In a l -> pa_station a = Some s -> exists m, head (order_by station_first l) = Some m /\ pa_station m = Some s.
Proof.
  induction l as [|x l IH]; [done|]. intros Hall Hin Ha. simpl. rewrite insert_head.
  assert (Hx : pa_station x = None \/ pa_station x = Some s) by (apply Hall; by left).
  destruct (head (order_by station_first l)) as [y|] eqn:E.
  - assert (Hy : pa_station y = None \/ pa_station y = Some s).
    { apply Hall. right. assert (Hi : In y (order_by station_first l)) by (destruct (order_by _ l); [done|]; injection E as ->; by left).
      by rewrite (order_by_perm station_first l) in Hi. }
    eexists. split; [done|]. unfold station_first. destruct Hx as [Hx|Hx], Hy as [Hy|Hy]; rewrite ?Hx, ?Hy; try done.
    + destruct Hin as [<-|Hin]; [congruence|].
      destruct IH as (m & [= <-] & Hm); [intros; apply Hall; by right|done|done|]. congruence.
    + rewrite N.leb_refl. done.
  - destruct Hin as [<-|Hin]; [eauto|]. destruct IH as (m & ? & _); [intros; apply Hall; by right|done|done|done].
Qed.

Lemma head_in {R} (le : R -> R -> bool) (l : list R) x : head (order_by le l) = Some x -> In x l.
Proof.
  intros E. assert (Hi : In x (order_by le l)) by (destruct (order_by le l); [done|]; injection E as ->; by left).
  by rewrite (order_by_perm le l) in Hi.
Qed.

(** One agreed price.  Starting without agreements, over every sequence of
    requests: the price a customer pays for a product at a station is the price of
    the agreement in force for that station when there is one, else of the agreement
    in force for all stations, and the retail price (no agreement) exactly when
    none is in force; the agreement that decides is the only one in force in its
    scope, so the answer does not depend on the order of the rows. *)
Theorem one_agreed_price l0 l t c p st retail :
  fl_agreements l0 = [] -> rtc (fleet_step false) l0 l ->
  let force a := in_force (date_at (fl_now l)) t c p st a = true in
  let price := ResolveCustomerPrice date_at l t c p st retail in
  (forall a, In a (fl_agreements l) -> force a ->
     pa_station a = Some st \/ (forall b, In b (fl_agreements l) -> force b -> pa_station b = None) ->
     price = match agreed_price a retail with Some x => Ok (Some x) | None => Err tt end)
  /\ ((forall a, In a (fl_agreements l) -> ~ force a) <-> price = Ok None).
Proof.
  intros E Hr force price. destruct (reach_price _ _ _ E Hr) as [_ Ho]. subst price. unfold ResolveCustomerPrice.
  set (rows := select _ (fl_agreements l)).
  assert (Hrows : forall a, In a rows <-> In a (fl_agreements l) /\ force a) by (intros a; apply in_select).
  assert (Hsame : forall a b, In a rows -> In b rows -> pa_station a = pa_station b -> a = b).
  { intros a b [Ha Fa]%Hrows [Hb Fb]%Hrows Es. subst force. unfold in_force in Fa, Fb. bool_solve. destruct_and!.
    apply Ho; try done. apply bool_decide_eq_true. split_and!; congruence. }
  assert (Hst : forall k, In k rows -> pa_station k = None \/ pa_station k = Some st).
  { intros k [_ Fk]%Hrows. subst force. unfold in_force in Fk. apply andb_true_iff in Fk as [_ Fk].
    destruct (pa_station k); [|by left]. bool_solve. subst. by right. }
  split.
  - intros a Ha Fa Hcase. assert (Hin : In a rows) by by apply Hrows.
    assert (exists m, head (order_by station_first rows) = Some m /\ m = a) as (m & -> & ->); [|done].
    destruct Hcase as [Hs|Hall].
    + destruct (head_scoped rows st a Hst Hin Hs) as (m & Hm & Em). exists m. split; [done|]. apply Hsame; [by eapply head_in|done|congruence].
    + destruct (head (order_by station_first rows)) as [m|] eqn:Em; [|apply head_order_none in Em; by rewrite Em in Hin].
      exists m. split; [done|]. apply head_in in Em as Hm. apply Hsame; [done|done|].
      apply Hrows in Hm as [? ?]. rewrite (Hall m), (Hall a); done.
  - split.
    + intros Hno. destruct (head (order_by station_first rows)) as [m|] eqn:Em; [|done]. apply head_in, Hrows in Em as [? ?].
      by destruct (Hno m).
    + intros Hp a Ha Fa. assert (Hin : In a rows) by by apply Hrows.
      destruct (head (order_by station_first rows)) as [m|] eqn:Em; [by destruct (agreed_price m retail)|].
      apply head_order_none in Em. by rewrite Em in Hin.
Qed.
End Runs.

(** ** Statements *)

Section Books.
Context (date_at : Z -> Z).

Lemma statement_split l t c q q1 q2 :
  (forall e, ar_of t c e = true -> q e = q1 e || q2 e) -> (forall e, q1 e = true -> q2 e = true -> False) ->
  ledger_sum l t c q = ledger_sum l t c q1 + ledger_sum l t c q2.
Proof.
  intros Hq Hd. unfold ledger_sum. rewrite !sum_by_select. rewrite <- sum_by_add. apply sum_by_ext. intros e _.
  destruct (ar_of t c e) eqn:E; simpl; [|done]. rewrite (Hq e E). specialize (Hd e). destruct (q1 e), (q2 e); simpl; lia || by destruct Hd.
Qed.

(** A draft statement: its columns are the sums of the ledger over the dates, the
    closing balance is the opening one with the charges and payments and what the
    entries of other kinds moved, and a statement that begins the day after another
    ends opens with the other's closing balance. *)
Theorem statement_adds_up t c d d' u l s l' :
  d <= d' -> GenerateStatement date_at t c d d' u l = Ok (s, l') ->
  ss_opening s = ledger_sum l t c (before date_at d) /\ ss_closing s = ledger_sum l t c (until date_at d')
  /\ ss_closing s = ss_opening s + ss_charges s - ss_payments s
       + ledger_sum l t c (fun e => between date_at d d' e && negb (ar_charge e) && negb (ar_payment e))
  /\ ss_closing s = ledger_sum l t c (before date_at (d' + 1))
  /\ fl_statements l' = fl_statements l ++ [s] /\ ss_status s = StDraft.
Proof.
  intros Hd H. unfold GenerateStatement in H. tx_steps H. subst.
  repeat match goal with
    | E : fl_col _ _ _ _ = Ok _ |- _ => apply fl_col_ok in E as [-> ->]
    | E : fl_fresh _ = Ok _ |- _ => injection E as <- <-
    end. unfold dec_of. cbn -[ledger_sum round_to]. rewrite !round_to_same. split_and!; try done.
  - assert (H1 : ledger_sum l t c (until date_at d') = ledger_sum l t c (before date_at d) + ledger_sum l t c (between date_at d d')).
    { apply statement_split; unfold until, before, between, within; intros e; [intros _|].
      - destruct (Z.leb_spec (date_at (ar_at e)) d'), (Z.ltb_spec (date_at (ar_at e)) d), (Z.leb_spec d (date_at (ar_at e))); simpl; try done; lia.
      - rewrite Z.ltb_lt, andb_true_iff, !Z.leb_le. lia. }
    set (q := fun e => between date_at d d' e && negb (ar_charge e)).
    assert (H2 : ledger_sum l t c (between date_at d d') = ledger_sum l t c (fun e => between date_at d d' e && ar_charge e)
                 + ledger_sum l t c q).
    { apply statement_split; unfold q; intros e; destruct (between _ _ _ e), (ar_charge e); done. }
    assert (H3 : ledger_sum l t c q = ledger_sum l t c (fun e => between date_at d d' e && ar_payment e)
                 + ledger_sum l t c (fun e => between date_at d d' e && negb (ar_charge e) && negb (ar_payment e))).
    { apply statement_split; unfold q, ar_charge, ar_payment; intros e; destruct (between _ _ _ e), (ar_kind e); done. }
    lia.
  - unfold ledger_sum. f_equal. apply select_ext. intros e _. f_equal. unfold until, before.
    destruct (Z.leb_spec (date_at (ar_at e)) d'), (Z.ltb_spec (date_at (ar_at e)) (d' + 1)); try done; lia.
Qed.

(** ** Credit alerts *)

Lemma raise_effect t c ty sv d l b l' :
  RaiseAlert t c ty sv d l = Ok (b, l') ->
  exists_where (standing_alert t c ty) (fl_alerts l') = true
  /\ (forall t' c' ty', exists_where (standing_alert t' c' ty') (fl_alerts l) = true ->
        exists_where (standing_alert t' c' ty') (fl_alerts l') = true)
  /\ (b = false <-> exists_where (standing_alert t c ty) (fl_alerts l) = true).
Proof.
  intros H. unfold RaiseAlert in H. tx_steps H; subst; injection E as <- <-; simpl in *.
  - done.
  - split_and!.
    + apply exists_where_true. eexists. split; [apply in_or_app; right; by left|]. unfold standing_alert, standing. simpl.
      rewrite !bool_decide_eq_true_2 by done. done.
    + intros t' c' ty' (a & Ha & Hq)%exists_where_true. apply exists_where_true. exists a. split; [apply in_or_app; by left|done].
    + by rewrite E1.
Qed.

(** What the scan reads. *)
Definition scan_view (l : Flt) :=
  (fn_customers (fl_fin l), fn_ar (fl_fin l), fl_auths l, fn_invoices (fl_fin l), fl_now l).
Lemma scan_same l l' t :
  scan_view l' = scan_view l ->
  over_limit_customers l' t = over_limit_customers l t /\ overdue_customers date_at l' t = overdue_customers date_at l t.
Proof.
  intros [= E1 E2 E3 E4 E5]. unfold over_limit_customers, overdue_customers. rewrite E1, E4, E5. split; [|done].
  f_equal. apply select_ext. intros c _. unfold over_limit, ar_sum, auth_held. simpl. by rewrite E2, E3.
Qed.
Lemma raise_view t c ty sv d : keeps scan_view (RaiseAlert t c ty sv d).
Proof. intros l b l' H. unfold RaiseAlert in H. tx_steps H; subst; by injection E as <- <-. Qed.

Lemma raise_all_effect t ty sv d cs : forall l n l',
  raise_all t ty sv d cs l = Ok (n, l') ->
  (forall c, In c cs -> exists_where (standing_alert t c ty) (fl_alerts l') = true)
  /\ (forall t' c' ty', exists_where (standing_alert t' c' ty') (fl_alerts l) = true ->
        exists_where (standing_alert t' c' ty') (fl_alerts l') = true)
  /\ scan_view l' = scan_view l.
Proof.
  induction cs as [|c cs IH]; intros l n l' H; cbn [raise_all] in H; [by injection H as <- <-|].
  apply tbind_ok in H as (b & l1 & H1 & H). apply tbind_ok in H as (m & l2 & H2 & [= <- <-]).
  pose proof (raise_view _ _ _ _ _ _ _ _ H1) as Hv. apply raise_effect in H1 as (R1 & R2 & _).
  apply IH in H2 as (I1 & I2 & I3). split_and!; [|auto|congruence]. intros x [<-|Hx]; auto.
Qed.
Lemma raise_all_again t ty sv d cs : forall l,
  severity_word (word_or sv "medium") = true ->
  (forall c, In c cs -> exists_where (standing_alert t c ty) (fl_alerts l) = true) ->
  exists l', raise_all t ty sv d cs l = Ok (0%nat, l') /\ fl_alerts l' = fl_alerts l /\ scan_view l' = scan_view l.
Proof.
  induction cs as [|c cs IH]; intros l Hs Hall; cbn [raise_all]; [by exists l|].
  assert (H1 : RaiseAlert t c ty sv d l = Ok (false, fput_fin (bump_fin (fl_fin l)) l)).
  { unfold RaiseAlert, tbind, fl_fresh, tget, tguard. rewrite Hs. simpl. by rewrite (Hall c (or_introl eq_refl)). }
  unfold tbind at 1. rewrite H1. destruct (IH (fput_fin (bump_fin (fl_fin l)) l)) as (l' & E & Ea & Ev); [done|intros; by apply Hall; right|].
  exists l'. unfold tbind. rewrite E. done.
Qed.

(** A scan leaves a standing alert of its type for every customer over the limit and
    every customer with an invoice past due, and a second scan finds nothing new. *)
Theorem scan_settles t l n l' :
  ScanCreditAlerts date_at t l = Ok (n, l') ->
  (forall c, In c (over_limit_customers l t) -> exists_where (standing_alert t c "over_limit") (fl_alerts l') = true)
  /\ (forall c, In c (overdue_customers date_at l t) -> exists_where (standing_alert t c "overdue") (fl_alerts l') = true)
  /\ exists l'', ScanCreditAlerts date_at t l' = Ok (0%nat, l'') /\ fl_alerts l'' = fl_alerts l'.
Proof.
  intros H. unfold ScanCreditAlerts in H. apply tbind_get_ok, tbind_ok in H as (a & l1 & H1 & H).
  apply tbind_get_ok, tbind_ok in H as (b & l2 & H2 & [= <- <-]).
  apply raise_all_effect in H1 as (A1 & _ & V1). apply raise_all_effect in H2 as (B1 & B2 & V2).
  destruct (scan_same l l1 t V1) as [O1 D1]. destruct (scan_same l1 l2 t V2) as [O2 D2]. rewrite D1 in B1.
  split_and!; [auto|done|].
  destruct (raise_all_again t "over_limit" "high" "exposure exceeds credit limit" (over_limit_customers l2 t) l2) as (l3 & R1 & E1 & V3);
    [done|rewrite O2, O1; auto|].
  destruct (scan_same l2 l3 t V3) as [_ D3].
  destruct (raise_all_again t "overdue" "medium" "has past-due invoices" (overdue_customers date_at l3 t) l3) as (l4 & R2 & E2 & _);
    [done|rewrite D3, D2, D1, E1; auto|].
  exists l4. split; [|congruence]. unfold ScanCreditAlerts, tbind, tget. rewrite R1, R2. done.
Qed.
End Books.

(** ** Tokens and PINs *)

(** A token that was just issued is recognized as the credential issued, of its
    customer, and usable until its expiry date begins. *)
Theorem issued_token_recognized (h : Argon) us date_at t i l c l' :
  IssueCredential h us date_at t i l = Ok (c, l') ->
  exists k x l'', ValidateCredential h us t (di_token i) l' = Ok (x, l'') /\ cc_credential x = c
    /\ In k (fn_customers (fl_fin l)) /\ cu_id k = di_customer i /\ cu_tenant k = t /\ cc_customer x = cu_name k
    /\ (cc_usable x = true <-> forall d, di_expiry i = Some d -> fl_now l <= d * Calendar.day).
Proof.
  intros H. unfold IssueCredential in H. tx_steps H. subst. injection E0 as <- <-. simpl in *.
  repeat (apply andb_true_iff in E2 as [E2 ?]). unfold fl_customer, fk_customer in E2.
  apply exists_where_true in E2 as (y & Hy & Hq%bool_decide_eq_true). destruct Hq as [Yt Yi]. apply negb_true_iff in E1.
  unfold ValidateCredential, tbind at 1, tget. simpl. rewrite select_app, select_cons.
  rewrite (select_none _ (fl_credentials l)) by (rewrite exists_where_false in E1; exact E1).
  unfold cd_token at 1. simpl. rewrite bool_decide_eq_true_2 by done. unfold join. simpl.
  destruct (select _ (fn_customers (fl_fin l))) as [|k ks] eqn:Es.
  { assert (Hin : In y []) by (rewrite <- Es; apply in_select; split; [done|by apply bool_decide_eq_true]). done. }
  assert (Hk : In k (k :: ks)) by by left. rewrite <- Es in Hk. apply in_select in Hk as [Hk Hkk%bool_decide_eq_true].
  destruct Hkk as [Ki Kt]. simpl.
  set (expired := match di_expiry i with Some d => d * Calendar.day <? fl_now l | None => false end).
  assert (Hu : negb expired = true <-> forall d, di_expiry i = Some d -> fl_now l <= d * Calendar.day).
  { subst expired. rewrite negb_true_iff. destruct (di_expiry i) as [d|]; [|done]. rewrite Z.ltb_ge. split; [by intros ? ? [= <-]|auto]. }
  change (fl_now (fput_credentials _ _)) with (fl_now l). fold expired. unfold tbind. destruct expired; simpl;
    (do 3 eexists; split_and!; [reflexivity|done|exact Hk|done|done|done|exact Hu]).
Qed.

(** The PIN that was set is the one that verifies. *)
Theorem reset_pin_verifies (h : Argon) salt t id pin l u l' :
  argon_ok h salt -> pin <> ""%string -> ResetDriverPIN h salt t id pin l = Ok (u, l') ->
  VerifyDriverPIN h l' t id pin = Ok true.
Proof.
  intros Ha Hp H. unfold ResetDriverPIN, pin_hash in H. rewrite bool_decide_eq_false_2 in H by done. tx_steps H. subst.
  destruct (Hash h salt pin) as [e|] eqn:Eh; [|done]. injection E as <-. injection H as <- <-. unfold VerifyDriverPIN. simpl.
  apply exists_where_true in E0 as (d & Hd & Hq).
  destruct (first_where (dr_by_id t id) (fl_drivers l)) as [d0|] eqn:Ef; [|by rewrite (first_where_none _ _ _ Ef Hd) in Hq].
  pose proof Ef as [_ Hq0]%first_where_some. rewrite (first_where_update _ _ _ _ d0 Ef Hq0); [|done|exact Hq0].
  simpl. by rewrite (argon_verify_own h salt pin e Ha Eh).
Qed.

(** ** Samples *)

Definition utc_date (t : Z) : Z := t / Calendar.day.
Definition utc_midnight (d : Z) : Z := d * Calendar.day.
Definition noon : Z := 738000 * Calendar.day + 12 * Calendar.hour.
Definition no_policy : PolicyDb := mkPolicyDb [] [] [] [] [].
Definition fleet_customer (id : uuid) (st : customer_status) : Customer :=
  mkCustomer id 1 "FL" "Fleet" None None None 100000 st None None None None "standard" 0 None 0.
Definition depot : Flt :=
  mkFlt (mkFin (mkBooks [] [] [] [] [(1, 2)]%N [(1, 5)]%N 100 1 0) [fleet_customer 10 CuActive; fleet_customer 11 CuDeleted]
           [] [] [] [] [] [] [] [] [] [] [] [] 200 noon)
    [] [(1, 7)]%N [] [] [] [] [] [] [] [] [] [] [] [].
Definition dispatcher : option Actor := Some (mkActor 2 1 3 false).
Definition fuel_for (customer : uuid) (credential : option uuid) (amount : Z) : result unit authorizationRequest :=
  Ok (mkAuthorizationRequest (mkAuthRequest customer None None credential 5 None (Some (Dec amount 2)) None "") false).

Definition demo_serve := fleet_serve no_policy utc_date utc_midnight (demo_hasher DefaultParams) (fun _ => ""%string).
Definition demo_step := fleet_step no_policy utc_date utc_midnight (demo_hasher DefaultParams) (fun _ => ""%string).
Definition after_req (r : fleet_req) (l : Flt) : Flt := match demo_serve r l with Ok (_, l') => l' | Err _ => l end.
Definition commits (r : fleet_req) (l : Flt) : bool := match demo_serve r l with Ok _ => true | Err _ => false end.
Lemma demo_ran strict r l : (strict = true -> plain r) -> commits r l = true -> demo_step strict l (after_req r l).
Proof.
  unfold commits, after_req. intros Hp Hc. destruct (demo_serve r l) as [[[] l']|] eqn:E; [|done].
  eapply fstep_serve; [exact Hp|exact E].
Qed.

Definition day_limit : fleet_req := RqLimit dispatcher (Ok (mkLimitRequest (Some 10%N) None None "" "day" (Some (Ok (Dec 60000 2))) None)).
Definition limited : Flt := after_req day_limit depot.
Definition first_hold : fleet_req := RqAuthorize dispatcher (fuel_for 10 None 40000).
Definition held : Flt := after_req first_hold limited.
Definition day_sale : Flt := sold (1, 90)%N held.
Definition consumed : Flt := after_req (RqFulfill dispatcher (Ok 201%N) (Ok 90%N)) day_sale.
Definition pump_charge : fleet_req := RqCharge 1 10 (Dec 50000 2) None None 2 None false.
Definition charged : Flt := after_req pump_charge consumed.
Definition second_hold : fleet_req := RqAuthorize dispatcher (fuel_for 10 None 10000).
Definition held_again : Flt := after_req second_hold charged.

(** The hold is consumed, the day's limit still counts it, and the charge and the
    second hold share the line. *)
Example demo_statuses : az_status <$> fl_auths held_again = [AuFulfilled; AuApproved].
Proof. vm_compute. reflexivity. Qed.
Example demo_exposure : exposure (fin_view held_again) 1 10 = 60000.
Proof. vm_compute. reflexivity. Qed.
Example day_limit_counts : de_code <$> fl_denials (after_req (RqAuthorize dispatcher (fuel_for 10 None 10001)) held_again) = ["daily_limit"%string].
Proof. vm_compute. reflexivity. Qed.
Example line_full : de_code <$> fl_denials (after_req (RqAuthorize dispatcher (fuel_for 10 None 40001)) held_again) = ["insufficient_credit"%string].
Proof. vm_compute. reflexivity. Qed.

Lemma demo_run strict : rtc (demo_step strict) depot held_again.
Proof.
  apply rtc_l with limited; [apply demo_ran; [done|vm_compute; reflexivity]|].
  apply rtc_l with held; [apply demo_ran; [by intros _ q [= <-]|vm_compute; reflexivity]|].
  apply rtc_l with day_sale; [by eapply fstep_sale|].
  apply rtc_l with consumed; [apply demo_ran; [done|vm_compute; reflexivity]|].
  apply rtc_l with charged; [apply demo_ran; [done|vm_compute; reflexivity]|].
  apply rtc_once. apply demo_ran; [by intros _ q [= <-]|vm_compute; reflexivity].
Qed.
Lemma depot_opening : fleet_opening depot.
Proof.
  split; [done|]. split.
  - change (NoDup [10%N; 11%N]). repeat constructor; rewrite list_elem_of_In; simpl; lia || (intros [H|[]]; discriminate H).
  - intros c [<-|[<-|[]]]; unfold fl_next; simpl; lia.
Qed.


Lemma sales_consumed_once_witness :
  exists a, In a (fl_auths held_again) /\ az_consumed a = Some 90%N /\ In (az_tenant a, 90%N) (fl_sales held_again)
    /\ az_status a = AuFulfilled.
Proof.
  destruct (sales_consumed_once no_policy utc_date utc_midnight (demo_hasher DefaultParams) (fun _ => ""%string)
    depot held_again held_again eq_refl (demo_run false) (rtc_refl _ _)) as (H & _).
  assert (E : exists a r, fl_auths held_again = a :: r /\ az_consumed a = Some 90%N)
    by (vm_compute; do 2 eexists; split; reflexivity).
  destruct E as (a & r & E & Ec). rewrite E in *. exists a. destruct (H a (or_introl eq_refl)) as [Hs Hi].
  split_and!; [by left|done|by apply Hi|apply Hs; eauto].
Defined.

Lemma credit_line_held_witness : exposure (fin_view held_again) 1 10 <= 100000.
Proof.
  apply (credit_line_held no_policy utc_date utc_midnight (demo_hasher DefaultParams) (fun _ => ""%string)
    depot depot held_again 1 10 100000 depot_opening (rtc_refl _ _)).
  - left. reflexivity.
  - vm_compute. discriminate.
  - apply demo_run.
Defined.

Lemma first_hold_granted :
  exists a l', handleRequestAuthorization no_policy utc_date utc_midnight dispatcher (fuel_for 10 None 40000) limited = Ok (inl a, l').
Proof.
  destruct (handleRequestAuthorization no_policy utc_date utc_midnight dispatcher (fuel_for 10 None 40000) limited)
    as [[[a|d] l']|e] eqn:E; [eauto|exfalso..];
  apply (f_equal (fun r => match r with Ok (inl _, _) => true | _ => false end)) in E; vm_compute in E; discriminate E.
Qed.
Lemma grant_passed_rules_witness :
  exists a l', az_approved a = 40000
    /\ rules_passed utc_date utc_midnight 1 (mkAuthRequest 10 None None None 5 None (Some (Dec 40000 2)) None "") a limited l'.
Proof.
  destruct first_hold_granted as (a & l' & E). exists a, l'.
  destruct (grant_passed_rules no_policy utc_date utc_midnight dispatcher (fuel_for 10 None 40000) limited a l' E)
    as (x & q & k & [= <-] & [= <-] & [= <-] & _ & _ & _ & _ & _ & Ha & _ & _ & Hr). split; [exact Ha|exact Hr].
Defined.

(** A discount agreed for one product. *)
Definition discounted : fleet_req :=
  RqAgreement 738000 dispatcher (Ok (mkAgreementRequest 10 7 None "discount" None (Some (Ok (Dec 10 2))) None None None)).
Definition drafted : Flt := after_req discounted depot.
Definition agreed : Flt := after_req (RqAgreementStatus ActApprove dispatcher (Ok 200%N)) drafted.
Definition priced : Flt := after_req (RqAgreementStatus ActActivate dispatcher (Ok 200%N)) agreed.
Lemma priced_run : rtc (demo_step false) depot priced.
Proof.
  apply rtc_l with drafted; [apply demo_ran; [done|vm_compute; reflexivity]|].
  apply rtc_l with agreed; [apply demo_ran; [done|vm_compute; reflexivity]|].
  apply rtc_once. apply demo_ran; [done|vm_compute; reflexivity].
Qed.
Lemma priced_row :
  exists a, fl_agreements priced = [a] /\ in_force (utc_date (fl_now priced)) 1 10 7 5 a = true /\ pa_station a = None
    /\ agreed_price a (Dec 3000 2) = Some (Dec 299000 4).
Proof.
  set (a := mkAgreement 200 1 10 7 None PtDiscount None (Some 1000) None 738000 None AgActive 1 (Some 2%N) 2 noon).
  exists a. split; [vm_compute; reflexivity|]. split; [vm_compute; reflexivity|]. split; reflexivity.
Qed.
Lemma one_agreed_price_witness : ResolveCustomerPrice utc_date priced 1 10 7 5 (Dec 3000 2) = Ok (Some (Dec 299000 4)).
Proof.
  destruct priced_row as (a & E & Hf & Hs & Hp).
  destruct (one_agreed_price no_policy utc_date utc_midnight (demo_hasher DefaultParams) (fun _ => ""%string)
    depot priced 1 10 7 5 (Dec 3000 2) eq_refl priced_run) as [H _].
  rewrite (H a ltac:(rewrite E; by left) Hf); [by rewrite Hp|]. right. rewrite E. by intros b [<-|[]] _.
Defined.

(** A deleted customer is granted a hold: the position reads the row whatever its
    status, and only suspended and closed accounts are refused. *)
Example deleted_customer_granted :
  az_status <$> fl_auths (after_req (RqAuthorize dispatcher (fuel_for 11 None 40000)) depot) = [AuApproved].
Proof. vm_compute. reflexivity. Qed.

(** A hold that has expired is fulfilled all the same. *)
Definition two_hours_on : Flt := at_time (noon + 2 * Calendar.hour) day_sale.
Example expired_hold_fulfilled :
  az_expiry <$> fl_auths two_hours_on = [Some (noon + Calendar.hour)]
  /\ az_status <$> fl_auths (after_req (RqFulfill dispatcher (Ok 201%N) (Ok 90%N)) two_hours_on) = [AuFulfilled].
Proof. vm_compute. done. Qed.

(** An expired hold is not in the credit position but still stands in the way of a
    charge, and raises an alert for an exposure that is within the limit. *)
Example expired_hold_blocks_charge :
  ps_available <$> CreditPosition utc_date two_hours_on 1 10 = Some 100000
  /\ commits (RqCharge 1 10 (Dec 70000 2) None None 2 None false) two_hours_on = false.
Proof. vm_compute. done. Qed.
Example expired_hold_alerts :
  let l := after_req (RqCharge 1 10 (Dec 70000 2) None None 2 None true) two_hours_on in
  ps_over <$> CreditPosition utc_date l 1 10 = Some false /\ ca_type <$> fl_alerts (after_req (RqScan dispatcher) l) = ["over_limit"%string].
Proof. vm_compute. done. Qed.

(** A card of another customer, past its expiry date, with a retired vehicle. *)
Definition equipped : Flt :=
  after_req (RqVehicleStatus dispatcher (Ok 201%N) (Ok "retired"%string))
    (after_req (RqVehicle dispatcher (Ok (mkVehicleInput 11 "T 1" None None None None None false)))
       (after_req (RqCredential dispatcher (Ok (mkCredentialRequest 11 None None "" "card-0001" (Some (Ok 737000))))) depot)).
Example other_customers_card_granted :
  let q := mkAuthRequest 10 (Some 201%N) None (Some 200%N) 5 None (Some (Dec 40000 2)) None "" in
  cd_customer <$> fl_credentials equipped = [11%N] /\ vh_status <$> fl_vehicles equipped = [VhRetired]
  /\ az_status <$> fl_auths (after_req (RqAuthorize dispatcher (Ok (mkAuthorizationRequest q false))) equipped) = [AuApproved].
Proof. vm_compute. done. Qed.

(** A fixed agreement without a price can be activated, and then every lookup of the
    price fails instead of falling back to the retail price. *)
Definition unpriced_fixed : Flt :=
  after_req (RqAgreementStatus ActActivate dispatcher (Ok 200%N))
    (after_req (RqAgreementStatus ActApprove dispatcher (Ok 200%N))
       (after_req (RqAgreement 738000 dispatcher (Ok (mkAgreementRequest 10 7 None "" None None None None None))) depot)).
Example fixed_agreement_without_price :
  pa_status <$> fl_agreements unpriced_fixed = [AgActive]
  /\ ResolveCustomerPrice utc_date unpriced_fixed 1 10 7 5 (Dec 3000 2) = Err tt.
Proof. vm_compute. done. Qed.
